(* ===== verification/_CoqProject ===== *)
-Q . S2P
Prelude.v
Cstr.v
Jansson.v
Json.v
Apr.v
StrUtil.v
Http.v
Form.v
Html.v
Base64.v
Jose.v
Jwt.v
Cjose.v
Jwk.v
Jwe.v
JoseLib.v
ShmCache.v
ShmInv.v
ShmSpec.v
ShmRefine.v
ShmInit.v
ShmProps.v
Cache.v
Url.v
Cookie.v
Util.v
HttpClient.v
Pkce.v
Provider.v
Profile.v
Jws.v
World.v
JwtCheck.v
Jwks.v
IdToken.v
IdTokenProps.v
Session.v
SessionAttr.v
SessionProps.v
SessionCookie.v
SessionEnd.v
ProtoState.v
State.v
StateProps.v
StateClean.v
Scrub.v
Authz.v
Redirect.v
AppInfo.v
Files.v
CfgParse.v
ClientAuth.v
ProviderSet.v
ProviderWf.v
Dir.v
Token.v
Config.v
Metadata.v
MetadataConf.v
ProviderLookup.v
Response.v
AuthRequest.v
Userinfo.v
MetadataProps.v
MetadataSpec.v
Request.v
RequestProps.v
Pass.v
Refresh.v
RefreshProps.v
UserinfoHandle.v
Outcome.v
Returns.v
Login.v
LoginProps.v
Logout.v
LogoutProps.v
Discovery.v
DiscoveryProps.v
