(* ===== verification/Prelude.v ===== *)
(** * mod_auth_openidc: a verification development (root file)

    mod_auth_openidc is a module of the Apache HTTP server which makes it a relying party of OpenID Connect and a
    resource server of OAuth 2.0.  This library models its core in Rocq and proves the properties on which its
    security rests.  Definitions keep the names of the C functions they translate.

    ** How the program works

    A request without a session is answered with an authorization request: a proto state (nonce, PKCE verifier,
    issuer, original URL) is put into an encrypted state cookie named after the value of the parameter "state"
    (src/state.c, src/proto/state.c, src/handle/request.c).  The provider's response brings that value back; it is
    matched to the cookie of the same browser (src/handle/response.c), the code is exchanged for tokens over HTTP
    (src/http.c), and the ID token is validated (src/proto/id_token.c, src/proto/jwt.c) with keys from the
    configuration or from the JWKS URI of the provider (src/proto/jwks.c, src/metadata/jwks.c) by the JOSE layer
    (src/jose.c, src/jose/).  A session is then kept in the cache or in the browser (src/session.c).  The cache
    (src/cache/common.c) encrypts what it stores with src/util/jwt.c and stands on a backend, by default the
    shared memory segment of src/cache/shm.c.

    ** The files

    Foundations: [Prelude] (this file: machine integers, association lists, iteration until a result), [Cstr] (C
    strings and the null-safe helpers of src/const.h), [Apr] (APR tables and httpd request records), [StrUtil],
    [Util] (src/util/util.c, src/util/random.c), [Json] (src/json.c), [Base64] (src/util/base64.c), [Url]
    (src/util/url.c), [Form] (forms), [Html] (src/util/html.c), [World] (the state monad of a request: request,
    cache and a counter of the calls to the outside, with [None] for exhausted fuel).

    HTTP: [Http] (URL coding and headers), [Cookie] (plain and chunked cookies, with a model of the browser that
    sends them back), [HttpClient] (outgoing requests), all of src/http.c.

    JOSE: [Jwk] (digests, keys, key sets), [Jwe] (compression and encryption), [Jws] (signed tokens), [JoseLib]
    (these keep the promise that the class [Jose] of [Jose] states and [Jwt], [Cache], [Session] and [State] are
    verified against).

    Cache: [ShmCache] (the segment as a record and its operations), [ShmInv] (the invariant: each slot is on
    exactly one list), [ShmSpec] (the finite map the segment stands for), [ShmRefine], [ShmInit], [ShmProps] (the
    operations refine the map), [Cache] (the front end, against the class [CacheBackend], which the segment
    implements).

    Protocol: [Pkce], [Profile] (src/proto/pkce.c, src/proto/profile.c), [Provider] (the settings,
    src/cfg/provider.c), [JwtCheck], [Jwks], [IdToken], [IdTokenProps], [ProtoState], [State], [StateProps],
    [StateClean], [ClientAuth] (authentication of the client and DPoP proofs: src/proto/auth.c, src/proto/dpop.c), [Token]
    (the token endpoint, src/proto/token.c), [Response] (the response flows, src/proto/response.c), [Session], [SessionAttr], [SessionProps], [SessionCookie], [SessionEnd],
    [Userinfo] (the userinfo endpoint, src/proto/userinfo.c).

    Authorization requests: [AuthRequest] (parameters, request objects and pushed requests: src/proto/request.c,
    src/proto/request_object.c), [Request] (src/handle/request.c: the state, its cookie and sending the user away) and
    [RequestProps] (what such a request carries).

    Requests: [Scrub] (headers and cookies that must not reach the application), [Redirect] (the URLs a user may be
    sent to), [ProviderLookup] (the provider of a request), [Pass] (requests without a session, what a session gives to the
    application), all of src/mod_auth_openidc.c.

    Logging in: [Outcome] (a triple for computations of [World]), [Returns] (which computations return), [Login]
    (src/handle/response.c, and the name of the user) and [LoginProps] (whose session it is).

    Choosing a provider: [Discovery] (src/handle/discovery.c, src/proto/discovery.c) and [DiscoveryProps] (where a login may end).

    Logging out: [Logout] (src/handle/logout.c, src/handle/revoke.c) and [LogoutProps] (which sessions end, and for whom).

    Sessions at work: [Refresh] and [RefreshProps] (refresh tokens shared by workers: src/handle/refresh.c),
    [UserinfoHandle] (the claims of a session: src/handle/userinfo.c).

    Settings: [ProviderSet] (the setters of src/cfg/provider.c), [ProviderWf] (they keep the settings well-formed),
    [Config] (the configuration record), [Files] (src/util/file.c), [Metadata] and [MetadataConf] (src/metadata.c and
    src/metadata/: the documents of providers, registrations and the administrator), [MetadataProps], [MetadataSpec], [Dir] (the
    settings of a directory, src/cfg/dir.c).  [AppInfo] passes claims to the application (src/util/appinfo.c).

    Authorization: [Authz] (src/handle/authz.c: Require directives against the claims).  Configuration: [CfgParse]
    (src/cfg/parse.c: the values of directives).

    ** How the code is modelled

    A [const char *] that may be [NULL] is an [option string], an integer a [Z] whose wrap-around is written out
    where it can occur, a table a list of pairs, a hash table a [gmap], a struct a record and a table of function
    pointers a record of functions.  A function that fails returns [None] or [false] as the code returns [NULL] or
    [FALSE]; messages that are only logged are left out.  A function that touches the outside is a computation of
    the monad [M] of [World]: the clock, the locks of the cache and the network are the arguments [ext] and [net],
    indexed by the number of calls made so far, so that a theorem holds for every behaviour of the outside that
    it does not exclude.

    Third-party code is a parameter, given as a class with its operations, and what the code relies on as a
    class of laws: jansson ([Jansson], [JanssonSpec]), cjose, OpenSSL digests and zlib ([Cjose]), the base64 codec
    and the tokenizers of APR and httpd ([Base64], [Httpd]), [CRYPTO_memcmp].  Each has a concrete instance for
    the witnesses, which evaluate the definitions on concrete inputs, and proofs that it obeys its laws.

    ** Fuel

    Loops over strings and lists are structural.  The iterations that are not run with [until] of this file, 2 to
    the 32 steps at most, and are proved to end before ([until_measure]); tokenizing a header takes one step for
    each character and one more.  [jwks_uri_keys_go] has fuel 2, for the code calls itself once at most.

    ** What the theorems show

    ID tokens: what an accepted token guarantees, that it is not accepted twice, its audience and hashes.
    Signatures: only trusted keys of the right type count.  Keys: signed key sets are verified, forced refreshes
    are recorded and limited.  Authorization requests: what is sent belongs
    to the state that the browser keeps, and parameters of a request cannot replace it.  State: a response is accepted only from the browser that made the request, and in time; cookies
    are cleaned up.  Responses: the six flows accept only what was asked for, and strip what only the token endpoint may
    give; requests of the client are authenticated with the configured method alone, and its proofs and assertions
    are verified by its public key.  Logging in: a session is fresh and belongs to the user of an accepted ID token.  Sessions: saving and loading are inverse, in the cache and in cookies; expired, corrupted and
    incompatible sessions end, in the cache and in the cookies of the browser; logging in starts afresh.  Cache: the shared memory refines a map, its invariant
    holds in every reachable state, initialisation and diagnosis terminate, the layout fits; the front end gives
    back what was stored, also after a change of the passphrase.  Encodings: round trips of URL coding, base64,
    cookies, compression, encrypted and signed tokens; escaping is safe.  HTTP: retries end, the options of a
    request cannot be weakened from the environment.  Settings: merging, what FAPI 2.0 enforces, and parsing of
    numbers and keys; documents of other parties cannot make settings ill-formed or speak for another issuer.  Requests: no header under the reserved prefixes reaches the application, redirections
    stay on agreed hosts.
    Discovery: an answer cannot send the user elsewhere.  Logout: only an authentic logout token ends a session, and only once.
    Refreshing: waiting for another worker is bounded, one request serves all workers, and the session keeps its subject.
    Authorization: matching decides the relation that defines it.

    ** Not modelled

    The table of directives and the hooks of httpd (src/mod_auth_openidc.c, src/cfg/cmds.c) are registration of the
    functions above.  Clients of file, memcache and Redis caches, jq, PCRE, reading of keys and certificates in
    PEM files, and metrics are input and output or wrappers of libraries.  Reference counts and pools have no
    counterpart, for values are immutable and never freed.  Brotli is left out: the build is the one with zlib.
    The resource server of OAuth 2.0 (src/oauth.c, src/metadata/oauth.c) and the remaining request handlers of src/handle/ (content.c, dpop.c, info.c,
    jwks.c, request_uri.c, session_management.c) are not modelled. *)

From stdpp Require Export base tactics numbers list strings gmap fin_maps pretty.
From Stdlib Require Export ZArith Lia Ascii.

(** ** Notations *)

Declare Scope oidc_scope.
Delimit Scope oidc_scope with oidc.
Bind Scope oidc_scope with string.

(** Concatenation of C strings: [apr_pstrcat], [apr_psprintf] with ["%s"]. *)
Notation "a ^^ b" := (String.append a b) (at level 58, right associativity) : oidc_scope.

#[export] Set Warnings "-clear-no-such-hyp".
#[global] Arguments String.append !s1 s2 / : simpl nomatch.
#[global] Open Scope Z_scope.
#[global] Open Scope oidc_scope.

(** ** Machine integers *)

Definition INT_MAX : Z := 2147483647.
Definition INT_MIN : Z := -2147483648.
Definition INT64_MAX : Z := 9223372036854775807.
Definition INT64_MIN : Z := -9223372036854775808.
Definition UINT32_MAX : Z := 4294967295.

(** Two's complement wrap-around of a mathematical integer to [w] bits. *)
Definition unsigned_wrap (w z : Z) : Z := z mod 2 ^ w.
Definition signed_wrap (w z : Z) : Z := (z + 2 ^ (w - 1)) mod 2 ^ w - 2 ^ (w - 1).

Definition u32 (z : Z) : Z := unsigned_wrap 32 z.
Definition u64 (z : Z) : Z := unsigned_wrap 64 z.
Definition i32 (z : Z) : Z := signed_wrap 32 z.
Definition i64 (z : Z) : Z := signed_wrap 64 z.

Lemma u32_range z : 0 <= u32 z < 2 ^ 32.
Proof. apply Z.mod_pos_bound. lia. Qed.

Lemma u64_range z : 0 <= u64 z < 2 ^ 64.
Proof. apply Z.mod_pos_bound. lia. Qed.

Lemma u32_small z : 0 <= z < 2 ^ 32 -> u32 z = z.
Proof. apply Z.mod_small. Qed.

Lemma u64_small z : 0 <= z < 2 ^ 64 -> u64 z = z.
Proof. apply Z.mod_small. Qed.

Lemma i64_range z : INT64_MIN <= i64 z <= INT64_MAX.
Proof.
  unfold i64, signed_wrap, INT64_MIN, INT64_MAX.
  pose proof (Z.mod_pos_bound (z + 2 ^ (64 - 1)) (2 ^ 64)). lia.
Qed.

Lemma i64_small z : INT64_MIN <= z <= INT64_MAX -> i64 z = z.
Proof.
  unfold i64, signed_wrap, INT64_MIN, INT64_MAX. intros ?.
  rewrite Z.mod_small; lia.
Qed.

Create HintDb oidc.
Create Rewrite HintDb oidc_rw.
#[export] Hint Rewrite u32_small u64_small i64_small using lia : oidc_rw.

(** ** Tactics *)

(** Split a conjunction of boolean tests in the context into its conjuncts. *)
Ltac bool_hyps :=
  repeat match goal with
  | H : (_ && _)%bool = true |- _ => apply andb_true_iff in H; destruct H
  | H : (_ || _)%bool = false |- _ => apply orb_false_iff in H; destruct H
  | H : negb _ = true |- _ => apply negb_true_iff in H
  | H : negb _ = false |- _ => apply negb_false_iff in H
  end.

(** Case analysis on every scrutinee of a [match] or [if], closing trivial cases. *)
Ltac split_match :=
  repeat (case_match; simplify_eq/=; try done).

(** ** Options standing for nullable pointers *)

(** The boolean [p != NULL]. *)
Definition nonnull {A} (p : option A) : bool :=
  match p with Some _ => true | None => false end.

Lemma nonnull_true {A} (p : option A) : nonnull p = true <-> is_Some p.
Proof. destruct p; simpl; split; intros; eauto; [done | by destruct H]. Qed.

Lemma nonnull_false {A} (p : option A) : nonnull p = false <-> p = None.
Proof. destruct p; simpl; split; done. Qed.

(** ** Association lists with unique keys, in insertion order *)

Section alist.
Context {A : Type}.
Implicit Types (l : list (string * A)) (k : string) (v : A).

Fixpoint alist_get k l : option A :=
  match l with
  | [] => None
  | (k', v) :: l' => if String.eqb k k' then Some v else alist_get k l'
  end.

Fixpoint alist_set k v l : list (string * A) :=
  match l with
  | [] => [(k, v)]
  | (k', v') :: l' =>
      if String.eqb k k' then (k', v) :: l' else (k', v') :: alist_set k v l'
  end.

Fixpoint alist_del k l : list (string * A) :=
  match l with
  | [] => []
  | (k', v') :: l' =>
      if String.eqb k k' then alist_del k l' else (k', v') :: alist_del k l'
  end.

Lemma alist_get_set_eq k v l : alist_get k (alist_set k v l) = Some v.
Proof.
  induction l as [|[k' v'] l IH]; simpl; [by rewrite String.eqb_refl|].
  destruct (String.eqb k k') eqn:E; simpl; by rewrite E.
Qed.

Lemma alist_get_set_ne k k' v l :
  k <> k' -> alist_get k' (alist_set k v l) = alist_get k' l.
Proof.
  intros Hne. induction l as [|[k0 v0] l IH]; simpl.
  - destruct (String.eqb_spec k' k); congruence.
  - destruct (String.eqb_spec k k0) as [->|]; simpl.
    + destruct (String.eqb_spec k' k0); congruence.
    + by rewrite IH.
Qed.

Lemma alist_get_del_eq k l : alist_get k (alist_del k l) = None.
Proof.
  induction l as [|[k' v'] l IH]; simpl; [done|].
  destruct (String.eqb k k') eqn:E; simpl; [done|by rewrite E].
Qed.

Lemma alist_get_del_ne k k' l :
  k <> k' -> alist_get k' (alist_del k l) = alist_get k' l.
Proof.
  intros Hne. induction l as [|[k0 v0] l IH]; simpl; [done|].
  destruct (String.eqb_spec k k0) as [->|]; simpl.
  - destruct (String.eqb_spec k' k0); congruence.
  - by rewrite IH.
Qed.

Lemma alist_get_In k v l : alist_get k l = Some v -> In (k, v) l.
Proof.
  induction l as [|[k' v'] l IH]; simpl; [done|].
  destruct (String.eqb_spec k k') as [->|]; intros; simplify_eq; auto.
Qed.

Lemma alist_get_None k l : alist_get k l = None <-> ~ In k (map fst l).
Proof.
  induction l as [|[k' v'] l IH]; simpl; [tauto|].
  destruct (String.eqb_spec k k') as [->|]; simpl; [|naive_solver].
  split; [done|]. intros []. by left.
Qed.

Lemma alist_get_NoDup k v l :
  NoDup (map fst l) -> In (k, v) l -> alist_get k l = Some v.
Proof.
  induction l as [|[k' v'] l IH]; simpl; [done|].
  rewrite NoDup_cons. intros [Hn Hd] [?|Hin]; simplify_eq.
  - by rewrite String.eqb_refl.
  - destruct (String.eqb_spec k k') as [->|]; [|by apply IH].
    exfalso. apply Hn, list_elem_of_In, in_map_iff. by exists (k', v).
Qed.

Lemma in_alist_del k k' v l :
  In (k', v) (alist_del k l) <-> In (k', v) l /\ k <> k'.
Proof.
  induction l as [|[k0 v0] l IH]; simpl; [tauto|].
  destruct (String.eqb_spec k k0) as [->|]; simpl; rewrite IH; naive_solver.
Qed.

Lemma alist_del_NoDup k l :
  NoDup (map fst l) -> NoDup (map fst (alist_del k l)).
Proof.
  induction l as [|[k0 v0] l IH]; simpl; [done|]. rewrite NoDup_cons. intros [Hn Hd].
  destruct (String.eqb k k0); simpl; [by apply IH|]. constructor; [|by apply IH].
  intros Hin. apply Hn. apply list_elem_of_In, in_map_iff in Hin as [[k1 v1] [<- Hin]].
  apply in_alist_del in Hin as [Hin _]. apply list_elem_of_In, in_map_iff. by exists (k1, v1).
Qed.

Lemma alist_set_fst k v l k' :
  In k' (map fst (alist_set k v l)) <-> k' = k \/ In k' (map fst l).
Proof.
  induction l as [|[k0 v0] l IH]; simpl; [naive_solver|].
  destruct (String.eqb_spec k k0) as [->|]; simpl; [naive_solver|]. rewrite IH. naive_solver.
Qed.

Lemma alist_set_NoDup k v l :
  NoDup (map fst l) -> NoDup (map fst (alist_set k v l)).
Proof.
  induction l as [|[k0 v0] l IH]; simpl.
  - intros _. apply NoDup_singleton.
  - rewrite NoDup_cons. intros [Hn Hd].
    destruct (String.eqb_spec k k0) as [->|Hne]; simpl; [by constructor|].
    constructor; [|by apply IH]. rewrite list_elem_of_In, alist_set_fst.
    rewrite list_elem_of_In in Hn. naive_solver.
Qed.

Lemma in_alist_set k v l k' v' :
  In (k', v') (alist_set k v l) -> k' = k \/ In (k', v') l.
Proof.
  induction l as [|[k0 v0] l IH]; simpl; [naive_solver|].
  destruct (String.eqb_spec k k0) as [->|]; simpl; naive_solver.
Qed.
End alist.

(** ** Loops

    [until n f s] repeats the body [f] at most 2^n times, until it breaks with a
    result: the fuel is logarithmic, so a loop that is bounded by machine integers
    still evaluates. *)

Section until.
Context {S R : Type}.
Implicit Types (f : S -> S + R) (s : S) (inv : S -> Prop).

Fixpoint until (n : nat) f s : S + R :=
  match n with
  | O => f s
  | Datatypes.S n => match until n f s with inl s' => until n f s' | inr r => inr r end
  end.

(** The last iteration. *)
Lemma until_result inv f n s r : (forall s s', inv s -> f s = inl s' -> inv s') -> inv s ->
  (until n f s = inr r -> exists s', inv s' /\ f s' = inr r) /\
  (forall s', until n f s = inl s' -> inv s').
Proof.
  intros Hf. revert s. induction n as [|n IH]; intros s Hs; cbn [until]; [split; eauto|].
  destruct (IH s Hs) as [IH1 IH2]. destruct (until n f s) as [s1|r1]; [|by split; intros; [apply IH1|]].
  apply IH, IH2. done.
Qed.

(** A measure that decreases bounds the iterations. *)
Lemma until_measure inv (m : S -> Z) f n s :
  (forall s s', inv s -> f s = inl s' -> inv s' /\ 0 <= m s' < m s) -> inv s -> m s < 2 ^ Z.of_nat n ->
  exists r, until n f s = inr r.
Proof.
  intros Hf Hs Hm.
  assert (Hdec : forall n s s', inv s -> until n f s = inl s' -> inv s' /\ 0 <= m s' /\ m s' + 2 ^ Z.of_nat n <= m s).
  { clear n s Hs Hm. intros n. induction n as [|n IH]; intros s s' Hs; cbn [until].
    - intros E. destruct (Hf s s' Hs E). change (2 ^ Z.of_nat 0) with 1. split; [done|lia].
    - destruct (until n f s) as [s1|] eqn:E1; [|done]. intros E2.
      destruct (IH s s1 Hs E1) as (H1 & H2 & H3). destruct (IH s1 s' H1 E2) as (H4 & H5 & H6).
      rewrite Nat2Z.inj_succ, Z.pow_succ_r by lia. split; [done|lia]. }
  destruct (until n f s) as [s'|r] eqn:E; [|by exists r].
  destruct (Hdec n s s' Hs E) as (_ & H1 & H2). lia.
Qed.
End until.
