(* ===== verification/Cstr.v ===== *)
(** * C strings and the null-safe wrappers of src/const.h

    A [const char *] that may be [NULL] is an [option string]; a string is the
    bytes before the terminating NUL.  A pointer into the middle of a string is
    the suffix it points to, or the offset of that suffix. *)

From S2P Require Import Prelude.

Definition code (c : ascii) : Z := Z.of_N (N_of_ascii c).

Lemma code_inj c d : code c = code d -> c = d.
Proof.
  unfold code. intros H. apply N2Z.inj in H.
  rewrite <-(ascii_N_embedding c), <-(ascii_N_embedding d). congruence.
Qed.

(** A double quote. *)
Definition DQ : string := String (ascii_of_nat 34) EmptyString.

Definition zlen (s : string) : Z := Z.of_nat (String.length s).

(** ** The C standard library on non-null strings *)

Fixpoint strcmp (a b : string) : Z :=
  match a, b with
  | "", "" => 0
  | "", String _ _ => -1
  | String _ _, "" => 1
  | String c a', String d b' =>
      if Ascii.eqb c d then strcmp a' b' else code c - code d
  end.

Fixpoint strncmp (n : nat) (a b : string) : Z :=
  match n, a, b with
  | O, _, _ => 0
  | S _, "", "" => 0
  | S _, "", String _ _ => -1
  | S _, String _ _, "" => 1
  | S n', String c a', String d b' =>
      if Ascii.eqb c d then strncmp n' a' b' else code c - code d
  end.

(** [p] is a prefix of [s]. *)
Fixpoint str_prefix (p s : string) : bool :=
  match p, s with
  | "", _ => true
  | String c p', String d s' => Ascii.eqb c d && str_prefix p' s'
  | String _ _, "" => false
  end.

(** The offset of the first occurrence of [n] in [h]; [None] is [NULL]. *)
Fixpoint strstr (h n : string) : option nat :=
  if str_prefix n h then Some O
  else match h with
       | "" => None
       | String _ h' => S <$> strstr h' n
       end.

(** The suffix that starts at the first occurrence of [c]. *)
Fixpoint strchr (s : string) (c : ascii) : option string :=
  match s with
  | "" => None
  | String d s' => if Ascii.eqb d c then Some s else strchr s' c
  end.

(** The prefix before the first occurrence of [c] (the whole string when there is none):
    what remains of the buffer after [*strchr(s, c) = '\0']. *)
Fixpoint str_before (s : string) (c : ascii) : string :=
  match s with
  | "" => ""
  | String d s' => if Ascii.eqb d c then "" else String d (str_before s' c)
  end.

(** The C string at the start of a buffer: the bytes before a NUL ([apr_pstrndup]). *)
Fixpoint cstr (s : string) : string :=
  match s with
  | "" => ""
  | String c s' => if code c =? 0 then "" else String c (cstr s')
  end.

(** The suffix at an offset: pointer addition. *)
Fixpoint str_drop (n : nat) (s : string) : string :=
  match n, s with
  | O, _ => s
  | S n', String _ s' => str_drop n' s'
  | S _, "" => ""
  end.

Fixpoint str_take (n : nat) (s : string) : string :=
  match n, s with
  | O, _ => ""
  | S n', String c s' => String c (str_take n' s')
  | S _, "" => ""
  end.

Definition isspace (c : ascii) : bool :=
  let n := code c in ((9 <=? n) && (n <=? 13)) || (n =? 32).
Definition isdigit (c : ascii) : bool := (48 <=? code c) && (code c <=? 57).
Definition isupper (c : ascii) : bool := (65 <=? code c) && (code c <=? 90).
Definition islower (c : ascii) : bool := (97 <=? code c) && (code c <=? 122).
Definition isalnum (c : ascii) : bool := isdigit c || isupper c || islower c.
Definition tolower (c : ascii) : ascii :=
  if isupper c then ascii_of_N (N_of_ascii c + 32) else c.
Definition toupper (c : ascii) : ascii :=
  if islower c then ascii_of_N (N_of_ascii c - 32) else c.

Fixpoint str_map (f : ascii -> ascii) (s : string) : string :=
  match s with
  | "" => ""
  | String c s' => String (f c) (str_map f s')
  end.

Fixpoint str_mem (c : ascii) (s : string) : bool :=
  match s with
  | "" => false
  | String d s' => Ascii.eqb c d || str_mem c s'
  end.

(** [strtok_r] until it returns [NULL], with one delimiter string: the maximal
    runs of non-delimiter characters, in order; [cur] is the run read so far. *)
Fixpoint tokens_go (delims : string) (cur : string) (s : string) : list string :=
  match s with
  | "" => if String.eqb cur "" then [] else [cur]
  | String c s' =>
      if str_mem c delims
      then (if String.eqb cur "" then [] else [cur]) ++ tokens_go delims "" s'
      else tokens_go delims (cur ^^ String c "") s'
  end.
Definition strtok_all (delims : string) (s : string) : list string := tokens_go delims "" s.

(** *** [strtol] in base 10

    Returns the value, the unparsed rest and whether [errno] is [ERANGE]; no
    digits gives 0 with the rest equal to the input ([endptr == nptr]). *)
Definition LONG_MAX : Z := INT64_MAX.
Definition LONG_MIN : Z := INT64_MIN.

Fixpoint skip_space (s : string) : string :=
  match s with
  | String c s' => if isspace c then skip_space s' else s
  | "" => ""
  end.

Fixpoint digits_go (acc : Z) (s : string) : Z * string :=
  match s with
  | String c s' => if isdigit c then digits_go (10 * acc + (code c - 48)) s' else (acc, s)
  | "" => (acc, "")
  end.

Definition strtol (s : string) : Z * string * bool :=
  let s1 := skip_space s in
  let '(neg, s2) :=
    match s1 with
    | String "-"%char r => (true, r)
    | String "+"%char r => (false, r)
    | _ => (false, s1)
    end%char in
  match s2 with
  | String c _ =>
      if isdigit c then
        let '(m, rest) := digits_go 0 s2 in
        let v := if neg then - m else m in
        if LONG_MAX <? v then (LONG_MAX, rest, true)
        else if v <? LONG_MIN then (LONG_MIN, rest, true)
        else (v, rest, false)
      else (0, s, false)
  | "" => (0, s, false)
  end.

(** ** The wrappers of src/const.h *)

Definition _oidc_strlen (s : option string) : Z :=
  match s with Some s => zlen s | None => 0 end.

Definition _oidc_strcmp (a b : option string) : Z :=
  match a, b with Some a, Some b => strcmp a b | _, _ => -1 end.

Definition _oidc_strncmp (a b : option string) (n : nat) : Z :=
  match a, b with Some a, Some b => strncmp n a b | _, _ => -1 end.

Definition _oidc_strstr (a b : option string) : option nat :=
  match a, b with Some a, Some b => strstr a b | _, _ => None end.

(** [None] is [FALSE]; [Some v] is [TRUE] with [*out = v]. *)
Definition _oidc_str_to_int_checked (s : option string) : option Z :=
  match s with
  | None => None
  | Some "" => None
  | Some s =>
      let '(v, endptr, erange) := strtol s in
      if String.eqb endptr s || negb (String.eqb endptr "") || erange
         || (v <? INT_MIN) || (INT_MAX <? v)
      then None else Some v
  end.

(** [sscanf] with ["%ld"]: the default stays when there is no number. *)
Definition _oidc_str_to_time (s : option string) (default_value : Z) : Z :=
  match s with
  | None => default_value
  | Some s =>
      let '(v, endptr, _) := strtol s in
      if String.eqb endptr s then default_value else v
  end.

Definition _oidc_str_to_int (s : option string) (default_value : Z) : Z :=
  default default_value (_oidc_str_to_int_checked s).

(** [apr_array_pstrcat] with a separator. *)
Fixpoint join (sep : string) (l : list string) : string :=
  match l with
  | [] => ""
  | [x] => x
  | x :: l' => x ^^ sep ^^ join sep l'
  end.

Fixpoint str_forall (p : ascii -> bool) (s : string) : bool :=
  match s with
  | "" => true
  | String c s' => p c && str_forall p s'
  end.

(** ** Lemmas *)

Lemma strcmp_eq a b : strcmp a b = 0 <-> a = b.
Proof.
  revert b. induction a as [|c a IH]; intros [|d b]; simpl; try done.
  destruct (Ascii.eqb_spec c d) as [->|Hne].
  - rewrite IH. naive_solver.
  - split; [|naive_solver]. intros H. exfalso. apply Hne, code_inj. lia.
Qed.

Lemma strcmp_refl a : strcmp a a = 0.
Proof. by apply strcmp_eq. Qed.

Lemma strcmp_eqb a b : (strcmp a b =? 0) = String.eqb a b.
Proof.
  destruct (String.eqb_spec a b) as [->|Hne]; [by rewrite strcmp_refl|].
  apply Z.eqb_neq. by rewrite strcmp_eq.
Qed.

(** The comparison of src/const.h succeeds exactly on two equal non-null strings. *)
Lemma oidc_strcmp_eq a b : _oidc_strcmp a b = 0 <-> exists s, a = Some s /\ b = Some s.
Proof.
  destruct a as [a|], b as [b|]; simpl; try (split; [done|naive_solver]).
  rewrite strcmp_eq. naive_solver.
Qed.

Lemma str_prefix_app p s : str_prefix p s = true <-> exists t, s = (p ^^ t).
Proof.
  revert s. induction p as [|c p IH]; intros s; simpl.
  - split; [by exists s|done].
  - destruct s as [|d s]; [split; [done|by intros [? ?]]|].
    rewrite andb_true_iff, IH, Ascii.eqb_eq.
    split; [intros [-> [t ->]]; by exists t|].
    intros [t Ht]. injection Ht as -> ->. split; [done|by exists t].
Qed.

(** [strstr(h, n) == h] is the prefix test. *)
Lemma strstr_zero h n : strstr h n = Some O <-> str_prefix n h = true.
Proof.
  destruct h as [|c h]; cbn [strstr]; destruct (str_prefix n _) eqn:E; try done.
  by destruct (strstr h n).
Qed.

Lemma strncmp_prefix p s : strncmp (String.length p) s p = 0 <-> str_prefix p s = true.
Proof.
  revert s. induction p as [|c p IH]; intros [|d s]; simpl; try done.
  destruct (Ascii.eqb_spec d c) as [->|Hne].
  - by rewrite IH, Ascii.eqb_refl.
  - rewrite andb_true_iff, Ascii.eqb_eq.
    split; [|naive_solver]. intros H. exfalso. apply Hne, code_inj. lia.
Qed.

Lemma length_append a b : String.length (a ^^ b) = (String.length a + String.length b)%nat.
Proof. induction a; simpl; auto. Qed.

Lemma zlen_append a b : zlen (a ^^ b) = zlen a + zlen b.
Proof. unfold zlen. rewrite length_append. lia. Qed.

Lemma append_assoc a b c : ((a ^^ b) ^^ c) = (a ^^ (b ^^ c)).
Proof. induction a; simpl; congruence. Qed.

Lemma append_nil_r a : (a ^^ "") = a.
Proof. induction a; simpl; congruence. Qed.

Lemma str_drop_app a b : str_drop (String.length a) (a ^^ b) = b.
Proof. induction a; simpl; auto. Qed.

Lemma str_drop_app_S a c b : str_drop (String.length a + 1) (a ^^ String c b) = b.
Proof. rewrite Nat.add_1_r. induction a; simpl; [by destruct b|auto]. Qed.

Lemma str_take_app a b : str_take (String.length a) (a ^^ b) = a.
Proof. induction a; simpl; [by destruct b|congruence]. Qed.

Lemma str_before_app s c t :
  strchr s c = None -> str_before (s ^^ String c t) c = s.
Proof.
  induction s as [|d s IH]; simpl; [by rewrite Ascii.eqb_refl|].
  destruct (Ascii.eqb d c); [done|]. intros. by rewrite IH.
Qed.

Lemma strchr_app s c t :
  strchr s c = None -> strchr (s ^^ t) c = strchr t c.
Proof.
  induction s as [|d s IH]; simpl; [done|].
  by destruct (Ascii.eqb d c).
Qed.

Lemma append_inj_l a b c : (a ^^ b) = (a ^^ c) -> b = c.
Proof. induction a; simpl; intros; simplify_eq; auto. Qed.

#[export] Hint Rewrite length_append append_assoc append_nil_r str_drop_app str_take_app : oidc_rw.

Lemma str_map_app f a b : str_map f (a ^^ b) = (str_map f a ^^ str_map f b).
Proof. induction a; simpl; congruence. Qed.

Lemma str_map_length f a : String.length (str_map f a) = String.length a.
Proof. induction a; simpl; congruence. Qed.

Lemma str_map_id p f a :
  (forall c, p c = true -> f c = c) -> str_forall p a = true -> str_map f a = a.
Proof.
  intros Hf. induction a as [|c a IH]; simpl; [done|]. intros [Hc Ha]%andb_true_iff.
  rewrite Hf by done. by rewrite IH.
Qed.

Lemma str_map_map f g a : str_map f (str_map g a) = str_map (fun c => f (g c)) a.
Proof. induction a; simpl; congruence. Qed.

Lemma str_forall_impl p q a :
  (forall c, p c = true -> q c = true) -> str_forall p a = true -> str_forall q a = true.
Proof.
  intros Hf. induction a as [|c a IH]; simpl; [done|]. intros [Hc Ha]%andb_true_iff.
  rewrite Hf by done. auto.
Qed.

Lemma strchr_forall p s c : p c = false -> str_forall p s = true -> strchr s c = None.
Proof.
  intros Hc. induction s as [|d s IH]; [done|]. cbn [str_forall strchr]. intros [Hd Hs]%andb_true_iff.
  destruct (Ascii.eqb_spec d c); [congruence|auto].
Qed.

Lemma str_forall_map p q f a :
  (forall c, p c = true -> q (f c) = true) -> str_forall p a = true ->
  str_forall q (str_map f a) = true.
Proof.
  intros Hf. induction a as [|c a IH]; simpl; [done|]. intros [Hc Ha]%andb_true_iff.
  rewrite Hf by done. by rewrite IH.
Qed.

Lemma str_take_self s : str_take (String.length s) s = s.
Proof. induction s; simpl; congruence. Qed.

Lemma str_take_all n s : (String.length s <= n)%nat -> str_take n s = s.
Proof.
  revert n. induction s as [|c s IH]; intros [|n]; simpl; intros; try done; try lia.
  rewrite IH; [done|lia].
Qed.

Lemma str_take_drop n s : (str_take n s ^^ str_drop n s) = s.
Proof. revert s. induction n as [|n IH]; intros [|c s]; simpl; try done. by rewrite IH. Qed.

Lemma str_take_length n s : (n <= String.length s)%nat -> String.length (str_take n s) = n.
Proof. revert s. induction n as [|n IH]; intros [|c s]; simpl; try done; try lia. intros. rewrite IH; lia. Qed.

Lemma str_drop_length n s : String.length (str_drop n s) = (String.length s - n)%nat.
Proof. revert s. induction n as [|n IH]; intros [|c s]; simpl; auto. Qed.

(** A property of every character is decided by computation. *)
Lemma ascii_ind_bool (p : ascii -> bool) :
  forallb (fun n => p (ascii_of_nat n)) (seq 0 256) = true -> forall c, p c = true.
Proof.
  intros H c. rewrite <-(ascii_nat_embedding c). rewrite forallb_forall in H. apply H, in_seq.
  pose proof (nat_ascii_bounded c). lia.
Qed.

Ltac char_cases c :=
  revert c; match goal with |- forall c, @?q c = true -> @?l c = @?r c =>
    let H := fresh in
    assert (H : forall c, negb (q c) || bool_decide (l c = r c) = true)
      by (apply ascii_ind_bool; vm_compute; reflexivity);
    let c := fresh "c" in let Hc := fresh in
    intros c Hc; specialize (H c); cbv beta in H, Hc; rewrite Hc in H;
    by apply bool_decide_eq_true in H end.

(** ** Decimal numbers *)

Lemma pretty_N_char_digit x :
  (x < 10)%N -> isdigit (pretty_N_char x) = true /\ code (pretty_N_char x) = 48 + Z.of_N x.
Proof.
  intros Hx. assert (x = 0 \/ x = 1 \/ x = 2 \/ x = 3 \/ x = 4 \/ x = 5 \/ x = 6 \/ x = 7 \/
    x = 8 \/ x = 9)%N as Hc by lia. naive_solver.
Qed.

Lemma digits_go_pretty x s : digits_go 0 (pretty_N_go x s) = digits_go (Z.of_N x) s.
Proof.
  revert s. induction (N.lt_wf_0 x) as [x _ IH]; intros s.
  assert (x = 0 \/ 0 < x)%N as [->|Hx] by lia; [by rewrite pretty_N_go_0|].
  rewrite pretty_N_go_step, IH by (done || by apply N.div_lt). cbn [digits_go].
  destruct (pretty_N_char_digit (x mod 10)%N) as [-> ->]; [by apply N.mod_lt|].
  f_equal. rewrite N2Z.inj_div, N2Z.inj_mod. change (Z.of_N 10) with 10.
  pose proof (Z.div_mod (Z.of_N x) 10 ltac:(lia)). lia.
Qed.

(** The first character of a number is a digit. *)
Lemma pretty_N_go_head x s :
  (0 < x)%N -> exists c t, pretty_N_go x s = String c t /\ isdigit c = true.
Proof.
  revert s. induction (N.lt_wf_0 x) as [x _ IH]; intros s Hx. rewrite pretty_N_go_step by done.
  destruct (N.eq_0_gt_0_cases (x / 10)) as [->|Hd].
  - rewrite pretty_N_go_0. eexists _, _. split; [done|].
    by apply pretty_N_char_digit, N.mod_lt.
  - by apply IH; [apply N.div_lt|].
Qed.

Lemma pretty_N_digits n :
  exists c t, pretty n = String c t /\ isdigit c = true /\ digits_go 0 (pretty n) = (Z.of_N n, "").
Proof.
  unfold pretty, pretty_N. case_decide as E; [subst; by eexists _, _|].
  destruct (pretty_N_go_head n "") as (c & t & Hs & Hc); [lia|].
  exists c, t. split; [done|]. split; [done|]. by rewrite digits_go_pretty.
Qed.

Lemma digit_plain c : isdigit c = true ->
  negb (isspace c) && negb (Ascii.eqb c "-") && negb (Ascii.eqb c "+") = true.
Proof. char_cases c. Qed.

(** [strtol] reads back what ["%d"] prints. *)
Lemma strtol_pretty n :
  0 <= n <= LONG_MAX -> strtol (pretty n) = (n, "", false) /\ pretty n <> "".
Proof.
  intros Hn. assert (Hp : pretty n = pretty (Z.to_N n)).
  { destruct n as [|p|p]; [done|done|]. lia. }
  rewrite Hp. destruct (pretty_N_digits (Z.to_N n)) as (c & t & E & Hc & Hd).
  split; [|by rewrite E]. unfold strtol. rewrite E in Hd |- *. cbn [skip_space].
  pose proof (digit_plain c Hc) as Hpl. bool_hyps. rewrite H.
  assert (Hsel : match String c t with
    | String "-"%char r => (true, r)
    | String "+"%char r => (false, r)
    | _ => (false, String c t) end%char = (false, String c t)).
  { destruct c as [[] [] [] [] [] [] [] []]; done. }
  rewrite Hsel. rewrite Hc, Hd. rewrite Z2N.id by lia. cbv zeta.
  destruct (Z.ltb_spec LONG_MAX n); [lia|].
  destruct (Z.ltb_spec n LONG_MIN) as [Hlt|]; [|done].
  exfalso. unfold LONG_MIN, INT64_MIN in Hlt. lia.
Qed.

Lemma str_to_int_pretty n d : 0 <= n <= INT_MAX -> _oidc_str_to_int (Some (pretty n)) d = n.
Proof.
  intros Hn. unfold INT_MAX in Hn.
  destruct (strtol_pretty n) as [Hs Hne]; [unfold LONG_MAX, INT64_MAX; lia|].
  unfold _oidc_str_to_int, _oidc_str_to_int_checked.
  destruct (pretty n) as [|c t] eqn:E; [done|]. rewrite Hs. simpl.
  unfold INT_MIN, INT_MAX. destruct (Z.ltb_spec n (-2147483648)); [lia|].
  destruct (Z.ltb_spec 2147483647 n); [lia|done].
Qed.

Lemma str_forall_append p a b : str_forall p (a ^^ b) = str_forall p a && str_forall p b.
Proof. induction a as [|c a IH]; [done|]. cbn [String.append str_forall]. by rewrite IH, andb_assoc. Qed.

Lemma pretty_digits n : 0 <= n -> str_forall isdigit (pretty n) = true.
Proof.
  intros Hn. assert (Hp : pretty n = pretty (Z.to_N n)) by by destruct n.
  rewrite Hp. unfold pretty, pretty_N. case_decide; [done|].
  assert (Hgo : forall x s, str_forall isdigit s = true -> str_forall isdigit (pretty_N_go x s) = true).
  { intros x. induction (N.lt_wf_0 x) as [x _ IH]; intros s Hs.
    destruct (N.eq_0_gt_0_cases x) as [->|Hx]; [done|].
    rewrite pretty_N_go_step by done. apply IH; [by apply N.div_lt|]. cbn [str_forall].
    destruct (pretty_N_char_digit (x mod 10)%N) as [-> _]; [by apply N.mod_lt|done]. }
  by apply Hgo.
Qed.

Lemma tokens_go_plain d cur a s :
  strchr a d = None -> tokens_go (String d "") cur (a ^^ s) = tokens_go (String d "") (cur ^^ a) s.
Proof.
  revert cur. induction a as [|c a IH]; intros cur Ha; [by rewrite append_nil_r|].
  cbn [String.append tokens_go strchr str_mem] in *. destruct (Ascii.eqb_spec c d); [done|]. cbn [orb].
  rewrite IH by done. by rewrite append_assoc.
Qed.

Lemma tokens_go_delim d cur s :
  cur <> "" -> tokens_go (String d "") cur (String d s) = cur :: tokens_go (String d "") "" s.
Proof.
  intros Hc. cbn [tokens_go str_mem]. rewrite Ascii.eqb_refl. cbn [orb].
  by destruct (String.eqb_spec cur "").
Qed.

(** Searching a character. *)
Lemma strstr_char c a b : strchr a c = None -> strstr (a ^^ String c b) (String c "") = Some (String.length a).
Proof.
  induction a as [|d a IH]; intros Ha.
  - cbn. by rewrite Ascii.eqb_refl.
  - cbn [strchr String.append strstr str_prefix String.length] in *. destruct (Ascii.eqb_spec d c) as [->|Hne]; [done|].
    destruct (Ascii.eqb_spec c d); [congruence|]. cbn [andb]. by rewrite IH.
Qed.

Lemma strstr_char_none c a : strchr a c = None -> strstr a (String c "") = None.
Proof.
  induction a as [|d a IH]; intros Ha; [done|]. cbn [strchr strstr str_prefix] in *.
  destruct (Ascii.eqb_spec d c) as [->|Hne]; [done|]. destruct (Ascii.eqb_spec c d); [congruence|]. cbn [andb]. by rewrite IH.
Qed.
