(* ===== verification/Jansson.v ===== *)
(** * The JSON backend (libjansson) as an interface

    libjansson is not part of the repository: the development takes it as a
    parameter.  [Jansson] lists the operations src/json.c calls, rendered
    functionally (a call that mutates an object returns the new object);
    [JanssonSpec] states their documented behaviour.  [Model] is a concrete
    instance, used by the witnesses to evaluate the theorems on real inputs. *)

From S2P Require Import Prelude Cstr.
From Stdlib Require Import QArith.
#[local] Open Scope Z_scope.

Inductive json_type :=
  | JSON_OBJECT | JSON_ARRAY | JSON_STRING | JSON_INTEGER
  | JSON_REAL | JSON_TRUE | JSON_FALSE | JSON_NULL.

#[export] Instance json_type_eq_dec : EqDecision json_type.
Proof. solve_decision. Defined.

Class Jansson := {
  json_t : Type;
  json_typeof : json_t -> json_type;
  json_object : json_t;
  json_array : json_t;
  json_null : json_t;
  json_utf8 : string -> bool;                       (* utf8_check_string *)
  json_string : string -> option json_t;            (* NULL on invalid UTF-8 *)
  json_integer : Z -> json_t;
  json_boolean : bool -> json_t;
  json_string_value : json_t -> option string;      (* NULL when not a string *)
  json_integer_value : json_t -> Z;                 (* 0 when not an integer *)
  json_real_value : json_t -> Q;                    (* the exact value of the double *)
  json_number_value : json_t -> Q;
  json_object_get : json_t -> string -> option json_t;
  json_object_set : json_t -> string -> json_t -> Z * json_t;
  json_object_del : json_t -> string -> Z * json_t;
  json_object_items : json_t -> list (string * json_t); (* json_object_iter order *)
  json_array_items : json_t -> list json_t;
  json_array_append : json_t -> json_t -> Z * json_t;
  JSON_COMPACT : Z;
  JSON_PRESERVE_ORDER : Z;
  JSON_ENCODE_ANY : Z;
  JSON_DECODE_ANY : Z;
  JSON_INDENT : Z -> Z;
  json_dumps : json_t -> Z -> option string;
  json_loads : string -> Z -> option json_t
}.

(** A string of characters in the range 1..127 is valid UTF-8. *)
Fixpoint is_ascii (s : string) : bool :=
  match s with
  | "" => true
  | String c s' => (1 <=? code c) && (code c <? 128) && is_ascii s'
  end.

Class JanssonSpec (J : Jansson) : Prop := {
  utf8_ascii s : is_ascii s = true -> json_utf8 s = true;
  string_utf8 s : json_utf8 s = true -> exists j, json_string s = Some j;
  string_typeof s j : json_string s = Some j -> json_typeof j = JSON_STRING;
  string_value s j : json_string s = Some j -> json_string_value j = Some s;
  string_value_type j : is_Some (json_string_value j) <-> json_typeof j = JSON_STRING;
  integer_typeof z : json_typeof (json_integer z) = JSON_INTEGER;
  integer_value z : INT64_MIN <= z <= INT64_MAX -> json_integer_value (json_integer z) = z;
  integer_value_range j : INT64_MIN <= json_integer_value j <= INT64_MAX;
  boolean_typeof b : json_typeof (json_boolean b) = if b then JSON_TRUE else JSON_FALSE;
  object_typeof : json_typeof json_object = JSON_OBJECT;
  object_items : json_object_items json_object = [];
  items_object j : json_typeof j <> JSON_OBJECT -> json_object_items j = [];
  items_NoDup j : NoDup (map fst (json_object_items j));
  items_utf8 j k v : In (k, v) (json_object_items j) -> json_utf8 k = true;
  object_get j k : json_object_get j k = alist_get k (json_object_items j);
  object_set_typeof j k v : json_typeof (json_object_set j k v).2 = json_typeof j;
  object_set_ok j k v :
    json_typeof j = JSON_OBJECT -> json_utf8 k = true ->
    (json_object_set j k v).1 = 0 /\
    json_object_items (json_object_set j k v).2 = alist_set k v (json_object_items j);
  object_set_fail j k v :
    json_typeof j <> JSON_OBJECT \/ json_utf8 k = false ->
    json_object_set j k v = (-1, j);
  object_del_typeof j k : json_typeof (json_object_del j k).2 = json_typeof j;
  object_del_items j k :
    json_object_items (json_object_del j k).2 = alist_del k (json_object_items j);
  array_items j : json_typeof j <> JSON_ARRAY -> json_array_items j = [];
  dumps_object j f : json_typeof j = JSON_OBJECT -> is_Some (json_dumps j f);
  loads_dumps j f s :
    json_typeof j = JSON_OBJECT -> json_dumps j f = Some s -> json_loads s 0 = Some j;
  dumps_text j f s : json_dumps j f = Some s -> s <> "" /\ cstr s = s
}.

(** ** A concrete instance *)

Module Model.
#[local] Set Warnings "-register-all".
Inductive jv :=
  | JObj (kvs : list (string * jv))
  | JArr (vs : list jv)
  | JStr (s : string)
  | JInt (z : Z)
  | JReal (n : Z) (d : positive)
  | JBool (b : bool)
  | JNull.

Fixpoint to_tree (j : jv) : gen_tree (string + Z + positive + bool) :=
  match j with
  | JObj kvs =>
      GenNode 0 (map (fun kv => GenNode 7 [GenLeaf (inl (inl (inl kv.1))); to_tree kv.2]) kvs)
  | JArr vs => GenNode 1 (map to_tree vs)
  | JStr s => GenNode 2 [GenLeaf (inl (inl (inl s)))]
  | JInt z => GenNode 3 [GenLeaf (inl (inl (inr z)))]
  | JReal n d => GenNode 4 [GenLeaf (inl (inl (inr n))); GenLeaf (inl (inr d))]
  | JBool b => GenNode 5 [GenLeaf (inr b)]
  | JNull => GenNode 6 []
  end.

Fixpoint of_tree (t : gen_tree (string + Z + positive + bool)) : jv :=
  match t with
  | GenNode 0 ts =>
      JObj (map (fun t => match t with
                          | GenNode _ [GenLeaf (inl (inl (inl k))); t'] => (k, of_tree t')
                          | _ => ("", JNull)
                          end) ts)
  | GenNode 1 ts => JArr (map of_tree ts)
  | GenNode 2 [GenLeaf (inl (inl (inl s)))] => JStr s
  | GenNode 3 [GenLeaf (inl (inl (inr z)))] => JInt z
  | GenNode 4 [GenLeaf (inl (inl (inr n))); GenLeaf (inl (inr d))] => JReal n d
  | GenNode 5 [GenLeaf (inr b)] => JBool b
  | _ => JNull
  end.

Fixpoint of_to_tree (j : jv) : of_tree (to_tree j) = j.
Proof.
  destruct j as [kvs|vs|s|z|n d|b|]; simpl; try done; f_equal.
  - induction kvs as [|[k v] kvs IH]; simpl; [done|]. by rewrite of_to_tree, IH.
  - induction vs as [|v vs IH]; simpl; [done|]. by rewrite of_to_tree, IH.
Qed.

#[global] Instance jv_eq_dec : EqDecision jv.
Proof.
  refine (fun x y => cast_if (decide (to_tree x = to_tree y))); [|congruence].
  by rewrite <-(of_to_tree x), <-(of_to_tree y), e.
Defined.

#[global] Instance jv_countable : Countable jv :=
  inj_countable' to_tree of_tree of_to_tree.

(** A textual encoding: the bits of the [Countable] code. *)
Fixpoint bits (p : positive) : string :=
  match p with
  | xH => ""
  | xO p => String "0"%char (bits p)
  | xI p => String "1"%char (bits p)
  end.
Fixpoint unbits (s : string) : option positive :=
  match s with
  | "" => Some xH
  | String c s =>
      if Ascii.eqb c "0"%char then xO <$> unbits s
      else if Ascii.eqb c "1"%char then xI <$> unbits s
      else None
  end.
Lemma unbits_bits p : unbits (bits p) = Some p.
Proof. induction p as [p IH|p IH|]; simpl; rewrite ?IH; done. Qed.

Definition dumps (j : jv) : string := String "j" (bits (encode j)).

Definition typeof (j : jv) : json_type :=
  match j with
  | JObj _ => JSON_OBJECT | JArr _ => JSON_ARRAY | JStr _ => JSON_STRING
  | JInt _ => JSON_INTEGER | JReal _ _ => JSON_REAL
  | JBool true => JSON_TRUE | JBool false => JSON_FALSE | JNull => JSON_NULL
  end.

(** Keys of an object are kept unique and valid: the first occurrence counts. *)
Fixpoint uniq (kvs : list (string * jv)) : list (string * jv) :=
  match kvs with
  | [] => []
  | (k, v) :: kvs' => if is_ascii k then (k, v) :: alist_del k (uniq kvs') else uniq kvs'
  end.

Definition items (j : jv) : list (string * jv) :=
  match j with JObj kvs => uniq kvs | _ => [] end.

#[export] Instance jansson : Jansson := {|
  json_t := jv;
  json_typeof := typeof;
  json_object := JObj [];
  json_array := JArr [];
  json_null := JNull;
  json_utf8 := is_ascii;
  json_string s := if is_ascii s then Some (JStr s) else None;
  json_integer z := JInt (i64 z);
  json_boolean b := JBool b;
  json_string_value j := match j with JStr s => Some s | _ => None end;
  json_integer_value j := match j with JInt z => i64 z | _ => 0 end;
  json_real_value j := match j with JReal n d => (n # d)%Q | _ => 0%Q end;
  json_number_value j :=
    match j with JReal n d => (n # d)%Q | JInt z => inject_Z z | _ => 0%Q end;
  json_object_get j k := alist_get k (items j);
  json_object_set j k v :=
    match j with
    | JObj _ => if is_ascii k then (0, JObj (alist_set k v (items j))) else (-1, j)
    | _ => (-1, j)
    end;
  json_object_del j k :=
    match j with JObj _ => (0, JObj (alist_del k (items j))) | _ => (-1, j) end;
  json_object_items := items;
  json_array_items j := match j with JArr vs => vs | _ => [] end;
  json_array_append j v :=
    match j with JArr vs => (0, JArr (vs ++ [v])) | _ => (-1, j) end;
  JSON_COMPACT := 32;
  JSON_PRESERVE_ORDER := 256;
  JSON_ENCODE_ANY := 512;
  JSON_DECODE_ANY := 4;
  JSON_INDENT n := Z.land n 31;
  json_dumps j _ := Some (dumps j);
  json_loads s _ := match s with String c s => p ← unbits s; decode p | "" => None end
|}.

Lemma uniq_NoDup kvs : NoDup (map fst (uniq kvs)).
Proof.
  induction kvs as [|[k v] kvs IH]; simpl; [constructor|].
  destruct (is_ascii k); simpl; [|done]. constructor; [|by apply alist_del_NoDup].
  intros Hin. apply list_elem_of_In, in_map_iff in Hin as [[k1 v1] [E Hin]]. simpl in E.
  apply in_alist_del in Hin as [_ Hne]. done.
Qed.

Lemma uniq_ascii kvs k v : In (k, v) (uniq kvs) -> is_ascii k = true.
Proof.
  induction kvs as [|[k0 v0] kvs IH]; simpl; [done|].
  destruct (is_ascii k0) eqn:E; simpl; [|done].
  intros [?|Hin]; simplify_eq; [done|]. apply in_alist_del in Hin as [? _]. auto.
Qed.

Lemma uniq_id l :
  NoDup (map fst l) -> (forall k v, In (k, v) l -> is_ascii k = true) -> uniq l = l.
Proof.
  induction l as [|[k v] l IH]; simpl; [done|]. rewrite NoDup_cons. intros [Hn Hd] Ha.
  rewrite (Ha k v) by auto. rewrite IH by eauto. f_equal.
  clear -Hn. induction l as [|[k0 v0] l IH]; simpl in *; [done|].
  rewrite not_elem_of_cons in Hn. destruct Hn as [Hne Hn].
  destruct (String.eqb_spec k k0); [done|]. f_equal. auto.
Qed.

Lemma in_items_ascii j k v : In (k, v) (items j) -> is_ascii k = true.
Proof. destruct j; simpl; try done. apply uniq_ascii. Qed.

Lemma items_unique j : NoDup (map fst (items j)).
Proof. destruct j; simpl; try constructor. apply uniq_NoDup. Qed.

#[global] Instance jansson_spec : JanssonSpec jansson.
Proof.
  split; cbn [json_t jansson json_typeof json_object json_utf8 json_string json_integer
              json_boolean json_string_value json_integer_value json_object_get
              json_object_set json_object_del json_object_items json_array_items
              json_dumps json_loads].
  - done.
  - intros s ->. eauto.
  - intros s j. by case_match; intros; simplify_eq.
  - intros s j. by case_match; intros; simplify_eq.
  - intros [| | | | |[]|]; simpl; split; try done; try (by intros []); eauto.
  - done.
  - intros z Hz. by rewrite !(i64_small z).
  - intros []; try (unfold INT64_MIN, INT64_MAX; lia). apply i64_range.
  - by intros [].
  - done.
  - done.
  - by intros [].
  - apply items_unique.
  - apply in_items_ascii.
  - done.
  - intros [] k v; simpl; try done. by destruct (is_ascii k).
  - intros [kvs| | | | | []|] k v; simpl; try done. intros _ Hk. rewrite Hk. split; [done|].
    simpl. apply uniq_id; [apply alist_set_NoDup, uniq_NoDup|].
    intros k' v' [->|Hin]%in_alist_set; [done|]. by eapply uniq_ascii.
  - intros j k v [Hj|Hk]; destruct j as [| | | | |[]|]; try done; by rewrite Hk.
  - by intros [].
  - intros [] k; simpl; try done. apply uniq_id; [apply alist_del_NoDup, uniq_NoDup|].
    intros k' v' [Hin _]%in_alist_del. by eapply uniq_ascii.
  - by intros [].
  - eauto.
  - intros j _ s _ [= <-]. cbn. rewrite unbits_bits. simpl. by rewrite decode_encode.
  - intros j _ s [= <-]. split; [done|]. unfold dumps, cstr. cbn. f_equal. generalize (encode j). clear.
    intros p. induction p as [p IH|p IH|]; cbn; [by rewrite IH..|done].
Qed.
End Model.
