(* ===== verification/Json.v ===== *)
(** * src/json.c: the JSON wrapper layer

    Every function of src/json.c that the modelled components call.  A
    [oidc_json_t *] that may be [NULL] is an [option json_t]; an out-parameter
    is returned, next to the [apr_byte_t] of the C function.  Reference counts
    are not modelled: values are persistent, and a function that mutates an
    object in place returns the mutated object. *)

From S2P Require Import Prelude Cstr Jansson.
From Stdlib Require Import QArith.
#[local] Open Scope Z_scope.

(** Backend-independent value types and flags (src/json.h). *)
Inductive oidc_json_type :=
  | OIDC_JSON_TYPE_OBJECT | OIDC_JSON_TYPE_ARRAY | OIDC_JSON_TYPE_STRING
  | OIDC_JSON_TYPE_INTEGER | OIDC_JSON_TYPE_REAL | OIDC_JSON_TYPE_TRUE
  | OIDC_JSON_TYPE_FALSE | OIDC_JSON_TYPE_NULL.

#[export] Instance oidc_json_type_eq_dec : EqDecision oidc_json_type.
Proof. solve_decision. Defined.

Definition OIDC_JSON_COMPACT : Z := 0x01.
Definition OIDC_JSON_PRESERVE_ORDER : Z := 0x02.
Definition OIDC_JSON_ENCODE_ANY : Z := 0x04.
Definition OIDC_JSON_DECODE_ANY : Z := 0x08.
Definition OIDC_JSON_INDENT (n : Z) : Z := Z.shiftl (Z.land n 0x1F) 8.

Section json.
Context {J : Jansson}.

Definition oidc_json_flags2backend (flags : Z) : Z :=
  let f := if Z.land flags OIDC_JSON_COMPACT =? 0 then 0 else JSON_COMPACT in
  let f := if Z.land flags OIDC_JSON_PRESERVE_ORDER =? 0 then f
           else Z.lor f JSON_PRESERVE_ORDER in
  let f := if Z.land flags OIDC_JSON_ENCODE_ANY =? 0 then f else Z.lor f JSON_ENCODE_ANY in
  let f := if Z.land flags OIDC_JSON_DECODE_ANY =? 0 then f else Z.lor f JSON_DECODE_ANY in
  let indent := Z.land (Z.shiftr flags 8) 0x1F in
  if 0 <? indent then Z.lor f (JSON_INDENT indent) else f.

(** ** Construction, inspection and access *)

Definition oidc_json_object : json_t := json_object.
Definition oidc_json_array : json_t := json_array.
Definition oidc_json_string (value : option string) : option json_t :=
  match value with Some s => json_string s | None => None end.
Definition oidc_json_integer (value : Z) : json_t := json_integer value.
Definition oidc_json_boolean (value : bool) : json_t := json_boolean value.

Definition oidc_json_typeof (json : json_t) : oidc_json_type :=
  match json_typeof json with
  | JSON_OBJECT => OIDC_JSON_TYPE_OBJECT
  | JSON_ARRAY => OIDC_JSON_TYPE_ARRAY
  | JSON_STRING => OIDC_JSON_TYPE_STRING
  | JSON_INTEGER => OIDC_JSON_TYPE_INTEGER
  | JSON_REAL => OIDC_JSON_TYPE_REAL
  | JSON_TRUE => OIDC_JSON_TYPE_TRUE
  | JSON_FALSE => OIDC_JSON_TYPE_FALSE
  | JSON_NULL => OIDC_JSON_TYPE_NULL
  end.

Definition has_type (ts : list json_type) (json : option json_t) : bool :=
  match json with Some j => bool_decide (json_typeof j ∈ ts) | None => false end.

Definition oidc_json_is_object := has_type [JSON_OBJECT].
Definition oidc_json_is_array := has_type [JSON_ARRAY].
Definition oidc_json_is_string := has_type [JSON_STRING].
Definition oidc_json_is_integer := has_type [JSON_INTEGER].
Definition oidc_json_is_real := has_type [JSON_REAL].
Definition oidc_json_is_number := has_type [JSON_INTEGER; JSON_REAL].
Definition oidc_json_is_boolean := has_type [JSON_TRUE; JSON_FALSE].
Definition oidc_json_is_true := has_type [JSON_TRUE].
Definition oidc_json_is_null := has_type [JSON_NULL].

Definition oidc_json_string_value (json : option json_t) : option string :=
  json ≫= json_string_value.
Definition oidc_json_integer_value (json : option json_t) : Z :=
  match json with Some j => json_integer_value j | None => 0 end.
Definition oidc_json_real_value (json : option json_t) : Q :=
  match json with Some j => json_real_value j | None => 0%Q end.
Definition oidc_json_number_value (json : option json_t) : Q :=
  match json with Some j => json_number_value j | None => 0%Q end.

Definition oidc_json_object_get (json : option json_t) (key : string) : option json_t :=
  json ≫= fun j => json_object_get j key.
Definition oidc_json_object_set (json : json_t) (key : string) (value : option json_t) : json_t :=
  match value with Some v => (json_object_set json key v).2 | None => json end.
Definition oidc_json_object_set_new (json : json_t) (key : string) (value : option json_t)
  : json_t :=
  oidc_json_object_set json key value.
Definition oidc_json_object_del (json : json_t) (key : string) : json_t :=
  (json_object_del json key).2.
Definition oidc_json_object_iter (json : option json_t) : list (string * json_t) :=
  match json with Some j => json_object_items j | None => [] end.

Definition oidc_json_array_size (json : option json_t) : nat :=
  match json with Some j => length (json_array_items j) | None => 0%nat end.
Definition oidc_json_array_get (json : option json_t) (index : nat) : option json_t :=
  match json with Some j => json_array_items j !! index | None => None end.
Definition oidc_json_array_append_new (json : json_t) (value : option json_t) : json_t :=
  match value with Some v => (json_array_append json v).2 | None => json end.

(** ** Encoding and parsing *)

Definition oidc_json_encode (json : option json_t) (flags : Z) : option string :=
  match json with
  | None => None
  | Some j => json_dumps j (oidc_json_flags2backend flags)
  end.

(** [None] is [FALSE] with [*json = NULL]. *)
Definition oidc_json_parse (str : option string) (flags : Z) : option json_t :=
  match str with
  | None => None
  | Some s => json_loads s (oidc_json_flags2backend flags)
  end.

Definition oidc_json_decode_object_err (str : option string) : option json_t :=
  match str with
  | None => None
  | Some _ =>
      match oidc_json_parse str 0 with
      | None => None
      | Some json => if negb (oidc_json_is_object (Some json)) then None else Some json
      end
  end.

Definition oidc_json_decode_object (str : option string) : option json_t :=
  oidc_json_decode_object_err str.

Definition oidc_json_string_print (result : option json_t) (key : string) : bool :=
  let value := oidc_json_object_get result key in
  nonnull value && negb (oidc_json_is_null value).

Definition OIDC_PROTO_ERROR : string := "error".

(** The second, logging-only call of [oidc_json_string_print] does not change the result. *)
Definition oidc_json_check_error (json : option json_t) : bool :=
  oidc_json_string_print json OIDC_PROTO_ERROR.

Definition oidc_json_decode_and_check_error (str : option string) : option json_t :=
  match oidc_json_decode_object str with
  | None => None
  | Some json => if oidc_json_check_error (Some json) then None else Some json
  end.

(** ** Arrays *)

(** The index loop: [rest] is the array from index [i] on; it stops at the first
    string element equal to [needle], skipping elements that are not strings. *)
Fixpoint array_has_value_loop (rest : list json_t) (needle : string) (i : nat) : nat :=
  match rest with
  | [] => i
  | elem :: rest' =>
      if negb (oidc_json_is_string (Some elem)) then array_has_value_loop rest' needle (S i)
      else if _oidc_strcmp (oidc_json_string_value (Some elem)) (Some needle) =? 0 then i
      else array_has_value_loop rest' needle (S i)
  end.

Definition oidc_json_array_has_value (haystack : option json_t) (needle : option string) : bool :=
  if negb (oidc_json_is_array haystack) then false
  else match haystack, needle with
       | Some h, Some n =>
           negb (Nat.eqb (array_has_value_loop (json_array_items h) n 0)
                   (oidc_json_array_size haystack))
       | _, _ => false
       end.

(** ** Typed getters with defaults *)

Definition oidc_json_object_get_string (json : option json_t) (name : string)
  (default_value : option string) : option string :=
  match oidc_json_object_get json name with
  | Some v => if oidc_json_is_string (Some v) then oidc_json_string_value (Some v)
              else default_value
  | None => default_value
  end.

Fixpoint oidc_json_string_array_append (arr : list json_t) (value : list string) : list string :=
  match arr with
  | [] => value
  | v :: arr' =>
      let value' := match json_string_value v with
                    | Some s => if oidc_json_is_string (Some v) then value ++ [s] else value
                    | None => value
                    end in
      oidc_json_string_array_append arr' value'
  end.

Definition oidc_json_object_get_string_array (json : option json_t) (name : string)
  (default_value : option (list string)) : option (list string) :=
  match oidc_json_object_get json name with
  | Some arr => if oidc_json_is_array (Some arr)
                then Some (oidc_json_string_array_append (json_array_items arr) [])
                else default_value
  | None => default_value
  end.

Definition oidc_json_object_get_int (json : option json_t) (name : string) (default_value : Z)
  : bool * Z :=
  match oidc_json_object_get json name with
  | Some v =>
      if oidc_json_is_integer (Some v) then
        let n := oidc_json_integer_value (Some v) in
        (true, if INT_MAX <? n then INT_MAX else if n <? INT_MIN then INT_MIN else n)
      else (false, default_value)
  | None => (false, default_value)
  end.

Definition oidc_json_object_get_int64 (json : option json_t) (name : string) (default_value : Z)
  : bool * Z :=
  match oidc_json_object_get json name with
  | Some v =>
      if oidc_json_is_integer (Some v) then (true, oidc_json_integer_value (Some v))
      else (false, default_value)
  | None => (false, default_value)
  end.

Definition oidc_json_object_get_bool (json : option json_t) (name : string) (default_value : Z)
  : bool * Z :=
  match oidc_json_object_get json name with
  | Some v =>
      if oidc_json_is_boolean (Some v)
      then (true, if oidc_json_is_true (Some v) then 1 else 0)
      else (false, default_value)
  | None => (false, default_value)
  end.

(** ** Merging *)

Fixpoint merge_loop (iter : list (string * json_t)) (dst : json_t) : json_t :=
  match iter with
  | [] => dst
  | (key, value) :: iter' => merge_loop iter' (oidc_json_object_set dst key (Some value))
  end.

(** [FALSE] leaves the destination as it was. *)
Definition oidc_json_merge (src dst : option json_t) : bool * option json_t :=
  match src, dst with
  | Some s, Some d => (true, Some (merge_loop (oidc_json_object_iter src) d))
  | _, _ => (false, dst)
  end.
End json.

(** ** Lemmas *)

Section json_lemmas.
Context {J : Jansson} {JS : JanssonSpec J}.
Implicit Types (j v : json_t) (k : string).

Definition is_object (j : json_t) : Prop := json_typeof j = JSON_OBJECT.

Lemma has_type_Some ts j : has_type ts (Some j) = true <-> json_typeof j ∈ ts.
Proof. simpl. by rewrite bool_decide_eq_true. Qed.

Lemma is_object_true j : oidc_json_is_object (Some j) = true <-> is_object j.
Proof. unfold oidc_json_is_object, is_object. rewrite has_type_Some. set_solver. Qed.

Lemma is_string_true j : oidc_json_is_string (Some j) = true <-> is_Some (json_string_value j).
Proof.
  unfold oidc_json_is_string. rewrite has_type_Some, string_value_type. set_solver.
Qed.

Lemma object_new : is_object oidc_json_object.
Proof. apply object_typeof. Qed.

Lemma object_get_new k : oidc_json_object_get (Some oidc_json_object) k = None.
Proof. simpl. unfold oidc_json_object. by rewrite object_get, object_items. Qed.

Lemma object_set_object j k (v : option json_t) : is_object j -> is_object (oidc_json_object_set j k v).
Proof. destruct v; simpl; [|done]. unfold is_object. by rewrite object_set_typeof. Qed.

Lemma object_del_object j k : is_object j -> is_object (oidc_json_object_del j k).
Proof. unfold is_object, oidc_json_object_del. by rewrite object_del_typeof. Qed.

Lemma object_get_set_eq j k v :
  is_object j -> json_utf8 k = true ->
  oidc_json_object_get (Some (oidc_json_object_set j k (Some v))) k = Some v.
Proof.
  intros Hj Hk. simpl. rewrite object_get.
  destruct (object_set_ok j k v Hj Hk) as [_ ->]. apply alist_get_set_eq.
Qed.

Lemma object_get_set_ne j k k' (v : option json_t) :
  k <> k' ->
  oidc_json_object_get (Some (oidc_json_object_set j k v)) k' = oidc_json_object_get (Some j) k'.
Proof.
  intros Hne. destruct v as [v|]; simpl; [|done].
  destruct (decide (json_typeof j = JSON_OBJECT)) as [Hj|Hj];
    [destruct (json_utf8 k) eqn:Hk|].
  - rewrite !object_get. destruct (object_set_ok j k v Hj Hk) as [_ ->].
    by apply alist_get_set_ne.
  - by rewrite object_set_fail by auto.
  - by rewrite object_set_fail by auto.
Qed.

Lemma object_get_del_eq j k : oidc_json_object_get (Some (oidc_json_object_del j k)) k = None.
Proof. simpl. unfold oidc_json_object_del. rewrite object_get, object_del_items.
  apply alist_get_del_eq. Qed.

Lemma object_get_del_ne j k k' :
  k <> k' ->
  oidc_json_object_get (Some (oidc_json_object_del j k)) k' = oidc_json_object_get (Some j) k'.
Proof. intros. simpl. unfold oidc_json_object_del. rewrite !object_get, object_del_items.
  by apply alist_get_del_ne. Qed.

(** Reading back a string that was stored under a key. *)
Lemma get_string_set_eq j k s d :
  is_object j -> json_utf8 k = true -> json_utf8 s = true ->
  oidc_json_object_get_string
    (Some (oidc_json_object_set_new j k (oidc_json_string (Some s)))) k d = Some s.
Proof.
  intros Hj Hk Hs. destruct (string_utf8 s Hs) as [v Hv].
  unfold oidc_json_object_get_string, oidc_json_object_set_new. simpl oidc_json_string.
  rewrite Hv, object_get_set_eq by done.
  assert (Hval : json_string_value v = Some s) by by apply string_value.
  assert (oidc_json_is_string (Some v) = true) as -> by (apply is_string_true; eauto).
  simpl. by rewrite Hval.
Qed.

Lemma get_string_set_ne j k k' (v : option json_t) d :
  k <> k' ->
  oidc_json_object_get_string (Some (oidc_json_object_set_new j k v)) k' d =
  oidc_json_object_get_string (Some j) k' d.
Proof.
  intros. unfold oidc_json_object_get_string, oidc_json_object_set_new.
  by rewrite object_get_set_ne.
Qed.

Lemma get_int64_set_eq j k z d :
  is_object j -> json_utf8 k = true -> INT64_MIN <= z <= INT64_MAX ->
  oidc_json_object_get_int64
    (Some (oidc_json_object_set_new j k (Some (oidc_json_integer z)))) k d = (true, z).
Proof.
  intros Hj Hk Hz. unfold oidc_json_object_get_int64, oidc_json_object_set_new.
  rewrite object_get_set_eq by done.
  assert (oidc_json_is_integer (Some (oidc_json_integer z)) = true) as ->.
  { apply has_type_Some. unfold oidc_json_integer. rewrite integer_typeof. set_solver. }
  simpl. unfold oidc_json_integer. by rewrite integer_value.
Qed.

Lemma get_int64_set_ne j k k' (v : option json_t) d :
  k <> k' ->
  oidc_json_object_get_int64 (Some (oidc_json_object_set_new j k v)) k' d =
  oidc_json_object_get_int64 (Some j) k' d.
Proof.
  intros. unfold oidc_json_object_get_int64, oidc_json_object_set_new.
  by rewrite object_get_set_ne.
Qed.

Lemma decode_object_is_object s j : oidc_json_decode_object s = Some j -> is_object j.
Proof.
  unfold oidc_json_decode_object, oidc_json_decode_object_err. split_match.
  intros. simplify_eq. apply is_object_true. by apply negb_false_iff.
Qed.

Lemma encode_object j f : is_object j -> exists s, oidc_json_encode (Some j) f = Some s.
Proof. intros Hj. simpl. by destruct (dumps_object j (oidc_json_flags2backend f) Hj); eauto. Qed.

Lemma encode_decode j f s :
  is_object j -> oidc_json_encode (Some j) f = Some s ->
  oidc_json_decode_object (Some s) = Some j.
Proof.
  intros Hj Hs. unfold oidc_json_decode_object, oidc_json_decode_object_err, oidc_json_parse.
  assert (oidc_json_flags2backend 0 = 0) as -> by done.
  erewrite loads_dumps by (simpl in Hs; eauto).
  by rewrite (proj2 (is_object_true j) Hj).
Qed.

Lemma merge_loop_object iter dst : is_object dst -> is_object (merge_loop iter dst).
Proof.
  revert dst. induction iter as [|[k v] iter IH]; simpl; [done|].
  intros dst Hd. apply IH. by apply (object_set_object dst k (Some v)).
Qed.

Lemma merge_loop_get iter dst k :
  is_object dst -> NoDup (map fst iter) -> Forall (fun kv => json_utf8 kv.1 = true) iter ->
  oidc_json_object_get (Some (merge_loop iter dst)) k =
  match alist_get k iter with
  | Some v => Some v
  | None => oidc_json_object_get (Some dst) k
  end.
Proof.
  revert dst. induction iter as [|[k0 v0] iter IH]; intros dst Hd Hn Hu; [done|].
  cbn [merge_loop alist_get]. apply NoDup_cons in Hn as [Hk Hn]. apply Forall_cons in Hu as [Hu0 Hu].
  rewrite IH; [|by apply (object_set_object dst k0 (Some v0))|done..].
  destruct (String.eqb_spec k k0) as [->|Hne].
  - assert (alist_get k0 iter = None) as ->.
    { apply alist_get_None. by rewrite <-list_elem_of_In. }
    by apply object_get_set_eq.
  - destruct (alist_get k iter); [done|]. by apply object_get_set_ne.
Qed.

Lemma array_has_value_loop_spec l n i :
  let r := array_has_value_loop l n i in
  (i <= r <= i + length l)%nat /\
  ((r < i + length l)%nat <-> exists v, v ∈ l /\ json_string_value v = Some n).
Proof.
  revert i. induction l as [|v l IH]; intros i; cbn [array_has_value_loop length].
  { split; [lia|]. split; [lia|]. intros (v & Hv & _). by apply not_elem_of_nil in Hv. }
  specialize (IH (S i)) as [Hb Hiff].
  assert (Hskip : json_string_value v <> Some n ->
    let r := array_has_value_loop l n (S i) in
    (i <= r <= i + S (length l))%nat /\
    ((r < i + S (length l))%nat <->
      exists v0, v0 ∈ v :: l /\ json_string_value v0 = Some n)).
  { intros Hne. cbv zeta in *. split; [lia|].
    replace (i + S (length l))%nat with (S i + length l)%nat by lia. rewrite Hiff.
    split; intros (w & Hw & Hs); exists w; (split; [|done]).
    - by right.
    - apply elem_of_cons in Hw as [->|]; [congruence|done]. }
  destruct (oidc_json_is_string (Some v)) eqn:Es; cbn [negb].
  - apply is_string_true in Es as [s Hs]. cbn [oidc_json_string_value mbind option_bind].
    rewrite Hs. cbn [_oidc_strcmp]. rewrite strcmp_eqb.
    destruct (String.eqb_spec s n) as [->|]; [|apply Hskip; congruence].
    split; [lia|]. split; [|lia]. intros _. exists v. split; [by left|done].
  - apply Hskip. intros Hs. assert (Hstr : is_Some (json_string_value v)) by eauto.
    apply is_string_true in Hstr. congruence.
Qed.
End json_lemmas.

#[export] Hint Resolve object_new object_set_object object_del_object utf8_ascii : oidc.

(** ** Properties of the wrapper layer *)

Section json_properties.
Context {J : Jansson} {JS : JanssonSpec J}.

(** [oidc_json_merge] into an object gives, for every key, the source's value
    when the source has the key and the destination's otherwise. *)
Lemma json_merge_override (src dst : json_t) (k : string) :
  json_typeof dst = JSON_OBJECT ->
  exists dst', oidc_json_merge (Some src) (Some dst) = (true, Some dst') /\
    json_typeof dst' = JSON_OBJECT /\
    oidc_json_object_get (Some dst') k =
      match oidc_json_object_get (Some src) k with
      | Some v => Some v
      | None => oidc_json_object_get (Some dst) k
      end.
Proof.
  intros Hd. eexists. split; [done|]. split; [by apply merge_loop_object|].
  cbn [oidc_json_object_iter]. rewrite merge_loop_get; [|done|apply items_NoDup|].
  - cbn [oidc_json_object_get mbind option_bind]. by rewrite (object_get src).
  - apply Forall_forall. intros [k' v'] Hin%list_elem_of_In. by eapply items_utf8.
Qed.

(** [oidc_json_object_get_int] always yields a C [int]: the stored integer when it
    fits, the nearest bound when it does not, the default when there is no integer. *)
Theorem json_get_int_clamped (j : option json_t) (name : string) (d : Z) :
  INT_MIN <= d <= INT_MAX ->
  let '(found, v) := oidc_json_object_get_int j name d in
  INT_MIN <= v <= INT_MAX /\
  (found = false -> v = d) /\
  (found = true -> exists w, oidc_json_object_get j name = Some w /\
     v = Z.max INT_MIN (Z.min INT_MAX (json_integer_value w))).
Proof.
  intros Hd. unfold oidc_json_object_get_int, INT_MIN, INT_MAX in *.
  destruct (oidc_json_object_get j name) as [w|]; [|naive_solver].
  destruct (oidc_json_is_integer (Some w)); [|naive_solver].
  cbn [oidc_json_integer_value].
  destruct (Z.ltb_spec 2147483647 (json_integer_value w)).
  { split; [lia|]. split; [done|]. intros _. exists w. split; [done|lia]. }
  destruct (Z.ltb_spec (json_integer_value w) (-2147483648));
    (split; [lia|]; split; [done|]; intros _; exists w; split; [done|lia]).
Qed.

(** [oidc_json_array_has_value] holds exactly when the haystack is an array one
    of whose elements is the string [needle]; other elements are skipped. *)
Lemma json_array_has_value_spec (h : json_t) (needle : string) :
  oidc_json_array_has_value (Some h) (Some needle) = true <->
  json_typeof h = JSON_ARRAY /\
  exists v, v ∈ json_array_items h /\ json_string_value v = Some needle.
Proof.
  unfold oidc_json_array_has_value. destruct (oidc_json_is_array (Some h)) eqn:Ea; cbn [negb].
  - apply has_type_Some, list_elem_of_singleton in Ea. rewrite negb_true_iff, Nat.eqb_neq.
    pose proof (array_has_value_loop_spec (json_array_items h) needle 0) as [Hb Hiff].
    cbv zeta in *. cbn [oidc_json_array_size]. rewrite <-Hiff. split; [|lia].
    intros Hne. split; [done|lia].
  - split; [done|]. intros [Ht _]. exfalso.
    assert (oidc_json_is_array (Some h) = true); [|congruence].
    apply has_type_Some. rewrite Ht. set_solver.
Qed.
End json_properties.

(** The theorems at the concrete instance. *)
Definition demo_obj : Model.jv :=
  Model.JObj [("a", Model.JInt 5000000000); ("b", Model.JStr "x")].

Lemma json_merge_override_witness :
  exists dst', oidc_json_merge (J:=Model.jansson) (Some demo_obj) (Some (Model.JObj [("b", Model.JNull)]))
                 = (true, Some dst') /\
    Model.typeof dst' = JSON_OBJECT /\
    oidc_json_object_get (J:=Model.jansson) (Some dst') "b" = Some (Model.JStr "x").
Proof.
  apply (json_merge_override (J:=Model.jansson) demo_obj (Model.JObj [("b", Model.JNull)]) "b").
  reflexivity.
Defined.

Lemma json_get_int_clamped_witness :
  let '(found, v) := oidc_json_object_get_int (J:=Model.jansson) (Some demo_obj) "a" 7 in
  INT_MIN <= v <= INT_MAX.
Proof.
  apply (json_get_int_clamped (J:=Model.jansson) (Some demo_obj) "a" 7).
  split; vm_compute; discriminate.
Defined.

Lemma json_array_has_value_spec_witness :
  oidc_json_array_has_value (J:=Model.jansson)
    (Some (Model.JArr [Model.JNull; Model.JStr "x"])) (Some "x") = true <->
  Model.typeof (Model.JArr [Model.JNull; Model.JStr "x"]) = JSON_ARRAY /\
  exists v, v ∈ [Model.JNull; Model.JStr "x"] /\ @json_string_value Model.jansson v = Some "x".
Proof.
  apply (json_array_has_value_spec (J:=Model.jansson)
    (Model.JArr [Model.JNull; Model.JStr "x"]) "x").
Defined.
