(* ===== verification/Apr.v ===== *)
(** * What the program uses of APR and httpd

    APR tables, whose keys compare without regard to case, the request record,
    and the parsing helpers of httpd as the parameter [Httpd] with the part of
    their documentation the program relies on. *)

From S2P Require Import Prelude Cstr.

(** ** APR tables *)

Definition table : Type := list (string * string).

(** [strcasecmp(a, b) == 0]. *)
Definition strcaseeq (a b : string) : bool := String.eqb (str_map tolower a) (str_map tolower b).

Fixpoint apr_table_get (t : table) (k : string) : option string :=
  match t with
  | [] => None
  | (k', v) :: t' => if strcaseeq k' k then Some v else apr_table_get t' k
  end.

Fixpoint apr_table_unset (t : table) (k : string) : table :=
  match t with
  | [] => []
  | (k', v) :: t' => if strcaseeq k' k then apr_table_unset t' k else (k', v) :: apr_table_unset t' k
  end.

(** The first entry gets the value and the others with that key are dropped; a new
    key is appended. *)
Fixpoint apr_table_set (t : table) (k v : string) : table :=
  match t with
  | [] => [(k, v)]
  | (k', v') :: t' =>
      if strcaseeq k' k then (k', v) :: apr_table_unset t' k else (k', v') :: apr_table_set t' k v
  end.

Definition apr_table_add (t : table) (k v : string) : table := t ++ [(k, v)].

Lemma strcaseeq_refl k : strcaseeq k k = true.
Proof. apply String.eqb_refl. Qed.

Lemma strcaseeq_true a b : strcaseeq a b = true <-> str_map tolower a = str_map tolower b.
Proof. apply String.eqb_eq. Qed.

Lemma strcaseeq_trans a b c : strcaseeq a b = true -> strcaseeq a c = strcaseeq b c.
Proof. rewrite strcaseeq_true. unfold strcaseeq. by intros ->. Qed.

Lemma strcaseeq_sym a b : strcaseeq a b = strcaseeq b a.
Proof. apply String.eqb_sym. Qed.

Lemma table_get_unset_eq t k k' : strcaseeq k k' = true -> apr_table_get (apr_table_unset t k) k' = None.
Proof.
  intros Hk. induction t as [|[k0 v0] t IH]; simpl; [done|].
  destruct (strcaseeq k0 k) eqn:E; [done|]. simpl.
  rewrite strcaseeq_sym, <-(strcaseeq_trans k k' k0 Hk), strcaseeq_sym, E. done.
Qed.

Lemma table_get_unset_ne t k k' :
  strcaseeq k k' = false -> apr_table_get (apr_table_unset t k) k' = apr_table_get t k'.
Proof.
  intros Hk. induction t as [|[k0 v0] t IH]; simpl; [done|].
  destruct (strcaseeq k0 k) eqn:E; simpl; [|by rewrite IH].
  by rewrite (strcaseeq_trans k0 k k' E), Hk.
Qed.

Lemma table_get_set_eq t k k' v : strcaseeq k k' = true -> apr_table_get (apr_table_set t k v) k' = Some v.
Proof.
  intros Hk. induction t as [|[k0 v0] t IH]; simpl; [by rewrite Hk|].
  destruct (strcaseeq k0 k) eqn:E; simpl.
  - by rewrite (strcaseeq_trans k0 k k' E), Hk.
  - by rewrite strcaseeq_sym, <-(strcaseeq_trans k k' k0 Hk), strcaseeq_sym, E.
Qed.

Lemma table_get_set_ne t k k' v :
  strcaseeq k k' = false -> apr_table_get (apr_table_set t k v) k' = apr_table_get t k'.
Proof.
  intros Hk. induction t as [|[k0 v0] t IH]; simpl; [by rewrite Hk|].
  destruct (strcaseeq k0 k) eqn:E; simpl; [|by rewrite IH].
  by rewrite (strcaseeq_trans k0 k k' E), Hk, table_get_unset_ne.
Qed.

(** ** Parsing helpers of httpd *)

(** The members of [apr_uri_t] the program reads. *)
Record apr_uri_t := mk_uri {
  uri_scheme : option string;
  uri_hostname : option string;
  uri_port_str : option string;
  uri_path : option string
}.

Class Httpd := {
  ap_getword : string -> ascii -> string * string;       (* the word, the advanced line *)
  ap_getword_white : string -> string * string;
  ap_unescape_url : string -> string;
  apr_strnatcasecmp : string -> string -> Z;
  apr_uri_parse : string -> option apr_uri_t             (* [None]: failure *)
}.

Class HttpdSpec (H : Httpd) : Prop := {
  getword_shorter l c : l <> "" -> (String.length (ap_getword l c).2 < String.length l)%nat;
  getword_end l c : strchr l c = None -> ap_getword l c = (l, "");
  getword_split a c b :
    strchr a c = None -> (forall d b', b = String d b' -> d <> c) ->
    ap_getword (a ^^ String c b) c = (a, b);
  getword_white_shorter l : l <> "" -> (String.length (ap_getword_white l).2 < String.length l)%nat;
  getword_white_end a : str_forall (fun c => negb (isspace c)) a = true -> ap_getword_white a = (a, "");
  getword_white_split a b : str_forall (fun c => negb (isspace c)) a = true ->
    (forall d b', b = String d b' -> isspace d = false) -> ap_getword_white (a ^^ String " " b) = (a, b);
  natcasecmp_same a b : str_map tolower a = str_map tolower b -> apr_strnatcasecmp a b = 0
}.

(** The results of repeated calls while [*line] is not at the end: with fuel for one
    call per character, which [HttpdSpec] shows to be enough. *)
Fixpoint words (getw : string -> string * string) (fuel : nat) (l : string) : option (list string) :=
  match fuel with
  | O => None
  | S fuel' =>
      if String.eqb l "" then Some []
      else let '(w, l') := getw l in (cons w) <$> words getw fuel' l'
  end.

Lemma words_step getw fuel l w l' :
  l <> "" -> getw l = (w, l') -> words getw (S fuel) l = cons w <$> words getw fuel l'.
Proof. intros Hl E. cbn [words]. destruct (String.eqb_spec l ""); [done|]. by rewrite E. Qed.

Lemma words_total getw fuel l :
  (forall l, l <> "" -> (String.length (getw l).2 < String.length l)%nat) ->
  (String.length l < fuel)%nat -> is_Some (words getw fuel l).
Proof.
  intros Hs. revert l. induction fuel as [|fuel IH]; intros l Hf; [lia|]. cbn [words].
  destruct (String.eqb_spec l ""); [by eexists|]. specialize (Hs l n).
  destruct (getw l) as [w l']. simpl in Hs. destruct (IH l' ltac:(lia)) as [ws ->]. by eexists.
Qed.

(** A concrete instance. *)
Module HttpdModel.
Fixpoint skip_char (c : ascii) (s : string) : string :=
  match s with
  | String d s' => if Ascii.eqb d c then skip_char c s' else s
  | "" => ""
  end.

Fixpoint span (p : ascii -> bool) (s : string) : string * string :=
  match s with
  | "" => ("", "")
  | String c s' => if p c then ("", s) else let '(a, b) := span p s' in (String c a, b)
  end.

Definition getword (l : string) (c : ascii) : string * string :=
  let '(w, r) := span (Ascii.eqb c) l in (w, skip_char c r).

Definition getword_white (l : string) : string * string :=
  let '(w, r) := span isspace l in (w, skip_space r).

(** scheme://host/path, or a path. *)
Definition uri_parse (s : string) : apr_uri_t :=
  match strstr s "://" with
  | None => mk_uri None None None (Some s)
  | Some n =>
      let rest := str_drop (n + 3) s in
      let nonempty x := if String.eqb x "" then None else Some x in
      mk_uri (Some (str_take n s)) (nonempty (str_before rest "/")) None (strchr rest "/")
  end.

#[export] Instance httpd : Httpd := {|
  ap_getword := getword;
  ap_getword_white := getword_white;
  ap_unescape_url s := s;
  apr_strnatcasecmp a b := strcmp (str_map tolower a) (str_map tolower b);
  apr_uri_parse s := Some (uri_parse s)
|}.

Lemma span_length p s : (String.length (span p s).2 <= String.length s)%nat.
Proof.
  induction s as [|c s IH]; simpl; [lia|]. destruct (p c); simpl; [lia|].
  destruct (span p s). simpl in *. lia.
Qed.

Lemma skip_char_length c s : (String.length (skip_char c s) <= String.length s)%nat.
Proof. induction s as [|d s IH]; simpl; [lia|]. destruct (Ascii.eqb d c); simpl; lia. Qed.

Lemma skip_space_length s : (String.length (skip_space s) <= String.length s)%nat.
Proof. induction s as [|d s IH]; simpl; [lia|]. destruct (isspace d); simpl; lia. Qed.

#[global] Instance httpd_spec : HttpdSpec httpd.
Proof.
  split; simpl.
  - intros [|d l] c Hl; [done|]. unfold getword. simpl. destruct (Ascii.eqb_spec c d) as [->|]; simpl.
    + rewrite Ascii.eqb_refl. pose proof (skip_char_length d l). lia.
    + pose proof (span_length (Ascii.eqb c) l). destruct (span (Ascii.eqb c) l) as [a b]. simpl in *.
      pose proof (skip_char_length c b). lia.
  - intros l c Hl. unfold getword. assert (span (Ascii.eqb c) l = (l, "")) as ->; [|done].
    induction l as [|d l IH]; [done|]. simpl in *. rewrite Ascii.eqb_sym.
    destruct (Ascii.eqb d c); [done|]. by rewrite IH.
  - intros a c b Ha Hb. unfold getword.
    assert (span (Ascii.eqb c) (a ^^ String c b) = (a, String c b)) as ->.
    { induction a as [|d a IH]; simpl in *; [by rewrite Ascii.eqb_refl|]. rewrite Ascii.eqb_sym.
      destruct (Ascii.eqb d c); [done|]. by rewrite IH. }
    cbn [skip_char]. rewrite Ascii.eqb_refl. destruct b as [|d b]; [done|]. cbn [skip_char].
    destruct (Ascii.eqb_spec d c) as [->|]; [|done]. by destruct (Hb c b).
  - intros [|d l] Hl; [done|]. unfold getword_white. simpl. destruct (isspace d) eqn:E; simpl.
    + rewrite E. pose proof (skip_space_length l). lia.
    + pose proof (span_length isspace l). destruct (span isspace l) as [a b]. simpl in *.
      pose proof (skip_space_length b). lia.
  - intros a Ha. unfold getword_white. assert (span isspace a = (a, "")) as ->; [|done].
    induction a as [|d a IH]; [done|]. cbn in *. apply andb_true_iff in Ha as [->%negb_true_iff Ha]. by rewrite IH.
  - intros a b Ha Hb. unfold getword_white.
    assert (span isspace (a ^^ String " " b) = (a, String " " b)) as ->.
    { induction a as [|d a IH]; [done|]. cbn in *. apply andb_true_iff in Ha as [->%negb_true_iff Ha]. by rewrite IH. }
    cbn. destruct b as [|d b]; [done|]. cbn. by rewrite (Hb d b eq_refl).
  - intros a b ->. apply strcmp_refl.
Qed.
End HttpdModel.

(** ** The request *)

(** [request_rec] with the fields the program reads and writes; [state] is the
    hash table src/util/request_state.c hangs off the main request's pool. *)
(** Method numbers of httpd. *)
Definition M_GET : Z := 0.
Definition M_PUT : Z := 1.
Definition M_POST : Z := 2.

Record request := mk_request {
  r_method_number : Z;
  r_uri : option string;
  r_unparsed_uri : string;
  r_path : option string;                 (* parsed_uri.path *)
  r_args : option string;
  r_user : option string;
  headers_in : table;
  headers_out : table;
  err_headers_out : table;
  subprocess_env : table;
  r_scheme : option string;               (* ap_http_scheme(r) *)
  r_server_name : string;                 (* ap_get_server_name(r) *)
  r_port : Z;                             (* the local port of the connection *)
  r_state : gmap string string;
  r_post_params : option table            (* OIDC_USERDATA_POST_PARAMS_KEY *)
}.

Definition with_headers_in (t : table) (r : request) : request :=
  mk_request (r_method_number r) (r_uri r) (r_unparsed_uri r) (r_path r) (r_args r) (r_user r)
    t (headers_out r) (err_headers_out r) (subprocess_env r) (r_scheme r) (r_server_name r)
    (r_port r) (r_state r) (r_post_params r).
Definition with_headers_out (t : table) (r : request) : request :=
  mk_request (r_method_number r) (r_uri r) (r_unparsed_uri r) (r_path r) (r_args r) (r_user r)
    (headers_in r) t (err_headers_out r) (subprocess_env r) (r_scheme r) (r_server_name r)
    (r_port r) (r_state r) (r_post_params r).
Definition with_err_headers_out (t : table) (r : request) : request :=
  mk_request (r_method_number r) (r_uri r) (r_unparsed_uri r) (r_path r) (r_args r) (r_user r)
    (headers_in r) (headers_out r) t (subprocess_env r) (r_scheme r) (r_server_name r)
    (r_port r) (r_state r) (r_post_params r).
Definition with_subprocess_env (t : table) (r : request) : request :=
  mk_request (r_method_number r) (r_uri r) (r_unparsed_uri r) (r_path r) (r_args r) (r_user r)
    (headers_in r) (headers_out r) (err_headers_out r) t (r_scheme r) (r_server_name r)
    (r_port r) (r_state r) (r_post_params r).
Definition with_user (u : option string) (r : request) : request :=
  mk_request (r_method_number r) (r_uri r) (r_unparsed_uri r) (r_path r) (r_args r) u
    (headers_in r) (headers_out r) (err_headers_out r) (subprocess_env r) (r_scheme r) (r_server_name r)
    (r_port r) (r_state r) (r_post_params r).
Definition with_state (m : gmap string string) (r : request) : request :=
  mk_request (r_method_number r) (r_uri r) (r_unparsed_uri r) (r_path r) (r_args r) (r_user r)
    (headers_in r) (headers_out r) (err_headers_out r) (subprocess_env r) (r_scheme r) (r_server_name r)
    (r_port r) m (r_post_params r).
Definition with_post_params (t : option table) (r : request) : request :=
  mk_request (r_method_number r) (r_uri r) (r_unparsed_uri r) (r_path r) (r_args r) (r_user r)
    (headers_in r) (headers_out r) (err_headers_out r) (subprocess_env r) (r_scheme r) (r_server_name r)
    (r_port r) (r_state r) t.

Definition demo_request : request :=
  mk_request M_GET (Some "/p") "/p?x=1" (Some "/p") (Some "x=1") None [] [] [] [] (Some "https")
    "www.example.com" 443 ∅ None.
