(* ===== verification/StrUtil.v ===== *)
(** * src/util/util.c: string utilities

    Comparison, search and encoding of strings; the part of src/util/util.c that
    reads requests is in [Form] and [Html]. *)

From S2P Require Import Prelude Cstr Apr.

(** ** Definitions *)

Definition oidc_util_char_to_env (c : ascii) : ascii :=
  if isalnum c then toupper c else "_"%char.

(** The loop of [oidc_util_strnenvcmp] from position [i] on. *)
Fixpoint strnenvcmp_loop (a b : string) (i len : Z) : Z :=
  if (0 <=? len) && (len <=? i) then 0
  else
    match a, b with
    | "", "" => 0
    | String _ _, "" => 1
    | "", String _ _ => -1
    | String c a', String d b' =>
        let d := code (oidc_util_char_to_env c) - code (oidc_util_char_to_env d) in
        if d =? 0 then strnenvcmp_loop a' b' (i + 1) len else d
    end.

Definition oidc_util_strnenvcmp (a b : string) (len : Z) : Z := strnenvcmp_loop a b 0 len.

(** The loop of [oidc_util_strcasestr]: [s1] is the suffix under test, at offset
    [off] of the haystack, [s] and [p] what is left to compare of it and of the
    needle [s2].  The result is the offset, or [None] for [NULL]. *)
Fixpoint strcasestr_loop (fuel : nat) (s1 s p s2 : string) (off : nat) : option (option nat) :=
  match fuel with
  | O => None
  | S fuel' =>
      match p, s with
      | "", _ => Some (Some off)
      | String _ _, "" => Some None
      | String pc p', String sc s' =>
          if Ascii.eqb pc sc || Ascii.eqb (tolower pc) (tolower sc)
          then strcasestr_loop fuel' s1 s' p' s2 off
          else let s1 := str_drop 1 s1 in strcasestr_loop fuel' s1 s1 s2 s2 (S off)
      end
  end.

Definition oidc_util_strcasestr (s1 s2 : option string) : option (option nat) :=
  match s1, s2 with
  | Some s, Some p =>
      strcasestr_loop (S ((String.length s + 1) * (String.length p + 1))) s s p p 0
  | _, _ => Some None
  end.

(** [a[n1 - 1] == '/'] for the last character of a non-empty string. *)
Fixpoint last_char (s : string) : option ascii :=
  match s with
  | "" => None
  | String c "" => Some c
  | String _ s' => last_char s'
  end.

Definition ends_with_slash (s : option string) : bool :=
  match s with
  | Some s => match last_char s with Some c => Ascii.eqb c "/" | None => false end
  | None => false
  end.

Definition oidc_util_issuer_match (a b : option string) : bool :=
  if negb (_oidc_strcmp a b =? 0) then
    let n1 := _oidc_strlen a in
    let n2 := _oidc_strlen b in
    let n := if (n1 =? n2 + 1) && ends_with_slash a then n2
             else if (n2 =? n1 + 1) && ends_with_slash b then n1
             else 0 in
    if (n =? 0) || negb (_oidc_strncmp a b (Z.to_nat n) =? 0) then false else true
  else true.

Section spaced.
Context {H : Httpd}.

(** The keys of the hash table, whose values are the keys themselves. *)
Definition oidc_util_spaced_string_to_hashtable (str : option string) : option (gset string) :=
  match str with
  | None => Some ∅
  | Some s => list_to_set <$> words ap_getword_white (S (String.length s)) s
  end.

Definition oidc_util_spaced_string_equals (a b : option string) : option bool :=
  ht_a ← oidc_util_spaced_string_to_hashtable a;
  ht_b ← oidc_util_spaced_string_to_hashtable b;
  if negb (Nat.eqb (size ht_a) (size ht_b)) then Some false
  else Some (forallb (fun k => bool_decide (k ∈ ht_b)) (elements ht_a)).

Definition oidc_util_spaced_string_contains (str match_ : option string) : option bool :=
  match str, match_ with
  | Some _, Some m =>
      ht ← oidc_util_spaced_string_to_hashtable str; Some (bool_decide (m ∈ ht))
  | _, _ => Some false
  end.

Definition _oidc_strnatcasecmp (a b : option string) : Z :=
  match a, b with Some a, Some b => apr_strnatcasecmp a b | _, _ => -1 end.

(** [tail] is the suffix at offset [hlen - slen]; the character before it is read
    when the offset is not 0. *)
Definition oidc_util_hostname_endswith (hostname suffix : option string) : bool :=
  match hostname, suffix with
  | Some h, Some s =>
      let hlen := String.length h in
      let slen := String.length s in
      if (slen =? 0)%nat || (hlen <? slen)%nat then false
      else
        let off := (hlen - slen)%nat in
        let tail := str_drop off h in
        if negb (_oidc_strnatcasecmp (Some tail) (Some s) =? 0) then false
        else (off =? 0)%nat || (match String.get (off - 1) h with
                                | Some c => Ascii.eqb c "."
                                | None => false
                                end)
  | _, _ => false
  end.

Definition oidc_util_cookie_domain_valid (hostname cookie_domain : option string) : bool :=
  match cookie_domain with
  | None => false
  | Some d =>
      let check_cookie := match d with
                          | String c d' => if code c =? 46 then d' else d
                          | "" => d
                          end in
      oidc_util_hostname_endswith hostname (Some check_cookie)
  end.
End spaced.

Definition hex_digit (n : Z) : ascii := default "0"%char (String.get (Z.to_nat n) "0123456789abcdef").

Fixpoint oidc_util_hex_encode (bytes : list Z) : string :=
  match bytes with
  | [] => ""
  | b :: bytes' =>
      String (hex_digit (Z.shiftr b 4)) (String (hex_digit (Z.land b 0x0f)) (oidc_util_hex_encode bytes'))
  end.

Definition OIDC_UTIL_MASK_VALUE_PREFIX_LEN : Z := 4.

(** [mask] is the result of [oidc_util_log_mask_secrets]. *)
Definition oidc_util_mask_value (mask : bool) (value : option string) : string :=
  match value with
  | None => "(null)"
  | Some v =>
      if negb mask then v
      else
        let len := _oidc_strlen (Some v) in
        if len <=? OIDC_UTIL_MASK_VALUE_PREFIX_LEN then "***"
        else str_take (Z.to_nat OIDC_UTIL_MASK_VALUE_PREFIX_LEN) v ^^ "...(" ^^ pretty len ^^ " chars)"
  end.

(** The configuration is [None] when there is no request or no module configuration. *)
Definition oidc_util_log_mask_secrets (debug_mask_secrets : option Z) : bool :=
  match debug_mask_secrets with
  | None => true
  | Some v => negb (v =? 0)
  end.

(** The constant-time comparison of OpenSSL. *)
Class CryptoMemcmp := { CRYPTO_memcmp : string -> string -> nat -> Z }.
Class CryptoMemcmpSpec (C : CryptoMemcmp) : Prop := {
  memcmp_take a b n : (n <= String.length a)%nat -> (n <= String.length b)%nat ->
    CRYPTO_memcmp a b n = 0 <-> str_take n a = str_take n b
}.

Definition oidc_util_strcmp_const_time `{CryptoMemcmp} (a b : option string) : bool :=
  match a, b with
  | Some a', Some b' =>
      let len_a := _oidc_strlen a in
      let len_b := _oidc_strlen b in
      if negb (len_a =? len_b) then false
      else CRYPTO_memcmp a' b' (Z.to_nat len_a) =? 0
  | None, None => true
  | _, _ => false
  end.

(** ** Lemmas *)

(** The offset of the first case-insensitive occurrence, by definition. *)
Definition ci_prefix (p s : string) : bool := str_prefix (str_map tolower p) (str_map tolower s).
Fixpoint ci_find (h p : string) : option nat :=
  if ci_prefix p h then Some 0%nat
  else match h with
       | "" => None
       | String _ h' => S <$> ci_find h' p
       end.

Lemma ci_prefix_length p s : ci_prefix p s = true -> (String.length p <= String.length s)%nat.
Proof.
  unfold ci_prefix. rewrite str_prefix_app. intros [t E]. apply (f_equal String.length) in E.
  rewrite length_append, !str_map_length in E. lia.
Qed.

Lemma ci_find_short h p : (String.length h < String.length p)%nat -> ci_find h p = None.
Proof.
  revert p. induction h as [|c h IH]; intros p Hl; cbn [ci_find];
    (destruct (ci_prefix p _) eqn:E; [apply ci_prefix_length in E; simpl in *; lia|]); [done|].
  rewrite IH; [done|]. simpl in Hl. lia.
Qed.

Lemma ci_find_hit h p : ci_prefix p h = true -> ci_find h p = Some 0%nat.
Proof. intros E. by destruct h; cbn [ci_find]; rewrite E. Qed.

Lemma ci_prefix_split a b s p :
  str_map tolower a = str_map tolower b -> ci_prefix (b ^^ p) (a ^^ s) = ci_prefix p s.
Proof.
  intros E. unfold ci_prefix. rewrite !str_map_app, E. generalize (str_map tolower b). intros q.
  induction q as [|c q IH]; simpl; [done|]. by rewrite Ascii.eqb_refl.
Qed.

Lemma strcasestr_loop_spec fuel a s b p off :
  str_map tolower a = str_map tolower b ->
  (String.length p + String.length (a ^^ s) * (String.length (b ^^ p) + 1) < fuel)%nat ->
  strcasestr_loop fuel (a ^^ s) s p (b ^^ p) off = Some ((fun n => (off + n)%nat) <$> ci_find (a ^^ s) (b ^^ p)).
Proof.
  revert a s b p off. induction fuel as [|fuel IH]; intros a s b p off Hab Hf; [lia|].
  cbn [strcasestr_loop]. destruct p as [|pc p].
  - rewrite ci_find_hit by by rewrite ci_prefix_split. simpl. by rewrite Nat.add_0_r.
  - assert (Hlab : String.length a = String.length b)
      by (apply (f_equal String.length) in Hab; by rewrite !str_map_length in Hab).
    destruct s as [|sc s].
    + rewrite ci_find_short; [done|]. rewrite !length_append. simpl. lia.
    + assert (Hor : Ascii.eqb pc sc || Ascii.eqb (tolower pc) (tolower sc) = Ascii.eqb (tolower pc) (tolower sc)).
      { destruct (Ascii.eqb_spec pc sc) as [->|]; [|done]. by rewrite Ascii.eqb_refl. }
      rewrite Hor. destruct (Ascii.eqb_spec (tolower pc) (tolower sc)) as [E|E].
      * replace (a ^^ String sc s) with ((a ^^ String sc "") ^^ s) in * by (rewrite append_assoc; done).
        replace (b ^^ String pc p) with ((b ^^ String pc "") ^^ p) in * by (rewrite append_assoc; done).
        apply IH; [|simpl in Hf; lia]. rewrite !str_map_app, Hab. simpl. by rewrite E.
      * assert (Hne : ci_prefix (b ^^ String pc p) (a ^^ String sc s) = false).
        { rewrite ci_prefix_split by done. unfold ci_prefix. simpl.
          destruct (Ascii.eqb_spec (tolower pc) (tolower sc)); done. }
        destruct (a ^^ String sc s) as [|c h] eqn:Ea; [by destruct a|].
        cbn [str_drop ci_find]. rewrite Hne.
        specialize (IH "" h "" (b ^^ String pc p) (S off) eq_refl). cbn [String.append] in IH.
        rewrite IH; [by destruct (ci_find h _); simpl; [rewrite Nat.add_succ_r|]|].
        change (String.length (String c h)) with (S (String.length h)) in Hf. lia.
Qed.

Lemma char_eq_iff c d :
  code (oidc_util_char_to_env c) - code (oidc_util_char_to_env d) = 0 <->
  oidc_util_char_to_env c = oidc_util_char_to_env d.
Proof. split; [intros ?; apply code_inj; lia|intros ->; lia]. Qed.

Lemma strnenvcmp_loop_spec a b i len :
  0 <= i ->
  strnenvcmp_loop a b i len = 0 <->
  if 0 <=? len then
    str_take (Z.to_nat (len - i)) (str_map oidc_util_char_to_env a) =
    str_take (Z.to_nat (len - i)) (str_map oidc_util_char_to_env b)
  else str_map oidc_util_char_to_env a = str_map oidc_util_char_to_env b.
Proof.
  revert b i. induction a as [|c a IH]; intros b i Hi; cbn [strnenvcmp_loop];
    destruct (Z.leb_spec 0 len) as [Hlen|Hlen]; cbn [andb].
  - destruct (Z.leb_spec len i); [by replace (Z.to_nat (len - i)) with 0%nat by lia; destruct b|].
    replace (Z.to_nat (len - i)) with (S (Z.to_nat (len - i - 1))) by lia. by destruct b.
  - by destruct b.
  - destruct (Z.leb_spec len i); [by replace (Z.to_nat (len - i)) with 0%nat by lia; destruct b|].
    replace (Z.to_nat (len - i)) with (S (Z.to_nat (len - (i + 1)))) by lia.
    destruct b as [|d b]; [done|]. cbn [str_map str_take].
    pose proof (char_eq_iff c d) as Hcd. specialize (IH b (i + 1) ltac:(lia)).
    destruct (Z.leb_spec 0 len); [|lia].
    destruct (Z.eqb_spec (code (oidc_util_char_to_env c) - code (oidc_util_char_to_env d)) 0).
    + rewrite IH. apply Hcd in e. rewrite e. split; [by intros ->|by intros [=]].
    + split; [done|]. intros [= Hc _]. by rewrite Hcd in n.
  - destruct b as [|d b]; [done|]. cbn [str_map].
    pose proof (char_eq_iff c d) as Hcd. specialize (IH b (i + 1) ltac:(lia)).
    destruct (Z.leb_spec 0 len); [lia|].
    destruct (Z.eqb_spec (code (oidc_util_char_to_env c) - code (oidc_util_char_to_env d)) 0).
    + rewrite IH. apply Hcd in e. rewrite e. split; [by intros ->|by intros [=]].
    + split; [done|]. intros [= Hc _]. by rewrite Hcd in n.
Qed.

Lemma last_char_app s c : last_char (s ^^ String c "") = Some c.
Proof. induction s as [|d s IH]; [done|]. cbn [String.append last_char]. destruct s; [done|exact IH]. Qed.

Lemma last_char_inv s c : last_char s = Some c -> exists t, s = (t ^^ String c "").
Proof.
  induction s as [|d s IH]; [done|]. destruct s as [|e s].
  - intros [= ->]. by exists "".
  - intros Hl. destruct (IH Hl) as [t ->]. by exists (String d t).
Qed.

Lemma ends_with_slash_spec s : ends_with_slash (Some s) = true <-> exists t, s = (t ^^ "/").
Proof.
  simpl. split.
  - destruct (last_char s) eqn:E; [|done]. intros ->%Ascii.eqb_eq. by apply last_char_inv.
  - intros [t ->]. by rewrite last_char_app.
Qed.

Lemma strncmp_same n a b :
  (String.length a = n)%nat -> (String.length b = n)%nat -> strncmp n a b = 0 <-> a = b.
Proof.
  intros <-. revert b. induction a as [|c a IH]; intros [|d b]; simpl; try done.
  intros [= Hl]. destruct (Ascii.eqb_spec c d) as [->|Hne].
  - rewrite IH by done. split; [by intros ->|by intros [=]].
  - split; [|congruence]. intros Hc. exfalso. apply Hne, code_inj. lia.
Qed.

Lemma strncmp_app n a b x y :
  (String.length a = n)%nat -> (String.length b = n)%nat ->
  strncmp n (a ^^ x) (b ^^ y) = strncmp n a b.
Proof.
  intros <-. revert b. induction a as [|c a IH]; intros [|d b]; simpl; try done.
  intros [= Hl]. case_match; [|done]. by apply IH.
Qed.

(** The two issuers differ in one trailing slash. *)
Lemma issuer_match_half a b :
  _oidc_strlen (Some a) = _oidc_strlen (Some b) + 1 ->
  ends_with_slash (Some a) = true ->
  (strncmp (Z.to_nat (zlen b)) a b = 0 <-> a = (b ^^ "/")) /\
  (strncmp (Z.to_nat (zlen b)) b a = 0 <-> a = (b ^^ "/")).
Proof.
  intros Hl [t ->]%ends_with_slash_spec. unfold _oidc_strlen, zlen in *. rewrite Nat2Z.id.
  rewrite length_append in Hl. simpl in Hl.
  assert (String.length t = String.length b) as Ht by lia.
  pose proof (strncmp_app (String.length b) t b "/" "" Ht eq_refl) as H1.
  pose proof (strncmp_app (String.length b) b t "" "/" eq_refl Ht) as H2.
  rewrite append_nil_r in H1, H2. rewrite H1, H2, !strncmp_same by done.
  assert (Hinj : (t ^^ "/") = (b ^^ "/") <-> t = b).
  { split; [|by intros ->]. intros E. apply (f_equal (str_take (String.length t))) in E.
    rewrite str_take_app, Ht, str_take_app in E. done. }
  rewrite Hinj. naive_solver.
Qed.

(** Equal, or different only in one trailing slash that follows a non-empty rest. *)
Definition same_issuer (x y : string) : Prop :=
  x = y \/ (y <> "" /\ x = (y ^^ "/")) \/ (x <> "" /\ y = (x ^^ "/")).

Lemma issuer_match_true (a b : option string) :
  oidc_util_issuer_match a b = true <-> exists x y, a = Some x /\ b = Some y /\ same_issuer x y.
Proof.
  unfold same_issuer.
  destruct a as [a|], b as [b|].
  2-4: split; [|naive_solver]; unfold oidc_util_issuer_match; simpl; repeat case_match; simpl in *; lia || done.
  unfold oidc_util_issuer_match. cbn [_oidc_strcmp]. rewrite strcmp_eqb.
  destruct (String.eqb_spec a b) as [->|Hne]; cbn [negb]; [naive_solver|].
  transitivity ((b <> "" /\ a = (b ^^ "/")) \/ (a <> "" /\ b = (a ^^ "/"))); [|naive_solver].
  assert (Hnz : forall s : string, zlen s = 0 <-> s = "") by (intros [|]; unfold zlen; simpl; split; lia || done).
  assert (Hsl : forall x y, x = (y ^^ "/") -> (_oidc_strlen (Some x) =? _oidc_strlen (Some y) + 1) && ends_with_slash (Some x) = true).
  { intros x y ->. apply andb_true_iff. split; [|apply ends_with_slash_spec; by eexists].
    apply Z.eqb_eq. unfold _oidc_strlen, zlen. rewrite length_append. simpl. lia. }
  destruct ((_oidc_strlen (Some a) =? _) && _) eqn:E1.
  - bool_hyps. apply Z.eqb_eq in H. destruct (issuer_match_half a b H H0) as [Hm _].
    cbn [_oidc_strlen _oidc_strncmp]. destruct (Z.eqb_spec (zlen b) 0) as [E|E]; cbn [orb].
    + rewrite Hnz in E. subst b. split; [done|]. intros [[? _]|[_ Hb]]; [done|].
      apply (f_equal String.length) in Hb. rewrite length_append in Hb. simpl in Hb. lia.
    + rewrite Hnz in E. destruct (Z.eqb_spec (strncmp (Z.to_nat (zlen b)) a b) 0) as [e|e]; cbn [negb].
      * split; [|done]. intros _. left. split; [done|]. by apply Hm.
      * split; [done|]. intros [[_ Ha]|[_ Hb]]; [by apply Hm in Ha|].
        apply (f_equal String.length) in Hb. unfold _oidc_strlen, zlen in H. rewrite length_append in Hb. simpl in Hb. lia.
  - destruct ((_oidc_strlen (Some b) =? _) && _) eqn:E2.
    + bool_hyps. apply Z.eqb_eq in H. destruct (issuer_match_half b a H H0) as [_ Hm].
      cbn [_oidc_strlen _oidc_strncmp]. destruct (Z.eqb_spec (zlen a) 0) as [E|E]; cbn [orb].
      * rewrite Hnz in E. subst a. split; [done|]. intros [[_ Hb]|[? _]]; [|done].
        apply (f_equal String.length) in Hb. rewrite length_append in Hb. simpl in Hb. lia.
      * rewrite Hnz in E. destruct (Z.eqb_spec (strncmp (Z.to_nat (zlen a)) a b) 0) as [e|e]; cbn [negb].
        -- split; [|done]. intros _. right. split; [done|]. by apply Hm.
        -- split; [done|]. intros [[_ Ha]|[_ Hb]]; [by rewrite (Hsl _ _ Ha) in E1|by apply Hm in Hb].
    + split; [done|]. intros [[_ Ha]|[_ Hb]]; [by rewrite (Hsl _ _ Ha) in E1|by rewrite (Hsl _ _ Hb) in E2].
Qed.

(** ** Properties *)

(** Two issuers match exactly when both are present and equal, or differ
    only in one trailing slash that follows a non-empty rest. *)
Theorem issuer_match_spec (a b : option string) :
  oidc_util_issuer_match a b = true <-> exists x y, a = Some x /\ b = Some y /\ same_issuer x y.
Proof. apply issuer_match_true. Qed.

(** The search loop terminates and finds the first occurrence of the
    needle in the haystack without regard to case, or nothing when there is none. *)
Theorem strcasestr_spec (h n : string) :
  oidc_util_strcasestr (Some h) (Some n) = Some (ci_find h n).
Proof.
  pose proof (strcasestr_loop_spec (S ((String.length h + 1) * (String.length n + 1))) "" h "" n 0 eq_refl) as Hs.
  cbn [String.append] in Hs. unfold oidc_util_strcasestr. rewrite Hs by lia. by destruct (ci_find h n).
Qed.

(** Header names compare equal up to a length exactly when they agree
    there after the conversion to environment variable characters; a negative length
    compares all of them. *)
Theorem strnenvcmp_spec (a b : string) (len : Z) :
  oidc_util_strnenvcmp a b len = 0 <->
  if 0 <=? len then
    str_take (Z.to_nat len) (str_map oidc_util_char_to_env a) =
    str_take (Z.to_nat len) (str_map oidc_util_char_to_env b)
  else str_map oidc_util_char_to_env a = str_map oidc_util_char_to_env b.
Proof.
  pose proof (strnenvcmp_loop_spec a b 0 len ltac:(lia)) as Hs. by rewrite Z.sub_0_r in Hs.
Qed.

(** The comparison is equality. *)
Lemma memcmp_eq {C : CryptoMemcmp} {CS : CryptoMemcmpSpec C} a b : String.length a = String.length b ->
  CRYPTO_memcmp a b (String.length a) = 0 <-> a = b.
Proof. intros Hl. rewrite memcmp_take by lia. by rewrite str_take_self, Hl, str_take_self. Qed.

Lemma strcmp_const_time_true {C : CryptoMemcmp} {CS : CryptoMemcmpSpec C} (a b : option string) :
  oidc_util_strcmp_const_time a b = true <-> a = b.
Proof.
  destruct a as [a|], b as [b|]; simpl; try done. unfold _oidc_strlen, zlen. rewrite Nat2Z.id.
  destruct (Z.eqb_spec (Z.of_nat (String.length a)) (Z.of_nat (String.length b))) as [E|E]; simpl.
  - rewrite Z.eqb_eq, memcmp_eq by lia. naive_solver.
  - split; [done|]. intros [= ->]. done.
Qed.

Definition demo_memcmp : CryptoMemcmp :=
  {| CRYPTO_memcmp a b n := strcmp (str_take n a) (str_take n b) |}.

Lemma demo_memcmp_spec : CryptoMemcmpSpec demo_memcmp.
Proof.
  constructor. intros a b n _ _. apply strcmp_eq.
Defined.

Section spaced_lemmas.
Context {H : Httpd} {HS : HttpdSpec H}.

Lemma hashtable_total str : exists s, oidc_util_spaced_string_to_hashtable str = Some s.
Proof.
  destruct str as [s|]; [|by eexists]. unfold oidc_util_spaced_string_to_hashtable.
  destruct (words_total ap_getword_white (S (String.length s)) s) as [ws ->];
    [apply getword_white_shorter|lia|by eexists].
Qed.

Lemma equals_total a b : is_Some (oidc_util_spaced_string_equals a b).
Proof.
  unfold oidc_util_spaced_string_equals. destruct (hashtable_total a) as [sa ->], (hashtable_total b) as [sb ->].
  cbn [mbind option_bind]. case_match; by eexists.
Qed.

Lemma contains_total a b : is_Some (oidc_util_spaced_string_contains a b).
Proof.
  unfold oidc_util_spaced_string_contains. destruct a; [|by eexists]. destruct b; [|by eexists].
  destruct (hashtable_total (Some s)) as [x ->]. by eexists.
Qed.

(** The words of a text that was joined from words. *)
Definition is_word (s : string) : Prop := s <> "" /\ str_forall (fun c => negb (isspace c)) s = true.

Lemma spaced_words_join l fuel : Forall is_word l -> (length l < fuel)%nat -> words ap_getword_white fuel (join " " l) = Some l.
Proof.
  intros Hl. revert fuel. induction Hl as [|s l [Hs Hw] Hl IH]; intros fuel Hf; (destruct fuel as [|fuel]; [cbn in Hf; lia|]); [done|].
  cbn [length] in Hf. destruct l as [|s' l].
  - cbn [join]. rewrite (words_step _ _ _ s "") by (done || by apply getword_white_end). destruct fuel; [cbn in Hf; lia|]. done.
  - change (join " " (s :: s' :: l)) with (s ^^ String " " (join " " (s' :: l))).
    rewrite (words_step _ _ _ s (join " " (s' :: l))).
    + rewrite IH by (cbn in *; lia). done.
    + by destruct s.
    + apply getword_white_split; [done|]. intros d b' E. apply Forall_cons in Hl as [[Hs' Hw'] _].
      destruct s' as [|d' s']; [done|]. assert (d' = d) as ->; [|cbn in Hw'; by apply andb_true_iff in Hw' as [?%negb_true_iff _]].
      destruct l; cbn in E; congruence.
Qed.

Lemma spaced_join_length l : Forall is_word l -> (length l <= String.length (join " " l))%nat.
Proof.
  induction 1 as [|s l [Hs _] Hl IH]; [done|]. destruct l as [|s' l].
  - cbn [join length]. destruct s; [done|]. cbn. lia.
  - change (join " " (s :: s' :: l)) with (s ^^ String " " (join " " (s' :: l))). rewrite length_append. cbn [length String.length] in *. lia.
Qed.

Lemma spaced_contains_join l v : Forall is_word l ->
  oidc_util_spaced_string_contains (Some (join " " l)) (Some v) = Some (bool_decide (v ∈ l)).
Proof.
  intros Hl. unfold oidc_util_spaced_string_contains, oidc_util_spaced_string_to_hashtable.
  rewrite spaced_words_join by (done || (pose proof (spaced_join_length l Hl); lia)). cbn [fmap option_fmap option_map mbind option_bind].
  f_equal. apply bool_decide_ext. by rewrite elem_of_list_to_set.
Qed.
End spaced_lemmas.

Lemma spaced_string_equals_sets {H : Httpd} {HS : HttpdSpec H} (a b : option string) :
  exists sa sb r, oidc_util_spaced_string_to_hashtable a = Some sa /\
    oidc_util_spaced_string_to_hashtable b = Some sb /\
    oidc_util_spaced_string_equals a b = Some r /\ (r = true <-> sa = sb).
Proof.
  destruct (hashtable_total a) as [sa Ha], (hashtable_total b) as [sb Hb].
  unfold oidc_util_spaced_string_equals. rewrite Ha, Hb. simpl.
  destruct (Nat.eqb_spec (size sa) (size sb)) as [E|E]; cbn [negb].
  - eexists sa, sb, _. do 3 (split; [done|]). rewrite forallb_forall. split; [|intros ->].
    + intros Hall. apply leibniz_equiv, set_subseteq_size_equiv; [|lia].
      intros k Hk. specialize (Hall k). rewrite <-list_elem_of_In, elem_of_elements in Hall.
      by apply Hall, bool_decide_eq_true in Hk.
    + intros k Hk. apply bool_decide_eq_true. by apply list_elem_of_In, elem_of_elements in Hk.
  - exists sa, sb, false. do 3 (split; [done|]). split; [done|]. by intros ->.
Qed.

(** Parsing a space separated string terminates, and two of them are equal
    exactly when they have the same set of values, in whatever order and number. *)
Theorem spaced_string_equals_spec {H : Httpd} {HS : HttpdSpec H} (a b : option string) :
  exists sa sb r, oidc_util_spaced_string_to_hashtable a = Some sa /\
    oidc_util_spaced_string_to_hashtable b = Some sb /\
    oidc_util_spaced_string_equals a b = Some r /\ (r = true <-> sa = sb).
Proof. apply spaced_string_equals_sets. Qed.

Lemma spaced_string_equals_spec_witness :
  exists sa sb r, oidc_util_spaced_string_to_hashtable (H:=HttpdModel.httpd) (Some "openid  email") = Some sa /\
    oidc_util_spaced_string_to_hashtable (H:=HttpdModel.httpd) (Some "email openid") = Some sb /\
    oidc_util_spaced_string_equals (H:=HttpdModel.httpd) (Some "openid  email") (Some "email openid") = Some r /\
    (r = true <-> sa = sb).
Proof. apply (spaced_string_equals_spec (H:=HttpdModel.httpd) (Some "openid  email") (Some "email openid")). Defined.

Lemma get_app s c t : String.get (String.length s) (s ^^ String c t) = Some c.
Proof. by induction s. Qed.

Lemma last_char_nonempty s : s <> "" -> exists p c, s = (p ^^ String c "").
Proof.
  induction s as [|d s IH]; [done|]. intros _. destruct s as [|e s].
  - by exists "", d.
  - destruct (IH ltac:(done)) as (p & c & ->). by exists (String d p), c.
Qed.

(** The test of the character before offset [off]. *)
Lemma char_before_spec off h :
  (off <= String.length h)%nat ->
  (off =? 0)%nat || match String.get (off - 1) h with Some c => Ascii.eqb c "." | None => false end = true
  <-> str_take off h = "" \/ exists p, str_take off h = (p ^^ ".").
Proof.
  intros Hle. pose proof (str_take_length off h Hle) as Hoff.
  destruct (Nat.eqb_spec off 0) as [E0|E0]; cbn [orb].
  - rewrite E0. destruct h; simpl; naive_solver.
  - destruct (last_char_nonempty (str_take off h)) as (p & c & Hp).
    { intros E. rewrite E in Hoff. simpl in Hoff. lia. }
    assert (Hlen : off = S (String.length p)) by (rewrite <-Hoff, Hp, length_append; simpl; lia).
    pose proof (str_take_drop off h) as Hsplit. rewrite Hp in Hsplit |- *.
    rewrite append_assoc in Hsplit. rewrite <-Hsplit.
    replace (off - 1)%nat with (String.length p) by lia. cbn [String.append]. rewrite get_app.
    rewrite Ascii.eqb_eq. split.
    + intros ->. right. by exists p.
    + intros [Hn|[q Hq]]; [by destruct p|].
      apply (f_equal last_char) in Hq. rewrite !last_char_app in Hq. by injection Hq.
Qed.

(** A host name is accepted for a suffix exactly when the suffix is not
    empty and the host name is the suffix, up to the case-insensitive comparison, or
    ends with it behind a dot. *)
Theorem hostname_endswith_spec {H : Httpd} (h s : string) :
  oidc_util_hostname_endswith (Some h) (Some s) = true <->
  s <> "" /\ exists pre tail, h = (pre ^^ tail) /\ String.length tail = String.length s /\
    apr_strnatcasecmp tail s = 0 /\ (pre = "" \/ exists p, pre = (p ^^ ".")).
Proof.
  unfold oidc_util_hostname_endswith. cbn [_oidc_strnatcasecmp]. cbv zeta.
  assert (Hs : s = "" <-> String.length s = 0%nat) by (by destruct s).
  destruct (Nat.eqb_spec (String.length s) 0) as [E|E]; cbn [orb]; [naive_solver|].
  destruct (Nat.ltb_spec (String.length h) (String.length s)) as [Hl|Hl].
  { split; [done|]. intros (_ & pre & tail & -> & Ht & _). rewrite length_append in Hl. lia. }
  set (off := (String.length h - String.length s)%nat).
  pose proof (str_take_drop off h) as Hsplit.
  pose proof (str_take_length off h ltac:(lia)) as Hoff.
  assert (Hd : String.length (str_drop off h) = String.length s).
  { apply (f_equal String.length) in Hsplit. rewrite length_append in Hsplit. lia. }
  assert (Huniq : forall pre tail, h = (pre ^^ tail) -> String.length tail = String.length s ->
    pre = str_take off h /\ tail = str_drop off h).
  { intros pre tail -> Ht. assert (off = String.length pre) as -> by (unfold off; rewrite length_append; lia).
    by rewrite str_take_app, str_drop_app. }
  pose proof (char_before_spec off h ltac:(lia)) as Hdot.
  destruct (Z.eqb_spec (apr_strnatcasecmp (str_drop off h) s) 0) as [Ec|Ec]; cbn [negb].
  - rewrite Hdot. split.
    + intros Hd'. split; [naive_solver|]. exists (str_take off h), (str_drop off h). done.
    + intros (_ & pre & tail & Hh & Ht & _ & Hp). by destruct (Huniq pre tail Hh Ht) as [<- _].
  - split; [done|]. intros (_ & pre & tail & Hh & Ht & Hc & _).
    destruct (Huniq pre tail Hh Ht) as [_ ->]. done.
Qed.
