(* ===== verification/Http.v ===== *)
(** * src/http.c: URL coding, parameters and header access

    The requests to other servers are in [HttpClient], the cookies in [Cookie]. *)

From S2P Require Import Prelude Cstr Apr StrUtil.

(** ** URL encoding *)

Definition unreserved (c : ascii) : bool :=
  isupper c || islower c || isdigit c || Ascii.eqb c "-" || Ascii.eqb c "." || Ascii.eqb c "_" || Ascii.eqb c "~".

Definition hex_upper (n : Z) : ascii := default "0"%char (String.get (Z.to_nat n) "0123456789ABCDEF").

Fixpoint url_encode_loop (str : string) : string :=
  match str with
  | "" => ""
  | String c s =>
      if unreserved c then String c (url_encode_loop s)
      else String "%" (String (hex_upper (Z.shiftr (code c) 4))
             (String (hex_upper (Z.land (code c) 0x0f)) (url_encode_loop s)))
  end.

Definition oidc_http_url_encode (str : option string) : string :=
  match str with None => "" | Some s => url_encode_loop s end.

Definition oidc_http_url_decode_hex_digit (c : ascii) : Z :=
  if isdigit c then code c - 48
  else if (65 <=? code c) && (code c <=? 70) then code c - 65 + 10
  else if (97 <=? code c) && (code c <=? 102) then code c - 97 + 10
  else -1.

Definition ascii_of_Z (z : Z) : ascii := ascii_of_N (Z.to_N z).

Fixpoint url_decode_loop (str : string) : string :=
  match str with
  | "" => ""
  | String c s =>
      if Ascii.eqb c "+" then String " " (url_decode_loop s)
      else if Ascii.eqb c "%" then
        match s with
        | String h (String l s') =>
            let hi := oidc_http_url_decode_hex_digit h in
            let lo := if 0 <=? hi then oidc_http_url_decode_hex_digit l else -1 in
            if 0 <=? lo then String (ascii_of_Z (Z.lor (Z.shiftl hi 4) lo)) (url_decode_loop s')
            else String c (url_decode_loop s)
        | _ => String c (url_decode_loop s)
        end
      else String c (url_decode_loop s)
  end.

Definition oidc_http_url_decode (str : option string) : string :=
  match str with None => "" | Some s => cstr (url_decode_loop s) end.

(** ** Parameters *)

Definition oidc_http_add_form_url_encoded_param (kv : string * string) : string :=
  oidc_http_url_encode (Some kv.1) ^^ "=" ^^ oidc_http_url_encode (Some kv.2).

(** The tokens of a list that was joined with the delimiter. *)
Lemma strtok_join d l : Forall (fun s => s <> "" /\ strchr s d = None) l ->
  strtok_all (String d "") (join (String d "") l) = l.
Proof.
  unfold strtok_all. induction l as [|s l IH]; intros Hl; [done|]. apply Forall_cons in Hl as [[Hs Hd] Hl].
  destruct l as [|s' l].
  - cbn [join]. rewrite <-(append_nil_r s) at 1. rewrite tokens_go_plain by done. cbn. by destruct (String.eqb_spec s "").
  - change (join (String d "") (s :: s' :: l)) with (s ^^ String d (join (String d "") (s' :: l))).
    rewrite tokens_go_plain by done. change ("" ^^ s) with s. rewrite tokens_go_delim by done. by rewrite IH.
Qed.

Definition oidc_http_encode_params (params : table) : option string :=
  match map oidc_http_add_form_url_encoded_param params with
  | [] => None
  | elems => Some (join "&" elems)
  end.

Definition oidc_http_query_encoded_url (url : option string) (params : option table) : option string :=
  match url with
  | None => None
  | Some u =>
      match params with
      | Some ((_ :: _) as p) =>
          let encoded_params := oidc_http_encode_params p in
          let sep := match encoded_params with
                     | Some _ => Some (if nonnull (strchr u "?") then "&" else "?")
                     | None => None
                     end in
          Some (u ^^ default "" sep ^^ default "" encoded_params)
      | _ => Some u
      end
  end.

Definition oidc_http_form_encoded_data (params : option table) : option string :=
  match params with
  | Some ((_ :: _) as p) => oidc_http_encode_params p
  | _ => None
  end.

(** ** Headers *)

Definition OIDC_HTTP_HDR_COOKIE : string := "Cookie".
Definition OIDC_HTTP_HDR_SET_COOKIE : string := "Set-Cookie".
Definition OIDC_HTTP_HDR_X_FORWARDED_FOR : string := "X-Forwarded-For".
Definition OIDC_HTTP_HDR_CONTENT_TYPE : string := "Content-Type".
Definition OIDC_HTTP_HDR_ACCEPT : string := "Accept".
Definition OIDC_HTTP_HDR_X_FORWARDED_PROTO : string := "X-Forwarded-Proto".
Definition OIDC_HTTP_HDR_X_FORWARDED_PORT : string := "X-Forwarded-Port".
Definition OIDC_HTTP_HDR_X_FORWARDED_HOST : string := "X-Forwarded-Host".
Definition OIDC_HTTP_HDR_FORWARDED : string := "Forwarded".
Definition OIDC_HTTP_HDR_HOST : string := "Host".
Definition OIDC_HTTP_HDR_LOCATION : string := "Location".
Definition OIDC_HTTP_HDR_CACHE_CONTROL : string := "Cache-Control".
Definition OIDC_HTTP_HDR_PRAGMA : string := "Pragma".
Definition OIDC_HTTP_HDR_USER_AGENT : string := "User-Agent".
Definition OIDC_HTTP_HDR_X_REQUESTED_WITH : string := "X-Requested-With".
Definition OIDC_HTTP_HDR_SEC_FETCH_MODE : string := "Sec-Fetch-Mode".
Definition OIDC_HTTP_HDR_SEC_FETCH_DEST : string := "Sec-Fetch-Dest".
Definition OIDC_HTTP_HDR_AUTHORIZATION : string := "Authorization".

Definition oidc_http_hdr_in_get (r : request) (name : string) : option string :=
  apr_table_get (headers_in r) name.

(** The first token. *)
Definition oidc_http_hdr_in_get_left_most_only (r : request) (name separator : string) : option string :=
  match oidc_http_hdr_in_get r name with
  | Some value => head (strtok_all separator value)
  | None => None
  end.

Fixpoint skip_blank (s : string) : string :=
  match s with
  | String c s' => if Ascii.eqb c " " then skip_blank s' else s
  | "" => ""
  end.

(** The test of one list element against the needle. *)
Definition elem_matches (postfix_separator : ascii) (needle elem : string) : bool :=
  let elem := skip_blank elem in
  (_oidc_strncmp (Some elem) (Some needle) (String.length needle) =? 0) &&
  match str_drop (String.length needle) elem with
  | "" => true
  | String c _ => Ascii.eqb c postfix_separator
  end.

Definition oidc_http_hdr_in_contains (r : request) (name separator : string)
  (postfix_separator : ascii) (needle : string) : bool :=
  match oidc_http_hdr_in_get r name with
  | Some value => existsb (elem_matches postfix_separator needle) (strtok_all separator value)
  | None => false
  end.

Definition is_crlf (c : ascii) : bool := (code c =? 13) || (code c =? 10).

Definition oidc_http_hdr_value_sanitize (value : string) : string :=
  str_map (fun c => if is_crlf c then " "%char else c) value.

Definition oidc_http_hdr_table_set (t : table) (name : string) (value : option string) : table :=
  match value with
  | Some v => apr_table_set t name (oidc_http_hdr_value_sanitize v)
  | None => apr_table_unset t name
  end.

Definition oidc_http_hdr_table_add (t : table) (name value : string) : table :=
  apr_table_add t name (oidc_http_hdr_value_sanitize value).

Definition oidc_http_hdr_out_set (r : request) (name : string) (value : option string) : request :=
  with_headers_out (oidc_http_hdr_table_set (headers_out r) name value) r.

Definition oidc_http_hdr_out_get (r : request) (name : string) : option string :=
  apr_table_get (headers_out r) name.

Definition oidc_http_hdr_err_out_add (r : request) (name value : string) : request :=
  with_err_headers_out (apr_table_add (err_headers_out r) name value) r.

Definition oidc_http_set_no_cache_headers (r : request) : request :=
  let r := oidc_http_hdr_err_out_add r OIDC_HTTP_HDR_CACHE_CONTROL "no-cache, no-store" in
  oidc_http_hdr_err_out_add r OIDC_HTTP_HDR_PRAGMA "no-cache".

Definition oidc_http_hdr_in_set (r : request) (name : string) (value : option string) : request :=
  with_headers_in (oidc_http_hdr_table_set (headers_in r) name value) r.

Definition oidc_http_hdr_in_cookie_get r := oidc_http_hdr_in_get r OIDC_HTTP_HDR_COOKIE.
Definition oidc_http_hdr_in_cookie_set r value := oidc_http_hdr_in_set r OIDC_HTTP_HDR_COOKIE value.
Definition oidc_http_hdr_in_user_agent_get r := oidc_http_hdr_in_get r OIDC_HTTP_HDR_USER_AGENT.
Definition oidc_http_hdr_in_x_forwarded_for_get r :=
  oidc_http_hdr_in_get_left_most_only r OIDC_HTTP_HDR_X_FORWARDED_FOR ", ".
Definition oidc_http_hdr_in_content_type_get r := oidc_http_hdr_in_get r OIDC_HTTP_HDR_CONTENT_TYPE.
Definition oidc_http_hdr_in_x_requested_with_get r := oidc_http_hdr_in_get r OIDC_HTTP_HDR_X_REQUESTED_WITH.
Definition oidc_http_hdr_in_sec_fetch_mode_get r := oidc_http_hdr_in_get r OIDC_HTTP_HDR_SEC_FETCH_MODE.
Definition oidc_http_hdr_in_sec_fetch_dest_get r := oidc_http_hdr_in_get r OIDC_HTTP_HDR_SEC_FETCH_DEST.
Definition oidc_http_hdr_in_accept_get r := oidc_http_hdr_in_get r OIDC_HTTP_HDR_ACCEPT.
Definition oidc_http_hdr_in_accept_contains r needle :=
  oidc_http_hdr_in_contains r OIDC_HTTP_HDR_ACCEPT "," ";" needle.
Definition oidc_http_hdr_in_authorization_get r := oidc_http_hdr_in_get r OIDC_HTTP_HDR_AUTHORIZATION.
Definition oidc_http_hdr_in_x_forwarded_proto_get r :=
  oidc_http_hdr_in_get_left_most_only r OIDC_HTTP_HDR_X_FORWARDED_PROTO ", ".
Definition oidc_http_hdr_in_x_forwarded_port_get r :=
  oidc_http_hdr_in_get_left_most_only r OIDC_HTTP_HDR_X_FORWARDED_PORT ", ".
Definition oidc_http_hdr_in_x_forwarded_host_get r :=
  oidc_http_hdr_in_get_left_most_only r OIDC_HTTP_HDR_X_FORWARDED_HOST ", ".
Definition oidc_http_hdr_in_forwarded_get r :=
  oidc_http_hdr_in_get_left_most_only r OIDC_HTTP_HDR_FORWARDED ",".
Definition oidc_http_hdr_in_host_get r := oidc_http_hdr_in_get r OIDC_HTTP_HDR_HOST.
Definition oidc_http_hdr_out_location_set r value := oidc_http_hdr_out_set r OIDC_HTTP_HDR_LOCATION value.
Definition oidc_http_hdr_out_location_get r := oidc_http_hdr_out_get r OIDC_HTTP_HDR_LOCATION.

(** [ptr = strstr(value, s); if (ptr) *ptr = 0]. *)
Definition cut_at (s value : string) : string :=
  match _oidc_strstr (Some value) (Some s) with Some n => str_take n value | None => value end.

(** The outer [option] is the fuel of the search, which is always enough. *)
Definition oidc_http_hdr_forwarded_get (r : request) (elem : string) : option (option string) :=
  let item := elem ^^ "=" in
  let value := oidc_http_hdr_in_forwarded_get r in
  pos ← oidc_util_strcasestr value (Some item);
  match value, pos with
  | Some v, Some off =>
      let v := str_drop (String.length item) (str_drop off v) in
      Some (Some (cut_at " " (cut_at ";" v)))
  | _, _ => Some None
  end.

(** [char] is signed, so [ns[i] < 32] also holds for the bytes above 127. *)
Definition schar (c : ascii) : Z := if code c <? 128 then code c else code c - 256.

(** The backslash, the double quote and the tab are written by their codes. *)
Definition separators : string :=
  "()<>@,;:" ^^ String (ascii_of_nat 92) DQ ^^ "/[]?={} " ^^ String (ascii_of_nat 9) "".

Definition oidc_http_hdr_normalize_name (str : string) : string :=
  str_map (fun c => if (schar c <? 32) || (code c =? 127) then "-"%char
                    else if str_mem c separators then "-"%char else c) str.

(** ** Lemmas *)

Definition nonnul (c : ascii) : bool := negb (code c =? 0).

Lemma cstr_id s : str_forall nonnul s = true -> cstr s = s.
Proof.
  induction s as [|c s IH]; simpl; [done|]. unfold nonnul at 1. intros [Hc Hs]%andb_true_iff.
  apply negb_true_iff in Hc. by rewrite Hc, IH.
Qed.

(** The three characters of an escape decode to the character. *)
Definition escape_ok (c : ascii) : bool :=
  let h := hex_upper (Z.shiftr (code c) 4) in
  let l := hex_upper (Z.land (code c) 0x0f) in
  let hi := oidc_http_url_decode_hex_digit h in
  let lo := oidc_http_url_decode_hex_digit l in
  (0 <=? hi) && (0 <=? lo) && Ascii.eqb (ascii_of_Z (Z.lor (Z.shiftl hi 4) lo)) c &&
  (isupper h || isdigit h) && (isupper l || isdigit l).

Lemma escape_ok_all c : escape_ok c = true.
Proof. apply ascii_ind_bool. vm_compute. reflexivity. Qed.

Lemma unreserved_plain c : unreserved c = true -> negb (Ascii.eqb c "+") && negb (Ascii.eqb c "%") = true.
Proof. char_cases c. Qed.

Lemma url_decode_encode s : url_decode_loop (url_encode_loop s) = s.
Proof.
  induction s as [|c s IH]; [done|]. cbn [url_encode_loop]. destruct (unreserved c) eqn:E.
  - apply unreserved_plain in E. bool_hyps. cbn [url_decode_loop]. by rewrite H, H0, IH.
  - pose proof (escape_ok_all c) as H. unfold escape_ok in H. bool_hyps.
    cbn [url_decode_loop]. change (Ascii.eqb "%" "+") with false. change (Ascii.eqb "%" "%") with true.
    cbv iota zeta. rewrite H, H3, IH. by apply Ascii.eqb_eq in H2 as ->.
Qed.

(** The characters an encoded value consists of. *)
Definition url_char (c : ascii) : bool := unreserved c || Ascii.eqb c "%".

Lemma hex_unreserved c : isupper c || isdigit c = true -> url_char c = true.
Proof. char_cases c. Qed.

Lemma url_encode_chars s : str_forall url_char (url_encode_loop s) = true.
Proof.
  induction s as [|c s IH]; [done|]. cbn [url_encode_loop]. destruct (unreserved c) eqn:E.
  - cbn [str_forall]. unfold url_char at 1. by rewrite E.
  - pose proof (escape_ok_all c) as H. unfold escape_ok in H. bool_hyps. cbn [str_forall].
    rewrite (hex_unreserved (hex_upper (Z.shiftr _ _))), (hex_unreserved (hex_upper (Z.land _ _))) by done.
    done.
Qed.

Lemma str_forall_true s : str_forall (fun _ => true) s = true.
Proof. by induction s; simpl. Qed.

Lemma str_forall_weaken p q s :
  (forall c, p c = true -> q c = true) -> str_forall p s = true -> str_forall q s = true.
Proof. intros Hpq. induction s as [|c s IH]; simpl; [done|]. rewrite !andb_true_iff. naive_solver. Qed.

(** ** Properties *)

(** URL decoding inverts URL encoding on every C string, and the encoding
    consists of unreserved characters and percent signs only. *)
Theorem url_encode_decode (s : string) :
  str_forall nonnul s = true ->
  oidc_http_url_decode (Some (oidc_http_url_encode (Some s))) = s /\
  str_forall url_char (oidc_http_url_encode (Some s)) = true.
Proof.
  intros Hs. simpl. rewrite url_decode_encode. split; [by apply cstr_id|apply url_encode_chars].
Qed.

Lemma url_encode_decode_witness :
  oidc_http_url_decode (Some (oidc_http_url_encode (Some "a b&c=d%"))) = "a b&c=d%".
Proof. apply (url_encode_decode "a b&c=d%"). reflexivity. Defined.

(** A header that is set in a request or response never holds a carriage
    return or a line feed, is found under any spelling of its name, and leaves other
    headers alone; without a value it is removed. *)
Theorem header_set_get (r : request) (name name' : string) (value : option string) :
  let r' := oidc_http_hdr_in_set r name value in
  oidc_http_hdr_in_get r' name' =
    (if strcaseeq name name'
     then match value with Some v => Some (oidc_http_hdr_value_sanitize v) | None => None end
     else oidc_http_hdr_in_get r name') /\
  forall v, str_forall (fun c => negb (is_crlf c)) (oidc_http_hdr_value_sanitize v) = true /\
    String.length (oidc_http_hdr_value_sanitize v) = String.length v.
Proof.
  cbv zeta. unfold oidc_http_hdr_in_get, oidc_http_hdr_in_set, oidc_http_hdr_table_set. split.
  - cbn [headers_in with_headers_in]. destruct (strcaseeq name name') eqn:E, value.
    + by apply table_get_set_eq.
    + by apply table_get_unset_eq.
    + by apply table_get_set_ne.
    + by apply table_get_unset_ne.
  - intros v. split; [|apply str_map_length].
    apply (str_forall_map (fun _ => true)); [|apply str_forall_true].
    intros c _. destruct (is_crlf c) eqn:E; by rewrite ?E.
Qed.

(** The characters of a token (RFC 2616). *)
Definition token_char (c : ascii) : bool :=
  (32 <? code c) && (code c <? 127) && negb (str_mem c separators).

Lemma normalize_char c :
  token_char (if (schar c <? 32) || (code c =? 127) then "-"%char
              else if str_mem c separators then "-"%char else c) = true.
Proof. revert c. apply ascii_ind_bool. vm_compute. reflexivity. Qed.

(** A normalised header name has the length of the original and only
    token characters, so it can carry neither separators nor control characters. *)
Theorem normalize_name_token (s : string) :
  str_forall token_char (oidc_http_hdr_normalize_name s) = true /\
  String.length (oidc_http_hdr_normalize_name s) = String.length s /\
  (str_forall token_char s = true -> oidc_http_hdr_normalize_name s = s).
Proof.
  split; [|split; [apply str_map_length|]].
  - apply (str_forall_map (fun _ => true)); [|apply str_forall_true]. intros c _. apply normalize_char.
  - apply str_map_id. intros c. char_cases c.
Qed.
