(* ===== verification/Form.v ===== *)
(** * src/util/util.c and src/util/request_state.c: request data

    The per-request state, the body of a POST request, and form-encoded
    parameters. *)

From S2P Require Import Prelude Cstr Apr StrUtil Http.

(** ** Per-request state *)

(** The state lives in the main request; [r_state] is its hash table, created empty. *)
Definition oidc_request_state_set (r : request) (key : string) (value : option string) : request :=
  match value with
  | Some v => with_state (<[key := v]> (r_state r)) r
  | None => with_state (delete key (r_state r)) r
  end.

Definition oidc_request_state_get (r : request) (key : string) : option string := r_state r !! key.

(** ** Content that the content handler sends *)

Definition OIDC_REQUEST_STATE_KEY_HTTP : string := "hp".

(** [oidc_request_state_set(r, k, NULL); if (v) oidc_request_state_set(r, k, v)]. *)
Definition state_replace (r : request) (key : string) (value : option string) : request :=
  let r := oidc_request_state_set r key None in
  match value with Some _ => oidc_request_state_set r key value | None => r end.

(** [OK] and the request. *)
Definition oidc_util_http_content_prep (r : request) (data : option string) (data_len : Z)
  (content_type : option string) : Z * request :=
  let r := state_replace r "data" data in
  let r := state_replace r "data_len" (if data_len =? 0 then None else Some (pretty data_len)) in
  let r := state_replace r "content_type" content_type in
  let r := oidc_request_state_set r OIDC_REQUEST_STATE_KEY_HTTP (Some "") in
  (0, with_user (Some "") r).

(** What is handed to the output filters: content type and the first bytes of the data. *)
Definition response : Type := option string * string.

(** [pass_ok] is the success of [ap_pass_brigade]. *)
Definition oidc_util_http_send (pass_ok : bool) (r : request) (data : option string) (data_len : Z)
  (content_type : option string) (success_rvalue : Z) : Z * request * response :=
  let out := (content_type, str_take (Z.to_nat data_len) (default "" data)) in
  if negb pass_ok then (500, r, out)
  else
    let r := if (success_rvalue =? 0) && negb (nonnull (r_user r)) then with_user (Some "") r else r in
    (success_rvalue, r, out).

Definition oidc_util_http_content_send (pass_ok : bool) (r : request) : Z * request * response :=
  let data := oidc_request_state_get r "data" in
  let data_len := _oidc_str_to_int (oidc_request_state_get r "data_len") 0 in
  let content_type := oidc_request_state_get r "content_type" in
  oidc_util_http_send pass_ok r data data_len content_type 0.

(** ** Reading the body *)

Definition OIDC_MAX_POST_DATA_LEN : Z := 1024 * 1024.

(** The client's side of the request: the result of [ap_setup_client_block] and
    [ap_should_client_block], [r->remaining], and the blocks that
    [ap_get_client_block] delivers ([None] is an error). *)
Record body := mk_body {
  setup_ok : bool;
  should_block : bool;
  remaining : Z;
  blocks : list (option string)
}.

Fixpoint read_loop (bs : list (option string)) (bytes_left : Z) (acc : string) : option string :=
  if bytes_left <=? 0 then Some acc
  else
    match bs with
    | [] => Some acc
    | None :: _ => None
    | Some d :: bs' =>
        let d := str_take (Z.to_nat bytes_left) d in
        if String.eqb d "" then Some acc else read_loop bs' (bytes_left - zlen d) (acc ^^ d)
    end.

(** [None] is [FALSE]. *)
Definition oidc_util_read (b : body) : option string :=
  if negb (setup_ok b) then None
  else
    let len := if should_block b then remaining b else 0 in
    if OIDC_MAX_POST_DATA_LEN <? len then None
    else cstr <$> read_loop (blocks b) len "".

(** ** Parameters *)

Definition oidc_util_param_must_not_repeat (no_repeat : option (list string)) (key : string) : bool :=
  match no_repeat with
  | None => false
  | Some l => existsb (fun n => _oidc_strcmp (Some n) (Some key) =? 0) l
  end.

Section form.
Context {H : Httpd}.

(** One ["key=value"] element, decoded. *)
Definition decode_param (val : string) : string * string :=
  let '(key, val) := ap_getword val "=" in
  (oidc_http_url_decode (Some key), oidc_http_url_decode (Some val)).

(** The loop over the elements; [None] is [FALSE], with the table as filled so far. *)
Fixpoint params_loop (no_repeat : option (list string)) (vals : list string) (t : table) : bool * table :=
  match vals with
  | [] => (true, t)
  | val :: vals' =>
      let '(key, v) := decode_param val in
      if oidc_util_param_must_not_repeat no_repeat key && nonnull (apr_table_get t key)
      then (false, t)
      else params_loop no_repeat vals' (apr_table_set t key v)
  end.

(** The outer [option] is the fuel of the tokenizer. *)
Definition oidc_util_read_form_encoded_params_impl (t : table) (data : option string)
  (no_repeat : option (list string)) : option (bool * table) :=
  match data with
  | None => Some (true, t)
  | Some d =>
      vals ← words (fun l => ap_getword l "&") (S (String.length d)) d;
      Some (params_loop no_repeat vals t)
  end.

Definition oidc_util_read_form_encoded_params (t : table) (data : option string) :=
  oidc_util_read_form_encoded_params_impl t data None.

Definition oidc_util_read_form_encoded_params_reject_dup (t : table) (data : option string)
  (no_repeat : option (list string)) :=
  oidc_util_read_form_encoded_params_impl t data no_repeat.

Definition oidc_util_userdata_set_post_param (r : request) (name value : string) : request :=
  with_post_params (Some (apr_table_set (default [] (r_post_params r)) name value)) r.

Fixpoint propagate_loop (elts : table) (strip_param_name : option string) (r : request) : request :=
  match elts with
  | [] => r
  | (k, v) :: elts' =>
      propagate_loop elts' strip_param_name
        (if negb (_oidc_strcmp (Some k) strip_param_name =? 0)
         then oidc_util_userdata_set_post_param r k v else r)
  end.

Definition OIDC_HTTP_CONTENT_TYPE_FORM_ENCODED : string := "application/x-www-form-urlencoded".

(** The [apr_byte_t], the table and the request. *)
Definition oidc_util_read_post_params_impl (b : body) (r : request) (t : table) (propagate : bool)
  (strip_param_name : option string) (no_repeat : option (list string)) : option (bool * table * request) :=
  let content_type := oidc_http_hdr_in_content_type_get r in
  if negb (r_method_number r =? M_POST) || negb (nonnull content_type) ||
     negb (bool_decide (_oidc_strstr content_type (Some OIDC_HTTP_CONTENT_TYPE_FORM_ENCODED) = Some 0%nat))
  then Some (false, t, r)
  else
    match oidc_util_read b with
    | None => Some (false, t, r)
    | Some data =>
        '(rc, t) ← oidc_util_read_form_encoded_params_impl t (Some data) no_repeat;
        if negb rc then Some (false, t, r)
        else if negb propagate then Some (true, t, r)
        else Some (true, t, propagate_loop t strip_param_name r)
    end.

Definition oidc_util_read_post_params (b : body) (r : request) (t : table) (propagate : bool)
  (strip_param_name : option string) :=
  oidc_util_read_post_params_impl b r t propagate strip_param_name None.

Definition oidc_util_read_post_params_reject_dup (b : body) (r : request) (t : table)
  (propagate : bool) (strip_param_name : option string) (no_repeat : option (list string)) :=
  oidc_util_read_post_params_impl b r t propagate strip_param_name no_repeat.

Fixpoint query_loop (vals : list string) (t : table) : table :=
  match vals with
  | [] => t
  | v :: vals' =>
      let '(key, value) := ap_getword v "=" in
      query_loop vals' (apr_table_add t (ap_unescape_url key) (ap_unescape_url value))
  end.

Definition oidc_util_table_add_query_encoded_params (t : table) (params : option string) : option table :=
  match params with
  | None => Some t
  | Some p =>
      vals ← words (fun l => ap_getword l "&") (S (String.length p)) p; Some (query_loop vals t)
  end.
End form.

(** ** Lemmas *)

Section form_lemmas.
Context {H : Httpd} {HS : HttpdSpec H}.

Lemma must_not_repeat_spec nr key :
  oidc_util_param_must_not_repeat (Some nr) key = true <-> In key nr.
Proof.
  simpl. rewrite existsb_exists. setoid_rewrite Z.eqb_eq. setoid_rewrite strcmp_eq. naive_solver.
Qed.

(** When the loop accepts, no listed name is given twice, whatever its case the first time. *)
Lemma params_loop_nodup nr vals t t' :
  params_loop (Some nr) vals t = (true, t') ->
  forall l1 val l2, vals = l1 ++ val :: l2 -> In (decode_param val).1 nr ->
    apr_table_get t (decode_param val).1 = None /\
    forall val', In val' l1 -> strcaseeq (decode_param val').1 (decode_param val).1 = false.
Proof.
  revert t. induction vals as [|v vals IH]; intros t Hp l1 val l2 Hsplit Hin; [by destruct l1|].
  cbn [params_loop] in Hp. destruct (decode_param v) as [key x] eqn:Ed.
  destruct (_ && _) eqn:E; [done|]. destruct l1 as [|v1 l1]; injection Hsplit as -> Hv.
  - rewrite Ed in Hin |- *. cbn [fst] in *. apply (must_not_repeat_spec nr) in Hin. rewrite Hin in E.
    apply nonnull_false in E. done.
  - destruct (IH _ Hp l1 val l2 Hv Hin) as [Hn Hl].
    destruct (strcaseeq key (decode_param val).1) eqn:Ek.
    { by rewrite (table_get_set_eq t key _ x Ek) in Hn. }
    rewrite table_get_set_ne in Hn by done. split; [done|].
    intros val' [<-|Hi]; [by rewrite Ed|by apply Hl].
Qed.

Lemma params_loop_false nr vals t t' :
  params_loop (Some nr) vals t = (false, t') ->
  exists l1 val l2, vals = l1 ++ val :: l2 /\ In (decode_param val).1 nr /\
    (is_Some (apr_table_get t (decode_param val).1) \/
     exists val', In val' l1 /\ strcaseeq (decode_param val').1 (decode_param val).1 = true).
Proof.
  revert t. induction vals as [|v vals IH]; intros t Hp; [done|].
  cbn [params_loop] in Hp. destruct (decode_param v) as [key x] eqn:Ed.
  destruct (_ && _) eqn:E.
  - bool_hyps. exists [], v, vals. rewrite Ed. split; [done|].
    split; [by apply must_not_repeat_spec|]. left. by apply nonnull_true.
  - destruct (IH _ Hp) as (l1 & val & l2 & -> & Hin & Hc). exists (v :: l1), val, l2.
    split; [done|]. split; [done|].
    destruct (strcaseeq key (decode_param val).1) eqn:Ek.
    { right. exists v. split; [by left|]. by rewrite Ed. }
    rewrite table_get_set_ne in Hc by done. destruct Hc as [?|(val' & ? & ?)]; [by left|].
    right. exists val'. split; [by right|done].
Qed.

Lemma form_words_total d : exists vals,
  words (fun l => ap_getword l "&") (S (String.length d)) d = Some vals.
Proof.
  destruct (words_total (fun l => ap_getword l "&") (S (String.length d)) d) as [ws ->];
    [intros; by apply getword_shorter|lia|by eexists].
Qed.

(** Encoded elements contain neither separator. *)
Lemma url_chars_no_sep s c :
  url_char c = false -> str_forall url_char s = true -> strchr s c = None.
Proof.
  intros Hc. induction s as [|d s IH]; simpl; [done|]. intros [Hd Hs]%andb_true_iff.
  destruct (Ascii.eqb_spec d c); [congruence|auto].
Qed.

Lemma decode_encoded kv :
  str_forall nonnul kv.1 = true -> str_forall nonnul kv.2 = true ->
  decode_param (oidc_http_add_form_url_encoded_param kv) = kv.
Proof.
  destruct kv as [k v]. intros Hk Hv. unfold decode_param, oidc_http_add_form_url_encoded_param. simpl.
  rewrite getword_split.
  - simpl. rewrite !url_decode_encode, !cstr_id by done. done.
  - apply url_chars_no_sep; [done|apply url_encode_chars].
  - intros d b' E. pose proof (url_encode_chars v) as Hc. rewrite E in Hc. simpl in Hc.
    apply andb_true_iff in Hc as [Hd _]. by intros ->.
Qed.

Lemma strchr_append a b c : strchr a c = None -> strchr b c = None -> strchr (a ^^ b) c = None.
Proof. intros Ha Hb. by rewrite strchr_app. Qed.

Lemma encoded_no_amp kv : strchr (oidc_http_add_form_url_encoded_param kv) "&" = None.
Proof.
  unfold oidc_http_add_form_url_encoded_param. simpl.
  apply strchr_append; [apply url_chars_no_sep; [done|apply url_encode_chars]|].
  simpl. apply url_chars_no_sep; [done|apply url_encode_chars].
Qed.

Lemma encoded_head kv d s : oidc_http_add_form_url_encoded_param kv = String d s -> d <> "&"%char.
Proof. intros E ->. pose proof (encoded_no_amp kv) as Hn. by rewrite E in Hn. Qed.

Lemma encoded_nonempty kv : oidc_http_add_form_url_encoded_param kv <> "".
Proof. unfold oidc_http_add_form_url_encoded_param. simpl. by destruct (url_encode_loop kv.1). Qed.

Lemma join_head kv l d s :
  join "&" (map oidc_http_add_form_url_encoded_param (kv :: l)) = String d s -> d <> "&"%char.
Proof.
  destruct l as [|kv' l]; [apply encoded_head|]. cbn [map join].
  destruct (oidc_http_add_form_url_encoded_param kv) eqn:E; [by apply encoded_nonempty in E|].
  cbn [String.append]. intros [= <- _]. by eapply encoded_head.
Qed.

Lemma words_join kv l fuel :
  (length l < fuel)%nat ->
  words (fun s => ap_getword s "&") (S fuel) (join "&" (map oidc_http_add_form_url_encoded_param (kv :: l)))
  = Some (map oidc_http_add_form_url_encoded_param (kv :: l)).
Proof.
  revert kv fuel. induction l as [|kv' l IH]; intros kv fuel Hf.
  - cbn [map join]. erewrite words_step; [|apply encoded_nonempty|apply getword_end, encoded_no_amp].
    destruct fuel; [simpl in Hf; lia|done].
  - change (join "&" (map oidc_http_add_form_url_encoded_param (kv :: kv' :: l))) with
      (oidc_http_add_form_url_encoded_param kv ^^
       String "&" (join "&" (map oidc_http_add_form_url_encoded_param (kv' :: l)))).
    erewrite words_step; [|destruct (oidc_http_add_form_url_encoded_param kv) eqn:E;
      [by apply encoded_nonempty in E|done]|].
    2:{ apply getword_split; [apply encoded_no_amp|]. intros d b' E. by eapply (join_head kv' l). }
    destruct fuel as [|fuel]; [simpl in Hf; lia|]. simpl in Hf.
    by rewrite (IH kv' fuel ltac:(lia)).
Qed.

(** Adding pairs whose names are new, one after the other. *)
Lemma params_loop_encoded l t :
  Forall (fun kv => str_forall nonnul kv.1 = true /\ str_forall nonnul kv.2 = true) l ->
  (forall l1 kv l2, t ++ l = l1 ++ kv :: l2 -> forall kv', In kv' l1 -> strcaseeq kv'.1 kv.1 = false) ->
  params_loop None (map oidc_http_add_form_url_encoded_param l) t = (true, t ++ l).
Proof.
  revert t. induction l as [|[k v] l IH]; intros t Hn Hd; [by rewrite app_nil_r|].
  apply Forall_cons in Hn as [[Hk Hv] Hn]. cbn [map params_loop].
  rewrite decode_encoded by done. cbn [oidc_util_param_must_not_repeat andb].
  assert (Hset : apr_table_set t k v = t ++ [(k, v)]).
  { specialize (Hd t (k, v) l eq_refl). clear -Hd. induction t as [|[k0 v0] t IH]; [done|].
    cbn [apr_table_set app]. pose proof (Hd (k0, v0) ltac:(by left)) as E. cbn [fst] in E.
    rewrite E, IH; [done|]. intros kv' Hin. apply Hd. by right. }
  rewrite Hset, IH by (rewrite <-?app_assoc; done). by rewrite <-app_assoc.
Qed.

Lemma join_length l :
  (length l <= String.length (join "&" (map oidc_http_add_form_url_encoded_param l)))%nat.
Proof.
  induction l as [|kv l IH]; [simpl; lia|].
  assert (1 <= String.length (oidc_http_add_form_url_encoded_param kv))%nat.
  { destruct (oidc_http_add_form_url_encoded_param kv) eqn:E; [by apply encoded_nonempty in E|simpl; lia]. }
  destruct l as [|kv' l]; [cbn [map join length]; lia|].
  change (join "&" (map oidc_http_add_form_url_encoded_param (kv :: kv' :: l))) with
    (oidc_http_add_form_url_encoded_param kv ^^
     String "&" (join "&" (map oidc_http_add_form_url_encoded_param (kv' :: l)))).
  rewrite length_append. cbn [length String.length] in *. lia.
Qed.
End form_lemmas.

(** ** Properties *)

(** Parsing form data with a list of names that must not be repeated
    terminates; it is accepted exactly when none of the decoded names in the list
    occurs after another spelling of it, and never when one of them does. *)
Theorem form_params_reject_dup {H : Httpd} {HS : HttpdSpec H} (data : string) (nr : list string) :
  exists vals ok t, words (fun l => ap_getword l "&") (S (String.length data)) data = Some vals /\
    oidc_util_read_form_encoded_params_reject_dup [] (Some data) (Some nr) = Some (ok, t) /\
    (ok = true <-> forall l1 val l2, vals = l1 ++ val :: l2 -> In (decode_param val).1 nr ->
       forall val', In val' l1 -> strcaseeq (decode_param val').1 (decode_param val).1 = false).
Proof.
  destruct (form_words_total data) as [vals Hw].
  unfold oidc_util_read_form_encoded_params_reject_dup, oidc_util_read_form_encoded_params_impl.
  rewrite Hw. simpl. destruct (params_loop (Some nr) vals []) as [ok t] eqn:E.
  exists vals, ok, t. do 2 (split; [done|]). destruct ok; split; try done.
  - intros _ l1 val l2 Hs Hin val' Hv. by eapply params_loop_nodup.
  - intros Hall. exfalso. apply params_loop_false in E as (l1 & val & l2 & Hs & Hin & [[? ?]|(v' & Hv & Hc)]); [done|].
    by rewrite (Hall l1 val l2 Hs Hin v' Hv) in Hc.
Qed.

Lemma form_params_reject_dup_witness :
  exists vals ok t, words (fun l => HttpdModel.getword l "&") 10 "a=1&b=2&A" = Some vals /\
    oidc_util_read_form_encoded_params_reject_dup (H:=HttpdModel.httpd) [] (Some "a=1&b=2&A") (Some ["A"]) = Some (ok, t) /\
    (ok = true <-> forall l1 val l2, vals = l1 ++ val :: l2 ->
       In (decode_param (H:=HttpdModel.httpd) val).1 ["A"] ->
       forall val', In val' l1 -> strcaseeq (decode_param (H:=HttpdModel.httpd) val').1
         (decode_param (H:=HttpdModel.httpd) val).1 = false).
Proof. apply (form_params_reject_dup (H:=HttpdModel.httpd) "a=1&b=2&A" ["A"]). Defined.

(** Encoding a non-empty table of parameters whose names differ
    beyond case and parsing the result gives the same table back. *)
Theorem form_encode_parse {H : Httpd} {HS : HttpdSpec H} (t : table) :
  t <> [] ->
  Forall (fun kv => str_forall nonnul kv.1 = true /\ str_forall nonnul kv.2 = true) t ->
  (forall l1 kv l2, t = l1 ++ kv :: l2 -> forall kv', In kv' l1 -> strcaseeq kv'.1 kv.1 = false) ->
  exists data, oidc_http_form_encoded_data (Some t) = Some data /\
    oidc_util_read_form_encoded_params [] (Some data) = Some (true, t).
Proof.
  intros Hne Hn Hd. destruct t as [|kv t]; [done|].
  exists (join "&" (map oidc_http_add_form_url_encoded_param (kv :: t))). split; [done|].
  unfold oidc_util_read_form_encoded_params, oidc_util_read_form_encoded_params_impl.
  rewrite words_join by (pose proof (join_length (kv :: t)); cbn [length] in *; lia).
  cbn [mbind option_bind]. rewrite params_loop_encoded by done. done.
Qed.

Lemma form_encode_parse_witness :
  exists data, oidc_http_form_encoded_data (Some [("code", "a&b"); ("state", "")]) = Some data /\
    oidc_util_read_form_encoded_params (H:=HttpdModel.httpd) [] (Some data)
      = Some (true, [("code", "a&b"); ("state", "")]).
Proof.
  apply (form_encode_parse (H:=HttpdModel.httpd) [("code", "a&b"); ("state", "")]);
    [discriminate|repeat constructor|].
  intros [|kv1 [|kv2 [|? ?]]] kv l2 E kv' Hin; simplify_eq/=; try done.
  destruct Hin as [<-|[]]. reflexivity.
Defined.

(** What the authentication handler prepares is what the content handler
    sends, all of it and with its content type, whatever was prepared before, and the
    request passes the authorisation phase in between. *)
Theorem content_prep_send (r : request) (data content_type : string) :
  zlen data <= INT_MAX ->
  exists r', oidc_util_http_content_prep r (Some data) (zlen data) (Some content_type) = (0, r') /\
    r_user r' = Some "" /\ oidc_request_state_get r' OIDC_REQUEST_STATE_KEY_HTTP = Some "" /\
    oidc_util_http_content_send true r' = (0, r', (Some content_type, data)).
Proof.
  intros Hlen. eexists. split; [done|]. split; [done|].
  assert (Hz : 0 <= zlen data) by (unfold zlen; lia).
  unfold oidc_util_http_content_send, oidc_util_http_send, oidc_request_state_get, state_replace.
  assert (Hdl : forall m : gmap string string, _oidc_str_to_int (r_state (state_replace (with_state m r) "data_len"
      (if zlen data =? 0 then None else Some (pretty (zlen data)))) !! "data_len") 0 = zlen data).
  { intros m. unfold state_replace, oidc_request_state_set. destruct (Z.eqb_spec (zlen data) 0) as [E|E]; cbn.
    - by rewrite lookup_delete_eq.
    - rewrite lookup_insert_eq. apply str_to_int_pretty. lia. }
  split; [by simplify_map_eq|].
  destruct (zlen data =? 0) eqn:E; unfold oidc_request_state_set in *; cbn in *; simplify_map_eq.
  - apply Z.eqb_eq in E. destruct data; [done|]. unfold zlen in E. simpl in E. lia.
  - rewrite str_to_int_pretty by lia. unfold zlen. rewrite Nat2Z.id, str_take_self. done.
Qed.

Lemma content_prep_send_witness :
  exists r', oidc_util_http_content_prep demo_request (Some "hi") 2 (Some "text/html") = (0, r') /\
    r_user r' = Some "" /\ oidc_request_state_get r' OIDC_REQUEST_STATE_KEY_HTTP = Some "" /\
    oidc_util_http_content_send true r' = (0, r', (Some "text/html", "hi")).
Proof. apply (content_prep_send demo_request "hi" "text/html"). vm_compute. discriminate. Defined.
