(* ===== verification/Html.v ===== *)
(** * src/util/html.c: HTML and JavaScript output *)

From S2P Require Import Prelude Cstr Apr StrUtil Http Form.

Definition LF : string := String (ascii_of_nat 10) "".
Definition BACKSLASH : ascii := ascii_of_nat 92.

(** ** Escaping *)

Definition oidc_util_html_escape_char (c : ascii) : option string :=
  if Ascii.eqb c "&" then Some "&amp;"
  else if code c =? 39 then Some "&apos;"
  else if code c =? 34 then Some "&quot;"
  else if Ascii.eqb c ">" then Some "&gt;"
  else if Ascii.eqb c "<" then Some "&lt;"
  else None.

Definition oidc_util_html_javascript_escape_char (c : ascii) : option string :=
  if code c =? 39 then Some (String BACKSLASH (String c ""))
  else if code c =? 34 then Some (String BACKSLASH (String c ""))
  else if code c =? 92 then Some (String BACKSLASH (String c ""))
  else if Ascii.eqb c "/" then Some (String BACKSLASH "/")
  else if code c =? 13 then Some (String BACKSLASH "r")
  else if code c =? 10 then Some (String BACKSLASH "n")
  else if Ascii.eqb c "<" then Some (String BACKSLASH "x3c")
  else if Ascii.eqb c ">" then Some (String BACKSLASH "x3e")
  else None.

Section escape.
Variable escape_char : ascii -> option string.

(** The first pass: the length of the output. *)
Fixpoint escape_measure (s : string) : nat :=
  match s with
  | "" => 0
  | String c s' =>
      (match escape_char c with Some esc => String.length esc | None => 1 end + escape_measure s')%nat
  end.

(** [n] bytes of the zero-filled buffer. *)
Fixpoint zeros (n : nat) : string :=
  match n with O => "" | S n' => String Ascii.zero (zeros n') end.

(** The second pass from index [i] on: a write that would pass [outputlen] is
    skipped, which leaves zeros. *)
Fixpoint escape_write (s : string) (i outputlen : nat) : string :=
  match s with
  | "" => ""
  | String c s' =>
      match escape_char c with
      | None =>
          (if (i + 1 <=? outputlen)%nat then String c "" else zeros 1) ^^
          escape_write s' (i + 1) outputlen
      | Some esc =>
          let n := String.length esc in
          (if (i + n <=? outputlen)%nat then esc else zeros n) ^^ escape_write s' (i + n) outputlen
      end
  end.

Definition oidc_util_html_escape_with (s : string) : string :=
  cstr (escape_write s 0 (escape_measure s)).
End escape.

Definition oidc_util_html_escape (s : option string) : string :=
  oidc_util_html_escape_with oidc_util_html_escape_char (default "" s).

Definition oidc_util_html_javascript_escape (s : option string) : option string :=
  match s with
  | None => None
  | Some s => Some (oidc_util_html_escape_with oidc_util_html_javascript_escape_char s)
  end.

(** ** Pages *)

Definition OIDC_HTTP_CONTENT_TYPE_TEXT_HTML : string := "text/html".

Definition html_page (title html_head on_load html_body : string) : string :=
  "<!DOCTYPE HTML PUBLIC " ^^ DQ ^^ "-//W3C//DTD HTML 4.01//EN" ^^ DQ ^^ " " ^^ DQ ^^
  "http://www.w3.org/TR/html4/strict.dtd" ^^ DQ ^^ ">" ^^ LF ^^
  "<html>" ^^ LF ^^
  "  <head>" ^^ LF ^^
  "    <meta http-equiv=" ^^ DQ ^^ "Content-Type" ^^ DQ ^^ " content=" ^^ DQ ^^
  "text/html; charset=utf-8" ^^ DQ ^^ ">" ^^ LF ^^
  "    <title>" ^^ title ^^ "</title>" ^^ LF ^^
  "    " ^^ html_head ^^ LF ^^
  "  </head>" ^^ LF ^^
  "  <body" ^^ on_load ^^ ">" ^^ LF ^^
  html_body ^^ LF ^^
  "  </body>" ^^ LF ^^
  "</html>" ^^ LF.

Definition oidc_util_html_send (pass_ok : bool) (r : request)
  (title html_head on_load html_body : option string) (status_code : Z) : Z * request * response :=
  let html := html_page
    (match title with Some _ => oidc_util_html_escape title | None => "" end)
    (default "" html_head)
    (match on_load with
     | Some _ => " onload=" ^^ DQ ^^ oidc_util_html_escape on_load ^^ DQ
     | None => ""
     end)
    (default "<p></p>" html_body) in
  oidc_util_http_send pass_ok r (Some html) (_oidc_strlen (Some html))
    (Some OIDC_HTTP_CONTENT_TYPE_TEXT_HTML) status_code.

Definition oidc_util_html_content_prep (r : request) (request_state_key : string)
  (title html_head on_load html_body : option string) : Z * request :=
  let r := state_replace r "title" title in
  let r := state_replace r "head" html_head in
  let r := state_replace r "on_load" on_load in
  let r := state_replace r "body" html_body in
  let r := oidc_request_state_set r request_state_key (Some "") in
  (0, with_user (Some "") r).

Definition oidc_util_html_content_send (pass_ok : bool) (r : request) : Z * request * response :=
  oidc_util_html_send pass_ok r (oidc_request_state_get r "title") (oidc_request_state_get r "head")
    (oidc_request_state_get r "on_load") (oidc_request_state_get r "body") 0.

(** ** Templates *)

Inductive oidc_post_preserve_escape_t :=
  OIDC_POST_PRESERVE_ESCAPE_NONE | OIDC_POST_PRESERVE_ESCAPE_HTML | OIDC_POST_PRESERVE_ESCAPE_JAVASCRIPT.

Definition oidc_util_template_escape (arg : option string) (escape : oidc_post_preserve_escape_t)
  : option string :=
  match escape with
  | OIDC_POST_PRESERVE_ESCAPE_HTML => Some (oidc_util_html_escape (Some (default "" arg)))
  | OIDC_POST_PRESERVE_ESCAPE_JAVASCRIPT => oidc_util_html_javascript_escape (Some (default "" arg))
  | OIDC_POST_PRESERVE_ESCAPE_NONE => arg
  end.

(** The scan of the template; [None] is the early [return FALSE]. *)
Fixpoint format_count (p : string) : option nat :=
  match p with
  | "" => Some 0%nat
  | String c p' =>
      if negb (Ascii.eqb c "%") then format_count p'
      else
        match p' with
        | String d p'' =>
            if Ascii.eqb d "%" then format_count p''
            else if Ascii.eqb d "s" then S <$> format_count p''
            else None
        | "" => None
        end
  end.

Definition oidc_util_template_format_valid (tpl : string) (expected_s_count : nat) : bool :=
  match format_count tpl with Some n => Nat.eqb n expected_s_count | None => false end.

(** [apr_psprintf] on formats of ["%s"] and ["%%"]; [None] is undefined behaviour: a
    directive other than these or one with no argument left. *)
Fixpoint psprintf (fmt : string) (args : list string) : option string :=
  match fmt with
  | "" => Some ""
  | String c f =>
      if negb (Ascii.eqb c "%") then String c <$> psprintf f args
      else
        match f with
        | String d f' =>
            if Ascii.eqb d "%" then String "%" <$> psprintf f' args
            else if Ascii.eqb d "s" then
              match args with
              | a :: args' => (fun t => a ^^ t) <$> psprintf f' args'
              | [] => None
              end
            else None
        | "" => None
        end
  end.

(** [NULL] prints as ["(null)"].  [read] is the result of reading the file; the result
    is the status, the request and the cached template. *)
Definition oidc_util_html_send_in_template (read : option string) (r : request)
  (static_template_content : option string) (arg1 : option string)
  (arg1_esc : oidc_post_preserve_escape_t) (arg2 : option string)
  (arg2_esc : oidc_post_preserve_escape_t) : option (Z * request * option string) :=
  let content := match static_template_content with Some _ => static_template_content | None => read end in
  match content with
  | None => Some (0, r, None)
  | Some tpl =>
      if negb (oidc_util_template_format_valid tpl (if nonnull arg2 then 2 else 1))
      then Some (500, r, content)
      else
        html ← psprintf tpl
          [default "(null)" (oidc_util_template_escape arg1 arg1_esc);
           match arg2 with
           | Some _ => default "(null)" (oidc_util_template_escape arg2 arg2_esc)
           | None => ""
           end];
        let '(rc, r) := oidc_util_http_content_prep r (Some html) (_oidc_strlen (Some html))
                          (Some OIDC_HTTP_CONTENT_TYPE_TEXT_HTML) in
        Some (rc, r, content)
  end.

Definition OIDC_ERROR_ENVVAR : string := "OIDC_ERROR".
Definition OIDC_ERROR_DESC_ENVVAR : string := "OIDC_ERROR_DESC".

Definition oidc_util_html_send_error (r : request) (error description : option string)
  (status_code : Z) : Z * request :=
  let env := apr_table_set (subprocess_env r) OIDC_ERROR_ENVVAR (default "" error) in
  let env := apr_table_set env OIDC_ERROR_DESC_ENVVAR (default "" description) in
  (status_code, with_subprocess_env env r).

(** ** Lemmas *)

(** The escaped string without regard to buffers. *)
Fixpoint escaped (f : ascii -> option string) (s : string) : string :=
  match s with
  | "" => ""
  | String c s' => match f c with Some e => e ^^ escaped f s' | None => String c (escaped f s') end
  end.

Lemma escape_write_full f s i len :
  (i + escape_measure f s <= len)%nat -> escape_write f s i len = escaped f s.
Proof.
  revert i. induction s as [|c s IH]; intros i Hl; [done|]. cbn [escape_write escape_measure escaped] in *.
  destruct (f c) as [e|].
  - destruct (Nat.leb_spec (i + String.length e) len); [|lia]. by rewrite IH by lia.
  - destruct (Nat.leb_spec (i + 1) len); [|lia]. by rewrite IH by lia.
Qed.

Lemma escaped_forall p f s :
  (forall c, nonnul c = true ->
     match f c with Some e => str_forall p e = true | None => p c = true end) ->
  str_forall nonnul s = true -> str_forall p (escaped f s) = true.
Proof.
  intros Hf. induction s as [|c s IH]; [done|]. cbn [str_forall]. intros [Hc Hs]%andb_true_iff.
  specialize (Hf c Hc). specialize (IH Hs). cbn [escaped]. destruct (f c) as [e|].
  - clear -Hf IH. induction e as [|d e IHe]; [done|]. cbn [str_forall String.append] in *.
    apply andb_true_iff in Hf as [-> He]. by apply IHe.
  - cbn [str_forall]. by rewrite Hf.
Qed.

(** A statement about the escape sequence of every character, by computation. *)
Definition esc_check (p : ascii -> bool) (f : ascii -> option string) (c : ascii) : bool :=
  negb (nonnul c) || match f c with Some e => str_forall p e | None => p c end.

Lemma esc_check_use p f :
  forallb (fun n => esc_check p f (ascii_of_nat n)) (seq 0 256) = true ->
  forall c, nonnul c = true -> match f c with Some e => str_forall p e = true | None => p c = true end.
Proof.
  intros Hall c Hc. pose proof (ascii_ind_bool (esc_check p f) Hall c) as He.
  unfold esc_check in He. rewrite Hc in He. by destruct (f c).
Qed.

Lemma escape_with_spec p f s :
  forallb (fun n => esc_check nonnul f (ascii_of_nat n)) (seq 0 256) = true ->
  forallb (fun n => esc_check p f (ascii_of_nat n)) (seq 0 256) = true ->
  str_forall nonnul s = true ->
  oidc_util_html_escape_with f s = escaped f s /\
  str_forall p (oidc_util_html_escape_with f s) = true.
Proof.
  intros Hnul Hp Hs. unfold oidc_util_html_escape_with. rewrite escape_write_full by lia.
  rewrite cstr_id; [|by apply escaped_forall; [apply esc_check_use|]]. split; [done|].
  by apply escaped_forall; [apply esc_check_use|].
Qed.

(** Characters that cannot end an attribute value or start a tag. *)
Definition html_safe (c : ascii) : bool :=
  negb (Ascii.eqb c "<") && negb (Ascii.eqb c ">") && negb (code c =? 34) && negb (code c =? 39).

(** Characters that cannot leave a script element or continue a line. *)
Definition js_safe (c : ascii) : bool :=
  negb (Ascii.eqb c "<") && negb (Ascii.eqb c ">") && negb (code c =? 13) && negb (code c =? 10).

Lemma format_count_defined tpl n args :
  format_count tpl = Some n -> (n <= length args)%nat -> is_Some (psprintf tpl args).
Proof.
  revert n args. induction tpl as [tpl IH] using (induction_ltof1 _ String.length); intros n args.
  unfold ltof in IH. destruct tpl as [|c p]; [by eexists|]. cbn [format_count psprintf].
  destruct (negb (Ascii.eqb c "%")); [intros Hc Hn; destruct (IH p ltac:(simpl; lia) n args Hc Hn) as [? ->]; by eexists|].
  destruct p as [|d p]; [done|]. destruct (Ascii.eqb d "%").
  { intros Hc Hn. destruct (IH p ltac:(simpl; lia) n args Hc Hn) as [? ->]. by eexists. }
  destruct (Ascii.eqb d "s"); [|done]. destruct (format_count p) as [m|] eqn:Em; [|done].
  intros [= <-] Hn. destruct args as [|a args]; simpl in Hn; [lia|].
  destruct (IH p ltac:(simpl; lia) m args Em ltac:(lia)) as [? ->]. by eexists.
Qed.

(** ** Properties *)

(** The two-pass escaping never drops a write: the result is the input with
    each special character replaced by its sequence; the HTML escape holds neither
    angle brackets nor quotes, the JavaScript escape neither angle brackets nor line
    breaks. *)
Theorem escape_safe (s : string) :
  str_forall nonnul s = true ->
  (oidc_util_html_escape (Some s) = escaped oidc_util_html_escape_char s /\
   str_forall html_safe (oidc_util_html_escape (Some s)) = true) /\
  exists j, oidc_util_html_javascript_escape (Some s) = Some j /\
    j = escaped oidc_util_html_javascript_escape_char s /\ str_forall js_safe j = true.
Proof.
  intros Hs. split.
  - apply escape_with_spec; [vm_compute; reflexivity|vm_compute; reflexivity|done].
  - eexists. split; [done|]. apply escape_with_spec; [vm_compute; reflexivity|vm_compute; reflexivity|done].
Qed.

Lemma escape_safe_witness :
  str_forall html_safe (oidc_util_html_escape (Some "<a href='x'>&")) = true.
Proof. apply (escape_safe "<a href='x'>&"). reflexivity. Defined.

(** Rendering a template never runs into undefined behaviour of the
    formatting function, whatever the file holds: it is rendered only when its
    directives are exactly the expected placeholders, and refused otherwise. *)
Theorem send_in_template_defined (read : option string) (r : request) (cached : option string)
  (arg1 arg2 : option string) (e1 e2 : oidc_post_preserve_escape_t) :
  is_Some (oidc_util_html_send_in_template read r cached arg1 e1 arg2 e2).
Proof.
  unfold oidc_util_html_send_in_template.
  destruct (match cached with Some _ => cached | None => read end) as [tpl|]; [|by eexists].
  destruct (oidc_util_template_format_valid _ _) eqn:E; cbn [negb]; [|by eexists].
  unfold oidc_util_template_format_valid in E. destruct (format_count tpl) as [n|] eqn:En; [|done].
  apply Nat.eqb_eq in E.
  match goal with |- context [psprintf tpl ?l] => destruct (format_count_defined tpl n l En) as [h ->] end;
    [destruct arg2; simpl in *; lia|]. by eexists.
Qed.
