(* ===== verification/Base64.v ===== *)
(** * src/util/base64.c: base64url on top of apr_base64

    The plain base64 codec of APR is the parameter [Base64]; [Base64Spec] states
    what its documentation says of it. *)

From S2P Require Import Prelude Cstr.

(** ** The codec of libapr *)

Class Base64 := {
  apr_base64_encode : string -> string;
  apr_base64_encode_len : Z -> Z;            (* with the terminating NUL *)
  apr_base64_decode : string -> string       (* the bytes; their number is the result *)
}.

(** The characters of the alphabet other than the padding. *)
Definition base64_char (c : ascii) : bool :=
  isalnum c || Ascii.eqb c "+" || Ascii.eqb c "/".

Class Base64Spec (B : Base64) : Prop := {
  encode_shape s : exists body pad, apr_base64_encode s = (body ^^ pad) /\
    str_forall base64_char body = true /\ (pad = "" \/ pad = "=" \/ pad = "==");
  encode_length s : (String.length (apr_base64_encode s) mod 4 = 0)%nat;
  encode_nonempty s : s <> "" -> apr_base64_encode s <> "";
  encode_len s : apr_base64_encode_len (zlen s) = zlen (apr_base64_encode s) + 1;
  decode_encode s : apr_base64_decode (apr_base64_encode s) = s
}.

Inductive oidc_base64url_padding_t := OIDC_BASE64URL_PADDING_KEEP | OIDC_BASE64URL_PADDING_STRIP.

(** ** The wrappers *)

Section base64.
Context {B : Base64}.

(** The body of the loop over the encoded characters. *)
Definition to_url (c : ascii) : ascii :=
  let c := if Ascii.eqb c "+" then "-"%char else c in
  let c := if Ascii.eqb c "/" then "_"%char else c in
  if Ascii.eqb c "=" then ","%char else c.

Definition from_url (c : ascii) : ascii :=
  let c := if Ascii.eqb c "-" then "+"%char else c in
  let c := if Ascii.eqb c "_" then "/"%char else c in
  if Ascii.eqb c "," then "="%char else c.

(** The loop that walks back over the characters [c] at the end. *)
Fixpoint strip_end (c : ascii) (s : string) : string :=
  match s with
  | "" => ""
  | String d s' =>
      match strip_end c s' with
      | "" => if Ascii.eqb d c then "" else String d ""
      | t => String d t
      end
  end.

(** The returned length and [*dst]. *)
Definition oidc_util_base64url_encode (src : option string) (src_len : Z)
  (padding : oidc_base64url_padding_t) : Z * option string :=
  match src with
  | None => (-1, None)
  | Some s =>
      if src_len <=? 0 then (-1, None)
      else
        let enc := str_map to_url (apr_base64_encode (str_take (Z.to_nat src_len) s)) in
        match padding with
        | OIDC_BASE64URL_PADDING_STRIP =>
            let enc := strip_end "," enc in (zlen enc, Some enc)
        | OIDC_BASE64URL_PADDING_KEEP => (apr_base64_encode_len src_len, Some enc)
        end
  end.

(** The error string ([None] on success), [*output] and [*output_len]. *)
Definition oidc_util_base64_decode (input : option string)
  : option string * option string * Z :=
  match input with
  | None => (Some "base64-decoding failed: invalid parameters", None, 0)
  | Some i =>
      let output := apr_base64_decode i in
      let output_len := zlen output in
      if output_len <=? 0
      then (Some ("base64-decoding of " ^^ DQ ^^ i ^^ DQ ^^ " failed"), Some output, output_len)
      else (None, Some output, output_len)
  end.

(** The returned length and [*dst]. *)
Definition oidc_util_base64url_decode (src : option string) : Z * option string :=
  match src with
  | None => (-1, None)
  | Some s =>
      let dec := str_map from_url s in
      let decode dec := let '(_, dst, dlen) := oidc_util_base64_decode (Some dec) in (dlen, dst) in
      match (String.length dec mod 4)%nat with
      | 0%nat => decode dec
      | 2%nat => decode (dec ^^ "==")
      | 3%nat => decode (dec ^^ "=")
      | _ => (0, None)
      end
  end.
End base64.

(** ** Lemmas *)

Lemma strip_end_none c s :
  str_forall (fun d => negb (Ascii.eqb d c)) s = true -> strip_end c s = s.
Proof.
  induction s as [|d s IH]; simpl; [done|]. intros [Hd Hs]%andb_true_iff. rewrite (IH Hs).
  destruct s; [|done]. by apply negb_true_iff in Hd as ->.
Qed.

Lemma strip_end_app c s t : strip_end c t = "" -> strip_end c (s ^^ t) = strip_end c s.
Proof. intros Ht. induction s as [|d s IH]; simpl; [done|]. by rewrite IH. Qed.

Lemma from_to_url c : base64_char c = true -> from_url (to_url c) = c.
Proof. char_cases c. Qed.

Lemma to_url_not_comma c : base64_char c = true -> negb (Ascii.eqb (to_url c) ",") = true.
Proof. char_cases c. Qed.

(** The characters of the URL-safe alphabet. *)
Definition base64url_char (c : ascii) : bool :=
  isalnum c || Ascii.eqb c "-" || Ascii.eqb c "_".

Lemma to_url_char c : base64_char c = true -> base64url_char (to_url c) = true.
Proof. char_cases c. Qed.

Section base64_lemmas.
Context {B : Base64} {BS : Base64Spec B}.

(** What stripping leaves is the body of the encoding. *)
Lemma encode_strip s :
  exists body pad, apr_base64_encode s = (body ^^ pad) /\ str_forall base64_char body = true /\
    (pad = "" \/ pad = "=" \/ pad = "==") /\
    strip_end "," (str_map to_url (apr_base64_encode s)) = str_map to_url body.
Proof.
  destruct (encode_shape s) as (body & pad & E & Hb & Hp). exists body, pad.
  do 3 (split; [done|]). rewrite E, str_map_app, strip_end_app.
  - apply strip_end_none. by apply (str_forall_map base64_char); [apply to_url_not_comma|].
  - by destruct Hp as [->|[->| ->]].
Qed.

(** The unpadded URL-safe alphabet of RFC 4648. *)
Lemma strip_rfc4648 s :
  str_map to_url (strip_end "=" (apr_base64_encode s)) = strip_end "," (str_map to_url (apr_base64_encode s)).
Proof.
  destruct (encode_strip s) as (body & pad & E & Hb & Hp & ->). rewrite E, strip_end_app.
  - f_equal. apply strip_end_none. apply (str_forall_impl base64_char); [intros c; char_cases c|done].
  - by destruct Hp as [->|[->| ->]].
Qed.

Lemma str_map_from_to body :
  str_forall base64_char body = true -> str_map from_url (str_map to_url body) = body.
Proof. intros Hb. rewrite str_map_map. by apply (str_map_id base64_char); [apply from_to_url|]. Qed.

Lemma base64url_encode_strip s :
  s <> "" ->
  exists enc, oidc_util_base64url_encode (Some s) (zlen s) OIDC_BASE64URL_PADDING_STRIP
                = (zlen enc, Some enc) /\ 0 < zlen enc /\
    str_forall base64url_char enc = true /\
    oidc_util_base64url_decode (Some enc) = (zlen s, Some s).
Proof.
  intros Hs. destruct (encode_strip s) as (body & pad & E & Hb & Hp & Hstrip).
  assert (Hz : 0 < zlen s) by (unfold zlen; destruct s; [done|simpl; lia]).
  unfold oidc_util_base64url_encode. destruct (Z.leb_spec (zlen s) 0); [lia|].
  replace (Z.to_nat (zlen s)) with (String.length s) by (unfold zlen; lia).
  rewrite str_take_self, Hstrip. eexists. split; [done|].
  pose proof (encode_length s) as Hlen. rewrite E, length_append in Hlen.
  assert (Hbody : body <> "").
  { intros ->. pose proof (encode_nonempty s Hs). destruct Hp as [->|[->| ->]]; by simpl in *. }
  split; [unfold zlen; rewrite str_map_length; destruct body; [done|simpl; lia]|].
  split; [by apply (str_forall_map base64_char); [apply to_url_char|]|].
  unfold oidc_util_base64url_decode. rewrite str_map_from_to by done.
  assert (Hdec : let '(_, dst, dlen) := oidc_util_base64_decode (Some (body ^^ pad)) in
    (dlen, dst) = (zlen s, Some s)).
  { unfold oidc_util_base64_decode. rewrite <-E, decode_encode. by destruct (zlen s <=? 0). }
  assert (Hmod : forall k, (k <= 2)%nat -> ((String.length body + k) mod 4 = 0)%nat ->
    (String.length body mod 4 = match k with 0 => 0 | 1 => 3 | _ => 2 end)%nat).
  { intros k Hk Hm. pose proof (Nat.div_mod_eq (String.length body) 4).
    pose proof (Nat.mod_upper_bound (String.length body) 4 ltac:(lia)).
    pose proof (Nat.div_mod_eq (String.length body + k) 4).
    do 3 (destruct k as [|k]; [cbv iota; lia|]). lia. }
  destruct Hp as [->|[->| ->]]; cbn [String.length] in Hlen;
    [rewrite (Hmod 0%nat ltac:(lia) Hlen), append_nil_r in *
    |rewrite (Hmod 1%nat ltac:(lia) Hlen)|rewrite (Hmod 2%nat ltac:(lia) Hlen)]; cbv iota;
    destruct (oidc_util_base64_decode _) as [[? ?] ?]; exact Hdec.
Qed.
End base64_lemmas.

(** ** Properties *)

(** Encoding with the padding stripped succeeds on every non-empty byte
    string, uses the URL-safe alphabet only, and decoding gives the bytes back. *)
Theorem base64url_roundtrip {B : Base64} {BS : Base64Spec B} (s : string) :
  s <> "" ->
  exists enc, oidc_util_base64url_encode (Some s) (zlen s) OIDC_BASE64URL_PADDING_STRIP
                = (zlen enc, Some enc) /\ 0 < zlen enc /\
    str_forall base64url_char enc = true /\
    oidc_util_base64url_decode (Some enc) = (zlen s, Some s).
Proof. apply base64url_encode_strip. Qed.

(** ** A concrete codec *)

Module Base64Model.
(** Two letters per byte, filled up to a multiple of four. *)
Definition letter (n : nat) : ascii := ascii_of_nat (65 + n).
Definition unletter (c : ascii) : nat := (nat_of_ascii c - 65)%nat.

Fixpoint encode (s : string) : string :=
  match s with
  | "" => ""
  | String c s' =>
      let n := nat_of_ascii c in
      String (letter (n / 16)) (String (letter (n mod 16)) (String "A" (String "A" (encode s'))))
  end.

Fixpoint decode (s : string) : string :=
  match s with
  | String a (String b (String _ (String _ s'))) =>
      String (ascii_of_nat (unletter a * 16 + unletter b)) (decode s')
  | _ => ""
  end.

#[export] Instance base64 : Base64 :=
  {| apr_base64_encode := encode; apr_base64_encode_len n := 4 * n + 1; apr_base64_decode := decode |}.

Definition byte_ok (c : ascii) : bool :=
  let n := nat_of_ascii c in
  base64_char (letter (n / 16)) && base64_char (letter (n mod 16)) &&
  Ascii.eqb (ascii_of_nat (unletter (letter (n / 16)) * 16 + unletter (letter (n mod 16)))) c.

Lemma byte_ok_all c : byte_ok c = true.
Proof. apply ascii_ind_bool. vm_compute. reflexivity. Qed.

#[global] Instance base64_spec : Base64Spec base64.
Proof.
  split; cbn [apr_base64_encode apr_base64_encode_len apr_base64_decode base64].
  - intros s. exists (encode s), "". rewrite append_nil_r. split; [done|]. split; [|by left].
    induction s as [|c s IH]; [done|]. cbn [encode str_forall].
    pose proof (byte_ok_all c) as H. unfold byte_ok in H. bool_hyps. by rewrite H, H1, IH.
  - intros s. induction s as [|c s IH]; [done|]. cbn [encode String.length].
    rewrite <-(Nat.Div0.mod_add (String.length (encode s)) 1 4) in IH. etransitivity; [|exact IH]. f_equal; lia.
  - by intros [].
  - intros s. assert (H : String.length (encode s) = (4 * String.length s)%nat)
      by (induction s; simpl in *; lia). unfold zlen. rewrite H. lia.
  - intros s. induction s as [|c s IH]; [done|]. cbn [encode decode]. rewrite IH. f_equal.
    pose proof (byte_ok_all c) as H. unfold byte_ok in H. bool_hyps. by apply Ascii.eqb_eq in H0.
Qed.
End Base64Model.

Lemma base64url_roundtrip_witness :
  exists enc, oidc_util_base64url_encode (B:=Base64Model.base64) (Some "hello") 5
                OIDC_BASE64URL_PADDING_STRIP = (zlen enc, Some enc) /\ 0 < zlen enc /\
    str_forall base64url_char enc = true /\
    oidc_util_base64url_decode (B:=Base64Model.base64) (Some enc) = (5, Some "hello").
Proof. apply (base64url_roundtrip (B:=Base64Model.base64) "hello"). discriminate. Defined.
