(* ===== verification/Jose.v ===== *)
(** * The interface to the cryptographic code

    src/jose.c and src/jose/ wrap cjose, OpenSSL and zlib.  The components that
    encrypt and hash use them through the class [Jose]; [JoseSpec] says what they
    promise for a direct key of 32 bytes: encryption succeeds and yields a compact
    serialization, decryption with the same key inverts it, decompression inverts
    compression of at most 10 MiB, and a hash is never empty.  JoseLib.v models the
    wrappers and proves the promise. *)

From S2P Require Import Prelude Cstr Jansson Json.

Definition OIDC_JOSE_HDR_ALG_DIR : string := "dir".
Definition OIDC_JOSE_HDR_ENC_A256GCM : string := "A256GCM".
Definition OIDC_JOSE_ALG_SHA256 : string := "sha256".
Definition OIDC_CRYPTO_PASSPHRASE_DERIVED_KEY_LEN : Z := 32.
Definition OIDC_CJOSE_UNCOMPRESS_MAX : Z := 10 * 1024 * 1024.

Class Jose := {
  jwk_t : Type;
  oidc_jwk_create_symmetric_key : string -> option jwk_t;
  oidc_jose_compress : string -> option string;
  oidc_jose_uncompress : string -> option string;
  oidc_jwt_encrypt : string -> string -> option string -> jwk_t -> string -> option string; (* alg enc kid *)
  oidc_jwe_decrypt : string -> list (string * jwk_t) -> option string;
  oidc_proto_jwt_header_peek : string -> option string * option string * option string; (* alg enc kid *)
  oidc_jose_hash_bytes : string -> string -> option string
}.

(** The characters of a compact serialization. *)
Definition compact_char (c : ascii) : bool :=
  isalnum c || Ascii.eqb c "-" || Ascii.eqb c "_" || Ascii.eqb c ".".

(** A key identifier that a header can hold. *)
Definition kid_ok (kid : option string) : Prop := forall i, kid = Some i -> is_ascii i = true.

Class JoseSpec (J : Jose) : Prop := {
  symmetric_key_ok s :
    zlen s = OIDC_CRYPTO_PASSPHRASE_DERIVED_KEY_LEN -> is_Some (oidc_jwk_create_symmetric_key s);
  encrypt_ok s k kid p :
    zlen s = OIDC_CRYPTO_PASSPHRASE_DERIVED_KEY_LEN -> oidc_jwk_create_symmetric_key s = Some k -> kid_ok kid ->
    is_Some (oidc_jwt_encrypt OIDC_JOSE_HDR_ALG_DIR OIDC_JOSE_HDR_ENC_A256GCM kid k p);
  encrypt_compact alg enc kid k p c :
    oidc_jwt_encrypt alg enc kid k p = Some c -> c <> "" /\ str_forall compact_char c = true;
  peek_encrypt kid k p c :
    oidc_jwt_encrypt OIDC_JOSE_HDR_ALG_DIR OIDC_JOSE_HDR_ENC_A256GCM kid k p = Some c -> kid_ok kid ->
    oidc_proto_jwt_header_peek c = (Some OIDC_JOSE_HDR_ALG_DIR, Some OIDC_JOSE_HDR_ENC_A256GCM, kid);
  decrypt_encrypt s k kid p c kid' :
    oidc_jwk_create_symmetric_key s = Some k -> kid_ok kid ->
    oidc_jwt_encrypt OIDC_JOSE_HDR_ALG_DIR OIDC_JOSE_HDR_ENC_A256GCM kid k p = Some c ->
    kid = None \/ kid = Some kid' ->
    oidc_jwe_decrypt c [(kid', k)] = Some p;
  compress_ok p : is_Some (oidc_jose_compress p);
  uncompress_compress p c :
    oidc_jose_compress p = Some c -> zlen p <= OIDC_CJOSE_UNCOMPRESS_MAX -> oidc_jose_uncompress c = Some p;
  hash_nonempty alg s h : oidc_jose_hash_bytes alg s = Some h -> h <> ""
}.

(** ** A concrete instance *)

Module JoseModel.
Definition token : Type := string * string * option string * string * string.

Definition encrypt (alg enc : string) (kid : option string) (k p : string) : option string :=
  Some (String "e" (Model.bits (encode (alg, enc, kid, k, p)))).

Definition open (c : string) : option token := p ← Model.unbits (str_drop 1 c); decode p.

Definition decrypt (c : string) (keys : list (string * string)) : option string :=
  '(_, _, kid, k, p) ← open c;
  if existsb (fun ik => match kid with Some i => String.eqb i ik.1 | None => true end && String.eqb k ik.2) keys
  then Some p else None.

Definition peek (c : string) : option string * option string * option string :=
  match open c with
  | Some (alg, enc, kid, _, _) => (Some alg, Some enc, kid)
  | None => (None, None, None)
  end.

Definition uncompress (s : string) : option string :=
  Some (match s with String c t => if Ascii.eqb c "Z" then t else s | "" => s end).

#[export] Instance jose : Jose := {|
  jwk_t := string;
  oidc_jwk_create_symmetric_key k := Some k;
  oidc_jose_compress s := Some (String "Z" s);
  oidc_jose_uncompress := uncompress;
  oidc_jwt_encrypt := encrypt;
  oidc_jwe_decrypt := decrypt;
  oidc_proto_jwt_header_peek := peek;
  oidc_jose_hash_bytes alg s := Some (String "h" s)
|}.

Lemma open_encrypt alg enc kid k p c :
  encrypt alg enc kid k p = Some c -> open c = Some (alg, enc, kid, k, p).
Proof.
  intros [= <-]. unfold open. cbn [str_drop]. rewrite Model.unbits_bits. cbn [mbind option_bind].
  apply decode_encode.
Qed.

Lemma bits_compact p : str_forall compact_char (Model.bits p) = true.
Proof. induction p as [p IH|p IH|]; [exact IH..|done]. Qed.

#[global] Instance jose_spec : JoseSpec jose.
Proof.
  split.
  - intros. by eexists.
  - intros. by eexists.
  - intros alg enc kid k p c [= <-]. split; [done|]. apply bits_compact.
  - intros kid k p c Hc _. change (peek c = (Some OIDC_JOSE_HDR_ALG_DIR, Some OIDC_JOSE_HDR_ENC_A256GCM, kid)).
    unfold peek. by rewrite (open_encrypt _ _ _ _ _ _ Hc).
  - intros s k kid p c kid' _ _ Hc Hk. change (decrypt c [(kid', k)] = Some p). unfold decrypt.
    rewrite (open_encrypt _ _ _ _ _ _ Hc). cbn.
    rewrite String.eqb_refl, andb_true_r, orb_false_r.
    destruct Hk as [->| ->]; [done|]. by rewrite String.eqb_refl.
  - intros. by eexists.
  - intros p c [= <-] _. done.
  - intros alg s h [= <-]. done.
Qed.
End JoseModel.
