(* ===== verification/Jwt.v ===== *)
(** * src/util/jwt.c: encrypted values for internal use

    State cookies, session cookies and cache values are encrypted with a key that
    is derived from the configured passphrase. *)

From S2P Require Import Prelude Cstr Apr Jansson Json Base64 Jose.

(** [oidc_crypto_passphrase_t]: a derived key is [None] when its [_set] flag is [FALSE]. *)
Record oidc_crypto_passphrase_t := mk_passphrase {
  secret1 : option string;
  secret2 : option string;
  derived_key1 : option string;
  derived_key2 : option string
}.

Definition OIDC_JWT_INTERNAL_NO_COMPRESS_ENV_VAR : string := "OIDC_JWT_INTERNAL_NO_COMPRESS".

Definition oidc_util_env_var_override (r : request) (env_var_name : string) (return_when_set : bool) : bool :=
  match apr_table_get (subprocess_env r) env_var_name with
  | Some s => if _oidc_strcmp (Some s) (Some "true") =? 0 then return_when_set else negb return_when_set
  | None => negb return_when_set
  end.

Definition oidc_util_jwt_internal_compress (r : request) : bool :=
  oidc_util_env_var_override r OIDC_JWT_INTERNAL_NO_COMPRESS_ENV_VAR false.

Section jwt.
Context {J : Jose}.

Definition oidc_util_jwt_key_from_derived (derived_key : option string) : option jwk_t :=
  match derived_key with
  | None => None
  | Some k => oidc_jwk_create_symmetric_key k
  end.

(** [None] is [FALSE]. *)
Definition oidc_util_jwt_create (r : request) (passphrase : oidc_crypto_passphrase_t)
  (s_payload : string) : option string :=
  match secret1 passphrase with
  | None => None
  | Some _ =>
      jwk ← oidc_util_jwt_key_from_derived (derived_key1 passphrase);
      cser ← (if oidc_util_jwt_internal_compress r then oidc_jose_compress s_payload else Some s_payload);
      let kid := match secret2 passphrase with Some _ => Some "1" | None => None end in
      oidc_jwt_encrypt OIDC_JOSE_HDR_ALG_DIR OIDC_JOSE_HDR_ENC_A256GCM kid jwk cser
  end.

Definition oidc_util_jwt_verify (r : request) (passphrase : oidc_crypto_passphrase_t)
  (compact_encoded_jwt : string) : option string :=
  let '(alg, enc, kid) := oidc_proto_jwt_header_peek compact_encoded_jwt in
  if negb (_oidc_strcmp alg (Some OIDC_JOSE_HDR_ALG_DIR) =? 0) ||
     negb (_oidc_strcmp enc (Some OIDC_JOSE_HDR_ENC_A256GCM) =? 0)
  then None
  else
    jwk ← (if nonnull (secret2 passphrase) && negb (nonnull kid)
           then oidc_util_jwt_key_from_derived (derived_key2 passphrase)
           else oidc_util_jwt_key_from_derived (derived_key1 passphrase));
    plaintext ← oidc_jwe_decrypt compact_encoded_jwt [("1", jwk)];
    payload ← oidc_jose_uncompress plaintext;
    Some (cstr payload).

(** [oidc_util_hash_string_and_base64url_encode] of src/util/util.c. *)
Definition oidc_util_hash_string_and_base64url_encode `{Base64} (openssl_hash_algo : string)
  (input : string) : option string :=
  hashed ← oidc_jose_hash_bytes openssl_hash_algo input;
  let '(len, output) := oidc_util_base64url_encode (Some hashed) (zlen hashed) OIDC_BASE64URL_PADDING_STRIP in
  if len <=? 0 then None else output.
End jwt.

(** ** Properties *)

Section jwt_lemmas.
Context {J : Jose} {JS : JoseSpec J}.

(** A payload is a C string, and it survives compression, or else the detection of
    compression on reading. *)
Definition payload_ok (r : request) (s : string) : Prop :=
  cstr s = s /\
  if oidc_util_jwt_internal_compress r then zlen s <= OIDC_CJOSE_UNCOMPRESS_MAX
  else oidc_jose_uncompress s = Some s.

(** For the payload a witness computes. *)
Lemma payload_ok_small r (o : option string) s : o = Some s ->
  oidc_util_jwt_internal_compress r && (zlen (default "" o) <=? OIDC_CJOSE_UNCOMPRESS_MAX) &&
    String.eqb (cstr (default "" o)) (default "" o) = true -> payload_ok r s.
Proof.
  intros ->. unfold payload_ok, from_option. intros [[-> Hl%Z.leb_le]%andb_true_iff He%String.eqb_eq]%andb_true_iff.
  by split.
Qed.

Lemma jwt_create_inv r p s c :
  oidc_util_jwt_create r p s = Some c ->
  exists k key cser, secret1 p <> None /\ derived_key1 p = Some k /\
    oidc_jwk_create_symmetric_key k = Some key /\
    (if oidc_util_jwt_internal_compress r then oidc_jose_compress s else Some s) = Some cser /\
    oidc_jwt_encrypt OIDC_JOSE_HDR_ALG_DIR OIDC_JOSE_HDR_ENC_A256GCM
      (match secret2 p with Some _ => Some "1" | None => None end) key cser = Some c.
Proof.
  unfold oidc_util_jwt_create. destruct (secret1 p); [|done].
  destruct (derived_key1 p) as [k|]; [|done]. cbn [oidc_util_jwt_key_from_derived].
  destruct (oidc_jwk_create_symmetric_key k) as [key|] eqn:Hk; [|done]. cbn [mbind option_bind].
  destruct (if oidc_util_jwt_internal_compress r then _ else _) as [cser|] eqn:Hc; [|done].
  cbn [mbind option_bind]. intros He. by exists k, key, cser.
Qed.

(** Verification with a passphrase that selects the key the value was encrypted with. *)
Lemma jwt_verify_create r r' p p' s c k :
  payload_ok r s -> oidc_util_jwt_create r p s = Some c -> derived_key1 p = Some k ->
  (if nonnull (secret2 p') && negb (nonnull (secret2 p)) then derived_key2 p' else derived_key1 p') = Some k ->
  oidc_util_jwt_verify r' p' c = Some s.
Proof.
  intros Hp Hc Hk Hk'. apply jwt_create_inv in Hc as (k0 & key & cser & _ & Hk0 & Hkey & Hz & He).
  assert (k0 = k) as -> by congruence. unfold oidc_util_jwt_verify.
  assert (Hok : kid_ok (match secret2 p with Some _ => Some "1" | None => None end))
    by (destruct (secret2 p); by intros i [= <-]).
  rewrite (peek_encrypt _ _ _ _ He Hok). cbn [_oidc_strcmp]. rewrite !strcmp_refl. cbn [Z.eqb negb orb].
  assert (Hsel : (if nonnull (secret2 p') && negb (nonnull (match secret2 p with Some _ => Some "1" | None => None end))
    then oidc_util_jwt_key_from_derived (derived_key2 p')
    else oidc_util_jwt_key_from_derived (derived_key1 p')) = Some key).
  { assert (nonnull (match secret2 p with Some _ => Some "1" | None => None end) = nonnull (secret2 p)) as ->
      by by destruct (secret2 p).
    destruct (_ && _); by rewrite Hk'. }
  rewrite Hsel. cbn [mbind option_bind].
  rewrite (decrypt_encrypt _ _ _ _ _ "1" Hkey Hok He) by (destruct (secret2 p); auto). cbn [mbind option_bind].
  destruct Hp as [Hs Hp].
  assert (oidc_jose_uncompress cser = Some s) as ->; [|cbn [mbind option_bind]; by rewrite Hs].
  destruct (oidc_util_jwt_internal_compress r); [by apply uncompress_compress|]. by simplify_eq.
Qed.
End jwt_lemmas.

(** With a passphrase and its derived key, encryption succeeds. *)
Lemma jwt_create_total {J : Jose} {JS : JoseSpec J} r p s k : secret1 p <> None ->
  derived_key1 p = Some k -> zlen k = OIDC_CRYPTO_PASSPHRASE_DERIVED_KEY_LEN ->
  exists c, oidc_util_jwt_create r p s = Some c.
Proof.
  intros Hs Hk Hl. unfold oidc_util_jwt_create. destruct (secret1 p); [|done].
  destruct (symmetric_key_ok k Hl) as [key Hkey]. rewrite Hk. cbn [oidc_util_jwt_key_from_derived].
  rewrite Hkey. cbn [mbind option_bind].
  assert (exists z, (if oidc_util_jwt_internal_compress r then oidc_jose_compress s else Some s) = Some z) as [z ->].
  { destruct (oidc_util_jwt_internal_compress r); [apply compress_ok|by eexists]. }
  cbn [mbind option_bind]. eapply encrypt_ok; [done..|]. destruct (secret2 p); by intros i [= <-].
Qed.

(** With a passphrase and its derived key of 32 bytes a value can be encrypted;
    it is recovered with the same configuration, and after a rotation that moves the
    passphrase to the second place when it was encrypted with that passphrase alone. *)
Theorem jwt_roundtrip_rotation {J : Jose} {JS : JoseSpec J} (r r' : request)
  (p : oidc_crypto_passphrase_t) (s k s1' k1' : string) :
  payload_ok r s -> secret1 p <> None -> derived_key1 p = Some k ->
  zlen k = OIDC_CRYPTO_PASSPHRASE_DERIVED_KEY_LEN ->
  exists c, oidc_util_jwt_create r p s = Some c /\
    oidc_util_jwt_verify r' p c = Some s /\
    (secret2 p = None ->
     oidc_util_jwt_verify r' (mk_passphrase (Some s1') (secret1 p) (Some k1') (derived_key1 p)) c = Some s).
Proof.
  intros Hp Hs Hk Hl. destruct (jwt_create_total r p s k Hs Hk Hl) as [c Hc]. exists c. split; [done|]. split.
  - eapply jwt_verify_create; [done|done|done|]. destruct (secret2 p); done.
  - intros H2. eapply jwt_verify_create; [done|done|done|]. rewrite H2. cbn.
    destruct (secret1 p); done.
Qed.

Definition demo_key : string := "0123456789abcdef0123456789abcdef".
Definition demo_passphrase : oidc_crypto_passphrase_t := mk_passphrase (Some "s") None (Some demo_key) None.

Lemma jwt_roundtrip_rotation_witness :
  exists c, oidc_util_jwt_create (J:=JoseModel.jose) demo_request demo_passphrase "{}" = Some c /\
    oidc_util_jwt_verify (J:=JoseModel.jose) demo_request demo_passphrase c = Some "{}" /\
    (secret2 demo_passphrase = None -> oidc_util_jwt_verify (J:=JoseModel.jose) demo_request
      (mk_passphrase (Some "n") (secret1 demo_passphrase) (Some "m") (derived_key1 demo_passphrase)) c = Some "{}").
Proof.
  apply (jwt_roundtrip_rotation (J:=JoseModel.jose) demo_request demo_request demo_passphrase "{}" demo_key "n" "m");
    [split; [reflexivity|vm_compute; discriminate]|discriminate|reflexivity|reflexivity].
Defined.

(** Hashing succeeds exactly when the digest does. *)
Lemma hash_encode_some {J : Jose} {JS : JoseSpec J} {B : Base64} {BS : Base64Spec B} alg s h :
  oidc_jose_hash_bytes alg s = Some h ->
  exists enc, oidc_util_hash_string_and_base64url_encode alg s = Some enc /\
    oidc_util_base64url_decode (Some enc) = (zlen h, Some h).
Proof.
  intros Hh. pose proof (hash_nonempty _ _ _ Hh) as Hne.
  destruct (base64url_encode_strip h Hne) as (enc & He & Hpos & _ & Hd).
  exists enc. split; [|done]. unfold oidc_util_hash_string_and_base64url_encode. rewrite Hh.
  cbn [mbind option_bind]. rewrite He. destruct (Z.leb_spec (zlen enc) 0); [lia|done].
Qed.
