(* ===== verification/Cjose.v ===== *)
(** * cjose, OpenSSL and zlib as interfaces

    The third-party libraries src/jose.c and src/jose/ call, as parameters: [Cjose]
    for keys, encrypted and signed tokens, [Digest] for message digests and [Zlib] for
    streams.  The [..Spec] classes state the part of their documentation the development relies
    on; the module [CjoseModel] is a concrete instance. *)

From S2P Require Import Prelude Cstr Jansson Json Base64.

(** ** cjose *)

Definition CJOSE_JWK_KTY_RSA : Z := 1.
Definition CJOSE_JWK_KTY_EC : Z := 2.
Definition CJOSE_JWK_KTY_OCT : Z := 3.

(** A header ([cjose_header_t]) is a JSON object.  [pem_public_key] is what OpenSSL reads
    from a PEM file: the key and the bytes of its parameters. *)
Class Cjose (J : Jansson) := {
  cjose_version : string;
  cjose_jwk_t : Type;
  cjose_jwk_create_oct_spec : string -> option cjose_jwk_t;
  cjose_jwk_import : string -> option cjose_jwk_t;
  cjose_jwk_get_kid : cjose_jwk_t -> option string;
  cjose_jwk_set_kid : cjose_jwk_t -> string -> option cjose_jwk_t;
  cjose_jwk_get_kty : cjose_jwk_t -> Z;
  pem_public_key : string -> option (cjose_jwk_t * string);
  cjose_header_get : json_t -> string -> option string;
  cjose_jwe_t : Type;
  cjose_jwe_import : string -> option cjose_jwe_t;
  cjose_jwe_get_protected : cjose_jwe_t -> json_t;
  cjose_jwe_encrypt : cjose_jwk_t -> json_t -> string -> option cjose_jwe_t;
  cjose_jwe_decrypt : cjose_jwe_t -> cjose_jwk_t -> option string;
  cjose_jwe_export : cjose_jwe_t -> option string;
  cjose_jws_t : Type;
  cjose_jws_import : string -> option cjose_jws_t;
  cjose_jws_get_protected : cjose_jws_t -> json_t;
  cjose_jws_get_plaintext : cjose_jws_t -> option string;
  cjose_jws_verify : cjose_jws_t -> cjose_jwk_t -> bool;
  cjose_jws_sign : cjose_jwk_t -> json_t -> string -> option cjose_jws_t;
  cjose_jws_export : cjose_jws_t -> option string;
  cjose_base64url_encode : string -> option string
}.

(** The serialization of a token: its header in base64url, a dot, and the rest. *)
Definition compact (B : Base64) (J : Jansson) (h : json_t) (c : string) : Prop :=
  exists f d rest, json_dumps h f = Some d /\
    c = (str_map to_url (strip_end "=" (apr_base64_encode d)) ^^ "." ^^ rest) /\
    str_forall (fun c => base64url_char c || Ascii.eqb c ".") rest = true.

Class CjoseSpec {J : Jansson} (C : Cjose J) (B : Base64) : Prop := {
  oct_ok s : s <> "" -> is_Some (cjose_jwk_create_oct_spec s);
  oct_kty s k : cjose_jwk_create_oct_spec s = Some k ->
    cjose_jwk_get_kty k = CJOSE_JWK_KTY_OCT;
  set_kid k i k' : cjose_jwk_set_kid k i = Some k' -> cjose_jwk_get_kid k' = Some i;
  header_get h a : cjose_header_get h a = v ← json_object_get h a; json_string_value v;
  (* direct encryption with a key of the size of A256GCM *)
  jwe_encrypt_ok s k h p : cjose_jwk_create_oct_spec s = Some k -> zlen s = 32 ->
    json_typeof h = JSON_OBJECT ->
    cjose_header_get h "alg" = Some "dir" -> cjose_header_get h "enc" = Some "A256GCM" ->
    exists e c, cjose_jwe_encrypt k h p = Some e /\ cjose_jwe_export e = Some c;
  jwe_export_compact k h p e c : cjose_jwe_encrypt k h p = Some e -> cjose_jwe_export e = Some c ->
    exists h', compact B J h' c /\ (cjose_header_get h "alg" = Some "dir" -> h' = h);
  jwe_decrypt_encrypt s k h p e c : cjose_jwk_create_oct_spec s = Some k ->
    cjose_header_get h "alg" = Some "dir" -> json_typeof h = JSON_OBJECT ->
    cjose_jwe_encrypt k h p = Some e -> cjose_jwe_export e = Some c ->
    exists e', cjose_jwe_import c = Some e' /\ cjose_jwe_get_protected e' = h /\ cjose_jwe_decrypt e' k = Some p;
  (* a signed token is text, it is no encrypted token, and the key that signed it verifies it *)
  jws_import_export k h p j c : cjose_jws_sign k h p = Some j -> cjose_jws_export j = Some c ->
    json_typeof h = JSON_OBJECT ->
    cstr c = c /\ cjose_jwe_import c = None /\
    exists j', cjose_jws_import c = Some j' /\ cjose_jws_get_protected j' = h /\
      cjose_jws_get_plaintext j' = Some p /\ cjose_jws_verify j' k = true
}.

(** ** OpenSSL's digests: [EVP_get_digestbyname], [EVP_Digest*]. *)

Class Digest := { EVP_Digest : string -> string -> option string }.
Class DigestSpec (D : Digest) : Prop := { digest_nonempty alg s h : EVP_Digest alg s = Some h -> h <> "" }.

(** ** zlib *)

Definition Z_OK : Z := 0.
Definition Z_STREAM_END : Z := 1.

(** [deflate] is [deflateInit2], [deflate] with [Z_FINISH] into a buffer of
    [deflateBound] bytes and [deflateEnd]; [inflate] gets the room in the output buffer and gives the
    status, the bytes written and the stream after the call. *)
Class Zlib := {
  deflate : string -> option string;
  z_stream : Type;
  avail_in : z_stream -> Z;
  inflateInit : string -> option z_stream;
  inflate : z_stream -> Z -> Z * string * z_stream
}.

(** The two bytes of RFC 1950. *)
Definition zlib_header (s : string) : Prop :=
  exists a b t, s = String a (String b t) /\ Z.land (code a) 15 = 8 /\ (code a * 256 + code b) mod 31 = 0.

Class ZlibSpec (Zl : Zlib) := {
  (* what is left to inflate *)
  z_rest : z_stream -> option string;
  deflate_ok s : is_Some (deflate s);
  deflate_zlib s c : deflate s = Some c -> zlib_header c;
  inflate_deflate s c : deflate s = Some c -> exists z, inflateInit c = Some z /\ z_rest z = Some s;
  inflate_rest z s n : z_rest z = Some s -> 0 < n ->
    let '(st, out, z') := inflate z n in
    if zlen s <=? n then st = Z_STREAM_END /\ out = s
    else st = Z_OK /\ out = str_take (Z.to_nat n) s /\ z_rest z' = Some (str_drop (Z.to_nat n) s);
  (* a call fills no more than its room and, when it returns [Z_OK], made progress *)
  inflate_init_in c z : inflateInit c = Some z -> 0 <= avail_in z <= zlen c;
  inflate_progress z n st out z' : 0 <= n -> inflate z n = (st, out, z') -> 0 <= avail_in z ->
    zlen out <= n /\ 0 <= avail_in z' <= avail_in z /\ (st = Z_OK -> avail_in z' - zlen out < avail_in z)
}.

(** ** A concrete instance *)

Module CjoseModel.
#[local] Existing Instances Model.jansson Base64Model.base64.
(** A key: its type, its bytes and its identifier. *)
Record jwk := mk_jwk { m_kty : Z; m_bytes : string; m_kid : option string }.

(** A token: whether it is encrypted, its header, the bytes of its key and its content. *)
Record tok := mk_tok { t_enc : bool; t_hdr : Model.jv; t_key : string; t_data : string }.

Definition segment (h : Model.jv) : string :=
  str_map to_url (strip_end "=" (Base64Model.encode (Model.dumps h))).
Definition export (t : tok) : option string :=
  Some (segment (t_hdr t) ^^ "." ^^ Model.bits (encode (t_enc t, t_hdr t, t_key t, t_data t))).
Definition import (s : string) : option tok :=
  rest ← strchr s ".";
  p ← Model.unbits (str_drop 1 rest);
  '(e, h, k, d) ← decode (A:=bool * Model.jv * string * string) p;
  Some (mk_tok e h k d).

Definition header (h : Model.jv) (a : string) : option string :=
  v ← alist_get a (Model.items h); match v with Model.JStr s => Some s | _ => None end.

Definition is_object (h : Model.jv) : bool := match h with Model.JObj _ => true | _ => false end.

(** A key of a set: an object with the members "kty", "k" and "kid". *)
Definition key_import (s : string) : option jwk :=
  h ← json_loads (Jansson:=Model.jansson) s 0;
  k ← header h "k";
  let kty := match header h "kty" with Some "RSA" => 1 | Some "EC" => 2 | _ => 3 end in
  Some (mk_jwk kty k (header h "kid")).

#[export] Instance cjose : Cjose Model.jansson := {|
  cjose_version := "0.6.2";
  cjose_jwk_t := jwk;
  cjose_jwk_create_oct_spec s := if String.eqb s "" then None else Some (mk_jwk CJOSE_JWK_KTY_OCT s None);
  cjose_jwk_import := key_import;
  cjose_jwk_get_kid := m_kid;
  cjose_jwk_set_kid k i := Some (mk_jwk (m_kty k) (m_bytes k) (Some i));
  cjose_jwk_get_kty := m_kty;
  pem_public_key s := Some (mk_jwk CJOSE_JWK_KTY_RSA s None, s);
  cjose_header_get := header;
  cjose_jwe_t := tok;
  cjose_jwe_import s := t ← import s; if t_enc t then Some t else None;
  cjose_jwe_get_protected := t_hdr;
  cjose_jwe_encrypt k h p :=
    if String.eqb (m_bytes k) "" then None else Some (mk_tok true h (m_bytes k) p);
  cjose_jwe_decrypt t k := if String.eqb (t_key t) (m_bytes k) then Some (t_data t) else None;
  cjose_jwe_export := export;
  cjose_jws_t := tok;
  cjose_jws_import s := t ← import s; if t_enc t then None else Some t;
  cjose_jws_get_protected := t_hdr;
  cjose_jws_get_plaintext t := Some (t_data t);
  cjose_jws_verify t k := String.eqb (t_key t) (m_bytes k);
  cjose_jws_sign k h p := Some (mk_tok false h (m_bytes k) p);
  cjose_jws_export := export;
  cjose_base64url_encode s := Some (str_map to_url (strip_end "=" (Base64Model.encode s)))
|}.

Lemma bits_chars p : str_forall (fun c => base64url_char c || Ascii.eqb c ".") (Model.bits p) = true.
Proof. induction p as [p IH|p IH|]; [exact IH..|done]. Qed.

Lemma export_compact t c : export t = Some c -> compact Base64Model.base64 Model.jansson (t_hdr t) c.
Proof. intros [= <-]. eexists 0, _, _. split; [reflexivity|]. split; [reflexivity|]. apply bits_chars. Qed.

Lemma segment_nodot h : str_forall (fun d => negb (Ascii.eqb d ".")) (segment h) = true.
Proof.
  unfold segment. set (s := Model.dumps _). clearbody s.
  assert (He : str_forall base64_char (Base64Model.encode s) = true).
  { induction s as [|c s IH]; [done|]. cbn [Base64Model.encode str_forall].
    pose proof (Base64Model.byte_ok_all c) as H. unfold Base64Model.byte_ok in H. bool_hyps. by rewrite H, H1, IH. }
  rewrite strip_end_none by (apply (str_forall_impl base64_char); [intros c; char_cases c|done]).
  apply (str_forall_map base64_char); [intros c; char_cases c|done].
Qed.

Lemma import_export t c : export t = Some c -> import c = Some t.
Proof.
  intros [= <-]. unfold import. cbn [String.append]. rewrite strchr_app by (apply (strchr_forall (fun d => negb (Ascii.eqb d "."))); [done|apply segment_nodot]).
  cbn [strchr Ascii.eqb Bool.eqb mbind option_bind str_drop]. rewrite Model.unbits_bits. cbn [mbind option_bind].
  rewrite countable.decode_encode. by destruct t.
Qed.

Lemma text_chars s : str_forall (fun c => base64url_char c || Ascii.eqb c ".") s = true -> cstr s = s.
Proof.
  induction s as [|c s IH]; [done|]. cbn [str_forall cstr]. intros [Hc Hs]%andb_true_iff. rewrite (IH Hs).
  destruct (Z.eqb_spec (code c) 0) as [H0|]; [|done]. apply (code_inj c "000") in H0. by subst c.
Qed.

Lemma compact_text h c : compact Base64Model.base64 Model.jansson h c -> cstr c = c.
Proof.
  intros (f & d & rest & _ & -> & Hr). apply text_chars. rewrite strip_rfc4648.
  destruct (encode_strip d) as (body & pad & _ & Hb & _ & ->). rewrite !str_forall_append, Hr.
  cbn. rewrite andb_true_r. apply (str_forall_map base64_char); [intros x; char_cases x|done].
Qed.

#[global] Instance cjose_spec : CjoseSpec cjose Base64Model.base64.
Proof.
  split; cbn.
  - intros s Hs. destruct (String.eqb_spec s ""); [done|by eexists].
  - intros s k. destruct (String.eqb s ""); [done|]. by intros [= <-].
  - by intros k i k' [= <-].
  - done.
  - intros s k h p Hk Hl _ _ _. destruct (String.eqb_spec s "") as [->|Hne]; [done|]. simplify_eq/=.
    destruct (String.eqb_spec s ""); [done|]. by eexists _, _.
  - intros k h p e c. destruct (String.eqb _ _); [done|]. intros [= <-] Hc%export_compact. by eexists.
  - intros s k h p e c. destruct (String.eqb_spec s "") as [->|Hne]; [done|]. intros [= <-] _ _ He Hc.
    cbn [m_bytes] in He. apply String.eqb_neq in Hne. rewrite Hne in He. simplify_eq.
    exists (mk_tok true h s p). rewrite (import_export _ _ Hc). cbn. by rewrite String.eqb_refl.
  - intros k h p j c [= <-] Hc _. rewrite (import_export _ _ Hc). cbn. split; [|split; [done|]].
    + apply export_compact in Hc. eapply compact_text, Hc.
    + eexists. split; [done|]. cbn. by rewrite String.eqb_refl.
Qed.

#[export] Instance digest : Digest := {| EVP_Digest alg s := Some (String "h" s) |}.
#[global] Instance digest_spec : DigestSpec digest.
Proof. split. by intros alg s h [= <-]. Qed.

(** A stream: the rest of the output, when the input is well formed. *)
#[export] Instance zlib : Zlib := {|
  deflate s := Some (String "x" (String "156" s));
  z_stream := option string;
  avail_in z := match z with Some s => zlen s | None => 0 end;
  inflateInit s :=
    Some (match s with
          | String a (String b t) => if Ascii.eqb a "x" && Ascii.eqb b "156" then Some t else None
          | _ => None
          end);
  inflate z n :=
    match z with
    | None => (-3, "", None)
    | Some s =>
        if zlen s <=? n then (Z_STREAM_END, s, Some "")
        else if n <=? 0 then (-5, "", z)
        else (Z_OK, str_take (Z.to_nat n) s, Some (str_drop (Z.to_nat n) s))
    end
|}.

#[global] Instance zlib_spec : ZlibSpec zlib.
Proof.
  refine {| z_rest := id : z_stream -> option string |}; cbn.
  - intros s. by eexists.
  - intros s c [= <-]. eexists _, _, _. split; [reflexivity|]. split; reflexivity.
  - intros s c [= <-]. by eexists.
  - intros z s n [= ->] Hn. cbn. destruct (zlen s <=? n); [done|].
    by destruct (Z.leb_spec n 0); [lia|].
  - intros c z [= <-]. unfold zlen. destruct c as [|a [|b t]]; cbn; [lia..|]. destruct (_ && _); cbn; lia.
  - intros [s|] n st out z' Hn; [|intros [= <- <- <-] _; unfold zlen, Z_OK; cbn; lia].
    destruct (Z.leb_spec (zlen s) n); [intros [= <- <- <-] _; unfold zlen, Z_OK, Z_STREAM_END in *; cbn; lia|].
    destruct (Z.leb_spec n 0); [intros [= <- <- <-] _; unfold zlen, Z_OK; cbn; lia|].
    intros [= <- <- <-] _. cbn. unfold zlen, Z_OK in *. rewrite str_take_length by lia.
    assert (String.length (str_drop (Z.to_nat n) s) = (String.length s - Z.to_nat n)%nat) as ->; [|lia].
    rewrite <-(str_take_drop (Z.to_nat n) s) at 2. rewrite length_append, str_take_length; lia.
Defined.
End CjoseModel.
