(* ===== verification/Jwk.v ===== *)
(** * src/jose.c, src/jose/jwk.c and src/util/key.c: digests and keys

    Reading keys from files and certificates, which is OpenSSL's work, is the
    operation [pem_public_key] of [Cjose]. *)

From S2P Require Import Prelude Cstr Apr Jansson Json Base64 Jose Cjose.

Definition OIDC_JOSE_JWK_KTY_RSA : Z := 1.
Definition OIDC_JOSE_JWK_KTY_EC : Z := 2.
Definition OIDC_JOSE_JWK_KTY_OCT : Z := 3.
Definition OIDC_JOSE_JWK_KTY_STR : string := "kty".
Definition OIDC_JOSE_JWK_USE_STR : string := "use".
Definition OIDC_JOSE_JWK_ALG_STR : string := "alg".
Definition OIDC_JOSE_JWK_X5C_STR : string := "x5c".
Definition OIDC_JOSE_JWK_X5T_STR : string := "x5t".
Definition OIDC_JOSE_JWK_X5T256_STR : string := "x5t#S256".
Definition OIDC_JOSE_JWK_SIG_STR : string := "sig".
Definition OIDC_JOSE_JWK_ENC_STR : string := "enc".
Definition OIDC_JOSE_JWKS_KEYS_STR : string := "keys".
Definition OIDC_JOSE_HDR_ALG : string := "alg".
Definition OIDC_JOSE_HDR_ENC : string := "enc".
Definition OIDC_JOSE_HDR_KID : string := "kid".
Definition OIDC_JOSE_CERT_BEGIN : string := "-----BEGIN CERTIFICATE-----".
Definition OIDC_JOSE_CERT_END : string := "-----END CERTIFICATE-----".

(** ** Digests *)

Section digest.
Context {D : Digest}.

Definition oidc_jose_hash_bytes (s_digest input : string) : option string := EVP_Digest s_digest input.

Definition sha2_families : list (list string * string * Z) :=
  [(["RS256"; "PS256"; "HS256"; "ES256"], "sha256", 32);
   (["RS384"; "PS384"; "HS384"; "ES384"], "sha384", 48);
   (["RS512"; "PS512"; "HS512"; "ES512"], "sha512", 64)].

Definition _oidc_jose_alg_to_sha2 (alg : option string) : option (string * Z) :=
  match List.find (fun f => existsb (fun a => _oidc_strcmp alg (Some a) =? 0) f.1.1) sha2_families with
  | Some f => Some (f.1.2, f.2)
  | None => None
  end.

Definition oidc_jose_alg_to_openssl_digest (alg : option string) : option string :=
  match _oidc_jose_alg_to_sha2 alg with Some (d, _) => Some d | None => None end.

Definition oidc_jose_hash_length (alg : option string) : Z :=
  match _oidc_jose_alg_to_sha2 alg with Some (_, n) => n | None => 0 end.

Definition oidc_jose_hash_string (alg : option string) (msg : string) : option string :=
  s_digest ← oidc_jose_alg_to_openssl_digest alg;
  oidc_jose_hash_bytes s_digest msg.
End digest.

(** ** Keys *)

Section jwk.
Context {J : Jansson} {C : Cjose J} {D : Digest}.

Record oidc_jwk_t := mk_jwk {
  jwk_use : option string;
  jwk_alg : option string;
  jwk_kty : Z;
  jwk_kid : option string;
  jwk_x5c : option (list string);
  jwk_x5t : option string;
  jwk_x5t_S256 : option string;
  jwk_cjose_jwk : cjose_jwk_t
}.

(** The boolean and [*result]. *)
Definition oidc_jose_get_string (json : json_t) (claim_name : string) (is_mandatory : bool)
  (result : option string) : bool * option string :=
  match json_object_get json claim_name with
  | Some v =>
      if oidc_json_is_string (Some v) then (true, json_string_value v) else (negb is_mandatory, result)
  | None => (negb is_mandatory, result)
  end.

Definition oidc_jose_hash_and_base64url_encode (openssl_hash_algo input : string) : option string :=
  hashed ← oidc_jose_hash_bytes openssl_hash_algo input;
  cjose_base64url_encode hashed.

(** [None] is [FALSE]; the key is changed in place. *)
Definition oidc_jwk_set_or_generate_kid (cjose_jwk : cjose_jwk_t) (s_kid : option string) (key_params : string)
  : option cjose_jwk_t :=
  jwk_kid ← (match s_kid with
             | Some kid => Some kid
             | None => oidc_jose_hash_and_base64url_encode OIDC_JOSE_ALG_SHA256 key_params
             end);
  cjose_jwk_set_kid cjose_jwk jwk_kid.

Definition oidc_jwk_from_cjose (cjose_jwk : cjose_jwk_t) (use : option string) : oidc_jwk_t :=
  mk_jwk use None (cjose_jwk_get_kty cjose_jwk) (cjose_jwk_get_kid cjose_jwk) None None None cjose_jwk.

(** [skid] is [NULL] in every call; [key_len] bytes of [key] are used. *)
Definition oidc_jwk_create_symmetric_key (skid : option string) (key : string) (key_len : Z) (set_kid : bool)
  : option oidc_jwk_t :=
  let key := str_take (Z.to_nat key_len) key in
  cjose_jwk ← cjose_jwk_create_oct_spec key;
  cjose_jwk ← (if set_kid then oidc_jwk_set_or_generate_kid cjose_jwk skid key else Some cjose_jwk);
  Some (oidc_jwk_from_cjose cjose_jwk None).

(** *** Keys in JSON *)

Definition pem_chunk : nat := 75.

(** The loop that copies the certificate in lines of at most 75 characters. *)
Fixpoint pem_lines (fuel : nat) (s : string) : string :=
  match fuel, s with
  | O, _ | _, "" => ""
  | S fuel, _ => (str_take pem_chunk s ^^ String "010" (pem_lines fuel (str_drop pem_chunk s)))
  end.

(** The buffer, and the size that was allocated for it. *)
Definition pem_format (s_x5c : string) : string :=
  OIDC_JOSE_CERT_BEGIN ^^ String "010" (pem_lines (String.length s_x5c) s_x5c ^^ OIDC_JOSE_CERT_END ^^ String "010" "").
Definition pem_size (s_x5c : string) : Z :=
  let n := zlen s_x5c in
  let n_lines := (n + 75 - 1) `quot` 75 in
  zlen OIDC_JOSE_CERT_BEGIN + 1 + n + n_lines + zlen OIDC_JOSE_CERT_END + 1.

(** The key of the certificate, also when its identifier cannot be set. *)
Definition _oidc_jwk_parse_x5c (json : json_t) : option cjose_jwk_t :=
  v ← json_object_get json OIDC_JOSE_JWK_X5C_STR;
  if negb (oidc_json_is_array (Some v)) then None
  else
    v ← oidc_json_array_get (Some v) 0;
    s_x5c ← (if oidc_json_is_string (Some v) then json_string_value v else None);
    let kid := v ← json_object_get json OIDC_JOSE_HDR_KID; json_string_value v in
    '(cjose_jwk, fp) ← pem_public_key (pem_format s_x5c);
    Some (default cjose_jwk (oidc_jwk_set_or_generate_kid cjose_jwk kid fp)).

Definition _oidc_jwk_parse_x5c_spec (json : json_t) : option cjose_jwk_t :=
  kty ← (oidc_jose_get_string json OIDC_JOSE_JWK_KTY_STR false None).2;
  if negb (_oidc_strcmp (Some kty) (Some "RSA") =? 0) && negb (_oidc_strcmp (Some kty) (Some "EC") =? 0) then None
  else
    '_ ← json_object_get json OIDC_JOSE_JWK_X5C_STR;
    _oidc_jwk_parse_x5c json.

Definition oidc_jwk_parse (json : json_t) : option oidc_jwk_t :=
  s_json ← oidc_json_encode (Some json) (Z.lor OIDC_JSON_PRESERVE_ORDER OIDC_JSON_COMPACT);
  cjose_jwk ← (match cjose_jwk_import s_json with
               | Some k => Some k
               | None => _oidc_jwk_parse_x5c_spec json
               end);
  let get name := v ← json_object_get json name; json_string_value v in
  Some (mk_jwk (oidc_jose_get_string json OIDC_JOSE_JWK_USE_STR false None).2
    (oidc_jose_get_string json OIDC_JOSE_JWK_ALG_STR false None).2
    (cjose_jwk_get_kty cjose_jwk) (cjose_jwk_get_kid cjose_jwk)
    (v ← json_object_get json OIDC_JOSE_JWK_X5C_STR;
     if oidc_json_is_array (Some v) then Some (omap json_string_value (json_array_items v)) else None)
    (get OIDC_JOSE_JWK_X5T_STR) (get OIDC_JOSE_JWK_X5T256_STR) cjose_jwk).

Definition oidc_jwk_parse_json (json : json_t) : option oidc_jwk_t := oidc_jwk_parse json.

Definition oidc_is_jwk (json : json_t) : bool :=
  match json_object_get json OIDC_JOSE_JWK_KTY_STR with
  | Some kty => oidc_json_is_string (Some kty)
  | None => false
  end.

Definition oidc_is_jwks (json : json_t) : bool :=
  match json_object_get json OIDC_JOSE_JWKS_KEYS_STR with
  | Some keys => oidc_json_is_array (Some keys)
  | None => false
  end.

(** One key that cannot be parsed fails the set. *)
Definition oidc_jwks_parse_json (json : json_t) : option (list oidc_jwk_t) :=
  keys ← json_object_get json OIDC_JOSE_JWKS_KEYS_STR;
  if negb (oidc_json_is_array (Some keys)) then None
  else mapM oidc_jwk_parse_json (json_array_items keys).

(** ** src/util/key.c *)

(** [None] is [FALSE]; without a secret the key stays [NULL]. *)
Definition oidc_util_key_symmetric_create (client_secret : option string) (r_key_len : Z)
  (hash_algo : option string) (set_kid : bool) : option (option oidc_jwk_t) :=
  match client_secret with
  | Some secret =>
      if negb (0 <? zlen secret) then Some None
      else
        key ← (match hash_algo with
               | None => Some secret
               | Some algo => oidc_jose_hash_bytes algo secret
               end);
        let key_len := zlen key in
        if 0 <? key_len then
          let key_len := if negb (r_key_len =? 0) && (r_key_len <=? key_len) then r_key_len else key_len in
          jwk ← oidc_jwk_create_symmetric_key None key key_len set_kid;
          Some (Some jwk)
        else None
  | None => Some None
  end.

(** A hash table of keys; its order of iteration is that of [map_to_list]. *)
Abbreviation keys_t := (gmap string oidc_jwk_t).

Definition hash_set_kid (jwk : oidc_jwk_t) (h : keys_t) : keys_t :=
  match jwk_kid jwk with Some kid => <[kid := jwk]> h | None => h end.

(** [jwk] has an identifier when it is not [NULL]: the callers set it. *)
Definition oidc_util_key_symmetric_merge (keys : option (list oidc_jwk_t)) (jwk : option oidc_jwk_t) : keys_t :=
  let result := foldl (fun h elem => hash_set_kid elem h) ∅ (default [] keys) in
  match jwk with Some jwk => hash_set_kid jwk result | None => result end.

Definition oidc_util_key_sets_merge (k1 : option keys_t) (k2 : option (list oidc_jwk_t)) : keys_t :=
  foldl (fun h jwk => hash_set_kid jwk h) (default ∅ k1) (default [] k2).

(** On a shared identifier the key of [k1] counts ([apr_hash_overlay]). *)
Definition oidc_util_key_sets_hash_merge (k1 k2 : option keys_t) : keys_t :=
  match k1, k2 with
  | None, _ => default ∅ k2
  | Some h1, None => h1
  | Some h1, Some h2 => h1 ∪ h2
  end.

Definition oidc_util_key_list_first (key_list : option (list oidc_jwk_t)) (kty : Z) (use : option string)
  : option oidc_jwk_t :=
  List.find (fun jwk =>
    ((kty =? -1) || (jwk_kty jwk =? kty)) &&
    match use, jwk_use jwk with
    | Some u, Some ju => _oidc_strncmp (Some ju) (Some u) (Z.to_nat (zlen u)) =? 0
    | _, _ => true
    end) (default [] key_list).

(** ** Lemmas *)

Lemma symmetric_key_inv skid s n k : oidc_jwk_create_symmetric_key skid s n false = Some k ->
  exists c, cjose_jwk_create_oct_spec (str_take (Z.to_nat n) s) = Some c /\ k = oidc_jwk_from_cjose c None.
Proof.
  unfold oidc_jwk_create_symmetric_key.
  destruct (cjose_jwk_create_oct_spec _) as [c|]; [|done]. intros [= <-]. by exists c.
Qed.

Lemma pem_lines_length fuel s : (String.length s <= fuel)%nat ->
  zlen (pem_lines fuel s) = zlen s + (zlen s + 74) `quot` 75.
Proof.
  revert s. induction fuel as [|fuel IH]; intros s Hf; [destruct s; [done|simpl in Hf; lia]|].
  destruct (decide (s = "")) as [->|Hs]; [done|].
  assert (pem_lines (S fuel) s = (str_take pem_chunk s ^^ String "010" (pem_lines fuel (str_drop pem_chunk s)))) as ->
    by (destruct s; done).
  unfold zlen. rewrite length_append. cbn [String.length]. rewrite Nat2Z.inj_add, Nat2Z.inj_succ.
  fold (zlen (pem_lines fuel (str_drop pem_chunk s))).
  assert (Hpos : (0 < String.length s)%nat) by (destruct s; simpl; [done|lia]).
  rewrite IH by (rewrite str_drop_length; unfold pem_chunk; lia).
  unfold zlen. rewrite str_drop_length. destruct (decide (String.length s <= 75)%nat) as [Hle|Hgt].
  - rewrite str_take_all by done. replace (String.length s - pem_chunk)%nat with O by (unfold pem_chunk; lia).
    assert (Hq : (Z.of_nat (String.length s) + 74) `quot` 75 = 1)
      by (symmetry; apply (Z.quot_unique _ _ 1 (Z.of_nat (String.length s) - 1)); lia).
    rewrite Hq. change ((Z.of_nat 0 + 74) `quot` 75) with 0. lia.
  - rewrite str_take_length by (unfold pem_chunk; lia). unfold pem_chunk.
    assert (Hq : (Z.of_nat (String.length s) + 74) `quot` 75 =
      1 + (Z.of_nat (String.length s - 75) + 74) `quot` 75); [|lia].
    rewrite !Z.quot_div_nonneg by lia.
    replace (Z.of_nat (String.length s) + 74) with (Z.of_nat (String.length s - 75) + 74 + 1 * 75) by lia.
    rewrite Z.div_add; lia.
Qed.
End jwk.
Abbreviation keys_t := (gmap string oidc_jwk_t).

(** ** Properties *)

(** The certificate of a key is copied in PEM format into a buffer whose allocated
    size is exactly what is written. *)
Theorem pem_format_size (s_x5c : string) : zlen (pem_format s_x5c) = pem_size s_x5c.
Proof.
  unfold pem_format, pem_size. pose proof (pem_lines_length (String.length s_x5c) s_x5c ltac:(lia)) as Hl.
  unfold zlen in *. rewrite length_append. cbn [String.length]. rewrite !length_append. cbn [String.length].
  replace (Z.of_nat (String.length s_x5c) + 75 - 1) with (Z.of_nat (String.length s_x5c) + 74) by lia. lia.
Qed.
