(* ===== verification/JoseLib.v ===== *)
(** * The cryptographic operations keep their promise

    The operations of Jwe.v and Jwk.v form an instance of the class [Jose], for any cjose, digest
    and zlib that behave as documented: what the rest of the development proves from [JoseSpec] holds of the
    code.  Inflating terminates and never returns more than 10 MiB. *)

From S2P Require Import Prelude Cstr Jansson Json Base64 Jose Cjose Jwk Jwe.
#[local] Open Scope Z_scope.

(** ** Inflating *)

Section inflate.
Context {Zl : Zlib} {ZS : ZlibSpec Zl}.

(** The buffer is big enough for what was written and within the cap. *)
Definition inflate_ok (s : inflate_state) : Prop :=
  0 < i_len s <= OIDC_CJOSE_UNCOMPRESS_MAX /\ zlen (i_out s) <= i_len s /\ 0 <= avail_in (i_zlib s).

Lemma zlen_pos a : 0 <= zlen a.
Proof. unfold zlen. lia. Qed.

(** The size of the buffer for the next call leaves room. *)
Lemma next_len_room len n : 0 < len <= OIDC_CJOSE_UNCOMPRESS_MAX -> n <= len ->
  (len <=? n) && (OIDC_CJOSE_UNCOMPRESS_MAX <=? len) = false -> n < next_len len n <= OIDC_CJOSE_UNCOMPRESS_MAX.
Proof.
  intros Hl Ho Hc. unfold next_len.
  destruct (Z.leb_spec len n); cbn [andb] in Hc; [|lia]. apply Z.leb_gt in Hc.
  assert (OIDC_CJOSE_UNCOMPRESS_MAX / 2 * 2 = OIDC_CJOSE_UNCOMPRESS_MAX) by reflexivity.
  destruct (Z.ltb_spec (OIDC_CJOSE_UNCOMPRESS_MAX / 2) len); lia.
Qed.

(** One iteration keeps the invariant and comes closer to the end of the input or of the
    room. *)
Lemma inflate_body_step s s' : inflate_ok s -> inflate_body s = inl s' ->
  inflate_ok s' /\ avail_in (i_zlib s') - zlen (i_out s') < avail_in (i_zlib s) - zlen (i_out s).
Proof.
  intros (Hl & Ho & Ha). unfold inflate_body. destruct (_ && _) eqn:Hc; [done|].
  pose proof (next_len_room _ _ Hl Ho Hc) as Hr. revert Hr. generalize (next_len (i_len s) (zlen (i_out s))).
  intros len Hr. destruct (inflate (i_zlib s) (len - zlen (i_out s))) as [[st o] z] eqn:E.
  destruct (Z.eqb_spec st Z_OK) as [Hst|]; [|done]. intros [= <-].
  apply inflate_progress in E as (E1 & E2 & E3); [|lia|done].
  specialize (E3 Hst). unfold inflate_ok. cbn [i_len i_out i_zlib]. rewrite zlen_append.
  pose proof (zlen_pos (i_out s)). lia.
Qed.

Lemma inflate_body_result s r : inflate_ok s -> inflate_body s = inr (Inflated r) ->
  zlen r <= OIDC_CJOSE_UNCOMPRESS_MAX.
Proof.
  intros (Hl & Ho & Ha). unfold inflate_body. destruct (_ && _) eqn:Hc; [done|].
  pose proof (next_len_room _ _ Hl Ho Hc) as Hr. revert Hr. generalize (next_len (i_len s) (zlen (i_out s))).
  intros len Hr. destruct (inflate (i_zlib s) (len - zlen (i_out s))) as [[st o] z] eqn:E.
  destruct (st =? Z_OK); [done|]. destruct (st =? Z_STREAM_END); [|done]. intros [= <-].
  apply inflate_progress in E as (E1 & _); [|lia|done].
  rewrite zlen_append. lia.
Qed.

Lemma inflate_start z : 0 <= avail_in z -> inflate_ok (mk_inflate OIDC_CJOSE_UNCOMPRESS_CHUNK "" z).
Proof. intros Hz. unfold inflate_ok. cbn. unfold OIDC_CJOSE_UNCOMPRESS_CHUNK, OIDC_CJOSE_UNCOMPRESS_MAX, zlen. cbn. lia. Qed.

(** The loop ends, with at most 10 MiB. *)
Lemma zlib_uncompress_bounded input : zlen input <= INT_MAX ->
  exists r, oidc_jose_zlib_uncompress input = Some r /\
    forall s, r = Inflated s -> zlen s <= OIDC_CJOSE_UNCOMPRESS_MAX.
Proof.
  intros Hin. unfold oidc_jose_zlib_uncompress. destruct (inflateInit input) as [z|] eqn:Hz; [|by eexists].
  apply inflate_init_in in Hz. pose proof (inflate_start z ltac:(lia)) as Hok.
  set (s0 := mk_inflate _ _ _) in *.
  destruct (until_measure inflate_ok (fun s => avail_in (i_zlib s) + (OIDC_CJOSE_UNCOMPRESS_MAX - zlen (i_out s)))
    inflate_body 32 s0) as [r Hr].
  - intros s s' Hs Hb. destruct (inflate_body_step s s' Hs Hb) as [H1 H2]. split; [done|].
    destruct H1 as (H1 & H3 & H4). lia.
  - done.
  - cbn -[Z.add Z.sub Z.pow Z.lt]. change (2 ^ Z.of_nat 32) with 4294967296.
    unfold INT_MAX, OIDC_CJOSE_UNCOMPRESS_MAX in *. change (zlen "") with 0. lia.
  - rewrite Hr. exists r. split; [done|]. intros s ->.
    destruct (until_result inflate_ok inflate_body 32 s0 (Inflated s)) as [(s' & Hs' & Hb) _]; [|done|done|].
    + intros ???? . by eapply inflate_body_step.
    + by eapply inflate_body_result.
Qed.

(** What was compressed: the output so far and the rest make up the text. *)
Definition inflating (p : string) (s : inflate_state) : Prop :=
  0 < i_len s <= OIDC_CJOSE_UNCOMPRESS_MAX /\ zlen (i_out s) <= i_len s /\
  exists rest, z_rest (i_zlib s) = Some rest /\ (i_out s ^^ rest) = p /\ (i_out s = "" \/ rest <> "").

Lemma inflating_step p s : zlen p <= OIDC_CJOSE_UNCOMPRESS_MAX -> inflating p s ->
  inflate_body s = inr (Inflated p) \/
  exists s', inflate_body s = inl s' /\ inflating p s' /\ zlen (i_out s) < zlen (i_out s').
Proof.
  intros Hp (Hl & Ho & rest & Hz & Hpr & Hne). unfold inflate_body.
  assert (Hlen : zlen p = zlen (i_out s) + zlen rest) by by rewrite <-Hpr, zlen_append.
  destruct (_ && _) eqn:Hc.
  { exfalso. apply andb_true_iff in Hc as [Hc1%Z.leb_le Hc2%Z.leb_le].
    destruct Hne as [Hne|Hne]; [rewrite Hne in *; change (zlen "") with 0 in *; lia|].
    destruct rest; [done|]. unfold zlen in *. simpl in *. lia. }
  pose proof (next_len_room _ _ Hl Ho Hc) as Hroom. revert Hroom.
  generalize (next_len (i_len s) (zlen (i_out s))). intros len Hroom.
  pose proof (inflate_rest (i_zlib s) rest (len - zlen (i_out s)) Hz ltac:(lia)) as Hi.
  destruct (inflate (i_zlib s) (len - zlen (i_out s))) as [[st o] z].
  destruct (Z.leb_spec (zlen rest) (len - zlen (i_out s))) as [Hle|Hgt]; destruct Hi as [-> Hi].
  - left. subst o. by rewrite Hpr.
  - right. destruct Hi as [-> Hz']. eexists. split; [reflexivity|]. cbn [i_out].
    set (n := Z.to_nat (len - zlen (i_out s))) in *.
    assert (Hn : zlen (str_take n rest) = len - zlen (i_out s))
      by (unfold zlen in *; rewrite str_take_length; lia).
    rewrite zlen_append, Hn. split; [|lia]. unfold inflating. cbn [i_len i_out i_zlib]. rewrite zlen_append, Hn.
    split; [pose proof (zlen_pos (i_out s)); lia|]. split; [lia|]. exists (str_drop n rest).
    split; [done|]. split; [by rewrite append_assoc, str_take_drop|]. right. intros Hd.
    assert (H0 : String.length (str_drop n rest) = 0%nat) by by rewrite Hd.
    rewrite str_drop_length in H0. unfold zlen in *. lia.
Qed.

Lemma zlib_roundtrip p c : deflate p = Some c -> zlen p <= OIDC_CJOSE_UNCOMPRESS_MAX ->
  oidc_jose_zlib_uncompress c = Some (Inflated p).
Proof.
  intros Hd Hp. unfold oidc_jose_zlib_uncompress.
  destruct (inflate_deflate p c Hd) as (z & -> & Hz). set (s0 := mk_inflate _ _ _).
  assert (H0 : inflating p s0).
  { split; [vm_compute; split; [done|discriminate]|]. split; [vm_compute; discriminate|]. exists p. by repeat split; [|left]. }
  assert (Hstep : forall s s', inflating p s -> inflate_body s = inl s' ->
    inflating p s' /\ zlen (i_out s) < zlen (i_out s')).
  { intros s s' Hs Hb. destruct (inflating_step p s Hp Hs) as [E|(s1 & E & H1)]; congruence. }
  destruct (until_measure (inflating p) (fun s => zlen p - zlen (i_out s)) inflate_body 32 s0) as [r Hr].
  - intros s s' Hs Hb. destruct (Hstep s s' Hs Hb) as [H1 H2]. split; [done|].
    destruct H1 as (_ & _ & rest & _ & <- & _). rewrite zlen_append. pose proof (zlen_pos rest). lia.
  - done.
  - change (2 ^ Z.of_nat 32) with 4294967296. change (zlen (i_out s0)) with 0.
    unfold OIDC_CJOSE_UNCOMPRESS_MAX in Hp. lia.
  - rewrite Hr. destruct (until_result (inflating p) inflate_body 32 s0 r) as [(s & Hs & Hb) _]; [|done|done|].
    + intros ????. by eapply Hstep.
    + destruct (inflating_step p s Hp Hs) as [E|(s1 & E & _)]; congruence.
Qed.
End inflate.

(** ** Headers *)

Section headers.
Context {J : Jansson} {JS : JanssonSpec J} {C : Cjose J} {B64 : Base64} {BS : Base64Spec B64} {CS : CjoseSpec C B64}.
Context {D : Digest}.

Lemma hdr_set_new (json : json_t) (key value : string) :
  oidc_jwt_hdr_set json key value = oidc_json_object_set_new json key (oidc_json_string (Some value)).
Proof. unfold oidc_jwt_hdr_set, oidc_json_object_set_new. cbn. by destruct (json_string value). Qed.

Lemma hdr_set_object json key v : is_object json -> is_object (oidc_jwt_hdr_set json key v).
Proof. rewrite hdr_set_new. apply object_set_object. Qed.

Lemma hdr_opt_object json key v : is_object json -> is_object (hdr_set_opt key v json).
Proof. destruct v; [apply hdr_set_object|done]. Qed.

Lemma hdr_get_set_eq json key v : is_object json -> is_ascii key = true -> is_ascii v = true ->
  cjose_header_get (oidc_jwt_hdr_set json key v) key = Some v.
Proof.
  intros Hj Hk Hv. rewrite header_get, hdr_set_new. unfold oidc_json_object_set_new.
  destruct (string_utf8 v (utf8_ascii _ Hv)) as [s Hs]. cbn [oidc_json_string]. rewrite Hs.
  pose proof (object_get_set_eq json key s Hj (utf8_ascii _ Hk)) as E. cbn in E |- *. rewrite E. cbn.
  by apply string_value.
Qed.

Lemma hdr_get_opt_ne json k k' (v : option string) : k <> k' ->
  cjose_header_get (hdr_set_opt k v json) k' = cjose_header_get json k'.
Proof.
  intros Hne. destruct v as [v|]; [|done]. unfold hdr_set_opt. rewrite !header_get, hdr_set_new.
  pose proof (object_get_set_ne json k k' (oidc_json_string (Some v)) Hne) as E.
  unfold oidc_json_object_set_new. cbn in E |- *. by rewrite E.
Qed.

Lemma hdr_get_new k : cjose_header_get json_object k = None.
Proof. rewrite header_get. pose proof (object_get_new k) as E. cbn in E. unfold oidc_json_object in E. by rewrite E. Qed.

Lemma header_string (h : json_t) a : oidc_json_string_value (oidc_json_object_get (Some h) a) = cjose_header_get h a.
Proof. by rewrite header_get. Qed.

(** The header [oidc_jwt_encrypt] builds for a direct key. *)
Definition dir_header (kid : option string) : json_t :=
  hdr_set_opt OIDC_JOSE_HDR_ENC (Some OIDC_JOSE_HDR_ENC_A256GCM)
    (hdr_set_opt OIDC_JOSE_HDR_KID kid
      (hdr_set_opt OIDC_JOSE_HDR_ALG (Some OIDC_JOSE_HDR_ALG_DIR) json_object)).

Lemma dir_header_members kid : kid_ok kid ->
  is_object (dir_header kid) /\
  cjose_header_get (dir_header kid) OIDC_JOSE_HDR_ALG = Some OIDC_JOSE_HDR_ALG_DIR /\
  cjose_header_get (dir_header kid) OIDC_JOSE_HDR_ENC = Some OIDC_JOSE_HDR_ENC_A256GCM /\
  cjose_header_get (dir_header kid) OIDC_JOSE_HDR_KID = kid.
Proof.
  intros Hk. pose proof object_new as H0. unfold oidc_json_object in H0. unfold dir_header.
  split; [by repeat apply hdr_opt_object|]. split; [|split].
  - rewrite !hdr_get_opt_ne by done. by apply hdr_get_set_eq.
  - apply hdr_get_set_eq; [by repeat apply hdr_opt_object|done..].
  - rewrite hdr_get_opt_ne by done. destruct kid as [i|].
    + apply hdr_get_set_eq; [by repeat apply hdr_opt_object|done|by apply Hk].
    + etransitivity; [|apply (hdr_get_new OIDC_JOSE_HDR_KID)].
      by apply (hdr_get_opt_ne json_object OIDC_JOSE_HDR_ALG OIDC_JOSE_HDR_KID).
Qed.

Lemma strstr_dot a b : str_forall base64url_char a = true -> strstr (a ^^ "." ^^ b) "." = Some (String.length a).
Proof.
  induction a as [|c a IH]; [by destruct b|]. cbn [str_forall]. intros [Hc Ha]%andb_true_iff.
  change (strstr (String c a ^^ "." ^^ b) ".") with
    (if Ascii.eqb "." c && true then Some O else S <$> strstr (a ^^ "." ^^ b) "."). rewrite (IH Ha).
  assert (Ascii.eqb "." c = false) as ->; [|done].
  destruct (Ascii.eqb_spec "." c) as [<-|]; [done|done].
Qed.

(** Peeking into the header of a serialization. *)
Lemma peek_compact h c : is_object h -> compact B64 J h c ->
  Jwe.oidc_proto_jwt_header_peek (Some c) =
    ((Jwe.oidc_proto_jwt_header_peek (Some c)).1.1.1, cjose_header_get h OIDC_JOSE_HDR_ALG,
     cjose_header_get h OIDC_JOSE_HDR_ENC, cjose_header_get h OIDC_JOSE_HDR_KID).
Proof.
  intros Hh (f & d & rest & Hd & -> & _). destruct (dumps_text h f d Hd) as [Hne Hc].
  destruct (base64url_encode_strip d Hne) as (enc & He & Hpos & Hchars & Hdec).
  assert (Hseg : str_map to_url (strip_end "=" (apr_base64_encode d)) = enc).
  { rewrite strip_rfc4648. unfold oidc_util_base64url_encode in He.
    destruct (zlen d <=? 0); [done|]. unfold zlen in He. rewrite Nat2Z.id, str_take_self in He. by injection He. }
  rewrite Hseg. unfold Jwe.oidc_proto_jwt_header_peek. cbn [default from_option id]. cbv zeta.
  rewrite strstr_dot by done. rewrite str_take_app, Hdec.
  assert (0 < zlen d) by (unfold zlen; destruct d; [done|simpl; lia]).
  destruct (Z.leb_spec (zlen d) 0); [lia|]. cbn [fmap option_fmap option_map]. rewrite Hc.
  assert (oidc_json_decode_object (Some d) = Some h) as ->; [|by rewrite !header_string].
  unfold oidc_json_decode_object, oidc_json_decode_object_err, oidc_json_parse.
  change (oidc_json_flags2backend 0) with 0. rewrite (loads_dumps h f d Hh Hd).
  by apply is_object_true in Hh as ->.
Qed.
End headers.

(** ** The instance *)

Section instance.
Context {J : Jansson} {JS : JanssonSpec J} {B64 : Base64} {BS : Base64Spec B64} {C : Cjose J} {CS : CjoseSpec C B64}.
Context {D : Digest} {DS : DigestSpec D} {Zl : Zlib} {ZS : ZlibSpec Zl}.

#[export] Instance jose_lib : Jose := {|
  Jose.jwk_t := oidc_jwk_t;
  Jose.oidc_jwk_create_symmetric_key key :=
    Jwk.oidc_jwk_create_symmetric_key None key OIDC_CRYPTO_PASSPHRASE_DERIVED_KEY_LEN false;
  Jose.oidc_jose_compress := Jwe.oidc_jose_compress;
  Jose.oidc_jose_uncompress input := mjoin (Jwe.oidc_jose_uncompress input);
  Jose.oidc_jwt_encrypt alg enc kid jwk payload :=
    Jwe.oidc_jwt_encrypt (mk_hdr json_object (Some alg) kid (Some enc) None None) jwk payload;
  Jose.oidc_jwe_decrypt input keys := Jwe.oidc_jwe_decrypt input (Some (list_to_map keys)) true;
  Jose.oidc_proto_jwt_header_peek jwt :=
    let '(_, alg, enc, kid) := Jwe.oidc_proto_jwt_header_peek (Some jwt) in (alg, enc, kid);
  Jose.oidc_jose_hash_bytes := Jwk.oidc_jose_hash_bytes
|}.

Lemma encrypt_dir kid k p :
  Jose.oidc_jwt_encrypt OIDC_JOSE_HDR_ALG_DIR OIDC_JOSE_HDR_ENC_A256GCM kid k p =
  (e ← cjose_jwe_encrypt (jwk_cjose_jwk k) (dir_header kid) p; cjose_jwe_export e).
Proof. reflexivity. Qed.

Lemma decrypt_one c e' kid' s k kid p : kid = None \/ kid = Some kid' ->
  cjose_jwk_create_oct_spec s = Some k -> cjose_jwe_import c = Some e' ->
  cjose_header_get (cjose_jwe_get_protected e') OIDC_JOSE_HDR_ALG = Some OIDC_JOSE_HDR_ALG_DIR ->
  cjose_header_get (cjose_jwe_get_protected e') OIDC_JOSE_HDR_KID = kid ->
  cjose_jwe_decrypt e' k = Some p ->
  Jwe.oidc_jwe_decrypt c (Some (list_to_map [(kid', oidc_jwk_from_cjose k None)])) true = Some p.
Proof.
  intros Hkid Hk Hi Ha Hki Hd. unfold Jwe.oidc_jwe_decrypt, oidc_jwe_decrypt_impl. rewrite Hi, Ha, Hki.
  cbn [list_to_map foldr fst snd]. rewrite insert_empty. rewrite map_size_singleton.
  pose proof (oct_kty s k Hk) as Hkty.
  destruct (decide (1%nat = 0%nat)); [done|].
  destruct Hkid as [->| ->].
  - unfold oidc_jwe_decrypt_any. rewrite map_to_list_singleton. cbn. by rewrite Hkty, Hd.
  - unfold oidc_jwe_decrypt_by_kid. rewrite lookup_singleton_eq. cbn. by rewrite Hkty.
Qed.

Lemma lor_bytes a b : Z.lor (Z.shiftl (code a) 8) (code b) = code a * 256 + code b.
Proof.
  apply Z.eqb_eq. revert b. apply ascii_ind_bool. revert a.
  apply (ascii_ind_bool (fun a => forallb (fun n =>
    Z.lor (Z.shiftl (code a) 8) (code (ascii_of_nat n)) =? code a * 256 + code (ascii_of_nat n)) (seq 0 256))).
  vm_compute. reflexivity.
Qed.

Lemma compact_chars h c : compact B64 J h c -> c <> "" /\ str_forall compact_char c = true.
Proof.
  intros (f & d & rest & Hd & -> & Hr). split; [by destruct (str_map _ _)|].
  rewrite strip_rfc4648. destruct (encode_strip d) as (body & pad & _ & Hb & _ & ->).
  rewrite str_forall_append. apply andb_true_iff. split.
  - apply (str_forall_map base64_char); [intros c; char_cases c|done].
  - cbn. by apply (str_forall_impl (fun c => base64url_char c || Ascii.eqb c ".")); [intros c; char_cases c|].
Qed.

Lemma uncompress_compressed p c : Jwe.oidc_jose_compress p = Some c -> zlen p <= OIDC_CJOSE_UNCOMPRESS_MAX ->
  Jwe.oidc_jose_uncompress c = Some (Some p).
Proof.
  intros Hd Hp. unfold Jwe.oidc_jose_uncompress.
  assert (oidc_jose_is_zlib c = true) as ->.
  { destruct (deflate_zlib p c Hd) as (a & b & t & -> & H1 & H2). cbn. rewrite H1. cbn [andb Z.eqb].
    by rewrite lor_bytes, H2. }
  by rewrite (zlib_roundtrip p c Hd Hp).
Qed.

#[export] Instance jose_lib_spec : JoseSpec jose_lib.
Proof.
  assert (Htake : forall s, zlen s = OIDC_CRYPTO_PASSPHRASE_DERIVED_KEY_LEN ->
    str_take (Z.to_nat OIDC_CRYPTO_PASSPHRASE_DERIVED_KEY_LEN) s = s)
    by (intros s Hl; apply str_take_all; unfold zlen in Hl; lia).
  split.
  - intros s Hl. cbn. unfold Jwk.oidc_jwk_create_symmetric_key. rewrite Htake by done.
    destruct (oct_ok s) as [k ->]; [intros ->; done|]. by eexists.
  - intros s k kid p Hl Hk Hkid. rewrite encrypt_dir.
    apply symmetric_key_inv in Hk as (c & Hc & ->). rewrite Htake in Hc by done.
    destruct (dir_header_members kid Hkid) as (Ho & Ha & He & _).
    destruct (jwe_encrypt_ok s c (dir_header kid) p Hc Hl Ho Ha He) as (e & x & H1 & H2).
    cbn [jwk_cjose_jwk oidc_jwk_from_cjose]. rewrite H1. cbn. rewrite H2. by eexists.
  - intros alg enc kid k p c. cbn. unfold Jwe.oidc_jwt_encrypt.
    destruct (cjose_jwe_encrypt _ _ _) as [e|] eqn:He; [|done]. cbn. intros Hx.
    destruct (jwe_export_compact _ _ _ _ _ He Hx) as (h' & Hc & _). by apply compact_chars in Hc.
  - intros kid k p c Hc Hkid. rewrite encrypt_dir in Hc.
    destruct (dir_header_members kid Hkid) as (Ho & Ha & He & Hi).
    destruct (cjose_jwe_encrypt _ _ _) as [e|] eqn:Hen; [|done]. cbn in Hc.
    destruct (jwe_export_compact _ _ _ _ _ Hen Hc) as (h' & Hcomp & Hh). rewrite (Hh Ha) in Hcomp.
    cbn. rewrite (peek_compact _ _ Ho Hcomp). by rewrite Ha, He, Hi.
  - intros s k kid p c kid' Hk Hkid Hc Hor. rewrite encrypt_dir in Hc.
    apply symmetric_key_inv in Hk as (k0 & Hk0 & ->).
    destruct (dir_header_members kid Hkid) as (Ho & Ha & He & Hi).
    destruct (cjose_jwe_encrypt _ _ _) as [e|] eqn:Hen; [|done]. cbn in Hc.
    destruct (jwe_decrypt_encrypt _ _ _ _ _ _ Hk0 Ha Ho Hen Hc) as (e' & H1 & H2 & H3).
    eapply decrypt_one; [done..|by rewrite H2|by rewrite H2|done].
  - intros p. apply deflate_ok.
  - intros p c Hc Hp. cbn. by rewrite (uncompress_compressed p c Hc Hp).
  - intros alg s h. apply digest_nonempty.
Qed.
End instance.

(** ** Properties *)

(** C19: on a cjose, digest and zlib that behave as documented, the wrappers of
    src/jose.c and src/jose/ keep every promise of [JoseSpec]: encryption with a key of 32 bytes succeeds
    and yields a compact serialization whose header can be peeked into, decryption with
    the key inverts it whether or not the header names the key, decompression inverts compression. *)
Theorem jose_lib_refines {J : Jansson} {JS : JanssonSpec J} {B64 : Base64} {BS : Base64Spec B64}
  {C : Cjose J} {CS : CjoseSpec C B64} {D : Digest} {DS : DigestSpec D} {Zl : Zlib} {ZS : ZlibSpec Zl} :
  JoseSpec (jose_lib (J:=J) (B64:=B64) (C:=C) (D:=D) (Zl:=Zl)).
Proof. apply jose_lib_spec. Qed.

Definition jose_model : Jose :=
  jose_lib (J:=Model.jansson) (B64:=Base64Model.base64) (C:=CjoseModel.cjose) (D:=CjoseModel.digest) (Zl:=CjoseModel.zlib).

Lemma jose_lib_refines_witness : exists k c,
  Jose.oidc_jwk_create_symmetric_key (Jose:=jose_model) "0123456789abcdef0123456789abcdef" = Some k /\
  Jose.oidc_jwt_encrypt "dir" "A256GCM" (Some "1") k "text" = Some c /\
  Jose.oidc_jwe_decrypt c [("1", k)] = Some "text".
Proof.
  pose proof (jose_lib_refines (J:=Model.jansson) (B64:=Base64Model.base64) (C:=CjoseModel.cjose)
    (CS:=CjoseModel.cjose_spec) (D:=CjoseModel.digest) (Zl:=CjoseModel.zlib) (ZS:=CjoseModel.zlib_spec)) as S.
  destruct (symmetric_key_ok (JoseSpec:=S) "0123456789abcdef0123456789abcdef" eq_refl) as [k Hk].
  assert (Hi : kid_ok (Some "1")) by by intros i [= <-].
  destruct (encrypt_ok (JoseSpec:=S) _ k (Some "1") "text" (eq_refl : zlen "0123456789abcdef0123456789abcdef" = _) Hk Hi) as [c Hc].
  exists k, c. split; [exact Hk|]. split; [exact Hc|].
  eapply (decrypt_encrypt (JoseSpec:=S)); [exact Hk|exact Hi|exact Hc|by right].
Defined.

(** C20: uncompressing a value of at most [INT_MAX] bytes terminates; what it
    returns is at most 10 MiB, or the value itself; and a compressed text of at most 10 MiB
    comes back. *)
Theorem uncompress_bounded {Zl : Zlib} {ZS : ZlibSpec Zl} (input : string) :
  zlen input <= INT_MAX ->
  exists r, oidc_jose_uncompress input = Some r /\
    (forall s, r = Some s -> s = input \/ zlen s <= OIDC_CJOSE_UNCOMPRESS_MAX) /\
    (forall p, zlen p <= OIDC_CJOSE_UNCOMPRESS_MAX -> oidc_jose_compress p = Some input -> r = Some p).
Proof.
  intros Hin. destruct (zlib_uncompress_bounded input Hin) as (r & Hr & Hb).
  assert (exists o, oidc_jose_uncompress input = Some o) as [o Ho].
  { unfold oidc_jose_uncompress. destruct (oidc_jose_is_zlib input); [|by eexists]. rewrite Hr. by eexists. }
  exists o. split; [done|]. split.
  - intros s ->. unfold oidc_jose_uncompress in Ho. destruct (oidc_jose_is_zlib input); [|left; congruence].
    rewrite Hr in Ho. destruct r as [s0| |]; simplify_eq/=; [right; by apply Hb|by left].
  - intros p Hp Hc. rewrite (uncompress_compressed p input Hc Hp) in Ho. congruence.
Qed.

Lemma uncompress_bounded_witness :
  zlen (String "x" (String "156" "hello")) <= INT_MAX /\
  exists r, oidc_jose_uncompress (Zl:=CjoseModel.zlib) (String "x" (String "156" "hello")) = Some r /\
    (forall s, r = Some s -> s = String "x" (String "156" "hello") \/ zlen s <= OIDC_CJOSE_UNCOMPRESS_MAX) /\
    (forall p, zlen p <= OIDC_CJOSE_UNCOMPRESS_MAX ->
       oidc_jose_compress (Zl:=CjoseModel.zlib) p = Some (String "x" (String "156" "hello")) -> r = Some p).
Proof.
  split; [vm_compute; discriminate|].
  apply (uncompress_bounded (ZS:=CjoseModel.zlib_spec)). vm_compute. discriminate.
Defined.
