(* ===== verification/ShmCache.v ===== *)
(** * src/cache/shm.c: the bounded shared-memory cache

    The shared segment is a [header]: a table of hash buckets, each the 1-based
    index of the first slot of a chain (0 = none), the slots, and the head of
    the free list, which is threaded through the same [next] links.  All
    operations run with the cache mutex held, so each is one atomic step.  A
    loop over links takes as fuel one more than the number of slots; running
    out of it is [None], and the theorems show that this never happens in a
    state reached from [oidc_cache_shm_post_config]. *)

From S2P Require Import Prelude Cstr.

(** ** Layout *)

Definition OIDC_CACHE_SHM_KEY_MAX : nat := 512.
Definition apr_time_from_sec (s : Z) : Z := s * 1000000.
Definition OIDC_CACHE_SHM_PRESSURE_WARN_INTERVAL : Z := apr_time_from_sec 60.
Definition OIDC_CACHE_SHM_SEGMENT_SIZE_MAX : Z := 16 * 1024 * 1024 * 1024.

(** [struct oidc_cache_shm_header_t] without the trailing tables; the bucket and
    slot tables that follow it in the segment are [buckets] and [slots]. *)
Record entry := mk_entry {
  section_key : string;
  access : Z;
  expires : Z;
  next : nat;
  value : string
}.

Record header := mk_header {
  nslots : nat;
  nbuckets : nat;
  entry_size : Z;
  hash_key : Z * Z;
  free_head : nat;
  last_pressure_warning : Z;
  buckets : gmap nat nat;
  slots : gmap nat entry
}.

(** Sizes of the two structures on an LP64 platform. *)
Definition SIZEOF_HEADER : Z := 48.
Definition SIZEOF_ENTRY : Z := 576.
Definition OFFSETOF_VALUE : Z := 532.
Definition SIZE_MAX : Z := 2 ^ 64 - 1.

(** [APR_ALIGN(n, 64)]. *)
Definition align64 (n : Z) : Z := Z.land (n + 63) (Z.lnot 63).

Definition zero_entry : entry := mk_entry "" 0 0 0 "".

Definition oidc_cache_shm_buckets (hdr : header) (b : nat) : nat := default 0%nat (buckets hdr !! b).
Definition oidc_cache_shm_slot (hdr : header) (idx : nat) : entry := default zero_entry (slots hdr !! idx).

(** Byte offsets of the tables from the aligned base of the segment. *)
Definition buckets_offset : Z := align64 SIZEOF_HEADER.
Definition slot_offset (nbuckets entry_size idx : Z) : Z :=
  buckets_offset + align64 (nbuckets * 4) + (idx - 1) * entry_size.

Definition set_bucket (b idx : nat) (hdr : header) : header :=
  {| nslots := nslots hdr; nbuckets := nbuckets hdr; entry_size := entry_size hdr;
     hash_key := hash_key hdr; free_head := free_head hdr;
     last_pressure_warning := last_pressure_warning hdr;
     buckets := <[b := idx]> (buckets hdr); slots := slots hdr |}.
Definition set_slot (idx : nat) (t : entry) (hdr : header) : header :=
  {| nslots := nslots hdr; nbuckets := nbuckets hdr; entry_size := entry_size hdr;
     hash_key := hash_key hdr; free_head := free_head hdr;
     last_pressure_warning := last_pressure_warning hdr;
     buckets := buckets hdr; slots := <[idx := t]> (slots hdr) |}.
Definition set_free_head (idx : nat) (hdr : header) : header :=
  {| nslots := nslots hdr; nbuckets := nbuckets hdr; entry_size := entry_size hdr;
     hash_key := hash_key hdr; free_head := idx;
     last_pressure_warning := last_pressure_warning hdr;
     buckets := buckets hdr; slots := slots hdr |}.
Definition set_last_pressure_warning (t : Z) (hdr : header) : header :=
  {| nslots := nslots hdr; nbuckets := nbuckets hdr; entry_size := entry_size hdr;
     hash_key := hash_key hdr; free_head := free_head hdr;
     last_pressure_warning := t;
     buckets := buckets hdr; slots := slots hdr |}.

Definition with_next (n : nat) (t : entry) : entry :=
  mk_entry (section_key t) (access t) (expires t) n (value t).
Definition with_access (a : Z) (t : entry) : entry :=
  mk_entry (section_key t) a (expires t) (next t) (value t).
Definition with_key (k : string) (t : entry) : entry :=
  mk_entry k (access t) (expires t) (next t) (value t).

(** [None] is [FALSE]; [Some total] is [TRUE] with [*result = total]. *)
Definition oidc_cache_shm_segment_size (size_max entry_size_max nbuckets : Z) : option Z :=
  let header_size := u64 (Z.land (u64 (SIZEOF_HEADER + 63)) (Z.lnot 63)) in
  let bucket_size := u64 (Z.land (u64 (u64 (nbuckets * 4) + 63)) (Z.lnot 63)) in
  let slot_size := u64 (Z.land (u64 (u64 entry_size_max + 63)) (Z.lnot 63)) in
  let slots_size := u64 (slot_size * u64 size_max) in
  let total := u64 (64 + header_size + bucket_size + slots_size) in
  if (size_max <=? 0) || (entry_size_max <=? 0) || (nbuckets =? 0)
     || negb (slots_size / slot_size =? u64 size_max) || (total <? slots_size)
     || (SIZE_MAX <? total) || (OIDC_CACHE_SHM_SEGMENT_SIZE_MAX <? total)
  then None else Some total.

Definition oidc_cache_shm_value_size_max (entry_size_max : Z) : Z := entry_size_max - SIZEOF_ENTRY.

(** ** SipHash-2-4 *)

Definition oidc_cache_shm_rotate_left (v : Z) (n : Z) : Z :=
  Z.lor (u64 (Z.shiftl v n)) (Z.shiftr v (64 - n)).

Definition byte_at (p : list Z) (i : nat) : Z := nth i p 0.

Definition oidc_cache_shm_load64_le (p : list Z) : Z :=
  Z.lor (Z.lor (Z.lor (Z.lor (Z.lor (Z.lor (Z.lor (byte_at p 0)
    (Z.shiftl (byte_at p 1) 8)) (Z.shiftl (byte_at p 2) 16)) (Z.shiftl (byte_at p 3) 24))
    (Z.shiftl (byte_at p 4) 32)) (Z.shiftl (byte_at p 5) 40)) (Z.shiftl (byte_at p 6) 48))
    (Z.shiftl (byte_at p 7) 56).

Definition sipstate : Type := Z * Z * Z * Z.

Definition OIDC_CACHE_SHM_SIPROUND (v : sipstate) : sipstate :=
  let '(v0, v1, v2, v3) := v in
  let v0 := u64 (v0 + v1) in
  let v1 := oidc_cache_shm_rotate_left v1 13 in
  let v1 := Z.lxor v1 v0 in
  let v0 := oidc_cache_shm_rotate_left v0 32 in
  let v2 := u64 (v2 + v3) in
  let v3 := oidc_cache_shm_rotate_left v3 16 in
  let v3 := Z.lxor v3 v2 in
  let v0 := u64 (v0 + v3) in
  let v3 := oidc_cache_shm_rotate_left v3 21 in
  let v3 := Z.lxor v3 v0 in
  let v2 := u64 (v2 + v1) in
  let v1 := oidc_cache_shm_rotate_left v1 17 in
  let v1 := Z.lxor v1 v2 in
  let v2 := oidc_cache_shm_rotate_left v2 32 in
  (v0, v1, v2, v3).

(** The compression of one 64-bit word. *)
Definition sip_compress (m : Z) (v : sipstate) : sipstate :=
  let '(v0, v1, v2, v3) := v in
  let v3 := Z.lxor v3 m in
  let '(v0, v1, v2, v3) :=
    OIDC_CACHE_SHM_SIPROUND (OIDC_CACHE_SHM_SIPROUND (v0, v1, v2, v3)) in
  (Z.lxor v0 m, v1, v2, v3).

(** The [while (p != end)] loop over [nwords] whole words. *)
Fixpoint sip_words (nwords : nat) (p : list Z) (v : sipstate) : list Z * sipstate :=
  match nwords with
  | O => (p, v)
  | S n => sip_words n (drop 8 p) (sip_compress (oidc_cache_shm_load64_le p) v)
  end.

(** The [for] loop over the remaining [len & 7] bytes. *)
Fixpoint sip_tail (n : nat) (i : nat) (p : list Z) (tail : Z) : Z :=
  match n with
  | O => tail
  | S n' => sip_tail n' (S i) p (Z.lor tail (Z.shiftl (byte_at p i) (8 * Z.of_nat i)))
  end.

Definition oidc_cache_shm_siphash (data : list Z) (key : Z * Z) : Z :=
  let len := length data in
  let v := (Z.lxor 0x736f6d6570736575 key.1, Z.lxor 0x646f72616e646f6d key.2,
            Z.lxor 0x6c7967656e657261 key.1, Z.lxor 0x7465646279746573 key.2) in
  let '(p, v) := sip_words (len / 8) data v in
  let tail := sip_tail (len mod 8) 0 p (u64 (Z.shiftl (Z.of_nat len) 56)) in
  let '(v0, v1, v2, v3) := sip_compress tail v in
  let v2 := Z.lxor v2 0xff in
  let '(v0, v1, v2, v3) := Nat.iter 4 OIDC_CACHE_SHM_SIPROUND (v0, v1, v2, v3) in
  Z.lxor (Z.lxor (Z.lxor v0 v1) v2) v3.

Fixpoint bytes_of (s : string) : list Z :=
  match s with
  | "" => []
  | String c s' => code c :: bytes_of s'
  end.

Definition oidc_cache_shm_hash (s : string) (key : Z * Z) : Z :=
  oidc_cache_shm_siphash (bytes_of s) key.

(** [(apr_uint32_t)hash & (hdr->nbuckets - 1)]. *)
Definition bucket_idx (hdr : header) (s : string) : nat :=
  Z.to_nat (Z.land (u32 (oidc_cache_shm_hash s (hash_key hdr))) (Z.of_nat (nbuckets hdr) - 1)).

(** ** Helpers of the operations *)

(** The slot is already unlinked from its chain. *)
Definition oidc_cache_shm_slot_free (hdr : header) (idx : nat) : header :=
  let t := oidc_cache_shm_slot hdr idx in
  let t := with_next (free_head hdr) (with_access 0 (with_key "" t)) in
  set_free_head idx (set_slot idx t hdr).

(** [section_key] is the assembled ["<section>:<key>"] of src/cache/common.c. *)
Definition oidc_cache_section_key (section key : string) : string := section ^^ ":" ^^ key.

Definition oidc_cache_shm_get_key (section key : string) : option string :=
  let section_key := oidc_cache_section_key section key in
  if (OIDC_CACHE_SHM_KEY_MAX <=? String.length section_key)%nat then None
  else Some section_key.

Fixpoint find_loop (fuel : nat) (hdr : header) (key : string) (idx prev : nat)
  : option (nat * nat) :=
  match fuel with
  | O => None
  | S fuel' =>
      if Nat.eqb idx 0 then Some (0%nat, prev)
      else if strcmp (section_key (oidc_cache_shm_slot hdr idx)) key =? 0 then Some (idx, prev)
      else find_loop fuel' hdr key (next (oidc_cache_shm_slot hdr idx)) idx
  end.

(** The slot that holds [key] and its predecessor in the chain (0 when there is none). *)
Definition oidc_cache_shm_find (hdr : header) (bucket : nat) (key : string)
  : option (nat * nat) :=
  find_loop (S (nslots hdr)) hdr key (oidc_cache_shm_buckets hdr bucket) 0.

(** [if (prev != 0) slot(prev)->next = n; else *bucket = n]. *)
Definition relink (bucket prev n : nat) (hdr : header) : header :=
  if Nat.eqb prev 0 then set_bucket bucket n hdr
  else set_slot prev (with_next n (oidc_cache_shm_slot hdr prev)) hdr.

Fixpoint unlink_loop (fuel : nat) (hdr : header) (bucket idx i prev : nat)
  : option (bool * header) :=
  match fuel with
  | O => None
  | S fuel' =>
      if Nat.eqb i 0 then Some (false, hdr)
      else if Nat.eqb i idx
      then Some (true, relink bucket prev (next (oidc_cache_shm_slot hdr idx)) hdr)
      else unlink_loop fuel' hdr bucket idx (next (oidc_cache_shm_slot hdr i)) i
  end.

Definition oidc_cache_shm_unlink (hdr : header) (idx : nat) : option (bool * header) :=
  let bucket := bucket_idx hdr (section_key (oidc_cache_shm_slot hdr idx)) in
  unlink_loop (S (nslots hdr)) hdr bucket idx (oidc_cache_shm_buckets hdr bucket) 0.

(** The victim scan over the slots [idx .. idx + n - 1]. *)
Fixpoint evict_scan (n : nat) (hdr : header) (current_time : Z) (idx : nat)
  (expired_victim lru_victim : nat) (oldest : Z) : nat * nat * Z :=
  match n with
  | O => (expired_victim, lru_victim, oldest)
  | S n' =>
      let t := oidc_cache_shm_slot hdr idx in
      if String.eqb (section_key t) ""
      then evict_scan n' hdr current_time (S idx) expired_victim lru_victim oldest
      else
        let ev := if Nat.eqb expired_victim 0 && (expires t <=? current_time)
                  then idx else expired_victim in
        let '(lv, o) := if Nat.eqb lru_victim 0 || (access t <? oldest)
                        then (idx, access t) else (lru_victim, oldest) in
        evict_scan n' hdr current_time (S idx) ev lv o
  end.

(** Returns the victim (0 = none), the header and [*pressure_age]. *)
Definition oidc_cache_shm_evict (hdr : header) (current_time : Z)
  : option (nat * header * Z) :=
  let '(expired_victim, lru_victim, _) := evict_scan (nslots hdr) hdr current_time 1 0 0 0 in
  let victim := if Nat.eqb expired_victim 0 then lru_victim else expired_victim in
  if Nat.eqb victim 0 then Some (0%nat, hdr, -1)
  else
    let '(hdr, pressure_age) :=
      if Nat.eqb expired_victim 0 then
        let acc := access (oidc_cache_shm_slot hdr victim) in
        let age := if acc <=? current_time then (current_time - acc) / 1000000 else 0 in
        if (age <? 3600) &&
           ((last_pressure_warning hdr =? 0) || (current_time <? last_pressure_warning hdr) ||
            (OIDC_CACHE_SHM_PRESSURE_WARN_INTERVAL <=? current_time - last_pressure_warning hdr))
        then (set_last_pressure_warning current_time hdr, age)
        else (hdr, -1)
      else (hdr, -1) in
    '(unlinked, hdr) ← oidc_cache_shm_unlink hdr victim;
    Some (if (unlinked : bool) then victim else 0%nat, hdr, pressure_age).

Definition oidc_cache_shm_entry_update (hdr : header) (idx : nat) (val : string)
  (expiry acc : Z) : header :=
  let t := oidc_cache_shm_slot hdr idx in
  set_slot idx (mk_entry (section_key t) acc expiry (next t) val) hdr.

Definition oidc_cache_shm_entry_insert (hdr : header) (bucket idx : nat) (key val : string)
  (expiry acc : Z) : header :=
  let t := with_next (oidc_cache_shm_buckets hdr bucket) (oidc_cache_shm_slot hdr idx) in
  let hdr := set_bucket bucket idx (set_slot idx t hdr) in
  let t := with_key (str_take (OIDC_CACHE_SHM_KEY_MAX - 1) key) t in
  oidc_cache_shm_entry_update (set_slot idx t hdr) idx val expiry acc.

(** ** The operations *)

(** What one operation observes of its environment: [apr_time_now()] and the
    results of locking and unlocking the mutex. *)
Record env := mk_env { now : Z; lock_ok : bool; unlock_ok : bool }.

(** The result is the [apr_byte_t], [*value] and the new header. *)
Definition oidc_cache_shm_get (e : env) (section key : string) (hdr : header)
  : option (bool * option string * header) :=
  match oidc_cache_shm_get_key section key with
  | None => Some (false, None, hdr)
  | Some skey =>
      let bucket := bucket_idx hdr skey in
      if negb (lock_ok e) then Some (false, None, hdr)
      else
        '(idx, prev) ← oidc_cache_shm_find hdr bucket skey;
        if Nat.eqb idx 0 then Some (unlock_ok e, None, hdr)
        else
          let t := oidc_cache_shm_slot hdr idx in
          if now e <? expires t
          then Some (unlock_ok e, Some (value t), set_slot idx (with_access (now e) t) hdr)
          else
            let hdr := relink bucket prev (next t) hdr in
            Some (unlock_ok e, None, oidc_cache_shm_slot_free hdr idx)
  end.

Definition oidc_cache_shm_set (entry_size_max : Z) (e : env) (section key : string)
  (val : option string) (expiry : Z) (hdr : header) : option (bool * header) :=
  match oidc_cache_shm_get_key section key with
  | None => Some (false, hdr)
  | Some skey =>
      let value_size_max := oidc_cache_shm_value_size_max entry_size_max in
      let value_size := match val with Some v => zlen v | None => 0 end in
      if nonnull val && ((value_size_max <=? 0) || (value_size_max <=? value_size))
      then Some (false, hdr)
      else
        let bucket := bucket_idx hdr skey in
        if negb (lock_ok e) then Some (false, hdr)
        else
          '(idx, prev) ← oidc_cache_shm_find hdr bucket skey;
          match val with
          | None =>
              if Nat.eqb idx 0 then Some (unlock_ok e, hdr)
              else
                let hdr := relink bucket prev (next (oidc_cache_shm_slot hdr idx)) hdr in
                Some (unlock_ok e, oidc_cache_shm_slot_free hdr idx)
          | Some v =>
              if negb (Nat.eqb idx 0)
              then Some (unlock_ok e, oidc_cache_shm_entry_update hdr idx v expiry (now e))
              else
                '(idx, hdr) ←
                  (if negb (Nat.eqb (free_head hdr) 0) then
                     let idx := free_head hdr in
                     Some (idx, set_free_head (next (oidc_cache_shm_slot hdr idx)) hdr)
                   else
                     '(idx, hdr, _) ← oidc_cache_shm_evict hdr (now e); Some (idx, hdr));
                if Nat.eqb idx 0 then Some (false, hdr)
                else Some (unlock_ok e,
                           oidc_cache_shm_entry_insert hdr bucket idx skey v expiry (now e))
          end
  end.

(** ** Initialisation *)

Definition OK : Z := 0.
Definition HTTP_INTERNAL_SERVER_ERROR : Z := 500.

(** The [while] that doubles [nbuckets] until it reaches [size_max]; 33 rounds are
    more than the width of [apr_uint32_t]. *)
Fixpoint nbuckets_loop (fuel : nat) (size_max nbuckets : Z) : option Z :=
  match fuel with
  | O => None
  | S fuel' =>
      if (nbuckets <? u32 size_max) && (nbuckets <=? UINT32_MAX / 2)
      then nbuckets_loop fuel' size_max (u32 (Z.shiftl nbuckets 1))
      else Some nbuckets
  end.

(** The loop that threads all slots on the free list, from slot [i] on. *)
Fixpoint init_slots (n i : nat) (hdr : header) : header :=
  match n with
  | O => hdr
  | S n' =>
      let t := with_access 0 (with_key "" (oidc_cache_shm_slot hdr i)) in
      let t := with_next (if (i <? nslots hdr)%nat then S i else 0%nat) t in
      init_slots n' (S i) (set_slot i t hdr)
  end.

(** The buckets that [_oidc_memset] clears. *)
Fixpoint zero_buckets (n : nat) : gmap nat nat :=
  match n with O => ∅ | S n' => <[n' := 0%nat]> (zero_buckets n') end.

(** What initialisation observes: the segment creation, the random hash key, the
    mutex creation, and the raw memory of the slots. *)
Record init_env := mk_init_env {
  shm_create_ok : bool;
  random_key : option (Z * Z);
  mutex_ok : bool;
  raw_slots : gmap nat entry;
  raw_buckets : gmap nat nat
}.

Definition shm_init (size_max entry_size_max nbuckets : Z) (key : Z * Z)
  (raw : gmap nat entry) : header :=
  let hdr := {| nslots := Z.to_nat (u32 size_max); nbuckets := Z.to_nat nbuckets;
                entry_size := u32 (align64 entry_size_max); hash_key := key;
                free_head := 0; last_pressure_warning := 0;
                buckets := zero_buckets (Z.to_nat nbuckets); slots := raw |} in
  set_free_head 1 (init_slots (nslots hdr) 1 hdr).

(** The status and, on success, the header; [None] is a non-terminating loop. *)
Definition oidc_cache_shm_post_config (size_max entry_size_max : Z) (ie : init_env)
  : option (Z * option header) :=
  nbuckets ← nbuckets_loop 33 size_max 1;
  if nbuckets <? u32 size_max then Some (HTTP_INTERNAL_SERVER_ERROR, None)
  else
    match oidc_cache_shm_segment_size size_max entry_size_max nbuckets with
    | None => Some (HTTP_INTERNAL_SERVER_ERROR, None)
    | Some _ =>
        if negb (shm_create_ok ie) then Some (HTTP_INTERNAL_SERVER_ERROR, None)
        else
          match random_key ie with
          | None => Some (HTTP_INTERNAL_SERVER_ERROR, None)
          | Some key =>
              if negb (mutex_ok ie) then Some (HTTP_INTERNAL_SERVER_ERROR, None)
              else Some (OK, Some (shm_init size_max entry_size_max nbuckets key (raw_slots ie)))
          end
    end.

(** ** The diagnostic validator *)

Fixpoint validate_chain (fuel : nat) (hdr : header) (b idx : nat) (visited : gset nat)
  : option (gset nat + string) :=
  match fuel with
  | O => None
  | S fuel' =>
      if Nat.eqb idx 0 then Some (inl visited)
      else if (nslots hdr <? idx)%nat || bool_decide (idx ∈ visited)
      then Some (inr ("invalid or repeated occupied slot " ^^ pretty idx))
      else
        let t := oidc_cache_shm_slot hdr idx in
        if String.eqb (section_key t) "" || negb (Nat.eqb (bucket_idx hdr (section_key t)) b)
        then Some (inr ("slot " ^^ pretty idx ^^ " is linked from the wrong bucket"))
        else validate_chain fuel' hdr b (next t) ({[idx]} ∪ visited)
  end.

Fixpoint oidc_cache_shm_validate_buckets (n : nat) (hdr : header) (b : nat) (visited : gset nat)
  : option (gset nat + string) :=
  match n with
  | O => Some (inl visited)
  | S n' =>
      r ← validate_chain (nslots hdr + 2) hdr b (oidc_cache_shm_buckets hdr b) visited;
      match r with
      | inl visited => oidc_cache_shm_validate_buckets n' hdr (S b) visited
      | inr error => Some (inr error)
      end
  end.

Fixpoint oidc_cache_shm_validate_free_list (fuel : nat) (hdr : header) (idx : nat)
  (visited : gset nat) : option (gset nat + string) :=
  match fuel with
  | O => None
  | S fuel' =>
      if Nat.eqb idx 0 then Some (inl visited)
      else if (nslots hdr <? idx)%nat || bool_decide (idx ∈ visited)
              || negb (String.eqb (section_key (oidc_cache_shm_slot hdr idx)) "")
      then Some (inr ("invalid or repeated free slot " ^^ pretty idx))
      else oidc_cache_shm_validate_free_list fuel' hdr
             (next (oidc_cache_shm_slot hdr idx)) ({[idx]} ∪ visited)
  end.

Fixpoint oidc_cache_shm_validate_ownership (n : nat) (idx : nat) (visited : gset nat)
  : option string :=
  match n with
  | O => None
  | S n' =>
      if bool_decide (idx ∈ visited) then oidc_cache_shm_validate_ownership n' (S idx) visited
      else Some ("orphaned slot " ^^ pretty idx)
  end.

(** The [apr_byte_t] and [*error], with the mutex results of [e]. *)
Definition oidc_cache_shm_validate (e : env) (hdr : header) : option (bool * option string) :=
  if negb (lock_ok e) then Some (false, None)
  else
    r ← oidc_cache_shm_validate_buckets (nbuckets hdr) hdr 0 ∅;
    match r with
    | inr error => Some (false, Some error)
    | inl visited =>
        r ← oidc_cache_shm_validate_free_list (nslots hdr + 2) hdr (free_head hdr) visited;
        match r with
        | inr error => Some (false, Some error)
        | inl visited =>
            match oidc_cache_shm_validate_ownership (nslots hdr) 1 visited with
            | Some error => Some (false, Some error)
            | None => Some (unlock_ok e, None)
            end
        end
    end.

Example siphash_reference_vector :
  oidc_cache_shm_siphash [0;1;2;3;4;5;6;7;8;9;10;11;12;13;14]
    (0x0706050403020100, 0x0f0e0d0c0b0a0908) = 0xa129ca6149be45e5.
Proof. vm_compute. reflexivity. Qed.
