(* ===== verification/ShmInv.v ===== *)
(** * The ownership invariant of the shared-memory cache

    Every slot is on exactly one list: the chain of the bucket its key hashes
    to when it is occupied, the free list when it is not.  [wf hole hdr cs fl]
    says so with the chains [cs] and the free list [fl] made explicit, except
    for the slot [hole] that an operation has taken off its list. *)

From stdpp Require Import functions.
From S2P Require Import Prelude Cstr ShmCache.

(** ** Linked lists through the slots *)

Abbreviation skey hdr i := (section_key (oidc_cache_shm_slot hdr i)).
Abbreviation snext hdr i := (next (oidc_cache_shm_slot hdr i)).

(** The indices reached from [h] by following [nx], ending at 0. *)
Fixpoint chain (nx : nat -> nat) (h : nat) (l : list nat) : Prop :=
  match l with
  | [] => h = 0%nat
  | i :: l' => h = i /\ i <> 0%nat /\ chain nx (nx i) l'
  end.

Lemma chain_ext nx nx' h l :
  (forall i, i ∈ l -> nx' i = nx i) -> chain nx h l -> chain nx' h l.
Proof.
  revert h. induction l as [|i l IH]; simpl; intros h Hx; [done|].
  intros (-> & Hi & Hc). split; [done|]. split; [done|].
  rewrite Hx by left. apply IH; [|done]. intros j Hj. apply Hx. by right.
Qed.

Lemma chain_nonzero nx h l i : chain nx h l -> i ∈ l -> i <> 0%nat.
Proof.
  revert h. induction l as [|j l IH]; simpl; intros h Hc Hi.
  - by apply not_elem_of_nil in Hi.
  - destruct Hc as (_ & Hj & Hc). apply elem_of_cons in Hi as [->|Hi]; eauto.
Qed.

Lemma chain_zero nx l : chain nx 0 l -> l = [].
Proof. destruct l; simpl; [done|]. by intros (<- & ? & _). Qed.

(** The predecessor of what follows [l1]. *)
Definition pred_of (l1 : list nat) (d : nat) : nat := default d (last l1).

Lemma pred_of_cons i l1 d : pred_of (i :: l1) d = pred_of l1 i.
Proof. unfold pred_of. by destruct l1 as [|j l1]; [|rewrite last_cons_cons; destruct (last (j :: l1)) eqn:E; [|by apply last_None in E]]. Qed.


(** Splitting a chain, and joining it back after [i] was dropped from it. *)
Lemma chain_drop nx nx' h l1 i l2 :
  NoDup (l1 ++ i :: l2) -> chain nx h (l1 ++ i :: l2) ->
  (forall j, j ∈ l1 ++ l2 -> last l1 <> Some j -> nx' j = nx j) ->
  (forall j, last l1 = Some j -> nx' j = nx i) ->
  chain nx' (match l1 with [] => nx i | _ => h end) (l1 ++ l2).
Proof.
  revert h. induction l1 as [|j l1 IH]; cbn [app]; intros h Hn Hc Hx Hl.
  - destruct Hc as (_ & _ & Hc). eapply chain_ext; [|exact Hc].
    intros k Hk. by apply Hx.
  - cbn [chain] in Hc |- *. destruct Hc as (-> & Hj & Hc). split; [done|]. split; [done|].
    apply NoDup_cons in Hn as [Hj' Hn].
    destruct l1 as [|j1 l1].
    + cbn [app] in *. rewrite (Hl j) by done.
      destruct Hc as (_ & _ & Hc). eapply chain_ext; [|exact Hc].
      intros k Hk. apply Hx; [by right|]. simpl. intros [= <-]. apply Hj'. by right.
    + rewrite Hx; [|by left|].
      2:{ rewrite last_cons_cons. intros Hlast. apply Hj'.
          apply elem_of_app. left. by apply last_Some_elem_of. }
      cbn [chain app] in Hc |- *. destruct Hc as (Hh & Hc).
      specialize (IH (nx j) Hn (conj Hh Hc)). cbn [chain app] in IH. apply IH.
      * intros k Hk Hne. apply Hx; [by right|]. by rewrite last_cons_cons.
      * intros k Hk. apply Hl. by rewrite last_cons_cons.
Qed.

(** ** The loops over links *)

Lemma find_loop_spec hdr key l fuel h prev :
  chain (fun i => snext hdr i) h l -> (length l < fuel)%nat ->
  (exists l1 i l2, l = l1 ++ i :: l2 /\ skey hdr i = key /\
     find_loop fuel hdr key h prev = Some (i, pred_of l1 prev)) \/
  ((forall j, j ∈ l -> skey hdr j <> key) /\
   exists p, find_loop fuel hdr key h prev = Some (0%nat, p)).
Proof.
  revert fuel h prev. induction l as [|i l IH]; intros fuel h prev Hc Hf.
  - simpl in Hc. subst h. destruct fuel; [simpl in Hf; lia|]. right.
    split; [by intros j ?%not_elem_of_nil|]. by exists prev.
  - destruct Hc as (-> & Hi & Hc). destruct fuel as [|fuel]; [simpl in Hf; lia|].
    cbn [find_loop]. destruct (Nat.eqb_spec i 0); [done|].
    rewrite strcmp_eqb. destruct (String.eqb_spec (skey hdr i) key) as [E|Hne].
    + left. exists [], i, l. done.
    + destruct (IH fuel _ i Hc) as [(l1 & j & l2 & -> & Hk & ->)|(Hno & p & ->)];
        [simpl in Hf; lia| |].
      * left. exists (i :: l1), j, l2. by rewrite pred_of_cons.
      * right. split; [|by exists p]. intros j [->|Hj]%elem_of_cons; auto.
Qed.

Lemma unlink_loop_spec hdr b i l1 l2 fuel h prev :
  chain (fun j => snext hdr j) h (l1 ++ i :: l2) -> i ∉ l1 ->
  (length (l1 ++ i :: l2) < fuel)%nat ->
  unlink_loop fuel hdr b i h prev =
    Some (true, relink b (pred_of l1 prev) (snext hdr i) hdr).
Proof.
  revert fuel h prev. induction l1 as [|j l1 IH]; intros fuel h prev Hc Hn Hf.
  - destruct Hc as (-> & Hi & Hc). destruct fuel as [|fuel]; [simpl in Hf; lia|].
    cbn [unlink_loop]. destruct (Nat.eqb_spec i 0); [done|]. by rewrite Nat.eqb_refl.
  - destruct Hc as (-> & Hj & Hc). destruct fuel as [|fuel]; [simpl in Hf; lia|].
    apply not_elem_of_cons in Hn as [Hne Hn]. cbn [unlink_loop].
    destruct (Nat.eqb_spec j 0); [done|]. destruct (Nat.eqb_spec j i); [done|].
    rewrite (IH fuel _ j Hc Hn) by (simpl in Hf; lia). by rewrite pred_of_cons.
Qed.

(** ** The invariant *)

Definition in_range (hdr : header) (i : nat) : Prop := (1 <= i <= nslots hdr)%nat.

Record wf (hole : option nat) (hdr : header) (cs : nat -> list nat) (fl : list nat) : Prop := {
  wf_nbuckets : exists k : Z, 0 <= k <= 32 /\ Z.of_nat (nbuckets hdr) = 2 ^ k;
  wf_chain b : (b < nbuckets hdr)%nat ->
    chain (fun i => snext hdr i) (oidc_cache_shm_buckets hdr b) (cs b);
  wf_free : chain (fun i => snext hdr i) (free_head hdr) fl;
  wf_chain_NoDup b : (b < nbuckets hdr)%nat -> NoDup (cs b);
  wf_free_NoDup : NoDup fl;
  wf_chain_occ b i : (b < nbuckets hdr)%nat -> i ∈ cs b ->
    in_range hdr i /\ hole <> Some i /\ skey hdr i <> "" /\ bucket_idx hdr (skey hdr i) = b;
  wf_free_occ i : i ∈ fl -> in_range hdr i /\ hole <> Some i /\ skey hdr i = "";
  wf_owned i : in_range hdr i -> hole <> Some i ->
    if String.eqb (skey hdr i) "" then i ∈ fl else i ∈ cs (bucket_idx hdr (skey hdr i));
  wf_unique i j : in_range hdr i -> in_range hdr j -> hole <> Some i -> hole <> Some j ->
    skey hdr i = skey hdr j -> skey hdr i <> "" -> i = j
}.

Lemma slot_set_slot_eq hdr i t : oidc_cache_shm_slot (set_slot i t hdr) i = t.
Proof. unfold oidc_cache_shm_slot. simpl. by rewrite lookup_insert_eq. Qed.
Lemma slot_set_slot_ne hdr i j t :
  i <> j -> oidc_cache_shm_slot (set_slot i t hdr) j = oidc_cache_shm_slot hdr j.
Proof. intros. unfold oidc_cache_shm_slot. simpl. by rewrite lookup_insert_ne. Qed.
Lemma bucket_set_bucket_eq hdr b n : oidc_cache_shm_buckets (set_bucket b n hdr) b = n.
Proof. unfold oidc_cache_shm_buckets. simpl. by rewrite lookup_insert_eq. Qed.
Lemma bucket_set_bucket_ne hdr b c n :
  b <> c -> oidc_cache_shm_buckets (set_bucket b n hdr) c = oidc_cache_shm_buckets hdr c.
Proof. intros. unfold oidc_cache_shm_buckets. simpl. by rewrite lookup_insert_ne. Qed.

Lemma bucket_idx_lt hole hdr cs fl s :
  wf hole hdr cs fl -> (bucket_idx hdr s < nbuckets hdr)%nat.
Proof.
  intros [(k & Hk & Hnb) _ _ _ _ _ _ _ _]. unfold bucket_idx. rewrite Hnb.
  replace (2 ^ k - 1) with (Z.ones k) by (rewrite Z.ones_equiv; lia).
  rewrite Z.land_ones by lia.
  pose proof (Z.mod_pos_bound (u32 (oidc_cache_shm_hash s (hash_key hdr))) (2 ^ k)). lia.
Qed.

Lemma NoDup_range_length (l : list nat) n :
  NoDup l -> (forall i, i ∈ l -> (1 <= i <= n)%nat) -> (length l <= n)%nat.
Proof.
  intros Hn Hr. rewrite <-(length_seq n 1). apply NoDup_incl_length; [by apply NoDup_ListNoDup|].
  intros i Hi%list_elem_of_In. apply in_seq. specialize (Hr i Hi). lia.
Qed.

Lemma wf_chain_length hole hdr cs fl b :
  wf hole hdr cs fl -> (b < nbuckets hdr)%nat -> (length (cs b) <= nslots hdr)%nat.
Proof.
  intros Hwf Hb. apply NoDup_range_length; [by eapply wf_chain_NoDup|].
  intros i Hi. by eapply wf_chain_occ.
Qed.

(** ** Finding a key *)

Lemma find_wf hdr cs fl key :
  wf None hdr cs fl -> key <> "" ->
  let b := bucket_idx hdr key in
  (exists l1 i l2, cs b = l1 ++ i :: l2 /\ skey hdr i = key /\ i <> 0%nat /\
     oidc_cache_shm_find hdr b key = Some (i, pred_of l1 0)) \/
  ((forall i, in_range hdr i -> skey hdr i <> key) /\
   exists p, oidc_cache_shm_find hdr b key = Some (0%nat, p)).
Proof.
  intros Hwf Hkey b. assert (Hb : (b < nbuckets hdr)%nat) by by eapply bucket_idx_lt.
  pose proof (wf_chain_length _ _ _ _ b Hwf Hb).
  destruct (find_loop_spec hdr key (cs b) (S (nslots hdr)) (oidc_cache_shm_buckets hdr b) 0)
    as [(l1 & i & l2 & Hcs & Hk & Hfind)|(Hno & p & Hfind)]; [by eapply wf_chain|lia|left|right].
  - exists l1, i, l2. do 2 (split; [done|]). split; [|done].
    eapply chain_nonzero; [by eapply (wf_chain _ _ _ _ Hwf)|]. rewrite Hcs. set_solver.
  - split; [|by exists p]. intros i Hi Hs.
    pose proof (wf_owned _ _ _ _ Hwf i Hi ltac:(done)) as Ho. rewrite Hs in Ho.
    destruct (String.eqb_spec key ""); [done|]. by apply (Hno i).
Qed.

(** ** Each step of an operation preserves the invariant *)

(** The invariant only looks at keys, links and list heads. *)
Lemma wf_ext hole hdr hdr' cs fl :
  nslots hdr' = nslots hdr -> nbuckets hdr' = nbuckets hdr -> hash_key hdr' = hash_key hdr ->
  free_head hdr' = free_head hdr ->
  (forall b, oidc_cache_shm_buckets hdr' b = oidc_cache_shm_buckets hdr b) ->
  (forall j, skey hdr' j = skey hdr j /\ snext hdr' j = snext hdr j) ->
  wf hole hdr cs fl -> wf hole hdr' cs fl.
Proof.
  intros Hns Hnb Hhk Hfh Hb Hs [H1 H2 H3 H4 H5 H6 H7 H8 H9].
  assert (Hbi : forall s, bucket_idx hdr' s = bucket_idx hdr s).
  { intros s. unfold bucket_idx. by rewrite Hhk, Hnb. }
  assert (Hr : forall i, in_range hdr' i <-> in_range hdr i).
  { intros i. unfold in_range. by rewrite Hns. }
  split.
  - by rewrite Hnb.
  - intros b Hlt. rewrite Hnb in Hlt. rewrite Hb. eapply chain_ext; [|by apply H2].
    intros i _. apply Hs.
  - rewrite Hfh. eapply chain_ext; [|apply H3]. intros i _. apply Hs.
  - rewrite Hnb. apply H4.
  - done.
  - intros b i Hlt Hi. rewrite Hnb in Hlt. destruct (Hs i) as [-> _]. rewrite Hr, Hbi. by apply H6.
  - intros i Hi. destruct (Hs i) as [-> _]. rewrite Hr. by apply H7.
  - intros i Hi Hh. destruct (Hs i) as [-> _]. rewrite Hbi. apply H8; [by apply Hr|done].
  - intros i j. rewrite !Hr. destruct (Hs i) as [-> _], (Hs j) as [-> _]. apply H9.
Qed.

Lemma slot_case hdr i j t :
  oidc_cache_shm_slot (set_slot i t hdr) j = if decide (i = j) then t else oidc_cache_shm_slot hdr j.
Proof. destruct (decide (i = j)) as [->|]; [apply slot_set_slot_eq|by apply slot_set_slot_ne]. Qed.

Lemma wf_set_slot_same hole hdr cs fl i t :
  section_key t = skey hdr i -> next t = snext hdr i ->
  wf hole hdr cs fl -> wf hole (set_slot i t hdr) cs fl.
Proof.
  intros Hk Hn. apply wf_ext; try done. intros j. rewrite slot_case.
  by case_decide; subst.
Qed.

Lemma wf_set_lpw hole hdr cs fl t :
  wf hole hdr cs fl -> wf hole (set_last_pressure_warning t hdr) cs fl.
Proof. by apply wf_ext. Qed.

(** [relink] keeps everything but one link. *)
Lemma relink_skey b p n hdr j : skey (relink b p n hdr) j = skey hdr j.
Proof.
  unfold relink. destruct (Nat.eqb p 0); [done|]. rewrite slot_case. by case_decide; subst.
Qed.
Lemma relink_snext b p n hdr j :
  snext (relink b p n hdr) j = if decide (p = j /\ p <> 0%nat) then n else snext hdr j.
Proof.
  unfold relink. destruct (Nat.eqb_spec p 0) as [->|].
  - rewrite decide_False; [done|]. naive_solver.
  - rewrite slot_case. repeat case_decide; naive_solver.
Qed.
Lemma relink_bucket b p n hdr c :
  oidc_cache_shm_buckets (relink b p n hdr) c =
  if decide (b = c /\ p = 0%nat) then n else oidc_cache_shm_buckets hdr c.
Proof.
  unfold relink. destruct (Nat.eqb_spec p 0) as [->|].
  - destruct (decide (b = c)) as [->|].
    + by rewrite decide_True, bucket_set_bucket_eq.
    + by rewrite decide_False, bucket_set_bucket_ne by naive_solver.
  - by rewrite decide_False by naive_solver.
Qed.
Lemma relink_other b p n hdr :
  nslots (relink b p n hdr) = nslots hdr /\ nbuckets (relink b p n hdr) = nbuckets hdr /\
  hash_key (relink b p n hdr) = hash_key hdr /\ free_head (relink b p n hdr) = free_head hdr.
Proof. unfold relink. by destruct (Nat.eqb p 0). Qed.

Lemma pred_of_cases l1 :
  (l1 = [] /\ pred_of l1 0 = 0%nat) \/ (exists p, last l1 = Some p /\ pred_of l1 0 = p /\ p ∈ l1).
Proof.
  unfold pred_of. destruct (last l1) as [p|] eqn:E.
  - right. exists p. split; [done|]. split; [done|]. by apply last_Some_elem_of.
  - left. by apply last_None in E.
Qed.

(** The chain that [relink] repairs. *)
Lemma relink_chain hdr b l1 i l2 :
  let hdr' := relink b (pred_of l1 0) (snext hdr i) hdr in
  NoDup (l1 ++ i :: l2) ->
  chain (fun j => snext hdr j) (oidc_cache_shm_buckets hdr b) (l1 ++ i :: l2) ->
  chain (fun j => snext hdr' j) (oidc_cache_shm_buckets hdr' b) (l1 ++ l2).
Proof.
  intros hdr' Hnd Hc.
  pose proof (chain_drop (fun j => snext hdr j) (fun j => snext hdr' j) _ l1 i l2 Hnd Hc) as Hd.
  unfold hdr' in *. rewrite relink_bucket.
  destruct (pred_of_cases l1) as [[-> Hp]|(p & Hlast & Hp & Hin)]; rewrite Hp in *.
  - rewrite decide_True by done. apply Hd; [|done].
    intros j _ _. rewrite relink_snext, decide_False; [done|naive_solver].
  - assert (p <> 0%nat) by (eapply chain_nonzero; [exact Hc|set_solver]).
    rewrite decide_False by naive_solver. destruct l1 as [|j1 l1]; [done|].
    apply Hd; intros j.
    + intros _ Hne. rewrite relink_snext, decide_False; [done|]. naive_solver congruence.
    + intros Hj. rewrite relink_snext, decide_True; [done|]. naive_solver congruence.
Qed.

(** The other lists are not touched by [relink]. *)
Lemma relink_chain_other hdr b l1 n h l :
  (forall j, j ∈ l -> j ∉ l1) ->
  chain (fun j => snext hdr j) h l ->
  chain (fun j => snext (relink b (pred_of l1 0) n hdr) j) h l.
Proof.
  intros Hdis. apply chain_ext. intros j Hj. rewrite relink_snext.
  case_decide as Hd; [|done]. destruct Hd as [Hp Hnz]. exfalso.
  destruct (pred_of_cases l1) as [[-> ?]|(p & _ & Hp' & Hin)]; [congruence|].
  apply (Hdis j Hj). congruence.
Qed.

(** Dropping slot [i] from its chain. *)
Lemma wf_unlink hdr cs fl b l1 i l2 :
  wf None hdr cs fl -> (b < nbuckets hdr)%nat -> cs b = l1 ++ i :: l2 ->
  wf (Some i) (relink b (pred_of l1 0) (snext hdr i) hdr) (<[b := l1 ++ l2]> cs) fl.
Proof.
  intros [H1 H2 H3 H4 H5 H6 H7 H8 H9] Hb Hcs.
  destruct (relink_other b (pred_of l1 0) (snext hdr i) hdr) as (Hns & Hnb & Hhk & Hfh).
  assert (Hbi : forall s, bucket_idx (relink b (pred_of l1 0) (snext hdr i) hdr) s = bucket_idx hdr s).
  { intros s. unfold bucket_idx. by rewrite Hhk, Hnb. }
  pose proof (H4 b Hb) as Hnd. rewrite Hcs in Hnd.
  assert (Hin : forall j, j ∈ l1 \/ j = i \/ j ∈ l2 -> j ∈ cs b) by (rewrite Hcs; set_solver).
  assert (Hi : i ∉ l1 ++ l2) by (apply NoDup_app in Hnd as (_ & Hd & Hnd%NoDup_cons); set_solver).
  assert (Hother : forall c j, (c < nbuckets hdr)%nat -> b <> c -> j ∈ cs c -> j ∉ cs b).
  { intros c j Hc Hne Hj Hjb. destruct (H6 _ _ Hc Hj) as (_ & _ & _ & ?).
    destruct (H6 _ _ Hb Hjb) as (_ & _ & _ & ?). congruence. }
  split; unfold in_range; rewrite ?Hnb, ?Hns, ?Hfh; try done.
  - intros c Hc. destruct (decide (b = c)) as [<-|Hne].
    + rewrite fn_lookup_insert. apply relink_chain; [done|]. rewrite <-Hcs. auto.
    + rewrite fn_lookup_insert_ne, relink_bucket, decide_False by naive_solver.
      apply relink_chain_other; [|by apply H2]. intros j Hj Hl1.
      apply (Hother c j); auto.
  - apply relink_chain_other; [|done]. intros j Hj Hl1.
    destruct (H7 j Hj) as (_ & _ & ?). destruct (H6 b j Hb) as (_ & _ & ? & _); auto.
  - intros c Hc. destruct (decide (b = c)) as [<-|Hne].
    + rewrite fn_lookup_insert. apply NoDup_app in Hnd as (Hn1 & Hd & Hn2%NoDup_cons).
      apply NoDup_app. split; [done|]. split; [|by destruct Hn2]. set_solver.
    + rewrite fn_lookup_insert_ne by done. auto.
  - intros c j Hc Hj. rewrite relink_skey, Hbi.
    assert (Hjc : j ∈ cs c /\ j <> i).
    { destruct (decide (b = c)) as [<-|Hne].
      - rewrite fn_lookup_insert in Hj. split; [apply Hin; set_solver|by intros ->].
      - rewrite fn_lookup_insert_ne in Hj by done. split; [done|].
        intros ->. eapply Hother; eauto. }
    destruct Hjc as [Hjc Hji]. destruct (H6 c j Hc Hjc) as (? & ? & ? & ?). naive_solver.
  - intros j Hj. rewrite relink_skey. destruct (H7 j Hj) as (? & ? & ?).
    split; [done|]. split; [|done]. intros [= ->]. destruct (H6 b j Hb) as (_ & _ & ? & _); auto.
  - intros j Hj Hh. rewrite relink_skey, Hbi. specialize (H8 j Hj ltac:(done)).
    destruct (String.eqb (skey hdr j) ""); [done|].
    destruct (decide (b = bucket_idx hdr (skey hdr j))) as [Hbj|Hne].
    + rewrite <-Hbj, fn_lookup_insert. rewrite <-Hbj, Hcs in H8.
      assert (j <> i) by (intros ->; done). set_solver.
    + by rewrite fn_lookup_insert_ne.
  - intros j k. rewrite !relink_skey. intros. by apply H9.
Qed.

(** Putting the hole on the free list. *)
Lemma wf_slot_free hdr cs fl i :
  wf (Some i) hdr cs fl -> in_range hdr i ->
  wf None (oidc_cache_shm_slot_free hdr i) cs (i :: fl).
Proof.
  intros [H1 H2 H3 H4 H5 H6 H7 H8 H9] Hi. unfold oidc_cache_shm_slot_free.
  set (t := with_next _ _). set (hdr' := set_free_head _ _).
  assert (Hs : forall j, oidc_cache_shm_slot hdr' j = if decide (i = j) then t else oidc_cache_shm_slot hdr j)
    by (intros; apply (slot_case hdr)).
  assert (Hbi : forall s, bucket_idx hdr' s = bucket_idx hdr s) by done.
  assert (Hoc : forall b j, (b < nbuckets hdr)%nat -> j ∈ cs b -> i <> j).
  { intros b j Hb Hj <-. by destruct (H6 b i Hb Hj) as (_ & ? & _). }
  assert (Hof : forall j, j ∈ fl -> i <> j).
  { intros j Hj <-. by destruct (H7 i Hj) as (_ & ? & _). }
  split; try done.
  - intros b Hb. eapply chain_ext; [|by apply H2]. intros j Hj. rewrite Hs.
    rewrite decide_False; [done|]. eauto.
  - cbn [chain]. split; [done|]. unfold in_range in Hi. split; [lia|].
    rewrite Hs, decide_True by done. eapply chain_ext; [|exact H3]. intros j Hj.
    rewrite Hs, decide_False; [done|]. auto.
  - constructor; [|done]. intros Hin. by apply (Hof i).
  - intros b j Hb Hj. rewrite Hs, decide_False by eauto.
    destruct (H6 b j Hb Hj) as (? & ? & ? & ?). done.
  - intros j [->|Hj]%elem_of_cons.
    + rewrite Hs, decide_True by done. done.
    + rewrite Hs, decide_False by auto. destruct (H7 j Hj) as (? & ? & ?). done.
  - intros j Hj _. rewrite Hs. case_decide as Hd; [subst; simpl; set_solver|].
    specialize (H8 j Hj ltac:(congruence)). rewrite Hbi.
    destruct (String.eqb (skey hdr j) ""); [set_solver|done].
  - intros j k Hj Hk _ _. rewrite !Hs. repeat case_decide; try done.
    intros. apply H9; try done; congruence.
Qed.

(** Taking the head of the free list. *)
Lemma wf_take_free hdr cs fl i :
  wf None hdr cs (i :: fl) ->
  wf (Some i) (set_free_head (snext hdr i) hdr) cs fl.
Proof.
  intros [H1 H2 H3 H4 H5 H6 H7 H8 H9]. apply NoDup_cons in H5 as [Hni H5].
  destruct H3 as (_ & _ & H3). destruct (H7 i) as (Hir & _ & Hik); [set_solver|].
  split; try done.
  - intros b j Hb Hj. destruct (H6 b j Hb Hj) as (? & ? & ? & ?).
    split; [done|]. split; [congruence|done].
  - intros j Hj. destruct (H7 j) as (? & _ & ?); [set_solver|].
    split; [done|]. split; [congruence|done].
  - intros j Hj Hh. specialize (H8 j Hj ltac:(done)).
    change (oidc_cache_shm_slot (set_free_head (snext hdr i) hdr) j) with (oidc_cache_shm_slot hdr j).
    destruct (String.eqb (skey hdr j) ""); [|done].
    apply elem_of_cons in H8 as [->|]; [congruence|done].
  - intros j k Hj Hk _ _. by apply H9.
Qed.

(** The slot an insertion writes. *)
Lemma entry_insert_slot hdr b i k v ex acc j :
  (String.length k < OIDC_CACHE_SHM_KEY_MAX)%nat ->
  oidc_cache_shm_slot (oidc_cache_shm_entry_insert hdr b i k v ex acc) j =
  if decide (i = j) then mk_entry k acc ex (oidc_cache_shm_buckets hdr b) v
  else oidc_cache_shm_slot hdr j.
Proof.
  intros Hk. unfold oidc_cache_shm_entry_insert, oidc_cache_shm_entry_update.
  rewrite slot_set_slot_eq. cbn [section_key next with_key with_next].
  rewrite str_take_all by (unfold OIDC_CACHE_SHM_KEY_MAX in *; lia).
  rewrite !slot_case. case_decide; [done|].
  change (oidc_cache_shm_slot (set_bucket b i ?h) j) with (oidc_cache_shm_slot h j).
  by rewrite slot_case, decide_False.
Qed.

Lemma entry_insert_bucket hdr b i k v ex acc c :
  oidc_cache_shm_buckets (oidc_cache_shm_entry_insert hdr b i k v ex acc) c =
  if decide (b = c) then i else oidc_cache_shm_buckets hdr c.
Proof.
  unfold oidc_cache_shm_buckets. simpl. rewrite lookup_insert. by case_decide.
Qed.

(** Filling the hole with a key that no other slot has. *)
Lemma wf_insert hdr cs fl i k v ex acc :
  wf (Some i) hdr cs fl -> in_range hdr i -> k <> "" ->
  (String.length k < OIDC_CACHE_SHM_KEY_MAX)%nat ->
  (forall j, in_range hdr j -> j <> i -> skey hdr j <> k) ->
  let b := bucket_idx hdr k in
  wf None (oidc_cache_shm_entry_insert hdr b i k v ex acc) (<[b := i :: cs b]> cs) fl.
Proof.
  intros Hwf Hi Hk Hlen Hno b. assert (Hb : (b < nbuckets hdr)%nat) by by eapply bucket_idx_lt.
  destruct Hwf as [H1 H2 H3 H4 H5 H6 H7 H8 H9].
  set (hdr' := oidc_cache_shm_entry_insert _ _ _ _ _ _ _).
  assert (Hs : forall j, oidc_cache_shm_slot hdr' j = if decide (i = j) then
    mk_entry k acc ex (oidc_cache_shm_buckets hdr b) v else oidc_cache_shm_slot hdr j)
    by (intros; by apply entry_insert_slot).
  assert (Hbi : forall s, bucket_idx hdr' s = bucket_idx hdr s) by done.
  assert (Hoc : forall c j, (c < nbuckets hdr)%nat -> j ∈ cs c -> i <> j).
  { intros c j Hc Hj <-. by destruct (H6 c i Hc Hj) as (_ & ? & _). }
  assert (Hof : forall j, j ∈ fl -> i <> j).
  { intros j Hj <-. by destruct (H7 i Hj) as (_ & ? & _). }
  assert (Hcs : forall c j, (c < nbuckets hdr)%nat -> j ∈ (<[b := i :: cs b]> cs) c ->
    (j = i /\ c = b) \/ j ∈ cs c).
  { intros c j Hc. destruct (decide (b = c)) as [<-|Hne].
    - rewrite fn_lookup_insert. set_solver.
    - rewrite fn_lookup_insert_ne by done. auto. }
  assert (Hext : forall c h, (c < nbuckets hdr)%nat -> chain (fun j => snext hdr j) h (cs c) ->
    chain (fun j => snext hdr' j) h (cs c)).
  { intros c h Hc. apply chain_ext. intros j Hj. rewrite Hs, decide_False by eauto. done. }
  split; try done.
  - intros c Hc. unfold hdr' at 2. rewrite entry_insert_bucket. destruct (decide (b = c)) as [<-|Hne].
    + rewrite fn_lookup_insert. simpl. split; [done|]. unfold in_range in Hi. split; [lia|].
      rewrite Hs, decide_True by done. simpl. auto.
    + rewrite fn_lookup_insert_ne by done. auto.
  - eapply chain_ext; [|exact H3]. intros j Hj. rewrite Hs, decide_False by auto. done.
  - intros c Hc. destruct (decide (b = c)) as [<-|Hne].
    + rewrite fn_lookup_insert. constructor; [|auto]. intros Hin. by apply (Hoc b i).
    + rewrite fn_lookup_insert_ne by done. auto.
  - intros c j Hc [[-> ->]|Hj]%Hcs; [|rewrite Hs, decide_False by eauto|done].
    + rewrite Hs, decide_True by done. done.
    + destruct (H6 c j Hc Hj) as (? & ? & ? & ?). done.
  - intros j Hj. rewrite Hs, decide_False by auto. destruct (H7 j Hj) as (? & ? & ?). done.
  - intros j Hj _. rewrite Hs, Hbi. case_decide as Hd; simpl.
    + destruct (String.eqb_spec k ""); [done|]. subst j. rewrite fn_lookup_insert. set_solver.
    + specialize (H8 j Hj ltac:(congruence)). destruct (String.eqb (skey hdr j) ""); [done|].
      destruct (decide (b = bucket_idx hdr (skey hdr j))) as [Hbj|Hne].
      * rewrite <-Hbj, fn_lookup_insert. rewrite <-Hbj in H8. set_solver.
      * by rewrite fn_lookup_insert_ne.
  - intros j j' Hj Hj' _ _. rewrite !Hs. repeat case_decide; simpl; try congruence.
    + intros E _. exfalso. apply (Hno j' Hj'); congruence.
    + intros E _. exfalso. apply (Hno j Hj); congruence.
    + intros. apply H9; try done; congruence.
Qed.
