(* ===== verification/ShmSpec.v ===== *)
(** * What the shared-memory cache promises

    [abs] reads a header as a finite map from section keys to value, expiry and
    last access.  [spec_get] and [spec_set] say what the two operations do to
    that map; the refinement theorems show that src/cache/shm.c does that in
    every state reached from its initialisation. *)

From S2P Require Import Prelude Cstr ShmCache ShmInv.

(** ** The abstract cache *)

Record centry := mk_centry { c_value : string; c_expires : Z; c_access : Z }.

Definition content (hdr : header) (i : nat) : centry :=
  let t := oidc_cache_shm_slot hdr i in mk_centry (value t) (expires t) (access t).

(** The occupied slots. *)
Definition occ (hdr : header) : list nat :=
  filter (fun i => skey hdr i <> "") (seq 1 (nslots hdr)).

Definition abs (hdr : header) : gmap string centry :=
  list_to_map ((fun i => (skey hdr i, content hdr i)) <$> occ hdr).

(** A lookup: a live entry is returned and marked as used now, an expired one is
    dropped. *)
Definition spec_get (t : Z) (k : string) (m : gmap string centry)
  : option string * gmap string centry :=
  match m !! k with
  | None => (None, m)
  | Some r =>
      if t <? c_expires r
      then (Some (c_value r), <[k := mk_centry (c_value r) (c_expires r) t]> m)
      else (None, delete k m)
  end.

(** The entry that may be replaced: an expired one, or when there is none the one
    that was not used for the longest time. *)
Definition spec_victim (t : Z) (m : gmap string centry) (k : string) : Prop :=
  exists r, m !! k = Some r /\
    (c_expires r <= t \/
     (forall k' r', m !! k' = Some r' -> t < c_expires r' /\ c_access r <= c_access r')).

Inductive spec_set (cap : nat) (t : Z) (k : string) (m : gmap string centry)
  : option string -> Z -> gmap string centry -> Prop :=
| spec_set_delete ex : spec_set cap t k m None ex (delete k m)
| spec_set_room v ex :
    is_Some (m !! k) \/ (size m < cap)%nat ->
    spec_set cap t k m (Some v) ex (<[k := mk_centry v ex t]> m)
| spec_set_evict v ex k' :
    m !! k = None -> size m = cap -> spec_victim t m k' ->
    spec_set cap t k m (Some v) ex (<[k := mk_centry v ex t]> (delete k' m)).

(** ** The states of the cache *)

Record valid (em : Z) (hdr : header) : Prop := {
  valid_wf : exists cs fl, wf None hdr cs fl;
  valid_slots : (0 < nslots hdr)%nat;
  valid_fits i : in_range hdr i -> skey hdr i <> "" ->
    zlen (value (oidc_cache_shm_slot hdr i)) < oidc_cache_shm_value_size_max em /\
    (String.length (skey hdr i) < OIDC_CACHE_SHM_KEY_MAX)%nat
}.

(** One operation by any process, in any environment. *)
Inductive shm_step (em : Z) : header -> header -> Prop :=
| step_get e s k hdr b v hdr' :
    oidc_cache_shm_get e s k hdr = Some (b, v, hdr') -> shm_step em hdr hdr'
| step_set e s k v ex hdr b hdr' :
    oidc_cache_shm_set em e s k v ex hdr = Some (b, hdr') -> shm_step em hdr hdr'.

(** The states reached from initialisation. *)
Definition reachable (sm em : Z) (hdr : header) : Prop :=
  exists ie hdr0, oidc_cache_shm_post_config sm em ie = Some (OK, Some hdr0) /\
    rtc (shm_step em) hdr0 hdr.

(** ** Reading the abstract map *)

Definition uniq (hdr : header) : Prop := forall i j, in_range hdr i -> in_range hdr j ->
  skey hdr i = skey hdr j -> skey hdr i <> "" -> i = j.

Lemma wf_uniq hdr cs fl : wf None hdr cs fl -> uniq hdr.
Proof. intros Hwf i j ????. by eapply (wf_unique _ _ _ _ Hwf). Qed.

Lemma elem_of_occ hdr i : i ∈ occ hdr <-> in_range hdr i /\ skey hdr i <> "".
Proof.
  unfold occ, in_range. rewrite list_elem_of_filter, elem_of_seq.
  split; intros [? ?]; split; try done; lia.
Qed.

Lemma occ_NoDup hdr : NoDup (occ hdr).
Proof. apply NoDup_filter, NoDup_ListNoDup, seq_NoDup. Qed.

Lemma abs_keys_NoDup hdr :
  uniq hdr -> NoDup (((fun i => (skey hdr i, content hdr i)) <$> occ hdr).*1).
Proof.
  intros Hu. rewrite <-list_fmap_compose. apply NoDup_fmap_2_strong; [|apply occ_NoDup].
  intros i j [Hi Hki]%elem_of_occ [Hj Hkj]%elem_of_occ E. by apply Hu.
Qed.

Lemma abs_lookup hdr k r : uniq hdr ->
  abs hdr !! k = Some r <->
  exists i, in_range hdr i /\ skey hdr i = k /\ k <> "" /\ content hdr i = r.
Proof.
  intros Hu. unfold abs. rewrite <-elem_of_list_to_map by by apply abs_keys_NoDup.
  rewrite list_elem_of_fmap. setoid_rewrite elem_of_occ. naive_solver.
Qed.

Lemma abs_lookup_None hdr k : uniq hdr -> k <> "" ->
  abs hdr !! k = None <-> forall i, in_range hdr i -> skey hdr i <> k.
Proof.
  intros Hu Hk. rewrite eq_None_not_Some. split.
  - intros Hn i Hi E. apply Hn. exists (content hdr i). apply abs_lookup; [done|]. by exists i.
  - intros Hn [r (i & Hi & E & _)%abs_lookup]; [|done]. by apply (Hn i).
Qed.

Lemma abs_empty_key hdr : uniq hdr -> abs hdr !! "" = None.
Proof.
  intros Hu. apply eq_None_not_Some. intros [r (i & _ & _ & ? & _)%abs_lookup]; done.
Qed.

(** Occupied and free slots together are all slots. *)
Lemma abs_size hdr cs fl :
  wf None hdr cs fl -> (size (abs hdr) + length fl)%nat = nslots hdr.
Proof.
  intros Hwf. unfold abs. rewrite map_size_list_to_map by (apply abs_keys_NoDup; by eapply wf_uniq).
  rewrite length_fmap, <-(length_seq (nslots hdr) 1), <-length_app. apply Permutation_length.
  apply NoDup_Permutation.
  - apply NoDup_app. split; [apply occ_NoDup|]. split; [|by eapply wf_free_NoDup].
    intros i [_ Hi]%elem_of_occ Hf. by destruct (wf_free_occ _ _ _ _ Hwf i Hf) as (_ & _ & ?).
  - apply NoDup_ListNoDup, seq_NoDup.
  - intros i. rewrite elem_of_app, elem_of_occ, elem_of_seq. split.
    + intros [[Hi _]|Hi]; [unfold in_range in Hi; lia|].
      destruct (wf_free_occ _ _ _ _ Hwf i Hi) as [Hr _]. unfold in_range in Hr. lia.
    + intros Hi. assert (in_range hdr i) as Hr by (unfold in_range; lia).
      pose proof (wf_owned _ _ _ _ Hwf i Hr ltac:(done)) as Ho.
      destruct (String.eqb_spec (skey hdr i) ""); auto.
Qed.

(** Writing one slot. *)
Lemma abs_write hdr hdr' i :
  uniq hdr -> nslots hdr' = nslots hdr -> in_range hdr i ->
  (forall j, i <> j -> skey hdr' j = skey hdr j /\ content hdr' j = content hdr j) ->
  (forall j, in_range hdr j -> i <> j -> skey hdr' i <> "" -> skey hdr j <> skey hdr' i) ->
  uniq hdr' /\
  abs hdr' = (if String.eqb (skey hdr' i) "" then delete (skey hdr i) (abs hdr)
              else <[skey hdr' i := content hdr' i]> (delete (skey hdr i) (abs hdr))).
Proof.
  intros Hu Hn Hi Hj Hno.
  assert (Hr : forall j, in_range hdr' j <-> in_range hdr j) by (intros; unfold in_range; by rewrite Hn).
  assert (Hu' : uniq hdr').
  { intros j k. rewrite !Hr. intros Hjr Hkr E Hne.
    destruct (decide (i = j)) as [<-|Hij], (decide (i = k)) as [<-|Hik]; try done.
    - destruct (Hj k Hik) as [Ek _]. destruct (Hno k Hkr Hik Hne). congruence.
    - destruct (Hj j Hij) as [Ek _]. destruct (Hno j Hjr Hij); congruence.
    - destruct (Hj j Hij) as [Ej _], (Hj k Hik) as [Ek _]. apply Hu; congruence. }
  split; [done|]. apply map_eq. intros k. apply option_eq. intros r.
  rewrite abs_lookup by done. setoid_rewrite Hr.
  transitivity ((k = skey hdr' i /\ k <> "" /\ r = content hdr' i) \/
    (k <> skey hdr i /\ exists j, i <> j /\ in_range hdr j /\ skey hdr j = k /\ k <> "" /\ content hdr j = r)).
  { split.
    - intros (j & Hjr & E & Hk & Hc). destruct (decide (i = j)) as [<-|Hij]; [by left|right].
      destruct (Hj j Hij) as [Ek Ec]. split; [|exists j; naive_solver congruence].
      intros ->. apply Hij, Hu; congruence.
    - intros [(-> & Hk & ->)|(Hne & j & Hij & Hjr & E & Hk & Hc)]; [by exists i|].
      exists j. destruct (Hj j Hij) as [Ek Ec]. naive_solver congruence. }
  assert (Hold : delete (skey hdr i) (abs hdr) !! k = Some r <->
    k <> skey hdr i /\ exists j, i <> j /\ in_range hdr j /\ skey hdr j = k /\ k <> "" /\ content hdr j = r).
  { rewrite lookup_delete_Some, abs_lookup by done. split.
    - intros (Hne & j & ?). split; [congruence|]. exists j. naive_solver.
    - intros (Hne & j & ?). split; [congruence|]. exists j. naive_solver. }
  rewrite <-Hold. destruct (String.eqb_spec (skey hdr' i) "") as [E|E].
  - naive_solver.
  - destruct (decide (k = skey hdr' i)) as [->|Hk].
    + rewrite lookup_insert_eq. split; [|naive_solver]. intros [(_ & _ & ->)|Ho]; [done|].
      apply Hold in Ho as (_ & j & Hij & Hjr & Ej & _). by destruct (Hno j Hjr Hij E).
    + rewrite lookup_insert_ne by done. naive_solver.
Qed.

Lemma abs_ext hdr hdr' :
  nslots hdr' = nslots hdr ->
  (forall j, skey hdr' j = skey hdr j /\ content hdr' j = content hdr j) -> abs hdr' = abs hdr.
Proof.
  intros Hn Hs. unfold abs, occ. rewrite Hn. f_equal.
  assert (Hf : filter (fun i => skey hdr' i <> "") (seq 1 (nslots hdr)) =
               filter (fun i => skey hdr i <> "") (seq 1 (nslots hdr))).
  { apply list_filter_iff. intros i. by destruct (Hs i) as [-> _]. }
  rewrite Hf. apply list_fmap_ext. intros _ i _. by destruct (Hs i) as [-> ->].
Qed.

(** ** Choosing a victim *)

(** What the scan knows after it looked at the slots below [idx]. *)
Record scanned (hdr : header) (t : Z) (idx ev lv : nat) (o : Z) : Prop := {
  sc_ev0 j : ev = 0%nat -> (1 <= j < idx)%nat -> skey hdr j <> "" ->
    t < expires (oidc_cache_shm_slot hdr j);
  sc_ev : ev <> 0%nat -> (1 <= ev < idx)%nat /\ skey hdr ev <> "" /\
    expires (oidc_cache_shm_slot hdr ev) <= t;
  sc_lv0 j : lv = 0%nat -> (1 <= j < idx)%nat -> skey hdr j = "";
  sc_lv : lv <> 0%nat -> (1 <= lv < idx)%nat /\ skey hdr lv <> "" /\
    o = access (oidc_cache_shm_slot hdr lv) /\
    forall j, (1 <= j < idx)%nat -> skey hdr j <> "" -> o <= access (oidc_cache_shm_slot hdr j)
}.

Lemma scanned_step hdr t idx ev lv o :
  (1 <= idx)%nat -> scanned hdr t idx ev lv o ->
  let s := oidc_cache_shm_slot hdr idx in
  if String.eqb (section_key s) "" then scanned hdr t (S idx) ev lv o
  else
    let ev' := if Nat.eqb ev 0 && (expires s <=? t) then idx else ev in
    let '(lv', o') := if Nat.eqb lv 0 || (access s <? o) then (idx, access s) else (lv, o) in
    scanned hdr t (S idx) ev' lv' o'.
Proof.
  intros Hidx [H1 H2 H3 H4] s.
  assert (Hcase : forall j, (1 <= j < S idx)%nat -> j = idx \/ (1 <= j < idx)%nat) by lia.
  destruct (String.eqb_spec (section_key s) "") as [Es|Es].
  - split.
    + intros j He [->|Hj]%Hcase; [done|]. by apply H1.
    + intros He. destruct (H2 He) as (? & ? & ?). split; [lia|done].
    + intros j He [->|Hj]%Hcase; [done|]. by apply H3.
    + intros He. destruct (H4 He) as (? & ? & ? & Hm). split; [lia|]. do 2 (split; [done|]).
      intros j [->|Hj]%Hcase; [done|]. by apply Hm.
  - cbn zeta.
    assert (Hev : let ev' := if Nat.eqb ev 0 && (expires s <=? t) then idx else ev in
      (forall j, ev' = 0%nat -> (1 <= j < S idx)%nat -> skey hdr j <> "" ->
         t < expires (oidc_cache_shm_slot hdr j)) /\
      (ev' <> 0%nat -> (1 <= ev' < S idx)%nat /\ skey hdr ev' <> "" /\
         expires (oidc_cache_shm_slot hdr ev') <= t)).
    { destruct (Nat.eqb_spec ev 0) as [->|Hne]; simpl; [destruct (Z.leb_spec (expires s) t)|].
      - split; [intros; lia|]. intros _. split; [lia|done].
      - split; [|done]. intros j _ [->|Hj]%Hcase ?; [done|by apply H1].
      - split; [done|]. intros He. destruct (H2 He) as (? & ? & ?). split; [lia|done]. }
    destruct Hev as [He0 He1].
    destruct (Nat.eqb_spec lv 0) as [->|Hne]; simpl; [|destruct (Z.ltb_spec (access s) o)].
    + split; [done|done|intros; lia|]. intros _. split; [lia|]. do 2 (split; [done|]).
      intros j [->|Hj]%Hcase Hk; [done|]. by rewrite (H3 j) in Hk.
    + split; [done|done|intros; lia|]. intros _. split; [lia|]. do 2 (split; [done|]).
      intros j [->|Hj]%Hcase Hk; [done|]. destruct (H4 Hne) as (_ & _ & _ & Hm).
      specialize (Hm j Hj Hk). lia.
    + split; [done|done|intros; lia|]. intros _. destruct (H4 Hne) as (? & ? & ? & Hm).
      split; [lia|]. do 2 (split; [done|]). intros j [->|Hj]%Hcase Hk; [done|]. by apply Hm.
Qed.

Lemma evict_scan_spec n hdr t idx ev lv o ev' lv' o' :
  (1 <= idx)%nat -> scanned hdr t idx ev lv o ->
  evict_scan n hdr t idx ev lv o = (ev', lv', o') -> scanned hdr t (idx + n) ev' lv' o'.
Proof.
  revert idx ev lv o. induction n as [|n IH]; intros idx ev lv o Hidx Hs; simpl.
  - intros [= -> -> ->]. by rewrite Nat.add_0_r.
  - pose proof (scanned_step _ _ _ _ _ _ Hidx Hs) as Hs'. cbn zeta in Hs'.
    rewrite <-Nat.add_succ_comm. case_match; [by apply IH; [lia|]|].
    destruct (Nat.eqb lv 0 || _); by apply IH; [lia|].
Qed.

(** Two headers with the same slots as far as keys and contents go. *)
Record same_slots (hdr hdr' : header) : Prop := {
  ss_nslots : nslots hdr' = nslots hdr;
  ss_bucket s : bucket_idx hdr' s = bucket_idx hdr s;
  ss_slot j : skey hdr' j = skey hdr j /\ content hdr' j = content hdr j
}.

Lemma relink_same_slots b p n hdr : same_slots hdr (relink b p n hdr).
Proof.
  destruct (relink_other b p n hdr) as (? & Hnb & Hhk & _). split; [done| |].
  - intros s. unfold bucket_idx. by rewrite Hnb, Hhk.
  - intros j. unfold relink, content. destruct (Nat.eqb p 0); [done|]. rewrite slot_case.
    by case_decide; subst.
Qed.

Lemma same_slots_trans h1 h2 h3 : same_slots h1 h2 -> same_slots h2 h3 -> same_slots h1 h3.
Proof.
  intros [? H2 H3] [? H5 H6]. split; [congruence| |].
  - intros s. by rewrite H5.
  - intros j. destruct (H3 j), (H6 j). split; congruence.
Qed.

Lemma same_slots_abs hdr hdr' : same_slots hdr hdr' -> abs hdr' = abs hdr.
Proof. intros [? ? ?]. by apply abs_ext. Qed.

(** Taking an occupied slot off its chain succeeds. *)
Lemma unlink_wf hdr cs fl i :
  wf None hdr cs fl -> in_range hdr i -> skey hdr i <> "" ->
  exists hdr' cs', oidc_cache_shm_unlink hdr i = Some (true, hdr') /\
    wf (Some i) hdr' cs' fl /\ same_slots hdr hdr'.
Proof.
  intros Hwf Hi Hk. set (b := bucket_idx hdr (skey hdr i)).
  assert (Hb : (b < nbuckets hdr)%nat) by by eapply bucket_idx_lt.
  pose proof (wf_owned _ _ _ _ Hwf i Hi ltac:(done)) as Ho.
  destruct (String.eqb_spec (skey hdr i) ""); [done|].
  change (i ∈ cs b) in Ho. apply list_elem_of_split in Ho as (l1 & l2 & Hcs).
  pose proof (wf_chain_NoDup _ _ _ _ Hwf b Hb) as Hnd. rewrite Hcs in Hnd.
  assert (i ∉ l1). { apply NoDup_app in Hnd as (_ & Hd & _). intros Hin. apply (Hd i Hin). by left. }
  pose proof (wf_chain _ _ _ _ Hwf b Hb) as Hc. rewrite Hcs in Hc.
  pose proof (wf_chain_length _ _ _ _ b Hwf Hb) as Hlen. rewrite Hcs in Hlen.
  eexists _, _. split; [|split; [by eapply (wf_unlink _ _ _ b l1 i l2)|apply relink_same_slots]].
  unfold oidc_cache_shm_unlink. fold b. apply (unlink_loop_spec hdr b i l1 l2); [done|done|lia].
Qed.

Lemma evict_wf hdr cs t :
  wf None hdr cs [] -> (0 < nslots hdr)%nat ->
  exists i hdr' age cs', oidc_cache_shm_evict hdr t = Some (i, hdr', age) /\
    in_range hdr i /\ skey hdr i <> "" /\ spec_victim t (abs hdr) (skey hdr i) /\
    wf (Some i) hdr' cs' [] /\ same_slots hdr hdr'.
Proof.
  intros Hwf Hpos. assert (Hu : uniq hdr) by by eapply wf_uniq.
  assert (Hocc : forall j, in_range hdr j -> skey hdr j <> "").
  { intros j Hj E. pose proof (wf_owned _ _ _ _ Hwf j Hj ltac:(done)) as Ho. rewrite E in Ho.
    by apply not_elem_of_nil in Ho. }
  unfold oidc_cache_shm_evict.
  destruct (evict_scan _ hdr t 1 0 0 0) as [[ev lv] o] eqn:Hscan.
  apply evict_scan_spec in Hscan; [|done|by split; intros; lia].
  destruct Hscan as [H1 H2 H3 H4].
  assert (Hlv : lv <> 0%nat).
  { intros ->. apply (Hocc 1%nat); [unfold in_range; lia|]. apply H3; [done|lia]. }
  set (v := if Nat.eqb ev 0 then lv else ev).
  assert (Hv : in_range hdr v /\ skey hdr v <> "" /\ spec_victim t (abs hdr) (skey hdr v)).
  { unfold v. destruct (Nat.eqb_spec ev 0) as [->|He].
    - destruct (H4 Hlv) as (Hr & Hk & -> & Hm). unfold in_range. split; [lia|]. split; [done|].
      exists (content hdr lv). split; [apply abs_lookup; [done|]; exists lv; unfold in_range; split; [lia|done]|].
      right. intros k' r' (j & Hj & <- & Hkj & <-)%abs_lookup; [|done]. unfold in_range in Hj.
      split; [apply H1|apply Hm]; solve [done|lia].
    - destruct (H2 He) as (Hr & Hk & Hx). unfold in_range. split; [lia|]. split; [done|].
      exists (content hdr ev). split; [apply abs_lookup; [done|]; exists ev; unfold in_range; split; [lia|done]|].
      by left. }
  destruct Hv as (Hr & Hk & Hvic). destruct (Nat.eqb_spec v 0) as [E|_]; [unfold in_range in Hr; lia|].
  match goal with |- context [let '(_, _) := ?p in _] => assert (Hp : exists age h, p = (h, age) /\
    wf None h cs [] /\ same_slots hdr h) end.
  { destruct (Nat.eqb ev 0); [|by eexists _, hdr]. case_match; [|by eexists _, hdr].
    eexists _, _. split; [done|]. split; [by apply wf_set_lpw|by split]. }
  destruct Hp as (age & h & -> & Hwf' & Hss).
  destruct (unlink_wf h cs [] v Hwf') as (h' & cs' & Hun & Hwf'' & Hss').
  { unfold in_range. by rewrite (ss_nslots _ _ Hss). }
  { by destruct (ss_slot _ _ Hss v) as [-> _]. }
  exists v, h', age, cs'. rewrite Hun. split; [done|]. do 4 (split; [done|]).
  by eapply same_slots_trans.
Qed.
