(* ===== verification/ShmRefine.v ===== *)
(** * The shared-memory cache implements its specification

    The refinement of the operations of src/cache/shm.c, the invariant of the
    reachable states, initialisation, and the diagnostic validator. *)

From stdpp Require Import functions.
From S2P Require Import Prelude Cstr ShmCache ShmInv ShmSpec.

(** ** The three ways an operation changes a slot *)

Definition fits (em : Z) (k : string) (r : centry) : Prop :=
  zlen (c_value r) < oidc_cache_shm_value_size_max em /\
  (String.length k < OIDC_CACHE_SHM_KEY_MAX)%nat.

Lemma valid_alt em hdr :
  valid em hdr <-> (exists cs fl, wf None hdr cs fl) /\ (0 < nslots hdr)%nat /\
    map_Forall (fits em) (abs hdr).
Proof.
  split.
  - intros [(cs & fl & Hwf) Hp Hf]. split; [by exists cs, fl|]. split; [done|].
    intros k r (i & Hi & <- & Hk & <-)%abs_lookup; [|by eapply wf_uniq]. by apply (Hf i).
  - intros ((cs & fl & Hwf) & Hp & Hf). split; [by exists cs, fl|done|].
    intros i Hi Hk. apply (Hf (skey hdr i) (content hdr i)), abs_lookup; [by eapply wf_uniq|].
    by exists i.
Qed.

Lemma get_key_spec s k key :
  oidc_cache_shm_get_key s k = Some key ->
  key = oidc_cache_section_key s k /\ key <> "" /\ (String.length key < OIDC_CACHE_SHM_KEY_MAX)%nat.
Proof.
  unfold oidc_cache_shm_get_key. case_match eqn:E; [done|]. intros [= <-].
  apply Nat.leb_gt in E. split; [done|]. split; [|done].
  unfold oidc_cache_section_key. by destruct s.
Qed.

Lemma touch_slot hdr cs fl i t :
  wf None hdr cs fl -> in_range hdr i -> skey hdr i <> "" ->
  section_key t = skey hdr i -> next t = snext hdr i ->
  wf None (set_slot i t hdr) cs fl /\
  abs (set_slot i t hdr) = <[skey hdr i := mk_centry (value t) (expires t) (access t)]> (abs hdr).
Proof.
  intros Hwf Hi Hk Ht Hn. split; [by apply wf_set_slot_same|].
  assert (Hu : uniq hdr) by by eapply wf_uniq.
  destruct (abs_write hdr (set_slot i t hdr) i Hu) as [_ ->]; [done|done| | |].
  - intros j Hj. unfold content. by rewrite slot_set_slot_ne.
  - intros j Hj Hne. rewrite slot_set_slot_eq, Ht. intros _ E. by apply Hne, Hu.
  - unfold content. rewrite slot_set_slot_eq, Ht.
    destruct (String.eqb_spec (skey hdr i) ""); [done|]. by rewrite insert_delete_eq.
Qed.

Lemma slot_free_skey hdr i j :
  skey (oidc_cache_shm_slot_free hdr i) j = (if decide (i = j) then "" else skey hdr j).
Proof.
  change (oidc_cache_shm_slot (oidc_cache_shm_slot_free hdr i) j) with
    (oidc_cache_shm_slot (set_slot i (with_next (free_head hdr)
       (with_access 0 (with_key "" (oidc_cache_shm_slot hdr i)))) hdr) j).
  rewrite slot_case. by case_decide.
Qed.

Lemma slot_free_content hdr i j :
  i <> j -> content (oidc_cache_shm_slot_free hdr i) j = content hdr j.
Proof.
  intros Hj. unfold content.
  change (oidc_cache_shm_slot (oidc_cache_shm_slot_free hdr i) j) with
    (oidc_cache_shm_slot (set_slot i (with_next (free_head hdr)
       (with_access 0 (with_key "" (oidc_cache_shm_slot hdr i)))) hdr) j).
  by rewrite slot_set_slot_ne.
Qed.

Lemma remove_slot hdr cs fl b l1 i l2 :
  wf None hdr cs fl -> (b < nbuckets hdr)%nat -> cs b = l1 ++ i :: l2 ->
  let hdr' := oidc_cache_shm_slot_free (relink b (pred_of l1 0) (snext hdr i) hdr) i in
  (exists cs', wf None hdr' cs' (i :: fl)) /\ nslots hdr' = nslots hdr /\
  abs hdr' = delete (skey hdr i) (abs hdr).
Proof.
  intros Hwf Hb Hcs hdr'. pose proof (wf_unlink _ _ _ _ _ _ _ Hwf Hb Hcs) as Hwf'.
  pose proof (relink_same_slots b (pred_of l1 0) (snext hdr i) hdr) as Hss.
  destruct (wf_chain_occ _ _ _ _ Hwf b i Hb) as (Hi & _ & Hk & _); [rewrite Hcs; set_solver|].
  unfold hdr'. clear hdr'.
  set (h := relink b (pred_of l1 0) (snext hdr i) hdr) in *.
  assert (Hi' : in_range h i) by (unfold in_range; by rewrite (ss_nslots _ _ Hss)).
  pose proof (ss_nslots _ _ Hss) as Hns.
  split; [eexists; by eapply wf_slot_free|]. split; [done|].
  assert (Hu : uniq hdr) by by eapply wf_uniq.
  destruct (abs_write hdr (oidc_cache_shm_slot_free h i) i Hu) as [_ ->]; [done|done| | |].
  - intros j Hj. rewrite slot_free_skey, slot_free_content, decide_False by done.
    apply (ss_slot _ _ Hss).
  - intros j _ _. by rewrite slot_free_skey, decide_True.
  - by rewrite slot_free_skey, decide_True.
Qed.

Lemma insert_slot hdr0 hdr cs fl i k v ex acc :
  uniq hdr0 -> same_slots hdr0 hdr -> wf (Some i) hdr cs fl -> in_range hdr0 i -> k <> "" ->
  (String.length k < OIDC_CACHE_SHM_KEY_MAX)%nat ->
  (forall j, in_range hdr0 j -> skey hdr0 j <> k) ->
  let hdr' := oidc_cache_shm_entry_insert hdr (bucket_idx hdr0 k) i k v ex acc in
  (exists cs', wf None hdr' cs' fl) /\ nslots hdr' = nslots hdr0 /\
  abs hdr' = <[k := mk_centry v ex acc]> (delete (skey hdr0 i) (abs hdr0)).
Proof.
  intros Hu Hss Hwf Hi Hk Hlen Hno hdr'. unfold hdr'. rewrite <-(ss_bucket _ _ Hss).
  pose proof (ss_nslots _ _ Hss) as Hns.
  split; [|split; [done|]].
  - eexists. apply (wf_insert hdr cs fl i); try done; [unfold in_range; by rewrite Hns|].
    intros j Hj _. destruct (ss_slot _ _ Hss j) as [-> _]. apply Hno.
    unfold in_range. by rewrite <-Hns.
  - assert (Hs := fun j => entry_insert_slot hdr (bucket_idx hdr k) i k v ex acc j Hlen).
    destruct (abs_write hdr0 (oidc_cache_shm_entry_insert hdr (bucket_idx hdr k) i k v ex acc) i Hu)
      as [_ ->]; [done|done| | |].
    + intros j Hj. unfold content. rewrite Hs, decide_False by done. apply (ss_slot _ _ Hss).
    + intros j Hj Hne. rewrite Hs, decide_True by done. intros _. by apply Hno.
    + unfold content. rewrite Hs, decide_True by done. simpl. by destruct (String.eqb_spec k "").
Qed.

(** ** The operations *)

Lemma shm_get_sim em hdr e s k key :
  valid em hdr -> oidc_cache_shm_get_key s k = Some key -> lock_ok e = true ->
  exists v hdr', oidc_cache_shm_get e s k hdr = Some (unlock_ok e, v, hdr') /\
    nslots hdr' = nslots hdr /\ valid em hdr' /\
    spec_get (now e) key (abs hdr) = (v, abs hdr').
Proof.
  intros Hv Hkey Hlock. pose proof Hv as ((cs & fl & Hwf) & Hpos & Hfit)%valid_alt.
  assert (Hu : uniq hdr) by by eapply wf_uniq.
  destruct (get_key_spec _ _ _ Hkey) as (_ & Hne & Hlen).
  unfold oidc_cache_shm_get, spec_get. rewrite Hkey, Hlock. cbn [negb].
  destruct (find_wf _ _ _ _ Hwf Hne) as [(l1 & i & l2 & Hcs & Hk & Hi0 & Hf)|[Hno [p Hf]]];
    rewrite Hf; simpl.
  - assert (Hb : (bucket_idx hdr key < nbuckets hdr)%nat) by by eapply bucket_idx_lt.
    destruct (wf_chain_occ _ _ _ _ Hwf _ i Hb) as (Hi & _ & Hki & _); [rewrite Hcs; set_solver|].
    assert (Habs : abs hdr !! key = Some (content hdr i)) by (apply abs_lookup; [done|by exists i]).
    rewrite Habs. destruct (Nat.eqb_spec i 0); [done|].
    change (c_expires (content hdr i)) with (expires (oidc_cache_shm_slot hdr i)).
    destruct (now e <? _).
    + eexists _, _. split; [done|].
      destruct (touch_slot hdr cs fl i (with_access (now e) (oidc_cache_shm_slot hdr i)))
        as [Hwf' Ha]; try done.
      rewrite Ha, Hk. split; [done|]. split; [|done]. apply valid_alt.
      split; [by eexists _, _|]. split; [done|]. rewrite Ha, Hk.
      apply map_Forall_insert_2; [|done]. by apply (Hfit key (content hdr i)).
    + eexists _, _. split; [done|].
      destruct (remove_slot _ _ _ _ _ _ _ Hwf Hb Hcs) as ((cs' & Hwf') & Hns & Ha).
      rewrite Ha, Hk. split; [done|]. split; [|done]. apply valid_alt.
      split; [by eexists _, _|]. split; [by rewrite Hns|]. rewrite Ha.
      by apply map_Forall_delete.
  - rewrite (proj2 (abs_lookup_None hdr key Hu Hne) Hno). by eexists _, _.
Qed.

(** The slot an insertion gets: a free one, or the evicted one. *)
Lemma alloc_slot hdr cs fl t :
  wf None hdr cs fl -> (0 < nslots hdr)%nat ->
  exists i hdr' cs' fl',
    (if negb (Nat.eqb (free_head hdr) 0) then
       Some (free_head hdr, set_free_head (next (oidc_cache_shm_slot hdr (free_head hdr))) hdr)
     else '(idx, h, _) ← oidc_cache_shm_evict hdr t; Some (idx, h)) = Some (i, hdr') /\
    i <> 0%nat /\ in_range hdr i /\ wf (Some i) hdr' cs' fl' /\ same_slots hdr hdr' /\
    ((skey hdr i = "" /\ (size (abs hdr) < nslots hdr)%nat) \/
     (size (abs hdr) = nslots hdr /\ spec_victim t (abs hdr) (skey hdr i))).
Proof.
  intros Hwf Hpos. pose proof (abs_size _ _ _ Hwf) as Hsize.
  destruct fl as [|i fl].
  - pose proof (wf_free _ _ _ _ Hwf) as Hfh. simpl in Hfh. rewrite Hfh. cbn.
    destruct (evict_wf hdr cs t Hwf Hpos) as (i & h & age & cs' & -> & Hi & Hk & Hvic & Hwf' & Hss).
    exists i, h, cs', []. split; [done|]. unfold in_range in Hi. split; [lia|].
    do 3 (split; [done|]). right. split; [simpl in Hsize; lia|done].
  - pose proof (wf_free _ _ _ _ Hwf) as (-> & Hi0 & _).
    destruct (Nat.eqb_spec i 0); [done|]. cbn [negb].
    destruct (wf_free_occ _ _ _ _ Hwf i) as (Hi & _ & Hk); [set_solver|].
    eexists i, _, cs, fl. split; [done|]. do 2 (split; [done|]).
    split; [by apply wf_take_free|]. split; [by split|]. left. split; [done|].
    simpl in Hsize. lia.
Qed.

Lemma shm_set_sim em hdr e s k key val ex :
  valid em hdr -> oidc_cache_shm_get_key s k = Some key -> lock_ok e = true ->
  (forall v, val = Some v -> zlen v < oidc_cache_shm_value_size_max em) ->
  exists hdr', oidc_cache_shm_set em e s k val ex hdr = Some (unlock_ok e, hdr') /\
    nslots hdr' = nslots hdr /\ valid em hdr' /\
    spec_set (nslots hdr) (now e) key (abs hdr) val ex (abs hdr').
Proof.
  intros Hv Hkey Hlock Hval. pose proof Hv as ((cs & fl & Hwf) & Hpos & Hfit)%valid_alt.
  assert (Hu : uniq hdr) by by eapply wf_uniq.
  destruct (get_key_spec _ _ _ Hkey) as (_ & Hne & Hlen).
  unfold oidc_cache_shm_set. rewrite Hkey, Hlock.
  assert (Hnz : nonnull val && ((oidc_cache_shm_value_size_max em <=? 0) ||
    (oidc_cache_shm_value_size_max em <=? match val with Some v => zlen v | None => 0 end)) = false).
  { destruct val as [v|]; [|done]. specialize (Hval v eq_refl). cbn [nonnull andb].
    apply orb_false_iff. unfold zlen in *. split; rewrite Z.leb_gt; lia. }
  rewrite Hnz. cbn [negb].
  destruct (find_wf _ _ _ _ Hwf Hne) as [(l1 & i & l2 & Hcs & Hk & Hi0 & Hf)|[Hno [p Hf]]];
    rewrite Hf; simpl.
  - assert (Hb : (bucket_idx hdr key < nbuckets hdr)%nat) by by eapply bucket_idx_lt.
    destruct (wf_chain_occ _ _ _ _ Hwf _ i Hb) as (Hi & _ & Hki & _); [rewrite Hcs; set_solver|].
    assert (Habs : abs hdr !! key = Some (content hdr i)) by (apply abs_lookup; [done|by exists i]).
    destruct (Nat.eqb_spec i 0); [done|]. destruct val as [v|]; simpl.
    + eexists. split; [done|]. unfold oidc_cache_shm_entry_update.
      match goal with |- context [set_slot i ?t hdr] =>
        destruct (touch_slot hdr cs fl i t) as [Hwf' Ha]; try done end.
      cbn [value expires access] in Ha. rewrite Hk in Ha, Hwf' |- *. rewrite Ha.
      split; [done|]. split; [|apply spec_set_room; left; by rewrite Habs].
      apply valid_alt. split; [by exists cs, fl|]. split; [done|]. rewrite Ha.
      apply map_Forall_insert_2; [|done]. split; [by apply Hval|done].
    + eexists. split; [done|].
      destruct (remove_slot _ _ _ _ _ _ _ Hwf Hb Hcs) as ((cs' & Hwf') & Hns & Ha).
      rewrite Ha, Hk. split; [done|]. split; [|constructor]. apply valid_alt.
      split; [by eexists _, _|]. split; [by rewrite Hns|]. rewrite Ha. by apply map_Forall_delete.
  - pose proof (proj2 (abs_lookup_None hdr key Hu Hne) Hno) as Habs.
    destruct val as [v|]; simpl.
    + destruct (alloc_slot hdr cs fl (now e) Hwf Hpos)
        as (i & h & cs' & fl' & -> & Hi0 & Hi & Hwf' & Hss & Hcase). simpl.
      destruct (Nat.eqb_spec i 0); [done|]. eexists. split; [done|].
      destruct (insert_slot hdr h cs' fl' i key v ex (now e)) as ((cs'' & Hwf'') & Hns & Ha); try done.
      rewrite Ha. split; [done|]. split.
      * apply valid_alt. split; [by eexists _, _|]. split; [by rewrite Hns|]. rewrite Ha.
        apply map_Forall_insert_2; [|by apply map_Forall_delete]. split; [by apply Hval|done].
      * destruct Hcase as [[E Hsize]|[Hsize Hvic]]; [|by apply spec_set_evict].
        rewrite E, delete_id by by apply abs_empty_key. apply spec_set_room. by right.
    + eexists. split; [done|]. split; [done|]. split; [done|].
      rewrite <-(delete_id (abs hdr) key Habs) at 2. constructor.
Qed.
