(* ===== verification/ShmInit.v ===== *)
(** * Initialisation and diagnosis of the shared-memory cache

    The state that [oidc_cache_shm_post_config] builds satisfies the invariant;
    [oidc_cache_shm_validate] terminates on any header and accepts every header
    that satisfies it; the layout of the segment has room for every slot. *)

From S2P Require Import Prelude Cstr ShmCache ShmInv ShmSpec ShmRefine.

(** ** The number of buckets *)

Lemma nbuckets_loop_spec fuel sm k :
  0 <= k <= 31 -> 31 - k < Z.of_nat fuel ->
  exists j, 0 <= j <= 31 /\ nbuckets_loop fuel sm (2 ^ k) = Some (2 ^ j).
Proof.
  revert k. induction fuel as [|fuel IH]; intros k Hk Hf; [lia|]. cbn [nbuckets_loop].
  destruct (_ && _) eqn:E; [|by exists k]. bool_hyps.
  apply Z.leb_le in H0. change (UINT32_MAX / 2) with (2 ^ 31 - 1) in H0.
  assert (k < 31) by (apply (Z.pow_lt_mono_r_iff 2); lia).
  assert (2 ^ (k + 1) <= 2 ^ 31) by (apply Z.pow_le_mono_r; lia).
  rewrite Z.shiftl_mul_pow2, <-Z.pow_add_r by lia.
  rewrite u32_small by (pose proof (Z.pow_pos_nonneg 2 (k + 1)); lia).
  apply IH; lia.
Qed.

Lemma zero_buckets_lookup n b : default 0%nat (zero_buckets n !! b) = 0%nat.
Proof.
  induction n as [|n IH]; simpl; [done|]. rewrite lookup_insert. by case_decide.
Qed.

(** ** The free list *)

Definition init_next (n j : nat) : nat := if (j <? n)%nat then S j else 0%nat.

Lemma init_slots_spec n i hdr j :
  let hdr' := init_slots n i hdr in
  (nslots hdr' = nslots hdr /\ nbuckets hdr' = nbuckets hdr /\ hash_key hdr' = hash_key hdr /\
   buckets hdr' = buckets hdr) /\
  ((i <= j < i + n)%nat -> skey hdr' j = "" /\ snext hdr' j = init_next (nslots hdr) j) /\
  ((j < i)%nat -> oidc_cache_shm_slot hdr' j = oidc_cache_shm_slot hdr j).
Proof.
  revert i hdr. induction n as [|n IH]; intros i hdr; cbn zeta; cbn [init_slots].
  - split; [done|]. split; [lia|done].
  - match goal with |- context [init_slots n (S i) ?h] => destruct (IH (S i) h) as (Ho & Hin & Hlt) end.
    split; [done|]. split.
    + intros Hj. destruct (decide (i = j)) as [->|].
      * rewrite Hlt by lia. by rewrite slot_set_slot_eq.
      * apply Hin. lia.
    + intros Hj. rewrite Hlt by lia. rewrite slot_set_slot_ne by lia. done.
Qed.

Lemma chain_seq nx n i m :
  (forall j, (i <= j)%nat -> (j <= n)%nat -> nx j = init_next n j) ->
  (1 <= i)%nat -> (i + m = S n)%nat ->
  chain nx (if (m =? 0)%nat then 0%nat else i) (seq i m).
Proof.
  revert i. induction m as [|m IH]; intros i Hnx Hi Hm; [done|].
  cbn [seq chain Nat.eqb]. split; [done|]. split; [lia|]. rewrite Hnx by lia.
  unfold init_next. destruct (Nat.ltb_spec i n).
  - specialize (IH (S i)). destruct (Nat.eqb_spec m 0); [lia|]. apply IH; [|lia|lia].
    intros j Hj. apply Hnx. lia.
  - replace m with 0%nat by lia. done.
Qed.

Lemma shm_init_wf sm em k key raw :
  0 <= k <= 31 -> 0 < sm < 2 ^ 31 ->
  let hdr := shm_init sm em (2 ^ k) key raw in
  wf None hdr (fun _ => []) (seq 1 (nslots hdr)) /\ nslots hdr = Z.to_nat sm.
Proof.
  intros Hk Hsm hdr. unfold shm_init in hdr.
  match goal with hdr := set_free_head 1 (init_slots (nslots ?h) 1 ?h) |- _ => set (h0 := h) in hdr end.
  assert (Hns0 : nslots h0 = Z.to_nat sm) by (unfold h0; simpl; rewrite u32_small; [done|lia]).
  assert (Hspec := init_slots_spec (nslots h0) 1 h0).
  destruct (Hspec 0%nat) as ((Hns & Hnb & Hhk & Hbk) & _ & _).
  assert (Hsl : forall j, in_range hdr j -> skey hdr j = "" /\ snext hdr j = init_next (nslots h0) j).
  { intros j Hj. destruct (Hspec j) as (_ & Hin & _). apply Hin. unfold in_range in Hj.
    change (nslots hdr) with (nslots (init_slots (nslots h0) 1 h0)) in Hj. lia. }
  assert (Hbuckets : forall b, oidc_cache_shm_buckets hdr b = 0%nat).
  { intros b. unfold oidc_cache_shm_buckets.
    change (buckets hdr) with (buckets (init_slots (nslots h0) 1 h0)).
    rewrite Hbk. apply zero_buckets_lookup. }
  assert (Hnss : nslots hdr = nslots h0) by exact Hns.
  split; [|congruence]. split.
  - exists k. split; [lia|]. change (nbuckets hdr) with (nbuckets (init_slots (nslots h0) 1 h0)).
    rewrite Hnb. unfold h0. cbn [nbuckets]. lia.
  - intros b _. apply Hbuckets.
  - pose proof (chain_seq (fun i => snext hdr i) (nslots hdr) 1 (nslots hdr)) as Hc.
    destruct (Nat.eqb_spec (nslots hdr) 0); [lia|]. apply Hc; [|lia|lia].
    intros j ??. rewrite Hnss. apply Hsl. done.
  - intros. apply NoDup_nil_2.
  - apply NoDup_ListNoDup, seq_NoDup.
  - by intros b i _ ?%not_elem_of_nil.
  - intros i Hi%elem_of_seq. assert (in_range hdr i) as Hr by (unfold in_range; lia).
    split; [done|]. split; [done|]. by apply Hsl.
  - intros i Hi _. destruct (Hsl i Hi) as [-> _]. cbn [String.eqb]. apply elem_of_seq.
    unfold in_range in Hi. change (1 <= i < 1 + nslots hdr)%nat. lia.
  - intros i j Hi Hj _ _ _ Hne. by destruct (Hsl i Hi).
Qed.

Lemma post_config_valid sm em ie hdr :
  0 < sm < 2 ^ 31 -> oidc_cache_shm_post_config sm em ie = Some (OK, Some hdr) ->
  valid em hdr /\ nslots hdr = Z.to_nat sm /\ abs hdr = ∅.
Proof.
  intros Hsm. unfold oidc_cache_shm_post_config.
  destruct (nbuckets_loop_spec 33 sm 0) as (k & Hk & E); [lia|lia|].
  change (2 ^ 0) with 1 in E. rewrite E. simpl. case_match; [done|].
  case_match; [|done]. case_match; [done|]. case_match; [|done]. case_match; [done|].
  intros [= <-].
  match goal with |- context [shm_init sm em (2 ^ k) ?kk ?raw] =>
    destruct (shm_init_wf sm em k kk raw Hk Hsm) as [Hwf Hns]; set (hdr := shm_init _ _ _ kk raw) in * end.
  assert (Habs : abs hdr = ∅).
  { apply map_size_empty_inv. pose proof (abs_size _ _ _ Hwf) as Hs. rewrite length_seq in Hs. lia. }
  split; [|done]. apply valid_alt. split; [by eexists _, _|]. split; [lia|].
  rewrite Habs. apply map_Forall_empty.
Qed.

(** ** The reachable states *)

Lemma shm_step_valid em hdr hdr' :
  valid em hdr -> shm_step em hdr hdr' -> valid em hdr' /\ nslots hdr' = nslots hdr.
Proof.
  intros Hv Hst. revert Hv. destruct Hst as [e s k h b v h' Hget|e s k v ex h b h' Hset]; intros Hv.
  - destruct (oidc_cache_shm_get_key s k) as [key|] eqn:Hk; [destruct (lock_ok e) eqn:Hl|].
    + destruct (shm_get_sim em h e s k key) as (v' & h1 & Hg & Hn & Hv' & _); [done..|].
      by simplify_eq.
    + unfold oidc_cache_shm_get in Hget. rewrite Hk, Hl in Hget. by simplify_eq/=.
    + unfold oidc_cache_shm_get in Hget. rewrite Hk in Hget. by simplify_eq/=.
  - destruct (oidc_cache_shm_get_key s k) as [key|] eqn:Hk.
    2:{ unfold oidc_cache_shm_set in Hset. rewrite Hk in Hset. by simplify_eq/=. }
    destruct (lock_ok e) eqn:Hl.
    2:{ unfold oidc_cache_shm_set in Hset. rewrite Hk, Hl in Hset. cbn [negb] in Hset.
        case_match; by simplify_eq/=. }
    destruct (nonnull v && (oidc_cache_shm_value_size_max em <=?
      match v with Some v => zlen v | None => 0 end)) eqn:Hbig.
    + bool_hyps. unfold oidc_cache_shm_set in Hset. rewrite Hk, H, H0, orb_true_r in Hset.
      by simplify_eq/=.
    + destruct (shm_set_sim em h e s k key v ex) as (h1 & Hg & Hn & Hv' & _); [done..| |].
      * intros v0 ->. cbn [nonnull andb] in Hbig. by apply Z.leb_gt in Hbig.
      * by simplify_eq.
Qed.

Lemma reachable_valid sm em hdr :
  0 < sm < 2 ^ 31 -> reachable sm em hdr -> valid em hdr /\ nslots hdr = Z.to_nat sm.
Proof.
  intros Hsm (ie & hdr0 & Hpc & Hsteps).
  destruct (post_config_valid _ _ _ _ Hsm Hpc) as (Hv0 & Hn0 & _).
  clear Hpc. induction Hsteps as [|h1 h2 h3 Hst Hsts IH]; [done|].
  destruct (shm_step_valid _ _ _ Hv0 Hst) as [Hv Hn]. apply IH; [done|congruence].
Qed.

(** ** The validator *)

Definition slots_set (n : nat) : gset nat := list_to_set (seq 1 n).

Lemma visited_size (vis : gset nat) n :
  vis ⊆ slots_set n -> (size vis <= n)%nat.
Proof.
  intros Hs%subseteq_size. unfold slots_set in Hs.
  rewrite size_list_to_set in Hs by (apply NoDup_ListNoDup, seq_NoDup).
  by rewrite length_seq in Hs.
Qed.

Lemma visited_add (vis : gset nat) hdr i :
  vis ⊆ slots_set (nslots hdr) -> i <> 0%nat ->
  (nslots hdr <? i)%nat || bool_decide (i ∈ vis) = false ->
  {[i]} ∪ vis ⊆ slots_set (nslots hdr) /\ size ({[i]} ∪ vis) = S (size vis).
Proof.
  intros Hs Hi [Hr Hv]%orb_false_iff. apply Nat.ltb_ge in Hr. apply bool_decide_eq_false in Hv.
  split; [|rewrite size_union by set_solver; by rewrite size_singleton].
  intros j [->%elem_of_singleton|Hj]%elem_of_union; [|by apply Hs].
  unfold slots_set. rewrite elem_of_list_to_set, elem_of_seq. lia.
Qed.

Lemma validate_chain_returns fuel hdr b idx vis :
  vis ⊆ slots_set (nslots hdr) -> (nslots hdr + 1 - size vis < fuel)%nat ->
  (exists vis', validate_chain fuel hdr b idx vis = Some (inl vis') /\
     vis' ⊆ slots_set (nslots hdr)) \/
  exists err, validate_chain fuel hdr b idx vis = Some (inr err).
Proof.
  revert idx vis. induction fuel as [|fuel IH]; intros idx vis Hs Hf; [lia|]. cbn [validate_chain].
  destruct (Nat.eqb_spec idx 0); [left; by eexists|].
  destruct (_ || bool_decide _) eqn:E; [right; by eexists|].
  case_match; [right; by eexists|].
  destruct (visited_add vis hdr idx) as [Hs' Hz]; [done..|].
  pose proof (visited_size _ _ Hs'). apply IH; [done|]. lia.
Qed.

Lemma validate_free_list_returns fuel hdr idx vis :
  vis ⊆ slots_set (nslots hdr) -> (nslots hdr + 1 - size vis < fuel)%nat ->
  is_Some (oidc_cache_shm_validate_free_list fuel hdr idx vis).
Proof.
  revert idx vis. induction fuel as [|fuel IH]; intros idx vis Hs Hf; [lia|].
  cbn [oidc_cache_shm_validate_free_list].
  destruct (Nat.eqb_spec idx 0); [by eexists|].
  destruct (_ || negb _) eqn:E; [by eexists|]. apply orb_false_iff in E as [E _].
  destruct (visited_add vis hdr idx) as [Hs' Hz]; [done..|].
  pose proof (visited_size _ _ Hs'). apply IH; [done|]. lia.
Qed.

Lemma validate_buckets_returns n hdr b vis :
  vis ⊆ slots_set (nslots hdr) ->
  (exists vis', oidc_cache_shm_validate_buckets n hdr b vis = Some (inl vis') /\
     vis' ⊆ slots_set (nslots hdr)) \/
  exists err, oidc_cache_shm_validate_buckets n hdr b vis = Some (inr err).
Proof.
  revert b vis. induction n as [|n IH]; intros b vis Hs; [left; by eexists|].
  cbn [oidc_cache_shm_validate_buckets].
  destruct (validate_chain_returns (nslots hdr + 2) hdr b (oidc_cache_shm_buckets hdr b) vis)
    as [(vis' & -> & Hs')|[err ->]]; [done|lia| |].
  - simpl. by apply IH.
  - right. by eexists.
Qed.

Lemma validate_chain_accepts fuel hdr cs fl b h l vis :
  wf None hdr cs fl -> (b < nbuckets hdr)%nat ->
  chain (fun i => snext hdr i) h l -> NoDup l -> (forall i, i ∈ l -> i ∈ cs b /\ i ∉ vis) ->
  (length l < fuel)%nat ->
  exists vis', validate_chain fuel hdr b h vis = Some (inl vis') /\
    forall i, i ∈ vis' <-> i ∈ vis \/ i ∈ l.
Proof.
  intros Hwf Hb. revert h l vis. induction fuel as [|fuel IH]; intros h l vis Hc Hn Hl Hf; [lia|].
  cbn [validate_chain]. destruct l as [|i l]; cbn [chain] in Hc.
  - subst h. exists vis. set_solver.
  - destruct Hc as (-> & Hi & Hc). apply NoDup_cons in Hn as [Hni Hn].
    destruct (Hl i) as [Hib Hiv]; [by left|].
    destruct (wf_chain_occ _ _ _ _ Hwf b i Hb Hib) as (Hr & _ & Hk & Hbi). unfold in_range in Hr.
    destruct (Nat.eqb_spec i 0); [done|]. destruct (Nat.ltb_spec (nslots hdr) i); [lia|].
    rewrite bool_decide_false by done. cbn [orb].
    destruct (String.eqb_spec (skey hdr i) ""); [done|]. rewrite Hbi, Nat.eqb_refl. cbn [orb negb].
    destruct (IH _ l ({[i]} ∪ vis) Hc Hn) as (vis' & -> & Hv').
    + intros j Hj. destruct (Hl j) as [? ?]; [by right|]. split; [done|].
      intros [->%elem_of_singleton|?]%elem_of_union; done.
    + simpl in Hf. lia.
    + exists vis'. split; [done|]. set_solver.
Qed.

Lemma validate_free_list_accepts fuel hdr h l vis :
  chain (fun i => snext hdr i) h l -> NoDup l ->
  (forall i, i ∈ l -> in_range hdr i /\ skey hdr i = "" /\ i ∉ vis) -> (length l < fuel)%nat ->
  exists vis', oidc_cache_shm_validate_free_list fuel hdr h vis = Some (inl vis') /\
    forall i, i ∈ vis' <-> i ∈ vis \/ i ∈ l.
Proof.
  revert h l vis. induction fuel as [|fuel IH]; intros h l vis Hc Hn Hl Hf; [lia|].
  cbn [oidc_cache_shm_validate_free_list]. destruct l as [|i l]; cbn [chain] in Hc.
  - subst h. exists vis. set_solver.
  - destruct Hc as (-> & Hi & Hc). apply NoDup_cons in Hn as [Hni Hn].
    destruct (Hl i) as (Hr & Hk & Hiv); [by left|]. unfold in_range in Hr.
    destruct (Nat.eqb_spec i 0); [done|]. destruct (Nat.ltb_spec (nslots hdr) i); [lia|].
    rewrite bool_decide_false, Hk by done. cbn [orb negb String.eqb].
    destruct (IH _ l ({[i]} ∪ vis) Hc Hn) as (vis' & -> & Hv').
    + intros j Hj. destruct (Hl j) as (? & ? & ?); [by right|]. do 2 (split; [done|]).
      intros [->%elem_of_singleton|?]%elem_of_union; done.
    + simpl in Hf. lia.
    + exists vis'. split; [done|]. set_solver.
Qed.

Lemma validate_buckets_accepts hdr cs fl n b vis :
  wf None hdr cs fl -> (b + n = nbuckets hdr)%nat ->
  (forall i, i ∈ vis <-> exists c, (c < b)%nat /\ i ∈ cs c) ->
  exists vis', oidc_cache_shm_validate_buckets n hdr b vis = Some (inl vis') /\
    forall i, i ∈ vis' <-> exists c, (c < nbuckets hdr)%nat /\ i ∈ cs c.
Proof.
  intros Hwf. revert b vis. induction n as [|n IH]; intros b vis Hb Hv.
  - exists vis. replace (nbuckets hdr) with b by lia. done.
  - cbn [oidc_cache_shm_validate_buckets].
    destruct (validate_chain_accepts (nslots hdr + 2) hdr cs fl b (oidc_cache_shm_buckets hdr b) (cs b) vis)
      as (vis' & -> & Hv'); try done.
    + lia.
    + apply (wf_chain _ _ _ _ Hwf). lia.
    + apply (wf_chain_NoDup _ _ _ _ Hwf). lia.
    + intros i Hi. split; [done|]. intros (c & Hc & Hic)%Hv.
      destruct (wf_chain_occ _ _ _ _ Hwf b i) as (_ & _ & _ & ?); [lia|done|].
      destruct (wf_chain_occ _ _ _ _ Hwf c i) as (_ & _ & _ & ?); [lia|done|]. lia.
    + pose proof (wf_chain_length _ _ _ _ b Hwf). lia.
    + simpl. apply IH; [lia|]. intros i. rewrite Hv', Hv. split.
      * intros [(c & ? & ?)|?]; [exists c|exists b]; split; done || lia.
      * intros (c & Hc & ?). destruct (decide (c = b)) as [->|]; [by right|].
        left. exists c. split; [lia|done].
Qed.

Lemma validate_ownership_accepts n idx vis :
  (forall i, (idx <= i < idx + n)%nat -> i ∈ vis) ->
  oidc_cache_shm_validate_ownership n idx vis = None.
Proof.
  revert idx. induction n as [|n IH]; intros idx Hv; [done|]. simpl.
  rewrite bool_decide_true by (apply Hv; lia). apply IH. intros i Hi. apply Hv. lia.
Qed.

Lemma wf_validate e hdr cs fl :
  wf None hdr cs fl -> lock_ok e = true ->
  oidc_cache_shm_validate e hdr = Some (unlock_ok e, None).
Proof.
  intros Hwf Hl. unfold oidc_cache_shm_validate. rewrite Hl. cbn [negb].
  destruct (validate_buckets_accepts hdr cs fl (nbuckets hdr) 0 ∅ Hwf) as (vis & -> & Hv); [lia| |].
  { intros i. split; [set_solver|]. intros (c & ? & _). lia. }
  simpl. destruct (validate_free_list_accepts (nslots hdr + 2) hdr (free_head hdr) fl vis)
    as (vis' & -> & Hv'); simpl.
  - apply (wf_free _ _ _ _ Hwf).
  - apply (wf_free_NoDup _ _ _ _ Hwf).
  - intros i Hi. destruct (wf_free_occ _ _ _ _ Hwf i Hi) as (? & _ & Hk). do 2 (split; [done|]).
    intros (c & Hc & Hic)%Hv. by destruct (wf_chain_occ _ _ _ _ Hwf c i Hc Hic) as (_ & _ & ? & _).
  - pose proof (abs_size _ _ _ Hwf). lia.
  - rewrite validate_ownership_accepts; [done|]. intros i Hi. apply Hv'. rewrite Hv.
    pose proof (wf_owned _ _ _ _ Hwf i ltac:(unfold in_range; lia) ltac:(done)) as Ho.
    destruct (String.eqb (skey hdr i) ""); [by right|left]. eexists. split; [|exact Ho].
    by eapply bucket_idx_lt.
Qed.
