(* ===== verification/ShmProps.v ===== *)
(** * Correctness of the shared-memory cache

    The theorems about src/cache/shm.c, for the states reached from its
    initialisation by any sequence of operations of any processes. *)

From S2P Require Import Prelude Cstr ShmCache ShmInv ShmSpec ShmRefine ShmInit.

(** ** Concrete states the theorems are evaluated on *)

Definition demo_init : init_env := mk_init_env true (Some (1, 2)) true ∅ ∅.
Definition demo_env (t : Z) : env := mk_env t true true.
Definition demo_hdr (sm : Z) : header :=
  match oidc_cache_shm_post_config sm 1024 demo_init with
  | Some (_, Some h) => h
  | _ => shm_init 1 1 1 (0, 0) ∅
  end.

(** A one-slot cache that is full. *)
Definition demo_full : header :=
  match oidc_cache_shm_set 1024 (demo_env 10) "s" "a" (Some "x") 100 (demo_hdr 1) with
  | Some (_, h) => h
  | None => demo_hdr 1
  end.

Lemma demo_full_reachable : reachable 1 1024 demo_full.
Proof.
  exists demo_init, (demo_hdr 1). split; [vm_compute; reflexivity|].
  eapply rtc_l; [|apply rtc_refl].
  apply (step_set 1024 (demo_env 10) "s" "a" (Some "x") 100 (demo_hdr 1) true).
  vm_compute. reflexivity.
Defined.

(** ** The theorems *)

(** C13: in every reachable state a lookup with a valid key that gets the
    mutex terminates, returns exactly what the abstract map holds under the key
    when that entry has not expired, marks it as used now, and removes an
    expired entry; the state stays valid. *)
Theorem shm_get_refines sm em hdr e s k key :
  0 < sm < 2 ^ 31 -> reachable sm em hdr ->
  oidc_cache_shm_get_key s k = Some key -> lock_ok e = true ->
  exists v hdr', oidc_cache_shm_get e s k hdr = Some (unlock_ok e, v, hdr') /\
    valid em hdr' /\ spec_get (now e) key (abs hdr) = (v, abs hdr').
Proof.
  intros Hsm Hr Hk Hl. apply reachable_valid in Hr as [Hv _]; [|done].
  destruct (shm_get_sim em hdr e s k key) as (v & hdr' & ? & _ & ? & ?); [done..|].
  by exists v, hdr'.
Qed.

Lemma shm_get_refines_witness :
  exists v hdr', oidc_cache_shm_get (demo_env 20) "s" "a" demo_full = Some (true, v, hdr') /\
    valid 1024 hdr' /\ spec_get 20 "s:a" (abs demo_full) = (v, abs hdr').
Proof.
  apply (shm_get_refines 1 1024 demo_full (demo_env 20) "s" "a" "s:a");
    [lia|apply demo_full_reachable|reflexivity|reflexivity].
Defined.

(** C14: in every reachable state a store with a valid key and a value
    that fits terminates and succeeds, and changes the abstract map as
    specified: without a value it deletes the key; with one it overwrites the
    entry or uses a free slot, and only when every slot is occupied it replaces
    an expired entry, or when there is none the least recently used one. *)
Theorem shm_set_refines sm em hdr e s k key val ex :
  0 < sm < 2 ^ 31 -> reachable sm em hdr ->
  oidc_cache_shm_get_key s k = Some key -> lock_ok e = true ->
  (forall v, val = Some v -> zlen v < oidc_cache_shm_value_size_max em) ->
  exists hdr', oidc_cache_shm_set em e s k val ex hdr = Some (unlock_ok e, hdr') /\
    valid em hdr' /\ spec_set (Z.to_nat sm) (now e) key (abs hdr) val ex (abs hdr').
Proof.
  intros Hsm Hr Hk Hl Hval. apply reachable_valid in Hr as [Hv <-]; [|done].
  destruct (shm_set_sim em hdr e s k key val ex) as (hdr' & ? & _ & ? & ?); [done..|].
  by exists hdr'.
Qed.

Lemma shm_set_refines_witness :
  exists hdr', oidc_cache_shm_set 1024 (demo_env 30) "s" "b" (Some "y") 200 demo_full = Some (true, hdr') /\
    valid 1024 hdr' /\ spec_set 1 30 "s:b" (abs demo_full) (Some "y") 200 (abs hdr').
Proof.
  apply (shm_set_refines 1 1024 demo_full (demo_env 30) "s" "b" "s:b" (Some "y") 200);
    [lia|apply demo_full_reachable|reflexivity|reflexivity|].
  intros v [= <-]. vm_compute. reflexivity.
Defined.

(** A value stored in a reachable state is what a lookup of the
    same key returns at any time before its expiry. *)
Theorem shm_set_then_get sm em hdr e e' s k v ex hdr' :
  0 < sm < 2 ^ 31 -> reachable sm em hdr -> lock_ok e' = true -> now e' < ex ->
  oidc_cache_shm_set em e s k (Some v) ex hdr = Some (true, hdr') ->
  exists hdr'', oidc_cache_shm_get e' s k hdr' = Some (unlock_ok e', Some v, hdr'').
Proof.
  intros Hsm Hr Hl Hnow Hset. apply reachable_valid in Hr as [Hv _]; [|done].
  destruct (oidc_cache_shm_get_key s k) as [key|] eqn:Hk;
    [|unfold oidc_cache_shm_set in Hset; rewrite Hk in Hset; done].
  destruct (shm_step_valid em hdr hdr' Hv) as [Hv' _]; [by eapply step_set|].
  destruct (shm_get_sim em hdr' e' s k key) as (v' & hdr'' & Hget & _ & _ & Hspec); [done..|].
  exists hdr''. rewrite Hget. repeat f_equal.
  assert (Habs : abs hdr' !! key = Some (mk_centry v ex (now e))).
  { destruct (lock_ok e) eqn:Hle.
    2:{ unfold oidc_cache_shm_set in Hset. rewrite Hk, Hle in Hset. by case_match. }
    destruct (nonnull (Some v) && (oidc_cache_shm_value_size_max em <=? zlen v)) eqn:Hbig.
    { bool_hyps. unfold oidc_cache_shm_set in Hset. rewrite Hk, H0, orb_true_r in Hset. done. }
    cbn [nonnull andb] in Hbig. apply Z.leb_gt in Hbig.
    destruct (shm_set_sim em hdr e s k key (Some v) ex) as (h & Hset' & _ & _ & Hss); [done..|by intros ? [= <-]|].
    simplify_eq. inversion Hss; simplify_eq; apply lookup_insert_eq. }
  unfold spec_get in Hspec. rewrite Habs in Hspec. cbn [c_expires c_value] in Hspec.
  apply Z.ltb_lt in Hnow. rewrite Hnow in Hspec. by injection Hspec.
Qed.

Lemma shm_set_then_get_witness :
  exists hdr'', oidc_cache_shm_get (demo_env 20) "s" "a" demo_full = Some (true, Some "x", hdr'').
Proof.
  eapply (shm_set_then_get 1 1024 (demo_hdr 1) (demo_env 10) (demo_env 20) "s" "a" "x" 100 demo_full);
    [lia| |reflexivity|reflexivity|vm_compute; reflexivity].
  exists demo_init, (demo_hdr 1). split; [vm_compute; reflexivity|apply rtc_refl].
Defined.

(** C15: whatever operations ran before, the diagnostic check finds
    every slot on exactly one list, no key is stored twice, and every stored
    value and key fits the space of its slot. *)
Theorem shm_reachable_invariant sm em hdr :
  0 < sm < 2 ^ 31 -> reachable sm em hdr ->
  oidc_cache_shm_validate (mk_env 0 true true) hdr = Some (true, None) /\
  (forall i j, (1 <= i <= nslots hdr)%nat -> (1 <= j <= nslots hdr)%nat ->
     section_key (oidc_cache_shm_slot hdr i) = section_key (oidc_cache_shm_slot hdr j) ->
     section_key (oidc_cache_shm_slot hdr i) <> "" -> i = j) /\
  (forall i, (1 <= i <= nslots hdr)%nat -> section_key (oidc_cache_shm_slot hdr i) <> "" ->
     zlen (value (oidc_cache_shm_slot hdr i)) < oidc_cache_shm_value_size_max em /\
     (String.length (section_key (oidc_cache_shm_slot hdr i)) < OIDC_CACHE_SHM_KEY_MAX)%nat).
Proof.
  intros Hsm Hr. apply reachable_valid in Hr as [[(cs & fl & Hwf) _ Hf] _]; [|done].
  split; [by eapply (wf_validate (mk_env 0 true true))|]. split; [|exact Hf].
  by eapply wf_uniq.
Qed.

Lemma shm_reachable_invariant_witness :
  oidc_cache_shm_validate (mk_env 0 true true) demo_full = Some (true, None).
Proof.
  apply (shm_reachable_invariant 1 1024 demo_full); [lia|apply demo_full_reachable].
Defined.

(** The diagnostic check terminates on every header, whatever its
    links are. *)
Theorem shm_validate_terminates e hdr : is_Some (oidc_cache_shm_validate e hdr).
Proof.
  unfold oidc_cache_shm_validate. destruct (lock_ok e); cbn [negb]; [|by eexists].
  destruct (validate_buckets_returns (nbuckets hdr) hdr 0 ∅) as [(vis & -> & Hs)|[err ->]];
    [apply empty_subseteq| |by eexists]. simpl.
  destruct (validate_free_list_returns (nslots hdr + 2) hdr (free_head hdr) vis) as [r ->];
    [done|lia|]. simpl. destruct r; [|by eexists]. case_match; by eexists.
Qed.

(** Initialisation terminates; it fails with an internal server error
    or yields an empty, valid cache with as many slots as configured. *)
Theorem shm_post_config_spec sm em ie :
  0 < sm < 2 ^ 31 ->
  oidc_cache_shm_post_config sm em ie = Some (HTTP_INTERNAL_SERVER_ERROR, None) \/
  exists hdr, oidc_cache_shm_post_config sm em ie = Some (OK, Some hdr) /\
    valid em hdr /\ nslots hdr = Z.to_nat sm /\ (Z.of_nat (nbuckets hdr) >= sm) /\ abs hdr = ∅.
Proof.
  intros Hsm.
  assert (Hv := post_config_valid sm em ie). revert Hv.
  unfold oidc_cache_shm_post_config.
  destruct (nbuckets_loop_spec 33 sm 0) as (k & Hk & E); [lia|lia|].
  change (2 ^ 0) with 1 in E. rewrite E. simpl. intros Hv.
  destruct (Z.ltb_spec (2 ^ k) (u32 sm)) as [|Hge]; [by left|].
  case_match; [|by left]. case_match; [by left|]. case_match; [|by left].
  case_match; [by left|]. right. eexists. split; [done|].
  destruct (Hv _ Hsm eq_refl) as (? & ? & ?). split; [done|]. split; [done|]. split; [|done].
  rewrite u32_small in Hge by lia. unfold shm_init.
  match goal with |- context [init_slots ?n 1 ?h] =>
    destruct (init_slots_spec n 1 h 0) as ((_ & Hnb & _) & _) end.
  unfold set_free_head. cbn [nbuckets]. rewrite Hnb. cbn [nbuckets]. lia.
Qed.

Lemma shm_post_config_spec_witness :
  oidc_cache_shm_post_config 4 1024 demo_init = Some (HTTP_INTERNAL_SERVER_ERROR, None) \/
  exists hdr, oidc_cache_shm_post_config 4 1024 demo_init = Some (OK, Some hdr) /\
    valid 1024 hdr /\ nslots hdr = 4%nat /\ (Z.of_nat (nbuckets hdr) >= 4) /\ abs hdr = ∅.
Proof. apply (shm_post_config_spec 4 1024 demo_init). lia. Defined.

(** An operation whose key is too long or
    that cannot lock the mutex reports failure and leaves the cache alone. *)
Theorem shm_errors_unchanged em e s k val ex hdr :
  (OIDC_CACHE_SHM_KEY_MAX <= String.length (oidc_cache_section_key s k))%nat \/
  lock_ok e = false ->
  oidc_cache_shm_get e s k hdr = Some (false, None, hdr) /\
  oidc_cache_shm_set em e s k val ex hdr = Some (false, hdr).
Proof.
  unfold oidc_cache_shm_get, oidc_cache_shm_set, oidc_cache_shm_get_key.
  intros [Hlen|Hl].
  - apply Nat.leb_le in Hlen. by rewrite Hlen.
  - rewrite Hl. cbn [negb]. by repeat case_match.
Qed.

Lemma shm_errors_unchanged_witness :
  oidc_cache_shm_get (mk_env 0 false true) "s" "a" demo_full = Some (false, None, demo_full) /\
  oidc_cache_shm_set 1024 (mk_env 0 false true) "s" "a" None 0 demo_full = Some (false, demo_full).
Proof. apply (shm_errors_unchanged 1024 (mk_env 0 false true)). right. reflexivity. Defined.

Lemma align64_spec n : align64 n = (n + 63) / 64 * 64.
Proof.
  unfold align64. change 63 with (Z.ones 6) at 2. rewrite <-Z.ldiff_land, Z.ldiff_ones_r by lia.
  rewrite Z.shiftr_div_pow2, Z.shiftl_mul_pow2 by lia. done.
Qed.

(** When the segment size is accepted no computation overflowed:
    the bucket table and all slots lie inside the segment one after the other,
    wherever the segment is aligned, and a value that passes the size check of a
    store fits behind the fixed part of its slot. *)
Theorem shm_segment_layout sm em nb total i pad :
  0 < sm < 2 ^ 31 -> 0 < em < 2 ^ 31 -> 0 <= nb < 2 ^ 32 ->
  oidc_cache_shm_segment_size sm em nb = Some total ->
  0 <= pad < 64 -> 1 <= i <= sm ->
  let es := u32 (align64 em) in
  SIZEOF_HEADER <= buckets_offset /\
  buckets_offset + nb * 4 <= slot_offset nb es 1 /\
  slot_offset nb es i + es = slot_offset nb es (i + 1) /\
  pad + slot_offset nb es i + es <= total <= OIDC_CACHE_SHM_SEGMENT_SIZE_MAX /\
  (forall v, zlen v < oidc_cache_shm_value_size_max em -> OFFSETOF_VALUE + zlen v + 1 <= es).
Proof.
  intros Hsm Hem Hnb Hseg Hpad Hi es.
  assert (Hes : es = align64 em).
  { unfold es. apply u32_small. rewrite align64_spec. pose proof (Z.div_mod (em + 63) 64).
    pose proof (Z.mod_pos_bound (em + 63) 64). lia. }
  assert (Hal : em <= es <= em + 63).
  { rewrite Hes, align64_spec. pose proof (Z.div_mod (em + 63) 64).
    pose proof (Z.mod_pos_bound (em + 63) 64). lia. }
  assert (Hbs : nb * 4 <= align64 (nb * 4) <= nb * 4 + 63).
  { rewrite align64_spec. pose proof (Z.div_mod (nb * 4 + 63) 64).
    pose proof (Z.mod_pos_bound (nb * 4 + 63) 64). lia. }
  unfold oidc_cache_shm_segment_size in Hseg.
  rewrite (u64_small sm), (u64_small em), (u64_small (nb * 4)) in Hseg by lia.
  rewrite (u64_small (nb * 4 + 63)), (u64_small (em + 63)) in Hseg by lia.
  fold (align64 em) (align64 (nb * 4)) in Hseg. rewrite <-Hes in Hseg.
  rewrite (u64_small es), (u64_small (align64 (nb * 4))) in Hseg by lia.
  assert (Hmul : 0 <= es * sm < 2 ^ 63) by nia.
  rewrite (u64_small (es * sm)) in Hseg by lia.
  change (u64 (Z.land (u64 (SIZEOF_HEADER + 63)) (Z.lnot 63))) with 64 in Hseg.
  rewrite u64_small in Hseg by lia.
  destruct (_ || _) eqn:E in Hseg; [done|]. injection Hseg as <-. bool_hyps.
  unfold slot_offset, SIZEOF_HEADER, oidc_cache_shm_value_size_max, SIZEOF_ENTRY, OFFSETOF_VALUE.
  change buckets_offset with 64. apply Z.ltb_ge in H0.
  split; [lia|]. split; [lia|]. split; [lia|]. split; [nia|]. intros v. lia.
Qed.

Lemma shm_segment_layout_witness :
  oidc_cache_shm_segment_size 4 1024 4 = Some 4288 /\
  63 + slot_offset 4 (u32 (align64 1024)) 4 + u32 (align64 1024) <= 4288.
Proof.
  split; [vm_compute; reflexivity|].
  pose proof (shm_segment_layout 4 1024 4 4288 4 63 ltac:(lia) ltac:(lia) ltac:(lia)
    ltac:(vm_compute; reflexivity) ltac:(lia) ltac:(lia)) as (_ & _ & _ & H & _).
  apply H.
Defined.
