(* ===== verification/Cache.v ===== *)
(** * src/cache/common.c: the cache front end

    The front end hashes keys and encrypts values before they reach a backend.  A
    backend is an instance of [CacheBackend]; what it promises to the front end is
    [CacheBackendSpec], which the shared-memory cache implements. *)

From S2P Require Import Prelude Cstr Apr Jansson Json Base64 Jose Jwt.
From S2P Require Import ShmCache ShmInv ShmSpec ShmRefine ShmInit.

(** ** Backends *)

(** [oidc_cache_t]: the [get] and [set] callbacks over the backend's state.  A key may
    be [NULL]; the environment is the time and the outcome of the locking. *)
Class CacheBackend (St : Type) := {
  impl_get : env -> string -> option string -> St -> bool * option string * St;
  impl_set : env -> string -> option string -> option string -> Z -> St -> bool * St
}.

(** An environment in which locking works. *)
Definition healthy (e : env) : Prop := lock_ok e = true /\ unlock_ok e = true.

Class CacheBackendSpec {St : Type} (B : CacheBackend St) := {
  impl_valid : St -> Prop;
  impl_get_valid e s k st : impl_valid st -> impl_valid (impl_get e s k st).2;
  impl_set_valid e s k v ex st : impl_valid st -> impl_valid (impl_set e s k v ex st).2;
  (* a stored value is returned until it expires *)
  impl_set_get e e' s k v ex st st' :
    impl_valid st -> impl_set e s k (Some v) ex st = (true, st') -> healthy e' -> now e' < ex ->
    (impl_get e' s k st').1 = (true, Some v);
  (* and a lookup of another key that misses does not disturb it *)
  impl_miss_keeps e e1 e' s k k1 v ex st st' st1 :
    impl_valid st -> impl_set e s k (Some v) ex st = (true, st') ->
    impl_get e1 s k1 st' = (true, None, st1) -> now e1 < ex -> healthy e' -> now e' < ex ->
    (impl_get e' s k st1).1 = (true, Some v);
  (* a deleted value is gone *)
  impl_delete_get e e' s k ex st st' :
    impl_valid st -> impl_set e s k None ex st = (true, st') -> healthy e' ->
    (impl_get e' s k st').1 = (true, None)
}.

(** ** The front end *)

Definition OIDC_CACHE_KEY_SIZE_MAX : Z := 512.
Definition OIDC_CACHE_PREFIX_ENV_VAR : string := "OIDC_CACHE_PREFIX".

(** The configuration the front end reads. *)
Record cache_cfg := mk_cache_cfg {
  cache_encrypt : bool;
  crypto_passphrase : oidc_crypto_passphrase_t
}.

Definition oidc_cache_section_get (r : request) (section : string) : string :=
  match apr_table_get (subprocess_env r) OIDC_CACHE_PREFIX_ENV_VAR with
  | None => section
  | Some prefix => prefix ^^ section
  end.

Section cache.
Context {J : Jose} {B64 : Base64}.

Definition oidc_cache_crypto_encrypt (r : request) (plaintext : string)
  (passphrase : oidc_crypto_passphrase_t) : option string :=
  oidc_util_jwt_create r passphrase plaintext.

Definition oidc_cache_crypto_decrypt (r : request) (cache_value : string)
  (cfg_passphrase : oidc_crypto_passphrase_t) (use_secondary : bool) : option string :=
  let passphrase :=
    {| secret1 := if use_secondary then secret2 cfg_passphrase else secret1 cfg_passphrase;
       derived_key1 := if use_secondary then derived_key2 cfg_passphrase else derived_key1 cfg_passphrase;
       secret2 := None; derived_key2 := None |} in
  oidc_util_jwt_verify r passphrase cache_value.

Definition oidc_cache_get_hashed_key (key : string) : option string :=
  oidc_util_hash_string_and_base64url_encode OIDC_JOSE_ALG_SHA256 key.

(** [None] is [FALSE]; the inner [None] is a [NULL] key, which [apr_psprintf] prints as
    ["(null)"]. *)
Definition oidc_cache_get_key (s_key : option string) (s_secret : option string) (encrypted : bool)
  : option (option string) :=
  if encrypted then
    match s_secret with
    | None => None
    | Some secret =>
        Some (oidc_cache_get_hashed_key (oidc_cache_section_key secret (default "(null)" s_key)))
    end
  else if OIDC_CACHE_KEY_SIZE_MAX <=? _oidc_strlen s_key
  then Some (oidc_cache_get_hashed_key (default "" s_key))
  else Some s_key.

Context {St : Type} {B : CacheBackend St}.

(** The [apr_byte_t], [*value] and the backend's state. *)
Definition oidc_cache_get (e : env) (cfg : cache_cfg) (r : request) (section : string)
  (key : option string) (st : St)
  : bool * option string * St :=
  let encrypted := cache_encrypt cfg in
  let s_section := oidc_cache_section_get r section in
  match oidc_cache_get_key key (secret1 (crypto_passphrase cfg)) encrypted with
  | None => (false, None, st)
  | Some s_key =>
      let '(ok, cache_value, st) := impl_get e s_section s_key st in
      if negb ok then (false, None, st)
      else
        let continue_ cache_value use_secondary (st : St) :=
          match cache_value with
          | None => (true, None, st)
          | Some cv =>
              if negb encrypted then (true, Some cv, st)
              else
                match oidc_cache_crypto_decrypt r cv (crypto_passphrase cfg) use_secondary with
                | Some v => (true, Some v, st)
                | None => (false, None, st)
                end
          end in
        if negb (nonnull cache_value) && encrypted && nonnull (secret2 (crypto_passphrase cfg)) then
          match oidc_cache_get_key key (secret2 (crypto_passphrase cfg)) encrypted with
          | None => (false, None, st)
          | Some s_key =>
              let '(ok, cache_value, st) := impl_get e s_section s_key st in
              if negb ok then (false, None, st) else continue_ cache_value true st
          end
        else continue_ cache_value false st
  end.

Definition oidc_cache_set (e : env) (cfg : cache_cfg) (r : request) (section : string)
  (key value : option string) (expiry : Z) (st : St) : bool * St :=
  let encrypted := cache_encrypt cfg in
  let s_section := oidc_cache_section_get r section in
  match oidc_cache_get_key key (secret1 (crypto_passphrase cfg)) encrypted with
  | None => (false, st)
  | Some s_key =>
      match value with
      | Some v =>
          if encrypted then
            match oidc_cache_crypto_encrypt r v (crypto_passphrase cfg) with
            | None => (false, st)
            | Some encoded => impl_set e s_section s_key (Some encoded) expiry st
            end
          else impl_set e s_section s_key value expiry st
      | None => impl_set e s_section s_key value expiry st
      end
  end.
End cache.

(** ** The shared-memory cache as a backend *)

(** [apr_psprintf] prints a [NULL] key as ["(null)"]. *)
#[export] Instance shm_backend (em : Z) : CacheBackend header := {|
  impl_get e s k st := default (false, None, st) (oidc_cache_shm_get e s (default "(null)" k) st);
  impl_set e s k v ex st := default (false, st) (oidc_cache_shm_set em e s (default "(null)" k) v ex st)
|}.

Lemma shm_get_true em e s k v hdr hdr' :
  valid em hdr -> oidc_cache_shm_get e s k hdr = Some (true, v, hdr') ->
  exists key, oidc_cache_shm_get_key s k = Some key /\ valid em hdr' /\
    spec_get (now e) key (abs hdr) = (v, abs hdr').
Proof.
  intros Hv Hget. destruct (oidc_cache_shm_get_key s k) as [key|] eqn:Hk.
  2:{ unfold oidc_cache_shm_get in Hget. by rewrite Hk in Hget. }
  exists key. split; [done|]. destruct (lock_ok e) eqn:Hl.
  2:{ unfold oidc_cache_shm_get in Hget. by rewrite Hk, Hl in Hget. }
  destruct (shm_get_sim em hdr e s k key) as (v' & h & Hg & _ & Hv' & Hs); [done..|].
  by simplify_eq.
Qed.

Lemma shm_get_live em e s k key r hdr :
  valid em hdr -> oidc_cache_shm_get_key s k = Some key -> abs hdr !! key = Some r ->
  healthy e -> now e < c_expires r ->
  exists hdr', oidc_cache_shm_get e s k hdr = Some (true, Some (c_value r), hdr').
Proof.
  intros Hv Hk Ha [Hl Hu] Hnow.
  destruct (shm_get_sim em hdr e s k key) as (v' & h & Hg & _ & _ & Hs); [done..|].
  unfold spec_get in Hs. rewrite Ha in Hs. apply Z.ltb_lt in Hnow. rewrite Hnow in Hs.
  simplify_eq. exists h. by rewrite Hg, Hu.
Qed.

Lemma spec_set_value cap t k m v ex m' :
  spec_set cap t k m (Some v) ex m' -> m' !! k = Some (mk_centry v ex t).
Proof. inversion 1; apply lookup_insert_eq. Qed.

Lemma shm_set_true em e s k v ex hdr hdr' :
  valid em hdr -> oidc_cache_shm_set em e s k v ex hdr = Some (true, hdr') ->
  exists key, oidc_cache_shm_get_key s k = Some key /\ valid em hdr' /\
    spec_set (nslots hdr) (now e) key (abs hdr) v ex (abs hdr').
Proof.
  intros Hv Hset. destruct (oidc_cache_shm_get_key s k) as [key|] eqn:Hk.
  2:{ unfold oidc_cache_shm_set in Hset. by rewrite Hk in Hset. }
  exists key. split; [done|].
  destruct (lock_ok e) eqn:Hl.
  2:{ unfold oidc_cache_shm_set in Hset. rewrite Hk, Hl in Hset. by case_match. }
  destruct (nonnull v && (oidc_cache_shm_value_size_max em <=?
      match v with Some v => zlen v | None => 0 end)) eqn:Hbig.
  { bool_hyps. unfold oidc_cache_shm_set in Hset. by rewrite Hk, H, H0, orb_true_r in Hset. }
  destruct (shm_set_sim em hdr e s k key v ex) as (h & Hset' & _ & Hv' & Hss); [done..| |].
  { intros v0 ->. cbn [nonnull andb] in Hbig. by apply Z.leb_gt in Hbig. }
  by simplify_eq.
Qed.

#[export] Instance shm_backend_spec (em : Z) : CacheBackendSpec (shm_backend em).
Proof.
  refine {| impl_valid := valid em |}; cbn.
  - intros e s k st Hv. destruct (oidc_cache_shm_get _ _ _ _) as [[[b v] st']|] eqn:E; [|done].
    by apply (shm_step_valid em st st' Hv); eapply step_get.
  - intros e s k v ex st Hv. destruct (oidc_cache_shm_set _ _ _ _ _ _ _) as [[b st']|] eqn:E; [|done].
    by apply (shm_step_valid em st st' Hv); eapply step_set.
  - intros e e' s k v ex st st' Hv Hset He Hnow.
    destruct (oidc_cache_shm_set _ _ _ _ _ _ _) as [[b h]|] eqn:E; simplify_eq/=.
    apply shm_set_true in E as (key & Hk & Hv' & Hss%spec_set_value); [|done].
    by destruct (shm_get_live em e' s (default "(null)" k) key _ st' Hv' Hk Hss He Hnow) as [h ->].
  - intros e e1 e' s k k1 v ex st st' st1 Hv Hset Hmiss Hnow1 He Hnow.
    destruct (oidc_cache_shm_set _ _ _ _ _ _ _) as [[b h]|] eqn:E; simplify_eq/=.
    apply shm_set_true in E as (key & Hk & Hv' & Hss%spec_set_value); [|done].
    destruct (oidc_cache_shm_get e1 _ _ _) as [[[b v1] h]|] eqn:E1; simplify_eq/=.
    apply (shm_get_true em) in E1 as (key1 & Hk1 & Hv1 & Hsp); [|done].
    assert (Hss1 : abs st1 !! key = Some (mk_centry v ex (now e))).
    { unfold spec_get in Hsp. destruct (decide (key1 = key)) as [->|Hne].
      - rewrite Hss in Hsp. cbn [c_expires] in Hsp. apply Z.ltb_lt in Hnow1. by rewrite Hnow1 in Hsp.
      - destruct (abs st' !! key1) as [r1|] eqn:Ha; [|by injection Hsp as <-].
        case_match; [done|]. injection Hsp as <-. by rewrite lookup_delete_ne. }
    by destruct (shm_get_live em e' s (default "(null)" k) key _ st1 Hv1 Hk Hss1 He Hnow) as [h ->].
  - intros e e' s k ex st st' Hv Hset [Hl Hu].
    destruct (oidc_cache_shm_set _ _ _ _ _ _ _) as [[b h]|] eqn:E; simplify_eq/=.
    apply shm_set_true in E as (key & Hk & Hv' & Hss); [|done].
    destruct (shm_get_sim em st' e' s (default "(null)" k) key) as (v' & h & Hg & _ & _ & Hsp); [done..|].
    rewrite Hg, Hu. cbn. unfold spec_get in Hsp.
    assert (Ha : abs st' !! key = None) by (inversion Hss as [? Hx| |]; apply lookup_delete_eq).
    rewrite Ha in Hsp. by simplify_eq.
Defined.

(** ** Properties *)

Section cache_lemmas.
Context {J : Jose} {JS : JoseSpec J} {B64 : Base64} {B64S : Base64Spec B64}.
Context {St : Type} {B : CacheBackend St} {BS : CacheBackendSpec B}.

Lemma cache_decrypt_encrypt r r' p v c :
  payload_ok r v -> oidc_cache_crypto_encrypt r v p = Some c ->
  oidc_cache_crypto_decrypt r' c p false = Some v.
Proof.
  intros Hp Hc. pose proof Hc as (k & key & cser & Hs & Hk & _)%jwt_create_inv.
  eapply jwt_verify_create; [done|exact Hc|exact Hk|]. cbn. done.
Qed.

(** A hit with the first passphrase. *)
Lemma cache_get_hit e cfg r section key st s_key cv v :
  oidc_cache_get_key key (secret1 (crypto_passphrase cfg)) (cache_encrypt cfg) = Some s_key ->
  (impl_get e (oidc_cache_section_get r section) s_key st).1 = (true, Some cv) ->
  (if cache_encrypt cfg then oidc_cache_crypto_decrypt r cv (crypto_passphrase cfg) false else Some cv) = Some v ->
  (oidc_cache_get e cfg r section key st).1 = (true, Some v).
Proof.
  intros Hk Hg Hd. unfold oidc_cache_get. rewrite Hk.
  destruct (impl_get _ _ _ _) as [[ok o] st'] eqn:E. simpl in Hg. simplify_eq. cbn.
  destruct (cache_encrypt cfg); cbn; [by rewrite Hd|by simplify_eq].
Qed.

(** A value is read back. *)
Lemma cache_value_read e e' cfg r r' section key v expiry st st' :
  oidc_cache_section_get r' section = oidc_cache_section_get r section ->
  impl_valid st -> healthy e' -> now e' < expiry -> (cache_encrypt cfg = true -> payload_ok r v) ->
  oidc_cache_set e cfg r section key (Some v) expiry st = (true, st') ->
  (oidc_cache_get e' cfg r' section key st').1 = (true, Some v).
Proof.
  intros Hsec Hv He Hnow Hpay Hset. unfold oidc_cache_set in Hset.
  destruct (oidc_cache_get_key key _ _) as [s_key|] eqn:Hk; [|done].
  destruct (cache_encrypt cfg) eqn:Henc.
  - destruct (oidc_cache_crypto_encrypt r v _) as [c|] eqn:Hc; [|done].
    eapply cache_get_hit; [by rewrite Henc|rewrite Hsec; by eapply impl_set_get|]. rewrite Henc.
    by eapply cache_decrypt_encrypt; [apply Hpay|].
  - eapply cache_get_hit; [by rewrite Henc|rewrite Hsec; by eapply impl_set_get|]. by rewrite Henc.
Qed.

(** A deleted value is not. *)
Lemma cache_delete_read e e' cfg r r' section key expiry st st' :
  oidc_cache_section_get r' section = oidc_cache_section_get r section ->
  impl_valid st -> healthy e' -> secret2 (crypto_passphrase cfg) = None ->
  oidc_cache_set e cfg r section key None expiry st = (true, st') ->
  (oidc_cache_get e' cfg r' section key st').1 = (true, None).
Proof.
  intros Hsec Hv He Hs2 Hset. unfold oidc_cache_set in Hset.
  destruct (oidc_cache_get_key key _ _) as [s_key|] eqn:Hk; [|done].
  unfold oidc_cache_get. rewrite Hk, Hsec.
  pose proof (impl_delete_get e e' _ _ _ _ _ Hv Hset He) as Hg.
  destruct (impl_get _ _ _ _) as [[ok o] st''] eqn:E. simpl in Hg. simplify_eq. cbn.
  rewrite Hs2. by rewrite andb_false_r.
Qed.

(** The value that the cache keeps under the key of the second passphrase, when nothing is kept under the current one. *)
Definition old_passphrase_value (e : env) (cfg : cache_cfg) (r : request) (section : string) (key : option string) (st : St) (v : string) : Prop :=
  exists p2 s_key s_key2 cv, cache_encrypt cfg = true /\ secret2 (crypto_passphrase cfg) = Some p2 /\
    oidc_cache_get_key key (secret1 (crypto_passphrase cfg)) true = Some s_key /\ oidc_cache_get_key key (Some p2) true = Some s_key2 /\
    (impl_get e (oidc_cache_section_get r section) s_key st).1 = (true, None) /\
    (impl_get e (oidc_cache_section_get r section) s_key2 (impl_get e (oidc_cache_section_get r section) s_key st).2).1 = (true, Some cv) /\
    oidc_cache_crypto_decrypt r cv (crypto_passphrase cfg) true = Some v.

(** With a second passphrase, only such a value is returned after a deletion. *)
Lemma cache_delete_residue e e' cfg r r' section key expiry st st' v :
  oidc_cache_section_get r' section = oidc_cache_section_get r section -> impl_valid st -> healthy e' ->
  oidc_cache_set e cfg r section key None expiry st = (true, st') ->
  (oidc_cache_get e' cfg r' section key st').1.2 = Some v -> old_passphrase_value e' cfg r' section key st' v.
Proof.
  intros Hsec Hv He Hset Hg. unfold oidc_cache_set in Hset.
  destruct (oidc_cache_get_key key _ _) as [s_key|] eqn:Hk; [|done]. unfold oidc_cache_get in Hg. rewrite Hk in Hg.
  pose proof (impl_delete_get e e' _ _ _ _ _ Hv Hset He) as Hd. rewrite <- Hsec in Hd. unfold old_passphrase_value.
  destruct (impl_get e' (oidc_cache_section_get r' section) s_key st') as [[ok o] st1] eqn:E1. cbn in Hd. injection Hd as -> ->. cbn [negb nonnull andb] in Hg.
  destruct (cache_encrypt cfg) eqn:Henc; cbn [andb] in Hg; [|done].
  destruct (secret2 (crypto_passphrase cfg)) as [p2|] eqn:Hs2; cbn [nonnull] in Hg; [|done].
  destruct (oidc_cache_get_key key (Some p2) true) as [s_key2|] eqn:Hk2; [|done].
  destruct (impl_get e' (oidc_cache_section_get r' section) s_key2 st1) as [[ok2 o2] st2] eqn:E2. destruct ok2, o2 as [cv|]; cbn [negb] in Hg; try done.
  destruct (oidc_cache_crypto_decrypt r' cv _ true) as [v'|] eqn:Hdec; [|done]. cbn in Hg. injection Hg as ->.
  exists p2, s_key, s_key2, cv. rewrite E1. cbn [fst snd]. by rewrite E2.
Qed.

(** No lookup gives the value of a key any more, except for one that was stored under the key of a second passphrase; or else
    the backend could not remove it at [e]. *)
Definition entry_gone (cfg : cache_cfg) (r : request) (section : string) (key : option string) (st : St) : Prop :=
  forall e', healthy e' ->
    (secret2 (crypto_passphrase cfg) = None -> (oidc_cache_get e' cfg r section key st).1 = (true, None)) /\
    (forall v, (oidc_cache_get e' cfg r section key st).1.2 = Some v -> old_passphrase_value e' cfg r section key st v).
Definition removal_refused (e : env) (cfg : cache_cfg) (r : request) (section : string) (key : option string) (st' : St) : Prop :=
  exists st, oidc_cache_set e cfg r section key None 0 st = (false, st').

Lemma removal_ends e cfg r r' section key st ok st' :
  oidc_cache_section_get r' section = oidc_cache_section_get r section -> impl_valid st ->
  oidc_cache_set e cfg r section key None 0 st = (ok, st') ->
  if ok then entry_gone cfg r' section key st' else removal_refused e cfg r' section key st'.
Proof.
  intros Hsec Hv Hset. destruct ok.
  - intros e' He. split; [intros Hs2; by eapply cache_delete_read|intros v; by eapply cache_delete_residue].
  - exists st. rewrite <- Hset. unfold oidc_cache_set. rewrite Hsec. by repeat case_match.
Qed.

Lemma cache_get_valid e cfg r section key st :
  impl_valid st -> impl_valid (oidc_cache_get e cfg r section key st).2.
Proof.
  intros Hv. unfold oidc_cache_get. destruct (oidc_cache_get_key key _ _) as [k|]; [|done].
  pose proof (impl_get_valid e (oidc_cache_section_get r section) k st Hv) as H1.
  destruct (impl_get _ _ _ _) as [[ok v] st1]. cbn [snd] in H1.
  destruct ok; [|done]. cbn [negb].
  destruct (negb (nonnull v) && cache_encrypt cfg && nonnull (secret2 (crypto_passphrase cfg)));
    [|repeat case_match; done].
  destruct (oidc_cache_get_key key _ _) as [k'|]; [|done].
  pose proof (impl_get_valid e (oidc_cache_section_get r section) k' st1 H1) as H2.
  destruct (impl_get _ _ k' _) as [[ok' v'] st2]. cbn [snd] in H2. repeat case_match; done.
Qed.

Lemma cache_set_valid e cfg r section key v ex st :
  impl_valid st -> impl_valid (oidc_cache_set e cfg r section key v ex st).2.
Proof.
  intros Hv. unfold oidc_cache_set.
  repeat (case_match; simplify_eq/=; try done); by apply impl_set_valid.
Qed.
End cache_lemmas.


Definition demo_cache_cfg : cache_cfg := mk_cache_cfg true demo_passphrase.
Definition demo_shm : header := shm_init 4 2048 4 (1, 2) ∅.

Lemma demo_shm_valid : valid 2048 demo_shm.
Proof.
  destruct (post_config_valid 4 2048 (mk_init_env true (Some (1, 2)) true ∅ ∅) demo_shm) as [Hv _];
    [lia|vm_compute; reflexivity|exact Hv].
Defined.


(** A value stored in encrypted form is still returned after the
    passphrase was rotated, when the old passphrase is configured as the second one
    and nothing is stored under the key that the new one gives. *)
Theorem cache_rotation {J : Jose} {JS : JoseSpec J} {B64 : Base64} {B64S : Base64Spec B64}
  {St : Type} {B : CacheBackend St} {BS : CacheBackendSpec B}
  (e e' : env) (p : oidc_crypto_passphrase_t) (r : request) (section v s1' k1' : string)
  (key : option string)
  (expiry : Z) (st st1 st' : St) (nk : option string) :
  payload_ok r v -> impl_valid st -> healthy e' -> now e' < expiry ->
  oidc_cache_set e (mk_cache_cfg true p) r section key (Some v) expiry st = (true, st') ->
  oidc_cache_get_key key (Some s1') true = Some nk ->
  impl_get e' (oidc_cache_section_get r section) nk st' = (true, None, st1) ->
  (oidc_cache_get e' (mk_cache_cfg true (mk_passphrase (Some s1') (secret1 p) (Some k1') (derived_key1 p)))
     r section key st').1 = (true, Some v).
Proof.
  intros Hp Hv He Hnow Hset Hnk Hmiss. unfold oidc_cache_set in Hset.
  cbn [cache_encrypt crypto_passphrase] in Hset.
  destruct (oidc_cache_get_key key (secret1 p) true) as [s_key|] eqn:Hk; [|done].
  destruct (oidc_cache_crypto_encrypt r v p) as [c|] eqn:Hc; [|done].
  pose proof Hc as (k & key0 & cser & Hs & Hdk & _)%jwt_create_inv.
  destruct (secret1 p) as [sec|] eqn:Hsec; [|done].
  unfold oidc_cache_get. cbn [cache_encrypt crypto_passphrase secret1 secret2].
  rewrite Hnk, Hmiss. cbn [negb nonnull andb]. rewrite Hk.
  pose proof (impl_miss_keeps e e' e' _ _ _ _ _ _ _ _ Hv Hset Hmiss Hnow He Hnow) as Hkeep.
  destruct (impl_get e' _ s_key st1) as [[ok o] st2]. simpl in Hkeep. simplify_eq. cbn [negb].
  assert (Hd : oidc_cache_crypto_decrypt r c
    (mk_passphrase (Some s1') (Some sec) (Some k1') (derived_key1 p)) true = Some v).
  { eapply jwt_verify_create; [done|exact Hc|exact Hdk|]. cbn. by destruct (secret2 p). }
  by rewrite Hd.
Qed.

Lemma cache_rotation_witness :
  exists st' st1 nk, oidc_cache_set (J:=JoseModel.jose) (B64:=Base64Model.base64) (B:=shm_backend 2048)
      (mk_env 10 true true) demo_cache_cfg demo_request "s" (Some "k") (Some "v") 100 demo_shm = (true, st') /\
    oidc_cache_get_key (J:=JoseModel.jose) (B64:=Base64Model.base64) (Some "k") (Some "new") true = Some nk /\
    impl_get (CacheBackend:=shm_backend 2048) (mk_env 20 true true) "s" nk st' = (true, None, st1) /\
    (oidc_cache_get (J:=JoseModel.jose) (B64:=Base64Model.base64) (B:=shm_backend 2048) (mk_env 20 true true)
      (mk_cache_cfg true (mk_passphrase (Some "new") (Some "s") (Some "nk") (Some demo_key)))
      demo_request "s" (Some "k") st').1 = (true, Some "v").
Proof.
  eexists _, _, _. split; [vm_compute; reflexivity|]. split; [vm_compute; reflexivity|].
  split; [vm_compute; reflexivity|].
  eapply (cache_rotation (J:=JoseModel.jose) (B64:=Base64Model.base64) (B:=shm_backend 2048)
    (mk_env 10 true true) (mk_env 20 true true) demo_passphrase demo_request "s" "v" "new" "nk" (Some "k") 100 demo_shm);
    [split; [reflexivity|vm_compute; discriminate]|exact demo_shm_valid|split; reflexivity|reflexivity
    |vm_compute; reflexivity|vm_compute; reflexivity|vm_compute; reflexivity].
Defined.

(** When the digest of a key cannot be computed the front end goes on
    with a [NULL] key, so two different long keys address the same entry: a value
    stored for one is returned for the other. *)
Theorem cache_hash_failure_shares_entry {J : Jose} {B64 : Base64}
  {St : Type} {B : CacheBackend St} {BS : CacheBackendSpec B}
  (e e' : env) (p : oidc_crypto_passphrase_t) (r : request) (section k1 k2 v : string)
  (expiry : Z) (st st' : St) :
  (forall s, oidc_jose_hash_bytes OIDC_JOSE_ALG_SHA256 s = None) ->
  OIDC_CACHE_KEY_SIZE_MAX <= zlen k1 -> OIDC_CACHE_KEY_SIZE_MAX <= zlen k2 ->
  impl_valid st -> healthy e' -> now e' < expiry ->
  oidc_cache_set e (mk_cache_cfg false p) r section (Some k1) (Some v) expiry st = (true, st') ->
  (oidc_cache_get e' (mk_cache_cfg false p) r section (Some k2) st').1 = (true, Some v).
Proof.
  intros Hh H1 H2 Hv He Hnow Hset.
  assert (Hk : forall k, OIDC_CACHE_KEY_SIZE_MAX <= zlen k ->
    oidc_cache_get_key (Some k) (secret1 p) false = Some None).
  { intros k Hl. unfold oidc_cache_get_key, oidc_cache_get_hashed_key,
      oidc_util_hash_string_and_base64url_encode. rewrite Hh. cbn [_oidc_strlen].
    by apply Z.leb_le in Hl as ->. }
  unfold oidc_cache_set in Hset. cbn [cache_encrypt crypto_passphrase] in Hset.
  rewrite (Hk k1 H1) in Hset.
  eapply cache_get_hit; [apply (Hk k2 H2)|by eapply impl_set_get|done].
Qed.

(** A provider whose digest fails, and two long keys. *)
Definition demo_nohash : Jose := {|
  jwk_t := string;
  oidc_jwk_create_symmetric_key k := Some k;
  oidc_jose_compress s := Some s;
  oidc_jose_uncompress s := Some s;
  oidc_jwt_encrypt := JoseModel.encrypt;
  oidc_jwe_decrypt := JoseModel.decrypt;
  oidc_proto_jwt_header_peek := JoseModel.peek;
  oidc_jose_hash_bytes alg s := None
|}.

Fixpoint rep (n : nat) (c : ascii) : string :=
  match n with O => "" | S n' => String c (rep n' c) end.

Lemma cache_hash_failure_shares_entry_witness :
  exists st', oidc_cache_set (J:=demo_nohash) (B64:=Base64Model.base64) (B:=shm_backend 2048)
      (mk_env 10 true true) (mk_cache_cfg false demo_passphrase) demo_request "s" (Some (rep 512 "a")) (Some "v") 100 demo_shm
      = (true, st') /\
    (oidc_cache_get (J:=demo_nohash) (B64:=Base64Model.base64) (B:=shm_backend 2048)
      (mk_env 20 true true) (mk_cache_cfg false demo_passphrase) demo_request "s" (Some (rep 512 "b")) st').1 = (true, Some "v").
Proof.
  eexists. split; [vm_compute; reflexivity|].
  eapply (cache_hash_failure_shares_entry (J:=demo_nohash) (B64:=Base64Model.base64) (B:=shm_backend 2048)
    (mk_env 10 true true) (mk_env 20 true true) demo_passphrase demo_request "s" (rep 512 "a") (rep 512 "b") "v" 100 demo_shm);
    [reflexivity|vm_compute; discriminate|vm_compute; discriminate|exact demo_shm_valid|split; reflexivity
    |reflexivity|vm_compute; reflexivity].
Defined.
