(* ===== verification/Url.v ===== *)
(** * src/util/url.c: the URL that is being accessed

    The scheme, host and port come from the connection or, when configured, from
    the headers of a proxy.  The outer [option] of a result is the fuel of the header
    search, which [forwarded_total] shows to be enough. *)

From S2P Require Import Prelude Cstr Apr StrUtil Http.

Definition OIDC_HDR_NONE : Z := 0.
Definition OIDC_HDR_X_FORWARDED_HOST : Z := 1.
Definition OIDC_HDR_X_FORWARDED_PORT : Z := 2.
Definition OIDC_HDR_X_FORWARDED_PROTO : Z := 4.
Definition OIDC_HDR_FORWARDED : Z := 8.

(** [x_forwarded_headers & flag]. *)
Definition flag_set (x flag : Z) : bool := negb (Z.land x flag =? 0).

Section url.
Context {H : Httpd}.

(** [if (x & OIDC_HDR_FORWARDED) v = oidc_http_hdr_forwarded_get(r, elem)]. *)
Definition forwarded_if (r : request) (x_forwarded_headers : Z) (elem : string) : option (option string) :=
  if flag_set x_forwarded_headers OIDC_HDR_FORWARDED then oidc_http_hdr_forwarded_get r elem else Some None.

Definition _oidc_util_url_cur_scheme (r : request) (x_forwarded_headers : Z) : option string :=
  scheme_str ← forwarded_if r x_forwarded_headers "proto";
  let scheme_str :=
    match scheme_str with
    | Some _ => scheme_str
    | None => if flag_set x_forwarded_headers OIDC_HDR_X_FORWARDED_PROTO
              then oidc_http_hdr_in_x_forwarded_proto_get r else None
    end in
  let scheme_str := match scheme_str with Some _ => scheme_str | None => r_scheme r end in
  match scheme_str with
  | None => Some "https"
  | Some s =>
      if negb (_oidc_strnatcasecmp (Some s) (Some "http") =? 0) &&
         negb (_oidc_strnatcasecmp (Some s) (Some "https") =? 0)
      then Some "https" else Some s
  end.

(** The suffix behind the colon. *)
Definition _oidc_util_url_port_from_host_hdr (host_hdr : string) : option string :=
  let p := match host_hdr with
           | String "[" _ => strchr host_hdr "]"
           | _ => Some host_hdr
           end%char in
  match p with
  | Some p => match strchr p ":" with Some q => Some (str_drop 1 q) | None => None end
  | None => None
  end.

Definition _oidc_util_url_cur_port (r : request) (scheme_str : string) (x_forwarded_headers : Z)
  : option (option string) :=
  let port_str := if flag_set x_forwarded_headers OIDC_HDR_X_FORWARDED_PORT
                  then oidc_http_hdr_in_x_forwarded_port_get r else None in
  match port_str with
  | Some _ => Some port_str
  | None =>
      host_hdr ← forwarded_if r x_forwarded_headers "host";
      let host_hdr :=
        match host_hdr with
        | Some _ => host_hdr
        | None => if flag_set x_forwarded_headers OIDC_HDR_X_FORWARDED_HOST
                  then oidc_http_hdr_in_x_forwarded_host_get r else None
        end in
      match host_hdr with
      | Some h => Some (_oidc_util_url_port_from_host_hdr h)
      | None =>
          match oidc_http_hdr_in_host_get r with
          | Some h => Some (_oidc_util_url_port_from_host_hdr h)
          | None =>
              if flag_set x_forwarded_headers OIDC_HDR_X_FORWARDED_PROTO &&
                 nonnull (oidc_http_hdr_in_x_forwarded_proto_get r)
              then Some None
              else
                proto ← forwarded_if r x_forwarded_headers "proto";
                if nonnull proto then Some None
                else if (_oidc_strnatcasecmp (Some scheme_str) (Some "https") =? 0) && (r_port r =? 443)
                then Some None
                else if (_oidc_strnatcasecmp (Some scheme_str) (Some "http") =? 0) && (r_port r =? 80)
                then Some None
                else Some (Some (pretty (r_port r)))
          end
      end
  end.

(** [p = strchr(...); if (p) *p = 0] on the copy of the header. *)
Definition host_without_port (dup : string) : string :=
  match dup with
  | String "[" _ =>
      match strchr dup "]" with
      | Some p =>
          let before := str_before dup "]" in
          match strchr p ":" with
          | Some _ => before ^^ str_before p ":"
          | None => dup
          end
      | None => dup
      end
  | _ => match strchr dup ":" with Some _ => str_before dup ":" | None => dup end
  end%char.

Definition oidc_util_url_cur_host (r : request) (x_forwarded_headers : Z) : option string :=
  host_str ← forwarded_if r x_forwarded_headers "host";
  let host_str :=
    match host_str with
    | Some _ => host_str
    | None => if flag_set x_forwarded_headers OIDC_HDR_X_FORWARDED_HOST
              then oidc_http_hdr_in_x_forwarded_host_get r else None
    end in
  let host_str := match host_str with Some _ => host_str | None => oidc_http_hdr_in_host_get r end in
  match host_str with
  | Some h => Some (host_without_port h)
  | None => Some (r_server_name r)
  end.

Definition _oidc_util_url_base_cur (r : request) (x_forwarded_headers : Z) : option string :=
  scheme_str ← _oidc_util_url_cur_scheme r x_forwarded_headers;
  host_str ← oidc_util_url_cur_host r x_forwarded_headers;
  port_str ← _oidc_util_url_cur_port r scheme_str x_forwarded_headers;
  let port_str := match port_str with Some p => ":" ^^ p | None => "" end in
  Some (scheme_str ^^ "://" ^^ host_str ^^ port_str).

(** [apr_pstrcat(pool, uri.path, sep, r->args, NULL)] stops at the first [NULL]. *)
Definition path_with_args (path args : option string) : string :=
  match path with
  | None => ""
  | Some p =>
      match args with
      | Some a => p ^^ (if String.eqb a "" then "" else "?") ^^ a
      | None => p
      end
  end.

Definition oidc_util_url_cur (r : request) (x_forwarded_headers : Z) : option string :=
  base ← _oidc_util_url_base_cur r x_forwarded_headers;
  let path :=
    match r_uri r with
    | Some ((String c _) as u) =>
        if Ascii.eqb c "/" then r_unparsed_uri r
        else match apr_uri_parse u with
             | Some uri => path_with_args (uri_path uri) (r_args r)
             | None => u
             end
    | Some "" =>
        match apr_uri_parse "" with
        | Some uri => path_with_args (uri_path uri) (r_args r)
        | None => ""
        end
    | None => r_unparsed_uri r
    end in
  Some (base ^^ path).

Definition oidc_util_url_abs (r : request) (x_forwarded_headers : Z) (url : option string)
  : option (option string) :=
  match url with
  | Some ((String c _) as u) =>
      if Ascii.eqb c "/" then
        base ← _oidc_util_url_base_cur r x_forwarded_headers; Some (Some (base ^^ u))
      else Some url
  | _ => Some url
  end.

Definition oidc_util_url_cur_is_secure (r : request) (x_forwarded_headers : Z) : option bool :=
  scheme ← _oidc_util_url_cur_scheme r x_forwarded_headers;
  Some (_oidc_strnatcasecmp (Some "https") (Some scheme) =? 0).

Definition oidc_util_url_redirect_uri (r : request) (x_forwarded_headers : Z) (redirect_uri : option string)
  : option (option string) :=
  oidc_util_url_abs r x_forwarded_headers redirect_uri.

Definition oidc_util_url_cur_matches (r : request) (url : option string) : bool :=
  match url with
  | None => false
  | Some u =>
      match apr_uri_parse u with
      | None => false
      | Some uri =>
          match r_path r, uri_path uri with
          | Some p, Some q => _oidc_strcmp (Some p) (Some q) =? 0
          | None, None => true
          | _, _ => false
          end
      end
  end.

Definition oidc_util_url_matches_redirect_uri (r : request) (x_forwarded_headers : Z)
  (redirect_uri : option string) : option bool :=
  url ← oidc_util_url_redirect_uri r x_forwarded_headers redirect_uri;
  Some (oidc_util_url_cur_matches r url).
End url.

Definition oidc_util_url_has_parameter (r : request) (param : string) : bool :=
  match r_args r with
  | None => false
  | Some args =>
      let option1 := param ^^ "=" in
      let option2 := "&" ^^ param ^^ "=" in
      bool_decide (_oidc_strstr (Some args) (Some option1) = Some 0%nat) ||
      nonnull (_oidc_strstr (Some args) (Some option2))
  end.

(** The loop over the tokens keeps the last match. *)
Fixpoint parameter_loop (k_param : string) (tokens : list string) (value : option string) : option string :=
  match tokens with
  | [] => value
  | p :: tokens' =>
      parameter_loop k_param tokens'
        (if _oidc_strncmp (Some p) (Some k_param) (String.length k_param) =? 0
         then Some (oidc_http_url_decode (Some (str_drop (String.length k_param) p)))
         else value)
  end.

(** [*value]; [TRUE] when it is not [NULL]. *)
Definition oidc_util_url_parameter_get (r : request) (name : string) : option string :=
  match r_args r with
  | None => None
  | Some "" => None
  | Some args => parameter_loop (name ^^ "=") (strtok_all "&" args) None
  end.

(** ** Lemmas *)

Lemma forwarded_total r elem : is_Some (oidc_http_hdr_forwarded_get r elem).
Proof.
  unfold oidc_http_hdr_forwarded_get. destruct (oidc_http_hdr_in_forwarded_get r) as [v|]; [|by eexists].
  assert (Hs : exists o, oidc_util_strcasestr (Some v) (Some (elem ^^ "=")) = Some o).
  { unfold oidc_util_strcasestr.
    pose proof (strcasestr_loop_spec (S ((String.length v + 1) * (String.length (elem ^^ "=") + 1)))
      "" v "" (elem ^^ "=") 0 eq_refl) as Hs. cbn [String.append] in Hs. eexists. apply Hs. lia. }
  destruct Hs as [[off|] ->]; by eexists.
Qed.

Section url_lemmas.
Context {H : Httpd}.

Lemma forwarded_if_total r x elem : exists o, forwarded_if r x elem = Some o.
Proof.
  unfold forwarded_if. case_match; [|by eexists]. destruct (forwarded_total r elem) as [o ->]. by eexists.
Qed.

Lemma cur_scheme_total r x : exists s, _oidc_util_url_cur_scheme r x = Some s /\
  (s = "https" \/ apr_strnatcasecmp s "http" = 0 \/ apr_strnatcasecmp s "https" = 0).
Proof.
  unfold _oidc_util_url_cur_scheme. destruct (forwarded_if_total r x "proto") as [o ->].
  cbn [mbind option_bind]. cbv zeta.
  match goal with |- context [match ?m with Some _ => ?m | None => r_scheme r end] =>
    destruct (match m with Some _ => m | None => r_scheme r end) as [s|] end; [|eexists; auto].
  cbn [_oidc_strnatcasecmp].
  destruct (Z.eqb_spec (apr_strnatcasecmp s "http") 0) as [E|E]; [eexists; split; [done|auto]|].
  destruct (Z.eqb_spec (apr_strnatcasecmp s "https") 0) as [E'|E']; eexists; split; auto.
Qed.

Lemma cur_host_total r x : exists h, oidc_util_url_cur_host r x = Some h.
Proof.
  unfold oidc_util_url_cur_host. destruct (forwarded_if_total r x "host") as [o ->].
  cbn [mbind option_bind]. case_match; by eexists.
Qed.

Lemma cur_port_total r s x : exists p, _oidc_util_url_cur_port r s x = Some p.
Proof.
  unfold _oidc_util_url_cur_port. cbv zeta. case_match; [by eexists|].
  destruct (forwarded_if_total r x "host") as [o ->]. cbn [mbind option_bind].
  destruct (forwarded_if_total r x "proto") as [o' ->]. cbn [mbind option_bind].
  repeat case_match; by eexists.
Qed.

Lemma base_cur_total r x : is_Some (_oidc_util_url_base_cur r x).
Proof.
  unfold _oidc_util_url_base_cur. destruct (cur_scheme_total r x) as (s & -> & _), (cur_host_total r x) as [h E].
  cbn [mbind option_bind]. rewrite E. cbn [mbind option_bind]. destruct (cur_port_total r s x) as [q ->]. by eexists.
Qed.

Lemma redirect_uri_total r x u : is_Some (oidc_util_url_redirect_uri r x u).
Proof.
  unfold oidc_util_url_redirect_uri, oidc_util_url_abs. destruct (base_cur_total r x) as [b Eb]. rewrite Eb.
  repeat case_match; by eexists.
Qed.

Lemma url_cur_total r x : is_Some (oidc_util_url_cur r x).
Proof. unfold oidc_util_url_cur. destruct (base_cur_total r x) as [b ->]. by eexists. Qed.
End url_lemmas.

(** Tokens that carry the parameter. *)
Definition carries (name : string) (p : string) : bool := str_prefix (name ^^ "=") p.

Lemma parameter_loop_spec name tokens value :
  parameter_loop (name ^^ "=") tokens value =
  match last (List.filter (carries name) tokens) with
  | Some p => Some (oidc_http_url_decode (Some (str_drop (String.length (name ^^ "=")) p)))
  | None => value
  end.
Proof.
  revert value. induction tokens as [|p tokens IH]; intros value; [done|].
  cbn [parameter_loop List.filter]. rewrite IH. unfold carries at 2. cbn [_oidc_strncmp].
  destruct (Z.eqb_spec (strncmp (String.length (name ^^ "=")) p (name ^^ "=")) 0) as [E|E].
  - apply strncmp_prefix in E. rewrite E. rewrite last_cons.
    by destruct (last (List.filter (carries name) tokens)).
  - assert (str_prefix (name ^^ "=") p = false) as ->; [|done].
    apply not_true_iff_false. intros Hp. by apply strncmp_prefix in Hp.
Qed.

(** ** Properties *)

(** The base of the current URL is always determined, and its scheme is
    https or compares equal to http or https, whatever a proxy header says. *)
Theorem url_cur_scheme_safe {H : Httpd} (r : request) (x : Z) :
  exists scheme host port, _oidc_util_url_base_cur r x = Some (scheme ^^ "://" ^^ host ^^ port) /\
    _oidc_util_url_cur_scheme r x = Some scheme /\
    (scheme = "https" \/ apr_strnatcasecmp scheme "http" = 0 \/ apr_strnatcasecmp scheme "https" = 0) /\
    (port = "" \/ exists p, port = (":" ^^ p)).
Proof.
  destruct (cur_scheme_total r x) as (s & Hs & Hsafe), (cur_host_total r x) as [h Hh],
    (cur_port_total r s x) as [p Hp].
  exists s, h, (match p with Some p => ":" ^^ p | None => "" end).
  unfold _oidc_util_url_base_cur. rewrite Hs. cbn [mbind option_bind]. rewrite Hh.
  cbn [mbind option_bind]. rewrite Hp. cbn [mbind option_bind].
  do 3 (split; [done|]). destruct p as [p|]; [right; by exists p|by left].
Qed.

(** Without configured proxy headers no proxy header influences the
    URL: replacing any of them leaves scheme, host and port as they were. *)
Theorem url_base_ignores_proxy_headers {H : Httpd} (r : request) (name : string) (value : option string) :
  strcaseeq name OIDC_HTTP_HDR_HOST = false ->
  _oidc_util_url_base_cur (oidc_http_hdr_in_set r name value) OIDC_HDR_NONE =
  _oidc_util_url_base_cur r OIDC_HDR_NONE.
Proof.
  intros Hn.
  assert (Hh : oidc_http_hdr_in_host_get (oidc_http_hdr_in_set r name value) = oidc_http_hdr_in_host_get r).
  { unfold oidc_http_hdr_in_host_get, oidc_http_hdr_in_get, oidc_http_hdr_in_set, oidc_http_hdr_table_set.
    cbn [headers_in with_headers_in]. destruct value; [by apply table_get_set_ne|by apply table_get_unset_ne]. }
  unfold _oidc_util_url_base_cur, _oidc_util_url_cur_scheme, oidc_util_url_cur_host, _oidc_util_url_cur_port,
    forwarded_if, flag_set. change (Z.land OIDC_HDR_NONE ?f) with 0.
  cbn [Z.eqb negb mbind option_bind andb]. rewrite Hh. done.
Qed.

Lemma url_base_ignores_proxy_headers_witness :
  _oidc_util_url_base_cur (H:=HttpdModel.httpd)
    (oidc_http_hdr_in_set demo_request "X-Forwarded-Host" (Some "evil.example.com")) OIDC_HDR_NONE =
  _oidc_util_url_base_cur (H:=HttpdModel.httpd) demo_request OIDC_HDR_NONE.
Proof. apply (url_base_ignores_proxy_headers (H:=HttpdModel.httpd)). reflexivity. Defined.

(** Reading a query parameter gives the decoded value of the last token
    of the query that carries it, and nothing when no token does. *)
Theorem url_parameter_get_spec (r : request) (name args : string) :
  r_args r = Some args ->
  oidc_util_url_parameter_get r name =
  match last (List.filter (carries name) (strtok_all "&" args)) with
  | Some p => Some (oidc_http_url_decode (Some (str_drop (String.length (name ^^ "=")) p)))
  | None => None
  end.
Proof.
  intros Ha. unfold oidc_util_url_parameter_get. rewrite Ha. destruct args as [|c args]; [done|].
  apply parameter_loop_spec.
Qed.

Lemma url_parameter_get_spec_witness :
  oidc_util_url_parameter_get demo_request "x" =
  match last (List.filter (carries "x") (strtok_all "&" "x=1")) with
  | Some p => Some (oidc_http_url_decode (Some (str_drop (String.length ("x" ^^ "=")) p)))
  | None => None
  end.
Proof. apply (url_parameter_get_spec demo_request "x" "x=1"). reflexivity. Defined.
