(* ===== verification/Cookie.v ===== *)
(** * src/http.c: cookies

    Cookies are written as Set-Cookie response headers and read from the Cookie
    request header; a large value is split over several cookies.  [browser_store] and
    [cookie_header] are what a browser does in between. *)

From S2P Require Import Prelude Cstr Apr StrUtil Http Url.

(** ** Definitions *)

(** The settings that src/http.c reads for cookies; the date formatting of APR is a
    parameter. *)
Record cookie_cfg := mk_cookie_cfg {
  cookie_path : option string;
  cookie_domain : option string;
  cookie_http_only : bool;
  x_forwarded_headers : Z;
  apr_rfc822_date : Z -> string
}.

(** The largest [i > 0] with [p[i] == '/'], else 0, counting from [i]. *)
Fixpoint last_slash (p : string) (i : nat) (best : nat) : nat :=
  match p with
  | "" => best
  | String c p' => last_slash p' (S i) (if (0 <? i)%nat && Ascii.eqb c "/" then i else best)
  end.

Definition oidc_http_get_path (r : request) : string :=
  match r_path r with
  | None => "/"
  | Some "" => "/"
  | Some p => str_take (last_slash p 0 0 + 1) p
  end.

Definition oidc_http_get_cookie_path (cfg : cookie_cfg) (r : request) : string :=
  let requestPath := oidc_http_get_path r in
  match cookie_path cfg with
  | Some cp =>
      if _oidc_strncmp (Some cp) (Some requestPath) (String.length cp) =? 0 then cp else requestPath
  | None => requestPath
  end.

Definition OIDC_SET_COOKIE_APPEND_ENV_VAR : string := "OIDC_SET_COOKIE_APPEND".

Definition oidc_http_set_cookie_append_value (r : request) : option string :=
  apr_table_get (subprocess_env r) OIDC_SET_COOKIE_APPEND_ENV_VAR.

Section cookie.
Context {H : Httpd}.
Variable cfg : cookie_cfg.

Definition oidc_http_set_cookie (r : request) (cookieName cookieValue : string) (expires : Z)
  (ext : option string) : option request :=
  let expires := if _oidc_strcmp (Some cookieValue) (Some "") =? 0 then 0 else expires in
  let headerString := cookieName ^^ "=" ^^ cookieValue in
  let headerString := headerString ^^ "; Path=" ^^ oidc_http_get_cookie_path cfg r in
  let headerString := if expires =? -1 then headerString
                      else headerString ^^ "; Expires=" ^^ apr_rfc822_date cfg expires in
  let headerString := match cookie_domain cfg with
                      | Some d => headerString ^^ "; Domain=" ^^ d
                      | None => headerString
                      end in
  secure ← oidc_util_url_cur_is_secure r (x_forwarded_headers cfg);
  let headerString := if (secure : bool) then headerString ^^ "; Secure" else headerString in
  let headerString := if cookie_http_only cfg then headerString ^^ "; HttpOnly" else headerString in
  let headerString := match oidc_http_set_cookie_append_value r with
                      | Some a => headerString ^^ "; " ^^ a
                      | None => match ext with
                                | Some x => headerString ^^ "; " ^^ x
                                | None => headerString
                                end
                      end in
  Some (oidc_http_hdr_err_out_add r OIDC_HTTP_HDR_SET_COOKIE headerString).

(** The loop over the cookies of the request. *)
Fixpoint get_cookie_loop (cookieName : string) (cookies : list string) : option string :=
  match cookies with
  | [] => None
  | cookie :: cookies' =>
      let cookie := skip_blank cookie in
      if (_oidc_strncmp (Some cookie) (Some cookieName) (String.length cookieName) =? 0) &&
         match str_drop (String.length cookieName) cookie with
         | String c _ => Ascii.eqb c "="
         | "" => false
         end
      then Some (str_drop (String.length cookieName + 1) cookie)
      else get_cookie_loop cookieName cookies'
  end.

Definition oidc_http_get_cookie (r : request) (cookieName : string) : option string :=
  match oidc_http_hdr_in_cookie_get r with
  | None => None
  | Some cookies => get_cookie_loop cookieName (strtok_all ";" cookies)
  end.

Definition OIDC_HTTP_COOKIE_CHUNKS_SEPARATOR : string := "_".
Definition OIDC_HTTP_COOKIE_CHUNKS_POSTFIX : string := "chunks".
Definition OIDC_HTTP_COOKIE_CHUNKS_MAX : Z := 99.

Definition oidc_http_get_chunk_count_name (cookieName : string) : string :=
  cookieName ^^ OIDC_HTTP_COOKIE_CHUNKS_SEPARATOR ^^ OIDC_HTTP_COOKIE_CHUNKS_POSTFIX.

Definition oidc_http_get_chunked_count (r : request) (cookieName : string) : Z :=
  _oidc_str_to_int (oidc_http_get_cookie r (oidc_http_get_chunk_count_name cookieName)) 0.

Definition oidc_http_get_chunk_cookie_name (cookieName : string) (i : nat) : string :=
  cookieName ^^ OIDC_HTTP_COOKIE_CHUNKS_SEPARATOR ^^ pretty (Z.of_nat i).

(** The loop that assembles the chunks [i .. i + n - 1]. *)
Fixpoint chunks_loop (r : request) (cookieName : string) (n i : nat) (cookieValue : option string)
  : option string :=
  match n with
  | O => cookieValue
  | S n' =>
      match oidc_http_get_cookie r (oidc_http_get_chunk_cookie_name cookieName i) with
      | None => None
      | Some chunkValue =>
          chunks_loop r cookieName n' (S i) (Some (default "" cookieValue ^^ chunkValue))
      end
  end.

Definition oidc_http_get_chunked_cookie (r : request) (cookieName : string) (chunkSize : Z)
  : option string :=
  if chunkSize =? 0 then oidc_http_get_cookie r cookieName
  else
    let chunkCount := oidc_http_get_chunked_count r cookieName in
    if chunkCount =? 0 then oidc_http_get_cookie r cookieName
    else if (chunkCount <? 0) || (OIDC_HTTP_COOKIE_CHUNKS_MAX <? chunkCount) then None
    else chunks_loop r cookieName (Z.to_nat chunkCount) 0 None.

Fixpoint clear_loop (r : request) (cookieName : string) (n i : nat) (expires : Z) (ext : option string)
  : option request :=
  match n with
  | O => Some r
  | S n' =>
      r ← oidc_http_set_cookie r (oidc_http_get_chunk_cookie_name cookieName i) "" expires ext;
      clear_loop r cookieName n' (S i) expires ext
  end.

Definition oidc_http_clear_chunked_cookie (r : request) (cookieName : string) (expires : Z)
  (ext : option string) : option request :=
  let chunkCount := oidc_http_get_chunked_count r cookieName in
  if 0 <? chunkCount then
    r ← clear_loop r cookieName (Z.to_nat chunkCount) 0 expires ext;
    oidc_http_set_cookie r (oidc_http_get_chunk_count_name cookieName) "" expires ext
  else Some r.

Fixpoint set_chunks_loop (r : request) (cookieName : string) (n i : nat) (ptr : string)
  (chunkSize : nat) (expires : Z) (ext : option string) : option request :=
  match n with
  | O => Some r
  | S n' =>
      r ← oidc_http_set_cookie r (oidc_http_get_chunk_cookie_name cookieName i)
            (str_take chunkSize ptr) expires ext;
      set_chunks_loop r cookieName n' (S i) (str_drop chunkSize ptr) chunkSize expires ext
  end.

Definition oidc_http_set_chunked_cookie (r : request) (cookieName : string) (cookieValue : option string)
  (expires : Z) (chunkSize : Z) (ext : option string) : option (bool * request) :=
  let cookieLength := _oidc_strlen cookieValue in
  let value := default "(null)" cookieValue in
  if (chunkSize =? 0) || ((0 <? cookieLength) && (cookieLength <? chunkSize)) then
    r ← oidc_http_set_cookie r cookieName value expires ext;
    r ← oidc_http_clear_chunked_cookie r cookieName expires ext;
    Some (true, r)
  else if cookieLength =? 0 then
    r ← oidc_http_set_cookie r cookieName "" expires ext;
    r ← oidc_http_clear_chunked_cookie r cookieName expires ext;
    Some (true, r)
  else
    let chunkCountValue := Z.quot (cookieLength + chunkSize - 1) chunkSize in
    if OIDC_HTTP_COOKIE_CHUNKS_MAX <? chunkCountValue then Some (false, r)
    else
      r ← set_chunks_loop r cookieName (Z.to_nat chunkCountValue) 0 value (Z.to_nat chunkSize) expires ext;
      r ← oidc_http_set_cookie r (oidc_http_get_chunk_count_name cookieName)
            (pretty chunkCountValue) expires ext;
      r ← oidc_http_set_cookie r cookieName "" expires ext;
      Some (true, r).
End cookie.

(** ** The browser *)

Definition jar : Type := list (string * string).

(** The name and value of a Set-Cookie header: what precedes the first semicolon, at
    its first equals sign. *)
Definition set_cookie_pair (hdr : string) : string * string :=
  let nv := str_before hdr ";" in (str_before nv "=", str_drop (String.length (str_before nv "=") + 1) nv).

(** A cookie without a value carries an expiry date in the past. *)
Definition browser_store (j : jar) (hdr : string) : jar :=
  let '(n, v) := set_cookie_pair hdr in
  if String.eqb v "" then alist_del n j else alist_set n v j.

Definition cookie_string (kv : string * string) : string := kv.1 ^^ "=" ^^ kv.2.

Definition cookie_header (j : jar) : option string :=
  match j with [] => None | _ => Some (join "; " (map cookie_string j)) end.

(** The Set-Cookie headers of a response. *)
Definition set_cookies (r : request) : list string :=
  map snd (List.filter (fun kv => strcaseeq kv.1 OIDC_HTTP_HDR_SET_COOKIE) (err_headers_out r)).

(** The characters a cookie name and a cookie value may have. *)
Definition name_char (c : ascii) : bool :=
  negb (Ascii.eqb c "=") && negb (Ascii.eqb c ";") && negb (Ascii.eqb c " ").
Definition value_char (c : ascii) : bool := negb (Ascii.eqb c ";").

Definition jar_ok (j : jar) : Prop :=
  NoDup (map fst j) /\
  Forall (fun kv => kv.1 <> "" /\ str_forall name_char kv.1 = true /\ str_forall value_char kv.2 = true) j.

(** ** Lemmas: reading the Cookie header *)

Definition pair_ok (kv : string * string) : Prop :=
  kv.1 <> "" /\ str_forall name_char kv.1 = true /\ str_forall value_char kv.2 = true.

Lemma name_value c : name_char c = true -> value_char c = true.
Proof. char_cases c. Qed.

Lemma cookie_string_no_semi kv : pair_ok kv -> strchr (cookie_string kv) ";" = None.
Proof.
  intros (_ & Hn & Hv). apply (strchr_forall value_char); [done|]. unfold cookie_string.
  rewrite !str_forall_append, (str_forall_weaken name_char value_char) by (done || apply name_value).
  by rewrite Hv.
Qed.

Lemma tokens_join p kv j :
  strchr p ";" = None -> Forall pair_ok (kv :: j) ->
  tokens_go ";" p (join "; " (map cookie_string (kv :: j))) =
  (p ^^ cookie_string kv) :: map (fun kv => " " ^^ cookie_string kv) j.
Proof.
  revert p kv. induction j as [|kv' j IH]; intros p kv Hp Hall; apply Forall_cons in Hall as [Hkv Hall].
  - cbn [map join]. rewrite <-(append_nil_r (cookie_string kv)) at 1.
    rewrite tokens_go_plain by by apply cookie_string_no_semi. cbn [tokens_go].
    destruct (String.eqb_spec (p ^^ cookie_string kv) "") as [E|_]; [|done].
    destruct p, kv as [[|? ?] ?]; done.
  - change (join "; " (map cookie_string (kv :: kv' :: j))) with
      (cookie_string kv ^^ String ";" (String " " (join "; " (map cookie_string (kv' :: j))))).
    rewrite tokens_go_plain by by apply cookie_string_no_semi.
    rewrite tokens_go_delim by (destruct p, kv as [[|? ?] ?]; done).
    change (tokens_go ";" "" (String " " ?s)) with (tokens_go ";" " " s). rewrite IH by done. done.
Qed.

Lemma skip_blank_cookie kv : pair_ok kv -> skip_blank (cookie_string kv) = cookie_string kv /\
  skip_blank (" " ^^ cookie_string kv) = cookie_string kv.
Proof.
  destruct kv as [[|c k] v]; intros (Hne & Hn & _); [done|]. unfold cookie_string.
  cbn [fst snd String.append skip_blank str_forall] in *. apply andb_true_iff in Hn as [Hc _].
  unfold name_char in Hc. bool_hyps. by rewrite H0.
Qed.

(** The test of the loop is equality of the names. *)
Lemma cookie_test name kv :
  str_forall name_char name = true -> pair_ok kv ->
  (_oidc_strncmp (Some (cookie_string kv)) (Some name) (String.length name) =? 0) &&
  match str_drop (String.length name) (cookie_string kv) with
  | String c _ => Ascii.eqb c "=" | "" => false end = String.eqb name kv.1.
Proof.
  destruct kv as [k v]. intros Hname (_ & Hk & _). unfold cookie_string. cbn [fst snd _oidc_strncmp] in *.
  revert k Hk. induction name as [|c name IH]; intros k Hk.
  - destruct k as [|d k]; [done|]. cbn [str_forall] in Hk. apply andb_true_iff in Hk as [Hd _].
    unfold name_char in Hd. bool_hyps. cbn [String.length strncmp str_drop String.append].
    by rewrite H.
  - cbn [str_forall] in Hname. apply andb_true_iff in Hname as [Hc Hname].
    destruct k as [|d k]; cbn [String.length strncmp str_drop String.append String.eqb].
    + unfold name_char in Hc. bool_hyps. rewrite Ascii.eqb_sym, H.
      destruct (Z.eqb_spec (code "=" - code c) 0) as [E|_]; [|done]. exfalso.
      assert (c = "="%char) as -> by (apply code_inj; lia). done.
    + cbn [str_forall] in Hk. apply andb_true_iff in Hk as [_ Hk]. rewrite (Ascii.eqb_sym d c).
      destruct (Ascii.eqb_spec c d) as [->|Hne]; [by apply IH|].
      destruct (Z.eqb_spec (code d - code c) 0) as [E|_]; [|done]. exfalso. apply Hne, code_inj. lia.
Qed.

Lemma get_cookie_loop_jar name (f : string * string -> string) j :
  str_forall name_char name = true -> Forall pair_ok j ->
  (forall kv, pair_ok kv -> skip_blank (f kv) = cookie_string kv) ->
  get_cookie_loop name (map f j) = alist_get name j.
Proof.
  intros Hn Hall Hf. induction j as [|[k v] j IH]; [done|]. apply Forall_cons in Hall as [Hkv Hall].
  cbn [map get_cookie_loop alist_get]. rewrite Hf, cookie_test by done. cbn [fst].
  destruct (String.eqb_spec name k) as [<-|]; [|auto]. unfold cookie_string. cbn [fst snd].
  f_equal. clear. induction name as [|c n IH]; [done|]. exact IH.
Qed.

(** What a request with the jar's cookies returns for a name. *)
Lemma get_cookie_jar r j name :
  oidc_http_hdr_in_cookie_get r = cookie_header j -> Forall pair_ok j ->
  str_forall name_char name = true -> oidc_http_get_cookie r name = alist_get name j.
Proof.
  intros Hr Hall Hn. unfold oidc_http_get_cookie. rewrite Hr. destruct j as [|kv j]; [done|].
  cbn [cookie_header]. unfold strtok_all. rewrite tokens_join by done.
  pose proof Hall as [Hkv Hall']%Forall_cons. destruct kv as [k v].
  cbn [String.append get_cookie_loop alist_get].
  destruct (skip_blank_cookie (k, v) Hkv) as [-> _]. rewrite cookie_test by done. cbn [fst].
  destruct (String.eqb_spec name k) as [<-|].
  - unfold cookie_string. cbn [fst snd]. f_equal. clear. induction name as [|c n IH]; [done|]. exact IH.
  - apply get_cookie_loop_jar; [done|done|]. intros kv Hkv'. by apply skip_blank_cookie.
Qed.

(** ** Lemmas: writing cookies *)

Definition store_pair (j : jar) (kv : string * string) : jar :=
  if String.eqb kv.2 "" then alist_del kv.1 j else alist_set kv.1 kv.2 j.

(** The request with other headers for responses that may be errors. *)
Definition same_but_out (r r' : request) : Prop := r' = with_err_headers_out (err_headers_out r') r.

Lemma same_but_out_refl r : same_but_out r r.
Proof. by destruct r. Qed.
Lemma same_but_out_trans r1 r2 r3 : same_but_out r1 r2 -> same_but_out r2 r3 -> same_but_out r1 r3.
Proof. unfold same_but_out. intros E1 ->. rewrite E1. by destruct r1. Qed.
Lemma same_but_out_in r r' : same_but_out r r' -> headers_in r' = headers_in r.
Proof. intros ->. by destruct r. Qed.

(** [r'] is [r] with Set-Cookie headers for the pairs [l] added. *)
Record emits (r r' : request) (l : list (string * string)) : Prop := {
  em_in : headers_in r' = headers_in r;
  em_out : exists hs, set_cookies r' = set_cookies r ++ hs /\ map set_cookie_pair hs = l
}.

Lemma emits_nil r : emits r r [].
Proof. split; [done|]. exists []. by rewrite app_nil_r. Qed.

Lemma emits_app r1 r2 r3 l1 l2 : emits r1 r2 l1 -> emits r2 r3 l2 -> emits r1 r3 (l1 ++ l2).
Proof.
  intros [H1 (h1 & E1 & P1)] [H2 (h2 & E2 & P2)]. split; [congruence|].
  exists (h1 ++ h2). rewrite E2, E1, map_app. split; [by rewrite app_assoc|congruence].
Qed.

Section emits.
Context {H : Httpd}.
Variable cfg : cookie_cfg.

Lemma http_set_cookie_keeps r n v ex a r' : oidc_http_set_cookie cfg r n v ex a = Some r' -> same_but_out r r'.
Proof.
  unfold oidc_http_set_cookie. destruct (oidc_util_url_cur_is_secure _ _); [|done].
  cbn [mbind option_bind]. by intros [= <-].
Qed.

Lemma http_clear_keeps r n ex a r' : oidc_http_clear_chunked_cookie cfg r n ex a = Some r' -> same_but_out r r'.
Proof.
  assert (Hl : forall k i r1 r2, clear_loop cfg r1 n k i ex a = Some r2 -> same_but_out r1 r2).
  { induction k as [|k IH]; intros i r1 r2; cbn [clear_loop]; [intros [= <-]; apply same_but_out_refl|].
    intros (r3 & E3 & E4)%bind_Some. eapply same_but_out_trans; [by eapply http_set_cookie_keeps|by eapply IH]. }
  unfold oidc_http_clear_chunked_cookie. destruct (0 <? _); [|intros [= <-]; apply same_but_out_refl].
  intros (r3 & E3 & E4)%bind_Some. eapply same_but_out_trans; [by eapply Hl|by eapply http_set_cookie_keeps].
Qed.

Lemma set_cookie_pair_app n v rest :
  str_forall name_char n = true -> str_forall value_char v = true ->
  set_cookie_pair (n ^^ "=" ^^ v ^^ String ";" rest) = (n, v).
Proof.
  intros Hn Hv. unfold set_cookie_pair.
  replace (n ^^ "=" ^^ v ^^ String ";" rest) with ((n ^^ "=" ^^ v) ^^ String ";" rest)
    by (rewrite !append_assoc; done).
  assert (Hs : strchr (n ^^ "=" ^^ v) ";" = None).
  { apply (strchr_forall value_char); [done|].
    rewrite !str_forall_append, (str_forall_weaken name_char value_char), Hv by (done || apply name_value).
    done. }
  rewrite str_before_app by done. change ("=" ^^ v) with (String "=" v).
  rewrite str_before_app by by apply (strchr_forall name_char).
  f_equal. clear. induction n as [|c n IH]; [done|]. exact IH.
Qed.

Lemma set_cookie_emits r n v ex ext :
  str_forall name_char n = true -> str_forall value_char v = true ->
  exists r', oidc_http_set_cookie cfg r n v ex ext = Some r' /\ emits r r' [(n, v)].
Proof.
  intros Hn Hv. unfold oidc_http_set_cookie, oidc_util_url_cur_is_secure.
  destruct (cur_scheme_total r (x_forwarded_headers cfg)) as (s & -> & _). cbn [mbind option_bind]. cbv zeta.
  eexists. split; [done|]. split; [done|].
  match goal with |- context [oidc_http_hdr_err_out_add r OIDC_HTTP_HDR_SET_COOKIE ?h] =>
    assert (Hh : exists rest, h = (n ^^ "=" ^^ v ^^ String ";" rest)); [|set (hd := h) in *] end.
  { repeat case_match; rewrite ?append_assoc; cbn [String.append]; by eexists. }
  exists [hd]. unfold set_cookies, oidc_http_hdr_err_out_add, apr_table_add. cbn [err_headers_out with_err_headers_out].
  rewrite List.filter_app, map_app. cbn [List.filter fst]. rewrite strcaseeq_refl. split; [done|].
  destruct Hh as [rest ->]. cbn [map]. by rewrite set_cookie_pair_app.
Qed.

Lemma digit_name c : isdigit c = true -> name_char c = true.
Proof. char_cases c. Qed.

Lemma chunk_name_ok n i :
  str_forall name_char n = true -> str_forall name_char (oidc_http_get_chunk_cookie_name n i) = true.
Proof.
  intros Hn. unfold oidc_http_get_chunk_cookie_name, OIDC_HTTP_COOKIE_CHUNKS_SEPARATOR.
  rewrite !str_forall_append, Hn. cbn [str_forall andb name_char]. 
  apply (str_forall_weaken isdigit); [apply digit_name|apply pretty_digits; lia].
Qed.

Lemma count_name_ok n :
  str_forall name_char n = true -> str_forall name_char (oidc_http_get_chunk_count_name n) = true.
Proof. intros Hn. unfold oidc_http_get_chunk_count_name. rewrite !str_forall_append, Hn. done. Qed.

Lemma clear_loop_emits n k i r ex ext :
  str_forall name_char n = true ->
  exists r', clear_loop cfg r n k i ex ext = Some r' /\
    emits r r' (map (fun i => (oidc_http_get_chunk_cookie_name n i, "")) (seq i k)).
Proof.
  intros Hn. revert r i. induction k as [|k IH]; intros r i; [eexists; split; [done|apply emits_nil]|].
  cbn [clear_loop seq map].
  destruct (set_cookie_emits r (oidc_http_get_chunk_cookie_name n i) "" ex ext) as (r1 & -> & E1);
    [by apply chunk_name_ok|done|]. cbn [mbind option_bind].
  destruct (IH r1 (S i)) as (r2 & -> & E2). eexists. split; [done|]. by apply (emits_app r r1 r2 [_]).
Qed.

(** The chunks of a value. *)
Fixpoint chunks (k i size : nat) (n s : string) : list (string * string) :=
  match k with
  | O => []
  | S k' => (oidc_http_get_chunk_cookie_name n i, str_take size s) :: chunks k' (S i) size n (str_drop size s)
  end.

Lemma str_forall_take p n s : str_forall p s = true -> str_forall p (str_take n s) = true /\ str_forall p (str_drop n s) = true.
Proof. rewrite <-(str_take_drop n s) at 1. rewrite str_forall_append. by intros [? ?]%andb_true_iff. Qed.

Lemma set_chunks_emits n size k i r s ex ext :
  str_forall name_char n = true -> str_forall value_char s = true ->
  exists r', set_chunks_loop cfg r n k i s size ex ext = Some r' /\ emits r r' (chunks k i size n s).
Proof.
  intros Hn. revert r i s. induction k as [|k IH]; intros r i s Hs; [eexists; split; [done|apply emits_nil]|].
  cbn [set_chunks_loop chunks]. destruct (str_forall_take value_char size s Hs) as [Ht Hd].
  destruct (set_cookie_emits r (oidc_http_get_chunk_cookie_name n i) (str_take size s) ex ext) as (r1 & -> & E1);
    [by apply chunk_name_ok|done|]. cbn [mbind option_bind].
  destruct (IH r1 (S i) (str_drop size s) Hd) as (r2 & -> & E2). eexists. split; [done|].
  by apply (emits_app r r1 r2 [_]).
Qed.
End emits.

(** ** Lemmas: the jar after a response *)

Lemma browser_fold hs j : fold_left browser_store hs j = fold_left store_pair (map set_cookie_pair hs) j.
Proof.
  revert j. induction hs as [|h hs IH]; intros j; [done|]. cbn [fold_left map]. rewrite IH.
  unfold browser_store, store_pair. by destruct (set_cookie_pair h).
Qed.

Lemma store_get j kv name :
  alist_get name (store_pair j kv) =
  if String.eqb kv.1 name then (if String.eqb kv.2 "" then None else Some kv.2) else alist_get name j.
Proof.
  unfold store_pair. destruct (String.eqb_spec kv.1 name) as [<-|Hne]; destruct (String.eqb kv.2 "").
  - apply alist_get_del_eq.
  - apply alist_get_set_eq.
  - by apply alist_get_del_ne.
  - by apply alist_get_set_ne.
Qed.

Lemma store_ok j kv : jar_ok j -> pair_ok kv -> jar_ok (store_pair j kv).
Proof.
  intros [Hn Hf] Hkv. unfold store_pair. destruct (String.eqb kv.2 "") eqn:E; split.
  - by apply alist_del_NoDup.
  - rewrite Forall_forall in Hf |- *. intros [k v] Hin. apply Hf.
    apply list_elem_of_In, in_alist_del in Hin as [Hin _]. by apply list_elem_of_In.
  - by apply alist_set_NoDup.
  - rewrite Forall_forall in Hf |- *. intros [k v] Hin%list_elem_of_In.
    clear E. destruct kv as [n w]. cbn [fst snd] in Hin. clear Hn.
    induction j as [|[k0 v0] j IH]; cbn [alist_set] in Hin; [destruct Hin as [[= <- <-]|[]]; apply Hkv|].
    destruct (String.eqb_spec n k0) as [<-|Hne]; destruct Hin as [[= <- <-]|Hin].
    + apply Hkv.
    + apply Hf. right. by apply list_elem_of_In.
    + apply Hf. by left.
    + apply IH; [|done]. intros x Hx. apply Hf. by right.
Qed.

Lemma store_fold_ok l j : jar_ok j -> Forall pair_ok l -> jar_ok (fold_left store_pair l j).
Proof.
  revert j. induction l as [|kv l IH]; intros j Hj Hl; [done|]. apply Forall_cons in Hl as [Hkv Hl].
  apply IH; [by apply store_ok|done].
Qed.

(** A name that is not written keeps its cookie. *)
Lemma store_fold_other l j name :
  (forall kv, In kv l -> kv.1 <> name) -> alist_get name (fold_left store_pair l j) = alist_get name j.
Proof.
  revert j. induction l as [|kv l IH]; intros j Hl; [done|]. cbn [fold_left].
  rewrite IH by (intros; apply Hl; by right). rewrite store_get.
  destruct (String.eqb_spec kv.1 name); [|done]. by destruct (Hl kv); [left|].
Qed.

Lemma chunk_name_inj n i j :
  oidc_http_get_chunk_cookie_name n i = oidc_http_get_chunk_cookie_name n j -> i = j.
Proof.
  unfold oidc_http_get_chunk_cookie_name. intros E%append_inj_l%append_inj_l.
  apply (inj pretty) in E. lia.
Qed.

Lemma chunk_name_not_count n i : oidc_http_get_chunk_cookie_name n i <> oidc_http_get_chunk_count_name n.
Proof.
  unfold oidc_http_get_chunk_cookie_name, oidc_http_get_chunk_count_name. intros E%append_inj_l%append_inj_l.
  pose proof (pretty_digits (Z.of_nat i) ltac:(lia)) as Hd. by rewrite E in Hd.
Qed.

Lemma longer_name n s : s <> "" -> (n ^^ s) <> n.
Proof.
  intros Hs E. apply (f_equal String.length) in E. rewrite length_append in E. destruct s; [done|].
  simpl in E. lia.
Qed.

Lemma chunk_name_not_plain n i : oidc_http_get_chunk_cookie_name n i <> n.
Proof. by apply longer_name. Qed.
Lemma count_name_not_plain n : oidc_http_get_chunk_count_name n <> n.
Proof. by apply longer_name. Qed.

Lemma chunks_In k i size n s kv : In kv (chunks k i size n s) ->
  exists j, (i <= j)%nat /\ kv.1 = oidc_http_get_chunk_cookie_name n j.
Proof.
  revert i s. induction k as [|k IH]; intros i s; [done|]. cbn [chunks]. intros [<-|Hin].
  - exists i. split; [lia|done].
  - destruct (IH _ _ Hin) as (j & ? & ?). exists j. split; [lia|done].
Qed.

Lemma chunks_ok k i size n s :
  str_forall name_char n = true -> n <> "" -> str_forall value_char s = true ->
  Forall pair_ok (chunks k i size n s).
Proof.
  intros Hn Hne. revert i s. induction k as [|k IH]; intros i s Hs; [constructor|].
  destruct (str_forall_take value_char size s Hs) as [Ht Hd]. cbn [chunks]. constructor; [|by apply IH].
  split; [by destruct n|]. split; [by apply chunk_name_ok|done].
Qed.

(** Reading the chunks back from a jar that has them. *)
Lemma chunks_loop_read r j n size k i s acc :
  oidc_http_hdr_in_cookie_get r = cookie_header j -> Forall pair_ok j ->
  str_forall name_char n = true ->
  (forall kv, In kv (chunks k i size n s) -> alist_get kv.1 j = Some kv.2) ->
  (String.length s <= k * size)%nat -> (0 < k)%nat ->
  chunks_loop r n k i acc = Some (default "" acc ^^ s).
Proof.
  intros Hr Hall Hn. revert i s acc. induction k as [|k IH]; intros i s acc Hc Hl Hk; [lia|].
  cbn [chunks_loop]. rewrite (get_cookie_jar r j) by (done || by apply chunk_name_ok).
  pose proof (Hc (_, _) ltac:(by left)) as Hget. cbn [fst snd] in Hget. rewrite Hget.
  destruct k as [|k].
  - cbn [chunks_loop]. rewrite str_take_all by lia. done.
  - rewrite (IH (S i) (str_drop size s)).
    + change (default "" (Some ?x)) with x. by rewrite append_assoc, str_take_drop.
    + intros kv Hin. apply Hc. by right.
    + assert (Hlen : String.length (str_drop size s) = (String.length s - size)%nat).
      { clear. revert s. induction size as [|m IHm]; intros [|c s]; simpl; try lia. apply IHm. }
      lia.
    + lia.
Qed.

Lemma chunks_fold_get k i size n s j :
  (0 < size)%nat -> ((k - 1) * size < String.length s)%nat ->
  forall kv, In kv (chunks k i size n s) ->
    alist_get kv.1 (fold_left store_pair (chunks k i size n s) j) = Some kv.2.
Proof.
  intros Hs. revert i s j. induction k as [|k IH]; intros i s j Hl kv Hin; [done|].
  cbn [chunks fold_left] in *. destruct Hin as [<-|Hin].
  - cbn [fst snd]. rewrite store_fold_other.
    + rewrite store_get. cbn [fst snd]. rewrite String.eqb_refl.
      destruct (String.eqb_spec (str_take size s) "") as [E|_]; [|done].
      apply (f_equal String.length) in E. simpl in E. destruct s as [|c s]; [simpl in Hl; lia|].
      destruct size; [lia|done].
    + intros kv' Hin'. destruct (chunks_In _ _ _ _ _ _ Hin') as (m & Hm & ->).
      intros E%chunk_name_inj. lia.
  - destruct k as [|k]; [done|]. apply IH; [|done].
    assert (Hlen : String.length (str_drop size s) = (String.length s - size)%nat).
    { clear. revert s. induction size as [|m IHm]; intros [|c s]; simpl; try lia. apply IHm. }
    cbn [Nat.sub Nat.mul] in Hl |- *. lia.
Qed.

Section roundtrip.
Context {H : Httpd}.
Variable cfg : cookie_cfg.

Lemma clear_emits r n ex ext j :
  str_forall name_char n = true -> n <> "" -> oidc_http_hdr_in_cookie_get r = cookie_header j -> Forall pair_ok j ->
  exists r' l, oidc_http_clear_chunked_cookie cfg r n ex ext = Some r' /\ emits r r' l /\ Forall pair_ok l /\
    (forall kv, In kv l -> kv.1 <> n) /\
    (forall j', alist_get (oidc_http_get_chunk_count_name n) j' = alist_get (oidc_http_get_chunk_count_name n) j ->
       0 <= oidc_http_get_chunked_count r n ->
       _oidc_str_to_int (alist_get (oidc_http_get_chunk_count_name n) (fold_left store_pair l j')) 0 = 0).
Proof.
  intros Hn Hne Hr Hj. unfold oidc_http_clear_chunked_cookie.
  assert (Hcount : oidc_http_get_chunked_count r n =
    _oidc_str_to_int (alist_get (oidc_http_get_chunk_count_name n) j) 0).
  { unfold oidc_http_get_chunked_count. by rewrite (get_cookie_jar r j) by (done || by apply count_name_ok). }
  destruct (Z.ltb_spec 0 (oidc_http_get_chunked_count r n)) as [Hpos|Hle].
  - destruct (clear_loop_emits cfg n (Z.to_nat (oidc_http_get_chunked_count r n)) 0 r ex ext Hn) as (r1 & -> & E1).
    cbn [mbind option_bind].
    destruct (set_cookie_emits cfg r1 (oidc_http_get_chunk_count_name n) "" ex ext) as (r2 & -> & E2);
      [by apply count_name_ok|done|].
    eexists _, _. split; [done|]. split; [by eapply emits_app|]. split; [|split].
    + apply Forall_app. split; [|constructor; [|constructor]].
      * apply Forall_forall. intros kv (i & -> & _)%list_elem_of_fmap.
        split; [by destruct n|]. split; [by apply chunk_name_ok|done].
      * split; [by destruct n|]. split; [by apply count_name_ok|done].
    + intros kv [Hin|[<-|[]]]%in_app_or; [|apply count_name_not_plain].
      apply in_map_iff in Hin as (i & <- & _). apply chunk_name_not_plain.
    + intros j' _ _. rewrite fold_left_app. cbn [fold_left]. rewrite store_get. cbn [fst snd].
      by rewrite !String.eqb_refl.
  - exists r, []. split; [done|]. split; [apply emits_nil|]. split; [constructor|]. split; [done|].
    intros j' Hj' Hge. cbn [fold_left]. rewrite Hj', <-Hcount. lia.
Qed.

Lemma emits_jar r r' l j : set_cookies r = [] -> emits r r' l ->
  fold_left browser_store (set_cookies r') j = fold_left store_pair l j.
Proof.
  intros Hr [_ (hs & E & <-)]. rewrite Hr in E. cbn [app] in E. by rewrite E, browser_fold.
Qed.

(** The chunked case: what the browser sends back. *)
Lemma chunked_read r2 j n v size k :
  jar_ok j -> str_forall name_char n = true -> n <> "" -> str_forall value_char v = true -> v <> "" ->
  (0 < size)%nat -> (0 < k)%nat -> Z.of_nat k <= OIDC_HTTP_COOKIE_CHUNKS_MAX ->
  ((k - 1) * size < String.length v <= k * size)%nat ->
  oidc_http_hdr_in_cookie_get r2 = cookie_header (fold_left store_pair
    (chunks k 0 size n v ++ [(oidc_http_get_chunk_count_name n, pretty (Z.of_nat k))] ++ [(n, "")]) j) ->
  oidc_http_get_chunked_cookie r2 n (Z.of_nat size) = Some v.
Proof.
  intros Hj Hn Hne Hv Hvne Hs Hk Hmax Hlen Hr2. rewrite !fold_left_app in Hr2. cbn [fold_left] in Hr2.
  set (cn := oidc_http_get_chunk_count_name n) in *.
  set (jc := fold_left store_pair (chunks k 0 size n v) j) in *.
  set (j2 := store_pair (store_pair jc (cn, pretty (Z.of_nat k))) (n, "")) in *.
  unfold OIDC_HTTP_COOKIE_CHUNKS_MAX in *.
  destruct (strtol_pretty (Z.of_nat k)) as [_ Hpne]; [unfold LONG_MAX, INT64_MAX; lia|].
  assert (Hj2 : jar_ok j2).
  { unfold j2, jc. apply store_ok; [apply store_ok; [apply store_fold_ok; [done|by apply chunks_ok]|]|].
    - split; [by destruct n|]. split; [by apply count_name_ok|].
      apply (str_forall_weaken isdigit); [|apply pretty_digits; lia]. intros c Hc. by apply name_value, digit_name.
    - done. }
  assert (Hcount : oidc_http_get_chunked_count r2 n = Z.of_nat k).
  { unfold oidc_http_get_chunked_count. rewrite (get_cookie_jar r2 j2); [|done|apply Hj2|by apply count_name_ok].
    fold cn. unfold j2. rewrite !store_get. cbn [fst snd].
    destruct (String.eqb_spec n cn) as [E|_]; [by destruct (count_name_not_plain n)|].
    rewrite String.eqb_refl. destruct (String.eqb_spec (pretty (Z.of_nat k)) ""); [done|].
    apply str_to_int_pretty. unfold INT_MAX. lia. }
  unfold oidc_http_get_chunked_cookie. rewrite Hcount.
  destruct (Z.eqb_spec (Z.of_nat size) 0); [lia|]. destruct (Z.eqb_spec (Z.of_nat k) 0); [lia|].
  destruct (Z.ltb_spec (Z.of_nat k) 0); [lia|]. unfold OIDC_HTTP_COOKIE_CHUNKS_MAX.
  destruct (Z.ltb_spec 99 (Z.of_nat k)); [lia|]. cbn [orb]. rewrite Nat2Z.id.
  rewrite (chunks_loop_read r2 j2 n size k 0 v None); [done|done|apply Hj2|done| |lia|lia].
  intros kv Hin. unfold j2. rewrite !store_get. cbn [fst snd].
  destruct (chunks_In _ _ _ _ _ _ Hin) as (m & _ & Em). rewrite Em.
  destruct (String.eqb_spec n (oidc_http_get_chunk_cookie_name n m)) as [E|_];
    [by destruct (chunk_name_not_plain n m)|].
  destruct (String.eqb_spec cn (oidc_http_get_chunk_cookie_name n m)) as [E|_];
    [by destruct (chunk_name_not_count n m)|].
  rewrite <-Em. apply chunks_fold_get; [done|lia|done].
Qed.

(** The plain case. *)
Lemma plain_read r r2 j n v size ex ext :
  jar_ok j -> oidc_http_hdr_in_cookie_get r = cookie_header j -> set_cookies r = [] ->
  str_forall name_char n = true -> n <> "" -> str_forall value_char v = true -> v <> "" ->
  (size <> 0 -> 0 <= oidc_http_get_chunked_count r n) ->
  exists r', (r1 ← oidc_http_set_cookie cfg r n v ex ext;
              r1 ← oidc_http_clear_chunked_cookie cfg r1 n ex ext; Some (true, r1)) = Some (true, r') /\
    (oidc_http_hdr_in_cookie_get r2 = cookie_header (fold_left browser_store (set_cookies r') j) ->
     oidc_http_get_chunked_cookie r2 n size = Some v).
Proof.
  intros Hj Hr Hrc Hn Hne Hv Hvne Hcnt.
  destruct (set_cookie_emits cfg r n v ex ext Hn Hv) as (r1 & -> & E1). cbn [mbind option_bind].
  assert (Hr1 : oidc_http_hdr_in_cookie_get r1 = cookie_header j).
  { rewrite <-Hr. unfold oidc_http_hdr_in_cookie_get, oidc_http_hdr_in_get. by rewrite (em_in _ _ _ E1). }
  destruct (clear_emits r1 n ex ext j Hn Hne Hr1 (proj2 Hj)) as (r' & l & -> & E2 & Hok & Hl & Hc).
  cbn [mbind option_bind]. exists r'. split; [done|]. intros Hr2.
  rewrite (emits_jar r r' _ j Hrc (emits_app _ _ _ _ _ E1 E2)) in Hr2.
  assert (Hj2 : jar_ok (fold_left store_pair ([(n, v)] ++ l) j)).
  { apply store_fold_ok; [done|]. apply Forall_app. split; [|done]. by constructor. }
  assert (Hplain : oidc_http_get_cookie r2 n = Some v).
  { rewrite (get_cookie_jar r2 _ n Hr2 (proj2 Hj2) Hn). rewrite fold_left_app, store_fold_other by done.
    cbn [fold_left]. rewrite store_get. cbn [fst snd]. rewrite String.eqb_refl.
    by destruct (String.eqb_spec v ""). }
  unfold oidc_http_get_chunked_cookie. destruct (Z.eqb_spec size 0) as [|Hnz]; [done|].
  assert (oidc_http_get_chunked_count r2 n = 0) as ->; [|done].
  unfold oidc_http_get_chunked_count. rewrite (get_cookie_jar r2 _ _ Hr2 (proj2 Hj2) (count_name_ok n Hn)).
  rewrite fold_left_app. apply Hc.
  - cbn [fold_left]. rewrite store_get. cbn [fst].
    destruct (String.eqb_spec n (oidc_http_get_chunk_count_name n)) as [E|]; [|done].
    by destruct (count_name_not_plain n).
  - specialize (Hcnt Hnz). unfold oidc_http_get_chunked_count in *.
    rewrite (get_cookie_jar r1 j) by (done || apply Hj || by apply count_name_ok).
    by rewrite (get_cookie_jar r j) in Hcnt by (done || apply Hj || by apply count_name_ok).
Qed.
(** Writing an empty value removes the cookie and its chunks. *)
Lemma empty_gone r j j' n size ex ext :
  jar_ok j -> jar_ok j' -> alist_get (oidc_http_get_chunk_count_name n) j' = alist_get (oidc_http_get_chunk_count_name n) j ->
  oidc_http_hdr_in_cookie_get r = cookie_header j -> str_forall name_char n = true -> n <> "" -> 0 <= oidc_http_get_chunked_count r n ->
  exists r' l, oidc_http_set_chunked_cookie cfg r n (Some "") ex size ext = Some (true, r') /\ emits r r' ((n, "") :: l) /\ same_but_out r r' /\
    alist_get n (fold_left store_pair ((n, "") :: l) j') = None /\
    forall r2, oidc_http_hdr_in_cookie_get r2 = cookie_header (fold_left store_pair ((n, "") :: l) j') -> oidc_http_get_chunked_cookie r2 n size = None.
Proof.
  intros Hj Hj' Hjj Hr Hn Hne Hcnt. unfold oidc_http_set_chunked_cookie. cbn [_oidc_strlen]. change (default "(null)" (Some "")) with "".
  change (zlen "") with 0. change ((0 <? 0) && (0 <? size)) with false. change (0 =? 0) with true. rewrite orb_false_r.
  destruct (set_cookie_emits cfg r n "" ex ext Hn eq_refl) as (r1 & R1 & E1). pose proof (http_set_cookie_keeps cfg _ _ _ _ _ _ R1) as K1.
  assert (Hr1 : oidc_http_hdr_in_cookie_get r1 = cookie_header j).
  { rewrite <-Hr. unfold oidc_http_hdr_in_cookie_get, oidc_http_hdr_in_get. by rewrite (em_in _ _ _ E1). }
  destruct (clear_emits r1 n ex ext j Hn Hne Hr1 (proj2 Hj)) as (r' & l & R2 & E2 & Hok & Hl & Hc).
  pose proof (http_clear_keeps cfg _ _ _ _ _ R2) as K2. cbv zeta. rewrite R1. cbn [mbind option_bind]. rewrite R2. cbn [mbind option_bind].
  assert (Hnone : alist_get n (fold_left store_pair ((n, "") :: l) j') = None).
  { cbn [fold_left]. rewrite store_fold_other by done. rewrite store_get. cbn [fst snd]. by rewrite String.eqb_refl. }
  exists r', l. split; [by destruct (size =? 0)|]. split; [exact (emits_app _ _ _ _ _ E1 E2)|]. split; [by eapply same_but_out_trans|].
  split; [exact Hnone|]. intros r2 Hr2.
  assert (Hj2 : jar_ok (fold_left store_pair ((n, "") :: l) j')).
  { apply store_fold_ok; [done|]. by constructor. }
  assert (Hplain : oidc_http_get_cookie r2 n = None) by (by rewrite (get_cookie_jar r2 _ n Hr2 (proj2 Hj2) Hn)).
  unfold oidc_http_get_chunked_cookie. destruct (Z.eqb_spec size 0) as [|Hnz]; [done|].
  assert (oidc_http_get_chunked_count r2 n = 0) as ->; [|done].
  unfold oidc_http_get_chunked_count. rewrite (get_cookie_jar r2 _ _ Hr2 (proj2 Hj2) (count_name_ok n Hn)).
  cbn [fold_left]. apply Hc.
  - rewrite store_get. cbn [fst]. destruct (String.eqb_spec n (oidc_http_get_chunk_count_name n)) as [E|]; [|done].
    by destruct (count_name_not_plain n).
  - unfold oidc_http_get_chunked_count in *. rewrite (get_cookie_jar r1 j) by (done || apply Hj || by apply count_name_ok).
    by rewrite (get_cookie_jar r j) in Hcnt by (done || apply Hj || by apply count_name_ok).
Qed.
End roundtrip.

(** Writing a cookie, in chunks or not, and reading it back. *)
Lemma set_chunked_cookie_read {H : Httpd} (cfg : cookie_cfg) (r r2 : request) (j : jar)
  (n v : string) (ex size : Z) (ext : option string) :
  jar_ok j -> oidc_http_hdr_in_cookie_get r = cookie_header j -> set_cookies r = [] ->
  str_forall name_char n = true -> n <> "" -> str_forall value_char v = true -> v <> "" ->
  0 <= size -> (size <> 0 -> 0 <= oidc_http_get_chunked_count r n) ->
  exists ok r', oidc_http_set_chunked_cookie cfg r n (Some v) ex size ext = Some (ok, r') /\
    (ok = false -> OIDC_HTTP_COOKIE_CHUNKS_MAX * size < zlen v /\ size <> 0) /\
    (ok = true ->
     oidc_http_hdr_in_cookie_get r2 = cookie_header (fold_left browser_store (set_cookies r') j) ->
     oidc_http_get_chunked_cookie r2 n size = Some v).
Proof.
  intros Hj Hr Hrc Hn Hne Hv Hvne Hs Hcnt. unfold oidc_http_set_chunked_cookie.
  cbn [_oidc_strlen]. change (default "(null)" (Some v)) with v. cbv zeta.
  assert (Hz : 0 < zlen v) by (unfold zlen; destruct v; [done|simpl; lia]).
  destruct ((size =? 0) || _) eqn:E.
  { destruct (plain_read cfg r r2 j n v size ex ext) as (r' & Hr' & Hread); try done.
    exists true, r'. split; [exact Hr'|]. split; [done|]. by intros _. }
  bool_hyps. apply Z.eqb_neq in H0. destruct (Z.eqb_spec (zlen v) 0); [lia|].
  set (cnt := Z.quot (zlen v + size - 1) size).
  assert (Hq : size * cnt <= zlen v + size - 1 < size * (cnt + 1)).
  { unfold cnt. rewrite Z.quot_div_nonneg by lia.
    pose proof (Z.div_mod (zlen v + size - 1) size ltac:(lia)).
    pose proof (Z.mod_pos_bound (zlen v + size - 1) size ltac:(lia)). nia. }
  assert (Hpos : 0 < cnt) by nia.
  destruct (Z.ltb_spec OIDC_HTTP_COOKIE_CHUNKS_MAX cnt) as [Hbig|Hok].
  { exists false, r. split; [done|]. split; [|done]. intros _. split; [|done]. nia. }
  destruct (set_chunks_emits cfg n (Z.to_nat size) (Z.to_nat cnt) 0 r v ex ext Hn Hv) as (r1 & -> & E1).
  cbn [mbind option_bind].
  destruct (set_cookie_emits cfg r1 (oidc_http_get_chunk_count_name n) (pretty cnt) ex ext) as (r3 & -> & E3);
    [by apply count_name_ok| |].
  { apply (str_forall_weaken isdigit); [|apply pretty_digits; lia]. intros c Hc. by apply name_value, digit_name. }
  cbn [mbind option_bind]. destruct (set_cookie_emits cfg r3 n "" ex ext Hn) as (r4 & -> & E4); [done|].
  cbn [mbind option_bind]. exists true, r4. split; [done|]. split; [done|]. intros _ Hr2.
  rewrite (emits_jar r r4 _ j Hrc (emits_app _ _ _ _ _ E1 (emits_app _ _ _ _ _ E3 E4))) in Hr2.
  rewrite <-(Z2Nat.id size) by lia. replace cnt with (Z.of_nat (Z.to_nat cnt)) in Hr2 at 2 by lia.
  unfold zlen in *.
  apply (chunked_read r2 j n v (Z.to_nat size) (Z.to_nat cnt)); try done; try lia.
Qed.

(** ** Properties *)

(** A cookie value written with any chunk size is what the module reads back
    once the browser has processed the response, in as many chunks as needed and
    whatever cookies it had before; a value that needs more than the maximum number
    of chunks is refused. *)
Theorem chunked_cookie_roundtrip {H : Httpd} (cfg : cookie_cfg) (r r2 : request) (j : jar)
  (n v : string) (ex size : Z) (ext : option string) :
  jar_ok j -> oidc_http_hdr_in_cookie_get r = cookie_header j -> set_cookies r = [] ->
  str_forall name_char n = true -> n <> "" -> str_forall value_char v = true -> v <> "" ->
  0 <= size -> (size <> 0 -> 0 <= oidc_http_get_chunked_count r n) ->
  exists ok r', oidc_http_set_chunked_cookie cfg r n (Some v) ex size ext = Some (ok, r') /\
    (ok = false -> OIDC_HTTP_COOKIE_CHUNKS_MAX * size < zlen v /\ size <> 0) /\
    (ok = true ->
     oidc_http_hdr_in_cookie_get r2 = cookie_header (fold_left browser_store (set_cookies r') j) ->
     oidc_http_get_chunked_cookie r2 n size = Some v).
Proof. apply set_chunked_cookie_read. Qed.

Definition demo_cookie_cfg : cookie_cfg := mk_cookie_cfg None None true OIDC_HDR_NONE (fun _ => "date").

(** The request of a browser that processed the response. *)
Definition demo_next (j : jar) (res : option (bool * request)) : request :=
  match res with
  | Some (_, r') =>
      match cookie_header (fold_left browser_store (set_cookies r') j) with
      | Some h => with_headers_in [("Cookie", h)] demo_request
      | None => demo_request
      end
  | None => demo_request
  end.

Lemma chunked_cookie_roundtrip_witness :
  oidc_http_get_chunked_cookie (demo_next [] (oidc_http_set_chunked_cookie (H:=HttpdModel.httpd)
    demo_cookie_cfg demo_request "sess" (Some "abcdefghij") (-1) 4 None)) "sess" 4 = Some "abcdefghij".
Proof.
  destruct (chunked_cookie_roundtrip (H:=HttpdModel.httpd) demo_cookie_cfg demo_request
    (demo_next [] (oidc_http_set_chunked_cookie (H:=HttpdModel.httpd)
      demo_cookie_cfg demo_request "sess" (Some "abcdefghij") (-1) 4 None)) [] "sess" "abcdefghij" (-1) 4 None)
    as (ok & r' & Hset & _ & Hread).
  - split; constructor.
  - reflexivity.
  - reflexivity.
  - reflexivity.
  - discriminate.
  - reflexivity.
  - discriminate.
  - lia.
  - intros _. vm_compute. discriminate.
  - revert Hset Hread. vm_compute. intros E Hread. injection E as <- <-. apply Hread; reflexivity.
Defined.

(** A chunk counter that the browser holds with a negative number is
    never cleared when a cookie is written, and makes every later read of the cookie
    fail. *)
Theorem negative_counter_sticks {H : Httpd} (cfg : cookie_cfg) (r : request) (n : string)
  (ex size : Z) (ext : option string) :
  oidc_http_get_chunked_count r n < 0 -> size <> 0 ->
  oidc_http_clear_chunked_cookie cfg r n ex ext = Some r /\
  oidc_http_get_chunked_cookie r n size = None.
Proof.
  intros Hc Hs. unfold oidc_http_clear_chunked_cookie, oidc_http_get_chunked_cookie.
  destruct (Z.ltb_spec 0 (oidc_http_get_chunked_count r n)); [lia|]. split; [done|].
  destruct (Z.eqb_spec size 0); [done|]. destruct (Z.eqb_spec (oidc_http_get_chunked_count r n) 0); [lia|].
  destruct (Z.ltb_spec (oidc_http_get_chunked_count r n) 0); [done|lia].
Qed.

Definition demo_negative : string * string := ("Cookie", "sess_chunks=-1; sess=v").

Lemma negative_counter_sticks_witness :
  oidc_http_clear_chunked_cookie (H:=HttpdModel.httpd) demo_cookie_cfg
    (with_headers_in [demo_negative] demo_request) "sess" (-1) None
    = Some (with_headers_in [demo_negative] demo_request) /\
  oidc_http_get_chunked_cookie (with_headers_in [demo_negative] demo_request) "sess" 4 = None.
Proof.
  apply (negative_counter_sticks (H:=HttpdModel.httpd) demo_cookie_cfg
    (with_headers_in [demo_negative] demo_request) "sess" (-1) 4 None);
    [vm_compute; reflexivity|discriminate].
Defined.
