(* ===== verification/Util.v ===== *)
(** * src/util/util.c and src/util/random.c: time, randomness and trace identifiers

    Times are [apr_time_t], microseconds in a signed 64-bit integer.  A C [double] is an
    exact rational, an infinity or a NaN.  Random bytes come from a source
    [nat -> option (list Z)] that answers a request for that many bytes, or fails. *)

From S2P Require Import Prelude Cstr Apr StrUtil Http Form.
From Stdlib Require Import QArith.
#[local] Open Scope Z_scope.

(** ** Time *)

Inductive double := Fin (q : Q) | Inf (negative : bool) | NaN.

(** [seconds > 0]. *)
Definition double_pos (d : double) : bool :=
  match d with Fin q => 0 <? Qnum q | Inf negative => negb negative | NaN => false end.
(** [seconds >= (double)m]. *)
Definition double_ge (d : double) (m : Z) : bool :=
  match d with Fin q => m * Zpos (Qden q) <=? Qnum q | Inf negative => negb negative | NaN => false end.
(** [(apr_time_t)seconds], which discards the fraction. *)
Definition double_to_Z (d : double) : Z :=
  match d with Fin q => Z.quot (Qnum q) (Zpos (Qden q)) | _ => 0 end.

(** [(double)z] for a non-negative [z]: 53 significant bits, ties to even. *)
Definition double_of_pos (z : Z) : Z :=
  let k := Z.log2 z - 52 in
  if k <=? 0 then z
  else
    let q := z / 2 ^ k in
    let rest := z mod 2 ^ k in
    let up := (2 ^ (k - 1) <? rest) || ((rest =? 2 ^ (k - 1)) && Z.odd q) in
    (if up then q + 1 else q) * 2 ^ k.
Definition double_of_Z (z : Z) : double :=
  Fin (inject_Z (if z <? 0 then - double_of_pos (- z) else double_of_pos z)).

Definition APR_USEC_PER_SEC : Z := 1000000.
Definition APR_INT64_MAX : Z := INT64_MAX.
Definition apr_time_sec (t : Z) : Z := Z.quot t APR_USEC_PER_SEC.
Definition apr_time_from_sec (sec : Z) : Z := sec * APR_USEC_PER_SEC.

Definition OIDC_UTIL_APR_TIME_SEC_MAX : Z := Z.quot APR_INT64_MAX APR_USEC_PER_SEC.

Definition oidc_util_apr_time_from_sec (seconds : double) : Z :=
  if negb (double_pos seconds) then 0
  else if double_ge seconds OIDC_UTIL_APR_TIME_SEC_MAX then APR_INT64_MAX
  else apr_time_from_sec (double_to_Z seconds).

Definition oidc_util_apr_time_add (a b : Z) : Z :=
  if (a <? 0) || (b <? 0) then if b <? a then a else b
  else if APR_INT64_MAX - b <? a then APR_INT64_MAX
  else a + b.

(** ** Randomness *)

Definition rng : Type := nat -> option (list Z).

Definition _oidc_util_rand_bytes (rand : rng) (len : nat) : option (list Z) := rand len.

Definition oidc_util_rand_hex_str (rand : rng) (len : nat) : option string :=
  match _oidc_util_rand_bytes rand len with
  | Some bytes => Some (oidc_util_hex_encode bytes)
  | None => None
  end.

Definition UINT_MOD : Z := 2 ^ 32.

(** The first value that is not in the short tail, out of the 32-bit values that the
    source produces one after the other ([None] is a failure of the source); the outer
    [option] is the fuel. *)
Fixpoint rand_int_loop (draws : list (option Z)) (mod_ reject : Z) : option Z :=
  match draws with
  | [] => None
  | None :: _ => Some 0
  | Some v :: draws' => if v <? reject then rand_int_loop draws' mod_ reject else Some (v mod mod_)
  end.

Definition oidc_util_rand_int (draws : list (option Z)) (mod_ : Z) : option Z :=
  if mod_ =? 0 then Some 0
  else rand_int_loop draws mod_ ((0 - mod_) mod UINT_MOD mod mod_).

(** ** The traceparent header *)

Definition OIDC_TP_TRACE_ID_LEN : nat := 16.
Definition OIDC_TP_PARENT_ID_LEN : nat := 8.
Definition OIDC_TRACE_PARENT_GENERATE : Z := 2.
Definition OIDC_REQUEST_STATE_TRACE_ID : string := "t".
Definition OIDC_HTTP_HDR_TRACE_PARENT : string := "traceparent".

(** The settings that are read. *)
Record trace_cfg := mk_trace_cfg {
  trace_parent : Z;
  trace_hostname : option string;
  metrics_hook_data : bool
}.

(** [hash = hash * P2 + *p], over an unsigned 64-bit integer and signed characters. *)
Fixpoint span_hash (hash : Z) (span : string) : Z :=
  match span with
  | "" => hash
  | String c s => span_hash ((hash * 31 + schar c) mod 2 ^ 64) s
  end.

(** The bytes of an integer in memory, lowest first. *)
Fixpoint le_bytes (n : nat) (z : Z) : list Z :=
  match n with O => [] | S n' => z mod 256 :: le_bytes n' (z / 256) end.

Fixpoint str_bytes (s : string) : list Z :=
  match s with "" => [] | String c s' => code c :: str_bytes s' end.

Definition oidc_util_set_trace_parent (rand : rng) (c : trace_cfg) (r : request) (span : option string)
  : request :=
  if negb (trace_parent c =? OIDC_TRACE_PARENT_GENERATE) then r
  else
    let hostname := default "localhost" (trace_hostname c) in
    let v := oidc_request_state_get r OIDC_REQUEST_STATE_TRACE_ID in
    let parent_id :=
      match span with
      | None => take OIDC_TP_PARENT_ID_LEN (str_bytes hostname ++ replicate OIDC_TP_PARENT_ID_LEN 0)
      | Some span => le_bytes OIDC_TP_PARENT_ID_LEN (span_hash 7 span)
      end in
    let s_parent_id := oidc_util_hex_encode parent_id in
    let trace :=
      match v with
      | None =>
          match rand OIDC_TP_TRACE_ID_LEN with
          | None => None
          | Some bytes =>
              let s_trace_id := oidc_util_hex_encode bytes in
              Some (s_trace_id, oidc_request_state_set r OIDC_REQUEST_STATE_TRACE_ID (Some s_trace_id))
          end
      | Some v => Some (v, r)
      end in
    match trace with
    | None => r
    | Some (s_trace_id, r) =>
        let trace_flags := if metrics_hook_data c then "01" else "00" in
        oidc_http_hdr_in_set r OIDC_HTTP_HDR_TRACE_PARENT
          (Some ("00-" ^^ s_trace_id ^^ "-" ^^ s_parent_id ^^ "-" ^^ trace_flags))
    end.

(** ** Lemmas *)

Lemma double_of_pos_exact z : 0 <= z < 2 ^ 53 -> double_of_pos z = z.
Proof.
  intros Hz. unfold double_of_pos. destruct (Z.leb_spec (Z.log2 z - 52) 0) as [|Hk]; [done|].
  destruct (Z.eq_dec z 0) as [->|]; [done|].
  assert (Z.log2 z < 53) by (apply Z.log2_lt_pow2; lia). lia.
Qed.

Lemma double_of_pos_large z : 2 ^ 53 <= z -> 2 ^ 53 <= double_of_pos z.
Proof.
  intros Hz. unfold double_of_pos. destruct (Z.leb_spec (Z.log2 z - 52) 0) as [|Hk]; [done|].
  set (k := Z.log2 z - 52) in *. cbv zeta.
  assert (Hlog : 2 ^ Z.log2 z <= z) by (apply Z.log2_spec; lia).
  assert (Hq : 2 ^ 52 <= z / 2 ^ k).
  { apply Z.div_le_lower_bound; [lia|]. rewrite <-Z.pow_add_r by lia.
    replace (k + 52) with (Z.log2 z) by lia. done. }
  assert (2 ^ 1 <= 2 ^ k) by (apply Z.pow_le_mono_r; lia).
  destruct (_ || _); nia.
Qed.

(** Whole seconds convert exactly below the bound and saturate from there on. *)
Lemma time_from_sec_int z : 0 <= z <= INT64_MAX ->
  oidc_util_apr_time_from_sec (double_of_Z z) =
    if OIDC_UTIL_APR_TIME_SEC_MAX <=? z then APR_INT64_MAX else apr_time_from_sec z.
Proof.
  intros Hz. unfold oidc_util_apr_time_from_sec, double_of_Z, double_pos, double_ge, double_to_Z.
  assert (Hm : 0 < OIDC_UTIL_APR_TIME_SEC_MAX < 2 ^ 53) by (vm_compute; split; reflexivity).
  replace (z <? 0) with false by (symmetry; apply Z.ltb_ge; lia). cbn [Qnum Qden inject_Z].
  rewrite Z.quot_1_r, Z.mul_1_r. destruct (Z.ltb_spec z (2 ^ 53)) as [Hs|Hs].
  - rewrite double_of_pos_exact by lia. destruct (Z.ltb_spec 0 z); cbn [negb]; [done|].
    assert (z = 0) as -> by lia. by destruct (Z.leb_spec OIDC_UTIL_APR_TIME_SEC_MAX 0); [lia|].
  - pose proof (double_of_pos_large z Hs) as Hl.
    replace (0 <? double_of_pos z) with true by (symmetry; apply Z.ltb_lt; lia). cbn [negb].
    rewrite (proj2 (Z.leb_le _ (double_of_pos z))) by lia. by rewrite (proj2 (Z.leb_le _ z)) by lia.
Qed.

Lemma hex_encode_length l : String.length (oidc_util_hex_encode l) = (2 * length l)%nat.
Proof. induction l as [|b l IH]; simpl; [done|]. rewrite IH. lia. Qed.

(** ** Properties *)

(** [b] is the sum of [a] and [d] as far as [apr_time_t] goes. *)
Definition saturated_sum (a d : Z) : Z := Z.min (a + d) APR_INT64_MAX.

(** Converting a number of seconds to a time gives the time of that whole second
    for every positive finite number below the bound, the largest time from the bound
    on, and 0 for negative numbers and NaN; adding times saturates.  So a far-future
    expiry never folds back into the past. *)
Theorem apr_time_saturates (d : double) (a b : Z) :
  0 <= a <= INT64_MAX -> 0 <= b <= INT64_MAX ->
  0 <= oidc_util_apr_time_from_sec d <= APR_INT64_MAX /\
  (forall q, d = Fin q -> 0 < Qnum q -> Qnum q < OIDC_UTIL_APR_TIME_SEC_MAX * Zpos (Qden q) ->
     exists s, oidc_util_apr_time_from_sec d = s * APR_USEC_PER_SEC /\
       s * Zpos (Qden q) <= Qnum q < (s + 1) * Zpos (Qden q)) /\
  oidc_util_apr_time_add a b = saturated_sum a b.
Proof.
  intros Ha Hb. assert (Hm : 0 < OIDC_UTIL_APR_TIME_SEC_MAX /\
    OIDC_UTIL_APR_TIME_SEC_MAX * APR_USEC_PER_SEC <= APR_INT64_MAX /\ 0 < APR_USEC_PER_SEC /\ APR_INT64_MAX = INT64_MAX)
    by (vm_compute; repeat split; discriminate).
  assert (Hq : forall n p, 0 < n -> let s := Z.quot n (Zpos p) in s * Zpos p <= n < (s + 1) * Zpos p).
  { intros n p Hn s. unfold s. rewrite Z.quot_div_nonneg by lia.
    pose proof (Z.div_mod n (Zpos p) ltac:(lia)). pose proof (Z.mod_pos_bound n (Zpos p) ltac:(lia)). lia. }
  split; [|split].
  - unfold oidc_util_apr_time_from_sec, apr_time_from_sec, INT64_MAX in *.
    destruct (double_pos d) eqn:Hp; cbn [negb]; [|lia]. destruct (double_ge d _) eqn:Hge; [lia|].
    destruct d as [q|neg|]; cbn [double_pos double_ge double_to_Z] in *; [|by destruct neg|done].
    apply Z.ltb_lt in Hp. apply Z.leb_gt in Hge. specialize (Hq _ (Qden q) Hp). cbv zeta in Hq.
    set (s := Z.quot _ _) in *. assert (0 <= s < OIDC_UTIL_APR_TIME_SEC_MAX) by nia. nia.
  - intros q -> Hp Hlt. exists (Z.quot (Qnum q) (Zpos (Qden q))). split; [|by apply Hq].
    unfold oidc_util_apr_time_from_sec. cbn [double_pos double_ge double_to_Z].
    rewrite (proj2 (Z.ltb_lt _ _) Hp), (proj2 (Z.leb_gt _ _) Hlt). done.
  - unfold oidc_util_apr_time_add, saturated_sum.
    rewrite (proj2 (Z.ltb_ge a 0)), (proj2 (Z.ltb_ge b 0)) by lia. cbn [orb].
    destruct (Z.ltb_spec (APR_INT64_MAX - b) a); lia.
Qed.

Lemma apr_time_saturates_witness :
  oidc_util_apr_time_add 5 INT64_MAX = INT64_MAX /\
  0 <= oidc_util_apr_time_from_sec (Fin (7 # 2)) <= APR_INT64_MAX.
Proof.
  pose proof (apr_time_saturates (Fin (7 # 2)) 5 INT64_MAX ltac:(vm_compute; split; discriminate)
    ltac:(vm_compute; split; discriminate)) as (E1 & _ & E2).
  split; [rewrite E2; vm_compute; reflexivity|exact E1].
Defined.

(** A random number below [mod] is drawn without bias: the values that are
    accepted form a range of a multiple of [mod] numbers, the result is the first
    accepted value modulo [mod], and a value that is drawn is accepted with a
    probability above one half. *)
Theorem rand_int_unbiased (mod_ : Z) (rejected : list Z) (v : Z) (rest : list (option Z)) :
  0 < mod_ < UINT_MOD ->
  let reject := (0 - mod_) mod UINT_MOD mod mod_ in
  Forall (fun x => x < reject) rejected -> reject <= v < UINT_MOD ->
  (UINT_MOD - reject) mod mod_ = 0 /\ 2 * reject < UINT_MOD /\
  oidc_util_rand_int (map Some rejected ++ Some v :: rest) mod_ = Some (v mod mod_) /\
  0 <= v mod mod_ < mod_.
Proof.
  intros Hm reject Hr Hv.
  assert (Hneg : (0 - mod_) mod UINT_MOD = UINT_MOD - mod_).
  { symmetry. apply (Z.mod_unique_pos _ _ (-1)); lia. }
  assert (Hrej : 0 <= reject < mod_) by (apply Z.mod_pos_bound; lia).
  pose proof (Z.div_mod (UINT_MOD - mod_) mod_ ltac:(lia)) as Hd.
  assert (Hre : reject = (UINT_MOD - mod_) mod mod_) by (unfold reject; by rewrite Hneg).
  rewrite <-Hre in Hd. set (k := (UINT_MOD - mod_) / mod_) in *.
  assert (0 <= k) by (apply Z.div_pos; lia). split; [|split; [|split]].
  - replace (UINT_MOD - reject) with ((k + 1) * mod_) by lia. apply Z.mod_mul. lia.
  - assert (mod_ <= (k + 1) * mod_) by nia. nia.
  - unfold oidc_util_rand_int. destruct (Z.eqb_spec mod_ 0); [lia|]. fold reject.
    induction Hr as [|x l Hx Hl IH]; cbn [map app rand_int_loop].
    + by rewrite (proj2 (Z.ltb_ge v reject)) by lia.
    + by rewrite (proj2 (Z.ltb_lt x reject)) by lia.
  - apply Z.mod_pos_bound. lia.
Qed.

Lemma rand_int_unbiased_witness :
  oidc_util_rand_int [Some 0; Some 17] 10 = Some 7.
Proof.
  exact (proj1 (proj2 (proj2 (rand_int_unbiased 10 [0] 17 [] ltac:(vm_compute; split; reflexivity)
    ltac:(constructor; [vm_compute; reflexivity|constructor]) ltac:(vm_compute; split; [discriminate|reflexivity]))))).
Defined.
