(* ===== verification/HttpClient.v ===== *)
(** * src/http.c: requests to other servers

    Building and sending a request with libcurl, whose part is a parameter: what the network delivers
    in each attempt.  The callbacks that receive it, the limit on the size of a response,
    the retries and every option of the handle are those of the code. *)

From S2P Require Import Prelude Cstr Apr StrUtil Jansson Json Http Form Url Cookie Util.

Definition OIDC_CURL_RESPONSE_DATA_SIZE_MAX : Z := 1024 * 1024 * 10.
Definition OIDC_CURLOPT_SSL_OPTIONS_ENV_VAR_NAME : string := "CURLOPT_SSL_OPTIONS".
Definition OIDC_USER_AGENT_ENV_VAR : string := "OIDC_USER_AGENT".
Definition OIDC_CURL_INTERFACE_ENV_VAR : string := "OIDC_CURL_INTERFACE".
Definition OIDC_HTTP_CONTENT_TYPE_JSON : string := "application/json".
Definition OIDC_HTTP_HDR_DPOP : string := "DPoP".
Definition OIDC_TRACE_PARENT_OFF : Z := 0.

(** ** The callbacks *)

(** [hdrs]: the headers asked for, and their values so far. *)
Abbreviation hdrs_t := (gmap string string).

(** The number of bytes taken, and the buffer; a number other than the size of the data
    makes libcurl give up. *)
Definition oidc_http_response_data (contents : string) (memory : option string) : Z * option string :=
  let size := zlen (default "" memory) in
  let realsize := zlen contents in
  if OIDC_CURL_RESPONSE_DATA_SIZE_MAX <? u64 (size + realsize) then (0, memory)
  else (realsize, Some (default "" memory ^^ contents)).

Fixpoint skip_spaces (s : string) : string :=
  match s with
  | String c s' => if Ascii.eqb c " " then skip_spaces s' else s
  | "" => ""
  end.

(** The string without the characters at its end that satisfy [p]. *)
Fixpoint strip_right (p : ascii -> bool) (s : string) : string :=
  match s with
  | "" => ""
  | String c s =>
      match strip_right p s with
      | "" => if p c then "" else String c ""
      | t => String c t
      end
  end.

Section callbacks.
Context {H : Httpd}.

Definition oidc_http_response_header (buffer : string) (hdrs : hdrs_t) : hdrs_t :=
  if decide (size hdrs = 0%nat) then hdrs
  else
    let hdr := cstr buffer in
    match strchr hdr ":" with
    | None => hdrs
    | Some value =>
        let name := str_before hdr ":" in
        let value := if zlen name <? zlen buffer then strip_right is_crlf (skip_spaces (str_drop 1 value)) else "" in
        match List.find (fun h_name => _oidc_strnatcasecmp (Some name) (Some h_name) =? 0) (map_to_list hdrs).*1 with
        | Some h_name => <[h_name := value]> hdrs
        | None => hdrs
        end
    end.

(** ** libcurl *)

Definition CURLE_OK : Z := 0.
Definition CURLE_WRITE_ERROR : Z := 23.
Definition CURLE_OPERATION_TIMEDOUT : Z := 28.

Inductive curlopt :=
  | CURLOPT_HEADER | CURLOPT_NOPROGRESS | CURLOPT_NOSIGNAL | CURLOPT_TCP_KEEPALIVE | CURLOPT_FOLLOWLOCATION
  | CURLOPT_MAXREDIRS | CURLOPT_TIMEOUT | CURLOPT_CONNECTTIMEOUT | CURLOPT_REDIR_PROTOCOLS_STR | CURLOPT_PROTOCOLS_STR
  | CURLOPT_SSL_VERIFYPEER | CURLOPT_SSL_VERIFYHOST | CURLOPT_SSL_OPTIONS | CURLOPT_SSLVERSION | CURLOPT_CAINFO
  | CURLOPT_USERAGENT | CURLOPT_INTERFACE | CURLOPT_PROXY | CURLOPT_PROXYUSERPWD | CURLOPT_PROXYAUTH
  | CURLOPT_HTTPAUTH | CURLOPT_USERPWD | CURLOPT_SSLCERT | CURLOPT_SSLKEY | CURLOPT_KEYPASSWD | CURLOPT_POSTFIELDS
  | CURLOPT_POST | CURLOPT_HTTPHEADER | CURLOPT_COOKIE | CURLOPT_URL.

#[global] Instance curlopt_eq_dec : EqDecision curlopt.
Proof. solve_decision. Defined.

Inductive optval := OLong (n : Z) | OStr (s : string) | OList (l : list string).

(** The calls of [curl_easy_setopt] on a handle, in order: the last one for an option counts. *)
Abbreviation handle := (list (curlopt * optval)).

Fixpoint getopt (o : curlopt) (h : handle) : option optval :=
  match h with
  | [] => None
  | (o', v) :: h =>
      match getopt o h with
      | Some w => Some w
      | None => if decide (o = o') then Some v else None
      end
  end.

(** What libcurl hands to the callbacks during an attempt and, unless a callback refuses
    its data, the result of [curl_easy_perform] and the status of the response. *)
Inductive event := Header (line : string) | Data (bytes : string).
Record transfer := mk_transfer { t_events : list event; t_code : Z; t_http_code : Z }.

(** Whether a handle can be had, and the attempts. *)
Record network := mk_network { handle_ok : bool; attempt : handle -> nat -> transfer }.

(** The two contexts of the callbacks. *)
Record received := mk_received { d_buf : option string; h_buf : hdrs_t }.

Fixpoint deliver (es : list event) (s : received) : bool * received :=
  match es with
  | [] => (true, s)
  | Header line :: es => deliver es (mk_received (d_buf s) (oidc_http_response_header line (h_buf s)))
  | Data bytes :: es =>
      let '(n, memory) := oidc_http_response_data bytes (d_buf s) in
      let s := mk_received memory (h_buf s) in
      if n =? zlen bytes then deliver es s else (false, s)
  end.

Definition curl_easy_perform (t : transfer) (s : received) : Z * received :=
  let '(ok, s) := deliver (t_events t) s in
  (if ok then t_code t else CURLE_WRITE_ERROR, s).

(** ** The request *)

Record oidc_http_timeout_t := mk_timeout {
  request_timeout : Z; connect_timeout : Z; retries : Z; retry_interval : Z }.

(** [auth_type] is -1 when it is not set. *)
Record oidc_http_outgoing_proxy_t := mk_proxy {
  host_port : option string; username_password : option string; auth_type : Z }.

(** What [oidc_http_user_agent] puts together, and the settings that are read. *)
Record client_cfg := mk_client_cfg {
  default_user_agent : string; ca_bundle_path : option string; cl_trace_parent : Z }.

(** The arguments that [oidc_http_get], [oidc_http_post_form] and [oidc_http_post_json] pass on. *)
Record http_args := mk_http_args {
  basic_auth : option string; access_token : option string; dpop : option string;
  ssl_validate_server : bool; http_timeout : oidc_http_timeout_t; outgoing_proxy : oidc_http_outgoing_proxy_t;
  pass_cookies : option (list string);
  ssl_cert : option string; ssl_key : option string; ssl_key_pwd : option string }.

Definition ssl_options : list (curlopt * string * Z) :=
  [(CURLOPT_SSL_OPTIONS, "CURLSSLOPT_ALLOW_BEAST", 1); (CURLOPT_SSL_OPTIONS, "CURLSSLOPT_NO_REVOKE", 2);
   (CURLOPT_SSL_OPTIONS, "CURLSSLOPT_NO_PARTIALCHAIN", 4); (CURLOPT_SSL_OPTIONS, "CURLSSLOPT_REVOKE_BEST_EFFORT", 8);
   (CURLOPT_SSL_OPTIONS, "CURLSSLOPT_NATIVE_CA", 16);
   (CURLOPT_SSLVERSION, "CURL_SSLVERSION_TLSv1_0", 4); (CURLOPT_SSLVERSION, "CURL_SSLVERSION_TLSv1_1", 5);
   (CURLOPT_SSLVERSION, "CURL_SSLVERSION_TLSv1_2", 6); (CURLOPT_SSLVERSION, "CURL_SSLVERSION_TLSv1_3", 7);
   (CURLOPT_SSLVERSION, "CURL_SSLVERSION_MAX_TLSv1_0", Z.shiftl 4 16);
   (CURLOPT_SSLVERSION, "CURL_SSLVERSION_MAX_TLSv1_1", Z.shiftl 5 16);
   (CURLOPT_SSLVERSION, "CURL_SSLVERSION_MAX_TLSv1_2", Z.shiftl 6 16);
   (CURLOPT_SSLVERSION, "CURL_SSLVERSION_MAX_TLSv1_3", Z.shiftl 7 16)].

Definition oidc_http_set_curl_ssl_options (r : request) : handle :=
  match apr_table_get (subprocess_env r) OIDC_CURLOPT_SSL_OPTIONS_ENV_VAR_NAME with
  | None => []
  | Some env_var_value =>
      omap (fun '(o, name, v) => if nonnull (strstr env_var_value name) then Some (o, OLong v) else None) ssl_options
  end.

Definition oidc_http_user_agent (c : client_cfg) (r : request) : string :=
  default (default_user_agent c) (apr_table_get (subprocess_env r) OIDC_USER_AGENT_ENV_VAR).

Definition oidc_http_interface (r : request) : option string :=
  apr_table_get (subprocess_env r) OIDC_CURL_INTERFACE_ENV_VAR.

Definition set_str (o : curlopt) (v : option string) : handle :=
  match v with Some s => [(o, OStr s)] | None => [] end.

Definition oidc_http_request_setup_ca_bundle (c : client_cfg) : handle := set_str CURLOPT_CAINFO (ca_bundle_path c).

Definition oidc_http_request_setup_proxy (p : oidc_http_outgoing_proxy_t) : handle :=
  match host_port p with
  | None => []
  | Some hp =>
      [(CURLOPT_PROXY, OStr hp)] ++ set_str CURLOPT_PROXYUSERPWD (username_password p) ++
      (if auth_type p =? -1 then [] else [(CURLOPT_PROXYAUTH, OLong (auth_type p))])
  end.

Definition oidc_http_request_build_header_list (r : request) (c : client_cfg)
  (content_type access_token dpop : option string) : list string :=
  match access_token with
  | Some t => [OIDC_HTTP_HDR_AUTHORIZATION ^^ ": " ^^ (if nonnull dpop then "DPoP" else "Bearer") ^^ " " ^^ t]
  | None => []
  end ++
  match content_type with Some t => [OIDC_HTTP_HDR_CONTENT_TYPE ^^ ": " ^^ t] | None => [] end ++
  match oidc_http_hdr_in_get r OIDC_HTTP_HDR_TRACE_PARENT with
  | Some t => if cl_trace_parent c =? OIDC_TRACE_PARENT_OFF then [] else [OIDC_HTTP_HDR_TRACE_PARENT ^^ ": " ^^ t]
  | None => []
  end ++
  match dpop with Some d => [OIDC_HTTP_HDR_DPOP ^^ ": " ^^ d] | None => [] end.

(** The loop over the names of the cookies. *)
Definition pass_cookie (r : request) (acc : option string) (cookie_name : string) : option string :=
  match oidc_http_get_cookie r cookie_name with
  | None => acc
  | Some cookie_value =>
      Some (match acc with
            | None => cookie_name ^^ "=" ^^ cookie_value
            | Some s => s ^^ "; " ^^ cookie_name ^^ "=" ^^ cookie_value
            end)
  end.

Definition oidc_http_request_pass_cookies (r : request) (pass_cookies : option (list string)) : handle :=
  match pass_cookies with
  | None => []
  | Some names => set_str CURLOPT_COOKIE (foldl (pass_cookie r) None names)
  end.

(** The options of a request for [url], in the order they are set. *)
Definition request_handle (c : client_cfg) (r : request) (a : http_args) (url : string)
  (data content_type : option string) : handle :=
  let peer := ssl_validate_server a in
  let non_empty v := match v with Some s => if String.eqb s "" then None else Some s | None => None end in
  [(CURLOPT_HEADER, OLong 0); (CURLOPT_NOPROGRESS, OLong 1); (CURLOPT_NOSIGNAL, OLong 1); (CURLOPT_TCP_KEEPALIVE, OLong 1);
   (CURLOPT_FOLLOWLOCATION, OLong 1); (CURLOPT_MAXREDIRS, OLong 5);
   (CURLOPT_TIMEOUT, OLong (request_timeout (http_timeout a)));
   (CURLOPT_CONNECTTIMEOUT, OLong (connect_timeout (http_timeout a)));
   (CURLOPT_REDIR_PROTOCOLS_STR, OStr "http,https"); (CURLOPT_PROTOCOLS_STR, OStr "http,https");
   (CURLOPT_SSL_VERIFYPEER, OLong (if peer then 1 else 0)); (CURLOPT_SSL_VERIFYHOST, OLong (if peer then 2 else 0))] ++
  (oidc_http_set_curl_ssl_options r ++
  oidc_http_request_setup_ca_bundle c ++
  set_str CURLOPT_USERAGENT (non_empty (Some (oidc_http_user_agent c r))) ++
  set_str CURLOPT_INTERFACE (non_empty (oidc_http_interface r)) ++
  oidc_http_request_setup_proxy (outgoing_proxy a) ++
  match basic_auth a with Some b => [(CURLOPT_HTTPAUTH, OLong 1); (CURLOPT_USERPWD, OStr b)] | None => [] end ++
  set_str CURLOPT_SSLCERT (ssl_cert a) ++ set_str CURLOPT_SSLKEY (ssl_key a) ++
  set_str CURLOPT_KEYPASSWD (ssl_key_pwd a) ++
  match data with Some d => [(CURLOPT_POSTFIELDS, OStr d); (CURLOPT_POST, OLong 1)] | None => [] end ++
  match oidc_http_request_build_header_list r c content_type (access_token a) (dpop a) with
  | [] => []
  | l => [(CURLOPT_HTTPHEADER, OList l)]
  end ++
  oidc_http_request_pass_cookies r (pass_cookies a)) ++
  [(CURLOPT_URL, OStr url)].

(** The loop over the attempts from number [i] on, of which [n] are left: the result, the
    status of the last response and what was received. *)
Fixpoint retry_loop (perform : nat -> transfer) (n i : nat) (s : received) : bool * Z * received :=
  match n with
  | O => (false, 0, s)
  | S n =>
      let t := perform i in
      let '(res, s) := curl_easy_perform t s in
      if res =? CURLE_OK then (true, t_http_code t, s)
      else if res =? CURLE_OPERATION_TIMEDOUT then (false, 0, s)
      else retry_loop perform n (S i) s
  end.

Definition oidc_http_request_perform_with_retries (perform : nat -> transfer) (tm : oidc_http_timeout_t) (s : received)
  : bool * Z * received :=
  retry_loop perform (Z.to_nat (retries tm + 1)) 0 s.

(** The response, its status and the headers asked for. *)
Record http_result := mk_http_result { hr_response : option string; hr_code : Z; hr_hdrs : hdrs_t }.

(** [None] is [FALSE]; the response is a C string. *)
Definition oidc_http_request (net : network) (c : client_cfg) (r : request) (a : http_args)
  (url : option string) (data content_type : option string) (response_hdrs : hdrs_t) : option http_result :=
  url ← url;
  if negb (handle_ok net) then None
  else
    let h := request_handle c r a url data content_type in
    let '(rv, http_code, s) :=
      oidc_http_request_perform_with_retries (attempt net h) (http_timeout a) (mk_received None response_hdrs) in
    if (rv : bool) then Some (mk_http_result (cstr <$> d_buf s) http_code (h_buf s)) else None.

Definition oidc_http_get (net : network) (c : client_cfg) (r : request) (a : http_args)
  (url : option string) (params : option table) (response_hdrs : hdrs_t) : option http_result :=
  oidc_http_request net c r a (oidc_http_query_encoded_url url params) None None response_hdrs.

Definition oidc_http_post_form (net : network) (c : client_cfg) (r : request) (a : http_args)
  (url : option string) (params : option table) (response_hdrs : hdrs_t) : option http_result :=
  oidc_http_request net c r a url (oidc_http_form_encoded_data params) (Some OIDC_HTTP_CONTENT_TYPE_FORM_ENCODED)
    response_hdrs.

Definition oidc_http_post_json `{Jansson} (net : network) (c : client_cfg) (r : request) (a : http_args)
  (url : option string) (json : option json_t) (response_hdrs : hdrs_t) : option http_result :=
  let data := j ← json; oidc_json_encode (Some j) (Z.lor OIDC_JSON_PRESERVE_ORDER OIDC_JSON_COMPACT) in
  oidc_http_request net c r a url data (Some OIDC_HTTP_CONTENT_TYPE_JSON) response_hdrs.
End callbacks.
Abbreviation handle := (list (curlopt * optval)).

(** ** Proxy authentication *)

(** The constants of libcurl. *)
Definition CURLAUTH_NONE : Z := 0.
Definition CURLAUTH_BASIC : Z := 1.
Definition CURLAUTH_DIGEST : Z := 2.
Definition CURLAUTH_NEGOTIATE : Z := 4.
Definition CURLAUTH_NTLM : Z := 8.
Definition CURLAUTH_ANY : Z := 2 ^ 64 - 1 - 16.

Definition oidc_http_proxy_auth_options : list string := ["basic"; "digest"; "ntlm"; "any"; "negotiate"].

Definition oidc_http_proxy_s2auth (arg : option string) : Z :=
  if _oidc_strcmp arg (Some "basic") =? 0 then CURLAUTH_BASIC
  else if _oidc_strcmp arg (Some "digest") =? 0 then CURLAUTH_DIGEST
  else if _oidc_strcmp arg (Some "ntlm") =? 0 then CURLAUTH_NTLM
  else if _oidc_strcmp arg (Some "any") =? 0 then CURLAUTH_ANY
  else if _oidc_strcmp arg (Some "negotiate") =? 0 then CURLAUTH_NEGOTIATE
  else CURLAUTH_NONE.

(** ** Lemmas *)

Lemma getopt_app o h1 h2 : getopt o (h1 ++ h2) = match getopt o h2 with Some v => Some v | None => getopt o h1 end.
Proof.
  induction h1 as [|[o' v] h1 IH]; cbn [app getopt]; [by destruct (getopt o h2)|]. rewrite IH.
  by destruct (getopt o h2).
Qed.

Lemma getopt_none o h : Forall (fun p => p.1 <> o) h -> getopt o h = None.
Proof. induction 1 as [|[o' v] h Ho Hh IH]; cbn in *; [done|]. rewrite IH. by rewrite decide_False by congruence. Qed.

(** The options that are set once, at the start or at the end, whatever the environment says. *)
Definition pinned (o : curlopt) : bool :=
  match o with
  | CURLOPT_SSL_VERIFYPEER | CURLOPT_SSL_VERIFYHOST | CURLOPT_PROTOCOLS_STR | CURLOPT_REDIR_PROTOCOLS_STR
  | CURLOPT_MAXREDIRS | CURLOPT_TIMEOUT | CURLOPT_CONNECTTIMEOUT | CURLOPT_URL => true
  | _ => false
  end.

Definition free_of_pinned (h : handle) : Prop := Forall (fun p => pinned p.1 = false) h.

Lemma free_getopt o h : pinned o = true -> free_of_pinned h -> getopt o h = None.
Proof. intros Ho Hh. apply getopt_none. eapply Forall_impl; [exact Hh|]. intros p Hp <-. cbn in Hp. congruence. Qed.

Lemma set_str_free o v : pinned o = false -> free_of_pinned (set_str o v).
Proof. destruct v; cbn; repeat constructor; done. Qed.

Lemma ssl_options_free r : free_of_pinned (oidc_http_set_curl_ssl_options r).
Proof.
  unfold oidc_http_set_curl_ssl_options, free_of_pinned. case_match; [|constructor].
  apply Forall_forall. intros p ([[o n] v] & Hin & Hp)%list_elem_of_omap. case_match; [|done]. simplify_eq.
  unfold ssl_options in Hin. set_unfold in Hin. cbn. naive_solver.
Qed.

Lemma free_app h1 h2 : free_of_pinned h1 -> free_of_pinned h2 -> free_of_pinned (h1 ++ h2).
Proof. apply Forall_app_2. Qed.
Lemma free_nil : free_of_pinned [].
Proof. constructor. Qed.
Lemma free_cons p h : pinned p.1 = false -> free_of_pinned h -> free_of_pinned (p :: h).
Proof. by constructor. Qed.

#[export] Hint Resolve set_str_free ssl_options_free free_app free_nil free_cons : oidc.

Lemma request_handle_split {H : Httpd} c r a url data content_type : exists h,
  free_of_pinned h /\
  request_handle c r a url data content_type =
  ([(CURLOPT_HEADER, OLong 0); (CURLOPT_NOPROGRESS, OLong 1); (CURLOPT_NOSIGNAL, OLong 1); (CURLOPT_TCP_KEEPALIVE, OLong 1);
    (CURLOPT_FOLLOWLOCATION, OLong 1); (CURLOPT_MAXREDIRS, OLong 5);
    (CURLOPT_TIMEOUT, OLong (request_timeout (http_timeout a)));
    (CURLOPT_CONNECTTIMEOUT, OLong (connect_timeout (http_timeout a)));
    (CURLOPT_REDIR_PROTOCOLS_STR, OStr "http,https"); (CURLOPT_PROTOCOLS_STR, OStr "http,https");
    (CURLOPT_SSL_VERIFYPEER, OLong (if ssl_validate_server a then 1 else 0));
    (CURLOPT_SSL_VERIFYHOST, OLong (if ssl_validate_server a then 2 else 0))] ++ h ++ [(CURLOPT_URL, OStr url)]).
Proof.
  unfold request_handle. cbv zeta. eexists. split; [|reflexivity].
  unfold oidc_http_request_setup_ca_bundle, oidc_http_request_setup_proxy, oidc_http_request_pass_cookies.
  repeat apply free_app; repeat case_match; auto with oidc.
Qed.

(** *** Receiving a response *)

(** The state after the first [k] attempts. *)
Fixpoint after {H : Httpd} (perform : nat -> transfer) (s : received) (k : nat) : received :=
  match k with O => s | S k => (curl_easy_perform (perform k) (after perform s k)).2 end.
(** The result of attempt [i]. *)
Definition result {H : Httpd} (perform : nat -> transfer) (s : received) (i : nat) : Z :=
  (curl_easy_perform (perform i) (after perform s i)).1.

Definition retried (code : Z) : Prop := code <> CURLE_OK /\ code <> CURLE_OPERATION_TIMEDOUT.

Lemma retry_loop_spec {H : Httpd} perform s0 n i code s' :
  retry_loop perform n i (after perform s0 i) = (true, code, s') <->
  exists k, (i <= k < i + n)%nat /\ (forall j, (i <= j < k)%nat -> retried (result perform s0 j)) /\
    result perform s0 k = CURLE_OK /\ code = t_http_code (perform k) /\ s' = after perform s0 (S k).
Proof.
  revert i. induction n as [|n IH]; intros i; cbn [retry_loop].
  { split; [done|]. intros (k & ? & _). lia. }
  pose proof (eq_refl : result perform s0 i = (curl_easy_perform (perform i) (after perform s0 i)).1) as Hres.
  pose proof (eq_refl : after perform s0 (S i) = (curl_easy_perform (perform i) (after perform s0 i)).2) as Haft.
  destruct (curl_easy_perform (perform i) (after perform s0 i)) as [res s]. cbn [fst snd] in *.
  destruct (Z.eqb_spec res CURLE_OK) as [->|Hok].
  - split.
    + intros [= <- <-]. exists i. split; [lia|]. split; [intros; lia|]. by rewrite Haft.
    + intros (k & Hk & Hj & Hr & -> & ->). destruct (decide (k = i)) as [->|Hne]; [by rewrite Haft|].
      destruct (Hj i ltac:(lia)) as [Hn _]. congruence.
  - destruct (Z.eqb_spec res CURLE_OPERATION_TIMEDOUT) as [->|Hto].
    + split; [done|]. intros (k & Hk & Hj & Hr & _). destruct (decide (k = i)) as [->|Hne]; [congruence|].
      destruct (Hj i ltac:(lia)) as [_ Hn]. congruence.
    + rewrite <-Haft, IH. split; intros (k & Hk & Hj & Hr & Hc & Hs); exists k.
      * split; [lia|]. split; [|done]. intros j Hjk. destruct (decide (j = i)) as [->|]; [by rewrite Hres|]. apply Hj. lia.
      * assert (k <> i) by congruence. split; [lia|]. split; [|done]. intros j Hjk. apply Hj. lia.
Qed.

(** Chunks of a size that libcurl delivers ([CURL_MAX_READ_SIZE]). *)
Definition chunk_ok (e : event) : Prop := match e with Data b => zlen b <= 10 * 1024 * 1024 | Header _ => True end.

Definition within_limit (s : received) : Prop := zlen (default "" (d_buf s)) <= OIDC_CURL_RESPONSE_DATA_SIZE_MAX.

Lemma deliver_limit {H : Httpd} es s : Forall chunk_ok es -> within_limit s -> within_limit (deliver es s).2.
Proof.
  intros He. revert s. induction He as [|e es Hc He IH]; intros s Hs; [done|]. destruct e as [line|b]; cbn [deliver].
  - by apply IH.
  - unfold oidc_http_response_data, within_limit in *. cbn [chunk_ok] in Hc. pose proof (Zle_0_nat (String.length b)).
    fold (zlen b) in *. destruct (Z.ltb_spec OIDC_CURL_RESPONSE_DATA_SIZE_MAX (u64 (zlen (default "" (d_buf s)) + zlen b))) as [Hl|Hl].
    + destruct (0 =? zlen b); [by apply IH|done].
    + rewrite Z.eqb_refl. apply IH. cbn [d_buf default from_option id]. rewrite zlen_append.
      pose proof (Zle_0_nat (String.length (default "" (d_buf s)))). fold (zlen (default "" (d_buf s))) in *.
      rewrite u64_small in Hl; [done|]. unfold OIDC_CURL_RESPONSE_DATA_SIZE_MAX in Hs. lia.
Qed.

Lemma after_limit {H : Httpd} perform s k : (forall i, Forall chunk_ok (t_events (perform i))) ->
  within_limit s -> within_limit (after perform s k).
Proof.
  intros Hp Hs. induction k as [|k IH]; [done|]. cbn [after]. unfold curl_easy_perform.
  pose proof (deliver_limit _ _ (Hp k) IH) as Hd. by destruct (deliver _ _).
Qed.

Lemma cstr_length s : zlen (cstr s) <= zlen s.
Proof. unfold zlen. induction s as [|c s IH]; cbn [cstr]; [done|]. destruct (code c =? 0); cbn [String.length]; lia. Qed.

(** ** Properties *)

(** C36: a request succeeds exactly when an attempt succeeds, at most [retries] attempts after the first,
    and every attempt before it failed other than by a timeout; the status is
    that of the successful attempt, what is returned is what the callbacks received, and a response is
    never larger than 10 MiB. *)
Theorem http_request_retries {H : Httpd} (net : network) (c : client_cfg) (r : request) (a : http_args)
  (url : string) (data content_type : option string) (hdrs : hdrs_t) :
  let perform := attempt net (request_handle c r a url data content_type) in
  let s0 := mk_received None hdrs in
  (forall i, Forall chunk_ok (t_events (perform i))) ->
  forall res,
  oidc_http_request net c r a (Some url) data content_type hdrs = Some res <->
  handle_ok net = true /\ zlen (default "" (hr_response res)) <= OIDC_CURL_RESPONSE_DATA_SIZE_MAX /\
  exists k, Z.of_nat k <= retries (http_timeout a) /\
    (forall j, (j < k)%nat -> retried (result perform s0 j)) /\ result perform s0 k = CURLE_OK /\
    res = mk_http_result (cstr <$> d_buf (after perform s0 (S k))) (t_http_code (perform k))
            (h_buf (after perform s0 (S k))).
Proof.
  cbv zeta. intros Hc res. unfold oidc_http_request. cbn [mbind option_bind]. cbv zeta.
  set (perform := attempt net _). set (s0 := mk_received None hdrs).
  assert (Hlim : forall k, zlen (default "" (cstr <$> d_buf (after perform s0 k))) <= OIDC_CURL_RESPONSE_DATA_SIZE_MAX).
  { intros k. assert (Hl : within_limit (after perform s0 k)) by (apply after_limit; [done|by unfold within_limit]).
    unfold within_limit in Hl. destruct (d_buf _) as [b|]; cbn in *; [pose proof (cstr_length b)|]; lia. }
  destruct (handle_ok net); cbn [negb]; [|split; [done|by intros [? _]]].
  unfold oidc_http_request_perform_with_retries. change s0 with (after perform s0 0) at 1.
  destruct (retry_loop _ _ _ _) as [[rv code] s] eqn:E. split.
  - destruct rv; [|done]. intros [= <-]. split; [done|].
    apply retry_loop_spec in E as (k & Hk & Hj & Hr & -> & ->). split; [apply Hlim|].
    exists k. split; [lia|]. split; [|done]. intros j Hjk. apply Hj. lia.
  - intros (_ & _ & k & Hk & Hj & Hr & ->).
    assert (E' : retry_loop perform (Z.to_nat (retries (http_timeout a) + 1)) 0 (after perform s0 0)
      = (true, t_http_code (perform k), after perform s0 (S k))).
    { apply retry_loop_spec. exists k. split; [lia|]. split; [|done]. intros j Hjk. apply Hj. lia. }
    rewrite E' in E. by simplify_eq.
Qed.

(** What was received in an attempt that failed stays in the buffer: the response of the
    next attempt is appended to it. *)
Theorem http_retry_keeps_partial {H : Httpd} (net : network) (c : client_cfg) (r : request) (a : http_args)
  (url : string) (data content_type : option string) (hdrs : hdrs_t) (part body : string) (failed http_code : Z) :
  let perform := attempt net (request_handle c r a url data content_type) in
  handle_ok net = true -> 1 <= retries (http_timeout a) -> retried failed ->
  perform 0%nat = mk_transfer [Data part] failed 0 -> perform 1%nat = mk_transfer [Data body] CURLE_OK http_code ->
  zlen part + zlen body <= OIDC_CURL_RESPONSE_DATA_SIZE_MAX ->
  oidc_http_request net c r a (Some url) data content_type hdrs =
  Some (mk_http_result (Some (cstr (part ^^ body))) http_code hdrs).
Proof.
  cbv zeta. intros Hok Hre [Hf1 Hf2] H0 H1 Hlen. unfold oidc_http_request. cbn [mbind option_bind]. cbv zeta.
  rewrite Hok. cbn [negb]. unfold oidc_http_request_perform_with_retries.
  replace (Z.to_nat (retries (http_timeout a) + 1)) with (S (S (Z.to_nat (retries (http_timeout a) - 1)))) by lia.
  assert (Hp : 0 <= zlen part /\ 0 <= zlen body) by (unfold zlen; lia).
  assert (Hd : forall b o, zlen (default "" o) + zlen b <= OIDC_CURL_RESPONSE_DATA_SIZE_MAX ->
    0 <= zlen (default "" o) -> 0 <= zlen b -> oidc_http_response_data b o = (zlen b, Some (default "" o ^^ b))).
  { intros b o Hs Ho Hb. unfold oidc_http_response_data.
    rewrite u64_small by (unfold OIDC_CURL_RESPONSE_DATA_SIZE_MAX in Hs; lia).
    destruct (Z.ltb_spec OIDC_CURL_RESPONSE_DATA_SIZE_MAX (zlen (default "" o) + zlen b)); [lia|done]. }
  cbn [retry_loop]. rewrite H0. unfold curl_easy_perform at 1. cbn [t_events t_code deliver d_buf h_buf].
  rewrite Hd by (cbn [default from_option id]; change (zlen "") with 0; lia). rewrite Z.eqb_refl.
  cbn [deliver default from_option id String.append].
  apply Z.eqb_neq in Hf1 as ->. apply Z.eqb_neq in Hf2 as ->.
  rewrite H1. unfold curl_easy_perform. cbn [t_events t_code t_http_code deliver d_buf h_buf].
  rewrite Hd by (cbn [default from_option id]; lia). rewrite Z.eqb_refl. cbn [deliver default from_option id]. rewrite Z.eqb_refl. done.
Qed.

(** Whatever environment variables, headers, cookies, proxies and credentials a request is made
    with, it is sent to the given URL over HTTP or HTTPS only, also after at most five redirects, and the
    certificate of the server is verified unless that was switched off. *)
Theorem request_options_pinned {H : Httpd} (c : client_cfg) (r : request) (a : http_args) (url : string)
  (data content_type : option string) :
  let opt o := getopt o (request_handle c r a url data content_type) in
  opt CURLOPT_URL = Some (OStr url) /\
  opt CURLOPT_PROTOCOLS_STR = Some (OStr "http,https") /\ opt CURLOPT_REDIR_PROTOCOLS_STR = Some (OStr "http,https") /\
  opt CURLOPT_MAXREDIRS = Some (OLong 5) /\
  opt CURLOPT_SSL_VERIFYPEER = Some (OLong (if ssl_validate_server a then 1 else 0)) /\
  opt CURLOPT_SSL_VERIFYHOST = Some (OLong (if ssl_validate_server a then 2 else 0)) /\
  opt CURLOPT_TIMEOUT = Some (OLong (request_timeout (http_timeout a))) /\
  opt CURLOPT_CONNECTTIMEOUT = Some (OLong (connect_timeout (http_timeout a))).
Proof.
  cbv zeta. destruct (request_handle_split c r a url data content_type) as (h & Hh & ->).
  repeat split; rewrite !getopt_app; rewrite (free_getopt _ h) by done; reflexivity.
Qed.

(** ** Witnesses *)

Definition demo_args : http_args :=
  mk_http_args None None None true (mk_timeout 30 10 1 500) (mk_proxy None None (-1)) None None None None.
Definition demo_client_cfg : client_cfg := mk_client_cfg "agent" None 0.
(** The connection breaks after the first bytes and is made again. *)
Definition demo_network (part : string) : network :=
  mk_network true (fun _ i => match i with
    | O => mk_transfer [Data part] 56 0
    | _ => mk_transfer [Header "Content-Type: application/json"; Data "{}"] CURLE_OK 200
    end).
Definition demo_broken : network :=
  mk_network true (fun _ i => match i with O => mk_transfer [Data "{"] 56 0 | _ => mk_transfer [Data "{}"] CURLE_OK 200 end).

Lemma http_request_retries_witness : exists res,
  oidc_http_request (H:=HttpdModel.httpd) (demo_network "") demo_client_cfg demo_request demo_args
    (Some "https://op.example.com") None None ∅ = Some res /\
  zlen (default "" (hr_response res)) <= OIDC_CURL_RESPONSE_DATA_SIZE_MAX.
Proof.
  pose proof (http_request_retries (H:=HttpdModel.httpd) (demo_network "") demo_client_cfg demo_request demo_args
    "https://op.example.com" None None ∅) as T. cbv zeta in T.
  assert (Hc : forall i, Forall chunk_ok (t_events (attempt (demo_network "") (request_handle
    demo_client_cfg demo_request demo_args "https://op.example.com" None None) i)))
    by (intros [|i]; repeat constructor; vm_compute; discriminate).
  specialize (T Hc (mk_http_result (Some "{}") 200 ∅)). eexists. split.
  - apply T. split; [reflexivity|]. split; [vm_compute; discriminate|]. exists 1%nat.
    split; [vm_compute; discriminate|]. split; [|split; reflexivity].
    intros [|j] Hj; [split; discriminate|lia].
  - vm_compute. discriminate.
Defined.

Lemma http_retry_keeps_partial_witness :
  oidc_http_request (H:=HttpdModel.httpd) demo_broken demo_client_cfg demo_request demo_args
    (Some "https://op.example.com") None None ∅ = Some (mk_http_result (Some "{{}") 200 ∅).
Proof.
  apply (http_retry_keeps_partial (H:=HttpdModel.httpd) demo_broken demo_client_cfg demo_request demo_args _ None None ∅
    "{" "{}" 56 200); [reflexivity|vm_compute; discriminate|split; discriminate|reflexivity|reflexivity|].
  vm_compute. discriminate.
Defined.
