(* ===== verification/Pkce.v ===== *)
(** * src/proto/pkce.c: the methods of PKCE (RFC 7636)

    A method is a record of operations, as in the code; "none" has no operations. *)

From S2P Require Import Prelude Cstr Http Base64 Jose Jwt Util.

Definition OIDC_PKCE_METHOD_PLAIN : string := "plain".
Definition OIDC_PKCE_METHOD_S256 : string := "S256".
Definition OIDC_PKCE_METHOD_NONE : string := "none".
Definition OIDC_PROTO_CODE_VERIFIER_LENGTH : nat := 32.

Definition str_of_bytes (bs : list Z) : string := String.string_of_list_ascii (map ascii_of_Z bs).

(** [oidc_util_rand_str] of src/util/random.c; [None] is [FALSE]. *)
Definition oidc_util_rand_str `{Base64} (rand : rng) (len : nat) : option string :=
  bytes ← _oidc_util_rand_bytes rand len;
  let '(n, str) := oidc_util_base64url_encode (Some (str_of_bytes bytes)) (Z.of_nat len) OIDC_BASE64URL_PADDING_STRIP in
  if n <=? 0 then None else str.

(** A [NULL] operation is [None]; an operation that fails returns [None]. *)
Record oidc_proto_pkce_t := mk_pkce {
  pkce_method : string;
  pkce_state : option (rng -> option string);
  pkce_verifier : option (string -> option string);
  pkce_challenge : option (string -> option string)
}.

Section pkce.
Context {O : Jose} {B64 : Base64}.

Definition oidc_proto_pkce_code_verifier_gen (rand : rng) : option string :=
  oidc_util_rand_str rand OIDC_PROTO_CODE_VERIFIER_LENGTH.

Definition oidc_proto_pkce_state_plain (rand : rng) : option string := oidc_proto_pkce_code_verifier_gen rand.
Definition oidc_proto_pkce_challenge_plain (state : string) : option string := Some state.
Definition oidc_proto_pkce_verifier_plain (state : string) : option string := Some state.

Definition oidc_proto_pkce_state_s256 (rand : rng) : option string := oidc_proto_pkce_code_verifier_gen rand.
Definition oidc_proto_pkce_challenge_s256 (state : string) : option string :=
  oidc_util_hash_string_and_base64url_encode OIDC_JOSE_ALG_SHA256 state.
Definition oidc_proto_pkce_verifier_s256 (state : string) : option string := Some state.

Definition oidc_pkce_plain : oidc_proto_pkce_t :=
  mk_pkce OIDC_PKCE_METHOD_PLAIN (Some oidc_proto_pkce_state_plain) (Some oidc_proto_pkce_verifier_plain)
    (Some oidc_proto_pkce_challenge_plain).
Definition oidc_pkce_s256 : oidc_proto_pkce_t :=
  mk_pkce OIDC_PKCE_METHOD_S256 (Some oidc_proto_pkce_state_s256) (Some oidc_proto_pkce_verifier_s256)
    (Some oidc_proto_pkce_challenge_s256).
Definition oidc_pkce_none : oidc_proto_pkce_t := mk_pkce OIDC_PKCE_METHOD_NONE None None None.
End pkce.

(** ** Properties *)

Lemma str_of_bytes_length bs : String.length (str_of_bytes bs) = length bs.
Proof. unfold str_of_bytes. induction bs as [|b bs IH]; cbn in *; [done|]. by rewrite IH. Qed.

(** Base64url text consists of characters that a code verifier may have (RFC 7636, section 4.1). *)
Lemma base64url_unreserved s : str_forall base64url_char s = true -> str_forall unreserved s = true.
Proof. apply str_forall_impl. intros c. char_cases c. Qed.

Lemma rand_str_decodes {B64 : Base64} {BS : Base64Spec B64} rand len bytes :
  (0 < len)%nat -> rand len = Some bytes -> length bytes = len ->
  exists v, oidc_util_rand_str rand len = Some v /\ str_forall base64url_char v = true /\
    oidc_util_base64url_decode (Some v) = (Z.of_nat len, Some (str_of_bytes bytes)).
Proof.
  intros Hlen Hr Hb. unfold oidc_util_rand_str, _oidc_util_rand_bytes. rewrite Hr. cbn [mbind option_bind].
  assert (Hz : zlen (str_of_bytes bytes) = Z.of_nat len) by (unfold zlen; rewrite str_of_bytes_length; lia).
  destruct (base64url_encode_strip (str_of_bytes bytes)) as (v & He & Hp & Hc & Hd).
  { intros E. rewrite E in Hz. unfold zlen in Hz. cbn in Hz. lia. }
  rewrite <-Hz, He. destruct (Z.leb_spec (zlen v) 0); [lia|]. exists v. by rewrite Hd.
Qed.

(** A code verifier carries the 32 random bytes it was made of, in characters that a verifier may
    have, and it is sent unchanged; with the method S256 the code challenge is the unpadded base64url of
    its SHA-256 digest, and with "plain" the verifier itself. *)
Theorem pkce_challenge_verifier {O : Jose} {JS : JoseSpec O} {B64 : Base64} {BS : Base64Spec B64}
  (rand : rng) (bytes : list Z) :
  rand OIDC_PROTO_CODE_VERIFIER_LENGTH = Some bytes -> length bytes = OIDC_PROTO_CODE_VERIFIER_LENGTH ->
  forall m, m = oidc_pkce_s256 \/ m = oidc_pkce_plain ->
  exists gen verifier challenge v,
    pkce_state m = Some gen /\ pkce_verifier m = Some verifier /\ pkce_challenge m = Some challenge /\
    gen rand = Some v /\ str_forall unreserved v = true /\
    oidc_util_base64url_decode (Some v) = (32, Some (str_of_bytes bytes)) /\
    verifier v = Some v /\
    (m = oidc_pkce_plain -> challenge v = Some v) /\
    (m = oidc_pkce_s256 -> forall h, oidc_jose_hash_bytes OIDC_JOSE_ALG_SHA256 v = Some h ->
       exists c, challenge v = Some c /\ str_forall base64url_char c = true /\
         oidc_util_base64url_decode (Some c) = (zlen h, Some h)).
Proof.
  intros Hr Hl m Hm. destruct (rand_str_decodes rand OIDC_PROTO_CODE_VERIFIER_LENGTH bytes ltac:(cbv; lia) Hr Hl)
    as (v & Hv & Hc & Hd).
  assert (Hs : forall h, oidc_jose_hash_bytes OIDC_JOSE_ALG_SHA256 v = Some h ->
    exists c, oidc_proto_pkce_challenge_s256 v = Some c /\ str_forall base64url_char c = true /\
      oidc_util_base64url_decode (Some c) = (zlen h, Some h)).
  { intros h Hh. unfold oidc_proto_pkce_challenge_s256, oidc_util_hash_string_and_base64url_encode. rewrite Hh.
    cbn [mbind option_bind]. destruct (base64url_encode_strip h (hash_nonempty _ _ _ Hh)) as (c & He & Hp & Hcc & Hdc).
    rewrite He. destruct (Z.leb_spec (zlen c) 0); [lia|]. by exists c. }
  destruct Hm as [-> | ->]; (do 3 eexists; exists v; do 3 (split; [reflexivity|]); split; [exact Hv|];
    split; [by apply base64url_unreserved|]; split; [exact Hd|]; split; [reflexivity|]).
  - split; [by intros [=]|]. intros _. exact Hs.
  - split; [reflexivity|]. by intros [=].
Qed.

Lemma pkce_challenge_verifier_witness : exists gen verifier challenge v,
  pkce_state (oidc_pkce_s256 (O:=JoseModel.jose) (B64:=Base64Model.base64)) = Some gen /\
  pkce_verifier (oidc_pkce_s256 (O:=JoseModel.jose) (B64:=Base64Model.base64)) = Some verifier /\
  pkce_challenge (oidc_pkce_s256 (O:=JoseModel.jose) (B64:=Base64Model.base64)) = Some challenge /\
  gen (fun n => Some (repeat 7 n)) = Some v /\ verifier v = Some v.
Proof.
  destruct (pkce_challenge_verifier (O:=JoseModel.jose) (JS:=JoseModel.jose_spec) (BS:=Base64Model.base64_spec)
    (fun n => Some (repeat 7 n)) (repeat 7 32) eq_refl eq_refl _ (or_introl eq_refl))
    as (g & ver & ch & v & H1 & H2 & H3 & H4 & _ & _ & H5 & _).
  exists g, ver, ch, v. auto.
Defined.
