(* ===== verification/Provider.v ===== *)
(** * src/cfg/provider.c: the settings of a provider

    A member of type [char *] or a pointer is an [option], a number or an enumeration the
    [Z] of its value, and -1 when it is not set.  The directives that set the members are not
    modelled. *)

From S2P Require Import Prelude Cstr Jansson Json Base64 Jose Jwt Util Cjose Jwk Pkce.

Definition OIDC_CONFIG_POS_INT_UNSET : Z := -1.
Definition OIDC_AUTH_REQUEST_METHOD_GET : Z := 1.
Definition OIDC_AUTH_REQUEST_METHOD_POST : Z := 2.
Definition OIDC_AUTH_REQUEST_METHOD_PAR : Z := 3.
Definition OIDC_USER_INFO_TOKEN_METHOD_HEADER : Z := 1.
Definition OIDC_USER_INFO_TOKEN_METHOD_POST : Z := 2.
Definition OIDC_DPOP_MODE_OFF : Z := 1.
Definition OIDC_DPOP_MODE_OPTIONAL : Z := 2.
Definition OIDC_DPOP_MODE_REQUIRED : Z := 3.
Definition OIDC_CERT_BOUND_TOKENS_OFF : Z := 1.
Definition OIDC_CERT_BOUND_TOKENS_AUTO : Z := 2.
Definition OIDC_CERT_BOUND_TOKENS_ON : Z := 3.
Definition OIDC_PROFILE_OIDC10 : Z := 1.
Definition OIDC_PROFILE_FAPI20 : Z := 2.

Definition OIDC_DEFAULT_SSL_VALIDATE_SERVER : Z := 1.
Definition OIDC_DEFAULT_VALIDATE_ISSUER : Z := 1.
Definition OIDC_DEFAULT_PROVIDER_RESPONSE_REQUIRE_ISS : Z := 0.
Definition OIDC_DEFAULT_AUTH_REQUEST_METHOD : Z := OIDC_AUTH_REQUEST_METHOD_GET.
Definition OIDC_DEFAULT_USER_INFO_TOKEN_METHOD : Z := OIDC_USER_INFO_TOKEN_METHOD_HEADER.
Definition OIDC_DEFAULT_DPOP_MODE : Z := OIDC_DPOP_MODE_OFF.
Definition OIDC_DEFAULT_CERT_BOUND_TOKENS : Z := OIDC_CERT_BOUND_TOKENS_AUTO.
Definition OIDC_DEFAULT_PROFILE : Z := OIDC_PROFILE_OIDC10.
Definition OIDC_IDTOKEN_IAT_SLACK_MIN : Z := 0.
Definition OIDC_IDTOKEN_IAT_SLACK_MAX : Z := 3600.
Definition OIDC_DEFAULT_IDTOKEN_IAT_SLACK : Z := 600.
Definition OIDC_DEFAULT_SESSION_MAX_DURATION : Z := 3600 * 8.
Definition OIDC_DEFAULT_JWKS_REFRESH_INTERVAL : Z := 3600.
Definition OIDC_DEFAULT_USERINFO_REFRESH_INTERVAL : Z := -1.
Definition OIDC_DEFAULT_SCOPE : string := "openid".
Definition OIDC_DEFAULT_RESPONSE_TYPE : string := "code".
Definition OIDC_DEFAULT_CLIENT_NAME : string := "OpenID Connect Apache Module (mod_auth_openidc)".

(** ** Merging, from src/cfg/cfg_int.h *)

Definition _oidc_cfg_merge_ptr {A} (add base : option A) : option A :=
  match add with Some _ => add | None => base end.
Definition _oidc_cfg_merge_pos_int (add base : Z) : Z := if add =? OIDC_CONFIG_POS_INT_UNSET then base else add.

Definition int_or (v def_val : Z) : Z := if v =? OIDC_CONFIG_POS_INT_UNSET then def_val else v.

(** ** The settings *)

Section provider.
Context {J : Jansson} {C : Cjose J}.

(** Copies share the key itself, which is never changed after it was parsed. *)
Definition oidc_jwk_copy (src : oidc_jwk_t) : oidc_jwk_t :=
  mk_jwk (jwk_use src) (jwk_alg src) (jwk_kty src) (jwk_kid src) (jwk_x5c src) (jwk_x5t src) (jwk_x5t_S256 src)
    (jwk_cjose_jwk src).
Definition oidc_jwk_list_copy (src : option (list oidc_jwk_t)) : option (list oidc_jwk_t) :=
  match src with None => None | Some l => Some (map oidc_jwk_copy l) end.

Record oidc_jwks_uri_t := mk_jwks_uri {
  ju_uri : option string;
  ju_refresh_interval : Z;
  ju_signed_uri : option string;
  ju_jwk_list : option (list oidc_jwk_t)
}.

Record oidc_provider_t := mk_provider {
  pv_metadata_url : option string;
  pv_issuer : option string;
  pv_authorization_endpoint_url : option string;
  pv_token_endpoint_url : option string;
  pv_token_endpoint_auth : option string;
  pv_token_endpoint_auth_alg : option string;
  pv_token_endpoint_params : option string;
  pv_userinfo_endpoint_url : option string;
  pv_revocation_endpoint_url : option string;
  pv_registration_endpoint_url : option string;
  pv_pushed_authorization_request_endpoint_url : option string;
  pv_check_session_iframe : option string;
  pv_end_session_endpoint : option string;
  pv_client_id : option string;
  pv_client_secret : option string;
  pv_token_endpoint_tls_client_key : option string;
  pv_token_endpoint_tls_client_key_pwd : option string;
  pv_token_endpoint_tls_client_cert : option string;
  pv_client_name : option string;
  pv_client_contact : option string;
  pv_registration_token : option string;
  pv_registration_endpoint_json : option string;
  pv_scope : option string;
  pv_response_type : option string;
  pv_response_mode : option string;
  pv_auth_request_params : option string;
  pv_logout_request_params : option string;
  pv_client_jwks_uri : option string;
  pv_id_token_signed_response_alg : option string;
  pv_id_token_encrypted_response_alg : option string;
  pv_id_token_encrypted_response_enc : option string;
  pv_userinfo_signed_response_alg : option string;
  pv_userinfo_encrypted_response_alg : option string;
  pv_userinfo_encrypted_response_enc : option string;
  pv_request_object : option string;
  pv_pkce : option oidc_proto_pkce_t;
  pv_id_token_aud_values : option (list (option string));
  pv_backchannel_logout_supported : Z;
  pv_ssl_validate_server : Z;
  pv_validate_issuer : Z;
  pv_idtoken_iat_slack : Z;
  pv_session_max_duration : Z;
  pv_dpop_mode : Z;
  pv_cert_bound_tokens : Z;
  pv_dpop_supported : Z;
  pv_userinfo_refresh_interval : Z;
  pv_userinfo_token_method : Z;
  pv_auth_request_method : Z;
  pv_profile : Z;
  pv_response_require_iss : Z;
  pv_jwks_uri : oidc_jwks_uri_t;
  pv_verify_public_keys : option (list oidc_jwk_t);
  pv_client_keys : option (list oidc_jwk_t)
}.

Definition oidc_cfg_provider_create : oidc_provider_t :=
  mk_provider
    None None None None None None None None None None None None None None None None None None None None
    None None None None None None None None None None None None None None None None None
    OIDC_CONFIG_POS_INT_UNSET OIDC_CONFIG_POS_INT_UNSET OIDC_CONFIG_POS_INT_UNSET OIDC_CONFIG_POS_INT_UNSET
    OIDC_CONFIG_POS_INT_UNSET OIDC_CONFIG_POS_INT_UNSET OIDC_CONFIG_POS_INT_UNSET OIDC_CONFIG_POS_INT_UNSET
    OIDC_CONFIG_POS_INT_UNSET OIDC_CONFIG_POS_INT_UNSET OIDC_CONFIG_POS_INT_UNSET OIDC_CONFIG_POS_INT_UNSET
    OIDC_CONFIG_POS_INT_UNSET (mk_jwks_uri None OIDC_CONFIG_POS_INT_UNSET None None) None None.

Definition oidc_cfg_provider_merge (base add : oidc_provider_t) : oidc_provider_t :=
  mk_provider
    (_oidc_cfg_merge_ptr (pv_metadata_url add) (pv_metadata_url base))
    (_oidc_cfg_merge_ptr (pv_issuer add) (pv_issuer base))
    (_oidc_cfg_merge_ptr (pv_authorization_endpoint_url add) (pv_authorization_endpoint_url base))
    (_oidc_cfg_merge_ptr (pv_token_endpoint_url add) (pv_token_endpoint_url base))
    (_oidc_cfg_merge_ptr (pv_token_endpoint_auth add) (pv_token_endpoint_auth base))
    (if nonnull (pv_token_endpoint_auth add) then pv_token_endpoint_auth_alg add
     else _oidc_cfg_merge_ptr (pv_token_endpoint_auth_alg add) (pv_token_endpoint_auth_alg base))
    (_oidc_cfg_merge_ptr (pv_token_endpoint_params add) (pv_token_endpoint_params base))
    (_oidc_cfg_merge_ptr (pv_userinfo_endpoint_url add) (pv_userinfo_endpoint_url base))
    (_oidc_cfg_merge_ptr (pv_revocation_endpoint_url add) (pv_revocation_endpoint_url base))
    (_oidc_cfg_merge_ptr (pv_registration_endpoint_url add) (pv_registration_endpoint_url base))
    (_oidc_cfg_merge_ptr (pv_pushed_authorization_request_endpoint_url add) (pv_pushed_authorization_request_endpoint_url base))
    (_oidc_cfg_merge_ptr (pv_check_session_iframe add) (pv_check_session_iframe base))
    (_oidc_cfg_merge_ptr (pv_end_session_endpoint add) (pv_end_session_endpoint base))
    (_oidc_cfg_merge_ptr (pv_client_id add) (pv_client_id base))
    (_oidc_cfg_merge_ptr (pv_client_secret add) (pv_client_secret base))
    (_oidc_cfg_merge_ptr (pv_token_endpoint_tls_client_key add) (pv_token_endpoint_tls_client_key base))
    (_oidc_cfg_merge_ptr (pv_token_endpoint_tls_client_key_pwd add) (pv_token_endpoint_tls_client_key_pwd base))
    (_oidc_cfg_merge_ptr (pv_token_endpoint_tls_client_cert add) (pv_token_endpoint_tls_client_cert base))
    (_oidc_cfg_merge_ptr (pv_client_name add) (pv_client_name base))
    (_oidc_cfg_merge_ptr (pv_client_contact add) (pv_client_contact base))
    (_oidc_cfg_merge_ptr (pv_registration_token add) (pv_registration_token base))
    (_oidc_cfg_merge_ptr (pv_registration_endpoint_json add) (pv_registration_endpoint_json base))
    (_oidc_cfg_merge_ptr (pv_scope add) (pv_scope base))
    (_oidc_cfg_merge_ptr (pv_response_type add) (pv_response_type base))
    (_oidc_cfg_merge_ptr (pv_response_mode add) (pv_response_mode base))
    (_oidc_cfg_merge_ptr (pv_auth_request_params add) (pv_auth_request_params base))
    (_oidc_cfg_merge_ptr (pv_logout_request_params add) (pv_logout_request_params base))
    (_oidc_cfg_merge_ptr (pv_client_jwks_uri add) (pv_client_jwks_uri base))
    (_oidc_cfg_merge_ptr (pv_id_token_signed_response_alg add) (pv_id_token_signed_response_alg base))
    (_oidc_cfg_merge_ptr (pv_id_token_encrypted_response_alg add) (pv_id_token_encrypted_response_alg base))
    (_oidc_cfg_merge_ptr (pv_id_token_encrypted_response_enc add) (pv_id_token_encrypted_response_enc base))
    (_oidc_cfg_merge_ptr (pv_userinfo_signed_response_alg add) (pv_userinfo_signed_response_alg base))
    (_oidc_cfg_merge_ptr (pv_userinfo_encrypted_response_alg add) (pv_userinfo_encrypted_response_alg base))
    (_oidc_cfg_merge_ptr (pv_userinfo_encrypted_response_enc add) (pv_userinfo_encrypted_response_enc base))
    (_oidc_cfg_merge_ptr (pv_request_object add) (pv_request_object base))
    (_oidc_cfg_merge_ptr (pv_pkce add) (pv_pkce base))
    (_oidc_cfg_merge_ptr (pv_id_token_aud_values add) (pv_id_token_aud_values base))
    (_oidc_cfg_merge_pos_int (pv_backchannel_logout_supported add) (pv_backchannel_logout_supported base))
    (_oidc_cfg_merge_pos_int (pv_ssl_validate_server add) (pv_ssl_validate_server base))
    (_oidc_cfg_merge_pos_int (pv_validate_issuer add) (pv_validate_issuer base))
    (_oidc_cfg_merge_pos_int (pv_idtoken_iat_slack add) (pv_idtoken_iat_slack base))
    (_oidc_cfg_merge_pos_int (pv_session_max_duration add) (pv_session_max_duration base))
    (_oidc_cfg_merge_pos_int (pv_dpop_mode add) (pv_dpop_mode base))
    (_oidc_cfg_merge_pos_int (pv_cert_bound_tokens add) (pv_cert_bound_tokens base))
    (_oidc_cfg_merge_pos_int (pv_dpop_supported add) (pv_dpop_supported base))
    (_oidc_cfg_merge_pos_int (pv_userinfo_refresh_interval add) (pv_userinfo_refresh_interval base))
    (_oidc_cfg_merge_pos_int (pv_userinfo_token_method add) (pv_userinfo_token_method base))
    (_oidc_cfg_merge_pos_int (pv_auth_request_method add) (pv_auth_request_method base))
    (_oidc_cfg_merge_pos_int (pv_profile add) (pv_profile base))
    (_oidc_cfg_merge_pos_int (pv_response_require_iss add) (pv_response_require_iss base))
    (mk_jwks_uri
      (_oidc_cfg_merge_ptr (ju_uri (pv_jwks_uri add)) (ju_uri (pv_jwks_uri base)))
      (_oidc_cfg_merge_pos_int (ju_refresh_interval (pv_jwks_uri add)) (ju_refresh_interval (pv_jwks_uri base)))
      (_oidc_cfg_merge_ptr (ju_signed_uri (pv_jwks_uri add)) (ju_signed_uri (pv_jwks_uri base)))
      (oidc_jwk_list_copy (_oidc_cfg_merge_ptr (ju_jwk_list (pv_jwks_uri add)) (ju_jwk_list (pv_jwks_uri base)))))
    (oidc_jwk_list_copy (_oidc_cfg_merge_ptr (pv_verify_public_keys add) (pv_verify_public_keys base)))
    (oidc_jwk_list_copy (_oidc_cfg_merge_ptr (pv_client_keys add) (pv_client_keys base))).

(** Onto a new record, which is not set at all. *)
Definition oidc_cfg_provider_copy (src : oidc_provider_t) : oidc_provider_t :=
  oidc_cfg_provider_merge oidc_cfg_provider_create src.

(** ** The effective settings *)

Definition oidc_cfg_provider_issuer_get (p : oidc_provider_t) := pv_issuer p.
Definition oidc_cfg_provider_authorization_endpoint_url_get (p : oidc_provider_t) := pv_authorization_endpoint_url p.
Definition oidc_cfg_provider_token_endpoint_url_get (p : oidc_provider_t) := pv_token_endpoint_url p.
Definition oidc_cfg_provider_token_endpoint_auth_get (p : oidc_provider_t) := pv_token_endpoint_auth p.
Definition oidc_cfg_provider_token_endpoint_auth_alg_get (p : oidc_provider_t) := pv_token_endpoint_auth_alg p.
Definition oidc_cfg_provider_token_endpoint_tls_client_cert_get (p : oidc_provider_t) := pv_token_endpoint_tls_client_cert p.
Definition oidc_cfg_provider_userinfo_endpoint_url_get (p : oidc_provider_t) := pv_userinfo_endpoint_url p.
Definition oidc_cfg_provider_revocation_endpoint_url_get (p : oidc_provider_t) := pv_revocation_endpoint_url p.
Definition oidc_cfg_provider_registration_endpoint_url_get (p : oidc_provider_t) := pv_registration_endpoint_url p.
Definition oidc_cfg_provider_pushed_authorization_request_endpoint_url_get (p : oidc_provider_t) := pv_pushed_authorization_request_endpoint_url p.
Definition oidc_cfg_provider_check_session_iframe_get (p : oidc_provider_t) := pv_check_session_iframe p.
Definition oidc_cfg_provider_end_session_endpoint_get (p : oidc_provider_t) := pv_end_session_endpoint p.
Definition oidc_cfg_provider_client_id_get (p : oidc_provider_t) := pv_client_id p.
Definition oidc_cfg_provider_client_secret_get (p : oidc_provider_t) := pv_client_secret p.
Definition oidc_cfg_provider_auth_request_params_get (p : oidc_provider_t) := pv_auth_request_params p.
Definition oidc_cfg_provider_response_mode_get (p : oidc_provider_t) := pv_response_mode p.
Definition oidc_cfg_provider_id_token_signed_response_alg_get (p : oidc_provider_t) := pv_id_token_signed_response_alg p.
Definition oidc_cfg_provider_userinfo_signed_response_alg_get (p : oidc_provider_t) := pv_userinfo_signed_response_alg p.
Definition oidc_cfg_provider_id_token_aud_values_get (p : oidc_provider_t) := pv_id_token_aud_values p.
Definition oidc_cfg_provider_request_object_get (p : oidc_provider_t) := pv_request_object p.
Definition oidc_cfg_provider_token_endpoint_params_get (p : oidc_provider_t) := pv_token_endpoint_params p.
Definition oidc_cfg_provider_backchannel_logout_supported_get (p : oidc_provider_t) : Z := int_or (pv_backchannel_logout_supported p) 0.
Definition oidc_cfg_provider_ssl_validate_server_get (p : oidc_provider_t) : Z := int_or (pv_ssl_validate_server p) OIDC_DEFAULT_SSL_VALIDATE_SERVER.
Definition oidc_cfg_provider_validate_issuer_get (p : oidc_provider_t) : Z := int_or (pv_validate_issuer p) OIDC_DEFAULT_VALIDATE_ISSUER.
Definition oidc_cfg_provider_response_require_iss_get (p : oidc_provider_t) : Z := int_or (pv_response_require_iss p) OIDC_DEFAULT_PROVIDER_RESPONSE_REQUIRE_ISS.
Definition oidc_cfg_provider_idtoken_iat_slack_get (p : oidc_provider_t) : Z := int_or (pv_idtoken_iat_slack p) OIDC_DEFAULT_IDTOKEN_IAT_SLACK.
Definition oidc_cfg_provider_session_max_duration_get (p : oidc_provider_t) : Z := int_or (pv_session_max_duration p) OIDC_DEFAULT_SESSION_MAX_DURATION.
Definition oidc_cfg_provider_dpop_mode_get (p : oidc_provider_t) : Z := int_or (pv_dpop_mode p) OIDC_DEFAULT_DPOP_MODE.
Definition oidc_cfg_provider_cert_bound_tokens_get (p : oidc_provider_t) : Z := int_or (pv_cert_bound_tokens p) OIDC_DEFAULT_CERT_BOUND_TOKENS.
Definition oidc_cfg_provider_dpop_supported_get (p : oidc_provider_t) : Z := int_or (pv_dpop_supported p) 0.
Definition oidc_cfg_provider_auth_request_method_get (p : oidc_provider_t) : Z := int_or (pv_auth_request_method p) OIDC_DEFAULT_AUTH_REQUEST_METHOD.
Definition oidc_cfg_provider_userinfo_token_method_get (p : oidc_provider_t) : Z := int_or (pv_userinfo_token_method p) OIDC_DEFAULT_USER_INFO_TOKEN_METHOD.
Definition oidc_cfg_provider_userinfo_refresh_interval_get (p : oidc_provider_t) : Z := int_or (pv_userinfo_refresh_interval p) OIDC_DEFAULT_USERINFO_REFRESH_INTERVAL.
Definition oidc_cfg_provider_profile_get (p : oidc_provider_t) : Z := int_or (pv_profile p) OIDC_DEFAULT_PROFILE.
Definition oidc_cfg_provider_scope_get (p : oidc_provider_t) : string := default OIDC_DEFAULT_SCOPE (pv_scope p).
Definition oidc_cfg_provider_client_name_get (p : oidc_provider_t) : string := default OIDC_DEFAULT_CLIENT_NAME (pv_client_name p).
Definition oidc_cfg_provider_response_type_get (p : oidc_provider_t) : string := default OIDC_DEFAULT_RESPONSE_TYPE (pv_response_type p).
Definition oidc_cfg_provider_response_type_is_set (p : oidc_provider_t) : bool := nonnull (pv_response_type p).
Definition oidc_cfg_provider_pkce_get `{Jose} `{Base64} (p : oidc_provider_t) : oidc_proto_pkce_t :=
  default oidc_pkce_s256 (pv_pkce p).
Definition oidc_cfg_jwks_uri_refresh_interval_get (u : oidc_jwks_uri_t) : Z :=
  int_or (ju_refresh_interval u) OIDC_DEFAULT_JWKS_REFRESH_INTERVAL.
Definition oidc_cfg_provider_jwks_uri_get (p : oidc_provider_t) : oidc_jwks_uri_t := pv_jwks_uri p.
Definition oidc_cfg_provider_verify_public_keys_get (p : oidc_provider_t) := pv_verify_public_keys p.
Definition oidc_cfg_provider_client_keys_get (p : oidc_provider_t) := pv_client_keys p.
End provider.

(** ** Properties *)

Section merge_lemmas.
Context {J : Jansson} {C : Cjose J}.

Lemma jwk_list_copy_id l : oidc_jwk_list_copy l = l.
Proof.
  destruct l as [l|]; [|done]. cbn. f_equal. induction l as [|k l IH]; [done|]. cbn. rewrite IH. by destruct k.
Qed.

Lemma merge_ptr_assoc {A} (a b c : option A) :
  _oidc_cfg_merge_ptr (_oidc_cfg_merge_ptr a b) c = _oidc_cfg_merge_ptr a (_oidc_cfg_merge_ptr b c).
Proof. by destruct a, b. Qed.
Lemma merge_ptr_none {A} (a : option A) : _oidc_cfg_merge_ptr a None = a.
Proof. by destruct a. Qed.
Lemma merge_int_assoc a b c :
  _oidc_cfg_merge_pos_int (_oidc_cfg_merge_pos_int a b) c = _oidc_cfg_merge_pos_int a (_oidc_cfg_merge_pos_int b c).
Proof. unfold _oidc_cfg_merge_pos_int. destruct (Z.eqb_spec a OIDC_CONFIG_POS_INT_UNSET) as [->|H]; [done|]. by apply Z.eqb_neq in H as ->. Qed.
Lemma merge_int_unset a : _oidc_cfg_merge_pos_int a OIDC_CONFIG_POS_INT_UNSET = a.
Proof. unfold _oidc_cfg_merge_pos_int. by destruct (Z.eqb_spec a OIDC_CONFIG_POS_INT_UNSET). Qed.

Lemma provider_copy_id (a : oidc_provider_t) : oidc_cfg_provider_copy a = a.
Proof.
  unfold oidc_cfg_provider_copy, oidc_cfg_provider_merge, oidc_cfg_provider_create. cbn. rewrite !jwk_list_copy_id.
  destruct a as [? ? ? ? ? ? ? ? ? ? ? ? ? ? ? ? ? ? ? ? ? ? ? ? ? ? ? ? ? ? ? ? ? ? ? ? ? ? ? ? ? ? ? ? ? ? ? ? ? ? [? ? ? ?] ? ?].
  cbn. rewrite !merge_ptr_none, !merge_int_unset. by case_match.
Qed.

(** The settings of nested configurations may be merged in any grouping, a copy is equal to
    its source, and a configuration that sets nothing changes nothing; the method of client authentication
    and its algorithm are merged as one setting, so that a method never keeps the algorithm of
    another one. *)
Theorem provider_merge_monoid (a b c : oidc_provider_t) :
  oidc_cfg_provider_merge (oidc_cfg_provider_merge a b) c = oidc_cfg_provider_merge a (oidc_cfg_provider_merge b c) /\
  oidc_cfg_provider_merge a oidc_cfg_provider_create = a /\
  oidc_cfg_provider_copy a = a /\
  (pv_token_endpoint_auth b <> None ->
   pv_token_endpoint_auth_alg (oidc_cfg_provider_merge a b) = pv_token_endpoint_auth_alg b).
Proof.
  split; [|split; [|split; [apply provider_copy_id|]]]; unfold oidc_cfg_provider_merge, oidc_cfg_provider_create; cbn; rewrite ?jwk_list_copy_id.
  - f_equal; try (symmetry; apply merge_ptr_assoc); try (symmetry; apply merge_int_assoc).
    + destruct (pv_token_endpoint_auth c), (pv_token_endpoint_auth b), (pv_token_endpoint_auth_alg c); done.
    + f_equal; first [symmetry; apply merge_ptr_assoc|symmetry; apply merge_int_assoc].
  - destruct a as [? ? ? ? ? ? ? ? ? ? ? ? ? ? ? ? ? ? ? ? ? ? ? ? ? ? ? ? ? ? ? ? ? ? ? ? ? ? ? ? ? ? ? ? ? ? ? ? ? ? [? ? ? ?] ? ?].
    cbn. reflexivity.
  - by destruct (pv_token_endpoint_auth b).
Qed.
End merge_lemmas.
