(* ===== verification/Profile.v ===== *)
(** * src/proto/profile.c: the profiles of OpenID Connect 1.0 and FAPI 2.0

    A profile is a record of operations that give the effective value of a setting, as in the
    code; the getters dispatch on the profile of the provider. *)

From S2P Require Import Prelude Cstr Jansson Json Base64 Jose Cjose Jwk Pkce Provider.

Section profile.
Context {J : Jansson} {C : Cjose J} {O : Jose} {B64 : Base64}.

Record oidc_proto_profile_ops_t := mk_profile_ops {
  token_endpoint_auth_aud : oidc_provider_t -> option string;
  revocation_endpoint_auth_aud : oidc_provider_t -> option string -> option string;
  auth_request_method : oidc_provider_t -> Z;
  id_token_aud_values : oidc_provider_t -> option (list (option string));
  profile_pkce : oidc_provider_t -> oidc_proto_pkce_t;
  dpop_mode : oidc_provider_t -> Z;
  cert_bound_tokens : oidc_provider_t -> Z;
  response_require_iss : oidc_provider_t -> Z;
  request_uri_scope : oidc_provider_t -> option string
}.

Definition OIDC_PROTO_SCOPE_OPENID : string := "openid".

(** ** OpenID Connect 1.0 *)

Definition oidc_profile_oidc10_token_endpoint_auth_aud (p : oidc_provider_t) : option string :=
  oidc_cfg_provider_token_endpoint_url_get p.
Definition oidc_profile_oidc10_revocation_endpoint_auth_aud (p : oidc_provider_t) (val : option string) : option string :=
  match val with
  | None => oidc_cfg_provider_revocation_endpoint_url_get p
  | Some v => if _oidc_strcmp (Some v) (Some "token") =? 0 then oidc_cfg_provider_token_endpoint_url_get p else Some v
  end.
Definition oidc_profile_oidc10_auth_request_method (p : oidc_provider_t) : Z := oidc_cfg_provider_auth_request_method_get p.
Definition oidc_profile_oidc10_id_token_aud_values (p : oidc_provider_t) : option (list (option string)) :=
  oidc_cfg_provider_id_token_aud_values_get p.
Definition oidc_profile_oidc10_pkce (p : oidc_provider_t) : oidc_proto_pkce_t := oidc_cfg_provider_pkce_get p.
Definition oidc_profile_oidc10_dpop_mode (p : oidc_provider_t) : Z := oidc_cfg_provider_dpop_mode_get p.
Definition oidc_profile_oidc10_cert_bound_tokens (p : oidc_provider_t) : Z := oidc_cfg_provider_cert_bound_tokens_get p.
Definition oidc_profile_oidc10_response_require_iss (p : oidc_provider_t) : Z :=
  oidc_cfg_provider_response_require_iss_get p.
Definition oidc_profile_oidc10_request_uri_scope (p : oidc_provider_t) : option string := Some OIDC_PROTO_SCOPE_OPENID.

Definition _oidc_profile_oidc10_ops : oidc_proto_profile_ops_t :=
  mk_profile_ops oidc_profile_oidc10_token_endpoint_auth_aud oidc_profile_oidc10_revocation_endpoint_auth_aud
    oidc_profile_oidc10_auth_request_method oidc_profile_oidc10_id_token_aud_values oidc_profile_oidc10_pkce
    oidc_profile_oidc10_dpop_mode oidc_profile_oidc10_cert_bound_tokens oidc_profile_oidc10_response_require_iss
    oidc_profile_oidc10_request_uri_scope.

(** ** FAPI 2.0 *)

Definition oidc_profile_fapi20_token_endpoint_auth_aud (p : oidc_provider_t) : option string := oidc_cfg_provider_issuer_get p.
Definition oidc_profile_fapi20_revocation_endpoint_auth_aud (p : oidc_provider_t) (val : option string) : option string :=
  oidc_cfg_provider_issuer_get p.
Definition oidc_profile_fapi20_auth_request_method (p : oidc_provider_t) : Z := OIDC_AUTH_REQUEST_METHOD_PAR.
Definition oidc_profile_fapi20_id_token_aud_values (p : oidc_provider_t) : option (list (option string)) :=
  match oidc_cfg_provider_id_token_aud_values_get p with
  | None => Some [oidc_cfg_provider_client_id_get p]
  | Some values => Some values
  end.
Definition oidc_profile_fapi20_pkce (p : oidc_provider_t) : oidc_proto_pkce_t := oidc_pkce_s256.
Definition oidc_profile_fapi20_dpop_mode (p : oidc_provider_t) : Z :=
  let mode := oidc_cfg_provider_cert_bound_tokens_get p in
  let mode :=
    if mode =? OIDC_CERT_BOUND_TOKENS_AUTO then
      if nonnull (oidc_cfg_provider_token_endpoint_tls_client_cert_get p) then OIDC_CERT_BOUND_TOKENS_ON
      else OIDC_CERT_BOUND_TOKENS_OFF
    else mode in
  if (mode =? OIDC_CERT_BOUND_TOKENS_ON) && (oidc_cfg_provider_dpop_supported_get p =? 0)
  then oidc_cfg_provider_dpop_mode_get p
  else OIDC_DPOP_MODE_REQUIRED.
Definition oidc_profile_fapi20_cert_bound_tokens (p : oidc_provider_t) : Z := OIDC_CERT_BOUND_TOKENS_ON.
Definition oidc_profile_fapi20_response_require_iss (p : oidc_provider_t) : Z := 1.
Definition oidc_profile_fapi20_request_uri_scope (p : oidc_provider_t) : option string := None.

Definition _oidc_profile_fapi20_ops : oidc_proto_profile_ops_t :=
  mk_profile_ops oidc_profile_fapi20_token_endpoint_auth_aud oidc_profile_fapi20_revocation_endpoint_auth_aud
    oidc_profile_fapi20_auth_request_method oidc_profile_fapi20_id_token_aud_values oidc_profile_fapi20_pkce
    oidc_profile_fapi20_dpop_mode oidc_profile_fapi20_cert_bound_tokens oidc_profile_fapi20_response_require_iss
    oidc_profile_fapi20_request_uri_scope.

(** ** The effective settings *)

Definition oidc_proto_profile_ops (p : oidc_provider_t) : oidc_proto_profile_ops_t :=
  if oidc_cfg_provider_profile_get p =? OIDC_PROFILE_FAPI20 then _oidc_profile_fapi20_ops else _oidc_profile_oidc10_ops.

Definition oidc_proto_profile_token_endpoint_auth_aud (p : oidc_provider_t) : option string :=
  token_endpoint_auth_aud (oidc_proto_profile_ops p) p.
Definition oidc_proto_profile_revocation_endpoint_auth_aud (p : oidc_provider_t) (val : option string) : option string :=
  revocation_endpoint_auth_aud (oidc_proto_profile_ops p) p val.
Definition oidc_proto_profile_auth_request_method_get (p : oidc_provider_t) : Z :=
  auth_request_method (oidc_proto_profile_ops p) p.
Definition oidc_proto_profile_id_token_aud_values_get (p : oidc_provider_t) : option (list (option string)) :=
  id_token_aud_values (oidc_proto_profile_ops p) p.
Definition oidc_proto_profile_pkce_get (p : oidc_provider_t) : oidc_proto_pkce_t := profile_pkce (oidc_proto_profile_ops p) p.
Definition oidc_proto_profile_dpop_mode_get (p : oidc_provider_t) : Z := dpop_mode (oidc_proto_profile_ops p) p.
Definition oidc_proto_profile_cert_bound_tokens_get (p : oidc_provider_t) : Z :=
  cert_bound_tokens (oidc_proto_profile_ops p) p.
Definition oidc_proto_profile_response_require_iss_get (p : oidc_provider_t) : Z :=
  response_require_iss (oidc_proto_profile_ops p) p.
Definition oidc_proto_profile_request_uri_scope_get (p : oidc_provider_t) : option string :=
  request_uri_scope (oidc_proto_profile_ops p) p.
End profile.

(** ** Properties *)

(** Under FAPI 2.0 the mandatory measures are in force whatever the settings of the provider say: pushed
    authorization requests, PKCE with S256, the issuer in every response and as the audience of client
    assertions, a bounded audience of ID tokens, and access tokens bound to the client: DPoP may be left to the
    settings only for a provider that does not support it and binds its tokens to a certificate. *)
Theorem fapi20_enforced {J : Jansson} {C : Cjose J} {O : Jose} {B64 : Base64} (p : oidc_provider_t) :
  oidc_cfg_provider_profile_get p = OIDC_PROFILE_FAPI20 ->
  oidc_proto_profile_auth_request_method_get p = OIDC_AUTH_REQUEST_METHOD_PAR /\
  oidc_proto_profile_pkce_get p = oidc_pkce_s256 /\
  oidc_proto_profile_response_require_iss_get p = 1 /\
  oidc_proto_profile_token_endpoint_auth_aud p = pv_issuer p /\
  (forall v, oidc_proto_profile_revocation_endpoint_auth_aud p v = pv_issuer p) /\
  oidc_proto_profile_id_token_aud_values_get p <> None /\
  (oidc_proto_profile_dpop_mode_get p = OIDC_DPOP_MODE_REQUIRED \/
   oidc_cfg_provider_dpop_supported_get p = 0 /\
   (oidc_cfg_provider_cert_bound_tokens_get p = OIDC_CERT_BOUND_TOKENS_ON \/
    pv_token_endpoint_tls_client_cert p <> None)).
Proof.
  intros Hp.
  unfold oidc_proto_profile_auth_request_method_get, oidc_proto_profile_pkce_get, oidc_proto_profile_response_require_iss_get,
    oidc_proto_profile_token_endpoint_auth_aud, oidc_proto_profile_revocation_endpoint_auth_aud,
    oidc_proto_profile_id_token_aud_values_get, oidc_proto_profile_dpop_mode_get, oidc_proto_profile_ops.
  rewrite Hp. cbn. do 5 (split; [done|]). split.
  - unfold oidc_profile_fapi20_id_token_aud_values. by case_match.
  - unfold oidc_profile_fapi20_dpop_mode, oidc_cfg_provider_token_endpoint_tls_client_cert_get.
    destruct (Z.eqb_spec (oidc_cfg_provider_dpop_supported_get p) 0) as [Hd|Hd]; [|left; by rewrite andb_false_r].
    rewrite andb_true_r. destruct (Z.eqb_spec (oidc_cfg_provider_cert_bound_tokens_get p) OIDC_CERT_BOUND_TOKENS_AUTO).
    + destruct (pv_token_endpoint_tls_client_cert p); cbn; [right|left; done]. split; [done|]. by right.
    + case_match eqn:E; [|by left]. right. split; [done|]. left. by apply Z.eqb_eq.
Qed.

Definition demo_fapi_provider {J : Jansson} {C : Cjose J} : oidc_provider_t :=
  mk_provider None (Some "https://op") None None None None None None None None None None None None (Some "client") None None
    None None None None None None None None None None None None None None None None None None None None (-1) (-1) (-1) (-1) (-1)
    (-1) (-1) 0 (-1) (-1) OIDC_AUTH_REQUEST_METHOD_GET OIDC_PROFILE_FAPI20 (-1) (mk_jwks_uri None (-1) None None) None None.

Lemma fapi20_enforced_witness :
  oidc_proto_profile_auth_request_method_get (O:=JoseModel.jose) (B64:=Base64Model.base64)
    (demo_fapi_provider (C:=CjoseModel.cjose)) = OIDC_AUTH_REQUEST_METHOD_PAR /\
  oidc_proto_profile_response_require_iss_get (O:=JoseModel.jose) (B64:=Base64Model.base64)
    (demo_fapi_provider (C:=CjoseModel.cjose)) = 1.
Proof.
  destruct (fapi20_enforced (O:=JoseModel.jose) (B64:=Base64Model.base64) (demo_fapi_provider (C:=CjoseModel.cjose)) eq_refl)
    as (H1 & _ & H2 & _). exact (conj H1 H2).
Defined.
