(* ===== verification/Jws.v ===== *)
(** * src/jose/jws.c: signed tokens

    Parsing, signing and serializing a JSON Web Token, and verifying its signature with a
    set of keys. *)

From S2P Require Import Prelude Cstr Jansson Json Base64 Jose Cjose Jwk Jwe Util.
From Stdlib Require Import QArith.
#[local] Open Scope Z_scope.

Definition OIDC_JOSE_HDR_ALG_NONE : string := "eyJhbGciOiJub25lIn0".
Definition OIDC_JOSE_CJOSE_VERSION_DEPRECATED : string := "0.4.".
Definition OIDC_JOSE_JWT_ISS : string := "iss".
Definition OIDC_JOSE_JWT_SUB : string := "sub".
Definition OIDC_JOSE_JWT_EXP : string := "exp".
Definition OIDC_JOSE_JWT_IAT : string := "iat".
Definition OIDC_JWT_CLAIM_TIME_EMPTY : double := Fin (inject_Z (-1)).

Section jws.
Context {J : Jansson} {C : Cjose J} {D : Digest} {Zl : Zlib}.

Record oidc_jwt_payload_t := mk_payload {
  p_json : json_t;
  p_str : option string;
  p_iss : option string;
  p_sub : option string;
  p_exp : double;
  p_iat : double
}.

Record oidc_jwt_t := mk_jwt {
  header : oidc_jwt_hdr_t;
  payload : oidc_jwt_payload_t;
  cjose_jws : option cjose_jws_t
}.

(** An empty header and an empty payload. *)
Definition oidc_jwt_new : oidc_jwt_t :=
  mk_jwt (mk_hdr json_object None None None None None) (mk_payload json_object None None None (Fin 0) (Fin 0)) None.

Definition oidc_jwt_hdr_get (jwt : oidc_jwt_t) (key : string) : option string :=
  jws ← cjose_jws jwt; cjose_header_get (cjose_jws_get_protected jws) key.

(** The boolean and the header. *)
Definition oidc_jwt_hdr_set_json (json : json_t) (key raw_json : string) : bool * json_t :=
  match json_loads raw_json 0 with
  | None => (false, json)
  | Some value => (true, (json_object_set json key value).2)
  end.

Definition oidc_jose_jwt_serialize (jwt : oidc_jwt_t) : option string :=
  if _oidc_strcmp (hdr_alg (header jwt)) (Some "none") =? 0 then
    s_payload ← oidc_json_encode (Some (p_json (payload jwt))) (Z.lor OIDC_JSON_PRESERVE_ORDER OIDC_JSON_COMPACT);
    out ← cjose_base64url_encode s_payload;
    Some (OIDC_JOSE_HDR_ALG_NONE ^^ "." ^^ out ^^ ".")
  else
    jws ← cjose_jws jwt;
    cjose_jws_export jws.

Definition oidc_jwt_alg2kty (jwt : oidc_jwt_t) : Z := oidc_alg2kty (hdr_alg (header jwt)).

Definition is_alg (alg : option string) (names : list string) : bool :=
  existsb (fun n => _oidc_strcmp alg (Some n) =? 0) names.

Definition oidc_alg2keysize (alg : option string) : Z :=
  match alg with
  | None => 0
  | Some _ =>
      if is_alg alg ["A128KW"] then 16
      else if is_alg alg ["A192KW"] then 24
      else if is_alg alg ["A256KW"] then 32
      else if is_alg alg ["RS256"; "PS256"; "HS256"] then 32
      else if is_alg alg ["RS384"; "PS384"; "HS384"] then 48
      else if is_alg alg ["RS512"; "PS512"; "HS512"] then 64
      else 0
  end.

(** [oidc_jose_get_timestamp] of src/jose.c. *)
Definition oidc_jose_get_timestamp (json : json_t) (claim_name : string) (is_mandatory : bool) : bool * double :=
  match json_object_get json claim_name with
  | Some v =>
      if oidc_json_is_number (Some v) then (true, Fin (json_number_value v))
      else (negb is_mandatory, OIDC_JWT_CLAIM_TIME_EMPTY)
  | None => (negb is_mandatory, OIDC_JWT_CLAIM_TIME_EMPTY)
  end.

Definition oidc_jose_parse_payload (s_payload : string) : option oidc_jwt_payload_t :=
  let str := cstr s_payload in
  json ← json_loads str 0;
  if negb (oidc_json_is_object (Some json)) then None
  else Some (mk_payload json (Some str)
    (oidc_jose_get_string json OIDC_JOSE_JWT_ISS false None).2
    (oidc_jose_get_string json OIDC_JOSE_JWT_SUB false None).2
    (oidc_jose_get_timestamp json OIDC_JOSE_JWT_EXP false).2
    (oidc_jose_get_timestamp json OIDC_JOSE_JWT_IAT false).2).

(** [None] is [FALSE]; running out of fuel while uncompressing is [None], too. *)
Definition oidc_jwt_parse (input_json : string) (keys : option keys_t) (compress : bool) : option oidc_jwt_t :=
  s_json ← oidc_jwe_decrypt input_json keys false;
  jws ← cjose_jws_import (cstr s_json);
  let hdr := cjose_jws_get_protected jws in
  let header := mk_hdr hdr (cjose_header_get hdr OIDC_JOSE_HDR_ALG) (cjose_header_get hdr OIDC_JOSE_HDR_KID)
                  (cjose_header_get hdr OIDC_JOSE_HDR_ENC) None None in
  plaintext ← cjose_jws_get_plaintext jws;
  plaintext ← (if compress then mjoin (oidc_jose_uncompress plaintext) else Some plaintext);
  payload ← oidc_jose_parse_payload plaintext;
  Some (mk_jwt header payload (Some jws)).

(** The boolean and the token, whose header is completed in any case. *)
Definition oidc_jwt_sign (jwt : oidc_jwt_t) (jwk : oidc_jwk_t) (compress : bool) : bool * oidc_jwt_t :=
  let h := header jwt in
  let hdr :=
    hdr_set_opt OIDC_JOSE_JWK_X5T_STR (hdr_x5t h)
      (hdr_set_opt OIDC_JOSE_HDR_ENC (hdr_enc h)
        (hdr_set_opt OIDC_JOSE_HDR_KID (hdr_kid h)
          (hdr_set_opt OIDC_JOSE_HDR_ALG (hdr_alg h) (hdr_json h)))) in
  let h := mk_hdr hdr (hdr_alg h) (hdr_kid h) (hdr_enc h) (hdr_cty h) (hdr_x5t h) in
  let p := payload jwt in
  let plaintext := default "" (oidc_json_encode (Some (p_json p)) (Z.lor OIDC_JSON_PRESERVE_ORDER OIDC_JSON_COMPACT)) in
  let sign p s :=
    match cjose_jws_sign (jwk_cjose_jwk jwk) hdr s with
    | Some jws => (true, mk_jwt h p (Some jws))
    | None => (false, mk_jwt h p None)
    end in
  if compress then
    match oidc_jose_compress plaintext with
    | None => (false, mk_jwt h p None)
    | Some s => sign p s
    end
  else sign (mk_payload (p_json p) (Some plaintext) (p_iss p) (p_sub p) (p_exp p) (p_iat p)) plaintext.

(** ** Verification *)

Definition oidc_jose_version_deprecated : bool := str_prefix OIDC_JOSE_CJOSE_VERSION_DEPRECATED cjose_version.

(** The boolean and [jwt->cjose_jws], which an old cjose loses when it fails. *)
Definition oidc_jwt_verify_with_key (jws : option cjose_jws_t) (jwk : oidc_jwk_t) : bool * option cjose_jws_t :=
  let rc := match jws with Some j => cjose_jws_verify j (jwk_cjose_jwk jwk) | None => false end in
  (rc, if negb rc && oidc_jose_version_deprecated then None else jws).

(** The loop over the keys; [rc] is the result so far. *)
Fixpoint verify_loop (kty : Z) (keys : list oidc_jwk_t) (rc : bool) (jws : option cjose_jws_t)
  : bool * option cjose_jws_t :=
  match keys with
  | [] => (rc, jws)
  | jwk :: keys =>
      let '(rc, jws) := if jwk_kty jwk =? kty then oidc_jwt_verify_with_key jws jwk else (rc, jws) in
      if rc || negb (nonnull jws) then (rc, jws) else verify_loop kty keys rc jws
  end.

Definition with_jws (jwt : oidc_jwt_t) (jws : option cjose_jws_t) : oidc_jwt_t :=
  mk_jwt (header jwt) (payload jwt) jws.

Definition oidc_jwt_verify_any (jwt : oidc_jwt_t) (keys : keys_t) : bool * oidc_jwt_t :=
  let '(rc, jws) := verify_loop (oidc_jwt_alg2kty jwt) (map_to_list keys).*2 false (cjose_jws jwt) in
  (rc, with_jws jwt jws).

Definition oidc_jwt_verify (jwt : oidc_jwt_t) (keys : keys_t) : bool * oidc_jwt_t :=
  match hdr_kid (header jwt) with
  | None => oidc_jwt_verify_any jwt keys
  | Some kid =>
      match keys !! kid with
      | None => (false, jwt)
      | Some jwk =>
          if negb (jwk_kty jwk =? oidc_jwt_alg2kty jwt) then (false, jwt)
          else
            let '(rc, jws) := oidc_jwt_verify_with_key (cjose_jws jwt) jwk in
            (rc, with_jws jwt jws)
      end
  end.
End jws.

(** ** Lemmas *)

Section jws_lemmas.
Context {J : Jansson} {C : Cjose J} {D : Digest} {Zl : Zlib}.

(** The keys that may verify a token: one under its identifier when it names one, and
    of the type that its algorithm requires. *)
Definition key_matches (jwt : oidc_jwt_t) (keys : keys_t) (jwk : oidc_jwk_t) : Prop :=
  exists kid, keys !! kid = Some jwk /\ jwk_kty jwk = oidc_jwt_alg2kty jwt /\
    (forall k, hdr_kid (header jwt) = Some k -> k = kid).

Lemma verify_with_key_true jws jwk jws' : oidc_jwt_verify_with_key jws jwk = (true, jws') ->
  jws' = jws /\ exists j, jws = Some j /\ cjose_jws_verify j (jwk_cjose_jwk jwk) = true.
Proof.
  unfold oidc_jwt_verify_with_key. destruct jws as [j|]; [|done].
  destruct (cjose_jws_verify j _) eqn:E; [|done]. intros [= <-]. eauto.
Qed.

Lemma verify_loop_true kty keys jws jws' : verify_loop kty keys false jws = (true, jws') ->
  jws' = jws /\ exists j jwk, jws = Some j /\ In jwk keys /\ jwk_kty jwk = kty /\
    cjose_jws_verify j (jwk_cjose_jwk jwk) = true.
Proof.
  revert jws. induction keys as [|jwk keys IH]; intros jws; cbn [verify_loop]; [done|].
  destruct (Z.eqb_spec (jwk_kty jwk) kty) as [Hk|Hk].
  - destruct (oidc_jwt_verify_with_key jws jwk) as [rc jws1] eqn:E. destruct rc; cbn [orb].
    + intros [= <-]. apply verify_with_key_true in E as (-> & j & -> & Hv). split; [done|].
      exists j, jwk. split; [done|]. split; [by left|done].
    + destruct jws1 as [j1|]; cbn [nonnull negb]; [|done]. intros Hl.
      assert (jws = Some j1) as ->.
      { unfold oidc_jwt_verify_with_key in E. destruct (negb _ && _); congruence. }
      destruct (IH _ Hl) as (-> & j & k & Hj & Hin & H1 & H2). split; [done|]. exists j, k. split; [done|].
      by split; [right|].
  - cbn [orb]. destruct jws as [j1|]; cbn [nonnull negb]; [|done]. intros Hl.
    destruct (IH _ Hl) as (-> & j & k & Hj & Hin & H1 & H2). split; [done|]. exists j, k. split; [done|].
    by split; [right|].
Qed.

(** With a cjose that survives a failure, every key is tried. *)
Lemma verify_loop_complete kty keys j jwk : oidc_jose_version_deprecated = false ->
  In jwk keys -> jwk_kty jwk = kty -> cjose_jws_verify j (jwk_cjose_jwk jwk) = true ->
  (verify_loop kty keys false (Some j)).1 = true.
Proof.
  intros Hd. induction keys as [|k keys IH]; [done|]. cbn [verify_loop]. intros [->|Hin] Hk Hv.
  - rewrite Hk, Z.eqb_refl. unfold oidc_jwt_verify_with_key. by rewrite Hv.
  - destruct (jwk_kty k =? kty); [|by apply IH]. unfold oidc_jwt_verify_with_key. rewrite Hd, andb_false_r.
    destruct (cjose_jws_verify j (jwk_cjose_jwk k)); [done|]. by apply IH.
Qed.

Lemma keys_In (keys : keys_t) jwk : In jwk (map_to_list keys).*2 <-> exists kid, keys !! kid = Some jwk.
Proof.
  rewrite <-list_elem_of_In, list_elem_of_fmap. split.
  - intros ([kid k] & -> & Hin). exists kid. by apply elem_of_map_to_list.
  - intros [kid Hk]. exists (kid, jwk). split; [done|]. by apply elem_of_map_to_list.
Qed.

Lemma jwt_verify_sound jwt keys jwt' : oidc_jwt_verify jwt keys = (true, jwt') ->
  jwt' = jwt /\ exists j jwk, cjose_jws jwt = Some j /\ key_matches jwt keys jwk /\
    cjose_jws_verify j (jwk_cjose_jwk jwk) = true.
Proof.
  unfold oidc_jwt_verify, key_matches. destruct (hdr_kid (header jwt)) as [kid|] eqn:Hkid.
  - destruct (keys !! kid) as [jwk|] eqn:Hk; [|done].
    destruct (Z.eqb_spec (jwk_kty jwk) (oidc_jwt_alg2kty jwt)) as [Hty|]; [|done]. cbn [negb].
    destruct (oidc_jwt_verify_with_key _ _) as [rc jws] eqn:E. intros [= -> <-].
    apply verify_with_key_true in E as (-> & j & Hj & Hv). split; [by destruct jwt|].
    exists j, jwk. split; [done|]. split; [|done]. exists kid. split; [done|]. split; [done|]. by intros k [= <-].
  - unfold oidc_jwt_verify_any. destruct (verify_loop _ _ _ _) as [rc jws] eqn:E. intros [= -> <-].
    apply verify_loop_true in E as (-> & j & jwk & Hj & (kid & Hk)%keys_In & Hty & Hv). split; [by destruct jwt|].
    exists j, jwk. split; [done|]. split; [|done]. by exists kid.
Qed.

Lemma jwt_verify_complete jwt keys j jwk : oidc_jose_version_deprecated = false ->
  cjose_jws jwt = Some j -> key_matches jwt keys jwk -> cjose_jws_verify j (jwk_cjose_jwk jwk) = true ->
  (oidc_jwt_verify jwt keys).1 = true.
Proof.
  intros Hd Hj (kid & Hk & Hty & Hkid) Hv. unfold oidc_jwt_verify.
  destruct (hdr_kid (header jwt)) as [k|] eqn:Hh.
  - assert (k = kid) as -> by by apply Hkid. rewrite Hk, Hty, Z.eqb_refl. cbn [negb].
    unfold oidc_jwt_verify_with_key. by rewrite Hj, Hv.
  - unfold oidc_jwt_verify_any. rewrite Hj.
    pose proof (verify_loop_complete (oidc_jwt_alg2kty jwt) (map_to_list keys).*2 j jwk Hd) as Hl.
    destruct (verify_loop _ _ _ _) as [rc jws]. apply Hl; [|done|done]. apply keys_In. eauto.
Qed.
End jws_lemmas.

(** C21: the signature of a token is accepted exactly when a key of the set verifies
    it that the token may use: of the type its algorithm requires (never, say, an RSA key
    as the secret of an HMAC), and under the identifier that the token names if it names
    one.  With an outdated cjose, which gives up after the first failure, acceptance still
    means that. *)
Theorem jwt_verify_spec {J : Jansson} {C : Cjose J} (jwt : oidc_jwt_t) (keys : keys_t) (j : cjose_jws_t) :
  cjose_jws jwt = Some j ->
  let verified := exists jwk, key_matches jwt keys jwk /\ cjose_jws_verify j (jwk_cjose_jwk jwk) = true in
  ((oidc_jwt_verify jwt keys).1 = true -> verified) /\
  (oidc_jose_version_deprecated = false -> verified -> (oidc_jwt_verify jwt keys).1 = true).
Proof.
  intros Hj. split.
  - destruct (oidc_jwt_verify jwt keys) as [rc jwt'] eqn:E. cbn. intros ->.
    apply jwt_verify_sound in E as (_ & j' & jwk & Hj' & Hm & Hv). simplify_eq. by exists jwk.
  - intros Hd (jwk & Hm & Hv). by eapply jwt_verify_complete.
Qed.

(** Parsing a token that was signed: the key verifies it, header and payload are those that were signed. *)
Lemma jwt_sign_parsed {J : Jansson} {JS : JanssonSpec J} {B64 : Base64} {C : Cjose J} {CS : CjoseSpec C B64}
  {D : Digest} {Zl : Zlib} (jwt jwt1 : oidc_jwt_t) (jwk : oidc_jwk_t) (c : string) (dkeys : option keys_t) :
  is_object (hdr_json (header jwt)) -> is_object (p_json (payload jwt)) ->
  hdr_alg (header jwt) <> Some "none" ->
  oidc_jwt_sign jwt jwk false = (true, jwt1) -> oidc_jose_jwt_serialize jwt1 = Some c ->
  exists jwt2 j, oidc_jwt_parse c dkeys false = Some jwt2 /\
    hdr_json (header jwt2) = hdr_json (header jwt1) /\ p_json (payload jwt2) = p_json (payload jwt) /\
    cjose_jws jwt2 = Some j /\ cjose_jws_verify j (jwk_cjose_jwk jwk) = true.
Proof.
  intros Hh Hp Hnone. unfold oidc_jwt_sign. cbv zeta.
  set (hdr := hdr_set_opt OIDC_JOSE_JWK_X5T_STR _ _).
  destruct (dumps_object (p_json (payload jwt))
    (oidc_json_flags2backend (Z.lor OIDC_JSON_PRESERVE_ORDER OIDC_JSON_COMPACT)) Hp) as [s Hs].
  cbn [oidc_json_encode]. rewrite Hs. cbn [default from_option id].
  destruct (cjose_jws_sign (jwk_cjose_jwk jwk) hdr s) as [j|] eqn:Hsign; [|done]. intros [= <-].
  unfold oidc_jose_jwt_serialize. cbn [header hdr_alg cjose_jws mbind option_bind].
  destruct (Z.eqb_spec (_oidc_strcmp (hdr_alg (header jwt)) (Some "none")) 0) as [E|_].
  { apply oidc_strcmp_eq in E as (x & E1 & [= <-]). by destruct Hnone. }
  intros Hexp.
  assert (Ho : is_object hdr).
  { unfold hdr, hdr_set_opt, oidc_jwt_hdr_set. repeat case_match; unfold is_object; by rewrite ?object_set_typeof. }
  destruct (jws_import_export _ _ _ _ _ Hsign Hexp Ho) as (Hc & Hnoenc & j' & Hi & Hprot & Hplain & Hver).
  unfold oidc_jwt_parse, oidc_jwe_decrypt. rewrite Hnoenc. cbn [mbind option_bind]. rewrite Hc, Hi.
  cbn [mbind option_bind]. rewrite Hplain. cbn [mbind option_bind].
  unfold oidc_jose_parse_payload. destruct (dumps_text _ _ _ Hs) as [_ ->].
  rewrite (loads_dumps _ _ _ Hp Hs). cbn [mbind option_bind]. pose proof Hp as Hp'.
  apply is_object_true in Hp' as ->. cbn [negb]. eexists _, j'. split; [reflexivity|]. by rewrite Hprot.
Qed.

(** A token with a payload that is signed, serialized and parsed again comes back
    with the same header and payload, and any set of keys that holds the signing key under the token's key identifier
    verifies it. *)
Theorem jwt_sign_roundtrip {J : Jansson} {JS : JanssonSpec J} {B64 : Base64} {C : Cjose J} {CS : CjoseSpec C B64}
  {D : Digest} {Zl : Zlib} (jwt jwt1 : oidc_jwt_t) (jwk : oidc_jwk_t) (c : string) (dkeys : option keys_t) :
  is_object (hdr_json (header jwt)) -> is_object (p_json (payload jwt)) ->
  hdr_alg (header jwt) <> Some "none" ->
  oidc_jwt_sign jwt jwk false = (true, jwt1) -> oidc_jose_jwt_serialize jwt1 = Some c ->
  exists jwt2, oidc_jwt_parse c dkeys false = Some jwt2 /\
    hdr_json (header jwt2) = hdr_json (header jwt1) /\ p_json (payload jwt2) = p_json (payload jwt) /\
    (forall keys, oidc_jose_version_deprecated = false -> key_matches jwt2 keys jwk ->
       (oidc_jwt_verify jwt2 keys).1 = true).
Proof.
  intros Hh Hp Hn Hs Hc. destruct (jwt_sign_parsed jwt jwt1 jwk c dkeys Hh Hp Hn Hs Hc) as (jwt2 & j & ? & ? & ? & ? & ?).
  exists jwt2. split; [done|]. split; [done|]. split; [done|]. intros keys Hd Hm. by eapply jwt_verify_complete.
Qed.

(** ** Witnesses *)

Definition demo_payload : oidc_jwt_payload_t (J:=Model.jansson) :=
  mk_payload (J:=Model.jansson) (Model.JObj [("sub", Model.JStr "joe")]) None None None (Fin 0) (Fin 0).
Definition demo_hdr (kid : option string) : oidc_jwt_hdr_t (J:=Model.jansson) :=
  mk_hdr (J:=Model.jansson) (Model.JObj []) (Some "HS256") kid None None None.
Definition demo_jwk (secret : string) (kid : string) : oidc_jwk_t (C:=CjoseModel.cjose) :=
  mk_jwk (C:=CjoseModel.cjose) None None CJOSE_JWK_KTY_OCT (Some kid) None None None
    (CjoseModel.mk_jwk CJOSE_JWK_KTY_OCT secret (Some kid)).
Definition demo_jws : cjose_jws_t (Cjose:=CjoseModel.cjose) :=
  CjoseModel.mk_tok false (Model.JObj []) "secret" "{}".
Definition demo_keys (secret kid : string) : gmap string (oidc_jwk_t (C:=CjoseModel.cjose)) := {[ kid := demo_jwk secret kid ]}.

Lemma demo_matches (jwt : oidc_jwt_t (J:=Model.jansson) (C:=CjoseModel.cjose)) secret kid :
  hdr_alg (header jwt) = Some "HS256" -> hdr_kid (header jwt) = Some kid ->
  key_matches jwt (demo_keys secret kid) (demo_jwk secret kid).
Proof.
  intros Ha Hk. exists kid. split; [apply lookup_singleton_eq|]. split; [|congruence].
  unfold oidc_jwt_alg2kty. by rewrite Ha.
Qed.

Definition demo_jwt : oidc_jwt_t (J:=Model.jansson) (C:=CjoseModel.cjose) :=
  mk_jwt (demo_hdr (Some "k1")) demo_payload (Some demo_jws).

(** The signing key verifies the token, another key under the same identifier does not. *)
Lemma jwt_verify_spec_witness : cjose_jws demo_jwt = Some demo_jws /\
  (oidc_jwt_verify demo_jwt (demo_keys "secret" "k1")).1 = true /\
  (oidc_jwt_verify demo_jwt (demo_keys "other" "k1")).1 <> true.
Proof.
  split; [reflexivity|]. split.
  - apply (jwt_verify_spec demo_jwt _ demo_jws eq_refl); [reflexivity|].
    exists (demo_jwk "secret" "k1"). split; [by apply demo_matches|reflexivity].
  - intros H. apply (jwt_verify_spec demo_jwt _ demo_jws eq_refl) in H as (jwk & (kid & Hk & _) & Hv).
    unfold demo_keys in Hk. apply lookup_singleton_Some in Hk as [_ <-]. discriminate Hv.
Defined.

Lemma jwt_sign_roundtrip_witness : exists jwt1 c jwt2,
  oidc_jwt_sign (Zl:=CjoseModel.zlib) (mk_jwt (demo_hdr None) demo_payload None) (demo_jwk "secret" "k1") false = (true, jwt1) /\
  oidc_jose_jwt_serialize jwt1 = Some c /\
  oidc_jwt_parse (C:=CjoseModel.cjose) (Zl:=CjoseModel.zlib) c None false = Some jwt2 /\
  p_json (payload jwt2) = p_json demo_payload.
Proof.
  eexists _, _.
  destruct (jwt_sign_roundtrip (JS:=Model.jansson_spec) (CS:=CjoseModel.cjose_spec) (D:=CjoseModel.digest)
    (Zl:=CjoseModel.zlib) (mk_jwt (demo_hdr None) demo_payload None) _ (demo_jwk "secret" "k1") _ None
    eq_refl eq_refl ltac:(discriminate) eq_refl eq_refl) as (jwt2 & H & _ & Hp & _).
  exists jwt2. split; [reflexivity|]. split; [reflexivity|]. split; [exact H|exact Hp].
Defined.
