(* ===== verification/World.v ===== *)
(** * The world of a request

    An operation on the outside takes and returns a [world]: the request, the state of
    the cache and the number of calls to the outside made so far, which selects the
    environment ([ext]) and the random bytes the next call meets. *)

From S2P Require Import Prelude Cstr Apr StrUtil Http Url Cookie Base64 Jose Jwt ShmCache Cache.

Record world (St : Type) := mk_world { w_req : request; w_cache : St; w_calls : nat }.
Arguments mk_world {St}.
Arguments w_req {St}.
Arguments w_cache {St}.
Arguments w_calls {St}.

(** A computation on the world; [None] is the fuel of a header search. *)
Definition M (St A : Type) : Type := world St -> option (A * world St).
Definition ret {St A} (a : A) : M St A := fun w => Some (a, w).
Definition bind {St A B} (m : M St A) (f : A -> M St B) : M St B :=
  fun w => match m w with Some (a, w') => f a w' | None => None end.

Declare Scope world_scope.
Delimit Scope world_scope with world.
Notation "x <- m ;; k" := (bind m (fun x => k)) (at level 20, m at level 99, k at level 200) : world_scope.
Notation "' p <- m ;; k" := (bind m (fun p => k))
  (at level 20, p pattern, m at level 99, k at level 200) : world_scope.
#[local] Open Scope world_scope.

Definition get_req {St} : M St request := fun w => Some (w_req w, w).
Definition put_req {St} (r : request) : M St unit :=
  fun w => Some (tt, mk_world r (w_cache w) (w_calls w)).

(** A result that exists unless fuel ran out. *)
Definition lift {St A} (o : option A) : M St A := fun w => match o with Some a => Some (a, w) | None => None end.

(** The values of the SameSite attribute (src/cfg/cfg.h, src/http.h). *)
Inductive oidc_samesite_cookie_t :=
  | OIDC_SAMESITE_COOKIE_STRICT | OIDC_SAMESITE_COOKIE_LAX
  | OIDC_SAMESITE_COOKIE_NONE | OIDC_SAMESITE_COOKIE_DISABLED.

Definition OIDC_HTTP_COOKIE_SAMESITE_LAX : string := "SameSite=Lax".
Definition OIDC_HTTP_COOKIE_SAMESITE_STRICT : string := "SameSite=Strict".

Section calls.
Context {O : Jose} {B64 : Base64} {H : Httpd} {St : Type} {B : CacheBackend St}.

(** [apr_time_now()]. *)
Definition apr_time_now (ext : nat -> env) : M St Z :=
  fun w => Some (now (ext (w_calls w)), mk_world (w_req w) (w_cache w) (S (w_calls w))).

Definition cache_get (ext : nat -> env) (c : cache_cfg) (section : string) (key : option string)
  : M St (bool * option string) :=
  fun w =>
    let '(ok, v, st) := oidc_cache_get (ext (w_calls w)) c (w_req w) section key (w_cache w) in
    Some ((ok, v), mk_world (w_req w) st (S (w_calls w))).

Definition cache_set (ext : nat -> env) (c : cache_cfg) (section : string) (key val : option string) (ex : Z)
  : M St bool :=
  fun w =>
    let '(ok, st) := oidc_cache_set (ext (w_calls w)) c (w_req w) section key val ex (w_cache w) in
    Some (ok, mk_world (w_req w) st (S (w_calls w))).

Definition set_cookie (c : cookie_cfg) (name val : string) (ex : Z) (attr : option string) : M St unit :=
  fun w => r ← oidc_http_set_cookie c (w_req w) name val ex attr;
           Some (tt, mk_world r (w_cache w) (w_calls w)).

Definition OIDC_HTTP_COOKIE_SAMESITE_NONE (c : cookie_cfg) : M St (option string) :=
  fun w => secure ← oidc_util_url_cur_is_secure (w_req w) (x_forwarded_headers c);
           Some (if (secure : bool) then Some "SameSite=None" else None, w).
End calls.

(** ** Lemmas *)

(** The first step of a sequence has run. *)
Lemma bind_run {St A B'} (m : M St A) (f : A -> M St B') w a w' : m w = Some (a, w') -> bind m f w = f a w'.
Proof. unfold bind. by intros ->. Qed.

Lemma lift_inv {St A} (o : option A) (w : world St) a w' : lift o w = Some (a, w') -> o = Some a /\ w' = w.
Proof. unfold lift. destruct o; [|done]. by intros [= -> ->]. Qed.

(** Rewrite the first step of a sequence with its result [R]. *)
Ltac run R := rewrite (bind_run _ _ _ _ _ R); cbv beta zeta.

(** A sequence that returned: its first step did. *)
Lemma bind_inv {St A B'} (m : M St A) (f : A -> M St B') w b w' : bind m f w = Some (b, w') ->
  exists a w1, m w = Some (a, w1) /\ f a w1 = Some (b, w').
Proof. unfold bind. destruct (m w) as [[a w1]|]; [|done]. by exists a, w1. Qed.

Section calls_lemmas.
Context {H : Httpd} {St : Type}.
Implicit Types (w : world St).

Lemma samesite_none_run c w : exists a, OIDC_HTTP_COOKIE_SAMESITE_NONE c w = Some (a, w).
Proof.
  unfold OIDC_HTTP_COOKIE_SAMESITE_NONE, oidc_util_url_cur_is_secure.
  destruct (cur_scheme_total (w_req w) (x_forwarded_headers c)) as (s & -> & _). by eexists.
Qed.

Lemma set_cookie_run c n v ex a w : str_forall name_char n = true -> str_forall value_char v = true ->
  exists r, set_cookie c n v ex a w = Some (tt, mk_world r (w_cache w) (w_calls w)) /\ emits (w_req w) r [(n, v)].
Proof.
  intros Hn Hv. unfold set_cookie.
  destruct (set_cookie_emits c (w_req w) n v ex a Hn Hv) as (r & -> & He). by eexists.
Qed.
End calls_lemmas.

(** ** What terminates *)

(** A computation that always returns. *)
Definition total {St A} (m : M St A) : Prop := forall w, exists a w', m w = Some (a, w').

Section total.
Context {St : Type}.

Lemma total_ret {A} (a : A) : total (St:=St) (ret a).
Proof. intros w. by exists a, w. Qed.

Lemma total_bind {A B'} (m : M St A) (f : A -> M St B') : total m -> (forall a, total (f a)) -> total (bind m f).
Proof. intros Hm Hf w. unfold bind. destruct (Hm w) as (a & w1 & ->). apply Hf. Qed.

Lemma total_lift {A} (o : option A) : is_Some o -> total (St:=St) (lift o).
Proof. intros [a ->] w. by exists a, w. Qed.

Lemma total_get_req : total (St:=St) get_req.
Proof. intros w. by eexists _, _. Qed.

Lemma total_now ext : total (St:=St) (apr_time_now ext).
Proof. intros w. by eexists _, _. Qed.

Lemma total_cache_get {O : Jose} {B64 : Base64} {B : CacheBackend St} ext c s k : total (St:=St) (cache_get ext c s k).
Proof. intros w. unfold cache_get. destruct (oidc_cache_get _ _ _ _ _ _) as [[ok v] st]. by eexists _, _. Qed.

Lemma total_cache_set {O : Jose} {B64 : Base64} {B : CacheBackend St} ext c s k v ex : total (St:=St) (cache_set ext c s k v ex).
Proof. intros w. unfold cache_set. destruct (oidc_cache_set _ _ _ _ _ _ _ _) as [ok st]. by eexists _, _. Qed.

Lemma total_set_cookie {H : Httpd} c n v ex a : total (St:=St) (set_cookie c n v ex a).
Proof.
  intros w. unfold set_cookie, oidc_http_set_cookie, oidc_util_url_cur_is_secure.
  destruct (cur_scheme_total (w_req w) (x_forwarded_headers c)) as (s & -> & _). by eexists _, _.
Qed.

Lemma total_samesite_none {H : Httpd} c : total (St:=St) (OIDC_HTTP_COOKIE_SAMESITE_NONE c).
Proof. intros w. destruct (samesite_none_run c w) as [a E]. by eexists _, _. Qed.
End total.

Create HintDb total.
#[export] Hint Resolve total_ret total_bind total_get_req total_now total_cache_get total_cache_set
  total_set_cookie total_samesite_none : total.

Ltac total_auto := repeat first
  [ solve [auto 2 with total nocore]
  | apply total_bind; [|intros ?]
  | match goal with
    | |- total (let '(_, _) := ?p in _) => destruct p
    | |- total (match ?x with _ => _ end) => destruct x
    end ].

(** ** What leaves the request as it is *)

Definition same_req {St A} (m : M St A) : Prop := forall w a w', m w = Some (a, w') -> w_req w' = w_req w.

Section same_req.
Context {St : Type}.

Lemma same_req_ret {A} (a : A) : same_req (St:=St) (ret a).
Proof. by intros w a' w' [= <- <-]. Qed.

Lemma same_req_none {A} : same_req (St:=St) (A:=A) (fun _ => None).
Proof. done. Qed.

Lemma same_req_bind {A B'} (m : M St A) (f : A -> M St B') : same_req m -> (forall a, same_req (f a)) -> same_req (bind m f).
Proof. intros Hm Hf w b w' (a & w1 & E1 & E2)%bind_inv. apply Hm in E1. apply Hf in E2. congruence. Qed.

Lemma same_req_lift {A} (o : option A) : same_req (St:=St) (lift o).
Proof. intros w a w'. unfold lift. destruct o; [|done]. by intros [= <- <-]. Qed.

Lemma same_req_get_req : same_req (St:=St) get_req.
Proof. by intros w a w' [= <- <-]. Qed.

Lemma same_req_now ext : same_req (St:=St) (apr_time_now ext).
Proof. by intros w a w' [= <- <-]. Qed.

Lemma same_req_cache_get {O : Jose} {B64 : Base64} {B : CacheBackend St} ext c s k : same_req (St:=St) (cache_get ext c s k).
Proof. intros w a w'. unfold cache_get. destruct (oidc_cache_get _ _ _ _ _ _) as [[ok v] st]. by intros [= <- <-]. Qed.

Lemma same_req_cache_set {O : Jose} {B64 : Base64} {B : CacheBackend St} ext c s k v ex :
  same_req (St:=St) (cache_set ext c s k v ex).
Proof. intros w a w'. unfold cache_set. destruct (oidc_cache_set _ _ _ _ _ _ _ _) as [ok st]. by intros [= <- <-]. Qed.
End same_req.

Create HintDb same_req.
#[export] Hint Resolve same_req_ret same_req_none same_req_lift same_req_get_req same_req_now same_req_cache_get same_req_cache_set : same_req.

Ltac same_req_auto := repeat first
  [ solve [auto 2 with same_req nocore]
  | apply same_req_bind; [|intros ?]
  | match goal with
    | |- same_req (let '(_, _) := ?p in _) => destruct p
    | |- same_req (match ?x with _ => _ end) => destruct x
    end ].
