(* ===== verification/JwtCheck.v ===== *)
(** * src/proto/jwt.c: checking the claims of a token and creating signed ones

    The timestamps of a token are C [double]s.  Verifying its signature is in
    [Jwks]. *)

From S2P Require Import Prelude Cstr Apr StrUtil Jansson Json Base64 Jose Jwt Util ShmCache Cache World.
From S2P Require Import Cjose Jwk Jwe JoseLib Jws.
From Stdlib Require Import QArith.
#[local] Open Scope Z_scope.

(** ** Comparing doubles *)

(** [a < b]. *)
Definition double_lt (a b : double) : bool :=
  match a, b with
  | Fin x, Fin y => Qnum x * Zpos (Qden y) <? Qnum y * Zpos (Qden x)
  | Fin _, Inf negative => negb negative
  | Inf negative, Fin _ => negative
  | Inf n, Inf m => n && negb m
  | _, _ => false
  end.
(** [d == OIDC_JWT_CLAIM_TIME_EMPTY]. *)
Definition is_time_empty (d : double) : bool :=
  match d with Fin q => Qnum q =? - Zpos (Qden q) | _ => false end.

Definition OIDC_JOSE_HDR_ALG_RS256 : string := "RS256".
Definition OIDC_JOSE_HDR_ALG_PS256 : string := "PS256".
Definition OIDC_JOSE_HDR_ALG_ES256 : string := "ES256".

#[local] Open Scope world_scope.

Section jwt_check.
Context {J : Jansson} {C : Cjose J} {D : Digest} {Zl : Zlib} {St : Type}.
Variable (ext : nat -> env).

(** What follows the reading of the clock. *)
Definition validate_iat_at (t : Z) (jwt : oidc_jwt_t) (is_mandatory : bool) (slack : Z) : bool :=
  let now := apr_time_sec t in
  let iat := p_iat (payload jwt) in
  if is_time_empty iat then negb is_mandatory
  else if negb (double_ge iat 0) then false
  else if slack <? 0 then true
  else if double_lt iat (double_of_Z (now - slack)) then false
  else negb (double_lt (double_of_Z (now + slack)) iat).

Definition oidc_proto_validate_iat (jwt : oidc_jwt_t) (is_mandatory : bool) (slack : Z) : M St bool :=
  t <- apr_time_now ext ;;
  ret (validate_iat_at t jwt is_mandatory slack).

Definition validate_exp_at (t : Z) (jwt : oidc_jwt_t) (is_mandatory : bool) : bool :=
  let now := apr_time_sec t in
  let exp := p_exp (payload jwt) in
  if is_time_empty exp then negb is_mandatory
  else if negb (double_ge exp 0) then false
  else negb (double_lt exp (double_of_Z now)).

Definition oidc_proto_validate_exp (jwt : oidc_jwt_t) (is_mandatory : bool) : M St bool :=
  t <- apr_time_now ext ;;
  ret (validate_exp_at t jwt is_mandatory).

Definition issuer_ok (jwt : oidc_jwt_t) (iss : option string) : bool :=
  match iss with
  | Some _ => nonnull (p_iss (payload jwt)) && oidc_util_issuer_match iss (p_iss (payload jwt))
  | None => true
  end.

Definition oidc_proto_jwt_validate (jwt : oidc_jwt_t) (iss : option string) (exp_is_mandatory iat_is_mandatory : bool)
  (iat_slack : Z) : M St bool :=
  if negb (issuer_ok jwt iss) then ret false
  else
    ok <- oidc_proto_validate_exp jwt exp_is_mandatory ;;
    if negb ok then ret false else oidc_proto_validate_iat jwt iat_is_mandatory iat_slack.

(** ** Creating tokens *)

(** The boolean, the key and the token, which the caller gets in any case. *)
Definition oidc_proto_jwt_create_from_first_pkey (private_keys : option (list oidc_jwk_t)) (use_psa_for_rsa : bool)
  : bool * option oidc_jwk_t * option oidc_jwt_t :=
  match oidc_util_key_list_first private_keys (-1) (Some OIDC_JOSE_JWK_SIG_STR) with
  | None => (false, None, None)
  | Some jwk =>
      let jwt := oidc_jwt_new in
      let with_header alg :=
        let h := header jwt in
        mk_jwt (mk_hdr (hdr_json h) alg (jwk_kid jwk) (hdr_enc h) (hdr_cty h) (hdr_x5t h)) (payload jwt) (cjose_jws jwt) in
      if jwk_kty jwk =? OIDC_JOSE_JWK_KTY_RSA
      then (true, Some jwk, Some (with_header (Some (if use_psa_for_rsa then OIDC_JOSE_HDR_ALG_PS256 else OIDC_JOSE_HDR_ALG_RS256))))
      else if jwk_kty jwk =? OIDC_JOSE_JWK_KTY_EC
      then (true, Some jwk, Some (with_header (Some OIDC_JOSE_HDR_ALG_ES256)))
      else (false, Some jwk, Some (with_header None))
  end.

(** [None] is [FALSE]. *)
Definition oidc_proto_jwt_sign_and_serialize (jwk : oidc_jwk_t) (jwt : oidc_jwt_t) : option string :=
  let '(ok, jwt) := oidc_jwt_sign jwt jwk false in
  if negb ok then None else oidc_jose_jwt_serialize jwt.
End jwt_check.

(** ** Lemmas *)

Lemma double_of_Z_small z : Z.abs z < 2 ^ 53 -> double_of_Z z = Fin (inject_Z z).
Proof.
  intros Hz. unfold double_of_Z, double_of_pos.
  assert (Hl : forall x, 0 <= x < 2 ^ 53 -> (Z.log2 x - 52 <=? 0) = true).
  { intros x Hx. apply Z.leb_le. destruct (decide (x = 0)) as [->|]; [cbn; lia|].
    pose proof (proj1 (Z.log2_lt_pow2 x 53 ltac:(lia)) ltac:(lia)). lia. }
  destruct (Z.ltb_spec z 0); rewrite Hl by lia; do 2 f_equal; lia.
Qed.

Lemma sec_range t : 0 <= t <= INT64_MAX -> 0 <= apr_time_sec t < 2 ^ 52.
Proof.
  intros Ht. unfold apr_time_sec, APR_USEC_PER_SEC. rewrite Z.quot_div_nonneg by lia. unfold INT64_MAX in Ht.
  split; [apply Z.div_pos; lia|]. apply Z.div_lt_upper_bound; lia.
Qed.

Section lemmas.
Context {J : Jansson} {C : Cjose J} {D : Digest} {Zl : Zlib} {St : Type}.

(** The comparisons in the integers and rationals. *)
Lemma validate_exp_at_spec t (jwt : oidc_jwt_t) q : p_exp (payload jwt) = Fin q -> 0 <= t <= INT64_MAX ->
  validate_exp_at t jwt true = true <-> 0 <= Qnum q /\ (inject_Z (apr_time_sec t) <= q)%Q.
Proof.
  intros Hq Ht. unfold validate_exp_at. rewrite Hq. cbn [is_time_empty double_ge negb].
  pose proof (sec_range t Ht).
  rewrite double_of_Z_small by lia. cbn [double_lt]. unfold Qle, inject_Z. cbn [Qnum Qden].
  destruct (Z.eqb_spec (Qnum q) (- Z.pos (Qden q))) as [E|E]; [split; [done|lia]|].
  destruct (Z.leb_spec (0 * Z.pos (Qden q)) (Qnum q)); cbn [negb]; [|split; [done|lia]].
  destruct (Z.ltb_spec (Qnum q * 1) (apr_time_sec t * Z.pos (Qden q))); cbn [negb]; split; try done; lia.
Qed.

Lemma validate_iat_at_spec t (jwt : oidc_jwt_t) q slack : p_iat (payload jwt) = Fin q -> 0 <= t <= INT64_MAX ->
  0 <= slack <= 3600 ->
  validate_iat_at t jwt true slack = true <->
  0 <= Qnum q /\ (inject_Z (apr_time_sec t - slack) <= q)%Q /\ (q <= inject_Z (apr_time_sec t + slack))%Q.
Proof.
  intros Hq Ht Hsl. unfold validate_iat_at. rewrite Hq. cbn [is_time_empty double_ge negb].
  pose proof (sec_range t Ht).
  rewrite !double_of_Z_small by lia. cbn [double_lt]. unfold Qle, inject_Z. cbn [Qnum Qden].
  destruct (Z.eqb_spec (Qnum q) (- Z.pos (Qden q))) as [E|E]; [split; [done|lia]|].
  destruct (Z.leb_spec (0 * Z.pos (Qden q)) (Qnum q)); cbn [negb]; [|split; [done|lia]].
  destruct (Z.ltb_spec slack 0); [lia|].
  destruct (Z.ltb_spec (Qnum q * 1) ((apr_time_sec t - slack) * Z.pos (Qden q))); [split; [done|lia]|].
  destruct (Z.ltb_spec ((apr_time_sec t + slack) * Z.pos (Qden q)) (Qnum q * 1)); cbn [negb]; split; try done; lia.
Qed.

(** The validation reads the clock at most twice and touches nothing else. *)
Lemma jwt_validate_run (ext : nat -> env) (jwt : oidc_jwt_t) iss em im slack (w : world St) :
  exists b w', oidc_proto_jwt_validate ext jwt iss em im slack w = Some (b, w') /\
    w_req w' = w_req w /\ w_cache w' = w_cache w /\ (b = true -> w_calls w' = 2 + w_calls w)%nat /\
    (b = true <-> issuer_ok jwt iss = true /\
      validate_exp_at (now (ext (w_calls w))) jwt em = true /\
      validate_iat_at (now (ext (S (w_calls w)))) jwt im slack = true).
Proof.
  unfold oidc_proto_jwt_validate. destruct (issuer_ok jwt iss); cbn [negb].
  2:{ eexists _, _. split; [reflexivity|]. do 3 (split; [done|]). split; [done|]. by intros [? _]. }
  unfold oidc_proto_validate_exp, oidc_proto_validate_iat, bind, apr_time_now, ret.
  destruct (validate_exp_at _ jwt em); cbn [negb].
  2:{ eexists _, _. split; [reflexivity|]. cbn. do 3 (split; [done || lia|]). split; [done|]. by intros (_ & ? & _). }
  eexists _, _. split; [reflexivity|]. cbn. do 3 (split; [done || lia|]). naive_solver.
Qed.
End lemmas.

Lemma validate_exp_at_bound {J : Jansson} {C : Cjose J} t (jwt : oidc_jwt_t) : 0 <= t <= INT64_MAX ->
  validate_exp_at t jwt true = true ->
  p_exp (payload jwt) = Inf false \/ exists q, p_exp (payload jwt) = Fin q /\ (inject_Z (apr_time_sec t) <= q)%Q.
Proof.
  intros Ht Hv. destruct (p_exp (payload jwt)) as [q|b|] eqn:Hq.
  - right. exists q. split; [done|]. exact (proj2 (proj1 (validate_exp_at_spec t jwt q Hq Ht) Hv)).
  - destruct b; [|by left]. unfold validate_exp_at in Hv. by rewrite Hq in Hv.
  - unfold validate_exp_at in Hv. by rewrite Hq in Hv.
Qed.

(** An expiry that may be missing. *)
Lemma validate_exp_optional {J : Jansson} {C : Cjose J} t (jwt : oidc_jwt_t) : 0 <= t <= INT64_MAX -> validate_exp_at t jwt false = true ->
  is_time_empty (p_exp (payload jwt)) = true \/
  p_exp (payload jwt) = Inf false \/ exists q, p_exp (payload jwt) = Fin q /\ (inject_Z (apr_time_sec t) <= q)%Q.
Proof.
  intros Ht Hv. destruct (is_time_empty (p_exp (payload jwt))) eqn:Ee; [by left|]. right. apply validate_exp_at_bound; [done|].
  unfold validate_exp_at in *. by rewrite Ee in *.
Qed.
