(* ===== verification/Jwks.v ===== *)
(** * src/metadata/jwks.c, src/proto/jwks.c and src/proto/jwt.c: the keys of a provider

    Obtaining the keys from the JWKS URI of a provider, over the cache and with a limit on
    forced refreshes, and verifying the signature of a token with them. *)

From Stdlib Require Import QArith.
From S2P Require Import Prelude Cstr Apr StrUtil Jansson Json Http Cookie Base64 Jose Jwt Util ShmCache Cache World.
From S2P Require Import HttpClient Cjose Jwk Jwe JoseLib Jws Pkce Provider JwtCheck.
#[local] Open Scope Z_scope.

Definition OIDC_CACHE_SECTION_JWKS : string := "j".
Definition OIDC_METADATA_KEYS : string := "keys".
Definition OIDC_METADATA_JWKS_FORCED_REFRESH_INTERVAL_DEFAULT : Z := 60.
Definition OIDC_METADATA_JWKS_FORCED_REFRESH_INTERVAL_ENVVAR : string := "OIDC_JWKS_FORCED_REFRESH_INTERVAL".
Definition OIDC_METADATA_JWKS_FORCED_REFRESH_INTERVAL_MAX : Z := 3600.
Definition OIDC_METADATA_JWKS_FORCED_REFRESH_POSTFIX : string := "#forced".

(** The settings of the module that are read here, and by the other requests to a provider. *)
Record proto_cfg {J : Jansson} {C : Cjose J} := mk_proto_cfg {
  pc_cache : cache_cfg;
  pc_client : client_cfg;
  pc_http_timeout_long : oidc_http_timeout_t;
  pc_http_timeout_short : oidc_http_timeout_t;
  pc_outgoing_proxy : oidc_http_outgoing_proxy_t;
  pc_pass_cookies : option (list string);
  pc_private_keys : option (list oidc_jwk_t);
  pc_public_keys : option (list oidc_jwk_t);
  pc_x_forwarded_headers : Z;
  pc_redirect_uri : option string;
  pc_metadata_dir : option string;
  pc_provider : oidc_provider_t
}.
#[global] Arguments proto_cfg {J} C.

#[local] Open Scope world_scope.

Section jwks.
Context {J : Jansson} {B64 : Base64} {C : Cjose J} {D : Digest} {Zl : Zlib} {H : Httpd}.
Context {St : Type} {B : CacheBackend St}.
Variables (ext : nat -> env) (net : nat -> network) (c : proto_cfg C).

(** A request made through libcurl; the network is that of the current call. *)
Definition http_get (a : http_args) (url : option string) (params : option table) (hdrs : hdrs_t)
  : M St (option http_result) :=
  fun w => Some (oidc_http_get (net (w_calls w)) (pc_client c) (w_req w) a url params hdrs,
                 mk_world (w_req w) (w_cache w) (S (w_calls w))).

(** ** src/metadata/jwks.c *)

Definition oidc_metadata_jwks_cache_key (u : oidc_jwks_uri_t) : option string :=
  match ju_signed_uri u with Some s => Some s | None => ju_uri u end.

Definition oidc_metadata_jwks_forced_refresh_interval (r : request) : Z :=
  match apr_table_get (subprocess_env r) OIDC_METADATA_JWKS_FORCED_REFRESH_INTERVAL_ENVVAR with
  | None => OIDC_METADATA_JWKS_FORCED_REFRESH_INTERVAL_DEFAULT
  | Some s_interval =>
      match _oidc_str_to_int_checked (Some s_interval) with
      | Some interval =>
          if (interval <? 0) || (OIDC_METADATA_JWKS_FORCED_REFRESH_INTERVAL_MAX <? interval)
          then OIDC_METADATA_JWKS_FORCED_REFRESH_INTERVAL_DEFAULT
          else interval
      | None => OIDC_METADATA_JWKS_FORCED_REFRESH_INTERVAL_DEFAULT
      end
  end.

Definition oidc_metadata_jwks_forced_refresh_key (u : oidc_jwks_uri_t) : string :=
  match oidc_metadata_jwks_cache_key u with
  | Some k => k ^^ OIDC_METADATA_JWKS_FORCED_REFRESH_POSTFIX
  | None => ""
  end.

Definition oidc_metadata_jwks_forced_refresh_throttled (u : oidc_jwks_uri_t) : M St bool :=
  r <- get_req ;;
  if oidc_metadata_jwks_forced_refresh_interval r =? 0 then ret false
  else
    '(ok, value) <- cache_get ext (pc_cache c) OIDC_CACHE_SECTION_JWKS (Some (oidc_metadata_jwks_forced_refresh_key u)) ;;
    if negb ok then ret true else ret (nonnull value).

Definition oidc_metadata_jwks_forced_refresh_stamp (u : oidc_jwks_uri_t) : M St bool :=
  r <- get_req ;;
  let interval := oidc_metadata_jwks_forced_refresh_interval r in
  if interval =? 0 then ret true
  else
    t <- apr_time_now ext ;;
    cache_set ext (pc_cache c) OIDC_CACHE_SECTION_JWKS (Some (oidc_metadata_jwks_forced_refresh_key u)) (Some "1")
      (t + apr_time_from_sec interval).

Definition oidc_metadata_jwks_is_valid (j_jwks : json_t) : bool :=
  match oidc_json_object_get (Some j_jwks) OIDC_METADATA_KEYS with
  | Some keys => oidc_json_is_array (Some keys)
  | None => false
  end.

(** The keys that verify a signed set: one without an identifier gets a number. *)
Definition verifier_keys (l : list oidc_jwk_t) : keys_t :=
  foldl (fun keys jwk => <[default (pretty (Z.of_nat (size keys))) (jwk_kid jwk) := jwk]> keys) ∅ l.

(** The set inside a signed one: [None] is [FALSE], and the inner [option] is a payload that is [NULL]. *)
Definition jwks_open (u : oidc_jwks_uri_t) (response : option string) : M St (option (option string)) :=
  match ju_signed_uri u, ju_jwk_list u with
  | Some _, Some l =>
      let keys := verifier_keys l in
      match s ← response; oidc_jwt_parse s (Some keys) false with
      | None => ret None
      | Some jwt =>
          let '(ok, jwt) := oidc_jwt_verify jwt keys in
          if negb ok then ret None
          else
            ok <- oidc_proto_jwt_validate ext jwt None false false (-1) ;;
            if negb ok then ret None else ret (Some (p_str (payload jwt)))
      end
  | _, _ => ret (Some response)
  end.

Definition jwks_args (ssl_validate_server : bool) : http_args :=
  mk_http_args None None None ssl_validate_server (pc_http_timeout_long c) (pc_outgoing_proxy c) (pc_pass_cookies c)
    None None None.

(** [None] is [FALSE] with [*j_jwks = NULL]. *)
Definition oidc_metadata_jwks_retrieve_and_cache (u : oidc_jwks_uri_t) (ssl_validate_server : bool)
  : M St (option json_t) :=
  let url := match ju_signed_uri u with Some s => Some s | None => ju_uri u end in
  result <- http_get (jwks_args ssl_validate_server) url None ∅ ;;
  match result with
  | None => ret None
  | Some result =>
      response <- jwks_open u (hr_response result) ;;
      match response with
      | None => ret None
      | Some response =>
          match oidc_json_decode_and_check_error response with
          | None => ret None
          | Some j_jwks =>
              if negb (oidc_metadata_jwks_is_valid j_jwks) then ret None
              else
                t <- apr_time_now ext ;;
                '_ <- cache_set ext (pc_cache c) OIDC_CACHE_SECTION_JWKS (oidc_metadata_jwks_cache_key u) response
                        (t + apr_time_from_sec (oidc_cfg_jwks_uri_refresh_interval_get u)) ;;
                ret (Some j_jwks)
          end
      end
  end.

(** The keys, [None] when they are [NULL], and [*refresh]. *)
Definition oidc_metadata_jwks_get (u : oidc_jwks_uri_t) (ssl_validate_server refresh : bool)
  : M St (option json_t * bool) :=
  '(forced_refresh_attempted, fresh) <-
    (if refresh then
       throttled <- oidc_metadata_jwks_forced_refresh_throttled u ;;
       if (throttled : bool) then ret (true, None)
       else
         stamped <- oidc_metadata_jwks_forced_refresh_stamp u ;;
         if negb stamped then ret (true, None)
         else
           j <- oidc_metadata_jwks_retrieve_and_cache u ssl_validate_server ;;
           ret (true, j)
     else ret (false, None)) ;;
  match (fresh : option json_t) with
  | Some j => ret (Some j, refresh)
  | None =>
      '(ok, value) <- cache_get ext (pc_cache c) OIDC_CACHE_SECTION_JWKS (oidc_metadata_jwks_cache_key u) ;;
      match (if (ok : bool) && nonnull value then oidc_json_decode_and_check_error value else None) with
      | Some j => ret (Some j, refresh)
      | None =>
          if (forced_refresh_attempted : bool) then ret (None, refresh)
          else
            j <- oidc_metadata_jwks_retrieve_and_cache u ssl_validate_server ;;
            ret (j, true)
      end
  end.

(** ** src/proto/jwks.c *)

Definition oidc_proto_jwks_key_include_any (jwk : oidc_jwk_t) (elem : json_t) (result : keys_t) : keys_t :=
  match oidc_json_string_value (oidc_json_object_get (Some elem) OIDC_JOSE_JWK_USE_STR) with
  | Some use => if negb (_oidc_strcmp (Some use) (Some OIDC_JOSE_JWK_SIG_STR) =? 0) then result
                else <[default (pretty (Z.of_nat (size result))) (jwk_kid jwk) := jwk]> result
  | None => <[default (pretty (Z.of_nat (size result))) (jwk_kid jwk) := jwk]> result
  end.

(** The boolean and the result. *)
Definition oidc_proto_jwks_key_apply (jwt : oidc_jwt_t) (elem : json_t) (x5t : option string) (result : keys_t)
  : bool * keys_t :=
  match oidc_jwk_parse_json elem with
  | None => (false, result)
  | Some jwk =>
      let kid := hdr_kid (header jwt) in
      if negb (oidc_jwt_alg2kty jwt =? jwk_kty jwk) then (false, result)
      else if negb (nonnull kid) && negb (nonnull x5t) then (false, oidc_proto_jwks_key_include_any jwk elem result)
      else if _oidc_strcmp kid (jwk_kid jwk) =? 0 then (true, <[default "" kid := jwk]> result)
      else
        let s_x5t := oidc_json_object_get_string (Some elem) OIDC_JOSE_JWK_X5T_STR None in
        if _oidc_strcmp x5t s_x5t =? 0 then (true, <[default "" x5t := jwk]> result) else (false, result)
  end.

(** The loop over the elements. *)
Fixpoint key_get_loop (jwt : oidc_jwt_t) (x5t : option string) (elems : list json_t) (result : keys_t) : keys_t :=
  match elems with
  | [] => result
  | elem :: elems =>
      let '(found, result) := oidc_proto_jwks_key_apply jwt elem x5t result in
      if found then result else key_get_loop jwt x5t elems result
  end.

(** The boolean, which the caller ignores, and the result. *)
Definition oidc_proto_jwks_key_get (jwt : oidc_jwt_t) (j_jwks : json_t) (result : keys_t) : bool * keys_t :=
  let x5t := oidc_jwt_hdr_get jwt OIDC_JOSE_JWK_X5T_STR in
  match oidc_json_object_get (Some j_jwks) OIDC_JOSE_JWKS_KEYS_STR with
  | Some keys =>
      if negb (oidc_json_is_array (Some keys)) then (false, result)
      else (true, key_get_loop jwt x5t (json_array_items keys) result)
  | None => (false, result)
  end.

(** The boolean, the keys and [*force_refresh].  The function calls itself once at most, and only
    when [*force_refresh] was not set: [fuel] is 2. *)
Fixpoint jwks_uri_keys_go (fuel : nat) (jwt : oidc_jwt_t) (u : oidc_jwks_uri_t) (ssl_validate_server : bool)
  (keys : keys_t) (force_refresh : bool) : M St (bool * keys_t * bool) :=
  match fuel with
  | O => fun _ => None
  | S fuel =>
      '(j_jwks, force_refresh) <- oidc_metadata_jwks_get u ssl_validate_server force_refresh ;;
      match (j_jwks : option json_t) with
      | None => ret (false, keys, force_refresh)
      | Some j_jwks =>
          let '(_, keys) := oidc_proto_jwks_key_get jwt j_jwks keys in
          if (size keys <? 1)%nat && negb (force_refresh : bool)
          then jwks_uri_keys_go fuel jwt u ssl_validate_server keys true
          else ret (true, keys, force_refresh)
      end
  end.
Definition oidc_proto_jwks_uri_keys := jwks_uri_keys_go 2.

(** ** src/proto/jwt.c *)

(** On a shared identifier the key of the provider counts. *)
Definition oidc_proto_jwt_verify_keys_merge (static_keys dynamic_keys : option keys_t) : keys_t :=
  oidc_util_key_sets_hash_merge dynamic_keys static_keys.

(** Whether the algorithm of the token is acceptable. *)
Definition alg_acceptable (jwt : oidc_jwt_t) (alg : option string) : bool :=
  match alg with
  | Some _ => _oidc_strcmp (hdr_alg (header jwt)) alg =? 0
  | None => nonnull (hdr_alg (header jwt)) && negb (_oidc_strcmp (hdr_alg (header jwt)) (Some "none") =? 0)
  end.

Definition uses_jwks_uri (jwt : oidc_jwt_t) (u : oidc_jwks_uri_t) : bool :=
  (nonnull (ju_uri u) || nonnull (ju_signed_uri u)) && negb (oidc_jwt_alg2kty jwt =? OIDC_JOSE_JWK_KTY_OCT).

(** The boolean and the token. *)
Definition oidc_proto_jwt_verify (jwt : oidc_jwt_t) (u : oidc_jwks_uri_t) (ssl_validate_server : bool)
  (static_keys : option keys_t) (alg : option string) : M St (bool * oidc_jwt_t) :=
  if negb (alg_acceptable jwt alg) then ret (false, jwt)
  else
    let use_jwks_uri := uses_jwks_uri jwt u in
    '(ok, dynamic_keys, _) <-
      (if use_jwks_uri then oidc_proto_jwks_uri_keys jwt u ssl_validate_server ∅ false else ret (true, ∅, false)) ;;
    if negb ok then ret (false, jwt)
    else
      let '(rv, jwt) := oidc_jwt_verify jwt (oidc_proto_jwt_verify_keys_merge static_keys (Some dynamic_keys)) in
      if negb rv && negb (nonnull (hdr_kid (header jwt))) && use_jwks_uri then
        '(_, dynamic_keys, _) <- oidc_proto_jwks_uri_keys jwt u ssl_validate_server ∅ true ;;
        ret (oidc_jwt_verify jwt (oidc_proto_jwt_verify_keys_merge static_keys (Some dynamic_keys)))
      else ret (rv, jwt).
End jwks.

(** ** Lemmas *)

Section jwks_lemmas.
Context {J : Jansson} {B64 : Base64} {C : Cjose J} {D : Digest} {Zl : Zlib} {H : Httpd}.
Context {St : Type} {B : CacheBackend St}.
Variables (ext : nat -> env) (net : nat -> network) (c : proto_cfg C) (ssl : bool).
Implicit Types (w : world St) (u : oidc_jwks_uri_t) (k : oidc_jwk_t).

(** Where a set of keys comes from: the JWKS URI, or the cache. *)
Inductive jwks_source u (j : json_t) : Prop :=
  | source_fetched w w' :
      oidc_metadata_jwks_retrieve_and_cache ext net c u ssl w = Some (Some j, w') -> jwks_source u j
  | source_cached w v w' :
      cache_get ext (pc_cache c) OIDC_CACHE_SECTION_JWKS (oidc_metadata_jwks_cache_key u) w = Some ((true, Some v), w') ->
      oidc_json_decode_and_check_error (Some v) = Some j -> jwks_source u j.

(** A key of the type the token requires in such a set. *)
Definition published u (jwt : oidc_jwt_t) k : Prop :=
  exists j keys elem, jwks_source u j /\ json_object_get j OIDC_JOSE_JWKS_KEYS_STR = Some keys /\
    In elem (json_array_items keys) /\ oidc_jwk_parse_json elem = Some k /\ jwk_kty k = oidc_jwt_alg2kty jwt.

Lemma jwks_get_source u fr w j fr' w' :
  oidc_metadata_jwks_get ext net c u ssl fr w = Some ((Some j, fr'), w') -> jwks_source u j.
Proof.
  unfold oidc_metadata_jwks_get. intros ([att fresh] & w1 & E1 & E2)%bind_inv. destruct fresh as [j1|].
  - assert (j1 = j) as -> by (unfold ret in E2; congruence). destruct fr; [|unfold ret in E1; congruence].
    apply bind_inv in E1 as (th & w2 & _ & E1). destruct th; [unfold ret in E1; congruence|].
    apply bind_inv in E1 as (st & w3 & _ & E1). destruct st; cbn [negb] in E1; [|unfold ret in E1; congruence].
    apply bind_inv in E1 as (jo & w4 & E3 & E1). unfold ret in E1. simplify_eq. by eapply source_fetched.
  - apply bind_inv in E2 as ([ok v] & w2 & E3 & E2).
    destruct ok, v as [v|]; cbn [andb nonnull] in E2.
    1: destruct (oidc_json_decode_and_check_error (Some v)) as [j2|] eqn:E4; [unfold ret in E2; simplify_eq; by eapply source_cached|].
    all: destruct att; [unfold ret in E2; congruence|]; apply bind_inv in E2 as (jo & w4 & E5 & E2); unfold ret in E2;
      simplify_eq; by eapply source_fetched.
Qed.

(** A set of keys only grows by keys of the elements. *)
Definition grows (jwt : oidc_jwt_t) (elems : list json_t) (h h' : keys_t) : Prop :=
  forall kid k, h' !! kid = Some k -> h !! kid = Some k \/
    exists elem, In elem elems /\ oidc_jwk_parse_json elem = Some k /\ jwk_kty k = oidc_jwt_alg2kty jwt.

Lemma key_apply_grows (jwt : oidc_jwt_t) elem x5t h b h' :
  oidc_proto_jwks_key_apply jwt elem x5t h = (b, h') -> grows jwt [elem] h h'.
Proof.
  unfold oidc_proto_jwks_key_apply. destruct (oidc_jwk_parse_json elem) as [k|] eqn:Hp; [|intros [= <- <-]; by left].
  destruct (Z.eqb_spec (oidc_jwt_alg2kty jwt) (jwk_kty k)) as [Hk|]; cbn [negb]; [|intros [= <- <-]; by left].
  assert (Hins : forall i, grows jwt [elem] h (<[i:=k]> h)).
  { intros i kid k'. destruct (decide (i = kid)) as [->|Hne].
    - rewrite lookup_insert_eq. intros [= <-]. right. exists elem. split; [by left|]. by rewrite Hk.
    - rewrite lookup_insert_ne by done. by left. }
  assert (Hid : grows jwt [elem] h h) by (intros kid k'; by left).
  unfold oidc_proto_jwks_key_include_any. cbv zeta.
  repeat case_match; intros [= <- <-]; (exact Hid || apply Hins).
Qed.

Lemma key_get_loop_grows (jwt : oidc_jwt_t) x5t elems h : grows jwt elems h (key_get_loop jwt x5t elems h).
Proof.
  revert h. induction elems as [|e elems IH]; intros h; cbn [key_get_loop]; [by left|].
  destruct (oidc_proto_jwks_key_apply jwt e x5t h) as [b h1] eqn:E. apply key_apply_grows in E.
  intros kid k Hk. assert (Hk' : h1 !! kid = Some k \/ exists elem, In elem elems /\
    oidc_jwk_parse_json elem = Some k /\ jwk_kty k = oidc_jwt_alg2kty jwt).
  { destruct b; [by left|]. by apply IH. }
  destruct Hk' as [Hk'|(e' & Hin & He)]; [|right; exists e'; split; [by right|done]].
  apply E in Hk' as [?|(e' & [<-|[]] & He)]; [by left|]. right. exists e. split; [by left|done].
Qed.

Lemma uri_keys_published fuel (jwt : oidc_jwt_t) u h fr w ok h' fr' w' :
  jwks_uri_keys_go ext net c fuel jwt u ssl h fr w = Some ((ok, h', fr'), w') ->
  forall kid k, h' !! kid = Some k -> h !! kid = Some k \/ published u jwt k.
Proof.
  revert h fr w. induction fuel as [|fuel IH]; intros h fr w; cbn [jwks_uri_keys_go]; [done|].
  intros ([j fr1] & w1 & E1 & E2)%bind_inv. destruct j as [j|].
  2:{ unfold ret in E2. simplify_eq. by left. }
  apply jwks_get_source in E1 as Hsrc.
  assert (Hg : forall kid k, (oidc_proto_jwks_key_get jwt j h).2 !! kid = Some k -> h !! kid = Some k \/ published u jwt k).
  { intros kid k. unfold oidc_proto_jwks_key_get, oidc_json_object_get. cbn [mbind option_bind]. cbv zeta.
    destruct (json_object_get j OIDC_JOSE_JWKS_KEYS_STR) as [keys|] eqn:Hkeys; [|intros ?; by left].
    destruct (oidc_json_is_array (Some keys)); cbn [negb snd]; [|intros ?; by left].
    intros Hk. apply key_get_loop_grows in Hk as [?|(e & Hin & He & Hty)]; [by left|].
    right. by exists j, keys, e. }
  destruct (oidc_proto_jwks_key_get jwt j h) as [b h1]. cbn [snd] in Hg.
  destruct ((size h1 <? 1)%nat && negb fr1).
  - intros kid k Hk. destruct (IH _ _ _ E2 _ _ Hk) as [Hk1|?]; [by apply Hg|by right].
  - unfold ret in E2. by simplify_eq.
Qed.

Lemma merge_lookup static dyn kid k :
  oidc_proto_jwt_verify_keys_merge static (Some dyn) !! kid = Some k ->
  dyn !! kid = Some k \/ exists s, static = Some s /\ s !! kid = Some k /\ dyn !! kid = None.
Proof.
  unfold oidc_proto_jwt_verify_keys_merge, oidc_util_key_sets_hash_merge. destruct static as [s|]; [|by left].
  rewrite lookup_union_Some_raw. intros [?|[? ?]]; [by left|]. right. by exists s.
Qed.

(** What an accepted signature means. *)
Definition signature_valid u (static : option keys_t) (jwt : oidc_jwt_t) : Prop :=
  exists jws key, cjose_jws jwt = Some jws /\ cjose_jws_verify jws (jwk_cjose_jwk key) = true /\
    jwk_kty key = oidc_jwt_alg2kty jwt /\
    ((exists s kid, static = Some s /\ s !! kid = Some key /\ (forall i, hdr_kid (header jwt) = Some i -> i = kid)) \/
     jwk_kty key <> OIDC_JOSE_JWK_KTY_OCT /\ published u jwt key).

Lemma verified_signature u static dyn (jwt jwt' : oidc_jwt_t) :
  (forall kid k, dyn !! kid = Some k -> uses_jwks_uri jwt u = true /\ published u jwt k) ->
  oidc_jwt_verify jwt (oidc_proto_jwt_verify_keys_merge static (Some dyn)) = (true, jwt') ->
  jwt' = jwt /\ signature_valid u static jwt.
Proof.
  intros Hd Hv. apply jwt_verify_sound in Hv as (-> & j & key & Hj & (kid & Hk & Hty & Hkid) & Hver).
  split; [done|]. exists j, key. do 3 (split; [done|]). apply merge_lookup in Hk as [Hk|(s & -> & Hk & _)].
  - right. apply Hd in Hk as [Hu Hp]. split; [|done]. unfold uses_jwks_uri in Hu. bool_hyps.
    rewrite Hty. by apply Z.eqb_neq.
  - left. by exists s, kid.
Qed.

(** A failed verification leaves the token or takes its signature away. *)
Lemma jwt_verify_keeps (jwt : oidc_jwt_t) keys : exists o,
  (oidc_jwt_verify jwt keys).2 = with_jws jwt o /\ (o = cjose_jws jwt \/ o = None).
Proof.
  assert (Hk : forall jws k, (oidc_jwt_verify_with_key jws k).2 = jws \/ (oidc_jwt_verify_with_key jws k).2 = None).
  { intros jws k. unfold oidc_jwt_verify_with_key. cbn. destruct (_ && _); auto. }
  unfold oidc_jwt_verify. repeat case_match; try (exists (cjose_jws jwt); split; [by destruct jwt|by left]).
  - destruct (Hk (cjose_jws jwt) o) as [E|E]; match goal with X : oidc_jwt_verify_with_key _ _ = _ |- _ => rewrite X in E end;
      cbn in E; subst; eexists; (split; [reflexivity|auto]).
  - unfold oidc_jwt_verify_any. assert (Hl : forall kty ks b jws, (verify_loop kty ks b jws).2 = jws \/ (verify_loop kty ks b jws).2 = None).
    { intros kty ks. induction ks as [|k ks IH]; intros b jws; cbn [verify_loop]; [by left|].
      destruct (jwk_kty k =? kty).
      - specialize (Hk jws k). destruct (oidc_jwt_verify_with_key jws k) as [b1 j1]. cbn [snd] in Hk.
        destruct (b1 || _); cbn [snd]; [done|]. destruct (IH b1 j1) as [->| ->]; [done|by right].
      - destruct (b || _); [by left|]. apply IH. }
    specialize (Hl (oidc_jwt_alg2kty jwt) (map_to_list keys).*2 false (cjose_jws jwt)).
    destruct (verify_loop _ _ _ _) as [b1 j1]. cbn in Hl. exists j1. by split.
Qed.
End jwks_lemmas.

(** ** Properties *)

Section jwks_props.
Context {J : Jansson} {B64 : Base64} {C : Cjose J} {D : Digest} {Zl : Zlib} {H : Httpd}.
Context {St : Type} {B : CacheBackend St}.

Lemma proto_jwt_verify_sound ext net (c : proto_cfg C) (jwt jwt' : oidc_jwt_t) u ssl static alg (w w' : world St) :
  oidc_proto_jwt_verify ext net c jwt u ssl static alg w = Some ((true, jwt'), w') ->
  jwt' = jwt /\ alg_acceptable jwt alg = true /\ signature_valid (B:=B) ext net c ssl u static jwt.
Proof.
  unfold oidc_proto_jwt_verify. destruct (alg_acceptable jwt alg); cbn [negb]; [|unfold ret; congruence].
  cbv zeta. intros ([[ok dyn] fr] & w1 & E1 & E2)%bind_inv.
  assert (Hd : forall kid k, dyn !! kid = Some k ->
    uses_jwks_uri jwt u = true /\ published (B:=B) ext net c ssl u jwt k).
  { intros kid k Hk. destruct (uses_jwks_uri jwt u); [|unfold ret in E1; simplify_eq; by rewrite lookup_empty in Hk].
    split; [done|]. unfold oidc_proto_jwks_uri_keys in E1.
    destruct (uri_keys_published _ _ _ _ _ _ _ _ _ _ _ _ _ _ E1 _ _ Hk) as [Hk'|]; [by rewrite lookup_empty in Hk'|done]. }
  destruct ok; cbn [negb] in E2; [|unfold ret in E2; congruence].
  pose proof (jwt_verify_keeps jwt (oidc_proto_jwt_verify_keys_merge static (Some dyn))) as (o & Ho & Ho').
  destruct (oidc_jwt_verify jwt _) as [rv jwt1] eqn:Ev. cbn [snd] in Ho. destruct rv; cbn [negb andb] in E2.
  - unfold ret in E2. simplify_eq. by destruct (verified_signature ext net c ssl u static dyn _ _ Hd Ev).
  - destruct (negb _ && _) eqn:Eu; [|unfold ret in E2; congruence]. apply bind_inv in E2 as ([[ok2 dyn2] fr2] & w2 & E3 & E4).
    unfold ret in E4. injection E4 as Ev2 ->.
    assert (jwt1 = jwt) as ->.
    { apply jwt_verify_sound in Ev2 as (_ & j & _ & Hj & _). destruct Ho' as [->| ->]; [by rewrite Ho; destruct jwt|].
      by rewrite Ho in Hj. }
    bool_hyps. destruct (verified_signature (B:=B) ext net c ssl u static dyn2 jwt jwt') as [? ?]; [|exact Ev2|done].
    intros kid k Hk. split; [done|].
    unfold oidc_proto_jwks_uri_keys in E3.
    destruct (uri_keys_published _ _ _ _ _ _ _ _ _ _ _ _ _ _ E3 _ _ Hk) as [Hk'|]; [by rewrite lookup_empty in Hk'|done].
Qed.

(** A throttled forced refresh does not reach the network. *)
Lemma throttled_get ext net (c : proto_cfg C) u ssl (w w1 : world St) :
  oidc_metadata_jwks_forced_refresh_throttled ext c u w = Some (true, w1) ->
  oidc_metadata_jwks_get ext net c u ssl true w =
  bind (cache_get ext (pc_cache c) OIDC_CACHE_SECTION_JWKS (oidc_metadata_jwks_cache_key u))
    (fun '(ok, value) => ret (if (ok : bool) && nonnull value then oidc_json_decode_and_check_error value else None, true)) w1.
Proof.
  intros Ht. unfold oidc_metadata_jwks_get.
  rewrite (bind_run _ _ w (true, None) w1) by (unfold bind at 1; by rewrite Ht). unfold bind. cbv beta iota.
  destruct (cache_get _ _ _ _ w1) as [[[ok v] w2]|]; [|done]. by destruct (if ok && nonnull v then _ else _).
Qed.

Lemma throttled_iff ext (c : proto_cfg C) u (w : world St) :
  oidc_metadata_jwks_forced_refresh_interval (w_req w) <> 0 ->
  forall ok value w1,
  cache_get ext (pc_cache c) OIDC_CACHE_SECTION_JWKS (Some (oidc_metadata_jwks_forced_refresh_key u)) w = Some ((ok, value), w1) ->
  oidc_metadata_jwks_forced_refresh_throttled ext c u w = Some (negb ok || nonnull value, w1).
Proof.
  intros Hi ok value w1 Hg. unfold oidc_metadata_jwks_forced_refresh_throttled.
  run (eq_refl : get_req w = Some (w_req w, w)). apply Z.eqb_neq in Hi. rewrite Hi. run Hg. by destruct ok.
Qed.
End jwks_props.

(** C3: a signature is accepted only with the algorithm that was configured, or any but "none" if
    none was, and only when a key verifies it that is of the type of the algorithm and either configured for the
    provider, under the identifier the token names, or published at its JWKS URI; a published
    key is never used as the secret of a symmetric algorithm. *)
Theorem proto_jwt_verify_trusted {J : Jansson} {B64 : Base64} {C : Cjose J} {D : Digest} {Zl : Zlib} {H : Httpd}
  {St : Type} {B : CacheBackend St} (ext : nat -> env) (net : nat -> network) (c : proto_cfg C)
  (jwt jwt' : oidc_jwt_t) (u : oidc_jwks_uri_t) (ssl : bool) (static : option keys_t) (alg : option string) (w w' : world St) :
  oidc_proto_jwt_verify ext net c jwt u ssl static alg w = Some ((true, jwt'), w') ->
  jwt' = jwt /\
  (forall a, alg = Some a -> hdr_alg (header jwt) = Some a) /\
  (alg = None -> hdr_alg (header jwt) <> None /\ hdr_alg (header jwt) <> Some "none") /\
  exists jws key, cjose_jws jwt = Some jws /\ cjose_jws_verify jws (jwk_cjose_jwk key) = true /\
    jwk_kty key = oidc_jwt_alg2kty jwt /\
    ((exists s kid, static = Some s /\ s !! kid = Some key /\ (forall i, hdr_kid (header jwt) = Some i -> i = kid)) \/
     jwk_kty key <> OIDC_JOSE_JWK_KTY_OCT /\
     exists j keys elem, jwks_source (B:=B) ext net c ssl u j /\ json_object_get j OIDC_JOSE_JWKS_KEYS_STR = Some keys /\
       In elem (json_array_items keys) /\ oidc_jwk_parse_json elem = Some key /\ jwk_kty key = oidc_jwt_alg2kty jwt).
Proof.
  intros E. apply proto_jwt_verify_sound in E as (-> & Ha & Hs). split; [done|]. unfold alg_acceptable in Ha.
  split; [|split; [|exact Hs]].
  - intros a ->. apply Z.eqb_eq, oidc_strcmp_eq in Ha as (x & -> & [= <-]). done.
  - intros ->. bool_hyps. apply nonnull_true in H0 as [x Hx]. rewrite Hx in *. split; [done|]. intros [= ->]. done.
Qed.

(** Forced refreshes are limited: while the mark of the last one is in the cache, and also when the cache
    fails, a request for fresh keys does not depend on the network at all: it gives
    the keys that are cached, or none. *)
Theorem jwks_forced_refresh_limited {J : Jansson} {B64 : Base64} {C : Cjose J} {D : Digest} {Zl : Zlib} {H : Httpd}
  {St : Type} {B : CacheBackend St} (ext : nat -> env) (net : nat -> network) (c : proto_cfg C)
  (u : oidc_jwks_uri_t) (ssl : bool) (ok : bool) (value : option string) (w w1 : world St) :
  oidc_metadata_jwks_forced_refresh_interval (w_req w) <> 0 ->
  cache_get ext (pc_cache c) OIDC_CACHE_SECTION_JWKS (Some (oidc_metadata_jwks_forced_refresh_key u)) w
    = Some ((ok, value), w1) ->
  ok = false \/ value <> None ->
  exists ok' value' w2,
    cache_get ext (pc_cache c) OIDC_CACHE_SECTION_JWKS (oidc_metadata_jwks_cache_key u) w1 = Some ((ok', value'), w2) /\
    forall net', oidc_metadata_jwks_get ext net' c u ssl true w =
      Some ((if ok' && nonnull value' then oidc_json_decode_and_check_error value' else None, true), w2).
Proof.
  intros Hi Hg Hm. pose proof (throttled_iff ext c u w Hi _ _ _ Hg) as Ht.
  assert (negb ok || nonnull value = true) as Hb by (destruct Hm as [->|Hv]; [done|]; destruct ok, value; done).
  rewrite Hb in Ht. destruct (cache_get ext (pc_cache c) OIDC_CACHE_SECTION_JWKS (oidc_metadata_jwks_cache_key u) w1)
    as [[[ok' v'] w2]|] eqn:E; [|unfold cache_get in E; by destruct (oidc_cache_get _ _ _ _ _ _) as [[? ?] ?]].
  exists ok', v', w2. split; [done|]. intros net'. rewrite (throttled_get ext net' c u ssl w w1 Ht).
  unfold bind. rewrite E. done.
Qed.

(** A stamp in the cache holds off forced refreshes until its time is over. *)
Lemma stamp_throttles {J : Jansson} {JS : JanssonSpec J} {B64 : Base64} {BS64 : Base64Spec B64} {C : Cjose J} {CS : CjoseSpec C B64}
  {D : Digest} {DS : DigestSpec D} {Zl : Zlib} {ZS : ZlibSpec Zl} {H : Httpd} {St : Type} {B : CacheBackend St} {BS : CacheBackendSpec B}
  (ext ext2 : nat -> env) (c : proto_cfg C) (u : oidc_jwks_uri_t) (w ws w2 : world St) :
  impl_valid (w_cache w) -> (cache_encrypt (pc_cache c) = true -> payload_ok (w_req w) "1") ->
  oidc_metadata_jwks_forced_refresh_stamp ext c u w = Some (true, ws) ->
  oidc_metadata_jwks_forced_refresh_interval (w_req w) <> 0 -> oidc_metadata_jwks_forced_refresh_interval (w_req w2) <> 0 ->
  oidc_cache_section_get (w_req w2) OIDC_CACHE_SECTION_JWKS = oidc_cache_section_get (w_req w) OIDC_CACHE_SECTION_JWKS ->
  healthy (ext2 (w_calls w2)) ->
  now (ext2 (w_calls w2)) < now (ext (w_calls w)) + oidc_metadata_jwks_forced_refresh_interval (w_req w) * 1000000 ->
  let key := Some (oidc_metadata_jwks_forced_refresh_key u) in
  (oidc_cache_get (ext2 (w_calls w2)) (pc_cache c) (w_req w2) OIDC_CACHE_SECTION_JWKS key (w_cache w2)).1 =
    (oidc_cache_get (ext2 (w_calls w2)) (pc_cache c) (w_req w2) OIDC_CACHE_SECTION_JWKS key (w_cache ws)).1 ->
  forall net1 net2 ssl, oidc_metadata_jwks_get ext2 net1 c u ssl true w2 = oidc_metadata_jwks_get ext2 net2 c u ssl true w2.
Proof.
  intros Hv Hpay Hst Hi Hi2 Hsec Hh Hnow key Hsame net1 net2 ssl. unfold oidc_metadata_jwks_forced_refresh_stamp in Hst.
  revert Hst. run (eq_refl : get_req w = Some (w_req w, w)). pose proof Hi as Hi'. apply Z.eqb_neq in Hi' as ->.
  unfold apr_time_now, cache_set, bind. destruct (oidc_cache_set _ _ _ _ _ _ _ _) as [b st] eqn:Es. intros [= -> <-]. cbn [w_calls w_req w_cache] in *.
  assert (Hr : (oidc_cache_get (ext2 (w_calls w2)) (pc_cache c) (w_req w2) OIDC_CACHE_SECTION_JWKS key st).1 = (true, Some "1")).
  { by eapply cache_value_read; [exact Hsec|exact Hv|exact Hh|exact Hnow|exact Hpay|exact Es]. }
  rewrite Hr in Hsame.
  destruct (oidc_cache_get (ext2 (w_calls w2)) (pc_cache c) (w_req w2) OIDC_CACHE_SECTION_JWKS key (w_cache w2)) as [[ok value] st2] eqn:Eg.
  cbn in Hsame. injection Hsame as -> ->.
  assert (Eg' : cache_get ext2 (pc_cache c) OIDC_CACHE_SECTION_JWKS key w2 = Some ((true, Some "1"), mk_world (w_req w2) st2 (S (w_calls w2))))
    by (unfold cache_get; by rewrite Eg).
  pose proof (throttled_iff ext2 c u w2 Hi2 _ _ _ Eg') as Ht. cbn [negb nonnull orb] in Ht. by rewrite !(throttled_get _ _ _ _ _ _ _ Ht).
Qed.

(** C24: a forced refresh of the keys either does not depend on the network at all, or it was not held off by an earlier one, recorded a stamp
    in the cache, and only then fetched the keys.  As long as the cache shows this stamp, and within the window, which is never longer
    than an hour, no other forced refresh depends on the network. *)
Theorem jwks_stamp_throttles {J : Jansson} {JS : JanssonSpec J} {B64 : Base64} {BS64 : Base64Spec B64} {C : Cjose J}
  {CS : CjoseSpec C B64} {D : Digest} {DS : DigestSpec D} {Zl : Zlib} {ZS : ZlibSpec Zl} {H : Httpd}
  {St : Type} {B : CacheBackend St} {BS : CacheBackendSpec B} (ext : nat -> env) (net : nat -> network) (c : proto_cfg C)
  (u : oidc_jwks_uri_t) (ssl : bool) (res : option json_t * bool) (w w1 : world St) :
  impl_valid (w_cache w) -> (cache_encrypt (pc_cache c) = true -> payload_ok (w_req w) "1") ->
  oidc_metadata_jwks_get ext net c u ssl true w = Some (res, w1) ->
  let interval := oidc_metadata_jwks_forced_refresh_interval (w_req w) in
  let key := Some (oidc_metadata_jwks_forced_refresh_key u) in
  0 <= interval <= 3600 /\
  ((forall net', oidc_metadata_jwks_get ext net' c u ssl true w = Some (res, w1)) \/
   exists wt ws j wf,
     oidc_metadata_jwks_forced_refresh_throttled ext c u w = Some (false, wt) /\
     oidc_metadata_jwks_forced_refresh_stamp ext c u wt = Some (true, ws) /\
     oidc_metadata_jwks_retrieve_and_cache ext net c u ssl ws = Some (j, wf) /\ (nonnull j = true -> res = (j, true) /\ w1 = wf) /\
     (interval <> 0 -> forall (ext2 : nat -> env) (w2 : world St),
        oidc_metadata_jwks_forced_refresh_interval (w_req w2) <> 0 ->
        oidc_cache_section_get (w_req w2) OIDC_CACHE_SECTION_JWKS = oidc_cache_section_get (w_req w) OIDC_CACHE_SECTION_JWKS ->
        healthy (ext2 (w_calls w2)) -> now (ext2 (w_calls w2)) < now (ext (w_calls wt)) + interval * 1000000 ->
        (oidc_cache_get (ext2 (w_calls w2)) (pc_cache c) (w_req w2) OIDC_CACHE_SECTION_JWKS key (w_cache w2)).1 =
          (oidc_cache_get (ext2 (w_calls w2)) (pc_cache c) (w_req w2) OIDC_CACHE_SECTION_JWKS key (w_cache ws)).1 ->
        forall net1 net2 ssl', oidc_metadata_jwks_get ext2 net1 c u ssl' true w2 = oidc_metadata_jwks_get ext2 net2 c u ssl' true w2)).
Proof.
  intros Hv Hpay E interval key. split.
  { unfold interval, oidc_metadata_jwks_forced_refresh_interval. case_match; [|done]. case_match; [|done].
    destruct (_ || _) eqn:Eb; [done|]. apply orb_false_iff in Eb as [Hlo%Z.ltb_ge Hhi%Z.ltb_ge].
    unfold OIDC_METADATA_JWKS_FORCED_REFRESH_INTERVAL_MAX in Hhi. lia. }
  destruct (oidc_metadata_jwks_forced_refresh_throttled ext c u w) as [[th wt]|] eqn:Et.
  2:{ unfold oidc_metadata_jwks_get in E. unfold bind at 1 2 in E. by rewrite Et in E. }
  destruct th.
  { left. intros net'. rewrite <- E. by rewrite !(throttled_get _ _ _ _ _ _ _ Et). }
  assert (Ht : w_req wt = w_req w /\ impl_valid (w_cache wt)).
  { revert Et. unfold oidc_metadata_jwks_forced_refresh_throttled. run (eq_refl : get_req w = Some (w_req w, w)).
    destruct (_ =? 0); [by intros [= <-]|]. unfold bind, cache_get.
    destruct (oidc_cache_get _ _ _ _ _ _) as [[ok v] st] eqn:Eg. assert (Hst : impl_valid st).
    { change st with (ok, v, st).2. rewrite <- Eg. by apply cache_get_valid. }
    destruct ok; cbn [negb]; intros [= _ <-]; done. }
  destruct Ht as [Hr Hvt].
  destruct (oidc_metadata_jwks_forced_refresh_stamp ext c u wt) as [[sd ws]|] eqn:Es.
  2:{ unfold oidc_metadata_jwks_get in E. unfold bind at 1 2 3 in E. by rewrite Et, Es in E. }
  destruct sd.
  2:{ left. intros net'. rewrite <- E. unfold oidc_metadata_jwks_get.
      by rewrite !(bind_run _ _ w (true, None) ws) by (unfold bind at 1; rewrite Et; unfold bind; by rewrite Es). }
  right. unfold oidc_metadata_jwks_get in E. apply bind_inv in E as ([att fresh] & w3 & E1 & E2).
  apply bind_inv in E1 as (th & w4 & E3 & E1). rewrite Et in E3. injection E3 as <- <-.
  apply bind_inv in E1 as (sd & w4 & E3 & E1). rewrite Es in E3. injection E3 as <- <-. cbn [negb] in E1.
  apply bind_inv in E1 as (j & wf & E3 & E1). unfold ret in E1. injection E1 as <- <- <-.
  exists wt, ws, j, wf. split; [done|]. split; [done|]. split; [done|]. split.
  { intros Hj. apply nonnull_true in Hj as [x ->]. unfold ret in E2. by injection E2 as <- <-. }
  intros Hi ext2 w2 Hi2 Hsec Hh Hnow Hsame net1 net2 ssl'. eapply (stamp_throttles ext ext2 c u wt ws w2); try done.
  - by rewrite Hr.
  - by rewrite Hr.
  - by rewrite Hr.
  - by rewrite Hr.
Qed.


(** ** Witnesses *)

(** Without a JWKS URI the configured keys decide. *)
Lemma proto_jwt_verify_static {J : Jansson} {B64 : Base64} {C : Cjose J} {D : Digest} {Zl : Zlib} {H : Httpd}
  {St : Type} {B : CacheBackend St} (ext : nat -> env) (net : nat -> network) (c : proto_cfg C)
  (jwt : oidc_jwt_t) u ssl (s : keys_t) alg (w : world St) :
  alg_acceptable jwt alg = true -> uses_jwks_uri jwt u = false -> (oidc_jwt_verify jwt s).1 = true ->
  oidc_proto_jwt_verify ext net c jwt u ssl (Some s) alg w = Some ((true, jwt), w).
Proof.
  intros Ha Hu Hv. unfold oidc_proto_jwt_verify. rewrite Ha, Hu. cbn [negb]. cbv zeta.
  rewrite (bind_run _ _ w (true, ∅, false) w) by done. cbn [negb].
  unfold oidc_proto_jwt_verify_keys_merge, oidc_util_key_sets_hash_merge. rewrite (left_id_L ∅ (∪)).
  destruct (oidc_jwt_verify jwt s) as [rv jwt'] eqn:E. cbn in Hv. subst rv.
  apply jwt_verify_sound in E as (-> & _). done.
Qed.

Definition demo_proto_cfg : proto_cfg CjoseModel.cjose :=
  mk_proto_cfg _ CjoseModel.cjose (mk_cache_cfg false demo_passphrase) demo_client_cfg (http_timeout demo_args) (http_timeout demo_args)
    (outgoing_proxy demo_args) None None None 0 (Some "/redirect_uri") None oidc_cfg_provider_create.
Definition demo_jwks_world : world ShmCache.header := mk_world demo_request demo_shm 0.
Definition clock (lock : bool) (t : Z) : nat -> env := fun _ => mk_env t lock true.
Definition demo_uri (uri : option string) : oidc_jwks_uri_t (C:=CjoseModel.cjose) := mk_jwks_uri uri (-1) None None.

Lemma proto_jwt_verify_trusted_witness :
  oidc_proto_jwt_verify (B64:=Base64Model.base64) (D:=CjoseModel.digest) (Zl:=CjoseModel.zlib) (H:=HttpdModel.httpd)
    (B:=shm_backend 65536) (clock true 1000000) (fun _ => demo_network "") demo_proto_cfg demo_jwt (demo_uri None) true
    (Some (demo_keys "secret" "k1")) None demo_jwks_world = Some ((true, demo_jwt), demo_jwks_world) /\
  hdr_alg (header demo_jwt) <> Some "none".
Proof.
  assert (E : oidc_proto_jwt_verify (B64:=Base64Model.base64) (D:=CjoseModel.digest) (Zl:=CjoseModel.zlib)
    (H:=HttpdModel.httpd) (B:=shm_backend 65536) (clock true 1000000) (fun _ => demo_network "") demo_proto_cfg demo_jwt
    (demo_uri None) true (Some (demo_keys "secret" "k1")) None demo_jwks_world = Some ((true, demo_jwt), demo_jwks_world)).
  { apply proto_jwt_verify_static; [reflexivity|reflexivity|]. apply (jwt_verify_complete demo_jwt _ demo_jws (demo_jwk "secret" "k1"));
      [reflexivity|reflexivity|by apply demo_matches|reflexivity]. }
  split; [exact E|]. apply proto_jwt_verify_trusted in E as (_ & _ & Hn & _). by apply Hn.
Defined.

(** The cache cannot be locked. *)
Lemma jwks_forced_refresh_limited_witness : exists ok value w2, forall net',
  oidc_metadata_jwks_get (B64:=Base64Model.base64) (D:=CjoseModel.digest) (Zl:=CjoseModel.zlib) (H:=HttpdModel.httpd)
    (B:=shm_backend 65536) (clock false 1000000) net' demo_proto_cfg (demo_uri (Some "https://op/jwks")) true true demo_jwks_world =
    Some ((if ok && nonnull value then oidc_json_decode_and_check_error value else None, true), w2).
Proof.
  destruct (jwks_forced_refresh_limited (B64:=Base64Model.base64) (D:=CjoseModel.digest) (Zl:=CjoseModel.zlib)
    (H:=HttpdModel.httpd) (B:=shm_backend 65536) (clock false 1000000) (fun _ => demo_network "") demo_proto_cfg
    (demo_uri (Some "https://op/jwks")) true false None demo_jwks_world (mk_world demo_request demo_shm 1)
    ltac:(vm_compute; discriminate) eq_refl (or_introl eq_refl)) as (ok & value & w2 & _ & E).
  exists ok, value, w2. exact E.
Defined.

Definition demo_key_set : string := Model.dumps (Model.JObj [("keys", Model.JArr [])]).
Definition demo_changed : network := mk_network true (fun _ _ => mk_transfer [Data demo_key_set] CURLE_OK 200).
Abbreviation demo_forced n :=
  (oidc_metadata_jwks_get (B64:=Base64Model.base64) (D:=CjoseModel.digest) (Zl:=CjoseModel.zlib) (H:=HttpdModel.httpd)
    (B:=shm_backend 2048) (clock true 1000000) (fun _ => n) demo_proto_cfg (demo_uri (Some "https://op/jwks")) true true demo_jwks_world).

(** The provider has changed its keys. *)
Lemma jwks_stamp_throttles_witness : exists res w1 wt ws, demo_forced (demo_changed) = Some (res, w1) /\
  oidc_metadata_jwks_forced_refresh_throttled (B64:=Base64Model.base64) (D:=CjoseModel.digest) (Zl:=CjoseModel.zlib) (B:=shm_backend 2048)
    (clock true 1000000) demo_proto_cfg (demo_uri (Some "https://op/jwks")) demo_jwks_world = Some (false, wt) /\
  oidc_metadata_jwks_forced_refresh_stamp (B64:=Base64Model.base64) (D:=CjoseModel.digest) (Zl:=CjoseModel.zlib) (B:=shm_backend 2048)
    (clock true 1000000) demo_proto_cfg (demo_uri (Some "https://op/jwks")) wt = Some (true, ws).
Proof.
  assert (E : (fun x => nonnull x.1.1) <$> demo_forced (demo_changed) = Some true) by (vm_compute; reflexivity).
  assert (E' : (fun x => nonnull x.1.1) <$> demo_forced (demo_network "") = Some false) by (vm_compute; reflexivity).
  destruct (demo_forced (demo_changed)) as [[res w1]|] eqn:Er; [|discriminate E]. injection E as E.
  destruct (jwks_stamp_throttles (JS:=Model.jansson_spec) (BS64:=Base64Model.base64_spec) (CS:=CjoseModel.cjose_spec)
    (DS:=CjoseModel.digest_spec) (ZS:=CjoseModel.zlib_spec) (H:=HttpdModel.httpd) (BS:=shm_backend_spec 2048)
    (clock true 1000000) (fun _ => demo_changed) demo_proto_cfg (demo_uri (Some "https://op/jwks")) true res demo_jwks_world w1
    demo_shm_valid ltac:(discriminate) Er) as [_ [Hsame|(wt & ws & j & wf & Ht & Hs & _)]].
  - exfalso. rewrite (Hsame (fun _ => demo_network "")) in E'. injection E' as E'. congruence.
  - exists res, w1, wt, ws. split; [reflexivity|]. split; [exact Ht|exact Hs].
Defined.

Definition demo_signed_set : string :=
  default "" (CjoseModel.export (CjoseModel.mk_tok false (Model.JObj [("alg", Model.JStr "HS256")]) "secret"
    (Model.dumps (Model.JObj [("keys", Model.JArr [])])))).
Definition demo_signed_uri : oidc_jwks_uri_t (C:=CjoseModel.cjose) :=
  mk_jwks_uri None (-1) (Some "https://op/signed") (Some [demo_jwk "secret" "k1"]).
Definition demo_signed_network : network :=
  mk_network true (fun _ _ => mk_transfer [Data demo_signed_set] CURLE_OK 200).
Abbreviation demo_retrieve :=
  (oidc_metadata_jwks_retrieve_and_cache (B64:=Base64Model.base64) (D:=CjoseModel.digest) (Zl:=CjoseModel.zlib)
    (H:=HttpdModel.httpd) (B:=shm_backend 2048) (clock true 1000000) (fun _ => demo_signed_network) demo_proto_cfg
    demo_signed_uri true demo_jwks_world).

