(* ===== verification/IdToken.v ===== *)
(** * src/proto/id_token.c: validating an ID token

    Decrypting and parsing a token, its signature, and the claims nonce, iss, exp, iat, sub, aud
    and azp, as well as the hashes of a code and of an access token. *)

From S2P Require Import Prelude Cstr Apr StrUtil Jansson Json Http Cookie Base64 Jose Jwt Util ShmCache Cache World.
From S2P Require Import HttpClient Cjose Jwk Jwe JoseLib Jws Pkce Provider Profile JwtCheck Jwks.
From Stdlib Require Import QArith.
#[local] Open Scope Z_scope.

Definition OIDC_CLAIM_AUD : string := "aud".
Definition OIDC_CLAIM_AZP : string := "azp".
Definition OIDC_CLAIM_NONCE : string := "nonce".
Definition OIDC_CLAIM_AT_HASH : string := "at_hash".
Definition OIDC_CLAIM_C_HASH : string := "c_hash".
Definition OIDC_CACHE_SECTION_NONCE : string := "n".
Definition OIDC_PROTO_RESPONSE_TYPE_IDTOKEN_TOKEN : string := "id_token token".
Definition OIDC_PROTO_RESPONSE_TYPE_CODE_IDTOKEN : string := "code id_token".
Definition OIDC_PROTO_RESPONSE_TYPE_CODE_IDTOKEN_TOKEN : string := "code id_token token".
Definition OIDC_PROTO_IDTOKEN_AUD_CLIENT_ID_SPECIAL_VALUE : string := "@".

#[local] Open Scope world_scope.

(** ** The audience *)

Section audience.
Context {J : Jansson} {B64 : Base64} {C : Cjose J} {D : Digest} {Zl : Zlib}.

Definition oidc_proto_idtoken_validate_azp (provider : oidc_provider_t) (azp : option string) : bool :=
  negb (nonnull azp) || (_oidc_strcmp azp (oidc_cfg_provider_client_id_get provider) =? 0).

Definition oidc_proto_idtoken_aud_resolve (provider : oidc_provider_t) (s_aud : option string) : option string :=
  if _oidc_strcmp s_aud (Some OIDC_PROTO_IDTOKEN_AUD_CLIENT_ID_SPECIAL_VALUE) =? 0
  then oidc_cfg_provider_client_id_get provider else s_aud.

Definition oidc_proto_idtoken_validate_aud_string (provider : oidc_provider_t) (arr : option (list (option string)))
  (aud_value : option string) : bool :=
  match arr with
  | None => _oidc_strcmp aud_value (oidc_cfg_provider_client_id_get provider) =? 0
  | Some l => existsb (fun s => _oidc_strcmp aud_value (oidc_proto_idtoken_aud_resolve provider s) =? 0) l
  end.

(** [azp] is only logged. *)
Definition oidc_proto_idtoken_validate_aud_array (provider : oidc_provider_t) (arr : option (list (option string)))
  (aud : json_t) (azp : option string) : bool :=
  match arr with
  | None => oidc_json_array_has_value (Some aud) (oidc_cfg_provider_client_id_get provider)
  | Some l =>
      forallb (fun s => oidc_json_array_has_value (Some aud) (oidc_proto_idtoken_aud_resolve provider s)) l &&
      negb (length l <? oidc_json_array_size (Some aud))%nat
  end.

Definition oidc_proto_idtoken_validate_aud_and_azp (provider : oidc_provider_t) (id_token_payload : oidc_jwt_payload_t)
  : bool :=
  let json := p_json id_token_payload in
  let azp := (oidc_jose_get_string json OIDC_CLAIM_AZP false None).2 in
  if negb (oidc_proto_idtoken_validate_azp provider azp) then false
  else
    match oidc_json_object_get (Some json) OIDC_CLAIM_AUD with
    | None => false
    | Some aud =>
        let arr := oidc_proto_profile_id_token_aud_values_get provider in
        if oidc_json_is_string (Some aud)
        then oidc_proto_idtoken_validate_aud_string provider arr (oidc_json_string_value (Some aud))
        else if oidc_json_is_array (Some aud) then oidc_proto_idtoken_validate_aud_array provider arr aud azp
        else false
    end.
End audience.

(** ** The hashes of the code and of the access token *)

Section hashes.
Context {J : Jansson} {B64 : Base64} {C : Cjose J} {D : Digest} {Mem : CryptoMemcmp} {H : Httpd}.

Definition oidc_proto_validate_hash (alg : option string) (hash value : string) : bool :=
  let hash_len := Z.quot (oidc_jose_hash_length alg) 2 in
  match oidc_jose_hash_string alg value with
  | None => false
  | Some calc =>
      match oidc_util_base64url_decode (Some hash) with
      | (decoded_len, Some decoded) =>
          if decoded_len <=? 0 then false
          else (decoded_len =? hash_len) && negb (zlen calc <? hash_len) &&
               (CRYPTO_memcmp decoded calc (Z.to_nat hash_len) =? 0)
      | (_, None) => false
      end
  end.

(** The loop over the flows; the [option] is the fuel of splitting the response type. *)
Fixpoint flow_required (response_type : option string) (required_for_flows : list string) : option bool :=
  match required_for_flows with
  | [] => Some false
  | f :: fs =>
      eq ← oidc_util_spaced_string_equals response_type (Some f);
      if (eq : bool) then Some true else flow_required response_type fs
  end.

Definition oidc_proto_validate_hash_value (jwt : oidc_jwt_t) (response_type : option string) (value key : string)
  (required_for_flows : list string) : option bool :=
  match (oidc_jose_get_string (p_json (payload jwt)) key false None).2 with
  | None => negb <$> flow_required response_type required_for_flows
  | Some hash => Some (oidc_proto_validate_hash (hdr_alg (header jwt)) hash value)
  end.

Definition oidc_proto_idtoken_validate_access_token (jwt : oidc_jwt_t) (response_type : option string)
  (access_token : string) : option bool :=
  oidc_proto_validate_hash_value jwt response_type access_token OIDC_CLAIM_AT_HASH
    [OIDC_PROTO_RESPONSE_TYPE_IDTOKEN_TOKEN; OIDC_PROTO_RESPONSE_TYPE_CODE_IDTOKEN_TOKEN].

Definition oidc_proto_idtoken_validate_code (jwt : oidc_jwt_t) (response_type : option string)
  (code : string) : option bool :=
  oidc_proto_validate_hash_value jwt response_type code OIDC_CLAIM_C_HASH
    [OIDC_PROTO_RESPONSE_TYPE_CODE_IDTOKEN; OIDC_PROTO_RESPONSE_TYPE_CODE_IDTOKEN_TOKEN].
End hashes.

(** ** The token *)

Section id_token.
Context {J : Jansson} {B64 : Base64} {C : Cjose J} {D : Digest} {Zl : Zlib} {H : Httpd}.
Context {St : Type} {B : CacheBackend St}.
Variables (ext : nat -> env) (net : nat -> network) (c : proto_cfg C).

Definition oidc_proto_idtoken_validate_nonce (provider : oidc_provider_t) (nonce : string) (jwt : oidc_jwt_t)
  : M St bool :=
  '(_, replay) <- cache_get ext (pc_cache c) OIDC_CACHE_SECTION_NONCE (Some nonce) ;;
  if nonnull replay then ret false
  else
    let '(found, j_nonce) := oidc_jose_get_string (p_json (payload jwt)) OIDC_CLAIM_NONCE true None in
    if negb found then ret false
    else if negb (_oidc_strcmp (Some nonce) j_nonce =? 0) then ret false
    else
      let nonce_cache_duration := apr_time_from_sec (oidc_cfg_provider_idtoken_iat_slack_get provider * 2 + 10) in
      t <- apr_time_now ext ;;
      '_ <- cache_set ext (pc_cache c) OIDC_CACHE_SECTION_NONCE (Some nonce) (Some nonce) (t + nonce_cache_duration) ;;
      ret true.

Definition oidc_proto_validate_idtoken (provider : oidc_provider_t) (jwt : oidc_jwt_t) (nonce : option string)
  : M St bool :=
  ok <- match nonce with
        | Some n => oidc_proto_idtoken_validate_nonce provider n jwt
        | None => ret true
        end ;;
  if negb ok then ret false
  else
    ok <- oidc_proto_jwt_validate ext jwt
            (if oidc_cfg_provider_validate_issuer_get provider =? 0 then None else oidc_cfg_provider_issuer_get provider)
            true true (oidc_cfg_provider_idtoken_iat_slack_get provider) ;;
    if negb ok then ret false
    else ret (nonnull (p_sub (payload jwt)) && oidc_proto_idtoken_validate_aud_and_azp provider (payload jwt)).

(** The keys that decrypt a token: one made of the client secret, the private keys and those of the client. *)
Definition decryption_keys (provider : oidc_provider_t) (jwk : option oidc_jwk_t) : keys_t :=
  let keys := oidc_util_key_symmetric_merge (pc_private_keys c) jwk in
  match oidc_cfg_provider_client_keys_get provider with
  | Some l => oidc_util_key_sets_merge (Some keys) (Some l)
  | None => keys
  end.

(** Whether the exception for the code flow does not apply. *)
Definition signature_required (is_code_flow : bool) (jwt : oidc_jwt_t) (pinned_alg : option string) : bool :=
  negb is_code_flow || negb (_oidc_strcmp (hdr_alg (header jwt)) (Some "none") =? 0) ||
  (nonnull pinned_alg && negb (_oidc_strcmp pinned_alg (Some "none") =? 0)).

(** Decrypting and parsing. *)
Definition idtoken_open (provider : oidc_provider_t) (id_token : string) : option oidc_jwt_t :=
  let '(_, alg, _, _) := Jwe.oidc_proto_jwt_header_peek (Some id_token) in
  jwk ← oidc_util_key_symmetric_create (oidc_cfg_provider_client_secret_get provider) (oidc_alg2keysize alg)
          (Some OIDC_JOSE_ALG_SHA256) true;
  oidc_jwt_parse id_token (Some (decryption_keys provider jwk)) false.

(** [None] is [FALSE] with [*jwt = NULL]. *)
Definition oidc_proto_idtoken_parse (provider : oidc_provider_t) (id_token : string) (nonce : option string)
  (is_code_flow : bool) : M St (option oidc_jwt_t) :=
  match idtoken_open provider id_token with
  | None => ret None
  | Some jwt =>
      let pinned_alg := oidc_cfg_provider_id_token_signed_response_alg_get provider in
      '(ok, jwt) <-
        (if signature_required is_code_flow jwt pinned_alg then
           match oidc_util_key_symmetric_create (oidc_cfg_provider_client_secret_get provider) 0 None true with
           | None => ret (false, jwt)
           | Some jwk =>
               oidc_proto_jwt_verify ext net c jwt (oidc_cfg_provider_jwks_uri_get provider)
                 (negb (oidc_cfg_provider_ssl_validate_server_get provider =? 0))
                 (Some (oidc_util_key_symmetric_merge (oidc_cfg_provider_verify_public_keys_get provider) jwk))
                 pinned_alg
           end
         else ret (true, jwt)) ;;
      if negb ok then ret None
      else
        ok <- oidc_proto_validate_idtoken provider jwt nonce ;;
        ret (if (ok : bool) then Some jwt else None)
  end.
End id_token.
