(* ===== verification/IdTokenProps.v ===== *)
(** * What an accepted ID token guarantees

    The signature, the issuer, the times, the audience and the nonce of the tokens that [IdToken] accepts, that
    a token is not accepted twice, and the hashes that tie a code or an access token to it. *)

From S2P Require Import Prelude Cstr Apr StrUtil Jansson Json Http Cookie Base64 Jose Jwt Util ShmCache Cache World.
From S2P Require Import HttpClient Cjose Jwk Jwe JoseLib Jws Pkce Provider Profile JwtCheck Jwks IdToken.
From Stdlib Require Import QArith.
#[local] Open Scope Z_scope.

(** ** Lemmas *)

Section claims.
Context {J : Jansson} {JS : JanssonSpec J} {B64 : Base64} {C : Cjose J} {D : Digest} {Zl : Zlib}.
Implicit Types (provider : oidc_provider_t) (jwt : oidc_jwt_t) (json aud : json_t).

(** A claim that is a string. *)
Definition claim_string json (name : string) : option string := json_object_get json name ≫= json_string_value.

Lemma is_string_value j : oidc_json_is_string (Some j) = true <-> is_Some (json_string_value j).
Proof.
  unfold oidc_json_is_string. rewrite has_type_Some, list_elem_of_singleton. symmetry. apply string_value_type.
Qed.

Lemma get_string_claim json name mandatory :
  (oidc_jose_get_string json name mandatory None).2 = claim_string json name /\
  (oidc_jose_get_string json name true None).1 = nonnull (claim_string json name).
Proof.
  unfold oidc_jose_get_string, claim_string. destruct (json_object_get json name) as [v|]; cbn [mbind option_bind]; [|split; reflexivity].
  destruct (oidc_json_is_string (Some v)) eqn:E; cbn [fst snd nonnull].
  - apply is_string_value in E as [s ->]. done.
  - destruct (json_string_value v) eqn:Ev; [|done].
    assert (oidc_json_is_string (Some v) = true); [by apply is_string_value|congruence].
Qed.

(** *** The audience *)

(** The values of a list of audiences. *)
Definition aud_items aud : list (option string) := map json_string_value (json_array_items aud).

Lemma array_has_value aud (o : option string) : oidc_json_array_has_value (Some aud) o = true <->
  json_typeof aud = JSON_ARRAY /\ exists s, o = Some s /\ In (Some s) (aud_items aud).
Proof.
  destruct o as [s|].
  - rewrite json_array_has_value_spec. unfold aud_items. split.
    + intros (Ht & v & Hv & Hs). split; [done|]. exists s. split; [done|]. apply in_map_iff. exists v.
      split; [done|]. by apply list_elem_of_In.
    + intros (Ht & ? & [= <-] & Hin). split; [done|]. apply in_map_iff in Hin as (v & Hv & Hin).
      exists v. by rewrite list_elem_of_In.
  - split; [|by intros (_ & ? & ? & _)]. unfold oidc_json_array_has_value. by destruct (negb _).
Qed.

(** The audiences that are trusted. *)
Definition trusted_aud provider : list (option string) :=
  match oidc_proto_profile_id_token_aud_values_get provider with
  | None => [oidc_cfg_provider_client_id_get provider]
  | Some l => map (oidc_proto_idtoken_aud_resolve provider) l
  end.

(** What is asked of the audience: one of the trusted values, or an array which has all
    of them and, if they were configured, is not longer. *)
Definition audience_ok provider json : Prop :=
  (claim_string json OIDC_CLAIM_AZP = None \/
   exists id, claim_string json OIDC_CLAIM_AZP = Some id /\ oidc_cfg_provider_client_id_get provider = Some id) /\
  exists aud, json_object_get json OIDC_CLAIM_AUD = Some aud /\
    ((exists s, json_string_value aud = Some s /\ In (Some s) (trusted_aud provider)) \/
     (json_typeof aud = JSON_ARRAY /\
      (forall o, In o (trusted_aud provider) -> exists s, o = Some s /\ In o (aud_items aud)) /\
      (oidc_proto_profile_id_token_aud_values_get provider <> None ->
       (length (aud_items aud) <= length (trusted_aud provider))%nat))).

Lemma strcmp_zero (a b : option string) : (_oidc_strcmp a b =? 0) = true <-> exists s, a = Some s /\ b = Some s.
Proof. rewrite Z.eqb_eq. apply oidc_strcmp_eq. Qed.

Lemma aud_string_spec provider (s : string) :
  oidc_proto_idtoken_validate_aud_string provider (oidc_proto_profile_id_token_aud_values_get provider) (Some s) = true <->
  In (Some s) (trusted_aud provider).
Proof.
  unfold oidc_proto_idtoken_validate_aud_string, trusted_aud.
  destruct (oidc_proto_profile_id_token_aud_values_get provider) as [l|].
  - rewrite existsb_exists, in_map_iff. split; intros (x & Hx & Hs); exists x.
    + apply strcmp_zero in Hs as (? & [= <-] & Hs). done.
    + split; [done|]. apply strcmp_zero. naive_solver.
  - rewrite strcmp_zero. cbn. naive_solver.
Qed.

Lemma aud_array_spec provider aud azp : json_typeof aud = JSON_ARRAY ->
  oidc_proto_idtoken_validate_aud_array provider (oidc_proto_profile_id_token_aud_values_get provider) aud azp = true <->
  (forall o, In o (trusted_aud provider) -> exists s, o = Some s /\ In o (aud_items aud)) /\
  (oidc_proto_profile_id_token_aud_values_get provider <> None ->
   (length (aud_items aud) <= length (trusted_aud provider))%nat).
Proof.
  intros Ht. unfold oidc_proto_idtoken_validate_aud_array, trusted_aud.
  destruct (oidc_proto_profile_id_token_aud_values_get provider) as [l|].
  - rewrite andb_true_iff, forallb_forall, negb_true_iff, Nat.ltb_ge. cbn [oidc_json_array_size].
    unfold aud_items at 2. rewrite !length_map. split.
    + intros [Hl Hn]. split; [|done]. intros o (x & <- & Hx)%in_map_iff.
      apply Hl, array_has_value in Hx as (_ & s & Hs & Hin). exists s. by rewrite Hs.
    + intros [Hl Hn]. split; [|by apply Hn]. intros x Hx. apply array_has_value. split; [done|].
      destruct (Hl (oidc_proto_idtoken_aud_resolve provider x)) as (s & Hs & Hin); [by apply in_map|].
      exists s. by rewrite <-Hs.
  - rewrite array_has_value. split.
    + intros (_ & s & Hs & Hin). split; [|done]. intros o [<-|[]]. exists s. by rewrite Hs.
    + intros [Hl _]. split; [done|]. destruct (Hl _ (or_introl eq_refl)) as (s & Hs & Hin). exists s. by rewrite <-Hs.
Qed.

Lemma aud_and_azp_spec provider (pay : oidc_jwt_payload_t) :
  oidc_proto_idtoken_validate_aud_and_azp provider pay = true <-> audience_ok provider (p_json pay).
Proof.
  unfold oidc_proto_idtoken_validate_aud_and_azp, audience_ok. cbv zeta.
  rewrite (proj1 (get_string_claim (p_json pay) OIDC_CLAIM_AZP false)).
  assert (Hz : oidc_proto_idtoken_validate_azp provider (claim_string (p_json pay) OIDC_CLAIM_AZP) = true <->
    (claim_string (p_json pay) OIDC_CLAIM_AZP = None \/ exists id, claim_string (p_json pay) OIDC_CLAIM_AZP = Some id /\
      oidc_cfg_provider_client_id_get provider = Some id)).
  { unfold oidc_proto_idtoken_validate_azp. rewrite orb_true_iff, strcmp_zero.
    destruct (claim_string _ _); cbn; naive_solver. }
  destruct (oidc_proto_idtoken_validate_azp _ _); cbn [negb].
  2:{ split; [done|]. intros [Ha _]. by apply Hz in Ha. }
  unfold oidc_json_object_get. cbn [mbind option_bind].
  destruct (json_object_get (p_json pay) OIDC_CLAIM_AUD) as [aud|]; [|split; [done|by intros (_ & ? & ? & _)]].
  assert (Hl : forall P : json_t -> Prop, (exists a, Some aud = Some a /\ P a) <-> P aud) by naive_solver.
  rewrite Hl, <-Hz. destruct (oidc_json_is_string (Some aud)) eqn:Es.
  - apply is_string_value in Es as [s Hs]. unfold oidc_json_string_value. cbn [mbind option_bind]. rewrite Hs, aud_string_spec.
    split; [intros; split; [done|]; left; by exists s|]. intros [_ [(? & [= <-] & ?)|(Ha & _)]]; [done|].
    assert (json_typeof aud = JSON_STRING) by (apply string_value_type; by exists s). congruence.
  - assert (Hn : ~ is_Some (json_string_value aud)) by (rewrite <-is_string_value; congruence).
    destruct (oidc_json_is_array (Some aud)) eqn:Ea.
    + apply has_type_Some, list_elem_of_singleton in Ea. rewrite aud_array_spec by done. split.
      * intros Hx. split; [done|]. by right.
      * intros [_ [(s & Hs & _)|(_ & Hx)]]; [|done]. by destruct Hn; exists s.
    + split; [done|]. intros [_ [(s & Hs & _)|(Ha & _)]]; [by destruct Hn; exists s|].
      assert (oidc_json_is_array (Some aud) = true); [|congruence]. apply has_type_Some. rewrite Ha. set_solver.
Qed.
End claims.

(** *** The times *)

Lemma validate_iat_at_bound {J : Jansson} {C : Cjose J} t (jwt : oidc_jwt_t) slack : 0 <= t <= INT64_MAX ->
  0 <= slack <= OIDC_IDTOKEN_IAT_SLACK_MAX -> validate_iat_at t jwt true slack = true ->
  exists q, p_iat (payload jwt) = Fin q /\ (inject_Z (apr_time_sec t - slack) <= q <= inject_Z (apr_time_sec t + slack))%Q.
Proof.
  intros Ht Hs Hv. destruct (p_iat (payload jwt)) as [q|b|] eqn:Hq.
  - exists q. split; [done|]. exact (proj2 (proj1 (validate_iat_at_spec t jwt q slack Hq Ht Hs) Hv)).
  - unfold validate_iat_at in Hv. rewrite Hq in Hv. destruct b; [done|]. cbn [is_time_empty double_ge negb] in Hv.
    destruct (Z.ltb_spec slack 0); [unfold OIDC_IDTOKEN_IAT_SLACK_MAX in *; lia|].
    rewrite !double_of_Z_small in Hv; [done|..]; pose proof (sec_range t Ht); unfold OIDC_IDTOKEN_IAT_SLACK_MAX in *; lia.
  - unfold validate_iat_at in Hv. by rewrite Hq in Hv.
Qed.

(** *** The nonce *)

Section nonce.
Context {J : Jansson} {JS : JanssonSpec J} {B64 : Base64} {C : Cjose J} {D : Digest} {Zl : Zlib} {H : Httpd}.
Context {St : Type} {B : CacheBackend St}.
Variables (ext : nat -> env) (c : proto_cfg C).
Implicit Types (w : world St) (provider : oidc_provider_t) (jwt : oidc_jwt_t).

(** How long a nonce is kept. *)
Definition nonce_duration provider : Z :=
  apr_time_from_sec (oidc_cfg_provider_idtoken_iat_slack_get provider * 2 + 10).

(** What the cache says about a nonce. *)
Definition nonce_seen w (n : string) : option string :=
  (oidc_cache_get (ext (w_calls w)) (pc_cache c) (w_req w) OIDC_CACHE_SECTION_NONCE (Some n) (w_cache w)).1.2.

(** The store that remembers a nonce which is new. *)
Definition nonce_store provider w (n : string) : bool * St :=
  oidc_cache_set (ext (S (S (w_calls w)))) (pc_cache c) (w_req w) OIDC_CACHE_SECTION_NONCE (Some n) (Some n)
    (now (ext (S (w_calls w))) + nonce_duration provider)
    (oidc_cache_get (ext (w_calls w)) (pc_cache c) (w_req w) OIDC_CACHE_SECTION_NONCE (Some n) (w_cache w)).2.

Lemma validate_nonce_run provider (n : string) jwt w :
  exists b w', oidc_proto_idtoken_validate_nonce ext c provider n jwt w = Some (b, w') /\ w_req w' = w_req w /\
    (b = true <-> nonce_seen w n = None /\ claim_string (p_json (payload jwt)) OIDC_CLAIM_NONCE = Some n) /\
    (b = true -> w_calls w' = (3 + w_calls w)%nat /\ w_cache w' = (nonce_store provider w n).2).
Proof.
  unfold oidc_proto_idtoken_validate_nonce, nonce_seen, nonce_store, nonce_duration, bind at 1, cache_get.
  destruct (oidc_cache_get _ _ _ _ _ _) as [[ok replay] st] eqn:Eg. cbn [fst snd].
  destruct (nonnull replay) eqn:Er.
  { apply nonnull_true in Er as [x ->]. eexists _, _. split; [reflexivity|]. split; [done|]. split; [|done].
    split; [done|]. by intros [? _]. }
  apply nonnull_false in Er as ->.
  destruct (get_string_claim (p_json (payload jwt)) OIDC_CLAIM_NONCE true) as [H2 H1].
  destruct (oidc_jose_get_string _ _ _ _) as [found j_nonce]. cbn in H1, H2. subst.
  destruct (claim_string (p_json (payload jwt)) OIDC_CLAIM_NONCE) as [m|]; cbn [nonnull negb].
  2:{ eexists _, _. split; [reflexivity|]. split; [done|]. split; [|done]. split; [done|]. by intros [_ ?]. }
  destruct (_ =? 0) eqn:Em; cbn [negb].
  - apply strcmp_zero in Em as (? & [= <-] & [= ->]). unfold bind, apr_time_now, cache_set. cbn [w_calls w_req w_cache].
    destruct (oidc_cache_set _ _ _ _ _ _ _ _) as [b st1]. eexists _, _. split; [reflexivity|]. done.
  - eexists _, _. split; [reflexivity|]. split; [done|]. split; [|done]. split; [done|]. intros [_ [= ->]].
    assert ((_oidc_strcmp (Some n) (Some n) =? 0) = true); [apply strcmp_zero; eauto|congruence].
Qed.

(** The validation of the claims, with the world in which the times are checked. *)
Lemma validate_idtoken_true provider jwt (nonce : option string) w w' :
  oidc_proto_validate_idtoken ext c provider jwt nonce w = Some (true, w') ->
  exists w1, w_req w1 = w_req w /\ w_cache w' = w_cache w1 /\ w_calls w' = (2 + w_calls w1)%nat /\
    (forall n, nonce = Some n -> nonce_seen w n = None /\ claim_string (p_json (payload jwt)) OIDC_CLAIM_NONCE = Some n /\
       w_calls w1 = (3 + w_calls w)%nat /\ w_cache w1 = (nonce_store provider w n).2) /\
    (nonce = None -> w1 = w) /\
    issuer_ok jwt (if oidc_cfg_provider_validate_issuer_get provider =? 0 then None else oidc_cfg_provider_issuer_get provider) = true /\
    validate_exp_at (now (ext (w_calls w1))) jwt true = true /\
    validate_iat_at (now (ext (S (w_calls w1)))) jwt true (oidc_cfg_provider_idtoken_iat_slack_get provider) = true /\
    p_sub (payload jwt) <> None /\ audience_ok provider (p_json (payload jwt)).
Proof.
  unfold oidc_proto_validate_idtoken. intros (b & w1 & E1 & E2)%bind_inv. destruct b; cbn [negb] in E2; [|by unfold ret in E2].
  apply bind_inv in E2 as (b2 & w2 & E2 & E3). destruct b2; cbn [negb] in E3; [|by unfold ret in E3].
  unfold ret in E3. injection E3 as E3 <-. apply andb_true_iff in E3 as [Hsub Haud].
  apply aud_and_azp_spec in Haud. apply nonnull_true in Hsub as [s Hs].
  destruct (jwt_validate_run ext jwt (if oidc_cfg_provider_validate_issuer_get provider =? 0 then None
    else oidc_cfg_provider_issuer_get provider) true true (oidc_cfg_provider_idtoken_iat_slack_get provider) w1)
    as (b & w2' & E & Hr & Hc & Hn & Hb). rewrite E2 in E. injection E as <- <-. destruct Hb as [Hb _].
  destruct (Hb eq_refl) as (Hi & He & Hia). exists w1.
  split; [destruct nonce as [n|]; [|unfold ret in E1; by simplify_eq];
    destruct (validate_nonce_run provider n jwt w) as (? & ? & E' & ? & _); by rewrite E1 in E'; simplify_eq|].
  split; [done|]. split; [by apply Hn|]. split.
  { intros n ->. destruct (validate_nonce_run provider n jwt w) as (? & ? & E' & _ & Ht & Hs').
    rewrite E1 in E'. injection E' as <- <-. destruct Ht as [Ht _]. destruct (Ht eq_refl), (Hs' eq_refl). done. }
  split; [intros ->; unfold ret in E1; by simplify_eq|]. rewrite Hs. done.
Qed.

Lemma validate_idtoken_total provider jwt (nonce : option string) w : oidc_proto_validate_idtoken ext c provider jwt nonce w <> None.
Proof.
  unfold oidc_proto_validate_idtoken. assert (Hn : exists b w1, match nonce with
    | Some n => oidc_proto_idtoken_validate_nonce ext c provider n jwt w | None => ret true w end = Some (b, w1)).
  { destruct nonce as [n|]; [|by eexists _, _]. destruct (validate_nonce_run provider n jwt w) as (b & w1 & E & _). by exists b, w1. }
  destruct Hn as (b & w1 & E). unfold bind at 1. destruct nonce as [n|]; rewrite E; clear E; (destruct b; cbn [negb]; [|done]).
  all: match goal with |- context [oidc_proto_jwt_validate ?e ?j ?i ?x ?y ?s] =>
    destruct (jwt_validate_run e j i x y s w1) as (b & v & E & _) end; unfold bind; rewrite E; by destruct b.
Qed.
End nonce.

(** Times that are further apart than both slacks do not accept the same token. *)
Lemma iat_windows_apart (b d slack : Z) (q : Q) : 0 <= b -> 0 <= slack -> b + apr_time_from_sec (slack * 2 + 1) <= d ->
  (inject_Z (apr_time_sec d - slack) <= q)%Q -> (q <= inject_Z (apr_time_sec b + slack))%Q -> False.
Proof.
  intros Hb Hs Hd Hlo Hhi. pose proof (Qle_trans _ _ _ Hlo Hhi) as Hle. unfold Qle, inject_Z in Hle.
  cbn [Qnum Qden] in Hle. unfold apr_time_from_sec, apr_time_sec, APR_USEC_PER_SEC in *.
  rewrite !Z.quot_div_nonneg in Hle by lia.
  assert ((b + (slack * 2 + 1) * 1000000) / 1000000 <= d / 1000000) by (apply Z.div_le_mono; lia).
  rewrite Z.div_add in * by lia. lia.
Qed.

(** The signature of a token is checked from [w] to [w1] with the keys of the provider: those that are configured for it with its client
    secret, and those that it publishes at its JWKS URI. *)
Definition provider_signed {J : Jansson} {B64 : Base64} {C : Cjose J} {D : Digest} {Zl : Zlib} {H : Httpd} {St : Type} {B : CacheBackend St}
  (ext : nat -> env) (net : nat -> network) (c : proto_cfg C) (provider : oidc_provider_t) (jwt : oidc_jwt_t) (w w1 : world St) : Prop :=
  exists jwk, oidc_util_key_symmetric_create (oidc_cfg_provider_client_secret_get provider) 0 None true = Some jwk /\
    let pinned := oidc_cfg_provider_id_token_signed_response_alg_get provider in
    let uri := oidc_cfg_provider_jwks_uri_get provider in
    let ssl := negb (oidc_cfg_provider_ssl_validate_server_get provider =? 0) in
    let keys := Some (oidc_util_key_symmetric_merge (oidc_cfg_provider_verify_public_keys_get provider) jwk) in
    oidc_proto_jwt_verify ext net c jwt uri ssl keys pinned w = Some ((true, jwt), w1) /\
    alg_acceptable jwt pinned = true /\ signature_valid (B:=B) ext net c ssl uri keys jwt.

Lemma provider_signed_intro {J : Jansson} {B64 : Base64} {C : Cjose J} {D : Digest} {Zl : Zlib} {H : Httpd} {St : Type} {B : CacheBackend St}
  ext net (c : proto_cfg C) provider jwk (jwt jwt' : oidc_jwt_t) (w w1 : world St) :
  oidc_util_key_symmetric_create (oidc_cfg_provider_client_secret_get provider) 0 None true = Some jwk ->
  oidc_proto_jwt_verify ext net c jwt (oidc_cfg_provider_jwks_uri_get provider) (negb (oidc_cfg_provider_ssl_validate_server_get provider =? 0))
    (Some (oidc_util_key_symmetric_merge (oidc_cfg_provider_verify_public_keys_get provider) jwk))
    (oidc_cfg_provider_id_token_signed_response_alg_get provider) w = Some ((true, jwt'), w1) ->
  jwt' = jwt /\ provider_signed (B:=B) ext net c provider jwt w w1.
Proof. intros Hk E. pose proof E as E'. apply proto_jwt_verify_sound in E' as (-> & Ha & Hs). split; [done|]. by exists jwk. Qed.

(** ** Properties *)

(** C1: an ID token is accepted only when: it was decrypted and parsed from the input; the signature is
    valid with the keys of this provider and an algorithm that is configured, or, in the code flow only, it is unsigned and no other algorithm is
    configured; its issuer is the configured one, unless that check is switched off; it has a subject; it has
    not expired and was issued within the slack of the current time; its audience and authorized party name
    this client; and its nonce is the one of the request and was not in the cache when the signature had been checked. *)
Theorem idtoken_accepted_sound {J : Jansson} {JS : JanssonSpec J} {B64 : Base64} {C : Cjose J} {D : Digest}
  {Zl : Zlib} {H : Httpd} {St : Type} {B : CacheBackend St} (ext : nat -> env) (net : nat -> network) (c : proto_cfg C)
  (provider : oidc_provider_t) (id_token : string) (nonce : option string) (is_code_flow : bool)
  (jwt : oidc_jwt_t) (w w' : world St) :
  (forall k, 0 <= now (ext k) <= INT64_MAX) ->
  0 <= oidc_cfg_provider_idtoken_iat_slack_get provider <= OIDC_IDTOKEN_IAT_SLACK_MAX ->
  oidc_proto_idtoken_parse ext net c provider id_token nonce is_code_flow w = Some (Some jwt, w') ->
  let pinned := oidc_cfg_provider_id_token_signed_response_alg_get provider in
  idtoken_open c provider id_token = Some jwt /\
  exists w1,
    (provider_signed (B:=B) ext net c provider jwt w w1 \/
     (is_code_flow = true /\ hdr_alg (header jwt) = Some "none" /\ (pinned = None \/ pinned = Some "none") /\ w1 = w)) /\
    oidc_proto_validate_idtoken ext c provider jwt nonce w1 = Some (true, w') /\
    (oidc_cfg_provider_validate_issuer_get provider <> 0 -> forall iss, oidc_cfg_provider_issuer_get provider = Some iss ->
       exists iss', p_iss (payload jwt) = Some iss' /\ same_issuer iss iss') /\
    p_sub (payload jwt) <> None /\
    (let now_s := apr_time_sec (now (ext (w_calls w' - 2)%nat)) in
     p_exp (payload jwt) = Inf false \/ exists q, p_exp (payload jwt) = Fin q /\ (inject_Z now_s <= q)%Q) /\
    (let now_s := apr_time_sec (now (ext (w_calls w' - 1)%nat)) in
     let slack := oidc_cfg_provider_idtoken_iat_slack_get provider in
     exists q, p_iat (payload jwt) = Fin q /\ (inject_Z (now_s - slack) <= q <= inject_Z (now_s + slack))%Q) /\
    audience_ok provider (p_json (payload jwt)) /\
    (forall n, nonce = Some n -> claim_string (p_json (payload jwt)) OIDC_CLAIM_NONCE = Some n /\
       nonce_seen ext c w1 n = None /\ w_cache w' = (nonce_store ext c provider w1 n).2).
Proof.
  intros Hnow Hslack E pinned. unfold oidc_proto_idtoken_parse in E.
  destruct (idtoken_open c provider id_token) as [jwt0|]; [|by unfold ret in E]. cbv zeta in E.
  apply bind_inv in E as ([ok jwt1] & w1 & E1 & E2). destruct ok; cbn [negb] in E2; [|by unfold ret in E2].
  apply bind_inv in E2 as (b & w2 & E2 & E3). destruct b; [|by unfold ret in E3]. unfold ret in E3. injection E3 as -> ->.
  assert (jwt = jwt0 /\ (provider_signed (B:=B) ext net c provider jwt w w1 \/
    (is_code_flow = true /\ hdr_alg (header jwt) = Some "none" /\ (pinned = None \/ pinned = Some "none") /\ w1 = w))) as [-> Hsig].
  { destruct (signature_required is_code_flow jwt0 _) eqn:Es.
    - destruct (oidc_util_key_symmetric_create _ _ _ _) as [jwk|] eqn:Ek; [|by unfold ret in E1].
      apply (provider_signed_intro _ _ _ _ _ _ _ _ _ Ek) in E1 as [-> Hs]. split; [done|by left].
    - unfold ret in E1. injection E1 as -> ->. split; [done|]. right. unfold signature_required in Es.
      apply orb_false_iff in Es as [Es Hp]. apply orb_false_iff in Es as [Hc Hn].
      apply negb_false_iff in Hc, Hn. apply strcmp_zero in Hn as (? & Hn & [= <-]). split; [done|]. split; [done|]. split; [|done].
      fold pinned in Hp. destruct pinned as [p|]; [|by left]. right. cbn [nonnull andb] in Hp.
      apply negb_false_iff, strcmp_zero in Hp as (? & Hp & [= <-]). done. }
  pose proof E2 as Ev. apply validate_idtoken_true in E2 as (w3 & _ & Hcache & Hcalls & Hn & _ & Hi & He & Hia & Hsub & Haud).
  split; [done|]. exists w1. split; [exact Hsig|]. split; [exact Ev|]. split.
  { intros Hv iss Hiss. apply Z.eqb_neq in Hv. rewrite Hv, Hiss in Hi. unfold issuer_ok in Hi.
    apply andb_true_iff in Hi as [_ Hi]. apply issuer_match_true in Hi as (x & y & [= <-] & Hy & Hs). by exists y. }
  rewrite Hcalls. cbn [Nat.add Nat.sub]. rewrite Nat.sub_0_r. split; [done|].
  split; [by apply validate_exp_at_bound|]. split; [by apply validate_iat_at_bound|]. split; [done|].
  intros n Hnn. destruct (Hn n Hnn) as (? & ? & _ & Hst). by rewrite Hcache, Hst.
Qed.

(** C2: once a token with a nonce was accepted and the nonce stored, it is rejected ever after: while the
    nonce is kept because it was seen, and afterwards because the token is older than the slack
    allows.  The margin of ten seconds in the code covers a validation which takes up to nine. *)
Theorem idtoken_nonce_no_replay {J : Jansson} {JS : JanssonSpec J} {B64 : Base64} {BS64 : Base64Spec B64} {C : Cjose J}
  {CS : CjoseSpec C B64} {D : Digest} {DS : DigestSpec D} {Zl : Zlib} {ZS : ZlibSpec Zl} {H : Httpd}
  {St : Type} {B : CacheBackend St} {BS : CacheBackendSpec B} (ext ext2 : nat -> env) (c : proto_cfg C)
  (provider : oidc_provider_t) (jwt : oidc_jwt_t) (n : string) (w w1 w2 : world St) :
  (forall k, 0 <= now (ext k) <= INT64_MAX) -> (forall k, 0 <= now (ext2 k) <= INT64_MAX) ->
  (forall k, (w_calls w2 <= k)%nat -> now (ext2 (w_calls w2)) <= now (ext2 k)) ->
  0 <= oidc_cfg_provider_idtoken_iat_slack_get provider <= OIDC_IDTOKEN_IAT_SLACK_MAX ->
  impl_valid (w_cache w) -> (cache_encrypt (pc_cache c) = true -> payload_ok (w_req w) n) ->
  oidc_proto_validate_idtoken ext c provider jwt (Some n) w = Some (true, w1) ->
  (nonce_store ext c provider w n).1 = true ->
  now (ext (4 + w_calls w)%nat) <= now (ext (S (w_calls w))) + 9 * APR_USEC_PER_SEC ->
  w_cache w2 = w_cache w1 ->
  oidc_cache_section_get (w_req w2) OIDC_CACHE_SECTION_NONCE = oidc_cache_section_get (w_req w) OIDC_CACHE_SECTION_NONCE ->
  healthy (ext2 (w_calls w2)) ->
  exists w3, oidc_proto_validate_idtoken ext2 c provider jwt (Some n) w2 = Some (false, w3).
Proof.
  intros Hnow Hnow2 Hmono Hslack Hv Hpay E Hst Hfast Hsame Hsec Hh.
  destruct (oidc_proto_validate_idtoken ext2 c provider jwt (Some n) w2) as [[[] w3]|] eqn:E2.
  2:{ by exists w3. }
  - exfalso. apply validate_idtoken_true in E as (v & _ & Hc & _ & Hn & _ & _ & _ & Hia & _).
    apply validate_idtoken_true in E2 as (v2 & _ & _ & _ & Hn2 & _ & _ & _ & Hia2 & _).
    destruct (Hn n eq_refl) as (_ & _ & Hcalls & Hcache), (Hn2 n eq_refl) as (Hseen & _ & Hcalls2 & _).
    rewrite Hcalls in Hia. rewrite Hcalls2 in Hia2.
    destruct (validate_iat_at_bound _ _ _ (Hnow _) Hslack Hia) as (q & Hq & _ & Hhi).
    destruct (validate_iat_at_bound _ _ _ (Hnow2 _) Hslack Hia2) as (q2 & Hq2 & Hlo & _).
    assert (q2 = q) as -> by congruence.
    destruct (Z.lt_ge_cases (now (ext2 (w_calls w2))) (now (ext (S (w_calls w))) + nonce_duration provider)) as [Hl|Hl].
    + unfold nonce_seen in Hseen. rewrite Hsame, Hc, Hcache in Hseen.
      destruct (nonce_store ext c provider w n) as [b st] eqn:Es. cbn [fst snd] in Hst, Hseen. subst b.
      assert (Hvalid : impl_valid (oidc_cache_get (ext (w_calls w)) (pc_cache c) (w_req w) OIDC_CACHE_SECTION_NONCE (Some n) (w_cache w)).2)
        by (by apply cache_get_valid).
      pose proof (cache_value_read _ _ _ _ _ _ _ _ _ _ _ Hsec Hvalid Hh Hl Hpay Es) as Hr.
      rewrite Hr in Hseen. done.
    + eapply (iat_windows_apart _ _ (oidc_cfg_provider_idtoken_iat_slack_get provider)); [apply Hnow|apply Hslack| |exact Hlo|exact Hhi].
      unfold nonce_duration, apr_time_from_sec, APR_USEC_PER_SEC in *.
      pose proof (Hmono (S (3 + w_calls w2))%nat ltac:(lia)). cbn [Nat.add] in *. lia.
  - exfalso. revert E2. apply validate_idtoken_total.
Qed.

(** *** The hashes *)

(** The claim [key] is the left half of the digest of [value], or it is absent and the flow is none of those
    that demand it. *)
Definition hash_ok {J : Jansson} {B64 : Base64} {C : Cjose J} {D : Digest} {H : Httpd}
  (jwt : oidc_jwt_t) (response_type : option string) (value key : string) (flows : list string) : Prop :=
  match claim_string (p_json (payload jwt)) key with
  | None => Forall (fun f => oidc_util_spaced_string_to_hashtable response_type <>
                             oidc_util_spaced_string_to_hashtable (Some f)) flows
  | Some hash =>
      let half := Z.quot (oidc_jose_hash_length (hdr_alg (header jwt))) 2 in
      exists calc, oidc_jose_hash_string (hdr_alg (header jwt)) value = Some calc /\ 0 < half <= zlen calc /\
        oidc_util_base64url_decode (Some hash) = (half, Some (str_take (Z.to_nat half) calc))
  end.

Section hashes.
Context {J : Jansson} {JS : JanssonSpec J} {B64 : Base64} {C : Cjose J} {D : Digest} {Mem : CryptoMemcmp}
  {MS : CryptoMemcmpSpec Mem} {H : Httpd} {HS : HttpdSpec H}.

Lemma decode_length (src : option string) n (s : string) : oidc_util_base64url_decode src = (n, Some s) -> n = zlen s.
Proof.
  unfold oidc_util_base64url_decode. destruct src as [src|]; [|done]. unfold oidc_util_base64_decode.
  repeat case_match; intros ?; by simplify_eq.
Qed.

Lemma flow_required_spec response_type flows : exists b, flow_required response_type flows = Some b /\
  (b = false <-> Forall (fun f => oidc_util_spaced_string_to_hashtable response_type <>
                                  oidc_util_spaced_string_to_hashtable (Some f)) flows).
Proof.
  induction flows as [|f flows (b & Hb & Hf)]; cbn [flow_required]; [by exists false|].
  destruct (spaced_string_equals_sets response_type (Some f)) as (sa & sb & r & Ha & Hs & -> & Hr). cbn [mbind option_bind].
  destruct r.
  - exists true. split; [done|]. split; [done|]. rewrite Forall_cons, Ha, Hs. intros [Hn _]. destruct Hr as [Hr _].
    by destruct Hn; rewrite Hr.
  - exists b. split; [done|]. rewrite Forall_cons, <-Hf, Ha, Hs. split; [|by intros [_ ?]]. intros ->. split; [|done].
    intros [= ->]. by destruct Hr as [_ Hr]; discriminate (Hr eq_refl).
Qed.

Lemma validate_hash_spec alg (hash value : string) : oidc_proto_validate_hash alg hash value = true <->
  let half := Z.quot (oidc_jose_hash_length alg) 2 in
  exists calc, oidc_jose_hash_string alg value = Some calc /\ 0 < half <= zlen calc /\
    oidc_util_base64url_decode (Some hash) = (half, Some (str_take (Z.to_nat half) calc)).
Proof.
  unfold oidc_proto_validate_hash. cbv zeta. set (half := Z.quot _ 2).
  destruct (oidc_jose_hash_string alg value) as [calc|]; [|split; [done|by intros (? & ? & _)]].
  assert (Hl : forall P : string -> Prop, (exists x, Some calc = Some x /\ P x) <-> P calc) by naive_solver. rewrite Hl. clear Hl.
  destruct (oidc_util_base64url_decode (Some hash)) as [n [dec|]] eqn:Ed; [|split; [done|intros [_ ?]; congruence]].
  apply decode_length in Ed as Hn. destruct (Z.leb_spec n 0); [split; [done|]; intros [? [= <- ?]]; lia|].
  rewrite !andb_true_iff, negb_true_iff, Z.ltb_ge, !Z.eqb_eq. unfold zlen in *. split.
  - intros [[-> Hc] Hm]. split; [lia|]. f_equal. f_equal. rewrite memcmp_take in Hm by lia.
    rewrite <-Hm. symmetry. rewrite Hn at 1. rewrite Nat2Z.id. apply str_take_self.
  - intros [? [= Hh Hd]]. split; [split; [done|lia]|]. rewrite memcmp_take by lia. rewrite <-Hd.
    rewrite <-Hh at 1. rewrite Hn. rewrite Nat2Z.id. apply str_take_self.
Qed.

Lemma hash_value_spec (jwt : oidc_jwt_t) response_type value key flows : exists b,
  oidc_proto_validate_hash_value jwt response_type value key flows = Some b /\
  (b = true <-> hash_ok jwt response_type value key flows).
Proof.
  unfold oidc_proto_validate_hash_value, hash_ok. rewrite (proj1 (get_string_claim _ key false)).
  destruct (claim_string (p_json (payload jwt)) key) as [hash|].
  - eexists. split; [reflexivity|]. apply validate_hash_spec.
  - destruct (flow_required_spec response_type flows) as (b & -> & Hb). exists (negb b). split; [done|].
    rewrite <-Hb. by destruct b.
Qed.

(** The checks of an access token and of a code against an ID token terminate, and they pass exactly when
    the token carries as "at_hash" or "c_hash" the left half of the digest of that value, or has no such
    claim and the response type, whatever the order of its words, does not demand one. *)
Theorem idtoken_hash_binds (jwt : oidc_jwt_t) (response_type : option string) (access_token code : string) :
  (exists b, oidc_proto_idtoken_validate_access_token jwt response_type access_token = Some b /\
     (b = true <-> hash_ok jwt response_type access_token OIDC_CLAIM_AT_HASH ["id_token token"; "code id_token token"])) /\
  (exists b, oidc_proto_idtoken_validate_code jwt response_type code = Some b /\
     (b = true <-> hash_ok jwt response_type code OIDC_CLAIM_C_HASH ["code id_token"; "code id_token token"])).
Proof. split; apply hash_value_spec. Qed.
End hashes.

(** *** Configured audiences *)

Section audiences.
Context {J : Jansson} {JS : JanssonSpec J} {B64 : Base64} {C : Cjose J} {D : Digest} {Zl : Zlib}.

(** C22: when the trusted audiences are configured without repetition, an accepted token has one
    of them, or a list of exactly these: no other party may receive it. *)
Theorem idtoken_audience_exact (provider : oidc_provider_t) (pay : oidc_jwt_payload_t) :
  oidc_proto_profile_id_token_aud_values_get provider <> None -> NoDup (trusted_aud provider) ->
  oidc_proto_idtoken_validate_aud_and_azp provider pay = true ->
  exists aud, json_object_get (p_json pay) OIDC_CLAIM_AUD = Some aud /\
    ((exists s, json_string_value aud = Some s /\ In (Some s) (trusted_aud provider)) \/
     aud_items aud ≡ₚ trusted_aud provider).
Proof.
  intros Hc Hnd (_ & aud & Ha & Hs)%aud_and_azp_spec. exists aud. split; [done|].
  destruct Hs as [Hs|(_ & Hin & Hlen)]; [by left|]. right. symmetry. apply submseteq_length_Permutation; [|by apply Hlen].
  apply NoDup_submseteq; [done|]. intros o Ho. apply list_elem_of_In in Ho. destruct (Hin o Ho) as (_ & _ & ?).
  by apply list_elem_of_In.
Qed.

(** When they are configured with a repetition, be it the same value twice or the client
    identifier both literally and as "@", only the number of values is compared: a list which has all of
    them once and one that is not trusted is accepted. *)
Theorem idtoken_audience_duplicates (provider : oidc_provider_t) (pay : oidc_jwt_payload_t) (aud : json_t) (other : option string) :
  oidc_proto_profile_id_token_aud_values_get provider <> None -> ~ NoDup (trusted_aud provider) ->
  Forall is_Some (trusted_aud provider) -> claim_string (p_json pay) OIDC_CLAIM_AZP = None ->
  json_object_get (p_json pay) OIDC_CLAIM_AUD = Some aud -> json_typeof aud = JSON_ARRAY ->
  aud_items aud = remove_dups (trusted_aud provider) ++ [other] ->
  oidc_proto_idtoken_validate_aud_and_azp provider pay = true.
Proof.
  intros Hc Hd Hs Hz Ha Ht Hi. apply aud_and_azp_spec. split; [by left|]. exists aud. split; [done|]. right.
  split; [done|]. rewrite Hi. split.
  - intros o Ho. rewrite Forall_forall in Hs. apply list_elem_of_In in Ho. destruct (Hs o Ho) as [s ->]. exists s.
    split; [done|]. apply list_elem_of_In, elem_of_app. left. by apply elem_of_remove_dups.
  - intros _. rewrite length_app. cbn [length].
    assert (Hsub : remove_dups (trusted_aud provider) ⊆+ trusted_aud provider).
    { apply NoDup_submseteq; [apply NoDup_remove_dups|]. intros o. by rewrite elem_of_remove_dups. }
    pose proof (submseteq_length _ _ Hsub). destruct (decide (length (remove_dups (trusted_aud provider)) = length (trusted_aud provider)))
      as [E|]; [|lia]. destruct Hd. pose proof (submseteq_length_Permutation _ _ Hsub ltac:(lia)) as <-. apply NoDup_remove_dups.
Qed.
End audiences.

(** ** Witnesses *)

Definition demo_oidc_provider (auds : option (list string)) : oidc_provider_t (J:=Model.jansson) (C:=CjoseModel.cjose) :=
  mk_provider None (Some "https://op") None None None None None None None None None None None (Some "client") (Some "secret") None
    None None None None None None None None None None None None None None None None None None None None (map Some <$> auds) (-1) (-1) (-1) (-1)
    (-1) (-1) (-1) (-1) (-1) (-1) (-1) (-1) (-1) (mk_jwks_uri None (-1) None None) None None.
Definition demo_claims (aud : Model.jv) : Model.jv :=
  Model.JObj [("iss", Model.JStr "https://op"); ("sub", Model.JStr "joe"); ("aud", aud); ("nonce", Model.JStr "n-0");
    ("exp", Model.JInt 1300); ("iat", Model.JInt 1000)].
Definition demo_id_token : string :=
  default "" (CjoseModel.export (CjoseModel.mk_tok false (Model.JObj [("alg", Model.JStr "HS256")]) "secret"
    (Model.dumps (demo_claims (Model.JStr "client"))))).
Definition demo_id_payload (aud : Model.jv) : oidc_jwt_payload_t (J:=Model.jansson) :=
  mk_payload (J:=Model.jansson) (demo_claims aud) None (Some "https://op") (Some "joe") (Fin 1300) (Fin 1000).
Definition demo_id_jwt : oidc_jwt_t (J:=Model.jansson) (C:=CjoseModel.cjose) :=
  mk_jwt (demo_hdr None) (demo_id_payload (Model.JStr "client")) None.
Definition demo_id_clock (t : Z) : nat -> env := clock true (t * 1000000).

Section demo.
#[local] Existing Instances Model.jansson Base64Model.base64 CjoseModel.cjose CjoseModel.digest CjoseModel.zlib HttpdModel.httpd.
#[local] Instance demo_backend : CacheBackend ShmCache.header := shm_backend 2048.

Abbreviation demo_parse :=
  (oidc_proto_idtoken_parse (demo_id_clock 1010) (fun _ => demo_network "") demo_proto_cfg (demo_oidc_provider None)
    demo_id_token (Some "n-0") false demo_jwks_world).

Lemma demo_id_clock_range t k : 0 <= t <= 10000 -> 0 <= now (demo_id_clock t k) <= INT64_MAX.
Proof. unfold demo_id_clock, clock, INT64_MAX. cbn. lia. Qed.

(** A signed token, ten seconds old. *)
Lemma idtoken_accepted_sound_witness : exists jwt w', demo_parse = Some (Some jwt, w') /\
  p_sub (payload jwt) <> None /\ claim_string (p_json (payload jwt)) OIDC_CLAIM_NONCE = Some "n-0".
Proof.
  assert (E : (fun x => nonnull x.1) <$> demo_parse = Some true) by (vm_compute; reflexivity).
  destruct demo_parse as [[[jwt|] w']|] eqn:Er; [|discriminate E|discriminate E]. clear E. exists jwt, w'.
  split; [exact eq_refl|].
  destruct (idtoken_accepted_sound (JS:=Model.jansson_spec) (demo_id_clock 1010) (fun _ => demo_network "") demo_proto_cfg
    (demo_oidc_provider None) demo_id_token (Some "n-0") false jwt demo_jwks_world w'
    (fun k => demo_id_clock_range 1010 k ltac:(lia)) ltac:(vm_compute; split; discriminate) Er)
    as (_ & w1 & _ & _ & _ & Hs & _ & _ & _ & Hn). exact (conj Hs (proj1 (Hn "n-0" eq_refl))).
Defined.

Abbreviation demo_validate :=
  (oidc_proto_validate_idtoken (demo_id_clock 1010) demo_proto_cfg (demo_oidc_provider None) demo_id_jwt (Some "n-0") demo_jwks_world).

(** A minute later the same token is rejected. *)
Lemma idtoken_nonce_no_replay_witness : exists w1, demo_validate = Some (true, w1) /\
  exists w3, oidc_proto_validate_idtoken (demo_id_clock 1070) demo_proto_cfg (demo_oidc_provider None) demo_id_jwt
    (Some "n-0") (mk_world demo_request (w_cache w1) 0) = Some (false, w3).
Proof.
  assert (E : fst <$> demo_validate = Some true) by (vm_compute; reflexivity).
  destruct demo_validate as [[b w1]|] eqn:Es; [|discriminate E]. injection E as ->. exists w1. split; [exact eq_refl|].
  refine (idtoken_nonce_no_replay (JS:=Model.jansson_spec) (BS64:=Base64Model.base64_spec) (CS:=CjoseModel.cjose_spec)
    (DS:=CjoseModel.digest_spec) (ZS:=CjoseModel.zlib_spec) (BS:=shm_backend_spec 2048) (demo_id_clock 1010) (demo_id_clock 1070)
    demo_proto_cfg (demo_oidc_provider None) demo_id_jwt "n-0" demo_jwks_world w1 (mk_world demo_request (w_cache w1) 0)
    (fun k => demo_id_clock_range 1010 k ltac:(lia)) (fun k => demo_id_clock_range 1070 k ltac:(lia)) _ _ demo_shm_valid _ Es
    _ _ eq_refl eq_refl _).
  - intros k _. reflexivity.
  - vm_compute. split; discriminate.
  - discriminate.
  - vm_compute. reflexivity.
  - vm_compute. discriminate.
  - split; reflexivity.
Defined.

(** The words of the response type come in another order, and the token has no "at_hash". *)
Lemma idtoken_hash_binds_witness :
  oidc_proto_idtoken_validate_access_token (Mem:=demo_memcmp) demo_id_jwt (Some "token id_token") "at" = Some false /\
  oidc_proto_idtoken_validate_code (Mem:=demo_memcmp) demo_id_jwt (Some "token id_token") "c" = Some true.
Proof.
  destruct (idtoken_hash_binds (JS:=Model.jansson_spec) (MS:=demo_memcmp_spec) (HS:=HttpdModel.httpd_spec) demo_id_jwt
    (Some "token id_token") "at" "c") as [(b & E1 & Hb) (b' & E2 & Hb')].
  rewrite E1, E2. split; f_equal.
  - destruct b; [|reflexivity]. exfalso. pose proof (proj1 Hb eq_refl) as Hf. apply Forall_cons in Hf as [Hf _]. apply Hf. reflexivity.
  - apply Hb'. repeat constructor; vm_compute; discriminate.
Defined.

Lemma idtoken_audience_exact_witness : exists aud,
  json_object_get (demo_claims (Model.JArr [Model.JStr "other"; Model.JStr "client"])) OIDC_CLAIM_AUD = Some aud /\
  ((exists s, json_string_value aud = Some s /\ In (Some s) (trusted_aud (demo_oidc_provider (Some ["@"; "other"])))) \/
   aud_items aud ≡ₚ trusted_aud (demo_oidc_provider (Some ["@"; "other"]))).
Proof.
  apply (idtoken_audience_exact (JS:=Model.jansson_spec) (demo_oidc_provider (Some ["@"; "other"]))
    (demo_id_payload (Model.JArr [Model.JStr "other"; Model.JStr "client"]))).
  - discriminate.
  - change (trusted_aud _) with [Some "client"; Some "other"]. repeat constructor; set_solver.
  - vm_compute. reflexivity.
Defined.

(** The client identifier and "@" are the same value. *)
Lemma idtoken_audience_duplicates_witness :
  oidc_proto_idtoken_validate_aud_and_azp (demo_oidc_provider (Some ["@"; "client"]))
    (demo_id_payload (Model.JArr [Model.JStr "client"; Model.JStr "evil"])) = true.
Proof.
  apply (idtoken_audience_duplicates (JS:=Model.jansson_spec) (demo_oidc_provider (Some ["@"; "client"]))
    (demo_id_payload (Model.JArr [Model.JStr "client"; Model.JStr "evil"]))
    (Model.JArr [Model.JStr "client"; Model.JStr "evil"]) (Some "evil")); try reflexivity.
  - discriminate.
  - change (trusted_aud _) with [Some "client"; Some "client"]. intros Hn. apply NoDup_cons in Hn as [Hn _]. set_solver.
  - repeat constructor; by eexists.
Defined.
End demo.
