(* ===== verification/Session.v ===== *)
(** * src/session.c: user sessions

    A session is a JSON object next to a few fields of its own.  It is stored in the
    cache, under an identifier that the browser keeps in a cookie, or, encrypted, in the
    cookie itself.  An operation that calls the outside is a computation on the [world]
    of World.v.  The JQ claims filter is a compile-time option and is not modelled. *)

From S2P Require Import Prelude Cstr Apr StrUtil Http Form Url Cookie Jansson Json Base64 Jose Jwt.
From S2P Require Import ShmCache Cache Util World.

(** ** Data *)

Definition OIDC_SESSION_REMOTE_USER_KEY : string := "r".
Definition OIDC_SESSION_EXPIRY_KEY : string := "e".
Definition OIDC_SESSION_SESSION_ID : string := "i".
Definition OIDC_SESSION_SUB_KEY : string := "sub".
Definition OIDC_SESSION_SID_KEY : string := "sid".
Definition OIDC_SESSION_KEY_USERINFO_CLAIMS : string := "uic".
Definition OIDC_SESSION_KEY_IDTOKEN_CLAIMS : string := "idc".
Definition OIDC_SESSION_FORMAT_VERSION_KEY : string := "v".
Definition OIDC_SESSION_FORMAT_VERSION : Z := 1.
Definition OIDC_SESSION_ID_LEN : nat := 20.

Definition OIDC_SESSION_TYPE_SERVER_CACHE : Z := 0.
Definition OIDC_SESSION_TYPE_CLIENT_COOKIE : Z := 1.

Inductive oidc_session_save_t := OIDC_SESSION_SAVE_UPDATE | OIDC_SESSION_SAVE_NEW.

Definition OIDC_CACHE_SECTION_SESSION : string := "s".
Definition OIDC_CACHE_SECTION_SID : string := "d".

(** The settings that src/session.c reads. *)
Record session_cfg := mk_session_cfg {
  session_type : Z;
  dir_cookie : string;
  same_site_session : oidc_samesite_cookie_t;
  persistent_session_cookie : bool;
  session_cache_fallback_to_cookie : bool;
  session_cookie_chunk_size : Z;
  black_listed_claims : option (gset string);
  white_listed_claims : option (gset string);
  s_cookie : cookie_cfg;
  s_cache : cache_cfg;
  s_trace : trace_cfg
}.

#[local] Open Scope world_scope.

Section session.
Context {J : Jansson} {O : Jose} {B64 : Base64} {H : Httpd}.
Context {St : Type} {B : CacheBackend St}.
Variables (ext : nat -> env) (rand : nat -> rng) (c : session_cfg).

Record oidc_session_t := mk_session {
  uuid : option string;
  remote_user : option string;
  state : option json_t;
  expiry : Z;
  sid : option string;
  sub : option string
}.

Definition set_uuid (v : option string) (z : oidc_session_t) :=
  mk_session v (remote_user z) (state z) (expiry z) (sid z) (sub z).
Definition set_state (v : option json_t) (z : oidc_session_t) :=
  mk_session (uuid z) (remote_user z) v (expiry z) (sid z) (sub z).

(** ** Calls to the outside *)

Definition oidc_cache_get_session := cache_get ext (s_cache c) OIDC_CACHE_SECTION_SESSION.
Definition oidc_cache_set_session := cache_set ext (s_cache c) OIDC_CACHE_SECTION_SESSION.
Definition oidc_cache_get_sid := cache_get ext (s_cache c) OIDC_CACHE_SECTION_SID.
Definition oidc_cache_set_sid := cache_set ext (s_cache c) OIDC_CACHE_SECTION_SID.

(** ** Encoding *)

Definition oidc_session_encode (r : request) (z : oidc_session_t) (encrypt : bool) : option string :=
  if negb encrypt then oidc_json_encode (state z) OIDC_JSON_COMPACT
  else
    match secret1 (crypto_passphrase (s_cache c)) with
    | None => None
    | Some _ =>
        match oidc_json_encode (state z) OIDC_JSON_COMPACT with
        | Some s => oidc_util_jwt_create r (crypto_passphrase (s_cache c)) s
        | None => None
        end
    end.

Definition oidc_session_version_supported (z : oidc_session_t) : bool * oidc_session_t :=
  let version := (oidc_json_object_get_int (state z) OIDC_SESSION_FORMAT_VERSION_KEY 1).2 in
  if OIDC_SESSION_FORMAT_VERSION <? version then (false, set_state None z) else (true, z).

Definition oidc_session_decode (r : request) (z : oidc_session_t) (s_json : string) (encrypt : bool)
  : bool * oidc_session_t :=
  if negb encrypt then
    match oidc_json_decode_object (Some s_json) with
    | None => (false, set_state None z)
    | Some j => oidc_session_version_supported (set_state (Some j) z)
    end
  else
    match secret1 (crypto_passphrase (s_cache c)) with
    | None => (false, z)
    | Some _ =>
        match oidc_util_jwt_verify r (crypto_passphrase (s_cache c)) s_json with
        | None => (false, z)
        | Some s_payload =>
            match oidc_json_decode_object (Some s_payload) with
            | None => (false, set_state None z)
            | Some j => oidc_session_version_supported (set_state (Some j) z)
            end
        end
    end.

(** ** The session object *)

Definition oidc_session_id_new (z : oidc_session_t) : M St oidc_session_t :=
  fun w => Some (set_uuid (oidc_util_rand_hex_str (rand (w_calls w)) OIDC_SESSION_ID_LEN) z,
                 mk_world (w_req w) (w_cache w) (S (w_calls w))).

Definition oidc_session_clear (z : oidc_session_t) : oidc_session_t :=
  mk_session (uuid z) None None 0 (sid z) (sub z).

Definition oidc_session_reset (z : oidc_session_t) : M St oidc_session_t :=
  '_ <- (if (session_type c =? OIDC_SESSION_TYPE_SERVER_CACHE) && nonnull (uuid z)
   then oidc_cache_set_session (uuid z) None 0 else ret true) ;;
  let z := oidc_session_clear z in
  let z := mk_session (uuid z) (remote_user z) (state z) (expiry z) None None in
  oidc_session_id_new z.

Definition oidc_session_get (z : oidc_session_t) (key : string) : option string :=
  oidc_json_object_get_string (state z) key None.

Definition oidc_session_json_set (z : oidc_session_t) (key : string) (value : option json_t)
  : oidc_session_t :=
  match value with
  | Some _ =>
      let st := default oidc_json_object (state z) in
      set_state (Some (oidc_json_object_set_new st key value)) z
  | None =>
      match state z with
      | Some st => set_state (Some (oidc_json_object_del st key)) z
      | None => z
      end
  end.

Definition oidc_session_json_get (z : oidc_session_t) (key : string) : option json_t :=
  oidc_json_object_get (state z) key.

(** A string that is not valid UTF-8 has no JSON value: the entry is deleted. *)
Definition oidc_session_set (z : oidc_session_t) (key : string) (value : option string) : oidc_session_t :=
  oidc_session_json_set z key (oidc_json_string value).

Definition oidc_session_set_int (z : oidc_session_t) (key : string) (v : Z) : oidc_session_t :=
  set_state (Some (oidc_json_object_set_new (default oidc_json_object (state z)) key
    (Some (oidc_json_integer v)))) z.

Definition oidc_session_set_timestamp (z : oidc_session_t) (key : string) (timestamp : Z) : oidc_session_t :=
  if timestamp <=? -1 then z
  else set_state (Some (oidc_json_object_set_new (default oidc_json_object (state z)) key
         (Some (oidc_json_integer (apr_time_sec timestamp))))) z.

Definition oidc_session_get_int (z : oidc_session_t) (key : string) (def_val : Z) : Z :=
  (oidc_json_object_get_int (state z) key def_val).2.

Definition oidc_session_get_key2timestamp (z : oidc_session_t) (key : string) : Z :=
  let value := (oidc_json_object_get_int64 (state z) key (-1)).2 in
  if -1 <? value then oidc_util_apr_time_from_sec (double_of_Z value) else -1.

(** ** Loading *)

Definition oidc_session_load_cache_by_uuid (id : string) (z : oidc_session_t) : M St (bool * oidc_session_t) :=
  '(rc, s_json) <- oidc_cache_get_session (Some id) ;;
  match rc, s_json with
  | true, Some s_json =>
      r <- get_req ;;
      let '(rc, z) := oidc_session_decode r z s_json false in
      if negb rc then ret (false, z)
      else
        let z := set_uuid (Some id) z in
        let stored_uuid := oidc_session_get z OIDC_SESSION_SESSION_ID in
        if negb (nonnull stored_uuid) || negb (_oidc_strcmp stored_uuid (Some id) =? 0) then
          '_ <- oidc_cache_set_session (uuid z) None 0 ;;
          ret (false, oidc_session_clear z)
        else ret (true, z)
  | _, _ => ret (rc, z)
  end.

Definition oidc_session_load_cache (z : oidc_session_t) : M St (bool * oidc_session_t) :=
  r <- get_req ;;
  match oidc_http_get_cookie r (dir_cookie c) with
  | None => ret (false, z)
  | Some id =>
      '(rc, z) <- oidc_session_load_cache_by_uuid id z ;;
      if negb rc then ret (false, z)
      else
        match state z with
        | Some _ => ret (rc, z)
        | None =>
            if session_cache_fallback_to_cookie c then ret (false, z)
            else
              attr <- OIDC_HTTP_COOKIE_SAMESITE_NONE (s_cookie c) ;;
              '_ <- set_cookie (s_cookie c) (dir_cookie c) "" 0 attr ;;
              ret (rc, z)
        end
  end.

Definition oidc_session_load_cookie (r : request) (z : oidc_session_t) : bool * oidc_session_t :=
  match oidc_http_get_chunked_cookie r (dir_cookie c) (session_cookie_chunk_size c) with
  | None => (true, z)
  | Some cookieValue => oidc_session_decode r z cookieValue true
  end.

(** ** Saving *)

Definition oidc_session_cookie_samesite (first_time : oidc_session_save_t) : M St (option string) :=
  match same_site_session c with
  | OIDC_SAMESITE_COOKIE_STRICT =>
      ret (Some (match first_time with
                 | OIDC_SESSION_SAVE_NEW => OIDC_HTTP_COOKIE_SAMESITE_LAX
                 | OIDC_SESSION_SAVE_UPDATE => OIDC_HTTP_COOKIE_SAMESITE_STRICT
                 end))
  | OIDC_SAMESITE_COOKIE_LAX => ret (Some OIDC_HTTP_COOKIE_SAMESITE_LAX)
  | OIDC_SAMESITE_COOKIE_NONE => OIDC_HTTP_COOKIE_SAMESITE_NONE (s_cookie c)
  | OIDC_SAMESITE_COOKIE_DISABLED => ret None
  end.

(** [oidc_cache_set_sid] and the session attribute, for a non-[NULL] index. *)
Definition save_index (z : oidc_session_t) (key : string) (index : option string) : M St oidc_session_t :=
  match index with
  | Some i => '_ <- oidc_cache_set_sid (Some i) (uuid z) (expiry z) ;; ret (oidc_session_set z key (Some i))
  | None => ret z
  end.

Definition cookie_expiry (z : oidc_session_t) : Z := if persistent_session_cookie c then expiry z else -1.

Definition oidc_session_save_cache (z : oidc_session_t) (first_time : oidc_session_save_t)
  : M St (bool * oidc_session_t) :=
  match state z with
  | Some _ =>
      z <- save_index z OIDC_SESSION_SID_KEY (sid z) ;;
      z <- save_index z OIDC_SESSION_SUB_KEY (sub z) ;;
      r <- get_req ;;
      match oidc_session_encode r z false with
      | None => ret (false, z)
      | Some s_value =>
          rc <- oidc_cache_set_session (uuid z) (Some s_value) (expiry z) ;;
          if (rc : bool) then
            attr <- oidc_session_cookie_samesite first_time ;;
            '_ <- set_cookie (s_cookie c) (dir_cookie c) (default "(null)" (uuid z)) (cookie_expiry z) attr ;;
            ret (rc, z)
          else ret (rc, z)
      end
  | None =>
      '_ <- (match sid z with
       | Some i => oidc_cache_set_sid (Some i) None 0
       | None => ret true
       end) ;;
      '_ <- (match sub z with
       | Some i =>
           '(_, sub_uuid) <- oidc_cache_get_sid (Some i) ;;
           if negb (nonnull sub_uuid) || (_oidc_strcmp sub_uuid (uuid z) =? 0)
           then oidc_cache_set_sid (Some i) None 0 else ret true
       | None => ret true
       end) ;;
      attr <- OIDC_HTTP_COOKIE_SAMESITE_NONE (s_cookie c) ;;
      '_ <- set_cookie (s_cookie c) (dir_cookie c) "" 0 attr ;;
      rc <- oidc_cache_set_session (uuid z) None 0 ;;
      ret (rc, z)
  end.

Definition oidc_session_save_cookie (z : oidc_session_t) (first_time : oidc_session_save_t) : M St bool :=
  r <- get_req ;;
  match state z, oidc_session_encode r z true with
  | Some _, None => ret false
  | st, enc =>
      let cookieValue := match st with Some _ => enc | None => Some "" end in
      attr <- (match st with
               | None => OIDC_HTTP_COOKIE_SAMESITE_NONE (s_cookie c)
               | Some _ => oidc_session_cookie_samesite first_time
               end) ;;
      fun w =>
        '(ok, r) ← oidc_http_set_chunked_cookie (s_cookie c) (w_req w) (dir_cookie c) cookieValue
                     (cookie_expiry z) (session_cookie_chunk_size c) attr;
        Some (ok, mk_world r (w_cache w) (w_calls w))
  end.

Definition oidc_session_save (z : oidc_session_t) (first_time : oidc_session_save_t)
  : M St (bool * oidc_session_t) :=
  let z :=
    match state z with
    | Some _ =>
        let z := oidc_session_set_int z OIDC_SESSION_FORMAT_VERSION_KEY OIDC_SESSION_FORMAT_VERSION in
        let z := oidc_session_set z OIDC_SESSION_REMOTE_USER_KEY (remote_user z) in
        let z := oidc_session_set_timestamp z OIDC_SESSION_EXPIRY_KEY (expiry z) in
        oidc_session_set z OIDC_SESSION_SESSION_ID (uuid z)
    | None => z
    end in
  '(rc, z) <- (if session_type c =? OIDC_SESSION_TYPE_SERVER_CACHE
               then oidc_session_save_cache z first_time else ret (false, z)) ;;
  if (session_type c =? OIDC_SESSION_TYPE_CLIENT_COOKIE) ||
     (negb rc && session_cache_fallback_to_cookie c)
  then rc <- oidc_session_save_cookie z first_time ;; ret (rc, z)
  else ret (rc, z).

Definition oidc_session_free (z : oidc_session_t) : bool * oidc_session_t := (true, oidc_session_clear z).

Definition oidc_session_kill (z : oidc_session_t) : M St (bool * oidc_session_t) :=
  r <- get_req ;;
  '_ <- put_req (with_user None r) ;;
  let z := set_state None z in
  '(_, z) <- oidc_session_save z OIDC_SESSION_SAVE_UPDATE ;;
  ret (oidc_session_free z).

(** ** Restoring a session *)

Definition oidc_session_extract (z : oidc_session_t) : M St (bool * oidc_session_t) :=
  match state z with
  | None => ret (false, z)
  | Some _ =>
      let json := oidc_session_json_get z OIDC_SESSION_KEY_IDTOKEN_CLAIMS in
      if nonnull json && negb (oidc_json_is_object json) then
        '(_, z) <- oidc_session_kill z ;; ret (false, z)
      else
        let z := mk_session (uuid z) (remote_user z) (state z)
                   (oidc_session_get_key2timestamp z OIDC_SESSION_EXPIRY_KEY) (sid z) (sub z) in
        t <- apr_time_now ext ;;
        if expiry z <? t then '(_, z) <- oidc_session_kill z ;; ret (false, z)
        else
          ret (true, mk_session (oidc_session_get z OIDC_SESSION_SESSION_ID)
                 (oidc_session_get z OIDC_SESSION_REMOTE_USER_KEY) (state z) (expiry z)
                 (oidc_session_get z OIDC_SESSION_SID_KEY) (oidc_session_get z OIDC_SESSION_SUB_KEY))
  end.

Definition oidc_session_load : M St (bool * oidc_session_t) :=
  z <- oidc_session_id_new (oidc_session_clear (mk_session None None None 0 None None)) ;;
  '(rc, z) <- (if session_type c =? OIDC_SESSION_TYPE_SERVER_CACHE
               then oidc_session_load_cache z else ret (false, z)) ;;
  r <- get_req ;;
  let '(rc, z) :=
    if (session_type c =? OIDC_SESSION_TYPE_CLIENT_COOKIE) ||
       (negb rc && session_cache_fallback_to_cookie c)
    then oidc_session_load_cookie r z else (rc, z) in
  '(rc, z) <- (if (rc : bool) then oidc_session_extract z else ret (false, z)) ;;
  fun w => Some ((rc, z), mk_world (oidc_util_set_trace_parent (rand (w_calls w)) (s_trace c) (w_req w) (uuid z))
                            (w_cache w) (S (w_calls w))).
End session.

Arguments mk_session {J}.
Arguments uuid {J}.
Arguments remote_user {J}.
Arguments state {J}.
Arguments expiry {J}.
Arguments sid {J}.
Arguments sub {J}.
