(* ===== verification/SessionAttr.v ===== *)
(** * src/session.c: the attributes of a session

    What the module keeps in a session: filtered claims, tokens, timestamps and the
    data of the authentication request, each under its own key of the JSON object. *)

From S2P Require Import Prelude Cstr Apr StrUtil Http Form Url Cookie Jansson Json Base64 Jose Jwt.
From S2P Require Import ShmCache Cache Util World Session.

Definition OIDC_SESSION_KEY_USERINFO_JWT : string := "uij".
Definition OIDC_SESSION_KEY_IDTOKEN : string := "idt".
Definition OIDC_SESSION_KEY_ACCESSTOKEN : string := "at".
Definition OIDC_SESSION_KEY_ACCESSTOKEN_TYPE : string := "att".
Definition OIDC_SESSION_KEY_ACCESSTOKEN_EXPIRES : string := "ate".
Definition OIDC_SESSION_KEY_REFRESH_TOKEN : string := "rt".
Definition OIDC_SESSION_KEY_SESSION_EXPIRES : string := "se".
Definition OIDC_SESSION_KEY_COOKIE_DOMAIN : string := "cd".
Definition OIDC_SESSION_KEY_USERINFO_LAST_REFRESH : string := "uilr".
Definition OIDC_SESSION_KEY_ACCESS_TOKEN_LAST_REFRESH : string := "atlr".
Definition OIDC_SESSION_KEY_REQUEST_STATE : string := "rs".
Definition OIDC_SESSION_KEY_ORIGINAL_URL : string := "ou".
Definition OIDC_SESSION_KEY_SESSION_STATE : string := "ss".
Definition OIDC_SESSION_KEY_ISSUER : string := "iss".
Definition OIDC_SESSION_KEY_USERINFO_REFRESH_INTERVAL : string := "uir".
Definition OIDC_SESSION_KEY_SESSION_IS_NEW : string := "sn".
Definition OIDC_SESSION_KEY_SCOPE : string := "scp".
Definition OIDC_SESSION_KEY_PATH_AUTH_REQUEST_PARAMS : string := "parp".
Definition OIDC_SESSION_KEY_PATH_SCOPE : string := "psc".

Section session_attributes.
Context {J : Jansson}.

(** ** Claims *)

Definition oidc_session_claim_is_allowed (c : session_cfg) (name : string) : bool :=
  match black_listed_claims c with
  | Some black => negb (bool_decide (name ∈ black))
  | None => true
  end &&
  match white_listed_claims c with
  | Some white => bool_decide (name ∈ white)
  | None => true
  end.

(** The size warning and the metrics do not change the session. *)
Definition oidc_session_filtered_claim_record (name : string) (value dst : json_t) : json_t :=
  oidc_json_object_set dst name (Some value).

(** The loop over the members of the claims object. *)
Fixpoint filter_claims_loop (c : session_cfg) (iter : list (string * json_t)) (dst : json_t) : json_t :=
  match iter with
  | [] => dst
  | (name, value) :: iter' =>
      let dst := if oidc_session_claim_is_allowed c name
                 then oidc_session_filtered_claim_record name value dst else dst in
      filter_claims_loop c iter' dst
  end.

Definition oidc_session_set_filtered_claims (c : session_cfg) (z : oidc_session_t) (session_key : string)
  (claims : option json_t) : oidc_session_t :=
  let dst := match claims with
             | Some _ => Some (filter_claims_loop c (oidc_json_object_iter claims) oidc_json_object)
             | None => None
             end in
  oidc_session_json_set z session_key dst.

Definition oidc_session_set_userinfo_claims (c : session_cfg) (z : oidc_session_t) (claims_json : option json_t) :=
  oidc_session_set_filtered_claims c z OIDC_SESSION_KEY_USERINFO_CLAIMS claims_json.
Definition oidc_session_get_userinfo_claims (z : oidc_session_t) : option json_t :=
  oidc_session_json_get z OIDC_SESSION_KEY_USERINFO_CLAIMS.

Definition oidc_session_set_idtoken_claims (c : session_cfg) (r : request) (z : oidc_session_t)
  (idtoken_claims : option json_t) : oidc_session_t :=
  match apr_table_get (subprocess_env r) "OIDC_DONT_STORE_ID_TOKEN_CLAIMS_IN_SESSION" with
  | None => oidc_session_set_filtered_claims c z OIDC_SESSION_KEY_IDTOKEN_CLAIMS idtoken_claims
  | Some _ => z
  end.
Definition oidc_session_get_idtoken_claims (z : oidc_session_t) : option json_t :=
  oidc_session_json_get z OIDC_SESSION_KEY_IDTOKEN_CLAIMS.

(** ** Strings *)

Definition oidc_session_get_key2string (z : oidc_session_t) (key : string) : option string :=
  oidc_session_get z key.

Definition oidc_session_set_userinfo_jwt (z : oidc_session_t) (s_userinfo_jwt : option string) :=
  oidc_session_set z OIDC_SESSION_KEY_USERINFO_JWT s_userinfo_jwt.
Definition oidc_session_get_userinfo_jwt (z : oidc_session_t) := oidc_session_get_key2string z OIDC_SESSION_KEY_USERINFO_JWT.
Definition oidc_session_set_idtoken (z : oidc_session_t) (s_id_token : option string) :=
  oidc_session_set z OIDC_SESSION_KEY_IDTOKEN s_id_token.
Definition oidc_session_get_idtoken (z : oidc_session_t) := oidc_session_get_key2string z OIDC_SESSION_KEY_IDTOKEN.
Definition oidc_session_set_access_token (z : oidc_session_t) (access_token : option string) :=
  oidc_session_set z OIDC_SESSION_KEY_ACCESSTOKEN access_token.
Definition oidc_session_get_access_token (z : oidc_session_t) := oidc_session_get_key2string z OIDC_SESSION_KEY_ACCESSTOKEN.
Definition oidc_session_set_access_token_type (z : oidc_session_t) (token_type : option string) :=
  oidc_session_set z OIDC_SESSION_KEY_ACCESSTOKEN_TYPE token_type.
Definition oidc_session_get_access_token_type (z : oidc_session_t) := oidc_session_get_key2string z OIDC_SESSION_KEY_ACCESSTOKEN_TYPE.
Definition oidc_session_set_refresh_token (z : oidc_session_t) (refresh_token : option string) :=
  oidc_session_set z OIDC_SESSION_KEY_REFRESH_TOKEN refresh_token.
Definition oidc_session_get_refresh_token (z : oidc_session_t) := oidc_session_get_key2string z OIDC_SESSION_KEY_REFRESH_TOKEN.
Definition oidc_session_set_cookie_domain (z : oidc_session_t) (cookie_domain : option string) :=
  oidc_session_set z OIDC_SESSION_KEY_COOKIE_DOMAIN cookie_domain.
Definition oidc_session_get_cookie_domain (z : oidc_session_t) := oidc_session_get_key2string z OIDC_SESSION_KEY_COOKIE_DOMAIN.
Definition oidc_session_set_request_state (z : oidc_session_t) (request_state : option string) :=
  oidc_session_set z OIDC_SESSION_KEY_REQUEST_STATE request_state.
Definition oidc_session_get_request_state (z : oidc_session_t) := oidc_session_get_key2string z OIDC_SESSION_KEY_REQUEST_STATE.
Definition oidc_session_set_original_url (z : oidc_session_t) (original_url : option string) :=
  oidc_session_set z OIDC_SESSION_KEY_ORIGINAL_URL original_url.
Definition oidc_session_get_original_url (z : oidc_session_t) := oidc_session_get_key2string z OIDC_SESSION_KEY_ORIGINAL_URL.
Definition oidc_session_set_session_state (z : oidc_session_t) (session_state : option string) :=
  oidc_session_set z OIDC_SESSION_KEY_SESSION_STATE session_state.
Definition oidc_session_get_session_state (z : oidc_session_t) := oidc_session_get_key2string z OIDC_SESSION_KEY_SESSION_STATE.
Definition oidc_session_set_issuer (z : oidc_session_t) (issuer : option string) :=
  oidc_session_set z OIDC_SESSION_KEY_ISSUER issuer.
Definition oidc_session_get_issuer (z : oidc_session_t) := oidc_session_get_key2string z OIDC_SESSION_KEY_ISSUER.
Definition oidc_session_set_scope (z : oidc_session_t) (scope : option string) :=
  oidc_session_set z OIDC_SESSION_KEY_SCOPE scope.
Definition oidc_session_get_scope (z : oidc_session_t) := oidc_session_get_key2string z OIDC_SESSION_KEY_SCOPE.
Definition oidc_session_set_path_auth_request_params (z : oidc_session_t) (auth_request_params : option string) :=
  oidc_session_set z OIDC_SESSION_KEY_PATH_AUTH_REQUEST_PARAMS auth_request_params.
Definition oidc_session_get_path_auth_request_params (z : oidc_session_t) := oidc_session_get_key2string z OIDC_SESSION_KEY_PATH_AUTH_REQUEST_PARAMS.
Definition oidc_session_set_path_scope (z : oidc_session_t) (path_scope : option string) :=
  oidc_session_set z OIDC_SESSION_KEY_PATH_SCOPE path_scope.
Definition oidc_session_get_path_scope (z : oidc_session_t) := oidc_session_get_key2string z OIDC_SESSION_KEY_PATH_SCOPE.

(** ** Times and numbers *)

Definition oidc_session_set_access_token_expires (t : Z) (z : oidc_session_t) (expires_in : Z) : oidc_session_t :=
  if -1 <? expires_in
  then oidc_session_set_timestamp z OIDC_SESSION_KEY_ACCESSTOKEN_EXPIRES (t + apr_time_from_sec expires_in)
  else z.
Definition oidc_session_get_access_token_expires (z : oidc_session_t) : Z :=
  oidc_session_get_key2timestamp z OIDC_SESSION_KEY_ACCESSTOKEN_EXPIRES.
Definition oidc_session_get_access_token_expires2str (z : oidc_session_t) : option string :=
  let expires := oidc_session_get_access_token_expires z in
  if -1 <? expires then Some (pretty (apr_time_sec expires)) else None.

Definition oidc_session_set_session_expires (z : oidc_session_t) (expires : Z) :=
  oidc_session_set_timestamp z OIDC_SESSION_KEY_SESSION_EXPIRES expires.
Definition oidc_session_get_session_expires (z : oidc_session_t) : Z :=
  oidc_session_get_key2timestamp z OIDC_SESSION_KEY_SESSION_EXPIRES.

Definition oidc_session_set_userinfo_refresh_interval (z : oidc_session_t) (interval : Z) :=
  oidc_session_set_int z OIDC_SESSION_KEY_USERINFO_REFRESH_INTERVAL interval.
Definition oidc_session_get_userinfo_refresh_interval (z : oidc_session_t) : Z :=
  oidc_session_get_int z OIDC_SESSION_KEY_USERINFO_REFRESH_INTERVAL (-1).

(** [t] is [apr_time_now()]. *)
Definition oidc_session_reset_userinfo_last_refresh (t : Z) (z : oidc_session_t) :=
  oidc_session_set_timestamp z OIDC_SESSION_KEY_USERINFO_LAST_REFRESH t.
Definition oidc_session_get_userinfo_last_refresh (z : oidc_session_t) : Z :=
  oidc_session_get_key2timestamp z OIDC_SESSION_KEY_USERINFO_LAST_REFRESH.

Definition oidc_session_set_access_token_last_refresh (z : oidc_session_t) (ts : Z) :=
  oidc_session_set_timestamp z OIDC_SESSION_KEY_ACCESS_TOKEN_LAST_REFRESH ts.
Definition oidc_session_get_access_token_last_refresh (z : oidc_session_t) : Z :=
  oidc_session_get_key2timestamp z OIDC_SESSION_KEY_ACCESS_TOKEN_LAST_REFRESH.

Definition oidc_session_set_session_new (z : oidc_session_t) (is_new : Z) : oidc_session_t :=
  let st := default oidc_json_object (state z) in
  set_state (Some (if negb (is_new =? 0)
                   then oidc_json_object_set_new st OIDC_SESSION_KEY_SESSION_IS_NEW (Some (oidc_json_integer 1))
                   else oidc_json_object_del st OIDC_SESSION_KEY_SESSION_IS_NEW)) z.
Definition oidc_session_get_session_new (z : oidc_session_t) : Z :=
  oidc_session_get_int z OIDC_SESSION_KEY_SESSION_IS_NEW 0.

(** The string attributes, as pairs of a setter and a getter. *)
Definition string_attributes : list ((oidc_session_t -> option string -> oidc_session_t) *
                                     (oidc_session_t -> option string)) :=
  [(oidc_session_set_userinfo_jwt, oidc_session_get_userinfo_jwt);
   (oidc_session_set_idtoken, oidc_session_get_idtoken);
   (oidc_session_set_access_token, oidc_session_get_access_token);
   (oidc_session_set_access_token_type, oidc_session_get_access_token_type);
   (oidc_session_set_refresh_token, oidc_session_get_refresh_token);
   (oidc_session_set_cookie_domain, oidc_session_get_cookie_domain);
   (oidc_session_set_request_state, oidc_session_get_request_state);
   (oidc_session_set_original_url, oidc_session_get_original_url);
   (oidc_session_set_session_state, oidc_session_get_session_state);
   (oidc_session_set_issuer, oidc_session_get_issuer);
   (oidc_session_set_scope, oidc_session_get_scope);
   (oidc_session_set_path_auth_request_params, oidc_session_get_path_auth_request_params);
   (oidc_session_set_path_scope, oidc_session_get_path_scope)].

(** Their keys. *)
Definition string_keys : list string :=
  [OIDC_SESSION_KEY_USERINFO_JWT;
   OIDC_SESSION_KEY_IDTOKEN;
   OIDC_SESSION_KEY_ACCESSTOKEN;
   OIDC_SESSION_KEY_ACCESSTOKEN_TYPE;
   OIDC_SESSION_KEY_REFRESH_TOKEN;
   OIDC_SESSION_KEY_COOKIE_DOMAIN;
   OIDC_SESSION_KEY_REQUEST_STATE;
   OIDC_SESSION_KEY_ORIGINAL_URL;
   OIDC_SESSION_KEY_SESSION_STATE;
   OIDC_SESSION_KEY_ISSUER;
   OIDC_SESSION_KEY_SCOPE;
   OIDC_SESSION_KEY_PATH_AUTH_REQUEST_PARAMS;
   OIDC_SESSION_KEY_PATH_SCOPE].

(** The time attributes, as pairs of a setter for a point in time and a getter. *)
Definition time_attributes : list ((oidc_session_t -> Z -> oidc_session_t) * (oidc_session_t -> Z)) :=
  [(oidc_session_set_session_expires, oidc_session_get_session_expires);
   (oidc_session_set_access_token_last_refresh, oidc_session_get_access_token_last_refresh);
   ((fun z t => oidc_session_reset_userinfo_last_refresh t z), oidc_session_get_userinfo_last_refresh);
   ((fun z t => oidc_session_set_access_token_expires t z 0), oidc_session_get_access_token_expires)].
End session_attributes.

(** ** Lemmas *)

Section session_attribute_lemmas.
Context {J : Jansson} {JS : JanssonSpec J}.
Implicit Types (z : oidc_session_t) (k : string).

(** The state of a session is absent or a JSON object. *)
Definition session_wf z : Prop := match state z with Some j => is_object j | None => True end.

Lemma state_or_new z : session_wf z -> is_object (default oidc_json_object (state z)).
Proof. unfold session_wf. destruct (state z); [done|]. intros _. apply object_new. Qed.

Lemma get_or_new z k :
  oidc_json_object_get (Some (default oidc_json_object (state z))) k = oidc_json_object_get (state z) k.
Proof. destruct (state z); [done|]. cbn [default]. apply object_get_new. Qed.

Lemma session_json_set_wf z k (v : option json_t) : session_wf z -> session_wf (oidc_session_json_set z k v).
Proof.
  intros Hz. pose proof (state_or_new z Hz) as Ho. unfold oidc_session_json_set.
  destruct v as [v|]; [by apply object_set_object|]. unfold session_wf in *.
  destruct (state z) as [j|] eqn:E; cbn; [by apply object_del_object|]. by rewrite E.
Qed.

Lemma session_json_get_set_eq z k (v : option json_t) :
  session_wf z -> json_utf8 k = true -> oidc_session_json_get (oidc_session_json_set z k v) k = v.
Proof.
  intros Hz Hk. pose proof (state_or_new z Hz) as Ho.
  unfold oidc_session_json_get, oidc_session_json_set. destruct v as [v|]; cbn [set_state state].
  - by apply object_get_set_eq.
  - destruct (state z) eqn:E; cbn [set_state state]; [apply object_get_del_eq|by rewrite E].
Qed.

Lemma session_json_get_set_ne z k k' (v : option json_t) :
  k <> k' -> oidc_session_json_get (oidc_session_json_set z k v) k' = oidc_session_json_get z k'.
Proof.
  intros Hne. unfold oidc_session_json_get, oidc_session_json_set. destruct v as [v|]; cbn [set_state state].
  - unfold oidc_json_object_set_new. by rewrite object_get_set_ne, get_or_new.
  - destruct (state z) eqn:E; cbn [set_state state]; [by apply object_get_del_ne|by rewrite E].
Qed.

(** Every reader of the state goes through the member it reads. *)
Lemma get_string_json z z' k :
  oidc_session_json_get z k = oidc_session_json_get z' k -> oidc_session_get z k = oidc_session_get z' k.
Proof.
  unfold oidc_session_json_get, oidc_session_get, oidc_json_object_get_string. by intros ->.
Qed.

Lemma get_time_json z z' k :
  oidc_session_json_get z k = oidc_session_json_get z' k ->
  oidc_session_get_key2timestamp z k = oidc_session_get_key2timestamp z' k.
Proof.
  unfold oidc_session_json_get, oidc_session_get_key2timestamp, oidc_json_object_get_int64. by intros ->.
Qed.

Lemma session_get_set_eq z k (v : option string) :
  session_wf z -> json_utf8 k = true -> (forall s, v = Some s -> json_utf8 s = true) ->
  oidc_session_get (oidc_session_set z k v) k = v.
Proof.
  intros Hz Hk Hv. unfold oidc_session_get, oidc_session_set, oidc_json_object_get_string.
  pose proof (session_json_get_set_eq z k (oidc_json_string v) Hz Hk) as Hg.
  unfold oidc_session_json_get in Hg. rewrite Hg. destruct v as [s|]; [|done].
  destruct (string_utf8 s (Hv s eq_refl)) as [j Hj]. cbn [oidc_json_string]. rewrite Hj.
  pose proof (string_value s j Hj) as Hs.
  rewrite (proj2 (is_string_true j)) by eauto. exact Hs.
Qed.

Lemma session_get_set_ne z k k' (v : option string) :
  k <> k' -> oidc_session_get (oidc_session_set z k v) k' = oidc_session_get z k'.
Proof. intros Hne. by apply get_string_json, session_json_get_set_ne. Qed.

(** A timestamp is an integer member. *)
Lemma session_set_timestamp_json z k t : 0 <= t ->
  oidc_session_set_timestamp z k t = oidc_session_json_set z k (Some (oidc_json_integer (apr_time_sec t))).
Proof. intros Ht. unfold oidc_session_set_timestamp. by destruct (Z.leb_spec t (-1)); [lia|]. Qed.

Lemma get_timestamp_integer z k s : 0 <= s <= INT64_MAX ->
  oidc_session_json_get z k = Some (oidc_json_integer s) ->
  oidc_session_get_key2timestamp z k = oidc_util_apr_time_from_sec (double_of_Z s).
Proof.
  intros Hs Hg. unfold oidc_session_get_key2timestamp, oidc_json_object_get_int64, oidc_session_json_get in *.
  rewrite Hg. unfold oidc_json_is_integer, oidc_json_integer.
  rewrite (proj2 (has_type_Some _ _)) by (rewrite integer_typeof; set_solver).
  cbn [snd oidc_json_integer_value]. rewrite integer_value by (unfold INT64_MIN; lia).
  by destruct (Z.ltb_spec (-1) s); [|lia].
Qed.

Lemma apr_time_sec_range t : 0 <= t <= INT64_MAX -> 0 <= apr_time_sec t <= INT64_MAX.
Proof.
  intros Ht. unfold apr_time_sec, APR_USEC_PER_SEC. split; [apply Z.quot_pos; lia|].
  etransitivity; [apply Z.quot_le_mono with (b := INT64_MAX)|]; [lia..|vm_compute; discriminate].
Qed.

(** What a stored point in time reads back as. *)
Definition stored_time (t : Z) : Z :=
  if OIDC_UTIL_APR_TIME_SEC_MAX <=? apr_time_sec t then APR_INT64_MAX else apr_time_from_sec (apr_time_sec t).

Lemma stored_range s : 0 <= s ->
  -1 <= (if OIDC_UTIL_APR_TIME_SEC_MAX <=? s then APR_INT64_MAX else apr_time_from_sec s) <= APR_INT64_MAX.
Proof.
  intros Hs. assert (Hm : OIDC_UTIL_APR_TIME_SEC_MAX * APR_USEC_PER_SEC <= APR_INT64_MAX /\ 0 <= APR_INT64_MAX)
    by (vm_compute; split; discriminate). unfold apr_time_from_sec.
  assert (0 < APR_USEC_PER_SEC) by done.
  destruct (Z.leb_spec OIDC_UTIL_APR_TIME_SEC_MAX s); nia.
Qed.

Lemma session_get_set_timestamp z k t :
  session_wf z -> json_utf8 k = true -> 0 <= t <= INT64_MAX ->
  oidc_session_get_key2timestamp (oidc_session_set_timestamp z k t) k = stored_time t.
Proof.
  intros Hz Hk Ht. pose proof (apr_time_sec_range t Ht). rewrite session_set_timestamp_json by lia.
  erewrite get_timestamp_integer; [|done|by apply session_json_get_set_eq].
  by apply time_from_sec_int.
Qed.

Lemma session_get_timestamp_ne z k k' t : k <> k' ->
  oidc_session_get_key2timestamp (oidc_session_set_timestamp z k t) k' = oidc_session_get_key2timestamp z k'.
Proof.
  intros Hne. destruct (Z.ltb_spec t 0) as [Hn|Hp].
  - unfold oidc_session_set_timestamp. by destruct (Z.leb_spec t (-1)); [|lia].
  - rewrite session_set_timestamp_json by lia. by apply get_time_json, session_json_get_set_ne.
Qed.

Lemma filter_claims_object c iter dst : is_object dst -> is_object (filter_claims_loop c iter dst).
Proof.
  revert dst. induction iter as [|[k v] iter IH]; intros dst Hd; [done|]. apply IH.
  destruct (oidc_session_claim_is_allowed c k); [by apply object_set_object|done].
Qed.

Lemma filter_claims_get c iter dst n :
  is_object dst -> NoDup (map fst iter) -> (forall k v, In (k, v) iter -> json_utf8 k = true) ->
  oidc_json_object_get (Some (filter_claims_loop c iter dst)) n =
    match alist_get n iter with
    | Some v => if oidc_session_claim_is_allowed c n then Some v else oidc_json_object_get (Some dst) n
    | None => oidc_json_object_get (Some dst) n
    end.
Proof.
  revert dst. induction iter as [|[k v] iter IH]; intros dst Hd Hnd Hu; [done|].
  cbn [filter_claims_loop alist_get map fst] in *. apply NoDup_cons in Hnd as [Hk Hnd].
  rewrite IH; [|by destruct (oidc_session_claim_is_allowed c k); [apply object_set_object|]|done|
    intros k' v' Hin; apply (Hu k' v'); by right].
  destruct (String.eqb_spec n k) as [->|Hne].
  - assert (alist_get k iter = None) as ->
      by (apply alist_get_None; by rewrite <-list_elem_of_In).
    destruct (oidc_session_claim_is_allowed c k); [|done].
    apply object_get_set_eq; [done|]. apply (Hu k v). by left.
  - destruct (oidc_session_claim_is_allowed c k); [|done].
    unfold oidc_session_filtered_claim_record. by rewrite object_get_set_ne by done.
Qed.
End session_attribute_lemmas.

(** ** Properties *)

(** Each string attribute is one member of the state. *)
Lemma string_attribute_key {J : Jansson} i a : string_attributes !! i = Some a ->
  exists k, string_keys !! i = Some k /\ a.1 = (fun z => oidc_session_set z k) /\
    a.2 = (fun z => oidc_session_get z k).
Proof.
  intros Hi. do 13 (destruct i as [|i]; [injection Hi as <-; eexists; repeat split|]). done.
Qed.

Lemma string_keys_NoDup : NoDup string_keys.
Proof. apply (bool_decide_unpack _). vm_compute. exact I. Qed.

Lemma string_keys_ascii i k : string_keys !! i = Some k -> is_ascii k = true.
Proof. intros Hi. do 13 (destruct i as [|i]; [by injection Hi as <-|]). done. Qed.

(** The string attributes of a session (tokens, issuer, original URL,
    scopes and so on) are independent of each other: setting one makes its getter
    return the value, or nothing when it was set to [NULL], and changes no other. *)
Theorem session_string_attributes {J : Jansson} {JS : JanssonSpec J} (z : oidc_session_t) (i j : nat)
  a b (v : option string) :
  session_wf z -> string_attributes !! i = Some a -> string_attributes !! j = Some b ->
  (forall s, v = Some s -> json_utf8 s = true) ->
  session_wf (a.1 z v) /\ b.2 (a.1 z v) = if decide (i = j) then v else b.2 z.
Proof.
  intros Hz Hi Hj Hv.
  apply string_attribute_key in Hi as (k & Hk & -> & _), Hj as (k' & Hk' & _ & ->).
  split; [by apply session_json_set_wf|]. destruct (decide (i = j)) as [->|Hne].
  - simplify_eq. apply session_get_set_eq; [done| |done]. by eapply utf8_ascii, string_keys_ascii.
  - apply session_get_set_ne. intros ->. by apply Hne, (NoDup_lookup _ _ _ _ string_keys_NoDup Hk).
Qed.

Lemma session_string_attributes_witness :
  oidc_session_get_issuer (J:=Model.jansson)
    (oidc_session_set_refresh_token (oidc_session_set_issuer (mk_session None None None 0 None None)
       (Some "https://op")) (Some "r1")) = Some "https://op".
Proof.
  pose proof (proj2 (session_string_attributes (J:=Model.jansson)
    (oidc_session_set_issuer (mk_session None None None 0 None None) (Some "https://op")) 4 9 _ _ (Some "r1")
    ltac:(vm_compute; reflexivity) eq_refl eq_refl ltac:(intros s [= <-]; reflexivity))) as E.
  etransitivity; [exact E|]. vm_compute. reflexivity.
Defined.

(** A point in time that is stored in a session reads back as the whole
    second it is in, and as the largest time when it is out of range for [apr_time_t];
    whatever integer a session holds, a time read from it is -1 or within range. *)
Theorem session_time_attributes {J : Jansson} {JS : JanssonSpec J} (z : oidc_session_t) (i j : nat) a b (t : Z) :
  session_wf z -> time_attributes !! i = Some a -> time_attributes !! j = Some b -> 0 <= t <= INT64_MAX ->
  -1 <= b.2 z <= APR_INT64_MAX /\
  b.2 (a.1 z t) = if decide (i = j) then stored_time t else b.2 z.
Proof.
  intros Hz Hi Hj Ht.
  assert (Hkey : forall n p, time_attributes !! n = Some p -> exists k,
    [OIDC_SESSION_KEY_SESSION_EXPIRES; OIDC_SESSION_KEY_ACCESS_TOKEN_LAST_REFRESH;
     OIDC_SESSION_KEY_USERINFO_LAST_REFRESH; OIDC_SESSION_KEY_ACCESSTOKEN_EXPIRES] !! n = Some k /\
    json_utf8 k = true /\ p.1 z t = oidc_session_set_timestamp z k t /\
    p.2 = (fun z => oidc_session_get_key2timestamp z k)).
  { intros n p Hn. do 4 (destruct n as [|n]; [injection Hn as <-; eexists; repeat split; try (by apply utf8_ascii)|]);
      [|done]. cbn. by rewrite Z.add_0_r. }
  apply Hkey in Hi as (k & Hk & Hu & -> & _), Hj as (k' & Hk' & _ & _ & ->). split.
  - unfold oidc_session_get_key2timestamp, oidc_json_object_get_int64.
    destruct (oidc_json_object_get _ _) as [v|]; [destruct (oidc_json_is_integer _)|]; cbn [snd];
      [|vm_compute; split; discriminate..].
    pose proof (integer_value_range v). cbn [oidc_json_integer_value].
    destruct (Z.ltb_spec (-1) (json_integer_value v)); [|vm_compute; split; discriminate].
    rewrite time_from_sec_int by lia. apply stored_range; lia.
  - destruct (decide (i = j)) as [->|Hne]; [simplify_eq; by apply session_get_set_timestamp|].
    apply session_get_timestamp_ne. intros ->. apply Hne. eapply NoDup_lookup; [|exact Hk|exact Hk'].
    apply (bool_decide_unpack _). vm_compute. exact I.
Qed.

Lemma session_time_attributes_witness :
  oidc_session_get_session_expires (J:=Model.jansson)
    (oidc_session_set_session_expires (mk_session None None None 0 None None) 5999999) = 5000000.
Proof.
  etransitivity; [exact (proj2 (session_time_attributes (J:=Model.jansson)
    (mk_session None None None 0 None None) 0 0 _ _ 5999999 I eq_refl eq_refl
    ltac:(vm_compute; split; discriminate)))|vm_compute; reflexivity].
Defined.

(** The claims that a session stores are exactly those of the token or
    of the userinfo response that the black list does not name and the white list, when
    there is one, does; no other attribute of the session changes. *)
Theorem session_claims_filtered {J : Jansson} {JS : JanssonSpec J} (c : session_cfg) (z : oidc_session_t)
  (key : string) (claims : json_t) :
  session_wf z -> json_utf8 key = true ->
  let z' := oidc_session_set_filtered_claims c z key (Some claims) in
  (exists dst, oidc_session_json_get z' key = Some dst /\ is_object dst /\
    forall n, oidc_json_object_get (Some dst) n =
      if oidc_session_claim_is_allowed c n then oidc_json_object_get (Some claims) n else None) /\
  forall k, k <> key -> oidc_session_json_get z' k = oidc_session_json_get z k.
Proof.
  intros Hz Hk z'. split; [|intros k Hne; by apply session_json_get_set_ne].
  eexists. split; [by apply session_json_get_set_eq|]. split; [apply filter_claims_object, object_new|].
  intros n. cbn [oidc_json_object_iter]. rewrite filter_claims_get;
    [|apply object_new|apply items_NoDup|apply items_utf8].
  rewrite object_get_new. cbn [oidc_json_object_get mbind option_bind]. rewrite object_get.
  by destruct (alist_get n _), (oidc_session_claim_is_allowed c n).
Qed.

Definition demo_session_cfg (type : Z) : session_cfg :=
  mk_session_cfg type "mod_auth_openidc_session" OIDC_SAMESITE_COOKIE_LAX true false 40
    (Some {["secret"]}) None demo_cookie_cfg (mk_cache_cfg false demo_passphrase) (mk_trace_cfg 0 None false).

Lemma session_claims_filtered_witness :
  exists dst, oidc_session_get_userinfo_claims (J:=Model.jansson)
      (oidc_session_set_userinfo_claims (J:=Model.jansson) (demo_session_cfg 0) (mk_session None None None 0 None None)
        (Some (Model.JObj [("sub", Model.JStr "u"); ("secret", Model.JStr "x")]))) = Some dst /\
    oidc_json_object_get (J:=Model.jansson) (Some dst) "secret" = None /\
    oidc_json_object_get (J:=Model.jansson) (Some dst) "sub" = Some (Model.JStr "u").
Proof.
  destruct (session_claims_filtered (J:=Model.jansson) (demo_session_cfg 0) (mk_session None None None 0 None None)
    OIDC_SESSION_KEY_USERINFO_CLAIMS (Model.JObj [("sub", Model.JStr "u"); ("secret", Model.JStr "x")])
    I eq_refl) as [(dst & Hg & _ & Hn) _].
  exists dst. split; [exact Hg|]. split; rewrite Hn; vm_compute; reflexivity.
Defined.
