(* ===== verification/SessionProps.v ===== *)
(** * src/session.c: properties of loading, saving and ending sessions *)

From S2P Require Import Prelude Cstr Apr StrUtil Http Form Url Cookie Jansson Json Base64 Jose Jwt.
From S2P Require Import ShmCache ShmInit Cache Util World Session SessionAttr.

#[local] Open Scope world_scope.

Section session_lemmas.
Context {J : Jansson} {JS : JanssonSpec J} {O : Jose} {OS : JoseSpec O} {B64 : Base64} {H : Httpd}.
Context {St : Type} {B : CacheBackend St} {BS : CacheBackendSpec B}.
Variables (ext : nat -> env) (rand : nat -> rng) (c : session_cfg).
Implicit Types (z : oidc_session_t) (w : world St).

(** The members that [oidc_session_save] writes itself. *)
Definition reserved : list string :=
  [OIDC_SESSION_FORMAT_VERSION_KEY; OIDC_SESSION_REMOTE_USER_KEY; OIDC_SESSION_EXPIRY_KEY;
   OIDC_SESSION_SESSION_ID; OIDC_SESSION_SID_KEY; OIDC_SESSION_SUB_KEY].

(** What a session has to be for it to be restored: identifiers that fit a cookie and
    UTF-8 strings. *)
Record saveable z : Prop := {
  sv_state : exists j, state z = Some j /\ is_object j;
  sv_uuid : exists u, uuid z = Some u /\ str_forall value_char u = true /\ u <> "" /\ json_utf8 u = true;
  sv_user s : remote_user z = Some s -> json_utf8 s = true;
  sv_sid s : sid z = Some s -> json_utf8 s = true;
  sv_sub s : sub z = Some s -> json_utf8 s = true;
  sv_expiry : 0 <= expiry z <= INT64_MAX;
  sv_claims j : oidc_session_json_get z OIDC_SESSION_KEY_IDTOKEN_CLAIMS = Some j -> is_object j
}.

Record restored z z2 (sid' sub' : option string) : Prop := {
  rs_uuid : uuid z2 = uuid z;
  rs_user : remote_user z2 = remote_user z;
  rs_expiry : expiry z2 = stored_time (expiry z);
  rs_sid : sid z2 = sid';
  rs_sub : sub z2 = sub';
  rs_state k : k ∉ reserved -> oidc_session_json_get z2 k = oidc_session_json_get z k
}.

(** *** The state that is saved *)

Definition same_fields z z' : Prop :=
  uuid z' = uuid z /\ remote_user z' = remote_user z /\ expiry z' = expiry z /\ sid z' = sid z /\ sub z' = sub z.

Lemma json_set_fields z k (v : option json_t) : same_fields z (oidc_session_json_set z k v).
Proof. unfold oidc_session_json_set. destruct v, (state z); repeat split. Qed.

Lemma same_fields_trans z1 z2 z3 : same_fields z1 z2 -> same_fields z2 z3 -> same_fields z1 z3.
Proof. intros (?&?&?&?&?) (?&?&?&?&?). repeat split; congruence. Qed.

Lemma json_set_state z k (v : option json_t) : is_Some (state z) -> is_Some (state (oidc_session_json_set z k v)).
Proof. intros [j Hj]. unfold oidc_session_json_set. rewrite Hj. destruct v; by eexists. Qed.

Definition stamped z : oidc_session_t :=
  let z1 := oidc_session_set_int z OIDC_SESSION_FORMAT_VERSION_KEY OIDC_SESSION_FORMAT_VERSION in
  let z2 := oidc_session_set z1 OIDC_SESSION_REMOTE_USER_KEY (remote_user z1) in
  let z3 := oidc_session_set_timestamp z2 OIDC_SESSION_EXPIRY_KEY (expiry z2) in
  oidc_session_set z3 OIDC_SESSION_SESSION_ID (uuid z3).

(** An index that is absent leaves the session as it is. *)
Definition indexed z (key : string) (index : option string) : oidc_session_t :=
  match index with Some i => oidc_session_set z key (Some i) | None => z end.

Lemma stamped_updates z : 0 <= expiry z ->
  stamped z = oidc_session_json_set (oidc_session_json_set (oidc_session_json_set (oidc_session_json_set z
    OIDC_SESSION_FORMAT_VERSION_KEY (Some (oidc_json_integer 1)))
    OIDC_SESSION_REMOTE_USER_KEY (oidc_json_string (remote_user z)))
    OIDC_SESSION_EXPIRY_KEY (Some (oidc_json_integer (apr_time_sec (expiry z)))))
    OIDC_SESSION_SESSION_ID (oidc_json_string (uuid z)).
Proof.
  intros He. unfold stamped. cbv zeta.
  change (oidc_session_set_int z _ _) with
    (oidc_session_json_set z OIDC_SESSION_FORMAT_VERSION_KEY (Some (oidc_json_integer 1))).
  assert (Hf : forall z k v, same_fields z (oidc_session_json_set z k v)) by apply json_set_fields.
  unfold oidc_session_set.
  rewrite session_set_timestamp_json by (do 2 rewrite (proj1 (proj2 (proj2 (Hf _ _ _)))); lia).
  do 3 rewrite (proj1 (Hf _ _ _)). rewrite (proj1 (proj2 (Hf _ _ _))).
  do 2 rewrite (proj1 (proj2 (proj2 (Hf _ _ _)))). done.
Qed.

Lemma keys_utf8 k : In k reserved -> json_utf8 k = true.
Proof. intros Hin. apply utf8_ascii. repeat (destruct Hin as [<-|Hin]; [done|]). done. Qed.

Lemma saveable_wf z : saveable z -> session_wf z.
Proof. intros Hz. destruct (sv_state z Hz) as (j & E & Ho). unfold session_wf. by rewrite E. Qed.

(** Everything that is read back from the stamped session. *)
Lemma stamped_spec z : saveable z ->
  session_wf (stamped z) /\ is_Some (state (stamped z)) /\ same_fields z (stamped z) /\
  oidc_session_json_get (stamped z) OIDC_SESSION_FORMAT_VERSION_KEY = Some (oidc_json_integer 1) /\
  oidc_session_get (stamped z) OIDC_SESSION_REMOTE_USER_KEY = remote_user z /\
  oidc_session_get_key2timestamp (stamped z) OIDC_SESSION_EXPIRY_KEY = stored_time (expiry z) /\
  oidc_session_get (stamped z) OIDC_SESSION_SESSION_ID = uuid z /\
  forall k, k ∉ [OIDC_SESSION_FORMAT_VERSION_KEY; OIDC_SESSION_REMOTE_USER_KEY; OIDC_SESSION_EXPIRY_KEY;
    OIDC_SESSION_SESSION_ID] -> oidc_session_json_get (stamped z) k = oidc_session_json_get z k.
Proof.
  intros Hz. pose proof (saveable_wf z Hz) as Hwf. pose proof (sv_expiry z Hz) as He.
  destruct (sv_state z Hz) as (j & Hj & _). destruct (sv_uuid z Hz) as (u & Hu & _ & _ & Hu8).
  rewrite stamped_updates by lia.
  set (z1 := oidc_session_json_set z _ _). set (z2 := oidc_session_json_set z1 _ _).
  set (z3 := oidc_session_json_set z2 _ _). set (z4 := oidc_session_json_set z3 _ _).
  assert (W1 : session_wf z1) by by apply session_json_set_wf.
  assert (W2 : session_wf z2) by by apply session_json_set_wf.
  assert (W3 : session_wf z3) by by apply session_json_set_wf.
  split; [by apply session_json_set_wf|]. split; [repeat apply json_set_state; by eexists|].
  split; [apply (same_fields_trans _ z3), json_set_fields; apply (same_fields_trans _ z2), json_set_fields;
    apply (same_fields_trans _ z1); apply json_set_fields|].
  assert (U : forall k, In k reserved -> json_utf8 k = true) by apply keys_utf8.
  repeat split.
  - unfold z4, z3, z2. rewrite !session_json_get_set_ne by done.
    apply session_json_get_set_eq; [done|]. apply U. by left.
  - rewrite (get_string_json z4 z2) by (unfold z4, z3; by rewrite !session_json_get_set_ne).
    apply session_get_set_eq; [done|apply U; right; by left|apply (sv_user z Hz)].
  - rewrite (get_time_json z4 z3) by (unfold z4; by rewrite session_json_get_set_ne).
    unfold z3. rewrite <-session_set_timestamp_json by lia.
    apply session_get_set_timestamp; [done|apply U; do 2 right; by left|done].
  - apply session_get_set_eq; [done|apply U; do 3 right; by left|]. intros s E. by simplify_eq.
  - intros k Hk. unfold z4, z3, z2, z1. rewrite !session_json_get_set_ne; [done|set_solver..].
Qed.

(** The session that ends up in the cache. *)
Definition cached z : oidc_session_t :=
  indexed (indexed (stamped z) OIDC_SESSION_SID_KEY (sid z)) OIDC_SESSION_SUB_KEY (sub z).

Lemma indexed_ne z k k' i : k <> k' ->
  oidc_session_json_get (indexed z k i) k' = oidc_session_json_get z k'.
Proof. intros Hne. destruct i; [by apply session_json_get_set_ne|done]. Qed.

Lemma indexed_eq z k i : session_wf z -> json_utf8 k = true -> (forall s, i = Some s -> json_utf8 s = true) ->
  oidc_session_get (indexed z k i) k = match i with Some _ => i | None => oidc_session_get z k end.
Proof. intros Hz Hk Hi. destruct i; [by apply session_get_set_eq|done]. Qed.

Lemma indexed_keeps z k i : session_wf z -> is_Some (state z) ->
  session_wf (indexed z k i) /\ is_Some (state (indexed z k i)) /\ same_fields z (indexed z k i).
Proof.
  intros Hz Hs. destruct i; [|by repeat split]. split; [by apply session_json_set_wf|].
  split; [by apply json_set_state|apply json_set_fields].
Qed.

(** What [z'] has to be for a load to restore [z] from it. *)
Record image z z' (sid' sub' : option string) : Prop := {
  im_wf : session_wf z';
  im_some : is_Some (state z');
  im_fields : same_fields z z';
  im_version : (oidc_json_object_get_int (state z') OIDC_SESSION_FORMAT_VERSION_KEY 1).2 = 1;
  im_user : oidc_session_get z' OIDC_SESSION_REMOTE_USER_KEY = remote_user z;
  im_expiry : oidc_session_get_key2timestamp z' OIDC_SESSION_EXPIRY_KEY = stored_time (expiry z);
  im_id : oidc_session_get z' OIDC_SESSION_SESSION_ID = uuid z;
  im_sid : oidc_session_get z' OIDC_SESSION_SID_KEY = sid';
  im_sub : oidc_session_get z' OIDC_SESSION_SUB_KEY = sub';
  im_state k : k ∉ reserved -> oidc_session_json_get z' k = oidc_session_json_get z k
}.

Lemma version_json z : oidc_session_json_get z OIDC_SESSION_FORMAT_VERSION_KEY = Some (oidc_json_integer 1) ->
  (oidc_json_object_get_int (state z) OIDC_SESSION_FORMAT_VERSION_KEY 1).2 = 1.
Proof.
  unfold oidc_session_json_get, oidc_json_object_get_int. intros ->.
  unfold oidc_json_is_integer, oidc_json_integer.
  rewrite (proj2 (has_type_Some _ _)) by (rewrite integer_typeof; set_solver).
  cbn [snd oidc_json_integer_value]. by rewrite integer_value by (vm_compute; split; discriminate).
Qed.

Lemma stamped_image z : saveable z ->
  image z (stamped z) (oidc_session_get z OIDC_SESSION_SID_KEY) (oidc_session_get z OIDC_SESSION_SUB_KEY).
Proof.
  intros Hz. destruct (stamped_spec z Hz) as (W & S & F & V & U & E & I & K).
  split; try done; [by apply version_json|apply get_string_json, K; set_solver..|].
  intros k Hk. apply K. set_solver.
Qed.

Lemma cached_image z : saveable z ->
  image z (cached z)
    (match sid z with Some _ => sid z | None => oidc_session_get z OIDC_SESSION_SID_KEY end)
    (match sub z with Some _ => sub z | None => oidc_session_get z OIDC_SESSION_SUB_KEY end).
Proof.
  intros Hz. destruct (stamped_spec z Hz) as (W & S & F & V & U & E & I & K).
  unfold cached. set (z1 := indexed (stamped z) _ _).
  destruct (indexed_keeps (stamped z) OIDC_SESSION_SID_KEY (sid z) W S) as (W1 & S1 & F1). fold z1 in W1, S1, F1.
  destruct (indexed_keeps z1 OIDC_SESSION_SUB_KEY (sub z) W1 S1) as (W2 & S2 & F2).
  assert (G : forall k, k <> OIDC_SESSION_SID_KEY -> k <> OIDC_SESSION_SUB_KEY ->
    oidc_session_json_get (indexed z1 OIDC_SESSION_SUB_KEY (sub z)) k = oidc_session_json_get (stamped z) k).
  { intros k H1 H2. unfold z1. by rewrite !indexed_ne by done. }
  split; try done.
  - apply (same_fields_trans _ z1); [|done]. by apply (same_fields_trans _ (stamped z)).
  - apply version_json. by rewrite G.
  - by rewrite (get_string_json _ (stamped z)) by by apply G.
  - by rewrite (get_time_json _ (stamped z)) by by apply G.
  - by rewrite (get_string_json _ (stamped z)) by by apply G.
  - rewrite (get_string_json _ z1) by by apply indexed_ne. unfold z1.
    rewrite indexed_eq; [|done|apply keys_utf8; cbn; auto 8|apply (sv_sid z Hz)].
    destruct (sid z); [done|]. apply get_string_json, K. set_solver.
  - rewrite indexed_eq; [|done|apply keys_utf8; cbn; auto 8|apply (sv_sub z Hz)].
    destruct (sub z); [done|]. apply get_string_json. unfold z1. rewrite indexed_ne by done. apply K. set_solver.
  - intros k Hk. rewrite G by set_solver. apply K. set_solver.
Qed.

(** *** Decoding and restoring *)

Lemma get_same_state z z' k : state z = state z' -> oidc_session_json_get z k = oidc_session_json_get z' k.
Proof. unfold oidc_session_json_get. by intros ->. Qed.

Lemma image_supported z z' z0 sid' sub' : image z z' sid' sub' ->
  oidc_session_version_supported (set_state (state z') z0) = (true, set_state (state z') z0).
Proof.
  intros Hi. unfold oidc_session_version_supported. cbn [state set_state]. by rewrite (im_version _ _ _ _ Hi).
Qed.

Lemma decode_plain z z' z0 sid' sub' r r' s : image z z' sid' sub' ->
  oidc_session_encode c r z' false = Some s ->
  oidc_session_decode c r' z0 s false = (true, set_state (state z') z0).
Proof.
  intros Hi. pose proof (im_wf _ _ _ _ Hi) as W. destruct (im_some _ _ _ _ Hi) as [j Hj].
  unfold session_wf, oidc_session_encode, oidc_session_decode in *. cbn [negb]. rewrite Hj in *. intros Hs.
  rewrite (encode_decode j _ s W Hs), <-Hj. by eapply image_supported.
Qed.

Lemma decode_encrypted z z' z0 sid' sub' r r' s : image z z' sid' sub' ->
  (forall p, oidc_json_encode (state z') OIDC_JSON_COMPACT = Some p -> payload_ok r p) ->
  oidc_session_encode c r z' true = Some s ->
  oidc_session_decode c r' z0 s true = (true, set_state (state z') z0).
Proof.
  intros Hi Hp. pose proof (im_wf _ _ _ _ Hi) as W. destruct (im_some _ _ _ _ Hi) as [j Hj].
  unfold session_wf, oidc_session_encode, oidc_session_decode in *. cbn [negb]. rewrite Hj in *.
  destruct (secret1 _) as [s1|] eqn:Hs1; [|done].
  destruct (oidc_json_encode (Some j) OIDC_JSON_COMPACT) as [p|] eqn:He; [|done]. intros Hc.
  pose proof Hc as (k & key & cser & _ & Hk & _)%jwt_create_inv.
  rewrite (jwt_verify_create r r' _ (crypto_passphrase (s_cache c)) p s k (Hp p eq_refl) Hc Hk)
    by by destruct (secret2 _).
  rewrite (encode_decode j _ p W He), <-Hj. by eapply image_supported.
Qed.

Lemma extract_image z z' z0 sid' sub' w : saveable z -> image z z' sid' sub' -> state z0 = state z' ->
  now (ext (w_calls w)) <= stored_time (expiry z) ->
  exists z2, oidc_session_extract ext c z0 w =
      Some ((true, z2), mk_world (w_req w) (w_cache w) (S (w_calls w))) /\ restored z z2 sid' sub'.
Proof.
  intros Hz Hi Hs Hnow. destruct (im_some _ _ _ _ Hi) as [j Hj].
  unfold oidc_session_extract. rewrite Hs, Hj.
  rewrite (get_same_state z0 z' _ Hs), (im_state _ _ _ _ Hi) by set_solver.
  assert (nonnull (oidc_session_json_get z OIDC_SESSION_KEY_IDTOKEN_CLAIMS) &&
    negb (oidc_json_is_object (oidc_session_json_get z OIDC_SESSION_KEY_IDTOKEN_CLAIMS)) = false) as ->.
  { pose proof (sv_claims z Hz) as Hc. destruct (oidc_session_json_get z _) as [jc|]; [|done]. cbn [nonnull andb].
    by rewrite (proj2 (is_object_true jc)) by auto. }
  rewrite (get_time_json z0 z') by by apply get_same_state.
  rewrite (im_expiry _ _ _ _ Hi). unfold bind, apr_time_now. cbn [expiry].
  destruct (Z.ltb_spec (stored_time (expiry z)) (now (ext (w_calls w)))) as [|_]; [lia|].
  eexists. split; [reflexivity|].
  assert (G : forall k, oidc_session_get (mk_session (uuid z0) (remote_user z0) (Some j)
    (stored_time (expiry z)) (sid z0) (sub z0)) k = oidc_session_get z' k)
    by (intros k; apply get_string_json, get_same_state; done).
  split; cbn [uuid remote_user expiry sid sub]; rewrite ?G; try apply Hi; [done|].
  intros k Hk. rewrite (get_same_state _ z'); [by apply Hi|done].
Qed.

(** *** Running the steps of a save *)

Lemma save_index_run z k i w : impl_valid (w_cache w) ->
  exists w', save_index ext c z k i w = Some (indexed z k i, w') /\ w_req w' = w_req w /\ impl_valid (w_cache w').
Proof.
  intros Hv. unfold save_index, indexed. destruct i as [i|]; [|by exists w].
  unfold bind, oidc_cache_set_sid, cache_set.
  pose proof (cache_set_valid (ext (w_calls w)) (s_cache c) (w_req w) OIDC_CACHE_SECTION_SID (Some i) (uuid z)
    (expiry z) (w_cache w) Hv) as Hv'.
  destruct (oidc_cache_set _ _ _ _ _ _ _ _) as [ok st]. by eexists.
Qed.

Lemma samesite_run ft w : exists a, oidc_session_cookie_samesite c ft w = Some (a, w).
Proof.
  unfold oidc_session_cookie_samesite. destruct (same_site_session c); try by eexists. apply samesite_none_run.
Qed.

Lemma save_cached z ft w z' w' u :
  session_type c = OIDC_SESSION_TYPE_SERVER_CACHE -> session_cache_fallback_to_cookie c = false ->
  str_forall name_char (dir_cookie c) = true -> impl_valid (w_cache w) ->
  saveable z -> uuid z = Some u -> str_forall value_char u = true ->
  oidc_session_save ext c z ft w = Some ((true, z'), w') ->
  exists s w1, oidc_session_encode c (w_req w) (cached z) false = Some s /\ impl_valid (w_cache w1) /\
    oidc_cache_set (ext (w_calls w1)) (s_cache c) (w_req w) OIDC_CACHE_SECTION_SESSION (Some u) (Some s)
      (expiry z) (w_cache w1) = (true, w_cache w') /\
    emits (w_req w) (w_req w') [(dir_cookie c, u)].
Proof.
  intros Ht Hf Hn Hv Hz Hu Hc. destruct (sv_state z Hz) as (j & Hj & _).
  destruct (stamped_spec z Hz) as (_ & [j1 Hj1] & (E1 & _ & E3 & E4 & E5) & _).
  destruct (cached_image z Hz) as [_ _ (F1 & _ & F3 & _) _ _ _ _ _ _ _].
  unfold oidc_session_save. rewrite Hj. fold (stamped z). rewrite Ht, Hf.
  change (OIDC_SESSION_TYPE_SERVER_CACHE =? OIDC_SESSION_TYPE_SERVER_CACHE) with true.
  change (OIDC_SESSION_TYPE_SERVER_CACHE =? OIDC_SESSION_TYPE_CLIENT_COOKIE) with false. cbn [orb].
  unfold bind at 1. unfold oidc_session_save_cache. rewrite Hj1.
  destruct (save_index_run (stamped z) OIDC_SESSION_SID_KEY (sid (stamped z)) w Hv) as (w1 & R1 & Q1 & V1).
  run R1. rewrite E4. set (z1 := indexed (stamped z) OIDC_SESSION_SID_KEY (sid z)).
  assert (Hsub : sub z1 = sub z).
  { unfold z1, indexed. destruct (sid z); [|done]. rewrite <-E5. apply json_set_fields. }
  destruct (save_index_run z1 OIDC_SESSION_SUB_KEY (sub z1) w1 V1) as (w2 & R2 & Q2 & V2).
  run R2. rewrite Hsub. change (indexed z1 OIDC_SESSION_SUB_KEY (sub z)) with (cached z). run (eq_refl : get_req w2 = Some (w_req w2, w2)). rewrite Q2, Q1.
  destruct (oidc_session_encode c (w_req w) (cached z) false) as [s|] eqn:He; [|by intros [=]].
  destruct (oidc_cache_set (ext (w_calls w2)) (s_cache c) (w_req w) OIDC_CACHE_SECTION_SESSION (Some u) (Some s)
    (expiry z) (w_cache w2)) as [ok st] eqn:Hset.
  assert (R3 : oidc_cache_set_session ext c (uuid (cached z)) (Some s) (expiry (cached z)) w2 =
    Some (ok, mk_world (w_req w) st (S (w_calls w2)))).
  { unfold oidc_cache_set_session, cache_set. by rewrite F1, F3, Hu, Q2, Q1, Hset. }
  run R3. destruct ok; [|by intros [=]].
  destruct (samesite_run ft (mk_world (w_req w) st (S (w_calls w2)))) as (a & Ha). run Ha.
  rewrite F1, Hu. cbn [default].
  destruct (set_cookie_run (s_cookie c) (dir_cookie c) u (cookie_expiry c (cached z)) a
    (mk_world (w_req w) st (S (w_calls w2))) Hn Hc) as (r & R4 & Em).
  change (default "(null)" (Some u)) with u. run R4. intros [= <- <-]. by exists s, w2.
Qed.

(** *** Running the steps of a load *)

(** The session that [oidc_session_load] starts from. *)
Definition fresh w : oidc_session_t :=
  mk_session (oidc_util_rand_hex_str (rand (w_calls w)) OIDC_SESSION_ID_LEN) None None 0 None None.

Definition tick w : world St := mk_world (w_req w) (w_cache w) (S (w_calls w)).

Lemma id_new_run w :
  oidc_session_id_new rand (oidc_session_clear (mk_session None None None 0 None None)) w = Some (fresh w, tick w).
Proof. done. Qed.

Lemma load_by_uuid_hit z z' sid' sub' u r s z0 w : image z z' sid' sub' -> uuid z = Some u ->
  oidc_session_encode c r z' false = Some s ->
  (oidc_cache_get (ext (w_calls w)) (s_cache c) (w_req w) OIDC_CACHE_SECTION_SESSION (Some u) (w_cache w)).1
    = (true, Some s) ->
  exists st, oidc_session_load_cache_by_uuid ext c u z0 w =
    Some ((true, set_uuid (Some u) (set_state (state z') z0)), mk_world (w_req w) st (S (w_calls w))).
Proof.
  intros Hi Hu Hs Hg. unfold oidc_session_load_cache_by_uuid.
  unfold bind at 1, oidc_cache_get_session, cache_get.
  destruct (oidc_cache_get _ _ _ _ _ _) as [[ok v] st]. cbn [fst] in Hg. injection Hg as -> ->.
  run (eq_refl : get_req (mk_world (w_req w) st (S (w_calls w))) = Some (w_req w, mk_world (w_req w) st (S (w_calls w)))).
  rewrite (decode_plain z z' z0 sid' sub' r (w_req w) s Hi Hs). cbn [negb].
  rewrite (get_string_json _ z') by done. rewrite (im_id _ _ _ _ Hi), Hu.
  cbn [nonnull negb orb _oidc_strcmp]. rewrite strcmp_refl. by exists st.
Qed.

Lemma load_cached z z' sid' sub' u r s w :
  session_type c = OIDC_SESSION_TYPE_SERVER_CACHE -> session_cache_fallback_to_cookie c = false ->
  saveable z -> image z z' sid' sub' -> uuid z = Some u -> oidc_session_encode c r z' false = Some s ->
  oidc_http_get_cookie (w_req w) (dir_cookie c) = Some u ->
  (oidc_cache_get (ext (S (w_calls w))) (s_cache c) (w_req w) OIDC_CACHE_SECTION_SESSION (Some u) (w_cache w)).1
    = (true, Some s) ->
  (forall i, now (ext i) <= stored_time (expiry z)) ->
  exists z2 w2, oidc_session_load ext rand c w = Some ((true, z2), w2) /\ restored z z2 sid' sub'.
Proof.
  intros Ht Hf Hz Hi Hu Hs Hck Hg Hnow. unfold oidc_session_load. run (id_new_run w). rewrite Ht, Hf.
  change (OIDC_SESSION_TYPE_SERVER_CACHE =? OIDC_SESSION_TYPE_SERVER_CACHE) with true.
  change (OIDC_SESSION_TYPE_SERVER_CACHE =? OIDC_SESSION_TYPE_CLIENT_COOKIE) with false. cbn [orb].
  destruct (load_by_uuid_hit z z' sid' sub' u r s (fresh w) (tick w) Hi Hu Hs Hg) as (st & Hload).
  destruct (im_some _ _ _ _ Hi) as [j Hj].
  set (z0 := set_uuid (Some u) (set_state (state z') (fresh w))) in *.
  assert (R : oidc_session_load_cache ext c (fresh w) (tick w) =
    Some ((true, z0), mk_world (w_req w) st (S (S (w_calls w))))).
  { unfold oidc_session_load_cache. run (eq_refl : get_req (tick w) = Some (w_req w, tick w)). rewrite Hck.
    run Hload. cbn [negb]. change (state z0) with (state z'). by rewrite Hj. }
  run R. set (w1 := mk_world _ st _).
  run (eq_refl : get_req w1 = Some (w_req w1, w1)). cbn [negb andb].
  destruct (extract_image z z' z0 sid' sub' w1 Hz Hi eq_refl (Hnow _)) as (z2 & Hx & Hr).
  run Hx. by eexists _, _.
Qed.
End session_lemmas.

(** ** Properties *)

(** C11: a session that was saved in the cache is restored by a later request
    whose browser processed the response, until it expires: with its identifier, user,
    logout indices and every attribute, and with its expiry to the second.  Holds for
    every cache backend that keeps its promise, encrypted or not. *)
Theorem session_cache_roundtrip {J : Jansson} {JS : JanssonSpec J} {O : Jose} {OS : JoseSpec O}
  {B64 : Base64} {B64S : Base64Spec B64} {H : Httpd}
  {St : Type} {B : CacheBackend St} {BS : CacheBackendSpec B} (ext ext2 : nat -> env) (rand2 : nat -> rng)
  (c : session_cfg) (z z' : oidc_session_t) (ft : oidc_session_save_t) (w w' w2 : world St) (jr : jar) :
  session_type c = OIDC_SESSION_TYPE_SERVER_CACHE -> session_cache_fallback_to_cookie c = false ->
  str_forall name_char (dir_cookie c) = true -> dir_cookie c <> "" ->
  impl_valid (w_cache w) -> saveable z -> jar_ok jr -> set_cookies (w_req w) = [] ->
  (forall p, oidc_json_encode (state (cached z)) OIDC_JSON_COMPACT = Some p -> payload_ok (w_req w) p) ->
  oidc_session_save ext c z ft w = Some ((true, z'), w') ->
  w_cache w2 = w_cache w' ->
  oidc_http_hdr_in_cookie_get (w_req w2) = cookie_header (fold_left browser_store (set_cookies (w_req w')) jr) ->
  apr_table_get (subprocess_env (w_req w2)) OIDC_CACHE_PREFIX_ENV_VAR =
    apr_table_get (subprocess_env (w_req w)) OIDC_CACHE_PREFIX_ENV_VAR ->
  (forall i, healthy (ext2 i) /\ now (ext2 i) < expiry z /\ now (ext2 i) <= stored_time (expiry z)) ->
  exists z2 w3, oidc_session_load ext2 rand2 c w2 = Some ((true, z2), w3) /\
    restored z z2
      (match sid z with Some _ => sid z | None => oidc_session_get z OIDC_SESSION_SID_KEY end)
      (match sub z with Some _ => sub z | None => oidc_session_get z OIDC_SESSION_SUB_KEY end).
Proof.
  intros Ht Hf Hn Hne Hv Hz Hj Hsc Hp Hsave Hc2 Hck Henv Hext.
  destruct (sv_uuid z Hz) as (u & Hu & Huc & Hune & _).
  destruct (save_cached ext c z ft w z' w' u Ht Hf Hn Hv Hz Hu Huc Hsave) as (s & w1 & He & Hv1 & Hset & Hem).
  eapply load_cached; try done; [by apply cached_image| | |intros i; apply Hext].
  - rewrite (emits_jar _ _ _ _ Hsc Hem) in Hck.
    assert (Hj2 : jar_ok (store_pair jr (dir_cookie c, u))) by (apply store_ok; done).
    rewrite (get_cookie_jar (w_req w2) _ _ Hck (proj2 Hj2) Hn). cbn [fold_left]. rewrite store_get. cbn [fst snd].
    rewrite String.eqb_refl. by destruct (String.eqb_spec u "").
  - rewrite Hc2. eapply (cache_value_read (ext (w_calls w1))); [|exact Hv1|apply Hext|apply Hext| |exact Hset].
    + unfold oidc_cache_section_get. by rewrite Henv.
    + intros _. by apply Hp.
Qed.

Definition demo_store : header := shm_init 4 65536 4 (1, 2) ∅.

Lemma demo_store_valid : impl_valid (B:=shm_backend 65536) demo_store.
Proof.
  destruct (post_config_valid 4 65536 (mk_init_env true (Some (1, 2)) true ∅ ∅) demo_store) as [Hv _];
    [lia|vm_compute; reflexivity|exact Hv].
Defined.

Section demo.
#[local] Existing Instances Model.jansson JoseModel.jose Base64Model.base64 HttpdModel.httpd.

Definition demo_session : oidc_session_t (J:=Model.jansson) :=
  mk_session (Some "0a1b") (Some "alice") (Some (Model.JObj [("idc", Model.JObj [("sub", Model.JStr "alice")])]))
    5999999 (Some "sid1") None.

Definition demo_ext (t : Z) : nat -> env := fun _ => mk_env t true true.
Definition demo_rand : nat -> rng := fun i n => Some (repeat (Z.of_nat i) n).

Lemma demo_saveable : saveable demo_session.
Proof.
  split; cbn.
  - eexists. split; reflexivity.
  - exists "0a1b". repeat split. discriminate.
  - intros s [= <-]. reflexivity.
  - intros s [= <-]. reflexivity.
  - discriminate.
  - vm_compute. split; discriminate.
  - intros j [= <-]. reflexivity.
Defined.

Definition demo_world : world header := mk_world demo_request demo_store 0.

(** A request with one session cookie, at a later time. *)
Definition demo_world2 (cookie : string) (st : header) : world header :=
  mk_world (with_headers_in [("Cookie", "mod_auth_openidc_session=" ^^ cookie)] demo_request) st 0.

Lemma demo_world2_cache cookie st : w_cache (demo_world2 cookie st) = st.
Proof. reflexivity. Qed.

Definition demo_save (c : session_cfg) : option (bool * oidc_session_t * world header) :=
  oidc_session_save (J:=Model.jansson) (O:=JoseModel.jose) (B64:=Base64Model.base64) (H:=HttpdModel.httpd)
    (B:=shm_backend 65536) (demo_ext 1000000) c demo_session OIDC_SESSION_SAVE_NEW demo_world.
Definition demo_load (t : Z) (c : session_cfg) (w : world header) :
  option (bool * oidc_session_t (J:=Model.jansson) * world header) :=
  oidc_session_load (O:=JoseModel.jose) (B64:=Base64Model.base64) (H:=HttpdModel.httpd) (B:=shm_backend 65536)
    (demo_ext t) demo_rand c w.
Definition demo_after (c : session_cfg) : world header :=
  match demo_save c with Some (_, w') => w' | None => demo_world end.
Definition demo_saved (c : session_cfg) : oidc_session_t (J:=Model.jansson) :=
  match demo_save c with Some ((_, z'), _) => z' | None => demo_session end.

Lemma demo_save_ok (c : session_cfg) : (fun x => x.1.1) <$> demo_save c = Some true ->
  oidc_session_save (J:=Model.jansson) (O:=JoseModel.jose) (B64:=Base64Model.base64) (H:=HttpdModel.httpd)
    (B:=shm_backend 65536) (demo_ext 1000000) c demo_session OIDC_SESSION_SAVE_NEW demo_world
  = Some ((true, demo_saved c), demo_after c).
Proof. fold (demo_save c). unfold demo_saved, demo_after. destruct (demo_save c) as [[[b z] w]|]; [|done]. by intros [= ->]. Qed.

Lemma session_cache_roundtrip_witness :
  exists z2 w3,
    demo_load 4000000 (demo_session_cfg 0) (demo_world2 "0a1b" (w_cache (demo_after (demo_session_cfg 0))))
      = Some ((true, z2), w3) /\
    remote_user z2 = Some "alice" /\ sid z2 = Some "sid1" /\ expiry z2 = 5000000.
Proof.
  destruct (session_cache_roundtrip (J:=Model.jansson) (O:=JoseModel.jose) (B64:=Base64Model.base64)
    (H:=HttpdModel.httpd) (B:=shm_backend 65536) (demo_ext 1000000) (demo_ext 4000000) demo_rand
    (demo_session_cfg 0) demo_session (demo_saved (demo_session_cfg 0)) OIDC_SESSION_SAVE_NEW demo_world
    (demo_after (demo_session_cfg 0)) (demo_world2 "0a1b" (w_cache (demo_after (demo_session_cfg 0)))) [])
    as (z2 & w3 & Hl & Hr).
  - reflexivity.
  - reflexivity.
  - reflexivity.
  - discriminate.
  - exact demo_store_valid.
  - exact demo_saveable.
  - split; constructor.
  - reflexivity.
  - intros p Hp. apply (payload_ok_small _ _ _ Hp). vm_compute. reflexivity.
  - exact (demo_save_ok (demo_session_cfg 0) ltac:(vm_compute; reflexivity)).
  - apply demo_world2_cache.
  - vm_compute. reflexivity.
  - reflexivity.
  - intros i. repeat split; vm_compute; discriminate.
  - exists z2, w3. split; [exact Hl|]. destruct Hr as [_ E1 E2 E3 _ _]. rewrite E1, E2, E3. repeat split.
Defined.
End demo.
