(* ===== verification/SessionCookie.v ===== *)
(** * src/session.c: sessions kept in the browser *)

From S2P Require Import Prelude Cstr Apr StrUtil Http Form Url Cookie Jansson Json Base64 Jose Jwt.
From S2P Require Import ShmCache ShmInit Cache Util World Session SessionAttr SessionProps.

#[local] Open Scope world_scope.

Lemma compact_value c : compact_char c = true -> value_char c = true.
Proof. char_cases c. Qed.

Section session_cookie.
Context {J : Jansson} {JS : JanssonSpec J} {O : Jose} {OS : JoseSpec O} {B64 : Base64} {H : Httpd}.
Context {St : Type} {B : CacheBackend St}.
Variables (ext : nat -> env) (rand : nat -> rng) (c : session_cfg).
Implicit Types (z : oidc_session_t) (w : world St).

(** An encrypted session fits a cookie. *)
Lemma encrypted_value r z s : oidc_session_encode c r z true = Some s ->
  s <> "" /\ str_forall value_char s = true.
Proof.
  unfold oidc_session_encode. cbn [negb]. destruct (secret1 _); [|done].
  destruct (oidc_json_encode _ _) as [p|]; [|done].
  intros (k & key & cser & _ & _ & _ & _ & He)%jwt_create_inv. apply encrypt_compact in He as [Hne Hc].
  split; [done|]. by apply (str_forall_weaken compact_char); [apply compact_value|].
Qed.

Lemma save_cookie_run z ft w ok z' w' :
  session_type c = OIDC_SESSION_TYPE_CLIENT_COOKIE -> saveable z ->
  oidc_session_save (B:=B) ext c z ft w = Some ((ok, z'), w') -> ok = true ->
  exists s a, oidc_session_encode c (w_req w) (stamped z) true = Some s /\
    oidc_http_set_chunked_cookie (s_cookie c) (w_req w) (dir_cookie c) (Some s) (cookie_expiry c (stamped z))
      (session_cookie_chunk_size c) a = Some (true, w_req w').
Proof.
  intros Ht Hz. destruct (sv_state z Hz) as (j & Hj & _). destruct (stamped_spec z Hz) as (_ & [j1 Hj1] & _).
  unfold oidc_session_save. rewrite Hj. fold (stamped z). rewrite Ht.
  change (OIDC_SESSION_TYPE_CLIENT_COOKIE =? OIDC_SESSION_TYPE_SERVER_CACHE) with false.
  change (OIDC_SESSION_TYPE_CLIENT_COOKIE =? OIDC_SESSION_TYPE_CLIENT_COOKIE) with true. cbn [orb].
  run (eq_refl : ret (St:=St) (false, stamped z) w = Some ((false, stamped z), w)).
  unfold bind at 1, oidc_session_save_cookie. run (eq_refl : get_req w = Some (w_req w, w)). rewrite Hj1.
  destruct (oidc_session_encode c (w_req w) (stamped z) true) as [s|] eqn:He; [|intros [= <- _ _]; done].
  destruct (samesite_run c ft w) as (a & Ha). run Ha.
  destruct (oidc_http_set_chunked_cookie _ _ _ _ _ _ _) as [[ok' r']|] eqn:Hs; [|done].
  cbn [mbind option_bind ret]. intros [= <- <- <-] ->. by exists s, a.
Qed.
End session_cookie.

(** C12: a session that was saved in the browser itself, encrypted and in as
    many cookies as it needs, is restored by a later request whose browser processed the
    response, until it expires. *)
Theorem session_cookie_roundtrip {J : Jansson} {JS : JanssonSpec J} {O : Jose} {OS : JoseSpec O}
  {B64 : Base64} {H : Httpd} {St : Type} {B : CacheBackend St}
  (ext ext2 : nat -> env) (rand2 : nat -> rng) (c : session_cfg)
  (z z' : oidc_session_t) (ft : oidc_session_save_t) (w w' w2 : world St) (jr : jar) :
  session_type c = OIDC_SESSION_TYPE_CLIENT_COOKIE ->
  str_forall name_char (dir_cookie c) = true -> dir_cookie c <> "" ->
  saveable z -> jar_ok jr -> set_cookies (w_req w) = [] ->
  oidc_http_hdr_in_cookie_get (w_req w) = cookie_header jr ->
  0 <= session_cookie_chunk_size c -> 0 <= oidc_http_get_chunked_count (w_req w) (dir_cookie c) ->
  (forall p, oidc_json_encode (state (stamped z)) OIDC_JSON_COMPACT = Some p -> payload_ok (w_req w) p) ->
  oidc_session_save ext c z ft w = Some ((true, z'), w') ->
  oidc_http_hdr_in_cookie_get (w_req w2) = cookie_header (fold_left browser_store (set_cookies (w_req w')) jr) ->
  (forall i, now (ext2 i) <= stored_time (expiry z)) ->
  exists z2 w3, oidc_session_load ext2 rand2 c w2 = Some ((true, z2), w3) /\
    restored z z2 (oidc_session_get z OIDC_SESSION_SID_KEY) (oidc_session_get z OIDC_SESSION_SUB_KEY).
Proof.
  intros Ht Hn Hne Hz Hj Hsc Hck Hsize Hcnt Hp Hsave Hck2 Hext.
  destruct (save_cookie_run ext c z ft w true z' w' Ht Hz Hsave eq_refl) as (s & a & He & Hset).
  destruct (encrypted_value c _ _ _ He) as [Hs1 Hs2].
  destruct (set_chunked_cookie_read (s_cookie c) (w_req w) (w_req w2) jr (dir_cookie c) s
    (cookie_expiry c (stamped z)) (session_cookie_chunk_size c) a) as (ok & r' & Hr' & _ & Hread); try done.
  rewrite Hset in Hr'. injection Hr' as <- <-. specialize (Hread eq_refl Hck2).
  unfold oidc_session_load. run (id_new_run rand2 w2). rewrite Ht.
  change (OIDC_SESSION_TYPE_CLIENT_COOKIE =? OIDC_SESSION_TYPE_SERVER_CACHE) with false.
  change (OIDC_SESSION_TYPE_CLIENT_COOKIE =? OIDC_SESSION_TYPE_CLIENT_COOKIE) with true. cbn [orb].
  run (eq_refl : ret (false, fresh rand2 w2) (tick w2) = Some ((false, fresh rand2 w2), tick w2)).
  run (eq_refl : get_req (tick w2) = Some (w_req w2, tick w2)).
  unfold oidc_session_load_cookie. rewrite Hread.
  rewrite (decode_encrypted c z (stamped z) (fresh rand2 w2) _ _ (w_req w) (w_req w2) s (stamped_image z Hz) Hp He).
  destruct (extract_image ext2 c z (stamped z) (set_state (state (stamped z)) (fresh rand2 w2)) _ _ (tick w2) Hz
    (stamped_image z Hz) eq_refl (Hext _)) as (z2 & Hx & Hr).
  run Hx. by eexists _, _.
Qed.

Definition demo_client_cfg : session_cfg :=
  mk_session_cfg OIDC_SESSION_TYPE_CLIENT_COOKIE "sess" OIDC_SAMESITE_COOKIE_LAX false false 4000
    None None demo_cookie_cfg (mk_cache_cfg false demo_passphrase) (mk_trace_cfg 0 None false).

(** The request of the browser after the response. *)
Definition demo_back (w : world header) : world header :=
  mk_world (match cookie_header (fold_left browser_store (set_cookies (w_req w)) []) with
            | Some h => with_headers_in [("Cookie", h)] demo_request
            | None => demo_request
            end) demo_store 0.

Lemma demo_back_cookie w :
  oidc_http_hdr_in_cookie_get (w_req (demo_back w)) =
    cookie_header (fold_left browser_store (set_cookies (w_req w)) []).
Proof. unfold demo_back. cbn [w_req]. by destruct (cookie_header _). Qed.

Lemma session_cookie_roundtrip_witness :
  exists z2 w3, demo_load 4000000 demo_client_cfg (demo_back (demo_after demo_client_cfg)) = Some ((true, z2), w3) /\
    remote_user z2 = Some "alice" /\ uuid z2 = Some "0a1b" /\ expiry z2 = 5000000.
Proof.
  destruct (session_cookie_roundtrip (J:=Model.jansson) (O:=JoseModel.jose) (B64:=Base64Model.base64)
    (H:=HttpdModel.httpd) (B:=shm_backend 65536) (demo_ext 1000000) (demo_ext 4000000) demo_rand
    demo_client_cfg demo_session (demo_saved demo_client_cfg) OIDC_SESSION_SAVE_NEW demo_world
    (demo_after demo_client_cfg) (demo_back (demo_after demo_client_cfg)) [])
    as (z2 & w3 & Hl & Hr).
  - reflexivity.
  - reflexivity.
  - discriminate.
  - exact demo_saveable.
  - split; constructor.
  - reflexivity.
  - reflexivity.
  - vm_compute. discriminate.
  - vm_compute. discriminate.
  - intros p Hp. apply (payload_ok_small _ _ _ Hp). vm_compute. reflexivity.
  - exact (demo_save_ok demo_client_cfg ltac:(vm_compute; reflexivity)).
  - apply demo_back_cookie.
  - intros i. vm_compute. discriminate.
  - exists z2, w3. split; [exact Hl|]. destruct Hr as [E0 E1 E2 _ _ _]. rewrite E0, E1, E2. repeat split.
Defined.
