(* ===== verification/SessionEnd.v ===== *)
(** * src/session.c: how sessions end

    Expired, corrupted and incompatible sessions are discarded, and a login starts a new
    session under a new identifier. *)

From S2P Require Import Prelude Cstr Apr StrUtil Http Form Url Cookie Jansson Json Base64 Jose Jwt.
From S2P Require Import ShmCache ShmInit Cache Util World Session SessionAttr SessionProps SessionCookie.

#[local] Open Scope world_scope.

Section session_end.
Context {J : Jansson} {O : Jose} {B64 : Base64} {H : Httpd}.
Context {St : Type} {B : CacheBackend St} {BS : CacheBackendSpec B}.
Variables (ext : nat -> env) (c : session_cfg).
Implicit Types (z : oidc_session_t) (w : world St).

(** What became of the entry of [id] in the cache, which was removed just before [w']: no lookup gives it any more, or the backend could not
    remove it. *)
Definition removal (ok : bool) (id : option string) (w' : world St) : Prop :=
  if ok then entry_gone (s_cache c) (w_req w') OIDC_CACHE_SECTION_SESSION id (w_cache w')
  else removal_refused (ext (pred (w_calls w'))) (s_cache c) (w_req w') OIDC_CACHE_SECTION_SESSION id (w_cache w').

Lemma remove_run id w : impl_valid (w_cache w) -> exists ok w',
  oidc_cache_set_session ext c id None 0 w = Some (ok, w') /\ w_req w' = w_req w /\ w_calls w' = S (w_calls w) /\
  forall r', oidc_cache_section_get r' OIDC_CACHE_SECTION_SESSION = oidc_cache_section_get (w_req w) OIDC_CACHE_SECTION_SESSION ->
    removal ok id (mk_world r' (w_cache w') (w_calls w')).
Proof.
  intros Hv. unfold oidc_cache_set_session, cache_set.
  destruct (oidc_cache_set (ext (w_calls w)) (s_cache c) (w_req w) OIDC_CACHE_SECTION_SESSION id None 0 (w_cache w))
    as [ok st] eqn:Hset.
  exists ok. eexists. do 3 (split; [done|]). intros r' Hr. exact (removal_ends _ _ _ r' _ _ _ _ _ Hr Hv Hset).
Qed.

(** The cookies of the browser do not carry a session. *)
Definition cookies_gone (j : jar) : Prop := forall r2, oidc_http_hdr_in_cookie_get r2 = cookie_header j ->
  oidc_http_get_chunked_cookie r2 (dir_cookie c) (session_cookie_chunk_size c) = None.

Lemma get_sid_run k w : impl_valid (w_cache w) -> exists ok v w',
  oidc_cache_get_sid ext c k w = Some ((ok, v), w') /\ w_req w' = w_req w /\ impl_valid (w_cache w').
Proof.
  intros Hv. unfold oidc_cache_get_sid, cache_get.
  pose proof (cache_get_valid (ext (w_calls w)) (s_cache c) (w_req w) OIDC_CACHE_SECTION_SID k (w_cache w) Hv) as Hv'.
  destruct (oidc_cache_get _ _ _ _ _ _) as [[ok v] st]. by do 3 eexists.
Qed.

Lemma set_sid_run k v ex w : impl_valid (w_cache w) -> exists ok w',
  oidc_cache_set_sid ext c k v ex w = Some (ok, w') /\ w_req w' = w_req w /\ impl_valid (w_cache w').
Proof.
  intros Hv. unfold oidc_cache_set_sid, cache_set.
  pose proof (cache_set_valid (ext (w_calls w)) (s_cache c) (w_req w) OIDC_CACHE_SECTION_SID k v ex (w_cache w) Hv) as Hv'.
  destruct (oidc_cache_set _ _ _ _ _ _ _ _) as [ok st]. by do 2 eexists.
Qed.

(** What is known of the request whose session ends: the cookies of the browser. *)
Record from_browser (r : request) (j : jar) : Prop := {
  fb_name : str_forall name_char (dir_cookie c) = true;
  fb_some : dir_cookie c <> "";
  fb_jar : jar_ok j;
  fb_header : oidc_http_hdr_in_cookie_get r = cookie_header j;
  fb_count : 0 <= oidc_http_get_chunked_count r (dir_cookie c)
}.

(** The cookie of the cache is removed, and then its entry. *)
Lemma drop_entry_run z ft w j : from_browser (w_req w) j -> impl_valid (w_cache w) -> state z = None ->
  exists ok w', oidc_session_save_cache ext c z ft w = Some ((ok, z), w') /\ emits (w_req w) (w_req w') [(dir_cookie c, "")] /\
    same_but_out (w_req w) (w_req w') /\
    forall r', same_but_out (w_req w) r' -> removal ok (uuid z) (mk_world r' (w_cache w') (w_calls w')).
Proof.
  intros Hb Hv Hs. unfold oidc_session_save_cache. rewrite Hs.
  assert (R1 : exists ok w1, match sid z with Some i => oidc_cache_set_sid ext c (Some i) None 0 | None => ret true end w
    = Some (ok, w1) /\ w_req w1 = w_req w /\ impl_valid (w_cache w1)).
  { destruct (sid z); [by apply set_sid_run|]. by exists true, w. }
  destruct R1 as (ok1 & w1 & R1 & Q1 & V1). run R1.
  assert (R2 : exists ok w2, match sub z with
      | Some i => '(_, sub_uuid) <- oidc_cache_get_sid ext c (Some i) ;;
          if negb (nonnull sub_uuid) || (_oidc_strcmp sub_uuid (uuid z) =? 0)
          then oidc_cache_set_sid ext c (Some i) None 0 else ret true
      | None => ret true end w1 = Some (ok, w2) /\ w_req w2 = w_req w1 /\ impl_valid (w_cache w2)).
  { destruct (sub z) as [i|]; [|by exists true, w1].
    destruct (get_sid_run (Some i) w1 V1) as (ok & v & w2 & R & Q & V). run R.
    destruct (_ || _); [|by exists true, w2].
    destruct (set_sid_run (Some i) None 0 w2 V) as (ok' & w3 & -> & Q' & V'). exists ok', w3. by rewrite Q'. }
  destruct R2 as (ok2 & w2 & R2 & Q2 & V2). run R2.
  destruct (samesite_none_run (s_cookie c) w2) as (a & Ha). run Ha.
  destruct (set_cookie_run (s_cookie c) (dir_cookie c) "" 0 a w2 (fb_name _ _ Hb) eq_refl) as (r & R3 & Em). run R3.
  assert (Hk : same_but_out (w_req w) r).
  { unfold set_cookie in R3. destruct (oidc_http_set_cookie _ _ _ _ _ _) as [r1|] eqn:Hck; [|done].
    injection R3 as ->. rewrite <-Q1, <-Q2. by eapply http_set_cookie_keeps. }
  destruct (remove_run (uuid z) (mk_world r (w_cache w2) (w_calls w2)) V2) as (ok & w' & R4 & Q4 & _ & Hr). run R4. cbn [w_req] in *.
  exists ok, w'. split; [reflexivity|]. rewrite Q4. rewrite Q2, Q1 in Em. split; [exact Em|]. split; [exact Hk|].
  intros r' Hr'. apply Hr. unfold same_but_out in Hk, Hr'. rewrite Hk, Hr'. by destruct (w_req w).
Qed.

(** The cookie that holds the session is removed, with its chunks. *)
Lemma drop_cookie_run z ft w j j' : from_browser (w_req w) j -> jar_ok j' ->
  alist_get (oidc_http_get_chunk_count_name (dir_cookie c)) j' = alist_get (oidc_http_get_chunk_count_name (dir_cookie c)) j -> state z = None ->
  exists r' l, oidc_session_save_cookie c z ft w = Some (true, mk_world r' (w_cache w) (w_calls w)) /\ emits (w_req w) r' l /\
    same_but_out (w_req w) r' /\ alist_get (dir_cookie c) (fold_left store_pair l j') = None /\ cookies_gone (fold_left store_pair l j').
Proof.
  intros [Hn Hne Hj Hh Hc] Hj' Hjj Hs. unfold oidc_session_save_cookie. run (eq_refl : get_req w = Some (w_req w, w)). rewrite Hs.
  destruct (samesite_none_run (s_cookie c) w) as (a & Ha).
  destruct (empty_gone (s_cookie c) (w_req w) j j' (dir_cookie c) (session_cookie_chunk_size c) (cookie_expiry c z) a) as (r' & l & R & Em & Hk & Hnone & Hg);
    try done.
  exists r', ((dir_cookie c, "") :: l). split; [|done]. destruct (oidc_session_encode c (w_req w) z true); run Ha; by rewrite R.
Qed.

(** How a session ended: [j] is what the browser holds afterwards. *)
Definition ended (id : option string) (w' : world St) (j : jar) : Prop :=
  alist_get (dir_cookie c) j = None /\
  (session_type c = OIDC_SESSION_TYPE_SERVER_CACHE -> exists ok, removal ok id w' /\
     (ok = false -> session_cache_fallback_to_cookie c = true -> cookies_gone j)) /\
  (session_type c = OIDC_SESSION_TYPE_CLIENT_COOKIE -> cookies_gone j).

(** Saving a session without a state removes it. *)
Lemma save_empty_run z ft w j :
  In (session_type c) [OIDC_SESSION_TYPE_SERVER_CACHE; OIDC_SESSION_TYPE_CLIENT_COOKIE] -> from_browser (w_req w) j ->
  impl_valid (w_cache w) -> state z = None ->
  exists rc w' l, oidc_session_save ext c z ft w = Some ((rc, z), w') /\ emits (w_req w) (w_req w') l /\ same_but_out (w_req w) (w_req w') /\
    ended (uuid z) w' (fold_left store_pair l j).
Proof.
  intros Ht Hb Hv Hs. unfold oidc_session_save, ended. rewrite Hs. destruct Ht as [Ht|[Ht|[]]]; rewrite <- Ht.
  - change (OIDC_SESSION_TYPE_SERVER_CACHE =? OIDC_SESSION_TYPE_SERVER_CACHE) with true.
    change (OIDC_SESSION_TYPE_SERVER_CACHE =? OIDC_SESSION_TYPE_CLIENT_COOKIE) with false. cbn [orb].
    destruct (drop_entry_run z ft w j Hb Hv Hs) as (ok & w1 & R & Em & Hk & Hr). unfold bind at 1. rewrite R.
    assert (Hnone : alist_get (dir_cookie c) (store_pair j (dir_cookie c, "")) = None)
      by (rewrite store_get; cbn [fst snd]; by rewrite String.eqb_refl).
    destruct (negb ok && session_cache_fallback_to_cookie c) eqn:Ef.
    + destruct (drop_cookie_run z ft w1 j (store_pair j (dir_cookie c, ""))) as (r' & l & R' & Em' & Hk' & Hn' & Hg); [| | |done|].
      { destruct Hb as [Hn Hne Hj Hh Hc]. assert (Hh' : headers_in (w_req w1) = headers_in (w_req w)) by exact (em_in _ _ _ Em).
        split; try done; unfold oidc_http_get_chunked_count, oidc_http_get_cookie, oidc_http_hdr_in_cookie_get, oidc_http_hdr_in_get in *; by rewrite Hh'. }
      { apply store_ok; [apply Hb|]. destruct Hb as [Hn Hne _ _ _]. by split. }
      { rewrite store_get. cbn [fst]. destruct (String.eqb_spec (dir_cookie c) (oidc_http_get_chunk_count_name (dir_cookie c))) as [E|]; [|done].
        by destruct (count_name_not_plain (dir_cookie c)). }
      unfold bind. rewrite R'. exists true, (mk_world r' (w_cache w1) (w_calls w1)), ((dir_cookie c, "") :: l). split; [reflexivity|].
      split; [exact (emits_app _ _ _ _ _ Em Em')|]. assert (Hk2 : same_but_out (w_req w) r') by by eapply same_but_out_trans.
      split; [exact Hk2|]. split; [exact Hn'|]. split; [|done]. intros _. exists ok. split; [by apply Hr|]. done.
    + exists ok, w1, [(dir_cookie c, "")]. split; [reflexivity|]. split; [exact Em|]. split; [exact Hk|]. split; [exact Hnone|]. split; [|done].
      intros _. exists ok. split; [specialize (Hr _ Hk); by destruct w1|]. intros -> Hf. by rewrite Hf in Ef.
  - change (OIDC_SESSION_TYPE_CLIENT_COOKIE =? OIDC_SESSION_TYPE_SERVER_CACHE) with false.
    change (OIDC_SESSION_TYPE_CLIENT_COOKIE =? OIDC_SESSION_TYPE_CLIENT_COOKIE) with true. cbn [orb].
    run (eq_refl : ret (St:=St) (false, z) w = Some ((false, z), w)).
    destruct (drop_cookie_run z ft w j j Hb (fb_jar _ _ Hb) eq_refl Hs) as (r' & l & R & Em & Hk & Hn' & Hg). unfold bind. rewrite R.
    exists true, (mk_world r' (w_cache w) (w_calls w)), l. split; [reflexivity|]. by repeat (split; [done|]).
Qed.

(** Killing a session. *)
Lemma kill_run z w j :
  In (session_type c) [OIDC_SESSION_TYPE_SERVER_CACHE; OIDC_SESSION_TYPE_CLIENT_COOKIE] -> from_browser (w_req w) j ->
  impl_valid (w_cache w) -> set_cookies (w_req w) = [] ->
  exists w', oidc_session_kill ext c z w = Some ((true, oidc_session_clear z), w') /\ r_user (w_req w') = None /\
    ended (uuid z) w' (fold_left browser_store (set_cookies (w_req w')) j).
Proof.
  intros Ht Hb Hv Hsc. unfold oidc_session_kill. run (eq_refl : get_req w = Some (w_req w, w)).
  set (w1 := mk_world (with_user None (w_req w)) (w_cache w) (w_calls w)).
  run (eq_refl : put_req (with_user None (w_req w)) w = Some (tt, w1)).
  destruct (save_empty_run (set_state None z) OIDC_SESSION_SAVE_UPDATE w1 j Ht) as (rc & w' & l & R & Em & Hk & He);
    [by destruct Hb|done|done|].
  run R. exists w'. split; [reflexivity|]. split; [by rewrite Hk|]. by rewrite (emits_jar (w_req w1) (w_req w') l j).
Qed.
End session_end.

(** ** Properties *)

(** A restored session that must not be used. *)
Definition unusable {J : Jansson} (z : oidc_session_t) (t : Z) : Prop :=
  oidc_session_get_key2timestamp z OIDC_SESSION_EXPIRY_KEY < t \/
  (nonnull (oidc_session_json_get z OIDC_SESSION_KEY_IDTOKEN_CLAIMS) = true /\
   oidc_json_is_object (oidc_session_json_get z OIDC_SESSION_KEY_IDTOKEN_CLAIMS) = false).


(** A session in a single cookie, and one in two chunks. *)
Definition demo_in_cookie : jar := [("sess", "0a1b")].
Definition demo_in_chunks : jar := [("sess_0", "ab"); ("sess_1", "cd"); ("sess_chunks", "2")].
Definition demo_ending (j : jar) : world header := mk_world (with_headers_in [("Cookie", default "" (cookie_header j))] demo_request) demo_store 0.


(** With the fallback to cookies, an entry that the cache did remove leaves the chunks of a session in the browser, which still carry it. *)
Example removed_entry_keeps_chunks :
  let c := mk_session_cfg OIDC_SESSION_TYPE_SERVER_CACHE "sess" OIDC_SAMESITE_COOKIE_LAX false true 4000 None None demo_cookie_cfg
             (mk_cache_cfg false demo_passphrase) (mk_trace_cfg 0 None false) in
  (fun x => alist_get "sess_chunks" (fold_left browser_store (set_cookies (w_req x.2)) demo_in_chunks)) <$>
    oidc_session_kill (J:=Model.jansson) (O:=JoseModel.jose) (B64:=Base64Model.base64) (H:=HttpdModel.httpd) (B:=shm_backend 65536)
      (demo_ext 1000000) c demo_session (demo_ending demo_in_chunks) = Some (Some "2").
Proof. vm_compute. reflexivity. Qed.

(** An entry of the cache that does not carry the identifier it was
    looked up by is not taken for the session: the lookup fails, leaves no state behind
    and removes the entry. *)
Theorem session_corruption_detected {J : Jansson} {O : Jose} {B64 : Base64}
  {St : Type} {B : CacheBackend St} {BS : CacheBackendSpec B} (ext : nat -> env) (c : session_cfg)
  (z : oidc_session_t) (w : world St) (u s : string) (j : json_t) :
  impl_valid (w_cache w) ->
  (oidc_cache_get (ext (w_calls w)) (s_cache c) (w_req w) OIDC_CACHE_SECTION_SESSION (Some u) (w_cache w)).1
    = (true, Some s) ->
  oidc_json_decode_object (Some s) = Some j ->
  (oidc_json_object_get_int (Some j) OIDC_SESSION_FORMAT_VERSION_KEY 1).2 <= OIDC_SESSION_FORMAT_VERSION ->
  oidc_json_object_get_string (Some j) OIDC_SESSION_SESSION_ID None <> Some u ->
  exists z' w', oidc_session_load_cache_by_uuid ext c u z w = Some ((false, z'), w') /\
    state z' = None /\ remote_user z' = None /\ exists ok, removal ext c ok (Some u) w'.
Proof.
  intros Hv Hg Hd Hver Hid. unfold oidc_session_load_cache_by_uuid.
  unfold bind at 1, oidc_cache_get_session, cache_get.
  pose proof (cache_get_valid (ext (w_calls w)) (s_cache c) (w_req w) OIDC_CACHE_SECTION_SESSION (Some u) (w_cache w) Hv)
    as Hv'.
  destruct (oidc_cache_get _ _ _ _ _ _) as [[ok v] st]. cbn [fst snd] in Hg, Hv'. injection Hg as -> ->.
  set (w1 := mk_world (w_req w) st (S (w_calls w))).
  run (eq_refl : get_req w1 = Some (w_req w, w1)).
  unfold oidc_session_decode. cbn [negb]. rewrite Hd. unfold oidc_session_version_supported. cbn [state set_state].
  destruct (Z.ltb_spec OIDC_SESSION_FORMAT_VERSION
    (oidc_json_object_get_int (Some j) OIDC_SESSION_FORMAT_VERSION_KEY 1).2); [lia|]. cbn [negb].
  assert (negb (nonnull (oidc_json_object_get_string (Some j) OIDC_SESSION_SESSION_ID None)) ||
    negb (_oidc_strcmp (oidc_json_object_get_string (Some j) OIDC_SESSION_SESSION_ID None) (Some u) =? 0) = true) as Hb.
  { destruct (oidc_json_object_get_string _ _ _) as [i|]; [|done]. cbn [nonnull negb orb _oidc_strcmp].
    rewrite strcmp_eqb. destruct (String.eqb_spec i u); [congruence|done]. }
  unfold oidc_session_get. cbn [state set_uuid set_state]. rewrite Hb.
  destruct (remove_run ext c (Some u) w1 Hv') as (ok & w' & R & Q & _ & Er).
  change (uuid (set_uuid (Some u) (set_state (Some j) z))) with (Some u). run R. eexists _, w'. do 3 (split; [reflexivity|]). exists ok.
  specialize (Er (w_req w') ltac:(by rewrite Q)). by destruct w'.
Qed.

(** The saved session of the demonstration under another identifier. *)
Definition demo_moved : header :=
  snd (oidc_cache_set (J:=JoseModel.jose) (B64:=Base64Model.base64) (B:=shm_backend 65536) (mk_env 0 true true)
    (mk_cache_cfg false demo_passphrase) demo_request OIDC_CACHE_SECTION_SESSION (Some "ffff")
    (oidc_json_encode (J:=Model.jansson) (state (stamped demo_session)) OIDC_JSON_COMPACT) 5999999 demo_store).

Lemma demo_moved_valid : impl_valid (B:=shm_backend 65536) demo_moved.
Proof. apply (cache_set_valid (B:=shm_backend 65536)), demo_store_valid. Defined.

Lemma session_corruption_detected_witness :
  exists z' w', oidc_session_load_cache_by_uuid (J:=Model.jansson) (O:=JoseModel.jose) (B64:=Base64Model.base64)
      (B:=shm_backend 65536) (demo_ext 2000000) (demo_session_cfg 0) "ffff" (mk_session None None None 0 None None)
      (mk_world demo_request demo_moved 0) = Some ((false, z'), w') /\ state z' = None.
Proof.
  destruct (session_corruption_detected (J:=Model.jansson) (O:=JoseModel.jose) (B64:=Base64Model.base64)
    (B:=shm_backend 65536) (demo_ext 2000000) (demo_session_cfg 0) (mk_session None None None 0 None None)
    (mk_world demo_request demo_moved 0) "ffff"
    (default EmptyString (oidc_json_encode (J:=Model.jansson) (state (stamped demo_session)) OIDC_JSON_COMPACT))
    (default Model.JNull (state (stamped demo_session)))) as (z' & w' & R & S & _).
  - exact demo_moved_valid.
  - vm_compute. reflexivity.
  - vm_compute. reflexivity.
  - vm_compute. discriminate.
  - vm_compute. discriminate.
  - exists z', w'. split; [exact R|exact S].
Defined.

Lemma trace_parent_keeps rand t r span : err_headers_out (oidc_util_set_trace_parent rand t r span) = err_headers_out r.
Proof. unfold oidc_util_set_trace_parent. repeat case_match; simplify_eq; done. Qed.

(** A session that a newer version of the module wrote to a shared cache
    is not interpreted: the load reports no session and leaves both the entry and the
    cookies of the browser to the newer version. *)
Theorem session_newer_version_rejected {J : Jansson} {O : Jose} {B64 : Base64} {H : Httpd}
  {St : Type} {B : CacheBackend St} (ext : nat -> env) (rand : nat -> rng) (c : session_cfg)
  (w : world St) (u s : string) (j : json_t) :
  session_type c = OIDC_SESSION_TYPE_SERVER_CACHE -> session_cache_fallback_to_cookie c = false ->
  oidc_http_get_cookie (w_req w) (dir_cookie c) = Some u ->
  (oidc_cache_get (ext (S (w_calls w))) (s_cache c) (w_req w) OIDC_CACHE_SECTION_SESSION (Some u) (w_cache w)).1
    = (true, Some s) ->
  oidc_json_decode_object (Some s) = Some j ->
  OIDC_SESSION_FORMAT_VERSION < (oidc_json_object_get_int (Some j) OIDC_SESSION_FORMAT_VERSION_KEY 1).2 ->
  exists z' w', oidc_session_load ext rand c w = Some ((false, z'), w') /\
    state z' = None /\ remote_user z' = None /\ set_cookies (w_req w') = set_cookies (w_req w) /\
    w_cache w' = (oidc_cache_get (ext (S (w_calls w))) (s_cache c) (w_req w) OIDC_CACHE_SECTION_SESSION (Some u)
                    (w_cache w)).2.
Proof.
  intros Ht Hf Hck Hg Hd Hver. unfold oidc_session_load. run (id_new_run rand w). rewrite Ht, Hf.
  change (OIDC_SESSION_TYPE_SERVER_CACHE =? OIDC_SESSION_TYPE_SERVER_CACHE) with true.
  change (OIDC_SESSION_TYPE_SERVER_CACHE =? OIDC_SESSION_TYPE_CLIENT_COOKIE) with false. cbn [orb].
  destruct (oidc_cache_get (ext (S (w_calls w))) (s_cache c) (w_req w) OIDC_CACHE_SECTION_SESSION (Some u) (w_cache w))
    as [[ok v] st] eqn:Hget. cbn [fst snd] in *. injection Hg as -> ->.
  set (w1 := mk_world (w_req w) st (S (S (w_calls w)))).
  assert (R1 : oidc_cache_get_session ext c (Some u) (tick w) = Some ((true, Some s), w1)).
  { unfold oidc_cache_get_session, cache_get, tick. cbn [w_calls w_req w_cache]. by rewrite Hget. }
  assert (R2 : oidc_session_load_cache_by_uuid ext c u (fresh rand w) (tick w)
    = Some ((false, set_state None (set_state (Some j) (fresh rand w))), w1)).
  { unfold oidc_session_load_cache_by_uuid. run R1. run (eq_refl : get_req w1 = Some (w_req w, w1)).
    unfold oidc_session_decode. cbn [negb]. rewrite Hd. unfold oidc_session_version_supported.
    cbn [state set_state]. by rewrite (proj2 (Z.ltb_lt _ _) Hver). }
  assert (R3 : oidc_session_load_cache ext c (fresh rand w) (tick w)
    = Some ((false, set_state None (set_state (Some j) (fresh rand w))), w1)).
  { unfold oidc_session_load_cache. run (eq_refl : get_req (tick w) = Some (w_req w, tick w)). rewrite Hck.
    by run R2. }
  run R3. run (eq_refl : get_req w1 = Some (w_req w, w1)). cbn [negb andb].
  set (z1 := set_state None _). run (eq_refl : ret (false, z1) w1 = Some ((false, z1), w1)).
  eexists z1, _. do 3 (split; [reflexivity|]). split; [|reflexivity].
  unfold set_cookies. cbn [w_req]. by rewrite trace_parent_keeps.
Qed.

Definition demo_newer_json : Model.jv := Model.JObj [("v", Model.JInt 2); ("i", Model.JStr "0a1b")].
Definition demo_newer : header :=
  snd (oidc_cache_set (J:=JoseModel.jose) (B64:=Base64Model.base64) (B:=shm_backend 65536) (mk_env 0 true true)
    (mk_cache_cfg false demo_passphrase) demo_request OIDC_CACHE_SECTION_SESSION (Some "0a1b")
    (oidc_json_encode (J:=Model.jansson) (Some demo_newer_json) OIDC_JSON_COMPACT) 5999999 demo_store).

Lemma session_newer_version_rejected_witness :
  exists z' w', demo_load 2000000 (demo_session_cfg 0) (demo_world2 "0a1b" demo_newer) = Some ((false, z'), w') /\
    state z' = None.
Proof.
  destruct (session_newer_version_rejected (J:=Model.jansson) (O:=JoseModel.jose) (B64:=Base64Model.base64)
    (H:=HttpdModel.httpd) (B:=shm_backend 65536) (demo_ext 2000000) demo_rand (demo_session_cfg 0)
    (demo_world2 "0a1b" demo_newer) "0a1b"
    (default EmptyString (oidc_json_encode (J:=Model.jansson) (Some demo_newer_json) OIDC_JSON_COMPACT))
    demo_newer_json) as (z' & w' & R & S & _).
  - reflexivity.
  - reflexivity.
  - vm_compute. reflexivity.
  - vm_compute. reflexivity.
  - vm_compute. reflexivity.
  - vm_compute. reflexivity.
  - exists z', w'. split; [exact R|exact S].
Defined.

(** A login starts from an empty session with a new random identifier,
    whatever session the browser presented, and in the server cache the presented
    identifier no longer leads to a session. *)
Theorem session_reset_fresh {J : Jansson} {O : Jose} {B64 : Base64}
  {St : Type} {B : CacheBackend St} {BS : CacheBackendSpec B} (ext : nat -> env) (rand : nat -> rng) (c : session_cfg)
  (z : oidc_session_t) (w : world St) :
  impl_valid (w_cache w) ->
  exists i w', oidc_session_reset ext rand c z w =
      Some (mk_session (oidc_util_rand_hex_str (rand i) OIDC_SESSION_ID_LEN) None None 0 None None, w') /\
    (w_calls w <= i)%nat /\ w_req w' = w_req w /\
    (session_type c = OIDC_SESSION_TYPE_SERVER_CACHE -> uuid z <> None ->
     exists w1 ok, removal ext c ok (uuid z) w1 /\ w_cache w' = w_cache w1 /\ w_req w1 = w_req w).
Proof.
  intros Hv. unfold oidc_session_reset.
  destruct ((session_type c =? OIDC_SESSION_TYPE_SERVER_CACHE) && nonnull (uuid z)) eqn:Hb.
  - destruct (remove_run ext c (uuid z) w Hv) as (ok & w1 & R & Q & Hc & Er). run R.
    exists (w_calls w1), (mk_world (w_req w1) (w_cache w1) (S (w_calls w1))). split; [reflexivity|].
    split; [lia|]. split; [exact Q|]. intros _ _. exists w1, ok. split; [|done]. specialize (Er (w_req w1) ltac:(by rewrite Q)). by destruct w1.
  - run (eq_refl : ret true w = Some (true, w)).
    exists (w_calls w), (mk_world (w_req w) (w_cache w) (S (w_calls w))). split; [reflexivity|].
    split; [lia|]. split; [reflexivity|]. intros Ht Hu. rewrite Ht in Hb. by destruct (uuid z).
Qed.

Lemma session_reset_fresh_witness :
  exists i w', oidc_session_reset (J:=Model.jansson) (O:=JoseModel.jose) (B64:=Base64Model.base64)
      (B:=shm_backend 65536) (demo_ext 1000000) demo_rand (demo_session_cfg 0) demo_session demo_world =
      Some (mk_session (oidc_util_rand_hex_str (demo_rand i) OIDC_SESSION_ID_LEN) None None 0 None None, w').
Proof.
  destruct (session_reset_fresh (J:=Model.jansson) (O:=JoseModel.jose) (B64:=Base64Model.base64)
    (B:=shm_backend 65536) (demo_ext 1000000) demo_rand (demo_session_cfg 0) demo_session demo_world)
    as (i & w' & R & _).
  - exact demo_store_valid.
  - exists i, w'. exact R.
Defined.
