(* ===== verification/ProtoState.v ===== *)
(** * src/proto/state.c: the state of an authentication request

    What the module has to remember between the authentication request and the response
    is a JSON object, stored encrypted in a cookie of the browser. *)

From S2P Require Import Prelude Cstr Apr Jansson Json Base64 Jose Jwt Util.

Definition OIDC_PROTO_STATE_ISSUER : string := "i".
Definition OIDC_PROTO_STATE_ORIGINAL_URL : string := "ou".
Definition OIDC_PROTO_STATE_ORIGINAL_METHOD : string := "om".
Definition OIDC_PROTO_STATE_RESPONSE_MODE : string := "rm".
Definition OIDC_PROTO_STATE_RESPONSE_TYPE : string := "rt".
Definition OIDC_PROTO_STATE_NONCE : string := "n".
Definition OIDC_PROTO_STATE_TIMESTAMP : string := "t".
Definition OIDC_PROTO_STATE_PROMPT : string := "pr".
Definition OIDC_PROTO_STATE_PKCE_STATE : string := "ps".
Definition OIDC_PROTO_STATE_STATE : string := "s".
Definition OIDC_PROTO_STATE_AUTH_REQUEST_PARAMS : string := "arp".
Definition OIDC_PROTO_STATE_PATH_SCOPE : string := "psc".

Section proto_state.
Context {J : Jansson} {O : Jose}.

Definition oidc_proto_state_t : Type := json_t.

Definition oidc_proto_state_get_string_value (proto_state : oidc_proto_state_t) (name : string) : option string :=
  oidc_json_string_value (oidc_json_object_get (Some proto_state) name).

Definition oidc_proto_state_set_string_value (proto_state : oidc_proto_state_t) (name : string)
  (value : option string) : oidc_proto_state_t :=
  oidc_json_object_set_new proto_state name (oidc_json_string value).

Definition oidc_proto_state_new : oidc_proto_state_t := oidc_json_object.

(** The copy that is redacted is a value of its own. *)
Definition oidc_proto_state_to_string (proto_state : oidc_proto_state_t) : option string :=
  let redact name copy :=
    if nonnull (oidc_json_object_get (Some copy) name)
    then oidc_proto_state_set_string_value copy name (Some "***") else copy in
  oidc_json_encode (Some (redact OIDC_PROTO_STATE_PKCE_STATE (redact OIDC_PROTO_STATE_NONCE proto_state)))
    OIDC_JSON_COMPACT.

Definition oidc_proto_state_get_issuer (proto_state : oidc_proto_state_t) :=
  oidc_proto_state_get_string_value proto_state OIDC_PROTO_STATE_ISSUER.
Definition oidc_proto_state_get_nonce (proto_state : oidc_proto_state_t) :=
  oidc_proto_state_get_string_value proto_state OIDC_PROTO_STATE_NONCE.
Definition oidc_proto_state_get_prompt (proto_state : oidc_proto_state_t) :=
  oidc_proto_state_get_string_value proto_state OIDC_PROTO_STATE_PROMPT.
Definition oidc_proto_state_get_response_type (proto_state : oidc_proto_state_t) :=
  oidc_proto_state_get_string_value proto_state OIDC_PROTO_STATE_RESPONSE_TYPE.
Definition oidc_proto_state_get_response_mode (proto_state : oidc_proto_state_t) :=
  oidc_proto_state_get_string_value proto_state OIDC_PROTO_STATE_RESPONSE_MODE.
Definition oidc_proto_state_get_original_url (proto_state : oidc_proto_state_t) :=
  oidc_proto_state_get_string_value proto_state OIDC_PROTO_STATE_ORIGINAL_URL.
Definition oidc_proto_state_get_original_method (proto_state : oidc_proto_state_t) :=
  oidc_proto_state_get_string_value proto_state OIDC_PROTO_STATE_ORIGINAL_METHOD.
Definition oidc_proto_state_get_state (proto_state : oidc_proto_state_t) :=
  oidc_proto_state_get_string_value proto_state OIDC_PROTO_STATE_STATE.
Definition oidc_proto_state_get_pkce_state (proto_state : oidc_proto_state_t) :=
  oidc_proto_state_get_string_value proto_state OIDC_PROTO_STATE_PKCE_STATE.
Definition oidc_proto_state_get_auth_request_params (proto_state : oidc_proto_state_t) :=
  oidc_proto_state_get_string_value proto_state OIDC_PROTO_STATE_AUTH_REQUEST_PARAMS.
Definition oidc_proto_state_get_path_scope (proto_state : oidc_proto_state_t) :=
  oidc_proto_state_get_string_value proto_state OIDC_PROTO_STATE_PATH_SCOPE.

Definition oidc_proto_state_set_state (proto_state : oidc_proto_state_t) (state : option string) :=
  oidc_proto_state_set_string_value proto_state OIDC_PROTO_STATE_STATE state.
Definition oidc_proto_state_set_issuer (proto_state : oidc_proto_state_t) (issuer : option string) :=
  oidc_proto_state_set_string_value proto_state OIDC_PROTO_STATE_ISSUER issuer.
Definition oidc_proto_state_set_original_url (proto_state : oidc_proto_state_t) (original_url : option string) :=
  oidc_proto_state_set_string_value proto_state OIDC_PROTO_STATE_ORIGINAL_URL original_url.
Definition oidc_proto_state_set_original_method (proto_state : oidc_proto_state_t) (original_method : option string) :=
  oidc_proto_state_set_string_value proto_state OIDC_PROTO_STATE_ORIGINAL_METHOD original_method.
Definition oidc_proto_state_set_response_mode (proto_state : oidc_proto_state_t) (response_mode : option string) :=
  oidc_proto_state_set_string_value proto_state OIDC_PROTO_STATE_RESPONSE_MODE response_mode.
Definition oidc_proto_state_set_response_type (proto_state : oidc_proto_state_t) (response_type : option string) :=
  oidc_proto_state_set_string_value proto_state OIDC_PROTO_STATE_RESPONSE_TYPE response_type.
Definition oidc_proto_state_set_nonce (proto_state : oidc_proto_state_t) (nonce : option string) :=
  oidc_proto_state_set_string_value proto_state OIDC_PROTO_STATE_NONCE nonce.
Definition oidc_proto_state_set_prompt (proto_state : oidc_proto_state_t) (prompt : option string) :=
  oidc_proto_state_set_string_value proto_state OIDC_PROTO_STATE_PROMPT prompt.
Definition oidc_proto_state_set_pkce_state (proto_state : oidc_proto_state_t) (pkce_state : option string) :=
  oidc_proto_state_set_string_value proto_state OIDC_PROTO_STATE_PKCE_STATE pkce_state.
Definition oidc_proto_state_set_auth_request_params (proto_state : oidc_proto_state_t) (auth_request_params : option string) :=
  oidc_proto_state_set_string_value proto_state OIDC_PROTO_STATE_AUTH_REQUEST_PARAMS auth_request_params.
Definition oidc_proto_state_set_path_scope (proto_state : oidc_proto_state_t) (path_scope : option string) :=
  oidc_proto_state_set_string_value proto_state OIDC_PROTO_STATE_PATH_SCOPE path_scope.

Definition oidc_proto_state_get_timestamp (proto_state : oidc_proto_state_t) : Z :=
  match oidc_json_object_get (Some proto_state) OIDC_PROTO_STATE_TIMESTAMP with
  | Some v => apr_time_from_sec (oidc_json_integer_value (Some v))
  | None => -1
  end.

(** [t] is [apr_time_now()]. *)
Definition oidc_proto_state_set_timestamp_now (t : Z) (proto_state : oidc_proto_state_t) : oidc_proto_state_t :=
  oidc_json_object_set_new proto_state OIDC_PROTO_STATE_TIMESTAMP (Some (oidc_json_integer (apr_time_sec t))).

(** A value that cannot be decrypted leaves the payload [NULL], which is not decoded. *)
Definition oidc_proto_state_from_cookie (r : request) (p : oidc_crypto_passphrase_t) (cookieValue : string)
  : option oidc_proto_state_t :=
  oidc_json_decode_object (oidc_util_jwt_verify r p cookieValue).

Definition oidc_proto_state_to_cookie (r : request) (p : oidc_crypto_passphrase_t)
  (proto_state : oidc_proto_state_t) : option string :=
  match oidc_json_encode (Some proto_state) OIDC_JSON_COMPACT with
  | Some s => oidc_util_jwt_create r p s
  | None => None
  end.

(** The string members, as pairs of a setter and a getter. *)
Definition proto_state_members : list ((oidc_proto_state_t -> option string -> oidc_proto_state_t) *
                                       (oidc_proto_state_t -> option string)) :=
  [(oidc_proto_state_set_state, oidc_proto_state_get_state);
   (oidc_proto_state_set_issuer, oidc_proto_state_get_issuer);
   (oidc_proto_state_set_original_url, oidc_proto_state_get_original_url);
   (oidc_proto_state_set_original_method, oidc_proto_state_get_original_method);
   (oidc_proto_state_set_response_mode, oidc_proto_state_get_response_mode);
   (oidc_proto_state_set_response_type, oidc_proto_state_get_response_type);
   (oidc_proto_state_set_nonce, oidc_proto_state_get_nonce);
   (oidc_proto_state_set_prompt, oidc_proto_state_get_prompt);
   (oidc_proto_state_set_pkce_state, oidc_proto_state_get_pkce_state);
   (oidc_proto_state_set_auth_request_params, oidc_proto_state_get_auth_request_params);
   (oidc_proto_state_set_path_scope, oidc_proto_state_get_path_scope)].
Definition proto_state_keys : list string :=
  [OIDC_PROTO_STATE_STATE;
   OIDC_PROTO_STATE_ISSUER;
   OIDC_PROTO_STATE_ORIGINAL_URL;
   OIDC_PROTO_STATE_ORIGINAL_METHOD;
   OIDC_PROTO_STATE_RESPONSE_MODE;
   OIDC_PROTO_STATE_RESPONSE_TYPE;
   OIDC_PROTO_STATE_NONCE;
   OIDC_PROTO_STATE_PROMPT;
   OIDC_PROTO_STATE_PKCE_STATE;
   OIDC_PROTO_STATE_AUTH_REQUEST_PARAMS;
   OIDC_PROTO_STATE_PATH_SCOPE].
End proto_state.

(** ** Lemmas *)

Section proto_state_lemmas.
Context {J : Jansson} {JS : JanssonSpec J} {O : Jose} {OS : JoseSpec O}.
Implicit Types (ps : oidc_proto_state_t).

Lemma proto_get_set_eq ps k s : is_object ps -> json_utf8 k = true -> json_utf8 s = true ->
  oidc_proto_state_get_string_value (oidc_proto_state_set_string_value ps k (Some s)) k = Some s.
Proof.
  intros Ho Hk Hs. destruct (string_utf8 s Hs) as [v Hv].
  unfold oidc_proto_state_get_string_value, oidc_proto_state_set_string_value, oidc_json_object_set_new.
  cbn [oidc_json_string]. rewrite Hv, object_get_set_eq by done. by apply string_value.
Qed.

Lemma proto_get_set_ne ps k k' (v : option string) : k <> k' ->
  oidc_proto_state_get_string_value (oidc_proto_state_set_string_value ps k v) k' =
  oidc_proto_state_get_string_value ps k'.
Proof.
  intros Hne. unfold oidc_proto_state_get_string_value, oidc_proto_state_set_string_value, oidc_json_object_set_new.
  by rewrite object_get_set_ne.
Qed.

(** A state that was written to a cookie is read back. *)
Lemma proto_state_cookie r r' p ps s : is_object ps ->
  (forall q, oidc_json_encode (Some ps) OIDC_JSON_COMPACT = Some q -> payload_ok r q) ->
  oidc_proto_state_to_cookie r p ps = Some s -> oidc_proto_state_from_cookie r' p s = Some ps.
Proof.
  intros Ho Hp Hc. unfold oidc_proto_state_to_cookie, oidc_proto_state_from_cookie in *.
  destruct (oidc_json_encode (Some ps) OIDC_JSON_COMPACT) as [q|] eqn:He; [|done].
  pose proof Hc as (k & key & cser & _ & Hk & _)%jwt_create_inv.
  rewrite (jwt_verify_create r r' p p q s k (Hp q eq_refl) Hc Hk) by by destruct (secret2 p).
  by eapply encode_decode.
Qed.

Lemma from_cookie_object r p s ps : oidc_proto_state_from_cookie r p s = Some ps -> is_object ps.
Proof. apply decode_object_is_object. Qed.

Lemma timestamp_set t ps : is_object ps -> 0 <= t <= INT64_MAX ->
  oidc_proto_state_get_timestamp (oidc_proto_state_set_timestamp_now t ps) = apr_time_from_sec (apr_time_sec t).
Proof.
  intros Ho Ht. unfold oidc_proto_state_get_timestamp, oidc_proto_state_set_timestamp_now, oidc_json_object_set_new.
  rewrite object_get_set_eq by (done || by apply utf8_ascii). cbn [oidc_json_integer_value]. f_equal.
  apply integer_value. unfold apr_time_sec, APR_USEC_PER_SEC, INT64_MIN. pose proof (Z.quot_pos t 1000000).
  assert (Z.quot t 1000000 <= t) by (rewrite Z.quot_div_nonneg by lia; apply Z.div_le_upper_bound; lia). lia.
Qed.
End proto_state_lemmas.
