(* ===== verification/State.v ===== *)
(** * src/state.c: state cookies

    Each outstanding authentication request has a cookie named after its state value,
    which is a hash of a nonce and of what identifies the browser.  Also here: writing
    the cookie (src/handle/request.c) and matching a response against it
    (src/handle/response.c). *)

From S2P Require Import Prelude Cstr Apr StrUtil Http Form Html Url Cookie Jansson Json Base64 Jose Jwt.
From S2P Require Import ShmCache Cache Util World Session SessionAttr ProtoState.

(** ** Definitions *)

Definition OIDC_STATE_INPUT_HEADERS_USER_AGENT : Z := 1.
Definition OIDC_STATE_INPUT_HEADERS_X_FORWARDED_FOR : Z := 2.
Definition HTTP_INTERNAL_SERVER_ERROR : Z := 500.
Definition HTTP_SERVICE_UNAVAILABLE : Z := 503.
Definition OK : Z := 0.

(** The settings that are read. *)
Record state_cfg := mk_state_cfg {
  state_cookie_prefix : string;
  state_input_headers : Z;
  state_timeout : Z;
  max_number_of_state_cookies : Z;
  delete_oldest_state_cookies : Z;
  same_site_state : oidc_samesite_cookie_t;
  default_sso_url : option string;
  st_passphrase : oidc_crypto_passphrase_t;
  st_cookie : cookie_cfg
}.

#[local] Open Scope world_scope.

Section state.
Context {J : Jansson} {X : Jose} {B64 : Base64} {H : Httpd} {Mem : CryptoMemcmp} {St : Type}.
Variables (ext : nat -> env) (c : state_cfg).

Definition oidc_state_cookie_name (state : string) : string := state_cookie_prefix c ^^ state.

(** [apr_pstrcat] stops at a [NULL] nonce. *)
Definition oidc_state_browser_fingerprint (r : request) (nonce : option string) : option string :=
  let input := "" in
  let input := if flag_set (state_input_headers c) OIDC_STATE_INPUT_HEADERS_X_FORWARDED_FOR
               then input ^^ default "" (oidc_http_hdr_in_x_forwarded_for_get r) else input in
  let input := if flag_set (state_input_headers c) OIDC_STATE_INPUT_HEADERS_USER_AGENT
               then input ^^ default "" (oidc_http_hdr_in_user_agent_get r) else input in
  let input := input ^^ default "" nonce in
  match oidc_jose_hash_bytes OIDC_JOSE_ALG_SHA256 input with
  | None => None
  | Some hash => (oidc_util_base64url_encode (Some hash) (zlen hash) OIDC_BASE64URL_PADDING_STRIP).2
  end.

(** The linked list of cookies that are still valid: name and timestamp. *)
Definition oidc_state_cookies_t : Type := list (string * Z).

Definition oidc_state_cookies_list_append (l : oidc_state_cookies_t) (name : string) (ts : Z)
  : oidc_state_cookies_t := l ++ [(name, ts)].

(** The search for the oldest element: the first one with the smallest timestamp, given
    as what precedes it, the element and what follows. *)
Fixpoint find_oldest (before : oidc_state_cookies_t) (oldest : string * Z) (between rest : oidc_state_cookies_t)
  : oidc_state_cookies_t * (string * Z) * oidc_state_cookies_t :=
  match rest with
  | [] => (before, oldest, between)
  | cur :: rest' =>
      if cur.2 <? oldest.2 then find_oldest (before ++ oldest :: between) cur [] rest'
      else find_oldest before oldest (between ++ [cur]) rest'
  end.

(** With fuel for one iteration per cookie above the maximum. *)
Fixpoint delete_oldest_loop (fuel : nat) (n : Z) (first : oidc_state_cookies_t) : M St Z :=
  match fuel with
  | O => fun _ => None
  | S fuel' =>
      if max_number_of_state_cookies c <=? n then
        match first with
        | [] => delete_oldest_loop fuel' (n - 1) []
        | e :: l =>
            let '(before, oldest, after) := find_oldest [] e [] l in
            attr <- OIDC_HTTP_COOKIE_SAMESITE_NONE (st_cookie c) ;;
            '_ <- set_cookie (st_cookie c) oldest.1 "" 0 attr ;;
            delete_oldest_loop fuel' (n - 1) (before ++ after)
        end
      else ret n
  end.

Definition oidc_state_cookies_delete_oldest (number_of_valid_state_cookies : Z) (first : oidc_state_cookies_t)
  : M St Z :=
  delete_oldest_loop (S (Z.to_nat (number_of_valid_state_cookies - max_number_of_state_cookies c + 1)))
    number_of_valid_state_cookies first.

Definition delete_cookie (name : string) : M St unit :=
  attr <- OIDC_HTTP_COOKIE_SAMESITE_NONE (st_cookie c) ;;
  set_cookie (st_cookie c) name "" 0 attr.

(** The count and the list. *)
Definition oidc_state_cookies_process_one (cookieName value : string) (currentCookieName : option string)
  (l : oidc_state_cookies_t) : M St (Z * oidc_state_cookies_t) :=
  if nonnull currentCookieName && (_oidc_strcmp (Some cookieName) currentCookieName =? 0) then ret (0, l)
  else
    r <- get_req ;;
    match oidc_proto_state_from_cookie r (st_passphrase c) value with
    | None => '_ <- delete_cookie cookieName ;; ret (0, l)
    | Some proto_state =>
        let ts := oidc_proto_state_get_timestamp proto_state in
        t <- apr_time_now ext ;;
        if ts + apr_time_from_sec (state_timeout c) <? t
        then '_ <- delete_cookie cookieName ;; ret (0, l)
        else ret (1, oidc_state_cookies_list_append l cookieName ts)
    end.

Definition oidc_state_cookies_parse_token (cookie : string) (currentCookieName : option string)
  (l : oidc_state_cookies_t) : M St (Z * oidc_state_cookies_t) :=
  let cookie := skip_blank cookie in
  if negb (bool_decide (_oidc_strstr (Some cookie) (Some (state_cookie_prefix c)) = Some O)) then ret (0, l)
  else
    let cookieName := str_before cookie "=" in
    match strchr cookie "=" with
    | None => ret (0, l)
    | Some value => oidc_state_cookies_process_one cookieName (str_drop 1 value) currentCookieName l
    end.

(** The loop over the tokens of the Cookie header. *)
Fixpoint clean_loop (cookies : list string) (currentCookieName : option string) (n : Z)
  (l : oidc_state_cookies_t) : M St (Z * oidc_state_cookies_t) :=
  match cookies with
  | [] => ret (n, l)
  | cookie :: cookies' =>
      '(kept, l) <- oidc_state_cookies_parse_token cookie currentCookieName l ;;
      clean_loop cookies' currentCookieName (n + kept) l
  end.

Definition oidc_state_cookies_clean_expired (currentCookieName : option string) (delete_oldest : Z) : M St Z :=
  r <- get_req ;;
  '(n, l) <- (match oidc_http_hdr_in_cookie_get r with
              | None => ret (0, [])
              | Some cookies => clean_loop (strtok_all ";" cookies) currentCookieName 0 []
              end) ;;
  if 0 <? delete_oldest then oidc_state_cookies_delete_oldest n l else ret n.

(** *** src/handle/request.c *)

Definition oidc_request_samesite_state_cookie : M St (option string) :=
  match same_site_state c with
  | OIDC_SAMESITE_COOKIE_STRICT | OIDC_SAMESITE_COOKIE_LAX => ret (Some OIDC_HTTP_COOKIE_SAMESITE_LAX)
  | OIDC_SAMESITE_COOKIE_NONE => OIDC_HTTP_COOKIE_SAMESITE_NONE (st_cookie c)
  | OIDC_SAMESITE_COOKIE_DISABLED => ret None
  end.

Definition oidc_request_authorization_set_cookie (state : string) (proto_state : oidc_proto_state_t) : M St Z :=
  r <- get_req ;;
  match oidc_proto_state_to_cookie r (st_passphrase c) proto_state with
  | None => ret HTTP_INTERNAL_SERVER_ERROR
  | Some cookieValue =>
      number_of_cookies <- oidc_state_cookies_clean_expired None (delete_oldest_state_cookies c) ;;
      let max_number_of_cookies := max_number_of_state_cookies c in
      if (0 <? max_number_of_cookies) && (max_number_of_cookies <=? number_of_cookies)
      then ret HTTP_SERVICE_UNAVAILABLE
      else
        attr <- oidc_request_samesite_state_cookie ;;
        '_ <- set_cookie (st_cookie c) (oidc_state_cookie_name state) cookieValue (-1) attr ;;
        ret OK
  end.

(** *** src/handle/response.c *)

Definition oidc_response_browser_back (r : request) (r_state : option string) (session : oidc_session_t)
  : bool * request :=
  match remote_user session with
  | None => (false, r)
  | Some _ =>
      let s_state := oidc_session_get_request_state session in
      if negb (nonnull r_state) || negb (nonnull s_state) || negb (_oidc_strcmp r_state s_state =? 0)
      then (false, r)
      else (true, oidc_http_hdr_out_location_set r (oidc_session_get_original_url session))
  end.

Definition timeout_message (original_url : option string) : string :=
  "This is due to a timeout; please restart your authentication session by re-entering the URL/bookmark you originally wanted to access: "
  ^^ default "(null)" original_url.

(** The boolean and [*proto_state], which may be set when the result is [FALSE]. *)
Definition oidc_response_proto_state_restore (state : string) : M St (bool * option oidc_proto_state_t) :=
  let cookieName := oidc_state_cookie_name state in
  '_ <- oidc_state_cookies_clean_expired (Some cookieName) 0 ;;
  r <- get_req ;;
  match oidc_http_get_cookie r cookieName with
  | None => ret (false, None)
  | Some cookieValue =>
      '_ <- delete_cookie cookieName ;;
      r <- get_req ;;
      match oidc_proto_state_from_cookie r (st_passphrase c) cookieValue with
      | None => ret (false, None)
      | Some proto_state =>
          let nonce := oidc_proto_state_get_nonce proto_state in
          let calc := oidc_state_browser_fingerprint r nonce in
          if negb (oidc_util_strcmp_const_time calc (Some state)) then ret (false, Some proto_state)
          else
            let ts := oidc_proto_state_get_timestamp proto_state in
            t <- apr_time_now ext ;;
            if ts + apr_time_from_sec (state_timeout c) <? t then
              '_ <- (if negb (nonnull (default_sso_url c)) ||
                        nonnull (apr_table_get (subprocess_env r) "OIDC_NO_DEFAULT_URL_ON_STATE_TIMEOUT")
                     then put_req (oidc_util_html_send_error r (Some "Invalid Authentication Response")
                            (Some (timeout_message (oidc_proto_state_get_original_url proto_state))) OK).2
                     else ret tt) ;;
              ret (false, Some proto_state)
            else ret (true, Some (oidc_proto_state_set_state proto_state (Some state)))
      end
  end.

(** [get_provider] is [oidc_get_provider_for_issuer] for this server. *)
Definition oidc_response_match_state {provider : Type} (get_provider : option string -> M St (option provider))
  (state : option string) : M St (bool * option provider * option oidc_proto_state_t) :=
  match state with
  | None => ret (false, None, None)
  | Some s =>
      if _oidc_strcmp state (Some "") =? 0 then ret (false, None, None)
      else
        '(ok, proto_state) <- oidc_response_proto_state_restore s ;;
        match ok, proto_state with
        | true, Some ps =>
            p <- get_provider (oidc_proto_state_get_issuer ps) ;;
            ret (nonnull (p : option provider), p, proto_state)
        | _, _ => ret (false, None, proto_state)
        end
  end.
End state.
