(* ===== verification/StateProps.v ===== *)
(** * src/state.c: properties of state cookies *)

From S2P Require Import Prelude Cstr Apr StrUtil Http Form Html Url Cookie Jansson Json Base64 Jose Jwt.
From S2P Require Import ShmCache ShmInit Cache Util World Session SessionAttr SessionProps SessionCookie ProtoState State.

#[local] Open Scope world_scope.

(** ** What is preserved *)

(** A computation that only adds such headers. *)
Definition keeps {St A} (m : M St A) : Prop := forall w a w', m w = Some (a, w') -> same_but_out (w_req w) (w_req w').

Create HintDb keeps.

Section keeps.
Context {St : Type}.

Lemma keeps_ret {A} (a : A) : keeps (St:=St) (ret a).
Proof. intros w a' w' [= <- <-]. apply same_but_out_refl. Qed.

Lemma keeps_bind {A B'} (m : M St A) (f : A -> M St B') : keeps m -> (forall a, keeps (f a)) -> keeps (bind m f).
Proof. intros Hm Hf w b w' (a & w1 & E1 & E2)%bind_inv. eapply same_but_out_trans; [by eapply Hm|by eapply Hf]. Qed.

Lemma keeps_get_req : keeps (St:=St) get_req.
Proof. intros w a w' [= <- <-]. apply same_but_out_refl. Qed.

Lemma keeps_now ext : keeps (St:=St) (apr_time_now ext).
Proof. intros w a w' [= <- <-]. apply same_but_out_refl. Qed.

Lemma keeps_set_cookie {H : Httpd} c n v ex a : keeps (St:=St) (set_cookie c n v ex a).
Proof.
  intros w u w'. unfold set_cookie. destruct (oidc_http_set_cookie _ _ _ _ _ _) as [r|] eqn:E; [|done].
  cbn [mbind option_bind]. intros [= _ <-]. by eapply http_set_cookie_keeps.
Qed.

Lemma keeps_samesite_none {H : Httpd} c : keeps (St:=St) (OIDC_HTTP_COOKIE_SAMESITE_NONE c).
Proof.
  intros w u w'. unfold OIDC_HTTP_COOKIE_SAMESITE_NONE. destruct (oidc_util_url_cur_is_secure _ _); [|done].
  cbn [mbind option_bind]. intros [= _ <-]. apply same_but_out_refl.
Qed.
End keeps.

#[export] Hint Resolve keeps_ret keeps_bind keeps_get_req keeps_now keeps_set_cookie keeps_samesite_none : keeps.

(** Case analysis on a program, closing the cases with the preservation lemmas. *)
Ltac keeps_auto := repeat first
  [ solve [auto 2 with keeps nocore]
  | apply keeps_bind; [|intros ?]
  | match goal with
    | |- keeps (let '(_, _) := ?p in _) => destruct p
    | |- keeps (match ?x with _ => _ end) => destruct x
    end ].

Section state_lemmas.
Context {J : Jansson} {JS : JanssonSpec J} {X : Jose} {XS : JoseSpec X} {B64 : Base64} {H : Httpd}.
Context {Mem : CryptoMemcmp} {MS : CryptoMemcmpSpec Mem} {St : Type}.
Variables (ext : nat -> env) (c : state_cfg).
Implicit Types (w : world St).

Lemma keeps_delete_cookie n : keeps (St:=St) (delete_cookie c n).
Proof. unfold delete_cookie. keeps_auto. Qed.
Hint Resolve keeps_delete_cookie : keeps.

Lemma keeps_process_one n v cur l : keeps (St:=St) (oidc_state_cookies_process_one ext c n v cur l).
Proof. unfold oidc_state_cookies_process_one. keeps_auto. Qed.
Hint Resolve keeps_process_one : keeps.

Lemma keeps_parse_token ck cur l : keeps (St:=St) (oidc_state_cookies_parse_token ext c ck cur l).
Proof. unfold oidc_state_cookies_parse_token. keeps_auto. Qed.
Hint Resolve keeps_parse_token : keeps.

Lemma keeps_clean_loop cks cur n l : keeps (St:=St) (clean_loop ext c cks cur n l).
Proof. revert n l. induction cks as [|ck cks IH]; intros n l; cbn [clean_loop]; keeps_auto. Qed.
Hint Resolve keeps_clean_loop : keeps.

Lemma keeps_delete_loop f n l : keeps (St:=St) (delete_oldest_loop c f n l).
Proof. revert n l. induction f as [|f IH]; intros n l; cbn [delete_oldest_loop]; [done|]. keeps_auto. Qed.
Hint Resolve keeps_delete_loop : keeps.

Lemma keeps_clean_expired cur d : keeps (St:=St) (oidc_state_cookies_clean_expired ext c cur d).
Proof. unfold oidc_state_cookies_clean_expired, oidc_state_cookies_delete_oldest. keeps_auto. Qed.

Hint Resolve keeps_clean_expired : keeps.

Lemma keeps_set_state_cookie state ps : keeps (St:=St) (oidc_request_authorization_set_cookie ext c state ps).
Proof. unfold oidc_request_authorization_set_cookie, oidc_request_samesite_state_cookie. keeps_auto. Qed.

(** What is read from a request depends on its incoming headers only. *)
Lemma get_cookie_headers r r' n : headers_in r = headers_in r' -> oidc_http_get_cookie r n = oidc_http_get_cookie r' n.
Proof. unfold oidc_http_get_cookie, oidc_http_hdr_in_cookie_get, oidc_http_hdr_in_get. by intros ->. Qed.

Lemma fingerprint_headers r r' n : headers_in r = headers_in r' ->
  oidc_state_browser_fingerprint c r n = oidc_state_browser_fingerprint c r' n.
Proof.
  intros E. unfold oidc_state_browser_fingerprint, oidc_http_hdr_in_x_forwarded_for_get, oidc_http_hdr_in_user_agent_get,
    oidc_http_hdr_in_get_left_most_only, oidc_http_hdr_in_get. by rewrite E.
Qed.
End state_lemmas.

(** ** What terminates *)

Section total_state.
Context {J : Jansson} {X : Jose} {B64 : Base64} {H : Httpd} {St : Type}.
Variables (ext : nat -> env) (c : state_cfg).

Lemma total_delete_cookie n : total (St:=St) (delete_cookie c n).
Proof. unfold delete_cookie. total_auto. Qed.
Hint Resolve total_delete_cookie : total.

Lemma total_parse_token ck cur l : total (St:=St) (oidc_state_cookies_parse_token ext c ck cur l).
Proof. unfold oidc_state_cookies_parse_token, oidc_state_cookies_process_one. total_auto. Qed.
Hint Resolve total_parse_token : total.

Lemma total_clean_loop cks cur n l : total (St:=St) (clean_loop ext c cks cur n l).
Proof. revert n l. induction cks as [|ck cks IH]; intros n l; cbn [clean_loop]; total_auto. Qed.
Hint Resolve total_clean_loop : total.

Lemma total_delete_loop f n l : 0 < Z.of_nat f -> n - max_number_of_state_cookies c + 1 < Z.of_nat f ->
  total (St:=St) (delete_oldest_loop c f n l).
Proof.
  revert n l. induction f as [|f IH]; intros n l H0 Hf; cbn [delete_oldest_loop]; [lia|].
  - destruct (Z.leb_spec (max_number_of_state_cookies c) n) as [|Hlt]; [|total_auto].
    destruct l as [|e l]; [apply IH; lia|]. destruct (find_oldest [] e [] l) as [[b o] a].
    apply total_bind; [total_auto|intros ?]. apply total_bind; [total_auto|intros ?]. apply IH; lia.
Qed.

Lemma total_delete_oldest n l : total (St:=St) (oidc_state_cookies_delete_oldest c n l).
Proof. apply total_delete_loop; lia. Qed.
Hint Resolve total_delete_oldest : total.

Lemma total_clean_expired cur d : total (St:=St) (oidc_state_cookies_clean_expired ext c cur d).
Proof. unfold oidc_state_cookies_clean_expired. total_auto. Qed.
End total_state.
#[export] Hint Resolve total_delete_cookie total_clean_expired : total.

(** ** Properties *)

(** What matching a response found, and the world in which the cookie was removed. *)
Lemma restore_inv {J : Jansson} {X : Jose} {B64 : Base64} {H : Httpd} {Mem : CryptoMemcmp}
  {MS : CryptoMemcmpSpec Mem} {St : Type} (ext : nat -> env) (c : state_cfg) (state : string) (w w' : world St)
  (ps : oidc_proto_state_t) :
  oidc_response_proto_state_restore ext c state w = Some ((true, Some ps), w') ->
  exists v ps0 i, oidc_http_get_cookie (w_req w) (oidc_state_cookie_name c state) = Some v /\
    oidc_proto_state_from_cookie (w_req w) (st_passphrase c) v = Some ps0 /\
    oidc_state_browser_fingerprint c (w_req w) (oidc_proto_state_get_nonce ps0) = Some state /\
    now (ext i) <= oidc_proto_state_get_timestamp ps0 + apr_time_from_sec (state_timeout c) /\
    ps = oidc_proto_state_set_state ps0 (Some state) /\
    (exists w1 w2 : world St, delete_cookie c (oidc_state_cookie_name c state) w1 = Some (tt, w2) /\ w_req w' = w_req w2) /\
    same_but_out (w_req w) (w_req w').
Proof.
  intros E. unfold oidc_response_proto_state_restore in E. cbv zeta in E.
  apply bind_inv in E as (n & w1 & E1 & E). pose proof (same_but_out_in _ _ (keeps_clean_expired ext c _ _ _ _ _ E1)) as Hh1.
  apply bind_inv in E as (r & w2 & [= <- <-] & E). rewrite (get_cookie_headers _ _ _ Hh1) in E.
  destruct (oidc_http_get_cookie (w_req w) _) as [v|] eqn:Hv; [|done].
  apply bind_inv in E as (u & w3 & E2 & E). pose proof (same_but_out_in _ _ (keeps_delete_cookie c _ _ _ _ E2)) as Hh2.
  apply bind_inv in E as (r & w4 & [= <- <-] & E).
  destruct (oidc_proto_state_from_cookie _ _ _) as [ps0|] eqn:Hps; [|done].
  rewrite (fingerprint_headers c (w_req w3) (w_req w)) in E by congruence.
  destruct (oidc_util_strcmp_const_time _ _) eqn:Hcmp; [|done]. cbn [negb] in E.
  apply bind_inv in E as (t & w5 & [= <- <-] & E).
  destruct (Z.ltb_spec (oidc_proto_state_get_timestamp ps0 + apr_time_from_sec (state_timeout c))
    (now (ext (w_calls w3)))) as [|Hle].
  { apply bind_inv in E as (u' & w6 & _ & [=]). }
  injection E as <- <-. exists v, ps0, (w_calls w3). split; [done|]. split; [exact Hps|].
  split; [by apply strcmp_const_time_true|]. split; [done|]. split; [done|]. destruct u. split; [by exists w1, w3|].
  by eapply same_but_out_trans; [exact (keeps_clean_expired ext c _ _ _ _ _ E1)|exact (keeps_delete_cookie c _ _ _ _ E2)].
Qed.

(** C4: a response is matched to a request only when the browser that sends it
    holds the encrypted cookie of that very state value, the state value is the
    fingerprint of that browser with the nonce inside the cookie, and the request has not
    timed out; the cookie is then removed, so a state value is used once. *)
Theorem state_restore_sound {J : Jansson} {X : Jose} {B64 : Base64} {H : Httpd} {Mem : CryptoMemcmp}
  {MS : CryptoMemcmpSpec Mem} {St : Type} (ext : nat -> env) (c : state_cfg) (state : string) (w w' : world St)
  (ps : oidc_proto_state_t) :
  str_forall name_char (oidc_state_cookie_name c state) = true ->
  oidc_response_proto_state_restore ext c state w = Some ((true, Some ps), w') ->
  exists v ps0 i, oidc_http_get_cookie (w_req w) (oidc_state_cookie_name c state) = Some v /\
    oidc_proto_state_from_cookie (w_req w) (st_passphrase c) v = Some ps0 /\
    oidc_state_browser_fingerprint c (w_req w) (oidc_proto_state_get_nonce ps0) = Some state /\
    now (ext i) <= oidc_proto_state_get_timestamp ps0 + apr_time_from_sec (state_timeout c) /\
    ps = oidc_proto_state_set_state ps0 (Some state) /\
    In (oidc_state_cookie_name c state, "") (map set_cookie_pair (set_cookies (w_req w'))).
Proof.
  intros Hn (v & ps0 & i & Hv & Hps & Hf & Ht & -> & (w1 & w2 & E2 & ->) & _)%restore_inv. exists v, ps0, i. split_and!; [done..|].
  apply bind_inv in E2 as (a & w6 & E3 & E2).
  unfold set_cookie in E2. destruct (set_cookie_emits (st_cookie c) (w_req w6) _ "" 0 a Hn eq_refl) as (r' & Hr & Em).
  rewrite Hr in E2. injection E2 as <-. destruct Em as [_ (hs & Hs & Hm)]. cbn [w_req]. rewrite Hs, map_app, Hm.
  apply in_or_app. right. by left.
Qed.

(** ** Writing and matching *)

Section roundtrip.
Context {J : Jansson} {JS : JanssonSpec J} {X : Jose} {XS : JoseSpec X} {B64 : Base64} {H : Httpd}.
Context {Mem : CryptoMemcmp} {MS : CryptoMemcmpSpec Mem} {St : Type}.
Variables (ext : nat -> env) (c : state_cfg).
Implicit Types (w : world St).

Lemma total_samesite_state : total (St:=St) (oidc_request_samesite_state_cookie c).
Proof. unfold oidc_request_samesite_state_cookie. total_auto. Qed.

(** The last cookie a successful request sets holds the state. *)
Lemma set_cookie_last state ps w w' : str_forall name_char (oidc_state_cookie_name c state) = true ->
  oidc_request_authorization_set_cookie ext c state ps w = Some (OK, w') ->
  exists v, oidc_proto_state_to_cookie (w_req w) (st_passphrase c) ps = Some v /\
    last (map set_cookie_pair (set_cookies (w_req w'))) = Some (oidc_state_cookie_name c state, v).
Proof.
  intros Hn E. unfold oidc_request_authorization_set_cookie in E.
  apply bind_inv in E as (r & w0 & [= <- <-] & E).
  destruct (oidc_proto_state_to_cookie _ _ _) as [v|] eqn:Hv; [|by injection E].
  apply bind_inv in E as (n & w1 & _ & E). cbv zeta in E.
  destruct ((0 <? max_number_of_state_cookies c) && _); [by injection E|].
  apply bind_inv in E as (a & w2 & _ & E). apply bind_inv in E as (u & w3 & E2 & [= <-]).
  assert (Hvc : str_forall value_char v = true).
  { unfold oidc_proto_state_to_cookie in Hv. destruct (oidc_json_encode _ _); [|done].
    apply jwt_create_inv in Hv as (k & key & cser & _ & _ & _ & _ & He). apply encrypt_compact in He as [_ Hc].
    by apply (str_forall_weaken compact_char); [apply compact_value|]. }
  unfold set_cookie in E2.
  destruct (set_cookie_emits (st_cookie c) (w_req w2) _ v (-1) a Hn Hvc) as (r' & Hr & [_ (hs & Hs & Hm)]).
  rewrite Hr in E2. injection E2 as _ <-. exists v. split; [done|]. cbn [w_req].
  by rewrite Hs, map_app, Hm, last_snoc.
Qed.

(** A request that presents the cookie and comes from the same browser in time. *)
Lemma restore_run state ps v w : is_object ps ->
  oidc_http_get_cookie (w_req w) (oidc_state_cookie_name c state) = Some v ->
  (forall r, oidc_proto_state_from_cookie r (st_passphrase c) v = Some ps) ->
  oidc_state_browser_fingerprint c (w_req w) (oidc_proto_state_get_nonce ps) = Some state ->
  (forall i, now (ext i) <= oidc_proto_state_get_timestamp ps + apr_time_from_sec (state_timeout c)) ->
  exists w', oidc_response_proto_state_restore ext c state w =
    Some ((true, Some (oidc_proto_state_set_state ps (Some state))), w').
Proof.
  intros Ho Hck Hfc Hfp Ht. unfold oidc_response_proto_state_restore.
  destruct (total_clean_expired ext c (Some (oidc_state_cookie_name c state)) 0 w) as (n & w1 & R1). run R1.
  pose proof (same_but_out_in _ _ (keeps_clean_expired ext c _ _ _ _ _ R1)) as Hh1.
  run (eq_refl : get_req w1 = Some (w_req w1, w1)). rewrite (get_cookie_headers _ _ _ Hh1), Hck.
  destruct (total_delete_cookie c (oidc_state_cookie_name c state) w1) as (u & w2 & R2). run R2.
  pose proof (same_but_out_in _ _ (keeps_delete_cookie c _ _ _ _ R2)) as Hh2.
  run (eq_refl : get_req w2 = Some (w_req w2, w2)). rewrite Hfc.
  rewrite (fingerprint_headers c (w_req w2) (w_req w)) by congruence.
  rewrite Hfp, (proj2 (strcmp_const_time_true (Some state) (Some state)) eq_refl). cbn [negb].
  run (eq_refl : apr_time_now ext w2 = Some (now (ext (w_calls w2)), mk_world (w_req w2) (w_cache w2) (S (w_calls w2)))).
  specialize (Ht (w_calls w2)).
  destruct (Z.ltb_spec (oidc_proto_state_get_timestamp ps + apr_time_from_sec (state_timeout c))
    (now (ext (w_calls w2)))); [lia|]. by eexists.
Qed.
End roundtrip.

(** C16: when a request succeeds, the last cookie of the response belongs to
    its state value, and the authentication response of the browser that presents this
    cookie in time is matched, whatever other cookies it sends: the stored state is
    restored. *)
Theorem state_roundtrip {J : Jansson} {JS : JanssonSpec J} {X : Jose} {XS : JoseSpec X} {B64 : Base64}
  {H : Httpd} {Mem : CryptoMemcmp} {MS : CryptoMemcmpSpec Mem} {St : Type} (ext ext2 : nat -> env) (c : state_cfg)
  (state : string) (ps : oidc_proto_state_t) (w w' : world St) :
  str_forall name_char (oidc_state_cookie_name c state) = true -> is_object ps ->
  (forall q, oidc_json_encode (Some ps) OIDC_JSON_COMPACT = Some q -> payload_ok (w_req w) q) ->
  oidc_request_authorization_set_cookie ext c state ps w = Some (OK, w') ->
  exists v, last (map set_cookie_pair (set_cookies (w_req w'))) = Some (oidc_state_cookie_name c state, v) /\
    forall w2 : world St, oidc_http_get_cookie (w_req w2) (oidc_state_cookie_name c state) = Some v ->
      oidc_state_browser_fingerprint c (w_req w2) (oidc_proto_state_get_nonce ps) = Some state ->
      (forall i, now (ext2 i) <= oidc_proto_state_get_timestamp ps + apr_time_from_sec (state_timeout c)) ->
      exists w3, oidc_response_proto_state_restore ext2 c state w2 =
        Some ((true, Some (oidc_proto_state_set_state ps (Some state))), w3).
Proof.
  intros Hn Ho Hp E. destruct (set_cookie_last ext c state ps w w' Hn E) as (v & Hv & Hl).
  exists v. split; [done|]. intros w2 Hck Hfp Ht. eapply restore_run; [done|done| |done|done].
  intros r. by eapply proto_state_cookie.
Qed.

Section demo.
#[local] Existing Instances Model.jansson JoseModel.jose Base64Model.base64 HttpdModel.httpd.

Definition demo_state_cfg : state_cfg :=
  mk_state_cfg "mod_auth_openidc_state_" 3 300 2 1 OIDC_SAMESITE_COOKIE_LAX None demo_passphrase demo_cookie_cfg.
Definition demo_proto_state : Model.jv := Model.JObj [("n", Model.JStr "nonce1"); ("t", Model.JInt 1000)].
Definition demo_agent : request := with_headers_in [("User-Agent", "UA")] demo_request.
Definition demo_state_value : string :=
  default EmptyString (oidc_state_browser_fingerprint (X:=JoseModel.jose) (B64:=Base64Model.base64)
    demo_state_cfg demo_agent (Some "nonce1")).
Definition demo_asked : world unit :=
  match oidc_request_authorization_set_cookie (J:=Model.jansson) (X:=JoseModel.jose) (H:=HttpdModel.httpd)
    (demo_ext 1000000000) demo_state_cfg demo_state_value demo_proto_state (mk_world demo_agent tt 0) with
  | Some (_, w) => w | None => mk_world demo_agent tt 0 end.
(** The browser presents the cookie. *)
Definition demo_answer : world unit :=
  match last (map set_cookie_pair (set_cookies (w_req demo_asked))) with
  | Some kv => mk_world (with_headers_in [("User-Agent", "UA"); ("Cookie", cookie_string kv)] demo_request) tt 0
  | None => demo_asked
  end.

Lemma state_roundtrip_witness :
  exists w3, oidc_response_proto_state_restore (J:=Model.jansson) (X:=JoseModel.jose) (B64:=Base64Model.base64)
      (H:=HttpdModel.httpd) (Mem:=demo_memcmp) (demo_ext 1200000000) demo_state_cfg demo_state_value demo_answer =
    Some ((true, Some (oidc_proto_state_set_state demo_proto_state (Some demo_state_value))), w3).
Proof.
  destruct (state_roundtrip (J:=Model.jansson) (X:=JoseModel.jose) (B64:=Base64Model.base64) (H:=HttpdModel.httpd)
    (Mem:=demo_memcmp) (MS:=demo_memcmp_spec) (demo_ext 1000000000) (demo_ext 1200000000) demo_state_cfg
    demo_state_value demo_proto_state (mk_world demo_agent tt 0) demo_asked) as (v & Hl & Hr).
  - vm_compute. reflexivity.
  - reflexivity.
  - intros q Hq. apply (payload_ok_small _ _ _ Hq). vm_compute. reflexivity.
  - vm_compute. reflexivity.
  - apply Hr.
    + assert (Hv : v = default EmptyString (snd <$> last (map set_cookie_pair (set_cookies (w_req demo_asked)))))
        by (rewrite Hl; reflexivity).
      rewrite Hv. vm_compute. reflexivity.
    + vm_compute. reflexivity.
    + intros i. vm_compute. discriminate.
Defined.

Definition demo_restore (c : state_cfg) (s : string) (w : world unit) : option (bool * option (oidc_proto_state_t (J:=Model.jansson)) * world unit) :=
  oidc_response_proto_state_restore (J:=Model.jansson) (X:=JoseModel.jose) (B64:=Base64Model.base64)
    (H:=HttpdModel.httpd) (Mem:=demo_memcmp) (demo_ext 1200000000) c s w.
Definition demo_restored (c : state_cfg) (s : string) (w : world unit) : world unit :=
  match demo_restore c s w with Some (_, w') => w' | None => w end.

Lemma demo_restore_ok c s w ps : fst <$> demo_restore c s w = Some (true, Some ps) ->
  oidc_response_proto_state_restore (J:=Model.jansson) (X:=JoseModel.jose) (B64:=Base64Model.base64)
    (H:=HttpdModel.httpd) (Mem:=demo_memcmp) (demo_ext 1200000000) c s w
  = Some ((true, Some ps), demo_restored c s w).
Proof.
  fold (demo_restore c s w). unfold demo_restored. destruct (demo_restore c s w) as [[[b o] w']|]; [|done].
  cbn. by intros [= -> ->].
Qed.

Lemma state_restore_sound_witness :
  exists v, oidc_http_get_cookie (w_req demo_answer) (oidc_state_cookie_name demo_state_cfg demo_state_value) = Some v.
Proof.
  destruct (state_restore_sound (J:=Model.jansson) (X:=JoseModel.jose) (B64:=Base64Model.base64) (H:=HttpdModel.httpd)
    (Mem:=demo_memcmp) (MS:=demo_memcmp_spec) (St:=unit) (demo_ext 1200000000) demo_state_cfg demo_state_value
    demo_answer (demo_restored demo_state_cfg demo_state_value demo_answer)
    (oidc_proto_state_set_state (J:=Model.jansson) demo_proto_state (Some demo_state_value)))
    as (v & _ & _ & Hv & _).
  - vm_compute. reflexivity.
  - exact (demo_restore_ok demo_state_cfg demo_state_value demo_answer _ ltac:(vm_compute; reflexivity)).
  - exists v. exact Hv.
Defined.
End demo.
