(* ===== verification/StateClean.v ===== *)
(** * src/state.c: cleaning up state cookies *)

From S2P Require Import Prelude Cstr Apr StrUtil Http Form Html Url Cookie Jansson Json Base64 Jose Jwt.
From S2P Require Import ShmCache ShmInit Cache Util World Session SessionAttr SessionProps SessionCookie.
From S2P Require Import ProtoState State StateProps.

#[local] Open Scope world_scope.

(** ** Deleting the oldest *)

Definition zlength {A} (l : list A) : Z := Z.of_nat (length l).

(** The element that is found is a smallest one, the first of its kind, and the rest of
    the list keeps its order. *)
Lemma find_oldest_spec (before : oidc_state_cookies_t) (oldest : string * Z) (between rest : oidc_state_cookies_t) :
  (forall x, x ∈ before -> oldest.2 < x.2) -> (forall x, x ∈ between -> oldest.2 <= x.2) ->
  let '(b, o, a) := find_oldest before oldest between rest in
  before ++ oldest :: between ++ rest = b ++ o :: a /\
  (forall x, x ∈ b -> o.2 < x.2) /\ (forall x, x ∈ a -> o.2 <= x.2).
Proof.
  revert before oldest between. induction rest as [|cur rest IH]; intros before oldest between Hb Hm; cbn [find_oldest].
  - by rewrite app_nil_r.
  - destruct (Z.ltb_spec cur.2 oldest.2) as [Hlt|Hge].
    + specialize (IH (before ++ oldest :: between) cur []).
      destruct (find_oldest _ cur [] rest) as [[b o] a]. rewrite <-app_assoc in IH. apply IH; [|set_solver].
      intros x. rewrite elem_of_app, elem_of_cons. intros [Hx|[->|Hx]]; [|done|];
        [specialize (Hb x Hx)|specialize (Hm x Hx)]; lia.
    + specialize (IH before oldest (between ++ [cur])).
      destruct (find_oldest before oldest _ rest) as [[b o] a]. rewrite <-app_assoc in IH. apply IH; [done|].
      intros x. rewrite elem_of_app, list_elem_of_singleton. intros [Hx| ->]; [by apply Hm|lia].
Qed.

Section clean.
Context {J : Jansson} {X : Jose} {B64 : Base64} {H : Httpd} {St : Type}.
Variable c : state_cfg.
Implicit Types (w : world St) (l : oidc_state_cookies_t).

Lemma delete_cookie_run n w : str_forall name_char n = true -> exists w', delete_cookie c n w = Some (tt, w') /\
  emits (w_req w) (w_req w') [(n, "")].
Proof.
  intros Hn. unfold delete_cookie. destruct (samesite_none_run (st_cookie c) w) as (a & Ha). run Ha.
  destruct (set_cookie_run (st_cookie c) n "" 0 a w Hn eq_refl) as (r & -> & Em). by eexists.
Qed.

Definition cleared (l : oidc_state_cookies_t) : list (string * string) := map (fun e => (e.1, "")) l.

Lemma delete_oldest_run fuel l w :
  1 <= max_number_of_state_cookies c -> max_number_of_state_cookies c - 1 <= zlength l ->
  (zlength l - max_number_of_state_cookies c + 1 < Z.of_nat fuel) ->
  Forall (fun e => str_forall name_char e.1 = true) l ->
  exists w' deleted kept, delete_oldest_loop c fuel (zlength l) l w = Some (max_number_of_state_cookies c - 1, w') /\
    l ≡ₚ deleted ++ kept /\ zlength kept = max_number_of_state_cookies c - 1 /\
    (forall d k, d ∈ deleted -> k ∈ kept -> d.2 <= k.2) /\
    emits (w_req w) (w_req w') (cleared deleted).
Proof.
  revert l w. induction fuel as [|fuel IH]; intros l w Hmax Hl Hf Hn; [lia|]. cbn [delete_oldest_loop].
  destruct (Z.leb_spec (max_number_of_state_cookies c) (zlength l)) as [Hge|Hlt].
  - destruct l as [|e l]; [unfold zlength in Hge; cbn [length] in Hge; lia|].
    pose proof (find_oldest_spec [] e [] l ltac:(set_solver) ltac:(set_solver)) as Hs.
    destruct (find_oldest [] e [] l) as [[b o] a]. cbn [app] in Hs. destruct Hs as (Hsplit & Hb & Ha).
    rewrite Hsplit in Hn, Hl, Hf, Hge |- *. apply Forall_app in Hn as [Hnb Hn]. apply Forall_cons in Hn as [Hno Hna].
    destruct (samesite_none_run (st_cookie c) w) as (at_ & R1). run R1.
    destruct (set_cookie_run (st_cookie c) o.1 "" 0 at_ w Hno eq_refl) as (r & R2 & Em). run R2.
    assert (Hlen : zlength (b ++ o :: a) = zlength (b ++ a) + 1)
      by (unfold zlength; rewrite !length_app; cbn [length]; lia).
    rewrite Hlen in *. replace (zlength (b ++ a) + 1 - 1) with (zlength (b ++ a)) by lia.
    destruct (IH (b ++ a) (mk_world r (w_cache w) (w_calls w))) as (w' & d & k & R3 & Hp & Hk & Hle & Em2);
      [done|lia|lia|by apply Forall_app|].
    exists w', (o :: d), k. split; [exact R3|]. split; [|split; [done|split]].
    + rewrite <-Permutation_middle, Hp. done.
    + intros x y Hx Hy. apply elem_of_cons in Hx as [->|Hx]; [|by apply Hle].
      assert (y ∈ b ++ a) as [Hy'|Hy']%elem_of_app by (rewrite Hp; set_solver); [specialize (Hb y Hy'); lia|by apply Ha].
    + exact (emits_app _ _ _ [(o.1, "")] _ Em Em2).
  - assert (zlength l = max_number_of_state_cookies c - 1) as E by lia. rewrite E.
    exists w, [], l. split; [done|]. split; [done|]. split; [done|]. split; [set_solver|]. apply emits_nil.
Qed.
End clean.

(** Making room for a new state cookie deletes just as many cookies as are
    above the limit, no deleted one is more recent than one that is kept, and the number
    that is returned leaves room for one more. *)
Theorem state_delete_oldest {X : Jose} {B64 : Base64} {H : Httpd} {St : Type} (c : state_cfg)
  (l : oidc_state_cookies_t) (w : world St) :
  1 <= max_number_of_state_cookies c <= zlength l -> Forall (fun e => str_forall name_char e.1 = true) l ->
  exists w' deleted kept,
    oidc_state_cookies_delete_oldest c (zlength l) l w = Some (max_number_of_state_cookies c - 1, w') /\
    l ≡ₚ deleted ++ kept /\ zlength kept = max_number_of_state_cookies c - 1 /\
    (forall d k, d ∈ deleted -> k ∈ kept -> d.2 <= k.2) /\
    emits (w_req w) (w_req w') (cleared deleted).
Proof.
  intros Hm Hn. unfold oidc_state_cookies_delete_oldest. apply delete_oldest_run; [lia|lia| |done].
  rewrite Nat2Z.inj_succ, Z2Nat.id; lia.
Qed.

Definition demo_cookies : oidc_state_cookies_t := [("s1", 30); ("s2", 10); ("s3", 20)].

Lemma state_delete_oldest_witness :
  exists w', oidc_state_cookies_delete_oldest (H:=HttpdModel.httpd) demo_state_cfg (zlength demo_cookies) demo_cookies
    (mk_world demo_request tt 0) = Some (1, w').
Proof.
  destruct (state_delete_oldest (X:=JoseModel.jose) (B64:=Base64Model.base64) (H:=HttpdModel.httpd) demo_state_cfg
    demo_cookies (mk_world demo_request tt 0)) as (w' & d & k & R & _).
  - vm_compute. split; discriminate.
  - repeat constructor.
  - exists w'. exact R.
Defined.

(** ** Cleaning *)

Lemma prefix_cookie p k v : str_forall name_char p = true ->
  str_prefix p (k ^^ "=" ^^ v) = str_prefix p k.
Proof.
  revert k. induction p as [|d p IH]; intros k Hp; [done|]. cbn [str_forall] in Hp.
  apply andb_true_iff in Hp as [Hd Hp]. destruct k as [|e k]; cbn [String.append str_prefix]; [|by rewrite IH].
  unfold name_char in Hd. bool_hyps. by rewrite H.
Qed.

Lemma cookie_parts k v : str_forall name_char k = true ->
  str_before (k ^^ "=" ^^ v) "=" = k /\ strchr (k ^^ "=" ^^ v) "=" = Some (String "=" v).
Proof.
  intros Hk. assert (strchr k "=" = None) by by apply (strchr_forall name_char).
  change ("=" ^^ v) with (String "=" v). split; [by apply str_before_app|by apply strchr_app].
Qed.

Section clean_all.
Context {J : Jansson} {X : Jose} {B64 : Base64} {H : Httpd} {St : Type}.
Variables (ext : nat -> env) (c : state_cfg) (t : Z) (cur : option string).
Hypothesis Hext : forall i, now (ext i) = t.
Hypothesis Hprefix : str_forall name_char (state_cookie_prefix c) = true.
Implicit Types (w : world St) (j : jar).

(** A cookie of another outstanding request. *)
Definition other_state (kv : string * string) : bool :=
  str_prefix (state_cookie_prefix c) kv.1 &&
  negb (nonnull cur && (_oidc_strcmp (Some kv.1) cur =? 0)).

(** A cookie that can be decrypted and has not timed out. *)
Definition live_state (kv : string * string) : bool :=
  match oidc_proto_state_from_cookie demo_request (st_passphrase c) kv.2 with
  | Some ps => t <=? oidc_proto_state_get_timestamp ps + apr_time_from_sec (state_timeout c)
  | None => false
  end.

Definition kept_states j : jar := List.filter (fun kv => other_state kv && live_state kv) j.
Definition dropped_states j : jar := List.filter (fun kv => other_state kv && negb (live_state kv)) j.

(** One token. *)
Lemma parse_token_run tok kv l w : pair_ok kv -> skip_blank tok = cookie_string kv ->
  exists w' l', oidc_state_cookies_parse_token ext c tok cur l w =
      Some ((if other_state kv && live_state kv then 1 else 0, l'), w') /\
    length l' = (length l + length (kept_states [kv]))%nat /\
    emits (w_req w) (w_req w') (map (fun kv => (kv.1, "")) (dropped_states [kv])).
Proof.
  destruct kv as [k v]. intros (Hne & Hk & Hv) Htok. unfold oidc_state_cookies_parse_token. rewrite Htok.
  unfold cookie_string. cbn [fst snd] in *. cbn [_oidc_strstr].
  destruct (cookie_parts k v Hk) as [-> ->].
  unfold kept_states, dropped_states. cbn [List.filter]. set (o := other_state (k, v)). set (lv := live_state (k, v)).
  assert (Hp : bool_decide (strstr (k ^^ "=" ^^ v) (state_cookie_prefix c) = Some O) = str_prefix (state_cookie_prefix c) k).
  { rewrite <-(prefix_cookie _ k v Hprefix).
    destruct (str_prefix _ (k ^^ _)) eqn:E; [apply bool_decide_eq_true_2; by apply strstr_zero|].
    apply bool_decide_eq_false_2. intros F%strstr_zero. congruence. }
  rewrite Hp. unfold o, other_state. cbn [fst].
  destruct (str_prefix (state_cookie_prefix c) k); cbn [negb andb];
    [|exists w, l; split; [done|]; cbn; split; [lia|apply emits_nil]].
  unfold oidc_state_cookies_process_one. cbn [str_drop].
  destruct (nonnull cur && _); cbn [negb andb];
    [exists w, l; split; [done|]; cbn; split; [lia|apply emits_nil]|].
  run (eq_refl : get_req w = Some (w_req w, w)). unfold lv, live_state. cbn [snd].
  change (oidc_proto_state_from_cookie (w_req w) (st_passphrase c) v) with
    (oidc_proto_state_from_cookie demo_request (st_passphrase c) v).
  destruct (oidc_proto_state_from_cookie _ _ v) as [ps|].
  - run (eq_refl : apr_time_now ext w = Some (now (ext (w_calls w)), mk_world (w_req w) (w_cache w) (S (w_calls w)))).
    rewrite Hext. rewrite Z.leb_antisym.
    destruct (_ <? t); cbn [negb].
    + set (w1 := mk_world _ _ _). destruct (delete_cookie_run c k w1 Hk) as (w' & R & Em). run R.
      exists w', l. split; [done|]. split; [cbn; lia|exact Em].
    + eexists _, _. split; [done|]. split; [|apply emits_nil].
      unfold oidc_state_cookies_list_append. by rewrite length_app.
  - destruct (delete_cookie_run c k w Hk) as (w' & R & Em). run R.
    exists w', l. split; [done|]. split; [cbn; lia|exact Em].
Qed.

Lemma clean_loop_run (f : string * string -> string) j n l w : Forall pair_ok j ->
  (forall kv, pair_ok kv -> skip_blank (f kv) = cookie_string kv) ->
  exists w' l', clean_loop ext c (map f j) cur n l w = Some ((n + zlength (kept_states j), l'), w') /\
    length l' = (length l + length (kept_states j))%nat /\
    emits (w_req w) (w_req w') (map (fun kv => (kv.1, "")) (dropped_states j)).
Proof.
  revert n l w. induction j as [|kv j IH]; intros n l w Hall Hf.
  - exists w, l. cbn [map clean_loop ret kept_states dropped_states List.filter]. rewrite Z.add_0_r.
    split; [done|]. split; [cbn; lia|apply emits_nil].
  - apply Forall_cons in Hall as [Hkv Hall]. cbn [map clean_loop].
    destruct (parse_token_run (f kv) kv l w Hkv (Hf kv Hkv)) as (w1 & l1 & R & Hl1 & Em). run R.
    destruct (IH (n + (if other_state kv && live_state kv then 1 else 0)) l1 w1 Hall Hf) as (w2 & l2 & R2 & Hl2 & Em2).
    exists w2, l2. rewrite R2. unfold kept_states, dropped_states in *. cbn [List.filter] in *.
    split; [|split].
    + f_equal. f_equal. f_equal. unfold zlength. destruct (other_state kv && live_state kv); cbn [length]; lia.
    + rewrite Hl2, Hl1. destruct (other_state kv && live_state kv); cbn [length]; lia.
    + destruct (other_state kv && negb (live_state kv)); exact (emits_app _ _ _ _ _ Em Em2).
Qed.
End clean_all.

(** Cleaning up the state cookies that a browser sends deletes exactly those
    of other requests that are unreadable or have timed out, never the one that is
    being used, and returns the number of the others. *)
Theorem state_clean_expired {J : Jansson} {X : Jose} {B64 : Base64} {H : Httpd} {St : Type} (ext : nat -> env)
  (c : state_cfg) (t : Z) (cur : option string) (j : jar) (w : world St) :
  (forall i, now (ext i) = t) -> str_forall name_char (state_cookie_prefix c) = true -> jar_ok j ->
  oidc_http_hdr_in_cookie_get (w_req w) = cookie_header j ->
  exists w', oidc_state_cookies_clean_expired ext c cur 0 w = Some (zlength (kept_states c t cur j), w') /\
    emits (w_req w) (w_req w') (map (fun kv => (kv.1, "")) (dropped_states c t cur j)).
Proof.
  intros Hext Hp [_ Hj] Hck. unfold oidc_state_cookies_clean_expired.
  run (eq_refl : get_req w = Some (w_req w, w)). rewrite Hck. destruct j as [|kv j]; cbn [cookie_header].
  - run (eq_refl : ret (0, []) w = Some ((0, [] : oidc_state_cookies_t), w)). exists w. split; [done|apply emits_nil].
  - unfold strtok_all. rewrite tokens_join by done. change ("" ^^ cookie_string kv) with (cookie_string kv).
    apply Forall_cons in Hj as [Hkv Hj].
    cbn [clean_loop].
    destruct (parse_token_run ext c t cur Hext Hp (cookie_string kv) kv [] w Hkv (proj1 (skip_blank_cookie kv Hkv)))
      as (w1 & l1 & R & _ & Em).
    destruct (clean_loop_run ext c t cur Hext Hp (fun kv => " " ^^ cookie_string kv) j
      (0 + (if other_state c cur kv && live_state c t kv then 1 else 0)) l1 w1 Hj) as (w2 & l2 & R2 & _ & Em2).
    { intros kv' Hkv'. by apply skip_blank_cookie. }
    match goal with |- context [bind (bind ?a ?b) _ w] =>
      assert (R3 : bind a b w = Some ((zlength (kept_states c t cur (kv :: j)), l2), w2)) end.
    { run R. rewrite R2. unfold kept_states, zlength. cbn [List.filter].
      destruct (other_state c cur kv && live_state c t kv); cbn [length]; repeat f_equal; lia. }
    run R3. exists w2. split; [done|]. unfold dropped_states in *. cbn [List.filter] in *.
    destruct (other_state c cur kv && negb (live_state c t kv)); exact (emits_app _ _ _ _ _ Em Em2).
Qed.

Definition demo_state_jar : jar := [("mod_auth_openidc_state_a", "garbage"); ("other", "x")].

Lemma state_clean_expired_witness :
  exists w', oidc_state_cookies_clean_expired (J:=Model.jansson) (X:=JoseModel.jose) (H:=HttpdModel.httpd)
      (demo_ext 5) demo_state_cfg None 0
      (mk_world (with_headers_in [("Cookie", "mod_auth_openidc_state_a=garbage; other=x")] demo_request) tt 0)
      = Some (0, w') /\
    map set_cookie_pair (set_cookies (w_req w')) = [("mod_auth_openidc_state_a", "")].
Proof.
  destruct (state_clean_expired (J:=Model.jansson) (X:=JoseModel.jose) (B64:=Base64Model.base64) (H:=HttpdModel.httpd)
    (demo_ext 5) demo_state_cfg 5 None demo_state_jar
    (mk_world (with_headers_in [("Cookie", "mod_auth_openidc_state_a=garbage; other=x")] demo_request) tt 0))
    as (w' & R & [_ (hs & E & M)]).
  - intros i. reflexivity.
  - reflexivity.
  - split.
    + apply (bool_decide_unpack _). vm_compute. exact I.
    + repeat constructor; discriminate.
  - reflexivity.
  - exists w'. split; [exact R|]. rewrite E. cbn. rewrite M. vm_compute. reflexivity.
Defined.
