(* ===== verification/Scrub.v ===== *)
(** * src/mod_auth_openidc.c: what of a request reaches the application

    The module passes claims to the application in headers and environment variables, so a request must not bring
    its own; and the cookies of the module itself are not for the application. *)

From S2P Require Import Prelude Cstr Apr StrUtil Http Cookie Url World.
#[local] Open Scope Z_scope.

Definition OIDC_DEFAULT_HEADER_PREFIX : string := "OIDC_".

(** The settings that are read here. *)
Record scrub_cfg := mk_scrub_cfg {
  sc_claim_prefix : option string;
  sc_white_listed_claims : option (gset string);
  sc_authn_header : option string;
  sc_strip_cookies : option (list string)
}.

Definition OIDC_DEFAULT_CLAIM_PREFIX : string := "OIDC_CLAIM_".
Definition oidc_cfg_claim_prefix_get (c : scrub_cfg) : string := default OIDC_DEFAULT_CLAIM_PREFIX (sc_claim_prefix c).

(** ** Headers *)

(** Both tests of the loop; the values of the hash table are its keys. *)
Definition header_suspicious (claim_prefix : string) (scrub : option (gset string)) (k : string) : bool :=
  let prefix_len := String.length claim_prefix in
  let header_matches :=
    match scrub with
    | Some s => bool_decide (k ∈ s) && (oidc_util_strnenvcmp k k (-1) =? 0)
    | None => false
    end in
  let prefix_matches := negb (Nat.eqb prefix_len 0) && (oidc_util_strnenvcmp k claim_prefix (Z.of_nat prefix_len) =? 0) in
  prefix_matches || header_matches.

(** The loop over the headers. *)
Fixpoint scrub_loop (claim_prefix : string) (scrub : option (gset string)) (h clean_headers : table) : table :=
  match h with
  | [] => clean_headers
  | (k, val) :: h =>
      scrub_loop claim_prefix scrub h
        (if header_suspicious claim_prefix scrub k then clean_headers else apr_table_add clean_headers k val)
  end.

Definition oidc_scrub_request_headers (r : request) (claim_prefix : string) (scrub : option (gset string)) : request :=
  with_headers_in (scrub_loop claim_prefix scrub (headers_in r) []) r.

(** The headers whose names count in full. *)
Definition scrub_names (c : scrub_cfg) : gset string :=
  let hdrs :=
    if _oidc_strcmp (Some (oidc_cfg_claim_prefix_get c)) (Some "") =? 0 then
      match sc_white_listed_claims c with Some w => w | None => ∅ end
    else ∅ in
  match sc_authn_header c with Some a => {[a]} ∪ hdrs | None => hdrs end.

Definition oidc_scrub_headers (c : scrub_cfg) (r : request) : request :=
  let prefix := oidc_cfg_claim_prefix_get c in
  let r := oidc_scrub_request_headers r OIDC_DEFAULT_HEADER_PREFIX (Some (scrub_names c)) in
  if bool_decide (_oidc_strstr (Some prefix) (Some OIDC_DEFAULT_HEADER_PREFIX) = Some 0%nat) then r
  else oidc_scrub_request_headers r prefix None.

(** ** Cookies *)

Fixpoint oidc_strip_cookies_match (cookie : string) (strip : list string) : option string :=
  match strip with
  | [] => None
  | name :: strip =>
      if (_oidc_strncmp (Some cookie) (Some name) (String.length name) =? 0) &&
         match str_drop (String.length name) cookie with String c _ => Ascii.eqb c "=" | "" => false end
      then Some name
      else oidc_strip_cookies_match cookie strip
  end.

(** The loop over the cookies. *)
Fixpoint strip_cookies_loop (strip cookies : list string) (result : option string) : option string :=
  match cookies with
  | [] => result
  | cookie :: cookies =>
      let cookie := skip_blank cookie in
      strip_cookies_loop strip cookies
        (if String.eqb cookie "" || nonnull (oidc_strip_cookies_match cookie strip) then result
         else Some (match result with Some s => s ^^ ";" ^^ " " ^^ cookie | None => cookie end))
  end.

Definition oidc_strip_cookies (c : scrub_cfg) (r : request) : request :=
  match oidc_http_hdr_in_cookie_get r, sc_strip_cookies c with
  | Some cookies, Some strip => oidc_http_hdr_in_cookie_set r (strip_cookies_loop strip (strtok_all ";" cookies) None)
  | _, _ => r
  end.

(** ** Lemmas *)

(** The name of the environment variable that a header ends up in. *)
Definition env_name (k : string) : string := str_map oidc_util_char_to_env k.

Lemma str_prefix_take p s : str_prefix p s = true <-> str_take (String.length p) s = p.
Proof.
  revert s. induction p as [|c p IH]; intros s; [split; [by destruct s|done]|]. destruct s as [|d s]; [done|].
  cbn [str_prefix str_take String.length]. rewrite andb_true_iff, IH. destruct (Ascii.eqb_spec c d) as [->|Hne].
  - split; [by intros [_ ->]|by intros [= ->]].
  - split; [by intros [? _]|]. intros [= -> _]. done.
Qed.

Lemma str_prefix_trans a b s : str_prefix a b = true -> str_prefix b s = true -> str_prefix a s = true.
Proof.
  revert b s. induction a as [|c a IH]; intros [|d b] [|e s]; try done. cbn [str_prefix]. rewrite !andb_true_iff.
  intros [->%Ascii.eqb_eq Ha] [->%Ascii.eqb_eq Hb]. rewrite Ascii.eqb_refl. by split; [|eapply IH].
Qed.

Lemma str_prefix_map (f : ascii -> ascii) a s : str_prefix a s = true -> str_prefix (str_map f a) (str_map f s) = true.
Proof.
  revert s. induction a as [|c a IH]; intros [|d s]; try done. cbn [str_prefix str_map]. rewrite !andb_true_iff.
  intros [->%Ascii.eqb_eq Ha]. by rewrite Ascii.eqb_refl, IH.
Qed.

Lemma env_prefix k p : (oidc_util_strnenvcmp k p (Z.of_nat (String.length p)) =? 0) = str_prefix (env_name p) (env_name k).
Proof.
  apply Bool.eq_iff_eq_true. rewrite Z.eqb_eq, strnenvcmp_spec. destruct (Z.leb_spec 0 (Z.of_nat (String.length p))); [|lia].
  rewrite Nat2Z.id, str_prefix_take. unfold env_name. rewrite !str_map_length.
  by rewrite <-(str_map_length oidc_util_char_to_env p) at 2; rewrite str_take_self.
Qed.

Lemma scrub_loop_filter p s h clean : scrub_loop p s h clean = clean ++ List.filter (fun kv => negb (header_suspicious p s kv.1)) h.
Proof.
  revert clean. induction h as [|[k v] h IH]; intros clean; cbn [scrub_loop List.filter]; [by rewrite app_nil_r|]. rewrite IH. cbn [fst].
  destruct (header_suspicious p s k); cbn [negb]; [done|]. unfold apr_table_add. by rewrite <-app_assoc.
Qed.

(** A header that the application could take for one of the module. *)
Definition forged (c : scrub_cfg) (k : string) : bool :=
  str_prefix OIDC_DEFAULT_HEADER_PREFIX (env_name k) ||
  (negb (String.eqb (oidc_cfg_claim_prefix_get c) "") && str_prefix (env_name (oidc_cfg_claim_prefix_get c)) (env_name k)) ||
  bool_decide (k ∈ scrub_names c).

Lemma suspicious_spec p s k : header_suspicious p s k =
  (negb (String.eqb p "") && str_prefix (env_name p) (env_name k)) || match s with Some s => bool_decide (k ∈ s) | None => false end.
Proof.
  unfold header_suspicious. cbv zeta. rewrite env_prefix. f_equal; [by destruct p|]. destruct s as [s|]; [|done].
  replace (oidc_util_strnenvcmp k k (-1) =? 0) with true; [by rewrite andb_true_r|]. symmetry. by apply Z.eqb_eq, strnenvcmp_spec.
Qed.

Lemma filter_filter {A} (f g : A -> bool) l : List.filter f (List.filter g l) = List.filter (fun x => f x && g x) l.
Proof.
  induction l as [|x l IH]; [done|]. cbn [List.filter]. destruct (g x); cbn [List.filter]; rewrite IH; [by rewrite andb_true_r|].
  by rewrite andb_false_r.
Qed.

Lemma strip_match_jar strip kv : pair_ok kv -> Forall (fun n => str_forall name_char n = true) strip ->
  nonnull (oidc_strip_cookies_match (cookie_string kv) strip) = bool_decide (kv.1 ∈ strip).
Proof.
  intros Hkv Hs. induction strip as [|n strip IH]; [done|]. apply Forall_cons in Hs as [Hn Hs]. cbn [oidc_strip_cookies_match].
  rewrite cookie_test by done. destruct (String.eqb_spec n kv.1) as [->|Hne].
  - cbn [nonnull]. symmetry. apply bool_decide_eq_true. by left.
  - rewrite IH by done. apply bool_decide_ext. rewrite elem_of_cons. naive_solver.
Qed.

Lemma cookie_string_nonempty kv : pair_ok kv -> String.eqb (cookie_string kv) "" = false.
Proof. destruct kv as [[|c k] v]; by intros (? & _). Qed.

(** Cookies put behind those that were kept before. *)
Definition cookies_after (result : option string) (j : jar) : option string :=
  foldl (fun r kv => Some (match r with Some s => s ^^ "; " ^^ cookie_string kv | None => cookie_string kv end)) result j.

Lemma strip_loop_jar strip cookies j result : Forall2 (fun s kv => skip_blank s = cookie_string kv) cookies j -> Forall pair_ok j ->
  Forall (fun n => str_forall name_char n = true) strip ->
  strip_cookies_loop strip cookies result = cookies_after result (List.filter (fun kv => negb (bool_decide (kv.1 ∈ strip))) j).
Proof.
  intros Hc Hj Hs. revert result. induction Hc as [|s kv cookies j Hsk Hc IH]; intros result; [done|]. apply Forall_cons in Hj as [Hkv Hj].
  cbn [strip_cookies_loop List.filter]. rewrite Hsk, cookie_string_nonempty, strip_match_jar by done. cbn [orb].
  destruct (bool_decide (kv.1 ∈ strip)); cbn [negb]; rewrite IH by done; [done|]. cbn [cookies_after foldl]. done.
Qed.

Lemma join_snoc sep a l x : join sep ((a :: l) ++ [x]) = (join sep (a :: l) ^^ sep ^^ x).
Proof.
  revert a. induction l as [|b l IH]; intros a; [done|].
  change (join sep ((a :: b :: l) ++ [x])) with (a ^^ sep ^^ join sep ((b :: l) ++ [x])). rewrite IH.
  change (join sep (a :: b :: l)) with (a ^^ sep ^^ join sep (b :: l)). by rewrite !append_assoc.
Qed.

Lemma cookies_after_header j : cookies_after None j = cookie_header j.
Proof.
  assert (Ha : forall k l, cookies_after (cookie_header k) l = cookie_header (k ++ l)).
  { intros k l. revert k. induction l as [|kv l IH]; intros k; [by rewrite app_nil_r|]. cbn [cookies_after foldl].
    change (foldl _ ?r l) with (cookies_after r l).
    replace (Some _) with (cookie_header (k ++ [kv])); [rewrite IH; by rewrite <-app_assoc|].
    destruct k as [|a k]; [done|]. unfold cookie_header. cbn [app]. f_equal. rewrite !map_cons, map_app.
    by apply (join_snoc "; " (cookie_string a) (map cookie_string k)). }
  apply (Ha [] j).
Qed.

(** ** Properties *)


(** Exactly the cookies that are to be stripped are missing from the requests that the application sees. *)
Theorem strip_cookies_spec (c : scrub_cfg) (r : request) (j : jar) (strip : list string) :
  sc_strip_cookies c = Some strip -> Forall (fun n => str_forall name_char n = true) strip ->
  oidc_http_hdr_in_cookie_get r = cookie_header j -> Forall pair_ok j -> j <> [] ->
  oidc_http_hdr_in_cookie_get (oidc_strip_cookies c r) =
    oidc_http_hdr_value_sanitize <$> cookie_header (List.filter (fun kv => negb (bool_decide (kv.1 ∈ strip))) j).
Proof.
  intros Hc Hs Hr Hj Hne. unfold oidc_strip_cookies. rewrite Hr, Hc. destruct j as [|kv j]; [done|]. cbn [cookie_header].
  pose proof Hj as [Hkv Hj']%Forall_cons. unfold strtok_all. rewrite tokens_join by done.
  rewrite (strip_loop_jar strip _ (kv :: j)); [|constructor; [by apply (skip_blank_cookie kv)|]|done..].
  - rewrite cookies_after_header. unfold oidc_http_hdr_in_cookie_get, oidc_http_hdr_in_cookie_set, oidc_http_hdr_in_get, oidc_http_hdr_in_set,
      oidc_http_hdr_table_set. cbn [headers_in with_headers_in]. destruct (cookie_header (List.filter _ _)); [by apply table_get_set_eq|by apply table_get_unset_eq].
  - clear -Hj'. induction Hj' as [|x l Hx _ IH]; constructor; [by apply skip_blank_cookie|exact IH].
Qed.

(** A header that differs from the configured one in case only is not scrubbed: the test that compares names as environment
    variables is only made for a name that was found in the hash table of names. *)
Example scrub_misses_case : forall value,
  headers_in (oidc_scrub_headers (mk_scrub_cfg None None (Some "X-Remote-User") None) (with_headers_in [("x-remote-user", value)] demo_request)) =
    [("x-remote-user", value)] /\ env_name "x-remote-user" = env_name "X-Remote-User".
Proof. by vm_compute. Qed.

(** ** Witnesses *)

Lemma strip_cookies_spec_witness :
  let r := with_headers_in [("Cookie", "a=1; mod_auth_openidc_session=s; b=2")] demo_request in
  oidc_http_hdr_in_cookie_get (oidc_strip_cookies (mk_scrub_cfg None None None (Some ["mod_auth_openidc_session"])) r) = Some "a=1; b=2".
Proof.
  cbv zeta. rewrite (strip_cookies_spec _ _ [("a", "1"); ("mod_auth_openidc_session", "s"); ("b", "2")] ["mod_auth_openidc_session"]).
  - vm_compute. reflexivity.
  - reflexivity.
  - repeat constructor.
  - reflexivity.
  - repeat constructor; discriminate.
  - discriminate.
Defined.
