(* ===== verification/Authz.v ===== *)
(** * src/handle/authz.c: authorization by the claims of a user

    The argument of a directive [Require claim] is a list of specifications, each a path of keys separated by
    dots which ends in a value after a colon or in a regular expression after a tilde.  A specification
    matches a set of claims when following the path leads to a value that equals it or to a list with
    such an element.  The claims are those of the ID token, the userinfo endpoint and the scope, merged
    in this order of precedence.  Not modelled: what becomes of an unauthorized request, and expressions for jq. *)

From S2P Require Import Prelude Cstr Apr StrUtil Jansson Json Http Form Util.
From Stdlib Require Import QArith.
#[local] Open Scope Z_scope.

(** ** Third parties *)

(** PCRE, with [pcre_exec] whether [pcre2_match] found a match; the floating conversion ["%lf"] of the C library;
    the tokenizer of httpd, with the word and the rest. *)
Class Pcre := { pcre : Type; pcre_compile : string -> option pcre; pcre_exec : pcre -> string -> bool }.
Class Scanf := { sscanf_lf : string -> option double }.
Class GetwordConf := { ap_getword_conf : string -> string * string }.
Class GetwordConfSpec (G : GetwordConf) : Prop := {
  getword_conf_shorter l : (ap_getword_conf l).1 <> "" ->
    (String.length (ap_getword_conf l).2 < String.length l)%nat
}.

(** ** Matching a value *)

Section match_value.
Context {J : Jansson} {P : Pcre} {F : Scanf}.

(** [sscanf] with ["%lld"]: [None] when there is no number. *)
Definition sscanf_lld (s : string) : option Z :=
  let '(v, rest, _) := strtol s in if String.eqb rest s then None else Some v.

Definition oidc_authz_match_json_string (spec : string) (val : json_t) : bool :=
  _oidc_strcmp (oidc_json_string_value (Some val)) (Some spec) =? 0.
Definition oidc_authz_match_json_integer (spec : string) (val : json_t) : bool :=
  match sscanf_lld spec with Some i => oidc_json_integer_value (Some val) =? i | None => false end.
Definition oidc_authz_match_json_real (spec : string) (val : json_t) : bool :=
  match sscanf_lf spec with Some (Fin d) => Qeq_bool (oidc_json_real_value (Some val)) d | _ => false end.
Definition oidc_authz_match_json_true (spec : string) (val : json_t) : bool := _oidc_strcmp (Some spec) (Some "true") =? 0.
Definition oidc_authz_match_json_false (spec : string) (val : json_t) : bool := _oidc_strcmp (Some spec) (Some "false") =? 0.
Definition oidc_authz_match_json_null (spec : string) (val : json_t) : bool := _oidc_strcmp (Some spec) (Some "null") =? 0.

(** The table of handlers without the one for arrays. *)
Definition scalar_handler (t : oidc_json_type) : option (string -> json_t -> bool) :=
  match t with
  | OIDC_JSON_TYPE_STRING => Some oidc_authz_match_json_string
  | OIDC_JSON_TYPE_INTEGER => Some oidc_authz_match_json_integer
  | OIDC_JSON_TYPE_REAL => Some oidc_authz_match_json_real
  | OIDC_JSON_TYPE_TRUE => Some oidc_authz_match_json_true
  | OIDC_JSON_TYPE_FALSE => Some oidc_authz_match_json_false
  | OIDC_JSON_TYPE_NULL => Some oidc_authz_match_json_null
  | OIDC_JSON_TYPE_ARRAY | OIDC_JSON_TYPE_OBJECT => None
  end.

Definition oidc_authz_match_json_array_elem (spec : string) (e : json_t) : bool :=
  match scalar_handler (oidc_json_typeof e) with Some handler => handler spec e | None => false end.
Definition oidc_authz_match_json_array (spec : string) (val : json_t) : bool :=
  existsb (oidc_authz_match_json_array_elem spec) (json_array_items val).

Definition _oidc_authz_json_handlers (t : oidc_json_type) : option (string -> json_t -> bool) :=
  match t with OIDC_JSON_TYPE_ARRAY => Some oidc_authz_match_json_array | _ => scalar_handler t end.

Definition oidc_authz_match_value (spec : string) (val : json_t) : bool :=
  match _oidc_authz_json_handlers (oidc_json_typeof val) with Some handler => handler spec val | None => false end.

(** *** Regular expressions *)

Definition oidc_authz_match_pcre_string (val : json_t) (preg : pcre) : bool :=
  match oidc_json_string_value (Some val) with Some s => pcre_exec preg s | None => false end.

Definition oidc_authz_match_pcre_array (val : json_t) (preg : pcre) : bool :=
  existsb (fun e => bool_decide (oidc_json_typeof e = OIDC_JSON_TYPE_STRING) && oidc_authz_match_pcre_string e preg)
    (json_array_items val).

Definition _oidc_authz_pcre_handlers (t : oidc_json_type) : option (json_t -> pcre -> bool) :=
  match t with
  | OIDC_JSON_TYPE_ARRAY => Some oidc_authz_match_pcre_array
  | OIDC_JSON_TYPE_STRING => Some oidc_authz_match_pcre_string
  | _ => None
  end.

Definition oidc_authz_match_pcre (spec : string) (val : json_t) : bool :=
  match pcre_compile spec with
  | None => false
  | Some preg =>
      match _oidc_authz_pcre_handlers (oidc_json_typeof val) with Some handler => handler val preg | None => false end
  end.

(** ** Following a path *)

(** One handler of the table of separators: the result and the specification it leaves, which has lost
    the separator. *)
Definition try_separator (sep : ascii) (handler : string -> option bool) (spec : string) : option (bool * string) :=
  match spec with
  | String c spec' => if Ascii.eqb c sep then rc ← handler spec'; Some (rc, spec') else Some (false, spec)
  | "" => Some (false, spec)
  end.

(** The handlers in the order of the table: after one that does not match, the others see what follows its
    separator.  [dot] is the handler of the dot, which needs fuel. *)
Definition oidc_auth_handle_separator (dot : string -> option bool) (val : json_t) (spec : string) : option bool :=
  '(rc, spec) ← try_separator ":" (fun s => Some (oidc_authz_match_value s val)) spec;
  if (rc : bool) then Some true
  else
    '(rc, spec) ← try_separator "~" (fun s => Some (oidc_authz_match_pcre s val)) spec;
    if (rc : bool) then Some true
    else '(rc, _) ← try_separator "." dot spec; Some (rc : bool).

(** Walking the key and the specification: what is left of both. *)
Fixpoint walk (attr_c spec_c : string) : string * string :=
  match attr_c, spec_c with
  | String a attr_c', String b spec_c' => if Ascii.eqb a b then walk attr_c' spec_c' else (attr_c, spec_c)
  | _, _ => (attr_c, spec_c)
  end.

(** The loop over the claims. *)
Fixpoint claims_loop (handle : json_t -> string -> option bool) (attr_spec : string) (iter : list (string * json_t))
  : option bool :=
  match iter with
  | [] => Some false
  | (key, val) :: iter =>
      let '(attr_c, spec_c) := walk key attr_spec in
      rc ← (if String.eqb attr_c "" then handle val spec_c else Some false);
      if (rc : bool) then Some true else claims_loop handle attr_spec iter
  end.

(** Each dot that is followed takes a character off the specification. *)
Fixpoint match_claim_go (fuel : nat) (attr_spec : string) (claims : option json_t) : option bool :=
  match fuel with
  | O => None
  | S fuel =>
      match claims with
      | None => Some false
      | Some _ =>
          let oidc_authz_separator_dot (val : json_t) (spec : string) :=
            if oidc_json_is_object (Some val) then match_claim_go fuel spec (Some val) else Some false in
          claims_loop (fun val => oidc_auth_handle_separator (oidc_authz_separator_dot val) val) attr_spec
            (oidc_json_object_iter claims)
      end
  end.
Definition oidc_authz_match_claim (attr_spec : string) (claims : option json_t) : option bool :=
  match_claim_go (S (String.length attr_spec)) attr_spec claims.
End match_value.

(** ** Authorizing a request *)

Definition OIDC_AUTHZ_ERROR : string := "OIDC_AUTHZ_ERROR".
Definition OIDC_REQUEST_STATE_KEY_AUTHN_POST : string := "a".
Definition OIDC_REQUEST_STATE_KEY_DISCOVERY : string := "d".
Definition OIDC_REQUEST_STATE_KEY_HTML : string := "hl".
Definition OIDC_REQUEST_STATE_KEY_SCOPE : string := "sc".
Definition OIDC_REQUEST_STATE_KEY_AUTHN_PRESERVE : string := "p".
Definition OIDC_CLAIM_SCOPE : string := "scope".

(** Of httpd. *)
Inductive authz_status := AUTHZ_DENIED | AUTHZ_GRANTED | AUTHZ_DENIED_NO_USER.

Definition oidc_authz_error_add (r : request) (msg : option string) : request :=
  let envvar := apr_table_get (subprocess_env r) OIDC_AUTHZ_ERROR in
  with_subprocess_env (apr_table_set (subprocess_env r) OIDC_AUTHZ_ERROR
    (default "" envvar ^^ (if nonnull envvar then "," else "") ^^ default "" msg)) r.

Definition oidc_authz_skip_to_content_handler (r : request) : bool :=
  nonnull (oidc_request_state_get r OIDC_REQUEST_STATE_KEY_DISCOVERY) ||
  nonnull (oidc_request_state_get r OIDC_REQUEST_STATE_KEY_AUTHN_POST) ||
  nonnull (oidc_request_state_get r OIDC_REQUEST_STATE_KEY_AUTHN_PRESERVE) ||
  nonnull (oidc_request_state_get r OIDC_REQUEST_STATE_KEY_HTTP) ||
  nonnull (oidc_request_state_get r OIDC_REQUEST_STATE_KEY_HTML).

Section authz.
Context {J : Jansson} {P : Pcre} {F : Scanf} {G : GetwordConf}.

(** [claims] and [id_token] are the objects that the request state has under these names. *)
Definition oidc_authz_merge_claims (r : request) (claims id_token : option json_t) : json_t :=
  let result := oidc_json_object in
  let scope := oidc_request_state_get r OIDC_REQUEST_STATE_KEY_SCOPE in
  let result := match scope with
                | Some _ => oidc_json_object_set_new result OIDC_CLAIM_SCOPE (oidc_json_string scope)
                | None => result
                end in
  let result := match claims with Some _ => default result (oidc_json_merge claims (Some result)).2 | None => result end in
  match id_token with Some _ => default result (oidc_json_merge id_token (Some result)).2 | None => result end.

(** The loop over the words: whether one matched.  The fuel is one step for each character. *)
Fixpoint require_loop (match_claim_fn : string -> option json_t -> option bool) (claims : option json_t) (fuel : nat)
  (t : string) : option bool :=
  match fuel with
  | O => None
  | S fuel =>
      let '(w, t) := ap_getword_conf t in
      if String.eqb w "" then Some false
      else
        rc ← match_claim_fn w claims;
        if (rc : bool) then Some true else require_loop match_claim_fn claims fuel t
  end.

(** [expr] evaluates the parsed expression, if there is one; [None] is an error.  The result is the status and the
    request. *)
Definition oidc_authz_24_worker (r : request) (claims : option json_t) (require_args : string)
  (expr : option (request -> option string)) (match_claim_fn : string -> option json_t -> option bool)
  : option (authz_status * request) :=
  match r_user r with
  | None => Some (AUTHZ_DENIED_NO_USER, r)
  | Some _ =>
      if negb (nonnull claims) then Some (AUTHZ_DENIED, r)
      else
        match (match expr with Some e => e r | None => Some require_args end) with
        | None => Some (AUTHZ_DENIED, r)
        | Some t =>
            matched ← require_loop match_claim_fn claims (S (String.length t)) t;
            if (matched : bool) then Some (AUTHZ_GRANTED, r)
            else Some (AUTHZ_DENIED, oidc_authz_error_add r (Some require_args))
        end
  end.
End authz.

(** ** What a specification means *)

Section meaning.
Context {J : Jansson} {JS : JanssonSpec J} {P : Pcre} {F : Scanf}.
Implicit Types (val e claims : json_t).

Definition scalar_matches (s : string) e : Prop :=
  match oidc_json_typeof e with
  | OIDC_JSON_TYPE_STRING => json_string_value e = Some s
  | OIDC_JSON_TYPE_INTEGER => sscanf_lld s = Some (json_integer_value e)
  | OIDC_JSON_TYPE_REAL => exists d, sscanf_lf s = Some (Fin d) /\ (json_real_value e == d)%Q
  | OIDC_JSON_TYPE_TRUE => s = "true"
  | OIDC_JSON_TYPE_FALSE => s = "false"
  | OIDC_JSON_TYPE_NULL => s = "null"
  | OIDC_JSON_TYPE_ARRAY | OIDC_JSON_TYPE_OBJECT => False
  end.

(** A value, or an element of an array that is no array. *)
Definition value_matches (s : string) val : Prop :=
  scalar_matches s val \/ (oidc_json_typeof val = OIDC_JSON_TYPE_ARRAY /\ exists e, In e (json_array_items val) /\ scalar_matches s e).

Definition regex_matches (s : string) val : Prop :=
  exists preg, pcre_compile s = Some preg /\
    ((exists v, json_string_value val = Some v /\ pcre_exec preg v = true) \/
     (oidc_json_typeof val = OIDC_JSON_TYPE_ARRAY /\
      exists e v, In e (json_array_items val) /\ json_string_value e = Some v /\ pcre_exec preg v = true)).

(** [spec] without a leading separator. *)
Definition skip (sep : ascii) (spec : string) : string :=
  match spec with String c s => if Ascii.eqb c sep then s else spec | "" => "" end.

(** A specification and a set of claims. *)
Inductive claim_matches : string -> json_t -> Prop :=
  | matches_value claims key val s :
      In (key, val) (json_object_items claims) -> value_matches s val -> claim_matches (key ^^ String ":" s) claims
  | matches_regex claims key val rest s :
      In (key, val) (json_object_items claims) -> skip ":" rest = String "~" s -> regex_matches s val ->
      claim_matches (key ^^ rest) claims
  | matches_child claims key val rest s :
      In (key, val) (json_object_items claims) -> skip "~" (skip ":" rest) = String "." s ->
      json_typeof val = JSON_OBJECT -> claim_matches s val -> claim_matches (key ^^ rest) claims.

Lemma typeof_string e : oidc_json_typeof e = OIDC_JSON_TYPE_STRING <-> is_Some (json_string_value e).
Proof. rewrite string_value_type. unfold oidc_json_typeof. by destruct (json_typeof e). Qed.

Lemma scalar_spec s e : oidc_authz_match_json_array_elem s e = true <-> scalar_matches s e.
Proof.
  unfold oidc_authz_match_json_array_elem, scalar_matches, scalar_handler.
  destruct (oidc_json_typeof e); try done.
  - unfold oidc_authz_match_json_string. cbn. rewrite Z.eqb_eq, oidc_strcmp_eq. naive_solver.
  - unfold oidc_authz_match_json_integer. cbn. destruct (sscanf_lld s) as [i|]; [|done]. rewrite Z.eqb_eq. naive_solver.
  - unfold oidc_authz_match_json_real. cbn. destruct (sscanf_lf s) as [[q| |]|]; try (split; [done|by intros (? & [=] & _)]).
    rewrite Qeq_bool_iff. split; [eauto|]. by intros (? & [= <-] & ?).
  - unfold oidc_authz_match_json_true. rewrite Z.eqb_eq, oidc_strcmp_eq. naive_solver.
  - unfold oidc_authz_match_json_false. rewrite Z.eqb_eq, oidc_strcmp_eq. naive_solver.
  - unfold oidc_authz_match_json_null. rewrite Z.eqb_eq, oidc_strcmp_eq. naive_solver.
Qed.

Lemma value_spec s val : oidc_authz_match_value s val = true <-> value_matches s val.
Proof.
  unfold value_matches. rewrite <-scalar_spec. unfold oidc_authz_match_value, _oidc_authz_json_handlers, oidc_authz_match_json_array_elem.
  destruct (oidc_json_typeof val) eqn:Et; cbn [scalar_handler]; try (split; [by left|]; by intros [?|[? _]]).
  unfold oidc_authz_match_json_array. rewrite existsb_exists. split.
  - intros (e & Hin & He). right. split; [done|]. exists e. split; [done|]. by apply scalar_spec.
  - intros [?|(_ & e & Hin & He)]; [done|]. exists e. split; [done|]. by apply scalar_spec.
Qed.

Lemma regex_spec s val : oidc_authz_match_pcre s val = true <-> regex_matches s val.
Proof.
  unfold oidc_authz_match_pcre, regex_matches.
  destruct (pcre_compile s) as [preg|]; [|split; [done|by intros (? & [=] & _)]].
  assert (Hl : forall Q : pcre -> Prop, (exists x, Some preg = Some x /\ Q x) <-> Q preg) by naive_solver. rewrite Hl. clear Hl.
  assert (Hs : forall e, (exists v, json_string_value e = Some v /\ pcre_exec preg v = true) <->
    bool_decide (oidc_json_typeof e = OIDC_JSON_TYPE_STRING) && oidc_authz_match_pcre_string e preg = true).
  { intros e. rewrite andb_true_iff, bool_decide_eq_true, typeof_string. unfold oidc_authz_match_pcre_string. cbn.
    destruct (json_string_value e); naive_solver. }
  destruct (oidc_json_typeof val) eqn:Et; cbn [_oidc_authz_pcre_handlers];
    try (split; [done|intros [(v & Hv & _)|[? _]]; [|done]];
         assert (oidc_json_typeof val = OIDC_JSON_TYPE_STRING) by (apply typeof_string; eauto); congruence).
  - unfold oidc_authz_match_pcre_array. rewrite existsb_exists. setoid_rewrite <-Hs. split.
    + intros (e & Hin & v & Hv). right. split; [done|]. by exists e, v.
    + intros [(v & Hv & _)|(_ & e & v & Hin & Hv)]; [|by exists e; eauto].
      assert (oidc_json_typeof val = OIDC_JSON_TYPE_STRING) by (apply typeof_string; eauto). congruence.
  - rewrite Hs, Et, bool_decide_true by done. cbn [andb]. naive_solver.
Qed.

Lemma walk_spec a b : walk a b = ("", str_drop (String.length a) b) /\ (exists t, b = (a ^^ t)) \/
  (walk a b).1 <> "" /\ ~ exists t, b = (a ^^ t).
Proof.
  revert b. induction a as [|c a IH]; intros b; [left; cbn; split; [by destruct b|by exists b]|].
  destruct b as [|d b]; cbn; [right; split; [done|by intros [? ?]]|].
  destruct (Ascii.eqb_spec c d) as [->|]; [|right; split; [done|intros [? [=]]; congruence]].
  destruct (IH b) as [[-> [t ->]]|[? Hn]]; [left|right]; (split; [done|]); [by exists t|]. intros [t [= ->]]. eauto.
Qed.

Lemma skip_length sep s : (String.length (skip sep s) <= String.length s)%nat.
Proof. destruct s as [|c s]; cbn; [done|]. destruct (Ascii.eqb c sep); cbn; lia. Qed.

(** What the separator handlers decide, given what the one of the dot decides. *)
Lemma separator_spec dot val spec (D : string -> Prop) :
  (forall s, (String.length s < String.length spec)%nat -> exists b, dot s = Some b /\ (b = true <-> D s)) ->
  exists b, oidc_auth_handle_separator dot val spec = Some b /\
    (b = true <-> (exists s, spec = String ":" s /\ value_matches s val) \/
       (exists s, skip ":" spec = String "~" s /\ regex_matches s val) \/
       (exists s, skip "~" (skip ":" spec) = String "." s /\ D s)).
Proof.
  intros Hd. assert (Ht : forall sep h sp, try_separator sep h sp =
    match sp with String c s => if Ascii.eqb c sep then rc ← h s; Some (rc, skip sep sp) else Some (false, skip sep sp)
    | "" => Some (false, skip sep sp) end).
  { intros sep h [|c s]; [done|]. cbn. by destruct (Ascii.eqb c sep). }
  assert (Hb : forall sep (h : string -> bool) (Q : string -> Prop) sp, (forall s, h s = true <-> Q s) ->
    exists b, try_separator sep (fun s => Some (h s)) sp = Some (b, skip sep sp) /\ (b = true <-> exists s, sp = String sep s /\ Q s)).
  { intros sep h Q sp Hh. rewrite Ht. destruct sp as [|c s]; [exists false; split; [done|]; split; [done|by intros (? & ? & _)]|].
    destruct (Ascii.eqb_spec c sep) as [->|]; cbn [mbind option_bind].
    - exists (h s). split; [done|]. rewrite Hh. naive_solver.
    - exists false. split; [done|]. split; [done|]. by intros (? & [= ? ?] & _). }
  unfold oidc_auth_handle_separator.
  destruct (Hb ":"%char (fun s => oidc_authz_match_value s val) _ spec (fun s => value_spec s val)) as (b1 & -> & H1). cbn [mbind option_bind].
  destruct b1; [exists true; split; [done|]; split; [|done]; intros _; left; by apply H1|].
  destruct (Hb "~"%char (fun s => oidc_authz_match_pcre s val) _ (skip ":" spec) (fun s => regex_spec s val)) as (b2 & -> & H2). cbn [mbind option_bind].
  destruct b2; [exists true; split; [done|]; split; [|done]; intros _; right; left; by apply H2|].
  pose proof (skip_length ":" spec). pose proof (skip_length "~" (skip ":" spec)). rewrite Ht.
  assert (Hn : forall X : Prop, (X <-> (exists s, skip "~" (skip ":" spec) = String "." s /\ D s)) -> (X <->
    (exists s, spec = String ":" s /\ value_matches s val) \/ (exists s, skip ":" spec = String "~" s /\ regex_matches s val) \/
    (exists s, skip "~" (skip ":" spec) = String "." s /\ D s))) by (intros X ->; rewrite <-H1, <-H2; naive_solver).
  destruct (skip "~" (skip ":" spec)) as [|c s] eqn:Es.
  - exists false. split; [done|]. apply Hn. split; [done|]. by intros (? & ? & _).
  - destruct (Ascii.eqb_spec c ".") as [->|]; cbn [mbind option_bind].
    + cbn in *. destruct (Hd s) as (b & -> & HD); [lia|]. exists b. split; [done|]. apply Hn. rewrite HD. naive_solver.
    + exists false. split; [done|]. apply Hn. split; [done|]. by intros (? & [= ? ?] & _).
Qed.

Lemma claims_loop_spec handle spec iter (D : json_t -> string -> Prop) :
  (forall val s, (String.length s <= String.length spec)%nat -> exists b, handle val s = Some b /\ (b = true <-> D val s)) ->
  exists b, claims_loop handle spec iter = Some b /\
    (b = true <-> exists key val rest, In (key, val) iter /\ spec = (key ^^ rest) /\ D val rest).
Proof.
  intros Hh. induction iter as [|[key val] iter (b & Hb & IH)]; cbn [claims_loop].
  { exists false. split; [done|]. split; [done|]. by intros (? & ? & ? & [] & _). }
  assert (Hk : exists b0, (let '(attr_c, spec_c) := walk key spec in
      if String.eqb attr_c "" then handle val spec_c else Some false) = Some b0 /\
    (b0 = true <-> exists rest, spec = (key ^^ rest) /\ D val rest)).
  { destruct (walk_spec key spec) as [[-> [rest ->]]|[Hw Hn]].
    - rewrite str_drop_app. cbn [String.eqb]. rewrite length_append in Hh. destruct (Hh val rest ltac:(lia)) as (b0 & -> & H0).
      exists b0. split; [done|]. rewrite H0. split; [eauto|]. intros (r & E & ?). by apply append_inj_l in E as ->.
    - destruct (walk key spec) as [a c]. cbn in Hw. destruct (String.eqb_spec a ""); [done|]. exists false. split; [done|].
      split; [done|]. intros (r & -> & _). destruct Hn. by exists r. }
  destruct Hk as (b0 & Hk & H0). destruct (walk key spec) as [attr_c spec_c]. rewrite Hk. cbn [mbind option_bind].
  destruct b0.
  - exists true. split; [done|]. split; [|done]. intros _. destruct H0 as [H0 _]. destruct (H0 eq_refl) as (rest & ? & ?).
    exists key, val, rest. split; [by left|done].
  - exists b. split; [done|]. rewrite IH. split.
    + intros (k & v & r & Hin & ?). exists k, v, r. split; [by right|done].
    + intros (k & v & r & [[= -> ->]|Hin] & E & HD); [|by exists k, v, r]. destruct H0 as [_ H0]. discriminate H0. by exists r.
Qed.

Lemma match_claim_decides fuel spec claims : (String.length spec < fuel)%nat ->
  exists b, match_claim_go fuel spec (Some claims) = Some b /\ (b = true <-> claim_matches spec claims).
Proof.
  revert spec claims. induction fuel as [|fuel IH]; intros spec claims Hf; [lia|]. cbn [match_claim_go]. cbv zeta.
  pose (DD val s := (exists s', s = String ":" s' /\ value_matches s' val) \/
    (exists s', skip ":" s = String "~" s' /\ regex_matches s' val) \/
    (exists s', skip "~" (skip ":" s) = String "." s' /\ json_typeof val = JSON_OBJECT /\ claim_matches s' val)).
  edestruct (claims_loop_spec (fun val => oidc_auth_handle_separator (fun s => if oidc_json_is_object (Some val)
      then match_claim_go fuel s (Some val) else Some false) val) spec (oidc_json_object_iter (Some claims)) DD) as (b & -> & Hb).
  - intros val s Hs. apply (separator_spec _ val s (fun s' => json_typeof val = JSON_OBJECT /\ claim_matches s' val)).
    intros s' Hs'. destruct (oidc_json_is_object (Some val)) eqn:Eo.
    + apply has_type_Some, list_elem_of_singleton in Eo. destruct (IH s' val) as (b & -> & Hb); [lia|]. exists b.
      split; [done|]. rewrite Hb. naive_solver.
    + exists false. split; [done|]. split; [done|]. intros [Ho _].
      assert (oidc_json_is_object (Some val) = true); [|congruence]. apply has_type_Some. rewrite Ho. set_solver.
  - exists b. split; [done|]. rewrite Hb. unfold DD. cbn [oidc_json_object_iter]. split.
    + intros (key & val & rest & Hin & -> & [(s & -> & Hv)|[(s & Hs & Hv)|(s & Hs & Ho & Hc)]]).
      * by eapply matches_value.
      * by eapply matches_regex.
      * by eapply matches_child.
    + intros Hc. destruct Hc as [claims key val s Hin Hv|claims key val rest s Hin Hs Hv|claims key val rest s Hin Hs Ho Hc].
      * exists key, val, (String ":" s). naive_solver.
      * exists key, val, rest. naive_solver.
      * exists key, val, rest. naive_solver.
Qed.
End meaning.

(** ** Properties *)

(** C37: matching a specification with a set of claims terminates and decides the relation [claim_matches]: a path of keys
    leads to a value that equals the given one, to a list with such an element, or to a string that the
    given regular expression finds. *)
Theorem match_claim_spec {J : Jansson} {JS : JanssonSpec J} {P : Pcre} {F : Scanf} (spec : string) (claims : json_t) :
  exists b, oidc_authz_match_claim spec (Some claims) = Some b /\ (b = true <-> claim_matches spec claims).
Proof. apply match_claim_decides. lia. Qed.

(** The words of a directive, up to the first empty one. *)
Inductive require_word {G : GetwordConf} : string -> string -> Prop :=
  | word_first t : (ap_getword_conf t).1 <> "" -> require_word t (ap_getword_conf t).1
  | word_later t w : (ap_getword_conf t).1 <> "" -> require_word (ap_getword_conf t).2 w -> require_word t w.

Lemma require_loop_spec {J : Jansson} {G : GetwordConf} {GS : GetwordConfSpec G} fn claims (D : string -> Prop) fuel t :
  (forall w, exists b, fn w claims = Some b /\ (b = true <-> D w)) -> (String.length t < fuel)%nat ->
  exists b, require_loop fn claims fuel t = Some b /\ (b = true <-> exists w, require_word t w /\ D w).
Proof.
  intros Hfn. revert t. induction fuel as [|fuel IH]; intros t Hf; [lia|]. cbn [require_loop].
  pose proof (getword_conf_shorter t) as Hs. pose proof (word_first t) as H1. pose proof (word_later t) as H2.
  assert (H3 : forall w, require_word t w -> (ap_getword_conf t).1 <> "" /\
    (w = (ap_getword_conf t).1 \/ require_word (ap_getword_conf t).2 w)) by (intros w Hw; destruct Hw; auto).
  destruct (ap_getword_conf t) as [w t']. cbn [fst snd] in *. destruct (String.eqb_spec w "") as [->|Hw].
  { exists false. split; [done|]. split; [done|]. intros (w & Hw & _). by apply H3 in Hw as [? _]. }
  destruct (Hfn w) as (b & -> & Hb). cbn [mbind option_bind]. destruct b.
  - exists true. split; [done|]. split; [|done]. intros _. exists w. split; [by apply H1|by apply Hb].
  - destruct (IH t') as (b & -> & IHb); [specialize (Hs Hw); lia|]. exists b. split; [done|]. rewrite IHb. split.
    + intros (v & ? & ?). exists v. split; [by apply H2|done].
    + intros (v & Hv & HD). apply H3 in Hv as [_ [->|?]]; [|by exists v]. by apply Hb in HD.
Qed.

(** A request is authorized only for a user, and exactly when one of the specifications of the directive matches
    the claims; otherwise the request is denied and, unless there are no claims or the directive cannot be
    evaluated, the directive is recorded for error pages. *)
Theorem authz_worker_spec {J : Jansson} {JS : JanssonSpec J} {P : Pcre} {F : Scanf} {G : GetwordConf} {GS : GetwordConfSpec G}
  (r : request) (claims : option json_t) (require_args : string) (expr : option (request -> option string)) :
  exists st r', oidc_authz_24_worker r claims require_args expr oidc_authz_match_claim = Some (st, r') /\
    (st = AUTHZ_GRANTED <-> r_user r <> None /\ exists c t w, claims = Some c /\
       (match expr with Some e => e r | None => Some require_args end) = Some t /\ require_word t w /\ claim_matches w c) /\
    (st = AUTHZ_DENIED_NO_USER <-> r_user r = None) /\ (st = AUTHZ_GRANTED -> r' = r).
Proof.
  unfold oidc_authz_24_worker. destruct (r_user r) as [u|] eqn:Hu; [|eexists _, _; split; [reflexivity|]; naive_solver].
  destruct claims as [c|]; cbn [nonnull negb]; [|eexists _, _; split; [reflexivity|]; naive_solver].
  destruct (match expr with Some e => e r | None => Some require_args end) as [t|]; [|eexists _, _; split; [reflexivity|]; naive_solver].
  destruct (require_loop_spec oidc_authz_match_claim (Some c) (fun w => claim_matches w c) (S (String.length t)) t) as (b & -> & Hb).
  { intros w. apply match_claim_decides. lia. }
  { lia. }
  cbn [mbind option_bind]. destruct b; eexists _, _; (split; [reflexivity|]); naive_solver.
Qed.

(** The claims to authorize on: those of the ID token take precedence over those of the userinfo endpoint, and both over
    the scope. *)
Theorem authz_claims_precedence {J : Jansson} {JS : JanssonSpec J} (r : request) (claims id_token : option json_t) (key : string) :
  oidc_json_object_get (Some (oidc_authz_merge_claims r claims id_token)) key =
  match oidc_json_object_get id_token key with
  | Some v => Some v
  | None =>
      match oidc_json_object_get claims key with
      | Some v => Some v
      | None => if String.eqb key OIDC_CLAIM_SCOPE then oidc_json_string (oidc_request_state_get r OIDC_REQUEST_STATE_KEY_SCOPE) else None
      end
  end.
Proof.
  unfold oidc_authz_merge_claims. cbv zeta.
  set (base := match oidc_request_state_get r OIDC_REQUEST_STATE_KEY_SCOPE with Some _ => _ | None => _ end).
  assert (Hb : json_typeof base = JSON_OBJECT /\ oidc_json_object_get (Some base) key =
    if String.eqb key OIDC_CLAIM_SCOPE then oidc_json_string (oidc_request_state_get r OIDC_REQUEST_STATE_KEY_SCOPE) else None).
  { unfold base, oidc_json_object_set_new. destruct (oidc_request_state_get r _) as [s|]; cbn [oidc_json_string].
    - split; [apply object_set_object, object_new|]. destruct (String.eqb_spec key OIDC_CLAIM_SCOPE) as [->|Hne].
      + destruct (json_string s); [apply object_get_set_eq; [apply object_new|by apply utf8_ascii]|apply object_get_new].
      + rewrite object_get_set_ne by done. apply object_get_new.
    - split; [apply object_new|]. rewrite object_get_new. by destruct (String.eqb _ _). }
  clearbody base. destruct Hb as [Hb <-].
  assert (Hm : forall (src : option json_t) dst, json_typeof dst = JSON_OBJECT ->
    let d := match src with Some _ => default dst (oidc_json_merge src (Some dst)).2 | None => dst end in
    json_typeof d = JSON_OBJECT /\ oidc_json_object_get (Some d) key =
      match oidc_json_object_get src key with Some v => Some v | None => oidc_json_object_get (Some dst) key end).
  { intros [src|] dst Hd; cbv zeta; [|done]. destruct (json_merge_override src dst key Hd) as (d & -> & Ho & Hg). done. }
  destruct (Hm claims base Hb) as [Hc <-]. by destruct (Hm id_token _ Hc) as [_ <-].
Qed.

(** ** Witnesses *)

(** Regular expressions as substrings. *)
Module AuthzModel.
#[export] Instance pcre_model : Pcre := {| pcre := string; pcre_compile s := Some s; pcre_exec p s := nonnull (strstr s p) |}.
#[export] Instance scanf : Scanf := {| sscanf_lf s := z ← sscanf_lld s; Some (Fin (inject_Z z)) |}.
#[export] Instance getword_conf : GetwordConf := {| ap_getword_conf := HttpdModel.getword_white |}.
#[global] Instance getword_conf_spec : GetwordConfSpec getword_conf.
Proof.
  split. intros [|c l] Hw; [by destruct Hw|]. by apply (getword_white_shorter (H:=HttpdModel.httpd) (String c l)).
Qed.
End AuthzModel.

Section demo.
#[local] Existing Instances Model.jansson AuthzModel.pcre_model AuthzModel.scanf AuthzModel.getword_conf.

Definition demo_user_claims : Model.jv :=
  Model.JObj [("sub", Model.JStr "joe"); ("groups", Model.JArr [Model.JStr "staff"; Model.JStr "admin"]);
    ("address", Model.JObj [("country", Model.JStr "NL")])].
Definition demo_user_request : request := with_user (Some "joe") demo_request.

(** An element of a list, and a member of a nested object. *)
Lemma match_claim_spec_witness :
  oidc_authz_match_claim "groups:admin" (Some demo_user_claims) = Some true /\ claim_matches "groups:admin" demo_user_claims /\
  ~ claim_matches "address.country:BE" demo_user_claims.
Proof.
  assert (E : oidc_authz_match_claim "groups:admin" (Some demo_user_claims) = Some true) by reflexivity.
  split; [exact E|]. split.
  - destruct (match_claim_spec (JS:=Model.jansson_spec) "groups:admin" demo_user_claims) as (b & E' & Hb).
    pose proof (eq_trans (eq_sym E') E) as [= ->]. by apply Hb.
  - destruct (match_claim_spec (JS:=Model.jansson_spec) "address.country:BE" demo_user_claims) as (b & E' & Hb).
    assert (E2 : oidc_authz_match_claim "address.country:BE" (Some demo_user_claims) = Some false) by reflexivity.
    pose proof (eq_trans (eq_sym E') E2) as [= ->]. intros Hc. by apply Hb in Hc.
Defined.

Lemma authz_worker_spec_witness : exists w, require_word "sub:jane address.country:NL" w /\ claim_matches w demo_user_claims.
Proof.
  destruct (authz_worker_spec (JS:=Model.jansson_spec) (GS:=AuthzModel.getword_conf_spec) demo_user_request (Some demo_user_claims)
    "sub:jane address.country:NL" None) as (st & r' & E & Hg & _).
  assert (E2 : fst <$> oidc_authz_24_worker demo_user_request (Some demo_user_claims) "sub:jane address.country:NL" None
    oidc_authz_match_claim = Some AUTHZ_GRANTED) by reflexivity.
  assert (E3 : fst <$> Some (st, r') = Some AUTHZ_GRANTED) by exact (eq_trans (f_equal (fmap fst) (eq_sym E)) E2).
  injection E3 as ->. destruct (proj1 Hg eq_refl) as (_ & c & t & w & [= <-] & [= <-] & Hw & Hm). by exists w.
Defined.

Lemma authz_claims_precedence_witness :
  oidc_json_object_get (Some (oidc_authz_merge_claims demo_request (Some (Model.JObj [("iss", Model.JStr "evil"); ("x", Model.JInt 1)]))
    (Some (Model.JObj [("iss", Model.JStr "op")])))) "iss" = Some (Model.JStr "op").
Proof. apply (authz_claims_precedence (JS:=Model.jansson_spec)). Defined.
End demo.
