(* ===== verification/Redirect.v ===== *)
(** * src/mod_auth_openidc.c: URLs that a user may be sent to

    A parameter of a request names a URL to go to after logging out or refreshing; it must not lead elsewhere. *)

From S2P Require Import Prelude Cstr Apr StrUtil Http Cookie Url World Authz.
#[local] Open Scope Z_scope.

Definition OIDC_MAX_URL_LENGTH : Z := 8192 * 2.

(** The values of [oidc_redirect_url_scope_t] (src/mod_auth_openidc.h). *)
Inductive oidc_redirect_url_scope_t := OIDC_REDIRECT_URL_ANY_HOST | OIDC_REDIRECT_URL_SAME_HOST.
#[export] Instance redirect_url_scope_eq_dec : EqDecision oidc_redirect_url_scope_t.
Proof. solve_decision. Defined.

(** [TRUE], or [FALSE] with [*err_str] and [*err_desc]. *)
Inductive validation := Valid | Invalid (err_str err_desc : string).

(** The backslashes are slashes. *)
Definition slashes (url : string) : string := str_map (fun ch => if Ascii.eqb ch "\" then "/"%char else ch) url.

Definition LF1 : string := String (Ascii.ascii_of_nat 10) "".
Definition CR1 : string := String (Ascii.ascii_of_nat 13) "".
Definition TAB1 : string := String (Ascii.ascii_of_nat 9) "".
Definition quoted (s : string) : string := DQ ^^ s ^^ DQ.

(** The needles, and whether they are searched for in any case. *)
Definition _oidc_redirect_url_illegal_substrings : list (string * bool) :=
  [("/%09", false); ("/%2f", true); ("/" ^^ TAB1, false); ("/%68", false);
   ("/http:", true); ("/https:", true); ("/javascript:", true); ("%01javascript:", true);
   ("/〱", false); ("/〵", false); ("/ゝ", false); ("/ー", false);
   ("/ｰ", false); ("/<", false); ("/%5c", false); ("/\", false)].

Section redirect.
Context {H : Httpd} {P : Pcre}.
(** [apr_uri_unparse]. *)
Variable apr_uri_unparse : apr_uri_t -> string.
(** [X-Forwarded-*] headers to use, and OIDCRedirectURLsAllowed. *)
Variables (x_forwarded_headers : Z) (redirect_urls_allowed : option (gset string)).

(** [oidc_util_regexp_first_match] of src/util/expr.c, when no output is asked for. *)
Definition oidc_util_regexp_first_match (input regexp : string) : bool :=
  match pcre_compile regexp with Some preg => pcre_exec preg input | None => false end.

Definition oidc_validate_redirect_url_allowed (allowed : gset string) (url : string) : validation :=
  if existsb (oidc_util_regexp_first_match url) (elements allowed) then Valid
  else Invalid "URL not allowed" ("value does not match the list of allowed redirect URLs: " ^^ url).

Definition oidc_validate_redirect_url_host (r : request) (uri : apr_uri_t) (hostname : string) : option validation :=
  c_host ← oidc_util_url_cur_host r x_forwarded_headers;
  let url_ipv6_aware := if nonnull (strchr hostname ":") then "[" ^^ hostname ^^ "]" else hostname in
  Some (if _oidc_strnatcasecmp (Some c_host) (Some url_ipv6_aware) =? 0 then Valid
        else Invalid "Invalid Request" ("URL value " ^^ quoted (apr_uri_unparse uri) ^^
               " does not match the hostname of the current request " ^^ quoted c_host)).

Definition starts_with (url prefix : string) : bool := bool_decide (_oidc_strstr (Some url) (Some prefix) = Some 0%nat).

Definition oidc_validate_redirect_url_relative (url : string) : validation :=
  if negb (starts_with url "/") then
    Invalid "Malformed URL" ("No hostname was parsed and it does not seem to be relative, i.e starting with '/': " ^^ url)
  else if starts_with url "//" then Invalid "Malformed URL" ("No hostname was parsed and starting with '//': " ^^ url)
  else if starts_with url "/\" then Invalid "Malformed URL" ("No hostname was parsed and starting with '/\': " ^^ url)
  else Valid.

(** The loop over the needles; the [option] is the fuel of the search. *)
Fixpoint illegal_loop (url : string) (needles : list (string * bool)) : option bool :=
  match needles with
  | [] => Some false
  | (needle, case_insensitive) :: needles =>
      found ← (if (case_insensitive : bool) then oidc_util_strcasestr (Some url) (Some needle)
               else Some (_oidc_strstr (Some url) (Some needle)));
      if nonnull found then Some true else illegal_loop url needles
  end.

Definition oidc_validate_redirect_url_chars (url : string) : option validation :=
  if nonnull (_oidc_strstr (Some url) (Some LF1)) || nonnull (_oidc_strstr (Some url) (Some CR1)) then
    Some (Invalid "Invalid URL" ("URL value " ^^ quoted url ^^ " contains illegal " ^^ quoted LF1 ^^ " or " ^^ quoted CR1 ^^
            " character(s)"))
  else
    illegal ← illegal_loop url _oidc_redirect_url_illegal_substrings;
    Some (if (illegal : bool) then Invalid "Invalid URL" ("URL value " ^^ quoted url ^^ " contains illegal character(s)") else Valid).

Definition oidc_validate_redirect_url (r : request) (redirect_to_url : option string) (scope : oidc_redirect_url_scope_t)
  : option validation :=
  match redirect_to_url with
  | None => Some (Invalid "Invalid URL" "URL value is NULL")
  | Some redirect_to_url =>
      if OIDC_MAX_URL_LENGTH <? zlen redirect_to_url then
        Some (Invalid "URL too long" ("URL value exceeds the maximum length of " ^^ pretty OIDC_MAX_URL_LENGTH ^^ " bytes"))
      else
        let url := slashes redirect_to_url in
        match apr_uri_parse url with
        | None => Some (Invalid "Malformed URL" ("not a valid URL value: " ^^ url))
        | Some uri =>
            first ← (match redirect_urls_allowed, uri_hostname uri with
                     | Some allowed, _ => Some (oidc_validate_redirect_url_allowed allowed url)
                     | None, Some hostname =>
                         if decide (scope = OIDC_REDIRECT_URL_SAME_HOST) then oidc_validate_redirect_url_host r uri hostname else Some Valid
                     | None, None => Some Valid
                     end);
            match first with
            | Invalid _ _ => Some first
            | Valid =>
                match uri_hostname uri, oidc_validate_redirect_url_relative url with
                | None, Invalid s d => Some (Invalid s d)
                | _, _ => oidc_validate_redirect_url_chars url
                end
            end
        end
  end.

(** ** What makes a URL acceptable *)

(** No backslash is left, no line is broken, and no byte sequence of the table occurs: exactly, or in any case for those that are marked so. *)
Definition harmless (url : string) : Prop :=
  strchr url "\" = None /\ strchr url "010" = None /\ strchr url "013" = None /\
  forall needle ci, (needle, ci) ∈ _oidc_redirect_url_illegal_substrings ->
    (if (ci : bool) then ci_find url needle else strstr url needle) = None.

(** A path on this host: one slash, and no second one that would start an authority. *)
Definition local_path (url : string) : Prop :=
  exists path, url = "/" ^^ path /\ str_prefix "/" path = false /\ str_prefix "\" path = false.

(** The URL leads to a host that is agreed to. *)
Definition destination_ok (r : request) (scope : oidc_redirect_url_scope_t) (url : string) (uri : apr_uri_t) : Prop :=
  match redirect_urls_allowed with
  | Some allowed => exists regexp, regexp ∈ allowed /\ oidc_util_regexp_first_match url regexp = true
  | None =>
      scope = OIDC_REDIRECT_URL_SAME_HOST -> forall hostname, uri_hostname uri = Some hostname ->
      exists c_host, oidc_util_url_cur_host r x_forwarded_headers = Some c_host /\
        apr_strnatcasecmp c_host (if nonnull (strchr hostname ":") then "[" ^^ hostname ^^ "]" else hostname) = 0
  end.

Definition acceptable (r : request) (scope : oidc_redirect_url_scope_t) (redirect_to_url : string) : Prop :=
  let url := slashes redirect_to_url in
  zlen redirect_to_url <= OIDC_MAX_URL_LENGTH /\
  exists uri, apr_uri_parse url = Some uri /\ destination_ok r scope url uri /\
    (uri_hostname uri = None -> local_path url) /\ harmless url.

(** ** The checks, one by one *)

Lemma strstr_byte s c : nonnull (strstr s (String c "")) = nonnull (strchr s c).
Proof.
  induction s as [|d s IH]; [done|]. cbn [strstr strchr str_prefix]. rewrite andb_true_r.
  destruct (Ascii.eqb_spec d c) as [->|]; [by rewrite Ascii.eqb_refl|]. destruct (Ascii.eqb_spec c d); [congruence|].
  rewrite <- IH. by destruct (strstr s _).
Qed.

Lemma allowed_valid allowed url :
  oidc_validate_redirect_url_allowed allowed url = Valid <->
  exists regexp, regexp ∈ allowed /\ oidc_util_regexp_first_match url regexp = true.
Proof.
  unfold oidc_validate_redirect_url_allowed. pose proof (List.existsb_exists (oidc_util_regexp_first_match url) (elements allowed)) as He.
  setoid_rewrite <- list_elem_of_In in He. setoid_rewrite elem_of_elements in He. rewrite <- He.
  by destruct (existsb _ _).
Qed.

Lemma host_valid r uri hostname :
  exists v, oidc_validate_redirect_url_host r uri hostname = Some v /\
    (v = Valid <-> exists c_host, oidc_util_url_cur_host r x_forwarded_headers = Some c_host /\
       apr_strnatcasecmp c_host (if nonnull (strchr hostname ":") then "[" ^^ hostname ^^ "]" else hostname) = 0).
Proof.
  unfold oidc_validate_redirect_url_host. destruct (cur_host_total r x_forwarded_headers) as [c_host ->].
  cbn [mbind option_bind _oidc_strnatcasecmp]. eexists. split; [done|].
  case_match eqn:E; (split; [intros ?|intros (? & [= <-] & ?)]); try done; try lia. exists c_host. split; [done|lia].
Qed.

Lemma starts_with_prefix url prefix : starts_with url prefix = str_prefix prefix url.
Proof.
  unfold starts_with. cbn [_oidc_strstr]. apply eq_true_iff_eq. rewrite bool_decide_eq_true. apply strstr_zero.
Qed.

Lemma prefix_step c p d s : str_prefix (String c p) (String d s) = Ascii.eqb c d && str_prefix p s.
Proof. done. Qed.

Lemma relative_valid url : oidc_validate_redirect_url_relative url = Valid <-> local_path url.
Proof.
  unfold oidc_validate_redirect_url_relative, local_path. rewrite !starts_with_prefix.
  destruct url as [|c url]; [split; [done|by intros (? & ? & ?)]|]. rewrite !prefix_step.
  change (str_prefix "" url) with true.
  destruct (Ascii.eqb_spec "/" c) as [<-|Hc]; cbn [andb negb].
  - split.
    + intros Hv. exists url. by destruct (str_prefix "/" url), (str_prefix "\" url).
    + by intros (path & [= <-] & -> & ->).
  - split; [done|]. intros (path & [= -> ->] & _). done.
Qed.

Lemma found_total url needle ci :
  (if (ci : bool) then oidc_util_strcasestr (Some url) (Some needle) else Some (_oidc_strstr (Some url) (Some needle))) =
  Some (if ci then ci_find url needle else strstr url needle).
Proof. destruct ci; [apply strcasestr_spec|done]. Qed.

Lemma illegal_total url needles :
  exists b, illegal_loop url needles = Some b /\
    (b = false <-> forall needle ci, (needle, ci) ∈ needles ->
       (if (ci : bool) then ci_find url needle else strstr url needle) = None).
Proof.
  induction needles as [|[needle ci] needles (b & IHe & IH)]; cbn [illegal_loop].
  - exists false. split; [done|]. split; [intros _ ? ? Hin; by apply elem_of_nil in Hin|done].
  - rewrite (found_total url needle ci).
    cbn [mbind option_bind]. destruct (if ci then _ else _) as [n|] eqn:E; cbn [nonnull].
    + exists true. split; [done|]. split; [done|]. intros Hall. by rewrite (Hall needle ci (list_elem_of_here _ _)) in E.
    + exists b. split; [done|]. rewrite IH. setoid_rewrite elem_of_cons. split; [|naive_solver].
      intros Hall n' ci' [[= -> ->]|Hin]; [done|by apply Hall].
Qed.

Lemma line_breaks : LF1 = String "010" "" /\ CR1 = String "013" "".
Proof. done. Qed.

Lemma slashes_only url : strchr (slashes url) "\" = None.
Proof.
  induction url as [|c url IH]; [done|]. cbn [slashes str_map strchr]. fold (slashes url).
  destruct (Ascii.eqb_spec c "\") as [->|Hc]; [exact IH|]. by destruct (Ascii.eqb_spec c "\").
Qed.

Lemma chars_valid u (url := slashes u) :
  exists v, oidc_validate_redirect_url_chars url = Some v /\ (v = Valid <-> harmless url).
Proof.
  pose proof (slashes_only u : strchr url "\" = None) as Hb0. clearbody url.
  unfold oidc_validate_redirect_url_chars. cbn [_oidc_strstr].
  rewrite !(proj1 line_breaks), !(proj2 line_breaks), !strstr_byte.
  destruct (strchr url "010") eqn:El; [|destruct (strchr url "013") eqn:Ec]; cbn [nonnull fmap option_fmap option_map orb];
    [by eexists; split; [done|]; split; [done|]; intros (? & ? & ? & ?); congruence..|].
  destruct (illegal_total url _oidc_redirect_url_illegal_substrings) as (b & -> & Hb). cbn [mbind option_bind].
  eexists. split; [done|]. unfold harmless. rewrite Hb0, El, Ec, <- Hb. destruct b; naive_solver.
Qed.

(** The whole check. *)
Lemma redirect_url_spec (r : request) (scope : oidc_redirect_url_scope_t) (redirect_to_url : string) :
  exists v, oidc_validate_redirect_url r (Some redirect_to_url) scope = Some v /\
    (v = Valid <-> acceptable r scope redirect_to_url).
Proof.
  unfold oidc_validate_redirect_url, acceptable. cbv zeta. case_match eqn:El.
  { eexists. split; [done|]. split; [done|]. lia. }
  destruct (apr_uri_parse _) as [uri|] eqn:Eu; [|eexists; split; [done|]; naive_solver].
  set (url := slashes redirect_to_url).
  enough (exists first, match redirect_urls_allowed, uri_hostname uri with
            | Some allowed, _ => Some (oidc_validate_redirect_url_allowed allowed url)
            | None, Some hostname =>
                if decide (scope = OIDC_REDIRECT_URL_SAME_HOST) then oidc_validate_redirect_url_host r uri hostname else Some Valid
            | None, None => Some Valid
            end = Some first /\ (first = Valid <-> destination_ok r scope url uri)) as (first & -> & Hf).
  - cbn [mbind option_bind]. destruct (chars_valid redirect_to_url) as (v & Ev & Hv). fold url in Ev, Hv. pose proof (relative_valid url) as Hr.
    destruct first; [|eexists; split; [done|]; naive_solver].
    destruct (uri_hostname uri) as [h|] eqn:Eh; [|destruct (oidc_validate_redirect_url_relative url)].
    + exists v. split; [done|]. rewrite Hv. split; [|naive_solver].
      intros ?. split; [lia|]. exists uri. rewrite Eh. naive_solver.
    + exists v. split; [done|]. rewrite Hv. split; [|naive_solver].
      intros ?. split; [lia|]. exists uri. naive_solver.
    + eexists. split; [done|]. split; [done|]. intros (_ & ? & [= <-] & _ & Hp & _). naive_solver.
  - unfold destination_ok. destruct redirect_urls_allowed as [allowed|].
    { eexists. split; [done|]. apply allowed_valid. }
    destruct (uri_hostname uri) as [h|]; [|eexists; split; [done|]; naive_solver].
    destruct (decide _) as [->|]; [|eexists; split; [done|]; naive_solver].
    destruct (host_valid r uri h) as (v & -> & Hv). exists v. split; [done|]. rewrite Hv. naive_solver.
Qed.

Lemma validate_redirect_total (r : request) u scope : is_Some (oidc_validate_redirect_url r u scope).
Proof. destruct u as [u|]; [|by eexists]. destruct (redirect_url_spec r scope u) as (v & -> & _). by eexists. Qed.

(** C30: the function always returns, and it accepts exactly the URLs that are acceptable. *)
Theorem validate_redirect_url_spec (r : request) (scope : oidc_redirect_url_scope_t) (redirect_to_url : string) :
  exists v, oidc_validate_redirect_url r (Some redirect_to_url) scope = Some v /\
    (v = Valid <-> acceptable r scope redirect_to_url).
Proof.
  destruct (redirect_url_spec r scope redirect_to_url) as (v & E & Hv). exists v. split; [exact E|]. exact Hv.
Qed.
End redirect.

(** ** Some URLs *)

Section demo.
#[local] Existing Instances AuthzModel.pcre_model HttpdModel.httpd.

Example redirect_examples :
  (fun u => bool_decide (is_Some (v ← oidc_validate_redirect_url (fun u => default "" (uri_path u)) OIDC_HDR_NONE None demo_request
       (Some u) OIDC_REDIRECT_URL_SAME_HOST; match v with Valid => Some tt | _ => None end))) <$>
    ["/"; "/a?b=c"; "//evil.example.com"; "/\evil.example.com"; "\\evil.example.com"; "a"; "/%2Fevil.example.com"; "/<"] =
  [true; true; false; false; false; false; false; false].
Proof. vm_compute. reflexivity. Qed.
End demo.
