(* ===== verification/AppInfo.v ===== *)
(** * src/util/appinfo.c: passing claims to the application

    Claims become request headers or environment variables: a name that is legal in a header, and a value that is a
    string for every type of JSON. *)

From S2P Require Import Prelude Cstr Apr StrUtil Jansson Json Http Base64.
From Stdlib Require Import QArith Qabs.
From stdpp Require Import pretty.
#[local] Open Scope Z_scope.

Definition OIDC_APPINFO_PASS_NONE : Z := 0.
Definition OIDC_APPINFO_PASS_HEADERS : Z := 1.
Definition OIDC_APPINFO_PASS_ENVVARS : Z := 2.
Definition OIDC_APPINFO_ENCODING_NONE : Z := 0.
Definition OIDC_APPINFO_ENCODING_BASE64URL : Z := 1.
Definition OIDC_APPINFO_ENCODING_LATIN1 : Z := 2.

(** ** The character set *)

(** [cp] is an unsigned int, from the characters before; a continuation byte follows or the character is complete. *)
Fixpoint latin1_loop (src : string) (cp : Z) : string :=
  match src with
  | "" => ""
  | String c src =>
      let ch := code c in
      let cp :=
        if ch <=? 0x7f then ch
        else if ch <=? 0xbf then Z.lor (u32 (Z.shiftl cp 6)) (Z.land ch 0x3f)
        else if ch <=? 0xdf then Z.land ch 0x1f
        else if ch <=? 0xef then Z.land ch 0x0f
        else Z.land ch 0x07 in
      let next := match src with String d _ => code d | "" => 0 end in
      if negb (Z.land next 0xc0 =? 0x80) && (cp <=? 0x10ffff)
      then String (if cp <=? 255 then ascii_of_Z cp else "?"%char) (latin1_loop src cp)
      else latin1_loop src cp
  end.
Definition _oidc_util_appinfo_utf8_to_latin1 (src : option string) : option string :=
  s ← src; Some (latin1_loop s 0).

(** ** printf *)

(** The number of digits of a positive number, and trailing zeros taken off. *)
Definition digits (n : Z) : Z := zlen (pretty n).
Fixpoint strip_zeros (s : string) : string :=
  match s with
  | "" => ""
  | String c s => match strip_zeros s with "" => if Ascii.eqb c "0" then "" else String c "" | t => String c t end
  end.
Fixpoint zeros (n : nat) : string := match n with O => "" | S n => String "0" (zeros n) end.
Definition with_point (whole fraction : string) : string :=
  match strip_zeros fraction with "" => whole | f => whole ^^ "." ^^ f end.

(** To the nearest integer, ties to even. *)
Definition round_half_even (n d : Z) : Z :=
  let q := n / d in
  let rest := n mod d in
  if (d <? 2 * rest) || ((2 * rest =? d) && Z.odd q) then q + 1 else q.

(** A positive number with [prec] significant digits: the digits as a number, and the exponent of the first one. *)
Definition significant (prec : Z) (q : Q) : Z * Z :=
  let n := Qnum q in
  let d := Zpos (Qden q) in
  let x := digits n - digits d in
  let x := if d * 10 ^ Z.max 0 x <=? n * 10 ^ Z.max 0 (- x) then x else x - 1 in
  let m := round_half_even (n * 10 ^ Z.max 0 (prec - 1 - x)) (d * 10 ^ Z.max 0 (x - (prec - 1))) in
  if m =? 10 ^ prec then (10 ^ (prec - 1), x + 1) else (m, x).

(** [printf("%.<prec>g")]; a JSON number has no sign of zero here. *)
Definition format_g (prec : Z) (q : Q) : string :=
  if Qnum q =? 0 then "0"
  else
    let sign := if Qnum q <? 0 then "-" else "" in
    let '(m, x) := significant prec (Qabs q) in
    let ds := pretty m in
    if (x <? -4) || (prec <=? x) then
      let e := pretty (Z.abs x) in
      sign ^^ with_point (str_take 1 ds) (str_drop 1 ds) ^^ (if x <? 0 then "e-" else "e+") ^^
      (if zlen e <? 2 then "0" else "") ^^ e
    else if x <? 0 then sign ^^ with_point "0" (zeros (Z.to_nat (- x - 1)) ^^ ds)
    else sign ^^ with_point (str_take (Z.to_nat (x + 1)) ds) (str_drop (Z.to_nat (x + 1)) ds).

(** ** Values *)

(** The loop over [s_value] with the length of the delimiter left to copy. *)
Fixpoint escape_loop (claim_delimiter s_value : string) (copy : nat) : string :=
  match s_value with
  | "" => ""
  | String c rest =>
      match copy with
      | S copy => String c (escape_loop claim_delimiter rest copy)
      | O =>
          if Ascii.eqb c "\" then String "\" (String c (escape_loop claim_delimiter rest 0))
          else if str_prefix claim_delimiter s_value
          then String "\" (String c (escape_loop claim_delimiter rest (String.length claim_delimiter - 1)))
          else String c (escape_loop claim_delimiter rest 0)
      end
  end.
Definition oidc_util_appinfo_escape (claim_delimiter s_value : string) : string :=
  if String.eqb claim_delimiter "" then s_value else escape_loop claim_delimiter s_value 0.

(** The elements that are joined, from the last to the first; the ones at the front that are empty are left out. *)
Fixpoint array_elems {J : Jansson} (claim_delimiter : string) (elems : list json_t) (acc : list string) : list string :=
  match elems with
  | [] => rev acc
  | elem :: elems =>
      let e := Some elem in
      match (if oidc_json_is_string e then oidc_json_string_value e
             else if oidc_json_is_boolean e then Some (if oidc_json_is_true e then "1" else "0")
             else None) with
      | None => array_elems claim_delimiter elems acc
      | Some s_elem =>
          let s_elem := oidc_util_appinfo_escape claim_delimiter s_elem in
          match acc, s_elem with
          | [], "" => array_elems claim_delimiter elems acc
          | _, _ => array_elems claim_delimiter elems (s_elem :: acc)
          end
      end
  end.
Definition oidc_util_appinfo_array_concat {J : Jansson} (j_array : json_t) (claim_delimiter : string) : string :=
  Cstr.join claim_delimiter (array_elems claim_delimiter (json_array_items j_array) []).

(** ** Headers and environment variables *)

(** [apr_table_overlap] with [APR_OVERLAP_TABLES_SET]: a name that occurs more than once keeps its first place and its
    last value. *)
Definition apr_table_overlap_set (a b : table) : table := fold_left (fun t kv => apr_table_set t kv.1 kv.2) (a ++ b) [].

Section appinfo.
Context {J : Jansson} {B64 : Base64}.

Definition oidc_util_appinfo_render (s_key : string) (s_value : option string) (claim_prefix : string) (encoding : Z)
  : string * option string :=
  let r_name := claim_prefix ^^ oidc_http_hdr_normalize_name s_key in
  let d_value :=
    match s_value with
    | Some v =>
        if encoding =? OIDC_APPINFO_ENCODING_BASE64URL then (oidc_util_base64url_encode (Some v) (zlen v) OIDC_BASE64URL_PADDING_STRIP).2
        else if encoding =? OIDC_APPINFO_ENCODING_LATIN1 then _oidc_util_appinfo_utf8_to_latin1 (Some v)
        else None
    | None => None
    end in
  (r_name, match d_value with Some _ => d_value | None => s_value end).

(** Without the tables that collect, [None]. *)
Record oidc_appinfo_ctx_t := mk_ctx {
  claim_prefix : string;
  claim_delimiter : string;
  pass_in : Z;
  encoding : Z;
  ctx_headers : option table;
  ctx_env : option table
}.

(** A variable whose value is [NULL] reads as one that is not set. *)
Definition table_set_null (t : table) (k : string) (v : option string) : table :=
  match v with Some v => apr_table_set t k v | None => apr_table_unset t k end.

Definition oidc_util_appinfo_pair_apply (r : request) (s_name : string) (s_value : option string) (ctx : oidc_appinfo_ctx_t)
  : request * oidc_appinfo_ctx_t :=
  let batched := (nonnull (ctx_headers ctx) || nonnull (ctx_env ctx)) && nonnull s_value in
  let v := default "" s_value in
  let '(r, ctx) :=
    if negb (Z.land (pass_in ctx) OIDC_APPINFO_PASS_HEADERS =? 0) then
      if batched
      then (r, mk_ctx (claim_prefix ctx) (claim_delimiter ctx) (pass_in ctx) (encoding ctx)
                 (Some (oidc_http_hdr_table_add (default [] (ctx_headers ctx)) s_name v)) (ctx_env ctx))
      else (oidc_http_hdr_in_set r s_name s_value, ctx)
    else (r, ctx) in
  if negb (Z.land (pass_in ctx) OIDC_APPINFO_PASS_ENVVARS =? 0) then
    if batched
    then (r, mk_ctx (claim_prefix ctx) (claim_delimiter ctx) (pass_in ctx) (encoding ctx) (ctx_headers ctx)
               (Some (apr_table_add (default [] (ctx_env ctx)) s_name v)))
    else (with_subprocess_env (table_set_null (subprocess_env r) s_name s_value) r, ctx)
  else (r, ctx).

Definition oidc_util_appinfo_set_impl (r : request) (s_key : string) (s_value : option string) (ctx : oidc_appinfo_ctx_t)
  : request * oidc_appinfo_ctx_t :=
  let '(s_name, s_rendered) := oidc_util_appinfo_render s_key s_value (claim_prefix ctx) (encoding ctx) in
  oidc_util_appinfo_pair_apply r s_name s_rendered ctx.

Definition oidc_util_appinfo_set (r : request) (s_key : string) (s_value : option string) (claim_prefix : string)
  (pass_in encoding : Z) : request :=
  (oidc_util_appinfo_set_impl r s_key s_value (mk_ctx claim_prefix "" pass_in encoding None None)).1.

(** The text of a value; [None] for a type that is not passed. *)
Definition appinfo_value (j_value : json_t) (claim_delimiter : string) : option (option string) :=
  let j := Some j_value in
  if oidc_json_is_string j then Some (oidc_json_string_value j)
  else if oidc_json_is_boolean j then Some (Some (if oidc_json_is_true j then "1" else "0"))
  else if oidc_json_is_integer j then Some (Some (pretty (oidc_json_integer_value j)))
  else if oidc_json_is_real j then Some (Some (format_g 8 (oidc_json_real_value j)))
  else if oidc_json_is_object j then Some (oidc_json_encode j (Z.lor OIDC_JSON_PRESERVE_ORDER OIDC_JSON_COMPACT))
  else if oidc_json_is_array j then Some (Some (oidc_util_appinfo_array_concat j_value claim_delimiter))
  else None.

Definition oidc_util_appinfo_set_one (r : request) (s_key : string) (j_value : json_t) (ctx : oidc_appinfo_ctx_t)
  : request * oidc_appinfo_ctx_t :=
  match appinfo_value j_value (claim_delimiter ctx) with
  | Some s => oidc_util_appinfo_set_impl r s_key s ctx
  | None => (r, ctx)
  end.

Definition oidc_util_appinfo_set_all (r : request) (j_attrs : option json_t) (claim_prefix claim_delimiter : string)
  (pass_in encoding : Z) : request :=
  match j_attrs with
  | None => r
  | Some _ =>
      let flag f := negb (Z.land pass_in f =? 0) in
      let ctx := mk_ctx claim_prefix claim_delimiter pass_in encoding
                   (if flag OIDC_APPINFO_PASS_HEADERS then Some [] else None)
                   (if flag OIDC_APPINFO_PASS_ENVVARS then Some [] else None) in
      let '(r, ctx) := fold_left (fun '(r, ctx) '(k, v) => oidc_util_appinfo_set_one r k v ctx) (oidc_json_object_iter j_attrs) (r, ctx) in
      let r := match ctx_headers ctx with Some t => with_headers_in (apr_table_overlap_set (headers_in r) t) r | None => r end in
      match ctx_env ctx with Some t => with_subprocess_env (apr_table_overlap_set (subprocess_env r) t) r | None => r end
  end.
End appinfo.

(** Against printf. *)
Example format_g_examples :
  map (format_g 8) [1 # 10; 3 # 2; -(5 # 2); 100000000 # 1; 123456789 # 1; 12345678 # 1; 1 # 3; 2 # 30000; 1 # 100000; 999999995 # 10; 9999999949 # 100;
    1 # (10 ^ 20); 5 # 1]%Q =
  ["0.1"; "1.5"; "-2.5"; "1e+08"; "1.2345679e+08"; "12345678"; "0.33333333"; "6.6666667e-05"; "1e-05"; "1e+08"; "99999999"; "1e-20"; "5"].
Proof. vm_compute. reflexivity. Qed.

(** ** Arrays can be read back *)

(** The inverse of joining escaped elements: the element so far, and the rest. *)
Fixpoint split_elems (d : ascii) (s cur : string) : list string :=
  match s with
  | "" => [cur]
  | String c s' =>
      if Ascii.eqb c "\" then
        match s' with
        | "" => [cur]
        | String c' s'' => split_elems d s'' (cur ^^ String c' "")
        end
      else if Ascii.eqb c d then cur :: split_elems d s' ""
      else split_elems d s' (cur ^^ String c "")
  end.

Section arrays.
Context (d : ascii) (Hd : d <> "\"%char).

Lemma escape_step c v : escape_loop (String d "") (String c v) 0 =
  if Ascii.eqb c "\" || Ascii.eqb c d then String "\" (String c (escape_loop (String d "") v 0)) else String c (escape_loop (String d "") v 0).
Proof.
  cbn [escape_loop]. destruct (Ascii.eqb c "\"); [done|]. cbn [orb str_prefix]. rewrite (Ascii.eqb_sym d c).
  destruct (Ascii.eqb c d); [|done]. cbn. by destruct v.
Qed.

Lemma split_escape v rest cur : split_elems d (escape_loop (String d "") v 0 ^^ rest) cur = split_elems d rest (cur ^^ v).
Proof.
  revert cur. induction v as [|c v IH]; intros cur; [by rewrite append_nil_r|]. rewrite escape_step.
  assert (Hc : ((cur ^^ String c "") ^^ v) = (cur ^^ String c v)) by by rewrite append_assoc.
  destruct (Ascii.eqb_spec c "\") as [->|Hne]; [cbn; by rewrite IH, Hc|]. destruct (Ascii.eqb_spec c d) as [->|Hne'].
  - cbn [orb String.append split_elems]. cbn. by rewrite IH, Hc.
  - cbn [orb String.append split_elems]. apply Ascii.eqb_neq in Hne as ->, Hne' as ->. by rewrite IH, Hc.
Qed.

Lemma split_join l : l <> [] -> split_elems d (Cstr.join (String d "") (map (fun v => escape_loop (String d "") v 0) l)) "" = l.
Proof.
  induction l as [|v l IH]; [done|]. intros _. destruct l as [|v' l].
  - cbn [map Cstr.join]. pose proof (split_escape v "" "") as E. rewrite append_nil_r in E. by rewrite E.
  - change (Cstr.join (String d "") (map _ (v :: v' :: l))) with
      (escape_loop (String d "") v 0 ^^ String d (Cstr.join (String d "") (map (fun v => escape_loop (String d "") v 0) (v' :: l)))).
    rewrite split_escape. cbn [split_elems String.append]. apply Ascii.eqb_neq in Hd as Hd'. rewrite Hd', Ascii.eqb_refl.
    f_equal. by apply IH.
Qed.
End arrays.

Section elems.
Context {J : Jansson}.

(** The text of an element, and a list without its empty strings at the front. *)
Definition elem_text (elem : json_t) : option string :=
  let e := Some elem in
  if oidc_json_is_string e then oidc_json_string_value e
  else if oidc_json_is_boolean e then Some (if oidc_json_is_true e then "1" else "0")
  else None.
Fixpoint drop_empty (l : list string) : list string := match l with "" :: l => drop_empty l | _ => l end.

Lemma array_elems_more delim elems acc : acc <> [] ->
  array_elems delim elems acc = rev acc ++ map (oidc_util_appinfo_escape delim) (omap elem_text elems).
Proof.
  revert acc. induction elems as [|e elems IH]; intros acc Ha; cbn [array_elems omap list_omap]; [by rewrite app_nil_r|].
  cbv zeta. fold (elem_text e). destruct (elem_text e) as [s|]; [|by apply IH]. destruct acc as [|a acc]; [done|].
  rewrite IH by done. cbn [rev map]. by rewrite <-!app_assoc.
Qed.

Lemma escape_empty delim s : oidc_util_appinfo_escape delim s = "" <-> s = "".
Proof.
  unfold oidc_util_appinfo_escape. destruct (String.eqb delim ""); [done|]. destruct s as [|c s]; [done|]. cbn [escape_loop].
  split; [|done]. by repeat case_match.
Qed.

Lemma array_elems_all delim elems :
  array_elems delim elems [] = map (oidc_util_appinfo_escape delim) (drop_empty (omap elem_text elems)).
Proof.
  induction elems as [|e elems IH]; cbn [array_elems omap list_omap]; [done|]. cbv zeta. fold (elem_text e).
  destruct (elem_text e) as [s|]; [|done]. destruct (oidc_util_appinfo_escape delim s) as [|c t] eqn:Es.
  - apply escape_empty in Es as ->. exact IH.
  - rewrite array_elems_more by done. cbn [rev app]. destruct s as [|c' s]; [by rewrite (proj2 (escape_empty delim "") eq_refl) in Es|].
    cbn [drop_empty map]. by rewrite Es.
Qed.
End elems.

(** ** Tables *)

(** The last value of a name. *)
Definition last_get (t : table) (k : string) : option string := apr_table_get (rev t) k.
(** No name occurs twice, whatever the case of its letters. *)
Definition unique_names (t : table) : Prop := NoDup (map (fun kv => str_map tolower kv.1) t).

Lemma table_get_app a b k : apr_table_get (a ++ b) k = match apr_table_get a k with Some v => Some v | None => apr_table_get b k end.
Proof. induction a as [|[k' v] a IH]; [done|]. cbn. by destruct (strcaseeq k' k). Qed.

Lemma last_get_snoc t k v k' : last_get (t ++ [(k, v)]) k' = if strcaseeq k k' then Some v else last_get t k'.
Proof. unfold last_get. by rewrite rev_app_distr. Qed.

Lemma last_get_app a b k : last_get (a ++ b) k = match last_get b k with Some v => Some v | None => last_get a k end.
Proof. unfold last_get. by rewrite rev_app_distr, table_get_app. Qed.

Lemma last_get_unique t k : unique_names t -> last_get t k = apr_table_get t k.
Proof.
  unfold unique_names, last_get. induction t as [|[k' v] t IH]; [done|]. cbn [map fst]. rewrite NoDup_cons. intros [Hk Hn]. cbn [rev].
  rewrite table_get_app, IH by done. cbn [apr_table_get]. destruct (strcaseeq k' k) eqn:E; [|by destruct (apr_table_get t k)].
  destruct (apr_table_get t k) as [v'|] eqn:Eg; [|done]. exfalso. apply Hk. clear -E Eg. apply strcaseeq_true in E.
  induction t as [|[k0 v0] t IH]; [done|]. cbn [apr_table_get] in Eg. cbn [map fst]. rewrite elem_of_cons.
  destruct (strcaseeq k0 k) eqn:E0; [left; apply strcaseeq_true in E0; congruence|right; by apply IH].
Qed.

Lemma overlap_get a b k : apr_table_get (apr_table_overlap_set a b) k = last_get (a ++ b) k.
Proof.
  unfold apr_table_overlap_set. induction (a ++ b) as [|[k' v] t IH] using rev_ind; [done|]. rewrite fold_left_app, last_get_snoc. cbn [fold_left fst snd].
  destruct (strcaseeq k' k) eqn:E; [by apply table_get_set_eq|by rewrite table_get_set_ne].
Qed.

Lemma overlap_unique_get a b k : unique_names a ->
  apr_table_get (apr_table_overlap_set a b) k = match last_get b k with Some v => Some v | None => apr_table_get a k end.
Proof. intros Ha. by rewrite overlap_get, last_get_app, (last_get_unique a). Qed.

(** ** What a claim can set *)

Section set_all.
Context {J : Jansson} {JS : JanssonSpec J} {B64 : Base64}.
Variables (pfx delim : string) (pass enc : Z).

(** The names and values that are passed for the members of an object. *)
Definition appinfo_pairs (items : list (string * json_t)) : table :=
  omap (fun '(k, v) => match appinfo_value v delim with
                       | Some s => let '(name, value) := oidc_util_appinfo_render k s pfx enc in (fun w => (name, w)) <$> value
                       | None => None
                       end) items.
Definition sanitized (t : table) : table := map (fun kv => (kv.1, oidc_http_hdr_value_sanitize kv.2)) t.
Definition flag (f : Z) : bool := negb (Z.land pass f =? 0).
Definition collected (t : table) : oidc_appinfo_ctx_t :=
  mk_ctx pfx delim pass enc (if flag OIDC_APPINFO_PASS_HEADERS then Some (sanitized t) else None)
    (if flag OIDC_APPINFO_PASS_ENVVARS then Some t else None).

Lemma appinfo_value_some v : appinfo_value v delim <> Some None.
Proof.
  unfold appinfo_value. destruct (oidc_json_is_string (Some v)) eqn:Es; [apply is_string_true in Es as [s Es]; unfold oidc_json_string_value; cbn; by rewrite Es|].
  repeat (case_match; [discriminate|]). case_match; [|case_match; discriminate].
  destruct (encode_object v (Z.lor OIDC_JSON_PRESERVE_ORDER OIDC_JSON_COMPACT)) as [s Hs]; [by apply is_object_true|].
  rewrite Hs. discriminate.
Qed.

Lemma pair_apply_collected r t name v : oidc_util_appinfo_pair_apply r name (Some v) (collected t) = (r, collected (t ++ [(name, v)])).
Proof.
  unfold oidc_util_appinfo_pair_apply, collected. cbn [pass_in ctx_headers ctx_env]. fold (flag OIDC_APPINFO_PASS_HEADERS) (flag OIDC_APPINFO_PASS_ENVVARS).
  unfold sanitized. rewrite map_app. destruct (flag OIDC_APPINFO_PASS_HEADERS) eqn:Eh, (flag OIDC_APPINFO_PASS_ENVVARS) eqn:Ee;
    unfold flag in Ee; cbn; rewrite ?Ee; done.
Qed.

Lemma set_one_collected r t k v : oidc_util_appinfo_set_one r k v (collected t) = (r, collected (t ++ appinfo_pairs [(k, v)])).
Proof.
  unfold oidc_util_appinfo_set_one, appinfo_pairs. cbn [claim_delimiter collected omap list_omap].
  pose proof (appinfo_value_some v) as Hs. destruct (appinfo_value v delim) as [[s|]|]; [|done|by rewrite app_nil_r].
  unfold oidc_util_appinfo_set_impl. change (claim_prefix (collected t)) with pfx. change (encoding (collected t)) with enc.
  destruct (oidc_util_appinfo_render k (Some s) pfx enc) as [name value] eqn:Er.
  assert (exists w, value = Some w) as [w ->] by (injection Er as _ <-; repeat case_match; by eexists).
  apply pair_apply_collected.
Qed.

Lemma set_all_collected r items t :
  fold_left (fun '(r, ctx) '(k, v) => oidc_util_appinfo_set_one r k v ctx) items (r, collected t) = (r, collected (t ++ appinfo_pairs items)).
Proof.
  revert t. induction items as [|[k v] items IH]; intros t; [by rewrite app_nil_r|]. cbn [fold_left]. rewrite set_one_collected, IH.
  by rewrite <-app_assoc; unfold appinfo_pairs; rewrite <-omap_app.
Qed.

Lemma last_get_sanitized t k : last_get (sanitized t) k = oidc_http_hdr_value_sanitize <$> last_get t k.
Proof.
  unfold last_get, sanitized. rewrite <-map_rev. induction (rev t) as [|[k' v] l IH]; [done|].
  cbn [map apr_table_get fst snd]. destruct (strcaseeq k' k); [done|exact IH].
Qed.

Lemma set_all_get r j :
  let r' := oidc_util_appinfo_set_all r (Some j) pfx delim pass enc in
  let pairs := appinfo_pairs (oidc_json_object_iter (Some j)) in
  unique_names (headers_in r) -> unique_names (subprocess_env r) ->
  (forall k, apr_table_get (headers_in r') k =
     match (if flag OIDC_APPINFO_PASS_HEADERS then last_get pairs k else None) with
     | Some v => Some (oidc_http_hdr_value_sanitize v)
     | None => apr_table_get (headers_in r) k
     end) /\
  (forall k, apr_table_get (subprocess_env r') k =
     match (if flag OIDC_APPINFO_PASS_ENVVARS then last_get pairs k else None) with
     | Some v => Some v
     | None => apr_table_get (subprocess_env r) k
     end) /\
  r' = with_subprocess_env (subprocess_env r') (with_headers_in (headers_in r') r).
Proof.
  cbv zeta. intros Hh He. unfold oidc_util_appinfo_set_all.
  change (mk_ctx pfx delim pass enc _ _) with (collected []). rewrite set_all_collected. cbn [app].
  unfold collected. cbn [ctx_headers ctx_env]. destruct (flag OIDC_APPINFO_PASS_HEADERS), (flag OIDC_APPINFO_PASS_ENVVARS);
    (split; [|split; [|by destruct r]]); cbn [headers_in subprocess_env with_headers_in with_subprocess_env]; try done;
    intros k; rewrite overlap_unique_get, ?last_get_sanitized by done; by destruct (last_get _ k).
Qed.

Lemma pairs_prefix items name v : In (name, v) (appinfo_pairs items) -> exists k, name = (pfx ^^ k) /\ str_forall token_char k = true.
Proof.
  unfold appinfo_pairs. rewrite <-list_elem_of_In, list_elem_of_omap. intros ([k w] & _ & E).
  destruct (appinfo_value w delim) as [s|]; [|done]. destruct (oidc_util_appinfo_render k s pfx enc) as [n value] eqn:Er.
  destruct value as [x|]; [|done]. injection E as <- <-. injection Er as <- _. eexists. split; [done|]. apply normalize_name_token.
Qed.
End set_all.

(** ** UTF-8 *)

(** The encoding of a code point. *)
Definition utf8 (cp : Z) : list Z :=
  if cp <? 128 then [cp]
  else if cp <? 2048 then [192 + cp / 64; 128 + cp mod 64]
  else if cp <? 65536 then [224 + cp / 4096; 128 + cp / 64 mod 64; 128 + cp mod 64]
  else [240 + cp / 262144; 128 + cp / 4096 mod 64; 128 + cp / 64 mod 64; 128 + cp mod 64].
Fixpoint str_of (l : list Z) : string := match l with [] => "" | z :: l => String (ascii_of_Z z) (str_of l) end.

Definition continuation (z : Z) : bool := (128 <=? z) && (z <? 192).
Lemma continuation_byte c : (Z.land (code c) 0xc0 =? 0x80) = continuation (code c).
Proof.
  apply eqb_prop. revert c. apply (ascii_ind_bool (fun c => Bool.eqb (Z.land (code c) 0xc0 =? 0x80) (continuation (code c)))).
  vm_compute. reflexivity.
Qed.
Lemma code_of_Z z : 0 <= z < 256 -> code (ascii_of_Z z) = z.
Proof. intros Hz. unfold code, ascii_of_Z. rewrite N_ascii_embedding by lia. lia. Qed.

Lemma lor_shift a b : 0 <= b < 64 -> Z.lor (Z.shiftl a 6) b = a * 64 + b.
Proof.
  intros Hb. assert (Hl : Z.land (Z.shiftl a 6) b = 0).
  { apply Z.bits_inj'. intros n Hn. rewrite Z.land_spec, Z.bits_0. destruct (Z.ltb_spec n 6).
    - by rewrite Z.shiftl_spec_low.
    - rewrite <-(Z.mod_small b (2 ^ 6)) by lia. rewrite Z.mod_pow2_bits_high by lia. apply andb_false_r. }
  rewrite <-Z.lxor_lor, <-Z.add_nocarry_lxor by done. rewrite Z.shiftl_mul_pow2 by lia. done.
Qed.

(** What a byte adds to the code point so far. *)
Definition first_bits (z cp : Z) : Z :=
  if z <=? 0x7f then z else if z <=? 0xbf then cp * 64 + z mod 64 else if z <=? 0xdf then z mod 32 else if z <=? 0xef then z mod 16 else z mod 8.
Definition emit (cp : Z) : ascii := if cp <=? 255 then ascii_of_Z cp else "?"%char.
Definition next_byte (s : string) : Z := match s with String d _ => code d | "" => 0 end.

Lemma loop_step z s cp : 0 <= z < 256 -> (continuation z = true -> 0 <= cp < 2 ^ 20) -> latin1_loop (String (ascii_of_Z z) s) cp =
  if negb (continuation (next_byte s)) && (first_bits z cp <=? 0x10ffff) then String (emit (first_bits z cp)) (latin1_loop s (first_bits z cp))
  else latin1_loop s (first_bits z cp).
Proof.
  intros Hz Hc. cbn [latin1_loop]. cbv zeta. rewrite code_of_Z by done.
  replace (if z <=? 127 then z else _) with (first_bits z cp).
  2:{ unfold first_bits. change 0x3f with (Z.ones 6). change 0x1f with (Z.ones 5). change 0x0f with (Z.ones 4). change 0x07 with (Z.ones 3).
      rewrite !Z.land_ones by lia. destruct (Z.leb_spec z 127); [done|]. destruct (Z.leb_spec z 191); [|done].
      specialize (Hc ltac:(unfold continuation; lia)).
      rewrite u32_small by (rewrite Z.shiftl_mul_pow2 by lia; change (2 ^ 20) with 1048576 in *; change (2 ^ 6) with 64; lia).
      symmetry. apply lor_shift. apply Z.mod_pos_bound. lia. }
  assert (Hn : (Z.land (next_byte s) 0xc0 =? 0x80) = continuation (next_byte s)).
  { destruct s as [|d s]; [done|apply continuation_byte]. }
  fold (next_byte s). rewrite Hn. reflexivity.
Qed.

Ltac bits := change (2 ^ 20) with 1048576 in *; intros; repeat case_match; Z.div_mod_to_equations; lia.

(** A character: the first byte is no continuation, the others are, and what follows is none. *)
Lemma latin1_char cp0 cp s : 0 <= cp <= 0x10ffff -> continuation (next_byte s) = false ->
  latin1_loop (str_of (utf8 cp) ^^ s) cp0 = String (emit cp) (latin1_loop s cp).
Proof.
  intros Hcp Hs.
  assert (Hn : forall z s, 0 <= z < 256 -> next_byte (String (ascii_of_Z z) s) = z) by (intros; by apply code_of_Z).
  assert (Hlast : forall z cp1, 0 <= z < 256 -> (continuation z = true -> 0 <= cp1 < 2 ^ 20) -> first_bits z cp1 = cp ->
    latin1_loop (String (ascii_of_Z z) s) cp1 = String (emit cp) (latin1_loop s cp)).
  { intros z cp1 Hz Hc E. rewrite loop_step by done. rewrite Hs, E. by replace (cp <=? 0x10ffff) with true by lia. }
  assert (Hmore : forall z z' s' cp1 cp2, 0 <= z < 256 -> (continuation z = true -> 0 <= cp1 < 2 ^ 20) -> 128 <= z' < 192 ->
    first_bits z cp1 = cp2 -> latin1_loop (String (ascii_of_Z z) (String (ascii_of_Z z') s')) cp1 =
    latin1_loop (String (ascii_of_Z z') s') cp2).
  { intros z z' s' cp1 cp2 Hz Hc Hz' E. rewrite loop_step by done. rewrite Hn, E by lia. by replace (continuation z') with true by (unfold continuation; lia). }
  unfold utf8. repeat case_match; cbn [str_of String.append].
  - apply Hlast; unfold first_bits, continuation; bits.
  - rewrite (Hmore _ _ _ _ (cp / 64)); [apply Hlast|..]; unfold first_bits, continuation; bits.
  - rewrite (Hmore _ _ _ _ (cp / 4096)); [rewrite (Hmore _ _ _ _ (cp / 64)); [apply Hlast|..]|..]; unfold first_bits, continuation; bits.
  - rewrite (Hmore _ _ _ _ (cp / 262144));
      [rewrite (Hmore _ _ _ _ (cp / 4096)); [rewrite (Hmore _ _ _ _ (cp / 64)); [apply Hlast|..]|..]|..];
      unfold first_bits, continuation; bits.
Qed.

Lemma utf8_first cp : 0 <= cp <= 0x10ffff -> exists z l, utf8 cp = z :: l /\ 0 <= z < 256 /\ continuation z = false.
Proof. intros Hcp. unfold utf8, continuation. repeat case_match; eexists _, _; (split; [done|]); bits. Qed.

Lemma latin1_text cps cp0 : Forall (fun cp => 0 <= cp <= 0x10ffff) cps ->
  latin1_loop (str_of (flat_map utf8 cps)) cp0 = fold_right (fun cp s => String (emit cp) s) "" cps.
Proof.
  intros Hf. revert cp0. induction Hf as [|cp cps Hcp Hf IH]; intros cp0; [done|]. cbn [flat_map fold_right].
  assert (Ha : forall l l', str_of (l ++ l') = (str_of l ^^ str_of l')) by (induction l; intros; cbn; congruence).
  rewrite Ha, latin1_char, IH; [done|done|]. destruct Hf as [|cp' cps Hcp' Hf]; [done|]. cbn [flat_map].
  destruct (utf8_first cp' Hcp') as (z & l & -> & Hz & Hc). cbn [app str_of next_byte]. by rewrite code_of_Z.
Qed.

(** ** Properties *)

(** A header value has no line break. *)
Lemma sanitized_no_break v : str_forall (fun ch => negb (is_crlf ch)) (oidc_http_hdr_value_sanitize v) = true.
Proof.
  apply (str_forall_map (fun _ => true)); [|apply str_forall_true]. intros ch _. destruct (is_crlf ch) eqn:E; by rewrite ?E.
Qed.


(** The value for an array, with a delimiter of one character that is no backslash, can be split into the texts
    of its elements again, whatever these contain: strings and booleans, but for empty ones at the front, which leave
    no trace. *)
Theorem appinfo_array_roundtrip {J : Jansson} (j_array : json_t) (d : ascii) :
  d <> "\"%char ->
  let texts := drop_empty (omap elem_text (json_array_items j_array)) in
  split_elems d (oidc_util_appinfo_array_concat j_array (String d "")) "" = match texts with [] => [""] | _ => texts end.
Proof.
  intros Hd. cbv zeta. unfold oidc_util_appinfo_array_concat. rewrite array_elems_all.
  destruct (drop_empty _) as [|v l] eqn:E; [done|]. by apply (split_join d Hd).
Qed.

(** The conversion to Latin-1 decodes a text that is valid UTF-8: a character of Latin-1 becomes its byte and every
    other one a question mark. *)
Theorem utf8_to_latin1_spec (cps : list Z) :
  Forall (fun cp => 0 <= cp <= 0x10ffff) cps ->
  _oidc_util_appinfo_utf8_to_latin1 (Some (str_of (flat_map utf8 cps))) =
  Some (fold_right (fun cp s => String (if cp <=? 255 then ascii_of_Z cp else "?"%char) s) "" cps).
Proof. intros Hf. cbn. by rewrite latin1_text. Qed.

(** ** Witnesses *)

Section demo.
#[local] Existing Instances Model.jansson Base64Model.base64.

Abbreviation demo_array l := (Model.JArr (map Model.JStr l)).


Definition demo_app_request : request := with_headers_in [("Host", "rp"); ("OIDC_CLAIM_sub", "forged")] demo_request.
Definition demo_app_claims : json_t :=
  Model.JObj [("sub", Model.JStr "joe"); ("a b", Model.JInt 7); ("A B", demo_array ["x,y"; "z"]); ("Host", Model.JBool true)].


Lemma appinfo_array_roundtrip_witness :
  split_elems "," (oidc_util_appinfo_array_concat (demo_array [""; "a,b"; ""; "c\"]) ",") "" = ["a,b"; ""; "c\"].
Proof. exact (appinfo_array_roundtrip (demo_array [""; "a,b"; ""; "c\"]) "," ltac:(discriminate)). Defined.

Lemma utf8_to_latin1_spec_witness :
  _oidc_util_appinfo_utf8_to_latin1 (Some (str_of [0x4a; 0xc3; 0xbc; 0xe2; 0x82; 0xac])) = Some (str_of [0x4a; 0xfc; 0x3f]).
Proof. apply (utf8_to_latin1_spec [0x4a; 0xfc; 0x20ac]). repeat (constructor; [lia|]). constructor. Defined.

(** With a delimiter of two characters elements cannot always be told apart. *)
Example appinfo_delimiter_ambiguous :
  oidc_util_appinfo_array_concat (demo_array ["x,"; "y"]) ",," = oidc_util_appinfo_array_concat (demo_array ["x"; ",y"]) ",,".
Proof. vm_compute. reflexivity. Qed.
End demo.
