(* ===== verification/Files.v ===== *)
(** * src/util/file.c: files

    A file is read as a whole, when it is regular and not too large, and replaced as a whole: what is written goes to a
    temporary file first.  The calls of APR are a class over the state, which holds the files next to the cache. *)

From S2P Require Import Prelude Cstr Apr StrUtil Http Url Cookie Base64 Jose Jwt Util ShmCache Cache World Cjose Pkce.
#[local] Open Scope Z_scope.

Definition OIDC_UTIL_FILE_SIZE_MAX : Z := 16 * 1024 * 1024.

Inductive apr_filetype_e := APR_NOFILE | APR_REG | APR_DIR | APR_LNK | APR_UNKFILE.
#[export] Instance filetype_eq_dec : EqDecision apr_filetype_e.
Proof. solve_decision. Defined.

Record apr_finfo_t := mk_finfo { filetype : apr_filetype_e; mtime : Z }.

(** A file that is open for reading: the size that [apr_file_info_get] reports, and the bytes that
    [apr_file_read_full] delivers when it is asked for a number of them; [None] is an error. *)
Record apr_file_t := mk_file { f_size : option Z; f_read : Z -> option string }.

(** The calls of APR that are used; [None] and [false] stand for any status but [APR_SUCCESS]. *)
Class Disk (St : Type) := {
  disk_stat : bool -> string -> St -> option apr_finfo_t;      (* links are followed or not *)
  disk_open_read : string -> St -> option apr_file_t;
  disk_open_excl : string -> St -> option St;                  (* WRITE, CREATE and EXCL *)
  disk_write_full : string -> string -> St -> bool * Z * St;   (* the status and the bytes written *)
  disk_remove : string -> St -> St;
  disk_rename : string -> string -> St -> bool * St;
  disk_mtime_set : string -> Z -> St -> St;
  disk_dir : string -> St -> option (list string)              (* the names in a directory *)
}.

(** What the calls do, in terms of the contents of the files. *)
Class DiskSpec {St : Type} (D : Disk St) := {
  contents : St -> string -> option string;
  open_read_contents path st f : disk_open_read path st = Some f -> forall n s, f_size f = Some n -> f_read f n = Some s -> zlen s = n ->
    contents st path = Some s;
  open_excl_contents path st st' : disk_open_excl path st = Some st' ->
    contents st path = None /\ forall q, q <> path -> contents st' q = contents st q;
  write_full_contents path data st ok n st' : disk_write_full path data st = (ok, n, st') ->
    (forall q, q <> path -> contents st' q = contents st q) /\
    (ok = true -> n = zlen data -> contents st' path = Some data);
  remove_contents path st q : contents (disk_remove path st) q = if String.eqb q path then None else contents st q;
  rename_contents a b st ok st' : disk_rename a b st = (ok, st') -> forall q, contents st' q =
    if ok then if String.eqb q b then contents st a else if String.eqb q a then None else contents st q
    else contents st q;
  mtime_set_contents path t st q : contents (disk_mtime_set path t st) q = contents st q
}.

Inductive oidc_util_file_read_rc_t :=
  OIDC_UTIL_FILE_READ_OK | OIDC_UTIL_FILE_READ_NOT_FOUND | OIDC_UTIL_FILE_READ_NOT_REGULAR | OIDC_UTIL_FILE_READ_IO_ERROR.

#[local] Open Scope world_scope.

Section files.
Context {B64 : Base64} {St : Type} {D : Disk St}.
Variable (rnd : nat -> rng).

(** The answer, and [finfo->filetype]. *)
Definition oidc_util_file_is_regular (path : string) (follow : bool) (st : St) : bool * apr_filetype_e :=
  match disk_stat follow path st with
  | None => (false, APR_NOFILE)
  | Some finfo => (bool_decide (filetype finfo = APR_REG), filetype finfo)
  end.

(** A [NUL] in the file ends the string that the caller gets. *)
Definition oidc_util_file_read_core (path : string) (st : St) : oidc_util_file_read_rc_t * option string :=
  match oidc_util_file_is_regular path true st with
  | (false, ft) =>
      (if decide (ft = APR_NOFILE) then OIDC_UTIL_FILE_READ_NOT_FOUND else OIDC_UTIL_FILE_READ_NOT_REGULAR, None)
  | (true, _) =>
      match disk_open_read path st with
      | None => (OIDC_UTIL_FILE_READ_NOT_FOUND, None)
      | Some fd =>
          match f_size fd with
          | None => (OIDC_UTIL_FILE_READ_IO_ERROR, None)
          | Some size =>
              if (size <? 0) || (OIDC_UTIL_FILE_SIZE_MAX <? size) then (OIDC_UTIL_FILE_READ_IO_ERROR, None)
              else
                match f_read fd size with
                | None => (OIDC_UTIL_FILE_READ_IO_ERROR, None)
                | Some buf =>
                    if negb (zlen buf =? size) then (OIDC_UTIL_FILE_READ_IO_ERROR, Some (cstr buf))
                    else (OIDC_UTIL_FILE_READ_OK, Some (cstr buf))
                end
          end
      end
  end.

(** [None] is [FALSE]. *)
Definition oidc_util_file_read (path : string) : M St (option string) :=
  fun w =>
    match oidc_util_file_read_core path (w_cache w) with
    | (OIDC_UTIL_FILE_READ_OK, result) => Some (result, w)
    | _ => Some (None, w)
    end.

(** The name of the temporary file. *)
Definition tmp_path (path rnd : string) : string := path ^^ "." ^^ rnd ^^ ".tmp".

Definition file_write_core (tmp path data : string) (st : St) : bool * St :=
  match disk_open_excl tmp st with
  | None => (false, st)
  | Some st =>
      let '(ok, bytes_written, st) := disk_write_full tmp data st in
      if negb ok then (false, disk_remove tmp st)
      else if negb (bytes_written =? zlen data) then (false, disk_remove tmp st)
      else
        match disk_rename tmp path st with
        | (false, st) => (false, disk_remove tmp st)
        | (true, st) => (true, st)
        end
  end.

Definition oidc_util_file_write (path : string) (data : option string) : M St bool :=
  fun w =>
    let w' st := mk_world (w_req w) st (S (w_calls w)) in
    match oidc_util_rand_str (rnd (w_calls w)) 12 with
    | None => Some (false, w' (w_cache w))
    | Some s => let '(ok, st) := file_write_core (tmp_path path s) path (default "" data) (w_cache w) in Some (ok, w' st)
    end.
End files.

(** ** Lemmas *)

Section files_lemmas.
Context {B64 : Base64} {St : Type} {D : Disk St} {DS : DiskSpec D}.

(** What is read is the file up to its first [NUL], when it is regular and within the limit. *)
Lemma file_read_core_contents path (st : St) s : oidc_util_file_read_core path st = (OIDC_UTIL_FILE_READ_OK, s) ->
  exists data, contents st path = Some data /\ zlen data <= OIDC_UTIL_FILE_SIZE_MAX /\ s = Some (cstr data).
Proof.
  unfold oidc_util_file_read_core. destruct (oidc_util_file_is_regular path true st) as [[] ft]; [|by destruct (decide _)].
  destruct (disk_open_read path st) as [fd|] eqn:Eo; [|done]. destruct (f_size fd) as [n|] eqn:En; [|done].
  case_match eqn:El; [done|]. destruct (f_read fd n) as [buf|] eqn:Er; [|done]. case_match eqn:Ez; [done|].
  intros [= <-]. exists buf. split; [eapply open_read_contents; try done; lia|]. apply orb_false_iff in El as [_ El]. split; [lia|done].
Qed.
End files_lemmas.

Lemma tmp_path_other path s : tmp_path path s <> path.
Proof.
  unfold tmp_path. intros E. apply (f_equal String.length) in E. rewrite !length_append in E. cbn [String.length] in E. lia.
Qed.

Section total.
Context {B64 : Base64} {St : Type} {D : Disk St}.
Lemma total_file_read path : total (St:=St) (oidc_util_file_read path).
Proof. intros w. unfold oidc_util_file_read. destruct (oidc_util_file_read_core _ _) as [[] ?]; by eexists _, _. Qed.
Lemma total_file_write rnd path data : total (St:=St) (oidc_util_file_write rnd path data).
Proof.
  intros w. unfold oidc_util_file_write. destruct (oidc_util_rand_str _ _); [|by eexists _, _].
  destruct (file_write_core _ _ _ _). by eexists _, _.
Qed.
Lemma same_req_file_read path : same_req (St:=St) (oidc_util_file_read path).
Proof. intros w a w'. unfold oidc_util_file_read. destruct (oidc_util_file_read_core _ _) as [[] ?]; by intros [= <- <-]. Qed.
Lemma same_req_file_write rnd path data : same_req (St:=St) (oidc_util_file_write rnd path data).
Proof.
  intros w a w'. unfold oidc_util_file_write. destruct (oidc_util_rand_str _ _); [|by intros [= <- <-]].
  destruct (file_write_core _ _ _ _). by intros [= <- <-].
Qed.
End total.
#[export] Hint Resolve total_file_read total_file_write : total.
#[export] Hint Resolve same_req_file_read same_req_file_write : same_req.

(** ** Properties *)

(** Writing a file is atomic: whatever fails, every other file is as it was, the file itself is unchanged
    or has the new contents, and it has them exactly when the write succeeds. *)
Theorem file_write_atomic {B64 : Base64} {St : Type} {D : Disk St} {DS : DiskSpec D} (rnd : nat -> rng) (path : string)
  (data : option string) (w : world St) :
  exists ok w' tmp, oidc_util_file_write rnd path data w = Some (ok, w') /\ w_req w' = w_req w /\ tmp <> path /\
    contents (w_cache w') path = (if ok then Some (default "" data) else contents (w_cache w) path) /\
    forall q, q <> path -> q <> tmp -> contents (w_cache w') q = contents (w_cache w) q.
Proof.
  unfold oidc_util_file_write. destruct (oidc_util_rand_str (rnd (w_calls w)) 12) as [s|].
  2:{ eexists _, _, (tmp_path path ""). split; [done|]. split; [done|]. split; [apply tmp_path_other|]. by split. }
  set (tmp := tmp_path path s). pose proof (tmp_path_other path s : tmp <> path) as Ht.
  destruct (file_write_core tmp path (default "" data) (w_cache w)) as [ok st] eqn:E. eexists _, _, tmp.
  split; [done|]. split; [done|]. split; [exact Ht|]. cbn [w_cache]. revert E. unfold file_write_core.
  destruct (disk_open_excl tmp (w_cache w)) as [st1|] eqn:Eo; [|by intros [= <- <-]].
  apply open_excl_contents in Eo as [Hn Ho].
  destruct (disk_write_full tmp (default "" data) st1) as [[ok2 n] st2] eqn:Ew.
  apply write_full_contents in Ew as [Hw Hd].
  assert (Hother : forall q, q <> tmp -> contents st2 q = contents (w_cache w) q) by (intros q Hq; rewrite Hw, Ho; done).
  assert (Hrm : forall q st3, (forall q, contents st3 q = contents st2 q) -> q <> tmp ->
    contents (disk_remove tmp st3) q = contents (w_cache w) q).
  { intros q st3 H3 Hq. rewrite remove_contents. destruct (String.eqb_spec q tmp); [done|]. by rewrite H3, Hother. }
  destruct ok2; cbn [negb]; [|intros [= <- <-]; split; [apply Hrm; done|intros; by apply Hrm]].
  case_match eqn:El; [intros [= <- <-]; split; [apply Hrm; done|intros; by apply Hrm]|].
  destruct (disk_rename tmp path st2) as [ok3 st3] eqn:Er. pose proof (rename_contents _ _ _ _ _ Er) as Hr.
  destruct ok3; intros [= <- <-]; [|split; [apply Hrm; done|intros; by apply Hrm]].
  split.
  - rewrite Hr, String.eqb_refl. apply Hd; [done|lia].
  - intros q Hq Hqt. rewrite Hr. destruct (String.eqb_spec q path); [done|]. destruct (String.eqb_spec q tmp); [done|].
    by apply Hother.
Qed.

(** ** A file system *)

(** A cache next to a finite map of files with their times. *)
(** The files, with their times. *)
Abbreviation fs := (gmap string (string * Z)).

Module FilesModel.
Section model.
Context {St : Type}.
Definition disk : Disk (St * fs) := {|
  disk_stat _ path st := (fun f => mk_finfo APR_REG f.2) <$> st.2 !! path;
  disk_open_read path st := (fun f => mk_file (Some (zlen f.1)) (fun n => Some (str_take (Z.to_nat n) f.1))) <$> st.2 !! path;
  disk_open_excl path st := match st.2 !! path with None => Some (st.1, <[path := ("", 0)]> st.2) | Some _ => None end;
  disk_write_full path data st := (true, zlen data, (st.1, <[path := (data, 0)]> st.2));
  disk_remove path st := (st.1, delete path st.2);
  disk_rename a b st := match st.2 !! a with
    | Some f => (true, (st.1, <[b := f]> (delete a st.2)))
    | None => (false, st)
    end;
  disk_mtime_set path t st := match st.2 !! path with Some f => (st.1, <[path := (f.1, t)]> st.2) | None => st end;
  disk_dir path st := Some ((fun p => str_drop (S (String.length path)) p) <$>
                            List.filter (fun p => str_prefix (path ^^ "/") p) (map_to_list st.2).*1)
|}.

#[global] Instance disk_spec : DiskSpec disk.
Proof.
  exists (fun st path => fst <$> st.2 !! path).
  - intros path [c m] f. cbn. destruct (m !! path) as [[s t]|]; [|done]. cbn. intros [= <-] n s' [= <-] [= <-].
    unfold zlen. rewrite Nat2Z.id, str_take_all by lia. done.
  - intros path [c m] st'. cbn. destruct (m !! path) eqn:E; [done|]. intros [= <-]. split; [done|].
    intros q Hq. cbn. by rewrite lookup_insert_ne.
  - intros path data [c m] ok n st'. unfold disk, disk_write_full. intros [= <- <- <-]. cbn [snd]. split; [intros q Hq; by rewrite lookup_insert_ne|by rewrite lookup_insert_eq].
  - intros path [c m] q. cbn. destruct (String.eqb_spec q path) as [->|Hq]; [by rewrite lookup_delete_eq|by rewrite lookup_delete_ne].
  - intros a b [c m] ok st'. unfold disk, disk_rename. cbn [fst snd]. destruct (m !! a) as [f|] eqn:E; intros [= <- <-] q; cbn [snd]; [|done].
    destruct (String.eqb_spec q b) as [->|Hq]; [by rewrite lookup_insert_eq|]. rewrite lookup_insert_ne by done.
    destruct (String.eqb_spec q a) as [->|Ha]; [by rewrite lookup_delete_eq|by rewrite lookup_delete_ne].
  - intros path t [c m] q. cbn. destruct (m !! path) as [f|] eqn:E; cbn; [|done].
    destruct (decide (q = path)) as [->|Hq]; [by rewrite lookup_insert_eq, E|by rewrite lookup_insert_ne].
Qed.

(** The cache works on its part. *)
Definition cache {B : CacheBackend St} : CacheBackend (St * fs) := {|
  impl_get e s k st := let '(ok, v, c) := impl_get e s k st.1 in (ok, v, (c, st.2));
  impl_set e s k v ex st := let '(ok, c) := impl_set e s k v ex st.1 in (ok, (c, st.2))
|}.

#[global] Instance cache_spec {B : CacheBackend St} {BS : CacheBackendSpec B} : CacheBackendSpec cache.
Proof.
  exists (fun st => impl_valid st.1).
  - intros e s k st Hv. cbn. pose proof (impl_get_valid e s k st.1 Hv). by destruct (impl_get e s k st.1) as [[ok v] c].
  - intros e s k v ex st Hv. cbn. pose proof (impl_set_valid e s k v ex st.1 Hv). by destruct (impl_set e s k v ex st.1) as [ok c].
  - intros e e' s k v ex st st' Hv Es He Hn. cbn in *. destruct (impl_set e s k (Some v) ex st.1) as [ok c] eqn:E. injection Es as -> <-.
    pose proof (impl_set_get e e' s k v ex st.1 c Hv E He Hn). cbn. by destruct (impl_get e' s k c) as [[ok w] c'].
  - intros e e1 e' s k k1 v ex st st' st1 Hv Es Eg Hn1 He Hn. cbn in *. destruct (impl_set e s k (Some v) ex st.1) as [ok c] eqn:E. injection Es as -> <-.
    cbn in Eg. destruct (impl_get e1 s k1 c) as [[ok w] c1] eqn:E1. injection Eg as -> -> <-.
    pose proof (impl_miss_keeps e e1 e' s k k1 v ex st.1 c c1 Hv E E1 Hn1 He Hn). cbn. by destruct (impl_get e' s k c1) as [[ok w] c'].
  - intros e e' s k ex st st' Hv Es He. cbn in *. destruct (impl_set e s k None ex st.1) as [ok c] eqn:E. injection Es as -> <-.
    pose proof (impl_delete_get e e' s k ex st.1 c Hv E He). cbn. by destruct (impl_get e' s k c) as [[ok w] c'].
Defined.
End model.
End FilesModel.

Section demo.
#[local] Existing Instances FilesModel.disk FilesModel.disk_spec Base64Model.base64.

Abbreviation demo_rnd := (fun (_ : nat) n => Some (replicate n 7 : list Z)).

Lemma file_write_atomic_witness : exists w' : world (unit * fs),
  (fun x => x.1) <$> oidc_util_file_write demo_rnd "/m/op.provider" (Some "{}") (mk_world demo_request (tt, ∅) 0) = Some true /\
  contents (w_cache w') "/m/op.provider" = Some "{}".
Proof.
  destruct (file_write_atomic (St:=unit * fs) demo_rnd "/m/op.provider" (Some "{}") (mk_world demo_request (tt, ∅) 0))
    as (ok & w' & tmp & E & _ & _ & Hc & _).
  assert (Eo : (fun x => x.1) <$> oidc_util_file_write demo_rnd "/m/op.provider" (Some "{}")
    (mk_world (St:=unit * fs) demo_request (tt, ∅) 0) = Some true) by (vm_compute; reflexivity).
  exists w'. split; [exact Eo|]. rewrite E in Eo. cbn in Eo. injection Eo as ->. exact Hc.
Defined.
End demo.
