(* ===== verification/CfgParse.v ===== *)
(** * src/cfg/parse.c: parsing the values of directives

    A parser returns the message for the administrator ([inl]) or the value ([inr]), as the code returns
    a string or [NULL].  The values of httpd and of the file system are the class [CfgEnv]. *)

From S2P Require Import Prelude Cstr Apr StrUtil Jansson Json Http Base64 Jose Jwt Cjose Jwk Jwe JoseLib Jws HttpClient.

(** ** Third parties *)

(** Messages of [apr_strerror] are strings; [None] is success.  [pem_key] is what OpenSSL reads from a file: the key,
    the bytes that identify it, and of a certificate the chain and the encoded first certificate. *)
Class CfgEnv {J : Jansson} (C : Cjose J) := {
  ap_timeout_parameter_parse : option string -> option Z;
  apr_dir_open : string -> option string;
  apr_dir_close : string -> option string;
  apr_file_open : option string -> option string;
  apr_file_close : option string -> option string;
  ap_server_root_relative : option string -> option string;
  apr_tokenize_to_argv : string -> option (list string);
  ap_get_exec_line : string -> list string -> option string;
  pem_key : bool -> option string -> option (cjose_jwk_t * string * option (list string * string))
}.

Definition sq : string := "'".

(** [s] as [%s] prints it. *)
Definition pr (s : option string) : string := default "(null)" s.

(** Continue with the value. *)
Definition parse_bind {A B} (p : string + A) (f : A -> string + B) : string + B :=
  match p with inl e => inl e | inr a => f a end.
Declare Scope parse_scope.
Notation "x <-? m ;; k" := (parse_bind m (fun x => k)) (at level 20, m at level 99, k at level 200) : parse_scope.
Notation "' p <-? m ;; k" := (parse_bind m (fun p => k))
  (at level 20, p pattern, m at level 99, k at level 200) : parse_scope.
#[local] Open Scope parse_scope.

(** ** Options *)

Record oidc_cfg_option_t := mk_option { opt_val : Z; opt_str : string }.

(** From the last option to the first. *)
Fixpoint flatten_go (before : list oidc_cfg_option_t) (result : string) : string :=
  match before with
  | [] => result
  | o :: before => flatten_go before (sq ^^ opt_str o ^^ sq ^^ "|" ^^ result)
  end.
Definition oidc_cfg_parse_options_flatten (options : list oidc_cfg_option_t) : string :=
  match rev options with
  | [] => "[]"
  | o :: before => "[" ^^ flatten_go before (sq ^^ opt_str o ^^ sq ^^ "]")
  end.
Definition oidc_cfg_parse_string_options_flatten (options : list string) : string :=
  oidc_cfg_parse_options_flatten (imap (fun i s => mk_option (Z.of_nat i) s) options).

Definition invalid_value (arg : option string) (options : string) : string :=
  "invalid value " ^^ sq ^^ pr arg ^^ sq ^^ ", must be one of " ^^ options.

(** The loop over the options: the index of the one that equals [arg]. *)
Fixpoint option_index (arg : option string) (options : list string) (i : nat) : nat :=
  match options with
  | [] => i
  | o :: options => if _oidc_strcmp arg (Some o) =? 0 then i else option_index arg options (S i)
  end.
Definition oidc_cfg_parse_is_valid_option (arg : option string) (options : list string) : option string :=
  match options !! option_index arg options 0 with
  | None => Some (invalid_value arg (oidc_cfg_parse_string_options_flatten options))
  | Some _ => None
  end.

Fixpoint find_option (fstrcmp : option string -> option string -> Z) (arg : option string) (options : list oidc_cfg_option_t)
  : option Z :=
  match options with
  | [] => None
  | o :: options => if fstrcmp arg (Some (opt_str o)) =? 0 then Some (opt_val o) else find_option fstrcmp arg options
  end.
Definition oidc_cfg_parse_option_impl (options : list oidc_cfg_option_t) (arg : option string)
  (fstrcmp : option string -> option string -> Z) : string + Z :=
  match find_option fstrcmp arg options with
  | Some v => inr v
  | None => inl (invalid_value arg (oidc_cfg_parse_options_flatten options))
  end.
Definition oidc_cfg_parse_option (options : list oidc_cfg_option_t) (arg : option string) : string + Z :=
  oidc_cfg_parse_option_impl options arg _oidc_strcmp.
Definition oidc_cfg_parse_option_ignore_case {H : Httpd} (options : list oidc_cfg_option_t) (arg : option string) : string + Z :=
  oidc_cfg_parse_option_impl options arg _oidc_strnatcasecmp.

(** ** Booleans and numbers *)

Definition oidc_cfg_parse_is_valid_int (value min_value max_value : Z) : option string :=
  if value <? min_value then
    Some ("integer value " ^^ pretty value ^^ " is smaller than the minimum allowed value " ^^ pretty min_value)
  else if max_value <? value then
    Some ("integer value " ^^ pretty value ^^ " is greater than the maximum allowed value " ^^ pretty max_value)
  else None.

Definition oidc_cfg_parse_boolean {H : Httpd} (arg : option string) : string + bool :=
  let same s := _oidc_strnatcasecmp arg (Some s) =? 0 in
  if same "true" || same "on" || same "yes" || same "1" then inr true
  else if same "false" || same "off" || same "no" || same "0" then inr false
  else inl ("oidc_parse_boolean: could not parse boolean value from " ^^ DQ ^^ pr arg ^^ DQ).

Definition oidc_cfg_parse_int (arg : option string) : string + Z :=
  match arg with
  | None | Some "" => inl "no integer value"
  | Some _ =>
      match _oidc_str_to_int_checked arg with
      | Some v => inr v
      | None => inl ("invalid or out-of-range integer value: " ^^ pr arg)
      end
  end.

Definition oidc_cfg_parse_int_min_max (arg : option string) (min_value max_value : Z) : string + Z :=
  v <-? oidc_cfg_parse_int arg ;;
  match oidc_cfg_parse_is_valid_int v min_value max_value with Some e => inl e | None => inr v end.

Definition oidc_cfg_parse_int_min_max_or_zero (arg : option string) (min_value max_value : Z) : string + Z :=
  v <-? oidc_cfg_parse_int arg ;;
  if negb (v =? 0) then
    match oidc_cfg_parse_is_valid_int v min_value max_value with Some e => inl e | None => inr v end
  else inr v.

Definition oidc_cfg_parse_timeout_min_max {J : Jansson} {C : Cjose J} {E : CfgEnv C} (arg : option string)
  (min_value max_value : Z) : string + Z :=
  match ap_timeout_parameter_parse arg with
  | None => inl ("not a valid timeout parameter: " ^^ pr arg)
  | Some timeout =>
      if timeout <? min_value then
        inl ("timeout value " ^^ pretty timeout ^^ " is smaller than the minimum allowed value " ^^ pretty min_value)
      else if max_value <? timeout then
        inl ("timeout value " ^^ pretty timeout ^^ " is greater than the maximum allowed value " ^^ pretty max_value)
      else inr timeout
  end.

(** ** URLs *)

Section urls.
Context {H : Httpd}.

Definition oidc_cfg_parse_is_valid_url_scheme (arg scheme1 scheme2 : option string) : option string :=
  match arg with
  | None => Some "input cannot be empty"
  | Some a =>
      let cannot := sq ^^ a ^^ sq ^^ " cannot be parsed as " in
      match apr_uri_parse a with
      | None => Some (cannot ^^ "a URL")
      | Some uri =>
          match uri_scheme uri with
          | None => Some (cannot ^^ "a URL (no scheme set)")
          | Some scheme =>
              let differs s := nonnull s && negb (_oidc_strnatcasecmp (Some scheme) s =? 0) in
              if differs scheme1 && differs scheme2 then
                Some (cannot ^^ "a " ^^ DQ ^^ pr scheme1 ^^ DQ ^^ " or " ^^ DQ ^^ pr scheme2 ^^ DQ ^^ " URL (scheme == " ^^ scheme ^^ ")!")
              else if differs scheme1 && negb (nonnull scheme2) then
                Some (cannot ^^ "a " ^^ DQ ^^ pr scheme1 ^^ DQ ^^ " URL (scheme == " ^^ scheme ^^ ")!")
              else if negb (nonnull (uri_hostname uri)) then
                Some (cannot ^^ "a valid URL (no hostname set, check your slashes)")
              else None
          end
      end
  end.
Definition oidc_cfg_parse_is_valid_url (arg scheme : option string) : option string :=
  oidc_cfg_parse_is_valid_url_scheme arg scheme None.
Definition oidc_cfg_parse_is_valid_http_url (arg : option string) : option string :=
  oidc_cfg_parse_is_valid_url_scheme arg (Some "https") (Some "http").

Definition oidc_cfg_parse_relative_or_absolute_url (arg : option string) : string + string :=
  match arg with
  | None => inl "input cannot be empty"
  | Some a =>
      if match a with String c _ => Ascii.eqb c "/" | "" => false end then
        if nonnull (apr_uri_parse a) then inr a else inl ("could not parse relative URI " ^^ DQ ^^ a ^^ DQ)
      else match oidc_cfg_parse_is_valid_http_url arg with Some e => inl e | None => inr a end
  end.
End urls.

(** ** Supported values *)

(** Of src/jose.c, for OpenSSL 1.0.1 and later. *)
Definition oidc_jose_jws_supported_algorithms : list string :=
  ["RS256"; "RS384"; "RS512"; "PS256"; "PS384"; "PS512"; "HS256"; "HS384"; "HS512"; "ES256"; "ES384"; "ES512"; "none"].
Definition oidc_jose_jwe_supported_algorithms : list string := ["A128KW"; "A192KW"; "A256KW"; "RSA-OAEP"].
Definition oidc_jose_jwe_supported_encryptions : list string := ["A128CBC-HS256"; "A192CBC-HS384"; "A256CBC-HS512"; "A256GCM"].
Definition oidc_jose_array_has_string (haystack : list string) (needle : option string) : bool :=
  existsb (fun s => _oidc_strcmp (Some s) needle =? 0) haystack.
Definition oidc_jose_jws_algorithm_is_supported := oidc_jose_array_has_string oidc_jose_jws_supported_algorithms.
Definition oidc_jose_jwe_algorithm_is_supported := oidc_jose_array_has_string oidc_jose_jwe_supported_algorithms.
Definition oidc_jose_jwe_encryption_is_supported := oidc_jose_array_has_string oidc_jose_jwe_supported_encryptions.

(** Of src/proto/proto.c. *)
Definition oidc_proto_supported_flows : list string :=
  ["code"; "id_token"; "id_token token"; "code id_token"; "code token"; "code id_token token"].
Fixpoint flow_in {H : Httpd} (flow : option string) (flows : list string) : option bool :=
  match flows with
  | [] => Some false
  | f :: flows => eq ← oidc_util_spaced_string_equals flow (Some f); if (eq : bool) then Some true else flow_in flow flows
  end.
Definition oidc_proto_flow_is_supported {H : Httpd} (flow : option string) : option bool :=
  flow_in flow oidc_proto_supported_flows.

Definition oidc_cfg_parse_is_valid_response_type {H : Httpd} (arg : option string) : option (option string) :=
  ok ← oidc_proto_flow_is_supported arg;
  Some (if (ok : bool) then None
        else Some ("oidc_valid_response_type: type must be one of " ^^ join "|" oidc_proto_supported_flows)).
Definition oidc_cfg_parse_is_valid_response_mode (arg : option string) : option string :=
  oidc_cfg_parse_is_valid_option arg ["fragment"; "query"; "form_post"].
Definition oidc_cfg_parse_is_valid_signed_response_alg (arg : option string) : option string :=
  if oidc_jose_jws_algorithm_is_supported arg then None
  else Some ("unsupported/invalid signing algorithm " ^^ sq ^^ pr arg ^^ sq ^^ "; must be one of [" ^^
             join "|" oidc_jose_jws_supported_algorithms ^^ "]").
Definition oidc_cfg_parse_is_valid_encrypted_response_alg (arg : option string) : option string :=
  if oidc_jose_jwe_algorithm_is_supported arg then None
  else Some ("unsupported/invalid encryption algorithm " ^^ sq ^^ pr arg ^^ sq ^^ "; must be one of [" ^^
             join "|" oidc_jose_jwe_supported_algorithms ^^ "]").
Definition oidc_cfg_parse_is_valid_encrypted_response_enc (arg : option string) : option string :=
  if oidc_jose_jwe_encryption_is_supported arg then None
  else Some ("unsupported/invalid encryption type " ^^ sq ^^ pr arg ^^ sq ^^ "; must be one of [" ^^
             join "|" oidc_jose_jwe_supported_encryptions ^^ "]").

(** ** Keys *)

Section keys.
Context {B64 : Base64}.

Definition oidc_cfg_parse_base64url (input : string) : string + (string * Z) :=
  match oidc_util_base64url_decode (Some input) with
  | (output_len, output) =>
      if output_len <=? 0 then inl ("base64url-decoding of " ^^ DQ ^^ input ^^ DQ ^^ " failed")
      else inr (default "" output, output_len)
  end.

(** The value of a hexadecimal digit. *)
Definition hex_value (c : ascii) : option Z :=
  let n := code c in
  if isdigit c then Some (n - 48)
  else if (65 <=? n) && (n <=? 70) then Some (n - 55)
  else if (97 <=? n) && (n <=? 102) then Some (n - 87)
  else None.

(** [sscanf] with ["%2hhx"]: white space is skipped, a sign is one of the two characters. *)
Definition sscanf_2hhx (s : string) : option Z :=
  match skip_space s with
  | "" => None
  | String a rest =>
      let b := match rest with String b _ => hex_value b | "" => None end in
      if Ascii.eqb a "+" then b
      else if Ascii.eqb a "-" then (fun v => - v mod 256) <$> b
      else
        match hex_value a, b with
        | Some x, Some y => Some (16 * x + y)
        | Some x, None => if Ascii.eqb a "0" && match rest with String b _ => Ascii.eqb b "x" || Ascii.eqb b "X" | "" => false end
                          then None else Some x
        | None, _ => None
        end
  end.

(** The loop over the bytes of the result: [count] is the number of bytes before [pos]. *)
Fixpoint hex_loop (n count : nat) (pos : string) : string + string :=
  match n with
  | O => inr ""
  | S n =>
      match sscanf_2hhx pos with
      | None => inl ("hex-decoding failed at offset " ^^ pretty (Z.of_nat (count * 2)) ^^ ": non-hex input")
      | Some v =>
          match hex_loop n (S count) (str_drop 2 pos) with
          | inl e => inl e
          | inr s => inr (String (ascii_of_nat (Z.to_nat v)) s)
          end
      end
  end.
Definition oidc_cfg_parse_hex (input : string) : string + (string * Z) :=
  let input_len := zlen input in
  if negb (input_len mod 2 =? 0) then inl ("hex-decoding failed: input length (" ^^ pretty input_len ^^ ") is not even")
  else
    let output_len := input_len / 2 in
    val <-? hex_loop (Z.to_nat output_len) 0 input ;;
    inr (val, output_len).

Definition OIDC_KEY_ENCODING_BASE64 : string := "b64".
Definition OIDC_KEY_ENCODING_BASE64_URL : string := "b64url".
Definition OIDC_KEY_ENCODING_HEX : string := "hex".
Definition OIDC_KEY_ENCODING_PLAIN : string := "plain".

(** The key and its length. *)
Definition oidc_cfg_parse_key_value (enc input : string) : string + (string * Z) :=
  if String.eqb enc OIDC_KEY_ENCODING_BASE64 then
    match oidc_util_base64_decode (Some input) with
    | (Some e, _, _) => inl e
    | (None, key, key_len) => inr (default "" key, key_len)
    end
  else if String.eqb enc OIDC_KEY_ENCODING_BASE64_URL then oidc_cfg_parse_base64url input
  else if String.eqb enc OIDC_KEY_ENCODING_HEX then oidc_cfg_parse_hex input
  else if String.eqb enc OIDC_KEY_ENCODING_PLAIN then inr (input, zlen input)
  else inl (default "" (oidc_cfg_parse_is_valid_option (Some enc)
    [OIDC_KEY_ENCODING_BASE64; OIDC_KEY_ENCODING_BASE64_URL; OIDC_KEY_ENCODING_HEX; OIDC_KEY_ENCODING_PLAIN])).
End keys.

(** *** Records *)

Definition oidc_cfg_parse_key_alg_is_known (alg : string) : bool :=
  existsb (String.eqb alg)
    ["RS256"; "RS384"; "RS512"; "PS256"; "PS384"; "PS512"; "HS256"; "HS384"; "HS512"; "ES256"; "ES384"; "ES512"; "ES256K"; "EdDSA";
     "dir"; "RSA1_5"; "RSA-OAEP"; "RSA-OAEP-256"; "RSA-OAEP-384"; "RSA-OAEP-512"; "A128KW"; "A192KW"; "A256KW"; "A128GCMKW";
     "A192GCMKW"; "A256GCMKW"; "ECDH-ES"; "PBES2-HS256"; "PBES2-HS384"; "PBES2-HS512"].

(** What follows the list of algorithms, and the list. *)
Definition oidc_cfg_parse_key_alg_prefix (tuple : string) : string * option string :=
  match strstr tuple "@" with
  | None | Some O => (tuple, None)
  | Some at_ =>
      let candidate := str_take at_ tuple in
      if negb (str_forall (fun c => negb (Ascii.eqb c "#" || Ascii.eqb c "/")) candidate) then (tuple, None)
      else
        let toks := strtok_all "+" candidate in
        if negb (forallb oidc_cfg_parse_key_alg_is_known toks) || Nat.eqb (length toks) 0 then (tuple, None)
        else (str_drop (at_ + 1) tuple, Some candidate)
  end.

Inductive oidc_key_record_format_t := OIDC_KEY_RECORD_PAIR | OIDC_KEY_RECORD_TRIPLET.

Record key_record := mk_key_record {
  kr_kid : option string; kr_key : string; kr_key_len : Z; kr_use : option string; kr_alg : option string }.

(** [want_use] and [want_alg]: whether [use] and [alg] are not [NULL]. *)
Definition oidc_cfg_parse_key_record {B64 : Base64} (tuple : option string) (want_use want_alg : bool)
  (format : oidc_key_record_format_t) : string + key_record :=
  match tuple with
  | None | Some "" => inl "tuple value not set"
  | Some tuple =>
      let '(use, tuple) :=
        if want_use then
          if str_prefix "sig:" tuple then (Some OIDC_JOSE_JWK_SIG_STR, str_drop 4 tuple)
          else if str_prefix "enc:" tuple then (Some OIDC_JOSE_JWK_ENC_STR, str_drop 4 tuple)
          else (None, tuple)
        else (None, tuple) in
      let '(s, alg) := if want_alg then oidc_cfg_parse_key_alg_prefix tuple else (tuple, None) in
      match strstr s "#" with
      | None => inr (mk_key_record None s (zlen s) use alg)
      | Some p =>
          let after := str_drop (p + 1) s in
          match (match format with OIDC_KEY_RECORD_TRIPLET => strstr after "#" | OIDC_KEY_RECORD_PAIR => None end) with
          | Some q =>
              let kid := str_take q after in
              '(key, key_len) <-? oidc_cfg_parse_key_value (str_take p s) (str_drop (q + 1) after) ;;
              inr (mk_key_record (if String.eqb kid "" then None else Some kid) key key_len use alg)
          | None => inr (mk_key_record (Some (str_take p s)) after (zlen after) use alg)
          end
      end
  end.

(** ** Files *)

Section files.
Context {J : Jansson} {B64 : Base64} {C : Cjose J} {D : Digest} {E : CfgEnv C}.

Definition oidc_cfg_parse_io_error (action type : string) (name : option string) (err : string) : string :=
  "cannot " ^^ action ^^ " " ^^ type ^^ " " ^^ pr name ^^ ": " ^^ err.

Definition oidc_cfg_parse_dirname (arg : option string) : string + string :=
  match arg with
  | None => inl "directory name cannot be empty"
  | Some a =>
      match apr_dir_open a with
      | Some e => inl (oidc_cfg_parse_io_error "access" "directory" arg e)
      | None =>
          match apr_dir_close a with
          | Some e => inl (oidc_cfg_parse_io_error "close" "directory" arg e)
          | None => inr a
          end
      end
  end.

Definition oidc_cfg_parse_filename (arg : option string) : string + option string :=
  match arg with
  | None => inl "file name cannot be empty"
  | Some _ =>
      let filename := ap_server_root_relative arg in
      match apr_file_open filename with
      | Some e => inl (oidc_cfg_parse_io_error "access" "file" filename e)
      | None =>
          match apr_file_close filename with
          | Some e => inl (oidc_cfg_parse_io_error "close" "file" filename e)
          | None => inr filename
          end
      end
  end.

Definition oidc_cfg_parse_passphrase (arg : option string) : string + option string :=
  if (5 <? _oidc_strlen arg) && (_oidc_strncmp arg (Some "exec:") 5 =? 0) then
    let location := str_drop 5 (default "" arg) in
    match apr_tokenize_to_argv location with
    | None => inl ("Unable to parse exec arguments from " ^^ location)
    | Some argv =>
        match ap_server_root_relative (head argv) with
        | None => inl ("Invalid exec location:" ^^ location)
        | Some path =>
            match ap_get_exec_line path (path :: tail argv) with
            | None => inl ("Unable to get passphrase from exec of " ^^ location)
            | Some "" =>
                inl ("the output of the  passphrase generation command is empty (perhaps you need to pass it to bash -c " ^^
                     DQ ^^ "<cmd>" ^^ DQ ^^ "?)")
            | Some result => inr (Some result)
            end
        end
    end
  else inr arg.

(** *** Keys in files, with [oidc_jwk_pem_bio_to_jwk] of src/jose/jwk.c *)

Definition OIDC_JOSE_ALG_SHA1 : string := "sha1".

Definition oidc_jwk_pem_bio_to_jwk (kid : option string) (is_private_key : bool) (input : option string) : option oidc_jwk_t :=
  '(cjose_jwk, fp, cert) ← pem_key is_private_key input;
  cjose_jwk ← oidc_jwk_set_or_generate_kid cjose_jwk kid fp;
  let hash alg := '(_, der) ← cert; oidc_jose_hash_and_base64url_encode alg der in
  Some (mk_jwk None None (cjose_jwk_get_kty cjose_jwk) (cjose_jwk_get_kid cjose_jwk) (fst <$> cert)
    (hash OIDC_JOSE_ALG_SHA1) (hash OIDC_JOSE_ALG_SHA256) cjose_jwk).
Definition oidc_jwk_parse_pem_key := oidc_jwk_pem_bio_to_jwk.

(** The message without the cause that OpenSSL reports. *)
Definition oidc_cfg_parse_pem_key (is_private : bool) (kid fname : option string) : string + oidc_jwk_t :=
  match oidc_jwk_parse_pem_key kid is_private fname with
  | Some jwk => inr jwk
  | None => inl ("oidc_jwk_parse_pem_" ^^ (if is_private then "private" else "public") ^^ "_key failed for (kid=" ^^
                 default "" kid ^^ ") " ^^ DQ ^^ pr fname ^^ DQ)
  end.

(** One key for each algorithm; the keys before one that fails stay in the list. *)
Fixpoint key_files_loop (is_private multi : bool) (base_kid fname use : option string) (algs : list (option string))
  (keys : list oidc_jwk_t) : option string * list oidc_jwk_t :=
  match algs with
  | [] => (None, keys)
  | a :: algs =>
      let this_kid := match base_kid with Some b => if multi then Some (b ^^ "-" ^^ pr a) else base_kid | None => base_kid end in
      match oidc_cfg_parse_pem_key is_private this_kid fname with
      | inl e => (Some e, keys)
      | inr jwk =>
          let jwk_use := match use with Some _ => use | None => jwk_use jwk end in
          let with_alg alg := mk_jwk jwk_use alg (jwk_kty jwk) (jwk_kid jwk) (jwk_x5c jwk) (jwk_x5t jwk) (jwk_x5t_S256 jwk)
                                (jwk_cjose_jwk jwk) in
          match a with
          | Some alg =>
              if negb (oidc_alg2kty a =? jwk_kty jwk) then
                (Some ("algorithm " ^^ DQ ^^ alg ^^ DQ ^^ " is not compatible with the key type of " ^^ DQ ^^ pr fname ^^ DQ), keys)
              else key_files_loop is_private multi base_kid fname use algs (keys ++ [with_alg a])
          | None => key_files_loop is_private multi base_kid fname use algs (keys ++ [with_alg (jwk_alg jwk)])
          end
      end
  end.

(** The message and [*keys]. *)
Definition oidc_cfg_parse_key_files (arg : option string) (keys : option (list oidc_jwk_t)) (is_private : bool)
  : option string * option (list oidc_jwk_t) :=
  match oidc_cfg_parse_key_record arg true true OIDC_KEY_RECORD_PAIR with
  | inl e => (Some e, keys)
  | inr rec =>
      match oidc_cfg_parse_filename (Some (kr_key rec)) with
      | inl e => (Some e, keys)
      | inr fname =>
          let algs := match kr_alg rec with Some a => Some <$> strtok_all "+" a | None => [] end in
          let algs := match algs with [] => [None] | a :: l => a :: l end in
          let multi := (1 <? length algs)%nat in
          let loop base_kid :=
            let '(e, keys) := key_files_loop is_private multi base_kid fname (kr_use rec) algs (default [] keys) in
            (e, Some keys) in
          match kr_kid rec with
          | None =>
              if multi then
                match oidc_cfg_parse_pem_key is_private None fname with
                | inl e => (Some e, keys)
                | inr jwk => loop (jwk_kid jwk)
                end
              else loop None
          | Some _ => loop (kr_kid rec)
          end
      end
  end.
Definition oidc_cfg_parse_public_key_files arg keys := oidc_cfg_parse_key_files arg keys false.
Definition oidc_cfg_parse_private_key_files arg keys := oidc_cfg_parse_key_files arg keys true.
End files.

(** ** Compound values *)

Definition OIDC_ON_ERROR_502 : Z := 0.
Definition OIDC_ON_ERROR_LOGOUT : Z := 1.
Definition OIDC_ON_ERROR_AUTH : Z := 2.
Definition oidc_cfg_parse_action_on_error_refresh_as (arg : option string) : string + Z :=
  oidc_cfg_parse_option
    [mk_option OIDC_ON_ERROR_502 "502_on_error"; mk_option OIDC_ON_ERROR_LOGOUT "logout_on_error";
     mk_option OIDC_ON_ERROR_AUTH "authenticate_on_error"] arg.

Record oidc_remote_user_claim_t := mk_remote_user_claim { claim_name : option string; reg_exp : option string; replace : option string }.
Definition oidc_parse_remote_user_claim (v1 v2 v3 : option string) (c : oidc_remote_user_claim_t) : oidc_remote_user_claim_t :=
  mk_remote_user_claim v1 (match v2 with Some _ => v2 | None => reg_exp c end) (match v3 with Some _ => v3 | None => replace c end).

(** The message and the timeouts, of which those before a value that fails have been set. *)
Definition oidc_cfg_parse_http_timeout (arg1 arg2 arg3 : option string) (t : oidc_http_timeout_t)
  : option string * oidc_http_timeout_t :=
  let set arg (f : Z -> oidc_http_timeout_t) t k :=
    match oidc_cfg_parse_int arg with inl e => (Some e, t) | inr v => k (f v) end in
  let third t :=
    match arg3 with
    | None => (None, t)
    | Some s =>
        let retry s t :=
          set s (fun v => mk_timeout (request_timeout t) (connect_timeout t) v (retry_interval t)) t (fun t => (None, t)) in
        match strstr s ":" with
        | Some p =>
            set (Some (str_drop (p + 1) s)) (fun v => mk_timeout (request_timeout t) (connect_timeout t) (retries t) v) t
              (retry (Some (str_take p s)))
        | None => retry (Some s) t
        end
    end in
  let second t :=
    match arg2 with
    | None => third t
    | Some _ => set arg2 (fun v => mk_timeout (request_timeout t) v (retries t) (retry_interval t)) t third
    end in
  match arg1 with
  | None => second t
  | Some _ => set arg1 (fun v => mk_timeout v (connect_timeout t) (retries t) (retry_interval t)) t second
  end.

(** ** Lemmas *)

(** A known algorithm has no separator, and it is not the beginning of a use. *)
Lemma alg_known a : oidc_cfg_parse_key_alg_is_known a = true ->
  a <> "" /\ str_forall (fun c => negb (str_mem c "@#/+")) a = true /\
  forall s, str_prefix "sig:" (a ^^ s) = false /\ str_prefix "enc:" (a ^^ s) = false.
Proof.
  unfold oidc_cfg_parse_key_alg_is_known. intros (k & Hk & Ha%String.eqb_eq)%existsb_exists. subst k.
  repeat (destruct Hk as [<-|Hk]; [split; [done|]; split; [reflexivity|]; intros s; split; reflexivity|]). destruct Hk.
Qed.

(** The algorithms of a record and the rest. *)
Definition alg_prefix (algs : list string) : string := match algs with [] => "" | _ => join "+" algs ^^ "@" end.

Lemma join_forall p sep l : str_forall p sep = true -> Forall (fun s => str_forall p s = true) l -> str_forall p (join sep l) = true.
Proof.
  intros Hs. induction l as [|s l IH]; intros Hl; [done|]. apply Forall_cons in Hl as [H1 Hl]. destruct l as [|s' l]; [done|].
  change (join sep (s :: s' :: l)) with (s ^^ sep ^^ join sep (s' :: l)). rewrite !str_forall_append, H1, Hs. by apply IH.
Qed.

Lemma parse_alg_prefix algs rest : Forall (fun a => oidc_cfg_parse_key_alg_is_known a = true) algs -> algs <> [] ->
  oidc_cfg_parse_key_alg_prefix (alg_prefix algs ^^ rest) = (rest, Some (join "+" algs)).
Proof.
  intros Hk Hne. assert (Hf : str_forall (fun c => negb (str_mem c "@#/")) (join "+" algs) = true).
  { apply join_forall; [done|]. eapply Forall_impl; [exact Hk|]. intros a (_ & Ha & _)%alg_known.
    eapply str_forall_impl; [|exact Ha]. intros c Hc. cbn in *. destruct (Ascii.eqb c "@"), (Ascii.eqb c "#"), (Ascii.eqb c "/"); done. }
  assert (Hat : strchr (join "+" algs) "@" = None) by by apply (strchr_forall (fun c => negb (str_mem c "@#/"))).
  unfold alg_prefix. destruct algs as [|a algs]; [done|]. rewrite append_assoc. change ("@" ^^ rest) with (String "@" rest).
  unfold oidc_cfg_parse_key_alg_prefix. rewrite strstr_char by done.
  assert (Hn : exists n, String.length (join "+" (a :: algs)) = S n).
  { apply Forall_cons in Hk as [(Ha & _)%alg_known _]. destruct a as [|c a]; [done|]. destruct algs as [|a' algs]; by eexists. }
  destruct Hn as [n Hn]. rewrite Hn. rewrite <-Hn. rewrite str_take_app.
  rewrite (str_forall_impl (fun c => negb (str_mem c "@#/"))); [|intros c Hc|exact Hf].
  2:{ cbn in *. destruct (Ascii.eqb c "#"), (Ascii.eqb c "/"); destruct (Ascii.eqb c "@"); done. }
  rewrite strtok_join.
  2:{ eapply Forall_impl; [exact Hk|]. intros x (Hx & Hc & _)%alg_known. split; [done|].
      by apply (strchr_forall (fun c => negb (str_mem c "@#/+"))). }
  cbn [negb]. assert (forallb oidc_cfg_parse_key_alg_is_known (a :: algs) = true) as -> by (apply forallb_forall; intros x Hx%list_elem_of_In; rewrite Forall_forall in Hk; by apply Hk).
  cbn [negb orb length Nat.eqb]. by rewrite str_drop_app_S.
Qed.

Lemma prefix_before p s rest : str_forall (fun c => negb (Ascii.eqb c "#")) p = true -> str_prefix p s = false ->
  str_prefix p (s ^^ String "#" rest) = false.
Proof.
  revert s. induction p as [|c p IH]; intros s Hp Hs; [done|]. cbn [str_forall] in Hp. apply andb_true_iff in Hp as [Hc Hp].
  destruct s as [|d s]; cbn [String.append str_prefix] in *.
  - destruct (Ascii.eqb_spec c "#"); [done|]. done.
  - destruct (Ascii.eqb c d); [|done]. cbn [andb] in *. by apply IH.
Qed.

(** How an administrator writes a key record. *)
Definition render_key (use : option string) (algs : list string) (kid key : string) : string :=
  match use with Some u => u ^^ ":" | None => "" end ^^ alg_prefix algs ^^ kid ^^ "#" ^^ key.

Lemma strchr_prefix_take kid key n : strchr kid "@" = None -> strstr (kid ^^ String "#" key) "@" = Some n ->
  str_forall (fun c => negb (Ascii.eqb c "#" || Ascii.eqb c "/")) (str_take n (kid ^^ String "#" key)) = false.
Proof.
  revert n. induction kid as [|c kid IH]; intros n Hk Hn.
  - cbn [String.append strstr str_prefix] in Hn. cbn [Ascii.eqb Bool.eqb andb] in Hn. destruct (strstr key "@") as [m|]; [|done].
    cbn [fmap option_fmap option_map] in Hn. by injection Hn as <-.
  - cbn [strchr] in Hk. destruct (Ascii.eqb_spec c "@") as [->|Hc]; [done|].
    cbn [String.append strstr str_prefix] in Hn. destruct (Ascii.eqb_spec "@" c); [congruence|]. cbn [andb] in Hn.
    destruct (strstr (kid ^^ String "#" key) "@") as [m|] eqn:Em; [|done]. cbn [fmap option_fmap option_map] in Hn. injection Hn as <-.
    cbn [String.append str_take str_forall]. by rewrite (IH m Hk eq_refl), andb_false_r.
Qed.

(** Without algorithms nothing is taken for a list of them. *)
Lemma no_alg_prefix kid key : strchr kid "@" = None ->
  oidc_cfg_parse_key_alg_prefix (kid ^^ String "#" key) = (kid ^^ String "#" key, None).
Proof.
  intros Hk. unfold oidc_cfg_parse_key_alg_prefix. destruct (strstr _ "@") as [[|n]|] eqn:En; [done| |done].
  by rewrite (strchr_prefix_take _ _ _ Hk En).
Qed.

(** ** Properties *)

(** Parsing a number in a range gives a number in the range, whatever the text, and never one that was cut off at the
    bounds of a C [int]; every number in the range is read from its decimal digits. *)
Theorem parse_int_in_range (arg : option string) (lo hi v : Z) :
  (oidc_cfg_parse_int_min_max arg lo hi = inr v -> lo <= v <= hi /\ INT_MIN <= v <= INT_MAX) /\
  (0 <= v <= INT_MAX -> lo <= v <= hi -> oidc_cfg_parse_int_min_max (Some (pretty v)) lo hi = inr v).
Proof.
  unfold oidc_cfg_parse_int_min_max, oidc_cfg_parse_is_valid_int. split.
  - unfold oidc_cfg_parse_int, _oidc_str_to_int_checked. destruct arg as [[|c s]|]; [done| |done].
    destruct (strtol _) as [[x e] er]. destruct (_ || _) eqn:Eb; [done|]. cbn [parse_bind].
    destruct (Z.ltb_spec x lo); [done|]. destruct (Z.ltb_spec hi x); [done|]. intros [= ->].
    apply orb_false_iff in Eb as [Eb H1%Z.ltb_ge]. apply orb_false_iff in Eb as [_ H2%Z.ltb_ge]. lia.
  - intros Hv Hr. assert (He : oidc_cfg_parse_int (Some (pretty v)) = inr v).
    { pose proof (str_to_int_pretty v (v + 1) Hv) as Hp. unfold _oidc_str_to_int in Hp. unfold oidc_cfg_parse_int.
      destruct (_oidc_str_to_int_checked (Some (pretty v))) as [x|] eqn:Ex; cbn in Hp; [|lia]. subst x.
      destruct (pretty v) as [|c s]; [done|done]. }
    rewrite He. cbn [parse_bind]. destruct (Z.ltb_spec v lo); [lia|]. by destruct (Z.ltb_spec hi v); [lia|].
Qed.

(** A key record that was written with a use, algorithms, an identifier and a key is read back as such; the key may
    have any characters, and nothing in the record is taken for a list of algorithms unless each of
    its elements is one. *)
Theorem key_record_roundtrip {B64 : Base64} (use : option string) (algs : list string) (kid key : string) :
  use = None \/ use = Some "sig" \/ use = Some "enc" ->
  Forall (fun a => oidc_cfg_parse_key_alg_is_known a = true) algs ->
  str_forall (fun c => negb (str_mem c "@#")) kid = true ->
  str_prefix "sig:" kid = false -> str_prefix "enc:" kid = false ->
  oidc_cfg_parse_key_record (Some (render_key use algs kid key)) true true OIDC_KEY_RECORD_PAIR =
  inr (mk_key_record (Some kid) key (zlen key) use (match algs with [] => None | _ => Some (join "+" algs) end)).
Proof.
  intros Hu Ha Hk Hs He. unfold render_key.
  set (rest := kid ^^ "#" ^^ key).
  assert (Hp : forall p, p = "sig:" \/ p = "enc:" -> str_prefix p (alg_prefix algs ^^ rest) = false).
  { intros p Hp. destruct algs as [|a algs].
    - change (alg_prefix [] ^^ rest) with rest. unfold rest. apply prefix_before; destruct Hp as [->| ->]; done.
    - apply Forall_cons in Ha as [(_ & _ & Ha)%alg_known _].
      assert (exists t, alg_prefix (a :: algs) ^^ rest = (a ^^ t)) as [t ->].
      { destruct algs as [|a' algs]; [exists ("@" ^^ rest)|exists ("+" ^^ join "+" (a' :: algs) ^^ "@" ^^ rest)].
        - unfold alg_prefix. cbn [join]. by rewrite append_assoc.
        - unfold alg_prefix. change (join "+" (a :: a' :: algs)) with (a ^^ "+" ^^ join "+" (a' :: algs)). by rewrite !append_assoc. }
      destruct (Ha t). by destruct Hp as [->| ->]. }
  assert (Hal : oidc_cfg_parse_key_alg_prefix (alg_prefix algs ^^ rest) =
    (rest, match algs with [] => None | _ => Some (join "+" algs) end)).
  { destruct algs as [|a algs]; [|by rewrite parse_alg_prefix].
    apply no_alg_prefix. by apply (strchr_forall (fun c => negb (str_mem c "@#"))). }
  assert (Hr : strstr rest "#" = Some (String.length kid)).
  { apply strstr_char. by apply (strchr_forall (fun c => negb (str_mem c "@#"))). }
  assert (Hne : forall u, (u ^^ alg_prefix algs ^^ rest) <> "").
  { intros u. unfold rest. destruct u; [|done]. destruct (alg_prefix algs); [|done]. by destruct kid. }
  assert (Hd : str_drop (String.length kid + 1) rest = key) by apply str_drop_app_S.
  assert (Ht : str_take (String.length kid) rest = kid) by apply str_take_app.
  assert (Hfin : forall use, match strstr rest "#" with
    | None => inr (mk_key_record None rest (zlen rest) use (match algs with [] => None | _ => Some (join "+" algs) end))
    | Some p => inr (mk_key_record (Some (str_take p rest)) (str_drop (p + 1) rest) (zlen (str_drop (p + 1) rest)) use
                      (match algs with [] => None | _ => Some (join "+" algs) end)) end =
    (inr (mk_key_record (Some kid) key (zlen key) use (match algs with [] => None | _ => Some (join "+" algs) end)) : string + key_record)).
  { intros u. by rewrite Hr, Hd, Ht. }
  unfold oidc_cfg_parse_key_record. clearbody rest.
  destruct Hu as [->|[->| ->]].
  - change ("" ^^ alg_prefix algs ^^ rest) with (alg_prefix algs ^^ rest) in *. specialize (Hne "").
    change ("" ^^ alg_prefix algs ^^ rest) with (alg_prefix algs ^^ rest) in Hne.
    destruct (alg_prefix algs ^^ rest) as [|c s] eqn:ET; [done|]. rewrite <-ET in *. rewrite !Hp by auto. rewrite Hal. apply Hfin.
  - set (T := alg_prefix algs ^^ rest) in *. clearbody T.
    change (match ("sig" ^^ ":") ^^ T with "" => _ | _ => _ end) with
      (let '(s, alg) := oidc_cfg_parse_key_alg_prefix T in
       match strstr s "#" with
       | None => inr (mk_key_record None s (zlen s) (Some "sig") alg)
       | Some p => inr (mk_key_record (Some (str_take p s)) (str_drop (p + 1) s) (zlen (str_drop (p + 1) s)) (Some "sig") alg)
       end : string + key_record). rewrite Hal. apply Hfin.
  - set (T := alg_prefix algs ^^ rest) in *. clearbody T.
    change (match ("enc" ^^ ":") ^^ T with "" => _ | _ => _ end) with
      (let '(s, alg) := oidc_cfg_parse_key_alg_prefix T in
       match strstr s "#" with
       | None => inr (mk_key_record None s (zlen s) (Some "enc") alg)
       | Some p => inr (mk_key_record (Some (str_take p s)) (str_drop (p + 1) s) (zlen (str_drop (p + 1) s)) (Some "enc") alg)
       end : string + key_record). rewrite Hal. apply Hfin.
Qed.

(** A URL that is accepted as one of http has one of the two schemes and names a host. *)
Theorem valid_http_url {H : Httpd} (arg : option string) :
  oidc_cfg_parse_is_valid_http_url arg = None <->
  exists a uri scheme, arg = Some a /\ apr_uri_parse a = Some uri /\ uri_scheme uri = Some scheme /\
    (apr_strnatcasecmp scheme "https" = 0 \/ apr_strnatcasecmp scheme "http" = 0) /\ uri_hostname uri <> None.
Proof.
  unfold oidc_cfg_parse_is_valid_http_url, oidc_cfg_parse_is_valid_url_scheme. destruct arg as [a|]; [|split; [done|naive_solver]].
  destruct (apr_uri_parse a) as [uri|] eqn:Eu; [|split; [done|naive_solver]].
  destruct (uri_scheme uri) as [scheme|] eqn:Es; [|split; [done|naive_solver]].
  cbn [nonnull andb negb _oidc_strnatcasecmp].
  destruct (Z.eqb_spec (apr_strnatcasecmp scheme "https") 0), (Z.eqb_spec (apr_strnatcasecmp scheme "http") 0); cbn [andb negb];
    rewrite ?andb_false_r; try (split; [done|naive_solver]).
  all: destruct (uri_hostname uri) eqn:Eh; cbn [nonnull negb]; (split; [|naive_solver]); [|done];
    intros _; eexists _, _, _; split; [done|]; split; [done|]; split; [done|]; split; [auto|congruence].
Qed.

Section key_files.
Context {J : Jansson} {B64 : Base64} {C : Cjose J} {CS : CjoseSpec C B64} {D : Digest} {E : CfgEnv C}.

Lemma pem_key_kid is_private kid fname (jwk : oidc_jwk_t) : oidc_cfg_parse_pem_key is_private kid fname = inr jwk ->
  jwk_use jwk = None /\ jwk_alg jwk = None /\ exists k, jwk_kid jwk = Some k /\ (forall k', kid = Some k' -> k' = k).
Proof.
  unfold oidc_cfg_parse_pem_key, oidc_jwk_parse_pem_key, oidc_jwk_pem_bio_to_jwk.
  destruct (pem_key is_private fname) as [[[cj fp] cert]|]; [|done]. cbn [mbind option_bind].
  unfold oidc_jwk_set_or_generate_kid. destruct kid as [kid|].
  - cbn [mbind option_bind]. destruct (cjose_jwk_set_kid cj kid) as [cj'|] eqn:Ek; [|done]. cbn [mbind option_bind].
    intros [= <-]. cbn. rewrite (set_kid _ _ _ Ek). naive_solver.
  - destruct (oidc_jose_hash_and_base64url_encode _ _) as [kid|]; [|done]. cbn [mbind option_bind].
    destruct (cjose_jwk_set_kid cj kid) as [cj'|] eqn:Ek; [|done]. cbn [mbind option_bind].
    intros [= <-]. cbn. rewrite (set_kid _ _ _ Ek). naive_solver.
Qed.

(** What is known of a key that was loaded for the algorithm [a]. *)
Definition loaded (multi : bool) (base_kid use : option string) (a : option string) (jwk : oidc_jwk_t) : Prop :=
  jwk_use jwk = use /\ jwk_alg jwk = a /\ (a <> None -> oidc_alg2kty a = jwk_kty jwk) /\
  (forall b, base_kid = Some b -> jwk_kid jwk = Some (if multi then b ^^ "-" ^^ pr a else b)).

Lemma key_files_loop_loaded is_private multi base_kid fname use algs keys keys' :
  key_files_loop is_private multi base_kid fname use algs keys = (None, keys') ->
  exists new, keys' = keys ++ new /\ Forall2 (loaded multi base_kid use) algs new.
Proof.
  revert keys. induction algs as [|a algs IH]; intros keys; cbn [key_files_loop].
  { intros [= <-]. exists []. by rewrite app_nil_r. }
  set (this := match base_kid with Some b => _ | None => _ end).
  destruct (oidc_cfg_parse_pem_key is_private this fname) as [e|jwk] eqn:Ep; [done|].
  apply pem_key_kid in Ep as (Hu & Ha & k & Hk & Hb). rewrite Hu, Ha.
  assert (Hkid : forall b, base_kid = Some b -> k = (if multi then b ^^ "-" ^^ pr a else b)).
  { intros b ->. unfold this in Hb. destruct multi; by rewrite (Hb _ eq_refl). }
  destruct a as [a|].
  - destruct (Z.eqb_spec (oidc_alg2kty (Some a)) (jwk_kty jwk)); cbn [negb]; [|done].
    intros (new & -> & Hf)%IH. eexists. rewrite <-app_assoc. split; [reflexivity|]. constructor; [|exact Hf].
    split; [by destruct use|]. split; [done|]. split; [done|]. intros b Hbk. cbn. by rewrite Hk, (Hkid b Hbk).
  - intros (new & -> & Hf)%IH. eexists. rewrite <-app_assoc. split; [reflexivity|]. constructor; [|exact Hf].
    split; [by destruct use|]. split; [done|]. split; [done|]. intros b Hbk. cbn. by rewrite Hk, (Hkid b Hbk).
Qed.

(** Loading a key file adds one key for each algorithm that is listed, or one without an algorithm, to those
    loaded before: each has the type of its algorithm, and the identifiers of several of them differ. *)
Theorem key_files_loaded (arg : option string) (keys keys' : option (list oidc_jwk_t)) (is_private : bool) :
  oidc_cfg_parse_key_files arg keys is_private = (None, keys') ->
  exists rec new, oidc_cfg_parse_key_record arg true true OIDC_KEY_RECORD_PAIR = inr rec /\
    keys' = Some (default [] keys ++ new) /\
    let algs := match kr_alg rec with Some a => strtok_all "+" a | None => [] end in
    Forall (fun jwk => jwk_use jwk = kr_use rec) new /\
    match algs with
    | [] => exists jwk, new = [jwk] /\ jwk_alg jwk = None /\ (forall kid, kr_kid rec = Some kid -> jwk_kid jwk = Some kid)
    | _ => Forall2 (fun a jwk => jwk_alg jwk = Some a /\ oidc_alg2kty (Some a) = jwk_kty jwk) algs new /\
           (NoDup algs -> (1 < length algs)%nat -> NoDup (map jwk_kid new))
    end.
Proof.
  unfold oidc_cfg_parse_key_files. destruct (oidc_cfg_parse_key_record arg true true _) as [e|rec]; [done|].
  destruct (oidc_cfg_parse_filename _) as [e|fname]; [done|].
  set (algs := match kr_alg rec with Some a => strtok_all "+" a | None => [] end).
  assert (Hal : (match (match kr_alg rec with Some a => Some <$> strtok_all "+" a | None => [] end) with [] => [None] | a :: l => a :: l end)
    = match algs with [] => [None] | _ => map Some algs end).
  { unfold algs. destruct (kr_alg rec) as [a|]; [|done]. by destruct (strtok_all "+" a). }
  cbv zeta. rewrite Hal. set (all := match algs with [] => [None] | _ => map Some algs end).
  intros Hrun. assert (Hloop : exists base, key_files_loop is_private (1 <? length all)%nat base fname (kr_use rec) all (default [] keys) =
    (None, default [] keys') /\ keys' = Some (default [] keys') /\ (kr_kid rec <> None -> base = kr_kid rec) /\
    (1 < length all -> base <> None)%nat).
  { destruct (kr_kid rec) as [k|] eqn:Hkid.
    - exists (Some k). destruct (key_files_loop _ _ _ _ _ _ _) as [e ks]. by simplify_eq.
    - destruct (Nat.ltb_spec 1 (length all)).
      + destruct (oidc_cfg_parse_pem_key is_private None fname) as [e|jwk] eqn:Ep; [done|].
        apply pem_key_kid in Ep as (_ & _ & b & Hb & _). exists (jwk_kid jwk). rewrite Hb in *.
        destruct (key_files_loop _ _ _ _ _ _ _) as [e ks]. by simplify_eq.
      + exists None. destruct (key_files_loop _ _ _ _ _ _ _) as [e ks]. simplify_eq. split; [done|]. split; [done|].
        split; [done|lia]. }
  clear Hrun. destruct Hloop as (base & Hl & Hk' & Hbase & Hmulti). apply key_files_loop_loaded in Hl as (new & Hnew & Hf).
  exists rec, new. split; [done|]. split; [by rewrite Hk', Hnew|]. cbv zeta. fold algs. split.
  { clear -Hf. induction Hf as [|a jwk l l' (Hu & _) _ IH]; constructor; auto. }
  unfold all in *. destruct algs as [|a0 algs'] eqn:Ea.
  - apply Forall2_cons_inv_l in Hf as (jwk & ? & (_ & Ha & _ & Hkid) & Hnil & ->). apply Forall2_nil_inv_l in Hnil as ->.
    exists jwk. split; [done|]. split; [done|]. intros kid Hr. apply Hkid. by rewrite Hbase by congruence.
  - rewrite <-Ea in *. clear Ea. assert (Hf' : Forall2 (fun a jwk => loaded (1 <? length (map Some algs))%nat base (kr_use rec) (Some a) jwk) algs new).
    { apply (Forall2_fmap_l Some) in Hf. exact Hf. }
    clear Hf. split.
    + eapply Forall2_impl; [exact Hf'|]. intros a jwk (_ & Ha & Ht & _). split; [done|]. by apply Ht.
    + intros Hnd Hlen. rewrite length_map in *. apply Nat.ltb_lt in Hlen as Hlt. rewrite Hlt in Hf'. destruct base as [b|]; [|by destruct Hmulti].
      assert (Hm : map jwk_kid new = map (fun a => Some (b ^^ "-" ^^ a)) algs).
      { clear -Hf'. induction Hf' as [|a jwk l l' (_ & _ & _ & Hkid) _ IH]; [done|]. cbn [map]. by rewrite IH, (Hkid b eq_refl). }
      rewrite Hm. apply NoDup_fmap_2; [|done]. intros x y [= Hxy]. apply append_inj_l in Hxy. by injection Hxy.
Qed.
End key_files.

(** *** Hexadecimal keys *)

Lemma hex_pair a b rest : 0 <= a < 16 -> 0 <= b < 16 ->
  sscanf_2hhx (String (hex_digit a) (String (hex_digit b) rest)) = Some (16 * a + b).
Proof.
  intros Ha Hb.
  assert (Hall : forallb (fun a => forallb (fun b =>
      negb (isspace (hex_digit a)) && negb (Ascii.eqb (hex_digit a) "+") && negb (Ascii.eqb (hex_digit a) "-") &&
      match hex_value (hex_digit a), hex_value (hex_digit b) with
      | Some x, Some y => (x =? a) && (y =? b) | _, _ => false end) (seqZ 0 16)) (seqZ 0 16) = true) by (vm_compute; reflexivity).
  rewrite forallb_forall in Hall. specialize (Hall a). rewrite <-list_elem_of_In, elem_of_seqZ, forallb_forall in Hall.
  specialize (Hall ltac:(lia) b). rewrite <-list_elem_of_In, elem_of_seqZ in Hall. specialize (Hall ltac:(lia)).
  unfold sscanf_2hhx. cbn [skip_space]. bool_hyps. rewrite H, H2, H1.
  destruct (hex_value (hex_digit a)) as [x|]; [|done]. destruct (hex_value (hex_digit b)) as [y|]; [|done]. bool_hyps.
  by f_equal; lia.
Qed.

(** Decoding inverts the encoding of bytes in hexadecimal digits. *)
Theorem hex_roundtrip (bytes : list Z) : Forall (fun b => 0 <= b < 256) bytes ->
  oidc_cfg_parse_hex (oidc_util_hex_encode bytes) =
  inr (fold_right (fun b s => String (ascii_of_nat (Z.to_nat b)) s) "" bytes, Z.of_nat (length bytes)).
Proof.
  intros Hb. unfold oidc_cfg_parse_hex.
  assert (Hlen : zlen (oidc_util_hex_encode bytes) = 2 * Z.of_nat (length bytes)).
  { clear Hb. induction bytes as [|b bytes IH]; [done|]. cbn [oidc_util_hex_encode length]. unfold zlen in *. cbn [String.length]. lia. }
  rewrite Hlen, Z.mul_comm, Z.mod_mul, Z.div_mul by lia. cbn [Z.eqb negb]. rewrite Nat2Z.id.
  assert (Hl : forall count, hex_loop (length bytes) count (oidc_util_hex_encode bytes) =
    inr (fold_right (fun b s => String (ascii_of_nat (Z.to_nat b)) s) "" bytes)).
  { clear Hlen. induction Hb as [|b bytes Hb _ IH]; intros count; [done|]. cbn [length hex_loop oidc_util_hex_encode fold_right].
    assert (Hs : Z.shiftr b 4 = b / 16) by by rewrite Z.shiftr_div_pow2.
    assert (Hm : Z.land b 15 = b mod 16) by (change 15 with (Z.ones 4); by rewrite Z.land_ones).
    rewrite Hs, Hm, hex_pair.
    - rewrite <-(Z.div_mod b 16) by lia. cbn [str_drop]. by rewrite IH.
    - split; [apply Z.div_pos; lia|apply Z.div_lt_upper_bound; lia].
    - apply Z.mod_pos_bound. lia. }
  by rewrite Hl.
Qed.

(** White space passes as a digit, and then the bytes are not those at the same place of the text. *)
Example hex_accepts_space : oidc_cfg_parse_hex " 123" = inr (String "018" (String "#" ""), 2).
Proof. reflexivity. Qed.

(** ** Witnesses *)

Module CfgModel.
#[local] Existing Instances Model.jansson CjoseModel.cjose.
(** Every file has one key, which the file name identifies. *)
#[export] Instance cfg_env : CfgEnv CjoseModel.cjose := {|
  ap_timeout_parameter_parse s := (fun v => v * 1000000) <$> _oidc_str_to_int_checked s;
  apr_dir_open _ := None;
  apr_dir_close _ := None;
  apr_file_open _ := None;
  apr_file_close _ := None;
  ap_server_root_relative o := o;
  apr_tokenize_to_argv s := Some [s];
  ap_get_exec_line _ _ := Some "secret";
  pem_key _ f := f ← f; Some (CjoseModel.mk_jwk CJOSE_JWK_KTY_RSA f None, f, None)
|}.
End CfgModel.

Lemma parse_int_in_range_witness : 0 <= 600 <= 3600 /\ oidc_cfg_parse_int_min_max (Some "600") 0 3600 = inr 600 /\
  oidc_cfg_parse_int_min_max (Some "4294967296") 0 3600 <> inr 0.
Proof.
  split; [apply (parse_int_in_range (Some "600") 0 3600 600); reflexivity|]. split.
  - apply (parse_int_in_range None 0 3600 600); unfold INT_MAX; lia.
  - vm_compute. discriminate.
Defined.

Lemma key_record_roundtrip_witness :
  oidc_cfg_parse_key_record (B64:=Base64Model.base64) (Some "sig:RS256+PS256@k1#/etc/keys/a#b.pem") true true OIDC_KEY_RECORD_PAIR =
  inr (mk_key_record (Some "k1") "/etc/keys/a#b.pem" 17 (Some "sig") (Some "RS256+PS256")).
Proof.
  apply (key_record_roundtrip (B64:=Base64Model.base64) (Some "sig") ["RS256"; "PS256"] "k1" "/etc/keys/a#b.pem");
    [auto|repeat constructor|reflexivity|reflexivity|reflexivity].
Defined.

Lemma valid_http_url_witness : exists uri, apr_uri_parse (Httpd:=HttpdModel.httpd) "https://op.example.com/jwks" = Some uri /\
  uri_hostname uri <> None.
Proof.
  destruct (proj1 (valid_http_url (H:=HttpdModel.httpd) (Some "https://op.example.com/jwks")) eq_refl)
    as (a & uri & s & [= <-] & Hu & _ & _ & Hh). by exists uri.
Defined.

Lemma key_files_loaded_witness : exists new,
  oidc_cfg_parse_private_key_files (B64:=Base64Model.base64) (D:=CjoseModel.digest) (E:=CfgModel.cfg_env)
    (Some "RS256+PS256@k1#a.pem") None = (None, Some new) /\ NoDup (map jwk_kid new).
Proof.
  assert (E : forall new, oidc_cfg_parse_private_key_files (B64:=Base64Model.base64) (D:=CjoseModel.digest) (E:=CfgModel.cfg_env)
    (Some "RS256+PS256@k1#a.pem") None = (None, Some new) -> NoDup (map jwk_kid new)).
  { intros new Hp. destruct (key_files_loaded (CS:=CjoseModel.cjose_spec) (E:=CfgModel.cfg_env) _ None (Some new) true Hp)
      as (rec & new' & Hr & [= ->] & _ & Hn).
    assert (rec = mk_key_record (Some "k1") "a.pem" 5 None (Some "RS256+PS256")) as -> by (vm_compute in Hr; congruence).
    cbn in Hn. apply Hn; [repeat constructor; set_solver|lia]. }
  eexists. split; [reflexivity|]. by apply E.
Defined.

Lemma hex_roundtrip_witness : oidc_cfg_parse_hex "00ff41" = inr (String "000" (String "255" "A"), 3).
Proof. apply (hex_roundtrip [0; 255; 65]). repeat (constructor; [lia|]). constructor. Defined.
