(* ===== verification/ClientAuth.v ===== *)
(** * src/proto/auth.c and src/proto/dpop.c: how the client authenticates itself

    The authentication methods at the endpoints of a provider, and proofs of possession
    (DPoP, RFC 9449), with the export of keys from src/jose/jwk.c.  What cjose exports is
    the parameter [CjoseExport]; random identifiers come from [rnd]. *)

From S2P Require Import Prelude Cstr Apr StrUtil Jansson Json Http Cookie Base64 Jose Jwt Util ShmCache Cache World.
From S2P Require Import HttpClient Cjose Jwk Jwe JoseLib Jws Pkce Provider Profile JwtCheck Jwks IdToken.
#[local] Open Scope Z_scope.

(** ** Exporting keys *)

(** [cjose_jwk_to_json] with or without the private part, and the curve of a key, a number of OpenSSL. *)
Class CjoseExport {J : Jansson} (C : Cjose J) := {
  cjose_jwk_to_json : cjose_jwk_t -> bool -> option string;
  cjose_jwk_EC_get_curve : cjose_jwk_t -> Z
}.

Definition NID_X9_62_prime256v1 : Z := 415.
Definition NID_secp384r1 : Z := 715.
Definition NID_secp521r1 : Z := 716.
Definition OIDC_JOSE_HDR_ALG_HS256 : string := "HS256".
Definition OIDC_JOSE_HDR_ALG_ES384 : string := "ES384".
Definition OIDC_JOSE_HDR_ALG_ES512 : string := "ES512".

Section export.
Context {J : Jansson} {C : Cjose J} {CE : CjoseExport C}.

(** Members that are [NULL] are left out. *)
Definition set_member (json : json_t) (key : string) (value : option string) : json_t :=
  match value with
  | Some v => oidc_json_object_set_new json key (json_string v)
  | None => json
  end.

(** [None] is [FALSE]. *)
Definition oidc_jwk_to_json (jwk : oidc_jwk_t) : option string :=
  s_cjose ← cjose_jwk_to_json (jwk_cjose_jwk jwk) true;
  json ← json_loads s_cjose 0;
  let json := set_member json OIDC_JOSE_JWK_USE_STR (jwk_use jwk) in
  let json := set_member json OIDC_JOSE_JWK_ALG_STR (jwk_alg jwk) in
  let json :=
    match jwk_x5c jwk with
    | Some ((_ :: _) as x5c) =>
        oidc_json_object_set_new json OIDC_JOSE_JWK_X5C_STR
          (Some (foldl (fun temp s => oidc_json_array_append_new temp (json_string s)) json_array x5c))
    | _ => json
    end in
  let json := set_member json OIDC_JOSE_JWK_X5T256_STR (jwk_x5t_S256 jwk) in
  let json := set_member json OIDC_JOSE_JWK_X5T_STR (jwk_x5t jwk) in
  oidc_json_encode (Some json) (Z.lor (Z.lor OIDC_JSON_ENCODE_ANY OIDC_JSON_COMPACT) OIDC_JSON_PRESERVE_ORDER).

Definition oidc_jwk_to_public_json (jwk : oidc_jwk_t) : option string :=
  cjose_jwk_to_json (jwk_cjose_jwk jwk) false.

Definition oidc_jwk_default_jws_alg (jwk : oidc_jwk_t) : option string :=
  if jwk_kty jwk =? OIDC_JOSE_JWK_KTY_RSA then Some OIDC_JOSE_HDR_ALG_RS256
  else if jwk_kty jwk =? OIDC_JOSE_JWK_KTY_EC then
    let curve := cjose_jwk_EC_get_curve (jwk_cjose_jwk jwk) in
    if curve =? NID_X9_62_prime256v1 then Some OIDC_JOSE_HDR_ALG_ES256
    else if curve =? NID_secp384r1 then Some OIDC_JOSE_HDR_ALG_ES384
    else if curve =? NID_secp521r1 then Some OIDC_JOSE_HDR_ALG_ES512
    else None
  else None.
End export.

(** ** The parameters and claims *)

Definition OIDC_PROTO_CLIENT_ID : string := "client_id".
Definition OIDC_PROTO_CLIENT_SECRET : string := "client_secret".
Definition OIDC_PROTO_CLIENT_ASSERTION : string := "client_assertion".
Definition OIDC_PROTO_CLIENT_ASSERTION_TYPE : string := "client_assertion_type".
Definition OIDC_PROTO_CLIENT_ASSERTION_TYPE_JWT_BEARER : string := "urn:ietf:params:oauth:client-assertion-type:jwt-bearer".
Definition OIDC_PROTO_CLIENT_SECRET_BASIC : string := "client_secret_basic".
Definition OIDC_PROTO_CLIENT_SECRET_POST : string := "client_secret_post".
Definition OIDC_PROTO_CLIENT_SECRET_JWT : string := "client_secret_jwt".
Definition OIDC_PROTO_PRIVATE_KEY_JWT : string := "private_key_jwt".
Definition OIDC_PROTO_BEARER_ACCESS_TOKEN : string := "bearer_access_token".
Definition OIDC_PROTO_ENDPOINT_AUTH_NONE : string := "none".
Definition OIDC_ENDPOINT_AUTH_TLS_CLIENT_AUTH : string := "tls_client_auth".
Definition OIDC_ENDPOINT_AUTH_SELF_SIGNED_TLS_CLIENT_AUTH : string := "self_signed_tls_client_auth".
Definition OIDC_PROTO_JWT_ASSERTION_SYMMETRIC_ALG : string := OIDC_JOSE_HDR_ALG_HS256.
Definition OIDC_PROTO_JWT_JTI_LEN : nat := 16.
Definition OIDC_PROTO_DPOP_JWT_TYP : string := "dpop+jwt".
Definition OIDC_PROTO_DPOP_USE_NONCE : string := "use_dpop_nonce".
Definition OIDC_HTTP_HDR_DPOP_NONCE : string := "DPoP-Nonce".
Definition OIDC_CLAIM_ISS : string := "iss".
Definition OIDC_CLAIM_SUB : string := "sub".
Definition OIDC_CLAIM_JTI : string := "jti".
Definition OIDC_CLAIM_EXP : string := "exp".
Definition OIDC_CLAIM_IAT : string := "iat".
Definition OIDC_CLAIM_TYP : string := "typ".
Definition OIDC_CLAIM_JWK : string := "jwk".
Definition OIDC_CLAIM_HTM : string := "htm".
Definition OIDC_CLAIM_HTU : string := "htu".
Definition OIDC_CLAIM_ATH : string := "ath".

Definition oidc_cfg_endpoint_auth_is_mtls (method : option string) : bool :=
  (_oidc_strcmp method (Some OIDC_ENDPOINT_AUTH_TLS_CLIENT_AUTH) =? 0) ||
  (_oidc_strcmp method (Some OIDC_ENDPOINT_AUTH_SELF_SIGNED_TLS_CLIENT_AUTH) =? 0).

(** What the caller gets back: the parameters, [*basic_auth_str] and [*bearer_auth_str]. *)
Record client_auth := mk_auth { ca_params : table; ca_basic : option string; ca_bearer : option string }.

#[local] Open Scope world_scope.

Section auth.
Context {J : Jansson} {B64 : Base64} {C : Cjose J} {CE : CjoseExport C} {D : Digest} {Zl : Zlib} {St : Type}.
Variables (ext : nat -> env) (rnd : nat -> rng) (c : proto_cfg C).

(** [oidc_proto_jti_gen] of src/proto/proto.c. *)
Definition oidc_proto_jti_gen : M St (option string) :=
  fun w => Some (oidc_util_rand_str (rnd (w_calls w)) OIDC_PROTO_JWT_JTI_LEN,
                 mk_world (w_req w) (w_cache w) (S (w_calls w))).

(** Setting a claim. *)
Definition set_claim (key : string) (value : option json_t) (jwt : oidc_jwt_t) : oidc_jwt_t :=
  let p := payload jwt in
  mk_jwt (header jwt)
    (mk_payload (oidc_json_object_set_new (p_json p) key value) (p_str p) (p_iss p) (p_sub p) (p_exp p) (p_iat p))
    (cjose_jws jwt).

(** Setting the members of the header. *)
Definition with_alg (alg : string) (jwt : oidc_jwt_t) : oidc_jwt_t :=
  let h := header jwt in
  mk_jwt (mk_hdr (hdr_json h) (Some alg) (hdr_kid h) (hdr_enc h) (hdr_cty h) (hdr_x5t h)) (payload jwt) (cjose_jws jwt).
Definition with_key (kid x5t : option string) (jwt : oidc_jwt_t) : oidc_jwt_t :=
  let h := header jwt in
  mk_jwt (mk_hdr (hdr_json h) (hdr_alg h) kid (hdr_enc h) (hdr_cty h) (match x5t with Some _ => x5t | None => hdr_x5t h end))
    (payload jwt) (cjose_jws jwt).
Definition with_hdr_json (json : json_t) (jwt : oidc_jwt_t) : oidc_jwt_t :=
  let h := header jwt in
  mk_jwt (mk_hdr json (hdr_alg h) (hdr_kid h) (hdr_enc h) (hdr_cty h) (hdr_x5t h)) (payload jwt) (cjose_jws jwt).

(** ** src/proto/auth.c *)

Definition oidc_proto_endpoint_auth_none (client_id : string) (a : client_auth) : bool * client_auth :=
  (true, mk_auth (apr_table_set (ca_params a) OIDC_PROTO_CLIENT_ID client_id) (ca_basic a) (ca_bearer a)).

Definition oidc_proto_endpoint_client_secret_basic (client_id : string) (client_secret : option string) (a : client_auth)
  : bool * client_auth :=
  match client_secret with
  | None => (false, a)
  | Some s =>
      (true, mk_auth (ca_params a)
               (Some (oidc_http_url_encode (Some client_id) ^^ ":" ^^ oidc_http_url_encode (Some s))) (ca_bearer a))
  end.

Definition oidc_proto_endpoint_client_secret_post (client_id : string) (client_secret : option string) (a : client_auth)
  : bool * client_auth :=
  match client_secret with
  | None => (false, a)
  | Some s =>
      (true, mk_auth (apr_table_set (apr_table_set (ca_params a) OIDC_PROTO_CLIENT_ID client_id) OIDC_PROTO_CLIENT_SECRET s)
               (ca_basic a) (ca_bearer a))
  end.

(** It always succeeds. *)
Definition oidc_proto_jwt_create (client_id : string) (audience : option string) : M St oidc_jwt_t :=
  jti <- oidc_proto_jti_gen ;;
  t1 <- apr_time_now ext ;;
  t2 <- apr_time_now ext ;;
  ret (set_claim OIDC_CLAIM_IAT (Some (oidc_json_integer (apr_time_sec t2)))
      (set_claim OIDC_CLAIM_EXP (Some (oidc_json_integer (apr_time_sec t1 + 60)))
      (set_claim OIDC_CLAIM_JTI (oidc_json_string jti)
      (set_claim OIDC_CLAIM_AUD (oidc_json_string audience)
      (set_claim OIDC_CLAIM_SUB (oidc_json_string (Some client_id))
      (set_claim OIDC_CLAIM_ISS (oidc_json_string (Some client_id)) oidc_jwt_new)))))).

Definition oidc_proto_jwt_sign_and_add (jwt : oidc_jwt_t) (jwk : oidc_jwk_t) (a : client_auth) : bool * client_auth :=
  match oidc_proto_jwt_sign_and_serialize jwk jwt with
  | None => (false, a)
  | Some cser =>
      (true, mk_auth (apr_table_set (apr_table_set (ca_params a) OIDC_PROTO_CLIENT_ASSERTION_TYPE
                                       OIDC_PROTO_CLIENT_ASSERTION_TYPE_JWT_BEARER)
                        OIDC_PROTO_CLIENT_ASSERTION cser)
               (ca_basic a) (ca_bearer a))
  end.

(** The result of signing is not looked at. *)
Definition oidc_proto_endpoint_auth_client_secret_jwt (client_id client_secret : string) (audience : option string)
  (a : client_auth) : M St (bool * client_auth) :=
  jwt <- oidc_proto_jwt_create client_id audience ;;
  match oidc_jwk_create_symmetric_key None client_secret (zlen client_secret) false with
  | None => ret (false, a)
  | Some jwk => ret (true, (oidc_proto_jwt_sign_and_add (with_alg OIDC_PROTO_JWT_ASSERTION_SYMMETRIC_ALG jwt) jwk a).2)
  end.

Definition oidc_proto_endpoint_access_token_bearer (bearer_access_token : option string) (a : client_auth)
  : bool * client_auth :=
  match bearer_access_token with
  | Some t => (true, mk_auth (ca_params a) (ca_basic a) (Some t))
  | None => (false, a)
  end.

(** The key and [*x5t]. *)
Definition oidc_proto_endpoint_auth_pick_signing_key (client_keys : option (list oidc_jwk_t))
  : option oidc_jwk_t * option string :=
  let first l := oidc_util_key_list_first l (-1) (Some OIDC_JOSE_JWK_SIG_STR) in
  match client_keys, pc_private_keys c with
  | Some (_ :: _), _ => (first client_keys, jwk ← first client_keys; jwk_x5t jwk)
  | _, Some (_ :: _) => (first (pc_private_keys c), jwk ← first (pc_public_keys c); jwk_x5t jwk)
  | _, _ => (None, None)
  end.

Definition oidc_proto_endpoint_auth_private_key_jwt (token_endpoint_auth_alg : option string) (client_id : string)
  (client_keys : option (list oidc_jwk_t)) (audience : option string) (a : client_auth) : M St (bool * client_auth) :=
  jwt <- oidc_proto_jwt_create client_id audience ;;
  match oidc_proto_endpoint_auth_pick_signing_key client_keys with
  | (None, _) => ret (false, a)
  | (Some jwk, x5t) =>
      match (match token_endpoint_auth_alg with Some alg => Some alg | None => oidc_jwk_default_jws_alg jwk end) with
      | None => ret (false, a)
      | Some alg => ret (oidc_proto_jwt_sign_and_add (with_alg alg (with_key (jwk_kid jwk) x5t jwt)) jwk a)
      end
  end.

(** The method that applies: that of the configuration, or the default when there is a secret. *)
Definition effective_method (token_endpoint_auth client_secret : option string) : option string :=
  match token_endpoint_auth, client_secret with
  | None, Some _ => Some OIDC_PROTO_CLIENT_SECRET_BASIC
  | m, _ => m
  end.

Definition oidc_proto_token_endpoint_auth (token_endpoint_auth token_endpoint_auth_alg client_id client_secret : option string)
  (client_keys : option (list oidc_jwk_t)) (audience bearer_access_token : option string) (a : client_auth)
  : M St (bool * client_auth) :=
  match client_id with
  | None => ret (true, a)
  | Some client_id =>
      let method := effective_method token_endpoint_auth client_secret in
      let eq m := _oidc_strcmp method (Some m) =? 0 in
      if negb (nonnull method) || eq OIDC_PROTO_ENDPOINT_AUTH_NONE then ret (oidc_proto_endpoint_auth_none client_id a)
      else if oidc_cfg_endpoint_auth_is_mtls method then ret (oidc_proto_endpoint_auth_none client_id a)
      else if negb (nonnull client_secret) && negb (eq OIDC_PROTO_PRIVATE_KEY_JWT)
      then ret (oidc_proto_endpoint_auth_none client_id a)
      else if eq OIDC_PROTO_CLIENT_SECRET_BASIC then ret (oidc_proto_endpoint_client_secret_basic client_id client_secret a)
      else if eq OIDC_PROTO_CLIENT_SECRET_POST then ret (oidc_proto_endpoint_client_secret_post client_id client_secret a)
      else if eq OIDC_PROTO_CLIENT_SECRET_JWT
      then oidc_proto_endpoint_auth_client_secret_jwt client_id (default "" client_secret) audience a
      else if eq OIDC_PROTO_PRIVATE_KEY_JWT
      then oidc_proto_endpoint_auth_private_key_jwt token_endpoint_auth_alg client_id client_keys audience a
      else if eq OIDC_PROTO_BEARER_ACCESS_TOKEN then ret (oidc_proto_endpoint_access_token_bearer bearer_access_token a)
      else ret (false, a)
  end.

(** ** src/proto/dpop.c *)

(** The proof, [None] when the function returns [FALSE]. *)
Definition oidc_proto_dpop_create (url : option string) (method : string) (access_token nonce : option string)
  : M St (option string) :=
  match oidc_proto_jwt_create_from_first_pkey (pc_private_keys c) true with
  | (true, Some jwk, Some jwt) =>
      let hdr := oidc_json_object_set_new (hdr_json (header jwt)) OIDC_CLAIM_TYP
                   (oidc_json_string (Some OIDC_PROTO_DPOP_JWT_TYP)) in
      match oidc_jwk_to_public_json jwk with
      | None => ret None
      | Some s_jwk =>
          let '(ok, hdr) := oidc_jwt_hdr_set_json hdr OIDC_CLAIM_JWK s_jwk in
          if negb ok then ret None
          else
            jti <- oidc_proto_jti_gen ;;
            t <- apr_time_now ext ;;
            let jwt :=
              set_claim OIDC_CLAIM_IAT (Some (oidc_json_integer (apr_time_sec t)))
             (set_claim OIDC_CLAIM_HTU (oidc_json_string url)
             (set_claim OIDC_CLAIM_HTM (oidc_json_string (Some method))
             (set_claim OIDC_CLAIM_JTI (oidc_json_string jti) (with_hdr_json hdr jwt)))) in
            match (match access_token with
                   | None => Some jwt
                   | Some t =>
                       ath ← oidc_jose_hash_and_base64url_encode OIDC_JOSE_ALG_SHA256 t;
                       Some (set_claim OIDC_CLAIM_ATH (oidc_json_string (Some ath)) jwt)
                   end) with
            | None => ret None
            | Some jwt =>
                let jwt := match nonce with
                           | Some n => set_claim OIDC_CLAIM_NONCE (oidc_json_string (Some n)) jwt
                           | None => jwt
                           end in
                ret (oidc_proto_jwt_sign_and_serialize jwk jwt)
            end
      end
  | _ => ret None
  end.

(** The headers that are asked for are entered with an empty value. *)
Definition oidc_proto_dpop_use_nonce (j_result : option json_t) (response_hdrs : hdrs_t) (url : option string)
  (method : string) (access_token : option string) : M St (option string) :=
  let j_error := oidc_json_object_get j_result OIDC_PROTO_ERROR in
  if negb (oidc_json_is_string j_error) ||
     negb (_oidc_strcmp (oidc_json_string_value j_error) (Some OIDC_PROTO_DPOP_USE_NONCE) =? 0) then ret None
  else
    match response_hdrs !! OIDC_HTTP_HDR_DPOP_NONCE with
    | None => ret None
    | Some dpop_nonce => oidc_proto_dpop_create url method access_token (Some dpop_nonce)
    end.
End auth.

(** ** Lemmas *)

Section claims.
Context {J : Jansson} {JS : JanssonSpec J} {B64 : Base64} {C : Cjose J} {CS : CjoseSpec C B64} {D : Digest} {Zl : Zlib}.

(** A claim of a token. *)
Definition claim (jwt : oidc_jwt_t) (key : string) : option json_t := oidc_json_object_get (Some (p_json (payload jwt))) key.
Definition well_formed (jwt : oidc_jwt_t) : Prop := is_object (hdr_json (header jwt)) /\ is_object (p_json (payload jwt)).

Lemma new_well_formed : well_formed oidc_jwt_new.
Proof. split; apply object_new. Qed.

Lemma claim_new k : claim oidc_jwt_new k = None.
Proof. apply object_get_new. Qed.

Lemma set_claim_well_formed k v jwt : well_formed jwt -> well_formed (set_claim k v jwt).
Proof. intros [? ?]. split; [done|]. by apply object_set_object. Qed.

Lemma claim_set_eq k v jwt : well_formed jwt -> is_ascii k = true -> claim jwt k = None -> claim (set_claim k v jwt) k = v.
Proof.
  intros [_ Hp] Hk Hn. destruct v as [v|]; [|exact Hn]. by apply object_get_set_eq; [|apply utf8_ascii].
Qed.

Lemma claim_set_ne k k' v jwt : k <> k' -> claim (set_claim k v jwt) k' = claim jwt k'.
Proof. apply object_get_set_ne. Qed.

Lemma with_alg_well_formed alg jwt : well_formed jwt -> well_formed (with_alg alg jwt).
Proof. done. Qed.
Lemma with_key_well_formed kid x5t jwt : well_formed jwt -> well_formed (with_key kid x5t jwt).
Proof. done. Qed.

(** A token that was signed and serialized is verified by the key and has the claims that were set. *)
Lemma sign_and_serialize_parsed jwk (jwt : oidc_jwt_t) cser dkeys :
  well_formed jwt -> hdr_alg (header jwt) <> Some "none" -> oidc_proto_jwt_sign_and_serialize jwk jwt = Some cser ->
  exists jwt2 j, oidc_jwt_parse cser dkeys false = Some jwt2 /\ cjose_jws jwt2 = Some j /\
    cjose_jws_verify j (jwk_cjose_jwk jwk) = true /\ (forall k, claim jwt2 k = claim jwt k) /\
    hdr_json (header jwt2) =
      hdr_set_opt OIDC_JOSE_JWK_X5T_STR (hdr_x5t (header jwt))
        (hdr_set_opt OIDC_JOSE_HDR_ENC (hdr_enc (header jwt))
          (hdr_set_opt OIDC_JOSE_HDR_KID (hdr_kid (header jwt))
            (hdr_set_opt OIDC_JOSE_HDR_ALG (hdr_alg (header jwt)) (hdr_json (header jwt))))).
Proof.
  intros [Hh Hp] Hn. unfold oidc_proto_jwt_sign_and_serialize. destruct (oidc_jwt_sign jwt jwk false) as [ok jwt1] eqn:Es.
  destruct ok; [|done]. cbn [negb]. intros Hc.
  destruct (jwt_sign_parsed jwt jwt1 jwk cser dkeys Hh Hp Hn Es Hc) as (jwt2 & j & H1 & H2 & H3 & H4 & H5).
  exists jwt2, j. split; [done|]. split; [done|]. split; [done|]. split; [intros k; unfold claim; by rewrite H3|].
  rewrite H2. unfold oidc_jwt_sign in Es. cbv zeta in Es. by destruct (cjose_jws_sign _ _ _); simplify_eq/=.
Qed.

Lemma hdr_opt_get_ne (json : json_t) k k' (v : option string) : k <> k' ->
  oidc_json_object_get (Some (hdr_set_opt k v json)) k' = oidc_json_object_get (Some json) k'.
Proof. destruct v as [v|]; [|done]. unfold hdr_set_opt. rewrite hdr_set_new. apply object_get_set_ne. Qed.
End claims.
#[export] Hint Resolve new_well_formed set_claim_well_formed with_alg_well_formed with_key_well_formed : oidc.

(** Parameters with at most one entry for each name. *)
Definition keys_unique (t : table) : Prop := NoDup (map (fun kv => str_map tolower kv.1) t).

Lemma table_unset_in t k x : In x (map (fun kv => str_map tolower kv.1) (apr_table_unset t k)) ->
  In x (map (fun kv => str_map tolower kv.1) t) /\ x <> str_map tolower k.
Proof.
  induction t as [|[k' v'] t IH]; cbn [apr_table_unset map In fst]; [done|].
  destruct (strcaseeq k' k) eqn:E; [intros Hx; apply IH in Hx as [? ?]; auto|].
  cbn [map In fst]. intros [<-|Hx]; [|apply IH in Hx as [? ?]; auto]. split; [by left|].
  intros Heq. apply strcaseeq_true in Heq. congruence.
Qed.

Lemma table_unset_unique t k : keys_unique t -> keys_unique (apr_table_unset t k).
Proof.
  unfold keys_unique. induction t as [|[k' v'] t IH]; cbn [apr_table_unset map fst]; [done|].
  intros [Hn Hd]%NoDup_cons. destruct (strcaseeq k' k); [by apply IH|]. cbn [map fst]. apply NoDup_cons. split; [|by apply IH].
  intros [Hx _]%list_elem_of_In%table_unset_in. by apply list_elem_of_In in Hx.
Qed.

Lemma table_set_in t k v x : In x (map (fun kv => str_map tolower kv.1) (apr_table_set t k v)) ->
  In x (map (fun kv => str_map tolower kv.1) t) \/ x = str_map tolower k.
Proof.
  induction t as [|[k' v'] t IH]; cbn [apr_table_set map In fst]; [naive_solver|].
  destruct (strcaseeq k' k) eqn:E; cbn [map In fst]; [|naive_solver].
  intros [<-|[Hx _]%table_unset_in]; auto.
Qed.

(** Setting a parameter replaces what it was before. *)
Lemma table_set_unique t k v : keys_unique t -> keys_unique (apr_table_set t k v).
Proof.
  unfold keys_unique. induction t as [|[k' v'] t IH]; cbn [apr_table_set map fst]; [intros _; apply NoDup_singleton|].
  intros [Hn Hd]%NoDup_cons. destruct (strcaseeq k' k) eqn:E; cbn [map fst]; apply NoDup_cons.
  - split; [|by apply table_unset_unique]. intros [Hx _]%list_elem_of_In%table_unset_in. by apply list_elem_of_In in Hx.
  - split; [|by apply IH]. intros [Hx|Hx]%list_elem_of_In%table_set_in; [by apply list_elem_of_In in Hx|].
    apply strcaseeq_true in Hx. congruence.
Qed.
#[export] Hint Resolve table_set_unique table_unset_unique : oidc.

Section auth_lemmas.
Context {J : Jansson} {JS : JanssonSpec J} {B64 : Base64} {C : Cjose J} {CE : CjoseExport C} {CS : CjoseSpec C B64}.
Context {D : Digest} {Zl : Zlib} {St : Type}.
Variables (ext : nat -> env) (rnd : nat -> rng) (c : proto_cfg C).
Implicit Types (w : world St) (a : client_auth).

Lemma total_jti : total (St:=St) (oidc_proto_jti_gen rnd).
Proof. intros w. by eexists _, _. Qed.
Hint Resolve total_jti : total.

Lemma total_token_endpoint_auth m alg id secret keys aud bearer a :
  total (St:=St) (oidc_proto_token_endpoint_auth ext rnd c m alg id secret keys aud bearer a).
Proof.
  unfold oidc_proto_token_endpoint_auth, oidc_proto_endpoint_auth_client_secret_jwt,
    oidc_proto_endpoint_auth_private_key_jwt, oidc_proto_jwt_create. cbv zeta. total_auto.
Qed.

Lemma total_dpop_create url method token nonce : total (St:=St) (oidc_proto_dpop_create ext rnd c url method token nonce).
Proof. unfold oidc_proto_dpop_create. total_auto. Qed.
Hint Resolve total_dpop_create : total.

Lemma total_dpop_use_nonce j h url method token : total (St:=St) (oidc_proto_dpop_use_nonce ext rnd c j h url method token).
Proof. unfold oidc_proto_dpop_use_nonce. total_auto. Qed.

(** The claims of an assertion: who it is about, for whom, and when. *)
Definition assertion_claims (client_id : string) (audience : option string) (jti : option string) (t1 t2 : Z) (jwt : oidc_jwt_t) : Prop :=
  claim jwt OIDC_CLAIM_ISS = json_string client_id /\ claim jwt OIDC_CLAIM_SUB = json_string client_id /\
  claim jwt OIDC_CLAIM_AUD = oidc_json_string audience /\ claim jwt OIDC_CLAIM_JTI = oidc_json_string jti /\
  claim jwt OIDC_CLAIM_EXP = Some (json_integer (apr_time_sec t1 + 60)) /\
  claim jwt OIDC_CLAIM_IAT = Some (json_integer (apr_time_sec t2)).

Lemma jwt_create_run id aud w : exists jwt, oidc_proto_jwt_create ext rnd id aud w =
    Some (jwt, mk_world (w_req w) (w_cache w) (3 + w_calls w)) /\ well_formed jwt /\
    assertion_claims id aud (oidc_util_rand_str (rnd (w_calls w)) OIDC_PROTO_JWT_JTI_LEN)
      (now (ext (1 + w_calls w)%nat)) (now (ext (2 + w_calls w)%nat)) jwt.
Proof.
  eexists. split; [reflexivity|]. split; [auto 10 with oidc|].
  unfold assertion_claims.
  repeat split; repeat (rewrite claim_set_ne by done); (rewrite claim_set_eq; [reflexivity|auto 10 with oidc|done|]);
    repeat (rewrite claim_set_ne by done); apply claim_new.
Qed.

(** The names of the parameters that authenticate the client. *)
Definition credentials : list string :=
  [OIDC_PROTO_CLIENT_ID; OIDC_PROTO_CLIENT_SECRET; OIDC_PROTO_CLIENT_ASSERTION_TYPE; OIDC_PROTO_CLIENT_ASSERTION].

Lemma sign_and_add_ok jwt jwk a a' : oidc_proto_jwt_sign_and_add jwt jwk a = (true, a') ->
  exists cser, oidc_proto_jwt_sign_and_serialize jwk jwt = Some cser /\
    ca_params a' = apr_table_set (apr_table_set (ca_params a) OIDC_PROTO_CLIENT_ASSERTION_TYPE
                      OIDC_PROTO_CLIENT_ASSERTION_TYPE_JWT_BEARER) OIDC_PROTO_CLIENT_ASSERTION cser /\
    ca_basic a' = ca_basic a /\ ca_bearer a' = ca_bearer a.
Proof.
  unfold oidc_proto_jwt_sign_and_add. destruct (oidc_proto_jwt_sign_and_serialize _ _) as [s|]; [|done].
  intros [= <-]. by exists s.
Qed.

(** What a successful authentication did. *)
Inductive auth_effect (id : string) (secret : option string) : option string -> client_auth -> client_auth -> Prop :=
  | auth_public m a : auth_effect id secret m a (mk_auth (apr_table_set (ca_params a) OIDC_PROTO_CLIENT_ID id) (ca_basic a) (ca_bearer a))
  | auth_basic s a : secret = Some s -> auth_effect id secret (Some OIDC_PROTO_CLIENT_SECRET_BASIC) a
      (mk_auth (ca_params a) (Some (oidc_http_url_encode (Some id) ^^ ":" ^^ oidc_http_url_encode (Some s))) (ca_bearer a))
  | auth_post s a : secret = Some s -> auth_effect id secret (Some OIDC_PROTO_CLIENT_SECRET_POST) a
      (mk_auth (apr_table_set (apr_table_set (ca_params a) OIDC_PROTO_CLIENT_ID id) OIDC_PROTO_CLIENT_SECRET s) (ca_basic a) (ca_bearer a))
  | auth_assertion m a cser : m = OIDC_PROTO_CLIENT_SECRET_JWT \/ m = OIDC_PROTO_PRIVATE_KEY_JWT -> auth_effect id secret (Some m) a
      (mk_auth (apr_table_set (apr_table_set (ca_params a) OIDC_PROTO_CLIENT_ASSERTION_TYPE OIDC_PROTO_CLIENT_ASSERTION_TYPE_JWT_BEARER)
                  OIDC_PROTO_CLIENT_ASSERTION cser) (ca_basic a) (ca_bearer a))
  | auth_unsigned a : auth_effect id secret (Some OIDC_PROTO_CLIENT_SECRET_JWT) a a
  | auth_bearer t a : auth_effect id secret (Some OIDC_PROTO_BEARER_ACCESS_TOKEN) a (mk_auth (ca_params a) (ca_basic a) (Some t)).

Lemma sign_and_add_effect id secret m jwt jwk a b a' :
  m = OIDC_PROTO_CLIENT_SECRET_JWT \/ m = OIDC_PROTO_PRIVATE_KEY_JWT ->
  oidc_proto_jwt_sign_and_add jwt jwk a = (b, a') -> b = true -> auth_effect id secret (Some m) a a'.
Proof.
  intros Hm. unfold oidc_proto_jwt_sign_and_add. destruct (oidc_proto_jwt_sign_and_serialize _ _); intros [= <- <-]; [|done].
  intros _. by constructor.
Qed.

Lemma strcmp_method m n : (_oidc_strcmp m (Some n) =? 0) = true -> m = Some n.
Proof. intros Hm%Z.eqb_eq. apply oidc_strcmp_eq in Hm as (x & -> & [= ->]). done. Qed.

Lemma token_endpoint_auth_effect m alg id secret keys aud bearer a w a' w' :
  oidc_proto_token_endpoint_auth ext rnd c m alg (Some id) secret keys aud bearer a w = Some ((true, a'), w') ->
  auth_effect id secret (effective_method m secret) a a'.
Proof.
  unfold oidc_proto_token_endpoint_auth. cbv zeta. set (e := effective_method m secret).
  destruct (negb (nonnull e) || _); [intros [= <- <-]; constructor|].
  destruct (oidc_cfg_endpoint_auth_is_mtls e); [intros [= <- <-]; constructor|].
  destruct (negb (nonnull secret) && _); [intros [= <- <-]; constructor|].
  destruct (_oidc_strcmp e (Some OIDC_PROTO_CLIENT_SECRET_BASIC) =? 0) eqn:E1.
  { apply strcmp_method in E1 as ->. destruct secret as [s|]; [|done]. intros [= <- <-]. by constructor. }
  destruct (_oidc_strcmp e (Some OIDC_PROTO_CLIENT_SECRET_POST) =? 0) eqn:E2.
  { apply strcmp_method in E2 as ->. destruct secret as [s|]; [|done]. intros [= <- <-]. by constructor. }
  destruct (_oidc_strcmp e (Some OIDC_PROTO_CLIENT_SECRET_JWT) =? 0) eqn:E3.
  { apply strcmp_method in E3 as ->. intros (jwt & w1 & _ & E)%bind_inv.
    destruct (oidc_jwk_create_symmetric_key _ _ _ _) as [jwk|]; [|done]. unfold ret in E. injection E as <- <-.
    unfold oidc_proto_jwt_sign_and_add. destruct (oidc_proto_jwt_sign_and_serialize _ _); constructor. by left. }
  destruct (_oidc_strcmp e (Some OIDC_PROTO_PRIVATE_KEY_JWT) =? 0) eqn:E4.
  { apply strcmp_method in E4 as ->. intros (jwt & w1 & _ & E)%bind_inv.
    destruct (oidc_proto_endpoint_auth_pick_signing_key c keys) as [[jwk|] x5t]; [|done].
    destruct (match alg with Some _ => _ | None => _ end) as [al|]; [|done]. unfold ret in E. simplify_eq.
    eapply sign_and_add_effect; [by right|eassumption|done]. }
  destruct (_oidc_strcmp e (Some OIDC_PROTO_BEARER_ACCESS_TOKEN) =? 0) eqn:E5; [|done].
  apply strcmp_method in E5 as ->. destruct bearer as [t|]; [|done]. intros [= <- <-]. constructor.
Qed.
End auth_lemmas.

(** ** Properties *)

(** Authenticating at an endpoint always returns; when it succeeds, only the parameters that carry credentials may
    change and none is entered twice, whatever authentication was there before.  The secret leaves as a parameter
    only with the method client_secret_post and in a header only with client_secret_basic, and a
    public client or one with a certificate sends its identifier only. *)
Theorem client_auth_confined {J : Jansson} {B64 : Base64} {C : Cjose J} {CE : CjoseExport C} {D : Digest}
  {Zl : Zlib} {St : Type} (ext : nat -> env) (rnd : nat -> rng) (c : proto_cfg C) (m alg id secret : option string)
  (keys : option (list oidc_jwk_t)) (aud bearer : option string) (a : client_auth) (w : world St) :
  exists ok a' w', oidc_proto_token_endpoint_auth ext rnd c m alg id secret keys aud bearer a w = Some ((ok, a'), w') /\
  (ok = true ->
    (forall k, Forall (fun n => strcaseeq n k = false) credentials ->
       apr_table_get (ca_params a') k = apr_table_get (ca_params a) k) /\
    (keys_unique (ca_params a) -> keys_unique (ca_params a')) /\
    (effective_method m secret <> Some OIDC_PROTO_CLIENT_SECRET_POST ->
       apr_table_get (ca_params a') OIDC_PROTO_CLIENT_SECRET = apr_table_get (ca_params a) OIDC_PROTO_CLIENT_SECRET) /\
    (effective_method m secret <> Some OIDC_PROTO_CLIENT_SECRET_BASIC -> ca_basic a' = ca_basic a) /\
    (effective_method m secret <> Some OIDC_PROTO_BEARER_ACCESS_TOKEN -> ca_bearer a' = ca_bearer a) /\
    (forall i, id = Some i -> effective_method m secret = None \/ m = Some OIDC_PROTO_ENDPOINT_AUTH_NONE \/
       oidc_cfg_endpoint_auth_is_mtls m = true ->
       a' = mk_auth (apr_table_set (ca_params a) OIDC_PROTO_CLIENT_ID i) (ca_basic a) (ca_bearer a))).
Proof.
  destruct (total_token_endpoint_auth ext rnd c m alg id secret keys aud bearer a w) as ([ok a'] & w' & E).
  exists ok, a', w'. split; [exact E|]. intros ->. destruct id as [i|]; [|injection E as <- <-; naive_solver].
  pose proof (token_endpoint_auth_effect _ _ _ _ _ _ _ _ _ _ _ _ _ _ E) as He.
  split; [|split; [|split; [|split; [|split]]]].
  - intros k Hk. unfold credentials in Hk. repeat (apply Forall_cons in Hk as [? Hk]).
    destruct He; cbn [ca_params]; by rewrite ?table_get_set_ne by done.
  - intros Hu. destruct He; cbn [ca_params]; auto with oidc.
  - intros Hm. destruct He; cbn [ca_params]; try (by rewrite ?table_get_set_ne by done); done.
  - by destruct He.
  - by destruct He.
  - intros i' [= <-] Hm. unfold oidc_proto_token_endpoint_auth in E. cbv zeta in E.
    assert (Hc : negb (nonnull (effective_method m secret)) || (_oidc_strcmp (effective_method m secret) (Some OIDC_PROTO_ENDPOINT_AUTH_NONE) =? 0)
      = true \/ oidc_cfg_endpoint_auth_is_mtls (effective_method m secret) = true).
    { destruct Hm as [->|[->|Hm]]; [by left|by left|]. right. by destruct m. }
    unfold oidc_proto_endpoint_auth_none in E. destruct (negb _ || _); [by injection E|].
    destruct Hc as [Hc|Hc]; [done|]. rewrite Hc in E. by injection E.
Qed.

(** C34: with the method private_key_jwt the request carries a fresh assertion: a token that the first signing key of the
    client verifies, with the client as issuer and subject, the given audience and a lifetime of one minute. *)
Theorem client_assertion_verified {J : Jansson} {JS : JanssonSpec J} {B64 : Base64} {C : Cjose J} {CE : CjoseExport C}
  {CS : CjoseSpec C B64} {D : Digest} {Zl : Zlib} {St : Type} (ext : nat -> env) (rnd : nat -> rng) (c : proto_cfg C)
  (alg : option string) (id : string) (secret : option string) (keys : option (list oidc_jwk_t)) (aud bearer : option string)
  (a a' : client_auth) (w w' : world St) :
  alg <> Some "none" ->
  oidc_proto_token_endpoint_auth ext rnd c (Some OIDC_PROTO_PRIVATE_KEY_JWT) alg (Some id) secret keys aud bearer a w =
    Some ((true, a'), w') ->
  exists jwk x5t cser jwt j,
    oidc_proto_endpoint_auth_pick_signing_key c keys = (Some jwk, x5t) /\
    apr_table_get (ca_params a') OIDC_PROTO_CLIENT_ASSERTION = Some cser /\
    apr_table_get (ca_params a') OIDC_PROTO_CLIENT_ASSERTION_TYPE = Some OIDC_PROTO_CLIENT_ASSERTION_TYPE_JWT_BEARER /\
    oidc_jwt_parse cser None false = Some jwt /\ cjose_jws jwt = Some j /\ cjose_jws_verify j (jwk_cjose_jwk jwk) = true /\
    assertion_claims id aud (oidc_util_rand_str (rnd (w_calls w)) OIDC_PROTO_JWT_JTI_LEN)
      (now (ext (1 + w_calls w)%nat)) (now (ext (2 + w_calls w)%nat)) jwt.
Proof.
  intros Halg E. destruct (jwt_create_run ext rnd id aud w) as (jwt0 & Ec & Hwf & Hcl).
  assert (E' : oidc_proto_endpoint_auth_private_key_jwt ext rnd c alg id keys aud a w = Some ((true, a'), w')).
  { unfold oidc_proto_token_endpoint_auth in E. by destruct secret. }
  clear E. unfold oidc_proto_endpoint_auth_private_key_jwt in E'. rewrite (bind_run _ _ _ _ _ Ec) in E'.
  destruct (oidc_proto_endpoint_auth_pick_signing_key c keys) as [[jwk|] x5t]; [|done].
  destruct (match alg with Some _ => _ | None => _ end) as [al|] eqn:Eal; [|done]. unfold ret in E'. injection E' as E1 _.
  apply sign_and_add_ok in E1 as (cser & Hs & Hp & _). exists jwk, x5t, cser.
  apply sign_and_serialize_parsed with (dkeys := None) in Hs as (jwt2 & j & H1 & H2 & H3 & H4 & _); [|by auto with oidc|].
  - exists jwt2, j. rewrite Hp, table_get_set_eq by apply strcaseeq_refl. rewrite table_get_set_ne by done.
    rewrite table_get_set_eq by apply strcaseeq_refl. do 6 (split; [done|]).
    unfold assertion_claims. rewrite !H4. exact Hcl.
  - cbn [with_alg with_key header hdr_alg]. destruct alg as [al0|]; [congruence|].
    unfold oidc_jwk_default_jws_alg in Eal. repeat case_match; simplify_eq; done.
Qed.

(** A claim of a token that was built with [set_claim]. *)
Ltac claim_tac := repeat (rewrite claim_set_ne by done);
  first [ by auto | rewrite claim_set_eq; [reflexivity|auto 12 with oidc|done|]; repeat (rewrite claim_set_ne by done); by auto ].

Lemma first_pkey_inv {J : Jansson} {JS : JanssonSpec J} {C : Cjose J} l psa jwk jwt :
  oidc_proto_jwt_create_from_first_pkey l psa = (true, Some jwk, Some jwt) ->
  oidc_util_key_list_first l (-1) (Some OIDC_JOSE_JWK_SIG_STR) = Some jwk /\ well_formed jwt /\
  hdr_alg (header jwt) <> Some "none" /\ (forall k, claim jwt k = None) /\ hdr_json (header jwt) = json_object.
Proof.
  unfold oidc_proto_jwt_create_from_first_pkey. destruct (oidc_util_key_list_first _ _ _) as [k|]; [|done].
  repeat case_match; intros [= <- <-]; split_and!; try done; try apply new_well_formed; intros ?; apply claim_new.
Qed.

(** The claims of a proof of possession for a request. *)
Definition proof_claims {J : Jansson} {C : Cjose J} {D : Digest} (url : option string) (method : string)
  (access_token nonce jti : option string) (t : Z) (jwt : oidc_jwt_t) : Prop :=
  claim jwt OIDC_CLAIM_HTM = json_string method /\ claim jwt OIDC_CLAIM_HTU = oidc_json_string url /\
  claim jwt OIDC_CLAIM_JTI = oidc_json_string jti /\ claim jwt OIDC_CLAIM_IAT = Some (json_integer (apr_time_sec t)) /\
  claim jwt OIDC_CLAIM_ATH =
    (token ← access_token; ath ← oidc_jose_hash_and_base64url_encode OIDC_JOSE_ALG_SHA256 token; json_string ath) /\
  claim jwt OIDC_CLAIM_NONCE = (n ← nonce; json_string n).

(** C35: a proof of possession is a token that the first signing key verifies and that carries the public part of this key,
    bound to the method and URL of the request, to its access token and to the nonce of the server. *)
Theorem dpop_proof_bound {J : Jansson} {JS : JanssonSpec J} {B64 : Base64} {C : Cjose J} {CE : CjoseExport C}
  {CS : CjoseSpec C B64} {D : Digest} {Zl : Zlib} {St : Type} (ext : nat -> env) (rnd : nat -> rng) (c : proto_cfg C)
  (url : option string) (method : string) (access_token nonce : option string) (proof : string) (w w' : world St) :
  oidc_proto_dpop_create ext rnd c url method access_token nonce w = Some (Some proof, w') ->
  exists jwk s_jwk j_jwk jwt j,
    oidc_util_key_list_first (pc_private_keys c) (-1) (Some OIDC_JOSE_JWK_SIG_STR) = Some jwk /\
    cjose_jwk_to_json (jwk_cjose_jwk jwk) false = Some s_jwk /\ json_loads s_jwk 0 = Some j_jwk /\
    oidc_jwt_parse proof None false = Some jwt /\ cjose_jws jwt = Some j /\ cjose_jws_verify j (jwk_cjose_jwk jwk) = true /\
    oidc_json_object_get (Some (hdr_json (header jwt))) OIDC_CLAIM_JWK = Some j_jwk /\
    oidc_json_object_get (Some (hdr_json (header jwt))) OIDC_CLAIM_TYP = json_string OIDC_PROTO_DPOP_JWT_TYP /\
    proof_claims url method access_token nonce (oidc_util_rand_str (rnd (w_calls w)) OIDC_PROTO_JWT_JTI_LEN)
      (now (ext (1 + w_calls w)%nat)) jwt.
Proof.
  unfold oidc_proto_dpop_create. destruct (oidc_proto_jwt_create_from_first_pkey _ _) as [[b o] o'] eqn:Ef.
  destruct b; [|done]. destruct o as [jwk|]; [|done]. destruct o' as [jwt0|]; [|done].
  apply first_pkey_inv in Ef as (Hjwk & Hwf & Halg & Hnew & Hhdr).
  unfold oidc_jwk_to_public_json. destruct (cjose_jwk_to_json _ false) as [s_jwk|] eqn:Es; [|done].
  unfold oidc_jwt_hdr_set_json. destruct (json_loads s_jwk 0) as [j_jwk|] eqn:Ej; [|done]. cbn [negb].
  unfold oidc_proto_jti_gen. rewrite (bind_run _ _ w _ _ eq_refl). cbn [w_calls w_req w_cache].
  rewrite (bind_run _ _ _ _ _ eq_refl). cbn [w_calls].
  set (hdr := (json_object_set _ _ _).2). set (jti := oidc_util_rand_str _ _). set (t := now _).
  destruct (match access_token with Some _ => _ | None => _ end) as [jwt1|] eqn:Ea; [|done].
  set (jwt2 := match nonce with Some _ => _ | None => _ end). unfold ret. intros [= Hs _].
  assert (Hobj : is_object hdr).
  { unfold hdr. unfold is_object. rewrite object_set_typeof. apply object_set_object. apply Hwf. }
  assert (Hwf0 : well_formed (with_hdr_json hdr jwt0)) by (split; [done|apply Hwf]).
  assert (Hnew0 : forall k, claim (with_hdr_json hdr jwt0) k = None) by exact Hnew.
  set (jwt00 := with_hdr_json hdr jwt0) in *.
  assert (Hc : well_formed jwt2 /\ header jwt2 = header jwt00 /\ proof_claims url method access_token nonce jti t jwt2).
  { unfold jwt2, proof_claims. destruct access_token as [tk|]; cbn [mbind option_bind] in Ea |- *.
    1: destruct (oidc_jose_hash_and_base64url_encode _ _) as [ath|]; [|done]; cbn [mbind option_bind] in Ea |- *.
    all: injection Ea as <-; destruct nonce as [n|]; (split; [auto 12 with oidc|]); (split; [reflexivity|]); split_and!; claim_tac. }
  destruct Hc as (Hwf2 & Hh2 & Hcl).
  apply sign_and_serialize_parsed with (dkeys := None) in Hs as (jwt3 & j & H1 & H2 & H3 & H4 & H5); [|done|by rewrite Hh2].
  exists jwk, s_jwk, j_jwk, jwt3, j. do 6 (split; [done|]).
  assert (Hget : forall k, k = OIDC_CLAIM_JWK \/ k = OIDC_CLAIM_TYP ->
    oidc_json_object_get (Some (hdr_json (header jwt3))) k = oidc_json_object_get (Some hdr) k).
  { intros k Hk. rewrite H5, Hh2, !hdr_opt_get_ne by (destruct Hk as [->| ->]; done). done. }
  rewrite !Hget by auto. unfold hdr. split; [|split].
  - apply (object_get_set_eq _ OIDC_CLAIM_JWK); [by apply object_set_object, Hwf|by apply utf8_ascii].
  - etransitivity; [apply (object_get_set_ne _ OIDC_CLAIM_JWK OIDC_CLAIM_TYP (Some j_jwk)); done|].
    rewrite Hhdr. cbn [oidc_json_string]. destruct (json_string OIDC_PROTO_DPOP_JWT_TYP); [|apply object_get_new].
    by apply object_get_set_eq; [apply object_new|apply utf8_ascii].
  - unfold proof_claims. rewrite !H4. exact Hcl.
Qed.

(** Signing with the client secret may fail, and the request then goes out without any authentication. *)
Lemma client_secret_jwt_unsigned {J : Jansson} {B64 : Base64} {C : Cjose J} {D : Digest} {Zl : Zlib} {St : Type}
  (ext : nat -> env) (rnd : nat -> rng) (id s : string) (aud : option string) (a : client_auth) (w : world St) :
  is_Some (cjose_jwk_create_oct_spec s) -> (forall k h p, cjose_jws_sign k h p = None) ->
  exists w', oidc_proto_endpoint_auth_client_secret_jwt ext rnd id s aud a w = Some ((true, a), w').
Proof.
  intros [k Hk] Hf. unfold oidc_proto_endpoint_auth_client_secret_jwt, oidc_jwk_create_symmetric_key.
  assert (Ht : str_take (Z.to_nat (zlen s)) s = s).
  { unfold zlen. rewrite Nat2Z.id. clear. induction s as [|c s IH]; [done|]. cbn. by rewrite IH. }
  rewrite Ht, Hk. eexists. unfold oidc_proto_jwt_sign_and_add, oidc_proto_jwt_sign_and_serialize, oidc_jwt_sign.
  unfold oidc_proto_jwt_create, oidc_proto_jti_gen, apr_time_now, bind, ret. cbv beta iota zeta. cbn [mbind option_bind].
  rewrite Hf. reflexivity.
Qed.

(** ** Witnesses *)

Module ExportModel.
#[local] Existing Instances Model.jansson Base64Model.base64 CjoseModel.cjose.
#[export] Instance export : CjoseExport CjoseModel.cjose := {|
  cjose_jwk_to_json k priv :=
    Some (Model.dumps (Model.JObj (("kty", Model.JStr "RSA") ::
      if priv then [("k", Model.JStr (CjoseModel.m_bytes k))] else [])));
  cjose_jwk_EC_get_curve _ := NID_X9_62_prime256v1
|}.
End ExportModel.

Section demo.
#[local] Existing Instances Model.jansson Base64Model.base64 CjoseModel.cjose CjoseModel.digest CjoseModel.zlib ExportModel.export.

Definition demo_rsa : oidc_jwk_t :=
  mk_jwk (Some "sig") None OIDC_JOSE_JWK_KTY_RSA (Some "k1") None (Some "thumb") None (CjoseModel.mk_jwk CJOSE_JWK_KTY_RSA "rsa" (Some "k1")).
Definition demo_rp_cfg : proto_cfg CjoseModel.cjose :=
  mk_proto_cfg _ CjoseModel.cjose (mk_cache_cfg false demo_passphrase) demo_client_cfg (http_timeout demo_args) (http_timeout demo_args)
    (outgoing_proxy demo_args) None (Some [demo_rsa]) (Some [demo_rsa]) 0 (Some "https://rp/redirect_uri") None oidc_cfg_provider_create.
Definition demo_rnd : nat -> rng := fun _ n => Some (repeat 65 n).
Definition demo_auth : client_auth := mk_auth [("grant_type", "authorization_code")] None None.

Abbreviation demo_assertion :=
  (oidc_proto_token_endpoint_auth (clock true 1000000) demo_rnd demo_rp_cfg (Some OIDC_PROTO_PRIVATE_KEY_JWT) None (Some "client")
     None None (Some "https://op/token") None demo_auth demo_jwks_world).

Lemma client_assertion_verified_witness : exists a' w', demo_assertion = Some ((true, a'), w') /\
  exists cser jwt j, apr_table_get (ca_params a') OIDC_PROTO_CLIENT_ASSERTION = Some cser /\
    oidc_jwt_parse cser None false = Some jwt /\ cjose_jws jwt = Some j /\
    cjose_jws_verify j (CjoseModel.mk_jwk CJOSE_JWK_KTY_RSA "rsa" (Some "k1")) = true.
Proof.
  assert (E : (fun x => x.1.1) <$> demo_assertion = Some true) by (vm_compute; reflexivity).
  destruct demo_assertion as [[[b a'] w']|] eqn:Ea; [|discriminate E]. injection E as ->. exists a', w'. split; [exact eq_refl|].
  destruct (client_assertion_verified (JS:=Model.jansson_spec) (CS:=CjoseModel.cjose_spec) (clock true 1000000) demo_rnd
    demo_rp_cfg None "client" None None (Some "https://op/token") None demo_auth a' demo_jwks_world w' ltac:(discriminate) Ea)
    as (jwk & x5t & cser & jwt & j & Hp & H1 & _ & H2 & H3 & H4 & _).
  exists cser, jwt, j. injection Hp as <- _. split; [exact H1|]. split; [exact H2|]. split; [exact H3|exact H4].
Defined.

Abbreviation demo_proof :=
  (oidc_proto_dpop_create (clock true 1000000) demo_rnd demo_rp_cfg (Some "https://op/token") "POST" (Some "token") (Some "n")
     demo_jwks_world).

Lemma dpop_proof_bound_witness : exists proof w', demo_proof = Some (Some proof, w') /\
  exists jwt, oidc_jwt_parse proof None false = Some jwt /\ claim jwt OIDC_CLAIM_HTM = json_string "POST" /\
    claim jwt OIDC_CLAIM_NONCE = json_string "n".
Proof.
  assert (E : (fun x => nonnull x.1) <$> demo_proof = Some true) by (vm_compute; reflexivity).
  destruct demo_proof as [[[proof|] w']|] eqn:Ep; [|discriminate E..]. exists proof, w'. split; [exact eq_refl|].
  destruct (dpop_proof_bound (JS:=Model.jansson_spec) (CS:=CjoseModel.cjose_spec) (clock true 1000000) demo_rnd
    demo_rp_cfg (Some "https://op/token") "POST" (Some "token") (Some "n") proof demo_jwks_world w' Ep)
    as (jwk & s_jwk & j_jwk & jwt & j & _ & _ & _ & H1 & _ & _ & _ & _ & H2 & _ & _ & _ & _ & H3).
  exists jwt. split; [exact H1|]. split; [exact H2|exact H3].
Defined.
End demo.
