(* ===== verification/ProviderSet.v ===== *)
(** * src/cfg/provider.c: setting the members of a provider

    A setter checks its argument and returns the message of an error next to the provider; numbers and enumerations
    fall back to their defaults. *)

From S2P Require Import Prelude Cstr Apr StrUtil Jansson Json Base64 Jose Jwt Util Cjose Jwk Pkce Provider ClientAuth CfgParse.
From coqutil Require Import Datatypes.RecordSetters.
Import TriangleBracketNotations.
#[local] Open Scope Z_scope.

Definition OIDC_ENDPOINT_AUTH_CLIENT_SECRET_BASIC : string := "client_secret_basic".
Definition OIDC_ENDPOINT_AUTH_CLIENT_SECRET_POST : string := "client_secret_post".
Definition OIDC_ENDPOINT_AUTH_CLIENT_SECRET_JWT : string := "client_secret_jwt".
Definition OIDC_ENDPOINT_AUTH_PRIVATE_KEY_JWT : string := "private_key_jwt".
Definition OIDC_ENDPOINT_AUTH_BEARER_ACCESS_TOKEN : string := "bearer_access_token".
Definition OIDC_ENDPOINT_AUTH_NONE : string := "none".
Definition OIDC_ENDPOINT_AUTH_METHOD_SEPARATOR : string := ":".
Definition OIDC_DPOP_MODE_OFF_STR : string := "off".
Definition OIDC_DPOP_MODE_OPTIONAL_STR : string := "optional".
Definition OIDC_DPOP_MODE_REQUIRED_STR : string := "required".
Definition OIDC_CERT_BOUND_TOKENS_OFF_STR : string := "off".
Definition OIDC_CERT_BOUND_TOKENS_AUTO_STR : string := "auto".
Definition OIDC_CERT_BOUND_TOKENS_ON_STR : string := "on".
Definition OIDC_AUTH_REQUEST_METHOD_GET_STR : string := "GET".
Definition OIDC_AUTH_REQUEST_METHOD_POST_STR : string := "POST".
Definition OIDC_AUTH_REQUEST_METHOD_PAR_STR : string := "PAR".
Definition OIDC_USER_INFO_TOKEN_METHOD_HEADER_STR : string := "authz_header".
Definition OIDC_USER_INFO_TOKEN_METHOD_POST_STR : string := "post_param".
Definition OIDC_PROFILE_OIDC10_STR : string := "OIDC10".
Definition OIDC_PROFILE_FAPI20_STR : string := "FAPI20".
Definition OIDC_SESSION_MAX_DURATION_MIN : Z := 15.
Definition OIDC_SESSION_MAX_DURATION_MAX : Z := 3600 * 24 * 365.
Definition OIDC_JWKS_REFRESH_INTERVAL_MIN : Z := 300.
Definition OIDC_JWKS_REFRESH_INTERVAL_MAX : Z := 3600 * 24 * 365.
Definition OIDC_USERINFO_REFRESH_INTERVAL_MIN : Z := 0.
Definition OIDC_USERINFO_REFRESH_INTERVAL_MAX : Z := 3600 * 24 * 365.

(** ** Methods of authentication at an endpoint, of src/cfg/cfg.c *)

Definition oidc_valid_endpoint_auth_method_impl (arg : option string) (has_private_key allow_mtls : bool) : option string :=
  oidc_cfg_parse_is_valid_option arg
    ([OIDC_ENDPOINT_AUTH_CLIENT_SECRET_POST; OIDC_ENDPOINT_AUTH_CLIENT_SECRET_BASIC; OIDC_ENDPOINT_AUTH_CLIENT_SECRET_JWT;
      OIDC_ENDPOINT_AUTH_NONE; OIDC_ENDPOINT_AUTH_BEARER_ACCESS_TOKEN] ++
     (if has_private_key then [OIDC_ENDPOINT_AUTH_PRIVATE_KEY_JWT] else []) ++
     (if allow_mtls then [OIDC_ENDPOINT_AUTH_TLS_CLIENT_AUTH; OIDC_ENDPOINT_AUTH_SELF_SIGNED_TLS_CLIENT_AUTH] else [])).

Definition oidc_valid_private_key_jwt_alg (arg : option string) : option string :=
  oidc_cfg_parse_is_valid_option arg ["RS256"; "RS384"; "RS512"; "PS256"; "PS384"; "PS512"; "ES256"; "ES384"; "ES512"].

(** The method, and what follows the separator. *)
Definition oidc_cfg_endpoint_auth_parse (arg1 : option string) : option string * option string :=
  match _oidc_strstr arg1 (Some OIDC_ENDPOINT_AUTH_METHOD_SEPARATOR) with
  | Some sep => (str_take sep <$> arg1, str_drop (S sep) <$> arg1)
  | None => (arg1, None)
  end.

Definition oidc_cfg_valid_endpoint_auth_method_alg (arg1 : option string) (allow_mtls : bool) : option string :=
  let '(method, alg) := oidc_cfg_endpoint_auth_parse arg1 in
  let rv :=
    if (_oidc_strcmp method (Some OIDC_ENDPOINT_AUTH_PRIVATE_KEY_JWT) =? 0) && nonnull alg
    then oidc_valid_private_key_jwt_alg alg else None in
  match rv with
  | Some _ => rv
  | None => oidc_valid_endpoint_auth_method_impl method true allow_mtls
  end.
Definition oidc_cfg_valid_endpoint_auth_method_with_private_key (arg : option string) :=
  oidc_cfg_valid_endpoint_auth_method_alg arg true.
Definition oidc_cfg_valid_endpoint_auth_method_no_private_key (arg : option string) :=
  oidc_valid_endpoint_auth_method_impl arg false true.
Definition oidc_cfg_valid_endpoint_auth_method_no_mtls_with_private_key (arg : option string) :=
  oidc_cfg_valid_endpoint_auth_method_alg arg false.
Definition oidc_cfg_valid_endpoint_auth_method_no_mtls_no_private_key (arg : option string) :=
  oidc_valid_endpoint_auth_method_impl arg false false.

(** [private_keys]: whether [cfg->private_keys] is set. *)
Definition oidc_cfg_get_valid_endpoint_auth_function (private_keys allow_mtls : bool) : option string -> option string :=
  if negb allow_mtls then
    if private_keys then oidc_cfg_valid_endpoint_auth_method_no_mtls_with_private_key
    else oidc_cfg_valid_endpoint_auth_method_no_mtls_no_private_key
  else if private_keys then oidc_cfg_valid_endpoint_auth_method_with_private_key
  else oidc_cfg_valid_endpoint_auth_method_no_private_key.

(** The algorithm that was set before stays when none is given. *)
Definition oidc_cfg_endpoint_auth_set (private_keys : bool) (arg1 auth alg : option string)
  : option string * (option string * option string) :=
  match oidc_cfg_get_valid_endpoint_auth_function private_keys true arg1 with
  | Some e => (Some e, (auth, alg))
  | None => let '(method, suffix) := oidc_cfg_endpoint_auth_parse arg1 in
            (None, (method, match suffix with Some _ => suffix | None => alg end))
  end.

(** ** The members *)

Section set.
Context {J : Jansson} {B64 : Base64} {O : Jose} {C : Cjose J} {D : Digest} {H : Httpd} {E : CfgEnv C}.
Implicit Types p : oidc_provider_t.

(** The remaining getters. *)
Definition oidc_cfg_provider_metadata_url_get p : option string := pv_metadata_url p.
Definition oidc_cfg_provider_client_contact_get p : option string := pv_client_contact p.
Definition oidc_cfg_provider_registration_token_get p : option string := pv_registration_token p.
Definition oidc_cfg_provider_registration_endpoint_json_get p : option string := pv_registration_endpoint_json p.
Definition oidc_cfg_provider_logout_request_params_get p : option string := pv_logout_request_params p.
Definition oidc_cfg_provider_client_jwks_uri_get p : option string := pv_client_jwks_uri p.
Definition oidc_cfg_provider_id_token_encrypted_response_alg_get p : option string := pv_id_token_encrypted_response_alg p.
Definition oidc_cfg_provider_id_token_encrypted_response_enc_get p : option string := pv_id_token_encrypted_response_enc p.
Definition oidc_cfg_provider_userinfo_encrypted_response_alg_get p : option string := pv_userinfo_encrypted_response_alg p.
Definition oidc_cfg_provider_userinfo_encrypted_response_enc_get p : option string := pv_userinfo_encrypted_response_enc p.
Definition oidc_cfg_provider_token_endpoint_tls_client_key_get p : option string := pv_token_endpoint_tls_client_key p.
Definition oidc_cfg_provider_token_endpoint_tls_client_key_pwd_get p : option string := pv_token_endpoint_tls_client_key_pwd p.

(** What a setter returns: an error, and the provider. *)
Abbreviation result := (option string * oidc_provider_t)%type.

(** [OIDC_PROVIDER_MEMBER_FUNCS_PARSE_STR]: the member changes when the argument is valid. *)
Definition set_valid (rv : option string) (p' p : oidc_provider_t) : result :=
  match rv with None => (None, p') | Some _ => (rv, p) end.
(** [OIDC_PROVIDER_MEMBER_FUNCS_INT] and [_STR_INT]: a default takes the place of an invalid value. *)
Definition set_parsed (rv : string + Z) (set : Z -> oidc_provider_t) (def_val : Z) : result :=
  match rv with inr v => (None, set v) | inl e => (Some e, set def_val) end.
Definition set_int (min_val max_val def_val arg : Z) (set : Z -> oidc_provider_t) : result :=
  match oidc_cfg_parse_is_valid_int arg min_val max_val with None => (None, set arg) | Some e => (Some e, set def_val) end.
(** [OIDC_PROVIDER_MEMBER_FUNCS_FILE] and [_PASSPHRASE]. *)
Definition set_read (rv : string + option string) (set : option string -> oidc_provider_t) p : result :=
  match rv with inr v => (None, set v) | inl e => (Some e, p) end.

Definition oidc_cfg_provider_issuer_set (arg : option string) p : result := (None, p <| pv_issuer := arg |>).
Definition oidc_cfg_provider_auth_request_params_set (arg : option string) p : result := (None, p <| pv_auth_request_params := arg |>).
Definition oidc_cfg_provider_token_endpoint_params_set (arg : option string) p : result := (None, p <| pv_token_endpoint_params := arg |>).
Definition oidc_cfg_provider_client_contact_set (arg : option string) p : result := (None, p <| pv_client_contact := arg |>).
Definition oidc_cfg_provider_client_id_set (arg : option string) p : result := (None, p <| pv_client_id := arg |>).
Definition oidc_cfg_provider_logout_request_params_set (arg : option string) p : result := (None, p <| pv_logout_request_params := arg |>).
Definition oidc_cfg_provider_registration_endpoint_json_set (arg : option string) p : result := (None, p <| pv_registration_endpoint_json := arg |>).
Definition oidc_cfg_provider_request_object_set (arg : option string) p : result := (None, p <| pv_request_object := arg |>).
Definition oidc_cfg_provider_scope_set (arg : option string) p : result := (None, p <| pv_scope := arg |>).
Definition oidc_cfg_provider_client_name_set (arg : option string) p : result := (None, p <| pv_client_name := arg |>).
Definition oidc_cfg_provider_registration_token_set (arg : option string) p : result := (None, p <| pv_registration_token := arg |>).

Definition oidc_cfg_provider_authorization_endpoint_url_set (arg : option string) p : result :=
  set_valid (oidc_cfg_parse_is_valid_http_url arg) (p <| pv_authorization_endpoint_url := arg |>) p.
Definition oidc_cfg_provider_token_endpoint_url_set (arg : option string) p : result :=
  set_valid (oidc_cfg_parse_is_valid_http_url arg) (p <| pv_token_endpoint_url := arg |>) p.
Definition oidc_cfg_provider_registration_endpoint_url_set (arg : option string) p : result :=
  set_valid (oidc_cfg_parse_is_valid_http_url arg) (p <| pv_registration_endpoint_url := arg |>) p.
Definition oidc_cfg_provider_pushed_authorization_request_endpoint_url_set (arg : option string) p : result :=
  set_valid (oidc_cfg_parse_is_valid_http_url arg) (p <| pv_pushed_authorization_request_endpoint_url := arg |>) p.
Definition oidc_cfg_provider_check_session_iframe_set (arg : option string) p : result :=
  set_valid (oidc_cfg_parse_is_valid_http_url arg) (p <| pv_check_session_iframe := arg |>) p.
Definition oidc_cfg_provider_end_session_endpoint_set (arg : option string) p : result :=
  set_valid (oidc_cfg_parse_is_valid_http_url arg) (p <| pv_end_session_endpoint := arg |>) p.
Definition oidc_cfg_provider_client_jwks_uri_set (arg : option string) p : result :=
  set_valid (oidc_cfg_parse_is_valid_http_url arg) (p <| pv_client_jwks_uri := arg |>) p.
Definition oidc_cfg_provider_metadata_url_set (arg : option string) p : result :=
  set_valid (oidc_cfg_parse_is_valid_http_url arg) (p <| pv_metadata_url := arg |>) p.
Definition oidc_cfg_provider_userinfo_endpoint_url_set (arg : option string) p : result :=
  set_valid (oidc_cfg_parse_is_valid_http_url arg) (p <| pv_userinfo_endpoint_url := arg |>) p.
Definition oidc_cfg_provider_revocation_endpoint_url_set (arg : option string) p : result :=
  set_valid (oidc_cfg_parse_is_valid_http_url arg) (p <| pv_revocation_endpoint_url := arg |>) p.

Definition oidc_cfg_provider_response_mode_set (arg : option string) p : result :=
  set_valid (oidc_cfg_parse_is_valid_response_mode arg) (p <| pv_response_mode := arg |>) p.
Definition oidc_cfg_provider_id_token_signed_response_alg_set (arg : option string) p : result :=
  set_valid (oidc_cfg_parse_is_valid_signed_response_alg arg) (p <| pv_id_token_signed_response_alg := arg |>) p.
Definition oidc_cfg_provider_id_token_encrypted_response_alg_set (arg : option string) p : result :=
  set_valid (oidc_cfg_parse_is_valid_encrypted_response_alg arg) (p <| pv_id_token_encrypted_response_alg := arg |>) p.
Definition oidc_cfg_provider_id_token_encrypted_response_enc_set (arg : option string) p : result :=
  set_valid (oidc_cfg_parse_is_valid_encrypted_response_enc arg) (p <| pv_id_token_encrypted_response_enc := arg |>) p.
Definition oidc_cfg_provider_userinfo_signed_response_alg_set (arg : option string) p : result :=
  set_valid (oidc_cfg_parse_is_valid_signed_response_alg arg) (p <| pv_userinfo_signed_response_alg := arg |>) p.
Definition oidc_cfg_provider_userinfo_encrypted_response_alg_set (arg : option string) p : result :=
  set_valid (oidc_cfg_parse_is_valid_encrypted_response_alg arg) (p <| pv_userinfo_encrypted_response_alg := arg |>) p.
Definition oidc_cfg_provider_userinfo_encrypted_response_enc_set (arg : option string) p : result :=
  set_valid (oidc_cfg_parse_is_valid_encrypted_response_enc arg) (p <| pv_userinfo_encrypted_response_enc := arg |>) p.
(** The inner [option] is the error, the outer one the fuel of the comparison of flows. *)
Definition oidc_cfg_provider_response_type_set (arg : option string) p : option result :=
  rv ← oidc_cfg_parse_is_valid_response_type arg; Some (set_valid rv (p <| pv_response_type := arg |>) p).

Definition oidc_cfg_provider_token_endpoint_tls_client_cert_set (arg : option string) p : result :=
  set_read (oidc_cfg_parse_filename arg) (fun v => p <| pv_token_endpoint_tls_client_cert := v |>) p.
Definition oidc_cfg_provider_token_endpoint_tls_client_key_set (arg : option string) p : result :=
  set_read (oidc_cfg_parse_filename arg) (fun v => p <| pv_token_endpoint_tls_client_key := v |>) p.
Definition oidc_cfg_provider_client_secret_set (arg : option string) p : result :=
  set_read (oidc_cfg_parse_passphrase arg) (fun v => p <| pv_client_secret := v |>) p.
Definition oidc_cfg_provider_token_endpoint_tls_client_key_pwd_set (arg : option string) p : result :=
  set_read (oidc_cfg_parse_passphrase arg) (fun v => p <| pv_token_endpoint_tls_client_key_pwd := v |>) p.

Definition oidc_cfg_provider_backchannel_logout_supported_set (arg : Z) p : result :=
  set_int 0 1 0 arg (fun v => p <| pv_backchannel_logout_supported := v |>).
Definition oidc_cfg_provider_ssl_validate_server_set (arg : Z) p : result :=
  set_int 0 1 OIDC_DEFAULT_SSL_VALIDATE_SERVER arg (fun v => p <| pv_ssl_validate_server := v |>).
Definition oidc_cfg_provider_validate_issuer_set (arg : Z) p : result :=
  set_int 0 1 OIDC_DEFAULT_VALIDATE_ISSUER arg (fun v => p <| pv_validate_issuer := v |>).
Definition oidc_cfg_provider_response_require_iss_set (arg : Z) p : result :=
  set_int 0 1 OIDC_DEFAULT_PROVIDER_RESPONSE_REQUIRE_ISS arg (fun v => p <| pv_response_require_iss := v |>).
Definition oidc_cfg_provider_idtoken_iat_slack_set (arg : Z) p : result :=
  set_int OIDC_IDTOKEN_IAT_SLACK_MIN OIDC_IDTOKEN_IAT_SLACK_MAX OIDC_DEFAULT_IDTOKEN_IAT_SLACK arg
    (fun v => p <| pv_idtoken_iat_slack := v |>).
Definition oidc_cfg_provider_session_max_duration_set (arg : Z) p : result :=
  if arg =? 0 then (None, p <| pv_session_max_duration := arg |>)
  else set_int OIDC_SESSION_MAX_DURATION_MIN OIDC_SESSION_MAX_DURATION_MAX OIDC_DEFAULT_SESSION_MAX_DURATION arg
         (fun v => p <| pv_session_max_duration := v |>).
Definition oidc_cfg_provider_jwks_uri_refresh_interval_set (arg : Z) p : result :=
  set_int OIDC_JWKS_REFRESH_INTERVAL_MIN OIDC_JWKS_REFRESH_INTERVAL_MAX OIDC_DEFAULT_JWKS_REFRESH_INTERVAL arg
    (fun v => p <| pv_jwks_uri -> ju_refresh_interval := v |>).
Definition oidc_cfg_provider_userinfo_refresh_interval_set (arg : Z) p : result :=
  set_int OIDC_USERINFO_REFRESH_INTERVAL_MIN OIDC_USERINFO_REFRESH_INTERVAL_MAX OIDC_DEFAULT_USERINFO_REFRESH_INTERVAL arg
    (fun v => p <| pv_userinfo_refresh_interval := v |>).

(** *** Enumerations *)

Definition oidc_cfg_provider_parse_dop_method (arg : option string) : string + Z :=
  oidc_cfg_parse_option [mk_option OIDC_DPOP_MODE_OFF OIDC_DPOP_MODE_OFF_STR;
    mk_option OIDC_DPOP_MODE_OPTIONAL OIDC_DPOP_MODE_OPTIONAL_STR; mk_option OIDC_DPOP_MODE_REQUIRED OIDC_DPOP_MODE_REQUIRED_STR] arg.
Definition oidc_cfg_provider_parse_cert_bound_tokens (arg : option string) : string + Z :=
  oidc_cfg_parse_option [mk_option OIDC_CERT_BOUND_TOKENS_OFF OIDC_CERT_BOUND_TOKENS_OFF_STR;
    mk_option OIDC_CERT_BOUND_TOKENS_AUTO OIDC_CERT_BOUND_TOKENS_AUTO_STR;
    mk_option OIDC_CERT_BOUND_TOKENS_ON OIDC_CERT_BOUND_TOKENS_ON_STR] arg.
Definition oidc_cfg_provider_parse_auth_request_method (arg : option string) : string + Z :=
  oidc_cfg_parse_option [mk_option OIDC_AUTH_REQUEST_METHOD_GET OIDC_AUTH_REQUEST_METHOD_GET_STR;
    mk_option OIDC_AUTH_REQUEST_METHOD_POST OIDC_AUTH_REQUEST_METHOD_POST_STR;
    mk_option OIDC_AUTH_REQUEST_METHOD_PAR OIDC_AUTH_REQUEST_METHOD_PAR_STR] arg.
Definition oidc_cfg_provider_parse_userinfo_token_method (arg : option string) : string + Z :=
  oidc_cfg_parse_option [mk_option OIDC_USER_INFO_TOKEN_METHOD_HEADER OIDC_USER_INFO_TOKEN_METHOD_HEADER_STR;
    mk_option OIDC_USER_INFO_TOKEN_METHOD_POST OIDC_USER_INFO_TOKEN_METHOD_POST_STR] arg.
Definition oidc_cfg_provider_parse_profile (arg : option string) : string + Z :=
  oidc_cfg_parse_option [mk_option OIDC_PROFILE_OIDC10 OIDC_PROFILE_OIDC10_STR;
    mk_option OIDC_PROFILE_FAPI20 OIDC_PROFILE_FAPI20_STR] arg.

Definition oidc_cfg_provider_dpop_mode_int_set (arg : Z) p : oidc_provider_t := p <| pv_dpop_mode := arg |>.
Definition oidc_cfg_provider_dpop_mode_set (arg : option string) p : result :=
  set_parsed (oidc_cfg_provider_parse_dop_method arg) (fun v => p <| pv_dpop_mode := v |>) OIDC_DEFAULT_DPOP_MODE.
Definition oidc_cfg_provider_cert_bound_tokens_int_set (arg : Z) p : oidc_provider_t := p <| pv_cert_bound_tokens := arg |>.
Definition oidc_cfg_provider_cert_bound_tokens_set (arg : option string) p : result :=
  set_parsed (oidc_cfg_provider_parse_cert_bound_tokens arg) (fun v => p <| pv_cert_bound_tokens := v |>) OIDC_DEFAULT_CERT_BOUND_TOKENS.
Definition oidc_cfg_provider_auth_request_method_int_set (arg : Z) p : oidc_provider_t := p <| pv_auth_request_method := arg |>.
Definition oidc_cfg_provider_auth_request_method_set (arg : option string) p : result :=
  set_parsed (oidc_cfg_provider_parse_auth_request_method arg) (fun v => p <| pv_auth_request_method := v |>) OIDC_DEFAULT_AUTH_REQUEST_METHOD.
Definition oidc_cfg_provider_userinfo_token_method_int_set (arg : Z) p : oidc_provider_t := p <| pv_userinfo_token_method := arg |>.
Definition oidc_cfg_provider_userinfo_token_method_set (arg : option string) p : result :=
  set_parsed (oidc_cfg_provider_parse_userinfo_token_method arg) (fun v => p <| pv_userinfo_token_method := v |>) OIDC_DEFAULT_USER_INFO_TOKEN_METHOD.
Definition oidc_cfg_provider_profile_int_set (arg : Z) p : oidc_provider_t := p <| pv_profile := arg |>.
Definition oidc_cfg_provider_profile_set (arg : option string) p : result :=
  set_parsed (oidc_cfg_provider_parse_profile arg) (fun v => p <| pv_profile := v |>) OIDC_DEFAULT_PROFILE.
Definition oidc_cfg_provider_dpop_supported_int_set (arg : Z) p : oidc_provider_t := p <| pv_dpop_supported := arg |>.

Definition oidc_cfg_provider_pkce_set (arg : option string) p : result :=
  let same method := _oidc_strcmp arg (Some method) =? 0 in
  if same OIDC_PKCE_METHOD_PLAIN then (None, p <| pv_pkce := Some oidc_pkce_plain |>)
  else if same OIDC_PKCE_METHOD_S256 then (None, p <| pv_pkce := Some oidc_pkce_s256 |>)
  else if same OIDC_PKCE_METHOD_NONE then (None, p <| pv_pkce := Some oidc_pkce_none |>)
  else (oidc_cfg_parse_is_valid_option arg [OIDC_PKCE_METHOD_PLAIN; OIDC_PKCE_METHOD_S256; OIDC_PKCE_METHOD_NONE], p).

(** *** Lists, keys and client authentication *)

Definition oidc_cfg_string_list_add (values : option (list (option string))) (arg : option string) : list (option string) :=
  default [] values ++ [arg].
Definition oidc_cfg_provider_id_token_aud_values_set_str_list (arg : option (list (option string))) p : result :=
  (None, p <| pv_id_token_aud_values := arg |>).
Definition oidc_cfg_provider_id_token_aud_values_set (arg : option string) p : result :=
  (None, p <| pv_id_token_aud_values := Some (oidc_cfg_string_list_add (pv_id_token_aud_values p) arg) |>).
Definition oidc_cfg_provider_client_keys_set_keys (arg : option (list oidc_jwk_t)) p : result :=
  (None, p <| pv_client_keys := arg |>).

Definition oidc_cfg_provider_jwks_uri_uri_get p := ju_uri (pv_jwks_uri p).
Definition oidc_cfg_provider_jwks_uri_set (arg : option string) p : result :=
  set_valid (oidc_cfg_parse_is_valid_http_url arg) (p <| pv_jwks_uri -> ju_uri := arg |>) p.
Definition oidc_cfg_provider_jwks_uri_refresh_interval_get p : Z :=
  int_or (ju_refresh_interval (pv_jwks_uri p)) OIDC_DEFAULT_JWKS_REFRESH_INTERVAL.
Definition oidc_cfg_provider_signed_jwks_uri_get p := ju_signed_uri (pv_jwks_uri p).
Definition oidc_cfg_provider_signed_jwks_uri_keys_get p := ju_jwk_list (pv_jwks_uri p).

Definition oidc_cfg_provider_signed_jwks_uri_keys_set (json : option json_t) (def_val : option (list oidc_jwk_t)) p : result :=
  let fallback := p <| pv_jwks_uri -> ju_jwk_list := oidc_jwk_list_copy def_val |> in
  match json with
  | None => (None, fallback)
  | Some json =>
      if oidc_is_jwk json then
        match oidc_jwk_parse_json json with
        | Some jwk => (None, p <| pv_jwks_uri -> ju_jwk_list := Some [jwk] |>)
        | None => (Some "oidc_jwk_parse_json failed for the specified JWK", fallback)
        end
      else if oidc_is_jwks json then
        match oidc_jwks_parse_json json with
        | Some l => (None, p <| pv_jwks_uri -> ju_jwk_list := Some l |>)
        | None => (Some "oidc_jwks_parse_json failed for the specified JWKs", fallback)
        end
      else (Some "invalid JWK/JWKs argument", fallback)
  end.

Definition oidc_cfg_provider_signed_jwks_uri_set (arg1 arg2 : option string) p : result :=
  let given arg := nonnull arg && negb (_oidc_strcmp arg (Some "") =? 0) in
  match (if given arg1 then oidc_cfg_parse_is_valid_http_url arg1 else None) with
  | Some e => (Some e, p)
  | None =>
      let p := if given arg1 then p <| pv_jwks_uri -> ju_signed_uri := arg1 |> else p in
      if negb (given arg2) then (None, p)
      else
        match oidc_json_parse arg2 0 with
        | None => (Some "parsing the 2nd argument as JSON failed", p)
        | Some json => oidc_cfg_provider_signed_jwks_uri_keys_set (Some json) None p
        end
  end.

(** [private_keys]: whether [cfg->private_keys] is set. *)
Definition oidc_cfg_provider_token_endpoint_auth_set (private_keys : bool) (arg : option string) p : result :=
  let '(rv, (auth, alg)) := oidc_cfg_endpoint_auth_set private_keys arg (pv_token_endpoint_auth p) (pv_token_endpoint_auth_alg p) in
  (rv, p <| pv_token_endpoint_auth := auth |> <| pv_token_endpoint_auth_alg := alg |>).
End set.
