(* ===== verification/ProviderWf.v ===== *)
(** * Well-formed settings

    Whatever a setter is given, the members of a provider keep to their types: URLs have a scheme and a host,
    algorithms are supported, numbers stay within their bounds. *)

From S2P Require Import Prelude Cstr Apr StrUtil Jansson Json Base64 Jose Jwt Util Cjose Jwk Pkce Provider Profile ClientAuth CfgParse.
From S2P Require Import ProviderSet.
From coqutil Require Import Datatypes.RecordSetters.
Import TriangleBracketNotations.
#[local] Open Scope Z_scope.

(** ** Well-formed settings *)

(** A URL is absent, or one of http or https with a host. *)
Definition url_ok {H : Httpd} (o : option string) : Prop := o = None \/ oidc_cfg_parse_is_valid_http_url o = None.
(** A value is absent, or the validator has no objection. *)
Definition value_ok (valid : option string -> option string) (o : option string) : Prop := o = None \/ valid o = None.
(** A number is not set, or within its bounds. *)
Definition int_ok (lo hi v : Z) : Prop := v = OIDC_CONFIG_POS_INT_UNSET \/ lo <= v <= hi.

Section wf.
Context {J : Jansson} {C : Cjose J} {H : Httpd}.

(** The condition on each member that is checked. *)
Definition wf_members (p : oidc_provider_t) : list Prop :=
  map (fun get : oidc_provider_t -> option string => url_ok (get p))
    [pv_authorization_endpoint_url; pv_token_endpoint_url; pv_userinfo_endpoint_url; pv_revocation_endpoint_url;
     pv_registration_endpoint_url; pv_pushed_authorization_request_endpoint_url; pv_check_session_iframe;
     pv_end_session_endpoint; pv_client_jwks_uri; (fun p => ju_uri (pv_jwks_uri p)); (fun p => ju_signed_uri (pv_jwks_uri p))] ++
  [value_ok oidc_cfg_parse_is_valid_response_mode (pv_response_mode p);
   value_ok oidc_cfg_parse_is_valid_signed_response_alg (pv_id_token_signed_response_alg p);
   value_ok oidc_cfg_parse_is_valid_encrypted_response_alg (pv_id_token_encrypted_response_alg p);
   value_ok oidc_cfg_parse_is_valid_encrypted_response_enc (pv_id_token_encrypted_response_enc p);
   value_ok oidc_cfg_parse_is_valid_signed_response_alg (pv_userinfo_signed_response_alg p);
   value_ok oidc_cfg_parse_is_valid_encrypted_response_alg (pv_userinfo_encrypted_response_alg p);
   value_ok oidc_cfg_parse_is_valid_encrypted_response_enc (pv_userinfo_encrypted_response_enc p);
   value_ok (fun o => oidc_valid_endpoint_auth_method_impl o true true) (pv_token_endpoint_auth p);
   pv_response_type p = None \/ oidc_cfg_parse_is_valid_response_type (pv_response_type p) = Some None;
   int_ok 0 1 (pv_backchannel_logout_supported p);
   int_ok 0 1 (pv_ssl_validate_server p);
   int_ok 0 1 (pv_validate_issuer p);
   int_ok 0 1 (pv_response_require_iss p);
   int_ok 0 1 (pv_dpop_supported p);
   int_ok OIDC_IDTOKEN_IAT_SLACK_MIN OIDC_IDTOKEN_IAT_SLACK_MAX (pv_idtoken_iat_slack p);
   pv_session_max_duration p = 0 \/ int_ok OIDC_SESSION_MAX_DURATION_MIN OIDC_SESSION_MAX_DURATION_MAX (pv_session_max_duration p);
   int_ok OIDC_JWKS_REFRESH_INTERVAL_MIN OIDC_JWKS_REFRESH_INTERVAL_MAX (ju_refresh_interval (pv_jwks_uri p));
   int_ok OIDC_USERINFO_REFRESH_INTERVAL_MIN OIDC_USERINFO_REFRESH_INTERVAL_MAX (pv_userinfo_refresh_interval p);
   int_ok OIDC_DPOP_MODE_OFF OIDC_DPOP_MODE_REQUIRED (pv_dpop_mode p);
   int_ok OIDC_CERT_BOUND_TOKENS_OFF OIDC_CERT_BOUND_TOKENS_ON (pv_cert_bound_tokens p);
   int_ok OIDC_AUTH_REQUEST_METHOD_GET OIDC_AUTH_REQUEST_METHOD_PAR (pv_auth_request_method p);
   int_ok OIDC_USER_INFO_TOKEN_METHOD_HEADER OIDC_USER_INFO_TOKEN_METHOD_POST (pv_userinfo_token_method p);
   int_ok OIDC_PROFILE_OIDC10 OIDC_PROFILE_FAPI20 (pv_profile p)].

Definition provider_wf (p : oidc_provider_t) : Prop := Forall id (wf_members p).
End wf.

(** ** The validators *)

Section validators.
Lemma is_valid_int_None v lo hi : oidc_cfg_parse_is_valid_int v lo hi = None -> lo <= v <= hi.
Proof. unfold oidc_cfg_parse_is_valid_int. repeat case_match; try done. lia. Qed.

Lemma option_index_app arg l l' i : option_index arg l i <> (i + length l)%nat -> option_index arg (l ++ l') i = option_index arg l i.
Proof.
  revert i. induction l as [|o l IH]; intros i; cbn [option_index length app]; [lia|]. destruct (_oidc_strcmp arg (Some o) =? 0); [done|].
  intros Hne. apply IH. lia.
Qed.

Lemma option_index_spec arg options i :
  option_index arg options i = (i + length options)%nat /\ Forall (fun o => _oidc_strcmp arg (Some o) <> 0) options \/
  exists k o, options !! k = Some o /\ option_index arg options i = (i + k)%nat /\ _oidc_strcmp arg (Some o) = 0.
Proof.
  revert i. induction options as [|o options IH]; intros i; [left; cbn; split; [lia|done]|]. cbn [option_index length].
  destruct (Z.eqb_spec (_oidc_strcmp arg (Some o)) 0) as [E|E].
  - right. exists 0%nat, o. split; [done|]. split; [lia|done].
  - destruct (IH (S i)) as [[E1 E2]|(k & o' & Hk & E1 & E2)].
    + left. split; [lia|by constructor].
    + right. exists (S k), o'. split; [done|]. split; [lia|done].
Qed.

Lemma is_valid_option_None arg options : oidc_cfg_parse_is_valid_option arg options = None <->
  exists o, In o options /\ _oidc_strcmp arg (Some o) = 0.
Proof.
  unfold oidc_cfg_parse_is_valid_option. destruct (option_index_spec arg options 0) as [[-> Hf]|(k & o & Hk & -> & E)]; cbn [Nat.add].
  - rewrite lookup_ge_None_2 by done. split; [done|]. intros (o & Hin & E). rewrite Forall_forall in Hf.
    apply list_elem_of_In in Hin. by destruct (Hf o Hin).
  - rewrite Hk. split; [intros _|done]. exists o. split; [|done]. apply list_elem_of_In. by eapply list_elem_of_lookup_2.
Qed.

(** A method that is valid in any configuration is valid with private keys and certificates. *)
Lemma valid_auth_weaken arg has_key mtls : oidc_valid_endpoint_auth_method_impl arg has_key mtls = None ->
  oidc_valid_endpoint_auth_method_impl arg true true = None.
Proof.
  unfold oidc_valid_endpoint_auth_method_impl. rewrite !is_valid_option_None. intros (o & Hin & E). exists o. split; [|done].
  rewrite !in_app_iff in *. destruct Hin as [?|[?|?]]; [by left|right; left; by destruct has_key|right; right; by destruct mtls].
Qed.

Lemma find_option_In arg options v : find_option _oidc_strcmp arg options = Some v -> In v (map opt_val options).
Proof.
  induction options as [|o options IH]; [done|]. cbn [find_option map]. destruct (_oidc_strcmp arg (Some (opt_str o)) =? 0).
  - intros [= <-]. by left.
  - intros Hf. right. by apply IH.
Qed.

Lemma parse_option_In options arg v : oidc_cfg_parse_option options arg = inr v -> In v (map opt_val options).
Proof.
  unfold oidc_cfg_parse_option, oidc_cfg_parse_option_impl. destruct (find_option _ _ _) eqn:E; [|done]. intros [= <-].
  by eapply find_option_In.
Qed.
End validators.

(** ** Setters keep the settings well-formed *)

Section setters.
Context {J : Jansson} {B64 : Base64} {O : Jose} {C : Cjose J} {D : Digest} {H : Httpd} {E : CfgEnv C}.
Implicit Types p : oidc_provider_t.

Ltac wf_update := intros; unfold provider_wf, wf_members in *; match goal with q : oidc_provider_t |- _ => destruct q end; cbn in *;
  repeat match goal with Hf : Forall _ (_ :: _) |- _ => apply Forall_cons in Hf as [? Hf] end;
  repeat (apply Forall_cons; split); unfold id in *; auto.

Ltac enum_ok := cbn [map opt_val]; repeat (apply Forall_cons; split);
  first [apply Forall_nil | right; vm_compute; split; discriminate].

Lemma set_valid_wf rv p' p : provider_wf p -> (rv = None -> provider_wf p') -> provider_wf (set_valid rv p' p).2.
Proof. intros Hp Hp'. destruct rv; [done|]. by apply Hp'. Qed.

Lemma set_int_wf lo hi def arg set : (forall v, int_ok lo hi v -> provider_wf (set v)) -> int_ok lo hi def ->
  provider_wf (set_int lo hi def arg set).2.
Proof.
  intros Hs Hd. unfold set_int. destruct (oidc_cfg_parse_is_valid_int arg lo hi) eqn:Ev; [by apply Hs|].
  apply Hs. right. by apply is_valid_int_None.
Qed.

Lemma set_parsed_wf options arg set def lo hi : Forall (int_ok lo hi) (map opt_val options) -> int_ok lo hi def ->
  (forall v, int_ok lo hi v -> provider_wf (set v)) -> provider_wf (set_parsed (oidc_cfg_parse_option options arg) set def).2.
Proof.
  intros Ho Hd Hs. unfold set_parsed. destruct (oidc_cfg_parse_option options arg) eqn:Ep; apply Hs; [done|].
  rewrite Forall_forall in Ho. apply Ho, list_elem_of_In. by eapply parse_option_In.
Qed.

Lemma set_read_wf rv set p : provider_wf p -> (forall v, provider_wf (set v)) -> provider_wf (set_read rv set p).2.
Proof. intros Hp Hs. destruct rv; [done|apply Hs]. Qed.

(** A setter with a validator, one that reads a directive, one of a number and one of a word. *)
Ltac wf_valid := intros Hp; apply set_valid_wf; [done|]; intros Hv;
  match goal with v : option string |- _ => apply or_intror with (A := v = None) in Hv end; revert Hp Hv; wf_update.
Ltac wf_read := intros Hp; apply set_read_wf; [done|]; intros ?; revert Hp; wf_update.
Ltac wf_int := intros Hp; apply set_int_wf; [|first [by left|right; vm_compute; split; discriminate]]; intros ? ?; revert Hp; wf_update.
Ltac wf_enum lo hi := intros Hp; apply (set_parsed_wf _ _ _ _ lo hi); [by enum_ok|by enum_ok|]; intros ? ?; revert Hp; wf_update.

Lemma issuer_set_wf v p : provider_wf p -> provider_wf (oidc_cfg_provider_issuer_set v p).2.
Proof. wf_update. Qed.
Lemma auth_request_params_set_wf v p : provider_wf p -> provider_wf (oidc_cfg_provider_auth_request_params_set v p).2.
Proof. wf_update. Qed.
Lemma token_endpoint_params_set_wf v p : provider_wf p -> provider_wf (oidc_cfg_provider_token_endpoint_params_set v p).2.
Proof. wf_update. Qed.
Lemma client_contact_set_wf v p : provider_wf p -> provider_wf (oidc_cfg_provider_client_contact_set v p).2.
Proof. wf_update. Qed.
Lemma client_id_set_wf v p : provider_wf p -> provider_wf (oidc_cfg_provider_client_id_set v p).2.
Proof. wf_update. Qed.
Lemma logout_request_params_set_wf v p : provider_wf p -> provider_wf (oidc_cfg_provider_logout_request_params_set v p).2.
Proof. wf_update. Qed.
Lemma registration_endpoint_json_set_wf v p : provider_wf p -> provider_wf (oidc_cfg_provider_registration_endpoint_json_set v p).2.
Proof. wf_update. Qed.
Lemma request_object_set_wf v p : provider_wf p -> provider_wf (oidc_cfg_provider_request_object_set v p).2.
Proof. wf_update. Qed.
Lemma scope_set_wf v p : provider_wf p -> provider_wf (oidc_cfg_provider_scope_set v p).2.
Proof. wf_update. Qed.
Lemma client_name_set_wf v p : provider_wf p -> provider_wf (oidc_cfg_provider_client_name_set v p).2.
Proof. wf_update. Qed.
Lemma registration_token_set_wf v p : provider_wf p -> provider_wf (oidc_cfg_provider_registration_token_set v p).2.
Proof. wf_update. Qed.
Lemma authorization_endpoint_url_set_wf v p : provider_wf p -> provider_wf (oidc_cfg_provider_authorization_endpoint_url_set v p).2.
Proof. wf_valid. Qed.
Lemma token_endpoint_url_set_wf v p : provider_wf p -> provider_wf (oidc_cfg_provider_token_endpoint_url_set v p).2.
Proof. wf_valid. Qed.
Lemma registration_endpoint_url_set_wf v p : provider_wf p -> provider_wf (oidc_cfg_provider_registration_endpoint_url_set v p).2.
Proof. wf_valid. Qed.
Lemma pushed_authorization_request_endpoint_url_set_wf v p : provider_wf p -> provider_wf (oidc_cfg_provider_pushed_authorization_request_endpoint_url_set v p).2.
Proof. wf_valid. Qed.
Lemma check_session_iframe_set_wf v p : provider_wf p -> provider_wf (oidc_cfg_provider_check_session_iframe_set v p).2.
Proof. wf_valid. Qed.
Lemma end_session_endpoint_set_wf v p : provider_wf p -> provider_wf (oidc_cfg_provider_end_session_endpoint_set v p).2.
Proof. wf_valid. Qed.
Lemma client_jwks_uri_set_wf v p : provider_wf p -> provider_wf (oidc_cfg_provider_client_jwks_uri_set v p).2.
Proof. wf_valid. Qed.
Lemma userinfo_endpoint_url_set_wf v p : provider_wf p -> provider_wf (oidc_cfg_provider_userinfo_endpoint_url_set v p).2.
Proof. wf_valid. Qed.
Lemma revocation_endpoint_url_set_wf v p : provider_wf p -> provider_wf (oidc_cfg_provider_revocation_endpoint_url_set v p).2.
Proof. wf_valid. Qed.
Lemma jwks_uri_set_wf v p : provider_wf p -> provider_wf (oidc_cfg_provider_jwks_uri_set v p).2.
Proof. wf_valid. Qed.
Lemma response_mode_set_wf v p : provider_wf p -> provider_wf (oidc_cfg_provider_response_mode_set v p).2.
Proof. wf_valid. Qed.
Lemma id_token_signed_response_alg_set_wf v p : provider_wf p -> provider_wf (oidc_cfg_provider_id_token_signed_response_alg_set v p).2.
Proof. wf_valid. Qed.
Lemma id_token_encrypted_response_alg_set_wf v p : provider_wf p -> provider_wf (oidc_cfg_provider_id_token_encrypted_response_alg_set v p).2.
Proof. wf_valid. Qed.
Lemma id_token_encrypted_response_enc_set_wf v p : provider_wf p -> provider_wf (oidc_cfg_provider_id_token_encrypted_response_enc_set v p).2.
Proof. wf_valid. Qed.
Lemma userinfo_signed_response_alg_set_wf v p : provider_wf p -> provider_wf (oidc_cfg_provider_userinfo_signed_response_alg_set v p).2.
Proof. wf_valid. Qed.
Lemma userinfo_encrypted_response_alg_set_wf v p : provider_wf p -> provider_wf (oidc_cfg_provider_userinfo_encrypted_response_alg_set v p).2.
Proof. wf_valid. Qed.
Lemma userinfo_encrypted_response_enc_set_wf v p : provider_wf p -> provider_wf (oidc_cfg_provider_userinfo_encrypted_response_enc_set v p).2.
Proof. wf_valid. Qed.
Lemma token_endpoint_tls_client_cert_set_wf v p : provider_wf p -> provider_wf (oidc_cfg_provider_token_endpoint_tls_client_cert_set v p).2.
Proof. wf_read. Qed.
Lemma token_endpoint_tls_client_key_set_wf v p : provider_wf p -> provider_wf (oidc_cfg_provider_token_endpoint_tls_client_key_set v p).2.
Proof. wf_read. Qed.
Lemma client_secret_set_wf v p : provider_wf p -> provider_wf (oidc_cfg_provider_client_secret_set v p).2.
Proof. wf_read. Qed.
Lemma token_endpoint_tls_client_key_pwd_set_wf v p : provider_wf p -> provider_wf (oidc_cfg_provider_token_endpoint_tls_client_key_pwd_set v p).2.
Proof. wf_read. Qed.
Lemma backchannel_logout_supported_set_wf v p : provider_wf p -> provider_wf (oidc_cfg_provider_backchannel_logout_supported_set v p).2.
Proof. wf_int. Qed.
Lemma ssl_validate_server_set_wf v p : provider_wf p -> provider_wf (oidc_cfg_provider_ssl_validate_server_set v p).2.
Proof. wf_int. Qed.
Lemma validate_issuer_set_wf v p : provider_wf p -> provider_wf (oidc_cfg_provider_validate_issuer_set v p).2.
Proof. wf_int. Qed.
Lemma response_require_iss_set_wf v p : provider_wf p -> provider_wf (oidc_cfg_provider_response_require_iss_set v p).2.
Proof. wf_int. Qed.
Lemma idtoken_iat_slack_set_wf v p : provider_wf p -> provider_wf (oidc_cfg_provider_idtoken_iat_slack_set v p).2.
Proof. wf_int. Qed.
Lemma jwks_uri_refresh_interval_set_wf v p : provider_wf p -> provider_wf (oidc_cfg_provider_jwks_uri_refresh_interval_set v p).2.
Proof. wf_int. Qed.
Lemma userinfo_refresh_interval_set_wf v p : provider_wf p -> provider_wf (oidc_cfg_provider_userinfo_refresh_interval_set v p).2.
Proof. wf_int. Qed.
Lemma dpop_mode_set_wf v p : provider_wf p -> provider_wf (oidc_cfg_provider_dpop_mode_set v p).2.
Proof. wf_enum OIDC_DPOP_MODE_OFF OIDC_DPOP_MODE_REQUIRED. Qed.
Lemma cert_bound_tokens_set_wf v p : provider_wf p -> provider_wf (oidc_cfg_provider_cert_bound_tokens_set v p).2.
Proof. wf_enum OIDC_CERT_BOUND_TOKENS_OFF OIDC_CERT_BOUND_TOKENS_ON. Qed.
Lemma auth_request_method_set_wf v p : provider_wf p -> provider_wf (oidc_cfg_provider_auth_request_method_set v p).2.
Proof. wf_enum OIDC_AUTH_REQUEST_METHOD_GET OIDC_AUTH_REQUEST_METHOD_PAR. Qed.
Lemma userinfo_token_method_set_wf v p : provider_wf p -> provider_wf (oidc_cfg_provider_userinfo_token_method_set v p).2.
Proof. wf_enum OIDC_USER_INFO_TOKEN_METHOD_HEADER OIDC_USER_INFO_TOKEN_METHOD_POST. Qed.
Lemma profile_set_wf v p : provider_wf p -> provider_wf (oidc_cfg_provider_profile_set v p).2.
Proof. wf_enum OIDC_PROFILE_OIDC10 OIDC_PROFILE_FAPI20. Qed.
Lemma session_max_duration_set_wf v p : provider_wf p -> provider_wf (oidc_cfg_provider_session_max_duration_set v p).2.
Proof.
  intros Hp. unfold oidc_cfg_provider_session_max_duration_set. destruct (Z.eqb_spec v 0) as [->|_].
  - revert Hp. wf_update.
  - apply set_int_wf; [|right; vm_compute; split; discriminate]. intros v' Hv. revert Hp. wf_update.
Qed.
Lemma dpop_mode_int_set_wf v p : provider_wf p -> int_ok OIDC_DPOP_MODE_OFF OIDC_DPOP_MODE_REQUIRED v ->
  provider_wf (oidc_cfg_provider_dpop_mode_int_set v p).
Proof. wf_update. Qed.
Lemma cert_bound_tokens_int_set_wf v p : provider_wf p -> int_ok OIDC_CERT_BOUND_TOKENS_OFF OIDC_CERT_BOUND_TOKENS_ON v ->
  provider_wf (oidc_cfg_provider_cert_bound_tokens_int_set v p).
Proof. wf_update. Qed.
Lemma auth_request_method_int_set_wf v p : provider_wf p -> int_ok OIDC_AUTH_REQUEST_METHOD_GET OIDC_AUTH_REQUEST_METHOD_PAR v ->
  provider_wf (oidc_cfg_provider_auth_request_method_int_set v p).
Proof. wf_update. Qed.
Lemma userinfo_token_method_int_set_wf v p : provider_wf p -> int_ok OIDC_USER_INFO_TOKEN_METHOD_HEADER OIDC_USER_INFO_TOKEN_METHOD_POST v ->
  provider_wf (oidc_cfg_provider_userinfo_token_method_int_set v p).
Proof. wf_update. Qed.
Lemma profile_int_set_wf v p : provider_wf p -> int_ok OIDC_PROFILE_OIDC10 OIDC_PROFILE_FAPI20 v ->
  provider_wf (oidc_cfg_provider_profile_int_set v p).
Proof. wf_update. Qed.
Lemma dpop_supported_int_set_wf v p : provider_wf p -> int_ok 0 1 v ->
  provider_wf (oidc_cfg_provider_dpop_supported_int_set v p).
Proof. wf_update. Qed.
Lemma pkce_set_wf v p : provider_wf p -> provider_wf (oidc_cfg_provider_pkce_set v p).2.
Proof. intros Hp. unfold oidc_cfg_provider_pkce_set. cbv zeta. repeat case_match; cbn [snd]; [revert Hp; wf_update..|done]. Qed.
Lemma id_token_aud_values_wf v p : provider_wf p -> provider_wf (oidc_cfg_provider_id_token_aud_values_set_str_list v p).2.
Proof. wf_update. Qed.
Lemma client_keys_wf v p : provider_wf p -> provider_wf (oidc_cfg_provider_client_keys_set_keys v p).2.
Proof. wf_update. Qed.
Lemma jwk_list_wf l p : provider_wf p -> provider_wf (p <| pv_jwks_uri -> ju_jwk_list := l |>).
Proof. wf_update. Qed.
Lemma signed_jwks_uri_keys_wf json def p : provider_wf p -> provider_wf (oidc_cfg_provider_signed_jwks_uri_keys_set json def p).2.
Proof.
  intros Hp. unfold oidc_cfg_provider_signed_jwks_uri_keys_set. cbv zeta. repeat case_match; cbn [snd]; by apply jwk_list_wf.
Qed.
Lemma signed_uri_wf v p : provider_wf p -> url_ok v -> provider_wf (p <| pv_jwks_uri -> ju_signed_uri := v |>).
Proof. wf_update. Qed.
Lemma signed_jwks_uri_set_wf v w p : provider_wf p -> provider_wf (oidc_cfg_provider_signed_jwks_uri_set v w p).2.
Proof.
  intros Hp. unfold oidc_cfg_provider_signed_jwks_uri_set. cbv zeta.
  set (g := nonnull v && negb (_oidc_strcmp v (Some "") =? 0)).
  destruct (if g then oidc_cfg_parse_is_valid_http_url v else None) eqn:Ev; [done|].
  assert (Hp' : provider_wf (if g then p <| pv_jwks_uri -> ju_signed_uri := v |> else p))
    by (destruct g; [apply signed_uri_wf; [done|by right]|done]).
  repeat case_match; cbn [snd]; first [exact Hp | exact Hp' | by apply signed_jwks_uri_keys_wf].
Qed.
Lemma response_type_member_wf v p : provider_wf p -> v = None \/ oidc_cfg_parse_is_valid_response_type v = Some None ->
  provider_wf (p <| pv_response_type := v |>).
Proof. wf_update. Qed.
Lemma response_type_set_wf v p e p' : provider_wf p -> oidc_cfg_provider_response_type_set v p = Some (e, p') -> provider_wf p'.
Proof.
  intros Hp. unfold oidc_cfg_provider_response_type_set. destruct (oidc_cfg_parse_is_valid_response_type v) as [rv|] eqn:Ev; [|done].
  cbn [mbind option_bind]. unfold set_valid. destruct rv; intros [= <- <-]; [done|]. apply response_type_member_wf; [done|by right].
Qed.

(** The names of the methods have no separator. *)
Lemma auth_method_whole arg has_key mtls : oidc_valid_endpoint_auth_method_impl arg has_key mtls = None ->
  oidc_cfg_endpoint_auth_parse arg = (arg, None).
Proof.
  intros Hv%valid_auth_weaken. apply is_valid_option_None in Hv as (o & Hin & Ho). apply oidc_strcmp_eq in Ho as (s & -> & [= <-]).
  cbn in Hin. repeat destruct Hin as [<-|Hin]; [reflexivity..|done].
Qed.

Lemma endpoint_auth_set_ok keys arg auth alg e auth' alg' :
  value_ok (fun o => oidc_valid_endpoint_auth_method_impl o true true) auth ->
  oidc_cfg_endpoint_auth_set keys arg auth alg = (e, (auth', alg')) ->
  value_ok (fun o => oidc_valid_endpoint_auth_method_impl o true true) auth'.
Proof.
  intros Hold. unfold oidc_cfg_endpoint_auth_set. destruct (oidc_cfg_get_valid_endpoint_auth_function keys true arg) eqn:Ev; [by intros [= _ <- _]|].
  destruct (oidc_cfg_endpoint_auth_parse arg) as [method suffix] eqn:Ep. intros [= _ <- _]. right. revert Ev.
  unfold oidc_cfg_get_valid_endpoint_auth_function. cbn [negb]. destruct keys.
  - unfold oidc_cfg_valid_endpoint_auth_method_with_private_key, oidc_cfg_valid_endpoint_auth_method_alg. rewrite Ep.
    repeat case_match; by try intros [=].
  - unfold oidc_cfg_valid_endpoint_auth_method_no_private_key. intros Ev. pose proof (auth_method_whole _ _ _ Ev) as Ew.
    rewrite Ep in Ew. injection Ew as -> _. by eapply valid_auth_weaken.
Qed.
(** The members by number: 18 is the method of client authentication, 29 the mode of DPoP. *)
Lemma wf_elem p i P : provider_wf p -> wf_members p !! i = Some P -> P.
Proof. unfold provider_wf. rewrite Forall_lookup. intros Hp. apply (Hp i). Qed.
Lemma token_endpoint_auth_wf keys v p : provider_wf p -> provider_wf (oidc_cfg_provider_token_endpoint_auth_set keys v p).2.
Proof.
  intros Hp. unfold oidc_cfg_provider_token_endpoint_auth_set.
  destruct (oidc_cfg_endpoint_auth_set _ _ _ _) as [e [auth alg]] eqn:Es. cbn [snd].
  assert (Ho : value_ok (fun o => oidc_valid_endpoint_auth_method_impl o true true) auth).
  { eapply endpoint_auth_set_ok; [|exact Es].
    exact (wf_elem p 18 _ Hp eq_refl). }
  clear Es. revert Hp. wf_update.
Qed.

Lemma create_wf : provider_wf oidc_cfg_provider_create.
Proof. unfold provider_wf, wf_members. cbn. repeat (apply Forall_cons; split); unfold id; first [by left|by right; left]. Qed.

(** *** What the profiles make of the settings *)

Lemma int_ok_bounds lo hi v : lo <= v <= hi -> int_ok lo hi v.
Proof. by right. Qed.

Lemma wf_dpop_mode p : provider_wf p -> int_ok OIDC_DPOP_MODE_OFF OIDC_DPOP_MODE_REQUIRED (oidc_proto_profile_dpop_mode_get p).
Proof.
  intros Hp. assert (Hd : int_ok OIDC_DPOP_MODE_OFF OIDC_DPOP_MODE_REQUIRED (oidc_cfg_provider_dpop_mode_get p)).
  { unfold oidc_cfg_provider_dpop_mode_get, int_or. case_match eqn:Eu; [by apply int_ok_bounds|].
    exact (wf_elem p 29 _ Hp eq_refl). }
  unfold oidc_proto_profile_dpop_mode_get, oidc_proto_profile_ops. case_match; [|done]. cbn. unfold oidc_profile_fapi20_dpop_mode.
  cbv zeta. case_match; [done|]. by apply int_ok_bounds.
Qed.

Lemma wf_auth_request_method p : provider_wf p ->
  int_ok OIDC_AUTH_REQUEST_METHOD_GET OIDC_AUTH_REQUEST_METHOD_PAR (oidc_proto_profile_auth_request_method_get p).
Proof.
  intros Hp. unfold oidc_proto_profile_auth_request_method_get, oidc_proto_profile_ops.
  case_match; [by apply int_ok_bounds|]. cbn. unfold oidc_profile_oidc10_auth_request_method, oidc_cfg_provider_auth_request_method_get, int_or.
  case_match eqn:Eu; [by apply int_ok_bounds|]. exact (wf_elem p 31 _ Hp eq_refl).
Qed.

Lemma wf_cert_bound_tokens p : provider_wf p ->
  int_ok OIDC_CERT_BOUND_TOKENS_OFF OIDC_CERT_BOUND_TOKENS_ON (oidc_cfg_provider_cert_bound_tokens_get p).
Proof.
  intros Hp. unfold oidc_cfg_provider_cert_bound_tokens_get, int_or.
  case_match eqn:Eu; [by apply int_ok_bounds|]. exact (wf_elem p 30 _ Hp eq_refl).
Qed.
Lemma wf_userinfo_token_method p : provider_wf p ->
  int_ok OIDC_USER_INFO_TOKEN_METHOD_HEADER OIDC_USER_INFO_TOKEN_METHOD_POST (oidc_cfg_provider_userinfo_token_method_get p).
Proof.
  intros Hp. unfold oidc_cfg_provider_userinfo_token_method_get, int_or.
  case_match eqn:Eu; [by apply int_ok_bounds|]. exact (wf_elem p 32 _ Hp eq_refl).
Qed.
Lemma wf_profile p : provider_wf p -> int_ok OIDC_PROFILE_OIDC10 OIDC_PROFILE_FAPI20 (oidc_cfg_provider_profile_get p).
Proof.
  intros Hp. unfold oidc_cfg_provider_profile_get, int_or.
  case_match eqn:Eu; [by apply int_ok_bounds|]. exact (wf_elem p 33 _ Hp eq_refl).
Qed.
End setters.

(** The lemmas of this file, for the code that calls the setters. *)
Create HintDb wf discriminated.
#[export] Hint Resolve issuer_set_wf auth_request_params_set_wf token_endpoint_params_set_wf client_contact_set_wf
  client_id_set_wf logout_request_params_set_wf registration_endpoint_json_set_wf request_object_set_wf scope_set_wf
  client_name_set_wf registration_token_set_wf authorization_endpoint_url_set_wf token_endpoint_url_set_wf
  registration_endpoint_url_set_wf pushed_authorization_request_endpoint_url_set_wf check_session_iframe_set_wf
  end_session_endpoint_set_wf client_jwks_uri_set_wf userinfo_endpoint_url_set_wf revocation_endpoint_url_set_wf
  jwks_uri_set_wf response_mode_set_wf id_token_signed_response_alg_set_wf id_token_encrypted_response_alg_set_wf
  id_token_encrypted_response_enc_set_wf userinfo_signed_response_alg_set_wf userinfo_encrypted_response_alg_set_wf
  userinfo_encrypted_response_enc_set_wf token_endpoint_tls_client_cert_set_wf token_endpoint_tls_client_key_set_wf
  client_secret_set_wf token_endpoint_tls_client_key_pwd_set_wf backchannel_logout_supported_set_wf
  ssl_validate_server_set_wf validate_issuer_set_wf response_require_iss_set_wf idtoken_iat_slack_set_wf
  jwks_uri_refresh_interval_set_wf userinfo_refresh_interval_set_wf dpop_mode_set_wf cert_bound_tokens_set_wf
  auth_request_method_set_wf userinfo_token_method_set_wf profile_set_wf session_max_duration_set_wf
  dpop_mode_int_set_wf cert_bound_tokens_int_set_wf auth_request_method_int_set_wf userinfo_token_method_int_set_wf
  profile_int_set_wf dpop_supported_int_set_wf pkce_set_wf id_token_aud_values_wf client_keys_wf
  signed_jwks_uri_keys_wf signed_jwks_uri_set_wf token_endpoint_auth_wf create_wf wf_dpop_mode wf_auth_request_method
  wf_cert_bound_tokens wf_userinfo_token_method wf_profile : wf.
