(* ===== verification/Dir.v ===== *)
(** * src/cfg/dir.c: the settings of a directory

    [oidc_dir_cfg_t] with the directives that fill it, its merging and its getters, and the expressions of
    src/util/expr.c, which are parsed and evaluated by httpd. *)

From S2P Require Import Prelude Cstr Apr StrUtil Jansson Json Http Base64 Jose Jwt Cjose Jwk HttpClient Pkce Provider ClientAuth CfgParse ProviderSet ProviderWf AppInfo.
From coqutil Require Import Datatypes.RecordSetters.
Import TriangleBracketNotations.
#[local] Open Scope Z_scope.

(** ** Expressions of httpd *)

Definition AP_EXPR_FLAG_DONT_VARY : Z := 2.
Definition AP_EXPR_FLAG_RESTRICTED : Z := 4.
Definition AP_EXPR_FLAG_STRING_RESULT : Z := 8.

(** Parsing gives an error or the parsed expression; evaluation the result and perhaps an error. *)
Class ApExpr := {
  ap_expr_info_t : Type;
  ap_expr_parse_cmd : string -> Z -> string + ap_expr_info_t;
  ap_expr_str_exec : request -> ap_expr_info_t -> option string * option string;
  ap_expr_exec : request -> ap_expr_info_t -> bool * option string
}.

Inductive oidc_apr_expr_result_t := OIDC_APR_EXPR_RESULT_BOOLEAN | OIDC_APR_EXPR_RESULT_STRING.

Section expr.
Context {X : ApExpr}.

Record oidc_apr_expr_t := mk_apr_expr { expr_str : string; expr_info : ap_expr_info_t }.

(** The message, and [*expr], which a missing argument leaves as it is. *)
Definition oidc_util_apr_expr_parse (str : option string) (expr : option oidc_apr_expr_t) (result_type : oidc_apr_expr_result_t)
  : option string * option oidc_apr_expr_t :=
  match str with
  | None => (None, expr)
  | Some s =>
      let flags := Z.lor AP_EXPR_FLAG_DONT_VARY AP_EXPR_FLAG_RESTRICTED in
      let flags := match result_type with
                   | OIDC_APR_EXPR_RESULT_STRING => Z.lor flags AP_EXPR_FLAG_STRING_RESULT
                   | OIDC_APR_EXPR_RESULT_BOOLEAN => flags
                   end in
      match ap_expr_parse_cmd s flags with
      | inl e => (Some ("cannot parse expression: " ^^ e), None)
      | inr info => (None, Some (mk_apr_expr s info))
      end
  end.

Definition oidc_util_apr_expr_exec (r : request) (expr : option oidc_apr_expr_t) (result_type : oidc_apr_expr_result_t)
  : option string :=
  match expr with
  | None => None
  | Some expr =>
      let '(expr_result, expr_err) :=
        match result_type with
        | OIDC_APR_EXPR_RESULT_STRING => ap_expr_str_exec r (expr_info expr)
        | OIDC_APR_EXPR_RESULT_BOOLEAN =>
            let '(b, err) := ap_expr_exec r (expr_info expr) in (if b : bool then Some "" else None, err)
        end in
      match expr_err with Some _ => None | None => expr_result end
  end.
End expr.

(** ** Values *)

Definition OIDC_PASS_IDTOKEN_AS_CLAIMS : Z := 1.
Definition OIDC_PASS_IDTOKEN_AS_PAYLOAD : Z := 2.
Definition OIDC_PASS_IDTOKEN_AS_SERIALIZED : Z := 4.
Definition OIDC_PASS_IDTOKEN_OFF : Z := 8.
Definition OIDC_OAUTH_ACCEPT_TOKEN_IN_HEADER : Z := 1.
Definition OIDC_OAUTH_ACCEPT_TOKEN_IN_POST : Z := 2.
Definition OIDC_OAUTH_ACCEPT_TOKEN_IN_QUERY : Z := 4.
Definition OIDC_OAUTH_ACCEPT_TOKEN_IN_COOKIE : Z := 8.
Definition OIDC_OAUTH_ACCEPT_TOKEN_IN_BASIC : Z := 16.
Definition OIDC_OAUTH_ACCEPT_TOKEN_IN_OPTION_COOKIE_NAME : string := "cookie-name".
Definition OIDC_OAUTH_ACCEPT_TOKEN_IN_COOKIE_NAME_DEFAULT : string := "PA.global".
Definition OIDC_OAUTH_ACCEPT_TOKEN_IN_COOKIE_SEPARATOR : string := ":".
Definition OIDC_UNAUTH_AUTHENTICATE : Z := 1.
Definition OIDC_UNAUTH_PASS : Z := 2.
Definition OIDC_UNAUTH_RETURN401 : Z := 3.
Definition OIDC_UNAUTH_RETURN410 : Z := 4.
Definition OIDC_UNAUTH_RETURN407 : Z := 5.
Definition OIDC_UNAUTZ_RETURN403 : Z := 1.
Definition OIDC_UNAUTZ_RETURN401 : Z := 2.
Definition OIDC_UNAUTZ_AUTHENTICATE : Z := 3.
Definition OIDC_UNAUTZ_RETURN302 : Z := 4.
Definition OIDC_INTROSPECT_INTERVAL_UNSET : Z := -2.
Definition OIDC_APPINFO_PASS_BOTH : Z := Z.lor OIDC_APPINFO_PASS_HEADERS OIDC_APPINFO_PASS_ENVVARS.

Definition OIDC_DEFAULT_PRESERVE_POST : Z := 0.
Definition OIDC_DEFAULT_REFRESH_ACCESS_TOKEN_BEFORE_EXPIRY : Z := -1.
Definition OIDC_DEFAULT_ON_ERROR_REFRESH : Z := OIDC_ON_ERROR_502.
Definition OIDC_DEFAULT_STATE_COOKIE_PREFIX : string := "mod_auth_openidc_state_".
Definition OIDC_DEFAULT_COOKIE : string := "mod_auth_openidc_session".
Definition OIDC_DEFAULT_COOKIE_PATH : string := "/".
Definition OIDC_DEFAULT_AUTHN_HEADER : option string := None.
Definition OIDC_DEFAULT_PASS_APPINFO_IN : Z := OIDC_APPINFO_PASS_BOTH.
Definition OIDC_DEFAULT_APPINFO_ENCODING : Z := OIDC_APPINFO_ENCODING_LATIN1.
Definition OIDC_DEFAULT_PASS_ACCESS_TOKEN : Z := 1.
Definition OIDC_DEFAULT_PASS_REFRESH_TOKEN : Z := 0.
Definition OIDC_OAUTH_ACCEPT_TOKEN_IN_DEFAULT : Z := OIDC_OAUTH_ACCEPT_TOKEN_IN_HEADER.
Definition OIDC_DEFAULT_TOKEN_INTROSPECTION_INTERVAL : Z := 0.
Definition OIDC_DEFAULT_UNAUTH_ACTION : Z := OIDC_UNAUTH_AUTHENTICATE.
Definition OIDC_DEFAULT_UNAUTZ_ACTION : Z := OIDC_UNAUTZ_RETURN403.
Definition OIDC_DEFAULT_PASS_IDTOKEN_AS : Z := OIDC_PASS_IDTOKEN_AS_CLAIMS.
Definition OIDC_REFRESH_ACCESS_TOKEN_BEFORE_EXPIRY_MIN : Z := 0.
Definition OIDC_REFRESH_ACCESS_TOKEN_BEFORE_EXPIRY_MAX : Z := 3600 * 24 * 365.
Definition OIDC_OAUTH_ACCESS_TOKEN_INTROSPECTION_INTERVAL_MIN : Z := -1.
Definition OIDC_OAUTH_ACCESS_TOKEN_INTROSPECTION_INTERVAL_MAX : Z := 3600 * 24 * 365.

Definition OIDC_PASS_USERINFO_AS_CLAIMS : Z := 1.
Definition OIDC_PASS_USERINFO_AS_JSON_OBJECT : Z := 2.
Definition OIDC_PASS_USERINFO_AS_JWT : Z := 4.
Definition OIDC_PASS_USERINFO_AS_SIGNED_JWT : Z := 8.
Definition OIDC_PASS_USERINFO_AS_CLAIMS_STR : string := "claims".
Record oidc_pass_user_info_as_t := mk_pass_user_info_as { pui_type : Z; pui_name : option string }.

(** ** The settings *)

Section dir.
Context {H : Httpd} {X : ApExpr}.

Record oidc_dir_cfg_t := mk_dir {
  dc_discover_url : option string;
  dc_cookie_path : option string;
  dc_cookie : option string;
  dc_authn_header : option string;
  dc_unauthz_arg : option string;
  dc_pass_cookies : option (list (option string));
  dc_strip_cookies : option (list (option string));
  dc_path_auth_request_expr : option oidc_apr_expr_t;
  dc_path_scope_expr : option oidc_apr_expr_t;
  dc_unauth_expression : option oidc_apr_expr_t;
  dc_userinfo_claims_expr : option oidc_apr_expr_t;
  dc_state_cookie_prefix : option string;
  dc_pass_userinfo_as : option (list oidc_pass_user_info_as_t);
  dc_unauth_action : Z;
  dc_unautz_action : Z;
  dc_pass_info_in : Z;
  dc_pass_info_encoding : Z;
  dc_oauth_accept_token_in : Z;
  dc_preserve_post : Z;
  dc_pass_access_token : Z;
  dc_pass_refresh_token : Z;
  dc_refresh_access_token_before_expiry : Z;
  dc_action_on_error_refresh : Z;
  dc_pass_idtoken_as : Z;
  dc_oauth_accept_token_options : gmap string string;
  dc_oauth_token_introspect_interval : Z
}.
Implicit Types dir_cfg : oidc_dir_cfg_t.

Definition oidc_cfg_dir_config_create : oidc_dir_cfg_t :=
  let unset := OIDC_CONFIG_POS_INT_UNSET in
  mk_dir None None None None None None None None None None None None None
    unset unset unset unset unset unset unset unset unset unset unset ∅ OIDC_INTROSPECT_INTERVAL_UNSET.

Definition _oidc_cfg_dir_merge_hash (add base : gmap string string) : gmap string string :=
  if (0 <? Z.of_nat (size add)) then add else base.
Definition _oidc_cfg_dir_merge_introspect_interval (add base : Z) : Z :=
  if OIDC_INTROSPECT_INTERVAL_UNSET <? add then add else base.

Definition oidc_cfg_dir_config_merge (base add : oidc_dir_cfg_t) : oidc_dir_cfg_t :=
  let ptr {A} (get : oidc_dir_cfg_t -> option A) := _oidc_cfg_merge_ptr (get add) (get base) in
  let int (get : oidc_dir_cfg_t -> Z) := _oidc_cfg_merge_pos_int (get add) (get base) in
  mk_dir (ptr dc_discover_url) (ptr dc_cookie_path) (ptr dc_cookie) (ptr dc_authn_header) (ptr dc_unauthz_arg)
    (ptr dc_pass_cookies) (ptr dc_strip_cookies) (ptr dc_path_auth_request_expr) (ptr dc_path_scope_expr)
    (ptr dc_unauth_expression) (ptr dc_userinfo_claims_expr) (ptr dc_state_cookie_prefix) (ptr dc_pass_userinfo_as)
    (int dc_unauth_action) (int dc_unautz_action) (int dc_pass_info_in) (int dc_pass_info_encoding)
    (int dc_oauth_accept_token_in) (int dc_preserve_post) (int dc_pass_access_token) (int dc_pass_refresh_token)
    (int dc_refresh_access_token_before_expiry) (int dc_action_on_error_refresh) (int dc_pass_idtoken_as)
    (_oidc_cfg_dir_merge_hash (dc_oauth_accept_token_options add) (dc_oauth_accept_token_options base))
    (_oidc_cfg_dir_merge_introspect_interval (dc_oauth_token_introspect_interval add) (dc_oauth_token_introspect_interval base)).

(** ** Directives *)

(** What a handler returns: the message, and the settings. *)
Abbreviation dir_result := (option string * oidc_dir_cfg_t)%type.

(** [cmd] is the name of the directive. *)
Definition OIDC_CONFIG_DIR_RV (cmd : string) (rv : option string) : option string :=
  match rv with
  | Some e => Some ("Invalid value for directive " ^^ sq ^^ cmd ^^ sq ^^ ": " ^^ e)
  | None => None
  end.

(** [OIDC_CFG_DIR_MEMBER_FUNCS_INT] and the handlers with a parsed value: the member changes when parsing succeeds. *)
Definition dir_parsed {A} (cmd : string) (rv : string + A) dir_cfg (set : A -> oidc_dir_cfg_t) : dir_result :=
  match rv with
  | inl e => (OIDC_CONFIG_DIR_RV cmd (Some e), dir_cfg)
  | inr v => (OIDC_CONFIG_DIR_RV cmd None, set v)
  end.

(** Flags are collected from one value to the next. *)
Definition dir_flag (old v : Z) : Z := if old =? OIDC_CONFIG_POS_INT_UNSET then v else Z.lor old v.

Definition oidc_cmd_dir_pass_idtoken_as_set (cmd : string) (arg : option string) dir_cfg : dir_result :=
  match arg with
  | None => (None, dir_cfg)
  | Some _ =>
      dir_parsed cmd
        (oidc_cfg_parse_option
           [mk_option OIDC_PASS_IDTOKEN_AS_CLAIMS "claims"; mk_option OIDC_PASS_IDTOKEN_AS_PAYLOAD "payload";
            mk_option OIDC_PASS_IDTOKEN_AS_SERIALIZED "serialized"; mk_option OIDC_PASS_IDTOKEN_OFF "off"] arg)
        dir_cfg (fun type => dir_cfg <| dc_pass_idtoken_as := dir_flag (dc_pass_idtoken_as dir_cfg) type |>)
  end.

(** The value, with the name after the colon. *)
Definition oidc_cfg_dir_parse_pass_userinfo_as (v : option string) : string + oidc_pass_user_info_as_t :=
  let sep := _oidc_strstr v (Some ":") in
  let value := match sep with Some n => str_take n <$> v | None => v end in
  let name := match sep with Some n => str_drop (n + 1) <$> v | None => None end in
  match oidc_cfg_parse_option
          [mk_option OIDC_PASS_USERINFO_AS_CLAIMS OIDC_PASS_USERINFO_AS_CLAIMS_STR;
           mk_option OIDC_PASS_USERINFO_AS_JSON_OBJECT "json"; mk_option OIDC_PASS_USERINFO_AS_JWT "jwt";
           mk_option OIDC_PASS_USERINFO_AS_SIGNED_JWT "signed_jwt"] value with
  | inl e => inl e
  | inr type => inr (mk_pass_user_info_as type name)
  end.
Definition oidc_cmd_dir_pass_userinfo_as_set (cmd : string) (arg : option string) dir_cfg : dir_result :=
  match oidc_cfg_dir_parse_pass_userinfo_as arg with
  | inl e => (OIDC_CONFIG_DIR_RV cmd (Some e), dir_cfg)
  | inr p => (None, dir_cfg <| dc_pass_userinfo_as := Some (default [] (dc_pass_userinfo_as dir_cfg) ++ [p]) |>)
  end.

Definition oidc_oauth_accept_token_in_options : list oidc_cfg_option_t :=
  [mk_option OIDC_OAUTH_ACCEPT_TOKEN_IN_HEADER "header"; mk_option OIDC_OAUTH_ACCEPT_TOKEN_IN_POST "post";
   mk_option OIDC_OAUTH_ACCEPT_TOKEN_IN_QUERY "query"; mk_option OIDC_OAUTH_ACCEPT_TOKEN_IN_COOKIE "cookie";
   mk_option OIDC_OAUTH_ACCEPT_TOKEN_IN_BASIC "basic"].
Definition oidc_cfg_dir_accept_oauth_token_in2str (v : Z) : string :=
  oidc_cfg_parse_options_flatten
    (List.filter (fun o => negb (Z.land v (opt_val o) =? 0)) oidc_oauth_accept_token_in_options).

Definition oidc_cmd_dir_accept_oauth_token_in_set (cmd : string) (arg : option string) dir_cfg : dir_result :=
  let sep := _oidc_strstr arg (Some OIDC_OAUTH_ACCEPT_TOKEN_IN_COOKIE_SEPARATOR) in
  let s := match sep with Some n => str_take n <$> arg | None => arg end in
  let p := match sep with
           | Some n => str_drop (n + 1) (default "" arg)
           | None => OIDC_OAUTH_ACCEPT_TOKEN_IN_COOKIE_NAME_DEFAULT
           end in
  match oidc_cfg_parse_option oidc_oauth_accept_token_in_options s with
  | inl e => (OIDC_CONFIG_DIR_RV cmd (Some e), dir_cfg)
  | inr v =>
      let dir_cfg := dir_cfg <| dc_oauth_accept_token_in := dir_flag (dc_oauth_accept_token_in dir_cfg) v |> in
      (None,
       if v =? OIDC_OAUTH_ACCEPT_TOKEN_IN_COOKIE then
         dir_cfg <| dc_oauth_accept_token_options :=
           <[OIDC_OAUTH_ACCEPT_TOKEN_IN_OPTION_COOKIE_NAME := p]> (dc_oauth_accept_token_options dir_cfg) |>
       else dir_cfg)
  end.

Definition oidc_cmd_dir_strip_cookies_set (arg : option string) dir_cfg : dir_result :=
  (None, dir_cfg <| dc_strip_cookies := Some (oidc_cfg_string_list_add (dc_strip_cookies dir_cfg) arg) |>).
Definition oidc_cmd_dir_pass_cookies_set (arg : option string) dir_cfg : dir_result :=
  (None, dir_cfg <| dc_pass_cookies := Some (oidc_cfg_string_list_add (dc_pass_cookies dir_cfg) arg) |>).

(** [oidc_cfg_parse_boolean] stores 1 or 0. *)
Definition oidc_cmd_dir_preserve_post_set (cmd : string) (arg : option string) dir_cfg : dir_result :=
  dir_parsed cmd (oidc_cfg_parse_boolean arg) dir_cfg (fun v => dir_cfg <| dc_preserve_post := Z.b2z v |>).
Definition oidc_cmd_dir_pass_access_token_set (cmd : string) (arg : option string) dir_cfg : dir_result :=
  dir_parsed cmd (oidc_cfg_parse_boolean arg) dir_cfg (fun v => dir_cfg <| dc_pass_access_token := Z.b2z v |>).
Definition oidc_cmd_dir_pass_refresh_token_set (cmd : string) (arg : option string) dir_cfg : dir_result :=
  dir_parsed cmd (oidc_cfg_parse_boolean arg) dir_cfg (fun v => dir_cfg <| dc_pass_refresh_token := Z.b2z v |>).

(** The first argument stays in force when the second one is invalid. *)
Definition oidc_cmd_dir_pass_claims_as_set (cmd : string) (arg1 arg2 : option string) dir_cfg : dir_result :=
  match oidc_cfg_parse_option
          [mk_option OIDC_APPINFO_PASS_NONE "none"; mk_option OIDC_APPINFO_PASS_HEADERS "headers";
           mk_option OIDC_APPINFO_PASS_ENVVARS "environment"; mk_option OIDC_APPINFO_PASS_BOTH "both"] arg1 with
  | inl e => (OIDC_CONFIG_DIR_RV cmd (Some e), dir_cfg)
  | inr v =>
      let dir_cfg := dir_cfg <| dc_pass_info_in := v |> in
      match arg2 with
      | None => (None, dir_cfg)
      | Some _ =>
          dir_parsed cmd
            (oidc_cfg_parse_option
               [mk_option OIDC_APPINFO_ENCODING_NONE "none"; mk_option OIDC_APPINFO_ENCODING_BASE64URL "base64url";
                mk_option OIDC_APPINFO_ENCODING_LATIN1 "latin1"] arg2)
            dir_cfg (fun v => dir_cfg <| dc_pass_info_encoding := v |>)
      end
  end.

Definition unauth_action_options : list oidc_cfg_option_t :=
  [mk_option OIDC_UNAUTH_AUTHENTICATE "auth"; mk_option OIDC_UNAUTH_PASS "pass"; mk_option OIDC_UNAUTH_RETURN401 "401";
   mk_option OIDC_UNAUTH_RETURN410 "410"; mk_option OIDC_UNAUTH_RETURN407 "407"].

Definition oidc_cmd_dir_unauth_action_set (cmd : string) (arg1 arg2 : option string) dir_cfg : dir_result :=
  match oidc_cfg_parse_option unauth_action_options arg1 with
  | inl e => (OIDC_CONFIG_DIR_RV cmd (Some e), dir_cfg)
  | inr v =>
      let '(rv, expr) := oidc_util_apr_expr_parse arg2 (dc_unauth_expression dir_cfg) OIDC_APR_EXPR_RESULT_BOOLEAN in
      (OIDC_CONFIG_DIR_RV cmd rv, dir_cfg <| dc_unauth_action := v |> <| dc_unauth_expression := expr |>)
  end.

Definition oidc_cmd_dir_unautz_action_set (cmd : string) (arg1 arg2 : option string) dir_cfg : dir_result :=
  let '(rv, dir_cfg) :=
    match oidc_cfg_parse_option
            [mk_option OIDC_UNAUTZ_RETURN403 "403"; mk_option OIDC_UNAUTZ_RETURN401 "401";
             mk_option OIDC_UNAUTZ_AUTHENTICATE "auth"; mk_option OIDC_UNAUTZ_RETURN302 "302"] arg1 with
    | inl e => (Some e, dir_cfg)
    | inr v => (None, dir_cfg <| dc_unautz_action := v |>)
    end in
  match rv, arg2 with
  | None, Some _ => (None, dir_cfg <| dc_unauthz_arg := arg2 |>)
  | _, _ =>
      if dc_unautz_action dir_cfg =? OIDC_UNAUTZ_RETURN302 then
        (Some ("the (2nd) URL argument to " ^^ cmd ^^ " must be set"), dir_cfg)
      else (OIDC_CONFIG_DIR_RV cmd rv, dir_cfg)
  end.

(** A handler that stores an expression. *)
Definition dir_expr (cmd : string) (arg : option string) (get : oidc_dir_cfg_t -> option oidc_apr_expr_t)
  (set : option oidc_apr_expr_t -> oidc_dir_cfg_t) dir_cfg : dir_result :=
  let '(rv, expr) := oidc_util_apr_expr_parse arg (get dir_cfg) OIDC_APR_EXPR_RESULT_STRING in
  (OIDC_CONFIG_DIR_RV cmd rv, set expr).
Definition oidc_cmd_dir_userinfo_claims_expr_set (cmd : string) (arg : option string) dir_cfg : dir_result :=
  dir_expr cmd arg dc_userinfo_claims_expr (fun e => dir_cfg <| dc_userinfo_claims_expr := e |>) dir_cfg.
Definition oidc_cmd_dir_path_auth_request_params_set (cmd : string) (arg : option string) dir_cfg : dir_result :=
  dir_expr cmd arg dc_path_auth_request_expr (fun e => dir_cfg <| dc_path_auth_request_expr := e |>) dir_cfg.
Definition oidc_cmd_dir_path_scope_set (cmd : string) (arg : option string) dir_cfg : dir_result :=
  dir_expr cmd arg dc_path_scope_expr (fun e => dir_cfg <| dc_path_scope_expr := e |>) dir_cfg.

Definition oidc_cmd_dir_refresh_access_token_before_expiry_set (cmd : string) (arg1 arg2 : option string) dir_cfg : dir_result :=
  match oidc_cfg_parse_int_min_max arg1 OIDC_REFRESH_ACCESS_TOKEN_BEFORE_EXPIRY_MIN OIDC_REFRESH_ACCESS_TOKEN_BEFORE_EXPIRY_MAX with
  | inl e => (OIDC_CONFIG_DIR_RV cmd (Some e), dir_cfg)
  | inr v =>
      let dir_cfg := dir_cfg <| dc_refresh_access_token_before_expiry := v |> in
      match arg2 with
      | None => (None, dir_cfg)
      | Some _ =>
          dir_parsed cmd (oidc_cfg_parse_action_on_error_refresh_as arg2) dir_cfg
            (fun v => dir_cfg <| dc_action_on_error_refresh := v |>)
      end
  end.

Definition oidc_cmd_dir_state_cookie_prefix_set (arg : option string) dir_cfg : dir_result :=
  (None, dir_cfg <| dc_state_cookie_prefix := arg |>).
Definition oidc_cmd_dir_cookie_set (arg : option string) dir_cfg : dir_result := (None, dir_cfg <| dc_cookie := arg |>).
Definition oidc_cmd_dir_cookie_path_set (arg : option string) dir_cfg : dir_result := (None, dir_cfg <| dc_cookie_path := arg |>).
Definition oidc_cmd_dir_authn_header_set (arg : option string) dir_cfg : dir_result := (None, dir_cfg <| dc_authn_header := arg |>).
Definition oidc_cmd_dir_discover_url_set (cmd : string) (arg : option string) dir_cfg : dir_result :=
  dir_parsed cmd (oidc_cfg_parse_relative_or_absolute_url arg) dir_cfg (fun v => dir_cfg <| dc_discover_url := Some v |>).
Definition oidc_cmd_dir_token_introspection_interval_set (cmd : string) (arg : option string) dir_cfg : dir_result :=
  dir_parsed cmd
    (oidc_cfg_parse_int_min_max arg OIDC_OAUTH_ACCESS_TOKEN_INTROSPECTION_INTERVAL_MIN OIDC_OAUTH_ACCESS_TOKEN_INTROSPECTION_INTERVAL_MAX)
    dir_cfg (fun v => dir_cfg <| dc_oauth_token_introspect_interval := v |>).

(** ** Getters *)

Definition oidc_cfg_dir_preserve_post_get dir_cfg : Z := int_or (dc_preserve_post dir_cfg) OIDC_DEFAULT_PRESERVE_POST.
Definition oidc_cfg_dir_refresh_access_token_before_expiry_get dir_cfg : Z :=
  int_or (dc_refresh_access_token_before_expiry dir_cfg) OIDC_DEFAULT_REFRESH_ACCESS_TOKEN_BEFORE_EXPIRY.
Definition oidc_cfg_dir_action_on_error_refresh_get dir_cfg : Z :=
  int_or (dc_action_on_error_refresh dir_cfg) OIDC_DEFAULT_ON_ERROR_REFRESH.
Definition oidc_cfg_dir_state_cookie_prefix_get dir_cfg : string := default OIDC_DEFAULT_STATE_COOKIE_PREFIX (dc_state_cookie_prefix dir_cfg).
Definition oidc_cfg_dir_discover_url_get dir_cfg : option string := dc_discover_url dir_cfg.
Definition oidc_cfg_dir_cookie_get dir_cfg : string := default OIDC_DEFAULT_COOKIE (dc_cookie dir_cfg).
Definition oidc_cfg_dir_cookie_path_get dir_cfg : string := default OIDC_DEFAULT_COOKIE_PATH (dc_cookie_path dir_cfg).
Definition oidc_cfg_dir_authn_header_get dir_cfg : option string :=
  match dc_authn_header dir_cfg with None => OIDC_DEFAULT_AUTHN_HEADER | Some h => Some h end.
Definition oidc_cfg_dir_pass_info_in_get dir_cfg : Z := int_or (dc_pass_info_in dir_cfg) OIDC_DEFAULT_PASS_APPINFO_IN.
Definition oidc_cfg_dir_pass_info_encoding_get dir_cfg : Z := int_or (dc_pass_info_encoding dir_cfg) OIDC_DEFAULT_APPINFO_ENCODING.
Definition oidc_cfg_dir_pass_access_token_get dir_cfg : Z := int_or (dc_pass_access_token dir_cfg) OIDC_DEFAULT_PASS_ACCESS_TOKEN.
Definition oidc_cfg_dir_pass_refresh_token_get dir_cfg : Z := int_or (dc_pass_refresh_token dir_cfg) OIDC_DEFAULT_PASS_REFRESH_TOKEN.
Definition oidc_cfg_dir_oauth_accept_token_in_get dir_cfg : Z :=
  int_or (dc_oauth_accept_token_in dir_cfg) OIDC_OAUTH_ACCEPT_TOKEN_IN_DEFAULT.
Definition oidc_cfg_dir_accept_token_in_option_get dir_cfg (key : string) : option string := dc_oauth_accept_token_options dir_cfg !! key.
Definition oidc_cfg_dir_token_introspection_interval_get dir_cfg : Z :=
  if dc_oauth_token_introspect_interval dir_cfg <=? OIDC_INTROSPECT_INTERVAL_UNSET then OIDC_DEFAULT_TOKEN_INTROSPECTION_INTERVAL
  else dc_oauth_token_introspect_interval dir_cfg.
Definition oidc_cfg_dir_pass_cookies_get dir_cfg : option (list (option string)) := dc_pass_cookies dir_cfg.
Definition oidc_cfg_dir_strip_cookies_get dir_cfg : option (list (option string)) := dc_strip_cookies dir_cfg.
Definition oidc_cfg_dir_unautz_action_get dir_cfg : Z := int_or (dc_unautz_action dir_cfg) OIDC_DEFAULT_UNAUTZ_ACTION.
Definition oidc_cfg_dir_unauthz_arg_get dir_cfg : option string := dc_unauthz_arg dir_cfg.
Definition oidc_cfg_dir_pass_idtoken_as_get dir_cfg : Z := int_or (dc_pass_idtoken_as dir_cfg) OIDC_DEFAULT_PASS_IDTOKEN_AS.

Definition oidc_cfg_dir_unauth_action_get dir_cfg (r : request) : Z :=
  if dc_unauth_action dir_cfg =? OIDC_CONFIG_POS_INT_UNSET then OIDC_DEFAULT_UNAUTH_ACTION
  else match dc_unauth_expression dir_cfg with
       | None => dc_unauth_action dir_cfg
       | Some expr =>
           match oidc_util_apr_expr_exec r (Some expr) OIDC_APR_EXPR_RESULT_BOOLEAN with
           | Some _ => dc_unauth_action dir_cfg
           | None => OIDC_DEFAULT_UNAUTH_ACTION
           end
       end.
Definition oidc_cfg_dir_unauth_expr_is_set dir_cfg : bool := nonnull (dc_unauth_expression dir_cfg).
Definition oidc_cfg_dir_path_auth_request_params_get dir_cfg (r : request) : option string :=
  oidc_util_apr_expr_exec r (dc_path_auth_request_expr dir_cfg) OIDC_APR_EXPR_RESULT_STRING.
Definition oidc_cfg_dir_userinfo_claims_expr_get dir_cfg (r : request) : option string :=
  oidc_util_apr_expr_exec r (dc_userinfo_claims_expr dir_cfg) OIDC_APR_EXPR_RESULT_STRING.
Definition oidc_cfg_dir_path_scope_get dir_cfg (r : request) : option string :=
  oidc_util_apr_expr_exec r (dc_path_scope_expr dir_cfg) OIDC_APR_EXPR_RESULT_STRING.

(** The list that [oidc_cfg_dir_post_config] makes once, of the parsed default; [None] when parsing fails. *)
Definition oidc_cfg_dir_post_config : option (list oidc_pass_user_info_as_t) :=
  match oidc_cfg_dir_parse_pass_userinfo_as (Some OIDC_PASS_USERINFO_AS_CLAIMS_STR) with inl _ => None | inr p => Some [p] end.
Definition oidc_cfg_dir_pass_userinfo_as_get dir_cfg : list oidc_pass_user_info_as_t :=
  match dc_pass_userinfo_as dir_cfg with Some l => l | None => default [] oidc_cfg_dir_post_config end.
End dir.

(** ** Nested directories *)

Lemma merge_hash_assoc (a b c : gmap string string) :
  _oidc_cfg_dir_merge_hash c (_oidc_cfg_dir_merge_hash b a) = _oidc_cfg_dir_merge_hash (_oidc_cfg_dir_merge_hash c b) a.
Proof. unfold _oidc_cfg_dir_merge_hash. destruct (Z.ltb_spec 0 (Z.of_nat (size c))) as [Hc|Hc]; [|done]. by rewrite (proj2 (Z.ltb_lt _ _) Hc). Qed.

Lemma merge_hash_empty (a : gmap string string) : _oidc_cfg_dir_merge_hash ∅ a = a /\ _oidc_cfg_dir_merge_hash a ∅ = a.
Proof.
  unfold _oidc_cfg_dir_merge_hash. rewrite map_size_empty. split; [done|].
  destruct (Z.ltb_spec 0 (Z.of_nat (size a))) as [|Ha]; [done|]. symmetry. apply map_size_empty_inv. lia.
Qed.

Lemma merge_interval_assoc a b c :
  _oidc_cfg_dir_merge_introspect_interval c (_oidc_cfg_dir_merge_introspect_interval b a) =
  _oidc_cfg_dir_merge_introspect_interval (_oidc_cfg_dir_merge_introspect_interval c b) a.
Proof. unfold _oidc_cfg_dir_merge_introspect_interval. destruct (Z.ltb_spec OIDC_INTROSPECT_INTERVAL_UNSET c) as [Hc|Hc]; [|done]. by rewrite (proj2 (Z.ltb_lt _ _) Hc). Qed.

Lemma merge_interval_unset a : OIDC_INTROSPECT_INTERVAL_UNSET <= a ->
  _oidc_cfg_dir_merge_introspect_interval a OIDC_INTROSPECT_INTERVAL_UNSET = a.
Proof. unfold _oidc_cfg_dir_merge_introspect_interval. destruct (Z.ltb_spec OIDC_INTROSPECT_INTERVAL_UNSET a); [done|lia]. Qed.

(** A value is one of the options. *)
Lemma parse_option_value options arg v (P : Z -> Prop) :
  oidc_cfg_parse_option options arg = inr v -> Forall P (map opt_val options) -> P v.
Proof.
  intros Hv%parse_option_In HF. revert HF. rewrite List.Forall_forall. auto.
Qed.

Lemma lor_bound n a b : 0 <= n -> 1 <= a < 2 ^ n -> 1 <= b < 2 ^ n -> 1 <= Z.lor a b < 2 ^ n.
Proof.
  intros Hn Ha Hb. assert (0 <= Z.lor a b) as Hnn by (apply Z.lor_nonneg; lia).
  assert (Z.lor a b <> 0) as Hnz by (rewrite Z.lor_eq_0_iff; lia). split; [lia|].
  apply Z.log2_lt_pow2; [lia|]. rewrite Z.log2_lor by lia. apply Z.max_lub_lt; apply Z.log2_lt_pow2; lia.
Qed.

(** ** Well-formed settings *)

Section wf.
Context {H : Httpd} {X : ApExpr}.
Implicit Types d : oidc_dir_cfg_t.

Definition accepts_cookie d : bool :=
  negb (dc_oauth_accept_token_in d =? OIDC_CONFIG_POS_INT_UNSET) && Z.testbit (dc_oauth_accept_token_in d) 3.

(** Numbers are not set, or an action, a set of flags, a truth value or a time within its bounds; a redirection has a
    URL, and cookies that are accepted have a name. *)
Record dir_wf d : Prop := mk_dir_wf {
  wf_unauth : int_ok OIDC_UNAUTH_AUTHENTICATE OIDC_UNAUTH_RETURN407 (dc_unauth_action d);
  wf_unautz : int_ok OIDC_UNAUTZ_RETURN403 OIDC_UNAUTZ_RETURN302 (dc_unautz_action d);
  wf_unautz_url : dc_unautz_action d = OIDC_UNAUTZ_RETURN302 -> dc_unauthz_arg d <> None;
  wf_pass_in : int_ok OIDC_APPINFO_PASS_NONE OIDC_APPINFO_PASS_BOTH (dc_pass_info_in d);
  wf_encoding : int_ok OIDC_APPINFO_ENCODING_NONE OIDC_APPINFO_ENCODING_LATIN1 (dc_pass_info_encoding d);
  wf_accept : int_ok 1 31 (dc_oauth_accept_token_in d);
  wf_accept_name : accepts_cookie d = true ->
    oidc_cfg_dir_accept_token_in_option_get d OIDC_OAUTH_ACCEPT_TOKEN_IN_OPTION_COOKIE_NAME <> None;
  wf_accept_unset : dc_oauth_accept_token_in d = OIDC_CONFIG_POS_INT_UNSET -> dc_oauth_accept_token_options d = ∅;
  wf_preserve : int_ok 0 1 (dc_preserve_post d);
  wf_access : int_ok 0 1 (dc_pass_access_token d);
  wf_refresh_token : int_ok 0 1 (dc_pass_refresh_token d);
  wf_refresh : int_ok OIDC_REFRESH_ACCESS_TOKEN_BEFORE_EXPIRY_MIN OIDC_REFRESH_ACCESS_TOKEN_BEFORE_EXPIRY_MAX
                 (dc_refresh_access_token_before_expiry d);
  wf_on_error : int_ok OIDC_ON_ERROR_502 OIDC_ON_ERROR_AUTH (dc_action_on_error_refresh d);
  wf_idtoken : int_ok 1 15 (dc_pass_idtoken_as d);
  wf_interval : OIDC_INTROSPECT_INTERVAL_UNSET <= dc_oauth_token_introspect_interval d <=
                OIDC_OAUTH_ACCESS_TOKEN_INTROSPECTION_INTERVAL_MAX;
  wf_userinfo : match dc_pass_userinfo_as d with
                | None => True
                | Some l => l <> [] /\ Forall (fun p => In (pui_type p) [1; 2; 4; 8]) l
                end
}.

(** The handlers, with the settings before and what they return. *)
Inductive dir_handler : oidc_dir_cfg_t -> option string * oidc_dir_cfg_t -> Prop :=
  | H_pass_idtoken_as cmd a d : dir_handler d (oidc_cmd_dir_pass_idtoken_as_set cmd a d)
  | H_pass_userinfo_as cmd a d : dir_handler d (oidc_cmd_dir_pass_userinfo_as_set cmd a d)
  | H_accept_oauth_token_in cmd a d : dir_handler d (oidc_cmd_dir_accept_oauth_token_in_set cmd a d)
  | H_strip_cookies a d : dir_handler d (oidc_cmd_dir_strip_cookies_set a d)
  | H_pass_cookies a d : dir_handler d (oidc_cmd_dir_pass_cookies_set a d)
  | H_preserve_post cmd a d : dir_handler d (oidc_cmd_dir_preserve_post_set cmd a d)
  | H_pass_access_token cmd a d : dir_handler d (oidc_cmd_dir_pass_access_token_set cmd a d)
  | H_pass_refresh_token cmd a d : dir_handler d (oidc_cmd_dir_pass_refresh_token_set cmd a d)
  | H_pass_claims_as cmd a b d : dir_handler d (oidc_cmd_dir_pass_claims_as_set cmd a b d)
  | H_unauth_action cmd a b d : dir_handler d (oidc_cmd_dir_unauth_action_set cmd a b d)
  | H_unautz_action cmd a b d : dir_handler d (oidc_cmd_dir_unautz_action_set cmd a b d)
  | H_userinfo_claims_expr cmd a d : dir_handler d (oidc_cmd_dir_userinfo_claims_expr_set cmd a d)
  | H_path_auth_request_params cmd a d : dir_handler d (oidc_cmd_dir_path_auth_request_params_set cmd a d)
  | H_path_scope cmd a d : dir_handler d (oidc_cmd_dir_path_scope_set cmd a d)
  | H_refresh cmd a b d : dir_handler d (oidc_cmd_dir_refresh_access_token_before_expiry_set cmd a b d)
  | H_state_cookie_prefix a d : dir_handler d (oidc_cmd_dir_state_cookie_prefix_set a d)
  | H_cookie a d : dir_handler d (oidc_cmd_dir_cookie_set a d)
  | H_cookie_path a d : dir_handler d (oidc_cmd_dir_cookie_path_set a d)
  | H_authn_header a d : dir_handler d (oidc_cmd_dir_authn_header_set a d)
  | H_discover_url cmd a d : dir_handler d (oidc_cmd_dir_discover_url_set cmd a d)
  | H_introspection_interval cmd a d : dir_handler d (oidc_cmd_dir_token_introspection_interval_set cmd a d).

(** The settings a configuration that starts can have: httpd refuses one for which a handler returns a message. *)
Inductive dir_settings : oidc_dir_cfg_t -> Prop :=
  | settings_create : dir_settings oidc_cfg_dir_config_create
  | settings_handler d d' : dir_settings d -> dir_handler d (None, d') -> dir_settings d'
  | settings_merge d d' : dir_settings d -> dir_settings d' -> dir_settings (oidc_cfg_dir_config_merge d d').

Lemma dir_wf_create : dir_wf oidc_cfg_dir_config_create.
Proof. split; cbn; try (by left); try done. Qed.

(** A member chosen by merging keeps what holds of both. *)
Lemma merge_int_ok lo hi a b : int_ok lo hi a -> int_ok lo hi b -> int_ok lo hi (_oidc_cfg_merge_pos_int a b).
Proof. unfold _oidc_cfg_merge_pos_int. by destruct (a =? OIDC_CONFIG_POS_INT_UNSET). Qed.

Lemma merge_ptr_Some {A} (a b : option A) : a <> None \/ b <> None -> _oidc_cfg_merge_ptr a b <> None.
Proof. destruct a; [done|]. by intros [?|?]. Qed.

Lemma dir_wf_merge d d' : dir_wf d -> dir_wf d' -> dir_wf (oidc_cfg_dir_config_merge d d').
Proof.
  intros Hb Ha. unfold oidc_cfg_dir_config_merge.
  split; cbn; try (apply merge_int_ok; [apply Ha|apply Hb]).
  - unfold _oidc_cfg_merge_pos_int. destruct (dc_unautz_action d' =? OIDC_CONFIG_POS_INT_UNSET); intros E; apply merge_ptr_Some.
    + right. by apply Hb.
    + left. by apply Ha.
  - unfold accepts_cookie, oidc_cfg_dir_accept_token_in_option_get. cbn. unfold _oidc_cfg_merge_pos_int.
    destruct (Z.eqb_spec (dc_oauth_accept_token_in d') OIDC_CONFIG_POS_INT_UNSET) as [E|E]; intros Hacc.
    + rewrite (wf_accept_unset _ Ha E). rewrite (proj1 (merge_hash_empty _)). by apply (wf_accept_name _ Hb).
    + assert (accepts_cookie d' = true) as Hacc' by done.
      pose proof (wf_accept_name _ Ha Hacc') as Hn. unfold oidc_cfg_dir_accept_token_in_option_get in Hn.
      unfold _oidc_cfg_dir_merge_hash. destruct (Z.ltb_spec 0 (Z.of_nat (size (dc_oauth_accept_token_options d')))) as [|Hs]; [done|].
      rewrite (map_size_empty_inv (dc_oauth_accept_token_options d')) in Hn by lia. by rewrite lookup_empty in Hn.
  - unfold _oidc_cfg_merge_pos_int. destruct (Z.eqb_spec (dc_oauth_accept_token_in d') OIDC_CONFIG_POS_INT_UNSET) as [E|E]; [|done].
    intros E'. rewrite (wf_accept_unset _ Ha E), (wf_accept_unset _ Hb E'). by apply merge_hash_empty.
  - unfold _oidc_cfg_dir_merge_introspect_interval. destruct (OIDC_INTROSPECT_INTERVAL_UNSET <? _); [apply Ha|apply Hb].
  - pose proof (wf_userinfo _ Ha) as HA. pose proof (wf_userinfo _ Hb) as HB. by destruct (dc_pass_userinfo_as d').
Qed.

Lemma dir_flag_ok n old v : 0 <= n -> int_ok 1 (2 ^ n - 1) old -> 1 <= v <= 2 ^ n - 1 -> int_ok 1 (2 ^ n - 1) (dir_flag old v).
Proof.
  intros Hn Hold Hv. right. unfold dir_flag. destruct (Z.eqb_spec old OIDC_CONFIG_POS_INT_UNSET) as [|Hne]; [done|].
  destruct Hold as [|Hold]; [done|]. pose proof (lor_bound n old v Hn). lia.
Qed.

Lemma b2z_ok b : int_ok 0 1 (Z.b2z b).
Proof. right. destruct b; cbn; lia. Qed.
#[local] Hint Resolve b2z_ok : core.

Lemma dir_parsed_wf {A} cmd (rv : string + A) d (set : A -> oidc_dir_cfg_t) :
  (forall v, rv = inr v -> dir_wf (set v)) -> (dir_parsed cmd rv d set).1 = None -> dir_wf (dir_parsed cmd rv d set).2.
Proof. intros Hset. unfold dir_parsed. destruct rv; [done|]. intros _. by apply Hset. Qed.

(** A member has changed; the conditions on the others stay. *)
Ltac dir_update := match goal with Hwf : dir_wf ?d |- _ => destruct d; destruct Hwf; split; unfold constant in *; cbn in *; auto end.
(** All options satisfy the condition. *)
Ltac dir_option Hv :=
  match type of Hv with _ = inr ?v => pattern v end; eapply (parse_option_value _ _ _ _ Hv); cbn [map opt_val];
  repeat (apply Forall_cons; split); first [apply List.Forall_nil | vm_compute; first [tauto | right; split; discriminate | split; discriminate]].

Lemma parse_int_bounds arg lo hi v : oidc_cfg_parse_int_min_max arg lo hi = inr v -> lo <= v <= hi.
Proof.
  unfold oidc_cfg_parse_int_min_max, parse_bind. destruct (oidc_cfg_parse_int arg) as [|n]; [done|].
  destruct (oidc_cfg_parse_is_valid_int n lo hi) eqn:E; [done|]. intros [= <-]. by apply is_valid_int_None.
Qed.

Lemma accept_token_wf cmd a d : dir_wf d -> (oidc_cmd_dir_accept_oauth_token_in_set cmd a d).1 = None ->
  dir_wf (oidc_cmd_dir_accept_oauth_token_in_set cmd a d).2.
Proof.
  intros Hwf. unfold oidc_cmd_dir_accept_oauth_token_in_set. destruct (oidc_cfg_parse_option _ _) as [e|v] eqn:Hv; [done|]. intros _.
  assert (v = 1 \/ v = 2 \/ v = 4 \/ v = 8 \/ v = 16) as Hcases
    by (pose proof (parse_option_In _ _ _ Hv) as Hin; vm_compute in Hin; lia).
  assert (int_ok 1 31 (dir_flag (dc_oauth_accept_token_in d) v)) as Hok
    by (apply (dir_flag_ok 5); [lia|apply Hwf|lia]).
  assert (dir_flag (dc_oauth_accept_token_in d) v <> OIDC_CONFIG_POS_INT_UNSET) as Hset.
  { pose proof (wf_accept _ Hwf) as Ha. unfold dir_flag in *. unfold int_ok, OIDC_CONFIG_POS_INT_UNSET in *.
    destruct (Z.eqb_spec (dc_oauth_accept_token_in d) (-1)); [lia|]. assert (0 <= Z.lor (dc_oauth_accept_token_in d) v) by (apply Z.lor_nonneg; lia). lia. }
  destruct (Z.eqb_spec v OIDC_OAUTH_ACCEPT_TOKEN_IN_COOKIE) as [->|Hne]; destruct Hwf; destruct d; split; cbn in *; auto.
  - intros _. unfold oidc_cfg_dir_accept_token_in_option_get. cbn. by rewrite lookup_insert_eq.
  - done.
  - unfold accepts_cookie, oidc_cfg_dir_accept_token_in_option_get in *. cbn in *. unfold dir_flag in *.
    destruct (Z.eqb_spec dc_oauth_accept_token_in0 OIDC_CONFIG_POS_INT_UNSET) as [->|Hu].
    + rewrite andb_true_iff. intros [_ Hb]. unfold OIDC_OAUTH_ACCEPT_TOKEN_IN_COOKIE in Hne.
      destruct Hcases as [->|[->|[->|[->| ->]]]]; done.
    + rewrite andb_true_iff. intros [_ Hb]. apply wf_accept_name0. apply andb_true_iff. split; [done|].
      change (Z.testbit (Z.lor dc_oauth_accept_token_in0 v) 3 = true) in Hb. rewrite Z.lor_spec, orb_true_iff in Hb.
      destruct Hb as [Hb|Hb]; [done|]. unfold OIDC_OAUTH_ACCEPT_TOKEN_IN_COOKIE in Hne.
      destruct Hcases as [->|[->|[->|[->| ->]]]]; done.
  - done.
Qed.

Lemma unautz_action_wf cmd a b d : dir_wf d -> (oidc_cmd_dir_unautz_action_set cmd a b d).1 = None ->
  dir_wf (oidc_cmd_dir_unautz_action_set cmd a b d).2.
Proof.
  intros Hwf. unfold oidc_cmd_dir_unautz_action_set. destruct (oidc_cfg_parse_option _ _) as [e|v] eqn:Hv.
  - destruct (_ =? _); done.
  - assert (int_ok OIDC_UNAUTZ_RETURN403 OIDC_UNAUTZ_RETURN302 v) as Hok by dir_option Hv.
    destruct b as [b|]; [|destruct (Z.eqb_spec (dc_unautz_action (d <| dc_unautz_action := v |>)) OIDC_UNAUTZ_RETURN302) as [|Hne]; [done|]];
      intros _; dir_update; done.
Qed.

Lemma dir_handler_wf d res : dir_handler d res -> dir_wf d -> res.1 = None -> dir_wf res.2.
Proof.
  intros Hh Hwf. destruct Hh; try (by apply accept_token_wf); try (by apply unautz_action_wf);
    try (apply dir_parsed_wf; intros v Hv); try (intros _; dir_update; fail); try (dir_update; fail).
  - unfold oidc_cmd_dir_pass_idtoken_as_set. destruct a; [|done]. apply dir_parsed_wf. intros v Hv.
    assert (1 <= v <= 15) as Hr by dir_option Hv. pose proof (dir_flag_ok 4 (dc_pass_idtoken_as d) v ltac:(lia) (wf_idtoken _ Hwf) Hr).
    dir_update.
  - assert (In (pui_type v) [1; 2; 4; 8]) as Ht.
    { revert Hv. unfold oidc_cfg_dir_parse_pass_userinfo_as. destruct (oidc_cfg_parse_option _ _) as [|ty] eqn:Hv; [done|].
      intros [= <-]. cbn [pui_type]. exact (parse_option_In _ _ _ Hv). }
    pose proof (wf_userinfo _ Hwf) as Hu. dir_update. split; [intros [_ [=]]%List.app_eq_nil|].
    apply List.Forall_app. split; [|apply List.Forall_cons; [done|apply List.Forall_nil]]. destruct dc_pass_userinfo_as0; [apply Hu|apply List.Forall_nil].
  - unfold oidc_cmd_dir_pass_claims_as_set. destruct (oidc_cfg_parse_option _ _) as [|v] eqn:Hv; [done|].
    assert (int_ok OIDC_APPINFO_PASS_NONE OIDC_APPINFO_PASS_BOTH v) as Hok by dir_option Hv.
    destruct b; [|intros _; dir_update]. apply dir_parsed_wf. intros w Hw.
    assert (int_ok OIDC_APPINFO_ENCODING_NONE OIDC_APPINFO_ENCODING_LATIN1 w) as Hok' by dir_option Hw. dir_update.
  - unfold oidc_cmd_dir_unauth_action_set. destruct (oidc_cfg_parse_option _ _) as [|v] eqn:Hv; [done|].
    destruct (oidc_util_apr_expr_parse _ _ _) as [rv e]. intros _.
    assert (int_ok OIDC_UNAUTH_AUTHENTICATE OIDC_UNAUTH_RETURN407 v) as Hok by dir_option Hv. dir_update.
  - unfold oidc_cmd_dir_userinfo_claims_expr_set, dir_expr. destruct (oidc_util_apr_expr_parse _ _ _). intros _. dir_update.
  - unfold oidc_cmd_dir_path_auth_request_params_set, dir_expr. destruct (oidc_util_apr_expr_parse _ _ _). intros _. dir_update.
  - unfold oidc_cmd_dir_path_scope_set, dir_expr. destruct (oidc_util_apr_expr_parse _ _ _). intros _. dir_update.
  - unfold oidc_cmd_dir_refresh_access_token_before_expiry_set. destruct (oidc_cfg_parse_int_min_max _ _ _) as [|v] eqn:Hv; [done|].
    pose proof (parse_int_bounds _ _ _ _ Hv) as Hr.
    assert (int_ok OIDC_REFRESH_ACCESS_TOKEN_BEFORE_EXPIRY_MIN OIDC_REFRESH_ACCESS_TOKEN_BEFORE_EXPIRY_MAX v) as Hok by (by right).
    destruct b; [|intros _; dir_update]. apply dir_parsed_wf. intros w Hw.
    assert (int_ok OIDC_ON_ERROR_502 OIDC_ON_ERROR_AUTH w) as Hok' by dir_option Hw. dir_update.
  - pose proof (parse_int_bounds _ _ _ _ Hv) as Hr.
    assert (OIDC_INTROSPECT_INTERVAL_UNSET <= v <= OIDC_OAUTH_ACCESS_TOKEN_INTROSPECTION_INTERVAL_MAX) as Hi
      by (unfold OIDC_OAUTH_ACCESS_TOKEN_INTROSPECTION_INTERVAL_MIN in Hr; unfold OIDC_INTROSPECT_INTERVAL_UNSET; lia).
    dir_update.
Qed.

(** C39: the settings of every directory are well-formed, however directives and nested sections are combined: an action
    is one of the actions, a redirection has a URL to go to, a cookie that may carry a token has a name. *)
Theorem dir_settings_wf d : dir_settings d -> dir_wf d.
Proof.
  induction 1 as [|d d' _ IH Hh|d d' _ IH _ IH'].
  - apply dir_wf_create.
  - exact (dir_handler_wf d (None, d') Hh IH eq_refl).
  - by apply dir_wf_merge.
Qed.

(** ** Nested sections *)

(** The settings of nested sections may be merged in any grouping, and a section without directives changes nothing. *)
Theorem dir_merge_monoid a b c : dir_settings a ->
  oidc_cfg_dir_config_merge (oidc_cfg_dir_config_merge a b) c = oidc_cfg_dir_config_merge a (oidc_cfg_dir_config_merge b c) /\
  oidc_cfg_dir_config_merge a oidc_cfg_dir_config_create = a /\
  oidc_cfg_dir_config_merge oidc_cfg_dir_config_create a = a.
Proof.
  intros Ha%dir_settings_wf. pose proof (wf_interval _ Ha) as [Hi _]. split; [|split].
  - unfold oidc_cfg_dir_config_merge. cbn.
    f_equal; first [symmetry; apply merge_ptr_assoc|symmetry; apply merge_int_assoc|apply merge_hash_assoc|apply merge_interval_assoc].
  - destruct a. unfold oidc_cfg_dir_config_merge, oidc_cfg_dir_config_create. cbn. by rewrite (proj1 (merge_hash_empty _)).
  - destruct a. unfold oidc_cfg_dir_config_merge, oidc_cfg_dir_config_create. cbn in *.
    by rewrite !merge_ptr_none, !merge_int_unset, (proj2 (merge_hash_empty _)), merge_interval_unset.
Qed.

(** What is done with a request without a session in a nested section.  The action and its expression are settings of
    their own: a section that sets an action without an expression only takes it where the expression of the enclosing
    section holds. *)
Theorem unauth_action_nested outer inner r :
  let d := oidc_cfg_dir_config_merge outer inner in
  let action := if dc_unauth_action inner =? OIDC_CONFIG_POS_INT_UNSET then int_or (dc_unauth_action outer) OIDC_DEFAULT_UNAUTH_ACTION
                else dc_unauth_action inner in
  let holds e := nonnull (oidc_util_apr_expr_exec r e OIDC_APR_EXPR_RESULT_BOOLEAN) in
  oidc_cfg_dir_unauth_action_get d r =
    match dc_unauth_expression inner, dc_unauth_expression outer with
    | None, None => action
    | Some e, _ | None, Some e => if holds (Some e) then action else OIDC_DEFAULT_UNAUTH_ACTION
    end.
Proof.
  cbv zeta. unfold oidc_cfg_dir_unauth_action_get, int_or. cbn. unfold _oidc_cfg_merge_pos_int.
  destruct (Z.eqb_spec (dc_unauth_action inner) OIDC_CONFIG_POS_INT_UNSET) as [Ei|Ei%Z.eqb_neq]; rewrite ?Ei;
    [destruct (dc_unauth_action outer =? OIDC_CONFIG_POS_INT_UNSET)|];
    destruct (dc_unauth_expression inner) as [e|], (dc_unauth_expression outer) as [e'|]; cbn;
    try done; by match goal with |- context [nonnull ?x] => destruct x end.
Qed.
End wf.

(** ** A concrete model of expressions: whether a header is present, and its value *)

Module ApExprModel.
#[export] Instance ap_expr : ApExpr := {|
  ap_expr_info_t := string;
  ap_expr_parse_cmd s _ := if String.eqb s "" then inl "syntax error" else inr s;
  ap_expr_str_exec r e := (apr_table_get (headers_in r) e, None);
  ap_expr_exec r e := (nonnull (apr_table_get (headers_in r) e), None)
|}.
End ApExprModel.

Section demo.
#[local] Existing Instances HttpdModel.httpd ApExprModel.ap_expr.

Abbreviation demo_outer_dir := (oidc_cmd_dir_unauth_action_set "OIDCUnAuthAction" (Some "pass") (Some "X-Anonymous") oidc_cfg_dir_config_create).2.
Abbreviation demo_inner_dir :=
  (oidc_cmd_dir_accept_oauth_token_in_set "OIDCOAuthAcceptTokenAs" (Some "cookie:token")
     (oidc_cmd_dir_unautz_action_set "OIDCUnAutzAction" (Some "302") (Some "/no")
        (oidc_cmd_dir_unauth_action_set "OIDCUnAuthAction" (Some "401") None oidc_cfg_dir_config_create).2).2).2.
Abbreviation demo_dir := (oidc_cfg_dir_config_merge demo_outer_dir demo_inner_dir).

Lemma demo_outer_settings : dir_settings demo_outer_dir.
Proof. eapply settings_handler; [apply settings_create|]. exact (H_unauth_action "OIDCUnAuthAction" (Some "pass") (Some "X-Anonymous") _). Qed.

Lemma demo_dir_settings : dir_settings demo_dir.
Proof.
  apply settings_merge; [apply demo_outer_settings|].
  eapply settings_handler; [eapply settings_handler; [eapply settings_handler; [apply settings_create|]|]|].
  - exact (H_unauth_action "OIDCUnAuthAction" (Some "401") None _).
  - exact (H_unautz_action "OIDCUnAutzAction" (Some "302") (Some "/no") _).
  - exact (H_accept_oauth_token_in "OIDCOAuthAcceptTokenAs" (Some "cookie:token") _).
Qed.

Lemma dir_settings_wf_witness : dir_wf demo_dir /\
  oidc_cfg_dir_accept_token_in_option_get demo_dir OIDC_OAUTH_ACCEPT_TOKEN_IN_OPTION_COOKIE_NAME = Some "token" /\
  oidc_cfg_dir_unauthz_arg_get demo_dir = Some "/no".
Proof. split; [apply dir_settings_wf, demo_dir_settings|]. split; reflexivity. Defined.

Lemma dir_merge_monoid_witness : oidc_cfg_dir_config_merge oidc_cfg_dir_config_create demo_dir = demo_dir.
Proof. exact (proj2 (proj2 (dir_merge_monoid demo_dir demo_dir demo_dir demo_dir_settings))). Defined.

(** Below "OIDCUnAuthAction pass X-Anonymous", the directive "OIDCUnAuthAction 401" of a nested section does not answer
    requests without that header with 401: users are sent to the provider. *)
Example unauth_action_expression_inherited :
  oidc_cfg_dir_unauth_action_get demo_inner_dir demo_request = OIDC_UNAUTH_RETURN401 /\
  oidc_cfg_dir_unauth_action_get demo_dir demo_request = OIDC_UNAUTH_AUTHENTICATE.
Proof. vm_compute. done. Qed.
End demo.
