(* ===== verification/Token.v ===== *)
(** * src/proto/token.c: requests to the token endpoint *)

From S2P Require Import Prelude Cstr Apr StrUtil Jansson Json Http Form Cookie Base64 Jose Jwt Util ShmCache Cache World.
From S2P Require Import HttpClient Cjose Jwk Jwe JoseLib Jws Pkce Provider Profile JwtCheck Jwks IdToken ClientAuth.
#[local] Open Scope Z_scope.

Definition OIDC_PROTO_BEARER : string := "Bearer".
Definition OIDC_PROTO_DPOP : string := "DPoP".
Definition OIDC_PROTO_ID_TOKEN : string := "id_token".
Definition OIDC_PROTO_ACCESS_TOKEN : string := "access_token".
Definition OIDC_PROTO_TOKEN_TYPE : string := "token_type".
Definition OIDC_PROTO_EXPIRES_IN : string := "expires_in".
Definition OIDC_PROTO_REFRESH_TOKEN : string := "refresh_token".
Definition OIDC_PROTO_SCOPE : string := "scope".
Definition OIDC_PROTO_GRANT_TYPE : string := "grant_type".
Definition OIDC_PROTO_GRANT_TYPE_REFRESH_TOKEN : string := "refresh_token".

(** The tokens that the caller gets. *)
Record tokens := mk_tokens {
  tk_id_token : option string;
  tk_access_token : option string;
  tk_token_type : option string;
  tk_expires_in : Z;
  tk_refresh_token : option string;
  tk_scope : option string
}.

(** An integer that was clamped to the range of an [int]. *)
Definition clamp_int (v : Z) : Z := if INT_MAX <? v then INT_MAX else if v <? INT_MIN then INT_MIN else v.

#[local] Open Scope world_scope.

Section token.
Context {J : Jansson} {O : Jose} {B64 : Base64} {C : Cjose J} {CE : CjoseExport C} {D : Digest} {Zl : Zlib} {H : Httpd}.
Context {St : Type}.
Variables (ext : nat -> env) (net : nat -> network) (rnd : nat -> rng) (c : proto_cfg C).

(** A form that is posted with libcurl. *)
Definition http_post_form (a : http_args) (url : option string) (params : table) (hdrs : hdrs_t)
  : M St (option http_result) :=
  fun w => Some (oidc_http_post_form (net (w_calls w)) (pc_client c) (w_req w) a url (Some params) hdrs,
                 mk_world (w_req w) (w_cache w) (S (w_calls w))).

Definition oidc_proto_validate_token_type (provider : oidc_provider_t) (token_type : option string) : bool :=
  negb (nonnull token_type && negb (_oidc_strnatcasecmp token_type (Some OIDC_PROTO_BEARER) =? 0) &&
        negb (_oidc_strnatcasecmp token_type (Some OIDC_PROTO_DPOP) =? 0) &&
        nonnull (oidc_cfg_provider_userinfo_endpoint_url_get provider) &&
        negb (_oidc_strcmp (oidc_cfg_provider_userinfo_endpoint_url_get provider) (Some "") =? 0)).

(** The arguments of a call to an endpoint of a provider. *)
Definition provider_args (provider : oidc_provider_t) (basic_auth bearer_auth dpop : option string) : http_args :=
  mk_http_args basic_auth bearer_auth dpop (negb (oidc_cfg_provider_ssl_validate_server_get provider =? 0))
    (pc_http_timeout_long c) (pc_outgoing_proxy c) (pc_pass_cookies c)
    (oidc_cfg_provider_token_endpoint_tls_client_cert_get provider) (pv_token_endpoint_tls_client_key provider)
    (pv_token_endpoint_tls_client_key_pwd provider).

(** The response and the headers; [NULL] headers are empty. *)
Definition oidc_proto_token_endpoint_call (provider : oidc_provider_t) (params : table)
  (basic_auth bearer_auth dpop : option string) (response_hdrs : option hdrs_t) : M St (option (option string * hdrs_t)) :=
  result <- http_post_form (provider_args provider basic_auth bearer_auth dpop)
              (oidc_cfg_provider_token_endpoint_url_get provider) params (default ∅ response_hdrs) ;;
  ret (match result with Some x => Some (hr_response x, hr_hdrs x) | None => None end).

(** The headers of a response that are asked for with DPoP. *)
Definition dpop_response_hdrs : hdrs_t :=
  <[OIDC_HTTP_HDR_CONTENT_TYPE := ""]> (<[OIDC_HTTP_HDR_DPOP_NONCE := ""]> {[ OIDC_HTTP_HDR_AUTHORIZATION := "" ]}).

(** The boolean, [*response_hdrs] and [*dpop]. *)
Definition oidc_proto_token_endpoint_dpop_prepare (provider : oidc_provider_t)
  : M St (bool * option hdrs_t * option string) :=
  if oidc_proto_profile_dpop_mode_get provider =? OIDC_DPOP_MODE_OFF then ret (true, None, None)
  else
    dpop <- oidc_proto_dpop_create ext rnd c (oidc_cfg_provider_token_endpoint_url_get provider) "POST" None None ;;
    ret (nonnull dpop || negb (oidc_proto_profile_dpop_mode_get provider =? OIDC_DPOP_MODE_REQUIRED),
         Some dpop_response_hdrs, dpop).

Definition oidc_proto_token_endpoint_request_auth (provider : oidc_provider_t) (a : client_auth)
  : M St (bool * client_auth) :=
  oidc_proto_token_endpoint_auth ext rnd c (oidc_cfg_provider_token_endpoint_auth_get provider)
    (oidc_cfg_provider_token_endpoint_auth_alg_get provider) (oidc_cfg_provider_client_id_get provider)
    (oidc_cfg_provider_client_secret_get provider) (oidc_cfg_provider_client_keys_get provider)
    (oidc_proto_profile_token_endpoint_auth_aud provider) None a.

(** [*j_result] after a successful retry. *)
Definition oidc_proto_token_endpoint_dpop_retry (provider : oidc_provider_t) (a : client_auth) (response_hdrs : option hdrs_t)
  (j_result : option json_t) : M St (option json_t) :=
  match response_hdrs with
  | None => ret None
  | Some hdrs =>
      dpop <- oidc_proto_dpop_use_nonce ext rnd c j_result hdrs (oidc_cfg_provider_token_endpoint_url_get provider) "POST" None ;;
      match (dpop : option string) with
      | None => ret None
      | Some dpop =>
          '(ok, a) <- oidc_proto_token_endpoint_request_auth provider a ;;
          if negb ok then ret None
          else
            result <- oidc_proto_token_endpoint_call provider (ca_params a) (ca_basic a) (ca_bearer a) (Some dpop) (Some hdrs) ;;
            ret (match result with
                 | Some (response, _) => oidc_json_decode_and_check_error response
                 | None => None
                 end)
      end
  end.

Definition oidc_proto_token_endpoint_response_parse (provider : oidc_provider_t) (j_result : option json_t) : option tokens :=
  let get name := oidc_json_object_get_string j_result name None in
  let id_token := get OIDC_PROTO_ID_TOKEN in
  let access_token := get OIDC_PROTO_ACCESS_TOKEN in
  let token_type := get OIDC_PROTO_TOKEN_TYPE in
  if (oidc_proto_profile_dpop_mode_get provider =? OIDC_DPOP_MODE_REQUIRED) &&
     (negb (nonnull token_type) || negb (_oidc_strnatcasecmp token_type (Some OIDC_PROTO_DPOP) =? 0)) then None
  else
    let '(access_token, token_type) :=
      if nonnull token_type && negb (oidc_proto_validate_token_type provider token_type) then (None, None)
      else (access_token, token_type) in
    let j_expires_in := oidc_json_object_get j_result OIDC_PROTO_EXPIRES_IN in
    let expires_in :=
      if oidc_json_is_string j_expires_in then _oidc_str_to_int (oidc_json_string_value j_expires_in) (-1)
      else if oidc_json_is_integer j_expires_in then clamp_int (oidc_json_integer_value j_expires_in)
      else -1 in
    Some (mk_tokens id_token access_token token_type expires_in (get OIDC_PROTO_REFRESH_TOKEN) (get OIDC_PROTO_SCOPE)).

(** [None] is [FALSE]; the [option] of the monad is the fuel of splitting the configured parameters. *)
Definition oidc_proto_token_endpoint_request (provider : oidc_provider_t) (params : table) : M St (option tokens) :=
  '(ok, a) <- oidc_proto_token_endpoint_request_auth provider (mk_auth params None None) ;;
  if negb ok then ret None
  else
    match oidc_util_table_add_query_encoded_params (ca_params a) (oidc_cfg_provider_token_endpoint_params_get provider) with
    | None => fun _ => None
    | Some params =>
        let a := mk_auth params (ca_basic a) (ca_bearer a) in
        '(ok, response_hdrs, dpop) <- oidc_proto_token_endpoint_dpop_prepare provider ;;
        if negb ok then ret None
        else
          result <- oidc_proto_token_endpoint_call provider (ca_params a) (ca_basic a) (ca_bearer a) dpop response_hdrs ;;
          match (result : option (option string * hdrs_t)) with
          | None => ret None
          | Some (response, hdrs) =>
              match oidc_json_decode_object_err response with
              | None => ret None
              | Some j_result =>
                  j_result <- (if oidc_json_check_error (Some j_result)
                               then oidc_proto_token_endpoint_dpop_retry provider a
                                      (match response_hdrs with Some _ => Some hdrs | None => None end) (Some j_result)
                               else ret (Some j_result)) ;;
                  ret (match (j_result : option json_t) with
                       | Some j => oidc_proto_token_endpoint_response_parse provider (Some j)
                       | None => None
                       end)
              end
          end
    end.

Definition oidc_proto_token_refresh_request (provider : oidc_provider_t) (rtoken : string) : M St (option tokens) :=
  oidc_proto_token_endpoint_request provider
    (apr_table_set (apr_table_set (apr_table_set [] OIDC_PROTO_GRANT_TYPE OIDC_PROTO_GRANT_TYPE_REFRESH_TOKEN)
       OIDC_PROTO_REFRESH_TOKEN rtoken) OIDC_PROTO_SCOPE (oidc_cfg_provider_scope_get provider)).
End token.

(** ** Lemmas *)

Section token_lemmas.
Context {J : Jansson} {O : Jose} {B64 : Base64} {C : Cjose J} {CE : CjoseExport C} {D : Digest} {Zl : Zlib}.
Context {H : Httpd} {St : Type}.
Variables (ext : nat -> env) (net : nat -> network) (rnd : nat -> rng) (c : proto_cfg C).
Implicit Types (w : world St) (p : oidc_provider_t).

Lemma same_req_jti : same_req (St:=St) (oidc_proto_jti_gen rnd).
Proof. by intros w a w' [= <- <-]. Qed.
Hint Resolve same_req_jti : same_req.

Lemma same_req_auth m alg id secret keys aud bearer a :
  same_req (St:=St) (oidc_proto_token_endpoint_auth ext rnd c m alg id secret keys aud bearer a).
Proof.
  unfold oidc_proto_token_endpoint_auth, oidc_proto_endpoint_auth_client_secret_jwt,
    oidc_proto_endpoint_auth_private_key_jwt, oidc_proto_jwt_create. cbv zeta. same_req_auto.
Qed.
Hint Resolve same_req_auth : same_req.

Lemma same_req_dpop_create url method token nonce :
  same_req (St:=St) (oidc_proto_dpop_create ext rnd c url method token nonce).
Proof. unfold oidc_proto_dpop_create. same_req_auto. Qed.
Hint Resolve same_req_dpop_create : same_req.

Lemma same_req_use_nonce j h url method token : same_req (St:=St) (oidc_proto_dpop_use_nonce ext rnd c j h url method token).
Proof. unfold oidc_proto_dpop_use_nonce. same_req_auto. Qed.
Hint Resolve same_req_use_nonce : same_req.

Lemma same_req_post a url ps h : same_req (St:=St) (http_post_form net c a url ps h).
Proof. by intros w x w' [= <- <-]. Qed.
Hint Resolve same_req_post : same_req.

Lemma same_req_call p ps b1 b2 d h : same_req (St:=St) (oidc_proto_token_endpoint_call net c p ps b1 b2 d h).
Proof. unfold oidc_proto_token_endpoint_call. same_req_auto. Qed.
Hint Resolve same_req_call : same_req.

Lemma same_req_request_auth p a : same_req (St:=St) (oidc_proto_token_endpoint_request_auth ext rnd c p a).
Proof. apply same_req_auth. Qed.
Hint Resolve same_req_request_auth : same_req.

Lemma same_req_retry p a h j : same_req (St:=St) (oidc_proto_token_endpoint_dpop_retry ext net rnd c p a h j).
Proof. unfold oidc_proto_token_endpoint_dpop_retry. same_req_auto. Qed.
Hint Resolve same_req_retry : same_req.

Lemma same_req_prepare p : same_req (St:=St) (oidc_proto_token_endpoint_dpop_prepare ext rnd c p).
Proof. unfold oidc_proto_token_endpoint_dpop_prepare. same_req_auto. Qed.
Hint Resolve same_req_prepare : same_req.

Lemma same_req_token_request p ps : same_req (St:=St) (oidc_proto_token_endpoint_request ext net rnd c p ps).
Proof. unfold oidc_proto_token_endpoint_request. same_req_auto. Qed.

Lemma total_post a url ps h : total (St:=St) (http_post_form net c a url ps h).
Proof. intros w. by eexists _, _. Qed.
Hint Resolve total_post total_token_endpoint_auth total_dpop_create total_dpop_use_nonce : total.

Lemma total_call p ps b1 b2 d h : total (St:=St) (oidc_proto_token_endpoint_call net c p ps b1 b2 d h).
Proof. unfold oidc_proto_token_endpoint_call. total_auto. Qed.
Hint Resolve total_call : total.

Lemma total_request_auth p a : total (St:=St) (oidc_proto_token_endpoint_request_auth ext rnd c p a).
Proof. apply total_token_endpoint_auth. Qed.
Hint Resolve total_request_auth : total.

Lemma total_retry p a h j : total (St:=St) (oidc_proto_token_endpoint_dpop_retry ext net rnd c p a h j).
Proof. unfold oidc_proto_token_endpoint_dpop_retry. total_auto. Qed.
Hint Resolve total_retry : total.

Lemma total_prepare p : total (St:=St) (oidc_proto_token_endpoint_dpop_prepare ext rnd c p).
Proof. unfold oidc_proto_token_endpoint_dpop_prepare. total_auto. Qed.
Hint Resolve total_prepare : total.

Lemma query_params_total {HS : HttpdSpec H} t ps : is_Some (oidc_util_table_add_query_encoded_params t ps).
Proof.
  destruct ps as [s|]; [|by eexists]. unfold oidc_util_table_add_query_encoded_params.
  edestruct (words_total (fun l => ap_getword l "&"%char) (S (String.length s)) s) as [ws Ew]; [|lia|].
  - intros l Hl. by apply getword_shorter.
  - rewrite Ew. by eexists.
Qed.

Lemma total_token_request {HS : HttpdSpec H} p ps : total (St:=St) (oidc_proto_token_endpoint_request ext net rnd c p ps).
Proof.
  unfold oidc_proto_token_endpoint_request. apply total_bind; [total_auto|intros [ok a]].
  destruct (negb ok); [total_auto|].
  destruct (query_params_total (ca_params a) (oidc_cfg_provider_token_endpoint_params_get p)) as [t ->]. total_auto.
Qed.

(** A response of the token endpoint, to a request with the given proof. *)
Definition token_response p (r : request) (dpop : option string) (j : json_t) : Prop :=
  exists k a h result,
    oidc_http_post_form (net k) (pc_client c) r (provider_args c p (ca_basic a) (ca_bearer a) dpop)
      (oidc_cfg_provider_token_endpoint_url_get p) (Some (ca_params a)) h = Some result /\
    oidc_json_decode_object_err (hr_response result) = Some j.

Lemma call_response p a d h w response hs w' :
  oidc_proto_token_endpoint_call net c p (ca_params a) (ca_basic a) (ca_bearer a) d h w = Some (Some (response, hs), w') ->
  (forall j, oidc_json_decode_object_err response = Some j -> token_response p (w_req w) d j) /\
  exists result, oidc_http_post_form (net (w_calls w)) (pc_client c) (w_req w) (provider_args c p (ca_basic a) (ca_bearer a) d)
      (oidc_cfg_provider_token_endpoint_url_get p) (Some (ca_params a)) (default ∅ h) = Some result /\ hr_hdrs result = hs.
Proof.
  unfold oidc_proto_token_endpoint_call, http_post_form. intros (x & w1 & [= <- <-] & E)%bind_inv. unfold ret in E.
  destruct (oidc_http_post_form _ _ _ _ _ _ _) as [result|] eqn:Er; [|done]. simplify_eq.
  split; [|by exists result]. intros j Hj. by exists (w_calls w), a, (default ∅ h), result.
Qed.

Lemma decode_and_check s j : oidc_json_decode_and_check_error s = Some j ->
  oidc_json_decode_object_err s = Some j /\ oidc_json_check_error (Some j) = false.
Proof.
  unfold oidc_json_decode_and_check_error, oidc_json_decode_object. destruct (oidc_json_decode_object_err s) as [j'|]; [|done].
  destruct (oidc_json_check_error (Some j')) eqn:E; [done|]. by intros [= <-].
Qed.

Lemma retry_response p a h j w j' w' : oidc_proto_token_endpoint_dpop_retry ext net rnd c p a h j w = Some (Some j', w') ->
  is_Some h /\ exists dpop, token_response p (w_req w) (Some dpop) j' /\ oidc_json_check_error (Some j') = false.
Proof.
  unfold oidc_proto_token_endpoint_dpop_retry. destruct h as [h|]; [|done].
  intros (dp & w1 & E1 & E)%bind_inv. pose proof (same_req_use_nonce _ _ _ _ _ _ _ _ E1) as R1.
  destruct dp as [dp|]; [|done]. apply bind_inv in E as ([ok a'] & w2 & E2 & E).
  pose proof (same_req_request_auth _ _ _ _ _ E2) as R2. destruct ok; [|done]. cbn [negb] in E.
  apply bind_inv in E as (x & w3 & E3 & E). unfold ret in E. injection E as E _.
  destruct x as [[response hs]|]; [|done]. apply decode_and_check in E as [Ed Ee].
  split; [by eexists|]. exists dp. split; [|done].
  replace (w_req w) with (w_req w2) by congruence. by eapply call_response.
Qed.

(** The headers that are asked for stay, whatever is received. *)
Lemma response_header_keeps buf (h : hdrs_t) k : is_Some (h !! k) -> is_Some (oidc_http_response_header buf h !! k).
Proof.
  intros Hk. unfold oidc_http_response_header. destruct (decide _); [done|]. destruct (strchr _ _); [|done].
  destruct (List.find _ _) as [i|]; [|done]. destruct (decide (i = k)) as [->|].
  - rewrite lookup_insert_eq. by eexists.
  - by rewrite lookup_insert_ne.
Qed.

Lemma deliver_keeps es s k : is_Some (h_buf s !! k) -> is_Some (h_buf (deliver es s).2 !! k).
Proof.
  revert s. induction es as [|e es IH]; intros s Hs; cbn [deliver]; [done|].
  destruct e; repeat case_match; try done; apply IH; try done. by apply response_header_keeps.
Qed.

Lemma retry_loop_keeps perform n i s ok code s' k : retry_loop perform n i s = (ok, code, s') ->
  is_Some (h_buf s !! k) -> is_Some (h_buf s' !! k).
Proof.
  revert i s. induction n as [|n IH]; intros i s; cbn [retry_loop]; [by intros [= _ _ <-]|].
  intros E Hs. destruct (curl_easy_perform (perform i) s) as [res s1] eqn:Ep.
  assert (H1 : is_Some (h_buf s1 !! k)).
  { unfold curl_easy_perform in Ep. pose proof (deliver_keeps (t_events (perform i)) s k Hs) as Hd.
    destruct (deliver _ s) as [b s2]. cbn in Hd. by injection Ep as _ <-. }
  repeat case_match; simplify_eq; try done. by eapply IH.
Qed.

Lemma post_form_keeps nw cl r a url ps h result k : oidc_http_post_form nw cl r a url ps h = Some result ->
  is_Some (h !! k) -> is_Some (hr_hdrs result !! k).
Proof.
  unfold oidc_http_post_form, oidc_http_request. destruct url as [u|]; [|done]. cbn [mbind option_bind].
  destruct (negb (handle_ok nw)); [done|]. unfold oidc_http_request_perform_with_retries.
  destruct (retry_loop _ _ _ _) as [[ok code] s] eqn:El. destruct ok; [|done]. intros [= <-] Hk. cbn [hr_hdrs].
  by eapply retry_loop_keeps.
Qed.

(** So the test for a missing nonce never fails: an empty nonce is used when the server sent none. *)
Lemma dpop_nonce_never_missing p a d w response hs w' :
  oidc_proto_token_endpoint_call net c p (ca_params a) (ca_basic a) (ca_bearer a) d (Some dpop_response_hdrs) w =
    Some (Some (response, hs), w') -> is_Some (hs !! OIDC_HTTP_HDR_DPOP_NONCE).
Proof.
  intros E. apply call_response in E as (_ & result & E & <-). eapply post_form_keeps; [exact E|].
  cbn [default from_option id]. unfold dpop_response_hdrs. rewrite lookup_insert_ne, lookup_insert_eq by done. by eexists.
Qed.

Lemma token_request_inv p ps w tk w' : oidc_proto_token_endpoint_request ext net rnd c p ps w = Some (Some tk, w') ->
  exists dpop j, token_response p (w_req w) dpop j /\ oidc_json_check_error (Some j) = false /\
    oidc_proto_token_endpoint_response_parse p (Some j) = Some tk /\
    (oidc_proto_profile_dpop_mode_get p = OIDC_DPOP_MODE_REQUIRED -> is_Some dpop) /\
    (oidc_proto_profile_dpop_mode_get p = OIDC_DPOP_MODE_OFF -> dpop = None).
Proof.
  unfold oidc_proto_token_endpoint_request. intros ([ok a] & w1 & E1 & E)%bind_inv.
  pose proof (same_req_request_auth _ _ _ _ _ E1) as R1. destruct ok; [|done]. cbn [negb] in E.
  destruct (oidc_util_table_add_query_encoded_params _ _) as [t|]; [|done].
  apply bind_inv in E as ([[ok h] dpop] & w2 & E2 & E). pose proof (same_req_prepare _ _ _ _ E2) as R2.
  assert (Hd : ok = true -> (oidc_proto_profile_dpop_mode_get p = OIDC_DPOP_MODE_REQUIRED -> is_Some dpop) /\
    (oidc_proto_profile_dpop_mode_get p = OIDC_DPOP_MODE_OFF -> dpop = None /\ h = None)).
  { intros ->. unfold oidc_proto_token_endpoint_dpop_prepare in E2.
    destruct (Z.eqb_spec (oidc_proto_profile_dpop_mode_get p) OIDC_DPOP_MODE_OFF) as [Hm|Hm].
    - unfold ret in E2. injection E2 as <- <- _. split; [|done]. by rewrite Hm.
    - apply bind_inv in E2 as (d & w3 & _ & E2). unfold ret in E2. injection E2 as Hb <- <- _. split; [|done].
      intros Hq. rewrite Hq in Hb. destruct d; [by eexists|done]. }
  destruct ok; [|done]. cbn [negb] in E. destruct (Hd eq_refl) as [Hreq Hoff]. clear Hd.
  apply bind_inv in E as (x & w3 & E3 & E). destruct x as [[response hs]|]; [|done].
  pose proof (same_req_call _ _ _ _ _ _ _ _ _ E3) as R3.
  destruct (oidc_json_decode_object_err response) as [j|] eqn:Ej; [|done].
  apply bind_inv in E as (y & w4 & E4 & E). unfold ret in E. injection E as E _. destruct y as [j'|]; [|done].
  destruct (call_response p (mk_auth t (ca_basic a) (ca_bearer a)) dpop h w2 response hs w3 E3) as [Hr _].
  destruct (oidc_json_check_error (Some j)) eqn:Ee.
  - apply retry_response in E4 as (Hs & d & Hd & He). exists (Some d), j'. replace (w_req w) with (w_req w3) by congruence.
    split; [done|]. split; [done|]. split; [done|]. split; [by eexists|]. intros Hm. apply Hoff in Hm as [_ ->]. by destruct Hs.
  - unfold ret in E4. injection E4 as <- _. exists dpop, j. replace (w_req w) with (w_req w2) by congruence.
    split; [by apply Hr|]. split; [done|]. split; [done|]. split; [done|]. by intros [? _]%Hoff.
Qed.
End token_lemmas.
#[export] Hint Resolve total_token_request : total.
#[export] Hint Resolve same_req_token_request same_req_post same_req_dpop_create same_req_use_nonce : same_req.
#[export] Hint Resolve total_post total_dpop_create total_dpop_use_nonce : total.

Lemma str_to_int_range s : INT_MIN <= _oidc_str_to_int s (-1) <= INT_MAX.
Proof.
  unfold _oidc_str_to_int. destruct (_oidc_str_to_int_checked s) as [v|] eqn:E; [|by unfold INT_MIN, INT_MAX].
  unfold _oidc_str_to_int_checked in E. destruct s as [[|a s]|]; [done| |done]. destruct (strtol _) as [[x e] er].
  destruct (_ || (INT_MAX <? x)) eqn:Eb; [done|]. injection E as ->.
  apply orb_false_iff in Eb as [Eb H1%Z.ltb_ge]. apply orb_false_iff in Eb as [_ H2%Z.ltb_ge]. cbn. lia.
Qed.

Lemma clamp_int_range v : INT_MIN <= clamp_int v <= INT_MAX.
Proof. unfold clamp_int, INT_MIN, INT_MAX. repeat case_match; lia. Qed.

(** ** Properties *)

(** C28: a request to the token endpoint always returns, and the tokens it gives are those of a response of this endpoint that
    is no error, to a request with the authentication of the client; their lifetime fits an [int].  When DPoP
    is required, the request had a proof of possession and the token is one that needs it. *)
Theorem token_request_sound {J : Jansson} {O : Jose} {B64 : Base64} {C : Cjose J} {CE : CjoseExport C} {D : Digest} {Zl : Zlib}
  {H : Httpd} {HS : HttpdSpec H} {St : Type} (ext : nat -> env) (net : nat -> network) (rnd : nat -> rng) (c : proto_cfg C)
  (p : oidc_provider_t) (params : table) (w : world St) :
  exists tk w', oidc_proto_token_endpoint_request ext net rnd c p params w = Some (tk, w') /\ w_req w' = w_req w /\
  forall t, tk = Some t -> exists dpop j, token_response net c p (w_req w) dpop j /\
    oidc_json_check_error (Some j) = false /\
    tk_id_token t = oidc_json_object_get_string (Some j) OIDC_PROTO_ID_TOKEN None /\
    tk_refresh_token t = oidc_json_object_get_string (Some j) OIDC_PROTO_REFRESH_TOKEN None /\
    (is_Some (tk_access_token t) ->
       tk_access_token t = oidc_json_object_get_string (Some j) OIDC_PROTO_ACCESS_TOKEN None /\
       oidc_proto_validate_token_type p (tk_token_type t) = true) /\
    INT_MIN <= tk_expires_in t <= INT_MAX /\
    (oidc_proto_profile_dpop_mode_get p = OIDC_DPOP_MODE_OFF -> dpop = None) /\
    (oidc_proto_profile_dpop_mode_get p = OIDC_DPOP_MODE_REQUIRED -> is_Some dpop /\
       exists tt, tk_token_type t = Some tt /\ apr_strnatcasecmp tt OIDC_PROTO_DPOP = 0).
Proof.
  destruct (total_token_request ext net rnd c p params w) as (tk & w' & E). exists tk, w'. split; [exact E|].
  split; [by eapply same_req_token_request|]. intros t ->.
  apply token_request_inv in E as (dpop & j & Hr & He & Hp & Hreq & Hoff). exists dpop, j. split; [done|]. split; [done|].
  unfold oidc_proto_token_endpoint_response_parse in Hp. cbv zeta in Hp.
  set (tt := oidc_json_object_get_string (Some j) OIDC_PROTO_TOKEN_TYPE None) in *.
  destruct ((_ =? OIDC_DPOP_MODE_REQUIRED) && _) eqn:Em; [done|].
  set (ex := if oidc_json_is_string _ then _ else _) in Hp.
  assert (Hex : INT_MIN <= ex <= INT_MAX).
  { unfold ex. destruct (oidc_json_is_string _); [apply str_to_int_range|].
    destruct (oidc_json_is_integer _); [apply clamp_int_range|by unfold INT_MIN, INT_MAX]. }
  clearbody ex. destruct (nonnull tt && negb (oidc_proto_validate_token_type p tt)) eqn:Ev; injection Hp as <-; cbn [tk_id_token
    tk_refresh_token tk_access_token tk_token_type tk_expires_in]; do 2 (split; [done|]).
  - split; [by intros []|]. split; [done|]. split; [done|]. intros Hm. exfalso. rewrite Hm in Em. cbn in Em.
    destruct tt as [s|]; [|done]. cbn in Em, Ev. apply negb_false_iff, Z.eqb_eq in Em.
    unfold oidc_proto_validate_token_type in Ev. cbn [nonnull _oidc_strnatcasecmp] in Ev. rewrite Em in Ev. cbn in Ev.
    by rewrite andb_false_r in Ev.
  - split; [|split; [done|split; [done|]]].
    + intros _. split; [done|]. destruct tt; [by apply negb_false_iff in Ev|done].
    + intros Hm. split; [auto|]. rewrite Hm in Em. destruct tt as [s|]; [|done]. exists s. split; [done|].
      cbn in Em. by apply negb_false_iff, Z.eqb_eq in Em.
Qed.

(** ** Witnesses *)

Section demo.
#[local] Existing Instances Model.jansson JoseModel.jose Base64Model.base64 CjoseModel.cjose CjoseModel.digest CjoseModel.zlib
  ExportModel.export HttpdModel.httpd.

Definition demo_op (dpop_mode : Z) : oidc_provider_t :=
  mk_provider None (Some "https://op") None (Some "https://op/token") None None (Some "resource=r") (Some "https://op/userinfo") None None
    None None None (Some "client") (Some "secret") None None None None None None None None None None None None None None None None
    None None None None None None (-1) (-1) (-1) (-1) (-1) dpop_mode (-1) (-1) (-1) (-1) (-1) (-1) (-1)
    (mk_jwks_uri None (-1) None None) None None.

(** A server that answers every request with the same object. *)
Definition demo_server (j : Model.jv) : nat -> network :=
  fun _ => mk_network true (fun _ _ => mk_transfer [Data (Model.dumps j)] CURLE_OK 200).
Definition demo_tokens : Model.jv :=
  Model.JObj [("access_token", Model.JStr "at"); ("token_type", Model.JStr "DPoP"); ("expires_in", Model.JInt 99999999999)].

Abbreviation demo_token_request :=
  (oidc_proto_token_endpoint_request (clock true 1000000) (demo_server demo_tokens) demo_rnd demo_rp_cfg
     (demo_op OIDC_DPOP_MODE_REQUIRED) [("grant_type", "authorization_code")] demo_jwks_world).

(** The lifetime is cut off. *)
Lemma token_request_sound_witness : exists t w', demo_token_request = Some (Some t, w') /\
  tk_access_token t = Some "at" /\ tk_expires_in t = INT_MAX /\ exists tt, tk_token_type t = Some tt /\ apr_strnatcasecmp tt OIDC_PROTO_DPOP = 0.
Proof.
  assert (E : (fun x => match x.1 with Some t => (tk_access_token t, tk_expires_in t) | None => (None, 0) end) <$> demo_token_request =
    Some (Some "at", INT_MAX)) by (vm_compute; reflexivity).
  destruct (token_request_sound (O:=JoseModel.jose) (HS:=HttpdModel.httpd_spec) (clock true 1000000) (demo_server demo_tokens) demo_rnd
    demo_rp_cfg (demo_op OIDC_DPOP_MODE_REQUIRED) [("grant_type", "authorization_code")] demo_jwks_world) as (tk & w' & Er & _ & Ht).
  rewrite Er in E. cbn [fmap option_fmap option_map fst] in E. destruct tk as [t|]; [|discriminate E]. injection E as E1 E2.
  exists t, w'. split; [exact Er|]. split; [exact E1|]. split; [exact E2|].
  destruct (Ht t eq_refl) as (d & j & _ & _ & _ & _ & _ & _ & _ & Hr). exact (proj2 (Hr eq_refl)).
Defined.
End demo.
