(* ===== verification/Config.v ===== *)
(** * The configuration of the module

    [oidc_cfg_t] of src/cfg/cfg_int.h as far as the handlers read it.  The settings that a component of its own
    reads are in the record of that component. *)

From S2P Require Import Prelude Cstr Apr Jansson Json Http Url Cookie Base64 Jose Jwt Util ShmCache Cache World.
From S2P Require Import HttpClient Cjose Jwk Pkce Provider Jwks Session State CfgParse Scrub.
#[local] Open Scope Z_scope.

Record oidc_cfg_t {J : Jansson} {C : Cjose J} := mk_cfg {
  cfg_proto : proto_cfg C;
  cfg_session : session_cfg;
  cfg_state : state_cfg;
  cfg_provider_metadata_refresh_interval : Z;
  cfg_default_slo_url : option string;
  cfg_store_id_token : Z;
  cfg_session_inactivity_timeout : Z;
  cfg_remote_user_claim : oidc_remote_user_claim_t;
  cfg_redirect_urls_allowed : option (gset string);
  cfg_scrub : scrub_cfg;
  cfg_claim_delimiter : option string;
  cfg_action_on_userinfo_error : Z;
  cfg_post_preserve_template : option string;
  cfg_post_restore_template : option string;
  cfg_same_site_discovery_csrf : oidc_samesite_cookie_t;
  cfg_logout_x_frame_options : option string;
  cfg_info_hook_data : option (gset string);
  cfg_discover_issuers_allowed : option (gset string);
  cfg_dpop_api_enabled : Z;
  cfg_metrics_path : option string
}.
#[global] Arguments oidc_cfg_t {J} C.
#[global] Arguments mk_cfg {J C}.

Section config.
Context {J : Jansson} {C : Cjose J}.
Implicit Types c : oidc_cfg_t C.

Definition OIDC_DEFAULT_STORE_ID_TOKEN : Z := 1.
Definition OIDC_DEFAULT_SESSION_INACTIVITY_TIMEOUT : Z := 300.
Definition OIDC_DEFAULT_PROVIDER_METADATA_REFRESH_INTERVAL : Z := 0.

Definition oidc_cfg_provider_get c : oidc_provider_t := pc_provider (cfg_proto c).
Definition oidc_cfg_metadata_dir_get c : option string := pc_metadata_dir (cfg_proto c).
Definition oidc_cfg_private_keys_get c : option (list oidc_jwk_t) := pc_private_keys (cfg_proto c).
Definition oidc_cfg_public_keys_get c : option (list oidc_jwk_t) := pc_public_keys (cfg_proto c).
Definition oidc_cfg_provider_metadata_refresh_interval_get c : Z :=
  int_or (cfg_provider_metadata_refresh_interval c) OIDC_DEFAULT_PROVIDER_METADATA_REFRESH_INTERVAL.
Definition oidc_cfg_default_slo_url_get c : option string := cfg_default_slo_url c.
Definition oidc_cfg_store_id_token_get c : Z := int_or (cfg_store_id_token c) OIDC_DEFAULT_STORE_ID_TOKEN.
Definition oidc_cfg_session_inactivity_timeout_get c : Z :=
  int_or (cfg_session_inactivity_timeout c) OIDC_DEFAULT_SESSION_INACTIVITY_TIMEOUT.
Definition oidc_cfg_x_forwarded_headers_get c : Z := pc_x_forwarded_headers (cfg_proto c).
Definition oidc_cfg_redirect_urls_allowed_get c : option (gset string) := cfg_redirect_urls_allowed c.

Definition OIDC_DEFAULT_CLAIM_DELIMITER : string := ",".
Definition OIDC_DEFAULT_ACTION_ON_USERINFO_ERROR : Z := OIDC_ON_ERROR_502.
Definition oidc_cfg_claim_delimiter_get c : string := default OIDC_DEFAULT_CLAIM_DELIMITER (cfg_claim_delimiter c).
Definition oidc_cfg_action_on_userinfo_error_get c : Z := int_or (cfg_action_on_userinfo_error c) OIDC_DEFAULT_ACTION_ON_USERINFO_ERROR.
Definition oidc_cfg_post_preserve_template_get c : option string := cfg_post_preserve_template c.
Definition oidc_cfg_post_restore_template_get c : option string := cfg_post_restore_template c.
Definition oidc_cfg_cookie_same_site_discovery_csrf_get c : oidc_samesite_cookie_t := cfg_same_site_discovery_csrf c.
Definition OIDC_DEFAULT_LOGOUT_X_FRAME_OPTIONS : string := "DENY".
Definition OIDC_DEFAULT_DPOP_API_ENABLED : Z := 0.
Definition oidc_cfg_logout_x_frame_options_get c : string := default OIDC_DEFAULT_LOGOUT_X_FRAME_OPTIONS (cfg_logout_x_frame_options c).
Definition oidc_cfg_info_hook_data_get c : option (gset string) := cfg_info_hook_data c.
Definition oidc_cfg_discover_issuers_allowed_get c : option (gset string) := cfg_discover_issuers_allowed c.
Definition oidc_cfg_dpop_api_enabled_get c : Z := int_or (cfg_dpop_api_enabled c) OIDC_DEFAULT_DPOP_API_ENABLED.
Definition oidc_cfg_metrics_path_get c : option string := cfg_metrics_path c.
Definition oidc_cfg_cookie_domain_get c : option string := cookie_domain (s_cookie (cfg_session c)).
Definition oidc_cfg_session_type_get c : Z := session_type (cfg_session c).
End config.
