(* ===== verification/Metadata.v ===== *)
(** * src/metadata/util.c and src/metadata/provider.c: what a provider says about itself

    The metadata of a provider is a JSON object, from a file or from the provider itself; what it says is checked and put
    into the settings of the provider, without overriding what was configured. *)

From S2P Require Import Prelude Cstr Apr StrUtil Jansson Json Http Form Url Cookie Base64 Jose Jwt Util ShmCache Cache World.
From S2P Require Import HttpClient Cjose Jwk Jwe JoseLib Jws Pkce Provider Profile JwtCheck Jwks Files CfgParse ClientAuth.
From S2P Require Import Session State ProviderSet Config.
From coqutil Require Import Datatypes.RecordSetters.
Import TriangleBracketNotations.
#[local] Open Scope Z_scope.

(** ** Keys, of src/metadata/internal.h *)

Definition OIDC_METADATA_SUFFIX_PROVIDER : string := "provider".
Definition OIDC_METADATA_SUFFIX_CLIENT : string := "client".
Definition OIDC_METADATA_SUFFIX_CONF : string := "conf".
Definition OIDC_METADATA_ISSUER : string := "issuer".
Definition OIDC_METADATA_RESPONSE_TYPES_SUPPORTED : string := "response_types_supported".
Definition OIDC_METADATA_RESPONSE_MODES_SUPPORTED : string := "response_modes_supported".
Definition OIDC_METADATA_AUTHORIZATION_ENDPOINT : string := "authorization_endpoint".
Definition OIDC_METADATA_TOKEN_ENDPOINT : string := "token_endpoint".
Definition OIDC_METADATA_USERINFO_ENDPOINT : string := "userinfo_endpoint".
Definition OIDC_METADATA_REVOCATION_ENDPOINT : string := "revocation_endpoint".
Definition OIDC_METADATA_PAR_ENDPOINT : string := "pushed_authorization_request_endpoint".
Definition OIDC_METADATA_JWKS_URI : string := "jwks_uri".
Definition OIDC_METADATA_SIGNED_JWKS_URI : string := "signed_jwks_uri".
Definition OIDC_METADATA_TOKEN_ENDPOINT_AUTH_METHODS_SUPPORTED : string := "token_endpoint_auth_methods_supported".
Definition OIDC_METADATA_REGISTRATION_ENDPOINT : string := "registration_endpoint".
Definition OIDC_METADATA_CHECK_SESSION_IFRAME : string := "check_session_iframe".
Definition OIDC_METADATA_BACKCHANNEL_LOGOUT_SUPPORTED : string := "backchannel_logout_supported".
Definition OIDC_METADATA_END_SESSION_ENDPOINT : string := "end_session_endpoint".
Definition OIDC_METADATA_MTLS_ENDPOINT_ALIASES : string := "mtls_endpoint_aliases".
Definition OIDC_METADATA_TLS_CLIENT_CERTIFICATE_BOUND_ACCESS_TOKENS : string := "tls_client_certificate_bound_access_tokens".
Definition OIDC_METADATA_DPOP_SIGNING_ALG_VALUES_SUPPORTED : string := "dpop_signing_alg_values_supported".

#[local] Open Scope world_scope.

(** ** src/metadata/util.c *)

Section names.

(** The suffix that starts at the last occurrence of [c], as its offset. *)
Fixpoint strrchr (s : string) (c : ascii) : option nat :=
  match s with
  | "" => None
  | String d s => match strrchr s c with Some n => Some (S n) | None => if Ascii.eqb d c then Some O else None end
  end.

Definition oidc_metadata_issuer_to_filename (issuer : string) : string :=
  let starts prefix := bool_decide (_oidc_strstr (Some issuer) (Some prefix) = Some 0%nat) in
  let p := if starts "https://" then str_drop 8 issuer else if starts "http://" then str_drop 7 issuer else issuer in
  let n := String.length p in
  let p := if (0 <? n)%nat && match str_drop (n - 1) p with String c _ => Ascii.eqb c "/" | "" => false end
           then str_take (n - 1) p else p in
  oidc_http_url_encode (Some p).

(** A name without a dot would be a [NULL] pointer that is written to. *)
Definition oidc_metadata_filename_to_issuer (filename : string) : option string :=
  dot ← strrchr filename ".";
  Some ("https://" ^^ oidc_http_url_decode (Some (str_take dot filename))).
End names.

Section metadata.
Context {J : Jansson} {O : Jose} {B64 : Base64} {C : Cjose J} {D : Digest} {Zl : Zlib} {H : Httpd} {E : CfgEnv C}.
Context {St : Type} {B : CacheBackend St} {Dk : Disk St}.
Variables (ext : nat -> env) (net : nat -> network) (rnd : nat -> rng) (c : oidc_cfg_t C).

Definition oidc_metadata_file_path (issuer type : string) : string :=
  pr (oidc_cfg_metadata_dir_get c) ^^ "/" ^^ oidc_metadata_issuer_to_filename issuer ^^ "." ^^ type.
Definition oidc_metadata_provider_file_path (issuer : string) := oidc_metadata_file_path issuer OIDC_METADATA_SUFFIX_PROVIDER.
Definition oidc_metadata_client_file_path (issuer : string) := oidc_metadata_file_path issuer OIDC_METADATA_SUFFIX_CLIENT.
Definition oidc_metadata_conf_path (issuer : string) := oidc_metadata_file_path issuer OIDC_METADATA_SUFFIX_CONF.

Definition oidc_metadata_file_read_json (path : string) : M St (option json_t) :=
  buf <- oidc_util_file_read path ;; ret (oidc_json_decode_object buf).

(** The answer, and the new [*value] if it is set. *)
Definition oidc_metadata_is_valid_uri (json : option json_t) (key : string) (is_mandatory : bool) : bool * option string :=
  match oidc_json_object_get_string json key None with
  | None => (negb is_mandatory, None)
  | Some s_value =>
      match oidc_cfg_parse_is_valid_http_url (Some s_value) with
      | Some _ => (false, None)
      | None => (true, Some s_value)
      end
  end.

(** A validator returns an error; the outer [option] is the fuel it may need. *)
Abbreviation oidc_valid_function_t := (option string -> option (option string)).

(** Whether to stop, [*value] and [*found]. *)
Definition oidc_metadata_array_string_apply (elem : option json_t) (valid_function : oidc_valid_function_t)
  (value preference : option string) (found : bool) : option (bool * option string * bool) :=
  if negb (oidc_json_is_string elem) then Some (false, value, found)
  else
    let s := oidc_json_string_value elem in
    rv ← valid_function s;
    match rv with
    | Some _ => Some (false, value, found)
    | None =>
        if nonnull preference && (_oidc_strcmp s preference =? 0) then Some (true, s, true)
        else Some (false, match value with None => s | Some _ => value end, true)
    end.

(** The loop over the elements; a caller that asks for no value only loses it. *)
Fixpoint array_apply_loop (elems : list json_t) (valid_function : oidc_valid_function_t) (preference value : option string)
  (found : bool) : option (option string * bool) :=
  match elems with
  | [] => Some (value, found)
  | elem :: elems =>
      '(stop, value, found) ← oidc_metadata_array_string_apply (Some elem) valid_function value preference found;
      if (stop : bool) then Some (value, found) else array_apply_loop elems valid_function preference value found
  end.

(** The error, and [*value]. *)
Definition oidc_metadata_valid_string_in_array (json : option json_t) (key : string) (valid_function : oidc_valid_function_t)
  (is_optional : bool) (preference : option string) : option (option string * option string) :=
  let json_arr := oidc_json_object_get json key in
  match json_arr with
  | Some arr =>
      if oidc_json_is_array json_arr then
        '(value, found) ← array_apply_loop (json_array_items arr) valid_function preference None false;
        Some (if (found : bool) then None else Some ("could not find a valid array string element for entry " ^^ DQ ^^ key ^^ DQ), value)
      else Some (if is_optional then None else Some ("JSON object did not contain a " ^^ DQ ^^ key ^^ DQ ^^ " array"), None)
  | None => Some (if is_optional then None else Some ("JSON object did not contain a " ^^ DQ ^^ key ^^ DQ ^^ " array"), None)
  end.

(** Whether private keys are configured. *)
Definition has_private_keys : bool := nonnull (oidc_cfg_private_keys_get c).

Definition oidc_metadata_endpoint_auth_select (j_provider : option json_t) (key : string) (b_secret b_cert : bool)
  : option (option string * option string) :=
  let b_mtls := negb b_secret && b_cert in
  oidc_metadata_valid_string_in_array j_provider key
    (fun s => Some (oidc_cfg_get_valid_endpoint_auth_function has_private_keys b_mtls s)) true
    (Some (if b_mtls then OIDC_ENDPOINT_AUTH_TLS_CLIENT_AUTH else OIDC_ENDPOINT_AUTH_CLIENT_SECRET_BASIC)).

Definition oidc_metadata_parse_boolean (json : option json_t) (key : string) (default_value : Z) : Z :=
  let '(ok, int_value) := oidc_json_object_get_bool json key default_value in
  let int_value :=
    if (ok : bool) then int_value
    else
      match oidc_json_object_get_string json key None with
      | Some s => match oidc_cfg_parse_boolean (Some s) with inr b => Z.b2z b | inl _ => default_value end
      | None => (oidc_json_object_get_int json key default_value).2
      end in
  Z.b2z (negb (int_value =? 0)).

Definition oidc_metadata_cert_bound_tokens_enabled (j_provider : option json_t) (mode : Z) (auth : option string)
  (b_cert : bool) : bool :=
  if oidc_cfg_endpoint_auth_is_mtls auth then true
  else if negb b_cert || (mode =? OIDC_CERT_BOUND_TOKENS_OFF) then false
  else if mode =? OIDC_CERT_BOUND_TOKENS_ON then true
  else oidc_metadata_parse_boolean j_provider OIDC_METADATA_TLS_CLIENT_CERTIFICATE_BOUND_ACCESS_TOKENS 0 =? 1.

Definition oidc_metadata_mtls_endpoint_aliases_get (j_provider : option json_t) : option json_t :=
  let j_aliases := oidc_json_object_get j_provider OIDC_METADATA_MTLS_ENDPOINT_ALIASES in
  if oidc_json_is_object j_aliases then j_aliases else None.

Definition oidc_metadata_parse_url (json : option json_t) (key : string) (default_value : option string) : option string :=
  let '(ok, value) := oidc_metadata_is_valid_uri json key false in
  if negb ok || (negb (nonnull value) && nonnull default_value) then default_value else value.

(** Keys that cannot be parsed are left out; without any valid key the list stays as it is. *)
Definition oidc_metadata_get_jwks (json : option json_t) (jwk_list : option (list oidc_jwk_t)) : option (list oidc_jwk_t) :=
  let keys := oidc_json_object_get json OIDC_METADATA_KEYS in
  match keys with
  | Some arr =>
      if oidc_json_is_array keys then
        fold_left (fun acc elem => match oidc_jwk_parse_json elem with
                                   | Some jwk => Some (default [] acc ++ [jwk])
                                   | None => acc
                                   end) (json_array_items arr) jwk_list
      else jwk_list
  | None => jwk_list
  end.

(** ** src/metadata/provider.c *)

Definition oidc_metadata_provider_is_valid (j_provider : json_t) (issuer : option string) : option bool :=
  let j := Some j_provider in
  let uri key mandatory := (oidc_metadata_is_valid_uri j key mandatory).1 in
  match oidc_json_object_get_string j OIDC_METADATA_ISSUER None with
  | None => Some false
  | Some s_issuer =>
      if nonnull issuer && negb (oidc_util_issuer_match issuer (Some s_issuer)) then Some false
      else
        '(types, _) ← oidc_metadata_valid_string_in_array j OIDC_METADATA_RESPONSE_TYPES_SUPPORTED
                        oidc_cfg_parse_is_valid_response_type false None;
        if nonnull types && nonnull (oidc_json_object_get j OIDC_METADATA_RESPONSE_TYPES_SUPPORTED) then Some false
        else
          '(modes, _) ← oidc_metadata_valid_string_in_array j OIDC_METADATA_RESPONSE_MODES_SUPPORTED
                          (fun s => Some (oidc_cfg_parse_is_valid_response_mode s)) true None;
          if nonnull modes then Some false
          else if negb (uri OIDC_METADATA_AUTHORIZATION_ENDPOINT true) then Some false
          else if negb (uri OIDC_METADATA_TOKEN_ENDPOINT false) then Some false
          else if negb (uri OIDC_METADATA_USERINFO_ENDPOINT false) then Some false
          else if negb (uri OIDC_METADATA_JWKS_URI false) then Some false
          else if negb (uri OIDC_METADATA_SIGNED_JWKS_URI false) then Some false
          else
            '(methods, _) ← oidc_metadata_valid_string_in_array j OIDC_METADATA_TOKEN_ENDPOINT_AUTH_METHODS_SUPPORTED
                              (fun s => Some (oidc_cfg_get_valid_endpoint_auth_function has_private_keys true s)) true None;
            Some (negb (nonnull methods))
  end.

Definition metadata_args : http_args :=
  mk_http_args None None None (negb (oidc_cfg_provider_ssl_validate_server_get (oidc_cfg_provider_get c) =? 0))
    (pc_http_timeout_short (cfg_proto c)) (pc_outgoing_proxy (cfg_proto c)) (pc_pass_cookies (cfg_proto c)) None None None.

(** The metadata and the response; [None] is [FALSE]. *)
Definition oidc_metadata_provider_retrieve (issuer url : option string) : M St (option (json_t * option string)) :=
  result <- http_get net (cfg_proto c) metadata_args url None ∅ ;;
  match result with
  | None => ret None
  | Some x =>
      match oidc_json_decode_and_check_error (hr_response x) with
      | None => ret None
      | Some j_metadata =>
          ok <- lift (oidc_metadata_provider_is_valid j_metadata issuer) ;;
          ret (if (ok : bool) then Some (j_metadata, hr_response x) else None)
      end
  end.

(** The URL of the Discovery document. *)
Definition discovery_url (issuer : string) : string :=
  let starts prefix := bool_decide (_oidc_strstr (Some issuer) (Some prefix) = Some 0%nat) in
  let url := if starts "http://" || starts "https://" then issuer else "https://" ^^ issuer in
  url ^^ (match str_drop (String.length url - 1) url with String c _ => if Ascii.eqb c "/" then "" else "/" | "" => "/" end) ^^
  ".well-known/openid-configuration".

(** A document that is used must be valid for the issuer. *)
Definition provider_checked (issuer : string) (j : json_t) : M St (option json_t) :=
  ok <- lift (oidc_metadata_provider_is_valid j (Some issuer)) ;; ret (if (ok : bool) then Some j else None).

(** The document from the provider, which is kept in the file, or else the old one for another period. *)
Definition provider_fetch (issuer : string) (j_cache : option json_t) (have_cache : bool) : M St (option json_t) :=
  let provider_path := oidc_metadata_provider_file_path issuer in
  fresh <- oidc_metadata_provider_retrieve (Some issuer) (Some (discovery_url issuer)) ;;
  match fresh with
  | Some (j_provider, response) =>
      _ <- oidc_util_file_write rnd provider_path response ;;
      ret (Some j_provider)
  | None =>
      match j_cache with
      | Some j =>
          if (0 <? oidc_cfg_provider_metadata_refresh_interval_get c) && have_cache then
            t <- apr_time_now ext ;;
            _ <- (fun w => Some (tt, mk_world (w_req w) (disk_mtime_set provider_path t (w_cache w)) (w_calls w))) ;;
            provider_checked issuer j
          else ret None
      | None => ret None
      end
  end.

(** [None] is [FALSE]. *)
Definition oidc_metadata_provider_get (issuer : string) (allow_discovery : bool) : M St (option json_t) :=
  let provider_path := oidc_metadata_provider_file_path issuer in
  let refresh_interval := oidc_cfg_provider_metadata_refresh_interval_get c in
  '(have_cache, use_cache) <-
    (if 0 <? refresh_interval then
       fi <- (fun w => Some (disk_stat true provider_path (w_cache w), w)) ;;
       match fi with
       | Some fi => t <- apr_time_now ext ;; ret (true, t <? mtime fi + apr_time_from_sec refresh_interval)
       | None => ret (false, true)
       end
     else ret (false, true)) ;;
  j_cache <- oidc_metadata_file_read_json provider_path ;;
  match (if (use_cache : bool) then j_cache else None) with
  | Some j => provider_checked issuer j
  | None =>
      if negb have_cache && negb allow_discovery then ret None
      else provider_fetch issuer j_cache have_cache
  end.

(** [TRUE] and [*value]; [None] is [FALSE]. *)
Definition oidc_metadata_provider_parse_url_mtls (j_provider j_aliases : option json_t) (key : string) : option (option string) :=
  if nonnull j_aliases && nonnull (oidc_json_object_get j_aliases key) then
    match oidc_metadata_parse_url j_aliases key None with
    | None => None
    | Some value => Some (Some value)
    end
  else Some (oidc_metadata_parse_url j_provider key None).

(** [OIDC_METADATA_PROVIDER_SET]: a value that is given is set; an error is only logged. *)
Definition metadata_set (set : option string -> oidc_provider_t -> option string * oidc_provider_t) (value : option string)
  (p : oidc_provider_t) : oidc_provider_t :=
  if nonnull value then (set value p).2 else p.
Definition metadata_set_int (set : Z -> oidc_provider_t -> option string * oidc_provider_t) (ivalue : Z)
  (p : oidc_provider_t) : oidc_provider_t :=
  if negb (ivalue =? OIDC_CONFIG_POS_INT_UNSET) then (set ivalue p).2 else p.

(** [OIDC_METADATA_PROVIDER_PARSE_URL_MTLS]. *)
Definition parse_url_member (get : oidc_provider_t -> option string)
  (set : option string -> oidc_provider_t -> option string * oidc_provider_t) (j_provider j_aliases : option json_t) (key : string)
  (p : oidc_provider_t) : option oidc_provider_t :=
  if nonnull (get p) then Some p
  else u ← oidc_metadata_provider_parse_url_mtls j_provider j_aliases key; Some (metadata_set set u p).

(** Whether a certificate is configured, for the provider or globally. *)
Definition has_client_cert (p : oidc_provider_t) : bool :=
  nonnull (oidc_cfg_provider_token_endpoint_tls_client_cert_get p) ||
  nonnull (oidc_cfg_provider_token_endpoint_tls_client_cert_get (oidc_cfg_provider_get c)).

Definition oidc_metadata_provider_cert_bound_tokens_enabled (j_provider : option json_t) (p : oidc_provider_t) : bool :=
  let auto (m m' : Z) := if m =? OIDC_CERT_BOUND_TOKENS_AUTO then m' else m in
  let mode := auto (auto (oidc_cfg_provider_cert_bound_tokens_get p)
                         (oidc_cfg_provider_cert_bound_tokens_get (oidc_cfg_provider_get c)))
                   (oidc_proto_profile_cert_bound_tokens_get p) in
  oidc_metadata_cert_bound_tokens_enabled j_provider mode (oidc_cfg_provider_token_endpoint_auth_get p) (has_client_cert p).

Definition oidc_metadata_provider_dpop_supported (j_provider : option json_t) : Z :=
  let j_algs := oidc_json_object_get j_provider OIDC_METADATA_DPOP_SIGNING_ALG_VALUES_SUPPORTED in
  Z.b2z (oidc_json_is_array j_algs && (0 <? oidc_json_array_size j_algs)%nat).

(** The method of client authentication. *)
Definition parse_endpoint_auth (j_provider : option json_t) (p : oidc_provider_t) : option (option oidc_provider_t) :=
  if nonnull (oidc_cfg_provider_token_endpoint_auth_get p) then Some (Some p)
  else
    let b_secret := nonnull (oidc_cfg_provider_client_secret_get p) ||
                    nonnull (oidc_cfg_provider_client_secret_get (oidc_cfg_provider_get c)) in
    '(err, value) ← oidc_metadata_endpoint_auth_select j_provider OIDC_METADATA_TOKEN_ENDPOINT_AUTH_METHODS_SUPPORTED
                      b_secret (has_client_cert p);
    Some (match err with
          | Some _ => None
          | None => Some (oidc_cfg_provider_token_endpoint_auth_set has_private_keys value p).2
          end).

(** The endpoints, after client authentication is known; [None] is [FALSE]. *)
Definition parse_endpoints (j j_aliases : option json_t) (p : oidc_provider_t) : option oidc_provider_t :=
  p ← parse_url_member oidc_cfg_provider_authorization_endpoint_url_get oidc_cfg_provider_authorization_endpoint_url_set j None
        OIDC_METADATA_AUTHORIZATION_ENDPOINT p;
  p ← parse_url_member oidc_cfg_provider_token_endpoint_url_get oidc_cfg_provider_token_endpoint_url_set j j_aliases
        OIDC_METADATA_TOKEN_ENDPOINT p;
  p ← parse_url_member oidc_cfg_provider_userinfo_endpoint_url_get oidc_cfg_provider_userinfo_endpoint_url_set j j_aliases
        OIDC_METADATA_USERINFO_ENDPOINT p;
  p ← parse_url_member oidc_cfg_provider_revocation_endpoint_url_get oidc_cfg_provider_revocation_endpoint_url_set j j_aliases
        OIDC_METADATA_REVOCATION_ENDPOINT p;
  p ← parse_url_member oidc_cfg_provider_pushed_authorization_request_endpoint_url_get
        oidc_cfg_provider_pushed_authorization_request_endpoint_url_set j j_aliases OIDC_METADATA_PAR_ENDPOINT p;
  let p := if nonnull (oidc_cfg_provider_jwks_uri_uri_get p) then p
           else metadata_set oidc_cfg_provider_jwks_uri_set (oidc_metadata_parse_url j OIDC_METADATA_JWKS_URI None) p in
  let p := if nonnull (oidc_cfg_provider_signed_jwks_uri_get p) then p
           else metadata_set (fun v => oidc_cfg_provider_signed_jwks_uri_set v None)
                  (oidc_metadata_parse_url j OIDC_METADATA_SIGNED_JWKS_URI None) p in
  p ← parse_url_member oidc_cfg_provider_registration_endpoint_url_get oidc_cfg_provider_registration_endpoint_url_set j j_aliases
        OIDC_METADATA_REGISTRATION_ENDPOINT p;
  p ← parse_url_member oidc_cfg_provider_check_session_iframe_get oidc_cfg_provider_check_session_iframe_set j None
        OIDC_METADATA_CHECK_SESSION_IFRAME p;
  parse_url_member oidc_cfg_provider_end_session_endpoint_get oidc_cfg_provider_end_session_endpoint_set j None
    OIDC_METADATA_END_SESSION_ENDPOINT p.

(** The inner [option] is [FALSE], the outer one the fuel of a validator. *)
Definition oidc_metadata_provider_parse (j_provider : json_t) (p : oidc_provider_t) : option (option oidc_provider_t) :=
  let j := Some j_provider in
  let p := if nonnull (oidc_cfg_provider_issuer_get p) then p
           else metadata_set oidc_cfg_provider_issuer_set (oidc_json_object_get_string j OIDC_METADATA_ISSUER None) p in
  p ← parse_endpoint_auth j p;
  Some (
    p ← p;
    let bound := oidc_metadata_provider_cert_bound_tokens_enabled j p in
    let p := oidc_cfg_provider_cert_bound_tokens_int_set (if bound then OIDC_CERT_BOUND_TOKENS_ON else OIDC_CERT_BOUND_TOKENS_OFF) p in
    let j_aliases := if bound then oidc_metadata_mtls_endpoint_aliases_get j else None in
    let p := oidc_cfg_provider_dpop_supported_int_set (oidc_metadata_provider_dpop_supported j) p in
    p ← parse_endpoints j j_aliases p;
    let ivalue := oidc_metadata_parse_boolean j OIDC_METADATA_BACKCHANNEL_LOGOUT_SUPPORTED
                    (oidc_cfg_provider_backchannel_logout_supported_get p) in
    Some (metadata_set_int oidc_cfg_provider_backchannel_logout_supported_set ivalue p)).
End metadata.
