(* ===== verification/MetadataConf.v ===== *)
(** * src/metadata/conf.c, src/metadata/client.c and src/metadata.c: the settings of one of many providers

    What the administrator says about a provider, what a provider says about this client when it is registered, and
    both together with the metadata of the provider. *)

From S2P Require Import Prelude Cstr Apr StrUtil Jansson Json Http Form Url Cookie Base64 Jose Jwt Util ShmCache Cache World.
From S2P Require Import HttpClient Cjose Jwk Jwe JoseLib Jws Pkce Provider Profile JwtCheck Jwks Files CfgParse ClientAuth.
From S2P Require Import Session State ProviderSet Config Metadata.
From coqutil Require Import Datatypes.RecordSetters.
Import TriangleBracketNotations.
#[local] Open Scope Z_scope.

Definition OIDC_METADATA_CLIENT_ID : string := "client_id".
Definition OIDC_METADATA_CLIENT_SECRET : string := "client_secret".
Definition OIDC_METADATA_CLIENT_SECRET_EXPIRES_AT : string := "client_secret_expires_at".
Definition OIDC_METADATA_CLIENT_NAME : string := "client_name".
Definition OIDC_METADATA_REDIRECT_URIS : string := "redirect_uris".
Definition OIDC_METADATA_RESPONSE_TYPES : string := "response_types".
Definition OIDC_METADATA_GRANT_TYPES : string := "grant_types".
Definition OIDC_METADATA_TOKEN_ENDPOINT_AUTH_METHOD : string := "token_endpoint_auth_method".
Definition OIDC_METADATA_CONTACTS : string := "contacts".
Definition OIDC_METADATA_INITIATE_LOGIN_URI : string := "initiate_login_uri".
Definition OIDC_METADATA_FRONTCHANNEL_LOGOUT_URI : string := "frontchannel_logout_uri".
Definition OIDC_METADATA_BACKCHANNEL_LOGOUT_URI : string := "backchannel_logout_uri".
Definition OIDC_METADATA_POST_LOGOUT_REDIRECT_URIS : string := "post_logout_redirect_uris".
Definition OIDC_METADATA_CLIENT_JWKS_URI : string := "client_jwks_uri".
Definition OIDC_METADATA_ID_TOKEN_SIGNED_RESPONSE_ALG : string := "id_token_signed_response_alg".
Definition OIDC_METADATA_ID_TOKEN_ENCRYPTED_RESPONSE_ALG : string := "id_token_encrypted_response_alg".
Definition OIDC_METADATA_ID_TOKEN_ENCRYPTED_RESPONSE_ENC : string := "id_token_encrypted_response_enc".
Definition OIDC_METADATA_ID_TOKEN_AUD_VALUES : string := "id_token_aud_values".
Definition OIDC_METADATA_PROFILE : string := "profile".
Definition OIDC_METADATA_USERINFO_SIGNED_RESPONSE_ALG : string := "userinfo_signed_response_alg".
Definition OIDC_METADATA_USERINFO_ENCRYPTED_RESPONSE_ALG : string := "userinfo_encrypted_response_alg".
Definition OIDC_METADATA_USERINFO_ENCRYPTED_RESPONSE_ENC : string := "userinfo_encrypted_response_enc".
Definition OIDC_METADATA_REQUEST_OBJECT_SIGNING_ALG : string := "request_object_signing_alg".
Definition OIDC_METADATA_SSL_VALIDATE_SERVER : string := "ssl_validate_server".
Definition OIDC_METADATA_VALIDATE_ISSUER : string := "validate_issuer".
Definition OIDC_METADATA_SCOPE : string := "scope".
Definition OIDC_METADATA_JWKS_REFRESH_INTERVAL : string := "jwks_refresh_interval".
Definition OIDC_METADATA_IDTOKEN_IAT_SLACK : string := "idtoken_iat_slack".
Definition OIDC_METADATA_SESSION_MAX_DURATION : string := "session_max_duration".
Definition OIDC_METADATA_AUTH_REQUEST_PARAMS : string := "auth_request_params".
Definition OIDC_METADATA_LOGOUT_REQUEST_PARAMS : string := "logout_request_params".
Definition OIDC_METADATA_TOKEN_ENDPOINT_PARAMS : string := "token_endpoint_params".
Definition OIDC_METADATA_RESPONSE_MODE : string := "response_mode".
Definition OIDC_METADATA_PKCE_METHOD : string := "pkce_method".
Definition OIDC_METADATA_DPOP_MODE : string := "dpop_mode".
Definition OIDC_METADATA_CERT_BOUND_TOKENS : string := "cert_bound_tokens".
Definition OIDC_METADATA_CLIENT_CONTACT : string := "client_contact".
Definition OIDC_METADATA_TOKEN_ENDPOINT_AUTH : string := "token_endpoint_auth".
Definition OIDC_METADATA_REGISTRATION_TOKEN : string := "registration_token".
Definition OIDC_METADATA_REGISTRATION_ENDPOINT_JSON : string := "registration_endpoint_json".
Definition OIDC_METADATA_RESPONSE_TYPE : string := "response_type".
Definition OIDC_METADATA_USERINFO_REFRESH_INTERVAL : string := "userinfo_refresh_interval".
Definition OIDC_METADATA_TOKEN_ENDPOINT_TLS_CLIENT_CERT : string := "token_endpoint_tls_client_cert".
Definition OIDC_METADATA_TOKEN_ENDPOINT_TLS_CLIENT_KEY : string := "token_endpoint_tls_client_key".
Definition OIDC_METADATA_TOKEN_ENDPOINT_TLS_CLIENT_KEY_PWD : string := "token_endpoint_tls_client_key_pwd".
Definition OIDC_METADATA_REQUEST_OBJECT : string := "request_object".
Definition OIDC_METADATA_USERINFO_TOKEN_METHOD : string := "userinfo_token_method".
Definition OIDC_METADATA_AUTH_REQUEST_METHOD : string := "auth_request_method".
Definition OIDC_METADATA_RESPONSE_REQUIRE_ISS : string := "response_require_iss".
Definition OIDC_REQUEST_OBJECT_CRYPTO : string := "crypto".
Definition OIDC_REQUEST_OBJECT_CRYPTO_SIGN_ALG : string := "sign_alg".
Definition OIDC_REDIRECT_URI_REQUEST_JWKS : string := "jwks".
Definition OIDC_REDIRECT_URI_REQUEST_LOGOUT : string := "logout".
Definition OIDC_GET_STYLE_LOGOUT_PARAM_VALUE : string := "get".
Definition OIDC_BACKCHANNEL_STYLE_LOGOUT_PARAM_VALUE : string := "backchannel".

#[local] Open Scope world_scope.

Section conf.
Context {J : Jansson} {O : Jose} {B64 : Base64} {C : Cjose J} {D : Digest} {Zl : Zlib} {H : Httpd} {E : CfgEnv C}.
Context {St : Type} {B : CacheBackend St} {Dk : Disk St}.
Variables (ext : nat -> env) (net : nat -> network) (rnd : nat -> rng) (c : oidc_cfg_t C).

(** The settings that hold for all providers. *)
Definition primary : oidc_provider_t := oidc_cfg_provider_get c.

(** ** src/metadata/conf.c *)

Definition oidc_metadata_conf_jose_is_supported (j_conf : json_t) (key : string) (valid_function : option string -> option string) : bool :=
  match oidc_json_object_get_string (Some j_conf) key None with
  | None => true
  | Some s_value => negb (nonnull (valid_function (Some s_value)))
  end.

Definition oidc_metadata_conf_is_valid (j_conf : json_t) : bool :=
  oidc_metadata_conf_jose_is_supported j_conf OIDC_METADATA_ID_TOKEN_SIGNED_RESPONSE_ALG oidc_cfg_parse_is_valid_signed_response_alg &&
  oidc_metadata_conf_jose_is_supported j_conf OIDC_METADATA_ID_TOKEN_ENCRYPTED_RESPONSE_ALG oidc_cfg_parse_is_valid_encrypted_response_alg &&
  oidc_metadata_conf_jose_is_supported j_conf OIDC_METADATA_ID_TOKEN_ENCRYPTED_RESPONSE_ENC oidc_cfg_parse_is_valid_encrypted_response_enc &&
  oidc_metadata_conf_jose_is_supported j_conf OIDC_METADATA_USERINFO_SIGNED_RESPONSE_ALG oidc_cfg_parse_is_valid_signed_response_alg &&
  oidc_metadata_conf_jose_is_supported j_conf OIDC_METADATA_USERINFO_ENCRYPTED_RESPONSE_ALG oidc_cfg_parse_is_valid_encrypted_response_alg &&
  oidc_metadata_conf_jose_is_supported j_conf OIDC_METADATA_USERINFO_ENCRYPTED_RESPONSE_ENC oidc_cfg_parse_is_valid_encrypted_response_enc.

(** [Some None]: [TRUE] without a file. *)
Definition oidc_metadata_conf_get (issuer : string) : M St (option (option json_t)) :=
  let conf_path := oidc_metadata_conf_path c issuer in
  fi <- (fun w => Some (disk_stat true conf_path (w_cache w), w)) ;;
  match fi with
  | None => ret (Some None)
  | Some _ =>
      j_conf <- oidc_metadata_file_read_json conf_path ;;
      ret (match j_conf with
           | Some j => if oidc_metadata_conf_is_valid j then Some (Some j) else None
           | None => None
           end)
  end.

(** [OIDC_METADATA_CONF_STR], [_INT] and [_BOOL]: the global setting is the default. *)
Definition conf_str (j_conf : option json_t) (key : string) (get : oidc_provider_t -> option string)
  (set : option string -> oidc_provider_t -> option string * oidc_provider_t) (p : oidc_provider_t) : oidc_provider_t :=
  metadata_set set (oidc_json_object_get_string j_conf key (get primary)) p.
Definition conf_int (j_conf : option json_t) (key : string) (get : oidc_provider_t -> Z)
  (set : Z -> oidc_provider_t -> option string * oidc_provider_t) (p : oidc_provider_t) : oidc_provider_t :=
  metadata_set_int set (oidc_json_object_get_int j_conf key (get primary)).2 p.
Definition conf_bool (j_conf : option json_t) (key : string) (get : oidc_provider_t -> Z)
  (set : Z -> oidc_provider_t -> option string * oidc_provider_t) (p : oidc_provider_t) : oidc_provider_t :=
  (set (oidc_metadata_parse_boolean j_conf key (get primary)) p).2.
(** An enumeration that is given by its name, or taken over. *)
Definition conf_enum (j_conf : option json_t) (key : string) (set : option string -> oidc_provider_t -> option string * oidc_provider_t)
  (int_set : oidc_provider_t -> oidc_provider_t) (p : oidc_provider_t) : oidc_provider_t :=
  match oidc_json_object_get_string j_conf key None with
  | Some value => (set (Some value) p).2
  | None => int_set p
  end.

Definition oidc_metadata_conf_parse_profile (j_conf : option json_t) (p : oidc_provider_t) : oidc_provider_t :=
  conf_enum j_conf OIDC_METADATA_PROFILE oidc_cfg_provider_profile_set
    (oidc_cfg_provider_profile_int_set (oidc_cfg_provider_profile_get primary)) p.

Definition oidc_metadata_conf_parse_keys (j_conf : option json_t) (p : oidc_provider_t) : oidc_provider_t :=
  let p := conf_str j_conf OIDC_METADATA_CLIENT_JWKS_URI oidc_cfg_provider_client_jwks_uri_get oidc_cfg_provider_client_jwks_uri_set p in
  let p := match oidc_metadata_get_jwks j_conf None with
           | Some keys => (oidc_cfg_provider_client_keys_set_keys (Some keys) p).2
           | None => p
           end in
  (oidc_cfg_provider_signed_jwks_uri_keys_set (oidc_json_object_get j_conf "signed_jwks_uri_key")
     (oidc_cfg_provider_signed_jwks_uri_keys_get primary) p).2.

(** The values fall back to those of the global profile. *)
Definition oidc_metadata_conf_parse_id_token (j_conf : option json_t) (p : oidc_provider_t) : oidc_provider_t :=
  let p := conf_str j_conf OIDC_METADATA_ID_TOKEN_SIGNED_RESPONSE_ALG oidc_cfg_provider_id_token_signed_response_alg_get
             oidc_cfg_provider_id_token_signed_response_alg_set p in
  let p := conf_str j_conf OIDC_METADATA_ID_TOKEN_ENCRYPTED_RESPONSE_ALG oidc_cfg_provider_id_token_encrypted_response_alg_get
             oidc_cfg_provider_id_token_encrypted_response_alg_set p in
  let p := conf_str j_conf OIDC_METADATA_ID_TOKEN_ENCRYPTED_RESPONSE_ENC oidc_cfg_provider_id_token_encrypted_response_enc_get
             oidc_cfg_provider_id_token_encrypted_response_enc_set p in
  let auds := match oidc_json_object_get_string_array j_conf OIDC_METADATA_ID_TOKEN_AUD_VALUES None with
              | Some l => Some (map Some l)
              | None => oidc_proto_profile_id_token_aud_values_get primary
              end in
  match auds with
  | Some _ => (oidc_cfg_provider_id_token_aud_values_set_str_list auds p).2
  | None => p
  end.

Definition oidc_metadata_conf_parse_userinfo (j_conf : option json_t) (p : oidc_provider_t) : oidc_provider_t :=
  let p := conf_str j_conf OIDC_METADATA_USERINFO_SIGNED_RESPONSE_ALG oidc_cfg_provider_userinfo_signed_response_alg_get
             oidc_cfg_provider_userinfo_signed_response_alg_set p in
  let p := conf_str j_conf OIDC_METADATA_USERINFO_ENCRYPTED_RESPONSE_ALG oidc_cfg_provider_userinfo_encrypted_response_alg_get
             oidc_cfg_provider_userinfo_encrypted_response_alg_set p in
  let p := conf_str j_conf OIDC_METADATA_USERINFO_ENCRYPTED_RESPONSE_ENC oidc_cfg_provider_userinfo_encrypted_response_enc_get
             oidc_cfg_provider_userinfo_encrypted_response_enc_set p in
  let p := conf_int j_conf OIDC_METADATA_USERINFO_REFRESH_INTERVAL oidc_cfg_provider_userinfo_refresh_interval_get
             oidc_cfg_provider_userinfo_refresh_interval_set p in
  conf_enum j_conf OIDC_METADATA_USERINFO_TOKEN_METHOD oidc_cfg_provider_userinfo_token_method_set
    (oidc_cfg_provider_userinfo_token_method_int_set (oidc_cfg_provider_userinfo_token_method_get primary)) p.

Definition oidc_metadata_conf_parse_session (j_conf : option json_t) (p : oidc_provider_t) : oidc_provider_t :=
  let p := conf_bool j_conf OIDC_METADATA_SSL_VALIDATE_SERVER oidc_cfg_provider_ssl_validate_server_get
             oidc_cfg_provider_ssl_validate_server_set p in
  let p := conf_bool j_conf OIDC_METADATA_VALIDATE_ISSUER oidc_cfg_provider_validate_issuer_get oidc_cfg_provider_validate_issuer_set p in
  let p := conf_int j_conf OIDC_METADATA_JWKS_REFRESH_INTERVAL oidc_cfg_provider_jwks_uri_refresh_interval_get
             oidc_cfg_provider_jwks_uri_refresh_interval_set p in
  let p := conf_int j_conf OIDC_METADATA_IDTOKEN_IAT_SLACK oidc_cfg_provider_idtoken_iat_slack_get
             oidc_cfg_provider_idtoken_iat_slack_set p in
  conf_int j_conf OIDC_METADATA_SESSION_MAX_DURATION oidc_cfg_provider_session_max_duration_get
    oidc_cfg_provider_session_max_duration_set p.

Definition oidc_metadata_conf_parse_request_params (j_conf : option json_t) (p : oidc_provider_t) : oidc_provider_t :=
  let p := conf_str j_conf OIDC_METADATA_SCOPE (fun p => Some (oidc_cfg_provider_scope_get p)) oidc_cfg_provider_scope_set p in
  let p := conf_str j_conf OIDC_METADATA_AUTH_REQUEST_PARAMS oidc_cfg_provider_auth_request_params_get
             oidc_cfg_provider_auth_request_params_set p in
  let p := conf_str j_conf OIDC_METADATA_LOGOUT_REQUEST_PARAMS oidc_cfg_provider_logout_request_params_get
             oidc_cfg_provider_logout_request_params_set p in
  let p := conf_str j_conf OIDC_METADATA_TOKEN_ENDPOINT_PARAMS oidc_cfg_provider_token_endpoint_params_get
             oidc_cfg_provider_token_endpoint_params_set p in
  conf_str j_conf OIDC_METADATA_REQUEST_OBJECT oidc_cfg_provider_request_object_get oidc_cfg_provider_request_object_set p.

(** [None] is the fuel of the validator of response types. *)
Definition response_type_set (value : option string) (p : oidc_provider_t) : option oidc_provider_t :=
  if nonnull value then '(_, p) ← oidc_cfg_provider_response_type_set value p; Some p else Some p.

Definition oidc_metadata_conf_parse_response (j_conf : option json_t) (p : oidc_provider_t) : option oidc_provider_t :=
  let p := conf_str j_conf OIDC_METADATA_RESPONSE_MODE oidc_cfg_provider_response_mode_get oidc_cfg_provider_response_mode_set p in
  let p := metadata_set oidc_cfg_provider_pkce_set
             (oidc_json_object_get_string j_conf OIDC_METADATA_PKCE_METHOD (Some (pkce_method (oidc_proto_profile_pkce_get p)))) p in
  p ← response_type_set (oidc_json_object_get_string j_conf OIDC_METADATA_RESPONSE_TYPE None) p;
  Some (metadata_set_int oidc_cfg_provider_response_require_iss_set
          (oidc_metadata_parse_boolean j_conf OIDC_METADATA_RESPONSE_REQUIRE_ISS (oidc_proto_profile_response_require_iss_get p)) p).

Definition oidc_metadata_conf_parse_client (j_conf : option json_t) (p : oidc_provider_t) : oidc_provider_t :=
  let p := conf_str j_conf OIDC_METADATA_CLIENT_NAME (fun p => Some (oidc_cfg_provider_client_name_get p)) oidc_cfg_provider_client_name_set p in
  let p := conf_str j_conf OIDC_METADATA_CLIENT_CONTACT oidc_cfg_provider_client_contact_get oidc_cfg_provider_client_contact_set p in
  let p := conf_str j_conf OIDC_METADATA_REGISTRATION_TOKEN oidc_cfg_provider_registration_token_get
             oidc_cfg_provider_registration_token_set p in
  conf_str j_conf OIDC_METADATA_REGISTRATION_ENDPOINT_JSON oidc_cfg_provider_registration_endpoint_json_get
    oidc_cfg_provider_registration_endpoint_json_set p.

Definition oidc_metadata_conf_parse_endpoint_auth (j_conf : option json_t) (p : oidc_provider_t) : oidc_provider_t :=
  let fallback :=
    match oidc_cfg_provider_token_endpoint_auth_get primary, oidc_cfg_provider_token_endpoint_auth_alg_get primary with
    | Some global_auth, Some global_alg => Some (global_auth ^^ ":" ^^ global_alg)
    | global_auth, _ => global_auth
    end in
  metadata_set (oidc_cfg_provider_token_endpoint_auth_set (has_private_keys c))
    (oidc_json_object_get_string j_conf OIDC_METADATA_TOKEN_ENDPOINT_AUTH fallback) p.

Definition oidc_metadata_conf_parse_tls_client (j_conf : option json_t) (p : oidc_provider_t) : oidc_provider_t :=
  let p := conf_str j_conf OIDC_METADATA_TOKEN_ENDPOINT_TLS_CLIENT_CERT oidc_cfg_provider_token_endpoint_tls_client_cert_get
             oidc_cfg_provider_token_endpoint_tls_client_cert_set p in
  let p := conf_str j_conf OIDC_METADATA_TOKEN_ENDPOINT_TLS_CLIENT_KEY oidc_cfg_provider_token_endpoint_tls_client_key_get
             oidc_cfg_provider_token_endpoint_tls_client_key_set p in
  conf_str j_conf OIDC_METADATA_TOKEN_ENDPOINT_TLS_CLIENT_KEY_PWD oidc_cfg_provider_token_endpoint_tls_client_key_pwd_get
    oidc_cfg_provider_token_endpoint_tls_client_key_pwd_set p.

Definition oidc_metadata_conf_parse_dpop_mode (j_conf : option json_t) (p : oidc_provider_t) : oidc_provider_t :=
  conf_enum j_conf OIDC_METADATA_DPOP_MODE oidc_cfg_provider_dpop_mode_set
    (fun p => oidc_cfg_provider_dpop_mode_int_set (oidc_proto_profile_dpop_mode_get p) p) p.
Definition oidc_metadata_conf_parse_cert_bound_tokens (j_conf : option json_t) (p : oidc_provider_t) : oidc_provider_t :=
  conf_enum j_conf OIDC_METADATA_CERT_BOUND_TOKENS oidc_cfg_provider_cert_bound_tokens_set
    (oidc_cfg_provider_cert_bound_tokens_int_set (oidc_cfg_provider_cert_bound_tokens_get primary)) p.
Definition oidc_metadata_conf_parse_auth_request_method (j_conf : option json_t) (p : oidc_provider_t) : oidc_provider_t :=
  conf_enum j_conf OIDC_METADATA_AUTH_REQUEST_METHOD oidc_cfg_provider_auth_request_method_set
    (fun p => oidc_cfg_provider_auth_request_method_int_set (oidc_proto_profile_auth_request_method_get p) p) p.

Definition oidc_metadata_conf_parse_pre_provider (j_conf : option json_t) (p : oidc_provider_t) : oidc_provider_t :=
  oidc_metadata_conf_parse_cert_bound_tokens j_conf
    (oidc_metadata_conf_parse_tls_client j_conf
       (oidc_metadata_conf_parse_endpoint_auth j_conf (oidc_metadata_conf_parse_profile j_conf p))).

(** It always returns [TRUE]; [None] is fuel. *)
Definition oidc_metadata_conf_parse (j_conf : option json_t) (p : oidc_provider_t) : option oidc_provider_t :=
  let p := oidc_metadata_conf_parse_profile j_conf p in
  let p := oidc_metadata_conf_parse_keys j_conf p in
  let p := oidc_metadata_conf_parse_id_token j_conf p in
  let p := oidc_metadata_conf_parse_userinfo j_conf p in
  let p := oidc_metadata_conf_parse_session j_conf p in
  let p := oidc_metadata_conf_parse_request_params j_conf p in
  p ← oidc_metadata_conf_parse_response j_conf p;
  let p := oidc_metadata_conf_parse_client j_conf p in
  let p := oidc_metadata_conf_parse_endpoint_auth j_conf p in
  let p := oidc_metadata_conf_parse_tls_client j_conf p in
  let p := oidc_metadata_conf_parse_dpop_mode j_conf p in
  Some (oidc_metadata_conf_parse_auth_request_method j_conf p).

(** ** src/metadata/client.c *)

Definition oidc_metadata_client_is_valid (j_client : json_t) : M St bool :=
  let j := Some j_client in
  match oidc_json_object_get_string j OIDC_METADATA_CLIENT_ID None with
  | None => ret false
  | Some _ =>
      let expires_at := oidc_json_object_get j OIDC_METADATA_CLIENT_SECRET_EXPIRES_AT in
      if negb (oidc_json_is_integer expires_at) then ret true
      else if oidc_json_integer_value expires_at =? 0 then ret true
      else t <- apr_time_now ext ;; ret (negb (oidc_json_integer_value expires_at <? apr_time_sec t))
  end.

(** [{key: value}] is added when there is a value. *)
Definition set_member (key : string) (value : option string) (data : json_t) : json_t :=
  if nonnull value then oidc_json_object_set_new data key (oidc_json_string value) else data.
Definition string_array (l : list (option string)) : json_t :=
  fold_left (fun a s => oidc_json_array_append_new a (oidc_json_string s)) l oidc_json_array.

(** The redirect URI with a query of this module. *)
Definition redirect_uri_with (r : request) (query : string) : option string :=
  uri ← oidc_util_url_redirect_uri r (oidc_cfg_x_forwarded_headers_get c) (pc_redirect_uri (cfg_proto c));
  Some (pr uri ^^ "?" ^^ query).

(** The body of the registration request; the outer [option] is fuel, the inner one [FALSE]. *)
Definition registration_data (r : request) (p : oidc_provider_t) : option (option json_t) :=
  redirect_uri ← oidc_util_url_redirect_uri r (oidc_cfg_x_forwarded_headers_get c) (pc_redirect_uri (cfg_proto c));
  let data := oidc_json_object_set_new oidc_json_object OIDC_METADATA_CLIENT_NAME
                (oidc_json_string (Some (oidc_cfg_provider_client_name_get p))) in
  let data := oidc_json_object_set_new data OIDC_METADATA_REDIRECT_URIS (Some (string_array [redirect_uri])) in
  let data := oidc_json_object_set_new data OIDC_METADATA_RESPONSE_TYPES (Some (string_array (map Some oidc_proto_supported_flows))) in
  let data := oidc_json_object_set_new data OIDC_METADATA_GRANT_TYPES
                (Some (string_array (map Some ["authorization_code"; "implicit"; "refresh_token"]))) in
  let data := set_member OIDC_METADATA_TOKEN_ENDPOINT_AUTH_METHOD (oidc_cfg_provider_token_endpoint_auth_get p) data in
  let data :=
    if (oidc_cfg_provider_cert_bound_tokens_get p =? OIDC_CERT_BOUND_TOKENS_ON) ||
       oidc_cfg_endpoint_auth_is_mtls (oidc_cfg_provider_token_endpoint_auth_get p)
    then oidc_json_object_set_new data OIDC_METADATA_TLS_CLIENT_CERTIFICATE_BOUND_ACCESS_TOKENS (Some (oidc_json_boolean true))
    else data in
  let data :=
    if nonnull (oidc_cfg_provider_client_contact_get p)
    then oidc_json_object_set_new data OIDC_METADATA_CONTACTS (Some (string_array [oidc_cfg_provider_client_contact_get p])) else data in
  jwks ← redirect_uri_with r (OIDC_REDIRECT_URI_REQUEST_JWKS ^^ "=rsa");
  let data :=
    if nonnull (oidc_cfg_provider_client_jwks_uri_get p) then set_member OIDC_METADATA_JWKS_URI (oidc_cfg_provider_client_jwks_uri_get p) data
    else if nonnull (oidc_cfg_public_keys_get c) then set_member OIDC_METADATA_JWKS_URI (Some jwks) data
    else data in
  let data := set_member OIDC_METADATA_ID_TOKEN_SIGNED_RESPONSE_ALG (oidc_cfg_provider_id_token_signed_response_alg_get p) data in
  let data := set_member OIDC_METADATA_ID_TOKEN_ENCRYPTED_RESPONSE_ALG (oidc_cfg_provider_id_token_encrypted_response_alg_get p) data in
  let data := set_member OIDC_METADATA_ID_TOKEN_ENCRYPTED_RESPONSE_ENC (oidc_cfg_provider_id_token_encrypted_response_enc_get p) data in
  let data := set_member OIDC_METADATA_USERINFO_SIGNED_RESPONSE_ALG (oidc_cfg_provider_userinfo_signed_response_alg_get p) data in
  let data := set_member OIDC_METADATA_USERINFO_ENCRYPTED_RESPONSE_ALG (oidc_cfg_provider_userinfo_encrypted_response_alg_get p) data in
  let data := set_member OIDC_METADATA_USERINFO_ENCRYPTED_RESPONSE_ENC (oidc_cfg_provider_userinfo_encrypted_response_enc_get p) data in
  let data :=
    match oidc_cfg_provider_request_object_get p with
    | Some s =>
        match oidc_json_decode_object (Some s) with
        | Some request_object_config =>
            let crypto := oidc_json_object_get (Some request_object_config) OIDC_REQUEST_OBJECT_CRYPTO in
            oidc_json_object_set_new data OIDC_METADATA_REQUEST_OBJECT_SIGNING_ALG
              (oidc_json_string (oidc_json_object_get_string crypto OIDC_REQUEST_OBJECT_CRYPTO_SIGN_ALG (Some "none")))
        | None => data
        end
    | None => data
    end in
  let data := oidc_json_object_set_new data OIDC_METADATA_INITIATE_LOGIN_URI (oidc_json_string redirect_uri) in
  front ← redirect_uri_with r (OIDC_REDIRECT_URI_REQUEST_LOGOUT ^^ "=" ^^ OIDC_GET_STYLE_LOGOUT_PARAM_VALUE);
  let data := oidc_json_object_set_new data OIDC_METADATA_FRONTCHANNEL_LOGOUT_URI (oidc_json_string (Some front)) in
  back ← redirect_uri_with r (OIDC_REDIRECT_URI_REQUEST_LOGOUT ^^ "=" ^^ OIDC_BACKCHANNEL_STYLE_LOGOUT_PARAM_VALUE);
  let data := oidc_json_object_set_new data OIDC_METADATA_BACKCHANNEL_LOGOUT_URI (oidc_json_string (Some back)) in
  slo ← oidc_util_url_abs r (oidc_cfg_x_forwarded_headers_get c) (oidc_cfg_default_slo_url_get c);
  let data :=
    if nonnull (oidc_cfg_default_slo_url_get c)
    then oidc_json_object_set_new data OIDC_METADATA_POST_LOGOUT_REDIRECT_URIS (Some (string_array [slo])) else data in
  Some (match oidc_cfg_provider_registration_endpoint_json_get p with
        | Some s =>
            match oidc_json_decode_object (Some s) with
            | Some json => (oidc_json_merge (Some json) (Some data)).2
            | None => None
            end
        | None => Some data
        end).

Definition registration_args (p : oidc_provider_t) : http_args :=
  mk_http_args None (oidc_cfg_provider_registration_token_get p) None (negb (oidc_cfg_provider_ssl_validate_server_get p =? 0))
    (pc_http_timeout_short (cfg_proto c)) (pc_outgoing_proxy (cfg_proto c)) (pc_pass_cookies (cfg_proto c))
    (oidc_cfg_provider_token_endpoint_tls_client_cert_get p) (oidc_cfg_provider_token_endpoint_tls_client_key_get p)
    (oidc_cfg_provider_token_endpoint_tls_client_key_pwd_get p).

(** The metadata and the response; [None] is [FALSE]. *)
Definition oidc_metadata_client_register (p : oidc_provider_t) : M St (option (json_t * option string)) :=
  r <- get_req ;;
  data <- lift (registration_data r p) ;;
  match data with
  | None => ret None
  | Some data =>
      result <- (fun w => Some (oidc_http_post_json (net (w_calls w)) (pc_client (cfg_proto c)) (w_req w) (registration_args p)
                                  (oidc_cfg_provider_registration_endpoint_url_get p) (Some data) ∅,
                                mk_world (w_req w) (w_cache w) (S (w_calls w)))) ;;
      ret (x ← result; j_client ← oidc_json_decode_and_check_error (hr_response x); Some (j_client, hr_response x))
  end.

(** [None] is [FALSE]. *)
Definition oidc_metadata_client_get (issuer : string) (p : oidc_provider_t) : M St (option json_t) :=
  let client_path := oidc_metadata_client_file_path c issuer in
  j_client <- oidc_metadata_file_read_json client_path ;;
  ok <- (match j_client with Some j => oidc_metadata_client_is_valid j | None => ret false end) ;;
  if (ok : bool) then ret j_client
  else
    match oidc_cfg_provider_registration_endpoint_url_get p with
    | None => ret None
    | Some _ =>
        registered <- oidc_metadata_client_register p ;;
        match registered with
        | None => ret None
        | Some (j_client, response) =>
            ok <- oidc_metadata_client_is_valid j_client ;;
            if negb ok then ret None
            else
              ok <- oidc_util_file_write rnd client_path response ;;
              ret (if (ok : bool) then Some j_client else None)
        end
    end.

Definition oidc_metadata_client_parse_token_endpoint_auth (j_client : json_t) (p : oidc_provider_t) : oidc_provider_t :=
  metadata_set (oidc_cfg_provider_token_endpoint_auth_set (has_private_keys c))
    (oidc_json_object_get_string (Some j_client) OIDC_METADATA_TOKEN_ENDPOINT_AUTH_METHOD None) p.

(** [None] is fuel. *)
Definition oidc_metadata_client_parse_response_type (j_client : json_t) (p : oidc_provider_t) : option oidc_provider_t :=
  if oidc_cfg_provider_response_type_is_set p then Some p
  else
    '(_, p) ← oidc_cfg_provider_response_type_set (Some (oidc_cfg_provider_response_type_get primary)) p;
    let j_response_types := oidc_json_object_get (Some j_client) OIDC_METADATA_RESPONSE_TYPES in
    if negb (oidc_json_is_array j_response_types) then Some p
    else if oidc_json_array_has_value j_response_types (Some (oidc_cfg_provider_response_type_get p)) then Some p
    else
      let j_response_type := oidc_json_array_get j_response_types 0 in
      if oidc_json_is_string j_response_type then response_type_set (oidc_json_string_value j_response_type) p else Some p.

(** It always returns [TRUE]; [None] is fuel. *)
Definition oidc_metadata_client_parse (j_client : json_t) (p : oidc_provider_t) : option oidc_provider_t :=
  let j := Some j_client in
  let p := metadata_set oidc_cfg_provider_client_id_set (oidc_json_object_get_string j OIDC_METADATA_CLIENT_ID None) p in
  let p := metadata_set oidc_cfg_provider_client_secret_set (oidc_json_object_get_string j OIDC_METADATA_CLIENT_SECRET None) p in
  let p := oidc_metadata_client_parse_token_endpoint_auth j_client p in
  p ← oidc_metadata_client_parse_response_type j_client p;
  Some (metadata_set oidc_cfg_provider_id_token_signed_response_alg_set
          (oidc_json_object_get_string j OIDC_METADATA_ID_TOKEN_SIGNED_RESPONSE_ALG
             (oidc_cfg_provider_id_token_signed_response_alg_get primary)) p).

(** ** src/metadata.c *)

(** [None] is [FALSE]. *)
Definition oidc_metadata_get (issuer : string) (allow_discovery : bool) : M St (option oidc_provider_t) :=
  let p := oidc_cfg_provider_create in
  j_provider <- oidc_metadata_provider_get ext net rnd c issuer allow_discovery ;;
  match j_provider with
  | None => ret None
  | Some j_provider =>
      j_conf <- oidc_metadata_conf_get issuer ;;
      match j_conf with
      | None => ret None
      | Some j_conf =>
          let p := oidc_metadata_conf_parse_pre_provider j_conf p in
          p <- lift (oidc_metadata_provider_parse c j_provider p) ;;
          match p with
          | None => ret None
          | Some p =>
              p <- lift (oidc_metadata_conf_parse j_conf p) ;;
              j_client <- oidc_metadata_client_get issuer p ;;
              match j_client with
              | None => ret None
              | Some j_client => p <- lift (oidc_metadata_client_parse j_client p) ;; ret (Some p)
              end
          end
      end
  end.

(** The issuers of the files of a directory. *)
Fixpoint list_loop (names : list string) (issuers : list (option string)) : M St (list (option string)) :=
  match names with
  | [] => ret issuers
  | name :: names =>
      let provider_file :=
        match name, strrchr name "." with
        | String ch _, Some dot =>
            negb (Ascii.eqb ch ".") && (_oidc_strcmp (Some (str_drop (S dot) name)) (Some OIDC_METADATA_SUFFIX_PROVIDER) =? 0)
        | _, _ => false
        end in
      if negb provider_file then list_loop names issuers
      else
        issuer <- lift (oidc_metadata_filename_to_issuer name) ;;
        j_provider <- oidc_metadata_file_read_json (pr (oidc_cfg_metadata_dir_get c) ^^ "/" ^^ name) ;;
        let issuer := default issuer (j ← j_provider; oidc_json_object_get_string (Some j) OIDC_METADATA_ISSUER None) in
        p <- oidc_metadata_get issuer false ;;
        list_loop names (match p with Some p => issuers ++ [oidc_cfg_provider_issuer_get p] | None => issuers end)
  end.

(** [None] is [FALSE]. *)
Definition oidc_metadata_list : M St (option (list (option string))) :=
  match oidc_cfg_metadata_dir_get c with
  | None => ret None
  | Some dir =>
      names <- (fun w => Some (disk_dir dir (w_cache w), w)) ;;
      match names with
      | None => ret None
      | Some names => l <- list_loop names [] ;; ret (Some l)
      end
  end.
End conf.
