(* ===== verification/ProviderLookup.v ===== *)
(** * src/mod_auth_openidc.c: the provider of a request

    One provider is configured statically, with metadata from a URL or none; with a metadata directory the provider is
    that of the issuer. *)

From S2P Require Import Prelude Cstr Apr StrUtil Jansson Json Http Form Url Cookie Base64 Jose Jwt Util ShmCache Cache World.
From S2P Require Import HttpClient Cjose Jwk Jwe JoseLib Jws Pkce Provider Profile JwtCheck Jwks Files CfgParse ClientAuth.
From S2P Require Import Session SessionAttr State ProviderSet Config Metadata MetadataConf.
#[local] Open Scope Z_scope.
#[local] Open Scope world_scope.

Definition OIDC_CACHE_SECTION_PROVIDER : string := "p".
Definition OIDC_CACHE_PROVIDER_METADATA_EXPIRY_DEFAULT : Z := 86400.

Section lookup.
Context {J : Jansson} {O : Jose} {B64 : Base64} {C : Cjose J} {D : Digest} {Zl : Zlib} {H : Httpd} {E : CfgEnv C}.
Context {St : Type} {B : CacheBackend St} {Dk : Disk St}.
Variables (ext : nat -> env) (net : nat -> network) (rnd : nat -> rng) (c : oidc_cfg_t C).

Definition oidc_cache_get_provider := cache_get (St:=St) ext (pc_cache (cfg_proto c)) OIDC_CACHE_SECTION_PROVIDER.
Definition oidc_cache_set_provider := cache_set (St:=St) ext (pc_cache (cfg_proto c)) OIDC_CACHE_SECTION_PROVIDER.

(** The outer [option] is the fuel of a validator, the inner one [FALSE]. *)
Definition oidc_provider_validate_metadata_str (s_json : option string) (decode_only : bool) : option (option json_t) :=
  match oidc_json_decode_object s_json with
  | None => Some None
  | Some j =>
      if decode_only then Some (Some j)
      else ok ← oidc_metadata_provider_is_valid c j None; Some (if (ok : bool) then Some j else None)
  end.

(** [None] is [FALSE]. *)
Definition oidc_provider_static_config : M St (option oidc_provider_t) :=
  let url := oidc_cfg_provider_metadata_url_get (oidc_cfg_provider_get c) in
  if nonnull (oidc_cfg_metadata_dir_get c) || negb (nonnull url) then ret (Some (oidc_cfg_provider_get c))
  else
    '(_, s_json) <- oidc_cache_get_provider url ;;
    cached <- lift (if nonnull s_json then oidc_provider_validate_metadata_str s_json true else Some None) ;;
    j_provider <-
      match cached with
      | Some j => ret (Some j)
      | None =>
          retrieved <- oidc_metadata_provider_retrieve net c None url ;;
          match retrieved with
          | None => ret None
          | Some (_, s_json) =>
              valid <- lift (oidc_provider_validate_metadata_str s_json false) ;;
              match valid with
              | None => ret None
              | Some j =>
                  t <- apr_time_now ext ;;
                  let interval := oidc_cfg_provider_metadata_refresh_interval_get c in
                  _ <- oidc_cache_set_provider url s_json
                         (t + apr_time_from_sec (if interval <=? 0 then OIDC_CACHE_PROVIDER_METADATA_EXPIRY_DEFAULT else interval)) ;;
                  ret (Some j)
              end
          end
      end ;;
    match j_provider with
    | None => ret None
    | Some j => lift (oidc_metadata_provider_parse c j (oidc_cfg_provider_copy (oidc_cfg_provider_get c)))
    end.

(** [None] is [NULL]. *)
Definition oidc_get_provider_for_issuer (issuer : string) (allow_discovery : bool) : M St (option oidc_provider_t) :=
  provider <- oidc_provider_static_config ;;
  match provider with
  | None => ret None
  | Some provider =>
      if nonnull (oidc_cfg_metadata_dir_get c) then oidc_metadata_get ext net rnd c issuer allow_discovery
      else ret (Some provider)
  end.

(** [None] is [FALSE]. *)
Definition oidc_get_provider_from_session (session : oidc_session_t) : M St (option oidc_provider_t) :=
  match oidc_session_get_issuer session with
  | None => ret None
  | Some issuer => oidc_get_provider_for_issuer issuer false
  end.
End lookup.
