(* ===== verification/Response.v ===== *)
(** * src/proto/response.c: authorization responses

    The checks of a response against the request, and the flows: each is a computation that gives the
    ID token and the parameters of the response with the tokens from the token endpoint. *)

From S2P Require Import Prelude Cstr Apr StrUtil Jansson Json Http Form Url Cookie Base64 Jose Jwt Util ShmCache Cache World.
From S2P Require Import HttpClient Cjose Jwk Jwe JoseLib Jws Pkce Provider Profile JwtCheck Jwks IdToken IdTokenProps ClientAuth Token ProtoState.
#[local] Open Scope Z_scope.

Definition OIDC_PROTO_ISS : string := "iss".
Definition OIDC_PROTO_CODE : string := "code".
Definition OIDC_PROTO_STATE : string := "state".
Definition OIDC_PROTO_REDIRECT_URI : string := "redirect_uri".
Definition OIDC_PROTO_CODE_VERIFIER : string := "code_verifier".
Definition OIDC_PROTO_GRANT_TYPE_AUTHZ_CODE : string := "authorization_code".
Definition OIDC_PROTO_RESPONSE_TYPE_CODE : string := "code".
Definition OIDC_PROTO_RESPONSE_TYPE_IDTOKEN : string := "id_token".
Definition OIDC_PROTO_RESPONSE_TYPE_TOKEN : string := "token".
Definition OIDC_PROTO_RESPONSE_TYPE_CODE_TOKEN : string := "code token".
Definition OIDC_PROTO_RESPONSE_MODE_QUERY : string := "query".
Definition OIDC_PROTO_RESPONSE_MODE_FRAGMENT : string := "fragment".
Definition OIDC_PROTO_RESPONSE_MODE_FORM_POST : string := "form_post".

#[local] Open Scope world_scope.

Section response.
Context {J : Jansson} {O : Jose} {B64 : Base64} {C : Cjose J} {CE : CjoseExport C} {D : Digest} {Zl : Zlib} {H : Httpd}.
Context {Mem : CryptoMemcmp} {St : Type} {B : CacheBackend St}.
Variables (ext : nat -> env) (net : nat -> network) (rnd : nat -> rng) (c : proto_cfg C).

Definition oidc_proto_response_is_post (r : request) : bool := r_method_number r =? M_POST.

Definition oidc_proto_response_is_redirect (r : request) : bool :=
  (r_method_number r =? M_GET) &&
  (oidc_util_url_has_parameter r OIDC_PROTO_ID_TOKEN || oidc_util_url_has_parameter r OIDC_PROTO_CODE).

(** ** The checks; the [option] is the fuel of splitting the response type. *)

Definition contains (response_type value : string) : option bool :=
  oidc_util_spaced_string_contains (Some response_type) (Some value).

Definition oidc_proto_validate_code_response (response_type : string) (id_token access_token token_type : option string)
  : option bool :=
  has_id_token ← contains response_type OIDC_PROTO_RESPONSE_TYPE_IDTOKEN;
  if negb has_id_token && negb (nonnull id_token) then Some false
  else
    has_token ← contains response_type OIDC_PROTO_RESPONSE_TYPE_TOKEN;
    Some (has_token || (nonnull access_token && nonnull token_type)).

(** A value is there when, and only when, it was asked for. *)
Definition oidc_proto_validate_response_type (requested_response_type : string) (code id_token access_token : option string)
  : option bool :=
  has_code ← contains requested_response_type OIDC_PROTO_RESPONSE_TYPE_CODE;
  if negb (Bool.eqb has_code (nonnull code)) then Some false
  else
    has_id_token ← contains requested_response_type OIDC_PROTO_RESPONSE_TYPE_IDTOKEN;
    if negb (Bool.eqb has_id_token (nonnull id_token)) then Some false
    else
      has_token ← contains requested_response_type OIDC_PROTO_RESPONSE_TYPE_TOKEN;
      Some (Bool.eqb has_token (nonnull access_token)).

Definition oidc_proto_validate_response_mode (proto_state : oidc_proto_state_t) (response_mode default_response_mode : string)
  : bool :=
  let requested_response_mode := default default_response_mode (oidc_proto_state_get_response_mode proto_state) in
  _oidc_strcmp (Some requested_response_mode) (Some response_mode) =? 0.

Definition oidc_proto_validate_issuer_client_id (configured_issuer response_issuer : option string) (require_issuer : Z)
  (configured_client_id response_client_id : option string) : bool :=
  (if nonnull response_issuer then _oidc_strcmp configured_issuer response_issuer =? 0 else require_issuer =? 0) &&
  (negb (nonnull response_client_id) || (_oidc_strcmp configured_client_id response_client_id =? 0)).

Definition oidc_proto_validate_response_type_mode_issuer (requested_response_type : string) (params : table)
  (proto_state : oidc_proto_state_t) (response_mode default_response_mode : string) (provider : oidc_provider_t)
  : option bool :=
  let get := apr_table_get params in
  if negb (oidc_proto_validate_issuer_client_id (oidc_cfg_provider_issuer_get provider) (get OIDC_PROTO_ISS)
             (oidc_proto_profile_response_require_iss_get provider) (oidc_cfg_provider_client_id_get provider)
             (get OIDC_PROTO_CLIENT_ID)) then Some false
  else
    ok ← oidc_proto_validate_response_type requested_response_type (get OIDC_PROTO_CODE) (get OIDC_PROTO_ID_TOKEN)
           (get OIDC_PROTO_ACCESS_TOKEN);
    if negb ok then Some false
    else Some (oidc_proto_validate_response_mode proto_state response_mode default_response_mode).

(** ** The ID token and the code *)

(** [None] is [FALSE] with [*jwt = NULL]; a missing ID token cannot be parsed. *)
Definition oidc_proto_parse_idtoken_and_validate_code (proto_state : oidc_proto_state_t) (provider : oidc_provider_t)
  (response_type : string) (params : table) (must_validate_code : bool) : M St (option oidc_jwt_t) :=
  let code := apr_table_get params OIDC_PROTO_CODE in
  has_code <- lift (contains response_type OIDC_PROTO_RESPONSE_TYPE_CODE) ;;
  has_id_token <- lift (if (has_code : bool) then contains response_type OIDC_PROTO_RESPONSE_TYPE_IDTOKEN else Some false) ;;
  let is_code_flow := has_code && negb has_id_token in
  match apr_table_get params OIDC_PROTO_ID_TOKEN with
  | None => ret None
  | Some id_token =>
      jwt <- oidc_proto_idtoken_parse ext net c provider id_token (oidc_proto_state_get_nonce proto_state) is_code_flow ;;
      match (jwt : option oidc_jwt_t) with
      | None => ret None
      | Some jwt =>
          if must_validate_code then
            ok <- lift (oidc_proto_idtoken_validate_code jwt (Some response_type) (default "" code)) ;;
            ret (if (ok : bool) then Some jwt else None)
          else ret (Some jwt)
      end
  end.

Definition oidc_proto_resolve_code (provider : oidc_provider_t) (code code_verifier state : option string)
  : M St (option tokens) :=
  r <- get_req ;;
  redirect_uri <- lift (oidc_util_url_redirect_uri r (pc_x_forwarded_headers c) (pc_redirect_uri c)) ;;
  let params := apr_table_set [] OIDC_PROTO_GRANT_TYPE OIDC_PROTO_GRANT_TYPE_AUTHZ_CODE in
  let params := apr_table_set params OIDC_PROTO_CODE (default "" code) in
  let params := apr_table_set params OIDC_PROTO_REDIRECT_URI (default "" redirect_uri) in
  let params := match code_verifier with Some v => apr_table_set params OIDC_PROTO_CODE_VERIFIER v | None => params end in
  let params := match pc_metadata_dir c, state with
                | Some _, Some s => apr_table_set params OIDC_PROTO_STATE s
                | _, _ => params
                end in
  oidc_proto_token_endpoint_request ext net rnd c provider params.

Definition set_param (params : table) (key : string) (value : option string) : table :=
  match value with Some v => apr_table_set params key v | None => params end.

(** What the token endpoint returned is entered: an ID token only when there is none yet. *)
Definition enter_tokens (params : table) (t : tokens) : table :=
  let params := match apr_table_get params OIDC_PROTO_ID_TOKEN with
                | None => set_param params OIDC_PROTO_ID_TOKEN (tk_id_token t)
                | Some _ => params
                end in
  let params :=
    match tk_access_token t with
    | Some access_token =>
        let params := apr_table_set params OIDC_PROTO_ACCESS_TOKEN access_token in
        let params := set_param params OIDC_PROTO_TOKEN_TYPE (tk_token_type t) in
        if tk_expires_in t =? -1 then params
        else apr_table_set params OIDC_PROTO_EXPIRES_IN (pretty (tk_expires_in t))
    | None => params
    end in
  set_param (set_param params OIDC_PROTO_REFRESH_TOKEN (tk_refresh_token t)) OIDC_PROTO_SCOPE (tk_scope t).

(** The parameters, [None] when the function returns [FALSE]. *)
Definition oidc_proto_resolve_code_and_validate_response (provider : oidc_provider_t) (response_type : string) (params : table)
  (proto_state : oidc_proto_state_t) : M St (option table) :=
  let code_verifier :=
    verifier ← pkce_verifier (oidc_proto_profile_pkce_get provider);
    s ← oidc_proto_state_get_pkce_state proto_state;
    verifier s in
  t <- oidc_proto_resolve_code provider (apr_table_get params OIDC_PROTO_CODE) code_verifier
         (oidc_proto_state_get_state proto_state) ;;
  match (t : option tokens) with
  | None => ret None
  | Some t =>
      ok <- lift (oidc_proto_validate_code_response response_type (tk_id_token t) (tk_access_token t) (tk_token_type t)) ;;
      ret (if (ok : bool) then Some (enter_tokens params t) else None)
  end.

(** What does not belong in the front channel. *)
Definition strip : list (string * list string) :=
  [(OIDC_PROTO_RESPONSE_TYPE_CODE,
     [OIDC_PROTO_ACCESS_TOKEN; OIDC_PROTO_TOKEN_TYPE; OIDC_PROTO_EXPIRES_IN; OIDC_PROTO_ID_TOKEN; OIDC_PROTO_REFRESH_TOKEN;
      OIDC_PROTO_SCOPE]);
   (OIDC_PROTO_RESPONSE_TYPE_CODE_IDTOKEN,
     [OIDC_PROTO_ACCESS_TOKEN; OIDC_PROTO_TOKEN_TYPE; OIDC_PROTO_EXPIRES_IN; OIDC_PROTO_REFRESH_TOKEN; OIDC_PROTO_SCOPE]);
   (OIDC_PROTO_RESPONSE_TYPE_CODE_TOKEN, [OIDC_PROTO_ID_TOKEN; OIDC_PROTO_REFRESH_TOKEN; OIDC_PROTO_SCOPE]);
   (OIDC_PROTO_RESPONSE_TYPE_CODE_IDTOKEN_TOKEN, [OIDC_PROTO_REFRESH_TOKEN; OIDC_PROTO_SCOPE]);
   (OIDC_PROTO_RESPONSE_TYPE_IDTOKEN_TOKEN, [OIDC_PROTO_REFRESH_TOKEN]);
   (OIDC_PROTO_RESPONSE_TYPE_IDTOKEN, [OIDC_PROTO_TOKEN_TYPE; OIDC_PROTO_EXPIRES_IN; OIDC_PROTO_REFRESH_TOKEN])].

Definition oidc_proto_response_strip_params (params : table) (response_type : string) : table :=
  match List.find (fun s => _oidc_strcmp (Some response_type) (Some s.1) =? 0) strip with
  | Some s => foldl apr_table_unset params s.2
  | None => params
  end.

(** ** The flows: the ID token and the parameters, [None] when they return [FALSE] *)

Definition flow_result : Type := option (oidc_jwt_t * table).

Definition oidc_proto_response_code_idtoken (proto_state : oidc_proto_state_t) (provider : oidc_provider_t) (params : table)
  (response_mode : string) : M St flow_result :=
  let response_type := OIDC_PROTO_RESPONSE_TYPE_CODE_IDTOKEN in
  ok <- lift (oidc_proto_validate_response_type_mode_issuer response_type params proto_state response_mode
                OIDC_PROTO_RESPONSE_MODE_FRAGMENT provider) ;;
  if negb ok then ret None
  else
    jwt <- oidc_proto_parse_idtoken_and_validate_code proto_state provider response_type params true ;;
    match (jwt : option oidc_jwt_t) with
    | None => ret None
    | Some jwt =>
        let params := oidc_proto_response_strip_params params response_type in
        params <- oidc_proto_resolve_code_and_validate_response provider response_type params proto_state ;;
        ret (params ← params; Some (jwt, params))
    end.

Definition oidc_proto_response_code_token (proto_state : oidc_proto_state_t) (provider : oidc_provider_t) (params : table)
  (response_mode : string) : M St flow_result :=
  let response_type := OIDC_PROTO_RESPONSE_TYPE_CODE_TOKEN in
  ok <- lift (oidc_proto_validate_response_type_mode_issuer response_type params proto_state response_mode
                OIDC_PROTO_RESPONSE_MODE_FRAGMENT provider) ;;
  if negb ok then ret None
  else
    let params := oidc_proto_response_strip_params params response_type in
    params <- oidc_proto_resolve_code_and_validate_response provider response_type params proto_state ;;
    match (params : option table) with
    | None => ret None
    | Some params =>
        jwt <- oidc_proto_parse_idtoken_and_validate_code proto_state provider response_type params false ;;
        ret (jwt ← jwt; Some (jwt, params))
    end.

(** Checking the access token against the ID token. *)
Definition access_token_ok (jwt : oidc_jwt_t) (response_type : string) (params : table) : option bool :=
  oidc_proto_idtoken_validate_access_token jwt (Some response_type) (default "" (apr_table_get params OIDC_PROTO_ACCESS_TOKEN)).

Definition oidc_proto_response_code (proto_state : oidc_proto_state_t) (provider : oidc_provider_t) (params : table)
  (response_mode : string) : M St flow_result :=
  let response_type := OIDC_PROTO_RESPONSE_TYPE_CODE in
  ok <- lift (oidc_proto_validate_response_type_mode_issuer response_type params proto_state response_mode
                OIDC_PROTO_RESPONSE_MODE_QUERY provider) ;;
  if negb ok then ret None
  else
    let params := oidc_proto_response_strip_params params response_type in
    params <- oidc_proto_resolve_code_and_validate_response provider response_type params proto_state ;;
    match (params : option table) with
    | None => ret None
    | Some params =>
        jwt <- oidc_proto_parse_idtoken_and_validate_code proto_state provider response_type params true ;;
        match (jwt : option oidc_jwt_t) with
        | None => ret None
        | Some jwt =>
            ok <- lift (if nonnull (apr_table_get params OIDC_PROTO_ACCESS_TOKEN)
                        then access_token_ok jwt response_type params else Some true) ;;
            ret (if (ok : bool) then Some (jwt, params) else None)
        end
    end.

Definition oidc_proto_handle_implicit_flow (response_type : string) (proto_state : oidc_proto_state_t)
  (provider : oidc_provider_t) (params : table) (response_mode : string) : M St (option oidc_jwt_t) :=
  ok <- lift (oidc_proto_validate_response_type_mode_issuer response_type params proto_state response_mode
                OIDC_PROTO_RESPONSE_MODE_FRAGMENT provider) ;;
  if negb ok then ret None
  else oidc_proto_parse_idtoken_and_validate_code proto_state provider response_type params true.

Definition oidc_proto_response_code_idtoken_token (proto_state : oidc_proto_state_t) (provider : oidc_provider_t)
  (params : table) (response_mode : string) : M St flow_result :=
  let response_type := OIDC_PROTO_RESPONSE_TYPE_CODE_IDTOKEN_TOKEN in
  jwt <- oidc_proto_handle_implicit_flow response_type proto_state provider params response_mode ;;
  match (jwt : option oidc_jwt_t) with
  | None => ret None
  | Some jwt =>
      ok <- lift (access_token_ok jwt response_type params) ;;
      if negb ok then ret None
      else
        let params := oidc_proto_response_strip_params params response_type in
        params <- oidc_proto_resolve_code_and_validate_response provider response_type params proto_state ;;
        ret (params ← params; Some (jwt, params))
  end.

Definition oidc_proto_response_idtoken_token (proto_state : oidc_proto_state_t) (provider : oidc_provider_t)
  (params : table) (response_mode : string) : M St flow_result :=
  let response_type := OIDC_PROTO_RESPONSE_TYPE_IDTOKEN_TOKEN in
  jwt <- oidc_proto_handle_implicit_flow response_type proto_state provider params response_mode ;;
  match (jwt : option oidc_jwt_t) with
  | None => ret None
  | Some jwt =>
      ok <- lift (access_token_ok jwt response_type params) ;;
      ret (if (ok : bool) then Some (jwt, oidc_proto_response_strip_params params response_type) else None)
  end.

Definition oidc_proto_response_idtoken (proto_state : oidc_proto_state_t) (provider : oidc_provider_t)
  (params : table) (response_mode : string) : M St flow_result :=
  let response_type := OIDC_PROTO_RESPONSE_TYPE_IDTOKEN in
  jwt <- oidc_proto_handle_implicit_flow response_type proto_state provider params response_mode ;;
  ret (jwt ← jwt; Some (jwt, oidc_proto_response_strip_params params response_type)).

(** [oidc_response_flows] of src/handle/response.c: the flow that was asked for, whatever the order of the values. *)
Definition oidc_response_flows (proto_state : oidc_proto_state_t) (provider : oidc_provider_t) (params : table)
  (response_mode : string) : M St flow_result :=
  let requested_response_type := oidc_proto_state_get_response_type proto_state in
  let equals t := lift (oidc_util_spaced_string_equals requested_response_type (Some t)) in
  b1 <- equals OIDC_PROTO_RESPONSE_TYPE_CODE_IDTOKEN_TOKEN ;;
  if (b1 : bool) then oidc_proto_response_code_idtoken_token proto_state provider params response_mode
  else
    b2 <- equals OIDC_PROTO_RESPONSE_TYPE_CODE_IDTOKEN ;;
    if (b2 : bool) then oidc_proto_response_code_idtoken proto_state provider params response_mode
    else
      b3 <- equals OIDC_PROTO_RESPONSE_TYPE_CODE_TOKEN ;;
      if (b3 : bool) then oidc_proto_response_code_token proto_state provider params response_mode
      else
        b4 <- equals OIDC_PROTO_RESPONSE_TYPE_CODE ;;
        if (b4 : bool) then oidc_proto_response_code proto_state provider params response_mode
        else
          b5 <- equals OIDC_PROTO_RESPONSE_TYPE_IDTOKEN_TOKEN ;;
          if (b5 : bool) then oidc_proto_response_idtoken_token proto_state provider params response_mode
          else
            b6 <- equals OIDC_PROTO_RESPONSE_TYPE_IDTOKEN ;;
            if (b6 : bool) then oidc_proto_response_idtoken proto_state provider params response_mode
            else ret None.
End response.

(** ** Lemmas *)

Section tables.
Lemma unset_get t k k' : apr_table_get (apr_table_unset t k) k' = if strcaseeq k k' then None else apr_table_get t k'.
Proof. destruct (strcaseeq k k') eqn:E; [by apply table_get_unset_eq|by apply table_get_unset_ne]. Qed.

Lemma set_get t k v k' : apr_table_get (apr_table_set t k v) k' = if strcaseeq k k' then Some v else apr_table_get t k'.
Proof. destruct (strcaseeq k k') eqn:E; [by apply table_get_set_eq|by apply table_get_set_ne]. Qed.

Lemma set_param_get t k v k' : apr_table_get (set_param t k v) k' =
  if strcaseeq k k' then match v with Some x => Some x | None => apr_table_get t k' end else apr_table_get t k'.
Proof. destruct v as [v|]; [apply set_get|by destruct (strcaseeq k k')]. Qed.

Lemma unset_all_get l t k : apr_table_get (foldl apr_table_unset t l) k =
  if existsb (fun n => strcaseeq n k) l then None else apr_table_get t k.
Proof.
  revert t. induction l as [|n l IH]; intros t; [done|]. cbn [foldl existsb]. rewrite IH, unset_get.
  by destruct (strcaseeq n k), (existsb _ l).
Qed.

(** What stripping leaves. *)
Lemma strip_get params rt k : apr_table_get (oidc_proto_response_strip_params params rt) k =
  if existsb (fun n => strcaseeq n k)
       (match List.find (fun s => _oidc_strcmp (Some rt) (Some s.1) =? 0) strip with Some s => s.2 | None => [] end)
  then None else apr_table_get params k.
Proof. unfold oidc_proto_response_strip_params. destruct (List.find _ strip); [apply unset_all_get|done]. Qed.

Lemma enter_tokens_get params t :
  let params' := enter_tokens params t in
  apr_table_get params' OIDC_PROTO_ID_TOKEN =
    match apr_table_get params OIDC_PROTO_ID_TOKEN with Some x => Some x | None => tk_id_token t end /\
  apr_table_get params' OIDC_PROTO_ACCESS_TOKEN =
    match tk_access_token t with Some x => Some x | None => apr_table_get params OIDC_PROTO_ACCESS_TOKEN end /\
  apr_table_get params' OIDC_PROTO_REFRESH_TOKEN =
    match tk_refresh_token t with Some x => Some x | None => apr_table_get params OIDC_PROTO_REFRESH_TOKEN end /\
  apr_table_get params' OIDC_PROTO_SCOPE = match tk_scope t with Some x => Some x | None => apr_table_get params OIDC_PROTO_SCOPE end /\
  apr_table_get params' OIDC_PROTO_CODE = apr_table_get params OIDC_PROTO_CODE.
Proof.
  cbv zeta. unfold enter_tokens. cbv zeta.
  assert (Hs : forall (b : bool) (x y : table) k, apr_table_get (if b then x else y) k = if b then apr_table_get x k else apr_table_get y k)
    by by intros [].
  destruct (apr_table_get params OIDC_PROTO_ID_TOKEN) as [i|] eqn:Ei; destruct (tk_access_token t) as [a|];
    rewrite !set_param_get, ?Hs, ?set_get, ?set_param_get, ?set_get, ?set_param_get;
    split_and!; (reflexivity || (cbn; rewrite ?Ei; by destruct (_ =? _), (tk_id_token t)) || idtac).
  all: cbn; rewrite ?Ei; destruct (tk_refresh_token t), (tk_scope t), (tk_id_token t), (tk_token_type t); try reflexivity;
    by destruct (_ =? _).
Qed.
End tables.

(** The response types, as lists of words. *)
Definition flows : list (list string) :=
  [["code"; "id_token"; "token"]; ["code"; "id_token"]; ["code"; "token"]; ["code"]; ["id_token"; "token"]; ["id_token"]].

Definition has (v : string) (ws : list string) : bool := bool_decide (v ∈ ws).

Lemma flows_words ws : In ws flows -> Forall is_word ws.
Proof. intros Hin. repeat destruct Hin as [<-|Hin]; try done; by repeat constructor. Qed.

Section response_lemmas.
Context {J : Jansson} {O : Jose} {B64 : Base64} {C : Cjose J} {CE : CjoseExport C} {D : Digest} {Zl : Zlib} {H : Httpd}.
Context {HS : HttpdSpec H} {Mem : CryptoMemcmp} {St : Type} {B : CacheBackend St}.
Variables (ext : nat -> env) (net : nat -> network) (rnd : nat -> rng) (c : proto_cfg C).
Variables (st : oidc_proto_state_t) (p : oidc_provider_t) (params : table) (mode : string).
Implicit Types (w : world St) (ws : list string) (jwt : oidc_jwt_t).

Lemma contains_join ws v : Forall is_word ws -> contains (join " " ws) v = Some (has v ws).
Proof. apply spaced_contains_join. Qed.

(** The mode of a response when the request did not name one. *)
Definition default_mode ws : string :=
  if decide (ws = ["code"]) then OIDC_PROTO_RESPONSE_MODE_QUERY else OIDC_PROTO_RESPONSE_MODE_FRAGMENT.

(** What a response must look like. *)
Definition front_channel_ok ws : Prop :=
  (forall key v, (key, v) ∈ [(OIDC_PROTO_CODE, "code"); (OIDC_PROTO_ID_TOKEN, "id_token"); (OIDC_PROTO_ACCESS_TOKEN, "token")] ->
     nonnull (apr_table_get params key) = has v ws) /\
  (forall iss, apr_table_get params OIDC_PROTO_ISS = Some iss -> pv_issuer p = Some iss) /\
  (oidc_proto_profile_response_require_iss_get p <> 0 -> is_Some (apr_table_get params OIDC_PROTO_ISS)) /\
  (forall i, apr_table_get params OIDC_PROTO_CLIENT_ID = Some i -> pv_client_id p = Some i) /\
  mode = default (default_mode ws) (oidc_proto_state_get_response_mode st).

Lemma validate_response ws dm : Forall is_word ws -> dm = default_mode ws ->
  oidc_proto_validate_response_type_mode_issuer (join " " ws) params st mode dm p = Some true -> front_channel_ok ws.
Proof.
  intros Hws ->. unfold oidc_proto_validate_response_type_mode_issuer. cbv zeta.
  destruct (oidc_proto_validate_issuer_client_id _ _ _ _ _) eqn:Ei; [|done]. cbn [negb].
  unfold oidc_proto_validate_response_type. rewrite !contains_join by done. cbn [mbind option_bind].
  destruct (Bool.eqb (has OIDC_PROTO_RESPONSE_TYPE_CODE ws) _) eqn:E1; [|done]. cbn [negb].
  destruct (Bool.eqb (has OIDC_PROTO_RESPONSE_TYPE_IDTOKEN ws) _) eqn:E2; [|done]. cbn [negb mbind option_bind].
  destruct (Bool.eqb (has OIDC_PROTO_RESPONSE_TYPE_TOKEN ws) _) eqn:E3; [|done]. cbn [negb].
  unfold oidc_proto_validate_response_mode. intros Hm%(inj Some). apply strcmp_method in Hm. injection Hm as Hm.
  unfold oidc_proto_validate_issuer_client_id in Ei. apply andb_true_iff in Ei as [Hi Hc].
  split; [|split; [|split; [|split]]].
  - apply Bool.eqb_prop in E1, E2, E3. intros key v Hkv. rewrite !elem_of_cons in Hkv.
    destruct Hkv as [[= -> ->]|[[= -> ->]|[[= -> ->]|Hkv%elem_of_nil]]]; done.
  - intros iss Eiss. rewrite Eiss in Hi. cbn in Hi. by apply strcmp_method in Hi.
  - intros Hr. destruct (apr_table_get params OIDC_PROTO_ISS); [by eexists|]. cbn in Hi. by apply Z.eqb_eq in Hi.
  - intros i Eid. rewrite Eid in Hc. cbn in Hc. by apply strcmp_method in Hc.
  - done.
Qed.

(** The ID token that a flow accepted. *)
Definition id_token_ok (params' : table) ws jwt : Prop :=
  exists id_token w1 w2, apr_table_get params' OIDC_PROTO_ID_TOKEN = Some id_token /\
    oidc_proto_idtoken_parse ext net c p id_token (oidc_proto_state_get_nonce st) (has "code" ws && negb (has "id_token" ws)) w1 =
      Some (Some jwt, w2).

Lemma parse_code_inv ws ps must w jwt w' : Forall is_word ws ->
  oidc_proto_parse_idtoken_and_validate_code ext net c st p (join " " ws) ps must w = Some (Some jwt, w') ->
  id_token_ok ps ws jwt /\ (must = true ->
    oidc_proto_idtoken_validate_code jwt (Some (join " " ws)) (default "" (apr_table_get ps OIDC_PROTO_CODE)) = Some true).
Proof.
  intros Hws. unfold oidc_proto_parse_idtoken_and_validate_code. cbv zeta.
  intros (b1 & w1 & [E1 ->]%lift_inv & E)%bind_inv. rewrite contains_join in E1 by done. injection E1 as <-.
  apply bind_inv in E as (b2 & w1 & [E2 ->]%lift_inv & E).
  assert (Hflow : has OIDC_PROTO_RESPONSE_TYPE_CODE ws && negb b2 = has "code" ws && negb (has "id_token" ws)).
  { unfold OIDC_PROTO_RESPONSE_TYPE_CODE, OIDC_PROTO_RESPONSE_TYPE_IDTOKEN in *. destruct (has "code" ws); [|done].
    rewrite contains_join in E2 by done. by injection E2 as <-. }
  rewrite Hflow in E. clear Hflow E2. destruct (apr_table_get ps OIDC_PROTO_ID_TOKEN) as [i|] eqn:Ei; [|done].
  apply bind_inv in E as (j & w2 & E3 & E). destruct j as [j|]; [|done]. destruct must.
  - apply bind_inv in E as (ok & w3 & [E4 ->]%lift_inv & E). unfold ret in E. destruct ok; [|done]. injection E as -> ->.
    split; [|done]. by exists i, w, w'.
  - unfold ret in E. injection E as -> ->. split; [|done]. by exists i, w, w'.
Qed.

(** A hypothesis on the words of a response type that does not hold. *)
Ltac absurd_word := let Hx := fresh in intros Hx; vm_compute in Hx; discriminate Hx.

(** The tokens that the token endpoint returned for the code. *)
Definition code_resolved (t : tokens) : Prop :=
  exists verifier w1 w2, oidc_proto_resolve_code ext net rnd c p (apr_table_get params OIDC_PROTO_CODE) verifier
    (oidc_proto_state_get_state st) w1 = Some (Some t, w2).

Lemma resolve_inv rt ps w ps' w' : apr_table_get ps OIDC_PROTO_CODE = apr_table_get params OIDC_PROTO_CODE ->
  oidc_proto_resolve_code_and_validate_response ext net rnd c p rt ps st w = Some (Some ps', w') ->
  exists t, code_resolved t /\ ps' = enter_tokens ps t.
Proof.
  intros Hcode. unfold oidc_proto_resolve_code_and_validate_response. cbv zeta. rewrite Hcode.
  set (v := mbind _ (pkce_verifier _)). clearbody v. intros (t & w1 & E1 & E)%bind_inv. destruct t as [t|]; [|done].
  apply bind_inv in E as (ok & w2 & [E2 ->]%lift_inv & E). unfold ret in E. destruct ok; [|done]. injection E as <- <-.
  exists t. split; [|done]. by exists v, w, w1.
Qed.

(** The outcome of a flow. *)
Record flow_outcome ws jwt (params' : table) : Prop := {
  flow_front : front_channel_ok ws;
  flow_id_token : id_token_ok params' ws jwt;
  flow_code_hash : has "code" ws = true -> has "id_token" ws = true \/ has "token" ws = false ->
    oidc_proto_idtoken_validate_code jwt (Some (join " " ws)) (default "" (apr_table_get params OIDC_PROTO_CODE)) = Some true;
  flow_token_hash : has "token" ws = true -> has "id_token" ws = true -> access_token_ok jwt (join " " ws) params = Some true;
  flow_back : has "code" ws = true -> exists t, code_resolved t /\
    apr_table_get params' OIDC_PROTO_ID_TOKEN = (if has "id_token" ws then apr_table_get params OIDC_PROTO_ID_TOKEN else tk_id_token t) /\
    apr_table_get params' OIDC_PROTO_ACCESS_TOKEN =
      (match tk_access_token t with Some a => Some a | None => apr_table_get params OIDC_PROTO_ACCESS_TOKEN end) /\
    apr_table_get params' OIDC_PROTO_REFRESH_TOKEN = tk_refresh_token t /\ apr_table_get params' OIDC_PROTO_SCOPE = tk_scope t;
  flow_implicit : has "code" ws = false ->
    apr_table_get params' OIDC_PROTO_ID_TOKEN = apr_table_get params OIDC_PROTO_ID_TOKEN /\
    apr_table_get params' OIDC_PROTO_ACCESS_TOKEN = apr_table_get params OIDC_PROTO_ACCESS_TOKEN /\
    apr_table_get params' OIDC_PROTO_REFRESH_TOKEN = None
}.

Lemma front_none ws key v : front_channel_ok ws ->
  (key, v) ∈ [(OIDC_PROTO_CODE, "code"); (OIDC_PROTO_ID_TOKEN, "id_token"); (OIDC_PROTO_ACCESS_TOKEN, "token")] ->
  has v ws = false -> apr_table_get params key = None.
Proof. intros (Hf & _) Hk Hv. specialize (Hf key v Hk). rewrite Hv in Hf. by destruct (apr_table_get params key). Qed.

Lemma front_some ws key v : front_channel_ok ws ->
  (key, v) ∈ [(OIDC_PROTO_CODE, "code"); (OIDC_PROTO_ID_TOKEN, "id_token"); (OIDC_PROTO_ACCESS_TOKEN, "token")] ->
  has v ws = true -> is_Some (apr_table_get params key).
Proof. intros (Hf & _) Hk Hv. specialize (Hf key v Hk). rewrite Hv in Hf. destruct (apr_table_get params key); [by eexists|done]. Qed.

Lemma strip_code ws : In ws flows ->
  apr_table_get (oidc_proto_response_strip_params params (join " " ws)) OIDC_PROTO_CODE = apr_table_get params OIDC_PROTO_CODE.
Proof. intros Hin. rewrite strip_get. by repeat destruct Hin as [<-|Hin]. Qed.

(** The parameters after a code was resolved. *)
Lemma back_channel ws t : In ws flows -> front_channel_ok ws -> has "code" ws = true ->
  let params' := enter_tokens (oidc_proto_response_strip_params params (join " " ws)) t in
  apr_table_get params' OIDC_PROTO_ID_TOKEN = (if has "id_token" ws then apr_table_get params OIDC_PROTO_ID_TOKEN else tk_id_token t) /\
  apr_table_get params' OIDC_PROTO_ACCESS_TOKEN =
    (match tk_access_token t with Some a => Some a | None => apr_table_get params OIDC_PROTO_ACCESS_TOKEN end) /\
  apr_table_get params' OIDC_PROTO_REFRESH_TOKEN = tk_refresh_token t /\ apr_table_get params' OIDC_PROTO_SCOPE = tk_scope t.
Proof.
  intros Hin Hf Hc. cbv zeta.
  destruct (enter_tokens_get (oidc_proto_response_strip_params params (join " " ws)) t) as (-> & -> & -> & -> & _).
  rewrite !strip_get.
  assert (Hi : has "id_token" ws = true -> is_Some (apr_table_get params OIDC_PROTO_ID_TOKEN)).
  { apply front_some; [done|]. by right; left. }
  assert (Ha : has "token" ws = false -> apr_table_get params OIDC_PROTO_ACCESS_TOKEN = None).
  { apply front_none; [done|]. by right; right; left. }
  clear Hf. repeat destruct Hin as [<-|Hin]; try done; vm_compute has in Hc, Hi, Ha |- *;
    try (destruct Hi as [i ->]; [done|]); try (rewrite Ha by done); split_and!;
    first [ reflexivity | by destruct (tk_refresh_token t) | by destruct (tk_scope t) | by destruct (tk_access_token t) ].
Qed.

Lemma resolved_outcome ws w params' w' : In ws flows -> front_channel_ok ws -> has "code" ws = true ->
  oidc_proto_resolve_code_and_validate_response ext net rnd c p (join " " ws)
    (oidc_proto_response_strip_params params (join " " ws)) st w = Some (Some params', w') ->
  apr_table_get params' OIDC_PROTO_CODE = apr_table_get params OIDC_PROTO_CODE /\
  exists t, code_resolved t /\
    apr_table_get params' OIDC_PROTO_ID_TOKEN = (if has "id_token" ws then apr_table_get params OIDC_PROTO_ID_TOKEN else tk_id_token t) /\
    apr_table_get params' OIDC_PROTO_ACCESS_TOKEN =
      (match tk_access_token t with Some a => Some a | None => apr_table_get params OIDC_PROTO_ACCESS_TOKEN end) /\
    apr_table_get params' OIDC_PROTO_REFRESH_TOKEN = tk_refresh_token t /\ apr_table_get params' OIDC_PROTO_SCOPE = tk_scope t.
Proof.
  intros Hin Hf Hc E. apply resolve_inv in E as (t & Ht & ->); [|by apply strip_code]. split.
  - by rewrite (proj2 (proj2 (proj2 (proj2 (enter_tokens_get _ _))))), strip_code.
  - exists t. split; [done|]. by apply back_channel.
Qed.

(** A first step that must hold. *)
Lemma lift_true (o : option bool) (f : M St (flow_result (J:=J) (C:=C))) w x w' :
  bind (lift o) (fun b : bool => if negb b then ret None else f) w = Some (Some x, w') -> o = Some true /\ f w = Some (Some x, w').
Proof. intros (b & w1 & [-> ->]%lift_inv & E)%bind_inv. by destruct b. Qed.

Lemma code_token_outcome w jwt params' w' :
  oidc_proto_response_code_token ext net rnd c st p params mode w = Some (Some (jwt, params'), w') ->
  flow_outcome ["code"; "token"] jwt params'.
Proof.
  intros [Hf E]%lift_true. apply (validate_response ["code"; "token"]) in Hf; [|by apply flows_words; cbn; tauto|done].
  apply bind_inv in E as (ps & w1 & E1 & E). destruct ps as [ps|]; [|done].
  apply (resolved_outcome ["code"; "token"]) in E1 as [Hcode Hb]; [|by cbn; tauto|done|done].
  apply bind_inv in E as (j & w2 & E2 & E). unfold ret in E. destruct j as [j|]; [|done]. injection E as -> -> ->.
  apply (parse_code_inv ["code"; "token"]) in E2 as [Hi _]; [|by apply flows_words; cbn; auto].
  split; try done. by intros _ [?|?].
Qed.

Lemma code_outcome w jwt params' w' :
  oidc_proto_response_code ext net rnd c st p params mode w = Some (Some (jwt, params'), w') -> flow_outcome ["code"] jwt params'.
Proof.
  intros [Hf E]%lift_true. apply (validate_response ["code"]) in Hf; [|by apply flows_words; cbn; tauto|done].
  apply bind_inv in E as (ps & w1 & E1 & E). destruct ps as [ps|]; [|done].
  apply (resolved_outcome ["code"]) in E1 as [Hcode Hb]; [|by cbn; tauto|done|done].
  apply bind_inv in E as (j & w2 & E2 & E). destruct j as [j|]; [|done].
  apply (parse_code_inv ["code"]) in E2 as [Hi Hh]; [|by apply flows_words; cbn; auto].
  apply bind_inv in E as (ok & w3 & _ & E). unfold ret in E. destruct ok; [|done]. injection E as -> -> ->.
  split; try done. intros _ _. rewrite <-Hcode. by apply Hh.
Qed.

Lemma code_idtoken_outcome w jwt params' w' :
  oidc_proto_response_code_idtoken ext net rnd c st p params mode w = Some (Some (jwt, params'), w') ->
  flow_outcome ["code"; "id_token"] jwt params'.
Proof.
  intros [Hf E]%lift_true. apply (validate_response ["code"; "id_token"]) in Hf; [|by apply flows_words; cbn; tauto|done].
  apply bind_inv in E as (j & w1 & E1 & E). destruct j as [j|]; [|done].
  apply (parse_code_inv ["code"; "id_token"]) in E1 as [Hi Hh]; [|by apply flows_words; cbn; auto].
  apply bind_inv in E as (ps & w2 & E2 & E). unfold ret in E. destruct ps as [ps|]; [|done]. injection E as -> -> ->.
  apply (resolved_outcome ["code"; "id_token"]) in E2 as [Hcode Hb]; [|by cbn; tauto|done|done].
  split; [exact Hf| |by intros _ _; apply Hh|absurd_word|intros _; exact Hb|absurd_word].
  destruct Hi as (i & wa & wb & Hi & Hp). exists i, wa, wb. split; [|exact Hp]. by destruct Hb as (t & _ & -> & _).
Qed.

Lemma implicit_inv ws w jwt w' : Forall is_word ws -> default_mode ws = OIDC_PROTO_RESPONSE_MODE_FRAGMENT ->
  oidc_proto_handle_implicit_flow ext net c (join " " ws) st p params mode w = Some (Some jwt, w') ->
  front_channel_ok ws /\ id_token_ok params ws jwt /\
  oidc_proto_idtoken_validate_code jwt (Some (join " " ws)) (default "" (apr_table_get params OIDC_PROTO_CODE)) = Some true.
Proof.
  intros Hws Hm. unfold oidc_proto_handle_implicit_flow. intros (b & w1 & [E1 ->]%lift_inv & E)%bind_inv. destruct b; [|done].
  cbn [negb] in E. apply validate_response in E1; [|done|done]. apply parse_code_inv in E as [Hi Hh]; [|done]. auto.
Qed.

Lemma code_idtoken_token_outcome w jwt params' w' :
  oidc_proto_response_code_idtoken_token ext net rnd c st p params mode w = Some (Some (jwt, params'), w') ->
  flow_outcome ["code"; "id_token"; "token"] jwt params'.
Proof.
  intros (j & w1 & E1 & E)%bind_inv. destruct j as [j|]; [|done].
  apply (implicit_inv ["code"; "id_token"; "token"]) in E1 as (Hf & Hi & Hh); [|by apply flows_words; cbn; tauto|done].
  apply lift_true in E as [Ha E]. apply bind_inv in E as (ps & w2 & E2 & E). unfold ret in E.
  destruct ps as [ps|]; [|done]. injection E as -> -> ->.
  apply (resolved_outcome ["code"; "id_token"; "token"]) in E2 as [Hcode Hb]; [|by cbn; tauto|done|done].
  split; [exact Hf| |intros _ _; exact Hh|intros _ _; exact Ha|intros _; exact Hb|absurd_word].
  destruct Hi as (i & wa & wb & Hi & Hp). exists i, wa, wb. split; [|exact Hp]. by destruct Hb as (t & _ & -> & _).
Qed.

Lemma implicit_kept ws key : In ws flows -> key = OIDC_PROTO_ID_TOKEN \/ key = OIDC_PROTO_ACCESS_TOKEN -> has "code" ws = false ->
  apr_table_get (oidc_proto_response_strip_params params (join " " ws)) key = apr_table_get params key.
Proof. intros Hin Hk. rewrite strip_get. by repeat destruct Hin as [<-|Hin]; destruct Hk as [->| ->]. Qed.

Lemma implicit_refresh ws : In ws flows -> has "code" ws = false ->
  apr_table_get (oidc_proto_response_strip_params params (join " " ws)) OIDC_PROTO_REFRESH_TOKEN = None.
Proof. intros Hin. rewrite strip_get. by repeat destruct Hin as [<-|Hin]. Qed.

Lemma stripped_outcome ws jwt : In ws flows -> has "code" ws = false -> front_channel_ok ws -> id_token_ok params ws jwt ->
  (has "token" ws = true -> has "id_token" ws = true -> access_token_ok jwt (join " " ws) params = Some true) ->
  flow_outcome ws jwt (oidc_proto_response_strip_params params (join " " ws)).
Proof.
  intros Hin Hc Hf (i & w1 & w2 & Hi & Hp) Ha. split; try (rewrite Hc); try done.
  - exists i, w1, w2. by rewrite implicit_kept by auto.
  - intros _. rewrite !implicit_kept, implicit_refresh by auto. done.
Qed.

Lemma idtoken_token_outcome w jwt params' w' :
  oidc_proto_response_idtoken_token ext net c st p params mode w = Some (Some (jwt, params'), w') ->
  flow_outcome ["id_token"; "token"] jwt params'.
Proof.
  intros (j & w1 & E1 & E)%bind_inv. destruct j as [j|]; [|done].
  apply (implicit_inv ["id_token"; "token"]) in E1 as (Hf & Hi & _); [|by apply flows_words; cbn; tauto|done].
  apply bind_inv in E as (ok & w2 & [Ha ->]%lift_inv & E). unfold ret in E. destruct ok; [|done]. injection E as -> <- ->.
  apply (stripped_outcome ["id_token"; "token"]); auto. cbn; tauto.
Qed.

Lemma idtoken_outcome w jwt params' w' :
  oidc_proto_response_idtoken ext net c st p params mode w = Some (Some (jwt, params'), w') ->
  flow_outcome ["id_token"] jwt params'.
Proof.
  intros (j & w1 & E1 & E)%bind_inv. unfold ret in E. destruct j as [j|]; [|done]. injection E as -> <- ->.
  apply (implicit_inv ["id_token"]) in E1 as (Hf & Hi & _); [|by apply flows_words; cbn; tauto|done].
  apply (stripped_outcome ["id_token"]); auto; [cbn; tauto|done].
Qed.

Lemma equals_step {A} t (f g : M St (option A)) w x w' :
  bind (lift (oidc_util_spaced_string_equals (oidc_proto_state_get_response_type st) (Some t))) (fun b : bool => if b then f else g) w =
    Some (Some x, w') ->
  (oidc_util_spaced_string_equals (oidc_proto_state_get_response_type st) (Some t) = Some true /\ f w = Some (Some x, w')) \/
  g w = Some (Some x, w').
Proof. intros (b & w1 & [-> ->]%lift_inv & E)%bind_inv. destruct b; auto. Qed.

Lemma flows_outcome w jwt params' w' : oidc_response_flows ext net rnd c st p params mode w = Some (Some (jwt, params'), w') ->
  exists ws, In ws flows /\ oidc_util_spaced_string_equals (oidc_proto_state_get_response_type st) (Some (join " " ws)) = Some true /\
    flow_outcome ws jwt params'.
Proof.
  unfold oidc_response_flows. cbv zeta.
  intros [[Ht E]|E]%equals_step; [exists ["code"; "id_token"; "token"]; apply code_idtoken_token_outcome in E; (split; [cbn; tauto|done])|].
  apply equals_step in E as [[Ht E]|E]; [exists ["code"; "id_token"]; apply code_idtoken_outcome in E; (split; [cbn; tauto|done])|].
  apply equals_step in E as [[Ht E]|E]; [exists ["code"; "token"]; apply code_token_outcome in E; (split; [cbn; tauto|done])|].
  apply equals_step in E as [[Ht E]|E]; [exists ["code"]; apply code_outcome in E; (split; [cbn; tauto|done])|].
  apply equals_step in E as [[Ht E]|E]; [exists ["id_token"; "token"]; apply idtoken_token_outcome in E; (split; [cbn; tauto|done])|].
  apply equals_step in E as [[Ht E]|E]; [exists ["id_token"]; apply idtoken_outcome in E; (split; [cbn; tauto|done])|].
  done.
Qed.
End response_lemmas.

(** ** Termination *)

(** The next test whether a value was asked for has an outcome. *)
Ltac rewrite_contains := unfold contains; match goal with
  | |- context [oidc_util_spaced_string_contains ?a ?b] =>
      let b' := fresh in destruct (contains_total a b) as [b' ->]; cbn [mbind option_bind]
  | |- is_Some (Some _) => by eexists
  | |- context [if ?b then _ else _] => destruct b; cbn [mbind option_bind]
  end.

Lemma flow_required_total {H : Httpd} {HS : HttpdSpec H} rt fs : is_Some (flow_required rt fs).
Proof.
  induction fs as [|f fs IH]; [by eexists|]. cbn [flow_required]. destruct (equals_total rt (Some f)) as [b ->].
  cbn [mbind option_bind]. destruct b; [by eexists|done].
Qed.

Lemma validate_hash_total {J : Jansson} {C : Cjose J} {D : Digest} {B64 : Base64} {H : Httpd} {HS : HttpdSpec H}
  {Mem : CryptoMemcmp} (jwt : oidc_jwt_t) rt v k fs : is_Some (oidc_proto_validate_hash_value jwt rt v k fs).
Proof.
  unfold oidc_proto_validate_hash_value. case_match; [by eexists|].
  destruct (flow_required_total rt fs) as [b ->]. by eexists.
Qed.

Section total_response.
Context {J : Jansson} {O : Jose} {B64 : Base64} {C : Cjose J} {CE : CjoseExport C} {D : Digest} {Zl : Zlib} {H : Httpd}.
Context {HS : HttpdSpec H} {Mem : CryptoMemcmp} {St : Type} {B : CacheBackend St}.
Variables (ext : nat -> env) (net : nat -> network) (rnd : nat -> rng) (c : proto_cfg C).

Lemma total_http_get a url ps h : total (St:=St) (http_get net c a url ps h).
Proof. intros w. by eexists _, _. Qed.
Lemma same_req_http_get a url ps h : same_req (St:=St) (http_get net c a url ps h).
Proof. by intros w x w' [= <- <-]. Qed.
Hint Resolve total_http_get : total. Hint Resolve same_req_http_get : same_req.

Lemma total_jwt_validate jwt iss b1 b2 slack : total (St:=St) (oidc_proto_jwt_validate ext jwt iss b1 b2 slack).
Proof. unfold oidc_proto_jwt_validate, oidc_proto_validate_exp, oidc_proto_validate_iat. total_auto. Qed.
Lemma same_req_jwt_validate jwt iss b1 b2 slack : same_req (St:=St) (oidc_proto_jwt_validate ext jwt iss b1 b2 slack).
Proof. unfold oidc_proto_jwt_validate, oidc_proto_validate_exp, oidc_proto_validate_iat. same_req_auto. Qed.
Hint Resolve total_jwt_validate : total. Hint Resolve same_req_jwt_validate : same_req.

Lemma total_retrieve u ssl : total (St:=St) (oidc_metadata_jwks_retrieve_and_cache ext net c u ssl).
Proof. unfold oidc_metadata_jwks_retrieve_and_cache, jwks_open. cbv zeta. total_auto. Qed.
Lemma same_req_retrieve u ssl : same_req (St:=St) (oidc_metadata_jwks_retrieve_and_cache ext net c u ssl).
Proof. unfold oidc_metadata_jwks_retrieve_and_cache, jwks_open. cbv zeta. same_req_auto. Qed.
Hint Resolve total_retrieve : total. Hint Resolve same_req_retrieve : same_req.

Lemma total_jwks_get u ssl fr : total (St:=St) (oidc_metadata_jwks_get ext net c u ssl fr).
Proof.
  unfold oidc_metadata_jwks_get, oidc_metadata_jwks_forced_refresh_throttled, oidc_metadata_jwks_forced_refresh_stamp.
  cbv zeta. total_auto.
Qed.
Lemma same_req_jwks_get u ssl fr : same_req (St:=St) (oidc_metadata_jwks_get ext net c u ssl fr).
Proof.
  unfold oidc_metadata_jwks_get, oidc_metadata_jwks_forced_refresh_throttled, oidc_metadata_jwks_forced_refresh_stamp.
  cbv zeta. same_req_auto.
Qed.
Hint Resolve total_jwks_get : total. Hint Resolve same_req_jwks_get : same_req.

(** Two calls are enough: the second one was told to refresh. *)
Lemma total_jwks_uri_keys jwt u ssl keys fr : total (St:=St) (oidc_proto_jwks_uri_keys ext net c jwt u ssl keys fr).
Proof.
  intros w. unfold oidc_proto_jwks_uri_keys. cbn [jwks_uri_keys_go].
  destruct (total_jwks_get u ssl fr w) as ([j fr'] & w1 & E1). rewrite (bind_run _ _ _ _ _ E1).
  destruct j as [j|]; [|by eexists _, _]. destruct (oidc_proto_jwks_key_get jwt j keys) as [b k1].
  destruct ((size k1 <? 1)%nat && negb fr'); [|by eexists _, _].
  destruct (total_jwks_get u ssl true w1) as ([j2 fr2] & w2 & E2). rewrite (bind_run _ _ _ _ _ E2).
  destruct j2 as [j2|]; [|by eexists _, _]. destruct (oidc_proto_jwks_key_get jwt j2 k1) as [b2 k2].
  assert (Hfr : fr2 = true).
  { clear -E2. unfold oidc_metadata_jwks_get in E2. apply bind_inv in E2 as ([att fresh] & w3 & _ & E2).
    destruct fresh; [unfold ret in E2; congruence|]. apply bind_inv in E2 as ([ok v] & w4 & _ & E2).
    destruct (if ok && nonnull v then _ else None); [unfold ret in E2; congruence|]. destruct att; [unfold ret in E2; congruence|].
    apply bind_inv in E2 as (x & w5 & _ & E2). unfold ret in E2. congruence. }
  rewrite Hfr, andb_false_r. by eexists _, _.
Qed.
Lemma same_req_jwks_uri_keys jwt u ssl keys fr : same_req (St:=St) (oidc_proto_jwks_uri_keys ext net c jwt u ssl keys fr).
Proof. unfold oidc_proto_jwks_uri_keys. cbn [jwks_uri_keys_go]. same_req_auto. Qed.
Hint Resolve total_jwks_uri_keys : total. Hint Resolve same_req_jwks_uri_keys : same_req.

Lemma total_jwt_verify jwt u ssl static alg : total (St:=St) (oidc_proto_jwt_verify ext net c jwt u ssl static alg).
Proof. unfold oidc_proto_jwt_verify. cbv zeta. total_auto. Qed.
Lemma same_req_jwt_verify jwt u ssl static alg : same_req (St:=St) (oidc_proto_jwt_verify ext net c jwt u ssl static alg).
Proof. unfold oidc_proto_jwt_verify. cbv zeta. same_req_auto. Qed.
Hint Resolve total_jwt_verify : total. Hint Resolve same_req_jwt_verify : same_req.

Lemma total_idtoken_parse p i n b : total (St:=St) (oidc_proto_idtoken_parse ext net c p i n b).
Proof. unfold oidc_proto_idtoken_parse, oidc_proto_validate_idtoken, oidc_proto_idtoken_validate_nonce. cbv zeta. total_auto. Qed.
Lemma same_req_idtoken_parse p i n b : same_req (St:=St) (oidc_proto_idtoken_parse ext net c p i n b).
Proof. unfold oidc_proto_idtoken_parse, oidc_proto_validate_idtoken, oidc_proto_idtoken_validate_nonce. cbv zeta. same_req_auto. Qed.
Hint Resolve total_idtoken_parse : total. Hint Resolve same_req_idtoken_parse : same_req.

Hint Resolve total_token_request : total. Hint Resolve same_req_token_request : same_req.

Lemma total_parse_code st p rt ps must :
  total (St:=St) (oidc_proto_parse_idtoken_and_validate_code ext net c st p rt ps must).
Proof.
  unfold oidc_proto_parse_idtoken_and_validate_code, contains, oidc_proto_idtoken_validate_code. cbv zeta.
  total_auto; apply total_lift; auto using contains_total, validate_hash_total. case_match; [apply contains_total|by eexists].
Qed.
Lemma same_req_parse_code st p rt ps must :
  same_req (St:=St) (oidc_proto_parse_idtoken_and_validate_code ext net c st p rt ps must).
Proof. unfold oidc_proto_parse_idtoken_and_validate_code. cbv zeta. same_req_auto. Qed.
Hint Resolve total_parse_code : total. Hint Resolve same_req_parse_code : same_req.

Lemma total_resolve p rt ps st :
  total (St:=St) (oidc_proto_resolve_code_and_validate_response ext net rnd c p rt ps st).
Proof.
  unfold oidc_proto_resolve_code_and_validate_response, oidc_proto_resolve_code. cbv zeta.
  total_auto; apply total_lift; auto using redirect_uri_total.
  unfold oidc_proto_validate_code_response. by repeat rewrite_contains.
Qed.
Lemma same_req_resolve p rt ps st :
  same_req (St:=St) (oidc_proto_resolve_code_and_validate_response ext net rnd c p rt ps st).
Proof. unfold oidc_proto_resolve_code_and_validate_response, oidc_proto_resolve_code. cbv zeta. same_req_auto. Qed.
Hint Resolve total_resolve : total. Hint Resolve same_req_resolve : same_req.

Lemma total_validate rt ps st m dm p :
  total (St:=St) (lift (oidc_proto_validate_response_type_mode_issuer rt ps st m dm p)).
Proof.
  apply total_lift. unfold oidc_proto_validate_response_type_mode_issuer. cbv zeta. case_match; [by eexists|].
  unfold oidc_proto_validate_response_type. by repeat rewrite_contains.
Qed.
Hint Resolve total_validate : total.

Lemma total_token_ok jwt rt ps : total (St:=St) (lift (access_token_ok jwt rt ps)).
Proof. apply total_lift, validate_hash_total. Qed.
Hint Resolve total_token_ok : total.

Lemma total_equals a b : total (St:=St) (lift (oidc_util_spaced_string_equals a b)).
Proof. apply total_lift, equals_total. Qed.
Hint Resolve total_equals : total.

Lemma total_flows st p ps m : total (St:=St) (oidc_response_flows ext net rnd c st p ps m).
Proof.
  unfold oidc_response_flows, oidc_proto_response_code_idtoken_token, oidc_proto_response_code_idtoken,
    oidc_proto_response_code_token, oidc_proto_response_code, oidc_proto_response_idtoken_token,
    oidc_proto_response_idtoken, oidc_proto_handle_implicit_flow. cbv zeta. total_auto.
  apply total_lift. case_match; [apply validate_hash_total|by eexists].
Qed.
Lemma same_req_flows st p ps m : same_req (St:=St) (oidc_response_flows ext net rnd c st p ps m).
Proof.
  unfold oidc_response_flows, oidc_proto_response_code_idtoken_token, oidc_proto_response_code_idtoken,
    oidc_proto_response_code_token, oidc_proto_response_code, oidc_proto_response_idtoken_token,
    oidc_proto_response_idtoken, oidc_proto_handle_implicit_flow. cbv zeta. same_req_auto.
Qed.
End total_response.
#[export] Hint Resolve total_http_get total_jwt_validate total_jwks_get total_jwks_uri_keys total_jwt_verify total_idtoken_parse
  total_flows total_equals : total.
#[export] Hint Resolve same_req_http_get same_req_jwt_validate same_req_jwks_get same_req_jwks_uri_keys same_req_jwt_verify
  same_req_idtoken_parse same_req_flows : same_req.

(** ** Properties *)


(** Without a code the scope of the front channel stays, also when no access token was requested. *)
Lemma implicit_scope_kept ps ws : In ws flows -> has "code" ws = false ->
  apr_table_get (oidc_proto_response_strip_params ps (join " " ws)) OIDC_PROTO_SCOPE = apr_table_get ps OIDC_PROTO_SCOPE.
Proof. intros Hin. rewrite strip_get. by repeat destruct Hin as [<-|Hin]. Qed.

(** ** Witnesses *)

Section demo.
#[local] Existing Instances Model.jansson JoseModel.jose Base64Model.base64 CjoseModel.cjose CjoseModel.digest CjoseModel.zlib
  ExportModel.export HttpdModel.httpd demo_memcmp.
#[local] Instance demo_backend : CacheBackend ShmCache.header := shm_backend 2048.

Definition demo_code_tokens : Model.jv :=
  Model.JObj [("access_token", Model.JStr "at"); ("token_type", Model.JStr "Bearer"); ("id_token", Model.JStr demo_id_token);
    ("refresh_token", Model.JStr "rt")].
Definition demo_proto_state : oidc_proto_state_t (J:=Model.jansson) :=
  Model.JObj [("i", Model.JStr "https://op"); ("n", Model.JStr "n-0"); ("rt", Model.JStr "code"); ("s", Model.JStr "st")].

Abbreviation demo_flow params :=
  (oidc_response_flows (demo_id_clock 1010) (demo_server demo_code_tokens) demo_rnd demo_rp_cfg demo_proto_state
     (demo_op OIDC_DPOP_MODE_OFF) params "query" demo_jwks_world).

End demo.
