(* ===== verification/AuthRequest.v ===== *)
(** * src/proto/request.c and src/proto/request_object.c: authentication requests

    The parameters of an authentication request, the request object that may carry some of them, and pushed
    authorization requests. *)

From S2P Require Import Prelude Cstr Apr StrUtil Jansson Json Http Html Form Url Cookie Base64 Jose Jwt Util ShmCache Cache World.
From S2P Require Import HttpClient Cjose Jwk Jwe JoseLib Jws Pkce Provider ProviderSet Profile JwtCheck Jwks IdToken ClientAuth Token ProtoState Response.
#[local] Open Scope Z_scope.

Definition OIDC_PROTO_CODE_CHALLENGE : string := "code_challenge".
Definition OIDC_PROTO_CODE_CHALLENGE_METHOD : string := "code_challenge_method".
Definition OIDC_PROTO_RESPONSE_TYPE : string := "response_type".
Definition OIDC_PROTO_RESPONSE_MODE : string := "response_mode".
Definition OIDC_PROTO_NONCE : string := "nonce".
Definition OIDC_PROTO_PROMPT : string := "prompt".
Definition OIDC_PROTO_LOGIN_HINT : string := "login_hint".
Definition OIDC_PROTO_ID_TOKEN_HINT : string := "id_token_hint".
Definition OIDC_PROTO_DISPLAY : string := "display".
Definition OIDC_PROTO_UI_LOCALES : string := "ui_locales".
Definition OIDC_PROTO_ACR_VALUES : string := "acr_values".
Definition OIDC_PROTO_CLAIMS_LOCALES : string := "claims_locales".
Definition OIDC_PROTO_REQUEST_URI : string := "request_uri".
Definition OIDC_PROTO_REQUEST_OBJECT : string := "request".
Definition OIDC_REQUEST_OBJECT_COPY_FROM_REQUEST : string := "copy_from_request".
Definition OIDC_REQUEST_OBJECT_COPY_AND_REMOVE_FROM_REQUEST : string := "copy_and_remove_from_request".
Definition OIDC_REQUEST_OBJECT_TTL : string := "ttl".
Definition OIDC_REQUEST_OBJECT_STATIC : string := "static".
Definition OIDC_REQUEST_OBJECT_URL : string := "url".
Definition OIDC_REQUEST_OBJECT_TYPE : string := "request_object_type".
Definition OIDC_REQUEST_OBJECT_CRYPTO : string := "crypto".
Definition OIDC_REQUEST_OBJECT_CRYPTO_SIGN_ALG : string := "sign_alg".
Definition OIDC_REQUEST_OBJECT_CRYPTO_CRYPT_ALG : string := "crypt_alg".
Definition OIDC_REQUEST_OBJECT_CRYPTO_CRYPT_ENC : string := "crypt_enc".
Definition OIDC_REQUEST_OBJECT_TTL_DEFAULT : Z := 30.
Definition OIDC_PROTO_REQUEST_URI_REF_LEN : nat := 16.
Definition OIDC_CACHE_SECTION_REQUEST_URI : string := "r".
Definition OIDC_CLAIM_NBF : string := "nbf".
Definition OIDC_JOSE_HDR_ENC_A128CBC_HS256 : string := "A128CBC-HS256".
Definition HTTP_MOVED_TEMPORARILY : Z := 302.

(** ** Tables whose values may be [NULL] *)

Definition params_t : Type := list (string * option string).

Fixpoint params_get (t : params_t) (k : string) : option string :=
  match t with
  | [] => None
  | (k', v) :: t => if strcaseeq k' k then v else params_get t k
  end.
Fixpoint params_unset (t : params_t) (k : string) : params_t :=
  match t with
  | [] => []
  | (k', v) :: t => if strcaseeq k' k then params_unset t k else (k', v) :: params_unset t k
  end.
Fixpoint params_set (t : params_t) (k : string) (v : option string) : params_t :=
  match t with
  | [] => [(k, v)]
  | (k', v') :: t => if strcaseeq k' k then (k', v) :: params_unset t k else (k', v') :: params_set t k v
  end.
Definition params_add (t : params_t) (k : string) (v : option string) : params_t := t ++ [(k, v)].
(** Set a value that is not [NULL]. *)
Definition params_some (k : string) (v : option string) (t : params_t) : params_t :=
  match v with Some _ => params_set t k v | None => t end.
(** What is printed: [NULL] is encoded as an empty string. *)
Definition params_table (t : params_t) : table := map (fun '(k, v) => (k, default "" v)) t.

#[local] Open Scope world_scope.

Section request.
Context {J : Jansson} {O : Jose} {B64 : Base64} {C : Cjose J} {CE : CjoseExport C} {D : Digest} {Zl : Zlib} {H : Httpd}.
Context {St : Type} {B : CacheBackend St}.
Variables (ext : nat -> env) (net : nat -> network) (rnd : nat -> rng) (c : proto_cfg C).

(** ** Custom parameters *)

(** One parameter: [params] and [added] after it. *)
Definition auth_param_add (r : request) (configured : bool) (word : string) (params : params_t) (added : table)
  : params_t * table :=
  let '(key, val) := ap_getword word "="%char in
  let key := ap_unescape_url key in
  let val := ap_unescape_url val in
  let from_request := _oidc_strcmp (Some val) (Some "#") =? 0 in
  if from_request && negb (oidc_util_url_has_parameter r key) then (params, added)
  else
    let val := if from_request then oidc_util_url_parameter_get r key else Some val in
    if nonnull (params_get params key) && negb (nonnull (apr_table_get added key)) then
      if negb configured || from_request then (params, added)
      else (params_set params key val, apr_table_set added key "")
    else (params_add params key val, apr_table_set added key "").

Fixpoint auth_params_loop (r : request) (configured : bool) (ws : list string) (params : params_t) (added : table)
  : params_t * table :=
  match ws with
  | [] => (params, added)
  | w :: ws =>
      let '(params, added) := auth_param_add r configured w params added in
      auth_params_loop r configured ws params added
  end.

Definition oidc_proto_request_auth_params_add (r : request) (params : params_t) (added : table)
  (auth_request_params : option string) (configured : bool) : option (params_t * table) :=
  match auth_request_params with
  | None => Some (params, added)
  | Some s =>
      ws ← words (fun l => ap_getword l "&"%char) (S (String.length s)) s;
      Some (auth_params_loop r configured ws params added)
  end.

(** ** Request objects *)

Definition oidc_proto_request_object_param_needs_action (request_object_config : json_t) (parameter_name action : string) : bool :=
  match oidc_json_object_get (Some request_object_config) action with
  | None => false
  | Some arr =>
      existsb (fun value => oidc_json_is_string (Some value) &&
                            (_oidc_strcmp (oidc_json_string_value (Some value)) (Some parameter_name) =? 0)) (json_array_items arr)
  end.

Definition spec_string_params : list string :=
  [OIDC_PROTO_SCOPE; OIDC_PROTO_RESPONSE_TYPE; OIDC_PROTO_CLIENT_ID; OIDC_PROTO_REDIRECT_URI; OIDC_PROTO_STATE;
   OIDC_PROTO_RESPONSE_MODE; OIDC_PROTO_NONCE; OIDC_PROTO_DISPLAY; OIDC_PROTO_PROMPT; OIDC_PROTO_UI_LOCALES;
   OIDC_PROTO_ID_TOKEN_HINT; OIDC_PROTO_LOGIN_HINT; OIDC_PROTO_ACR_VALUES; OIDC_PROTO_CLAIMS_LOCALES;
   OIDC_PROTO_CODE_CHALLENGE; OIDC_PROTO_CODE_CHALLENGE_METHOD; OIDC_PROTO_REQUEST_URI; OIDC_PROTO_REQUEST_OBJECT].
Definition oidc_proto_request_object_param_is_spec_string (name : string) : bool :=
  existsb (fun p => _oidc_strcmp (Some name) (Some p) =? 0) spec_string_params.

(** The claims of the request object and the parameters to delete. *)
Definition oidc_proto_request_object_copy_from_request (config : json_t) (name : string) (value : option string)
  (json : json_t) (params2 : params_t) : json_t * params_t :=
  let needs := oidc_proto_request_object_param_needs_action config name in
  if needs OIDC_REQUEST_OBJECT_COPY_FROM_REQUEST || needs OIDC_REQUEST_OBJECT_COPY_AND_REMOVE_FROM_REQUEST then
    let result := if negb (oidc_proto_request_object_param_is_spec_string name)
                  then oidc_json_parse value OIDC_JSON_DECODE_ANY else None in
    let result := match result with Some _ => result | None => oidc_json_string value end in
    (match result with Some _ => oidc_json_object_set_new json name result | None => json end,
     if needs OIDC_REQUEST_OBJECT_COPY_AND_REMOVE_FROM_REQUEST then params_set params2 name (Some name) else params2)
  else (json, params2).

Definition oidc_proto_request_object_delete_from_request (config : json_t) (name : string) (params2 : params_t) : params_t :=
  if oidc_proto_request_object_param_needs_action config name OIDC_REQUEST_OBJECT_COPY_AND_REMOVE_FROM_REQUEST
  then params_unset params2 name else params2.

(** [apr_table_do] over the parameters, then over those to delete. *)
Definition oidc_proto_request_object_params_copy (config json : json_t) (params : params_t) : json_t * params_t :=
  let '(json, delete_from_query_params) :=
    foldl (fun '(json, del) '(name, value) => oidc_proto_request_object_copy_from_request config name value json del)
      (json, []) params in
  (json, foldl (fun params '(name, _) => oidc_proto_request_object_delete_from_request config name params)
           params delete_from_query_params).

(** The first key that may encrypt and has the type. *)
Fixpoint encryption_key_loop (key_type : Z) (elems : list json_t) : option oidc_jwk_t :=
  match elems with
  | [] => None
  | elem :: elems =>
      let use := oidc_json_string_value (oidc_json_object_get (Some elem) OIDC_JOSE_JWK_USE_STR) in
      if nonnull use && negb (_oidc_strcmp use (Some OIDC_JOSE_JWK_ENC_STR) =? 0) then encryption_key_loop key_type elems
      else
        match oidc_jwk_parse_json elem with
        | None => encryption_key_loop key_type elems
        | Some key => if key_type =? jwk_kty key then Some key else encryption_key_loop key_type elems
        end
  end.

Definition oidc_proto_request_object_encryption_jwk_by_type (provider : oidc_provider_t) (key_type : Z)
  : M St (option oidc_jwk_t) :=
  '(j_jwks, _) <- oidc_metadata_jwks_get ext net c (pv_jwks_uri provider)
                    (negb (oidc_cfg_provider_ssl_validate_server_get provider =? 0)) true ;;
  match (j_jwks : option json_t) with
  | None => ret None
  | Some j_jwks =>
      match oidc_json_object_get (Some j_jwks) OIDC_JOSE_JWKS_KEYS_STR with
      | None => ret None
      | Some keys =>
          if negb (oidc_json_is_array (Some keys)) then ret None
          else ret (encryption_key_loop key_type (json_array_items keys))
      end
  end.

Definition oidc_proto_request_object_claims_set (provider : oidc_provider_t) (config json : json_t) (ttl : Z) : M St json_t :=
  let json := oidc_json_object_set_new json OIDC_CLAIM_ISS (oidc_json_string (oidc_cfg_provider_client_id_get provider)) in
  let json := oidc_json_object_set_new json OIDC_CLAIM_AUD (oidc_json_string (oidc_cfg_provider_issuer_get provider)) in
  t <- apr_time_now ext ;;
  let json := oidc_json_object_set_new json OIDC_CLAIM_IAT (Some (oidc_json_integer (apr_time_sec t))) in
  t <- apr_time_now ext ;;
  let json := oidc_json_object_set_new json OIDC_CLAIM_NBF (Some (oidc_json_integer (apr_time_sec t))) in
  t <- apr_time_now ext ;;
  let json := oidc_json_object_set_new json OIDC_CLAIM_EXP (Some (oidc_json_integer (apr_time_sec t + ttl))) in
  ret (default json (oidc_json_merge (oidc_json_object_get (Some config) OIDC_REQUEST_OBJECT_STATIC) (Some json)).2).

(** The key and the header it completes; [None] is [NULL]. *)
Definition oidc_proto_request_object_signing_jwk_get (provider : oidc_provider_t) (request_object : oidc_jwt_t)
  : option oidc_jwk_t * oidc_jwt_t :=
  let kty := oidc_jwt_alg2kty request_object in
  if (kty =? OIDC_JOSE_JWK_KTY_RSA) || (kty =? OIDC_JOSE_JWK_KTY_EC) then
    match oidc_cfg_provider_client_keys_get provider, pc_private_keys c with
    | None, None => (None, request_object)
    | _, _ =>
        let sjwk := oidc_util_key_list_first
                      (match oidc_cfg_provider_client_keys_get provider with Some l => Some l | None => pc_private_keys c end)
                      kty (Some OIDC_JOSE_JWK_SIG_STR) in
        match (k ← sjwk; jwk_kid k) with
        | Some kid => (sjwk, with_key (Some kid) None request_object)
        | None => (sjwk, request_object)
        end
    end
  else if kty =? OIDC_JOSE_JWK_KTY_OCT then
    (mjoin (oidc_util_key_symmetric_create (oidc_cfg_provider_client_secret_get provider) 0 None false), request_object)
  else (None, request_object).

(** The signed token; [None] is [FALSE]. *)
Definition oidc_proto_request_object_sign (provider : oidc_provider_t) (request_object : oidc_jwt_t) : option oidc_jwt_t :=
  let '(sjwk, request_object) := oidc_proto_request_object_signing_jwk_get provider request_object in
  match sjwk with
  | None => None
  | Some sjwk => let '(ok, jwt) := oidc_jwt_sign request_object sjwk false in if ok : bool then Some jwt else None
  end.

Definition oidc_proto_request_object_encryption_jwk_get (provider : oidc_provider_t) (alg : option string) : M St (option oidc_jwk_t) :=
  let kty := oidc_alg2kty alg in
  if (kty =? OIDC_JOSE_JWK_KTY_RSA) || (kty =? OIDC_JOSE_JWK_KTY_EC) then
    oidc_proto_request_object_encryption_jwk_by_type provider kty
  else if kty =? OIDC_JOSE_JWK_KTY_OCT then
    ret (mjoin (oidc_util_key_symmetric_create (oidc_cfg_provider_client_secret_get provider) (oidc_alg2keysize alg)
                  (Some OIDC_JOSE_ALG_SHA256) false))
  else ret None.

(** [cjose] refuses a plaintext that is [NULL]. *)
Definition oidc_proto_request_object_encrypt (provider : oidc_provider_t) (jwe : oidc_jwt_hdr_t) (cser : option string)
  : M St (option string) :=
  ejwk <- oidc_proto_request_object_encryption_jwk_get provider (hdr_alg jwe) ;;
  ret (ejwk ← ejwk;
       let enc := match hdr_enc jwe with None => Some OIDC_JOSE_HDR_ENC_A128CBC_HS256 | e => e end in
       let kid := match jwk_kid ejwk with None => hdr_kid jwe | k => k end in
       cser ← cser;
       oidc_jwt_encrypt (mk_hdr (hdr_json jwe) (hdr_alg jwe) kid enc (hdr_cty jwe) (hdr_x5t jwe)) ejwk cser).

(** The request object, and the parameters that are left. *)
Definition oidc_proto_request_object_create (provider : oidc_provider_t) (config : json_t) (params : params_t) (ttl : Z)
  : M St (option string * params_t) :=
  json <- oidc_proto_request_object_claims_set provider config json_object ttl ;;
  let '(json, params) := oidc_proto_request_object_params_copy config json params in
  let crypto := oidc_json_object_get (Some config) OIDC_REQUEST_OBJECT_CRYPTO in
  let alg := default "none" (oidc_json_object_get_string crypto OIDC_REQUEST_OBJECT_CRYPTO_SIGN_ALG (Some "none")) in
  let p := payload oidc_jwt_new in
  let request_object :=
    with_alg alg (mk_jwt (header oidc_jwt_new) (mk_payload json (p_str p) (p_iss p) (p_sub p) (p_exp p) (p_iat p)) None) in
  match (if _oidc_strcmp (Some alg) (Some "none") =? 0 then Some request_object
         else oidc_proto_request_object_sign provider request_object) with
  | None => ret (None, params)
  | Some request_object =>
      let crypt_alg := oidc_json_object_get_string crypto OIDC_REQUEST_OBJECT_CRYPTO_CRYPT_ALG None in
      let crypt_enc := oidc_json_object_get_string crypto OIDC_REQUEST_OBJECT_CRYPTO_CRYPT_ENC None in
      let cser := oidc_jose_jwt_serialize request_object in
      match crypt_alg with
      | Some _ =>
          s <- oidc_proto_request_object_encrypt provider (mk_hdr json_object crypt_alg None crypt_enc (Some "JWT") None) cser ;;
          ret (s, params)
      | None => ret (cser, params)
      end
  end.

Definition oidc_proto_request_uri_create (provider : oidc_provider_t) (config : json_t) (redirect_uri : option string)
  (params : params_t) (ttl : Z) : M St (option string * params_t) :=
  let resolver_url := match oidc_json_object_get (Some config) OIDC_REQUEST_OBJECT_URL with
                      | Some v => oidc_json_string_value (Some v)
                      | None => redirect_uri
                      end in
  '(serialized, params) <- oidc_proto_request_object_create provider config params ttl ;;
  match (serialized : option string) with
  | None => ret (None, params)
  | Some s =>
      ref <- (fun w => Some (oidc_util_rand_str (rnd (w_calls w)) OIDC_PROTO_REQUEST_URI_REF_LEN,
                             mk_world (w_req w) (w_cache w) (S (w_calls w)))) ;;
      match (ref : option string) with
      | None => ret (None, params)
      | Some request_ref =>
          t <- apr_time_now ext ;;
          '_ <- cache_set ext (pc_cache c) OIDC_CACHE_SECTION_REQUEST_URI (Some request_ref) (Some s) (t + apr_time_from_sec ttl) ;;
          ret (Some (default "(null)" resolver_url ^^ "?" ^^ OIDC_PROTO_REQUEST_URI ^^ "=" ^^ oidc_http_url_encode (Some request_ref)),
               params)
      end
  end.

Definition oidc_proto_request_object_param_add (provider : oidc_provider_t) (redirect_uri : option string) (params : params_t)
  : M St params_t :=
  match oidc_json_decode_object (oidc_cfg_provider_request_object_get provider) with
  | None => ret params
  | Some config =>
      match (match oidc_json_object_get (Some config) OIDC_REQUEST_OBJECT_TYPE with
             | None => Some OIDC_PROTO_REQUEST_URI
             | Some type =>
                 match oidc_json_string_value (Some type) with
                 | None => None
                 | Some s =>
                     if _oidc_strcmp (Some s) (Some OIDC_PROTO_REQUEST_OBJECT) =? 0 then Some OIDC_PROTO_REQUEST_OBJECT
                     else if negb (_oidc_strcmp (Some s) (Some OIDC_PROTO_REQUEST_URI) =? 0) then None
                     else Some OIDC_PROTO_REQUEST_URI
                 end
             end) with
      | None => ret params
      | Some parameter =>
          let ttl := (oidc_json_object_get_int (Some config) OIDC_REQUEST_OBJECT_TTL OIDC_REQUEST_OBJECT_TTL_DEFAULT).2 in
          '(value, params) <- (if _oidc_strcmp (Some parameter) (Some OIDC_PROTO_REQUEST_URI) =? 0
                               then oidc_proto_request_uri_create provider config redirect_uri params ttl
                               else oidc_proto_request_object_create provider config params ttl) ;;
          ret (params_some parameter value params)
      end
  end.

(** ** The parameters of an authentication request *)

Definition oidc_proto_request_auth_scope_set (provider : oidc_provider_t) (path_scope : option string) (params : params_t) : params_t :=
  let scope := oidc_cfg_provider_scope_get provider in
  let scope := match path_scope with
               | Some p => if negb (_oidc_strcmp (Some scope) (Some "") =? 0) then scope ^^ " " ^^ p else p
               | None => scope
               end in
  params_set params OIDC_PROTO_SCOPE (Some scope).

(** What the module sets itself. *)
Definition own_params (provider : oidc_provider_t) (login_hint redirect_uri state : option string) (proto_state : oidc_proto_state_t)
  (id_token_hint code_challenge path_scope : option string) : params_t :=
  let params := params_set [] OIDC_PROTO_RESPONSE_TYPE (oidc_proto_state_get_response_type proto_state) in
  let params := oidc_proto_request_auth_scope_set provider path_scope params in
  let params := params_set params OIDC_PROTO_CLIENT_ID (oidc_cfg_provider_client_id_get provider) in
  let params := params_set params OIDC_PROTO_STATE state in
  let params := params_set params OIDC_PROTO_REDIRECT_URI redirect_uri in
  let params := params_some OIDC_PROTO_NONCE (oidc_proto_state_get_nonce proto_state) params in
  let method := pkce_method (oidc_proto_profile_pkce_get provider) in
  let params := if nonnull code_challenge && negb (String.eqb method OIDC_PKCE_METHOD_NONE) then
                  params_set (params_set params OIDC_PROTO_CODE_CHALLENGE code_challenge) OIDC_PROTO_CODE_CHALLENGE_METHOD (Some method)
                else params in
  let params := params_some OIDC_PROTO_RESPONSE_MODE (oidc_proto_state_get_response_mode proto_state) params in
  let params := params_some OIDC_PROTO_LOGIN_HINT login_hint params in
  let params := params_some OIDC_PROTO_ID_TOKEN_HINT id_token_hint params in
  params_some OIDC_PROTO_PROMPT (oidc_proto_state_get_prompt proto_state) params.

Definition oidc_proto_request_auth_params_set (provider : oidc_provider_t) (login_hint redirect_uri state : option string)
  (proto_state : oidc_proto_state_t) (id_token_hint code_challenge auth_request_params path_scope : option string) : M St params_t :=
  let params := own_params provider login_hint redirect_uri state proto_state id_token_hint code_challenge path_scope in
  r <- get_req ;;
  '(params, added) <- lift (oidc_proto_request_auth_params_add r params [] (oidc_cfg_provider_auth_request_params_get provider) true) ;;
  '(params, _) <- lift (oidc_proto_request_auth_params_add r params added auth_request_params false) ;;
  match oidc_cfg_provider_request_object_get provider with
  | Some _ => oidc_proto_request_object_param_add provider redirect_uri params
  | None => ret params
  end.

(** ** Pushed authorization requests *)

(** Change the request and return. *)
Definition respond (f : request -> Z * request) : M St Z :=
  fun w => let '(rc, r) := f (w_req w) in Some (rc, mk_world r (w_cache w) (w_calls w)).

Definition oidc_proto_request_auth_push (provider : oidc_provider_t) (params : params_t) : M St Z :=
  match oidc_cfg_provider_pushed_authorization_request_endpoint_url_get provider with
  | None =>
      respond (fun r => oidc_util_html_send_error r (Some "Pushed Authorization Request Endpoint not set")
        (Some ("the Provider" ^^ String "039" "s OAuth 2.0 Pushed Authorization Request endpoint URL is not set, PAR cannot be used")) 500)
  | Some endpoint_url =>
      '(ok, a) <- oidc_proto_token_endpoint_auth ext rnd c (oidc_cfg_provider_token_endpoint_auth_get provider)
                    (oidc_cfg_provider_token_endpoint_auth_alg_get provider) (oidc_cfg_provider_client_id_get provider)
                    (oidc_cfg_provider_client_secret_get provider) (oidc_cfg_provider_client_keys_get provider)
                    (oidc_proto_profile_token_endpoint_auth_aud provider) None (mk_auth (params_table params) None None) ;;
      if negb (ok : bool) then ret 500
      else
        result <- http_post_form net c (provider_args c provider (ca_basic a) (ca_bearer a) None) (Some endpoint_url) (ca_params a) ∅ ;;
        match (result : option http_result) with
        | None => ret 500
        | Some result =>
            match oidc_json_decode_and_check_error (hr_response result) with
            | None => ret 500
            | Some j_result =>
                let request_uri := oidc_json_object_get_string (Some j_result) OIDC_PROTO_REQUEST_URI None in
                let params := params_set [] OIDC_PROTO_CLIENT_ID (oidc_cfg_provider_client_id_get provider) in
                let params := params_set params OIDC_PROTO_REQUEST_URI request_uri in
                let params := params_some OIDC_PROTO_SCOPE (oidc_proto_profile_request_uri_scope_get provider) params in
                respond (fun r =>
                  (HTTP_MOVED_TEMPORARILY,
                   oidc_http_hdr_out_location_set r
                     (oidc_http_query_encoded_url (oidc_cfg_provider_authorization_endpoint_url_get provider) (Some (params_table params)))))
            end
        end
  end.
End request.

(** ** Tables *)

(** All values of a parameter. *)
Definition params_values (t : params_t) (k : string) : list (option string) :=
  map snd (List.filter (fun '(k', _) => strcaseeq k' k) t).

Lemma params_values_unset t k k' : params_values (params_unset t k) k' = if strcaseeq k k' then [] else params_values t k'.
Proof.
  induction t as [|[k0 v] t IH]; cbn [params_unset]; [by destruct (strcaseeq k k')|].
  destruct (strcaseeq k0 k) eqn:E.
  - rewrite IH. unfold params_values. cbn. rewrite (strcaseeq_trans k0 k k' E). by destruct (strcaseeq k k').
  - unfold params_values in *. cbn. destruct (strcaseeq k0 k') eqn:E'; cbn; rewrite IH; [|done].
    destruct (strcaseeq k k') eqn:Ek; [|done]. by rewrite (strcaseeq_sym k k'), <- (strcaseeq_trans k0 k' k E'), E in Ek.
Qed.

Lemma params_values_set t k k' v : params_values (params_set t k v) k' = if strcaseeq k k' then [v] else params_values t k'.
Proof.
  induction t as [|[k0 v0] t IH]; cbn [params_set].
  - unfold params_values. cbn. by destruct (strcaseeq k k').
  - destruct (strcaseeq k0 k) eqn:E.
    + pose proof (params_values_unset t k k') as Hu. unfold params_values in *. cbn. rewrite (strcaseeq_trans k0 k k' E).
      destruct (strcaseeq k k'); cbn; by rewrite Hu.
    + unfold params_values in *. cbn. destruct (strcaseeq k0 k') eqn:E'; cbn; rewrite IH; [|done].
      destruct (strcaseeq k k') eqn:Ek; [|done]. by rewrite (strcaseeq_sym k k'), <- (strcaseeq_trans k0 k' k E'), E in Ek.
Qed.

Lemma params_values_add t k k' v :
  params_values (params_add t k v) k' = params_values t k' ++ if strcaseeq k k' then [v] else [].
Proof. unfold params_values, params_add. rewrite List.filter_app, map_app. cbn. by destruct (strcaseeq k k'). Qed.

Lemma params_get_head t k : params_get t k = mjoin (head (params_values t k)).
Proof. induction t as [|[k0 v] t IH]; [done|]. unfold params_values in *. cbn. by destruct (strcaseeq k0 k). Qed.

Lemma params_get_ext t k k' : strcaseeq k k' = true -> params_get t k = params_get t k'.
Proof.
  intros E. induction t as [|[k0 v] t IH]; [done|]. cbn. rewrite IH.
  by rewrite (strcaseeq_sym k0 k), (strcaseeq_sym k0 k'), (strcaseeq_trans k k' k0 E).
Qed.

(** No parameter is there twice. *)
Definition params_unique (t : params_t) : Prop := forall k, (length (params_values t k) <= 1)%nat.

Lemma params_unique_set t k v : params_unique t -> params_unique (params_set t k v).
Proof. intros Hu k'. rewrite params_values_set. destruct (strcaseeq k k'); [done|apply Hu]. Qed.

Lemma params_unique_some k v t : params_unique t -> params_unique (params_some k v t).
Proof. destruct v; [apply params_unique_set|done]. Qed.

Lemma params_unique_get t k v : params_unique t -> params_get t k = Some v -> params_values t k = [Some v].
Proof.
  intros Hu. rewrite params_get_head. specialize (Hu k). destruct (params_values t k) as [|x [|y l]]; cbn in *; [done| |lia].
  by intros ->.
Qed.

Lemma own_params_unique {J : Jansson} {O : Jose} {B64 : Base64} {C : Cjose J} p login_hint redirect_uri state proto_state
  id_token_hint code_challenge path_scope :
  params_unique (own_params p login_hint redirect_uri state proto_state id_token_hint code_challenge path_scope).
Proof.
  unfold own_params, oidc_proto_request_auth_scope_set. cbv zeta.
  repeat first [apply params_unique_some|apply params_unique_set|destruct (nonnull code_challenge && _)]; intros k; cbn; lia.
Qed.

(** ** Where the parameters come from *)

Section provenance.
Context {H : Httpd}.
Variables (r : request).

(** A configured parameter: its name and value. *)
Definition param_of (word : string) : string * string :=
  let '(key, val) := ap_getword word "="%char in (ap_unescape_url key, ap_unescape_url val).
(** The parameters of a setting. *)
Definition params_of (s : option string) : list (string * string) :=
  match s with Some s => map param_of (default [] (words (fun l => ap_getword l "&"%char) (S (String.length s)) s)) | None => [] end.

(** [k] is set to a value by [l]. *)
Definition sets (l : list (string * string)) (k : string) : Prop := exists k' v, In (k', v) l /\ strcaseeq k' k = true /\ v <> "#".

(** An entry is one of the module, of the configuration, or one of the request that the configuration lets through. *)
Definition origin (own : params_t) (l : list (string * string)) (e : string * option string) : Prop :=
  In e own \/ (exists k v, In (k, v) l /\ strcaseeq k e.1 = true /\ v <> "#" /\ e.2 = Some v) \/
  (In (e.1, "#") l /\ oidc_util_url_has_parameter r e.1 = true /\ e.2 = oidc_util_url_parameter_get r e.1).

(** A parameter of the module has its value and no other, unless [l] sets it. *)
Definition kept (own : params_t) (l : list (string * string)) (params : params_t) (added : table) : Prop :=
  forall k v, params_get own k = Some v ->
    params_values params k = [Some v] /\ apr_table_get added k = None \/ sets l k.

Lemma table_get_ext t k k' : strcaseeq k k' = true -> apr_table_get t k = apr_table_get t k'.
Proof.
  intros E. induction t as [|[k0 v] t IH]; [done|]. cbn. rewrite IH.
  by rewrite (strcaseeq_sym k0 k), (strcaseeq_sym k0 k'), (strcaseeq_trans k k' k0 E).
Qed.

Lemma params_set_In t k v e : In e (params_set t k v) -> In e t \/ strcaseeq k e.1 = true /\ e.2 = v.
Proof.
  induction t as [|[k0 v0] t IH]; cbn [params_set].
  - intros [<-|[]]. right. by rewrite strcaseeq_refl.
  - destruct (strcaseeq k0 k) eqn:E.
    + intros [<-|Hin]; [right; by rewrite strcaseeq_sym|]. left. right. clear -Hin. induction t as [|[k1 v1] t IH]; [done|].
      cbn in Hin. destruct (strcaseeq k1 k); [right; auto|]. destruct Hin as [<-|Hin]; [by left|right; auto].
    + intros [<-|Hin]; [left; by left|]. destruct (IH Hin) as [?|?]; [left; by right|by right].
Qed.

(** One step keeps the invariants: [ls] is what the administrator sets statically, [l] everything that is configured. *)
Lemma auth_param_step own ls l configured w params added params' added' :
  auth_param_add r configured w params added = (params', added') ->
  In (param_of w) l -> (configured = true -> In (param_of w) ls) ->
  kept own ls params added -> Forall (origin own l) params -> kept own ls params' added' /\ Forall (origin own l) params'.
Proof.
  unfold auth_param_add, param_of. destruct (ap_getword w "="%char) as [key0 val0].
  set (key := ap_unescape_url key0). set (val := ap_unescape_url val0). intros E Hl Hls Hk Ho.
  destruct (_oidc_strcmp (Some val) (Some "#") =? 0) eqn:Ev.
  - apply Z.eqb_eq, strcmp_eq in Ev. cbn [andb] in E.
    destruct (oidc_util_url_has_parameter r key) eqn:Eh; cbn [negb] in E; [|by simplify_eq].
    rewrite orb_true_r in E. destruct (nonnull (params_get params key) && negb (nonnull (apr_table_get added key))) eqn:Eown; [by simplify_eq|].
    injection E as <- <-. split.
    + intros k v Hkv. destruct (Hk k v Hkv) as [[Hv Ha]|]; [|by right].
      destruct (strcaseeq key k) eqn:Ekk.
      * rewrite (params_get_ext _ _ _ Ekk), params_get_head, Hv, (table_get_ext _ _ _ Ekk), Ha in Eown. done.
      * left. rewrite params_values_add, Ekk, app_nil_r. by rewrite table_get_set_ne.
    + apply List.Forall_app. split; [done|]. apply List.Forall_cons; [|apply List.Forall_nil].
      right; right. cbn [fst snd]. by rewrite <- Ev.
  - cbn [andb orb] in E. rewrite orb_false_r in E.
    assert (val <> "#") as Hval by (clearbody val; intros ->; done).
    assert (forall k', strcaseeq key k' = true -> configured = true -> sets ls k') as Hset.
    { intros k' Ek' Hc. exists key, val. auto. }
    destruct (nonnull (params_get params key) && negb (nonnull (apr_table_get added key))) eqn:Eown.
    + destruct configured; cbn [negb] in E; [|by simplify_eq]. injection E as <- <-. split.
      * intros k v Hkv. destruct (strcaseeq key k) eqn:Ekk; [right; auto|]. destruct (Hk k v Hkv) as [[Hv Ha]|]; [|by right].
        left. by rewrite params_values_set, Ekk, table_get_set_ne.
      * apply List.Forall_forall. intros e Hin. destruct (params_set_In _ _ _ _ Hin) as [Hin'|[Hke He]].
        { by apply (proj1 (List.Forall_forall _ _) Ho). }
        right; left. exists key, val. by rewrite He.
    + injection E as <- <-. split.
      * intros k v Hkv. destruct (Hk k v Hkv) as [[Hv Ha]|]; [|by right]. destruct (strcaseeq key k) eqn:Ekk.
        { rewrite (params_get_ext _ _ _ Ekk), params_get_head, Hv, (table_get_ext _ _ _ Ekk), Ha in Eown. done. }
        left. rewrite params_values_add, Ekk, app_nil_r. by rewrite table_get_set_ne.
      * apply List.Forall_app. split; [done|]. apply List.Forall_cons; [|apply List.Forall_nil].
        right; left. exists key, val. cbn. by rewrite strcaseeq_refl.
Qed.

Lemma auth_params_loop_inv own ls l configured ws params added params' added' :
  auth_params_loop r configured ws params added = (params', added') ->
  (forall w, In w ws -> In (param_of w) l) -> (configured = true -> forall w, In w ws -> In (param_of w) ls) ->
  kept own ls params added -> Forall (origin own l) params -> kept own ls params' added' /\ Forall (origin own l) params'.
Proof.
  revert params added. induction ws as [|w ws IH]; intros params added; cbn [auth_params_loop]; [by intros [= <- <-]|].
  destruct (auth_param_add r configured w params added) as [p1 a1] eqn:E1. intros E Hl Hls Hk Ho.
  destruct (auth_param_step own ls l configured w params added p1 a1 E1) as [Hk1 Ho1]; auto.
  { apply Hl. by left. } { intros Hc. apply Hls; [done|by left]. }
  eapply IH; [exact E| | |done|done].
  - intros w' Hw'. apply Hl. by right.
  - intros Hc w' Hw'. apply Hls; [done|by right].
Qed.

Lemma auth_params_add_inv {HS : HttpdSpec H} own ls l configured s params added :
  (forall e, In e (params_of s) -> In e l) -> (configured = true -> forall e, In e (params_of s) -> In e ls) ->
  kept own ls params added -> Forall (origin own l) params ->
  exists params' added', oidc_proto_request_auth_params_add r params added s configured = Some (params', added') /\
    kept own ls params' added' /\ Forall (origin own l) params'.
Proof.
  intros Hl Hls Hk Ho. destruct s as [s|]; cbn [oidc_proto_request_auth_params_add]; [|by eexists _, _].
  unfold params_of in Hl, Hls. edestruct (words_total (fun l => ap_getword l "&"%char) (S (String.length s)) s) as [ws Ew]; [|lia|].
  { intros x Hx. by apply getword_shorter. }
  rewrite Ew in *. cbn [mbind option_bind default from_option id] in *.
  destruct (auth_params_loop r configured ws params added) as [p1 a1] eqn:E1. eexists _, _. split; [done|].
  eapply auth_params_loop_inv; [exact E1| | |done|done].
  - intros w Hw. apply Hl. by apply in_map.
  - intros Hc w Hw. apply Hls; [done|]. by apply in_map.
Qed.

Lemma auth_params_origin {HS : HttpdSpec H} own static dynamic : params_unique own ->
  exists params added added' params',
    oidc_proto_request_auth_params_add r own [] static true = Some (params, added) /\
    oidc_proto_request_auth_params_add r params added dynamic false = Some (params', added') /\
    kept own (params_of static) params' added' /\ Forall (origin own (params_of static ++ params_of dynamic)) params'.
Proof.
  intros Hu. assert (kept own (params_of static) own []) as Hk0.
  { intros k v Hkv. left. split; [by apply params_unique_get|done]. }
  destruct (auth_params_add_inv own (params_of static) (params_of static ++ params_of dynamic) true static own []) as (p1 & a1 & E1 & Hk1 & Ho1).
  { intros e He. apply in_or_app. by left. } { auto. } { done. } { apply List.Forall_forall. intros e He. by left. }
  destruct (auth_params_add_inv own (params_of static) (params_of static ++ params_of dynamic) false dynamic p1 a1) as (p2 & a2 & E2 & Hk2 & Ho2).
  { intros e He. apply in_or_app. by right. } { done. } { done. } { done. }
  by exists p1, a1, a2, p2.
Qed.

Lemma kept_values own l params added k v : kept own l params added -> params_get own k = Some v ->
  params_values params k = [Some v] \/ sets l k.
Proof. intros Hk Hkv. destruct (Hk k v Hkv) as [[? _]|?]; auto. Qed.

(** C38: custom parameters are always added, and nothing in a request can change what the module itself sends: each parameter of
    the module has its value, and only one, unless the static configuration sets it; every other parameter has
    a configured value, or is one of the request that the configuration explicitly forwards. *)
Theorem auth_params_provenance {HS : HttpdSpec H} own static dynamic : params_unique own ->
  exists params added added' params',
    oidc_proto_request_auth_params_add r own [] static true = Some (params, added) /\
    oidc_proto_request_auth_params_add r params added dynamic false = Some (params', added') /\
    (forall k v, params_get own k = Some v -> params_values params' k = [Some v] \/ sets (params_of static) k) /\
    Forall (origin own (params_of static ++ params_of dynamic)) params'.
Proof.
  intros Hu. destruct (auth_params_origin own static dynamic Hu) as (p1 & a1 & a2 & p2 & E1 & E2 & Hk & Ho).
  exists p1, a1, a2, p2. split_and!; [done|done| |done]. intros k v. by apply kept_values with a2.
Qed.
End provenance.

(** ** Witnesses *)

Section demo.
#[local] Existing Instances HttpdModel.httpd HttpdModel.httpd_spec.

(** The request tries to replace the client, and gives a hint that the configuration forwards. *)
Definition demo_args_request : request :=
  mk_request M_GET (Some "/") "/" (Some "/") (Some "login_hint=joe&client_id=evil") None [] [] [] [] (Some "https") "example.com" 443 ∅ None.
Definition demo_own : params_t := params_set (params_set [] OIDC_PROTO_CLIENT_ID (Some "c1")) OIDC_PROTO_STATE (Some "s1").

Lemma auth_params_provenance_witness :
  exists params added params' added',
    oidc_proto_request_auth_params_add demo_args_request demo_own [] (Some "prompt=login&login_hint=#") true = Some (params, added) /\
    oidc_proto_request_auth_params_add demo_args_request params added (Some "client_id=#") false = Some (params', added') /\
    params_values params' OIDC_PROTO_CLIENT_ID = [Some "c1"] /\
    params' = [(OIDC_PROTO_CLIENT_ID, Some "c1"); (OIDC_PROTO_STATE, Some "s1"); (OIDC_PROTO_PROMPT, Some "login"); (OIDC_PROTO_LOGIN_HINT, Some "joe")].
Proof.
  assert (params_unique demo_own) as Hu by (repeat apply params_unique_set; intros k; cbn; lia).
  destruct (auth_params_provenance demo_args_request demo_own (Some "prompt=login&login_hint=#") (Some "client_id=#") Hu)
    as (p & a & a' & p' & E1 & E2 & Hk & _).
  exists p, a, p', a'. split; [exact E1|]. split; [exact E2|]. split.
  - destruct (Hk OIDC_PROTO_CLIENT_ID "c1" eq_refl) as [Hv|(k & v & [[= <- <-]|[[= <- <-]|[]]] & E & _)]; [exact Hv|discriminate E|discriminate E].
  - vm_compute in E1. injection E1 as <- <-. vm_compute in E2. by injection E2 as <- _.
Defined.

End demo.
