(* ===== verification/Userinfo.v ===== *)
(** * src/proto/userinfo.c: claims from the userinfo endpoint

    The response is a JSON object or a token that must be signed as configured; aggregated and distributed
    claims are resolved into it.  The JSON values are mutated in place by the code: iterating over the names of
    composite claims while the member that holds them is replaced has no defined behaviour, and is [None]. *)

From S2P Require Import Prelude Cstr Apr StrUtil Jansson Json Http Form Url Cookie Base64 Jose Jwt Util ShmCache Cache World.
From S2P Require Import HttpClient Cjose Jwk Jwe JoseLib Jws Pkce Provider Profile JwtCheck Jwks IdToken IdTokenProps.
From S2P Require Import ClientAuth Token Response.
#[local] Open Scope Z_scope.

Definition OIDC_COMPOSITE_CLAIM_NAMES : string := "_claim_names".
Definition OIDC_COMPOSITE_CLAIM_SOURCES : string := "_claim_sources".
Definition OIDC_COMPOSITE_CLAIM_JWT : string := "JWT".
Definition OIDC_COMPOSITE_CLAIM_ACCESS_TOKEN : string := OIDC_PROTO_ACCESS_TOKEN.
Definition OIDC_COMPOSITE_CLAIM_ENDPOINT : string := "endpoint".
Definition OIDC_NO_USERINFO_SUB : string := "OIDC_NO_USERINFO_SUB".

(** What the caller gets: the claims and the response as a string. *)
Record userinfo {J : Jansson} := mk_userinfo { ui_claims : json_t; ui_response : option string }.
#[global] Arguments userinfo {J}.
#[global] Arguments mk_userinfo {J}.
#[global] Arguments ui_claims {J}.
#[global] Arguments ui_response {J}.

#[local] Open Scope world_scope.

Section userinfo.
Context {J : Jansson} {O : Jose} {B64 : Base64} {C : Cjose J} {CE : CjoseExport C} {D : Digest} {Zl : Zlib} {H : Httpd}.
Context {St : Type} {B : CacheBackend St}.
Variables (ext : nat -> env) (net : nat -> network) (rnd : nat -> rng) (c : proto_cfg C).

(** ** A token as response *)

(** The text of the token, after decryption when this is configured; [None] is [FALSE]. *)
Definition userinfo_decrypt (provider : oidc_provider_t) (response : option string) (jwk : option oidc_jwk_t) : option string :=
  let response := default "" response in
  match pv_userinfo_encrypted_response_alg provider with
  | None => Some response
  | Some _ => cstr <$> Jwe.oidc_jwe_decrypt response (Some (oidc_util_key_symmetric_merge (pc_private_keys c) jwk)) true
  end.

(** The claims, the response and the token; [None] is [FALSE]. *)
Definition oidc_proto_userinfo_response_jwt_parse (provider : oidc_provider_t) (response : option string)
  : M St (option (json_t * option string * string)) :=
  match Jwe.oidc_proto_jwt_header_peek response with
  | (None, _, _, _) => ret None
  | (Some _, alg, _, _) =>
      match
        jwk ← oidc_util_key_symmetric_create (oidc_cfg_provider_client_secret_get provider) (oidc_alg2keysize alg)
                (Some OIDC_JOSE_ALG_SHA256) true;
        response ← userinfo_decrypt provider response jwk;
        signed_alg ← oidc_cfg_provider_userinfo_signed_response_alg_get provider;
        jwt ← oidc_jwt_parse response (Some (oidc_util_key_symmetric_merge (pc_private_keys c) jwk)) false;
        jwk ← oidc_util_key_symmetric_create (oidc_cfg_provider_client_secret_get provider) 0 None true;
        Some (response, signed_alg, jwt, jwk)
      with
      | None => ret None
      | Some (response, signed_alg, jwt, jwk) =>
          '(ok, jwt) <- oidc_proto_jwt_verify ext net c jwt (oidc_cfg_provider_jwks_uri_get provider)
                          (negb (oidc_cfg_provider_ssl_validate_server_get provider =? 0))
                          (Some (oidc_util_key_symmetric_merge None jwk)) (Some signed_alg) ;;
          ret (if (ok : bool) then Some (p_json (payload jwt), p_str (payload jwt), response) else None)
      end
  end.

(** ** Composite claims *)

Definition oidc_proto_userinfo_composite_source_payload (value : json_t) : M St (option string) :=
  let jwt := oidc_json_object_get (Some value) OIDC_COMPOSITE_CLAIM_JWT in
  if oidc_json_is_string jwt then ret (oidc_json_string_value jwt)
  else
    match oidc_json_string_value (oidc_json_object_get (Some value) OIDC_COMPOSITE_CLAIM_ACCESS_TOKEN),
          oidc_json_string_value (oidc_json_object_get (Some value) OIDC_COMPOSITE_CLAIM_ENDPOINT) with
    | Some access_token, Some endpoint =>
        result <- http_get net c (provider_args c (pc_provider c) None (Some access_token) None) (Some endpoint) None ∅ ;;
        ret (result ← result; hr_response result)
    | _, _ => ret None
    end.

Definition oidc_proto_userinfo_composite_decode_source (key s_json : string) (decoded : json_t) : json_t :=
  match oidc_jwt_parse s_json (Some (oidc_util_key_symmetric_merge (pc_private_keys c) None)) false with
  | None => decoded
  | Some jwt =>
      let v := default oidc_json_object (oidc_json_object_get (Some decoded) key) in
      oidc_json_object_set_new decoded key (oidc_json_merge (Some (p_json (payload jwt))) (Some v)).2
  end.

Fixpoint oidc_proto_userinfo_composite_decode_sources (iter : list (string * json_t)) (decoded : json_t) : M St json_t :=
  match iter with
  | [] => ret decoded
  | (key, value) :: iter =>
      if oidc_json_is_object (Some value) then
        s_json <- oidc_proto_userinfo_composite_source_payload value ;;
        oidc_proto_userinfo_composite_decode_sources iter
          (match (s_json : option string) with
           | Some s => if _oidc_strcmp (Some s) (Some "") =? 0 then decoded
                       else oidc_proto_userinfo_composite_decode_source key s decoded
           | None => decoded
           end)
      else oidc_proto_userinfo_composite_decode_sources iter decoded
  end.

(** Replacing the member that holds the names frees the object that is iterated over. *)
Fixpoint oidc_proto_userinfo_composite_apply_names (iter : list (string * json_t)) (decoded claims : json_t) : option json_t :=
  match iter with
  | [] => Some claims
  | (key, value) :: iter =>
      match
        s_value ← json_string_value value;
        values ← oidc_json_object_get (Some decoded) s_value;
        oidc_json_object_get (Some values) key
      with
      | None => oidc_proto_userinfo_composite_apply_names iter decoded claims
      | Some v =>
          if decide (key = OIDC_COMPOSITE_CLAIM_NAMES) then None
          else oidc_proto_userinfo_composite_apply_names iter decoded (oidc_json_object_set claims key (Some v))
      end
  end.

(** The boolean and the claims. *)
Definition oidc_proto_userinfo_request_composite_claims (claims : json_t) : M St (bool * json_t) :=
  let names := oidc_json_object_get (Some claims) OIDC_COMPOSITE_CLAIM_NAMES in
  let sources := oidc_json_object_get (Some claims) OIDC_COMPOSITE_CLAIM_SOURCES in
  if negb (oidc_json_is_object names) then ret (false, claims)
  else if negb (oidc_json_is_object sources) then ret (false, claims)
  else
    decoded <- oidc_proto_userinfo_composite_decode_sources (oidc_json_object_iter sources) oidc_json_object ;;
    claims <- lift (oidc_proto_userinfo_composite_apply_names (oidc_json_object_iter names) decoded claims) ;;
    ret (true, oidc_json_object_del (oidc_json_object_del claims OIDC_COMPOSITE_CLAIM_NAMES) OIDC_COMPOSITE_CLAIM_SOURCES).

(** ** The request *)

Definition oidc_proto_userinfo_endpoint_call (provider : oidc_provider_t) (access_token dpop : option string)
  (response_hdrs : option hdrs_t) : M St (option http_result) :=
  let url := oidc_cfg_provider_userinfo_endpoint_url_get provider in
  let hdrs := default ∅ response_hdrs in
  if oidc_cfg_provider_userinfo_token_method_get provider =? OIDC_USER_INFO_TOKEN_METHOD_HEADER then
    http_get net c (provider_args c provider None access_token dpop) url None hdrs
  else if oidc_cfg_provider_userinfo_token_method_get provider =? OIDC_USER_INFO_TOKEN_METHOD_POST then
    http_post_form net c (provider_args c provider None None dpop) url
      (apr_table_set [] OIDC_PROTO_ACCESS_TOKEN (default "" access_token)) hdrs
  else ret None.

Definition oidc_proto_userinfo_request_dpop_init (provider : oidc_provider_t) (method : string) (access_token : option string)
  : M St (option string * hdrs_t) :=
  dpop <- oidc_proto_dpop_create ext rnd c (oidc_cfg_provider_userinfo_endpoint_url_get provider) method access_token None ;;
  ret (dpop, dpop_response_hdrs).

(** The claims and the response ([None] is [FALSE]), the headers, and [*userinfo_jwt] and [*response_code], which
    keep the values they had when there is no token or no response. *)
Definition oidc_proto_userinfo_response_resolve (provider : oidc_provider_t) (access_token dpop : option string)
  (response_hdrs : option hdrs_t) (userinfo_jwt : option string) (response_code : Z)
  : M St (option userinfo * option hdrs_t * option string * Z) :=
  result <- oidc_proto_userinfo_endpoint_call provider access_token dpop response_hdrs ;;
  match (result : option http_result) with
  | None => ret (None, response_hdrs, userinfo_jwt, response_code)
  | Some x =>
      let response_hdrs : option hdrs_t := (fun _ => hr_hdrs x) <$> response_hdrs in
      match oidc_json_decode_object_err (hr_response x) with
      | Some claims => ret (Some (mk_userinfo claims (hr_response x)), response_hdrs, userinfo_jwt, hr_code x)
      | None =>
          parsed <- oidc_proto_userinfo_response_jwt_parse provider (hr_response x) ;;
          ret (match (parsed : option (json_t * option string * string)) with
               | Some (claims, response, jwt) => (Some (mk_userinfo claims response), response_hdrs, Some jwt, hr_code x)
               | None => (None, response_hdrs, userinfo_jwt, hr_code x)
               end)
      end
  end.

Definition oidc_proto_userinfo_request_validate_sub (r : request) (id_token_sub : option string) (userinfo_claims : json_t) : bool :=
  let user_info_sub := (oidc_jose_get_string userinfo_claims OIDC_CLAIM_SUB false None).2 in
  if negb (nonnull user_info_sub) && negb (nonnull (apr_table_get (subprocess_env r) OIDC_NO_USERINFO_SUB)) then false
  else negb (nonnull id_token_sub && nonnull user_info_sub && negb (_oidc_strcmp id_token_sub user_info_sub =? 0)).

(** Once more with the nonce of an error response to a request with DPoP. *)
Definition userinfo_retry (provider : oidc_provider_t) (method : string) (access_token : option string)
  (u : userinfo) (response_hdrs : option hdrs_t) (userinfo_jwt : option string) (response_code : Z)
  : M St (option userinfo * option string * Z) :=
  match response_hdrs with
  | Some hdrs =>
      if negb (nonnull userinfo_jwt) && oidc_json_check_error (Some (ui_claims u)) then
        dpop <- oidc_proto_dpop_use_nonce ext rnd c (Some (ui_claims u)) hdrs
                  (oidc_cfg_provider_userinfo_endpoint_url_get provider) method access_token ;;
        match (dpop : option string) with
        | None => ret (None, userinfo_jwt, response_code)
        | Some dpop =>
            '(u, _, userinfo_jwt, response_code) <-
              oidc_proto_userinfo_response_resolve provider access_token (Some dpop) response_hdrs userinfo_jwt response_code ;;
            ret (match (u : option userinfo) with
                 | Some u => if oidc_json_check_error (Some (ui_claims u)) then None else Some u
                 | None => None
                 end, userinfo_jwt, response_code)
        end
      else ret (Some u, userinfo_jwt, response_code)
  | None => ret (Some u, userinfo_jwt, response_code)
  end.

(** The claims ([None] is [FALSE]), [*userinfo_jwt] and [*response_code]. *)
Definition oidc_proto_userinfo_request (provider : oidc_provider_t) (id_token_sub access_token access_token_type : option string)
  (userinfo_jwt : option string) (response_code : Z) : M St (option userinfo * option string * Z) :=
  let method :=
    if oidc_cfg_provider_userinfo_token_method_get provider =? OIDC_USER_INFO_TOKEN_METHOD_POST then "POST" else "GET" in
  let is_dpop := _oidc_strnatcasecmp access_token_type (Some OIDC_PROTO_DPOP) =? 0 in
  '(dpop, response_hdrs) <-
    (if is_dpop then '(dpop, hdrs) <- oidc_proto_userinfo_request_dpop_init provider method access_token ;; ret (dpop, Some hdrs)
     else ret (None, None)) ;;
  if is_dpop && negb (nonnull dpop) then ret (None, userinfo_jwt, response_code)
  else
    '(u, response_hdrs, userinfo_jwt, response_code) <-
      oidc_proto_userinfo_response_resolve provider access_token dpop response_hdrs userinfo_jwt response_code ;;
    match (u : option userinfo) with
    | None => ret (None, userinfo_jwt, response_code)
    | Some u =>
        '(u, userinfo_jwt, response_code) <- userinfo_retry provider method access_token u response_hdrs userinfo_jwt response_code ;;
        match (u : option userinfo) with
        | None => ret (None, userinfo_jwt, response_code)
        | Some u =>
            '(composite, claims) <- oidc_proto_userinfo_request_composite_claims (ui_claims u) ;;
            let response := if (composite : bool)
                            then oidc_json_encode (Some claims) (Z.lor OIDC_JSON_PRESERVE_ORDER OIDC_JSON_COMPACT)
                            else ui_response u in
            r <- get_req ;;
            ret (if oidc_proto_userinfo_request_validate_sub r id_token_sub claims
                 then Some (mk_userinfo claims response) else None, userinfo_jwt, response_code)
        end
    end.
End userinfo.

(** ** Composite claims *)

Section composite.
Context {J : Jansson} {JS : JanssonSpec J} {B64 : Base64} {C : Cjose J} {D : Digest} {Zl : Zlib} {H : Httpd}.
Context {St : Type}.
Variables (net : nat -> network) (c : proto_cfg C).
Implicit Types (w : world St) (claims decoded value : json_t).

(** The value that a source has for a claim. *)
Definition composite_value decoded (key : string) value : option json_t :=
  s_value ← json_string_value value;
  values ← oidc_json_object_get (Some decoded) s_value;
  oidc_json_object_get (Some values) key.

Lemma apply_names_get iter decoded claims claims' :
  oidc_proto_userinfo_composite_apply_names iter decoded claims = Some claims' -> is_object claims ->
  NoDup (map fst iter) -> Forall (fun kv => json_utf8 kv.1 = true) iter ->
  is_object claims' /\ forall k, oidc_json_object_get (Some claims') k =
    match alist_get k iter ≫= composite_value decoded k with
    | Some v => Some v
    | None => oidc_json_object_get (Some claims) k
    end.
Proof.
  revert claims. induction iter as [|[key value] iter IH]; intros claims; [by intros [= <-] Ho _ _|].
  cbn [oidc_proto_userinfo_composite_apply_names]. change (json_string_value value ≫= _) with (composite_value decoded key value).
  intros E Ho Hn Hu. apply NoDup_cons in Hn as [Hk Hn]. apply Forall_cons in Hu as [Hu0 Hu].
  assert (Hl : alist_get key iter = None) by by apply alist_get_None; rewrite <-list_elem_of_In.
  assert (Hs : forall k, alist_get k ((key, value) :: iter) = if decide (k = key) then Some value else alist_get k iter).
  { intros k. cbn [alist_get]. destruct (String.eqb_spec k key), (decide (k = key)); congruence. }
  destruct (composite_value decoded key value) as [v|] eqn:Ev.
  - destruct (decide _) as [|Hne]; [done|]. destruct (IH _ E (object_set_object _ _ (Some v) Ho) Hn Hu) as [Ho' Hg].
    split; [done|]. intros k. rewrite Hs, Hg. destruct (decide (k = key)) as [->|Hk'].
    + rewrite Hl. cbn [mbind option_bind]. rewrite Ev. by apply object_get_set_eq.
    + destruct (alist_get k iter ≫= _); [done|]. by apply object_get_set_ne.
  - destruct (IH _ E Ho Hn Hu) as [Ho' Hg]. split; [done|]. intros k. rewrite Hs, Hg.
    destruct (decide (k = key)) as [->|Hk']; [|done]. rewrite Hl. cbn [mbind option_bind]. by rewrite Ev.
Qed.

(** The only case without defined behaviour. *)
Lemma apply_names_none iter decoded claims : oidc_proto_userinfo_composite_apply_names iter decoded claims = None <->
  exists value, In (OIDC_COMPOSITE_CLAIM_NAMES, value) iter /\ is_Some (composite_value decoded OIDC_COMPOSITE_CLAIM_NAMES value).
Proof.
  revert claims. induction iter as [|[key value] iter IH]; intros claims; [split; [done|by intros (v & [] & _)]|].
  cbn [oidc_proto_userinfo_composite_apply_names]. change (json_string_value value ≫= _) with (composite_value decoded key value).
  destruct (composite_value decoded key value) as [v|] eqn:Ev.
  - destruct (decide _) as [->|Hne].
    + split; [|done]. intros _. exists value. split; [by left|]. rewrite Ev. by eexists.
    + rewrite IH. split; [intros (v' & Hin & Hv); exists v'; split; [by right|done]|].
      intros (v' & [[= -> ->]|Hin] & Hv); [done|]. by exists v'.
  - rewrite IH. split; [intros (v' & Hin & Hv); exists v'; split; [by right|done]|].
    intros (v' & [[= -> ->]|Hin] & Hv); [rewrite Ev in Hv; by destruct Hv|]. by exists v'.
Qed.

(** The token of a source: its own member, or what its endpoint returned. *)
Definition source_payload value (s : string) : Prop :=
  oidc_json_object_get_string (Some value) OIDC_COMPOSITE_CLAIM_JWT None = Some s \/
  exists k r access_token endpoint x,
    oidc_json_object_get_string (Some value) OIDC_COMPOSITE_CLAIM_ACCESS_TOKEN None = Some access_token /\
    oidc_json_object_get_string (Some value) OIDC_COMPOSITE_CLAIM_ENDPOINT None = Some endpoint /\
    oidc_http_get (net k) (pc_client c) r (provider_args c (pc_provider c) None (Some access_token) None) (Some endpoint) None ∅ = Some x /\
    hr_response x = Some s.

Lemma string_member j k s : oidc_json_string_value (oidc_json_object_get j k) = Some s ->
  oidc_json_object_get_string j k None = Some s.
Proof.
  unfold oidc_json_object_get_string. destruct (oidc_json_object_get j k) as [v|]; [|done]. intros E.
  by rewrite (proj2 (is_string_true v)) by by eexists.
Qed.

Lemma source_payload_inv value w s w' :
  oidc_proto_userinfo_composite_source_payload net c value w = Some (Some s, w') -> source_payload value s.
Proof.
  unfold oidc_proto_userinfo_composite_source_payload. cbv zeta. destruct (oidc_json_is_string _).
  - unfold ret. intros [= E _]. left. by apply string_member.
  - destruct (oidc_json_string_value (oidc_json_object_get _ OIDC_COMPOSITE_CLAIM_ACCESS_TOKEN)) as [a|] eqn:Ea; [|done].
    destruct (oidc_json_string_value (oidc_json_object_get _ OIDC_COMPOSITE_CLAIM_ENDPOINT)) as [e|] eqn:Ee; [|done].
    intros (x & w1 & E1 & E)%bind_inv. unfold ret in E. injection E as E _. destruct x as [x|]; [|done].
    unfold http_get in E1. injection E1 as E1 _. right. exists (w_calls w), (w_req w), a, e, x.
    by apply string_member in Ea, Ee.
Qed.

(** Each decoded source has the claims of a token that the source names; its signature is not checked. *)
Definition decoded_from (sources : list (string * json_t)) decoded : Prop := is_object decoded /\
  forall s v, oidc_json_object_get (Some decoded) s = Some v -> exists value token jwt, In (s, value) sources /\
    source_payload value token /\
    oidc_jwt_parse token (Some (oidc_util_key_symmetric_merge (pc_private_keys c) None)) false = Some jwt /\
    forall k, oidc_json_object_get (Some v) k = oidc_json_object_get (Some (p_json (payload jwt))) k.

Lemma decode_source_from sources key value token decoded : decoded_from sources decoded -> json_utf8 key = true ->
  In (key, value) sources -> source_payload value token -> oidc_json_object_get (Some decoded) key = None ->
  decoded_from sources (oidc_proto_userinfo_composite_decode_source c key token decoded).
Proof.
  intros [Ho Hd] Hu Hin Hp Hk. unfold oidc_proto_userinfo_composite_decode_source.
  destruct (oidc_jwt_parse _ _ _) as [jwt|] eqn:Ep; [|done]. rewrite Hk. cbv zeta. cbn [default from_option id oidc_json_merge snd].
  unfold oidc_json_object_set_new.
  split; [by apply (object_set_object decoded key (Some _))|]. intros s v. destruct (decide (key = s)) as [<-|Hne].
  - rewrite object_get_set_eq by done. intros [= <-]. exists value, token, jwt. do 3 (split; [done|]). intros k.
    rewrite merge_loop_get.
    + cbn [oidc_json_object_iter]. rewrite object_get_new. cbn [oidc_json_object_get mbind option_bind].
      rewrite object_get. by destruct (alist_get k _).
    + apply object_new.
    + apply items_NoDup.
    + apply Forall_forall. intros [k0 v0] Hin0. apply list_elem_of_In in Hin0. by eapply items_utf8.
  - rewrite object_get_set_ne by done. apply Hd.
Qed.

Lemma decode_source_ne key token decoded k : k <> key ->
  oidc_json_object_get (Some (oidc_proto_userinfo_composite_decode_source c key token decoded)) k = oidc_json_object_get (Some decoded) k.
Proof.
  intros Hne. unfold oidc_proto_userinfo_composite_decode_source. destruct (oidc_jwt_parse _ _ _); [|done].
  unfold oidc_json_object_set_new. by apply object_get_set_ne.
Qed.

Lemma decode_sources_from sources iter decoded w decoded' w' :
  oidc_proto_userinfo_composite_decode_sources net c iter decoded w = Some (decoded', w') -> decoded_from sources decoded ->
  (forall kv, In kv iter -> In kv sources) -> NoDup (map fst iter) -> Forall (fun kv => json_utf8 kv.1 = true) iter ->
  (forall k, In k (map fst iter) -> oidc_json_object_get (Some decoded) k = None) -> decoded_from sources decoded'.
Proof.
  revert decoded w. induction iter as [|[key value] iter IH]; intros decoded w; cbn [oidc_proto_userinfo_composite_decode_sources];
    [by intros [= -> _]|]. intros E Hd Hin Hn Hu Hk. apply NoDup_cons in Hn as [Hk' Hn]. apply Forall_cons in Hu as [Hu0 Hu].
  assert (Hsub : forall kv, In kv iter -> In kv sources) by (intros; apply Hin; by right).
  destruct (oidc_json_is_object (Some value)).
  - apply bind_inv in E as (o & w1 & E1 & E). eapply IH; [exact E| |done..|].
    + destruct o as [s|]; [|done]. destruct (_ =? 0); [done|]. apply source_payload_inv in E1.
      eapply decode_source_from; [done|exact Hu0|apply Hin; by left|exact E1|apply Hk; by left].
    + intros k Hki. assert (k <> key) by (intros ->; apply Hk'; by apply list_elem_of_In).
      destruct o as [s|]; [|apply Hk; by right]. destruct (_ =? 0); [apply Hk; by right|].
      rewrite decode_source_ne by done. apply Hk; by right.
  - eapply IH; [exact E|done..|]. intros k Hki. apply Hk; by right.
Qed.
End composite.

(** ** The request *)

Section request.
Context {J : Jansson} {JS : JanssonSpec J} {O : Jose} {B64 : Base64} {C : Cjose J} {CE : CjoseExport C} {D : Digest} {Zl : Zlib}.
Context {H : Httpd} {HS : HttpdSpec H} {St : Type} {B : CacheBackend St}.
Variables (ext : nat -> env) (net : nat -> network) (rnd : nat -> rng) (c : proto_cfg C).
Implicit Types (w : world St) (p : oidc_provider_t) (u : userinfo).

Definition is_dpop (access_token_type : option string) : bool :=
  _oidc_strnatcasecmp access_token_type (Some OIDC_PROTO_DPOP) =? 0.

(** The endpoint answered a request that carried the access token, and a proof exactly when it is of type DPoP. *)
Definition endpoint_answer p (at_ tt : option string) (r : request) (x : http_result) : Prop :=
  exists k dpop h, nonnull dpop = is_dpop tt /\
    (oidc_http_get (net k) (pc_client c) r (provider_args c p None at_ dpop) (oidc_cfg_provider_userinfo_endpoint_url_get p) None h =
       Some x \/
     oidc_http_post_form (net k) (pc_client c) r (provider_args c p None None dpop) (oidc_cfg_provider_userinfo_endpoint_url_get p)
       (Some (apr_table_set [] OIDC_PROTO_ACCESS_TOKEN (default "" at_))) h = Some x).

(** The claims of an answer: the object, or those of a token with the configured algorithm and a valid signature. *)
Inductive answered p (at_ tt : option string) (r : request) (jwt : option string) : userinfo -> option string -> Prop :=
  | answered_json x claims : endpoint_answer p at_ tt r x -> oidc_json_decode_object_err (hr_response x) = Some claims ->
      answered p at_ tt r jwt (mk_userinfo claims (hr_response x)) jwt
  | answered_jwt x token keys j alg jwk : endpoint_answer p at_ tt r x -> oidc_json_decode_object_err (hr_response x) = None ->
      oidc_jwt_parse token keys false = Some j ->
      oidc_cfg_provider_userinfo_signed_response_alg_get p = Some alg -> hdr_alg (header j) = Some alg ->
      oidc_util_key_symmetric_create (oidc_cfg_provider_client_secret_get p) 0 None true = Some jwk ->
      signature_valid (B:=B) ext net c (negb (oidc_cfg_provider_ssl_validate_server_get p =? 0)) (oidc_cfg_provider_jwks_uri_get p)
        (Some (oidc_util_key_symmetric_merge None jwk)) j ->
      answered p at_ tt r jwt (mk_userinfo (p_json (payload j)) (p_str (payload j))) (Some token).

Lemma jwt_parse_object token keys j : oidc_jwt_parse token keys false = Some j -> is_object (p_json (payload j)).
Proof.
  unfold oidc_jwt_parse. intros E. repeat (apply bind_Some in E as (? & ? & E)). injection E as <-. cbn [payload].
  match goal with X : oidc_jose_parse_payload _ = _ |- _ => unfold oidc_jose_parse_payload in X;
    apply bind_Some in X as (js & _ & X) end.
  destruct (oidc_json_is_object (Some js)) eqn:Eo; [|done]. cbn [negb] in *. simplify_eq. by apply is_object_true.
Qed.

Lemma answered_object p a tt r j0 u j : answered p a tt r j0 u j -> is_object (ui_claims u).
Proof. intros []; cbn [ui_claims]; [by eapply decode_object_is_object|by eapply jwt_parse_object]. Qed.

Lemma same_req_jwt_answer p resp : same_req (St:=St) (oidc_proto_userinfo_response_jwt_parse ext net c p resp).
Proof. unfold oidc_proto_userinfo_response_jwt_parse. same_req_auto. Qed.
Hint Resolve same_req_jwt_answer : same_req.

Lemma same_req_ui_resolve p a d h jwt code : same_req (St:=St) (oidc_proto_userinfo_response_resolve ext net c p a d h jwt code).
Proof. unfold oidc_proto_userinfo_response_resolve, oidc_proto_userinfo_endpoint_call. cbv zeta. same_req_auto. Qed.
Hint Resolve same_req_ui_resolve : same_req.

Lemma same_req_ui_retry p m a u h jwt code : same_req (St:=St) (userinfo_retry ext net rnd c p m a u h jwt code).
Proof. unfold userinfo_retry. same_req_auto. Qed.

Lemma jwt_parse_answer p resp w claims s token w' :
  oidc_proto_userinfo_response_jwt_parse ext net c p resp w = Some (Some (claims, s, token), w') ->
  exists keys j alg jwk, oidc_jwt_parse token keys false = Some j /\
    oidc_cfg_provider_userinfo_signed_response_alg_get p = Some alg /\ hdr_alg (header j) = Some alg /\
    oidc_util_key_symmetric_create (oidc_cfg_provider_client_secret_get p) 0 None true = Some jwk /\
    signature_valid (B:=B) ext net c (negb (oidc_cfg_provider_ssl_validate_server_get p =? 0)) (oidc_cfg_provider_jwks_uri_get p)
      (Some (oidc_util_key_symmetric_merge None jwk)) j /\ claims = p_json (payload j) /\ s = p_str (payload j).
Proof.
  unfold oidc_proto_userinfo_response_jwt_parse. destruct (Jwe.oidc_proto_jwt_header_peek resp) as [[[o alg0] e] k].
  destruct o; [|done]. set (opened := mbind _ (oidc_util_key_symmetric_create _ _ _ _)).
  destruct opened as [[[[resp' alg] j] jwk]|] eqn:Eo; [|done]. subst opened.
  apply bind_Some in Eo as (jwk0 & _ & Eo). apply bind_Some in Eo as (resp1 & _ & Eo). apply bind_Some in Eo as (alg1 & Ha & Eo).
  apply bind_Some in Eo as (j1 & Hj & Eo). apply bind_Some in Eo as (jwk1 & Hk & Eo). injection Eo as -> -> -> ->.
  intros ([ok j'] & w1 & E1 & E)%bind_inv. unfold ret in E. destruct ok; [|done]. injection E as <- <- <- _.
  apply proto_jwt_verify_sound in E1 as (-> & Hal & Hs). unfold alg_acceptable in Hal.
  apply Z.eqb_eq, oidc_strcmp_eq in Hal as (a & Hh & [= <-]). by exists (Some (oidc_util_key_symmetric_merge (pc_private_keys c) jwk0)), j, alg, jwk.
Qed.

Lemma call_answer p a tt dpop h w x w' : nonnull dpop = is_dpop tt ->
  oidc_proto_userinfo_endpoint_call net c p a dpop h w = Some (Some x, w') -> endpoint_answer p a tt (w_req w) x /\ w_req w' = w_req w.
Proof.
  intros Hd. unfold oidc_proto_userinfo_endpoint_call. destruct (_ =? _); [|destruct (_ =? _); [|done]].
  - unfold http_get. intros [= E <-]. split; [|done]. exists (w_calls w), dpop, (default ∅ h). auto.
  - unfold http_post_form. intros [= E <-]. split; [|done]. exists (w_calls w), dpop, (default ∅ h). auto.
Qed.

Lemma resolve_answer p a tt dpop h jwt code w (u : option userinfo) h' jwt' code' w' : nonnull dpop = is_dpop tt ->
  oidc_proto_userinfo_response_resolve ext net c p a dpop h jwt code w = Some ((u, h', jwt', code'), w') ->
  w_req w' = w_req w /\ (is_Some h' <-> is_Some h) /\ forall x, u = Some x -> answered p a tt (w_req w) jwt x jwt'.
Proof.
  intros Hd. unfold oidc_proto_userinfo_response_resolve. intros (x & w1 & E1 & E)%bind_inv.
  destruct x as [x|].
  - apply (call_answer p a tt) in E1 as [Hx R1]; [|done]. cbv zeta in E. destruct (oidc_json_decode_object_err (hr_response x)) as [cl|] eqn:Ec.
    + unfold ret in E. simplify_eq. split; [done|]. split; [by rewrite fmap_is_Some|]. intros y [= <-]. by apply answered_json.
    + apply bind_inv in E as (y & w2 & E2 & E). pose proof (same_req_jwt_answer _ _ _ _ _ E2) as R2.
      destruct y as [[[cl s] tok]|]; unfold ret in E; simplify_eq; (split; [congruence|]; split; [by rewrite fmap_is_Some|]); [|done].
      intros y [= <-]. apply jwt_parse_answer in E2 as (keys & j & alg & jwk & Hp & Ha & Hh & Hk & Hs & -> & ->).
      by eapply answered_jwt.
  - unfold ret in E. simplify_eq. split; [|split; [done|done]].
    revert E1. unfold oidc_proto_userinfo_endpoint_call, http_get, http_post_form, ret. repeat case_match; intros E1; by simplify_eq/=.
Qed.

Lemma retry_answer p m a tt u0 h jwt0 jwt code w u jwt' code' w' : (is_Some h -> is_dpop tt = true) ->
  answered p a tt (w_req w) jwt0 u0 jwt ->
  userinfo_retry ext net rnd c p m a u0 h jwt code w = Some ((Some u, jwt', code'), w') ->
  w_req w' = w_req w /\ (jwt0 = None -> answered p a tt (w_req w) None u jwt' /\
    (is_Some h -> jwt' = None -> oidc_json_check_error (Some (ui_claims u)) = false)) /\
  exists j, answered p a tt (w_req w) j u jwt'.
Proof.
  intros Hh Ha. unfold userinfo_retry. destruct h as [h|].
  2:{ unfold ret. intros [= -> -> _ <-]. split; [done|]. split; [|by eexists]. intros ->. split; [done|]. by intros []. }
  destruct (negb (nonnull jwt) && _) eqn:Er.
  - intros (d & w1 & E1 & E)%bind_inv. pose proof (same_req_use_nonce _ _ _ _ _ _ _ _ _ _ _ E1) as R1. destruct d as [d|]; [|done].
    apply bind_inv in E as ([[[u1 h1] jwt1] code1] & w2 & E2 & E). unfold ret in E.
    apply (resolve_answer p a tt) in E2 as (R2 & _ & Hx); [|by rewrite Hh by by eexists].
    destruct u1 as [u1|]; [|done]. specialize (Hx u1 eq_refl).
    destruct (oidc_json_check_error (Some (ui_claims u1))) eqn:Ee; [done|]. injection E as <- <- _ <-.
    rewrite R1 in Hx. apply andb_true_iff in Er as [Er _]. destruct jwt; [done|].
    split; [congruence|]. split; [|by exists None]. intros _. split; [exact Hx|]. intros _ _. exact Ee.
  - unfold ret. intros [= -> -> _ <-]. split; [done|]. split; [|by eexists]. intros ->. split; [done|]. intros _ ->. by apply Er.
Qed.

(** The claims after composite ones were resolved. *)
Definition composed claims claims' : Prop := claims' = claims \/ exists names sources decoded,
  oidc_json_object_get (Some claims) OIDC_COMPOSITE_CLAIM_NAMES = Some names /\
  oidc_json_object_get (Some claims) OIDC_COMPOSITE_CLAIM_SOURCES = Some sources /\
  decoded_from net c (json_object_items sources) decoded /\
  forall k, oidc_json_object_get (Some claims') k =
    if bool_decide (k = OIDC_COMPOSITE_CLAIM_NAMES \/ k = OIDC_COMPOSITE_CLAIM_SOURCES) then None
    else match oidc_json_object_get (Some names) k ≫= composite_value decoded k with
         | Some v => Some v
         | None => oidc_json_object_get (Some claims) k
         end.

(** The names of composite claims name the member that holds them. *)
Definition names_itself claims : Prop := exists names sources decoded value,
  oidc_json_object_get (Some claims) OIDC_COMPOSITE_CLAIM_NAMES = Some names /\
  oidc_json_object_get (Some claims) OIDC_COMPOSITE_CLAIM_SOURCES = Some sources /\
  decoded_from net c (json_object_items sources) decoded /\
  oidc_json_object_get (Some names) OIDC_COMPOSITE_CLAIM_NAMES = Some value /\
  is_Some (composite_value decoded OIDC_COMPOSITE_CLAIM_NAMES value).

Lemma total_source_payload value : total (St:=St) (oidc_proto_userinfo_composite_source_payload net c value).
Proof. unfold oidc_proto_userinfo_composite_source_payload. cbv zeta. total_auto. Qed.
Hint Resolve total_source_payload : total.
Lemma same_req_source_payload value : same_req (St:=St) (oidc_proto_userinfo_composite_source_payload net c value).
Proof. unfold oidc_proto_userinfo_composite_source_payload. cbv zeta. same_req_auto. Qed.
Hint Resolve same_req_source_payload : same_req.

Lemma total_decode_sources iter decoded : total (St:=St) (oidc_proto_userinfo_composite_decode_sources net c iter decoded).
Proof.
  revert decoded. induction iter as [|[k v] iter IH]; intros decoded; cbn [oidc_proto_userinfo_composite_decode_sources]; total_auto; apply IH.
Qed.
Lemma same_req_decode_sources iter decoded : same_req (St:=St) (oidc_proto_userinfo_composite_decode_sources net c iter decoded).
Proof.
  revert decoded. induction iter as [|[k v] iter IH]; intros decoded; cbn [oidc_proto_userinfo_composite_decode_sources]; same_req_auto; apply IH.
Qed.

Lemma items_ok (j : json_t) : NoDup (map fst (json_object_items j)) /\ Forall (fun kv => json_utf8 kv.1 = true) (json_object_items j).
Proof.
  split; [apply items_NoDup|]. apply Forall_forall. intros [k v] Hin. apply list_elem_of_In in Hin. by eapply items_utf8.
Qed.

#[local] Ltac kept := cbn; split; [reflexivity|split; [left; reflexivity|intros _; reflexivity]].

Lemma composite_outcome claims w : is_object claims ->
  match oidc_proto_userinfo_request_composite_claims net c claims w with
  | None => names_itself claims
  | Some ((b, claims'), w') => w_req w' = w_req w /\ composed claims claims' /\ (b = false -> claims' = claims)
  end.
Proof.
  intros Ho. unfold oidc_proto_userinfo_request_composite_claims.
  destruct (oidc_json_object_get (Some claims) OIDC_COMPOSITE_CLAIM_NAMES) as [names|] eqn:En; [|kept].
  destruct (negb (oidc_json_is_object (Some names))); [kept|].
  destruct (oidc_json_object_get (Some claims) OIDC_COMPOSITE_CLAIM_SOURCES) as [sources|] eqn:Es; [|kept].
  destruct (negb (oidc_json_is_object (Some sources))); [kept|]. cbn [oidc_json_object_iter].
  destruct (total_decode_sources (json_object_items sources) oidc_json_object w) as (decoded & w1 & E1).
  pose proof (same_req_decode_sources _ _ _ _ _ E1) as R1. rewrite (bind_run _ _ _ _ _ E1).
  destruct (items_ok sources) as [Hn Hu], (items_ok names) as [Hn' Hu'].
  eapply (decode_sources_from net c (json_object_items sources)) in E1; [|..]; [|split; [apply object_new|]|done..|].
  2:{ intros s v. by rewrite object_get_new. }
  2:{ intros k _. apply object_get_new. }
  unfold bind, lift. destruct (oidc_proto_userinfo_composite_apply_names _ _ _) as [claims'|] eqn:Ea.
  - unfold ret. split; [done|]. split; [|done]. right. exists names, sources, decoded. do 3 (split; [done|]).
    apply apply_names_get in Ea as [Ho' Hg]; [|done..]. intros k.
    destruct (bool_decide_reflect (k = OIDC_COMPOSITE_CLAIM_NAMES \/ k = OIDC_COMPOSITE_CLAIM_SOURCES)) as [[->| ->]|Hk].
    + rewrite object_get_del_ne by done. apply object_get_del_eq.
    + apply object_get_del_eq.
    + rewrite !object_get_del_ne by naive_solver. rewrite Hg. change (oidc_json_object_get (Some names) k) with (json_object_get names k).
      by rewrite (object_get names k).
  - apply apply_names_none in Ea as (value & Hin & Hv). exists names, sources, decoded, value. do 3 (split; [done|]). split; [|done].
    cbn [oidc_json_object_get mbind option_bind]. rewrite object_get. by apply alist_get_NoDup.
Qed.

Lemma total_ui_resolve p a d h jwt code : total (St:=St) (oidc_proto_userinfo_response_resolve ext net c p a d h jwt code).
Proof.
  unfold oidc_proto_userinfo_response_resolve, oidc_proto_userinfo_response_jwt_parse, oidc_proto_userinfo_endpoint_call. cbv zeta.
  total_auto.
Qed.
Hint Resolve total_ui_resolve : total.

Lemma total_ui_retry p m a u h jwt code : total (St:=St) (userinfo_retry ext net rnd c p m a u h jwt code).
Proof. unfold userinfo_retry. total_auto. Qed.
Hint Resolve total_ui_retry : total.

(** What a subject must be. *)
Definition sub_ok (r : request) (id_token_sub : option string) claims : Prop :=
  match oidc_json_object_get_string (Some claims) OIDC_CLAIM_SUB None with
  | Some s => forall i, id_token_sub = Some i -> s = i
  | None => is_Some (apr_table_get (subprocess_env r) OIDC_NO_USERINFO_SUB)
  end.

Lemma validate_sub_ok r i claims : oidc_proto_userinfo_request_validate_sub r i claims = true -> sub_ok r i claims.
Proof.
  unfold oidc_proto_userinfo_request_validate_sub, sub_ok, oidc_jose_get_string. cbv zeta.
  change (oidc_json_object_get_string (Some claims) OIDC_CLAIM_SUB None) with
    (match json_object_get claims OIDC_CLAIM_SUB with
     | Some v => if oidc_json_is_string (Some v) then json_string_value v else None | None => None end).
  destruct (match json_object_get claims OIDC_CLAIM_SUB with Some v => _ | None => _ end) as [b o] eqn:E.
  assert (Ho : match json_object_get claims OIDC_CLAIM_SUB with
     | Some v => if oidc_json_is_string (Some v) then json_string_value v else None | None => None end = o)
    by (repeat case_match; by simplify_eq).
  rewrite Ho. cbn [snd]. destruct o as [s|]; cbn [nonnull negb andb].
  - intros Hs j ->. cbn in Hs. rewrite negb_involutive in Hs. by apply Z.eqb_eq, strcmp_eq in Hs.
  - destruct (apr_table_get (subprocess_env r) OIDC_NO_USERINFO_SUB); [by eexists|done].
Qed.

Lemma userinfo_outcome p i a tt jwt0 code w :
  match oidc_proto_userinfo_request ext net rnd c p i a tt jwt0 code w with
  | None => exists u j jwt, answered p a tt (w_req w) j u jwt /\ names_itself (ui_claims u)
  | Some ((res, jwt', code'), w') => w_req w' = w_req w /\ forall u, res = Some u -> exists u0 j,
      answered p a tt (w_req w) j u0 jwt' /\ composed (ui_claims u0) (ui_claims u) /\ (jwt0 = None -> j = None /\
        (is_dpop tt = true -> jwt' = None -> oidc_json_check_error (Some (ui_claims u0)) = false)) /\
      sub_ok (w_req w) i (ui_claims u)
  end.
Proof.
  unfold oidc_proto_userinfo_request. cbv zeta. fold (is_dpop tt). set (m := if _ =? _ then "POST" else "GET"). set (first := if is_dpop tt then _ else _).
  assert (Hf : exists d h w1, first w = Some ((d, h), w1) /\ w_req w1 = w_req w /\ (is_Some h <-> is_dpop tt = true) /\
    (is_dpop tt = false -> d = None)).
  { subst first. destruct (is_dpop tt); [|by exists None, None, w; split; [|split; [|split; [split; [by intros []|done]|]]]].
    unfold oidc_proto_userinfo_request_dpop_init.
    destruct (total_dpop_create ext rnd c (oidc_cfg_provider_userinfo_endpoint_url_get p) m a None w) as (d & w1 & E1).
    pose proof (same_req_dpop_create _ _ _ _ _ _ _ _ _ _ E1) as R1.
    exists d, (Some dpop_response_hdrs), w1. split; [|split; [done|split; [split; [done|by eexists]|done]]].
    unfold bind, ret. by rewrite E1. }
  destruct Hf as (d & h & w1 & E1 & R1 & Hh & Hd). rewrite (bind_run _ _ _ _ _ E1). clear first E1.
  destruct (is_dpop tt && negb (nonnull d)) eqn:Eb; [by split|].
  assert (Hdp : nonnull d = is_dpop tt) by (destruct (is_dpop tt); [by destruct d|by rewrite Hd]).
  destruct (total_ui_resolve p a d h jwt0 code w1) as ([[[u1 h1] jwt1] code1] & w2 & E2). rewrite (bind_run _ _ _ _ _ E2).
  apply (resolve_answer p a tt) in E2 as (R2 & Hh1 & Ha); [|done]. destruct u1 as [u1|]; [|split; [congruence|done]].
  specialize (Ha u1 eq_refl).
  destruct (total_ui_retry p m a u1 h1 jwt1 code1 w2) as ([[u2 jwt2] code2] & w3 & E3). rewrite (bind_run _ _ _ _ _ E3).
  destruct u2 as [u2|].
  2:{ split; [|done]. revert E3. unfold userinfo_retry. intros E3. eapply (same_req_ui_retry p m a u1 h1 jwt1 code1) in E3. congruence. }
  apply (retry_answer p m a tt u1 h1 jwt0 jwt1 code1 w2) in E3 as (R3 & Hn & j & Hj); [|by rewrite Hh1, Hh|congruence].
  pose proof (composite_outcome (ui_claims u2) w3 (answered_object _ _ _ _ _ _ _ Hj)) as Hc. unfold bind at 1.
  replace (w_req w2) with (w_req w) in * by congruence.
  destruct (oidc_proto_userinfo_request_composite_claims net c (ui_claims u2) w3) as [[[b claims] w4]|]; [|by exists u2, j, jwt2].
  destruct Hc as (R4 & Hc & _). unfold bind, get_req, ret. split; [congruence|]. intros u.
  destruct (oidc_proto_userinfo_request_validate_sub _ _ _) eqn:Es; [|done]. intros [= <-].
  apply validate_sub_ok in Es. replace (w_req w4) with (w_req w) in Es by congruence.
  destruct jwt0 as [j0|]; [by exists u2, j|]. destruct (Hn eq_refl) as [Hn1 Hn2]. exists u2, None. split; [done|]. split; [done|].
  split; [|done]. intros _. split; [done|]. intros Ht. apply Hn2. by rewrite Hh1, Hh.
Qed.
End request.

(** ** Properties *)

(** C29: a request to the userinfo endpoint always has an outcome, except that names of composite claims which name themselves
    make the code iterate over freed memory.  Claims that it returns are those of an answer of the endpoint to a request
    with the access token, and with a proof of possession exactly for a token of type DPoP: an object that is no error,
    or a token with the configured algorithm and a trusted signature, with composite claims put in.  Their
    subject is that of the ID token; it may be missing only when the administrator allows it. *)
Theorem userinfo_request_sound {J : Jansson} {JS : JanssonSpec J} {O : Jose} {B64 : Base64} {C : Cjose J} {CE : CjoseExport C}
  {D : Digest} {Zl : Zlib} {H : Httpd} {St : Type} {B : CacheBackend St} (ext : nat -> env) (net : nat -> network) (rnd : nat -> rng)
  (c : proto_cfg C) (p : oidc_provider_t) (id_token_sub access_token token_type jwt : option string) (code : Z) (w : world St) :
  match oidc_proto_userinfo_request ext net rnd c p id_token_sub access_token token_type jwt code w with
  | None => exists u j j', answered (B:=B) ext net c p access_token token_type (w_req w) j u j' /\ names_itself net c (ui_claims u)
  | Some ((res, jwt', _), w') => w_req w' = w_req w /\ forall u, res = Some u -> exists u0 j,
      answered (B:=B) ext net c p access_token token_type (w_req w) j u0 jwt' /\ composed net c (ui_claims u0) (ui_claims u) /\
      (jwt = None -> j = None /\
         (is_dpop token_type = true -> jwt' = None -> oidc_json_check_error (Some (ui_claims u0)) = false)) /\
      sub_ok (w_req w) id_token_sub (ui_claims u)
  end.
Proof. apply userinfo_outcome. Qed.

(** ** Witnesses *)

Section demo.
#[local] Existing Instances Model.jansson JoseModel.jose Base64Model.base64 CjoseModel.cjose CjoseModel.digest CjoseModel.zlib
  ExportModel.export HttpdModel.httpd.
#[local] Instance demo_userinfo_backend : CacheBackend ShmCache.header := shm_backend 2048.

Definition demo_source (claim : string) : Model.jv :=
  Model.JObj [("JWT", Model.JStr (default "" (CjoseModel.export (CjoseModel.mk_tok false (Model.JObj [("alg", Model.JStr "HS256")]) "other"
    (Model.dumps (Model.JObj [(claim, Model.JInt 42)]))))))].
Definition demo_composite (claim : string) : Model.jv :=
  Model.JObj [("sub", Model.JStr "joe"); (OIDC_COMPOSITE_CLAIM_NAMES, Model.JObj [(claim, Model.JStr "s")]);
    (OIDC_COMPOSITE_CLAIM_SOURCES, Model.JObj [("s", demo_source claim)])].

Definition age (o : option (userinfo (J:=Model.jansson))) : Z :=
  match o with Some u => oidc_json_integer_value (oidc_json_object_get (Some (ui_claims u)) "age") | None => 0 end.

Abbreviation demo_userinfo claim sub :=
  (oidc_proto_userinfo_request (demo_id_clock 1010) (demo_server (demo_composite claim)) demo_rnd demo_rp_cfg
     (demo_op OIDC_DPOP_MODE_OFF) (Some sub) (Some "at") (Some "Bearer") None 0 demo_jwks_world).

Lemma userinfo_request_sound_witness : exists u jwt code w', demo_userinfo "age" "joe" = Some ((Some u, jwt, code), w') /\
  age (Some u) = 42 /\ sub_ok (w_req demo_jwks_world) (Some "joe") (ui_claims u).
Proof.
  assert (E : (fun x => age x.1.1.1) <$> demo_userinfo "age" "joe" = Some 42) by (vm_compute; reflexivity).
  pose proof (userinfo_request_sound (JS:=Model.jansson_spec) (B:=demo_userinfo_backend) (demo_id_clock 1010)
    (demo_server (demo_composite "age")) demo_rnd demo_rp_cfg (demo_op OIDC_DPOP_MODE_OFF) (Some "joe") (Some "at") (Some "Bearer")
    None 0 demo_jwks_world) as Hs.
  destruct (demo_userinfo "age" "joe") as [[[[res jwt] code] w']|]; [|discriminate E].
  cbn [fmap option_fmap option_map fst] in E. destruct res as [u|]; [|discriminate E]. injection E as E.
  exists u, jwt, code, w'. split; [reflexivity|]. split; [exact E|].
  destruct (proj2 Hs u eq_refl) as (u0 & j & _ & _ & _ & Hsub). exact Hsub.
Defined.

(** Another subject is refused. *)
Example userinfo_other_sub : (fun x => nonnull x.1.1.1) <$> demo_userinfo "age" "ann" = Some false.
Proof. vm_compute. reflexivity. Qed.

(** A response whose composite names name the member that holds them leads to undefined behaviour. *)
Example userinfo_names_freed : nonnull (demo_userinfo OIDC_COMPOSITE_CLAIM_NAMES "joe") = false.
Proof. vm_compute. reflexivity. Qed.
End demo.
