(* ===== verification/MetadataProps.v ===== *)
(** * The settings of a provider: what holds whatever the documents say

    The settings come from documents of the administrator and of the provider.  What is done to them is a sequence of
    calls of the setters of src/cfg/provider.c, as a relation; well-formedness and the members that each document may
    change follow by induction on it. *)

From S2P Require Import Prelude Cstr Apr StrUtil Jansson Json Http Form Url Cookie Base64 Jose Jwt Util ShmCache Cache World.
From S2P Require Import HttpClient Cjose Jwk Jwe JoseLib Jws Pkce Provider Profile JwtCheck Jwks Files CfgParse ClientAuth.
From S2P Require Import Session SessionAttr State ProviderSet ProviderWf Config Metadata MetadataConf ProviderLookup IdTokenProps Token Response.
From coqutil Require Import Datatypes.RecordSetters.
Import TriangleBracketNotations.
#[local] Open Scope Z_scope.
#[local] Open Scope world_scope.

(** ** What terminates *)

Section total_meta.
Context {J : Jansson} {O : Jose} {B64 : Base64} {C : Cjose J} {D : Digest} {Zl : Zlib} {H : Httpd} {HS : HttpdSpec H} {E : CfgEnv C}.
Context {St : Type} {B : CacheBackend St} {Dk : Disk St}.
Variables (ext : nat -> env) (net : nat -> network) (rnd : nat -> rng) (c : oidc_cfg_t C).

Lemma response_type_total arg : is_Some (oidc_cfg_parse_is_valid_response_type arg).
Proof.
  unfold oidc_cfg_parse_is_valid_response_type, oidc_proto_flow_is_supported. generalize oidc_proto_supported_flows as fs.
  assert (Hf : forall fs, is_Some (flow_in arg fs)).
  { induction fs as [|f fs IH]; [by eexists|]. cbn [flow_in]. destruct (equals_total arg (Some f)) as [b ->]. cbn. destruct b; [by eexists|done]. }
  intros fs. destruct (Hf fs) as [b ->]. cbn. by eexists.
Qed.

Lemma valid_in_array_total json key valid opt pref : (forall s, is_Some (valid s)) ->
  is_Some (oidc_metadata_valid_string_in_array json key valid opt pref).
Proof.
  intros Hv. unfold oidc_metadata_valid_string_in_array. cbv zeta. destruct (oidc_json_object_get json key) as [arr|]; [|by eexists].
  case_match; [|by eexists]. assert (Hl : forall value found, is_Some (array_apply_loop (json_array_items arr) valid pref value found)).
  { induction (json_array_items arr) as [|e l IH]; intros value found; [by eexists|]. cbn [array_apply_loop].
    unfold oidc_metadata_array_string_apply. case_match; [cbn; apply IH|]. destruct (Hv (oidc_json_string_value (Some e))) as [rv ->].
    cbn [mbind option_bind]. repeat case_match; cbn; first [by eexists|apply IH]. }
  destruct (Hl None false) as [[value found] ->]. by eexists.
Qed.

Lemma provider_is_valid_total j issuer : is_Some (oidc_metadata_provider_is_valid c j issuer).
Proof.
  unfold oidc_metadata_provider_is_valid. cbv zeta. destruct (oidc_json_object_get_string _ _ _); [|by eexists]. case_match; [by eexists|].
  destruct (valid_in_array_total (Some j) OIDC_METADATA_RESPONSE_TYPES_SUPPORTED oidc_cfg_parse_is_valid_response_type false None) as [[types ?] ->];
    [apply response_type_total|]. cbn [mbind option_bind]. case_match; [by eexists|].
  destruct (valid_in_array_total (Some j) OIDC_METADATA_RESPONSE_MODES_SUPPORTED
    (fun s => Some (oidc_cfg_parse_is_valid_response_mode s)) true None) as [[modes ?] ->]; [by eexists|]. cbn [mbind option_bind].
  do 6 (case_match; [by eexists|]).
  destruct (valid_in_array_total (Some j) OIDC_METADATA_TOKEN_ENDPOINT_AUTH_METHODS_SUPPORTED
    (fun s => Some (oidc_cfg_get_valid_endpoint_auth_function (has_private_keys c) true s)) true None) as [[methods ?] ->]; by eexists.
Qed.

Lemma provider_parse_total j p : is_Some (oidc_metadata_provider_parse c j p).
Proof.
  unfold oidc_metadata_provider_parse. cbv zeta. match goal with |- context [parse_endpoint_auth c (Some j) ?q] => generalize q as p0 end.
  intros p0. assert (Ha : is_Some (parse_endpoint_auth c (Some j) p0)).
  { unfold parse_endpoint_auth. case_match; [by eexists|]. cbv zeta. unfold oidc_metadata_endpoint_auth_select. cbv zeta.
    edestruct valid_in_array_total as [[err value] ->]; [by eexists|]. by eexists. }
  destruct Ha as [p1 ->]. by eexists.
Qed.

Lemma provider_response_type_total v p : is_Some (oidc_cfg_provider_response_type_set v p).
Proof. unfold oidc_cfg_provider_response_type_set. destruct (response_type_total v) as [rv ->]. by eexists. Qed.

Lemma response_type_set_total v p : is_Some (response_type_set v p).
Proof.
  unfold response_type_set. case_match; [|by eexists]. destruct (provider_response_type_total v p) as [[? ?] ->]. by eexists.
Qed.

Lemma conf_parse_total j p : is_Some (oidc_metadata_conf_parse c j p).
Proof.
  unfold oidc_metadata_conf_parse, oidc_metadata_conf_parse_response. cbv zeta.
  match goal with |- context [response_type_set ?v ?q] => destruct (response_type_set_total v q) as [p' ->] end. by eexists.
Qed.

Lemma client_parse_total j p : is_Some (oidc_metadata_client_parse c j p).
Proof.
  unfold oidc_metadata_client_parse, oidc_metadata_client_parse_response_type. cbv zeta. case_match; [by eexists|].
  match goal with |- context [oidc_cfg_provider_response_type_set ?v ?q] => destruct (provider_response_type_total v q) as [[? p'] ->] end.
  cbn [mbind option_bind]. repeat case_match; try (by eexists).
  match goal with |- context [response_type_set ?v ?q] => destruct (response_type_set_total v q) as [p'' ->] end. by eexists.
Qed.

Lemma url_abs_total r x u : is_Some (oidc_util_url_abs r x u).
Proof. apply (redirect_uri_total r x u). Qed.

Lemma registration_data_total r p : is_Some (registration_data c r p).
Proof.
  unfold registration_data, redirect_uri_with. destruct (redirect_uri_total r (oidc_cfg_x_forwarded_headers_get c) (pc_redirect_uri (cfg_proto c))) as [u ->].
  destruct (url_abs_total r (oidc_cfg_x_forwarded_headers_get c) (oidc_cfg_default_slo_url_get c)) as [slo ->].
  cbn [mbind option_bind]. by eexists.
Qed.

Lemma total_client_is_valid j : total (St:=St) (oidc_metadata_client_is_valid ext j).
Proof. unfold oidc_metadata_client_is_valid. total_auto. Qed.
Hint Resolve total_client_is_valid : total.

Lemma total_file_read_json path : total (St:=St) (oidc_metadata_file_read_json path).
Proof. unfold oidc_metadata_file_read_json. total_auto. Qed.
Hint Resolve total_file_read_json : total.

Lemma total_pure {A} (f : world St -> A) : total (St:=St) (fun w => Some (f w, w)).
Proof. intros w. by eexists _, _. Qed.
Lemma total_is_valid_lift j issuer : total (St:=St) (lift (oidc_metadata_provider_is_valid c j issuer)).
Proof. apply total_lift, provider_is_valid_total. Qed.
Hint Resolve total_is_valid_lift : total.

Lemma total_client_register p : total (St:=St) (oidc_metadata_client_register net c p).
Proof.
  unfold oidc_metadata_client_register. apply total_bind; [auto with total|]. intros r. apply total_bind; [apply total_lift, registration_data_total|].
  intros [data|]; [|auto with total]. apply total_bind; [|intros; total_auto]. intros w. by eexists _, _.
Qed.
Hint Resolve total_client_register : total.

Lemma total_client_get issuer p : total (St:=St) (oidc_metadata_client_get ext net rnd c issuer p).
Proof. unfold oidc_metadata_client_get. cbv zeta. total_auto. Qed.
Hint Resolve total_client_get : total.

Lemma total_provider_retrieve issuer url : total (St:=St) (oidc_metadata_provider_retrieve net c issuer url).
Proof. unfold oidc_metadata_provider_retrieve. total_auto. Qed.
Hint Resolve total_provider_retrieve : total.

Lemma total_provider_get issuer allow : total (St:=St) (oidc_metadata_provider_get ext net rnd c issuer allow).
Proof.
  unfold oidc_metadata_provider_get, provider_checked, provider_fetch, provider_checked. cbv zeta. apply total_bind.
  - case_match; [|auto with total]. apply total_bind; [apply total_pure|]. intros; total_auto.
  - intros [have use]. apply total_bind; [auto with total|]. intros j. total_auto. intros w. by eexists _, _.
Qed.
Hint Resolve total_provider_get : total.

Lemma total_conf_get issuer : total (St:=St) (oidc_metadata_conf_get c issuer).
Proof. unfold oidc_metadata_conf_get. cbv zeta. apply total_bind; [apply total_pure|]. intros; total_auto. Qed.
Hint Resolve total_conf_get : total.

Lemma total_metadata_get issuer allow : total (St:=St) (oidc_metadata_get ext net rnd c issuer allow).
Proof.
  unfold oidc_metadata_get. cbv zeta. apply total_bind; [auto with total|]. intros [jp|]; [|auto with total].
  apply total_bind; [auto with total|]. intros [jc|]; [|auto with total]. apply total_bind; [apply total_lift, provider_parse_total|].
  intros [p|]; [|auto with total]. apply total_bind; [apply total_lift, conf_parse_total|]. intros p'. apply total_bind; [auto with total|].
  intros [jl|]; [|auto with total]. apply total_bind; [apply total_lift, client_parse_total|]. intros; auto with total.
Qed.
Hint Resolve total_metadata_get : total.

Lemma validate_str_total s b : is_Some (oidc_provider_validate_metadata_str c s b).
Proof.
  unfold oidc_provider_validate_metadata_str. repeat case_match; try (by eexists).
  match goal with |- context [oidc_metadata_provider_is_valid c ?j ?i] => destruct (provider_is_valid_total j i) as [ok ->] end. by eexists.
Qed.

Lemma total_static_config : total (St:=St) (oidc_provider_static_config ext net c).
Proof.
  unfold oidc_provider_static_config, oidc_cache_get_provider, oidc_cache_set_provider. cbv zeta. case_match; [auto with total|].
  apply total_bind; [auto with total|]. intros [ok s]. apply total_bind; [apply total_lift; case_match; [apply validate_str_total|by eexists]|].
  intros cached. apply total_bind.
  - destruct cached; [auto with total|]. apply total_bind; [auto with total|]. intros [[j s']|]; [|auto with total].
    apply total_bind; [apply total_lift, validate_str_total|]. intros; total_auto.
  - intros [j|]; [|auto with total]. apply total_lift, provider_parse_total.
Qed.
Hint Resolve total_static_config : total.

Lemma total_provider_for_issuer issuer allow : total (St:=St) (oidc_get_provider_for_issuer ext net rnd c issuer allow).
Proof. unfold oidc_get_provider_for_issuer. total_auto. Qed.

Lemma total_list_loop names l : total (St:=St) (list_loop ext net rnd c names l).
Proof.
  revert l. induction names as [|name names IH]; intros l; cbn [list_loop]; [auto with total|]. cbv zeta. case_match eqn:Ef; [apply IH|].
  apply negb_false_iff in Ef. apply total_bind.
  - apply total_lift. unfold oidc_metadata_filename_to_issuer. destruct name; [done|]. destruct (strrchr _ _); [by eexists|done].
  - intros issuer. apply total_bind; [auto with total|]. intros j. apply total_bind; [auto with total|]. intros p. apply IH.
Qed.
End total_meta.
#[export] Hint Resolve total_provider_for_issuer total_metadata_get total_static_config total_file_read_json total_pure : total.

(** ** What is done to the settings *)

Section settings.
Context {J : Jansson} {O : Jose} {B64 : Base64} {C : Cjose J} {D : Digest} {H : Httpd} {E : CfgEnv C}.
Variable (c : oidc_cfg_t C).
Implicit Types p : oidc_provider_t.

(** One setter, of those that the document of the administrator reaches. *)
Inductive conf_setting : oidc_provider_t -> oidc_provider_t -> Prop :=
  | set_profile v p : conf_setting p (oidc_cfg_provider_profile_set v p).2
  | set_profile_primary p : conf_setting p (oidc_cfg_provider_profile_int_set (oidc_cfg_provider_profile_get (primary c)) p)
  | set_client_jwks_uri v p : conf_setting p (oidc_cfg_provider_client_jwks_uri_set v p).2
  | set_client_keys v p : conf_setting p (oidc_cfg_provider_client_keys_set_keys v p).2
  | set_signed_keys v d p : conf_setting p (oidc_cfg_provider_signed_jwks_uri_keys_set v d p).2
  | set_id_token_signed v p : conf_setting p (oidc_cfg_provider_id_token_signed_response_alg_set v p).2
  | set_id_token_encrypted_alg v p : conf_setting p (oidc_cfg_provider_id_token_encrypted_response_alg_set v p).2
  | set_id_token_encrypted_enc v p : conf_setting p (oidc_cfg_provider_id_token_encrypted_response_enc_set v p).2
  | set_id_token_auds v p : conf_setting p (oidc_cfg_provider_id_token_aud_values_set_str_list v p).2
  | set_userinfo_signed v p : conf_setting p (oidc_cfg_provider_userinfo_signed_response_alg_set v p).2
  | set_userinfo_encrypted_alg v p : conf_setting p (oidc_cfg_provider_userinfo_encrypted_response_alg_set v p).2
  | set_userinfo_encrypted_enc v p : conf_setting p (oidc_cfg_provider_userinfo_encrypted_response_enc_set v p).2
  | set_userinfo_interval v p : conf_setting p (oidc_cfg_provider_userinfo_refresh_interval_set v p).2
  | set_userinfo_method v p : conf_setting p (oidc_cfg_provider_userinfo_token_method_set v p).2
  | set_userinfo_method_primary p :
      conf_setting p (oidc_cfg_provider_userinfo_token_method_int_set (oidc_cfg_provider_userinfo_token_method_get (primary c)) p)
  | set_ssl_validate v p : conf_setting p (oidc_cfg_provider_ssl_validate_server_set v p).2
  | set_validate_issuer v p : conf_setting p (oidc_cfg_provider_validate_issuer_set v p).2
  | set_jwks_interval v p : conf_setting p (oidc_cfg_provider_jwks_uri_refresh_interval_set v p).2
  | set_iat_slack v p : conf_setting p (oidc_cfg_provider_idtoken_iat_slack_set v p).2
  | set_session_max v p : conf_setting p (oidc_cfg_provider_session_max_duration_set v p).2
  | set_scope v p : conf_setting p (oidc_cfg_provider_scope_set v p).2
  | set_auth_params v p : conf_setting p (oidc_cfg_provider_auth_request_params_set v p).2
  | set_logout_params v p : conf_setting p (oidc_cfg_provider_logout_request_params_set v p).2
  | set_token_params v p : conf_setting p (oidc_cfg_provider_token_endpoint_params_set v p).2
  | set_request_object v p : conf_setting p (oidc_cfg_provider_request_object_set v p).2
  | set_response_mode v p : conf_setting p (oidc_cfg_provider_response_mode_set v p).2
  | set_pkce v p : conf_setting p (oidc_cfg_provider_pkce_set v p).2
  | set_response_type v p e p' : oidc_cfg_provider_response_type_set v p = Some (e, p') -> conf_setting p p'
  | set_require_iss v p : conf_setting p (oidc_cfg_provider_response_require_iss_set v p).2
  | set_client_name v p : conf_setting p (oidc_cfg_provider_client_name_set v p).2
  | set_client_contact v p : conf_setting p (oidc_cfg_provider_client_contact_set v p).2
  | set_registration_token v p : conf_setting p (oidc_cfg_provider_registration_token_set v p).2
  | set_registration_json v p : conf_setting p (oidc_cfg_provider_registration_endpoint_json_set v p).2
  | set_endpoint_auth v p : conf_setting p (oidc_cfg_provider_token_endpoint_auth_set (has_private_keys c) v p).2
  | set_tls_cert v p : conf_setting p (oidc_cfg_provider_token_endpoint_tls_client_cert_set v p).2
  | set_tls_key v p : conf_setting p (oidc_cfg_provider_token_endpoint_tls_client_key_set v p).2
  | set_tls_pwd v p : conf_setting p (oidc_cfg_provider_token_endpoint_tls_client_key_pwd_set v p).2
  | set_dpop v p : conf_setting p (oidc_cfg_provider_dpop_mode_set v p).2
  | set_dpop_profile p : conf_setting p (oidc_cfg_provider_dpop_mode_int_set (oidc_proto_profile_dpop_mode_get p) p)
  | set_bound v p : conf_setting p (oidc_cfg_provider_cert_bound_tokens_set v p).2
  | set_bound_primary p :
      conf_setting p (oidc_cfg_provider_cert_bound_tokens_int_set (oidc_cfg_provider_cert_bound_tokens_get (primary c)) p)
  | set_auth_method v p : conf_setting p (oidc_cfg_provider_auth_request_method_set v p).2
  | set_auth_method_profile p :
      conf_setting p (oidc_cfg_provider_auth_request_method_int_set (oidc_proto_profile_auth_request_method_get p) p).

(** Any number of setters. *)
Definition conf_settings : oidc_provider_t -> oidc_provider_t -> Prop := rtc conf_setting.

Section combinators.
Implicit Types (R : oidc_provider_t -> oidc_provider_t -> Prop).
Lemma steps_set R set v p q : (forall v p, R p (set v p).2) -> rtc R q p -> rtc R q (metadata_set set v p).
Proof. intros Hs Hq. unfold metadata_set. case_match; [|done]. eapply rtc_r; [exact Hq|apply Hs]. Qed.
Lemma steps_set_int R set v p q : (forall v p, R p (set v p).2) -> rtc R q p -> rtc R q (metadata_set_int set v p).
Proof. intros Hs Hq. unfold metadata_set_int. case_match; [|done]. eapply rtc_r; [exact Hq|apply Hs]. Qed.
Lemma steps_conf_str R j key get set p q : (forall v p, R p (set v p).2) -> rtc R q p -> rtc R q (conf_str c j key get set p).
Proof. apply steps_set. Qed.
Lemma steps_conf_int R j key get set p q : (forall v p, R p (set v p).2) -> rtc R q p -> rtc R q (conf_int c j key get set p).
Proof. apply steps_set_int. Qed.
Lemma steps_conf_bool R j key get set p q : (forall v p, R p (set v p).2) -> rtc R q p -> rtc R q (conf_bool c j key get set p).
Proof. intros Hs Hq. eapply rtc_r; [exact Hq|apply Hs]. Qed.
Lemma steps_conf_enum R j key set int_set p q : (forall v p, R p (set v p).2) -> (forall p, R p (int_set p)) -> rtc R q p ->
  rtc R q (conf_enum j key set int_set p).
Proof. intros Hs Hi Hq. unfold conf_enum. case_match; (eapply rtc_r; [exact Hq|]); [apply Hs|apply Hi]. Qed.
End combinators.

(** The setters in the order of the calls. *)
Ltac settings := repeat first
  [ eassumption
  | apply steps_conf_str; [by constructor|] | apply steps_conf_int; [by constructor|] | apply steps_conf_bool; [by constructor|]
  | apply steps_set; [by constructor|] | apply steps_set_int; [by constructor|]
  | apply steps_conf_enum; [by constructor|by constructor|] ].

Lemma conf_pre_settings j p q : conf_settings q p -> conf_settings q (oidc_metadata_conf_parse_pre_provider c j p).
Proof.
  intros Hq. unfold oidc_metadata_conf_parse_pre_provider, oidc_metadata_conf_parse_cert_bound_tokens, oidc_metadata_conf_parse_tls_client,
    oidc_metadata_conf_parse_endpoint_auth, oidc_metadata_conf_parse_profile, conf_settings in *. cbv zeta. settings.
Qed.

Lemma conf_keys_settings j p q : conf_settings q p -> conf_settings q (oidc_metadata_conf_parse_keys c j p).
Proof.
  intros Hq. unfold oidc_metadata_conf_parse_keys, conf_settings in *. cbv zeta. eapply rtc_r; [|apply set_signed_keys].
  case_match; [eapply rtc_r; [|apply set_client_keys]|]; settings.
Qed.

Lemma conf_id_token_settings j p q : conf_settings q p -> conf_settings q (oidc_metadata_conf_parse_id_token c j p).
Proof.
  intros Hq. unfold oidc_metadata_conf_parse_id_token, conf_settings in *. cbv zeta.
  case_match; [eapply rtc_r; [|apply set_id_token_auds]|]; settings.
Qed.

Lemma response_type_settings v p p' q : response_type_set v p = Some p' -> conf_settings q p -> conf_settings q p'.
Proof.
  unfold response_type_set. case_match; [|by intros [= <-]]. intros ([e p1] & Es & [= <-])%bind_Some Hq. eapply rtc_r; [exact Hq|].
  by eapply set_response_type.
Qed.

Lemma conf_response_settings j p p' q : oidc_metadata_conf_parse_response c j p = Some p' -> conf_settings q p -> conf_settings q p'.
Proof.
  unfold oidc_metadata_conf_parse_response. cbv zeta. intros (p1 & Er & [= <-])%bind_Some Hq.
  unfold conf_settings in *. apply steps_set_int; [by constructor|]. eapply response_type_settings; [exact Er|].
  unfold conf_settings. settings.
Qed.

Lemma conf_parse_settings j p p' q : oidc_metadata_conf_parse c j p = Some p' -> conf_settings q p -> conf_settings q p'.
Proof.
  unfold oidc_metadata_conf_parse. cbv zeta. intros (p1 & Er & [= <-])%bind_Some Hq. eapply conf_response_settings in Er.
  - unfold oidc_metadata_conf_parse_auth_request_method, oidc_metadata_conf_parse_dpop_mode, oidc_metadata_conf_parse_tls_client,
      oidc_metadata_conf_parse_endpoint_auth, oidc_metadata_conf_parse_client, conf_settings in *. cbv zeta. settings.
  - unfold oidc_metadata_conf_parse_request_params, oidc_metadata_conf_parse_session, oidc_metadata_conf_parse_userinfo, conf_settings.
    cbv zeta. settings. apply conf_id_token_settings, conf_keys_settings. unfold conf_settings, oidc_metadata_conf_parse_profile in *. settings.
Qed.

(** Well-formedness, given that of the global settings. *)
Lemma conf_setting_wf p p' : provider_wf (primary c) -> conf_setting p p' -> provider_wf p -> provider_wf p'.
Proof. intros Hg. destruct 1; intros Hp; try (by eauto with wf). by eapply response_type_set_wf. Qed.

Lemma conf_settings_wf p p' : provider_wf (primary c) -> conf_settings p p' -> provider_wf p -> provider_wf p'.
Proof. intros Hg. induction 1; [done|]. intros Hp. by eauto using conf_setting_wf. Qed.

(** The members of a provider that only its metadata sets. *)
Definition declared p : list (option string) :=
  [pv_issuer p; pv_authorization_endpoint_url p; pv_token_endpoint_url p; pv_userinfo_endpoint_url p; pv_revocation_endpoint_url p;
   pv_pushed_authorization_request_endpoint_url p; ju_uri (pv_jwks_uri p); ju_signed_uri (pv_jwks_uri p);
   pv_registration_endpoint_url p; pv_check_session_iframe p; pv_end_session_endpoint p].

Lemma set_valid_keeps {A} (get : oidc_provider_t -> A) rv p p' : get p' = get p -> get (set_valid rv p' p).2 = get p.
Proof. intros Hg. by destruct rv. Qed.
Lemma set_read_keeps {A} (get : oidc_provider_t -> A) rv set p : (forall v, get (set v) = get p) -> get (set_read rv set p).2 = get p.
Proof. intros Hg. destruct rv; [done|]. apply Hg. Qed.
Lemma set_int_keeps {A} (get : oidc_provider_t -> A) lo hi def arg set p : (forall v, get (set v) = get p) ->
  get (set_int lo hi def arg set).2 = get p.
Proof. intros Hg. unfold set_int. by case_match; cbn [snd]. Qed.
Lemma set_parsed_keeps {A} (get : oidc_provider_t -> A) r set def p : (forall v, get (set v) = get p) ->
  get (set_parsed r set def).2 = get p.
Proof. intros Hg. unfold set_parsed. by case_match; cbn [snd]. Qed.

Ltac keeps := first
  [ reflexivity | apply set_valid_keeps; reflexivity | apply set_read_keeps; intros; reflexivity
  | apply set_int_keeps; intros; reflexivity | apply set_parsed_keeps; intros; reflexivity ].

(** What the document of the administrator leaves to that of the provider, and the credentials to that of the client. *)
Definition kept p := (declared p, pv_client_id p, pv_client_secret p).
Lemma conf_setting_keeps p p' : conf_setting p p' -> kept p' = kept p.
Proof.
  destruct 1; try keeps.
  - unfold oidc_cfg_provider_signed_jwks_uri_keys_set. cbv zeta. by repeat case_match.
  - unfold oidc_cfg_provider_session_max_duration_set. case_match; keeps.
  - unfold oidc_cfg_provider_pkce_set. cbv zeta. by repeat case_match.
  - match goal with X : oidc_cfg_provider_response_type_set _ _ = _ |- _ => revert X end. unfold oidc_cfg_provider_response_type_set.
    destruct (oidc_cfg_parse_is_valid_response_type v) as [rv|]; [|done]. cbn [mbind option_bind]. destruct rv; by intros [= <- <-].
  - unfold oidc_cfg_provider_token_endpoint_auth_set. by destruct (oidc_cfg_endpoint_auth_set _ _ _ _) as [e [auth alg]].
Qed.
Lemma conf_settings_keeps p p' : conf_settings p p' -> kept p' = kept p.
Proof. induction 1 as [|p1 p2 p3 Hs _ IH]; [done|]. by rewrite IH, (conf_setting_keeps _ _ Hs). Qed.
End settings.

(** ** What the metadata of the provider adds *)

Section parse.
Context {J : Jansson} {O : Jose} {B64 : Base64} {C : Cjose J} {D : Digest} {H : Httpd} {E : CfgEnv C}.
Variable (c : oidc_cfg_t C).
Implicit Types p : oidc_provider_t.

Lemma metadata_set_wf set v p : (forall v p, provider_wf p -> provider_wf (set v p).2) -> provider_wf p -> provider_wf (metadata_set set v p).
Proof. intros Hs Hp. unfold metadata_set. case_match; [by apply Hs|done]. Qed.
Lemma metadata_set_int_wf set v p : (forall v p, provider_wf p -> provider_wf (set v p).2) -> provider_wf p ->
  provider_wf (metadata_set_int set v p).
Proof. intros Hs Hp. unfold metadata_set_int. case_match; [by apply Hs|done]. Qed.

Lemma parse_url_member_wf get set j ja key p p' : (forall v p, provider_wf p -> provider_wf (set v p).2) ->
  parse_url_member get set j ja key p = Some p' -> provider_wf p -> provider_wf p'.
Proof.
  intros Hs. unfold parse_url_member. case_match; [by intros [= <-]|]. intros (u & _ & [= <-])%bind_Some Hp. by apply metadata_set_wf.
Qed.

Lemma parse_endpoints_wf j ja p p' : parse_endpoints j ja p = Some p' -> provider_wf p -> provider_wf p'.
Proof.
  unfold parse_endpoints. intros Hp Hw. repeat (apply bind_Some in Hp as (? & ? & Hp)).
  eapply parse_url_member_wf; [|exact Hp|]; [auto with wf|].
  repeat match goal with
  | X : parse_url_member _ _ _ _ _ ?p = Some ?q |- provider_wf ?q => eapply parse_url_member_wf; [|exact X|]; [by auto with wf|]
  end; clear Hp.
  cbv zeta in *. repeat (case_match; [|apply metadata_set_wf; [by auto with wf|]]);
  repeat match goal with
  | X : parse_url_member _ _ _ _ _ ?p = Some ?q |- provider_wf ?q => eapply parse_url_member_wf; [|exact X|]; [by auto with wf|]
  end; done.
Qed.

Lemma bound_int_wf (b : bool) p : provider_wf p ->
  provider_wf (oidc_cfg_provider_cert_bound_tokens_int_set (if b then OIDC_CERT_BOUND_TOKENS_ON else OIDC_CERT_BOUND_TOKENS_OFF) p).
Proof. intros Hp. apply cert_bound_tokens_int_set_wf; [done|]. destruct b; by apply int_ok_bounds. Qed.
Lemma dpop_int_wf (b : bool) p : provider_wf p -> provider_wf (oidc_cfg_provider_dpop_supported_int_set (Z.b2z b) p).
Proof. intros Hp. apply dpop_supported_int_set_wf; [done|]. destruct b; by apply int_ok_bounds. Qed.

Lemma provider_parse_wf j p p' : oidc_metadata_provider_parse c j p = Some (Some p') -> provider_wf p -> provider_wf p'.
Proof.
  unfold oidc_metadata_provider_parse. cbv zeta. intros (o & Ha & Hp)%bind_Some Hw. injection Hp as Hp.
  apply bind_Some in Hp as (p1 & -> & Hp). apply bind_Some in Hp as (p2 & Hp & Hp'). injection Hp' as <-.
  apply metadata_set_int_wf; [by auto with wf|]. eapply parse_endpoints_wf; [exact Hp|].
  apply dpop_int_wf, bound_int_wf. clear Hp. revert Ha. unfold parse_endpoint_auth.
  match goal with |- context [if nonnull (oidc_cfg_provider_issuer_get p) then p else ?q] => assert (Hi : provider_wf q)
    by (apply metadata_set_wf; [by auto with wf|done]) end.
  match goal with |- context [oidc_cfg_provider_token_endpoint_auth_get ?q] => assert (Hq : provider_wf q)
    by (case_match; done); revert Hq; generalize q end. clear Hi. intros q Hq.
  case_match; [by intros [= <-]|]. intros ([err v] & _ & Ev)%bind_Some. injection Ev as Ev. destruct err; [done|].
  injection Ev as <-. auto with wf.
Qed.

(** A URL that is taken over has been checked. *)
Lemma parse_url_valid j key u : oidc_metadata_parse_url j key None = Some u ->
  oidc_json_object_get_string j key None = Some u /\ oidc_cfg_parse_is_valid_http_url (Some u) = None.
Proof.
  unfold oidc_metadata_parse_url, oidc_metadata_is_valid_uri. destruct (oidc_json_object_get_string j key None) as [s|]; [|done].
  destruct (oidc_cfg_parse_is_valid_http_url (Some s)) eqn:Ev; [done|]. cbn. by intros [= <-].
Qed.
Lemma parse_url_mtls_valid j ja key u : oidc_metadata_provider_parse_url_mtls j ja key = Some (Some u) ->
  oidc_cfg_parse_is_valid_http_url (Some u) = None /\
  (oidc_json_object_get_string j key None = Some u \/ oidc_json_object_get_string ja key None = Some u).
Proof.
  unfold oidc_metadata_provider_parse_url_mtls. case_match.
  - destruct (oidc_metadata_parse_url ja key None) as [v|] eqn:Eu; [|done]. intros [= <-]. apply parse_url_valid in Eu as [? ?]. auto.
  - intros [= Eu]. apply parse_url_valid in Eu as [? ?]. auto.
Qed.

(** A member that was not set is what the document says. *)
Lemma parse_url_member_get get set upd j ja key p p' :
  (forall v p, set v p = set_valid (oidc_cfg_parse_is_valid_http_url v) (upd v p) p) -> (forall v p, get (upd v p) = v) ->
  parse_url_member get set j ja key p = Some p' -> get p = None ->
  exists u, oidc_metadata_provider_parse_url_mtls j ja key = Some u /\ get p' = u.
Proof.
  intros Hs Hg. unfold parse_url_member. intros Hp Hn. rewrite Hn in Hp. cbn [nonnull] in Hp. apply bind_Some in Hp as (u & Eu & Hp).
  exists u. split; [done|]. injection Hp as <-. unfold metadata_set. destruct u as [u|]; [|done]. cbn [nonnull]. rewrite Hs.
  apply parse_url_mtls_valid in Eu as [-> _]. apply Hg.
Qed.

Lemma parse_url_member_keeps {A} (g : oidc_provider_t -> A) get set j ja key p p' : (forall v p, g (set v p).2 = g p) ->
  parse_url_member get set j ja key p = Some p' -> g p' = g p.
Proof.
  intros Hs. unfold parse_url_member. case_match; [by intros [= <-]|]. intros (u & _ & [= <-])%bind_Some. unfold metadata_set.
  by case_match.
Qed.

Lemma metadata_set_keeps {A} (g : oidc_provider_t -> A) set v p : (forall v p, g (set v p).2 = g p) -> g (metadata_set set v p) = g p.
Proof. intros Hs. unfold metadata_set. by case_match. Qed.

Lemma metadata_set_int_keeps {A} (g : oidc_provider_t -> A) set v p : (forall v p, g (set v p).2 = g p) ->
  g (metadata_set_int set v p) = g p.
Proof. intros Hs. unfold metadata_set_int. by destruct (negb _). Qed.

(** The members that identify the provider. *)
Definition named p := (pv_issuer p, pv_authorization_endpoint_url p, pv_token_endpoint_url p).

Lemma signed_uri_named v w p : named (oidc_cfg_provider_signed_jwks_uri_set v w p).2 = named p.
Proof.
  unfold oidc_cfg_provider_signed_jwks_uri_set, oidc_cfg_provider_signed_jwks_uri_keys_set. cbv zeta. by repeat case_match.
Qed.

Ltac keeps_member g := intros; first [apply signed_uri_named | apply (set_valid_keeps g); reflexivity].
Ltac member_keeps g X := etransitivity; [eapply (parse_url_member_keeps g); [|exact X]; keeps_member g|].

Lemma parse_endpoints_named j ja p p' : parse_endpoints j ja p = Some p' ->
  pv_authorization_endpoint_url p = None -> pv_token_endpoint_url p = None ->
  pv_issuer p' = pv_issuer p /\
  (exists u, oidc_metadata_provider_parse_url_mtls j None OIDC_METADATA_AUTHORIZATION_ENDPOINT = Some u /\ pv_authorization_endpoint_url p' = u) /\
  (exists u, oidc_metadata_provider_parse_url_mtls j ja OIDC_METADATA_TOKEN_ENDPOINT = Some u /\ pv_token_endpoint_url p' = u).
Proof.
  unfold parse_endpoints. cbv zeta. intros (p1 & E1 & (p2 & E2 & (p3 & E3 & (p4 & E4 & (p5 & E5 & (p6 & E6 & (p7 & E7 & E8)%bind_Some)%bind_Some)%bind_Some)%bind_Some)%bind_Some)%bind_Some)%bind_Some Ha Ht.
  assert (En : named p' = named p2).
  { member_keeps named E8. member_keeps named E7. member_keeps named E6. transitivity (named p5).
    - repeat case_match; rewrite ?(metadata_set_keeps named) by keeps_member named; reflexivity.
    - member_keeps named E5. member_keeps named E4. by member_keeps named E3. }
  destruct (parse_url_member_get oidc_cfg_provider_authorization_endpoint_url_get oidc_cfg_provider_authorization_endpoint_url_set
    (fun v p => p <| pv_authorization_endpoint_url := v |>) _ _ _ _ _ (fun v p => eq_refl) (fun v p => eq_refl) E1 Ha) as (u & Eu & Ea).
  assert (K1 : (fun p => (pv_issuer p, pv_token_endpoint_url p)) p1 = (fun p => (pv_issuer p, pv_token_endpoint_url p)) p)
    by by member_keeps (fun p => (pv_issuer p, pv_token_endpoint_url p)) E1.
  cbv beta in K1. injection K1 as K1 K1'. rewrite <-K1' in Ht.
  destruct (parse_url_member_get oidc_cfg_provider_token_endpoint_url_get oidc_cfg_provider_token_endpoint_url_set
    (fun v p => p <| pv_token_endpoint_url := v |>) _ _ _ _ _ (fun v p => eq_refl) (fun v p => eq_refl) E2 Ht) as (v & Ev & Et).
  assert (K2 : (fun p => (pv_issuer p, pv_authorization_endpoint_url p)) p2 = (fun p => (pv_issuer p, pv_authorization_endpoint_url p)) p1)
    by by member_keeps (fun p => (pv_issuer p, pv_authorization_endpoint_url p)) E2.
  cbv beta in K2. injection K2 as K2 K2'. unfold named in En. injection En as En1 En2 En3.
  unfold oidc_cfg_provider_authorization_endpoint_url_get in Ea. unfold oidc_cfg_provider_token_endpoint_url_get in Et.
  split; [congruence|]. split; [exists u|exists v]; (split; [done|congruence]).
Qed.

(** The metadata of a provider that is valid for an issuer says who it is and where to send the user. *)
Lemma provider_is_valid_inv j issuer : oidc_metadata_provider_is_valid c j (Some issuer) = Some true ->
  exists iss url, oidc_json_object_get_string (Some j) OIDC_METADATA_ISSUER None = Some iss /\ same_issuer issuer iss /\
    oidc_json_object_get_string (Some j) OIDC_METADATA_AUTHORIZATION_ENDPOINT None = Some url /\
    oidc_cfg_parse_is_valid_http_url (Some url) = None.
Proof.
  unfold oidc_metadata_provider_is_valid. cbv zeta. destruct (oidc_json_object_get_string _ OIDC_METADATA_ISSUER _) as [iss|]; [|done].
  cbn [nonnull andb]. destruct (oidc_util_issuer_match (Some issuer) (Some iss)) eqn:Ei; [|done]. cbn [negb].
  intros ([types ?] & _ & Hv)%bind_Some. case_match; [done|]. apply bind_Some in Hv as ([modes ?] & _ & Hv). case_match; [done|].
  destruct (oidc_metadata_is_valid_uri (Some j) OIDC_METADATA_AUTHORIZATION_ENDPOINT true) as [ok u] eqn:Eu.
  cbn [fst] in Hv. destruct ok; [|done]. clear Hv. unfold oidc_metadata_is_valid_uri in Eu.
  destruct (oidc_json_object_get_string _ OIDC_METADATA_AUTHORIZATION_ENDPOINT _) as [url|]; [|done].
  destruct (oidc_cfg_parse_is_valid_http_url _) eqn:Ev; [done|]. apply issuer_match_true in Ei as (x & y & [= <-] & [= <-] & Hs).
  by exists iss, url.
Qed.

Lemma provider_parse_named j p p' iss url : oidc_metadata_provider_parse c j p = Some (Some p') ->
  declared p = declared oidc_cfg_provider_create ->
  oidc_json_object_get_string (Some j) OIDC_METADATA_ISSUER None = Some iss ->
  oidc_json_object_get_string (Some j) OIDC_METADATA_AUTHORIZATION_ENDPOINT None = Some url ->
  oidc_cfg_parse_is_valid_http_url (Some url) = None ->
  pv_issuer p' = Some iss /\ pv_authorization_endpoint_url p' = Some url.
Proof.
  intros Hp Hd Ei Eu Hu. assert (Hn : pv_issuer p = None /\ pv_authorization_endpoint_url p = None /\ pv_token_endpoint_url p = None)
    by by unfold declared in Hd; injection Hd.
  destruct Hn as (H1 & H2 & H3). unfold oidc_metadata_provider_parse in Hp. unfold oidc_cfg_provider_issuer_get in Hp. rewrite H1, Ei in Hp.
  cbn [nonnull metadata_set] in Hp. cbv zeta in Hp. apply bind_Some in Hp as (o & Ha & Hp). injection Hp as Hp.
  apply bind_Some in Hp as (p1 & -> & Hp). apply bind_Some in Hp as (p2 & Hp & Hp'). injection Hp' as <-.
  assert (En : named p1 = (Some iss, None, None)).
  { revert Ha. unfold metadata_set. cbn [nonnull]. unfold parse_endpoint_auth. destruct (nonnull (oidc_cfg_provider_token_endpoint_auth_get _)).
    { intros Eq. assert (p1 = (oidc_cfg_provider_issuer_set (Some iss) p).2) as -> by congruence.
      transitivity (Some iss, pv_authorization_endpoint_url p, pv_token_endpoint_url p); [done|]. by rewrite H2, H3. }
    intros ([err v] & _ & Ev)%bind_Some. injection Ev as Ev. destruct err; [done|]. injection Ev as <-.
    unfold oidc_cfg_provider_token_endpoint_auth_set. destruct (oidc_cfg_endpoint_auth_set _ _ _ _) as [e [auth alg]].
    transitivity (Some iss, pv_authorization_endpoint_url p, pv_token_endpoint_url p); [done|]. by rewrite H2, H3. }
  unfold named in En. injection En as E1 E2 E3. apply parse_endpoints_named in Hp as (Hi & (u & Hu' & Ha') & _); [|done..].
  assert (Hk : (fun p => (pv_issuer p, pv_authorization_endpoint_url p)) (metadata_set_int oidc_cfg_provider_backchannel_logout_supported_set
    (oidc_metadata_parse_boolean (Some j) OIDC_METADATA_BACKCHANNEL_LOGOUT_SUPPORTED (oidc_cfg_provider_backchannel_logout_supported_get p2)) p2) =
    (fun p => (pv_issuer p, pv_authorization_endpoint_url p)) p2).
  { apply (metadata_set_int_keeps (fun p => (pv_issuer p, pv_authorization_endpoint_url p))). intros.
    apply (set_int_keeps (fun p => (pv_issuer p, pv_authorization_endpoint_url p))). done. }
  cbv beta in Hk. injection Hk as -> ->. rewrite Hi, Ha'. split; [exact E1|]. unfold oidc_metadata_provider_parse_url_mtls in Hu'.
  cbn [nonnull andb] in Hu'. injection Hu' as <-. unfold oidc_metadata_parse_url, oidc_metadata_is_valid_uri. rewrite Eu, Hu. done.
Qed.
End parse.

(** ** The whole *)

Section get.
Context {J : Jansson} {O : Jose} {B64 : Base64} {C : Cjose J} {D : Digest} {Zl : Zlib} {H : Httpd} {HS : HttpdSpec H} {E : CfgEnv C}.
Context {St : Type} {B : CacheBackend St} {Dk : Disk St}.
Variables (ext : nat -> env) (net : nat -> network) (rnd : nat -> rng) (c : oidc_cfg_t C).
Implicit Types p : oidc_provider_t.

(** What the registered client brings along: its name and its secret, and then settings as those of the administrator. *)
Definition client_credentials (j_client : json_t) p : oidc_provider_t :=
  metadata_set oidc_cfg_provider_client_secret_set (oidc_json_object_get_string (Some j_client) OIDC_METADATA_CLIENT_SECRET None)
    (metadata_set oidc_cfg_provider_client_id_set (oidc_json_object_get_string (Some j_client) OIDC_METADATA_CLIENT_ID None) p).

Lemma client_parse_settings j p p' : oidc_metadata_client_parse c j p = Some p' -> conf_settings c (client_credentials j p) p'.
Proof.
  unfold oidc_metadata_client_parse. cbv zeta. fold (client_credentials j p). intros (p1 & Ep & [= <-])%bind_Some.
  unfold conf_settings. apply steps_set; [by constructor|]. revert Ep. unfold oidc_metadata_client_parse_response_type.
  assert (Ha : conf_settings c (client_credentials j p) (oidc_metadata_client_parse_token_endpoint_auth c j (client_credentials j p)))
    by (unfold conf_settings, oidc_metadata_client_parse_token_endpoint_auth; apply steps_set; [by constructor|reflexivity]).
  destruct (oidc_cfg_provider_response_type_is_set _); [by intros [= <-]|]. intros ([e p2] & E2 & Ep)%bind_Some.
  assert (H2 : conf_settings c (client_credentials j p) p2) by (eapply rtc_r; [exact Ha|by eapply set_response_type]).
  cbv zeta in Ep. destruct (negb _); [by injection Ep as <-|]. destruct (oidc_json_array_has_value _ _); [by injection Ep as <-|].
  destruct (oidc_json_is_string _); [|by injection Ep as <-]. by eapply response_type_settings.
Qed.

Lemma client_credentials_wf j p : provider_wf p -> provider_wf (client_credentials j p).
Proof. intros Hp. unfold client_credentials. do 2 (apply metadata_set_wf; [by auto with wf|]). done. Qed.

Lemma client_credentials_declared j p : declared (client_credentials j p) = declared p.
Proof.
  unfold client_credentials. rewrite !(metadata_set_keeps declared); [done|done|]. intros. apply (set_read_keeps declared). done.
Qed.

Lemma client_credentials_id j p id : oidc_json_object_get_string (Some j) OIDC_METADATA_CLIENT_ID None = Some id ->
  pv_client_id (client_credentials j p) = Some id.
Proof.
  intros Ei. unfold client_credentials. rewrite (metadata_set_keeps pv_client_id); [by rewrite Ei|]. intros. by apply (set_read_keeps pv_client_id).
Qed.

(** The documents that are used are valid. *)
Lemma provider_checked_valid issuer j0 (w : world St) j w' : provider_checked c issuer j0 w = Some (Some j, w') ->
  oidc_metadata_provider_is_valid c j (Some issuer) = Some true.
Proof.
  intros ([] & w2 & [Eb ->]%lift_inv & E2)%bind_inv; [|done]. unfold ret in E2. by injection E2 as <- _.
Qed.
Lemma provider_get_valid issuer allow w j w' : oidc_metadata_provider_get ext net rnd c issuer allow w = Some (Some j, w') ->
  oidc_metadata_provider_is_valid c j (Some issuer) = Some true.
Proof.
  unfold oidc_metadata_provider_get. cbv zeta. intros ([have use] & w1 & _ & Eg)%bind_inv. apply bind_inv in Eg as (jc & w2 & _ & Eg).
  destruct (if use then jc else None) as [j0|]; [by eapply provider_checked_valid|]. destruct (_ && _); [done|].
  apply bind_inv in Eg as (fresh & w4 & Er & Ef). destruct fresh as [[j0 response]|].
  - apply bind_inv in Ef as (ok & w5 & _ & Ef). unfold ret in Ef. injection Ef as -> _. revert Er.
    unfold oidc_metadata_provider_retrieve. intros (x & w6 & _ & Er)%bind_inv. destruct x as [x|]; [|done].
    destruct (oidc_json_decode_and_check_error _) as [jm|]; [|done]. apply bind_inv in Er as ([] & w7 & [Ev ->]%lift_inv & Er); [|done].
    unfold ret in Er. by injection Er as <- _.
  - destruct jc as [j0|]; [|done]. destruct (_ && _); [|done]. apply bind_inv in Ef as (t & w5 & _ & Ef).
    apply bind_inv in Ef as (u & w6 & _ & Ef). by eapply provider_checked_valid.
Qed.

Lemma client_get_valid issuer p w j w' : oidc_metadata_client_get ext net rnd c issuer p w = Some (Some j, w') ->
  exists w1 w2, oidc_metadata_client_is_valid (St:=St) ext j w1 = Some (true, w2).
Proof.
  unfold oidc_metadata_client_get. cbv zeta. intros (jc & w1 & _ & Eg)%bind_inv. apply bind_inv in Eg as (ok & w2 & Ev & Eg).
  destruct ok; [unfold ret in Eg; injection Eg as -> _; by exists w1, w2|]. destruct (oidc_cfg_provider_registration_endpoint_url_get p); [|done].
  apply bind_inv in Eg as (reg & w3 & _ & Eg). destruct reg as [[jr response]|]; [|done]. apply bind_inv in Eg as (ok & w4 & Er & Eg).
  destruct ok; [|done]. cbn [negb] in Eg. apply bind_inv in Eg as (ok & w5 & _ & Eg). destruct ok; [|done].
  unfold ret in Eg. injection Eg as -> _. by exists w3, w4.
Qed.

Lemma client_is_valid_inv j w w' : oidc_metadata_client_is_valid (St:=St) ext j w = Some (true, w') ->
  is_Some (oidc_json_object_get_string (Some j) OIDC_METADATA_CLIENT_ID None).
Proof. unfold oidc_metadata_client_is_valid. destruct (oidc_json_object_get_string _ _ _); [by eexists|done]. Qed.

Lemma metadata_get_inv issuer allow w p w' : oidc_metadata_get ext net rnd c issuer allow w = Some (Some p, w') ->
  exists j_provider j_conf j_client p1 p2 w1 w2, oidc_metadata_provider_is_valid c j_provider (Some issuer) = Some true /\
    oidc_metadata_provider_parse c j_provider (oidc_metadata_conf_parse_pre_provider c j_conf oidc_cfg_provider_create) = Some (Some p1) /\
    oidc_metadata_conf_parse c j_conf p1 = Some p2 /\
    oidc_metadata_client_is_valid (St:=St) ext j_client w1 = Some (true, w2) /\
    oidc_metadata_client_parse c j_client p2 = Some p.
Proof.
  unfold oidc_metadata_get. cbv zeta. intros (jp & w1 & Ep & Eg)%bind_inv. destruct jp as [jp|]; [|done]. apply provider_get_valid in Ep.
  apply bind_inv in Eg as (jc & w2 & _ & Eg). destruct jc as [jc|]; [|done]. apply bind_inv in Eg as (p1 & w3 & [E1 ->]%lift_inv & Eg).
  destruct p1 as [p1|]; [|done]. apply bind_inv in Eg as (p2 & w4 & [E2 ->]%lift_inv & Eg).
  apply bind_inv in Eg as (jl & w5 & El & Eg). destruct jl as [jl|]; [|done]. apply client_get_valid in El as (w6 & w7 & El).
  apply bind_inv in Eg as (p3 & w8 & [E3 ->]%lift_inv & Eg). unfold ret in Eg. injection Eg as -> _.
  by exists jp, jc, jl, p1, p2, w6, w7.
Qed.

Lemma pre_provider_settings j_conf : conf_settings c oidc_cfg_provider_create (oidc_metadata_conf_parse_pre_provider c j_conf oidc_cfg_provider_create).
Proof. apply conf_pre_settings. unfold conf_settings. reflexivity. Qed.

Lemma metadata_get_wf issuer allow w p w' : provider_wf (primary c) ->
  oidc_metadata_get ext net rnd c issuer allow w = Some (Some p, w') -> provider_wf p.
Proof.
  intros Hg (jp & jc & jl & p1 & p2 & w1 & w2 & _ & E1 & E2 & _ & E3)%metadata_get_inv.
  eapply conf_settings_wf; [exact Hg|by apply client_parse_settings|]. apply client_credentials_wf.
  eapply conf_settings_wf; [exact Hg|eapply conf_parse_settings; [exact E2|unfold conf_settings; reflexivity]|].
  eapply provider_parse_wf; [exact E1|]. eapply conf_settings_wf; [exact Hg|apply pre_provider_settings|apply create_wf].
Qed.

Lemma metadata_get_named issuer allow w p w' : oidc_metadata_get ext net rnd c issuer allow w = Some (Some p, w') ->
  (exists iss, pv_issuer p = Some iss /\ same_issuer issuer iss) /\
  (exists url, pv_authorization_endpoint_url p = Some url /\ oidc_cfg_parse_is_valid_http_url (Some url) = None) /\
  is_Some (pv_client_id p).
Proof.
  intros (jp & jc & jl & p1 & p2 & w1 & w2 & Ev & E1 & E2 & El & E3)%metadata_get_inv.
  apply provider_is_valid_inv in Ev as (iss & url & Ei & Hs & Eu & Hu).
  destruct (provider_parse_named c _ _ _ _ _ E1 (f_equal (fun k => k.1.1) (conf_settings_keeps _ _ _ (pre_provider_settings jc))) Ei Eu Hu) as [Hi Ha].
  assert (Hd2 : declared p2 = declared p1).
  { assert (Hk : kept p2 = kept p1) by (eapply conf_settings_keeps, conf_parse_settings; [exact E2|unfold conf_settings; reflexivity]).
    exact (f_equal (fun k => k.1.1) Hk). }
  pose proof (conf_settings_keeps _ _ _ (client_parse_settings _ _ _ E3)) as Hk. unfold kept in Hk.
  rewrite client_credentials_declared, Hd2 in Hk. apply client_is_valid_inv in El as [id Eid].
  rewrite (client_credentials_id _ _ _ Eid) in Hk. injection Hk as Hk1 Hk2 Hk3 Hk4 Hk5 Hk6 Hk7 Hk8 Hk9 Hk10 Hk11 Hk12.
  split; [exists iss; split; [congruence|done]|]. split; [exists url; split; [congruence|done]|]. rewrite Hk12. by eexists.
Qed.
End get.
