(* ===== verification/MetadataSpec.v ===== *)
(** * The provider of a request: what the lookup promises

    Files of the metadata directory, the settings that a lookup returns, and how what is in the documents of other
    parties gets into them. *)

From S2P Require Import Prelude Cstr Apr StrUtil Jansson Json Http Form Url Cookie Base64 Jose Jwt Util ShmCache Cache World.
From S2P Require Import HttpClient Cjose Jwk Jwe JoseLib Jws Pkce Provider Profile JwtCheck Jwks Files CfgParse ClientAuth.
From S2P Require Import Session SessionAttr State ProviderSet ProviderWf Config Metadata MetadataConf ProviderLookup IdTokenProps.
From S2P Require Import Token Response Userinfo StateProps MetadataProps Scrub.
#[local] Open Scope Z_scope.

(** ** File names *)

Lemma strrchr_last a b c : strchr b c = None -> strrchr (a ^^ String c b) c = Some (String.length a).
Proof.
  intros Hb. assert (Hn : strrchr b c = None).
  { revert Hb. induction b as [|d b IH]; [done|]. cbn [strchr strrchr]. destruct (Ascii.eqb d c) eqn:Ed; [done|].
    intros Hb. destruct (strchr b c); [done|]. by rewrite IH. }
  induction a as [|d a IH]; cbn [String.append strrchr String.length]; [by rewrite Hn, Ascii.eqb_refl|by rewrite IH].
Qed.

Definition not_slash (c : ascii) : bool := negb (Ascii.eqb c "/").
Lemma url_char_not_slash c : url_char c = true -> not_slash c = true.
Proof. char_cases c. Qed.

Lemma filename_encoded issuer : exists p, oidc_metadata_issuer_to_filename issuer = url_encode_loop p.
Proof. unfold oidc_metadata_issuer_to_filename. cbv zeta. by eexists. Qed.

(** The host and path of an issuer with a scheme, without a trailing slash. *)
Lemma filename_of_https host : (forall h, host <> (h ^^ "/")) ->
  oidc_metadata_issuer_to_filename ("https://" ^^ host) = url_encode_loop host /\
  oidc_metadata_issuer_to_filename ("https://" ^^ host ^^ "/") = url_encode_loop host.
Proof.
  intros Hh. assert (Hp : forall t, _oidc_strstr (Some ("https://" ^^ t)) (Some "https://") = Some 0%nat).
  { intros t. apply strstr_zero, str_prefix_app. by exists t. }
  assert (Hl : forall s c, (0 <? String.length (s ^^ String c ""))%nat = true /\
    str_drop (String.length (s ^^ String c "") - 1) (s ^^ String c "") = String c "" /\
    str_take (String.length (s ^^ String c "") - 1) (s ^^ String c "") = s).
  { intros s c. rewrite length_append. cbn [String.length]. rewrite Nat.add_sub, str_drop_app, str_take_app. split; [|done].
    apply Nat.ltb_lt. lia. }
  assert (Hd : forall t, str_drop 8 ("https://" ^^ t) = t) by done.
  unfold oidc_metadata_issuer_to_filename. rewrite !Hp, !bool_decide_eq_true_2 by done. cbv zeta. rewrite !Hd. split.
  - destruct (decide (host = "")) as [->|Hne]; [done|].
    assert (exists s c, host = (s ^^ String c "")) as (s & c & ->).
    { clear -Hne. induction host as [|c host IH]; [done|]. destruct (decide (host = "")) as [->|Hne']; [by exists "", c|].
      destruct (IH Hne') as (s & d & ->). by exists (String c s), d. }
    destruct (Hl s c) as (-> & -> & _). destruct (Ascii.eqb_spec c "/") as [->|_]; [by destruct (Hh s)|done].
  - destruct (Hl host "/"%char) as (-> & -> & ->). done.
Qed.

(** The name of the file of an issuer is one component of a path, whatever the issuer is, and an issuer without
    a trailing slash can be read back from it. *)
Theorem issuer_filename_roundtrip {J : Jansson} {C : Cjose J} (c : oidc_cfg_t C) (issuer : string) :
  (exists name, oidc_metadata_provider_file_path c issuer = (pr (oidc_cfg_metadata_dir_get c) ^^ "/" ^^ name) /\
     str_forall not_slash name = true) /\
  forall host, str_forall nonnul host = true -> (forall h, host <> (h ^^ "/")) ->
    let filename := oidc_metadata_issuer_to_filename ("https://" ^^ host) in
    oidc_metadata_filename_to_issuer (filename ^^ "." ^^ OIDC_METADATA_SUFFIX_PROVIDER) = Some ("https://" ^^ host) /\
    oidc_metadata_issuer_to_filename ("https://" ^^ host ^^ "/") = filename.
Proof.
  split.
  - unfold oidc_metadata_provider_file_path, oidc_metadata_file_path. eexists. split; [done|].
    destruct (filename_encoded issuer) as [p ->]. rewrite !str_forall_append. rewrite andb_true_iff. split; [|done].
    apply (str_forall_weaken url_char); [exact url_char_not_slash|apply url_encode_chars].
  - intros host Hn Hh. destruct (filename_of_https host Hh) as [-> ->]. cbv zeta. split; [|done].
    unfold oidc_metadata_filename_to_issuer. change ("." ^^ ?s) with (String "." s). rewrite strrchr_last by done. cbn [mbind option_bind].
    rewrite str_take_app. cbn [oidc_http_url_decode]. by rewrite url_decode_encode, cstr_id.
Qed.

(** ** The settings that a lookup returns *)

Section lookup.
Context {J : Jansson} {O : Jose} {B64 : Base64} {C : Cjose J} {D : Digest} {Zl : Zlib} {H : Httpd} {HS : HttpdSpec H} {E : CfgEnv C}.
Context {St : Type} {B : CacheBackend St} {Dk : Disk St}.
Variables (ext : nat -> env) (net : nat -> network) (rnd : nat -> rng) (c : oidc_cfg_t C).
Implicit Types p : oidc_provider_t.

Lemma static_config_wf (w : world St) p w' : provider_wf (primary c) ->
  oidc_provider_static_config ext net c w = Some (Some p, w') -> provider_wf p.
Proof.
  intros Hg. unfold oidc_provider_static_config. cbv zeta. destruct (_ || _); [unfold ret; by intros [= <- _]|].
  intros ([ok s] & w1 & _ & Es)%bind_inv. apply bind_inv in Es as (cached & w2 & _ & Es). apply bind_inv in Es as (j & w3 & _ & Es).
  destruct j as [j|]; [|done]. apply lift_inv in Es as [Ep _]. rewrite provider_copy_id in Ep. by eapply provider_parse_wf.
Qed.

Lemma lookup_wf issuer allow (w : world St) p w' : provider_wf (primary c) ->
  oidc_get_provider_for_issuer ext net rnd c issuer allow w = Some (Some p, w') -> provider_wf p.
Proof.
  intros Hg. unfold oidc_get_provider_for_issuer. intros (o & w1 & Es & El)%bind_inv. destruct o as [p0|]; [|done].
  apply static_config_wf in Es; [|done]. destruct (nonnull _); [by eapply metadata_get_wf|]. unfold ret in El. by injection El as <- _.
Qed.
End lookup.

(** C31: the lookup of the provider of an issuer always returns, and the settings that it returns are well-formed
    whatever the documents of the provider, of the registration and of the administrator say: each URL is one of http or
    https with a host, the algorithms are supported, numbers and enumerations are within their bounds.  All this needs is
    that the settings that hold for all providers are well-formed. *)
Theorem provider_lookup_wf {J : Jansson} {O : Jose} {B64 : Base64} {C : Cjose J} {D : Digest} {Zl : Zlib} {H : Httpd} {HS : HttpdSpec H}
  {E : CfgEnv C} {St : Type} {B : CacheBackend St} {Dk : Disk St} (ext : nat -> env) (net : nat -> network) (rnd : nat -> rng)
  (c : oidc_cfg_t C) (issuer : string) (allow_discovery : bool) (w : world St) :
  provider_wf (oidc_cfg_provider_get c) ->
  exists o w', oidc_get_provider_for_issuer ext net rnd c issuer allow_discovery w = Some (o, w') /\
    forall p, o = Some p -> provider_wf p.
Proof.
  intros Hg. destruct (total_provider_for_issuer ext net rnd c issuer allow_discovery w) as (o & w' & El). exists o, w'. split; [done|].
  intros p ->. by eapply lookup_wf.
Qed.

(** C32: with a metadata directory a lookup returns only a provider that says it is the issuer that was asked for
    (up to a trailing slash), has a valid authorization endpoint, and at which this client is registered; its
    metadata cannot be that of another issuer, neither from the file nor from the provider itself. *)
Theorem metadata_lookup_sound {J : Jansson} {O : Jose} {B64 : Base64} {C : Cjose J} {D : Digest} {Zl : Zlib} {H : Httpd} {E : CfgEnv C}
  {St : Type} {B : CacheBackend St} {Dk : Disk St} (ext : nat -> env) (net : nat -> network) (rnd : nat -> rng)
  (c : oidc_cfg_t C) (issuer : string) (allow_discovery : bool) (w : world St) (p : oidc_provider_t) (w' : world St) :
  oidc_cfg_metadata_dir_get c <> None ->
  oidc_get_provider_for_issuer ext net rnd c issuer allow_discovery w = Some (Some p, w') ->
  (exists iss, pv_issuer p = Some iss /\ same_issuer issuer iss) /\
  (exists url, pv_authorization_endpoint_url p = Some url /\ oidc_cfg_parse_is_valid_http_url (Some url) = None) /\
  is_Some (pv_client_id p).
Proof.
  intros Hd. unfold oidc_get_provider_for_issuer. intros (o & w1 & _ & El)%bind_inv. destruct o as [p0|]; [|done].
  destruct (oidc_cfg_metadata_dir_get c) as [dir|]; [|done]. cbn [nonnull] in El. by eapply metadata_get_named.
Qed.

(** What a provider returns as the secret of a client that registers itself is taken as a directive of the
    administrator: when it starts with [exec:], the rest is run as a command. *)
Theorem client_secret_evaluated {J : Jansson} {O : Jose} {B64 : Base64} {C : Cjose J} {D : Digest} {H : Httpd} {E : CfgEnv C}
  (c : oidc_cfg_t C) (j_client : json_t) (secret : string) (p p' : oidc_provider_t) :
  oidc_metadata_client_parse c j_client p = Some p' ->
  oidc_json_object_get_string (Some j_client) OIDC_METADATA_CLIENT_SECRET None = Some secret ->
  pv_client_secret p' = match oidc_cfg_parse_passphrase (Some secret) with
                        | inr s => s
                        | inl _ => pv_client_secret p
                        end.
Proof.
  intros Hp Hs. pose proof (conf_settings_keeps _ _ _ (client_parse_settings _ _ _ _ Hp)) as Hk.
  apply (f_equal snd) in Hk. cbn [kept snd] in Hk. rewrite Hk. unfold client_credentials. rewrite Hs. unfold metadata_set at 1. cbn [nonnull].
  unfold oidc_cfg_provider_client_secret_set, set_read. destruct (oidc_cfg_parse_passphrase (Some secret)); [|done].
  by apply (metadata_set_keeps pv_client_secret).
Qed.

(** Under FAPI 2.0 for all providers, a provider of the metadata directory expects ID tokens for the client
    that is configured for all providers, not for the one that is registered with it. *)
Theorem id_token_aud_of_primary {J : Jansson} {O : Jose} {B64 : Base64} {C : Cjose J} {D : Digest} {H : Httpd} {E : CfgEnv C}
  (c : oidc_cfg_t C) (p : oidc_provider_t) :
  oidc_cfg_provider_profile_get (primary c) = OIDC_PROFILE_FAPI20 -> pv_id_token_aud_values (primary c) = None ->
  pv_id_token_aud_values (oidc_metadata_conf_parse_id_token c None p) = Some [pv_client_id (primary c)].
Proof.
  intros Hp Ha. unfold oidc_metadata_conf_parse_id_token, oidc_proto_profile_id_token_aud_values_get, oidc_proto_profile_ops. cbv zeta.
  rewrite Hp. cbn [oidc_json_object_get_string_array oidc_json_object_get]. cbn. unfold oidc_profile_fapi20_id_token_aud_values,
    oidc_cfg_provider_id_token_aud_values_get. rewrite Ha. done.
Qed.

(** ** Witnesses *)

Section demo.
#[local] Existing Instances Model.jansson JoseModel.jose Base64Model.base64 CjoseModel.cjose CjoseModel.digest CjoseModel.zlib
  ExportModel.export HttpdModel.httpd CfgModel.cfg_env FilesModel.disk.
#[local] Instance demo_lookup_backend : CacheBackend (ShmCache.header * fs) := FilesModel.cache (B:=shm_backend 2048).

Definition demo_cfg (dir : option string) : oidc_cfg_t CjoseModel.cjose :=
  mk_cfg (mk_proto_cfg _ CjoseModel.cjose (pc_cache demo_rp_cfg) (pc_client demo_rp_cfg) (pc_http_timeout_long demo_rp_cfg)
      (pc_http_timeout_short demo_rp_cfg) (pc_outgoing_proxy demo_rp_cfg) None None None 0 (pc_redirect_uri demo_rp_cfg) dir
      oidc_cfg_provider_create)
    (demo_session_cfg 0) demo_state_cfg 0 None 0 0 (mk_remote_user_claim None None None) None (mk_scrub_cfg None None None None) None OIDC_CONFIG_POS_INT_UNSET None None OIDC_SAMESITE_COOKIE_LAX None None None 0 None.

Definition demo_files (issuer secret : string) : fs :=
  list_to_map [("/m/op.example.com.provider", (Model.dumps (Model.JObj [(OIDC_METADATA_ISSUER, Model.JStr issuer);
      (OIDC_METADATA_AUTHORIZATION_ENDPOINT, Model.JStr "https://op.example.com/auth");
      (OIDC_METADATA_END_SESSION_ENDPOINT, Model.JStr "ldap:op"); (OIDC_METADATA_BACKCHANNEL_LOGOUT_SUPPORTED, Model.JInt 7);
      (OIDC_METADATA_RESPONSE_TYPES_SUPPORTED, Model.JArr [Model.JStr "code"])]), 0));
    ("/m/op.example.com.client", (Model.dumps (Model.JObj [(OIDC_METADATA_CLIENT_ID, Model.JStr "me");
      (OIDC_METADATA_CLIENT_SECRET, Model.JStr secret)]), 0))].

Abbreviation demo_lookup issuer secret :=
  (oidc_get_provider_for_issuer (demo_id_clock 1010) (fun _ => demo_network "") demo_rnd (demo_cfg (Some "/m")) "https://op.example.com" false
     (mk_world demo_request (w_cache demo_jwks_world, demo_files issuer secret) 0)).
Definition named_client (o : option oidc_provider_t) : option (option string * option string) :=
  (fun p => (pv_client_id p, pv_client_secret p)) <$> o.

Lemma issuer_filename_roundtrip_witness :
  oidc_metadata_filename_to_issuer (oidc_metadata_issuer_to_filename ("https://" ^^ "op.example.com:8443/a b") ^^ "." ^^ OIDC_METADATA_SUFFIX_PROVIDER) =
    Some "https://op.example.com:8443/a b" /\
  oidc_metadata_issuer_to_filename ("https://" ^^ "op.example.com:8443/a b" ^^ "/") = "op.example.com%3A8443%2Fa%20b".
Proof.
  destruct (proj2 (issuer_filename_roundtrip (demo_cfg None) "") "op.example.com:8443/a b" eq_refl) as [E1 E2]; [|split; [exact E1|exact E2]].
  intros h Hh. pose proof (f_equal (str_drop (String.length h)) Hh) as E. rewrite str_drop_app in E.
  apply (f_equal String.length) in Hh. rewrite length_append in Hh. cbn [String.length] in Hh.
  replace (String.length h) with 22%nat in E by lia. discriminate E.
Defined.

(** The URL of another scheme and the number that is no boolean are not taken over. *)
Lemma provider_lookup_wf_witness : exists p w', demo_lookup "https://op.example.com/" "pw" = Some (Some p, w') /\ provider_wf p /\ named_client (Some p) = Some (Some "me", Some "pw").
Proof.
  destruct (provider_lookup_wf (HS:=HttpdModel.httpd_spec) (demo_id_clock 1010) (fun _ => demo_network "") demo_rnd (demo_cfg (Some "/m"))
    "https://op.example.com" false (mk_world demo_request (w_cache demo_jwks_world, demo_files "https://op.example.com/" "pw") 0)
    create_wf) as (o & w' & El & Hw).
  assert (E : (fun x => named_client x.1) <$> demo_lookup "https://op.example.com/" "pw" = Some (Some (Some "me", Some "pw")))
    by (vm_compute; reflexivity).
  rewrite El in E. cbn [fmap option_fmap option_map fst] in E. injection E as E. destruct o as [p|]; [|discriminate E].
  exists p, w'. split; [exact El|]. split; [by apply Hw|exact E].
Defined.

Lemma metadata_lookup_sound_witness : exists p w', demo_lookup "https://op.example.com/" "pw" = Some (Some p, w') /\
  exists iss, pv_issuer p = Some iss /\ same_issuer "https://op.example.com" iss.
Proof.
  pose proof (metadata_lookup_sound (demo_id_clock 1010) (fun _ => demo_network "") demo_rnd (demo_cfg (Some "/m"))
    "https://op.example.com" false (mk_world demo_request (w_cache demo_jwks_world, demo_files "https://op.example.com/" "pw") 0)) as Hs.
  assert (E : (fun x => named_client x.1) <$> demo_lookup "https://op.example.com/" "pw" = Some (Some (Some "me", Some "pw")))
    by (vm_compute; reflexivity).
  destruct (demo_lookup "https://op.example.com/" "pw") as [[[p|] w']|]; [|discriminate E..]. exists p, w'. split; [reflexivity|].
  exact (proj1 (Hs p w' ltac:(discriminate) eq_refl)).
Defined.

(** Metadata of another issuer is not used. *)
Example metadata_other_issuer : (fun x => named_client x.1) <$> demo_lookup "https://evil.example.com" "pw" = Some None.
Proof. vm_compute. reflexivity. Qed.

(** The command that a response names is run; here every command prints a secret. *)
Lemma client_secret_evaluated_witness : exists p,
  oidc_metadata_client_parse (demo_cfg None) (Model.JObj [(OIDC_METADATA_CLIENT_SECRET, Model.JStr "exec:/bin/sh")]) oidc_cfg_provider_create = Some p /\
  pv_client_secret p = Some "secret".
Proof.
  destruct (client_parse_total (HS:=HttpdModel.httpd_spec) (demo_cfg None) (Model.JObj [(OIDC_METADATA_CLIENT_SECRET, Model.JStr "exec:/bin/sh")])
    oidc_cfg_provider_create) as [p Ep]. exists p. split; [exact Ep|]. exact (client_secret_evaluated _ _ "exec:/bin/sh" _ _ Ep eq_refl).
Defined.
End demo.
