(* ===== verification/Request.v ===== *)
(** * src/handle/request.c: sending a user to the provider

    A request without a session becomes an authentication request: its state goes to the browser in an encrypted
    cookie, its parameters to the provider by a redirection, a form or a pushed request. *)

From S2P Require Import Prelude Cstr Apr StrUtil Jansson Json Http Html Form Url Cookie Base64 Jose Jwt Util ShmCache Cache World.
From S2P Require Import HttpClient Cjose Jwk Jwe JoseLib Jws Pkce Provider ProviderSet Profile JwtCheck Jwks IdToken ClientAuth Token ProtoState Response AuthRequest.
From S2P Require Import Session SessionAttr State Authz Scrub Files CfgParse Config AppInfo Dir Metadata MetadataConf ProviderLookup.
#[local] Open Scope Z_scope.

Definition OIDC_METHOD_GET : string := "get".
Definition OIDC_METHOD_FORM_POST : string := "form_post".
Definition OIDC_DISC_OP_PARAM : string := "iss".
Definition OIDC_DISC_USER_PARAM : string := "disc_user".
Definition OIDC_DISC_RM_PARAM : string := "method".
Definition OIDC_PROTO_NONCE_LENGTH : nat := 32.

(** What [apr_uri_parse] stores, also when it fails. *)
Class ApUri (H : Httpd) := {
  apr_uri_filled : string -> apr_uri_t;
  uri_filled_ok s u : apr_uri_parse s = Some u -> apr_uri_filled s = u
}.

#[local] Open Scope world_scope.

Section request.
Context {J : Jansson} {O : Jose} {B64 : Base64} {C : Cjose J} {CE : CjoseExport C} {D : Digest} {Zl : Zlib} {H : Httpd} {Ur : ApUri H}.
Context {E : CfgEnv C} {Mem : CryptoMemcmp} {X : ApExpr} {St : Type} {B : CacheBackend St} {Dk : Disk St}.
(** [post] is the body of the request and [template] the text of the template for preserving it. *)
Variables (ext : nat -> env) (net : nat -> network) (rnd : nat -> rng) (c : oidc_cfg_t C) (d : oidc_dir_cfg_t).
Variables (post : body) (template : option string).

Abbreviation x_forwarded := (oidc_cfg_x_forwarded_headers_get c).

(** [oidc_util_url_redirect_uri] for this configuration. *)
Definition redirect_uri_of (r : request) : option (option string) := oidc_util_url_redirect_uri r x_forwarded (pc_redirect_uri (cfg_proto c)).

(** ** The original request *)

Definition oidc_is_discovery_response (r : request) : bool :=
  oidc_util_url_has_parameter r OIDC_DISC_OP_PARAM || oidc_util_url_has_parameter r OIDC_DISC_USER_PARAM.

Definition oidc_original_request_method (r : request) (handle_discovery_response : bool) : option string :=
  matches ← (if handle_discovery_response then oidc_util_url_matches_redirect_uri r x_forwarded (pc_redirect_uri (cfg_proto c)) else Some false);
  Some (if (matches : bool) && oidc_is_discovery_response r then
          match oidc_util_url_parameter_get r OIDC_DISC_RM_PARAM with Some m => m | None => OIDC_METHOD_GET end
        else if oidc_cfg_dir_preserve_post_get d =? 0 then OIDC_METHOD_GET
        else if (r_method_number r =? M_POST) && nonnull (oidc_http_hdr_in_content_type_get r) &&
                (_oidc_strcmp (oidc_http_hdr_in_content_type_get r) (Some OIDC_HTTP_CONTENT_TYPE_FORM_ENCODED) =? 0)
        then OIDC_METHOD_FORM_POST else OIDC_METHOD_GET).

(** Whether the cookies set here are sent to the redirect URI. *)
Definition oidc_request_check_cookie_domain (r : request) (original_url : string) : option bool :=
  redirect_uri ← mjoin (redirect_uri_of r);
  let o_uri := apr_uri_filled original_url in
  let r_uri := apr_uri_filled redirect_uri in
  Some (if negb (_oidc_strnatcasecmp (uri_scheme o_uri) (uri_scheme r_uri) =? 0) &&
           (_oidc_strnatcasecmp (uri_scheme r_uri) (Some "https") =? 0) then false
        else match oidc_cfg_cookie_domain_get c with
             | None => oidc_util_hostname_endswith (uri_hostname o_uri) (uri_hostname r_uri)
             | Some domain => oidc_util_cookie_domain_valid (uri_hostname o_uri) (Some domain)
             end).

(** ** Preserving the parameters of a form, from src/handle/response.c *)

Definition preserve_pair (p : string * string) : string :=
  let q s := String "039" (s ^^ String "039" "") in q (oidc_http_url_encode (Some p.1)) ^^ ": " ^^ q (oidc_http_url_encode (Some p.2)).

(** [FALSE], or [TRUE] with the script, which is [None] when a page was made of the template. *)
Definition oidc_response_post_preserve_javascript (location : option string) : M St (option (option string)) :=
  if oidc_cfg_dir_preserve_post_get d =? 0 then ret None
  else
    r <- get_req ;;
    method <- lift (oidc_original_request_method r false) ;;
    if negb (_oidc_strcmp (Some method) (Some OIDC_METHOD_FORM_POST) =? 0) then ret None
    else
      '(ok, params, r) <- lift (oidc_util_read_post_params post r [] false None) ;;
      '_ <- put_req r ;;
      if negb (ok : bool) then ret None
      else
        let json := "{ " ^^ Cstr.join "," (map preserve_pair params) ^^ " }" in
        '(rc, r, _) <- lift (if nonnull (oidc_cfg_post_preserve_template_get c)
                             then oidc_util_html_send_in_template template r None (Some json) OIDC_POST_PRESERVE_ESCAPE_NONE
                                    location OIDC_POST_PRESERVE_ESCAPE_JAVASCRIPT
                             else Some (500, r, None)) ;;
        '_ <- put_req r ;;
        if rc =? OK then ret (Some None)
        else
          ret (Some (Some (
            "    <script type=" ^^ DQ ^^ "text/javascript" ^^ DQ ^^ ">" ^^ LF ^^
            "      function preserveOnLoad() {" ^^ LF ^^
            "        sessionStorage.setItem(" ^^ sq ^^ "mod_auth_openidc_preserve_post_params" ^^ sq ^^ ", JSON.stringify(" ^^ json ^^ "));" ^^ LF ^^
            "        " ^^ match location with
                          | Some l => "window.location=" ^^ sq ^^ default "(null)" (oidc_util_html_javascript_escape (Some l)) ^^ sq ^^ ";" ^^ LF
                          | None => ""
                          end ^^
            "      }" ^^ LF ^^
            "    </script>" ^^ LF))).

(** ** Sending the request *)

Definition oidc_request_form_post_param_add (p : string * string) : string :=
  "      <input type=" ^^ DQ ^^ "hidden" ^^ DQ ^^ " name=" ^^ DQ ^^ oidc_util_html_escape (Some p.1) ^^ DQ ^^
  " value=" ^^ DQ ^^ oidc_util_html_escape (Some p.2) ^^ DQ ^^ ">" ^^ LF.

Definition oidc_request_html_post (url : option string) (params : table) : string :=
  "    <p>Submitting Authentication Request...</p>" ^^ LF ^^
  "    <form method=" ^^ DQ ^^ "post" ^^ DQ ^^ " action=" ^^ DQ ^^ oidc_util_html_escape url ^^ DQ ^^ ">" ^^ LF ^^
  "      <p>" ^^ LF ^^
  Cstr.join "" (map oidc_request_form_post_param_add params) ^^
  "      </p>" ^^ LF ^^
  "    </form>" ^^ LF.

Definition oidc_request_auth_send_post (provider : oidc_provider_t) (params : params_t) : M St Z :=
  respond (fun r =>
    oidc_util_html_content_prep r OIDC_REQUEST_STATE_KEY_AUTHN_POST (Some "Submitting...") None
      (Some "HTMLFormElement.prototype.submit.call(document.forms[0])")
      (Some (oidc_request_html_post (oidc_cfg_provider_authorization_endpoint_url_get provider) (params_table params)))).

Definition oidc_request_auth_send_get (provider : oidc_provider_t) (params : params_t) : M St Z :=
  let authorization_request :=
    oidc_http_query_encoded_url (oidc_cfg_provider_authorization_endpoint_url_get provider) (Some (params_table params)) in
  preserved <- oidc_response_post_preserve_javascript authorization_request ;;
  match (preserved : option (option string)) with
  | None => respond (fun r => (HTTP_MOVED_TEMPORARILY, oidc_http_hdr_out_location_set r authorization_request))
  | Some javascript =>
      r <- get_req ;;
      if nonnull (oidc_request_state_get r OIDC_REQUEST_STATE_KEY_HTTP) then ret OK
      else
        respond (fun r => oidc_util_html_content_prep r OIDC_REQUEST_STATE_KEY_AUTHN_PRESERVE (Some "Preserving...") javascript
                            (Some "preserveOnLoad()") (Some "<p>Preserving...</p>"))
  end.

Definition oidc_request_auth (provider : oidc_provider_t) (login_hint redirect_uri state : option string) (proto_state : oidc_proto_state_t)
  (id_token_hint code_challenge auth_request_params path_scope : option string) : M St Z :=
  match oidc_cfg_provider_client_id_get provider with
  | None => ret HTTP_INTERNAL_SERVER_ERROR
  | Some _ =>
      params <- oidc_proto_request_auth_params_set ext net rnd (cfg_proto c) provider login_hint redirect_uri state proto_state id_token_hint
                  code_challenge auth_request_params path_scope ;;
      let method := oidc_proto_profile_auth_request_method_get provider in
      let finish rv := '_ <- (r <- get_req ;; put_req (oidc_http_hdr_err_out_add r OIDC_HTTP_HDR_CACHE_CONTROL "no-cache, no-store, max-age=0")) ;;
                       ret rv in
      if method =? OIDC_AUTH_REQUEST_METHOD_POST then rv <- oidc_request_auth_send_post provider params ;; finish rv
      else if method =? OIDC_AUTH_REQUEST_METHOD_PAR then
        rv <- oidc_proto_request_auth_push ext net rnd (cfg_proto c) provider params ;; finish rv
      else if method =? OIDC_AUTH_REQUEST_METHOD_GET then rv <- oidc_request_auth_send_get provider params ;; finish rv
      else ret HTTP_INTERNAL_SERVER_ERROR
  end.

(** ** Authenticating a user *)

(** Random text of [len] bytes. *)
Definition rand_str (len : nat) : M St (option string) :=
  fun w => Some (oidc_util_rand_str (rnd (w_calls w)) len, mk_world (w_req w) (w_cache w) (S (w_calls w))).
Definition oidc_proto_nonce_gen : M St (option string) := rand_str OIDC_PROTO_NONCE_LENGTH.

(** The state and the challenge of PKCE; [None] is an error.  Methods other than "none" have all their operations. *)
Definition pkce_prepare (provider : oidc_provider_t) : M St (option (option string * option string)) :=
  code <- lift (oidc_util_spaced_string_contains (Some (oidc_cfg_provider_response_type_get provider)) (Some OIDC_PROTO_CODE)) ;;
  let pkce := oidc_proto_profile_pkce_get provider in
  if (code : bool) && negb (String.eqb (pkce_method pkce) OIDC_PKCE_METHOD_NONE) then
    pkce_state <- (fun w => Some (gen ← Pkce.pkce_state pkce; gen (rnd (w_calls w)), mk_world (w_req w) (w_cache w) (S (w_calls w)))) ;;
    match (pkce_state : option string) with
    | None => ret None
    | Some s =>
        match (challenge ← pkce_challenge pkce; challenge s) with
        | None => ret None
        | Some code_challenge => ret (Some (Some s, Some code_challenge))
        end
    end
  else ret (Some (None, None)).

(** The state of the request; the original URL is already in it. *)
Definition proto_state_fill (provider : oidc_provider_t) (method nonce : string) (t : Z) (prompt pkce_state auth_request_params path_scope : option string)
  (proto_state : oidc_proto_state_t) : oidc_proto_state_t :=
  let opt (set : oidc_proto_state_t -> option string -> oidc_proto_state_t) v z := match v with Some _ => set z v | None => z end in
  let z := oidc_proto_state_set_original_method proto_state (Some method) in
  let z := oidc_proto_state_set_issuer z (oidc_cfg_provider_issuer_get provider) in
  let z := oidc_proto_state_set_response_type z (Some (oidc_cfg_provider_response_type_get provider)) in
  let z := oidc_proto_state_set_nonce z (Some nonce) in
  let z := oidc_proto_state_set_timestamp_now t z in
  let z := opt oidc_proto_state_set_response_mode (oidc_cfg_provider_response_mode_get provider) z in
  let z := opt oidc_proto_state_set_prompt prompt z in
  let z := opt oidc_proto_state_set_pkce_state pkce_state z in
  if nonnull (oidc_cfg_provider_check_session_iframe_get provider) then
    opt oidc_proto_state_set_path_scope path_scope (opt oidc_proto_state_set_auth_request_params auth_request_params z)
  else z.

(** The request to a provider that is known. *)
Definition authenticate_at (provider : oidc_provider_t) (original_url : string)
  (login_hint id_token_hint prompt auth_request_params path_scope : option string) : M St Z :=
  nonce <- oidc_proto_nonce_gen ;;
  match (nonce : option string) with
  | None => ret HTTP_INTERNAL_SERVER_ERROR
  | Some nonce =>
      pkce <- pkce_prepare provider ;;
      match (pkce : option (option string * option string)) with
      | None => ret HTTP_INTERNAL_SERVER_ERROR
      | Some (pkce_state, code_challenge) =>
          let proto_state := oidc_proto_state_set_original_url oidc_proto_state_new (Some original_url) in
          match oidc_proto_state_get_original_url proto_state with
          | None => ret HTTP_INTERNAL_SERVER_ERROR
          | Some _ =>
              r <- get_req ;;
              method <- lift (oidc_original_request_method r true) ;;
              t <- apr_time_now ext ;;
              let proto_state := proto_state_fill provider method nonce t prompt pkce_state auth_request_params path_scope proto_state in
              let state := oidc_state_browser_fingerprint (cfg_state c) r (Some nonce) in
              rc <- oidc_request_authorization_set_cookie ext (cfg_state c) (default "(null)" state) proto_state ;;
              if negb (rc =? OK) then ret rc
              else
                r <- get_req ;;
                ok <- lift (oidc_request_check_cookie_domain r original_url) ;;
                if negb (ok : bool) then ret HTTP_INTERNAL_SERVER_ERROR
                else
                  redirect_uri <- lift (redirect_uri_of r) ;;
                  oidc_request_auth provider login_hint redirect_uri state proto_state id_token_hint code_challenge auth_request_params path_scope
          end
      end
  end.

Definition oidc_request_authenticate_user (provider : option oidc_provider_t) (original_url : string)
  (login_hint id_token_hint prompt auth_request_params path_scope : option string) : M St Z :=
  match provider with
  | Some provider => authenticate_at provider original_url login_hint id_token_hint prompt auth_request_params path_scope
  | None =>
      if nonnull (oidc_cfg_metadata_dir_get c) then
        respond (fun r => (OK, with_user (Some "") (oidc_request_state_set r OIDC_REQUEST_STATE_KEY_DISCOVERY (Some ""))))
      else
        provider <- oidc_provider_static_config ext net c ;;
        match (provider : option oidc_provider_t) with
        | None => ret HTTP_INTERNAL_SERVER_ERROR
        | Some provider => authenticate_at provider original_url login_hint id_token_hint prompt auth_request_params path_scope
        end
  end.
End request.

(** ** Lemmas *)

Section request_lemmas.
Context {J : Jansson} {JS : JanssonSpec J} {O : Jose} {OS : JoseSpec O} {B64 : Base64} {BS : Base64Spec B64} {C : Cjose J} {H : Httpd}.

Lemma params_get_set t k k' v : params_get (params_set t k v) k' = if strcaseeq k k' then v else params_get t k'.
Proof. rewrite !params_get_head, params_values_set. by destruct (strcaseeq k k'). Qed.

Lemma params_get_some t k k' v : params_get (params_some k v t) k' = if strcaseeq k k' && nonnull v then v else params_get t k'.
Proof. destruct v; cbn [params_some nonnull]; [rewrite params_get_set, andb_true_r|rewrite andb_false_r]; done. Qed.

(** The parameters that bind the response to the browser and to the client. *)
Lemma own_params_get p login_hint redirect_uri state ps id_token_hint code_challenge path_scope k v :
  In (k, v) [(OIDC_PROTO_STATE, state); (OIDC_PROTO_CLIENT_ID, oidc_cfg_provider_client_id_get p); (OIDC_PROTO_REDIRECT_URI, redirect_uri);
             (OIDC_PROTO_NONCE, oidc_proto_state_get_nonce ps)] ->
  params_get (own_params p login_hint redirect_uri state ps id_token_hint code_challenge path_scope) k = v.
Proof.
  intros Hin. unfold own_params, oidc_proto_request_auth_scope_set. cbv zeta.
  repeat destruct Hin as [[= <- <-]|Hin]; [| | | |destruct Hin];
    destruct (nonnull code_challenge && _); repeat (rewrite params_get_some || rewrite params_get_set); try reflexivity;
    by destruct (oidc_proto_state_get_nonce ps).
Qed.

Lemma own_params_challenge p login_hint redirect_uri state ps id_token_hint code_challenge path_scope :
  nonnull code_challenge = true -> pkce_method (oidc_proto_profile_pkce_get p) <> OIDC_PKCE_METHOD_NONE ->
  params_get (own_params p login_hint redirect_uri state ps id_token_hint code_challenge path_scope) OIDC_PROTO_CODE_CHALLENGE = code_challenge.
Proof.
  intros Hc Hm%String.eqb_neq. unfold own_params. cbv zeta. rewrite Hc, Hm. cbn [andb negb].
  repeat (rewrite params_get_some || rewrite params_get_set). reflexivity.
Qed.

(** ** Random text and the state value *)

Lemma base64url_ascii s : str_forall base64url_char s = true -> is_ascii s = true.
Proof.
  induction s as [|a s IH]; [done|]. cbn [str_forall is_ascii]. intros [Ha Hs]%andb_true_iff. rewrite IH by done.
  rewrite andb_true_r. revert Ha. char_cases a.
Qed.

Lemma base64url_name s : str_forall base64url_char s = true -> str_forall name_char s = true.
Proof. apply str_forall_impl. intros a. char_cases a. Qed.

Lemma rand_str_text rand len v : (forall bytes, rand len = Some bytes -> length bytes = len) -> (0 < len)%nat ->
  oidc_util_rand_str rand len = Some v -> str_forall base64url_char v = true.
Proof.
  intros Hl H0 E. destruct (rand len) as [bytes|] eqn:Er.
  - destruct (rand_str_decodes rand len bytes H0 Er (Hl _ eq_refl)) as (v' & E' & Hc & _). congruence.
  - unfold oidc_util_rand_str, _oidc_util_rand_bytes in E. by rewrite Er in E.
Qed.

Lemma fingerprint_text c r nonce s : oidc_state_browser_fingerprint c r nonce = Some s -> str_forall base64url_char s = true.
Proof.
  unfold oidc_state_browser_fingerprint. destruct (Jose.oidc_jose_hash_bytes _ _) as [h|] eqn:Eh; [|done].
  destruct (base64url_encode_strip h (hash_nonempty _ _ _ Eh)) as (e & -> & _ & He & _). by intros [= <-].
Qed.

(** ** The state *)

Lemma proto_set_object ps k v : is_object ps -> is_object (oidc_proto_state_set_string_value ps k v).
Proof. apply object_set_object. Qed.

Lemma proto_get_timestamp_ne ps t k : k <> OIDC_PROTO_STATE_TIMESTAMP ->
  oidc_proto_state_get_string_value (oidc_proto_state_set_timestamp_now t ps) k = oidc_proto_state_get_string_value ps k.
Proof.
  intros Hne. unfold oidc_proto_state_get_string_value, oidc_proto_state_set_timestamp_now, oidc_json_object_set_new.
  by rewrite object_get_set_ne.
Qed.

Lemma timestamp_set_ne ps k v : k <> OIDC_PROTO_STATE_TIMESTAMP ->
  oidc_proto_state_get_timestamp (oidc_proto_state_set_string_value ps k v) = oidc_proto_state_get_timestamp ps.
Proof.
  intros Hne. unfold oidc_proto_state_get_timestamp, oidc_proto_state_set_string_value, oidc_json_object_set_new.
  by rewrite object_get_set_ne.
Qed.
End request_lemmas.

Section authenticate.
Context {J : Jansson} {JS : JanssonSpec J} {O : Jose} {OS : JoseSpec O} {B64 : Base64} {BS : Base64Spec B64} {C : Cjose J} {CE : CjoseExport C}.
Context {D : Digest} {Zl : Zlib} {H : Httpd} {HS : HttpdSpec H} {Ur : ApUri H} {E : CfgEnv C} {Mem : CryptoMemcmp} {MS : CryptoMemcmpSpec Mem}.
Context {X : ApExpr} {St : Type} {B : CacheBackend St} {Dk : Disk St}.
Variables (ext : nat -> env) (net : nat -> network) (rnd : nat -> rng) (c : oidc_cfg_t C) (d : oidc_dir_cfg_t).
Variables (post : body) (template : option string).
Implicit Types (w : world St).

(** Reading a member past the settings of others. *)
Ltac fill_get :=
  unfold oidc_proto_state_get_original_url, oidc_proto_state_get_nonce, oidc_proto_state_get_issuer, oidc_proto_state_get_pkce_state,
    oidc_proto_state_set_prompt, oidc_proto_state_set_pkce_state, oidc_proto_state_set_auth_request_params, oidc_proto_state_set_path_scope,
    oidc_proto_state_set_response_mode, oidc_proto_state_set_nonce, oidc_proto_state_set_response_type, oidc_proto_state_set_issuer,
    oidc_proto_state_set_original_method;
  repeat case_match;
  repeat first [rewrite proto_get_set_ne by done|rewrite proto_get_timestamp_ne by done|rewrite timestamp_set_ne by done].

Ltac fill_object := repeat apply object_set_object; done.

(** What the state carries is read back. *)
Lemma proto_state_filled provider method nonce t prompt pkce_state arp ps url (z := oidc_proto_state_set_original_url oidc_proto_state_new (Some url)) :
  oidc_proto_state_get_original_url z <> None -> str_forall base64url_char nonce = true ->
  let z' := proto_state_fill provider method nonce t prompt pkce_state arp ps z in
  is_object z' /\ oidc_proto_state_get_original_url z' = Some url /\ oidc_proto_state_get_nonce z' = Some nonce /\
  (forall s, oidc_cfg_provider_issuer_get provider = Some s -> json_utf8 s = true -> oidc_proto_state_get_issuer z' = Some s) /\
  ((forall s, pkce_state = Some s -> json_utf8 s = true) -> oidc_proto_state_get_pkce_state z' = pkce_state) /\
  (0 <= t <= INT64_MAX -> oidc_proto_state_get_timestamp z' = apr_time_from_sec (apr_time_sec t)).
Proof.
  intros Hu Hn z'. assert (Hz : is_object z) by apply proto_set_object, object_new.
  assert (Hurl : oidc_proto_state_get_original_url z = Some url).
  { unfold z, oidc_proto_state_get_original_url, oidc_proto_state_set_original_url in *.
    destruct (json_string url) as [j|] eqn:Ej.
    - unfold oidc_proto_state_get_string_value, oidc_proto_state_set_string_value, oidc_json_object_set_new. cbn [oidc_json_string].
      rewrite Ej, object_get_set_eq by (apply object_new || by apply utf8_ascii). by apply string_value.
    - destruct Hu. unfold oidc_proto_state_get_string_value, oidc_proto_state_set_string_value, oidc_json_object_set_new.
      cbn [oidc_json_string]. rewrite Ej. cbn [oidc_json_object_set]. unfold oidc_json_object_get, oidc_proto_state_new, oidc_json_object.
      cbn [mbind option_bind]. by rewrite object_get, object_items. }
  assert (Hpk : oidc_proto_state_get_string_value z OIDC_PROTO_STATE_PKCE_STATE = None).
  { unfold z, oidc_proto_state_set_original_url. rewrite proto_get_set_ne by done.
    unfold oidc_proto_state_get_string_value, oidc_json_object_get, oidc_proto_state_new, oidc_json_object.
    cbn [mbind option_bind]. by rewrite object_get, object_items. }
  clearbody z. unfold z', proto_state_fill. clear z'. split_and!.
  - repeat case_match; fill_object.
  - fill_get; exact Hurl.
  - fill_get; (apply proto_get_set_eq; [fill_object|by apply utf8_ascii|by apply utf8_ascii, base64url_ascii]).
  - intros s -> Hs. fill_get; (apply proto_get_set_eq; [fill_object|by apply utf8_ascii|done]).
  - intros Hs. destruct pkce_state as [s|]; [specialize (Hs s eq_refl)|]; fill_get; try exact Hpk;
      (apply proto_get_set_eq; [fill_object|by apply utf8_ascii|done]).
  - intros Ht. fill_get; (apply timestamp_set; [fill_object|done]).
Qed.

(** ** Sending *)

Lemma preserve_none location w w' :
  oidc_response_post_preserve_javascript c d post template location w = Some (None, w') -> w_req w' = w_req w.
Proof.
  unfold oidc_response_post_preserve_javascript. destruct (_ =? 0); [by intros [= <-]|].
  intros (r & w1 & [= <- <-] & E1)%bind_inv. apply bind_inv in E1 as (m & w2 & [_ ->]%lift_inv & E1).
  destruct (negb _); [by injection E1 as <-|].
  apply bind_inv in E1 as ([[ok params] r] & w3 & [Er ->]%lift_inv & E1).
  assert (r = w_req w) as ->.
  { unfold oidc_util_read_post_params, oidc_util_read_post_params_impl in Er. cbv zeta in Er.
    destruct (_ || _); [by simplify_eq|]. destruct (oidc_util_read post); [|by simplify_eq].
    destruct (oidc_util_read_form_encoded_params_impl _ _ _) as [[[] t]|]; [| |done]; cbn in Er; by simplify_eq. }
  apply bind_inv in E1 as (u & w4 & [= _ <-] & E1). destruct ok; cbn [negb] in E1; [|by injection E1 as <-].
  cbv zeta in E1. apply bind_inv in E1 as ([[rc r] x] & w5 & _ & E1). apply bind_inv in E1 as (u' & w6 & _ & E1).
  destruct (rc =? OK); by injection E1.
Qed.

(** A redirection carries the parameters to the authorization endpoint. *)
Lemma auth_send_get_redirects provider params w w' :
  oidc_request_auth_send_get c d post template provider params w = Some (HTTP_MOVED_TEMPORARILY, w') ->
  w_req w' = oidc_http_hdr_out_location_set (w_req w)
               (oidc_http_query_encoded_url (oidc_cfg_provider_authorization_endpoint_url_get provider) (Some (params_table params))).
Proof.
  unfold oidc_request_auth_send_get. cbv zeta. intros (p & w1 & E1 & E2)%bind_inv. destruct p as [js|].
  - apply bind_inv in E2 as (r & w2 & [= <- <-] & E2). destruct (nonnull _); [discriminate E2|].
    unfold respond, oidc_util_html_content_prep in E2. discriminate E2.
  - apply preserve_none in E1. unfold respond in E2. injection E2 as <-. cbn [w_req]. by rewrite E1.
Qed.

Lemma auth_params_set_run provider login_hint redirect_uri state ps id_token_hint code_challenge arp path_scope w :
  oidc_cfg_provider_request_object_get provider = None ->
  let own := own_params provider login_hint redirect_uri state ps id_token_hint code_challenge path_scope in
  exists params,
    oidc_proto_request_auth_params_set ext net rnd (cfg_proto c) provider login_hint redirect_uri state ps id_token_hint code_challenge
      arp path_scope w = Some (params, w) /\
    forall k v, params_get own k = Some v ->
      params_values params k = [Some v] \/ sets (params_of (oidc_cfg_provider_auth_request_params_get provider)) k.
Proof.
  intros Hr own. unfold oidc_proto_request_auth_params_set. fold own.
  destruct (auth_params_origin (w_req w) own (oidc_cfg_provider_auth_request_params_get provider) arp) as (p1 & a1 & a2 & p2 & E1 & E2 & Hk & _).
  { apply own_params_unique. }
  run (eq_refl : get_req w = Some (w_req w, w)).
  assert (R1 : lift (St:=St) (oidc_proto_request_auth_params_add (w_req w) own [] (oidc_cfg_provider_auth_request_params_get provider) true) w =
    Some ((p1, a1), w)) by (unfold lift; by rewrite E1).
  run R1.
  assert (R2 : lift (St:=St) (oidc_proto_request_auth_params_add (w_req w) p1 a1 arp false) w = Some ((p2, a2), w)) by (unfold lift; by rewrite E2).
  run R2. rewrite Hr. exists p2. split; [done|]. intros k v. by apply kept_values with a2.
Qed.

(** The verifier in the state and the challenge that is sent. *)
Lemma pkce_prepare_inv p v ch w w' : (forall k n bytes, rnd k n = Some bytes -> length bytes = n) ->
  In (oidc_proto_profile_pkce_get p) [oidc_pkce_plain; oidc_pkce_s256; oidc_pkce_none] ->
  pkce_prepare rnd p w = Some (Some (v, ch), w') ->
  w_req w' = w_req w /\ (forall s, v = Some s -> json_utf8 s = true) /\
  (v = None \/ ch = (s ← v; challenge ← pkce_challenge (oidc_proto_profile_pkce_get p); challenge s) /\
   pkce_method (oidc_proto_profile_pkce_get p) <> OIDC_PKCE_METHOD_NONE).
Proof.
  intros Hrnd Hin. unfold pkce_prepare. cbv zeta. intros (code & w1 & [_ ->]%lift_inv & E1)%bind_inv.
  destruct (code && negb _) eqn:Ec; [|injection E1 as <- <- <-; by split_and!; [..|left]].
  apply andb_true_iff in Ec as [_ Hm%negb_true_iff%String.eqb_neq].
  apply bind_inv in E1 as (s & w2 & [= Es <-] & E1). destruct s as [s|]; [|discriminate E1].
  destruct (challenge ← _; challenge s) as [cc|] eqn:Ech; [|discriminate E1]. injection E1 as <- <- <-. cbn [w_req].
  split; [done|]. split.
  - intros s' [= <-]. apply utf8_ascii, base64url_ascii. apply (rand_str_text (rnd (w_calls w)) OIDC_PROTO_CODE_VERIFIER_LENGTH).
    { exact (Hrnd _ _). } { cbv; lia. }
    revert Es. destruct Hin as [<-|[<-|[<-|[]]]]; by cbn.
  - right. cbn [mbind option_bind]. by rewrite Ech.
Qed.

(** [oidc_request_auth] by the method GET. *)
Lemma request_auth_redirects provider login_hint redirect_uri state ps id_token_hint code_challenge arp path_scope w w' :
  oidc_proto_profile_auth_request_method_get provider = OIDC_AUTH_REQUEST_METHOD_GET ->
  oidc_cfg_provider_request_object_get provider = None ->
  oidc_request_auth ext net rnd c d post template provider login_hint redirect_uri state ps id_token_hint code_challenge arp path_scope w =
    Some (HTTP_MOVED_TEMPORARILY, w') ->
  let own := own_params provider login_hint redirect_uri state ps id_token_hint code_challenge path_scope in
  set_cookies (w_req w') = set_cookies (w_req w) /\ is_Some (oidc_cfg_provider_client_id_get provider) /\
  exists params,
    oidc_http_hdr_out_location_get (w_req w') =
      oidc_http_hdr_value_sanitize <$>
        oidc_http_query_encoded_url (oidc_cfg_provider_authorization_endpoint_url_get provider) (Some (params_table params)) /\
    forall k v, params_get own k = Some v ->
      params_values params k = [Some v] \/ sets (params_of (oidc_cfg_provider_auth_request_params_get provider)) k.
Proof.
  intros Hm Hr E1 own. unfold oidc_request_auth in E1. destruct (oidc_cfg_provider_client_id_get provider); [|discriminate E1].
  destruct (auth_params_set_run provider login_hint redirect_uri state ps id_token_hint code_challenge arp path_scope w Hr) as (params & R & Hp).
  rewrite (bind_run _ _ _ _ _ R) in E1. cbv zeta in E1. rewrite Hm in E1.
  change (OIDC_AUTH_REQUEST_METHOD_GET =? OIDC_AUTH_REQUEST_METHOD_POST) with false in E1.
  change (OIDC_AUTH_REQUEST_METHOD_GET =? OIDC_AUTH_REQUEST_METHOD_PAR) with false in E1. rewrite Z.eqb_refl in E1.
  apply bind_inv in E1 as (rc & w1 & E1 & E2). apply bind_inv in E2 as (u & w2 & E2 & [= -> <-]).
  apply auth_send_get_redirects in E1.
  apply bind_inv in E2 as (r & w3 & [= <- <-] & [= _ <-]). cbn [w_req]. rewrite E1. split_and!; [|done|].
  - unfold set_cookies, oidc_http_hdr_err_out_add, apr_table_add. cbn. by rewrite List.filter_app, app_nil_r.
  - exists params. split; [|done]. unfold oidc_http_hdr_out_location_get, oidc_http_hdr_out_location_set, oidc_http_hdr_out_get, oidc_http_hdr_out_set.
    cbn. unfold oidc_http_hdr_table_set. destruct (oidc_http_query_encoded_url _ _); cbn; [by apply table_get_set_eq|by apply table_get_unset_eq].
Qed.
End authenticate.
