(* ===== verification/RequestProps.v ===== *)
(** * src/handle/request.c: properties

    An authentication request that is sent as a redirection: what it carries and what the browser keeps. *)

From S2P Require Import Prelude Cstr Apr StrUtil Jansson Json Http Html Form Url Cookie Base64 Jose Jwt Util ShmCache Cache World.
From S2P Require Import HttpClient Cjose Jwk Jwe JoseLib Jws Pkce Provider ProviderSet Profile JwtCheck Jwks IdToken IdTokenProps ClientAuth Token ProtoState Response AuthRequest.
From S2P Require Import Session SessionAttr State StateProps Authz Scrub Files CfgParse Config AppInfo Dir Metadata MetadataConf ProviderLookup MetadataSpec Request.
From coqutil Require Import Datatypes.RecordSetters.
Import TriangleBracketNotations.
#[local] Open Scope Z_scope.
#[local] Open Scope world_scope.
(** ** Properties *)

Lemma set_cookie_code {J : Jansson} {O : Jose} {B64 : Base64} {H : Httpd} {St : Type} ext c state ps rc (w w' : world St) :
  oidc_request_authorization_set_cookie ext c state ps w = Some (rc, w') -> rc = OK \/ rc = 500 \/ rc = 503.
Proof.
  unfold oidc_request_authorization_set_cookie. intros (r & w1 & _ & E)%bind_inv.
  destruct (oidc_proto_state_to_cookie _ _ _); [|injection E; auto]. apply bind_inv in E as (n & w2 & _ & E).
  cbv zeta in E. destruct (_ && _); [injection E; auto|].
  apply bind_inv in E as (a & w3 & _ & E). apply bind_inv in E as (u & w4 & _ & E). injection E; auto.
Qed.

(** Whatever way a request is sent, a redirection adds no cookie. *)
Section kept.
Context {J : Jansson} {O : Jose} {B64 : Base64} {C : Cjose J} {CE : CjoseExport C} {D : Digest} {Zl : Zlib} {H : Httpd} {Ur : ApUri H} {X : ApExpr}.
Context {St : Type} {B : CacheBackend St}.
Variables (ext : nat -> env) (net : nat -> network) (rnd : nat -> rng) (c : oidc_cfg_t C) (d : oidc_dir_cfg_t) (post : body) (template : option string).
Implicit Types (w : world St) (p : oidc_provider_t).

Lemma same_req_params_set p lh ru st ps ih cc arp sc :
  same_req (St:=St) (oidc_proto_request_auth_params_set ext net rnd (cfg_proto c) p lh ru st ps ih cc arp sc).
Proof.
  unfold oidc_proto_request_auth_params_set, oidc_proto_request_object_param_add, oidc_proto_request_uri_create, oidc_proto_request_object_create,
    oidc_proto_request_object_claims_set, oidc_proto_request_object_encrypt, oidc_proto_request_object_encryption_jwk_get,
    oidc_proto_request_object_encryption_jwk_by_type. cbv zeta. same_req_auto.
  intros w x w' E. by simplify_eq.
Qed.

Lemma push_redirects p params w w' : oidc_proto_request_auth_push ext net rnd (cfg_proto c) p params w = Some (HTTP_MOVED_TEMPORARILY, w') ->
  exists u, w_req w' = oidc_http_hdr_out_location_set (w_req w) u.
Proof.
  unfold oidc_proto_request_auth_push. destruct (oidc_cfg_provider_pushed_authorization_request_endpoint_url_get p).
  2:{ unfold AuthRequest.respond, oidc_util_html_send_error. intros E. repeat case_match; simplify_eq. }
  intros ([ok a] & w1 & E1 & E)%bind_inv. pose proof (same_req_auth ext rnd (cfg_proto c) _ _ _ _ _ _ _ _ _ _ _ E1) as R1.
  destruct ok; cbn [negb] in E; [|discriminate E]. apply bind_inv in E as (res & w2 & E2 & E).
  pose proof (same_req_post net (cfg_proto c) _ _ _ _ _ _ _ E2) as R2. destruct res as [res|]; [|discriminate E].
  destruct (oidc_json_decode_and_check_error _); [|discriminate E]. cbv zeta in E. unfold AuthRequest.respond in E. injection E as <-.
  cbn [w_req]. rewrite R2, R1. by eexists.
Qed.

Lemma request_auth_cookies p lh ru st ps ih cc arp sc w w' :
  oidc_request_auth ext net rnd c d post template p lh ru st ps ih cc arp sc w = Some (HTTP_MOVED_TEMPORARILY, w') ->
  set_cookies (w_req w') = set_cookies (w_req w).
Proof.
  unfold oidc_request_auth. destruct (oidc_cfg_provider_client_id_get p); [|discriminate].
  intros (params & w1 & E1 & E)%bind_inv. apply same_req_params_set in E1. cbv zeta in E.
  assert (Hf : forall (m : M St Z), (forall w2, m w1 = Some (HTTP_MOVED_TEMPORARILY, w2) -> exists u, w_req w2 = oidc_http_hdr_out_location_set (w_req w1) u) ->
    bind m (fun rv => '_ <- (r <- get_req ;; put_req (oidc_http_hdr_err_out_add r OIDC_HTTP_HDR_CACHE_CONTROL "no-cache, no-store, max-age=0")) ;; ret rv) w1
      = Some (HTTP_MOVED_TEMPORARILY, w') -> set_cookies (w_req w') = set_cookies (w_req w)).
  { intros m Hm (rv & w2 & E2 & E3)%bind_inv. apply bind_inv in E3 as (u & w3 & E3 & [= -> <-]). destruct (Hm w2 E2) as [u' Hu].
    apply bind_inv in E3 as (r & w4 & [= <- <-] & [= _ <-]). cbn [w_req]. rewrite Hu, E1.
    unfold set_cookies, oidc_http_hdr_err_out_add, apr_table_add. cbn. by rewrite List.filter_app, app_nil_r. }
  destruct (_ =? _); [|destruct (_ =? _); [|destruct (_ =? _); [|discriminate E]]]; revert E; apply Hf; intros w2 E2.
  - unfold oidc_request_auth_send_post, respond, oidc_util_html_content_prep in E2. discriminate E2.
  - by eapply push_redirects.
  - apply auth_send_get_redirects in E2. by eexists.
Qed.
End kept.

(** C7: a redirection to a provider and the state cookie set with it belong together: the nonce is fresh random text and the state
    value the fingerprint of this browser with it; the browser that presents this last cookie with that state value in time gets the original URL,
    the nonce, the issuer and the verifier back; and with that state value only a browser gets a state back which presents a cookie of that name
    whose nonce gives the state value as its fingerprint, within the timeout, and with this cookie it gets no other state.  When the request is sent
    in the URL (method GET, no request object), the URL of the provider carries, once and unchanged, the state value, the nonce, the client and the
    redirect URI, and the PKCE challenge of the verifier in the state, unless the static configuration sets such a parameter. *)
Theorem authentication_request_bound {J : Jansson} {JS : JanssonSpec J} {O : Jose} {OS : JoseSpec O} {B64 : Base64} {BS : Base64Spec B64}
  {C : Cjose J} {CE : CjoseExport C} {D : Digest} {Zl : Zlib} {H : Httpd} {HS : HttpdSpec H} {Ur : ApUri H} {Mem : CryptoMemcmp}
  {MS : CryptoMemcmpSpec Mem} {X : ApExpr} {St : Type} {B : CacheBackend St} (ext ext' : nat -> env) (net : nat -> network) (rnd : nat -> rng)
  (c : oidc_cfg_t C) (d : oidc_dir_cfg_t) (post : body) (template : option string) (p : oidc_provider_t) (url : string)
  (login_hint id_token_hint prompt arp path_scope : option string) (w w' : world St) :
  (forall k n bytes, rnd k n = Some bytes -> length bytes = n) ->
  In (oidc_proto_profile_pkce_get p) [oidc_pkce_plain; oidc_pkce_s256; oidc_pkce_none] ->
  (forall s, is_Some (Jose.oidc_jose_hash_bytes OIDC_JOSE_ALG_SHA256 s)) ->
  str_forall name_char (state_cookie_prefix (cfg_state c)) = true ->
  authenticate_at ext net rnd c d post template p url login_hint id_token_hint prompt arp path_scope w = Some (HTTP_MOVED_TEMPORARILY, w') ->
  exists nonce state ps cookie k,
    oidc_util_rand_str (rnd (w_calls w)) OIDC_PROTO_NONCE_LENGTH = Some nonce /\
    oidc_state_browser_fingerprint (cfg_state c) (w_req w) (Some nonce) = Some state /\
    (oidc_proto_profile_auth_request_method_get p = OIDC_AUTH_REQUEST_METHOD_GET -> oidc_cfg_provider_request_object_get p = None ->
     exists params,
       oidc_http_hdr_out_location_get (w_req w') =
         oidc_http_hdr_value_sanitize <$> oidc_http_query_encoded_url (oidc_cfg_provider_authorization_endpoint_url_get p) (Some (params_table params)) /\
       forall key v, In (key, Some v) [(OIDC_PROTO_STATE, Some state); (OIDC_PROTO_CLIENT_ID, oidc_cfg_provider_client_id_get p);
                        (OIDC_PROTO_REDIRECT_URI, mjoin (redirect_uri_of c (w_req w))); (OIDC_PROTO_NONCE, Some nonce);
                        (OIDC_PROTO_CODE_CHALLENGE, s ← oidc_proto_state_get_pkce_state ps; ch ← pkce_challenge (oidc_proto_profile_pkce_get p); ch s)] ->
         params_values params key = [Some v] \/ sets (params_of (oidc_cfg_provider_auth_request_params_get p)) key) /\
    last (map set_cookie_pair (set_cookies (w_req w'))) = Some (oidc_state_cookie_name (cfg_state c) state, cookie) /\
    oidc_proto_state_get_original_url ps = Some url /\ oidc_proto_state_get_nonce ps = Some nonce /\
    (forall s, oidc_cfg_provider_issuer_get p = Some s -> json_utf8 s = true -> oidc_proto_state_get_issuer ps = Some s) /\
    (0 <= now (ext k) <= INT64_MAX -> oidc_proto_state_get_timestamp ps = apr_time_from_sec (apr_time_sec (now (ext k)))) /\
    ((forall q, oidc_json_encode (Some ps) OIDC_JSON_COMPACT = Some q -> payload_ok (w_req w) q) ->
     (forall w2 : world St, oidc_http_get_cookie (w_req w2) (oidc_state_cookie_name (cfg_state c) state) = Some cookie ->
        oidc_state_browser_fingerprint (cfg_state c) (w_req w2) (Some nonce) = Some state ->
        (forall i, now (ext' i) <= oidc_proto_state_get_timestamp ps + apr_time_from_sec (state_timeout (cfg_state c))) ->
        exists w3, oidc_response_proto_state_restore ext' (cfg_state c) state w2 =
          Some ((true, Some (oidc_proto_state_set_state ps (Some state))), w3)) /\
     (forall (w2 w3 : world St) ps2, oidc_response_proto_state_restore ext' (cfg_state c) state w2 = Some ((true, Some ps2), w3) ->
        exists v ps0 i, oidc_http_get_cookie (w_req w2) (oidc_state_cookie_name (cfg_state c) state) = Some v /\
          oidc_proto_state_from_cookie (w_req w2) (st_passphrase (cfg_state c)) v = Some ps0 /\
          oidc_state_browser_fingerprint (cfg_state c) (w_req w2) (oidc_proto_state_get_nonce ps0) = Some state /\
          now (ext' i) <= oidc_proto_state_get_timestamp ps0 + apr_time_from_sec (state_timeout (cfg_state c)) /\
          ps2 = oidc_proto_state_set_state ps0 (Some state) /\ (v = cookie -> ps0 = ps))).
Proof.
  intros Hrnd Hin Hhash Hname E1. unfold authenticate_at in E1.
  apply bind_inv in E1 as (nonce & w1 & [= En <-] & E1). destruct nonce as [nonce|]; [|discriminate E1].
  apply bind_inv in E1 as (pk & w2 & Ek & E1). destruct pk as [[verifier challenge]|]; [|discriminate E1].
  destruct (pkce_prepare_inv _ _ _ _ _ _ Hrnd Hin Ek) as (Hw2 & Hv & Hpk). cbn [w_req] in Hw2.
  cbv zeta in E1. destruct (oidc_proto_state_get_original_url _) eqn:Eu in E1; [|discriminate E1].
  apply bind_inv in E1 as (r & w3 & [= <- <-] & E1). apply bind_inv in E1 as (m & w4 & [_ ->]%lift_inv & E1).
  apply bind_inv in E1 as (t & w5 & [= <- <-] & E1).
  assert (Hn : str_forall base64url_char nonce = true).
  { apply (rand_str_text (rnd (w_calls w)) OIDC_PROTO_NONCE_LENGTH); [exact (Hrnd _ _)|cbv; lia|done]. }
  rewrite Hw2 in E1.
  assert (exists state, oidc_state_browser_fingerprint (cfg_state c) (w_req w) (Some nonce) = Some state) as [state Hs].
  { unfold oidc_state_browser_fingerprint. cbv zeta. edestruct Hhash as [h Hh]. rewrite Hh.
    destruct (base64url_encode_strip h (hash_nonempty _ _ _ Hh)) as (e & -> & _). by eexists. }
  rewrite Hs in E1. cbn [default from_option id] in E1.
  destruct (proto_state_filled p m nonce (now (ext (w_calls w2))) prompt verifier arp path_scope url ltac:(by rewrite Eu) Hn)
    as (Ho & Hurl & Hnonce & Hiss & Hpkce & Ht).
  set (ps := proto_state_fill _ _ _ _ _ _ _ _ _) in *. clearbody ps.
  apply bind_inv in E1 as (rc & w6 & E6 & E1). destruct (rc =? OK) eqn:Erc; cbn [negb] in E1; [|by destruct (set_cookie_code _ _ _ _ _ _ _ E6) as [-> | [-> | ->]]].
  apply Z.eqb_eq in Erc as ->.
  assert (Hname' : str_forall name_char (oidc_state_cookie_name (cfg_state c) state) = true).
  { unfold oidc_state_cookie_name. rewrite str_forall_append, Hname. by eapply base64url_name, fingerprint_text. }
  destruct (set_cookie_last ext (cfg_state c) state ps _ w6 Hname' E6) as (cookie & Hck & Hlast). cbn [w_req] in Hck.
  apply bind_inv in E1 as (r & w7 & [= <- <-] & E1). apply bind_inv in E1 as (okd & w8 & [_ ->]%lift_inv & E1).
  destruct okd; cbn [negb] in E1; [|discriminate E1].
  apply bind_inv in E1 as (redirect_uri & w9 & [Hru ->]%lift_inv & E1).
  pose proof (request_auth_cookies _ _ _ _ _ _ _ _ _ _ _ _ _ _ _ _ _ _ E1) as Hc.
  pose proof (keeps_set_state_cookie _ _ _ _ _ _ _ E6) as Hk. cbn [w_req] in Hk.
  assert (redirect_uri_of c (w_req w6) = redirect_uri_of c (w_req w)) as Hru' by (by rewrite Hk).
  rewrite Hru' in Hru.
  exists nonce, state, ps, cookie, (w_calls w2). split_and!; try done.
  - intros Hm Hro. apply request_auth_redirects in E1 as (_ & _ & params & Hloc & Hpar); [|done|done]. exists params. split; [done|].
    intros key v Hin'. apply Hpar. specialize (Hpkce Hv). rewrite Hru in Hin'. cbn [mjoin option_join] in Hin'.
    repeat destruct Hin' as [[= <- Hval]|Hin']; [| | | | |destruct Hin'].
    1-4: rewrite <- Hval; apply own_params_get; rewrite Hnonce; cbn; tauto.
    rewrite Hpkce in Hval. destruct Hpk as [-> | [Hch Hne]]; [discriminate Hval|].
    rewrite Hch. rewrite own_params_challenge; [done| |done]. rewrite Hval. done.
  - by rewrite Hc.
  - intros Hq. assert (Hfrom : forall r, oidc_proto_state_from_cookie r (st_passphrase (cfg_state c)) cookie = Some ps).
    { intros r. eapply proto_state_cookie; [done| |exact Hck]. done. }
    split.
    + intros w2' Hck' Hfp Htime. eapply restore_run; [done|done|done|by rewrite Hnonce|done].
    + intros w2' w3 ps2 (v & ps0 & i & Hv' & Hps & Hfp & Ht' & -> & _)%restore_inv. exists v, ps0, i. split_and!; try done.
      intros ->. rewrite Hfrom in Hps. congruence.
Qed.

(** ** Witness *)

Section demo.
#[local] Existing Instances Model.jansson Model.jansson_spec JoseModel.jose JoseModel.jose_spec Base64Model.base64 Base64Model.base64_spec CjoseModel.cjose
  CjoseModel.digest CjoseModel.zlib ExportModel.export HttpdModel.httpd HttpdModel.httpd_spec ApExprModel.ap_expr demo_memcmp demo_memcmp_spec.
#[local] Instance demo_apr_uri : ApUri HttpdModel.httpd.
Proof. refine {| apr_uri_filled s := default (mk_uri None None None None) (apr_uri_parse s) |}. by intros s u ->. Defined.
#[local] Instance demo_request_backend : CacheBackend ShmCache.header := shm_backend 2048.

Definition demo_auth_cfg : oidc_cfg_t CjoseModel.cjose :=
  let cfg := demo_cfg None in
  mk_cfg (mk_proto_cfg _ CjoseModel.cjose (pc_cache demo_rp_cfg) demo_client_cfg (http_timeout demo_args) (http_timeout demo_args)
      (outgoing_proxy demo_args) None None None 0 (Some "https://www.example.com/redirect_uri") None oidc_cfg_provider_create)
    (cfg_session cfg) (cfg_state cfg) 0 None 0 0 (cfg_remote_user_claim cfg) None (cfg_scrub cfg) None 0 None None OIDC_SAMESITE_COOKIE_LAX None None None 0 None.
Definition demo_auth_op : oidc_provider_t :=
  (demo_op 0) <| pv_authorization_endpoint_url := Some "https://op/authorize" |> <| pv_auth_request_params := Some "prompt=login" |>
    <| pv_request_object := None |>.
Definition demo_form : body := mk_body true false 0 [].
Definition demo_authenticate : option (Z * world ShmCache.header) :=
  authenticate_at (demo_id_clock 1010) (fun _ => demo_network "") demo_rnd demo_auth_cfg oidc_cfg_dir_config_create demo_form None demo_auth_op
    "https://www.example.com/p?x=1" None None None None None demo_jwks_world.
Definition demo_authenticated : world ShmCache.header := match demo_authenticate with Some (_, w) => w | None => demo_jwks_world end.
Lemma demo_authenticate_ok : demo_authenticate = Some (302, demo_authenticated).
Proof.
  assert (E : fst <$> demo_authenticate = Some 302) by (vm_compute; reflexivity).
  unfold demo_authenticated. destruct demo_authenticate as [[rc w']|]; [|discriminate E]. injection E as ->. reflexivity.
Qed.

Lemma authentication_request_bound_witness : exists nonce state ps params cookie,
  oidc_util_rand_str (demo_rnd 0) OIDC_PROTO_NONCE_LENGTH = Some nonce /\
  oidc_http_hdr_out_location_get (w_req demo_authenticated) =
    oidc_http_hdr_value_sanitize <$> oidc_http_query_encoded_url (Some "https://op/authorize") (Some (params_table params)) /\
  last (map set_cookie_pair (set_cookies (w_req demo_authenticated))) = Some (oidc_state_cookie_name (cfg_state demo_auth_cfg) state, cookie) /\
  oidc_proto_state_get_original_url ps = Some "https://www.example.com/p?x=1".
Proof.
  destruct (authentication_request_bound (demo_id_clock 1010) (demo_id_clock 1010) (fun _ => demo_network "") demo_rnd demo_auth_cfg
    oidc_cfg_dir_config_create demo_form None demo_auth_op "https://www.example.com/p?x=1" None None None None None demo_jwks_world demo_authenticated)
    as (nonce & state & ps & cookie & k & En & _ & El & Ec & Eu & _).
  - intros k n bytes E. injection E as <-. apply repeat_length.
  - right; left. reflexivity.
  - intros s. eexists. reflexivity.
  - reflexivity.
  - exact demo_authenticate_ok.
  - destruct (El eq_refl eq_refl) as (params & Hl & _). exists nonce, state, ps, params, cookie.
    split; [exact En|]. split; [exact Hl|]. split; [exact Ec|exact Eu].
Defined.
End demo.
