(* ===== verification/Pass.v ===== *)
(** * src/mod_auth_openidc.c: what a request of a session gives to the application

    The checks that a session belongs to this host and has not lasted too long, the decision about a request without a
    session, and the tokens and claims that are passed on. *)

From S2P Require Import Prelude Cstr Apr StrUtil Jansson Json Http Html Form Url Cookie Base64 Jose Jwt Util ShmCache Cache World.
From S2P Require Import HttpClient Cjose Jwk Jwe JoseLib Jws Pkce Provider ProviderSet Profile JwtCheck Jwks IdToken ClientAuth Token ProtoState Response AuthRequest.
From S2P Require Import Session SessionAttr State Authz Scrub Files CfgParse Config AppInfo Dir Metadata MetadataConf ProviderLookup Request.
#[local] Open Scope Z_scope.

Definition OIDC_APP_INFO_REFRESH_TOKEN : string := "refresh_token".
Definition OIDC_APP_INFO_SCOPE : string := "scope".
Definition OIDC_APP_INFO_ACCESS_TOKEN : string := "access_token".
Definition OIDC_APP_INFO_ACCESS_TOKEN_TYPE : string := "access_token_type".
Definition OIDC_APP_INFO_ACCESS_TOKEN_EXP : string := "access_token_expires".
Definition OIDC_APP_INFO_ID_TOKEN : string := "id_token".
Definition OIDC_APP_INFO_ID_TOKEN_PAYLOAD : string := "id_token_payload".
Definition OIDC_HTTP_HDR_VAL_XML_HTTP_REQUEST : string := "XMLHttpRequest".
Definition OIDC_HTTP_HDR_VAL_NAVIGATE : string := "navigate".
Definition OIDC_HTTP_HDR_VAL_DOCUMENT : string := "document".
Definition OIDC_HTTP_CONTENT_TYPE_APP_XHTML_XML : string := "application/xhtml+xml".
Definition OIDC_HTTP_CONTENT_TYPE_ANY : string := "*/*".
Definition OIDC_REQUEST_STATE_KEY_IDTOKEN : string := "i".
Definition OIDC_REQUEST_STATE_KEY_CLAIMS : string := "c".
Definition OIDC_REQUEST_STATE_KEY_SCOPE : string := "sc".
Definition HTTP_GONE : Z := 410.
Definition HTTP_PROXY_AUTHENTICATION_REQUIRED : Z := 407.
Definition HTTP_UNAUTHORIZED : Z := 401.
Definition HTTP_BAD_GATEWAY : Z := 502.

(** The settings of scrubbing, of which the last two are those of the directory; httpd gives no [NULL] names. *)
Definition scrub_of {J : Jansson} {C : Cjose J} {H : Httpd} {X : ApExpr} (c : oidc_cfg_t C) (d : oidc_dir_cfg_t) : scrub_cfg :=
  mk_scrub_cfg (sc_claim_prefix (cfg_scrub c)) (sc_white_listed_claims (cfg_scrub c)) (oidc_cfg_dir_authn_header_get d)
    (match oidc_cfg_dir_strip_cookies_get d with Some l => Some (omap id l) | None => None end).

(** ** Requests that may be redirected *)

Definition oidc_is_auth_capable_request {H : Httpd} (r : request) : bool :=
  let differs value expected := nonnull value && negb (_oidc_strnatcasecmp value (Some expected) =? 0) in
  if nonnull (oidc_http_hdr_in_x_requested_with_get r) &&
     (_oidc_strnatcasecmp (oidc_http_hdr_in_x_requested_with_get r) (Some OIDC_HTTP_HDR_VAL_XML_HTTP_REQUEST) =? 0) then false
  else if differs (oidc_http_hdr_in_sec_fetch_mode_get r) OIDC_HTTP_HDR_VAL_NAVIGATE then false
  else if differs (oidc_http_hdr_in_sec_fetch_dest_get r) OIDC_HTTP_HDR_VAL_DOCUMENT then false
  else oidc_http_hdr_in_accept_contains r OIDC_HTTP_CONTENT_TYPE_TEXT_HTML ||
       oidc_http_hdr_in_accept_contains r OIDC_HTTP_CONTENT_TYPE_APP_XHTML_XML ||
       oidc_http_hdr_in_accept_contains r OIDC_HTTP_CONTENT_TYPE_ANY.

(** ** Passing *)

Section pass.
Context {J : Jansson} {B64 : Base64} {C : Cjose J} {H : Httpd} {X : ApExpr}.
Variables (c : oidc_cfg_t C) (d : oidc_dir_cfg_t).

Definition oidc_set_app_claims (r : request) (claims : option json_t) : request :=
  let pass_in := oidc_cfg_dir_pass_info_in_get d in
  if pass_in =? OIDC_APPINFO_PASS_NONE then r
  else oidc_util_appinfo_set_all r claims (oidc_cfg_claim_prefix_get (cfg_scrub c)) (oidc_cfg_claim_delimiter_get c) pass_in
         (oidc_cfg_dir_pass_info_encoding_get d).

(** The JSON values of the request state are a map next to the request. *)
Definition oidc_copy_tokens_to_request_state (r : request) (json : gmap string json_t) (session : oidc_session_t)
  : request * gmap string json_t :=
  let put k v json := match v with Some v => <[k := v]> json | None => json end in
  let json := put OIDC_REQUEST_STATE_KEY_IDTOKEN (oidc_session_get_idtoken_claims session) json in
  let json := put OIDC_REQUEST_STATE_KEY_CLAIMS (oidc_session_get_userinfo_claims session) json in
  (match oidc_session_get_scope session with
   | Some scope => oidc_request_state_set r OIDC_REQUEST_STATE_KEY_SCOPE (Some scope)
   | None => r
   end, json).

(** A token, when there is one and the directory allows it. *)
Definition pass_token (allowed : Z) (key : string) (value : option string) (r : request) : request :=
  if negb (allowed =? 0) && nonnull value then
    oidc_util_appinfo_set r key value OIDC_DEFAULT_HEADER_PREFIX (oidc_cfg_dir_pass_info_in_get d) (oidc_cfg_dir_pass_info_encoding_get d)
  else r.

(** The expiry of a session that is used at [t], and whether it is to be saved. *)
Definition extend_session (t : Z) (session : oidc_session_t) : oidc_session_t * bool :=
  let interval := apr_time_from_sec (oidc_cfg_session_inactivity_timeout_get c) in
  let slack := Z.quot interval 10 in
  let slack := if apr_time_from_sec 60 <? slack then apr_time_from_sec 60 else slack in
  if expiry session - t <? interval - slack then
    (mk_session (uuid session) (remote_user session) (state session) (t + interval) (sid session) (sub session), true)
  else (session, false).

(** The request, the session and [*needs_save]; [t] is the current time. *)
Definition oidc_session_pass_tokens (t : Z) (r : request) (session : oidc_session_t) (extend : bool) (needs_save : bool)
  : request * oidc_session_t * bool :=
  let access := oidc_cfg_dir_pass_access_token_get d in
  let r := pass_token (oidc_cfg_dir_pass_refresh_token_get d) OIDC_APP_INFO_REFRESH_TOKEN (oidc_session_get_refresh_token session) r in
  let r := pass_token access OIDC_APP_INFO_ACCESS_TOKEN (oidc_session_get_access_token session) r in
  let r := pass_token access OIDC_APP_INFO_ACCESS_TOKEN_TYPE (oidc_session_get_access_token_type session) r in
  let r := pass_token access OIDC_APP_INFO_ACCESS_TOKEN_EXP (oidc_session_get_access_token_expires2str session) r in
  let r := pass_token access OIDC_APP_INFO_SCOPE (oidc_session_get_scope session) r in
  let '(session, extended) := if extend then extend_session t session else (session, false) in
  let needs_save := needs_save || extended in
  if negb (oidc_session_get_session_new session =? 0) then (r, oidc_session_set_session_new session 0, true)
  else (r, session, needs_save).

Definition oidc_idtoken_pass_as (r : request) (session : oidc_session_t) : request :=
  let as_ := oidc_cfg_dir_pass_idtoken_as_get d in
  let set r key value := oidc_util_appinfo_set r key value OIDC_DEFAULT_HEADER_PREFIX (oidc_cfg_dir_pass_info_in_get d)
                           (oidc_cfg_dir_pass_info_encoding_get d) in
  if flag_set as_ OIDC_PASS_IDTOKEN_OFF then r
  else
    let claims := oidc_session_get_idtoken_claims session in
    let r := if flag_set as_ OIDC_PASS_IDTOKEN_AS_CLAIMS then oidc_set_app_claims r claims else r in
    let r := if flag_set as_ OIDC_PASS_IDTOKEN_AS_PAYLOAD
             then set r OIDC_APP_INFO_ID_TOKEN_PAYLOAD (oidc_json_encode claims (Z.lor OIDC_JSON_PRESERVE_ORDER OIDC_JSON_COMPACT)) else r in
    if flag_set as_ OIDC_PASS_IDTOKEN_AS_SERIALIZED then set r OIDC_APP_INFO_ID_TOKEN (oidc_session_get_idtoken session) else r.

(** ** The host of a session *)

Definition oidc_check_cookie_domain (r : request) (session : oidc_session_t) : option bool :=
  c_cookie_domain ← match oidc_cfg_cookie_domain_get c with
                    | Some domain => Some (Some domain)
                    | None => Some <$> oidc_util_url_cur_host r (oidc_cfg_x_forwarded_headers_get c)
                    end;
  let s_cookie_domain := oidc_session_get_cookie_domain session in
  Some (nonnull s_cookie_domain && (_oidc_strnatcasecmp c_cookie_domain s_cookie_domain =? 0)).
End pass.

#[local] Open Scope world_scope.

(** ** Requests without a session *)

Section unauthenticated.
Context {J : Jansson} {O : Jose} {B64 : Base64} {C : Cjose J} {CE : CjoseExport C} {D : Digest} {Zl : Zlib} {H : Httpd} {Ur : ApUri H}.
Context {E : CfgEnv C} {Mem : CryptoMemcmp} {X : ApExpr} {St : Type} {B : CacheBackend St} {Dk : Disk St}.
Variables (ext : nat -> env) (net : nat -> network) (rnd : nat -> rng) (c : oidc_cfg_t C) (d : oidc_dir_cfg_t).
Variables (post : body) (template : option string).

Definition oidc_handle_unauthenticated_user : M St Z :=
  r <- get_req ;;
  let action := oidc_cfg_dir_unauth_action_get d r in
  if action =? OIDC_UNAUTH_RETURN410 then ret HTTP_GONE
  else if action =? OIDC_UNAUTH_RETURN407 then ret HTTP_PROXY_AUTHENTICATION_REQUIRED
  else if action =? OIDC_UNAUTH_RETURN401 then ret HTTP_UNAUTHORIZED
  else if action =? OIDC_UNAUTH_PASS then respond (fun r => (OK, oidc_scrub_headers (scrub_of c d) (with_user (Some "") r)))
  else if (action =? OIDC_UNAUTH_AUTHENTICATE) && negb (oidc_cfg_dir_unauth_expr_is_set d) && negb (oidc_is_auth_capable_request r)
  then ret HTTP_UNAUTHORIZED
  else
    url <- lift (oidc_util_url_cur r (oidc_cfg_x_forwarded_headers_get c)) ;;
    oidc_request_authenticate_user ext net rnd c d post template None url None None None
      (oidc_cfg_dir_path_auth_request_params_get d r) (oidc_cfg_dir_path_scope_get d r).

(** The boolean, [*rc] and the session, which is gone when it has lasted too long. *)
Definition oidc_check_max_session_duration (session : oidc_session_t) : M St (bool * Z * oidc_session_t) :=
  let session_expires := oidc_session_get_session_expires session in
  t <- apr_time_now ext ;;
  if session_expires <? t then
    '(_, session) <- oidc_session_kill ext (cfg_session c) session ;;
    rc <- oidc_handle_unauthenticated_user ;;
    ret (false, rc, session)
  else ret (true, OK, session).
End unauthenticated.
