(* ===== verification/Refresh.v ===== *)
(** * src/handle/refresh.c: refreshing access tokens

    A refresh token is used once for all the workers that hold it: its result is cached, and who wants the same result
    meanwhile waits for it.  [others] is what the other workers do to the cache while this one does not hold the lock. *)

From S2P Require Import Prelude Cstr Apr StrUtil Jansson Json Http Html Form Url Cookie Base64 Jose Jwt Util ShmCache Cache World.
From S2P Require Import HttpClient Cjose Jwk Jwe JoseLib Jws Pkce Provider ProviderSet Profile JwtCheck Jwks IdToken ClientAuth Token ProtoState Response.
From S2P Require Import Session SessionAttr State Scrub Files CfgParse Config Metadata MetadataConf ProviderLookup.
#[local] Open Scope Z_scope.

Definition OIDC_REFRESH_TIMESTAMP : string := "ts".
Definition OIDC_REFRESH_LOCK_TTL : Z := 5.
Definition OIDC_REFRESH_CACHE_TTL : Z := 30.
Definition OIDC_REFRESH_LOCK_VALUE : string := "needstobelargerthanafewcharacters".
Definition OIDC_REFRESH_FAILED_LOCK_VALUE : string := "alsoneedstobelargerthanafewcharactersbutdifferent".
Definition OIDC_CACHE_SECTION_REFRESH_TOKEN : string := "e".

(** The results of a grant and when they were obtained. *)
Record grant := mk_grant { gr_tokens : tokens; gr_ts : Z }.
Definition no_tokens : tokens := mk_tokens None None None (-1) None None.

Inductive oidc_refresh_token_cache_result_t :=
  | OIDC_REFRESH_CACHE_SUCCESS (g : grant) | OIDC_REFRESH_CACHE_ERROR | OIDC_REFRESH_CACHE_ABORT.

#[local] Open Scope world_scope.

Section refresh.
Context {J : Jansson} {O : Jose} {B64 : Base64} {C : Cjose J} {CE : CjoseExport C} {D : Digest} {Zl : Zlib} {H : Httpd} {E : CfgEnv C}.
Context {St : Type} {B : CacheBackend St} {Dk : Disk St}.
Variables (ext : nat -> env) (net : nat -> network) (rnd : nat -> rng) (others : nat -> St -> St) (c : oidc_cfg_t C).

Definition oidc_cache_get_refresh_token := cache_get (St:=St) ext (pc_cache (cfg_proto c)) OIDC_CACHE_SECTION_REFRESH_TOKEN.
Definition oidc_cache_set_refresh_token := cache_set (St:=St) ext (pc_cache (cfg_proto c)) OIDC_CACHE_SECTION_REFRESH_TOKEN.

(** Other workers run. *)
Definition meanwhile : M St unit := fun w => Some (tt, mk_world (w_req w) (others (w_calls w) (w_cache w)) (S (w_calls w))).

(** ** The cached results *)

(** A member that is set when there is a value. *)
Definition opt_set (key : string) (v : option string) (json : json_t) : json_t :=
  match v with Some _ => oidc_json_object_set_new json key (oidc_json_string v) | None => json end.

Definition refresh_json (k : tokens) (ts : Z) : json_t :=
  let json := opt_set OIDC_PROTO_ACCESS_TOKEN (tk_access_token k) oidc_json_object in
  let json := opt_set OIDC_PROTO_TOKEN_TYPE (tk_token_type k) json in
  let json := oidc_json_object_set_new json OIDC_PROTO_EXPIRES_IN (Some (oidc_json_integer (tk_expires_in k))) in
  let json := opt_set OIDC_PROTO_ID_TOKEN (tk_id_token k) json in
  let json := opt_set OIDC_PROTO_REFRESH_TOKEN (tk_refresh_token k) json in
  oidc_json_object_set_new json OIDC_REFRESH_TIMESTAMP (Some (oidc_json_integer (apr_time_sec ts))).

Definition oidc_refresh_token_cache_set (refresh_token : string) (k : tokens) : M St Z :=
  ts <- apr_time_now ext ;;
  t <- apr_time_now ext ;;
  '_ <- oidc_cache_set_refresh_token (Some refresh_token) (oidc_json_encode (Some (refresh_json k ts)) OIDC_JSON_COMPACT)
          (t + apr_time_from_sec OIDC_REFRESH_CACHE_TTL) ;;
  ret ts.

(** A member that is there is taken over, also when it is not a string. *)
Definition oidc_refresh_token_cache_parse (s_json : string) (k : tokens) (ts : Z) : option grant :=
  json ← oidc_json_decode_object (Some s_json);
  let str key old := match oidc_json_object_get (Some json) key with Some v => oidc_json_string_value (Some v) | None => old end in
  Some (mk_grant
    (mk_tokens (str OIDC_PROTO_ID_TOKEN (tk_id_token k)) (str OIDC_PROTO_ACCESS_TOKEN (tk_access_token k)) (str OIDC_PROTO_TOKEN_TYPE (tk_token_type k))
       (match oidc_json_object_get (Some json) OIDC_PROTO_EXPIRES_IN with
        | Some v => clamp_int (oidc_json_integer_value (Some v))
        | None => tk_expires_in k
        end)
       (str OIDC_PROTO_REFRESH_TOKEN (tk_refresh_token k)) (tk_scope k))
    (match oidc_json_object_get (Some json) OIDC_REFRESH_TIMESTAMP with
     | Some v => apr_time_from_sec (oidc_json_integer_value (Some v))
     | None => ts
     end)).

Definition is_lock (s : option string) : bool := _oidc_strcmp s (Some OIDC_REFRESH_LOCK_VALUE) =? 0.
Definition is_failed (s : option string) : bool := _oidc_strcmp s (Some OIDC_REFRESH_FAILED_LOCK_VALUE) =? 0.

(** The value after at most [retries] pauses; the lock is not held during a pause. *)
Fixpoint poll_loop (refresh_token : string) (retries : nat) (s_json : option string) : M St (option string) :=
  match retries with
  | 0%nat => ret s_json
  | S retries =>
      if nonnull s_json && is_lock s_json then
        '_ <- meanwhile ;;
        '(_, s_json) <- oidc_cache_get_refresh_token (Some refresh_token) ;;
        poll_loop refresh_token retries s_json
      else ret s_json
  end.

(** The lock is free again at the end. *)
Definition oidc_refresh_token_cache_get (refresh_token : string) : M St oidc_refresh_token_cache_result_t :=
  let no_cache_found :=
    t <- apr_time_now ext ;;
    '_ <- oidc_cache_set_refresh_token (Some refresh_token) (Some OIDC_REFRESH_LOCK_VALUE) (t + apr_time_from_sec OIDC_REFRESH_LOCK_TTL) ;;
    ret OIDC_REFRESH_CACHE_ERROR in
  '_ <- meanwhile ;;
  '(_, s_json) <- oidc_cache_get_refresh_token (Some refresh_token) ;;
  s_json <- poll_loop refresh_token (Z.to_nat (OIDC_REFRESH_LOCK_TTL * 2)) s_json ;;
  match (s_json : option string) with
  | None => no_cache_found
  | Some s =>
      if is_failed (Some s) then ret OIDC_REFRESH_CACHE_ABORT
      else if is_lock (Some s) then no_cache_found
      else match oidc_refresh_token_cache_parse s no_tokens 0 with
           | None => no_cache_found
           | Some g => ret (OIDC_REFRESH_CACHE_SUCCESS g)
           end
  end.

(** ** The grant *)

(** [None] is [FALSE].  A request that failed leaves no tokens. *)
Definition oidc_refresh_token_grant_obtain_tokens (provider : oidc_provider_t) (refresh_token : string) : M St (option grant) :=
  rv <- oidc_refresh_token_cache_get refresh_token ;;
  match rv with
  | OIDC_REFRESH_CACHE_SUCCESS g => ret (Some g)
  | OIDC_REFRESH_CACHE_ABORT => ret None
  | OIDC_REFRESH_CACHE_ERROR =>
      response <- oidc_proto_token_refresh_request ext net rnd (cfg_proto c) provider refresh_token ;;
      '_ <- meanwhile ;;
      match (response : option tokens) with
      | Some k => ts <- oidc_refresh_token_cache_set refresh_token k ;; ret (Some (mk_grant k ts))
      | None =>
          '(_, s_recovered) <- oidc_cache_get_refresh_token (Some refresh_token) ;;
          match (s ← s_recovered; if is_lock (Some s) || is_failed (Some s) then None else oidc_refresh_token_cache_parse s no_tokens 0) with
          | Some g => ret (Some g)
          | None =>
              t <- apr_time_now ext ;;
              '_ <- oidc_cache_set_refresh_token (Some refresh_token) (Some OIDC_REFRESH_FAILED_LOCK_VALUE)
                      (t + apr_time_from_sec OIDC_REFRESH_CACHE_TTL) ;;
              ret None
          end
      end
  end.

Definition oidc_refresh_token_grant_id_token_sub_match (session : oidc_session_t) (jwt : oidc_jwt_t) : bool :=
  match oidc_json_string_value (claims ← oidc_session_get_idtoken_claims session; oidc_json_object_get (Some claims) OIDC_CLAIM_SUB) with
  | None => true
  | Some sub => _oidc_strcmp (Some sub) (p_sub (payload jwt)) =? 0
  end.

(** The session and [*new_id_token]. *)
Definition oidc_refresh_token_grant_apply_id_token (session : oidc_session_t) (provider : oidc_provider_t) (s_id_token : string)
  : M St (oidc_session_t * option string) :=
  jwt <- oidc_proto_idtoken_parse ext net (cfg_proto c) provider s_id_token None true ;;
  match (jwt : option oidc_jwt_t) with
  | None => ret (session, None)
  | Some jwt =>
      if negb (oidc_refresh_token_grant_id_token_sub_match session jwt) then ret (session, None)
      else
        r <- get_req ;;
        let session := if negb (oidc_cfg_store_id_token_get c =? 0) then oidc_session_set_idtoken session (Some s_id_token) else session in
        let session := oidc_session_set_idtoken_claims (cfg_session c) r session (Some (p_json (payload jwt))) in
        let session := if oidc_cfg_provider_session_max_duration_get provider =? 0
                       then oidc_session_set_session_expires session (oidc_util_apr_time_from_sec (p_exp (payload jwt))) else session in
        ret (session, Some s_id_token)
  end.

(** The boolean, the session, and the new access token with its type, and ID token. *)
Definition oidc_refresh_token_grant (session : oidc_session_t) (provider : oidc_provider_t)
  : M St (bool * oidc_session_t * (option string * option string * option string)) :=
  match oidc_session_get_refresh_token session with
  | None => ret (false, session, (None, None, None))
  | Some refresh_token =>
      g <- oidc_refresh_token_grant_obtain_tokens provider refresh_token ;;
      match (g : option grant) with
      | None => ret (false, session, (None, None, None))
      | Some g =>
          let k := gr_tokens g in
          let session := oidc_session_set_access_token session (tk_access_token k) in
          let session := oidc_session_set_access_token_type session (tk_token_type k) in
          t <- apr_time_now ext ;;
          let session := oidc_session_set_access_token_expires t session (tk_expires_in k) in
          let session := oidc_session_set_access_token_last_refresh session (gr_ts g) in
          let session := match tk_refresh_token k with Some _ => oidc_session_set_refresh_token session (tk_refresh_token k) | None => session end in
          let session := match tk_scope k with Some _ => oidc_session_set_scope session (tk_scope k) | None => session end in
          '(session, new_id_token) <- (match tk_id_token k with
                                       | Some s => oidc_refresh_token_grant_apply_id_token session provider s
                                       | None => ret (session, None)
                                       end) ;;
          ret (true, session, (tk_access_token k, tk_token_type k, new_id_token))
      end
  end.

(** The boolean, the session and [*needs_save]. *)
Definition oidc_refresh_access_token_before_expiry (session : oidc_session_t) (ttl_minimum : Z) (needs_save : bool)
  : M St (bool * oidc_session_t * bool) :=
  if ttl_minimum <? 0 then ret (true, session, needs_save)
  else
    let t_expires := oidc_session_get_access_token_expires session in
    if t_expires <=? 0 then ret (false, session, needs_save)
    else if negb (nonnull (oidc_session_get_refresh_token session)) then ret (false, session, needs_save)
    else
      let t_expires := t_expires - apr_time_from_sec ttl_minimum in
      t <- apr_time_now ext ;;
      if t <? t_expires then ret (true, session, needs_save)
      else
        provider <- oidc_get_provider_from_session ext net rnd c session ;;
        match (provider : option oidc_provider_t) with
        | None => ret (false, session, needs_save)
        | Some provider =>
            '(ok, session, _) <- oidc_refresh_token_grant session provider ;;
            ret (if ok : bool then (true, session, true) else (false, session, false))
        end.
End refresh.
