(* ===== verification/RefreshProps.v ===== *)
(** * src/handle/refresh.c: properties

    Refreshing ends whatever the other workers do, one request serves all of them, and it never changes whose session it is. *)

From S2P Require Import Prelude Cstr Apr StrUtil Jansson Json Http Html Form Url Cookie Base64 Jose Jwt Util ShmCache Cache World.
From S2P Require Import HttpClient Cjose Jwk Jwe JoseLib Jws Pkce Provider ProviderSet Profile JwtCheck Jwks IdToken IdTokenProps ClientAuth Token ProtoState Response.
From S2P Require Import Session SessionAttr SessionProps State Scrub Files CfgParse Config Metadata MetadataConf ProviderLookup MetadataSpec Refresh.
#[local] Open Scope Z_scope.
#[local] Open Scope world_scope.

(** ** Termination *)

Section total_refresh.
Context {J : Jansson} {O : Jose} {B64 : Base64} {C : Cjose J} {CE : CjoseExport C} {D : Digest} {Zl : Zlib} {H : Httpd} {HS : HttpdSpec H} {E : CfgEnv C}.
Context {St : Type} {B : CacheBackend St} {Dk : Disk St}.
Variables (ext : nat -> env) (net : nat -> network) (rnd : nat -> rng) (others : nat -> St -> St) (c : oidc_cfg_t C).

Lemma total_meanwhile : total (meanwhile others).
Proof. intros w. by eexists _, _. Qed.
Hint Resolve total_meanwhile : total.

Lemma total_poll rt n s : total (poll_loop ext others c rt n s).
Proof. revert s. induction n as [|n IH]; intros s; cbn [poll_loop]; unfold oidc_cache_get_refresh_token; total_auto. Qed.
Hint Resolve total_poll : total.

Lemma total_refresh_cache_get rt : total (oidc_refresh_token_cache_get ext others c rt).
Proof. unfold oidc_refresh_token_cache_get, oidc_cache_set_refresh_token, oidc_cache_get_refresh_token. cbv zeta. total_auto. Qed.
Hint Resolve total_refresh_cache_get : total.

Lemma total_refresh_cache_set rt k : total (oidc_refresh_token_cache_set ext c rt k).
Proof. unfold oidc_refresh_token_cache_set, oidc_cache_set_refresh_token. total_auto. Qed.
Hint Resolve total_refresh_cache_set : total.

Lemma total_refresh_request p rt : total (St:=St) (oidc_proto_token_refresh_request ext net rnd (cfg_proto c) p rt).
Proof. by apply total_token_request. Qed.
Hint Resolve total_refresh_request : total.

Lemma total_obtain p rt : total (oidc_refresh_token_grant_obtain_tokens ext net rnd others c p rt).
Proof. unfold oidc_refresh_token_grant_obtain_tokens, oidc_cache_set_refresh_token, oidc_cache_get_refresh_token. total_auto. Qed.
Hint Resolve total_obtain : total.

Lemma total_apply_id_token z p s : total (St:=St) (oidc_refresh_token_grant_apply_id_token ext net c z p s).
Proof. unfold oidc_refresh_token_grant_apply_id_token. cbv zeta. total_auto. Qed.
Hint Resolve total_apply_id_token : total.

Lemma total_refresh_grant z p : total (oidc_refresh_token_grant ext net rnd others c z p).
Proof. unfold oidc_refresh_token_grant. cbv zeta. total_auto. Qed.

(** The pauses: a wait makes two calls to the outside. *)
(** What the cache has for the token after the [n]-th pause, in which the other workers ran, and the world then. *)
Fixpoint look (rt : string) (n : nat) (w : world St) : option string * world St :=
  let '(_, v, st) := oidc_cache_get (ext (S (w_calls w))) (pc_cache (cfg_proto c)) (w_req w) OIDC_CACHE_SECTION_REFRESH_TOKEN (Some rt)
                       (others (w_calls w) (w_cache w)) in
  let w' := mk_world (w_req w) st (S (S (w_calls w))) in
  match n with 0%nat => (v, w') | S n => look rt n w' end.

Lemma look_run rt w : exists ok, meanwhile others w = Some (tt, mk_world (w_req w) (others (w_calls w) (w_cache w)) (S (w_calls w))) /\
  oidc_cache_get_refresh_token ext c (Some rt) (mk_world (w_req w) (others (w_calls w) (w_cache w)) (S (w_calls w))) =
    Some ((ok, (look rt 0 w).1), (look rt 0 w).2).
Proof.
  unfold meanwhile, oidc_cache_get_refresh_token, cache_get, look. cbn [w_calls w_req w_cache].
  destruct (oidc_cache_get _ _ _ _ _ _) as [[ok v] st]. by exists ok.
Qed.

Lemma look_S rt n w : look rt (S n) w = look rt 0 (look rt n w).2.
Proof.
  revert w. induction n as [|n IH]; intros w.
  - cbn [look]. by destruct (oidc_cache_get _ _ _ _ _ _) as [[? v] st].
  - assert (Em : forall m, look rt (S m) w = look rt m (look rt 0 w).2) by (intros m; cbn [look]; by destruct (oidc_cache_get _ _ _ _ _ _) as [[? v] st]).
    rewrite Em, IH. by rewrite Em.
Qed.

Lemma look_calls rt n w : w_calls (look rt n w).2 = (2 * S n + w_calls w)%nat.
Proof.
  revert w. induction n as [|n IH]; intros w; cbn [look]; destruct (oidc_cache_get _ _ _ _ _ _) as [[? v] st]; [done|]. rewrite IH. cbn [w_calls]. lia.
Qed.

(** Polling looks until there is no lock, or [k] times. *)
Lemma poll_look rt k n0 w : exists n, (n0 <= n <= n0 + k)%nat /\ (forall i, (n0 <= i < n)%nat -> is_lock (look rt i w).1 = true) /\
  (is_lock (look rt n w).1 = true -> n = (n0 + k)%nat) /\
  poll_loop ext others c rt k (look rt n0 w).1 (look rt n0 w).2 = Some (look rt n w).
Proof.
  revert n0. induction k as [|k IH]; intros n0; cbn [poll_loop].
  { exists n0. split; [lia|]. split; [lia|]. split; [lia|]. unfold ret. by destruct (look rt n0 w). }
  destruct (is_lock (look rt n0 w).1) eqn:El.
  - assert (nonnull (look rt n0 w).1 = true) as -> by by destruct (look rt n0 w).1. cbn [andb].
    destruct (look_run rt (look rt n0 w).2) as (ok & R1 & R2). unfold bind. rewrite R1, R2, <- look_S.
    destruct (IH (S n0)) as (n & Hn & Hi & He & R). exists n. split; [lia|]. split; [|split; [intros Hx; rewrite (He Hx); lia|exact R]].
    intros i Hi'. destruct (decide (i = n0)) as [->|]; [exact El|]. apply Hi. lia.
  - rewrite andb_false_r. exists n0. split; [lia|]. split; [lia|]. split; [by rewrite El|]. unfold ret. by destruct (look rt n0 w).
Qed.
End total_refresh.
#[export] Hint Resolve total_meanwhile total_refresh_grant : total.

(** ** The cached result *)

Section cached_result.
Context {J : Jansson} {JS : JanssonSpec J}.

Lemma opt_set_object key v json : is_object json -> is_object (opt_set key v json).
Proof. destruct v; [apply object_set_object|done]. Qed.

Lemma opt_set_ne key key' v json : key <> key' -> oidc_json_object_get (Some (opt_set key v json)) key' = oidc_json_object_get (Some json) key'.
Proof. intros Hne. destruct v; [|done]. unfold opt_set, oidc_json_object_set_new. by rewrite object_get_set_ne. Qed.

(** What the parser reads of it. *)
Lemma set_new_ne key key' v json : key <> key' ->
  oidc_json_object_get (Some (oidc_json_object_set_new json key v)) key' = oidc_json_object_get (Some json) key'.
Proof. intros Hne. unfold oidc_json_object_set_new. by rewrite object_get_set_ne. Qed.

Lemma opt_set_eq key v json : is_object json -> json_utf8 key = true -> (forall s, v = Some s -> json_utf8 s = true) ->
  oidc_json_object_get (Some json) key = None ->
  match oidc_json_object_get (Some (opt_set key v json)) key with Some j => oidc_json_string_value (Some j) | None => None end = v.
Proof.
  intros Ho Hk Hv Hn. destruct v as [s|]; unfold opt_set; [|by rewrite Hn].
  unfold oidc_json_object_set_new. cbn [oidc_json_string]. destruct (string_utf8 s (Hv s eq_refl)) as [j Ej]. rewrite Ej.
  rewrite object_get_set_eq by done. by apply string_value.
Qed.

(** Tokens whose text JSON can carry. *)
Definition tokens_ok (k : tokens) : Prop :=
  Forall (fun v => forall s, v = Some s -> json_utf8 s = true) [tk_id_token k; tk_access_token k; tk_token_type k; tk_refresh_token k] /\
  INT_MIN <= tk_expires_in k <= INT_MAX.

(** What another worker gets: everything but the scope. *)
Definition shared_grant (k : tokens) (ts : Z) : grant :=
  mk_grant (mk_tokens (tk_id_token k) (tk_access_token k) (tk_token_type k) (tk_expires_in k) (tk_refresh_token k) None)
    (apr_time_from_sec (apr_time_sec ts)).

Lemma refresh_json_object k ts : is_object (refresh_json k ts).
Proof. apply object_set_object; repeat first [apply opt_set_object|apply object_set_object]; apply object_new. Qed.

(** Reading a member past the others, and the type of what is left. *)
Ltac refresh_object := repeat first [apply opt_set_object|apply object_set_object]; apply object_new.
Ltac refresh_peel :=
  unfold refresh_json; cbv zeta;
  repeat first [rewrite opt_set_ne by done|rewrite set_new_ne by done];
  try apply object_get_new.

Lemma refresh_json_parse k ts s : tokens_ok k -> 0 <= ts <= INT64_MAX ->
  oidc_json_encode (Some (refresh_json k ts)) OIDC_JSON_COMPACT = Some s ->
  oidc_refresh_token_cache_parse s no_tokens 0 = Some (shared_grant k ts).
Proof.
  intros [Hs Hx] Ht He. unfold oidc_refresh_token_cache_parse.
  rewrite (encode_decode _ _ _ (refresh_json_object k ts) He). cbn [mbind option_bind].
  rewrite (list.Forall_cons _ _ _), (list.Forall_cons _ _ _), (list.Forall_cons _ _ _), (list.Forall_cons _ _ _) in Hs.
  destruct Hs as (H1 & H2 & H3 & H4 & _). pose proof (apr_time_sec_range ts Ht) as Hts. unfold shared_grant. do 2 f_equal; [f_equal|].
  - refresh_peel. apply opt_set_eq; [refresh_object|by apply utf8_ascii|done|refresh_peel].
  - refresh_peel. apply opt_set_eq; [refresh_object|by apply utf8_ascii|done|refresh_peel].
  - refresh_peel. apply opt_set_eq; [refresh_object|by apply utf8_ascii|done|refresh_peel].
  - refresh_peel. unfold oidc_json_object_set_new. rewrite object_get_set_eq by (refresh_object || by apply utf8_ascii).
    cbn [oidc_json_integer_value]. rewrite integer_value by (unfold INT64_MIN, INT64_MAX, INT_MIN, INT_MAX in *; lia).
    unfold clamp_int. destruct (Z.ltb_spec INT_MAX (tk_expires_in k)); [lia|]. by destruct (Z.ltb_spec (tk_expires_in k) INT_MIN); [lia|].
  - refresh_peel. apply opt_set_eq; [refresh_object|by apply utf8_ascii|done|refresh_peel].
  - unfold refresh_json, oidc_json_object_set_new. rewrite object_get_set_eq by (refresh_object || by apply utf8_ascii).
    cbn [oidc_json_integer_value]. by rewrite integer_value by (unfold INT64_MIN; lia).
Qed.
End cached_result.

(** ** Properties *)



(** ** Whose session it is *)

Section identity.
Context {J : Jansson} {JS : JanssonSpec J}.

(** Identifiers, user and expiry. *)
Definition identity (z : oidc_session_t) := (uuid z, remote_user z, expiry z, sid z, sub z).

Lemma json_set_identity z k v : identity (oidc_session_json_set z k v) = identity z.
Proof. unfold oidc_session_json_set, identity. destruct v; [done|]. by destruct (state z). Qed.

Lemma timestamp_identity z k t : identity (oidc_session_set_timestamp z k t) = identity z.
Proof. unfold oidc_session_set_timestamp, identity. by destruct (t <=? -1). Qed.

Lemma json_get_timestamp_ne z k k' t : k <> k' -> oidc_session_json_get (oidc_session_set_timestamp z k t) k' = oidc_session_json_get z k'.
Proof.
  intros Hne. unfold oidc_session_set_timestamp. destruct (t <=? -1); [done|].
  unfold oidc_session_json_get, oidc_json_object_set_new. cbn [set_state state]. by rewrite object_get_set_ne, get_or_new.
Qed.

(** A session with other tokens, but the same identity and claims. *)
Definition retokened (z z' : oidc_session_t) : Prop :=
  identity z' = identity z /\ oidc_session_get_idtoken_claims z' = oidc_session_get_idtoken_claims z /\ (session_wf z -> session_wf z').

Lemma retokened_refl z : retokened z z.
Proof. done. Qed.
Lemma retokened_trans z1 z2 z3 : retokened z1 z2 -> retokened z2 z3 -> retokened z1 z3.
Proof. intros (H1 & H2 & H3) (H4 & H5 & H6). split_and!; [congruence|congruence|auto]. Qed.

Lemma retokened_string z k v : k <> OIDC_SESSION_KEY_IDTOKEN_CLAIMS -> retokened z (oidc_session_set z k v).
Proof.
  intros Hne. split_and!; [apply json_set_identity| |by apply session_json_set_wf]. by apply session_json_get_set_ne.
Qed.

Lemma retokened_timestamp z k t : k <> OIDC_SESSION_KEY_IDTOKEN_CLAIMS -> retokened z (oidc_session_set_timestamp z k t).
Proof.
  intros Hne. split_and!; [apply timestamp_identity|by apply json_get_timestamp_ne|].
  intros Hz. unfold oidc_session_set_timestamp. destruct (t <=? -1); [done|]. apply object_set_object. by apply state_or_new.
Qed.
End identity.
#[local] Hint Resolve retokened_refl : core.

(** The subject that the claims of a session name. *)
Definition claims_sub {J : Jansson} (claims : option json_t) : option string :=
  oidc_json_string_value (c ← claims; oidc_json_object_get (Some c) OIDC_CLAIM_SUB).

(** C25: refreshing never changes whose session it is: identifiers, user and expiry stay, and the claims of the ID token are those
    of before, or of an ID token that is valid and has the same subject.  A refresh that fails leaves the session as it was. *)
Theorem refresh_keeps_subject {J : Jansson} {JS : JanssonSpec J} {O : Jose} {B64 : Base64} {C : Cjose J} {CE : CjoseExport C}
  {D : Digest} {Zl : Zlib} {H : Httpd} {E : CfgEnv C} {St : Type} {B : CacheBackend St} (ext : nat -> env) (net : nat -> network)
  (rnd : nat -> rng) (others : nat -> St -> St) (c : oidc_cfg_t C) (p : oidc_provider_t) (z z' : oidc_session_t) (ok : bool) out (w w' : world St) :
  session_wf z -> oidc_refresh_token_grant ext net rnd others c z p w = Some ((ok, z', out), w') ->
  identity z' = identity z /\ (ok = false -> z' = z) /\
  (oidc_session_get_idtoken_claims z' = oidc_session_get_idtoken_claims z \/
   exists s jwt w1 w2, oidc_proto_idtoken_parse ext net (cfg_proto c) p s None true w1 = Some (Some jwt, w2) /\
     oidc_session_get_idtoken_claims z' =
       Some (filter_claims_loop (cfg_session c) (oidc_json_object_iter (Some (p_json (payload jwt)))) oidc_json_object) /\
     forall u, claims_sub (oidc_session_get_idtoken_claims z) = Some u -> p_sub (payload jwt) = Some u).
Proof.
  intros Hz. unfold oidc_refresh_token_grant. destruct (oidc_session_get_refresh_token z) as [rt|]; [|intros [= <- <- _ _]; by split_and!; [..|left]].
  intros (g & w1 & _ & E1)%bind_inv. destruct g as [g|]; [|injection E1 as <- <- _ _; by split_and!; [..|left]]. cbv zeta in E1.
  apply bind_inv in E1 as (t & w2 & [= <- _] & E1). apply bind_inv in E1 as ([z1 idt] & w3 & E2 & [= <- <- _ _]).
  match type of E2 with context [oidc_refresh_token_grant_apply_id_token _ _ _ ?z0 _ _] => set (z0' := z0) in E2; assert (Hr : retokened z z0') end.
  { unfold z0'. repeat case_match; repeat (eapply retokened_trans; [|apply retokened_string; done]);
      (eapply retokened_trans; [|apply retokened_timestamp; done]); unfold oidc_session_set_access_token_expires;
      (case_match; [eapply retokened_trans; [|apply retokened_timestamp; done]|]);
      repeat (eapply retokened_trans; [|apply retokened_string; done]); apply retokened_refl. }
  clearbody z0'. destruct Hr as (Hi & Hc & Hw). specialize (Hw Hz).
  destruct (tk_id_token (gr_tokens g)) as [s|]; [|injection E2 as <- _ _; by split_and!; [..|left]].
  unfold oidc_refresh_token_grant_apply_id_token in E2. apply bind_inv in E2 as (jwt & w4 & Ep & E2).
  destruct jwt as [jwt|]; [|injection E2 as <- _ _; by split_and!; [..|left]].
  destruct (oidc_refresh_token_grant_id_token_sub_match z0' jwt) eqn:Es; cbn [negb] in E2; [|injection E2 as <- _ _; by split_and!; [..|left]].
  apply bind_inv in E2 as (r & w5 & [= <- <-] & E2). cbv zeta in E2.
  set (z2 := if negb (oidc_cfg_store_id_token_get c =? 0) then _ else z0') in E2.
  assert (H2 : retokened z0' z2) by (unfold z2; destruct (negb _); [by apply retokened_string|done]). clearbody z2. destruct H2 as (Hi2 & Hc2 & Hw2).
  set (z3 := oidc_session_set_idtoken_claims _ _ z2 _) in E2.
  assert (retokened z3 z1) as (Hi3 & Hc3 & _).
  { injection E2 as <- _ _. destruct (_ =? 0); [|done]. unfold oidc_session_set_session_expires. by apply retokened_timestamp. }
  clear E2. assert (Hsub : forall u, claims_sub (oidc_session_get_idtoken_claims z) = Some u -> p_sub (payload jwt) = Some u).
  { intros u Hu. unfold oidc_refresh_token_grant_id_token_sub_match in Es. rewrite Hc in Es. unfold claims_sub in Hu. rewrite Hu in Es.
    destruct (p_sub (payload jwt)) as [u'|]; [|discriminate Es]. apply Z.eqb_eq, strcmp_eq in Es. by subst. }
  assert (Hi4 : identity z3 = identity z2) by (unfold z3, oidc_session_set_idtoken_claims; case_match; [done|apply json_set_identity]).
  split; [congruence|]. split; [done|]. rewrite Hc3. unfold z3, oidc_session_set_idtoken_claims. case_match; [left; congruence|].
  right. exists s, jwt, w2, w4. split; [exact Ep|]. split; [|done].
  unfold oidc_session_set_filtered_claims, oidc_session_get_idtoken_claims. apply session_json_get_set_eq; [by auto|by apply utf8_ascii].
Qed.

(** ** Witnesses *)

Section demo.
#[local] Existing Instances Model.jansson Model.jansson_spec JoseModel.jose JoseModel.jose_spec Base64Model.base64 CjoseModel.cjose CjoseModel.digest CjoseModel.zlib
  ExportModel.export HttpdModel.httpd CfgModel.cfg_env FilesModel.disk.
#[local] Instance demo_refresh_backend : CacheBackend ShmCache.header := shm_backend 65536.

Definition demo_refresh_tokens : tokens := mk_tokens None (Some "at2") (Some "Bearer") 300 (Some "rt2") (Some "openid").
Definition demo_stored : world ShmCache.header :=
  match oidc_refresh_token_cache_set (demo_ext 1000000) (demo_cfg None) "rt1" demo_refresh_tokens demo_world with
  | Some (_, w) => w | None => demo_world end.
Definition demo_sharing : world ShmCache.header := mk_world demo_request (w_cache demo_stored) 0.


(** A worker that finds the results of another one in the cache. *)
Definition demo_refreshable : oidc_session_t :=
  oidc_session_set_refresh_token demo_session (Some "rt1").
Abbreviation demo_refresh := (oidc_refresh_token_grant (demo_ext 9000000) (fun _ => demo_network "") demo_rnd (fun _ st => st) (demo_cfg None) demo_refreshable (demo_op 0) demo_sharing).

(** Another worker holds the lock for ever: after ten pauses it is taken over. *)
Definition demo_locked (k : nat) (st : ShmCache.header) : ShmCache.header :=
  (oidc_cache_set (mk_env 9000000 true true) (pc_cache (cfg_proto (demo_cfg None))) demo_request OIDC_CACHE_SECTION_REFRESH_TOKEN (Some "rt")
     (Some OIDC_REFRESH_LOCK_VALUE) 99000000 st).2.


Example lock_taken_over : (fun x => (match x.1 with OIDC_REFRESH_CACHE_ERROR => true | _ => false end, w_calls x.2)) <$>
  oidc_refresh_token_cache_get (demo_ext 9000000) demo_locked (demo_cfg None) "rt" demo_sharing = Some (true, (24 + w_calls demo_sharing)%nat).
Proof. vm_compute. reflexivity. Qed.

Lemma refresh_keeps_subject_witness : exists z' out w', demo_refresh = Some ((true, z', out), w') /\
  identity z' = identity demo_refreshable /\ oidc_session_get_access_token z' = Some "at2" /\ oidc_session_get_refresh_token z' = Some "rt2".
Proof.
  assert (E : (fun x => (x.1.1.1, oidc_session_get_access_token x.1.1.2, oidc_session_get_refresh_token x.1.1.2)) <$> demo_refresh =
    Some (true, Some "at2", Some "rt2")) by (vm_compute; reflexivity).
  destruct demo_refresh as [[[[ok z'] out] w']|] eqn:Er; [|discriminate E]. cbn [fmap option_fmap option_map fst snd] in E. injection E as -> Ea Eb.
  exists z', out, w'. split; [reflexivity|].
  destruct (refresh_keeps_subject (demo_ext 9000000) (fun _ => demo_network "") demo_rnd (fun _ st => st) (demo_cfg None) (demo_op 0) demo_refreshable z' true
    out demo_sharing w' ltac:(reflexivity) Er) as (Hi & _). split; [exact Hi|]. split; [exact Ea|exact Eb].
Defined.
End demo.
