(* ===== verification/UserinfoHandle.v ===== *)
(** * src/handle/userinfo.c: the claims of a session

    Asking the userinfo endpoint when a user logs in and again later, keeping the claims in the session, and passing them to the
    application, also as a token that the module signs. *)

From S2P Require Import Prelude Cstr Apr StrUtil Jansson Json Http Html Form Url Cookie Base64 Jose Jwt Util ShmCache Cache World.
From S2P Require Import HttpClient Cjose Jwk Jwe JoseLib Jws Pkce Provider ProviderSet Profile JwtCheck Jwks IdToken ClientAuth Token ProtoState Response AuthRequest.
From S2P Require Import Session SessionAttr State Authz Scrub Files CfgParse Config AppInfo Dir Metadata MetadataConf ProviderLookup Request Pass Refresh Userinfo.
#[local] Open Scope Z_scope.

Definition OIDC_APP_INFO_USERINFO_JSON : string := "userinfo_json".
Definition OIDC_APP_INFO_USERINFO_JWT : string := "userinfo_jwt".
Definition OIDC_APP_INFO_SIGNED_JWT : string := "signed_jwt".
Definition OIDC_USERINFO_SIGNED_JWT_EXP_DEFAULT : Z := 60.
Definition OIDC_USERINFO_SIGNED_JWT_CACHE_TTL_DEFAULT : Z := -1.
Definition OIDC_USERINFO_SIGNED_JWT_CACHE_TTL_ENVVAR : string := "OIDC_USERINFO_SIGNED_JWT_CACHE_TTL".
Definition OIDC_CACHE_SECTION_USERINFO_SJWT : string := "u".

#[local] Open Scope world_scope.

Section userinfo_handle.
Context {J : Jansson} {O : Jose} {B64 : Base64} {C : Cjose J} {CE : CjoseExport C} {D : Digest} {Zl : Zlib} {H : Httpd} {E : CfgEnv C} {X : ApExpr}.
Context {St : Type} {B : CacheBackend St} {Dk : Disk St}.
Variables (ext : nat -> env) (net : nat -> network) (rnd : nat -> rng) (others : nat -> St -> St) (c : oidc_cfg_t C) (d : oidc_dir_cfg_t).

(** ** Keeping the claims *)

(** An endpoint that is set, and not disabled with an empty value. *)
Definition has_userinfo_endpoint (provider : oidc_provider_t) : bool :=
  nonnull (oidc_cfg_provider_userinfo_endpoint_url_get provider) &&
  negb (_oidc_strcmp (oidc_cfg_provider_userinfo_endpoint_url_get provider) (Some "") =? 0).

Definition oidc_userinfo_store_claims (session : oidc_session_t) (provider : oidc_provider_t) (userinfo_claims : option json_t)
  (userinfo_jwt : option string) : M St oidc_session_t :=
  let session :=
    match userinfo_claims with
    | Some _ =>
        let session := oidc_session_set_userinfo_claims (cfg_session c) session userinfo_claims in
        if negb (oidc_cfg_session_type_get c =? OIDC_SESSION_TYPE_CLIENT_COOKIE) then oidc_session_set_userinfo_jwt session userinfo_jwt
        else session
    | None => oidc_session_set_userinfo_jwt (oidc_session_set_userinfo_claims (cfg_session c) session None) None
    end in
  if -1 <? oidc_cfg_provider_userinfo_refresh_interval_get provider then
    t <- apr_time_now ext ;;
    ret (oidc_session_reset_userinfo_last_refresh t session)
  else ret session.

(** What is retrieved: the text ([None] is [NULL]), the claims and the token. *)
Definition retrieved : Type := option string * option json_t * option string.
Definition nothing : retrieved := (None, None, None).
Definition of_userinfo (u : option userinfo) (userinfo_jwt : option string) : retrieved :=
  match u with Some u => (ui_response u, Some (ui_claims u), userinfo_jwt) | None => (None, None, userinfo_jwt) end.

(** [session] is [None] when a user logs in; otherwise the session is returned, for its tokens may have been refreshed. *)
Definition oidc_userinfo_retrieve_claims (provider : oidc_provider_t) (access_token access_token_type : option string)
  (session : option oidc_session_t) (id_token_sub : option string) : M St (retrieved * option oidc_session_t) :=
  if negb (has_userinfo_endpoint provider) then ret (nothing, session)
  else if negb (nonnull access_token) then ret (nothing, session)
  else
    let id_token_sub :=
      match id_token_sub, session with
      | None, Some z =>
          match oidc_session_get_idtoken_claims z with
          | Some claims => (oidc_jose_get_string claims OIDC_CLAIM_SUB false None).2
          | None => None
          end
      | s, _ => s
      end in
    '(u, userinfo_jwt, response_code) <-
      oidc_proto_userinfo_request ext net rnd (cfg_proto c) provider id_token_sub access_token access_token_type None 0 ;;
    match (u : option userinfo), session with
    | Some _, _ => ret (of_userinfo u userinfo_jwt, session)
    | None, None => ret (of_userinfo None userinfo_jwt, session)
    | None, Some z =>
        if response_code =? 0 then ret (of_userinfo None userinfo_jwt, session)
        else if negb (response_code =? HTTP_UNAUTHORIZED) then ret (of_userinfo None userinfo_jwt, session)
        else
          '(ok, z, (token, token_type, _)) <- oidc_refresh_token_grant ext net rnd others c z provider ;;
          if negb (ok : bool) then ret (of_userinfo None userinfo_jwt, Some z)
          else
            '(u, userinfo_jwt, _) <- oidc_proto_userinfo_request ext net rnd (cfg_proto c) provider id_token_sub token token_type userinfo_jwt 0 ;;
            ret (of_userinfo u userinfo_jwt, Some z)
    end.

(** The boolean, the session and [*needs_save]. *)
Definition oidc_userinfo_refresh_claims (session : oidc_session_t) (needs_save : bool) : M St (bool * oidc_session_t * bool) :=
  let interval := oidc_session_get_userinfo_refresh_interval session in
  if interval <=? -1 then ret (true, session, needs_save)
  else
    provider <- oidc_get_provider_from_session ext net rnd c session ;;
    match (provider : option oidc_provider_t) with
    | None => ret (false, session, true)
    | Some provider =>
        if negb (has_userinfo_endpoint provider) then ret (true, session, needs_save)
        else
          let last_refresh := oidc_session_get_userinfo_last_refresh session in
          t <- apr_time_now ext ;;
          if t <=? last_refresh + apr_time_from_sec interval then ret (true, session, needs_save)
          else
            '(claims, userinfo_claims, userinfo_jwt, z) <-
              oidc_userinfo_retrieve_claims provider (oidc_session_get_access_token session) (oidc_session_get_access_token_type session)
                (Some session) None ;;
            session <- oidc_userinfo_store_claims (default session z) provider userinfo_claims userinfo_jwt ;;
            ret (match (claims : option string) with None => (false, session, false) | Some _ => (true, session, true) end)
    end.

(** ** Passing the claims *)

Definition oidc_userinfo_signed_jwt_cache_ttl (r : request) : Z :=
  _oidc_str_to_int (apr_table_get (subprocess_env r) OIDC_USERINFO_SIGNED_JWT_CACHE_TTL_ENVVAR) OIDC_USERINFO_SIGNED_JWT_CACHE_TTL_DEFAULT.

Definition oidc_cache_get_signed_jwt := cache_get (St:=St) ext (pc_cache (cfg_proto c)) OIDC_CACHE_SECTION_USERINFO_SJWT.
Definition oidc_cache_set_signed_jwt := cache_set (St:=St) ext (pc_cache (cfg_proto c)) OIDC_CACHE_SECTION_USERINFO_SJWT.

(** A claim that the claims of the user do not have. *)
Definition claim_missing (jwt : oidc_jwt_t) (key : string) : bool := negb (nonnull (oidc_json_object_get (Some (p_json (payload jwt))) key)).

(** The times and the identifier of a token that is not in the cache. *)
Definition signed_jwt_complete (session : oidc_session_t) (jwt : oidc_jwt_t) : M St oidc_jwt_t :=
  jwt <- (if claim_missing jwt OIDC_CLAIM_JTI
          then jti <- oidc_proto_jti_gen rnd ;; ret (set_claim OIDC_CLAIM_JTI (oidc_json_string jti) jwt) else ret jwt) ;;
  jwt <- (if claim_missing jwt OIDC_CLAIM_IAT
          then t <- apr_time_now ext ;; ret (set_claim OIDC_CLAIM_IAT (Some (oidc_json_integer (apr_time_sec t))) jwt) else ret jwt) ;;
  if claim_missing jwt OIDC_CLAIM_EXP then
    let access_token_expires := oidc_session_get_access_token_expires session in
    if 0 <? access_token_expires then ret (set_claim OIDC_CLAIM_EXP (Some (oidc_json_integer (apr_time_sec access_token_expires))) jwt)
    else
      t <- apr_time_now ext ;;
      ret (set_claim OIDC_CLAIM_EXP (Some (oidc_json_integer (apr_time_sec t + OIDC_USERINFO_SIGNED_JWT_EXP_DEFAULT))) jwt)
  else ret jwt.

(** When the token is forgotten. *)
Definition signed_jwt_expiry (ttl : Z) (jwt : oidc_jwt_t) : M St Z :=
  if ttl =? 0 then
    let exp := (oidc_json_object_get_int (Some (p_json (payload jwt))) OIDC_CLAIM_EXP 0).2 in
    if 0 <? exp then ret (apr_time_from_sec exp)
    else t <- apr_time_now ext ;; ret (t + apr_time_from_sec OIDC_USERINFO_SIGNED_JWT_EXP_DEFAULT)
  else t <- apr_time_now ext ;; ret (t + apr_time_from_sec ttl).

(** The key of the cache is the digest of the claims with the byte that ends the text. *)
Definition oidc_userinfo_create_signed_jwt (session : oidc_session_t) (claims : json_t) : M St (option string) :=
  match oidc_proto_jwt_create_from_first_pkey (oidc_cfg_private_keys_get c) false with
  | (true, Some jwk, Some jwt) =>
      r <- get_req ;;
      url <- lift (oidc_util_url_cur r (oidc_cfg_x_forwarded_headers_get c)) ;;
      let jwt := set_claim OIDC_CLAIM_AUD (oidc_json_string (Some url)) jwt in
      let jwt := set_claim OIDC_CLAIM_ISS (oidc_json_string (oidc_cfg_provider_issuer_get (oidc_cfg_provider_get c))) jwt in
      match oidc_json_merge (Some claims) (Some (p_json (payload jwt))) with
      | (true, Some json) =>
          let p := payload jwt in
          let jwt := mk_jwt (header jwt) (mk_payload json (p_str p) (p_iss p) (p_sub p) (p_exp p) (p_iat p)) (cjose_jws jwt) in
          let s_claims := oidc_json_encode (Some json) (Z.lor OIDC_JSON_PRESERVE_ORDER OIDC_JSON_COMPACT) in
          match oidc_jose_hash_and_base64url_encode OIDC_JOSE_ALG_SHA256 (default "" s_claims ^^ String "000" "") with
          | None => ret None
          | Some key =>
              let ttl := oidc_userinfo_signed_jwt_cache_ttl r in
              '(_, cached) <- (if -1 <? ttl then oidc_cache_get_signed_jwt (Some key) else ret (true, None)) ;;
              match (cached : option string) with
              | Some cser => ret (Some cser)
              | None =>
                  jwt <- signed_jwt_complete session jwt ;;
                  match oidc_proto_jwt_sign_and_serialize jwk jwt with
                  | None => ret None
                  | Some cser =>
                      if ttl <? 0 then ret (Some cser)
                      else
                        expiry <- signed_jwt_expiry ttl jwt ;;
                        '_ <- oidc_cache_set_signed_jwt (Some key) (Some cser) expiry ;;
                        ret (Some cser)
                  end
              end
          end
      | _ => ret None
      end
  | _ => ret None
  end.

Definition oidc_userinfo_appinfo_set (name : option string) (default_name : string) (value : option string) (r : request) : request :=
  oidc_util_appinfo_set r (default default_name name) value (if nonnull name then "" else OIDC_DEFAULT_HEADER_PREFIX)
    (oidc_cfg_dir_pass_info_in_get d) (oidc_cfg_dir_pass_info_encoding_get d).

Definition oidc_userinfo_pass_as_jwt (session : oidc_session_t) (name : option string) (r : request) : request :=
  if oidc_cfg_session_type_get c =? OIDC_SESSION_TYPE_CLIENT_COOKIE then r
  else match oidc_session_get_userinfo_jwt session with
       | None => r
       | Some jwt => oidc_userinfo_appinfo_set name OIDC_APP_INFO_USERINFO_JWT (Some jwt) r
       end.

Definition change_req (f : request -> request) : M St unit := r <- get_req ;; put_req (f r).

Definition oidc_userinfo_pass_entry (session : oidc_session_t) (claims : json_t) (p : oidc_pass_user_info_as_t) : M St unit :=
  if pui_type p =? OIDC_PASS_USERINFO_AS_CLAIMS then change_req (fun r => oidc_set_app_claims c d r (Some claims))
  else if pui_type p =? OIDC_PASS_USERINFO_AS_JSON_OBJECT then
    change_req (oidc_userinfo_appinfo_set (pui_name p) OIDC_APP_INFO_USERINFO_JSON
                  (oidc_json_encode (Some claims) (Z.lor OIDC_JSON_PRESERVE_ORDER OIDC_JSON_COMPACT)))
  else if pui_type p =? OIDC_PASS_USERINFO_AS_JWT then change_req (oidc_userinfo_pass_as_jwt session (pui_name p))
  else if pui_type p =? OIDC_PASS_USERINFO_AS_SIGNED_JWT then
    cser <- oidc_userinfo_create_signed_jwt session claims ;;
    match (cser : option string) with
    | Some _ => change_req (oidc_userinfo_appinfo_set (pui_name p) OIDC_APP_INFO_SIGNED_JWT cser)
    | None => ret tt
    end
  else ret tt.

(** For the build without jq, which would filter the claims. *)
Definition oidc_userinfo_resolve_claims (session : oidc_session_t) : option json_t := oidc_session_get_userinfo_claims session.

Fixpoint pass_entries (session : oidc_session_t) (claims : json_t) (l : list oidc_pass_user_info_as_t) : M St unit :=
  match l with
  | [] => ret tt
  | p :: l => '_ <- oidc_userinfo_pass_entry session claims p ;; pass_entries session claims l
  end.

Definition oidc_userinfo_pass_as (session : oidc_session_t) : M St unit :=
  match oidc_userinfo_resolve_claims session with
  | None => ret tt
  | Some claims => pass_entries session claims (oidc_cfg_dir_pass_userinfo_as_get d)
  end.
End userinfo_handle.
