(* ===== verification/Outcome.v ===== *)
(** * Outcomes of computations

    What holds after a computation of a request: [outcome bad m Q w] says that from [w] the computation [m] either gives a
    result and a world of which [Q] holds, or runs into a behaviour that is not defined, and then [bad] holds. *)

From S2P Require Import Prelude World.
#[local] Open Scope world_scope.

Definition outcome {St A} (bad : Prop) (m : M St A) (Q : A -> world St -> Prop) (w : world St) : Prop :=
  match m w with Some (a, w') => Q a w' | None => bad end.

Section outcome.
Context {St : Type} (bad : Prop).
Implicit Types w : world St.

Lemma outcome_ret {A} (a : A) (Q : A -> world St -> Prop) w : Q a w -> outcome bad (ret a) Q w.
Proof. done. Qed.

Lemma outcome_bind {A B} (m : M St A) (f : A -> M St B) Q w :
  outcome bad m (fun a w1 => outcome bad (f a) Q w1) w -> outcome bad (bind m f) Q w.
Proof. unfold outcome, bind. by destruct (m w) as [[a w1]|]. Qed.

Lemma outcome_mono {A} (m : M St A) (Q Q' : A -> world St -> Prop) w :
  outcome bad m Q w -> (forall a w', m w = Some (a, w') -> Q a w' -> Q' a w') -> outcome bad m Q' w.
Proof. unfold outcome. destruct (m w) as [[a w']|]; [|done]. intros HQ H. by apply H. Qed.

Lemma outcome_total {A} (m : M St A) (Q : A -> world St -> Prop) w :
  total m -> (forall a w', m w = Some (a, w') -> Q a w') -> outcome bad m Q w.
Proof. intros Ht H. destruct (Ht w) as (a & w' & E). unfold outcome. rewrite E. by apply H. Qed.

(** The first step of a sequence always returns. *)
Lemma outcome_step {A B} (m : M St A) (f : A -> M St B) Q w :
  total m -> (forall a w1, m w = Some (a, w1) -> outcome bad (f a) Q w1) -> outcome bad (bind m f) Q w.
Proof. intros Ht H. apply outcome_bind, outcome_total; [exact Ht|exact H]. Qed.

Lemma outcome_run {A} (m : M St A) (Q : A -> world St -> Prop) w a w' :
  outcome bad m Q w -> m w = Some (a, w') -> Q a w'.
Proof. unfold outcome. intros H E. by rewrite E in H. Qed.

Lemma outcome_bad {A} (bad' : Prop) (m : M St A) (Q : A -> world St -> Prop) w : outcome bad m Q w -> (bad -> bad') -> outcome bad' m Q w.
Proof. unfold outcome. destruct (m w) as [[a w']|]; auto. Qed.

Lemma total_outcome {A} (m : M St A) w : total m -> outcome bad m (fun _ _ => True) w.
Proof. intros Ht. by apply outcome_total. Qed.
End outcome.

(** Step over a computation that always returns, keeping the equation. *)
Ltac step a w E := apply outcome_step; [solve [auto with total|total_auto]|intros a w E; cbv beta].
