(* ===== verification/Returns.v ===== *)
(** * What always returns, and what leaves the request as it is

    Sessions, cookies, states and pages need no fuel that could run out: each computation has a result in every world.
    Looking up a provider does not touch the request. *)

From S2P Require Import Prelude Cstr Apr StrUtil Jansson Json Http Html Form Url Cookie Base64 Jose Jwt Util ShmCache Cache World.
From S2P Require Import HttpClient Cjose Jwk Jwe JoseLib Jws Pkce Provider ProviderSet Profile JwtCheck Jwks IdToken ClientAuth Token ProtoState Response AuthRequest.
From S2P Require Import Session SessionAttr State StateProps Scrub Files CfgParse Config Metadata MetadataConf MetadataProps ProviderLookup Request Outcome.
#[local] Open Scope Z_scope.
#[local] Open Scope world_scope.

(** ** Requests and pages *)

Section pages.
Context {St : Type}.

Lemma total_put_req r : total (St:=St) (put_req r).
Proof. intros w. by eexists _, _. Qed.

Lemma total_respond f : total (St:=St) (respond f).
Proof. intros w. unfold respond. destruct (f (w_req w)) as [rc r]. by eexists _, _. Qed.

(** A template with as many directives as it may have can be filled. *)
Lemma psprintf_enough tpl : forall args n, format_count tpl = Some n -> (n <= length args)%nat -> is_Some (psprintf tpl args).
Proof.
  induction tpl as [tpl IH] using (well_founded_induction (well_founded_ltof _ String.length)). intros args n Hn Hl.
  destruct tpl as [|a tpl]; [by eexists|]. cbn [format_count psprintf] in *.
  destruct (Ascii.eqb a "%"); cbn [negb] in *.
  - destruct tpl as [|b tpl]; [done|]. destruct (Ascii.eqb b "%").
    + destruct (IH tpl) with (args := args) (n := n) as [s ->]; [by unfold ltof; cbn; lia|done|done|]. by eexists.
    + destruct (Ascii.eqb b "s"); [|done]. destruct (format_count tpl) as [m|] eqn:Em; [|done]. injection Hn as <-.
      destruct args as [|s args]; [cbn in Hl; lia|]. destruct (IH tpl) with (args := args) (n := m) as [t ->]; [by unfold ltof; cbn; lia|done|cbn in Hl; lia|].
      by eexists.
  - destruct (IH tpl) with (args := args) (n := n) as [s ->]; [by unfold ltof; cbn; lia|done|done|]. by eexists.
Qed.

Lemma total_template read r static a1 e1 a2 e2 : total (St:=St) (lift (oidc_util_html_send_in_template read r static a1 e1 a2 e2)).
Proof.
  apply total_lift. unfold oidc_util_html_send_in_template.
  destruct (match static with Some _ => _ | None => _ end) as [tpl|]; [|by eexists].
  unfold oidc_util_template_format_valid. destruct (format_count tpl) as [n|] eqn:En; [|by eexists].
  destruct (Nat.eqb_spec n (if nonnull a2 then 2 else 1)) as [E|]; [|by eexists]. cbn [negb].
  match goal with |- context [psprintf tpl ?l] => destruct (psprintf_enough tpl l n En) as [html ->] end;
    [subst n; destruct (nonnull a2); cbn; lia|]. cbn [mbind option_bind].
  destruct (oidc_util_http_content_prep _ _ _ _) as [rc r']. by eexists.
Qed.

Lemma total_redirect_uri {J : Jansson} {C : Cjose J} {H : Httpd} {HS : HttpdSpec H} (c : oidc_cfg_t C) r : total (St:=St) (lift (redirect_uri_of c r)).
Proof. apply total_lift, redirect_uri_total. Qed.

Lemma total_url_abs {H : Httpd} r x u : total (St:=St) (lift (oidc_util_url_abs r x u)).
Proof. apply total_lift, redirect_uri_total. Qed.

Lemma total_url_cur {H : Httpd} r x : total (St:=St) (lift (oidc_util_url_cur r x)).
Proof. apply total_lift, url_cur_total. Qed.

Lemma total_cur_host {H : Httpd} r x : total (St:=St) (lift (Some <$> oidc_util_url_cur_host r x)).
Proof. apply total_lift. destruct (cur_host_total r x) as [h ->]. by eexists. Qed.
End pages.
#[export] Hint Resolve total_put_req total_respond total_template total_redirect_uri total_url_abs total_url_cur total_cur_host : total.

(** ** Cookies in chunks *)

Section chunks.
Context {H : Httpd} (c : cookie_cfg).

Lemma set_cookie_some r n v ex a : is_Some (oidc_http_set_cookie c r n v ex a).
Proof.
  unfold oidc_http_set_cookie, oidc_util_url_cur_is_secure. destruct (cur_scheme_total r (x_forwarded_headers c)) as (s & -> & _). by eexists.
Qed.

Lemma clear_loop_some r n k i ex a : is_Some (clear_loop c r n k i ex a).
Proof. revert r i. induction k as [|k IH]; intros r i; cbn [clear_loop]; [by eexists|]. destruct (set_cookie_some r (oidc_http_get_chunk_cookie_name n i) "" ex a) as [r' ->]. apply IH. Qed.

Lemma set_loop_some r n k i p sz ex a : is_Some (set_chunks_loop c r n k i p sz ex a).
Proof.
  revert r i p. induction k as [|k IH]; intros r i p; cbn [set_chunks_loop]; [by eexists|].
  destruct (set_cookie_some r (oidc_http_get_chunk_cookie_name n i) (str_take sz p) ex a) as [r' ->]. apply IH.
Qed.

Lemma chunked_some r n v ex sz a : is_Some (oidc_http_set_chunked_cookie c r n v ex sz a).
Proof.
  assert (Hs : forall r n v, exists r', oidc_http_set_cookie c r n v ex a = Some r') by (intros; apply set_cookie_some).
  assert (Hc : forall r, exists r', oidc_http_clear_chunked_cookie c r n ex a = Some r').
  { intros r0. unfold oidc_http_clear_chunked_cookie. destruct (0 <? _); [|by eexists].
    destruct (clear_loop_some r0 n (Z.to_nat (oidc_http_get_chunked_count r0 n)) 0 ex a) as [r1 ->]. apply Hs. }
  unfold oidc_http_set_chunked_cookie. cbv zeta. destruct (_ || _); [|destruct (_ =? 0); [|destruct (_ <? _); [by eexists|]]].
  - destruct (Hs r n (default "(null)" v)) as [r1 ->]. cbn [mbind option_bind]. destruct (Hc r1) as [r2 ->]. by eexists.
  - destruct (Hs r n "") as [r1 ->]. cbn [mbind option_bind]. destruct (Hc r1) as [r2 ->]. by eexists.
  - match goal with |- context [set_chunks_loop c r n ?k 0 ?p ?s ex a] => destruct (set_loop_some r n k 0 p s ex a) as [r1 ->] end.
    cbn [mbind option_bind]. match goal with |- context [oidc_http_set_cookie c r1 ?m ?v ex a] => destruct (Hs r1 m v) as [r2 ->] end.
    cbn [mbind option_bind]. destruct (Hs r2 n "") as [r3 ->]. by eexists.
Qed.
End chunks.

(** ** Sessions *)

Section sessions.
Context {J : Jansson} {O : Jose} {B64 : Base64} {H : Httpd} {St : Type} {B : CacheBackend St}.
Variables (ext : nat -> env) (rnd : nat -> rng) (c : session_cfg).

Lemma total_session_save z ft : total (St:=St) (oidc_session_save ext c z ft).
Proof.
  unfold oidc_session_save. apply total_bind; [|intros [rc z']].
  - unfold oidc_session_save_cache, save_index, oidc_cache_set_sid, oidc_cache_get_sid, oidc_cache_set_session, oidc_session_cookie_samesite. total_auto.
  - destruct (_ || _); [|total_auto]. apply total_bind; [|intros ?; total_auto]. unfold oidc_session_save_cookie, oidc_session_cookie_samesite.
    apply total_bind; [total_auto|intros r]. destruct (state z') as [j|].
    + destruct (oidc_session_encode c r z' true) as [s|]; [|total_auto]. apply total_bind; [total_auto|intros a w].
      destruct (chunked_some (s_cookie c) (w_req w) (dir_cookie c) (Some s) (cookie_expiry c z') (session_cookie_chunk_size c) a) as [[ok r'] ->]. by eexists _, _.
    + apply total_bind; [total_auto|intros a w].
      destruct (chunked_some (s_cookie c) (w_req w) (dir_cookie c) (Some "") (cookie_expiry c z') (session_cookie_chunk_size c) a) as [[ok r'] ->]. by eexists _, _.
Qed.
Hint Resolve total_session_save : total.

Lemma total_session_kill z : total (St:=St) (oidc_session_kill ext c z).
Proof. unfold oidc_session_kill. total_auto. Qed.
Hint Resolve total_session_kill : total.

Lemma total_session_reset z : total (St:=St) (oidc_session_reset ext rnd c z).
Proof.
  unfold oidc_session_reset, oidc_cache_set_session. apply total_bind; [total_auto|intros ?]. intros w. by eexists _, _.
Qed.

Lemma total_session_load : total (St:=St) (oidc_session_load ext rnd c).
Proof.
  unfold oidc_session_load, oidc_session_load_cache, oidc_session_load_cache_by_uuid, oidc_session_extract, oidc_cache_get_session, oidc_cache_set_session.
  total_auto; try (intros w; by eexists _, _).
Qed.
End sessions.
#[export] Hint Resolve total_session_save total_session_kill total_session_reset total_session_load : total.

(** ** States *)

Lemma total_restore {J : Jansson} {X : Jose} {B64 : Base64} {H : Httpd} {Mem : CryptoMemcmp} {St : Type} ext c s :
  total (St:=St) (oidc_response_proto_state_restore ext c s).
Proof. unfold oidc_response_proto_state_restore. cbv zeta. total_auto. Qed.
#[export] Hint Resolve total_restore : total.

(** ** What leaves the request as it is *)

Section same_req_meta.
Context {J : Jansson} {O : Jose} {B64 : Base64} {C : Cjose J} {CE : CjoseExport C} {D : Digest} {Zl : Zlib} {H : Httpd} {E : CfgEnv C}.
Context {St : Type} {B : CacheBackend St} {Dk : Disk St}.
Variables (ext : nat -> env) (net : nat -> network) (rnd : nat -> rng) (c : oidc_cfg_t C).

Ltac raw := let w := fresh in let a := fresh in let w' := fresh in intros w a w'; repeat case_match; intros; simplify_eq; done.

Lemma same_req_file_read_json path : same_req (St:=St) (oidc_metadata_file_read_json path).
Proof. unfold oidc_metadata_file_read_json. same_req_auto; raw. Qed.
Hint Resolve same_req_file_read_json : same_req.

Lemma same_req_client_is_valid j : same_req (St:=St) (oidc_metadata_client_is_valid ext j).
Proof. unfold oidc_metadata_client_is_valid. same_req_auto. Qed.
Hint Resolve same_req_client_is_valid : same_req.

Lemma same_req_client_register p : same_req (St:=St) (oidc_metadata_client_register net c p).
Proof. unfold oidc_metadata_client_register. same_req_auto; raw. Qed.
Hint Resolve same_req_client_register : same_req.

Lemma same_req_client_get issuer p : same_req (St:=St) (oidc_metadata_client_get ext net rnd c issuer p).
Proof. unfold oidc_metadata_client_get. cbv zeta. same_req_auto; raw. Qed.
Hint Resolve same_req_client_get : same_req.

Lemma same_req_provider_retrieve issuer url : same_req (St:=St) (oidc_metadata_provider_retrieve net c issuer url).
Proof. unfold oidc_metadata_provider_retrieve. same_req_auto; raw. Qed.
Hint Resolve same_req_provider_retrieve : same_req.

Lemma same_req_provider_get issuer allow : same_req (St:=St) (oidc_metadata_provider_get ext net rnd c issuer allow).
Proof. unfold oidc_metadata_provider_get, provider_checked, provider_fetch, provider_checked. cbv zeta. same_req_auto; raw. Qed.
Hint Resolve same_req_provider_get : same_req.

Lemma same_req_conf_get issuer : same_req (St:=St) (oidc_metadata_conf_get c issuer).
Proof. unfold oidc_metadata_conf_get. cbv zeta. same_req_auto; raw. Qed.
Hint Resolve same_req_conf_get : same_req.

Lemma same_req_metadata_get issuer allow : same_req (St:=St) (oidc_metadata_get ext net rnd c issuer allow).
Proof. unfold oidc_metadata_get. cbv zeta. same_req_auto. Qed.
Hint Resolve same_req_metadata_get : same_req.

Lemma same_req_static_config : same_req (St:=St) (oidc_provider_static_config ext net c).
Proof. unfold oidc_provider_static_config, oidc_cache_get_provider, oidc_cache_set_provider. cbv zeta. same_req_auto. Qed.
Hint Resolve same_req_static_config : same_req.

Lemma same_req_provider_for_issuer issuer allow : same_req (St:=St) (oidc_get_provider_for_issuer ext net rnd c issuer allow).
Proof. unfold oidc_get_provider_for_issuer. same_req_auto. Qed.
End same_req_meta.
#[export] Hint Resolve same_req_file_read_json same_req_metadata_get same_req_static_config same_req_provider_for_issuer : same_req.

Lemma keeps_same_req {St A} (m : M St A) : same_req m -> keeps m.
Proof. intros Hm w a w' E. rewrite (Hm _ _ _ E). apply same_but_out_refl. Qed.
