(* ===== verification/Login.v ===== *)
(** * src/handle/response.c: logging a user in

    A response of the provider that matches a state of this browser becomes a session of the user that its ID token names.  The
    provider, the user and the tokens are put into the session, which is saved before the user goes back to where he came from. *)

From S2P Require Import Prelude Cstr Apr StrUtil Jansson Json Http Html Form Url Cookie Base64 Jose Jwt Util ShmCache Cache World.
From S2P Require Import HttpClient Cjose Jwk Jwe JoseLib Jws Pkce Provider ProviderSet Profile JwtCheck Jwks IdToken ClientAuth Token ProtoState Response AuthRequest.
From S2P Require Import Session SessionAttr State Authz Scrub Files CfgParse Config AppInfo Dir Metadata MetadataConf ProviderLookup Request Pass Refresh Userinfo UserinfoHandle.
#[local] Open Scope Z_scope.

Definition OIDC_PROTO_SESSION_STATE : string := "session_state".
Definition OIDC_PROTO_PROMPT_NONE : string := "none".
Definition OIDC_PROTO_ERROR_DESCRIPTION : string := "error_description".
Definition OIDC_CLAIM_SID : string := "sid".
Definition OIDC_REQUEST_STATE_KEY_HTML : string := "hl".
Definition OIDC_DEFAULT_CLAIM_REMOTE_USER : string := "sub@".
Definition OIDC_UTIL_REGEXP_MATCH_NR : Z := 1.
Definition OIDC_PCRE_SUBST_MAX_INPUT_LEN : Z := 4096.
Definition OIDC_RESPONSE_NO_REPEAT : list string := [OIDC_PROTO_STATE; OIDC_PROTO_CODE; OIDC_PROTO_ACCESS_TOKEN; OIDC_PROTO_ID_TOKEN].
Definition HTTP_BAD_REQUEST : Z := 400.

(** PCRE: the group of a match with the number, and the number of substitutions with the result. *)
Class PcreSubst (P : Pcre) := {
  pcre_substring : pcre -> string -> Z -> option string;
  pcre_substitute : pcre -> string -> string -> option (Z * string)
}.

(** ** The name of a user *)

Section remote_user.
Context {J : Jansson} {P : Pcre} {PS : PcreSubst P}.

Definition oidc_pcre_subst (preg : pcre) (str rep : string) : option string :=
  '(rc, output) ← pcre_substitute preg str rep;
  if (0 <? rc) && (0 <? zlen output) then Some output else None.

(** [None] is [FALSE]. *)
Definition oidc_util_regexp_substitute (input regexp replace : string) : option string :=
  preg ← pcre_compile regexp;
  if OIDC_PCRE_SUBST_MAX_INPUT_LEN <? zlen input then None else oidc_pcre_subst preg input replace.

(** [oidc_util_regexp_first_match], when the output is asked for. *)
Definition regexp_first_group (input regexp : string) : option string :=
  preg ← pcre_compile regexp;
  if pcre_exec preg input then pcre_substring preg input OIDC_UTIL_REGEXP_MATCH_NR else None.

Definition oidc_get_remote_user (claim_name : string) (reg_exp replace : option string) (json : option json_t) : option string :=
  let username := oidc_json_object_get json claim_name in
  if negb (nonnull username) || negb (oidc_json_is_string username) then None
  else
    request_user ← oidc_json_string_value username;
    match reg_exp, replace with
    | None, _ => Some request_user
    | Some reg_exp, None => regexp_first_group request_user reg_exp
    | Some reg_exp, Some replace => oidc_util_regexp_substitute request_user reg_exp replace
    end.

Definition oidc_cfg_remote_user_claim_name_get {C : Cjose J} (c : oidc_cfg_t C) : string :=
  default OIDC_DEFAULT_CLAIM_REMOTE_USER (CfgParse.claim_name (cfg_remote_user_claim c)).

(** The name of the claim and the issuer that is appended, when the claim is to be made unique. *)
Definition user_claim (claim_name : string) (issuer : option string) : string * option string :=
  let n := String.length claim_name in
  if bool_decide (last_char claim_name = Some "@"%char) then
    (str_take (n - 1) claim_name,
     Some (match _oidc_strstr issuer (Some "https://") with
           | None => default "(null)" issuer
           | Some _ => str_drop (String.length "https://") (default "" issuer)
           end))
  else (claim_name, None).

(** [r->user], or [None] for [FALSE]. *)
Definition oidc_response_set_request_user {C : Cjose J} (c : oidc_cfg_t C) (provider : oidc_provider_t) (jwt : oidc_jwt_t)
  (userinfo_claims : option json_t) : option string :=
  let '(claim_name, post_fix_with_issuer) := user_claim (oidc_cfg_remote_user_claim_name_get c) (oidc_cfg_provider_issuer_get provider) in
  let claims := match userinfo_claims with
                | None => Some (p_json (payload jwt))
                | Some _ => (oidc_json_merge (Some (p_json (payload jwt))) userinfo_claims).2
                end in
  remote_user ← oidc_get_remote_user claim_name (reg_exp (cfg_remote_user_claim c)) (replace (cfg_remote_user_claim c)) claims;
  Some (match post_fix_with_issuer with Some issuer => remote_user ^^ "@" ^^ issuer | None => remote_user end).
End remote_user.

#[local] Open Scope world_scope.

Section login.
Context {J : Jansson} {O : Jose} {B64 : Base64} {C : Cjose J} {CE : CjoseExport C} {D : Digest} {Zl : Zlib} {H : Httpd} {E : CfgEnv C}.
Context {Mem : CryptoMemcmp} {X : ApExpr} {P : Pcre} {PS : PcreSubst P} {St : Type} {B : CacheBackend St} {Dk : Disk St}.
(** [post] is the body of the request and [restore] the text of the template for restoring forms. *)
Variables (ext : nat -> env) (net : nat -> network) (rnd : nat -> rng) (others : nat -> St -> St) (c : oidc_cfg_t C).
Variables (post : body) (restore : option string).

(** ** Errors *)

Definition oidc_response_redirect_parent_window_to_logout : M St Z :=
  r <- get_req ;;
  redirect_uri <- lift (redirect_uri_of c r) ;;
  let java_script :=
    "    <script type=" ^^ DQ ^^ "text/javascript" ^^ DQ ^^ ">" ^^ LF ^^
    "      window.top.location.href = " ^^ sq ^^ default "(null)" (oidc_util_html_javascript_escape redirect_uri) ^^ "?session=logout" ^^ sq ^^ ";" ^^ LF ^^
    "    </script>" ^^ LF in
  respond (fun r => oidc_util_html_content_prep r OIDC_REQUEST_STATE_KEY_HTML (Some "Redirecting...") (Some java_script) None None).

Definition oidc_response_authorization_error (proto_state : oidc_proto_state_t) (error : string) (error_description : option string) : M St Z :=
  if _oidc_strcmp (oidc_proto_state_get_prompt proto_state) (Some OIDC_PROTO_PROMPT_NONE) =? 0 then oidc_response_redirect_parent_window_to_logout
  else respond (fun r => oidc_util_html_send_error r (Some ("OpenID Connect Provider error: " ^^ error)) error_description HTTP_BAD_REQUEST).

Definition oidc_response_handle_state_mismatch : M St Z :=
  match default_sso_url (cfg_state c) with
  | Some url =>
      r <- get_req ;;
      location <- lift (oidc_util_url_abs r (oidc_cfg_x_forwarded_headers_get c) (Some url)) ;;
      respond (fun r => (HTTP_MOVED_TEMPORARILY, oidc_http_hdr_out_location_set r location))
  | None =>
      respond (fun r =>
        if nonnull (apr_table_get (subprocess_env r) OIDC_ERROR_ENVVAR) then (HTTP_BAD_REQUEST, r)
        else oidc_util_html_send_error r (Some "Invalid Authorization Response")
               (Some "Could not match the authorization response to an earlier request via the state parameter and corresponding state cookie")
               HTTP_BAD_REQUEST)
  end.

(** ** Going back *)

Definition oidc_response_post_preserved_restore (original_url : option string) : M St Z :=
  let i := "        " in
  let script :=
    "    <script type=" ^^ DQ ^^ "text/javascript" ^^ DQ ^^ ">" ^^ LF ^^
    "      function str_decode(string) {" ^^ LF ^^
    i ^^ "try {" ^^ LF ^^
    i ^^ "  result = decodeURIComponent(string);" ^^ LF ^^
    i ^^ "} catch (e) {" ^^ LF ^^
    i ^^ "  result =  unescape(string);" ^^ LF ^^
    i ^^ "}" ^^ LF ^^
    i ^^ "return result;" ^^ LF ^^
    "      }" ^^ LF ^^
    "      function postOnLoad() {" ^^ LF ^^
    i ^^ "var mod_auth_openidc_preserve_post_params = JSON.parse(sessionStorage.getItem(" ^^ sq ^^
      "mod_auth_openidc_preserve_post_params" ^^ sq ^^ "));" ^^ LF ^^
    String "009" (String "009" " sessionStorage.removeItem(") ^^ sq ^^ "mod_auth_openidc_preserve_post_params" ^^ sq ^^ ");" ^^ LF ^^
    i ^^ "for (var key in mod_auth_openidc_preserve_post_params) {" ^^ LF ^^
    i ^^ "  var input = document.createElement(" ^^ DQ ^^ "input" ^^ DQ ^^ ");" ^^ LF ^^
    i ^^ "  input.type = " ^^ DQ ^^ "hidden" ^^ DQ ^^ ";" ^^ LF ^^
    i ^^ "  input.name = str_decode(key);" ^^ LF ^^
    i ^^ "  input.value = str_decode(mod_auth_openidc_preserve_post_params[key]);" ^^ LF ^^
    i ^^ "  document.forms[0].appendChild(input);" ^^ LF ^^
    i ^^ "}" ^^ LF ^^
    i ^^ "document.forms[0].action = " ^^ DQ ^^ default "(null)" (oidc_util_html_javascript_escape original_url) ^^ DQ ^^ ";" ^^ LF ^^
    i ^^ "HTMLFormElement.prototype.submit.call(document.forms[0]);" ^^ LF ^^
    "      }" ^^ LF ^^
    "    </script>" ^^ LF in
  let html_body := "    <p>Restoring...</p>" ^^ LF ^^ "    <form method=" ^^ DQ ^^ "post" ^^ DQ ^^ "></form>" ^^ LF in
  respond (fun r => oidc_util_html_content_prep r OIDC_REQUEST_STATE_KEY_HTML (Some "Restoring...") (Some script) (Some "postOnLoad()") (Some html_body)).

Definition oidc_response_finish_success (original_url original_method : option string) : M St Z :=
  if _oidc_strcmp original_method (Some OIDC_METHOD_FORM_POST) =? 0 then
    if nonnull (oidc_cfg_post_restore_template_get c) then
      r <- get_req ;;
      '(rc, r, _) <- lift (oidc_util_html_send_in_template restore r None original_url OIDC_POST_PRESERVE_ESCAPE_JAVASCRIPT None OIDC_POST_PRESERVE_ESCAPE_NONE) ;;
      '_ <- put_req r ;;
      ret rc
    else oidc_response_post_preserved_restore original_url
  else respond (fun r => (HTTP_MOVED_TEMPORARILY, oidc_http_hdr_out_location_set r original_url)).

(** ** The session *)

Definition oidc_response_make_sid_iss_unique (sid issuer : option string) : string := default "(null)" sid ^^ "@" ^^ default "(null)" issuer.

(** What a login puts into a session. *)
Record login := mk_login {
  lg_user : string;
  lg_id_token : option string;
  lg_jwt : oidc_jwt_t;
  lg_userinfo_claims : option json_t;
  lg_access_token : option string;
  lg_access_token_type : option string;
  lg_expires_in : Z;
  lg_refresh_token : option string;
  lg_scope : option string;
  lg_session_state : option string;
  lg_state : option string;
  lg_original_url : option string;
  lg_userinfo_jwt : option string
}.

(** The access token with its type and times. *)
Definition store_access_token (l : login) (session : oidc_session_t) : M St oidc_session_t :=
  match lg_access_token l with
  | Some _ =>
      let session := oidc_session_set_access_token session (lg_access_token l) in
      let session := oidc_session_set_access_token_type session (lg_access_token_type l) in
      t <- apr_time_now ext ;;
      let session := oidc_session_set_access_token_expires t session (lg_expires_in l) in
      t <- apr_time_now ext ;;
      ret (oidc_session_set_access_token_last_refresh session t)
  | None => ret session
  end.

(** The end of a session, however it is used: that of the ID token or a fixed time after now. *)
Definition session_end (provider : oidc_provider_t) (jwt : oidc_jwt_t) : M St Z :=
  let duration := oidc_cfg_provider_session_max_duration_get provider in
  if duration =? 0 then ret (oidc_util_apr_time_from_sec (p_exp (payload jwt)))
  else t <- apr_time_now ext ;; ret (t + apr_time_from_sec duration).

(** The keys under which a session is found when the provider logs a user out. *)
Definition index_session (provider : oidc_provider_t) (jwt : oidc_jwt_t) (session : oidc_session_t) : oidc_session_t :=
  let sub := p_sub (payload jwt) in
  let sid := match (oidc_jose_get_string (p_json (payload jwt)) OIDC_CLAIM_SID false None).2 with Some s => Some s | None => sub end in
  let issuer := oidc_cfg_provider_issuer_get provider in
  mk_session (uuid session) (remote_user session) (state session) (expiry session) (Some (oidc_response_make_sid_iss_unique sid issuer))
    (if negb (oidc_cfg_provider_backchannel_logout_supported_get provider =? 0) && nonnull sub && negb (_oidc_strcmp sid sub =? 0)
     then Some (oidc_response_make_sid_iss_unique sub issuer) else Session.sub session).

(** The boolean and the session. *)
Definition oidc_response_save_in_session (session : oidc_session_t) (provider : oidc_provider_t) (l : login) : M St (bool * oidc_session_t) :=
  t <- apr_time_now ext ;;
  r <- get_req ;;
  let session := mk_session (uuid session) (Some (lg_user l)) (state session) (t + apr_time_from_sec (oidc_cfg_session_inactivity_timeout_get c))
                   (sid session) (Session.sub session) in
  let session := oidc_session_set_idtoken_claims (cfg_session c) r session (Some (p_json (payload (lg_jwt l)))) in
  let session := if negb (oidc_cfg_store_id_token_get c =? 0) then oidc_session_set_idtoken session (lg_id_token l) else session in
  let session := oidc_session_set_issuer session (oidc_cfg_provider_issuer_get provider) in
  let session := oidc_session_set_request_state session (lg_state l) in
  let session := oidc_session_set_original_url session (lg_original_url l) in
  let session := if nonnull (lg_session_state l) && nonnull (oidc_cfg_provider_check_session_iframe_get provider)
                 then oidc_session_set_session_state session (lg_session_state l) else session in
  let session := oidc_session_set_userinfo_refresh_interval session (oidc_cfg_provider_userinfo_refresh_interval_get provider) in
  session <- oidc_userinfo_store_claims ext c session provider (lg_userinfo_claims l) (lg_userinfo_jwt l) ;;
  session <- store_access_token l session ;;
  let session := match lg_refresh_token l with Some _ => oidc_session_set_refresh_token session (lg_refresh_token l) | None => session end in
  let session := match lg_scope l with Some _ => oidc_session_set_scope session (lg_scope l) | None => session end in
  session_expires <- session_end provider (lg_jwt l) ;;
  let session := oidc_session_set_session_expires session session_expires in
  domain <- (match oidc_cfg_cookie_domain_get c with
             | Some domain => ret (Some domain)
             | None => lift (Some <$> oidc_util_url_cur_host r (oidc_cfg_x_forwarded_headers_get c))
             end) ;;
  let session := oidc_session_set_cookie_domain session domain in
  let session := index_session provider (lg_jwt l) session in
  let session := oidc_session_set_session_new session 1 in
  oidc_session_save ext (cfg_session c) session OIDC_SESSION_SAVE_NEW.

(** ** The response *)

(** [oidc_response_match_state] with the lookup of this server; a state that this server made for a provider of the metadata
    directory has an issuer. *)
Definition match_state (state : option string) : M St (bool * option oidc_provider_t * option oidc_proto_state_t) :=
  oidc_response_match_state ext (cfg_state c) (fun issuer => oidc_get_provider_for_issuer ext net rnd c (default "" issuer) false) state.

(** A user who is authenticated: the old session is replaced. *)
Definition establish_session (session : oidc_session_t) (provider : oidc_provider_t) (proto_state : oidc_proto_state_t) (l : login)
  : M St (Z * oidc_session_t) :=
  session <- oidc_session_reset ext rnd (cfg_session c) session ;;
  let session := if nonnull (oidc_cfg_provider_check_session_iframe_get provider) then
                   oidc_session_set_path_scope
                     (oidc_session_set_path_auth_request_params session (oidc_proto_state_get_auth_request_params proto_state))
                     (oidc_proto_state_get_path_scope proto_state)
                 else session in
  '(ok, session) <- oidc_response_save_in_session session provider l ;;
  if negb (ok : bool) then ret (HTTP_INTERNAL_SERVER_ERROR, session)
  else
    r <- get_req ;;
    if negb (nonnull (r_user r)) then ret (HTTP_UNAUTHORIZED, session)
    else
      rc <- oidc_response_finish_success (oidc_proto_state_get_original_url proto_state) (oidc_proto_state_get_original_method proto_state) ;;
      ret (rc, session).

(** An ID token was accepted; [params] are the parameters of the response with the tokens. *)
Definition login_user (session : oidc_session_t) (provider : oidc_provider_t) (proto_state : oidc_proto_state_t) (id_token : oidc_jwt_t)
  (params : table) : M St (Z * oidc_session_t) :=
  let get := apr_table_get params in
  let expires_in := _oidc_str_to_int (get OIDC_PROTO_EXPIRES_IN) (-1) in
  '(_, userinfo_claims, userinfo_jwt, _) <-
    oidc_userinfo_retrieve_claims ext net rnd others c provider (get OIDC_PROTO_ACCESS_TOKEN) (get OIDC_PROTO_TOKEN_TYPE) None (p_sub (payload id_token)) ;;
  let error s := rc <- oidc_response_authorization_error proto_state s None ;; ret (rc, session) in
  match oidc_response_set_request_user c provider id_token userinfo_claims with
  | None => error "Remote user could not be set: contact the website administrator"
  | Some user =>
      r <- get_req ;;
      '_ <- put_req (with_user (Some user) r) ;;
      if (_oidc_strcmp (oidc_proto_state_get_prompt proto_state) (Some OIDC_PROTO_PROMPT_NONE) =? 0) && nonnull (remote_user session) &&
         negb (_oidc_strcmp (remote_user session) (Some user) =? 0)
      then error "User changed!"
      else
        establish_session session provider proto_state
          (mk_login user (get OIDC_PROTO_ID_TOKEN) id_token userinfo_claims (get OIDC_PROTO_ACCESS_TOKEN) (get OIDC_PROTO_TOKEN_TYPE) expires_in
             (get OIDC_PROTO_REFRESH_TOKEN) (get OIDC_PROTO_SCOPE) (get OIDC_PROTO_SESSION_STATE) (get OIDC_PROTO_STATE)
             (oidc_proto_state_get_original_url proto_state) userinfo_jwt)
  end.

(** The status and the session. *)
Definition oidc_response_process (session : oidc_session_t) (params : table) (response_mode : string) : M St (Z * oidc_session_t) :=
  r <- get_req ;;
  let '(back, r) := oidc_response_browser_back r (apr_table_get params OIDC_PROTO_STATE) session in
  '_ <- put_req r ;;
  if back then ret (HTTP_MOVED_TEMPORARILY, session)
  else
    '(ok, provider, proto_state) <- match_state (apr_table_get params OIDC_PROTO_STATE) ;;
    match ok : bool, (provider : option oidc_provider_t), (proto_state : option oidc_proto_state_t) with
    | true, Some provider, Some proto_state =>
        match apr_table_get params OIDC_PROTO_ERROR with
        | Some error =>
            rc <- oidc_response_authorization_error proto_state error (apr_table_get params OIDC_PROTO_ERROR_DESCRIPTION) ;;
            ret (rc, session)
        | None =>
            result <- oidc_response_flows ext net rnd (cfg_proto c) proto_state provider params response_mode ;;
            match (result : flow_result) with
            | None => rc <- oidc_response_authorization_error proto_state "Error in handling response type." None ;; ret (rc, session)
            | Some (id_token, params) => login_user session provider proto_state id_token params
            end
        end
    | _, _, _ => rc <- oidc_response_handle_state_mismatch ;; ret (rc, session)
    end.

Definition oidc_response_authorization_post (session : oidc_session_t) : M St (Z * oidc_session_t) :=
  r <- get_req ;;
  '(ok, params, r) <- lift (oidc_util_read_post_params_reject_dup post r [] false None (Some OIDC_RESPONSE_NO_REPEAT)) ;;
  '_ <- put_req r ;;
  if negb (ok : bool) then ret (HTTP_BAD_REQUEST, session)
  else
    let response_mode := apr_table_get params OIDC_PROTO_RESPONSE_MODE in
    if (Z.of_nat (length params) <? 1) ||
       ((Z.of_nat (length params) =? 1) && nonnull response_mode && (_oidc_strcmp response_mode (Some OIDC_PROTO_RESPONSE_MODE_FRAGMENT) =? 0))
    then
      rc <- respond (fun r => oidc_util_html_send_error r (Some "Invalid Request")
              (Some ("You" ^^ sq ^^ "ve hit an OpenID Connect Redirect URI with no parameters, this is an invalid request; you should not open this URL in your browser directly, or have the server administrator use a different OIDCRedirectURI setting."))
              HTTP_INTERNAL_SERVER_ERROR) ;;
      ret (rc, session)
    else oidc_response_process session params (default OIDC_PROTO_RESPONSE_MODE_FORM_POST response_mode).

Definition oidc_response_authorization_redirect (session : oidc_session_t) : M St (Z * oidc_session_t) :=
  r <- get_req ;;
  '(ok, params) <- lift (oidc_util_read_form_encoded_params_reject_dup [] (r_args r) (Some OIDC_RESPONSE_NO_REPEAT)) ;;
  if negb (ok : bool) then ret (HTTP_BAD_REQUEST, session)
  else oidc_response_process session params OIDC_PROTO_RESPONSE_MODE_QUERY.
End login.
