(* ===== verification/LoginProps.v ===== *)
(** * src/handle/response.c: who gets logged in

    A session is established only for a response that this browser asked for, and for the user whom the ID token of that
    response names. *)

From S2P Require Import Prelude Cstr Apr StrUtil Jansson Json Http Html Form Url Cookie Base64 Jose Jwt Util ShmCache Cache World.
From S2P Require Import HttpClient Cjose Jwk Jwe JoseLib Jws Pkce Provider ProviderSet Profile JwtCheck Jwks IdToken IdTokenProps ClientAuth Token ProtoState Response AuthRequest.
From S2P Require Import Session SessionAttr SessionProps State StateProps Authz Scrub Files CfgParse Config AppInfo Dir Metadata MetadataConf MetadataProps MetadataSpec ProviderLookup.
From S2P Require Import Request Pass Refresh RefreshProps Userinfo UserinfoHandle Outcome Returns Login.
#[local] Open Scope Z_scope.
#[local] Open Scope world_scope.

(** ** What stays in a session *)

Section retains.
Context {J : Jansson} {JS : JanssonSpec J}.
Implicit Types (z : oidc_session_t) (ks : list string).

(** The user, the identifier and the members [ks] of the state. *)
Definition retains ks z z' : Prop :=
  uuid z' = uuid z /\ remote_user z' = remote_user z /\ (session_wf z -> session_wf z') /\
  forall k, In k ks -> oidc_session_json_get z' k = oidc_session_json_get z k.

Lemma retains_refl ks z : retains ks z z.
Proof. done. Qed.

Lemma retains_trans ks z1 z2 z3 : retains ks z1 z2 -> retains ks z2 z3 -> retains ks z1 z3.
Proof.
  intros (U1 & R1 & W1 & G1) (U2 & R2 & W2 & G2). split_and!; [congruence|congruence|auto|].
  intros k Hk. by rewrite G2, G1.
Qed.

Lemma retains_json ks z k v : ~ In k ks -> retains ks z (oidc_session_json_set z k v).
Proof.
  intros Hk. split_and!; [|..|by apply session_json_set_wf|].
  1,2: unfold oidc_session_json_set; destruct v; [done|]; by destruct (state z).
  intros k' Hk'. apply session_json_get_set_ne. by intros ->.
Qed.

Lemma retains_timestamp ks z k t : ~ In k ks -> retains ks z (oidc_session_set_timestamp z k t).
Proof.
  intros Hk. unfold oidc_session_set_timestamp. destruct (t <=? -1); [done|]. exact (retains_json ks z k (Some _) Hk).
Qed.

(** Other fields of the record. *)
Lemma retains_mk ks z e i s : retains ks z (mk_session (uuid z) (remote_user z) (state z) e i s).
Proof. done. Qed.

Lemma retains_new ks z n : ~ In OIDC_SESSION_KEY_SESSION_IS_NEW ks -> retains ks z (oidc_session_set_session_new z n).
Proof.
  intros Hk. unfold oidc_session_set_session_new. destruct (negb _); [exact (retains_json ks z _ (Some _) Hk)|].
  split_and!; [done|done|intros Hz; by apply object_del_object, state_or_new|].
  intros k Hin. unfold oidc_session_json_get. cbn [set_state state]. rewrite object_get_del_ne by (by intros <-). apply get_or_new.
Qed.

Context {O : Jose} {B64 : Base64} {H : Httpd} {St : Type} {B : CacheBackend St}.
Variables (ext : nat -> env) (c : session_cfg).

(** The members that saving writes. *)
Definition saved_keys : list string :=
  [OIDC_SESSION_FORMAT_VERSION_KEY; OIDC_SESSION_REMOTE_USER_KEY; OIDC_SESSION_EXPIRY_KEY; OIDC_SESSION_SESSION_ID; OIDC_SESSION_SID_KEY;
   OIDC_SESSION_SUB_KEY].

Lemma retains_index ks z k i (w w' : world St) z' : ~ In k ks -> save_index ext c z k i w = Some (z', w') -> retains ks z z'.
Proof.
  intros Hk. unfold save_index. destruct i as [i|]; [|by intros [= <- _]].
  intros (u & w1 & _ & [= <- _])%bind_inv. by apply retains_json.
Qed.

Lemma retains_save_cache ks z ft (w w' : world St) b z' : (forall k, In k saved_keys -> ~ In k ks) ->
  oidc_session_save_cache ext c z ft w = Some ((b, z'), w') -> retains ks z z'.
Proof.
  intros Hk. unfold oidc_session_save_cache. destruct (state z) as [j|].
  - intros (z1 & w1 & E1 & E)%bind_inv. apply bind_inv in E as (z2 & w2 & E2 & E).
    apply retains_index with (ks := ks) in E1; [|apply Hk; cbn; tauto].
    apply retains_index with (ks := ks) in E2; [|apply Hk; cbn; tauto].
    assert (z' = z2) as ->.
    { apply bind_inv in E as (r & w3 & _ & E). destruct (oidc_session_encode _ _ _ _); [|by injection E].
      apply bind_inv in E as (rc & w4 & _ & E). destruct rc; [|by injection E].
      apply bind_inv in E as (a & w5 & _ & E). apply bind_inv in E as (u & w6 & _ & E). by injection E. }
    by eapply retains_trans.
  - intros E. assert (z' = z) as ->; [|done]. clear Hk.
    do 5 (apply bind_inv in E as (? & ? & _ & E)). by injection E.
Qed.

Lemma retains_save ks z ft (w w' : world St) b z' : (forall k, In k saved_keys -> ~ In k ks) ->
  oidc_session_save ext c z ft w = Some ((b, z'), w') -> retains ks z z'.
Proof.
  intros Hk. unfold oidc_session_save. set (z1 := match state z with Some _ => _ | None => z end).
  assert (H1 : retains ks z z1).
  { unfold z1. destruct (state z); [|done]. repeat (eapply retains_trans; [|first [apply retains_json|apply retains_timestamp]; apply Hk; cbn; tauto]).
    exact (retains_json ks z _ (Some _) (Hk _ (or_introl eq_refl))). }
  clearbody z1. intros ([rc z2] & w1 & E1 & E)%bind_inv.
  assert (H2 : retains ks z1 z2) by (destruct (_ =? _); [by eapply retains_save_cache|by injection E1 as _ <- _]).
  assert (z' = z2) as ->; [|by eapply retains_trans].
  destruct (_ || _); [|by injection E]. apply bind_inv in E as (rc' & w2 & _ & E). by injection E.
Qed.
End retains.

(** Show that the members [ks] are carried through a chain of settings. *)
Ltac not_in := cbn; intuition discriminate.
Ltac retains := repeat first
  [ apply retains_refl
  | eapply retains_trans; [|first [apply retains_json|apply retains_timestamp|apply retains_new]; not_in] ].

(** ** What terminates *)

Section total_login.
Context {J : Jansson} {JS : JanssonSpec J} {O : Jose} {OS : JoseSpec O} {B64 : Base64} {C : Cjose J} {CE : CjoseExport C} {D : Digest} {Zl : Zlib}.
Context {H : Httpd} {HS : HttpdSpec H} {E : CfgEnv C} {Mem : CryptoMemcmp} {MS : CryptoMemcmpSpec Mem} {X : ApExpr} {P : Pcre} {PS : PcreSubst P}.
Context {St : Type} {B : CacheBackend St} {Dk : Disk St}.
Variables (ext : nat -> env) (net : nat -> network) (rnd : nat -> rng) (others : nat -> St -> St) (c : oidc_cfg_t C).
Variables (post : body) (restore : option string).
Implicit Types (w : world St).

Lemma total_match s : total (St:=St) (match_state ext net rnd c s).
Proof. unfold match_state, oidc_response_match_state. total_auto. Qed.

Lemma total_authorization_error ps e ed : total (St:=St) (oidc_response_authorization_error c ps e ed).
Proof. unfold oidc_response_authorization_error, oidc_response_redirect_parent_window_to_logout. cbv zeta. total_auto. Qed.

Lemma total_state_mismatch : total (St:=St) (oidc_response_handle_state_mismatch c).
Proof. unfold oidc_response_handle_state_mismatch. total_auto. Qed.

Lemma total_finish u m : total (St:=St) (oidc_response_finish_success c restore u m).
Proof. unfold oidc_response_finish_success, oidc_response_post_preserved_restore. cbv zeta. total_auto. Qed.

Lemma total_store_claims z p uc j : total (St:=St) (oidc_userinfo_store_claims ext c z p uc j).
Proof. unfold oidc_userinfo_store_claims. cbv zeta. total_auto. Qed.
Hint Resolve total_match total_authorization_error total_state_mismatch total_finish total_store_claims : total.

Lemma total_save_in_session z p l : total (St:=St) (oidc_response_save_in_session ext c z p l).
Proof. unfold oidc_response_save_in_session, store_access_token, session_end. cbv zeta. total_auto. Qed.
Hint Resolve total_save_in_session : total.

Lemma total_establish z p ps l : total (St:=St) (establish_session ext rnd c restore z p ps l).
Proof. unfold establish_session. cbv zeta. total_auto. Qed.
End total_login.
#[export] Hint Resolve total_match total_authorization_error total_state_mismatch total_finish total_store_claims total_save_in_session total_establish : total.

(** ** The session that is established *)

Section established.
Context {J : Jansson} {JS : JanssonSpec J} {O : Jose} {OS : JoseSpec O} {B64 : Base64} {C : Cjose J} {CE : CjoseExport C} {D : Digest} {Zl : Zlib}.
Context {H : Httpd} {HS : HttpdSpec H} {E : CfgEnv C} {Mem : CryptoMemcmp} {MS : CryptoMemcmpSpec Mem} {X : ApExpr} {P : Pcre} {PS : PcreSubst P}.
Context {St : Type} {B : CacheBackend St} {Dk : Disk St}.
Variables (ext : nat -> env) (net : nat -> network) (rnd : nat -> rng) (others : nat -> St -> St) (c : oidc_cfg_t C).
Variables (post : body) (restore : option string).
Implicit Types (w : world St).

(** The request of claims in [w] does not return, since those of the answer of this provider to this token destroy their own names. *)
Definition unreadable p a tt i w : Prop := oidc_proto_userinfo_request ext net rnd (cfg_proto c) p i a tt None 0 w = None /\
  exists u j j', answered (B:=B) ext net (cfg_proto c) p a tt (w_req w) j u j' /\ names_itself net (cfg_proto c) (ui_claims u).

(** The claims of the userinfo endpoint are those of the subject of the ID token. *)
Lemma retrieve_sub_ok p a tt i w :
  outcome (unreadable p a tt i w) (oidc_userinfo_retrieve_claims ext net rnd others c p a tt None i)
    (fun res w' => w_req w' = w_req w /\ forall u, res.1.1.2 = Some u -> sub_ok (w_req w) i u) w.
Proof.
  unfold oidc_userinfo_retrieve_claims. destruct (has_userinfo_endpoint p); [|by apply outcome_ret].
  destruct (nonnull a); [|by apply outcome_ret]. cbn [negb]. cbv zeta. apply outcome_bind.
  pose proof (userinfo_outcome ext net rnd (cfg_proto c) p i a tt None 0 w) as Ho.
  match goal with |- outcome _ ?m _ _ => replace m with (oidc_proto_userinfo_request (St:=St) ext net rnd (cfg_proto c) p i a tt None 0) by (by destruct i) end.
  unfold outcome at 1, unreadable. destruct (oidc_proto_userinfo_request _ _ _ _ _ _ _ _ _ _ _) as [[[[u j] code] w1]|];
    [|split; [done|]; by destruct Ho as (u & j & j' & Ho & Hn); exists u, j, j'].
  destruct Ho as [Hr Ho]. cbv beta. destruct u as [u|]; (apply outcome_ret; split; [done|]); cbn; [|done].
  intros u' [= <-]. by destruct (Ho u eq_refl) as (u0 & j' & _ & _ & _ & Hs).
Qed.

(** The members of a session that say whose it is. *)
Definition login_keys : list string := [OIDC_SESSION_KEY_IDTOKEN_CLAIMS; OIDC_SESSION_KEY_ISSUER].

Lemma retains_store_claims z p uc j w z' w' : oidc_userinfo_store_claims ext c z p uc j w = Some (z', w') -> retains login_keys z z'.
Proof.
  unfold oidc_userinfo_store_claims. cbv zeta. set (z1 := match uc with Some _ => _ | None => _ end).
  assert (H1 : retains login_keys z z1).
  { unfold z1. destruct uc as [uc|]; [destruct (negb _)|]; unfold oidc_session_set_userinfo_jwt, oidc_session_set_userinfo_claims, oidc_session_set_filtered_claims, oidc_session_set;
      retains. }
  clearbody z1. destruct (_ <? _); [|by intros [= <- _]]. intros (t & w1 & _ & [= <- _])%bind_inv.
  unfold oidc_session_reset_userinfo_last_refresh. eapply retains_trans; [exact H1|]. apply retains_timestamp. not_in.
Qed.

Lemma retains_store_token l z w z' w' : store_access_token ext l z w = Some (z', w') -> retains login_keys z z'.
Proof.
  unfold store_access_token. destruct (lg_access_token l); [|by intros [= <- _]].
  intros (t & w1 & _ & E1)%bind_inv. apply bind_inv in E1 as (t' & w2 & _ & [= <- _]).
  unfold oidc_session_set_access_token_last_refresh, oidc_session_set_access_token_expires, oidc_session_set_access_token_type,
    oidc_session_set_access_token, oidc_session_set. destruct (-1 <? lg_expires_in l); retains.
Qed.

(** The request does not say that the claims of ID tokens are not to be kept. *)
Definition keeps_claims (r : request) : Prop := apr_table_get (subprocess_env r) "OIDC_DONT_STORE_ID_TOKEN_CLAIMS_IN_SESSION" = None.

Definition filtered (claims : json_t) : json_t := filter_claims_loop (cfg_session c) (oidc_json_object_iter (Some claims)) oidc_json_object.

Lemma saved_login z p l w b z' w' : session_wf z -> oidc_response_save_in_session ext c z p l w = Some ((b, z'), w') ->
  uuid z' = uuid z /\ remote_user z' = Some (lg_user l) /\
  (forall i, oidc_cfg_provider_issuer_get p = Some i -> json_utf8 i = true -> oidc_session_get_issuer z' = Some i) /\
  (keeps_claims (w_req w) -> oidc_session_get_idtoken_claims z' = Some (filtered (p_json (payload (lg_jwt l))))).
Proof.
  intros Hz. unfold oidc_response_save_in_session. intros (t & w1 & [= <- <-] & E1)%bind_inv. apply bind_inv in E1 as (r & w2 & [= <- <-] & E1).
  cbn [w_req] in E1. set (z1 := mk_session _ _ _ _ _ _) in E1. set (z2 := oidc_session_set_idtoken_claims _ _ _ _) in E1.
  set (z3 := if negb _ then _ else z2) in E1. set (z4 := oidc_session_set_issuer z3 _) in E1.
  assert (H23 : retains login_keys z2 z3) by (unfold z3, oidc_session_set_idtoken, oidc_session_set; destruct (negb _); retains).
  set (z5 := oidc_session_set_original_url _ _) in E1. assert (H45 : retains login_keys z4 z5).
  { unfold z5, oidc_session_set_original_url, oidc_session_set_request_state, oidc_session_set. retains. }
  set (z6 := if _ && _ then _ else z5) in E1. assert (H56 : retains login_keys z5 z6).
  { unfold z6, oidc_session_set_session_state, oidc_session_set. destruct (_ && _); retains. }
  clearbody z3 z5 z6. apply bind_inv in E1 as (z7 & w3 & E7 & E1). apply retains_store_claims in E7.
  apply bind_inv in E1 as (z8 & w4 & E8 & E1). apply retains_store_token in E8. set (z9 := match lg_scope l with Some _ => _ | None => _ end) in E1.
  assert (H89 : retains login_keys z8 z9) by (unfold z9, oidc_session_set_scope, oidc_session_set_refresh_token, oidc_session_set; destruct (lg_scope l), (lg_refresh_token l); retains).
  clearbody z9. apply bind_inv in E1 as (se & w5 & _ & E1). apply bind_inv in E1 as (dom & w6 & _ & E1).
  apply (retains_save ext (cfg_session c) login_keys) in E1; [|intros k Hk; cbn in Hk; repeat (destruct Hk as [<-|Hk]; [not_in|]); destruct Hk].
  assert (H4 : retains login_keys z4 z').
  { eapply retains_trans; [exact H45|]. eapply retains_trans; [exact H56|]. eapply retains_trans; [|eapply retains_trans; [exact E7|]].
    - exact (retains_json login_keys z6 OIDC_SESSION_KEY_USERINFO_REFRESH_INTERVAL (Some _) ltac:(not_in)).
    - eapply retains_trans; [exact E8|]. eapply retains_trans; [exact H89|]. eapply retains_trans; [|exact E1].
      eapply retains_trans; [|apply retains_new; not_in]. unfold index_session. eapply retains_trans; [|apply retains_mk].
      unfold oidc_session_set_cookie_domain, oidc_session_set_session_expires, oidc_session_set. retains. }
  clear - H23 H4 Hz JS. destruct H4 as (U4 & R4 & _ & G4), H23 as (U3 & R3 & W3 & G3).
  assert (H12 : uuid z2 = uuid z1 /\ remote_user z2 = remote_user z1 /\ session_wf z2).
  { unfold z2, oidc_session_set_idtoken_claims, oidc_session_set_filtered_claims. case_match; [done|]. split_and!; [done|done|by apply session_json_set_wf]. }
  destruct H12 as (U2 & R2 & W2). specialize (W3 W2).
  assert (U34 : uuid z4 = uuid z3 /\ remote_user z4 = remote_user z3).
  { unfold z4, oidc_session_set_issuer, oidc_session_set, oidc_session_json_set. case_match; [done|]. by destruct (state z3). }
  destruct U34 as [U34 R34]. split; [rewrite U4, U34, U3, U2; done|]. split; [rewrite R4, R34, R3, R2; done|]. split.
  - intros i Ei Hi. unfold oidc_session_get_issuer, oidc_session_get_key2string. apply eq_trans with (oidc_session_get z4 OIDC_SESSION_KEY_ISSUER).
    + apply get_string_json, G4. cbn; tauto.
    + unfold z4, oidc_session_set_issuer. rewrite Ei. apply session_get_set_eq; [done|by apply utf8_ascii|by intros s [= <-]].
  - intros Hk. unfold oidc_session_get_idtoken_claims. rewrite G4 by (cbn; tauto). unfold z4, oidc_session_set_issuer, oidc_session_set.
    rewrite session_json_get_set_ne by done. rewrite G3 by (cbn; tauto). unfold z2, oidc_session_set_idtoken_claims. rewrite Hk.
    unfold oidc_session_set_filtered_claims. apply session_json_get_set_eq; [done|by apply utf8_ascii].
Qed.

(** The browser that sends the request holds the cookie of the state [s], which has not timed out. *)
Definition asked (w : world St) (s : string) (ps : oidc_proto_state_t) : Prop :=
  exists v ps0 i, oidc_http_get_cookie (w_req w) (oidc_state_cookie_name (cfg_state c) s) = Some v /\
    oidc_proto_state_from_cookie (w_req w) (st_passphrase (cfg_state c)) v = Some ps0 /\
    oidc_state_browser_fingerprint (cfg_state c) (w_req w) (oidc_proto_state_get_nonce ps0) = Some s /\
    now (ext i) <= oidc_proto_state_get_timestamp ps0 + apr_time_from_sec (state_timeout (cfg_state c)) /\
    ps = oidc_proto_state_set_state ps0 (Some s).

Lemma match_inv st w p ps w' : match_state ext net rnd c st w = Some ((true, Some p, Some ps), w') ->
  exists s, st = Some s /\ asked w s ps /\ same_but_out (w_req w) (w_req w') /\
  exists w1, oidc_get_provider_for_issuer ext net rnd c (default "" (oidc_proto_state_get_issuer ps)) false w1 = Some (Some p, w').
Proof.
  unfold match_state, oidc_response_match_state. destruct st as [s|]; [|done]. destruct (_ =? 0); [done|].
  intros ([ok o] & w1 & E1 & E2)%bind_inv. destruct ok, o as [ps'|]; [|done..]. apply bind_inv in E2 as (p' & w2 & E2 & E3). injection E3 as Hok -> -> ->.
  exists s. split; [done|]. apply restore_inv in E1 as (v & ps0 & i & E1 & E3 & E4 & E5 & E6 & _ & Hk).
  split; [by exists v, ps0, i|]. split; [|by exists w1]. eapply same_but_out_trans; [exact Hk|]. by apply keeps_same_req in E2; [|auto with same_req].
Qed.

Lemma establish_inv z p ps l w rc z' w' : establish_session ext rnd c restore z p ps l w = Some ((rc, z'), w') ->
  (exists n, uuid z' = oidc_util_rand_hex_str (rnd n) OIDC_SESSION_ID_LEN) /\ remote_user z' = Some (lg_user l) /\
  (forall i, oidc_cfg_provider_issuer_get p = Some i -> json_utf8 i = true -> oidc_session_get_issuer z' = Some i) /\
  (keeps_claims (w_req w) -> oidc_session_get_idtoken_claims z' = Some (filtered (p_json (payload (lg_jwt l))))).
Proof.
  unfold establish_session. intros (z1 & w1 & E1 & E2)%bind_inv. set (z2 := if nonnull _ then _ else z1) in E2.
  unfold oidc_session_reset in E1. apply bind_inv in E1 as (ok & w0 & E0 & E1). injection E1 as <- <-.
  assert (Hr : w_req w0 = w_req w).
  { revert E0. destruct (_ && _); intros E0; [by eapply same_req_cache_set|by injection E0 as _ ->]. }
  assert (H12 : uuid z2 = oidc_util_rand_hex_str (rnd (w_calls w0)) OIDC_SESSION_ID_LEN /\ session_wf z2).
  { unfold z2. match goal with |- context [if _ then ?a else ?b] => assert (Hc : retains [] b a) end.
    { unfold oidc_session_set_path_scope, oidc_session_set_path_auth_request_params, oidc_session_set. retains. }
    destruct Hc as (Hu & _ & Hw & _). match goal with |- context [if nonnull ?x then _ else _] => destruct (nonnull x) end; [|split; [reflexivity|exact I]]. split; [by rewrite Hu|by apply Hw]. }
  clearbody z2. destruct H12 as [Hu Hz]. apply bind_inv in E2 as ([b z3] & w2 & E2 & E3).
  assert (z' = z3) as ->.
  { destruct b; cbn [negb] in E3; [|by injection E3]. apply bind_inv in E3 as (r & w3 & _ & E3). destruct (negb _); [by injection E3|].
    apply bind_inv in E3 as (rc' & w4 & _ & E3). by injection E3. }
  clear E3. apply saved_login in E2 as (U & R & I & K); [|done]. split; [exists (w_calls w0); congruence|]. split; [done|]. split; [done|].
  intros Hk. apply K. unfold keeps_claims. cbn [w_req]. by rewrite Hr.
Qed.

(** The session [z'] is of the user whom the ID token of the response [params] names, which this browser asked for. *)
Definition logged_in (w : world St) (session : oidc_session_t) (params : table) (mode : string) (z' : oidc_session_t) : Prop :=
  exists s ps p ws jwt params' claims user,
    apr_table_get params OIDC_PROTO_STATE = Some s /\ asked w s ps /\
    (exists w1 w2 : world St, oidc_get_provider_for_issuer ext net rnd c (default "" (oidc_proto_state_get_issuer ps)) false w1 = Some (Some p, w2)) /\
    apr_table_get params OIDC_PROTO_ERROR = None /\
    In ws flows /\ oidc_util_spaced_string_equals (oidc_proto_state_get_response_type ps) (Some (join " " ws)) = Some true /\
    flow_outcome (B:=B) ext net rnd (cfg_proto c) ps p params mode ws jwt params' /\
    (forall u, claims = Some u -> sub_ok (w_req w) (p_sub (payload jwt)) u) /\
    oidc_response_set_request_user c p jwt claims = Some user /\
    (oidc_proto_state_get_prompt ps = Some OIDC_PROTO_PROMPT_NONE -> remote_user session = None \/ remote_user session = Some user) /\
    remote_user z' = Some user /\ (exists n, uuid z' = oidc_util_rand_hex_str (rnd n) OIDC_SESSION_ID_LEN) /\
    (forall i, oidc_cfg_provider_issuer_get p = Some i -> json_utf8 i = true -> oidc_session_get_issuer z' = Some i) /\
    (keeps_claims (w_req w) -> oidc_session_get_idtoken_claims z' = Some (filtered (p_json (payload jwt)))).

(** Handling the response [params] does not end: this browser asked for it, the flow was completed, and claims which the provider
    answers to its access token name the member that holds them. *)
Definition never_answered (w : world St) (params : table) (mode : string) : Prop :=
  exists s ps p ws jwt params' w1,
    apr_table_get params OIDC_PROTO_STATE = Some s /\ asked w s ps /\ apr_table_get params OIDC_PROTO_ERROR = None /\
    In ws flows /\ flow_outcome (B:=B) ext net rnd (cfg_proto c) ps p params mode ws jwt params' /\
    same_but_out (w_req w) (w_req w1) /\
    unreadable p (apr_table_get params' OIDC_PROTO_ACCESS_TOKEN) (apr_table_get params' OIDC_PROTO_TOKEN_TYPE) (p_sub (payload jwt)) w1.

(** An error page keeps the session. *)
Lemma error_outcome bad ps s ed z (Q : Z * oidc_session_t -> world St -> Prop) w :
  (forall rc w', Q (rc, z) w') -> outcome bad (rc <- oidc_response_authorization_error c ps s ed ;; ret (rc, z)) Q w.
Proof. intros HQ. step rc w1 E1. by apply outcome_ret. Qed.

Lemma login_outcome session params mode w :
  outcome (never_answered w params mode) (oidc_response_process ext net rnd others c restore session params mode)
    (fun res _ => res.2 = session \/ logged_in w session params mode res.2) w.
Proof.
  unfold oidc_response_process. step r w1 E1. injection E1 as <- <-.
  destruct (oidc_response_browser_back _ _ _) as [back r] eqn:Eb. step u w1 E1. injection E1 as _ <-.
  destruct back; [apply outcome_ret; by left|].
  assert (r = w_req w) as -> by (unfold oidc_response_browser_back in Eb; repeat case_match; by injection Eb).
  replace (mk_world (w_req w) (w_cache w) (w_calls w)) with w by by destruct w.
  step m w1 E1. destruct m as [[ok p] ps].
  assert (Hm : outcome (never_answered w params mode) (rc <- oidc_response_handle_state_mismatch c ;; ret (rc, session))
    (fun res _ => res.2 = session \/ logged_in w session params mode res.2) w1) by (step rc w2 E2; apply outcome_ret; by left).
  destruct ok, p as [p|], ps as [ps|]; try exact Hm. clear Hm. apply match_inv in E1 as (s & Es & Ha & Hk & Hp).
  destruct (apr_table_get params OIDC_PROTO_ERROR) as [e|] eqn:Ee; [apply error_outcome; by left|].
  step res w2 E2. destruct res as [[jwt params']|]; [|apply error_outcome; by left].
  pose proof (same_req_flows _ _ _ _ _ _ _ _ _ _ _ E2) as Hr2. apply flows_outcome in E2 as (ws & Hin & Ht & Hf).
  unfold login_user. cbv zeta. apply outcome_bind. 
  apply (outcome_bad (unreadable p (apr_table_get params' OIDC_PROTO_ACCESS_TOKEN) (apr_table_get params' OIDC_PROTO_TOKEN_TYPE) (p_sub (payload jwt)) w2));
    [|intros Hbad; exists s, ps, p, ws, jwt, params', w2; do 5 (split; [done|]); split; [rewrite Hr2; exact Hk|exact Hbad]].
  eapply outcome_mono; [apply retrieve_sub_ok|]. intros [[[txt claims] j] zo] w3 _ [Hr3 Hs]. cbn [fst snd] in Hs.
  assert (He : subprocess_env (w_req w3) = subprocess_env (w_req w)) by (rewrite Hr3, Hr2, Hk; by destruct (w_req w)).
  assert (Hs' : forall u, claims = Some u -> sub_ok (w_req w) (p_sub (payload jwt)) u).
  { intros u0 Hu. specialize (Hs u0 Hu). unfold sub_ok in *. rewrite <- He, Hr3. exact Hs. }
  destruct (oidc_response_set_request_user c p jwt claims) as [user|] eqn:Eu; [|apply error_outcome; by left].
  step r w4 E4. injection E4 as <- <-. step v w4 E4. injection E4 as _ <-.
  destruct (_ && _ && negb _) eqn:Ec; [apply error_outcome; by left|].
  apply outcome_total; [apply total_establish|]. intros [rc z'] w5 E5. right. apply establish_inv in E5 as (Hu & Hru & Hi & Hc). cbn [snd w_req lg_user lg_jwt] in *.
  destruct Hp as (w6 & Hp). exists s, ps, p, ws, jwt, params', claims, user. split_and!; try done.
  - by exists w6, w1.
  - intros Hn. rewrite Hn in Ec. destruct (remote_user session) as [u'|]; [|by left]. right. cbn in Ec. apply negb_false_iff, Z.eqb_eq, strcmp_eq in Ec. by subst.
  - intros Hkc. apply Hc. unfold keeps_claims in *. rewrite <- Hkc, <- He. by destruct (w_req w3).
Qed.
End established.

(** C6: a response of the provider gives a session only to the user of a valid ID token.  Either the session stays as it was, or this
    browser holds the cookie of the state in the response, which has not timed out; the ID token was accepted in the flow that was
    asked for, from the provider that was asked and with the nonce of the state; claims of the userinfo endpoint are
    those of its subject; the user is the one that it names, and with prompt=none the one of before; and the new session has a fresh
    identifier, this user, this issuer and these claims.  Handling a response ends, with one exception: the browser asked for it and the flow
    was completed, but then the request of userinfo does not return, because claims which the provider answers to this access token name the member
    that holds them. *)
Theorem login_sound {J : Jansson} {JS : JanssonSpec J} {O : Jose} {OS : JoseSpec O} {B64 : Base64} {C : Cjose J} {CE : CjoseExport C}
  {D : Digest} {Zl : Zlib} {H : Httpd} {HS : HttpdSpec H} {E : CfgEnv C} {Mem : CryptoMemcmp} {MS : CryptoMemcmpSpec Mem} {P : Pcre} {PS : PcreSubst P}
  {St : Type} {B : CacheBackend St} {Dk : Disk St} (ext : nat -> env) (net : nat -> network) (rnd : nat -> rng) (others : nat -> St -> St)
  (c : oidc_cfg_t C) (restore : option string) (session : oidc_session_t) (params : table) (mode : string) (w : world St) :
  match oidc_response_process ext net rnd others c restore session params mode w with
  | Some ((_, z'), _) => z' = session \/ logged_in (B:=B) ext net rnd c w session params mode z'
  | None => never_answered (B:=B) ext net rnd c w params mode
  end.
Proof.
  pose proof (login_outcome ext net rnd others c restore session params mode w) as Ho. unfold outcome in Ho.
  by destruct (oidc_response_process _ _ _ _ _ _ _ _ _ _) as [[[rc z'] w']|].
Qed.

(** ** Witnesses *)

Section demo.
#[local] Existing Instances Model.jansson Model.jansson_spec JoseModel.jose JoseModel.jose_spec Base64Model.base64 Base64Model.base64_spec CjoseModel.cjose
  CjoseModel.digest CjoseModel.zlib ExportModel.export HttpdModel.httpd HttpdModel.httpd_spec CfgModel.cfg_env FilesModel.disk demo_memcmp demo_memcmp_spec.
#[local] Instance demo_login_backend : CacheBackend (ShmCache.header * fs) := FilesModel.cache (B:=shm_backend 65536).
#[local] Instance demo_pcre : Pcre := {| pcre := string; pcre_compile := Some; pcre_exec p s := String.eqb p s |}.
#[local] Instance demo_pcre_subst : PcreSubst demo_pcre := {| pcre_substring _ s _ := Some s; pcre_substitute _ _ r := Some (1, r) |}.

Definition demo_login_cfg : oidc_cfg_t CjoseModel.cjose :=
  let cfg := demo_cfg None in
  mk_cfg (mk_proto_cfg _ CjoseModel.cjose (pc_cache demo_rp_cfg) (pc_client demo_rp_cfg) (pc_http_timeout_long demo_rp_cfg)
      (pc_http_timeout_short demo_rp_cfg) (pc_outgoing_proxy demo_rp_cfg) None None None 0 (pc_redirect_uri demo_rp_cfg) None (demo_op OIDC_DPOP_MODE_OFF))
    (cfg_session cfg) (cfg_state cfg) 0 None 0 300 (cfg_remote_user_claim cfg) None (cfg_scrub cfg) None 0 None None OIDC_SAMESITE_COOKIE_LAX None None None 0 None.
Definition demo_login_state : Model.jv :=
  Model.JObj [("n", Model.JStr "n-0"); ("rt", Model.JStr "id_token"); ("ou", Model.JStr "/p"); ("t", Model.JInt 1000)].
Definition demo_login_value : string :=
  default EmptyString (oidc_state_browser_fingerprint (cfg_state demo_login_cfg) demo_agent (Some "n-0")).
(** The request of the browser with the cookie. *)
Definition demo_login_request : request :=
  match oidc_request_authorization_set_cookie (St:=unit) (demo_id_clock 1000) (cfg_state demo_login_cfg) demo_login_value demo_login_state (mk_world demo_agent tt 0) with
  | Some (_, w) =>
      match last (map set_cookie_pair (set_cookies (w_req w))) with
      | Some kv => with_headers_in [("User-Agent", "UA"); ("Cookie", cookie_string kv)] demo_request
      | None => demo_request
      end
  | None => demo_request
  end.
Definition demo_login_world : world (ShmCache.header * fs) := mk_world demo_login_request (w_cache demo_world, ∅) 0.
Definition demo_anonymous : oidc_session_t := mk_session (Some "old") None None 0 None None.
Abbreviation demo_login :=
  (oidc_response_process (demo_id_clock 1010) (fun _ => demo_network EmptyString) demo_rnd (fun _ st => st) demo_login_cfg None demo_anonymous
     [("id_token", demo_id_token); ("state", demo_login_value)] "fragment" demo_login_world).

Lemma login_sound_witness : exists z' w', demo_login = Some ((302, z'), w') /\ remote_user z' = Some "joe@op" /\
  logged_in (B:=demo_login_backend) (demo_id_clock 1010) (fun _ => demo_network EmptyString) demo_rnd demo_login_cfg demo_login_world demo_anonymous
    [("id_token", demo_id_token); ("state", demo_login_value)] "fragment" z'.
Proof.
  assert (E : (fun x => (x.1.1, remote_user x.1.2)) <$> demo_login = Some (302, Some "joe@op")) by (vm_compute; reflexivity).
  pose proof (login_sound (demo_id_clock 1010) (fun _ => demo_network EmptyString) demo_rnd (fun _ st => st) demo_login_cfg None demo_anonymous
    [("id_token", demo_id_token); ("state", demo_login_value)] "fragment" demo_login_world) as Hs.
  destruct demo_login as [[[rc z'] w']|]; [|discriminate E]. cbn [fmap option_fmap option_map fst snd] in E. injection E as -> Eu.
  exists z', w'. split; [reflexivity|]. split; [exact Eu|]. destruct Hs as [->|Hl]; [discriminate Eu|exact Hl].
Defined.
End demo.
