(* ===== verification/Logout.v ===== *)
(** * src/handle/logout.c and src/handle/revoke.c: ending sessions

    A user logs out here or at the provider.  The provider says so through the browser of the user (front channel) or with a signed
    token that it posts (back channel); a session is then found by the subject or the identifier that the provider gave it. *)

From S2P Require Import Prelude Cstr Apr StrUtil Jansson Json Http Html Form Url Cookie Base64 Jose Jwt Util ShmCache Cache World.
From S2P Require Import HttpClient Cjose Jwk Jwe JoseLib Jws Pkce Provider ProviderSet Profile JwtCheck Jwks IdToken ClientAuth Token ProtoState Response AuthRequest.
From S2P Require Import Session SessionAttr State Authz Redirect Scrub Files CfgParse Config AppInfo Dir Metadata MetadataConf ProviderLookup Request Pass Refresh Userinfo UserinfoHandle Login.
#[local] Open Scope Z_scope.

Definition OIDC_GET_STYLE_LOGOUT_PARAM_VALUE : string := "get".
Definition OIDC_IMG_STYLE_LOGOUT_PARAM_VALUE : string := "img".
Definition OIDC_BACKCHANNEL_STYLE_LOGOUT_PARAM_VALUE : string := "backchannel".
Definition OIDC_REDIRECT_URI_REQUEST_LOGOUT : string := "logout".
Definition OIDC_REDIRECT_URI_REQUEST_SID : string := "sid".
Definition OIDC_REDIRECT_URI_REQUEST_ISS : string := "iss".
Definition OIDC_REDIRECT_URI_REQUEST_REVOKE_SESSION : string := "revoke_session".
Definition OIDC_REDIRECT_URI_REQUEST_REMOVE_AT_CACHE : string := "remove_at_cache".
Definition OIDC_CLAIM_EVENTS : string := "events".
Definition OIDC_EVENTS_BLOGOUT_KEY : string := "http://schemas.openid.net/event/backchannel-logout".
Definition OIDC_PROTO_LOGOUT_TOKEN : string := "logout_token".
Definition OIDC_PROTO_TOKEN_TYPE_HINT : string := "token_type_hint".
Definition OIDC_PROTO_TOKEN : string := "token".
Definition OIDC_DONT_REVOKE_TOKENS_BEFORE_LOGOUT_ENVVAR : string := "OIDC_DONT_REVOKE_TOKENS_BEFORE_LOGOUT".
Definition OIDC_TOKEN_REVOCATION_AUD_ENV_VAR : string := "OIDC_TOKEN_REVOCATION_AUD".
Definition OIDC_REFRESH_TOKENS_BEFORE_LOGOUT_ENVVAR : string := "OIDC_REFRESH_TOKENS_BEFORE_LOGOUT".
Definition OIDC_HTTP_HDR_P3P : string := "P3P".
Definition OIDC_HTTP_HDR_EXPIRES : string := "Expires".
Definition OIDC_HTTP_HDR_X_FRAME_OPTIONS : string := "X-Frame-Options".
Definition OIDC_HTTP_CONTENT_TYPE_IMAGE_PNG : string := "image/png".
Definition OIDC_CACHE_SECTION_JTI : string := "t".
Definition OIDC_CACHE_SECTION_ACCESS_TOKEN : string := "a".
Definition OIDC_LOGOUT_NO_REPEAT : list string := [OIDC_PROTO_LOGOUT_TOKEN].
Definition HTTP_NOT_FOUND : Z := 404.

(** The bytes of a picture, as a machine with little-endian words stores them. *)
Definition oidc_logout_transparent_pixel : list Z :=
  [0x474e5089; 0x0a1a0a0d; 0x0d000000; 0x52444849; 0x01000000; 0x01000000; 0x00000408; 0x0c1cb500; 0x00000002;
   0x4144490b; 0x639c7854; 0x0000cffa; 0x02010702; 0x71311c9a; 0x00000000; 0x444e4549; 0x826042ae].
Definition pixel_bytes : string := Pkce.str_of_bytes (concat (map (le_bytes 4) oidc_logout_transparent_pixel)).

Definition oidc_logout_is_front_channel (logout_param_value : option string) : bool :=
  nonnull logout_param_value && ((_oidc_strcmp logout_param_value (Some OIDC_GET_STYLE_LOGOUT_PARAM_VALUE) =? 0) ||
                                 (_oidc_strcmp logout_param_value (Some OIDC_IMG_STYLE_LOGOUT_PARAM_VALUE) =? 0)).

Definition oidc_logout_is_back_channel (logout_param_value : option string) : bool :=
  nonnull logout_param_value && (_oidc_strcmp logout_param_value (Some OIDC_BACKCHANNEL_STYLE_LOGOUT_PARAM_VALUE) =? 0).

Definition oidc_logout_url_append (url suffix : string) : string := url ^^ (if nonnull (strchr url "?") then "&" else "?") ^^ suffix.

#[local] Open Scope world_scope.

Section logout.
Context {J : Jansson} {O : Jose} {B64 : Base64} {C : Cjose J} {CE : CjoseExport C} {D : Digest} {Zl : Zlib} {H : Httpd} {E : CfgEnv C}.
Context {P : Pcre} {St : Type} {B : CacheBackend St} {Dk : Disk St}.
Variables (ext : nat -> env) (net : nat -> network) (rnd : nat -> rng) (others : nat -> St -> St) (c : oidc_cfg_t C).
Variables (apr_uri_unparse : apr_uri_t -> string) (post : body).

Definition oidc_cache_get_jti := cache_get (St:=St) ext (pc_cache (cfg_proto c)) OIDC_CACHE_SECTION_JTI.
Definition oidc_cache_set_jti := cache_set (St:=St) ext (pc_cache (cfg_proto c)) OIDC_CACHE_SECTION_JTI.
Definition oidc_cache_get_access_token := cache_get (St:=St) ext (pc_cache (cfg_proto c)) OIDC_CACHE_SECTION_ACCESS_TOKEN.
Definition oidc_cache_set_access_token := cache_set (St:=St) ext (pc_cache (cfg_proto c)) OIDC_CACHE_SECTION_ACCESS_TOKEN.

(** ** Revoking the tokens of a session *)

(** The parameters, which other tokens are revoked with. *)
Definition oidc_logout_revoke_one_token (provider : oidc_provider_t) (a : client_auth) (token_type_hint : string) (token : option string)
  : M St client_auth :=
  match token with
  | None => ret a
  | Some token =>
      let params := apr_table_set (apr_table_set (ca_params a) OIDC_PROTO_TOKEN_TYPE_HINT token_type_hint) OIDC_PROTO_TOKEN token in
      '_ <- http_post_form net (cfg_proto c) (provider_args (cfg_proto c) provider (ca_basic a) (ca_bearer a) None)
              (oidc_cfg_provider_revocation_endpoint_url_get provider) params ∅ ;;
      ret (mk_auth (apr_table_unset (apr_table_unset params OIDC_PROTO_TOKEN_TYPE_HINT) OIDC_PROTO_TOKEN) (ca_basic a) (ca_bearer a))
  end.

Definition oidc_logout_revoke_tokens (session : oidc_session_t) : M St unit :=
  provider <- oidc_get_provider_from_session ext net rnd c session ;;
  match (provider : option oidc_provider_t) with
  | None => ret tt
  | Some provider =>
      r <- get_req ;;
      let url := oidc_cfg_provider_revocation_endpoint_url_get provider in
      if nonnull (apr_table_get (subprocess_env r) OIDC_DONT_REVOKE_TOKENS_BEFORE_LOGOUT_ENVVAR) then ret tt
      else if negb (nonnull url) || (_oidc_strcmp url (Some "") =? 0) then ret tt
      else
        '(ok, a) <- oidc_proto_token_endpoint_auth ext rnd (cfg_proto c) (oidc_cfg_provider_token_endpoint_auth_get provider)
                      (oidc_cfg_provider_token_endpoint_auth_alg_get provider) (oidc_cfg_provider_client_id_get provider)
                      (oidc_cfg_provider_client_secret_get provider) (oidc_cfg_provider_client_keys_get provider)
                      (oidc_proto_profile_revocation_endpoint_auth_aud provider (apr_table_get (subprocess_env r) OIDC_TOKEN_REVOCATION_AUD_ENV_VAR))
                      None (mk_auth [] None None) ;;
        if negb (ok : bool) then ret tt
        else
          a <- oidc_logout_revoke_one_token provider a OIDC_PROTO_REFRESH_TOKEN (oidc_session_get_refresh_token session) ;;
          '_ <- oidc_logout_revoke_one_token provider a OIDC_PROTO_ACCESS_TOKEN (oidc_session_get_access_token session) ;;
          ret tt
  end.

(** ** Ending the session of an identifier *)

(** The indexes of a session that was found. *)
Definition clear_indexes (session : oidc_session_t) : M St unit :=
  '_ <- (match Session.sid session with Some i => oidc_cache_set_sid ext (cfg_session c) (Some i) None 0 | None => ret true end) ;;
  '_ <- (match Session.sub session with Some i => oidc_cache_set_sid ext (cfg_session c) (Some i) None 0 | None => ret true end) ;;
  ret tt.

(** [TRUE] when there is no session. *)
Definition oidc_logout_cleanup_by_sid (sid : string) (provider : oidc_provider_t) (revoke_tokens : bool) : M St bool :=
  let sid := oidc_response_make_sid_iss_unique (Some sid) (oidc_cfg_provider_issuer_get provider) in
  '(_, uuid) <- oidc_cache_get_sid ext (cfg_session c) (Some sid) ;;
  match (uuid : option string) with
  | None => '_ <- respond (fun r => (0, with_user (Some "") r)) ;; ret true
  | Some uuid =>
      '(loaded, session) <-
        (if oidc_cfg_session_type_get c =? OIDC_SESSION_TYPE_CLIENT_COOKIE then ret (false, mk_session None None None 0 None None)
         else
           '(ok, session) <- oidc_session_load_cache_by_uuid ext (cfg_session c) uuid (mk_session None None None 0 None None) ;;
           if ok : bool then oidc_session_extract ext (cfg_session c) session else ret (false, session)) ;;
      '_ <- (if loaded && revoke_tokens then oidc_logout_revoke_tokens session else ret tt) ;;
      '_ <- oidc_cache_set_sid ext (cfg_session c) (Some sid) None 0 ;;
      '_ <- (if loaded : bool then clear_indexes session else ret tt) ;;
      '_ <- oidc_cache_set_session ext (cfg_session c) (Some uuid) None 0 ;;
      '_ <- respond (fun r => (0, with_user (Some "") r)) ;;
      ret false
  end.

(** ** The front channel *)

(** The provider and [*sid]. *)
Definition oidc_logout_request_front_channel_provider : M St (option oidc_provider_t * option string) :=
  r <- get_req ;;
  match oidc_util_url_parameter_get r OIDC_REDIRECT_URI_REQUEST_SID with
  | None => ret (None, None)
  | Some sid =>
      provider <- (match oidc_util_url_parameter_get r OIDC_REDIRECT_URI_REQUEST_ISS with
                   | Some iss => oidc_get_provider_for_issuer ext net rnd c iss false
                   | None => oidc_provider_static_config ext net c
                   end) ;;
      ret (provider, Some sid)
  end.

Definition oidc_logout_request_front_channel (url : option string) (no_session_provided : bool) : M St Z :=
  '_ <- (if no_session_provided then
           '(provider, sid) <- oidc_logout_request_front_channel_provider ;;
           match (provider : option oidc_provider_t), (sid : option string) with
           | Some provider, Some sid => oidc_logout_cleanup_by_sid sid provider false
           | _, _ => ret false
           end
         else ret false) ;;
  respond (fun r =>
    let r := oidc_http_set_no_cache_headers r in
    let r := oidc_http_hdr_err_out_add r OIDC_HTTP_HDR_P3P "CAO PSA OUR" in
    let r := oidc_http_hdr_err_out_add r OIDC_HTTP_HDR_EXPIRES "0" in
    let r := oidc_http_hdr_err_out_add r OIDC_HTTP_HDR_X_FRAME_OPTIONS (oidc_cfg_logout_x_frame_options_get c) in
    let accept := oidc_http_hdr_in_accept_get r in
    if (_oidc_strcmp url (Some OIDC_IMG_STYLE_LOGOUT_PARAM_VALUE) =? 0) ||
       (nonnull accept && nonnull (_oidc_strstr accept (Some OIDC_HTTP_CONTENT_TYPE_IMAGE_PNG)))
    then oidc_util_http_content_prep r (Some pixel_bytes) (zlen pixel_bytes) (Some OIDC_HTTP_CONTENT_TYPE_IMAGE_PNG)
    else oidc_util_html_content_prep r OIDC_REQUEST_STATE_KEY_HTML (Some "Logged Out") None None (Some "<p>Logged Out</p>")).

(** The status and the session. *)
Definition oidc_logout_request (session : oidc_session_t) (url : option string) (revoke_tokens : bool) : M St (Z * oidc_session_t) :=
  let no_session_provided := negb (nonnull (remote_user session)) in
  '_ <- (if negb no_session_provided && revoke_tokens then oidc_logout_revoke_tokens session else ret tt) ;;
  '(_, session) <- oidc_session_kill ext (cfg_session c) session ;;
  if oidc_logout_is_front_channel url then
    rc <- oidc_logout_request_front_channel url no_session_provided ;; ret (rc, session)
  else
    rc <- respond (fun r =>
      let r := oidc_http_set_no_cache_headers r in
      match url with
      | None => oidc_util_html_content_prep r OIDC_REQUEST_STATE_KEY_HTML (Some "Logged Out") None None (Some "<p>Logged Out</p>")
      | Some _ => (HTTP_MOVED_TEMPORARILY, oidc_http_hdr_out_location_set r url)
      end) ;;
    ret (rc, session).

(** ** The back channel *)

(** A step of checking gives a result, or [HTTP_BAD_REQUEST]. *)
Definition oidc_logout_backchannel_read_token : M St (option string) :=
  r <- get_req ;;
  '(ok, params, r) <- lift (oidc_util_read_post_params_reject_dup post r [] false None (Some OIDC_LOGOUT_NO_REPEAT)) ;;
  '_ <- put_req r ;;
  ret (if ok : bool then apr_table_get params OIDC_PROTO_LOGOUT_TOKEN else None).

(** A token that is signed. *)
Definition oidc_logout_backchannel_parse_jwt (logout_token : string) : option oidc_jwt_t :=
  let '(_, alg, _, _) := Jwe.oidc_proto_jwt_header_peek (Some logout_token) in
  let jwk := mjoin (oidc_util_key_symmetric_create (oidc_cfg_provider_client_secret_get (oidc_cfg_provider_get c)) (oidc_alg2keysize alg)
                      (Some OIDC_JOSE_ALG_SHA256) true) in
  jwt ← oidc_jwt_parse logout_token (Some (oidc_util_key_symmetric_merge (oidc_cfg_private_keys_get c) jwk)) false;
  if negb (nonnull (hdr_alg (header jwt))) || (_oidc_strcmp (hdr_alg (header jwt)) (Some "none") =? 0) then None else Some jwt.

Definition oidc_logout_backchannel_get_provider (jwt : oidc_jwt_t) : M St (option oidc_provider_t) :=
  provider <- oidc_get_provider_for_issuer ext net rnd c (default "" (p_iss (payload jwt))) false ;;
  ret (p ← provider;
       let alg := oidc_cfg_provider_id_token_signed_response_alg_get p in
       if nonnull alg && negb (_oidc_strcmp alg (hdr_alg (header jwt)) =? 0) then None else Some p).

Definition oidc_logout_backchannel_verify_jwt (jwt : oidc_jwt_t) (provider : oidc_provider_t) (jwk : option oidc_jwk_t)
  : M St (bool * oidc_jwt_t) :=
  '(ok, jwt) <- oidc_proto_jwt_verify ext net (cfg_proto c) jwt (oidc_cfg_provider_jwks_uri_get provider)
                  (negb (oidc_cfg_provider_ssl_validate_server_get provider =? 0))
                  (Some (oidc_util_key_symmetric_merge (oidc_cfg_provider_verify_public_keys_get provider) jwk))
                  (oidc_cfg_provider_id_token_signed_response_alg_get provider) ;;
  if negb (ok : bool) then ret (false, jwt)
  else
    ok <- oidc_proto_jwt_validate ext jwt
            (if oidc_cfg_provider_validate_issuer_get provider =? 0 then None else oidc_cfg_provider_issuer_get provider)
            false true (oidc_cfg_provider_idtoken_iat_slack_get provider) ;;
    ret (ok && oidc_proto_idtoken_validate_aud_and_azp provider (payload jwt), jwt).

Definition oidc_logout_backchannel_check_jti_replay (provider : oidc_provider_t) (jwt : oidc_jwt_t) : M St bool :=
  match oidc_json_object_get_string (Some (p_json (payload jwt))) OIDC_CLAIM_JTI None with
  | None => ret false
  | Some jti =>
      '(_, replay) <- oidc_cache_get_jti (Some jti) ;;
      if nonnull replay then ret false
      else
        let jti_cache_duration := apr_time_from_sec (oidc_cfg_provider_idtoken_iat_slack_get provider * 2 + 10) in
        t <- apr_time_now ext ;;
        '_ <- oidc_cache_set_jti (Some jti) (Some jti) (t + jti_cache_duration) ;;
        ret true
  end.

(** What the claims must be, before the token counts as used. *)
Definition logout_claims_ok (claims : json_t) : bool :=
  let events := oidc_json_object_get (Some claims) OIDC_CLAIM_EVENTS in
  nonnull events && oidc_json_is_object (oidc_json_object_get events OIDC_EVENTS_BLOGOUT_KEY) &&
  negb (nonnull (oidc_json_object_get_string (Some claims) OIDC_CLAIM_NONCE None)).

(** [*sid]. *)
Definition oidc_logout_backchannel_validate_claims (provider : oidc_provider_t) (jwt : oidc_jwt_t) : M St (option string) :=
  if negb (logout_claims_ok (p_json (payload jwt))) then ret None
  else
    ok <- oidc_logout_backchannel_check_jti_replay provider jwt ;;
    if negb (ok : bool) then ret None
    else ret (match oidc_json_object_get_string (Some (p_json (payload jwt))) OIDC_CLAIM_SID None with
              | Some sid => Some sid
              | None => p_sub (payload jwt)
              end).

(** The provider and the identifier of a token that is accepted. *)
Definition backchannel_accept (logout_token : string) : M St (option (oidc_provider_t * string)) :=
  match oidc_logout_backchannel_parse_jwt logout_token with
  | None => ret None
  | Some jwt =>
      provider <- oidc_logout_backchannel_get_provider jwt ;;
      match (provider : option oidc_provider_t) with
      | None => ret None
      | Some provider =>
          match oidc_util_key_symmetric_create (oidc_cfg_provider_client_secret_get provider) 0 None true with
          | None => ret None
          | Some jwk =>
              '(ok, jwt) <- oidc_logout_backchannel_verify_jwt jwt provider jwk ;;
              if negb (ok : bool) then ret None
              else
                sid <- oidc_logout_backchannel_validate_claims provider jwt ;;
                ret (match sid : option string with Some sid => Some (provider, sid) | None => None end)
          end
      end
  end.

Definition oidc_logout_backchannel : M St Z :=
  logout_token <- oidc_logout_backchannel_read_token ;;
  accepted <- (match (logout_token : option string) with Some t => backchannel_accept t | None => ret None end) ;;
  rc <- (match (accepted : option (oidc_provider_t * string)) with
         | Some (provider, sid) => '_ <- oidc_logout_cleanup_by_sid sid provider false ;; ret OK
         | None => ret HTTP_BAD_REQUEST
         end) ;;
  respond (fun r => (rc, oidc_http_set_no_cache_headers r)).

(** ** Single logout *)

(** [TRUE] with the URL, or [FALSE] with the status. *)
Definition oidc_logout_validate_url (url : option string) : M St (option string + Z) :=
  r <- get_req ;;
  if negb (nonnull url) || (_oidc_strcmp url (Some "") =? 0) then
    url <- lift (oidc_util_url_abs r (oidc_cfg_x_forwarded_headers_get c) (oidc_cfg_default_slo_url_get c)) ;; ret (inl url)
  else
    v <- lift (oidc_validate_redirect_url apr_uri_unparse (oidc_cfg_x_forwarded_headers_get c) (oidc_cfg_redirect_urls_allowed_get c) r url
                 OIDC_REDIRECT_URL_SAME_HOST) ;;
    match v with
    | Valid => ret (inl url)
    | Invalid error_str error_description =>
        rv <- respond (fun r => oidc_util_html_send_error r (Some error_str) (Some error_description) HTTP_BAD_REQUEST) ;; ret (inr rv)
    end.

(** The URL at the provider, and the session, whose tokens may have been refreshed. *)
Definition oidc_logout_build_op_request (session : oidc_session_t) (provider : oidc_provider_t) (end_session_endpoint : string)
  (post_logout_url : option string) : M St (string * oidc_session_t) :=
  r <- get_req ;;
  '(id_token_hint, session) <-
    (if nonnull (apr_table_get (subprocess_env r) OIDC_REFRESH_TOKENS_BEFORE_LOGOUT_ENVVAR) then
       '(_, session, (_, _, id_token)) <- oidc_refresh_token_grant ext net rnd others c session provider ;; ret (id_token, session)
     else ret (oidc_session_get_idtoken session, session)) ;;
  let append name value url := match value with
                               | Some v => oidc_logout_url_append url (name ^^ "=" ^^ oidc_http_url_encode (Some v))
                               | None => url
                               end in
  let url := append OIDC_PROTO_ID_TOKEN_HINT id_token_hint end_session_endpoint in
  let url := append "post_logout_redirect_uri" post_logout_url url in
  let url := match oidc_cfg_provider_logout_request_params_get provider with Some params => oidc_logout_url_append url params | None => url end in
  ret (url, session).

(** The status and the session. *)
Definition oidc_logout (session : oidc_session_t) : M St (Z * oidc_session_t) :=
  r <- get_req ;;
  let url := oidc_util_url_parameter_get r OIDC_REDIRECT_URI_REQUEST_LOGOUT in
  if oidc_logout_is_front_channel url then oidc_logout_request session url true
  else if oidc_logout_is_back_channel url then rc <- oidc_logout_backchannel ;; ret (rc, session)
  else
    v <- oidc_logout_validate_url url ;;
    match v with
    | inr rv => ret (rv, session)
    | inl url =>
        provider <- oidc_get_provider_from_session ext net rnd c session ;;
        '(url, session) <-
          (match p ← provider; e ← oidc_cfg_provider_end_session_endpoint_get p; Some (p, e) with
           | Some (p, e) => '(url, session) <- oidc_logout_build_op_request session p e url ;; ret (Some url, session)
           | None => ret (url, session)
           end) ;;
        oidc_logout_request session url true
    end.

(** ** Revoking *)

Definition oidc_revoke_session : M St Z :=
  r <- get_req ;;
  match oidc_util_url_parameter_get r OIDC_REDIRECT_URI_REQUEST_REVOKE_SESSION with
  | None => ret HTTP_BAD_REQUEST
  | Some session_id =>
      rc <- (if oidc_cfg_session_type_get c =? OIDC_SESSION_TYPE_SERVER_CACHE
             then oidc_cache_set_session ext (cfg_session c) (Some session_id) None 0 else ret false) ;;
      respond (fun r => (if rc : bool then OK else HTTP_INTERNAL_SERVER_ERROR, with_user (Some "") r))
  end.

Definition oidc_revoke_at_cache_remove : M St Z :=
  r <- get_req ;;
  match oidc_util_url_parameter_get r OIDC_REDIRECT_URI_REQUEST_REMOVE_AT_CACHE with
  | None => ret HTTP_BAD_REQUEST
  | Some access_token =>
      '(_, cache_entry) <- oidc_cache_get_access_token (Some access_token) ;;
      if negb (nonnull cache_entry) then ret HTTP_NOT_FOUND
      else '_ <- oidc_cache_set_access_token (Some access_token) None 0 ;; ret OK
  end.
End logout.
