(* ===== verification/LogoutProps.v ===== *)
(** * Properties of src/handle/logout.c

    Which tokens of the back channel end a session, that such a token works once, and that the session is gone afterwards. *)

From Stdlib Require Import QArith.
From S2P Require Import Prelude Cstr Apr StrUtil Jansson Json Http Html Form Url Cookie Base64 Jose Jwt Util ShmCache ShmSpec Cache World.
From S2P Require Import HttpClient Cjose Jwk Jwe JoseLib Jws Pkce Provider ProviderSet Profile JwtCheck Jwks IdToken IdTokenProps ClientAuth Token ProtoState Response AuthRequest.
From S2P Require Import Session SessionAttr SessionProps State StateProps Authz Redirect Scrub Files CfgParse Config AppInfo Dir Metadata MetadataConf MetadataProps MetadataSpec ProviderLookup Request RequestProps Pass.
From S2P Require Import Refresh RefreshProps Userinfo UserinfoHandle Outcome Returns Login LoginProps Logout.
#[local] Open Scope Z_scope.
#[local] Open Scope world_scope.

(** ** What terminates *)

Lemma total_jti_cache {J : Jansson} {O : Jose} {B64 : Base64} {C : Cjose J} {St : Type} {B : CacheBackend St} ext (c : oidc_cfg_t C) :
  (forall k, total (St:=St) (oidc_cache_get_jti ext c k)) /\ (forall k v e, total (St:=St) (oidc_cache_set_jti ext c k v e)).
Proof. split; intros; [apply total_cache_get|apply total_cache_set]. Qed.

Section total_logout.
Context {J : Jansson} {JS : JanssonSpec J} {O : Jose} {OS : JoseSpec O} {B64 : Base64} {C : Cjose J} {CE : CjoseExport C} {D : Digest} {Zl : Zlib}.
Context {H : Httpd} {HS : HttpdSpec H} {E : CfgEnv C} {P : Pcre}.
Context {St : Type} {B : CacheBackend St} {Dk : Disk St}.
Variables (ext : nat -> env) (net : nat -> network) (rnd : nat -> rng) (others : nat -> St -> St) (c : oidc_cfg_t C).
Variables (unparse : apr_uri_t -> string) (post : body).
Implicit Types (w : world St).

Lemma total_get_session_provider z : total (St:=St) (oidc_get_provider_from_session ext net rnd c z).
Proof. unfold oidc_get_provider_from_session. total_auto. Qed.

Lemma total_revoke_one p a h t : total (St:=St) (oidc_logout_revoke_one_token net c p a h t).
Proof. unfold oidc_logout_revoke_one_token. cbv zeta. total_auto. Qed.
Hint Resolve total_get_session_provider total_revoke_one total_token_endpoint_auth : total.

Lemma total_revoke_tokens z : total (St:=St) (oidc_logout_revoke_tokens ext net rnd c z).
Proof. unfold oidc_logout_revoke_tokens. cbv zeta. total_auto. Qed.

Lemma total_get_sid k : total (St:=St) (oidc_cache_get_sid ext (cfg_session c) k).
Proof. apply total_cache_get. Qed.

Lemma total_set_sid k v e : total (St:=St) (oidc_cache_set_sid ext (cfg_session c) k v e).
Proof. apply total_cache_set. Qed.

Lemma total_get_session k : total (St:=St) (oidc_cache_get_session ext (cfg_session c) k).
Proof. apply total_cache_get. Qed.

Lemma total_set_session k v e : total (St:=St) (oidc_cache_set_session ext (cfg_session c) k v e).
Proof. apply total_cache_set. Qed.
Hint Resolve total_revoke_tokens total_get_sid total_set_sid total_get_session total_set_session : total.

Lemma total_load_by_uuid i z : total (St:=St) (oidc_session_load_cache_by_uuid ext (cfg_session c) i z).
Proof. unfold oidc_session_load_cache_by_uuid. total_auto. Qed.

Lemma total_extract z : total (St:=St) (oidc_session_extract ext (cfg_session c) z).
Proof. unfold oidc_session_extract. cbv zeta. total_auto. Qed.
Hint Resolve total_load_by_uuid total_extract : total.

Lemma total_cleanup s p b : total (St:=St) (oidc_logout_cleanup_by_sid ext net rnd c s p b).
Proof. unfold oidc_logout_cleanup_by_sid, clear_indexes. cbv zeta. total_auto. Qed.
Hint Resolve total_cleanup : total.

Lemma total_logout_request z u b : total (St:=St) (oidc_logout_request ext net rnd c z u b).
Proof.
  unfold oidc_logout_request, oidc_logout_request_front_channel, oidc_logout_request_front_channel_provider. cbv zeta. total_auto.
Qed.

Lemma form_params_total t d nr : is_Some (oidc_util_read_form_encoded_params_impl t d nr).
Proof. destruct d as [s|]; [|by eexists]. unfold oidc_util_read_form_encoded_params_impl. destruct (form_words_total s) as [ws ->]. by eexists. Qed.

Lemma post_params_total b r t pr st nr : is_Some (oidc_util_read_post_params_impl b r t pr st nr).
Proof.
  unfold oidc_util_read_post_params_impl. destruct (_ || _); [by eexists|]. destruct (oidc_util_read b); [|by eexists].
  destruct (form_params_total t (Some s) nr) as [[rc t'] ->]. cbn [mbind option_bind]. destruct rc, pr; by eexists.
Qed.

Lemma total_post_params b r t pr st nr : total (St:=St) (lift (oidc_util_read_post_params_reject_dup b r t pr st nr)).
Proof. apply total_lift, post_params_total. Qed.
Hint Resolve total_post_params total_logout_request : total.

Lemma total_read_logout_token : total (St:=St) (oidc_logout_backchannel_read_token post).
Proof. unfold oidc_logout_backchannel_read_token. total_auto. Qed.

Lemma total_check_jti p j : total (St:=St) (oidc_logout_backchannel_check_jti_replay ext c p j).
Proof.
  unfold oidc_logout_backchannel_check_jti_replay. cbv zeta. destruct (total_jti_cache ext c) as [Hg Hs].
  pose proof (fun k => Hg (Some k)). pose proof (fun k v e => Hs (Some k) v e). total_auto; by auto.
Qed.
Hint Resolve total_read_logout_token total_check_jti : total.

Lemma total_accept t : total (St:=St) (backchannel_accept ext net rnd c t).
Proof.
  unfold backchannel_accept, oidc_logout_backchannel_get_provider, oidc_logout_backchannel_verify_jwt, oidc_logout_backchannel_validate_claims.
  cbv zeta. total_auto.
Qed.
Hint Resolve total_accept : total.

Lemma total_backchannel : total (St:=St) (oidc_logout_backchannel ext net rnd c post).
Proof. unfold oidc_logout_backchannel. cbv zeta. total_auto. Qed.

Lemma total_validate_redirect r u s :
  total (St:=St) (lift (oidc_validate_redirect_url unparse (oidc_cfg_x_forwarded_headers_get c) (oidc_cfg_redirect_urls_allowed_get c) r u s)).
Proof. apply total_lift, validate_redirect_total. Qed.
Hint Resolve total_backchannel total_validate_redirect : total.

(** Logging out always gives an answer. *)
Lemma total_logout z : total (St:=St) (oidc_logout ext net rnd others c unparse post z).
Proof. unfold oidc_logout, oidc_logout_validate_url, oidc_logout_build_op_request. cbv zeta. total_auto. Qed.
End total_logout.

(** ** The tokens of the back channel *)

Section backchannel.
Context {J : Jansson} {JS : JanssonSpec J} {O : Jose} {OS : JoseSpec O} {B64 : Base64} {C : Cjose J} {CE : CjoseExport C} {D : Digest} {Zl : Zlib}.
Context {H : Httpd} {HS : HttpdSpec H} {E : CfgEnv C} {P : Pcre}.
Context {St : Type} {B : CacheBackend St} {Dk : Disk St}.
Variables (ext : nat -> env) (net : nat -> network) (rnd : nat -> rng) (c : oidc_cfg_t C).
Implicit Types (w : world St) (provider : oidc_provider_t) (jwt : oidc_jwt_t).

Lemma object_string_claim (j : json_t) k : oidc_json_object_get_string (Some j) k None = claim_string j k.
Proof.
  unfold oidc_json_object_get_string, claim_string, oidc_json_object_get. cbn [mbind option_bind].
  destruct (json_object_get j k) as [v|]; [|done]. destruct (oidc_json_is_string (Some v)) eqn:Es; [done|].
  cbn. destruct (json_string_value v) eqn:Ev; [|done]. assert (oidc_json_is_string (Some v) = true); [|congruence].
  apply is_string_value. by eexists.
Qed.

(** What the cache says about the identifier of a token, and the store that remembers it. *)
Definition jti_seen w (jti : string) : option string :=
  (oidc_cache_get (ext (w_calls w)) (pc_cache (cfg_proto c)) (w_req w) OIDC_CACHE_SECTION_JTI (Some jti) (w_cache w)).1.2.
Definition jti_store provider w (jti : string) : bool * St :=
  oidc_cache_set (ext (S (S (w_calls w)))) (pc_cache (cfg_proto c)) (w_req w) OIDC_CACHE_SECTION_JTI (Some jti) (Some jti)
    (now (ext (S (w_calls w))) + nonce_duration provider)
    (oidc_cache_get (ext (w_calls w)) (pc_cache (cfg_proto c)) (w_req w) OIDC_CACHE_SECTION_JTI (Some jti) (w_cache w)).2.

Lemma check_jti_true provider jwt w w' : oidc_logout_backchannel_check_jti_replay ext c provider jwt w = Some (true, w') ->
  exists jti, claim_string (p_json (payload jwt)) OIDC_CLAIM_JTI = Some jti /\ jti_seen w jti = None /\ w_req w' = w_req w /\
    w_cache w' = (jti_store provider w jti).2.
Proof.
  unfold oidc_logout_backchannel_check_jti_replay. rewrite object_string_claim.
  destruct (claim_string _ _) as [jti|]; [|done]. unfold oidc_cache_get_jti, cache_get, bind at 1, jti_seen, jti_store.
  destruct (oidc_cache_get _ _ _ _ _ _) as [[ok replay] st] eqn:Eg. cbn [fst snd].
  destruct replay as [x|]; cbn [nonnull]; [done|]. unfold bind, apr_time_now, oidc_cache_set_jti, cache_set. cbn [w_calls w_req w_cache].
  destruct (oidc_cache_set _ _ _ _ _ _ _ _) as [b st1] eqn:Es. intros [= <-]. exists jti. rewrite Eg. cbn [fst snd].
  unfold nonce_duration. by rewrite Es.
Qed.

(** What the claims of a logout token are. *)
Definition logout_claims (claims : json_t) : Prop :=
  (exists events event, json_object_get claims OIDC_CLAIM_EVENTS = Some events /\ json_object_get events OIDC_EVENTS_BLOGOUT_KEY = Some event /\
     json_typeof event = JSON_OBJECT) /\ claim_string claims OIDC_CLAIM_NONCE = None.

Lemma logout_claims_spec claims : logout_claims_ok claims = true -> logout_claims claims.
Proof.
  unfold logout_claims_ok. cbv zeta. rewrite !andb_true_iff, object_string_claim, negb_true_iff. intros [[He Ho] Hn].
  split; [|by apply nonnull_false in Hn]. unfold oidc_json_object_get in *. cbn [mbind option_bind] in *.
  destruct (json_object_get claims OIDC_CLAIM_EVENTS) as [events|]; [|done]. cbn [mbind option_bind] in Ho.
  destruct (json_object_get events _) as [event|] eqn:Ev; [|done]. exists events, event. split; [done|]. split; [done|].
  by apply has_type_Some, list_elem_of_singleton in Ho.
Qed.

Lemma validate_claims_some provider jwt w sid w' : oidc_logout_backchannel_validate_claims ext c provider jwt w = Some (Some sid, w') ->
  logout_claims (p_json (payload jwt)) /\ (exists jti, claim_string (p_json (payload jwt)) OIDC_CLAIM_JTI = Some jti /\ jti_seen w jti = None /\
     w_cache w' = (jti_store provider w jti).2) /\ w_req w' = w_req w /\
  (claim_string (p_json (payload jwt)) OIDC_CLAIM_SID = Some sid \/
   claim_string (p_json (payload jwt)) OIDC_CLAIM_SID = None /\ p_sub (payload jwt) = Some sid).
Proof.
  unfold oidc_logout_backchannel_validate_claims. destruct (logout_claims_ok _) eqn:Ec; cbn [negb]; [|done].
  intros (ok & w1 & E1 & E2)%bind_inv. destruct ok; cbn [negb] in E2; [|done]. rewrite object_string_claim in E2.
  apply check_jti_true in E1 as (jti & Hj & Hs & Hr & Hc). split; [by apply logout_claims_spec|].
  unfold ret in E2. injection E2 as E2 <-. split; [by exists jti|]. split; [done|].
  destruct (claim_string (p_json (payload jwt)) OIDC_CLAIM_SID); [left; congruence|by right].
Qed.

Lemma verify_jwt_true jwt provider jwk w jwt' w' : oidc_logout_backchannel_verify_jwt ext net c jwt provider jwk w = Some ((true, jwt'), w') ->
  jwt' = jwt /\
  (exists w1, w_cache w' = w_cache w1 /\ w_calls w' = (2 + w_calls w1)%nat /\
     oidc_proto_jwt_verify ext net (cfg_proto c) jwt (oidc_cfg_provider_jwks_uri_get provider) (negb (oidc_cfg_provider_ssl_validate_server_get provider =? 0))
       (Some (oidc_util_key_symmetric_merge (oidc_cfg_provider_verify_public_keys_get provider) jwk))
       (oidc_cfg_provider_id_token_signed_response_alg_get provider) w = Some ((true, jwt), w1)) /\
  issuer_ok jwt (if oidc_cfg_provider_validate_issuer_get provider =? 0 then None else oidc_cfg_provider_issuer_get provider) = true /\
  validate_iat_at (now (ext (w_calls w' - 1)%nat)) jwt true (oidc_cfg_provider_idtoken_iat_slack_get provider) = true /\
  audience_ok provider (p_json (payload jwt)).
Proof.
  unfold oidc_logout_backchannel_verify_jwt. intros ([ok jwt1] & w1 & E1 & E2)%bind_inv. destruct ok; cbn [negb] in E2; [|done].
  pose proof E1 as Ev. apply proto_jwt_verify_sound in E1 as (-> & _ & _). apply bind_inv in E2 as (b & w2 & E2 & E3).
  destruct (jwt_validate_run ext jwt (if oidc_cfg_provider_validate_issuer_get provider =? 0 then None
    else oidc_cfg_provider_issuer_get provider) false true (oidc_cfg_provider_idtoken_iat_slack_get provider) w1)
    as (b' & w2' & Er & _ & Hc & Hn & Hb). rewrite E2 in Er. injection Er as <- <-.
  unfold ret in E3. injection E3 as Eb <- <-. apply andb_true_iff in Eb as [-> Haud]. destruct (proj1 Hb eq_refl) as (Hi & _ & Hia).
  split; [done|]. split; [exists w1; by rewrite (Hn eq_refl)|]. rewrite (Hn eq_refl). cbn [Nat.add Nat.sub]. split; [done|].
  split; [done|]. by apply aud_and_azp_spec.
Qed.
End backchannel.

(** ** What keeps the cache well-formed *)

Create HintDb keeps_valid.

Definition keeps_valid {St A} {B : CacheBackend St} {BS : CacheBackendSpec B} (m : M St A) : Prop :=
  forall w a w', impl_valid (w_cache w) -> m w = Some (a, w') -> impl_valid (w_cache w').

Section keeps_valid.
Context {O : Jose} {OS : JoseSpec O} {B64 : Base64} {BS64 : Base64Spec B64} {H : Httpd} {St : Type} {B : CacheBackend St} {BS : CacheBackendSpec B}.

Lemma valid_ret {A} (a : A) : keeps_valid (ret a).
Proof. by intros w a' w' Hv [= <- <-]. Qed.

Lemma valid_bind {A B'} (m : M St A) (f : A -> M St B') : keeps_valid m -> (forall a, keeps_valid (f a)) -> keeps_valid (bind m f).
Proof. intros Hm Hf w b w' Hv (a & w1 & E1 & E2)%bind_inv. eapply Hf; [|exact E2]. by eapply Hm. Qed.

Lemma valid_lift {A} (o : option A) : keeps_valid (lift o).
Proof. by intros w a w' Hv [_ ->]%lift_inv. Qed.

Lemma valid_get_req : keeps_valid (St:=St) get_req.
Proof. by intros w a w' Hv [= <- <-]. Qed.

Lemma valid_put_req r : keeps_valid (St:=St) (put_req r).
Proof. intros w a w' Hv E. unfold put_req in E. by simplify_eq. Qed.

Lemma valid_respond f : keeps_valid (St:=St) (respond f).
Proof. intros w a w' Hv. unfold respond. destruct (f (w_req w)). by intros [= <- <-]. Qed.

Lemma valid_now ext : keeps_valid (St:=St) (apr_time_now ext).
Proof. by intros w a w' Hv [= <- <-]. Qed.

Lemma valid_cache_get ext cfg s k : keeps_valid (cache_get ext cfg s k).
Proof.
  intros w a w' Hv. unfold cache_get. destruct (oidc_cache_get _ _ _ _ _ _) as [[ok v] st] eqn:E. intros [= <- <-].
  cbn. change st with (ok, v, st).2. rewrite <- E. by apply cache_get_valid.
Qed.

Lemma valid_cache_set ext cfg s k v ex : keeps_valid (cache_set ext cfg s k v ex).
Proof.
  intros w a w' Hv. unfold cache_set. destruct (oidc_cache_set _ _ _ _ _ _ _ _) as [ok st] eqn:E. intros [= <- <-].
  cbn. change st with (ok, st).2. rewrite <- E. by apply cache_set_valid.
Qed.

Lemma valid_set_cookie cfg n v ex a : keeps_valid (St:=St) (set_cookie cfg n v ex a).
Proof. intros w x w' Hv. unfold set_cookie. destruct (oidc_http_set_cookie _ _ _ _ _ _); [|done]. intros ?. by simplify_eq/=. Qed.

Lemma valid_samesite cfg : keeps_valid (St:=St) (OIDC_HTTP_COOKIE_SAMESITE_NONE cfg).
Proof. intros w x w' Hv. unfold OIDC_HTTP_COOKIE_SAMESITE_NONE. destruct (oidc_util_url_cur_is_secure _ _); [|done]. by intros [= <- <-]. Qed.
End keeps_valid.
#[export] Hint Resolve valid_ret valid_lift valid_get_req valid_put_req valid_respond valid_now valid_cache_get valid_cache_set valid_set_cookie
  valid_samesite : keeps_valid.

Ltac valid_auto := repeat first
  [ solve [auto 2 with keeps_valid nocore]
  | apply valid_bind; [|intros ?]
  | match goal with
    | |- keeps_valid (let '(_, _) := ?p in _) => destruct p
    | |- keeps_valid (match ?x with _ => _ end) => destruct x
    end ].

(** ** The session is gone *)

Section gone.
Context {J : Jansson} {O : Jose} {OS : JoseSpec O} {B64 : Base64} {BS64 : Base64Spec B64} {H : Httpd} {St : Type} {B : CacheBackend St} {BS : CacheBackendSpec B}.
Variables (ext : nat -> env) (c : session_cfg).

Lemma valid_sid k v e : keeps_valid (oidc_cache_get_sid ext c k) /\ keeps_valid (oidc_cache_set_sid ext c k v e).
Proof. split; [apply valid_cache_get|apply valid_cache_set]. Qed.

Lemma valid_session k v e : keeps_valid (oidc_cache_get_session ext c k) /\ keeps_valid (oidc_cache_set_session ext c k v e).
Proof. split; [apply valid_cache_get|apply valid_cache_set]. Qed.

Lemma valid_get_sid k : keeps_valid (oidc_cache_get_sid ext c k).
Proof. apply (valid_sid k None 0). Qed.
Lemma valid_set_sid k v e : keeps_valid (oidc_cache_set_sid ext c k v e).
Proof. apply (valid_sid k v e). Qed.
Lemma valid_get_session k : keeps_valid (oidc_cache_get_session ext c k).
Proof. apply (valid_session k None 0). Qed.
Lemma valid_set_session k v e : keeps_valid (oidc_cache_set_session ext c k v e).
Proof. apply (valid_session k v e). Qed.
Hint Resolve valid_get_sid valid_set_sid valid_get_session valid_set_session : keeps_valid.

Lemma valid_save_cookie z ft : keeps_valid (St:=St) (oidc_session_save_cookie c z ft).
Proof.
  assert (Hk : forall v ex a, keeps_valid (St:=St) (fun w => '(ok, r) ← oidc_http_set_chunked_cookie (s_cookie c) (w_req w) (dir_cookie c) v
      ex (session_cookie_chunk_size c) a; Some (ok, mk_world r (w_cache w) (w_calls w)))).
  { intros v ex a w x w' Hv. destruct (oidc_http_set_chunked_cookie _ _ _ _ _ _ _) as [[ok r]|]; [|done]. by intros [= <- <-]. }
  unfold oidc_session_save_cookie, oidc_session_cookie_samesite. valid_auto; apply Hk.
Qed.
Hint Resolve valid_save_cookie : keeps_valid.

Lemma valid_save z ft : keeps_valid (oidc_session_save ext c z ft).
Proof. unfold oidc_session_save, oidc_session_save_cache, save_index, oidc_session_cookie_samesite. cbv zeta. valid_auto. Qed.
Hint Resolve valid_save : keeps_valid.

Lemma valid_load_extract i z : keeps_valid (oidc_session_load_cache_by_uuid ext c i z) /\ keeps_valid (oidc_session_extract ext c z).
Proof.
  split; [unfold oidc_session_load_cache_by_uuid|unfold oidc_session_extract, oidc_session_kill]; cbv zeta; valid_auto.
Qed.
End gone.

(** What the index of identifiers gives for the session of [sid] at this provider. *)
Definition sid_index {J : Jansson} {O : Jose} {B64 : Base64} {C : Cjose J} {St : Type} {B : CacheBackend St} (ext : nat -> env) (c : oidc_cfg_t C)
  (provider : oidc_provider_t) (sid : string) (w : world St) : option string :=
  (oidc_cache_get (ext (w_calls w)) (s_cache (cfg_session c)) (w_req w) OIDC_CACHE_SECTION_SID
     (Some (oidc_response_make_sid_iss_unique (Some sid) (oidc_cfg_provider_issuer_get provider))) (w_cache w)).1.2.

(** From [w] to [w'] the session of [sid] was ended: it was looked up in the index, and when there is one, nobody can load it any more, unless the
    backend could not remove it. *)
Definition session_ended {J : Jansson} {O : Jose} {B64 : Base64} {C : Cjose J} {St : Type} {B : CacheBackend St} (ext : nat -> env) (c : oidc_cfg_t C)
  (provider : oidc_provider_t) (sid : string) (w w' : world St) : Prop :=
  let cache := s_cache (cfg_session c) in
  forall uuid, sid_index ext c provider sid w = Some uuid ->
    entry_gone cache (w_req w') OIDC_CACHE_SECTION_SESSION (Some uuid) (w_cache w') \/
    removal_refused (ext (pred (w_calls w'))) cache (w_req w') OIDC_CACHE_SECTION_SESSION (Some uuid) (w_cache w').

(** Ending the session of an identifier finds it in the index of identifiers and removes it from the cache. *)
Theorem logout_session_gone {J : Jansson} {JS : JanssonSpec J} {O : Jose} {OS : JoseSpec O} {B64 : Base64} {BS64 : Base64Spec B64} {C : Cjose J}
  {CE : CjoseExport C} {D : Digest} {Zl : Zlib} {H : Httpd} {HS : HttpdSpec H} {E : CfgEnv C} {St : Type} {B : CacheBackend St} {BS : CacheBackendSpec B}
  {Dk : Disk St} (ext : nat -> env) (net : nat -> network) (rnd : nat -> rng) (c : oidc_cfg_t C) (sid : string) (provider : oidc_provider_t) (w : world St) :
  impl_valid (w_cache w) ->
  exists none_found w', oidc_logout_cleanup_by_sid ext net rnd c sid provider false w = Some (none_found, w') /\
    r_user (w_req w') = Some "" /\ none_found = negb (nonnull (sid_index ext c provider sid w)) /\
    session_ended ext c provider sid w w'.
Proof.
  intros Hv. destruct (total_cleanup ext net rnd c sid provider false w) as (b & w' & Er). exists b, w'. split; [exact Er|].
  unfold oidc_logout_cleanup_by_sid in Er. cbv zeta in Er. apply bind_inv in Er as ([ok uuid] & w1 & E1 & E2).
  assert (Hi : sid_index ext c provider sid w = uuid /\ impl_valid (w_cache w1)).
  { split; [|eapply valid_cache_get; [exact Hv|exact E1]]. unfold oidc_cache_get_sid, cache_get in E1. unfold sid_index.
    destruct (oidc_cache_get _ _ _ _ _ _) as [[? ?] ?]. by simplify_eq. }
  unfold session_ended. destruct Hi as [-> Hv1]. destruct uuid as [uuid|]; cbn [nonnull negb].
  2:{ unfold respond, bind, ret in E2. simplify_eq. done. }
  apply bind_inv in E2 as ([loaded z] & w2 & E2 & E3).
  assert (Hv2 : impl_valid (w_cache w2)).
  { revert E2. apply (fun K : keeps_valid _ => K _ _ _ Hv1). destruct (_ =? _); [apply valid_ret|]. apply valid_bind; [apply valid_load_extract|].
    intros [[] ?]; [apply (valid_load_extract _ _ "")|apply valid_ret]. }
  apply bind_inv in E3 as ([] & w3 & Er & E3). rewrite andb_false_r in Er. injection Er as <-.
  apply bind_inv in E3 as (b1 & w4 & E4 & E5). apply bind_inv in E5 as ([] & w5 & E5 & E6).
  assert (Hv5 : impl_valid (w_cache w5)).
  { assert (Hv4 : impl_valid (w_cache w4)) by (eapply valid_set_sid; [|exact E4]; exact Hv2). clear E4.
    revert E5. apply (fun K : keeps_valid _ => K _ _ _ Hv4). unfold clear_indexes.
    pose proof (valid_set_sid (BS:=BS) ext (cfg_session c)). destruct loaded; [|apply valid_ret].
    apply valid_bind; [destruct (Session.sid z); [done|apply valid_ret]|intros _].
    apply valid_bind; [destruct (Session.sub z); [done|apply valid_ret]|intros _]. apply valid_ret. }
  unfold oidc_cache_set_session, cache_set, respond, ret, bind in E6.
  destruct (oidc_cache_set _ _ _ _ _ _ _ _) as [del st] eqn:Es. cbn in E6. simplify_eq. cbn.
  split; [done|]. split; [done|]. intros ? [= <-].
  match goal with |- entry_gone _ ?r _ _ _ \/ _ => pose proof (removal_ends _ _ _ r _ _ _ _ _ eq_refl Hv5 Es) as Hr end.
  destruct del; [by left|by right].
Qed.

(** ** Properties of the back channel *)

(** What a logout token [t] that is accepted in [w] does, up to [w']. *)
Definition logged_out {J : Jansson} {JS : JanssonSpec J} {O : Jose} {B64 : Base64} {C : Cjose J} {CE : CjoseExport C} {D : Digest} {Zl : Zlib}
  {H : Httpd} {E : CfgEnv C} {St : Type} {B : CacheBackend St} {BS : CacheBackendSpec B} {Dk : Disk St}
  (ext : nat -> env) (net : nat -> network) (rnd : nat -> rng) (c : oidc_cfg_t C) (t : string) (w w' : world St) : Prop :=
  exists jwt provider sid jti w1 wv w2 w3,
    oidc_logout_backchannel_parse_jwt c t = Some jwt /\
    (hdr_alg (header jwt) <> None /\ hdr_alg (header jwt) <> Some "none") /\
    oidc_get_provider_for_issuer ext net rnd c (default "" (p_iss (payload jwt))) false w = Some (Some provider, w1) /\
    provider_signed (B:=B) ext net (cfg_proto c) provider jwt w1 wv /\ w_cache w2 = w_cache wv /\ w_calls w2 = (2 + w_calls wv)%nat /\
    (oidc_cfg_provider_validate_issuer_get provider <> 0 -> forall iss, oidc_cfg_provider_issuer_get provider = Some iss ->
       exists iss', p_iss (payload jwt) = Some iss' /\ same_issuer iss iss') /\
    (let now_s := apr_time_sec (now (ext (S (w_calls wv)))) in
     let slack := oidc_cfg_provider_idtoken_iat_slack_get provider in
     0 <= slack <= OIDC_IDTOKEN_IAT_SLACK_MAX ->
     exists q, p_iat (payload jwt) = Fin q /\ (inject_Z (now_s - slack) <= q <= inject_Z (now_s + slack))%Q) /\
    audience_ok provider (p_json (payload jwt)) /\
    logout_claims (p_json (payload jwt)) /\
    (claim_string (p_json (payload jwt)) OIDC_CLAIM_JTI = Some jti /\ jti_seen ext c w2 jti = None /\
     w_cache w3 = (jti_store ext c provider w2 jti).2) /\
    (claim_string (p_json (payload jwt)) OIDC_CLAIM_SID = Some sid \/
     claim_string (p_json (payload jwt)) OIDC_CLAIM_SID = None /\ p_sub (payload jwt) = Some sid) /\
    (impl_valid (w_cache w3) -> session_ended ext c provider sid w3 w').


(** C9: a logout token that ended a session and was stored is refused ever after: while its identifier is kept because it was seen, and
    afterwards because the token is older than the slack allows.  The margin of ten seconds in the code covers a validation
    which takes up to nine. *)
Theorem logout_token_no_replay {J : Jansson} {JS : JanssonSpec J} {O : Jose} {OS : JoseSpec O} {B64 : Base64} {BS64 : Base64Spec B64} {C : Cjose J}
  {CE : CjoseExport C} {D : Digest} {Zl : Zlib} {H : Httpd} {HS : HttpdSpec H} {E : CfgEnv C} {St : Type} {B : CacheBackend St} {BS : CacheBackendSpec B}
  {Dk : Disk St} (ext ext2 : nat -> env) (net net2 : nat -> network) (c : oidc_cfg_t C) (provider : oidc_provider_t) (jwk : option oidc_jwk_t)
  (jwt : oidc_jwt_t) (sid jti : string) (w w1 w2 w3 w4 : world St) :
  (forall k, 0 <= now (ext k) <= INT64_MAX) -> (forall k, 0 <= now (ext2 k) <= INT64_MAX) ->
  0 <= oidc_cfg_provider_idtoken_iat_slack_get provider <= OIDC_IDTOKEN_IAT_SLACK_MAX ->
  impl_valid (w_cache w1) -> (cache_encrypt (pc_cache (cfg_proto c)) = true -> payload_ok (w_req w1) jti) ->
  oidc_logout_backchannel_verify_jwt ext net c jwt provider jwk w = Some ((true, jwt), w1) ->
  oidc_logout_backchannel_validate_claims ext c provider jwt w1 = Some (Some sid, w2) ->
  claim_string (p_json (payload jwt)) OIDC_CLAIM_JTI = Some jti -> (jti_store ext c provider w1 jti).1 = true ->
  now (ext (w_calls w1 - 1)%nat) <= now (ext (S (w_calls w1))) ->
  oidc_logout_backchannel_verify_jwt ext2 net2 c jwt provider jwk w3 = Some ((true, jwt), w4) ->
  w_cache w4 = w_cache w2 ->
  oidc_cache_section_get (w_req w4) OIDC_CACHE_SECTION_JTI = oidc_cache_section_get (w_req w1) OIDC_CACHE_SECTION_JTI ->
  healthy (ext2 (w_calls w4)) -> now (ext2 (w_calls w4)) <= now (ext2 (w_calls w4 - 1)%nat) + 9 * APR_USEC_PER_SEC ->
  exists w5, oidc_logout_backchannel_validate_claims ext2 c provider jwt w4 = Some (None, w5).
Proof.
  intros Hnow Hnow2 Hslack Hv Hpay E1 E2 Hj Hst Hmono E3 Hsame Hsec Hh Hfast.
  destruct (oidc_logout_backchannel_validate_claims ext2 c provider jwt w4) as [[[sid'|] w5]|] eqn:E4; [exfalso|by exists w5|exfalso].
  2:{ revert E4. unfold oidc_logout_backchannel_validate_claims. destruct (negb _); [done|].
      destruct (total_check_jti ext2 c provider jwt w4) as (b & w5 & E5). unfold bind. rewrite E5. by destruct b. }
  apply verify_jwt_true in E1 as (_ & _ & _ & Hia & _), E3 as (_ & _ & _ & Hia2 & _).
  apply validate_claims_some in E2 as (_ & (j & Hj1 & _ & Hcache) & _), E4 as (_ & (j2 & Hj2 & Hseen & _) & _).
  rewrite Hj in Hj1, Hj2. injection Hj1 as <-. injection Hj2 as <-.
  destruct (validate_iat_at_bound _ _ _ (Hnow _) Hslack Hia) as (q & Hq & _ & Hhi).
  destruct (validate_iat_at_bound _ _ _ (Hnow2 _) Hslack Hia2) as (q2 & Hq2 & Hlo & _).
  assert (q2 = q) as -> by congruence.
  destruct (Z.lt_ge_cases (now (ext2 (w_calls w4))) (now (ext (S (w_calls w1))) + nonce_duration provider)) as [Hl|Hl].
  - unfold jti_seen in Hseen. rewrite Hsame, Hcache in Hseen.
    destruct (jti_store ext c provider w1 jti) as [b st] eqn:Es. cbn [fst snd] in Hst, Hseen. subst b.
    assert (Hvalid : impl_valid (oidc_cache_get (ext (w_calls w1)) (pc_cache (cfg_proto c)) (w_req w1) OIDC_CACHE_SECTION_JTI (Some jti) (w_cache w1)).2)
      by (by apply cache_get_valid).
    pose proof (cache_value_read _ _ _ _ _ _ _ _ _ _ _ Hsec Hvalid Hh Hl Hpay Es) as Hr. rewrite Hr in Hseen. done.
  - eapply (iat_windows_apart _ _ (oidc_cfg_provider_idtoken_iat_slack_get provider)); [apply Hnow|apply Hslack| |exact Hlo|exact Hhi].
    unfold nonce_duration, apr_time_from_sec, APR_USEC_PER_SEC in *. lia.
Qed.

(** ** Witnesses *)

Section demo.
#[local] Existing Instances Model.jansson Model.jansson_spec JoseModel.jose JoseModel.jose_spec Base64Model.base64 Base64Model.base64_spec CjoseModel.cjose
  CjoseModel.digest CjoseModel.zlib ExportModel.export HttpdModel.httpd HttpdModel.httpd_spec CfgModel.cfg_env FilesModel.disk AuthzModel.pcre_model demo_memcmp.
#[local] Instance demo_logout_backend : CacheBackend (ShmCache.header * fs) := demo_login_backend.
#[local] Instance demo_logout_backend_spec : CacheBackendSpec demo_logout_backend := FilesModel.cache_spec (BS:=shm_backend_spec 65536).

Definition demo_logout_claims : Model.jv :=
  Model.JObj [("iss", Model.JStr "https://op"); ("sub", Model.JStr "joe"); ("aud", Model.JStr "client"); ("jti", Model.JStr "t-1"); ("iat", Model.JInt 1000);
    ("events", Model.JObj [(OIDC_EVENTS_BLOGOUT_KEY, Model.JObj [])])].
Definition demo_logout_token : string :=
  default EmptyString (CjoseModel.export (CjoseModel.mk_tok false (Model.JObj [("alg", Model.JStr "HS256")]) "secret" (Model.dumps demo_logout_claims))).
Definition demo_logout_jwt : oidc_jwt_t :=
  match oidc_logout_backchannel_parse_jwt demo_login_cfg demo_logout_token with Some jwt => jwt | None => demo_id_jwt end.
Definition demo_logout_body : body :=
  let s := "logout_token=" ^^ oidc_http_url_encode (Some demo_logout_token) in mk_body true true (zlen s) [Some s].
(** A post of the provider, when joe has logged in. *)
Definition demo_logout_request : request :=
  mk_request M_POST (Some "/redirect_uri") "/redirect_uri" (Some "/redirect_uri") None None [("Content-Type", OIDC_HTTP_CONTENT_TYPE_FORM_ENCODED)] [] [] []
    (Some "https") "www.example.com" 443 ∅ None.
Definition demo_logout_world : world (ShmCache.header * fs) :=
  match oidc_response_process (P:=demo_pcre) (PS:=demo_pcre_subst) (demo_id_clock 1010) (fun _ => demo_network EmptyString) demo_rnd (fun _ st => st) demo_login_cfg None demo_anonymous
     [("id_token", demo_id_token); ("state", demo_login_value)] "fragment" demo_login_world with
  | Some (_, w) => mk_world demo_logout_request (w_cache w) 0
  | None => demo_login_world
  end.

Abbreviation demo_net := (fun _ : nat => demo_network EmptyString).
Abbreviation demo_backchannel := (oidc_logout_backchannel (demo_id_clock 1010) demo_net demo_rnd demo_login_cfg demo_logout_body demo_logout_world).

Lemma demo_ok_differs : OK <> HTTP_BAD_REQUEST.
Proof. discriminate. Qed.


Definition demo_fresh : world (ShmCache.header * fs) := mk_world demo_request (demo_store, ∅) 0.

(** The saved session of joe is found and ended. *)
Definition demo_joe : oidc_session_t := mk_session (Some "u-1") (Some "joe") (Some (Model.JObj [])) 2000000000 (Some "joe@https://op") None.
Definition demo_joe_world : world (ShmCache.header * fs) :=
  match oidc_session_save (demo_id_clock 1010) (cfg_session demo_login_cfg) demo_joe OIDC_SESSION_SAVE_NEW demo_fresh with
  | Some (_, w) => mk_world demo_request (w_cache w) 0
  | None => demo_fresh
  end.

Lemma demo_joe_valid : impl_valid (w_cache demo_joe_world).
Proof.
  unfold demo_joe_world. destruct (oidc_session_save _ _ _ _ _) as [[x w]|] eqn:E; [|exact demo_store_valid].
  exact (valid_save (BS:=demo_logout_backend_spec) _ _ _ _ demo_fresh _ _ demo_store_valid E).
Qed.

Lemma logout_session_gone_witness :
  exists w', oidc_logout_cleanup_by_sid (demo_id_clock 1010) demo_net demo_rnd demo_login_cfg "joe" (demo_op 0) false demo_joe_world = Some (false, w') /\
    session_ended (demo_id_clock 1010) demo_login_cfg (demo_op 0) "joe" demo_joe_world w'.
Proof.
  destruct (logout_session_gone (B:=demo_logout_backend) (demo_id_clock 1010) demo_net demo_rnd demo_login_cfg "joe" (demo_op 0) demo_joe_world
    demo_joe_valid) as (b & w' & Er & _ & _ & Hg).
  assert (E : fst <$> oidc_logout_cleanup_by_sid (demo_id_clock 1010) demo_net demo_rnd demo_login_cfg "joe" (demo_op 0) false demo_joe_world = Some false)
    by (vm_compute; reflexivity).
  rewrite Er in E. injection E as ->. exists w'. exact (conj Er Hg).
Defined.

(** A first use of the token, and a second one a minute later in the same cache. *)
Definition demo_jwk : option oidc_jwk_t := default None (oidc_util_key_symmetric_create (Some "secret") 0 None true).
Abbreviation demo_verify ext := (oidc_logout_backchannel_verify_jwt (B:=demo_logout_backend) ext demo_net demo_login_cfg demo_logout_jwt (demo_op 0) demo_jwk).
Abbreviation demo_use ext := (oidc_logout_backchannel_validate_claims (B:=demo_logout_backend) ext demo_login_cfg (demo_op 0) demo_logout_jwt).
Definition demo_verified : world (ShmCache.header * fs) :=
  from_option snd demo_fresh (demo_verify (demo_id_clock 1010) demo_fresh).
Definition demo_used : world (ShmCache.header * fs) :=
  from_option snd demo_fresh (demo_use (demo_id_clock 1010) demo_verified).
Definition demo_later : world (ShmCache.header * fs) := mk_world demo_request (w_cache demo_used) 0.
Definition demo_verified2 : world (ShmCache.header * fs) :=
  from_option snd demo_fresh (demo_verify (demo_id_clock 1070) demo_later).

Lemma demo_verify_run t w0 : ((fun x => x.1.1) <$> demo_verify (demo_id_clock t) w0) = Some true ->
  demo_verify (demo_id_clock t) w0 =
    Some ((true, demo_logout_jwt), from_option snd demo_fresh (demo_verify (demo_id_clock t) w0)).
Proof.
  destruct (demo_verify (demo_id_clock t) w0) as [[[b j] w]|] eqn:E; [|discriminate]. cbn. intros [= ->].
  by apply verify_jwt_true in E as (-> & _).
Qed.

Lemma demo_first_run : demo_verify (demo_id_clock 1010) demo_fresh = Some ((true, demo_logout_jwt), demo_verified).
Proof. unfold demo_verified. apply demo_verify_run. vm_compute. reflexivity. Qed.

Lemma demo_second_run : demo_verify (demo_id_clock 1070) demo_later = Some ((true, demo_logout_jwt), demo_verified2).
Proof. unfold demo_verified2. apply demo_verify_run. vm_compute. reflexivity. Qed.

Lemma demo_use_run : demo_use (demo_id_clock 1010) demo_verified = Some (Some "joe", demo_used).
Proof.
  assert (E : fst <$> demo_use (demo_id_clock 1010) demo_verified = Some (Some "joe")) by (vm_compute; reflexivity).
  unfold demo_used. destruct (demo_use (demo_id_clock 1010) demo_verified) as [[o w]|]; [|discriminate E]. injection E as ->. reflexivity.
Qed.

(** Keys that are configured leave the cache alone. *)
Lemma demo_verified_cache : w_cache demo_verified = w_cache demo_fresh.
Proof. vm_compute. reflexivity. Qed.

Lemma demo_verified2_cache : w_cache demo_verified2 = w_cache demo_used.
Proof. vm_compute. reflexivity. Qed.

Lemma demo_verified_valid : impl_valid (w_cache demo_verified).
Proof. rewrite demo_verified_cache. exact demo_store_valid. Qed.

Lemma logout_token_no_replay_witness : exists w5, demo_use (demo_id_clock 1070) demo_verified2 = Some (None, w5).
Proof.
  apply (logout_token_no_replay (BS:=demo_logout_backend_spec) (demo_id_clock 1010) (demo_id_clock 1070) demo_net demo_net demo_login_cfg (demo_op 0) demo_jwk
    demo_logout_jwt "joe" "t-1" demo_fresh demo_verified demo_used demo_later demo_verified2
    (fun k => demo_id_clock_range 1010 k ltac:(lia)) (fun k => demo_id_clock_range 1070 k ltac:(lia))).
  - vm_compute. split; discriminate.
  - exact demo_verified_valid.
  - discriminate.
  - exact demo_first_run.
  - exact demo_use_run.
  - vm_compute. reflexivity.
  - vm_compute. reflexivity.
  - vm_compute. discriminate.
  - exact demo_second_run.
  - exact demo_verified2_cache.
  - vm_compute. reflexivity.
  - split; reflexivity.
  - vm_compute. discriminate.
Defined.
End demo.
