(* ===== verification/Discovery.v ===== *)
(** * src/handle/discovery.c and src/proto/discovery.c: choosing a provider

    With several providers a user chooses one on a page of this module or of another server; the answer comes back to the redirect URI.
    Another party may send such an answer as well, to start a login.  A user may also enter an account or a host, whose
    provider is then found with WebFinger. *)

From S2P Require Import Prelude Cstr Apr StrUtil Jansson Json Http Html Form Url Cookie Base64 Jose Jwt Util ShmCache Cache World.
From S2P Require Import HttpClient Cjose Jwk Jwe JoseLib Jws Pkce Provider ProviderSet Profile JwtCheck Jwks IdToken ClientAuth Token ProtoState Response AuthRequest.
From S2P Require Import Session SessionAttr State Authz Redirect Scrub Files CfgParse Config AppInfo Dir Metadata MetadataConf ProviderLookup Request Pass.
#[local] Open Scope Z_scope.

Definition OIDC_DISC_CB_PARAM : string := "oidc_callback".
Definition OIDC_DISC_RT_PARAM : string := "target_link_uri".
Definition OIDC_DISC_LH_PARAM : string := "login_hint".
Definition OIDC_DISC_AR_PARAM : string := "auth_request_params".
Definition OIDC_DISC_SC_PARAM : string := "scopes".
Definition OIDC_CSRF_NAME : string := "x_csrf".

(** Strip blanks in front and at the end. *)
Definition oidc_discovery_response_input_trim (value : option string) : option string :=
  match value with
  | None => None
  | Some value => Some (strip_right isspace (skip_space value))
  end.

(** ** WebFinger *)

Section webfinger.
Context {J : Jansson} {H : Httpd}.

Definition oidc_proto_webfinger_response_get_issuer (response : option string) : option string :=
  j_response ← oidc_json_decode_and_check_error response;
  let j_links := oidc_json_object_get (Some j_response) "links" in
  if negb (nonnull j_links) || negb (oidc_json_is_array j_links) then None
  else
    let j_object := oidc_json_array_get j_links 0 in
    if negb (nonnull j_object) || negb (oidc_json_is_object j_object) then None
    else
      let j_href := oidc_json_object_get j_object "href" in
      if negb (nonnull j_href) || negb (oidc_json_is_string j_href) then None
      else if nonnull (oidc_cfg_parse_is_valid_url (oidc_json_string_value j_href) (Some "https")) then None
      else oidc_json_string_value j_href.
End webfinger.

#[local] Open Scope world_scope.

Section discovery.
Context {J : Jansson} {O : Jose} {B64 : Base64} {C : Cjose J} {CE : CjoseExport C} {D : Digest} {Zl : Zlib} {H : Httpd} {Ur : ApUri H}.
Context {E : CfgEnv C} {Mem : CryptoMemcmp} {X : ApExpr} {P : Pcre} {St : Type} {B : CacheBackend St} {Dk : Disk St}.
Variables (ext : nat -> env) (net : nat -> network) (rnd : nat -> rng) (c : oidc_cfg_t C) (d : oidc_dir_cfg_t).
Variables (apr_uri_unparse : apr_uri_t -> string) (post : body) (template : option string) (pass_ok : bool).

Definition oidc_proto_webfinger_discovery (resource domain : string) : M St (option string) :=
  result <- http_get net (cfg_proto c) (metadata_args c) (Some ("https://" ^^ domain ^^ "/.well-known/webfinger"))
              (Some [("resource", resource); ("rel", "http://openid.net/specs/connect/1.0/issuer")]) ∅ ;;
  ret (x ← result; oidc_proto_webfinger_response_get_issuer (hr_response x)).

Definition oidc_proto_discovery_account_based (acct : string) : M St (option string) :=
  match strrchr acct "@" with
  | None => ret None
  | Some i => oidc_proto_webfinger_discovery ("acct:" ^^ acct) (str_drop (S i) acct)
  end.

Definition oidc_proto_discovery_url_based (url : string) : M St (option string) :=
  let uri := apr_uri_filled url in
  let host := default "(null)" (uri_hostname uri) in
  oidc_proto_webfinger_discovery url (match uri_port_str uri with Some port => host ^^ ":" ^^ port | None => host end).

(** ** Sending the user to choose *)

Definition oidc_discovery_csrf_cookie_samesite : M St (option string) :=
  match oidc_cfg_cookie_same_site_discovery_csrf_get c with
  | OIDC_SAMESITE_COOKIE_STRICT => ret (Some OIDC_HTTP_COOKIE_SAMESITE_STRICT)
  | OIDC_SAMESITE_COOKIE_LAX => ret (Some OIDC_HTTP_COOKIE_SAMESITE_LAX)
  | OIDC_SAMESITE_COOKIE_NONE => OIDC_HTTP_COOKIE_SAMESITE_NONE (s_cookie (cfg_session c))
  | OIDC_SAMESITE_COOKIE_DISABLED => ret None
  end.

Definition set_csrf_cookie (csrf : string) : M St unit :=
  samesite <- oidc_discovery_csrf_cookie_samesite ;; set_cookie (s_cookie (cfg_session c)) OIDC_CSRF_NAME csrf (-1) samesite.

Definition oidc_discovery_request_external (discover_url current_url method csrf : string) : M St Z :=
  r <- get_req ;;
  redirect_uri <- lift (redirect_uri_of c r) ;;
  let enc v := oidc_http_url_encode (Some v) in
  let url := discover_url ^^ (if nonnull (strchr discover_url "?") then "&" else "?") ^^
             OIDC_DISC_RT_PARAM ^^ "=" ^^ enc current_url ^^ "&" ^^ OIDC_DISC_RM_PARAM ^^ "=" ^^ method ^^ "&" ^^
             OIDC_DISC_CB_PARAM ^^ "=" ^^ oidc_http_url_encode redirect_uri ^^ "&" ^^ OIDC_CSRF_NAME ^^ "=" ^^ enc csrf in
  let add name v url := match v with Some v => url ^^ "&" ^^ name ^^ "=" ^^ enc v | None => url end in
  let url := add OIDC_DISC_SC_PARAM (oidc_cfg_dir_path_scope_get d r) url in
  let url := add OIDC_DISC_AR_PARAM (oidc_cfg_dir_path_auth_request_params_get d r) url in
  '_ <- set_csrf_cookie csrf ;;
  preserved <- oidc_response_post_preserve_javascript c d post template (Some url) ;;
  match (preserved : option (option string)) with
  | Some _ => ret OK
  | None => respond (fun r => (HTTP_MOVED_TEMPORARILY, oidc_http_hdr_out_location_set r (Some url)))
  end.

(** The link to a provider. *)
Definition provider_link (r : request) (redirect_uri : option string) (current_url method csrf issuer : string) : string :=
  let enc v := oidc_http_url_encode (Some v) in
  let href := oidc_util_html_escape redirect_uri ^^ "?" ^^ OIDC_DISC_OP_PARAM ^^ "=" ^^ enc issuer ^^ "&amp;" ^^
              OIDC_DISC_RT_PARAM ^^ "=" ^^ enc current_url ^^ "&amp;" ^^ OIDC_DISC_RM_PARAM ^^ "=" ^^ method ^^ "&amp;" ^^ OIDC_CSRF_NAME ^^ "=" ^^ csrf in
  let add name v href := match v with Some v => href ^^ "&amp;" ^^ name ^^ "=" ^^ enc v | None => href end in
  let href := add OIDC_DISC_SC_PARAM (oidc_cfg_dir_path_scope_get d r) href in
  let href := add OIDC_DISC_AR_PARAM (oidc_cfg_dir_path_auth_request_params_get d r) href in
  let display := if nonnull (_oidc_strstr (Some issuer) (Some "https://")) then str_drop (String.length "https://") issuer else issuer in
  "<p><a href=" ^^ DQ ^^ href ^^ DQ ^^ ">" ^^ oidc_util_html_escape (Some display) ^^ "</a></p>" ^^ LF.

Definition oidc_discovery_page_providers (r : request) (redirect_uri : option string) (arr : list (option string)) (current_url method csrf s : string) : string :=
  foldl (fun s issuer => s ^^ provider_link r redirect_uri current_url method csrf (default "" issuer)) s arr.

(** A hidden field of the form. *)
Definition hidden_field (name : string) (value : option string) : string :=
  "<p><input type=" ^^ DQ ^^ "hidden" ^^ DQ ^^ " name=" ^^ DQ ^^ name ^^ DQ ^^ " value=" ^^ DQ ^^ oidc_util_html_escape value ^^ DQ ^^ "><p>" ^^ LF.

Definition oidc_discovery_page_form (r : request) (redirect_uri : option string) (current_url method csrf s : string) : string :=
  let add name v := match v with Some _ => hidden_field name v | None => "" end in
  s ^^ "<form method=" ^^ DQ ^^ "get" ^^ DQ ^^ " action=" ^^ DQ ^^ oidc_util_html_escape redirect_uri ^^ DQ ^^ ">" ^^ LF ^^
  hidden_field OIDC_DISC_RT_PARAM (Some current_url) ^^ hidden_field OIDC_DISC_RM_PARAM (Some method) ^^ hidden_field OIDC_CSRF_NAME (Some csrf) ^^
  add OIDC_DISC_SC_PARAM (oidc_cfg_dir_path_scope_get d r) ^^
  add OIDC_DISC_AR_PARAM (oidc_cfg_dir_path_auth_request_params_get d r) ^^
  "<p>Or enter your account name (eg. &quot;mike@seed.gluu.org&quot;, or an IDP identifier (eg. &quot;mitreid.org&quot;):</p>" ^^ LF ^^
  "<p><input type=" ^^ DQ ^^ "text" ^^ DQ ^^ " name=" ^^ DQ ^^ OIDC_DISC_OP_PARAM ^^ DQ ^^ " value=" ^^ DQ ^^ DQ ^^ "></p>" ^^ LF ^^
  "<p><input type=" ^^ DQ ^^ "submit" ^^ DQ ^^ " value=" ^^ DQ ^^ "Submit" ^^ DQ ^^ "></p>" ^^ LF ^^
  "</form>" ^^ LF.

(** The status, and the page when one is sent. *)
Definition oidc_discovery_request : M St (Z * option response) :=
  r <- get_req ;;
  current_url <- lift (oidc_util_url_cur r (oidc_cfg_x_forwarded_headers_get c)) ;;
  method <- lift (oidc_original_request_method c d r false) ;;
  csrf <- rand_str rnd 16 ;;
  match (csrf : option string) with
  | None => ret (HTTP_INTERNAL_SERVER_ERROR, None)
  | Some csrf =>
      match oidc_cfg_dir_discover_url_get d with
      | Some discover_url => rc <- oidc_discovery_request_external discover_url current_url method csrf ;; ret (rc, None)
      | None =>
          arr <- oidc_metadata_list ext net rnd c ;;
          match (arr : option (list (option string))) with
          | None =>
              rc <- respond (fun r => oidc_util_html_send_error r (Some "Configuration Error")
                      (Some "No configured providers found, contact your administrator") HTTP_UNAUTHORIZED) ;;
              ret (rc, None)
          | Some arr =>
              redirect_uri <- lift (redirect_uri_of c r) ;;
              let tab := String "009" EmptyString in
              let s := tab ^^ tab ^^ tab ^^ "<h3>Select your OpenID Connect Identity Provider</h3>" ^^ LF in
              let s := oidc_discovery_page_providers r redirect_uri arr current_url method csrf s in
              let s := oidc_discovery_page_form r redirect_uri current_url method csrf s in
              '_ <- set_csrf_cookie csrf ;;
              preserved <- oidc_response_post_preserve_javascript c d post template None ;;
              let html_head := "<style type=" ^^ DQ ^^ "text/css" ^^ DQ ^^ ">body {text-align: center}</style>" in
              let '(html_head, on_load) :=
                match (preserved : option (option string)) with
                | Some (Some javascript) => (html_head ^^ javascript, Some "preserveOnLoad()")
                | Some None => (html_head ^^ "(null)", None)
                | None => (html_head, None)
                end in
              r <- get_req ;;
              let '(rc, r, page) := oidc_util_html_send pass_ok r (Some "OpenID Connect Provider Discovery") (Some html_head) on_load (Some s) OK in
              '_ <- put_req r ;;
              ret (rc, Some page)
          end
      end
  end.

(** ** The answer *)

(** Whether a login may end at this URL. *)
Definition oidc_discovery_target_link_uri_match (redirect_uri : option string) (target_link_uri : string) : bool :=
  let o_uri := apr_uri_filled target_link_uri in
  if negb (nonnull (uri_hostname o_uri)) then false
  else
    let r_uri := apr_uri_filled (default "" redirect_uri) in
    if negb (match oidc_cfg_cookie_domain_get c with
             | None => oidc_util_hostname_endswith (uri_hostname o_uri) (uri_hostname r_uri)
             | Some domain => oidc_util_cookie_domain_valid (uri_hostname o_uri) (Some domain)
             end) then false
    else
      let cookie_path := oidc_cfg_dir_cookie_path_get d in
      match uri_path o_uri with
      | None => true
      | Some path =>
          if negb (bool_decide (_oidc_strstr (Some path) (Some cookie_path) = Some 0%nat)) then false
          else if zlen cookie_path <? zlen path then
            let n := String.length cookie_path in
            let n := if bool_decide (last_char cookie_path = Some "/"%char) then (n - 1)%nat else n in
            bool_decide (String.get n path = Some "/"%char)
          else true
      end.

Definition oidc_discovery_response_csrf_check : M St bool :=
  r <- get_req ;;
  match oidc_http_get_cookie r OIDC_CSRF_NAME with
  | None => ret false
  | Some csrf_cookie =>
      samesite <- OIDC_HTTP_COOKIE_SAMESITE_NONE (s_cookie (cfg_session c)) ;;
      '_ <- set_cookie (s_cookie (cfg_session c)) OIDC_CSRF_NAME "" 0 samesite ;;
      ret (oidc_util_strcmp_const_time (oidc_util_url_parameter_get r OIDC_CSRF_NAME) (Some csrf_cookie))
  end.

(** An answer that is refused: the status. *)
Definition refuse (error description : string) (status : Z) : M St (string + Z) :=
  rv <- respond (fun r => oidc_util_html_send_error r (Some error) (Some description) status) ;; ret (inr rv).

(** [TRUE] with the URL, or [FALSE] with the status. *)
Definition oidc_discovery_response_target_link_uri_validate (target_link_uri : option string) : M St (string + Z) :=
  r <- get_req ;;
  target <- (match target_link_uri with
             | Some uri => ret (Some uri)
             | None => lift (oidc_util_url_abs r (oidc_cfg_x_forwarded_headers_get c) (default_sso_url (cfg_state c)))
             end) ;;
  match (target : option string) with
  | None =>
      refuse "Invalid Request" ("SSO to this module without specifying a " ^^ DQ ^^ "target_link_uri" ^^ DQ ^^
        " parameter is not possible because OIDCDefaultURL is not set.") HTTP_INTERNAL_SERVER_ERROR
  | Some target =>
      redirect_uri <- lift (redirect_uri_of c r) ;;
      if negb (oidc_discovery_target_link_uri_match redirect_uri target) then
        refuse "Invalid Request" (DQ ^^ "target_link_uri" ^^ DQ ^^
          " parameter does not match configuration settings, aborting to prevent an open redirect.") HTTP_UNAUTHORIZED
      else
        v <- lift (oidc_validate_redirect_url apr_uri_unparse (oidc_cfg_x_forwarded_headers_get c) (oidc_cfg_redirect_urls_allowed_get c) r
                     (Some target) OIDC_REDIRECT_URL_SAME_HOST) ;;
        match v with
        | Valid => ret (inl target)
        | Invalid error_str error_description => refuse error_str error_description HTTP_UNAUTHORIZED
        end
  end.

Definition oidc_discovery_response_static (issuer : option string) (target_link_uri : string) (login_hint auth_request_params path_scopes : option string)
  : M St Z :=
  provider <- oidc_provider_static_config ext net c ;;
  match (p ← provider; iss ← issuer; if negb (_oidc_strcmp (oidc_cfg_provider_issuer_get p) (Some iss) =? 0) then Some iss else None) with
  | Some iss =>
      respond (fun r => oidc_util_html_send_error r (Some "Invalid Request")
        (Some ("The " ^^ DQ ^^ "iss" ^^ DQ ^^ " value must match the configured providers" ^^ sq ^^ " one (" ^^ iss ^^ " != " ^^
               default "(null)" (oidc_cfg_provider_issuer_get (oidc_cfg_provider_get c)) ^^ ").")) HTTP_INTERNAL_SERVER_ERROR)
  | None =>
      oidc_request_authenticate_user ext net rnd c d post template None target_link_uri login_hint None None auth_request_params path_scopes
  end.

Definition oidc_discovery_issuer_allowed (issuer : string) : bool :=
  match oidc_cfg_discover_issuers_allowed_get c with
  | None => true
  | Some allowed => existsb (oidc_util_regexp_first_match issuer) (elements allowed)
  end.

Definition not_in_list (what : string) : string := "The provided " ^^ what ^^ " is not in the list of allowed issuers; contact the administrator".
Definition not_resolved (what : string) : string :=
  "Could not resolve the provided " ^^ what ^^ " to an OpenID Connect provider; check your syntax.".

(** [TRUE] with the issuer and the hint, or [FALSE] with the status. *)
Definition oidc_discovery_response_resolve_issuer (user : option string) (issuer login_hint : option string)
  : M St ((option string * option string) + Z) :=
  let fail d status := rv <- respond (fun r => oidc_util_html_send_error r (Some "Invalid Request") (Some d) status) ;; ret (inr rv) in
  match user with
  | Some user =>
      let login_hint := Some (default user login_hint) in
      let user := if bool_decide (_oidc_strstr (Some user) (Some "https://") = Some 0%nat) then user else "https://" ^^ user in
      if negb (oidc_discovery_issuer_allowed user) then fail (not_in_list "user identifier") HTTP_UNAUTHORIZED
      else
        found <- oidc_proto_discovery_url_based user ;;
        match (found : option string) with
        | None => fail (not_resolved "user identifier") 404
        | Some issuer => ret (inl (Some issuer, login_hint))
        end
  | None =>
      match issuer with
      | Some account =>
          match strrchr account "@" with
          | Some i =>
              let login_hint := Some (default account login_hint) in
              if negb (oidc_discovery_issuer_allowed ("https://" ^^ str_drop (S i) account)) then fail (not_in_list "account name") HTTP_UNAUTHORIZED
              else
                found <- oidc_proto_discovery_account_based account ;;
                match (found : option string) with
                | None => fail (not_resolved "account name") 404
                | Some issuer => ret (inl (Some issuer, login_hint))
                end
          | None => ret (inl (issuer, login_hint))
          end
      | None => ret (inl (issuer, login_hint))
      end
  end.

Definition oidc_discovery_response_authenticate (issuer target_link_uri : string) (login_hint auth_request_params path_scopes : option string)
  (allow_dyn_reg : bool) : M St Z :=
  let issuer := if bool_decide (last_char issuer = Some "/"%char) then str_take (String.length issuer - 1) issuer else issuer in
  let fail d status := respond (fun r => oidc_util_html_send_error r (Some "Invalid Request") (Some d) status) in
  if negb (oidc_discovery_issuer_allowed issuer) then
    fail "The selected OpenID Connect provider issuer is not in the list of allowed issuers; contact the administrator" HTTP_UNAUTHORIZED
  else
    r <- get_req ;;
    if oidc_util_url_has_parameter r "test-config" then '_ <- oidc_metadata_provider_get ext net rnd c issuer allow_dyn_reg ;; ret OK
    else
      provider <- oidc_metadata_get ext net rnd c issuer allow_dyn_reg ;;
      match (provider : option oidc_provider_t) with
      | None => fail "Could not find valid provider metadata for the selected OpenID Connect provider; contact the administrator" 404
      | Some provider =>
          if oidc_util_url_has_parameter r "test-jwks-uri" then
            '_ <- oidc_metadata_jwks_get ext net (cfg_proto c) (oidc_cfg_provider_jwks_uri_get provider)
                    (negb (oidc_cfg_provider_ssl_validate_server_get provider =? 0)) true ;;
            ret OK
          else
            oidc_request_authenticate_user ext net rnd c d post template (Some provider) target_link_uri login_hint None None auth_request_params path_scopes
      end.

Definition oidc_discovery_response : M St Z :=
  r <- get_req ;;
  let get := oidc_util_url_parameter_get r in
  csrf_valid <- oidc_discovery_response_csrf_check ;;
  let path_scopes := if csrf_valid : bool then get OIDC_DISC_SC_PARAM else None in
  let auth_request_params := if csrf_valid then get OIDC_DISC_AR_PARAM else None in
  let issuer := oidc_discovery_response_input_trim (get OIDC_DISC_OP_PARAM) in
  let user := oidc_discovery_response_input_trim (get OIDC_DISC_USER_PARAM) in
  target <- oidc_discovery_response_target_link_uri_validate (get OIDC_DISC_RT_PARAM) ;;
  match (target : string + Z) with
  | inr rv => ret rv
  | inl target =>
      if negb (nonnull (oidc_cfg_metadata_dir_get c)) then
        oidc_discovery_response_static issuer target (get OIDC_DISC_LH_PARAM) auth_request_params path_scopes
      else
        resolved <- oidc_discovery_response_resolve_issuer user issuer (get OIDC_DISC_LH_PARAM) ;;
        match (resolved : (option string * option string) + Z) with
        | inr rv => ret rv
        | inl (issuer, login_hint) =>
            oidc_discovery_response_authenticate (default "" issuer) target login_hint auth_request_params path_scopes csrf_valid
        end
  end.
End discovery.
