(* ===== verification/DiscoveryProps.v ===== *)
(** * Properties of src/handle/discovery.c and of sending users to providers

    Sending a user to a provider always gives an answer, and who answers the question for a provider cannot choose where the
    user ends up, nor what is asked of the provider unless he was asked. *)

From S2P Require Import Prelude Cstr Apr StrUtil Jansson Json Http Html Form Url Cookie Base64 Jose Jwt Util ShmCache Cache World.
From S2P Require Import HttpClient Cjose Jwk Jwe JoseLib Jws Pkce Provider ProviderSet Profile JwtCheck Jwks IdToken IdTokenProps ClientAuth Token ProtoState Response AuthRequest.
From S2P Require Import Session SessionAttr SessionProps State StateProps Authz Redirect Scrub Files CfgParse Config AppInfo Dir Metadata MetadataConf MetadataProps MetadataSpec ProviderLookup.
From S2P Require Import Request RequestProps Pass Outcome Returns Login LoginProps Logout LogoutProps Discovery.
#[local] Open Scope Z_scope.
#[local] Open Scope world_scope.

(** ** What terminates *)

Lemma matches_redirect_uri_total {H : Httpd} {Ur : ApUri H} r x u : is_Some (oidc_util_url_matches_redirect_uri r x u).
Proof. unfold oidc_util_url_matches_redirect_uri. destruct (redirect_uri_total r x u) as [v ->]. by eexists. Qed.

Section total_authenticate.
Context {J : Jansson} {JS : JanssonSpec J} {O : Jose} {OS : JoseSpec O} {B64 : Base64} {C : Cjose J} {CE : CjoseExport C} {D : Digest} {Zl : Zlib}.
Context {H : Httpd} {HS : HttpdSpec H} {Ur : ApUri H} {E : CfgEnv C} {Mem : CryptoMemcmp} {X : ApExpr} {St : Type} {B : CacheBackend St} {Dk : Disk St}.
Variables (ext : nat -> env) (net : nat -> network) (rnd : nat -> rng) (c : oidc_cfg_t C) (d : oidc_dir_cfg_t).
Variables (post : body) (template : option string).

Lemma total_request_object_add p u ps : total (St:=St) (oidc_proto_request_object_param_add ext net rnd (cfg_proto c) p u ps).
Proof.
  unfold oidc_proto_request_object_param_add, oidc_proto_request_uri_create, oidc_proto_request_object_create, oidc_proto_request_object_encrypt,
    oidc_proto_request_object_encryption_jwk_get, oidc_proto_request_object_encryption_jwk_by_type, oidc_proto_request_object_claims_set.
  cbv zeta. total_auto; intros w; by eexists _, _.
Qed.

Lemma total_params_add r ps added s b : total (St:=St) (lift (oidc_proto_request_auth_params_add r ps added s b)).
Proof.
  apply total_lift. destruct s as [s|]; [|by eexists]. unfold oidc_proto_request_auth_params_add.
  destruct (form_words_total s) as [ws ->]. by eexists.
Qed.
Hint Resolve total_request_object_add total_params_add total_token_endpoint_auth : total.

Lemma total_params_set p lh u s ps h cc arp sc : total (St:=St) (oidc_proto_request_auth_params_set ext net rnd (cfg_proto c) p lh u s ps h cc arp sc).
Proof. unfold oidc_proto_request_auth_params_set. cbv zeta. total_auto. Qed.

Lemma total_push p ps : total (St:=St) (oidc_proto_request_auth_push ext net rnd (cfg_proto c) p ps).
Proof. unfold oidc_proto_request_auth_push. total_auto. Qed.
Hint Resolve total_params_set total_push : total.

Lemma total_original_method r b : total (St:=St) (lift (oidc_original_request_method c d r b)).
Proof.
  apply total_lift. unfold oidc_original_request_method. destruct b; [|by eexists].
  destruct (matches_redirect_uri_total r (oidc_cfg_x_forwarded_headers_get c) (pc_redirect_uri (cfg_proto c))) as [m ->]. by eexists.
Qed.
Hint Resolve total_original_method : total.

Lemma total_read_post r t pr st : total (St:=St) (lift (oidc_util_read_post_params post r t pr st)).
Proof. apply total_lift, post_params_total. Qed.

Lemma total_some {A} (a : A) : total (St:=St) (lift (Some a)).
Proof. apply total_lift. by eexists. Qed.
Hint Resolve total_read_post total_some : total.

Lemma total_preserve l : total (St:=St) (oidc_response_post_preserve_javascript c d post template l).
Proof. unfold oidc_response_post_preserve_javascript. cbv zeta. destruct (nonnull (oidc_cfg_post_preserve_template_get c)); total_auto. Qed.
Hint Resolve total_preserve : total.

Lemma total_auth_request p lh u s ps h cc arp sc : total (St:=St) (oidc_request_auth ext net rnd c d post template p lh u s ps h cc arp sc).
Proof. unfold oidc_request_auth, oidc_request_auth_send_post, oidc_request_auth_send_get. cbv zeta. total_auto. Qed.
Hint Resolve total_auth_request : total.

Lemma total_rand_str n : total (St:=St) (rand_str rnd n).
Proof. intros w. by eexists _, _. Qed.
Hint Resolve total_rand_str : total.

Lemma total_pkce_prepare p : total (St:=St) (pkce_prepare rnd p).
Proof.
  unfold pkce_prepare. cbv zeta. apply total_bind; [apply total_lift, contains_total|intros b]. total_auto. intros w. by eexists _, _.
Qed.
Hint Resolve total_pkce_prepare : total.

Lemma total_authorization_set_cookie s ps : total (St:=St) (oidc_request_authorization_set_cookie ext (cfg_state c) s ps).
Proof. unfold oidc_request_authorization_set_cookie, oidc_request_samesite_state_cookie. cbv zeta. total_auto. Qed.
Hint Resolve total_authorization_set_cookie : total.

(** The code parses the redirect URI without testing it. *)
Hypothesis configured : nonnull (pc_redirect_uri (cfg_proto c)) = true.

Lemma redirect_uri_of_some r : exists u, redirect_uri_of c r = Some (Some u).
Proof.
  unfold redirect_uri_of, oidc_util_url_redirect_uri, oidc_util_url_abs. destruct (pc_redirect_uri (cfg_proto c)) as [[|a u]|]; [by eexists| |done].
  destruct (Ascii.eqb a "/"); [|by eexists]. destruct (base_cur_total r (oidc_cfg_x_forwarded_headers_get c)) as [b ->]. by eexists.
Qed.

Lemma total_cookie_domain r url : total (St:=St) (lift (oidc_request_check_cookie_domain c r url)).
Proof. apply total_lift. unfold oidc_request_check_cookie_domain. destruct (redirect_uri_of_some r) as [u ->]. by eexists. Qed.
Hint Resolve total_cookie_domain : total.

Lemma total_authenticate_at p url lh h pr arp sc : total (St:=St) (authenticate_at ext net rnd c d post template p url lh h pr arp sc).
Proof. unfold authenticate_at, oidc_proto_nonce_gen. cbv zeta. total_auto. Qed.
Hint Resolve total_authenticate_at total_static_config : total.

Lemma total_authenticate_user p url lh h pr arp sc : total (St:=St) (oidc_request_authenticate_user ext net rnd c d post template p url lh h pr arp sc).
Proof. unfold oidc_request_authenticate_user. total_auto. Qed.
End total_authenticate.

(** ** Where a login may end *)

(** This host, or one of the configured domain. *)
Definition host_ok {J : Jansson} {C : Cjose J} {H : Httpd} (c : oidc_cfg_t C) (ours theirs : option string) : Prop :=
  match oidc_cfg_cookie_domain_get c with
  | None => oidc_util_hostname_endswith theirs ours = true
  | Some domain => oidc_util_cookie_domain_valid theirs (Some domain) = true
  end.

(** At or below the directory [dir]. *)
Definition below (dir path : string) : Prop :=
  exists rest, path = (dir ^^ rest) /\ (rest = "" \/ last_char dir = Some "/"%char \/ exists rest', rest = String "/" rest').

Definition target_ok {J : Jansson} {C : Cjose J} {H : Httpd} {Ur : ApUri H} {X : ApExpr} (c : oidc_cfg_t C) (d : oidc_dir_cfg_t) (redirect_uri : option string)
  (target : string) : Prop :=
  let uri := apr_uri_filled target in
  nonnull (uri_hostname uri) = true /\
  host_ok c (uri_hostname (apr_uri_filled (default "" redirect_uri))) (uri_hostname uri) /\
  (forall path, uri_path uri = Some path -> below (oidc_cfg_dir_cookie_path_get d) path).

Lemma string_get_app p q n : String.get (String.length p + n) (p ^^ q) = String.get n q.
Proof. induction p as [|a p IH]; [done|exact IH]. Qed.

Lemma below_spec dir path :
  (if negb (bool_decide (_oidc_strstr (Some path) (Some dir) = Some 0%nat)) then false
   else if zlen dir <? zlen path then
     let n := String.length dir in
     let n := if bool_decide (last_char dir = Some "/"%char) then (n - 1)%nat else n in
     bool_decide (String.get n path = Some "/"%char)
   else true) = true -> below dir path.
Proof.
  case_bool_decide as Hs; [|done]. cbn [negb]. cbn [_oidc_strstr] in Hs. apply strstr_zero, str_prefix_app in Hs as [rest ->]. cbv zeta.
  intros Hn. exists rest. split; [done|]. destruct rest as [|a rest]; [by left|]. right.
  destruct (bool_decide (last_char dir = _)) eqn:Hl; [left; by apply bool_decide_eq_true in Hl|]. right. destruct (Z.ltb_spec (zlen dir) (zlen (dir ^^ String a rest))) as [_|Hlt].
  - apply bool_decide_eq_true in Hn. rewrite <- (Nat.add_0_r (String.length dir)), string_get_app in Hn. cbn in Hn. injection Hn as ->. by eexists.
  - rewrite zlen_append in Hlt. unfold zlen in Hlt. cbn [String.length] in Hlt. lia.
Qed.

Section sound.
Context {J : Jansson} {JS : JanssonSpec J} {O : Jose} {OS : JoseSpec O} {B64 : Base64} {C : Cjose J} {CE : CjoseExport C} {D : Digest} {Zl : Zlib}.
Context {H : Httpd} {HS : HttpdSpec H} {Ur : ApUri H} {E : CfgEnv C} {Mem : CryptoMemcmp} {MS : CryptoMemcmpSpec Mem} {X : ApExpr} {P : Pcre}.
Context {St : Type} {B : CacheBackend St} {Dk : Disk St}.
Variables (ext : nat -> env) (net : nat -> network) (rnd : nat -> rng) (c : oidc_cfg_t C) (d : oidc_dir_cfg_t).
Variables (unparse : apr_uri_t -> string) (post : body) (template : option string).

Lemma target_match_ok redirect_uri target : oidc_discovery_target_link_uri_match c d redirect_uri target = true -> target_ok c d redirect_uri target.
Proof.
  unfold oidc_discovery_target_link_uri_match, target_ok, host_ok. cbv zeta.
  destruct (nonnull (uri_hostname _)) eqn:Eh; [|done]. cbn [negb]. intros Hm. split; [done|].
  destruct (match oidc_cfg_cookie_domain_get c with Some _ => _ | None => _ end) eqn:Ed; [|done]. cbn [negb] in Hm.
  split; [by destruct (oidc_cfg_cookie_domain_get c)|]. intros path Hp. rewrite Hp in Hm. by apply below_spec.
Qed.

(** The browser asked for a provider itself: it holds the value that comes with the answer. *)
Definition csrf_held (w : world St) : Prop :=
  exists v, oidc_http_get_cookie (w_req w) OIDC_CSRF_NAME = Some v /\ oidc_util_url_parameter_get (w_req w) OIDC_CSRF_NAME = Some v.

Lemma csrf_check_run (w : world St) : exists b w', oidc_discovery_response_csrf_check c w = Some (b, w') /\ (b = true -> csrf_held w).
Proof.
  assert (Ht : total (St:=St) (oidc_discovery_response_csrf_check c)) by (unfold oidc_discovery_response_csrf_check; total_auto).
  destruct (Ht w) as (b & w' & Er). exists b, w'. split; [done|]. intros ->. unfold oidc_discovery_response_csrf_check in Er.
  apply bind_inv in Er as (r & w1 & [= <- <-] & Er). destruct (oidc_http_get_cookie (w_req w) OIDC_CSRF_NAME) as [v|] eqn:Ev; [|done].
  apply bind_inv in Er as (s & w2 & _ & Er). apply bind_inv in Er as (u & w3 & _ & Er).
  unfold ret in Er. injection Er as Er _.
  exists v. split; [done|]. by apply strcmp_const_time_true in Er.
Qed.

(** The page that refuses a request in [w1]. *)
Definition page (w1 : world St) (rc : Z) (w' : world St) : Prop :=
  exists e desc, w' = mk_world (oidc_util_html_send_error (w_req w1) e desc rc).2 (w_cache w1) (w_calls w1).

Lemma page_outcome e desc rc (Q : Z -> world St -> Prop) w : (forall w', page w rc w' -> Q rc w') ->
  outcome False (respond (fun r => oidc_util_html_send_error r e desc rc)) Q w.
Proof. intros HQ. unfold outcome, respond. apply HQ. by exists e, desc. Qed.

Lemma refuse_run e desc rc (w : world St) : exists w', refuse e desc rc w = Some (inr rc, w') /\ page w rc w'.
Proof. eexists. split; [reflexivity|]. by exists (Some e), (Some desc). Qed.

(** The URL [target], of an answer that was checked in [w0], is one of ours. *)
Definition ours (w0 : world St) (target : string) : Prop :=
  exists ru, redirect_uri_of c (w_req w0) = Some ru /\ target_ok c d ru target /\
    acceptable (oidc_cfg_x_forwarded_headers_get c) (oidc_cfg_redirect_urls_allowed_get c) (w_req w0) OIDC_REDIRECT_URL_SAME_HOST target.

Lemma target_validate_run uri (w : world St) : exists res w', oidc_discovery_response_target_link_uri_validate c d unparse uri w = Some (res, w') /\
  match res with
  | inr rc => In rc [HTTP_UNAUTHORIZED; HTTP_INTERNAL_SERVER_ERROR] /\ page w rc w'
  | inl target => (uri = Some target \/ uri = None /\ nonnull (default_sso_url (cfg_state c)) = true) /\ ours w target /\ w' = w
  end.
Proof.
  assert (Hpage : forall e desc rc, In rc [HTTP_UNAUTHORIZED; HTTP_INTERNAL_SERVER_ERROR] -> exists res w', refuse e desc rc w = Some (res, w') /\
    match res with inr rc => In rc [HTTP_UNAUTHORIZED; HTTP_INTERNAL_SERVER_ERROR] /\ page w rc w' | inl target =>
      (uri = Some target \/ uri = None /\ nonnull (default_sso_url (cfg_state c)) = true) /\ ours w target /\ w' = w end).
  { intros e desc rc Hin. destruct (refuse_run e desc rc w) as (w' & Er & Hp). by exists (inr rc), w'. }
  unfold oidc_discovery_response_target_link_uri_validate, get_req. unfold bind at 1.
  assert (Ht : exists o, (match uri with Some u => ret (Some u) | None =>
      lift (oidc_util_url_abs (w_req w) (oidc_cfg_x_forwarded_headers_get c) (default_sso_url (cfg_state c))) end) w = Some (o, w) /\
      (forall t, o = Some t -> uri = Some t \/ uri = None /\ nonnull (default_sso_url (cfg_state c)) = true)).
  { destruct uri as [u|]; [exists (Some u); split; [done|]; intros t [= ->]; by left|].
    destruct (redirect_uri_total (w_req w) (oidc_cfg_x_forwarded_headers_get c) (default_sso_url (cfg_state c))) as [o Eo].
    unfold oidc_util_url_redirect_uri in Eo. rewrite Eo. exists o. split; [done|]. intros t ->. right. split; [done|].
    by destruct (default_sso_url (cfg_state c)). }
  destruct Ht as (o & Eo & Ho). unfold bind at 1. rewrite Eo. destruct o as [target|]; [|apply Hpage; cbn; auto].
  destruct (redirect_uri_total (w_req w) (oidc_cfg_x_forwarded_headers_get c) (pc_redirect_uri (cfg_proto c))) as [ru Eru].
  unfold bind at 1, lift at 1. unfold redirect_uri_of at 1. rewrite Eru.
  destruct (oidc_discovery_target_link_uri_match c d ru target) eqn:Em; cbn [negb]; [|apply Hpage; cbn; auto].
  destruct (redirect_url_spec unparse (oidc_cfg_x_forwarded_headers_get c) (oidc_cfg_redirect_urls_allowed_get c) (w_req w)
    OIDC_REDIRECT_URL_SAME_HOST target) as (v & Ev & Hv).
  unfold bind, lift. rewrite Ev. destruct v as [|e ed]; [|apply Hpage; cbn; auto].
  exists (inl target), w. split; [done|]. split; [by apply Ho|]. split; [|done]. exists ru. split; [exact Eru|]. split; [by apply target_match_ok|by apply Hv].
Qed.

(** The answer in [w] was checked up to [w0]: whether the browser asked for a provider, and that [target] is ours. *)
Record answer_checked (w : world St) (valid : bool) (w0 : world St) (target : string) : Prop := {
  ac_run : oidc_discovery_response_csrf_check c w = Some (valid, w0);
  ac_csrf : valid = true -> csrf_held w;
  ac_target : oidc_util_url_parameter_get (w_req w) OIDC_DISC_RT_PARAM = Some target \/
    oidc_util_url_parameter_get (w_req w) OIDC_DISC_RT_PARAM = None /\ nonnull (default_sso_url (cfg_state c)) = true;
  ac_ours : ours w0 target
}.

(** An issuer was resolved up to [w2] without touching the request, the cache or the files, and it is allowed. *)
Definition issuer_resolved (w0 : world St) (issuer : string) (w2 : world St) : Prop :=
  oidc_cfg_metadata_dir_get c <> None /\ oidc_discovery_issuer_allowed c issuer = true /\ w_req w2 = w_req w0 /\ w_cache w2 = w_cache w0.

Definition answer_issuer (w : world St) : option string := oidc_discovery_response_input_trim (oidc_util_url_parameter_get (w_req w) OIDC_DISC_OP_PARAM).

(** The provider with which the user logs in, and the world in which this starts; an issuer that is not known is registered with
    only when [valid]. *)
Inductive provider_found (w : world St) (valid : bool) (w0 : world St) : option oidc_provider_t -> world St -> Prop :=
  | found_configured p w1 : oidc_cfg_metadata_dir_get c = None -> oidc_provider_static_config ext net c w0 = Some (p, w1) ->
      (forall p' iss, p = Some p' -> answer_issuer w = Some iss -> oidc_cfg_provider_issuer_get p' = Some iss) -> provider_found w valid w0 None w1
  | found_metadata issuer w2 p w1 : issuer_resolved w0 issuer w2 -> oidc_metadata_get ext net rnd c issuer valid w2 = Some (Some p, w1) ->
      provider_found w valid w0 (Some p) w1.

(** What a parameter of the answer is used for: nothing, when the browser did not ask. *)
Definition asked_param (w : world St) (valid : bool) (name : string) : option string :=
  if valid then oidc_util_url_parameter_get (w_req w) name else None.

Inductive discovery_end (w : world St) : Z -> world St -> Prop :=
  (* refused before anything was looked up *)
  | end_refused valid w0 w1 rc w' : oidc_discovery_response_csrf_check c w = Some (valid, w0) ->
      w_req w1 = w_req w0 -> w_cache w1 = w_cache w0 -> In rc [HTTP_UNAUTHORIZED; 404; HTTP_INTERNAL_SERVER_ERROR] -> page w1 rc w' -> discovery_end w rc w'
  (* another issuer than that of the configured provider *)
  | end_mismatch valid w0 target p iss w1 w' : answer_checked w valid w0 target -> oidc_cfg_metadata_dir_get c = None ->
      oidc_provider_static_config ext net c w0 = Some (Some p, w1) -> answer_issuer w = Some iss -> oidc_cfg_provider_issuer_get p <> Some iss ->
      page w1 HTTP_INTERNAL_SERVER_ERROR w' -> discovery_end w HTTP_INTERNAL_SERVER_ERROR w'
  (* no metadata for the issuer *)
  | end_unknown valid w0 target issuer w2 w1 w' : answer_checked w valid w0 target -> issuer_resolved w0 issuer w2 ->
      oidc_metadata_get ext net rnd c issuer valid w2 = Some (None, w1) -> page w1 404 w' -> discovery_end w 404 w'
  (* tests of the metadata *)
  | end_test_config valid w0 target issuer w2 x w' : answer_checked w valid w0 target -> issuer_resolved w0 issuer w2 ->
      oidc_util_url_has_parameter (w_req w2) "test-config" = true -> oidc_metadata_provider_get ext net rnd c issuer valid w2 = Some (x, w') ->
      discovery_end w OK w'
  | end_test_jwks valid w0 target p w1 x w' : answer_checked w valid w0 target -> provider_found w valid w0 (Some p) w1 ->
      oidc_util_url_has_parameter (w_req w0) "test-jwks-uri" = true ->
      oidc_metadata_jwks_get ext net (cfg_proto c) (oidc_cfg_provider_jwks_uri_get p) (negb (oidc_cfg_provider_ssl_validate_server_get p =? 0)) true w1
        = Some (x, w') -> discovery_end w OK w'
  (* the user is sent to log in *)
  | end_login valid w0 target p w1 login_hint rc w' : answer_checked w valid w0 target -> provider_found w valid w0 p w1 ->
      oidc_request_authenticate_user ext net rnd c d post template p target login_hint None None (asked_param w valid OIDC_DISC_AR_PARAM)
        (asked_param w valid OIDC_DISC_SC_PARAM) w1 = Some (rc, w') -> discovery_end w rc w'.

Hypothesis configured : nonnull (pc_redirect_uri (cfg_proto c)) = true.

Section started.
Variables (w w0 : world St) (valid : bool) (target : string) (lh : option string).
Hypothesis (Hc : answer_checked w valid w0 target).

Lemma start_outcome p w1 : provider_found w valid w0 p w1 ->
  outcome False (oidc_request_authenticate_user ext net rnd c d post template p target lh None None (asked_param w valid OIDC_DISC_AR_PARAM)
    (asked_param w valid OIDC_DISC_SC_PARAM)) (discovery_end w) w1.
Proof. intros Hp. apply outcome_total; [by apply total_authenticate_user|]. intros rc w2 E2. by eapply end_login. Qed.

Lemma static_outcome : oidc_cfg_metadata_dir_get c = None ->
  outcome False (oidc_discovery_response_static ext net rnd c d post template (answer_issuer w) target lh (asked_param w valid OIDC_DISC_AR_PARAM)
    (asked_param w valid OIDC_DISC_SC_PARAM)) (discovery_end w) w0.
Proof.
  intros Hd. unfold oidc_discovery_response_static. apply outcome_step; [auto using total_static_config|]. intros p w1 E1.
  assert (Hl : (forall p' iss, p = Some p' -> answer_issuer w = Some iss -> oidc_cfg_provider_issuer_get p' = Some iss) ->
    outcome False (oidc_request_authenticate_user ext net rnd c d post template None target lh None None (asked_param w valid OIDC_DISC_AR_PARAM)
      (asked_param w valid OIDC_DISC_SC_PARAM)) (discovery_end w) w1).
  { intros Hi. by eapply start_outcome, found_configured. }
  destruct p as [p|]; cbn [mbind option_bind]; [|by apply Hl].
  destruct (answer_issuer w) as [iss|] eqn:Ei; cbn [mbind option_bind]; [|by apply Hl].
  destruct (Z.eqb_spec (_oidc_strcmp (oidc_cfg_provider_issuer_get p) (Some iss)) 0) as [Es|Es]; cbn [negb].
  - apply Hl. intros p' iss' [= <-] [= <-]. by apply oidc_strcmp_eq in Es as (s & Hs & [= ->]).
  - apply page_outcome. intros w' Hp. eapply end_mismatch; [exact Hc|exact Hd|exact E1|exact Ei| |exact Hp].
    intros Hs. apply Es. apply oidc_strcmp_eq. by exists iss.
Qed.

Lemma authenticate_outcome issuer w2 : oidc_cfg_metadata_dir_get c <> None -> w_req w2 = w_req w0 -> w_cache w2 = w_cache w0 ->
  outcome False (oidc_discovery_response_authenticate ext net rnd c d post template issuer target lh (asked_param w valid OIDC_DISC_AR_PARAM)
    (asked_param w valid OIDC_DISC_SC_PARAM) valid) (discovery_end w) w2.
Proof.
  intros Hd Hr Hs. unfold oidc_discovery_response_authenticate. set (iss := if bool_decide _ then _ else issuer). cbv zeta.
  destruct (oidc_discovery_issuer_allowed c iss) eqn:Ei; cbn [negb].
  2:{ apply page_outcome. intros w' Hp. eapply end_refused; [apply Hc|exact Hr|exact Hs|cbn; auto|exact Hp]. }
  assert (Hres : issuer_resolved w0 iss w2) by done.
  step r w1 E1. injection E1 as <- <-. destruct (oidc_util_url_has_parameter _ "test-config") eqn:Etc.
  { apply outcome_step; [apply total_provider_get|]. intros x w3 E3. apply outcome_ret. by eapply end_test_config. }
  apply outcome_step; [apply total_metadata_get|]. intros p w3 E3. destruct p as [p|].
  2:{ apply page_outcome. intros w' Hp. by eapply end_unknown. }
  assert (Hf : provider_found w valid w0 (Some p) w3) by by eapply found_metadata.
  destruct (oidc_util_url_has_parameter _ "test-jwks-uri") eqn:Etj; [|by apply start_outcome].
  apply outcome_step; [apply total_jwks_get|]. intros x w4 E4. apply outcome_ret. rewrite Hr in Etj. by eapply end_test_jwks.
Qed.
End started.

(** Asking for the issuer touches neither the request nor the cache. *)
Lemma webfinger_keeps res dom (w : world St) i w' : oidc_proto_webfinger_discovery net c res dom w = Some (i, w') ->
  w_req w' = w_req w /\ w_cache w' = w_cache w.
Proof.
  unfold oidc_proto_webfinger_discovery. intros (x & w1 & E1 & E2)%bind_inv. unfold ret in E2. injection E2 as _ <-.
  unfold http_get in E1. by simplify_eq.
Qed.

Lemma resolve_outcome user issuer lh (w0 : world St) :
  outcome False (oidc_discovery_response_resolve_issuer net c user issuer lh) (fun res w1 => match res with
    | inl _ => w_req w1 = w_req w0 /\ w_cache w1 = w_cache w0
    | inr rc => In rc [HTTP_UNAUTHORIZED; 404; HTTP_INTERNAL_SERVER_ERROR] /\ exists w2, w_req w2 = w_req w0 /\ w_cache w2 = w_cache w0 /\ page w2 rc w1
    end) w0.
Proof.
  set (Q := fun _ _ => _).
  assert (Hf : forall desc st w1, In st [HTTP_UNAUTHORIZED; 404; HTTP_INTERNAL_SERVER_ERROR] -> w_req w1 = w_req w0 -> w_cache w1 = w_cache w0 ->
    outcome False (rv <- respond (fun r => oidc_util_html_send_error r (Some "Invalid Request") (Some desc) st) ;; ret (inr rv)) Q w1).
  { intros desc st w1 Hin Hr Hs. apply outcome_bind, page_outcome. intros w' Hp. apply outcome_ret. split; [done|]. by exists w1. }
  assert (Hw : forall res dom, total (St:=St) (oidc_proto_webfinger_discovery net c res dom)).
  { intros res dom. unfold oidc_proto_webfinger_discovery. apply total_bind; [apply total_http_get|intros ?; auto with total]. }
  unfold oidc_discovery_response_resolve_issuer. cbv zeta. destruct user as [user|].
  - destruct (oidc_discovery_issuer_allowed _ _); cbn [negb]; [|apply Hf; cbn; auto]. apply outcome_step; [apply Hw|].
    intros i w1 [Hr Hs]%webfinger_keeps. destruct i as [i|]; [by apply outcome_ret|apply Hf; cbn; auto].
  - destruct issuer as [a|]; [|by apply outcome_ret]. destruct (strrchr a "@") as [n|] eqn:En; [|by apply outcome_ret].
    destruct (oidc_discovery_issuer_allowed _ _); cbn [negb]; [|apply Hf; cbn; auto].
    unfold oidc_proto_discovery_account_based. rewrite En. apply outcome_step; [apply Hw|].
    intros i w1 [Hr Hs]%webfinger_keeps. destruct i as [i|]; [by apply outcome_ret|apply Hf; cbn; auto].
Qed.
End sound.

(** C10: an answer that names a provider is always handled, and it cannot take the user elsewhere.  Either it is refused with an error page, before
    the cache or a file is touched, or after the metadata of the provider was looked up; or metadata was tested, when a parameter asks for it; or the
    user is sent to log in.  Beyond the first case the URL to return to is on the host of the redirect URI or of the cookie domain, below the
    path of the cookies and without anything that a browser would read as another host; scopes and parameters from the answer
    are used, and unknown providers registered with, only when the browser itself asked for a provider, that is, holds the cookie with the value
    that comes with the answer; and the provider is the configured one, or that of the metadata directory for an allowed issuer. *)
Theorem discovery_response_sound {J : Jansson} {JS : JanssonSpec J} {O : Jose} {OS : JoseSpec O} {B64 : Base64} {C : Cjose J} {CE : CjoseExport C}
  {D : Digest} {Zl : Zlib} {H : Httpd} {HS : HttpdSpec H} {Ur : ApUri H} {E : CfgEnv C} {Mem : CryptoMemcmp} {MS : CryptoMemcmpSpec Mem} {X : ApExpr}
  {P : Pcre} {St : Type} {B : CacheBackend St} {Dk : Disk St} (ext : nat -> env) (net : nat -> network) (rnd : nat -> rng) (c : oidc_cfg_t C)
  (d : oidc_dir_cfg_t) (unparse : apr_uri_t -> string) (post : body) (template : option string) (w : world St) :
  nonnull (pc_redirect_uri (cfg_proto c)) = true ->
  exists rc w', oidc_discovery_response ext net rnd c d unparse post template w = Some (rc, w') /\
    discovery_end ext net rnd c d post template w rc w'.
Proof.
  intros Hconf.
  enough (Ho : outcome False (oidc_discovery_response ext net rnd c d unparse post template) (discovery_end ext net rnd c d post template w) w).
  { unfold outcome in Ho. destruct (oidc_discovery_response _ _ _ _ _ _ _ _ _) as [[rc w']|]; [|done]. by exists rc, w'. }
  unfold oidc_discovery_response. step r w1 E1. injection E1 as <- <-. apply outcome_bind. cbv zeta.
  destruct (csrf_check_run c w) as (valid & w1 & E1 & Hv). unfold outcome at 1. rewrite E1. apply outcome_bind.
  destruct (target_validate_run c d unparse (oidc_util_url_parameter_get (w_req w) OIDC_DISC_RT_PARAM) w1) as (res & w2 & E2 & Hres).
  unfold outcome at 1. rewrite E2. destruct res as [target|rc].
  2:{ destruct Hres as [Hin Hp]. apply outcome_ret. eapply end_refused; [exact E1|done|done| |exact Hp]. cbn in *. tauto. }
  destruct Hres as (Ht & Ho & ->). assert (Hac : answer_checked c d w valid w1 target) by (split; done).
  destruct (oidc_cfg_metadata_dir_get c) as [dir|] eqn:Ed; cbn [nonnull negb]; [|by apply static_outcome].
  apply outcome_bind. eapply outcome_mono; [apply resolve_outcome|]. intros [[i h]|rc] w3 _ Hr.
  - destruct Hr. apply (authenticate_outcome ext net rnd c d post template Hconf w w1 valid target h Hac); [by rewrite Ed|done|done].
  - destruct Hr as (Hin & w4 & Hr & Hs & Hp). apply outcome_ret. by eapply end_refused.
Qed.

(** ** Witness *)

Section demo.
#[local] Existing Instances Model.jansson Model.jansson_spec JoseModel.jose JoseModel.jose_spec Base64Model.base64 Base64Model.base64_spec CjoseModel.cjose
  CjoseModel.digest CjoseModel.zlib ExportModel.export HttpdModel.httpd HttpdModel.httpd_spec CfgModel.cfg_env FilesModel.disk AuthzModel.pcre_model demo_memcmp
  demo_memcmp_spec ApExprModel.ap_expr.
#[local] Instance demo_disc_backend : CacheBackend (ShmCache.header * fs) := demo_login_backend.
#[local] Instance demo_disc_uri : ApUri HttpdModel.httpd := demo_apr_uri.

Definition demo_disc_cfg : oidc_cfg_t CjoseModel.cjose :=
  let cfg := demo_cfg None in
  mk_cfg (mk_proto_cfg _ CjoseModel.cjose (pc_cache demo_rp_cfg) demo_client_cfg (http_timeout demo_args) (http_timeout demo_args)
      (outgoing_proxy demo_args) None None None 0 (Some "https://www.example.com/redirect_uri") None demo_auth_op)
    (cfg_session cfg) (cfg_state cfg) 0 None 0 0 (cfg_remote_user_claim cfg) None (cfg_scrub cfg) None 0 None None OIDC_SAMESITE_COOKIE_LAX None None None 0 None.
(** Someone sends the user to log in and to return to [target]. *)
Definition demo_disc_args (target : string) : string :=
  "iss=" ^^ oidc_http_url_encode (oidc_cfg_provider_issuer_get demo_auth_op) ^^ "&scopes=all&target_link_uri=" ^^ oidc_http_url_encode (Some target).
Definition demo_disc_world (target : string) : world (ShmCache.header * fs) :=
  mk_world (mk_request M_GET (Some "/redirect_uri") "/redirect_uri" (Some "/redirect_uri") (Some (demo_disc_args target)) None [("User-Agent", "UA")]
    [] [] [] (Some "https") "www.example.com" 443 ∅ None) (w_cache demo_jwks_world, ∅) 0.
Definition demo_disc (target : string) : option (Z * world (ShmCache.header * fs)) :=
  oidc_discovery_response (demo_id_clock 1010) (fun _ => demo_network "") demo_rnd demo_disc_cfg oidc_cfg_dir_config_create (fun _ => "") demo_form None
    (demo_disc_world target).

Lemma demo_not_page : ~ In 302 [HTTP_UNAUTHORIZED; 404; HTTP_INTERNAL_SERVER_ERROR].
Proof. intros [Hin|[Hin|[Hin|[]]]]; discriminate Hin. Qed.

Lemma discovery_response_sound_witness :
  (exists w' valid w0, demo_disc "https://www.example.com/p" = Some (302, w') /\
     answer_checked demo_disc_cfg oidc_cfg_dir_config_create (demo_disc_world "https://www.example.com/p") valid w0 "https://www.example.com/p") /\
  fst <$> demo_disc "https://evil.example.org/p" = Some 401.
Proof.
  split; [|vm_compute; reflexivity].
  destruct (discovery_response_sound (demo_id_clock 1010) (fun _ => demo_network "") demo_rnd demo_disc_cfg oidc_cfg_dir_config_create (fun _ => "")
    demo_form None (demo_disc_world "https://www.example.com/p") eq_refl) as (rc & w' & Er & He).
  assert (E : fst <$> demo_disc "https://www.example.com/p" = Some 302) by (vm_compute; reflexivity).
  unfold demo_disc in E. rewrite Er in E. injection E as E. exists w'. subst rc.
  assert (Hac : exists valid w0 target, answer_checked demo_disc_cfg oidc_cfg_dir_config_create (demo_disc_world "https://www.example.com/p") valid w0 target).
  { inversion He; try (match goal with X : answer_checked _ _ _ _ _ _ |- _ => eexists _, _, _; exact X end).
    match goal with X : In _ _ |- _ => destruct (demo_not_page X) end. }
  destruct Hac as (valid & w0 & target & Hac). assert (target = "https://www.example.com/p") as ->.
  { destruct (ac_target _ _ _ _ _ _ Hac) as [Ht|[Ht _]]; vm_compute in Ht; congruence. }
  exists valid, w0. split; [exact Er|exact Hac].
Defined.
End demo.
